(* ===== verification/_CoqProject ===== *)
-Q . S2P
Prelude.v
GoStd.v
GoText.v
FloatOrder.v
Errors.v
TaskSpec.v
Domain.v
RuntimeTypes.v
AgentTypes.v
EvidenceTypes.v
PlanTypes.v
ContextModel.v
ContextThm.v
Memory.v
MemoryThm.v
Governance.v
GovernanceThm.v
Skills.v
TimeText.v
GoNum.v
GoJson.v
JsonCodec.v
Observation.v
Reducers.v
ReducersThm.v
ObservationThm.v
Finance.v
FinanceThm.v
Structured.v
Prompt.v
Planning.v
PlanningThm.v
Intake.v
IntakeThm.v
Verification.v
ReportChecks.v
NumericClaims.v
CashflowGrounding.v
VerifyPipeline.v
VerificationThm.v
Reporting.v
CashflowReasoner.v
CashflowThm.v
Protocol.v
MemorySync.v
Agents.v
DomainAgents.v
SystemAgents.v
GenerationThm.v
AgentsThm.v
WorkQueue.v
WorkQueueThm.v
SqlQueue.v
SqlQueueThm.v
Stores.v
SqlTables.v
World.v
TaskGraph.v
SqlStores.v
SqlStoresPg.v
TaskGraphThm.v
SqlStoresThm.v
LocalRuntime.v
Activation.v
WorkflowSupport.v
Workflows.v
EventWorkflows.v
WorkflowThm.v
TrustThm.v
Service.v
Operator.v
AsyncService.v
Worker.v
WorkerThm.v
Frames.v
OutcomeThm.v
ActivationThm.v
