(* ===== verification/Prelude.v ===== *)
(** * Verification of the personal-cfo-os runtime (root file)

    personal-cfo-os runs personal-finance workflows as durable, resumable
    tasks.  A workflow produces a graph of follow-up tasks; the graph, the
    executions, the approvals a human must give, checkpoints and an audit
    trail live in stores; workers claim work items from a queue under a lease
    and a fencing token; operators approve, deny, resume and retry.  Around
    the runtime are deterministic packages: observation and reducers (what the
    state is), finance (what it means), intake and planning (what to do),
    governance (what may be done without asking), memory (what is remembered
    and retrieved), context (what a model is shown), skills (how behaviour is
    nudged), verification (what may be said) and reporting (how it is said).
    Agents wrap these packages; workflows talk to agents through a bus of
    typed envelopes and to the runtime through its interface.  This library
    models that code and proves what it relies on.  Paths below are under
    [src/internal/].

    ** Files

    Foundations.
    - [Prelude]: record update ([r <| f := v |>] is a field assignment), the
      monad [ST E S] of state with an [outcome] (value, error, panic, or a
      loop out of fuel), loops over lists, map iteration ([MapOrder]), sorting
      ([slices_SortFunc]), the tactics [run_simpl] and [rsimpl]; what a run
      keeps of the state ([respects]) and what holds of the value it returns
      ([returns], [returns_walk]), with their hint databases.
    - [GoStd], [GoText], [TimeText]: the parts of Go's standard library the
      code uses, executable: machine integers, times, [strings], [fmt],
      quoting, JSON of flat structs, SHA-1, float64 (binary64 of [SpecFloat]),
      runes, RFC 3339 text and its order.
    - [Errors]: the error values, [%w] wrapping, [errors.Is]/[As]/[Join].

    Data.
    - [TaskSpec] (taskspec/), [Domain] (state/, reporting/, finance/,
      analysis/), [RuntimeTypes] (runtime/*types*.go, store.go, commands.go),
      [AgentTypes] (memory/, governance/, context/, skills/ types).  Structs
      are records with the source's fields; a string enumeration is an
      inductive type with a constructor for every other text.

    The runtime (runtime/).
    - [WorkQueue] (work_queue_store.go), [Stores] (the other in-memory
      stores): one atomic operation per method on a [gmap].
    - [World]: all of the process's state (stores, heap of task arrays, logs,
      clock) and the Go interfaces as records of operations over it, so
      handlers run with any implementation of a store.
    - [TaskGraph] (task_graph.go), [LocalRuntime] (controller.go, recovery.go,
      local_runtime.go, service_helpers.go, async_commit_guard.go,
      timeline.go), [Activation] (task_activation.go, task_dispatch.go),
      [Service] (scheduler.go, service.go), [Operator] (operator_service.go,
      query_service.go), [AsyncService] (async_service.go), [Worker]
      (worker.go, worker_service.go).  Each file's functions are the source's, composed
      the same way.
    - [SqlQueue] (sqlite_async_stores.go, postgres_runtime_stores.go): the
      two SQL work queues, statement by statement.
    - [SqlTables] (sqlite_runtime_db.go, postgres_runtime_db.go,
      replay_projection_types.go): the rows of the two schemas and the records
      only the databases keep.  [SqlStores] (sqlite_runtime_stores.go,
      sqlite_async_stores.go, skill_execution_store.go) and [SqlStoresPg]
      (postgres_runtime_stores.go): every method of the other stores.

    The packages around it.
    - [Memory] (memory/); [Governance] (governance/); [ContextModel]
      (context/); [Skills] (skills/).
    - From evidence to a plan.  [Observation] (observation/): adapters,
      extractors and normalisation of evidence.  [Reducers] (reducers/,
      state/reducer.go): evidence into state patches and state.  [Finance]
      (finance/, behavior/): metrics and behaviour analysis.  [Intake]
      (taskspec/intake.go, life_event_intake.go): texts and life events into
      tasks.  [Planning] (planning/): tasks into plans, with a model's help
      through [Structured] (structured/) and [Prompt] (prompt/).
    - Their data is in [EvidenceTypes] and [PlanTypes]; [FloatOrder],
      [GoNum], [GoText], [GoJson] and [JsonCodec] hold the order of
      float64, number texts, CSV, and JSON as text, as value and as a codec per
      Go type ([json_struct] and friends; [Lawful] is its round trip).
    - From results to a report (verification/, reporting/).  [Verification]:
      coverage, the validators of blocks, the oracle.  [ReportChecks]: the
      validators of whole reports, through their JSON.  [NumericClaims]: the
      numbers in texts.  [CashflowGrounding]: what the cashflow agent may
      write.  [VerifyPipeline]: the pipeline.  [Reporting]: aggregation of
      block results, artifacts, drafting and finalising.

    Agents and workflows.
    - [Protocol] (protocol/): kinds of messages, envelopes, responses and
      their validation.  A payload with one field is identified with it; the
      five analysis requests share a record.
    - [Agents] (agents/registry.go, executor.go, errors.go, bus.go): registry,
      dispatcher and bus.  An [AgentWorld V] is the two logs and the world [V]
      the agents run on; a handler is a computation on [V].
    - [CashflowReasoner], [DomainAgents], [SystemAgents] (agents/*.go): what
      each agent makes of its request; [MemorySync] (memory/derived_writer.go,
      behavior_skill_memory.go): what the memory steward derives, writes and
      retrieves.
    - [WorkflowSupport], [Workflows], [EventWorkflows] (tools/phase2.go,
      workflows/): the tools, the observation services, the interfaces
      [WorkflowRuntime] and [SystemStepBus] with the local runtime and the
      local bus as their implementations, and every workflow.  A workflow runs
      on a world [W]; [view] and [upd] reach the runtime's [World] and the
      agents' world in it.  What the run does to the caller's state is not
      returned.

    ** What is proved

    - Fencing ([WorkQueueThm], [WorkerThm]).  Every queue
      reachable by the methods is well formed; at most one fence of an item is
      accepted; a fence that was given up or superseded is refused for ever;
      [ClaimReady], [ReclaimExpired] and [Enqueue] do what they promise; work
      abandoned by a dead worker is claimed again when the workers pass often
      enough within one lease time, and [short_leases_starve] shows why that
      bound is needed; how a claim ends for every way its handler and its lease can end.
    - Refinement ([SqlQueueThm]).  The SQLite and Postgres queues answer every
      sequence of calls as the in-memory queue does, when clock times compare
      as text; [TimeText] proves when they do, and the round trip of times.
      Postgres checks the fence and writes in one statement; in SQLite they
      are two, and what other statements do in between is overwritten.
    - Optimistic concurrency ([Stores]), once for the interface [CasStore]:
      of two writers that read one version at most one succeeds.
      Instances in memory and in both databases ([SqlStoresThm]); Postgres'
      approval store is shown not to be one.
    - Databases ([SqlStoresThm]).  The execution stores of the
      databases refine the one in memory, when updates name a version and, for
      Postgres, records have an id and a version.  A task graph comes back
      from SQLite without what has no column, and is reevaluated as if no task
      waited for another; from Postgres as encoding/json reads its own text.
    - Evidence and state ([ObservationThm], [ReducersThm]).  A patch installs
      exactly the reduced blocks; the ledger's sums reach the cashflow state;
      normalisation is idempotent; risk levels are the worst of their parts.
    - Metrics ([FinanceThm]): ranges, provenance, when an approval is asked.
    - Plans ([IntakeThm], [PlanningThm], [Structured]).  What intake accepts
      can be planned; plan validation is exact and ends; a language model can
      reorder a plan and no more, whatever it answers; a structured pipeline
      returns an accepted value or the fallback within its calls.
    - Outcomes ([Frames], [OutcomeThm]).  A returned
      [persistExecutionOutcome] is durable field by field; guarded by a fence
      it does the same or nothing; checkpoints resume to what they saved.
      [runs R m] ("every run of [m] ends and relates its worlds by [R]")
      composes over the handlers.
    - Batches ([ActivationThm], [TaskGraphThm]).  Executing ready tasks ends,
      runs no task twice and only allowed ones; the topological sort is sound,
      complete and terminates; registration and reevaluation are specified.
    - Reports ([VerificationThm], [NumericClaims], [ReportChecks]).
      Verification ends and passes exactly the trustworthy reports; no digit
      of a text escapes the scanners; which checks can not fail.
    - Words and numbers ([CashflowThm]).  A model may word the cashflow
      analysis with grounded text; its numbers stay the engine's.
    - Dispatch ([AgentsThm]).  A result answers a valid request, from an agent
      registered for it, and is valid; the trace tells how the dispatch ended.
    - Follow-up tasks ([GenerationThm]).  A life event generates exactly the
      tasks a table of events asks for and no memory suppresses, due by the
      earliest deadline; when their graph is valid.
    - Workflows ([WorkflowThm], against the class [FollowsController] and the
      bus).  A report is published only when one draft went through drafting,
      verification, approval and disclosure, and the final state is a function
      of what they decided.  A life event's run is one of six sequences of
      steps ([life_event_run]): its follow-up tasks are registered only after
      both verifications and governance about the very graph.  The relations
      [R] and [K] of that theorem stand for "no follow-up task was touched"
      and "none was executed or published"; [SparesFollowUps] lists the
      operations that must respect them.
    - From end to end ([TrustThm]).  With the package's agents behind the bus
      a completed run published exactly the report that verification found
      trustworthy.  [household_run] is such a run, evaluated.
    - Validation ([TaskSpec]): exactly the well-formed values are accepted.
    - Memory ([MemoryThm]): rank fusion against its definition, the gates of
      rejection, what hybrid retrieval selects, the write gate.
    - Governance ([GovernanceThm]): the decision table of the policy engine,
      monotone in the risk; the approval service lets only low risk through.
    - Context ([ContextThm]): compaction terminates, accounts for what it drops
      after the strategies' first cut, and respects the budget; assembling
      panics on a negative maximum.
    - Skills ([Skills]): the catalog, and when the hard cap is selected.

    ** How the code is read

    A [time.Time] is nanoseconds since Go's zero time, in UTC (the code calls
    [.UTC()] on its readings).  The clock is a function from the number of
    readings so far to times, consumed by [now]; nothing is assumed of it
    except where a theorem says so.  Integers that the code increments wrap at
    64 bits ([wrap64]); sums of token counts are exact.  A nil slice and an
    empty one are identified; a pointer or interface that may be nil is an
    [option], and using it without a check is [Panic].  The iteration order of
    a map is the parameter [MapOrder], and theorems hold for every order.
    Sorting is by stable insertion, which gives a run of the unstable sort.
    The one slice whose sharing between copies of a struct the code depends
    on, [TaskGraphSnapshot.RegisteredTasks], is an address into a heap of
    arrays; other slices are copies.  A store method is atomic (each holds its
    mutex throughout); handlers interleave only between calls.  The value a
    function returns beside an error is dropped.  The goroutine that renews a
    lease is a number of heartbeats ([aw_Ticks]) run after the handler.  A
    cancelled context is something only a capability can observe.  ASCII is
    assumed where the code changes case.  A float64 is a [spec_float] with
    rounding to nearest even after every operation (no fused multiply-add).
    JSON is read and written by the codecs of [JsonCodec] (members by exact,
    then case-insensitive name; unknown ones skipped); the data of a prompt is
    a map of valid UTF-8 texts.

    SQL: a table is a [gmap] from the primary key to the row, a statement is
    atomic, a transaction restores the table when it fails, text compares by
    bytes, a TEXT column of an enumeration holds the enumeration's value, a
    JSON column holds the value its text encodes, so that theorems about such
    columns are about what the statements do with the value; the snapshot of a
    task graph in Postgres is text, which [json.Marshal] and [json.Unmarshal]
    make and read ([GraphJson]).  What a driver says about a violated key
    ([SqlDriver]) and where artifact files are kept are
    parameters; writing a file succeeds.

    Parameters, because their code is not in the repository or does I/O:
    the workflow a follow-up task runs ([FollowUpWorkflowCapability]; the
    capabilities of [Workflows] are two of them), embedding providers and
    semantic databases, language models ([StructuredGenerator]),
    [json.Marshal] of state parts ([StateEncoder]) and both directions for
    Postgres' task graphs ([GraphJson]), the texts of library errors
    ([TextErrors]), the order of maps.

    Fuel.  [batch_loop] has one turn per registered task and one more,
    [topological_sort] the number of tasks, compaction one step per block and
    one more, the visit of a plan's blocks one level per block and one more,
    the repair loop of a pipeline its allowed attempts; each is proved to be
    enough ([executeReadyFollowUps_total], [topological_order_sound],
    [compaction_spec], [plan_validation_is_exact],
    [structured_output_accepted_or_fallback]).

    ** Not modelled

    - The HTTP server, configuration and start-up wiring, commands, files and
      object stores, timers and goroutines ([clock.go], [lease_ticker.go]),
      schema creation and connections of the databases: I/O and glue.
    - Language models and embedding services behind HTTP, and the queries of
      memory/sqlite_store.go, which SQLite's full-text search evaluates:
      third-party behaviour.
    - Evaluation corpora, benchmarks and presentation texts: data.  The
      rebuilding of replay projections, the queries that explain and compare
      runs, debug summaries and the texts of skills/phase2.go: views for
      people, which the runtime does not read back. *)
From stdpp Require Export base tactics option list gmap fin_maps strings sorting.
From Stdlib Require Export ZArith Lia.

#[export] Set Warnings "-clear-no-such-hyp".

(** ** Record update

    Go code assigns one field of a struct at a time; [r <| f := v |>] is that
    assignment.  A record type lists its constructor and projections once
    ([Eta]); the setter of a projection is computed from that. *)

Class Eta (R : Type) := { eta_expand : R -> R }.

Definition eta_start {R A : Type} (mk : A) : R -> A := fun _ => mk.
Definition eta_next {R A B : Type} (g : R -> A -> B) (p : R -> A) : R -> B :=
  fun r => g r (p r).

Notation "'eta!' mk < f ; .. ; g >" :=
  {| eta_expand := eta_next .. (eta_next (eta_start mk) f) .. g |}
  (at level 0, mk at level 10, f at level 9, g at level 9, only parsing).

Class Setter {R T : Type} (proj : R -> T) := set_field : T -> R -> R.

Ltac build_setter proj :=
  lazymatch type of proj with
  | ?R -> ?T =>
      exact (fun (new_value : T) (old_record : R) =>
        ltac:(let e := constr:(@eta_expand R _ old_record) in
              let e := eval hnf in e in
              let e := eval pattern (proj old_record) in e in
              lazymatch e with
              | ?g (proj old_record) => let b := eval cbv beta in (g new_value) in exact b
              end))
  end.

#[export] Hint Extern 1 (@Setter _ _ ?proj) => build_setter proj : typeclass_instances.

Declare Scope record_scope.
Delimit Scope record_scope with record.
#[warnings="-postfix-notation-not-level-1"]
Notation "r <| f := v |>" := (@set_field _ _ f _ v r)
  (at level 12, left associativity, v at level 99) : record_scope.
Global Open Scope record_scope.

(** Reading back a field of an updated record, without unfolding the record. *)
Ltac rsimpl_term t := lazymatch t with
  | ?p (@set_field _ _ ?q _ ?v ?r) =>
      first [ constr_eq p q; change t with v | change t with (p r) ]
  end.
Ltac rsimpl_term_in t H := lazymatch t with
  | ?p (@set_field _ _ ?q _ ?v ?r) =>
      first [ constr_eq p q; change t with v in H | change t with (p r) in H ]
  end.
Ltac rsimpl := repeat match goal with
  | |- context [?p (@set_field ?R ?T ?q ?i ?v ?r)] => rsimpl_term (p (@set_field R T q i v r))
  end.
Tactic Notation "rsimpl" "in" hyp(H) := repeat match type of H with
  | context [?p (@set_field ?R ?T ?q ?i ?v ?r)] => rsimpl_term_in (p (@set_field R T q i v r)) H
  end.

(** ** Go's zero values and [==] *)

Class Zero (A : Type) := zero : A.
#[export] Instance zero_Z : Zero Z := 0%Z.
#[export] Instance zero_string : Zero string := EmptyString.
#[export] Instance zero_bool : Zero bool := false.
#[export] Instance zero_list {A} : Zero (list A) := [].
#[export] Instance zero_option {A} : Zero (option A) := None.
#[export] Instance zero_gmap `{Countable K} {A} : Zero (gmap K A) := (∅ : gmap K A).

(** [a == b] on comparable values, as a boolean. *)
Declare Scope go_scope.
Delimit Scope go_scope with go.
Notation "a == b" := (bool_decide (a = b)) (at level 70, no associativity) : go_scope.
Notation "a != b" := (negb (bool_decide (a = b))) (at level 70, no associativity) : go_scope.
Global Open Scope go_scope.

(** ** Outcomes and the state monad of the model

    A Go function that returns [(T, error)] has a value of [outcome E T]: a
    value, an error, a panic (nil dereference), or, for the one unbounded
    loop of the code, an exhausted fuel counter.  [ST E S T] threads the
    store [S] and keeps the writes made before an error, as the code does. *)

Inductive outcome (E A : Type) : Type :=
| Ok (a : A)
| Err (e : E)
| Panic (why : string)
| OutOfFuel.
Arguments Ok {E A} _.
Arguments Err {E A} _.
Arguments Panic {E A} _.
Arguments OutOfFuel {E A}.

Definition is_ok {E A} (o : outcome E A) : bool :=
  match o with Ok _ => true | _ => false end.

Definition ST (E S A : Type) : Type := S -> S * outcome E A.

Section monad.
Context {E S : Type}.

Global Instance ST_ret : MRet (ST E S) := fun A a s => (s, Ok a).

Global Instance ST_bind : MBind (ST E S) := fun A B k m s =>
  match m s with
  | (s', Ok a) => k a s'
  | (s', Err e) => (s', Err e)
  | (s', Panic w) => (s', Panic w)
  | (s', OutOfFuel) => (s', OutOfFuel)
  end.

Definition fail {A} (e : E) : ST E S A := fun s => (s, Err e).
Definition panic {A} (why : string) : ST E S A := fun s => (s, Panic why).
Definition out_of_fuel {A} : ST E S A := fun s => (s, OutOfFuel).
Definition get : ST E S S := fun s => (s, Ok s).
Definition put (s : S) : ST E S unit := fun _ => (s, Ok tt).
Definition gets {A} (f : S -> A) : ST E S A := fun s => (s, Ok (f s)).
Definition modify (f : S -> S) : ST E S unit := fun s => (f s, Ok tt).

(** [if err := m(); err != nil { ... }]: the error as a value. *)
Definition attempt {A} (m : ST E S A) : ST E S (E + A) := fun s =>
  match m s with
  | (s', Ok a) => (s', Ok (inr a))
  | (s', Err e) => (s', Ok (inl e))
  | (s', Panic w) => (s', Panic w)
  | (s', OutOfFuel) => (s', OutOfFuel)
  end.

Definition ensure (ok : bool) (e : E) : ST E S unit :=
  if ok then mret tt else fail e.

(** [for _, x := range l { acc, err = f(acc, x) }] *)
Fixpoint for_fold {A B} (f : B -> A -> ST E S B) (acc : B) (l : list A) : ST E S B :=
  match l with
  | [] => mret acc
  | x :: l' => acc' ← f acc x; for_fold f acc' l'
  end.

Definition for_each {A} (f : A -> ST E S unit) (l : list A) : ST E S unit :=
  for_fold (fun _ x => f x) tt l.
End monad.
Arguments ST_ret {E S} {A} _ _ /.
Arguments ST_bind {E S} {A B} _ _ _ /.

(** How a run unfolds; [run_simpl] rewrites with these. *)
Section run.
Context {E S : Type}.
Implicit Types (s : S).

Lemma run_ret {A} (a : A) s : (mret a : ST E S A) s = (s, Ok a).
Proof. reflexivity. Qed.
Lemma run_fail {A} (e : E) s : (fail e : ST E S A) s = (s, Err e).
Proof. reflexivity. Qed.
Lemma run_panic {A} w s : (panic w : ST E S A) s = (s, Panic w).
Proof. reflexivity. Qed.
Lemma run_get s : (get : ST E S S) s = (s, Ok s).
Proof. reflexivity. Qed.
Lemma run_gets {A} (f : S -> A) s : (gets f : ST E S A) s = (s, Ok (f s)).
Proof. reflexivity. Qed.
Lemma run_put s s' : (put s' : ST E S unit) s = (s', Ok tt).
Proof. reflexivity. Qed.
Lemma run_modify f s : (modify f : ST E S unit) s = (f s, Ok tt).
Proof. reflexivity. Qed.
Lemma run_bind_ret {A B} (a : A) (k : A -> ST E S B) s : (mret a ≫= k) s = k a s.
Proof. reflexivity. Qed.
Lemma run_bind_fail {A B} (e : E) (k : A -> ST E S B) s : (fail e ≫= k) s = (s, Err e).
Proof. reflexivity. Qed.
Lemma run_bind_panic {A B} w (k : A -> ST E S B) s : (panic w ≫= k) s = (s, Panic w).
Proof. reflexivity. Qed.
Lemma run_bind_get {B} (k : S -> ST E S B) s : (get ≫= k) s = k s s.
Proof. reflexivity. Qed.
Lemma run_bind_gets {A B} (f : S -> A) (k : A -> ST E S B) s : (gets f ≫= k) s = k (f s) s.
Proof. reflexivity. Qed.
Lemma run_bind_put {B} (k : unit -> ST E S B) s s' : (put s' ≫= k) s = k tt s'.
Proof. reflexivity. Qed.
Lemma run_bind_modify {B} f (k : unit -> ST E S B) s : (modify f ≫= k) s = k tt (f s).
Proof. reflexivity. Qed.
Lemma run_bind_assoc {A B C} (m : ST E S A) (k : A -> ST E S B) (k' : B -> ST E S C) s :
  ((m ≫= k) ≫= k') s = (m ≫= (fun a => k a ≫= k')) s.
Proof. unfold mbind, ST_bind. by destruct (m s) as [s' [a|e|w|]]. Qed.

Lemma run_bind_Ok {A B} (m : ST E S A) (k : A -> ST E S B) s s' a :
  m s = (s', Ok a) -> (m ≫= k) s = k a s'.
Proof. unfold mbind, ST_bind. by intros ->. Qed.
Lemma run_bind_Err {A B} (m : ST E S A) (k : A -> ST E S B) s s' e :
  m s = (s', Err e) -> (m ≫= k) s = (s', Err e).
Proof. unfold mbind, ST_bind. by intros ->. Qed.

(** The cases of [(m ≫= k) s] returning [Ok]. *)
Lemma run_bind_inv_Ok {A B} (m : ST E S A) (k : A -> ST E S B) s s' b :
  (m ≫= k) s = (s', Ok b) -> exists a s1, m s = (s1, Ok a) /\ k a s1 = (s', Ok b).
Proof. unfold mbind, ST_bind. destruct (m s) as [s1 [a|e|w|]]; naive_solver. Qed.

Lemma run_for_fold_cons {A B} (f : B -> A -> ST E S B) acc x l s :
  for_fold f acc (x :: l) s = (f acc x ≫= fun acc' => for_fold f acc' l) s.
Proof. reflexivity. Qed.
Lemma run_for_fold_nil {A B} (f : B -> A -> ST E S B) acc s :
  for_fold f acc [] s = (s, Ok acc).
Proof. reflexivity. Qed.
End run.

Create Rewrite HintDb run.
#[export] Hint Rewrite @run_ret @run_fail @run_panic @run_get @run_gets @run_put @run_modify
  @run_bind_ret @run_bind_fail @run_bind_panic @run_bind_get @run_bind_gets @run_bind_put
  @run_bind_modify @run_bind_assoc @run_for_fold_nil : run.
Ltac run_simpl := autorewrite with run; cbn beta iota.
Tactic Notation "run_simpl" "in" hyp(H) := autorewrite with run in H; cbn beta iota in H.

(** Run a store operation inside a bigger state that has that store. *)
Definition zoom {E S T A} (view : T -> S) (upd : S -> T -> T) (m : ST E S A) : ST E T A :=
  fun t => let '(s', o) := m (view t) in (upd s' t, o).

(** ** State relations that every run respects

    [respects R m]: whatever [m] returns, the state before and after are
    related by the preorder [R].  Frame and monotonicity facts about long
    handlers are proved by composing it over the binds. *)

Definition respects {E S A} (R : relation S) (m : ST E S A) : Prop :=
  forall s, R s (m s).1.

Create HintDb respects.

Section respects.
Context {E S : Type} (R : relation S) `{!PreOrder R}.

Lemma respects_ret {A} (a : A) : respects (E:=E) R (mret a).
Proof. intros s. simpl. reflexivity. Qed.

Lemma respects_fail {A} (e : E) : respects R (fail (A:=A) e).
Proof. intros s. simpl. reflexivity. Qed.

Lemma respects_panic {A} w : respects (E:=E) R (panic (A:=A) w).
Proof. intros s. simpl. reflexivity. Qed.

Lemma respects_gets {A} (f : S -> A) : respects (E:=E) R (gets f).
Proof. intros s. simpl. reflexivity. Qed.

Lemma respects_get : respects (E:=E) R get.
Proof. intros s. simpl. reflexivity. Qed.

Lemma respects_modify f : (forall s, R s (f s)) -> respects (E:=E) R (modify f).
Proof. intros H s. apply H. Qed.

Lemma respects_bind {A B} (m : ST E S A) (k : A -> ST E S B) :
  respects R m -> (forall a, respects R (k a)) -> respects R (m ≫= k).
Proof.
  intros Hm Hk s. unfold mbind, ST_bind.
  pose proof (Hm s) as H1. destruct (m s) as [s' [a|e|w|]]; simpl in *; auto.
  etrans; [exact H1 | apply Hk].
Qed.

Lemma respects_attempt {A} (m : ST E S A) : respects R m -> respects R (attempt m).
Proof.
  intros Hm s. unfold attempt. pose proof (Hm s) as H1.
  by destruct (m s) as [s' [a|e|w|]].
Qed.

Lemma respects_ensure (b : bool) (e : E) : respects R (ensure (S:=S) b e).
Proof. destruct b; [apply respects_ret | apply respects_fail]. Qed.

Lemma respects_for_fold {A B} (f : B -> A -> ST E S B) acc l :
  (forall b x, respects R (f b x)) -> respects R (for_fold f acc l).
Proof.
  intros Hf. revert acc. induction l as [|x l IH]; intros acc; simpl.
  - apply respects_ret.
  - apply respects_bind; auto.
Qed.

Lemma respects_for_each {A} (f : A -> ST E S unit) l :
  (forall x, respects R (f x)) -> respects R (for_each f l).
Proof. intros Hf. apply respects_for_fold. auto. Qed.

Lemma respects_zoom {S' A} (view : S -> S') upd (m : ST E S' A) (R' : relation S') :
  respects R' m -> (forall t s', R' (view t) s' -> R t (upd s' t)) ->
  respects R (zoom view upd m).
Proof.
  intros Hm Hu t. unfold zoom. pose proof (Hm (view t)) as H1.
  destruct (m (view t)) as [s' o]. simpl in *. auto.
Qed.
End respects.

#[export] Hint Resolve respects_ret respects_fail respects_panic respects_gets
  respects_get respects_attempt respects_ensure : respects.

(** [bind] and [for_fold] need their sub-goals' shape, so they are hints that
    introduce the intermediate value. *)
#[export] Hint Extern 2 (respects _ (mbind _ _)) =>
  (apply respects_bind; [|intros ?]) : respects.
#[export] Hint Extern 2 (respects _ (for_each _ _)) =>
  (apply respects_for_each; intros ?) : respects.
#[export] Hint Extern 2 (respects _ (for_fold _ _ _)) =>
  (apply respects_for_fold; intros ? ?) : respects.

(** ** Triples for handlers

    [{{ P }} m {{ Q }}] : from a state satisfying [P], whatever [m] returns,
    the final state and outcome satisfy [Q]. *)

Definition triple {E S A} (P : S -> Prop) (m : ST E S A) (Q : outcome E A -> S -> Prop) : Prop :=
  forall s, P s -> Q (m s).2 (m s).1.

Lemma triple_bind {E S A B} (P : S -> Prop) (m : ST E S A) (k : A -> ST E S B) R Q :
  triple P m R ->
  (forall a, triple (R (Ok a)) (k a) Q) ->
  (forall e s, R (Err e) s -> Q (Err e) s) ->
  (forall w s, R (Panic w) s -> Q (Panic w) s) ->
  (forall s, R OutOfFuel s -> Q OutOfFuel s) ->
  triple P (m ≫= k) Q.
Proof.
  intros Hm Hk He Hw Hf s HP. unfold mbind, ST_bind.
  pose proof (Hm s HP) as H1. destruct (m s) as [s' [a|e|w|]]; simpl in *; auto.
  apply Hk, H1.
Qed.

Lemma triple_consequence {E S A} (P P' : S -> Prop) (m : ST E S A) (Q Q' : outcome E A -> S -> Prop) :
  triple P' m Q' -> (forall s, P s -> P' s) -> (forall o s, Q' o s -> Q o s) -> triple P m Q.
Proof. intros H HP HQ s Hs. apply HQ, H, HP, Hs. Qed.

(** ** What a run returns

    [returns Q m]: a value that [m] returns satisfies [Q], whatever the state;
    [returns_walk] follows the binds and conditionals of a long handler and
    leaves the values it returns. *)

Definition returns {E S A} (Q : A -> Prop) (m : ST E S A) : Prop :=
  forall s s' a, m s = (s', Ok a) -> Q a.

Create HintDb returns.

Section returns.
Context {E S : Type}.

Lemma returns_ret {A} (Q : A -> Prop) (a : A) : Q a -> returns (E:=E) (S:=S) Q (mret a).
Proof. by intros H s s' b [= _ <-]. Qed.

Lemma returns_fail {A} (Q : A -> Prop) (e : E) : returns (S:=S) Q (fail e).
Proof. done. Qed.

Lemma returns_bind {A B} (P : A -> Prop) (Q : B -> Prop) (m : ST E S A) (k : A -> ST E S B) :
  returns P m -> (forall a, P a -> returns Q (k a)) -> returns Q (m ≫= k).
Proof.
  intros Hm Hk s s' b H. apply run_bind_inv_Ok in H as (a & s1 & Ha & Hb). exact (Hk a (Hm _ _ _ Ha) _ _ _ Hb).
Qed.

Lemma returns_after {A B} (Q : B -> Prop) (m : ST E S A) (k : A -> ST E S B) :
  (forall a, returns Q (k a)) -> returns Q (m ≫= k).
Proof. intros Hk. by apply (returns_bind (fun _ => True)). Qed.

Lemma returns_weaken {A} (P Q : A -> Prop) (m : ST E S A) : returns P m -> (forall a, P a -> Q a) -> returns Q m.
Proof. intros Hm HPQ s s' a H. exact (HPQ _ (Hm _ _ _ H)). Qed.

Lemma returns_zoom {S' A} (view : S' -> S) upd (Q : A -> Prop) (m : ST E S A) : returns Q m -> returns Q (zoom view upd m).
Proof. intros Hm s s' a. unfold zoom. destruct (m (view s)) as [t o] eqn:E'. intros [= _ ->]. exact (Hm _ _ _ E'). Qed.

Lemma returns_attempt {A} (Q : A -> Prop) (m : ST E S A) :
  returns Q m -> returns (fun r => match r with inr a => Q a | inl _ => True end) (attempt m).
Proof.
  intros Hm s s' r. unfold attempt. destruct (m s) as [t [a|e|w|]] eqn:E'; intros [= <- <-]; [exact (Hm _ _ _ E')|done].
Qed.

Lemma returns_if {A} (Q : A -> Prop) (b : bool) (m m' : ST E S A) :
  (b = true -> returns Q m) -> (b = false -> returns Q m') -> returns Q (if b then m else m').
Proof. destruct b; auto. Qed.
End returns.

#[export] Hint Resolve returns_fail : returns.
Ltac returns_walk := repeat first
  [ progress intros
  | solve [auto with returns]
  | match goal with
    | |- returns _ (mbind _ _) => apply returns_after
    | |- returns _ (if _ then _ else _) => apply returns_if
    | |- returns _ (match ?x with _ => _ end) => destruct x eqn:?
    end
  | apply returns_ret ].

(** An invariant is a [respects]-style preorder: if it held it still holds. *)
Definition preserves {S} (I : S -> Prop) : relation S := fun s s' => I s -> I s'.

Global Instance preserves_preorder {S} (I : S -> Prop) : PreOrder (preserves I).
Proof. split; unfold preserves; [intros s|intros s1 s2 s3]; auto. Qed.

Global Instance eq_view_preorder {S A} (f : S -> A) : PreOrder (fun s s' => f s = f s').
Proof. split; [intros s|intros s1 s2 s3]; congruence. Qed.

(** ** Iteration over a Go map

    [for k, v := range m] visits every entry once, in an order the language
    leaves open.  A [MapOrder] is a choice of that order; every theorem holds
    for every choice. *)

Class MapOrder := {
  map_range : forall {K : Type} `{Countable K} {A : Type}, gmap K A -> list (K * A);
  map_range_perm : forall {K : Type} `{Countable K} {A : Type} (m : gmap K A), map_range m ≡ₚ map_to_list m
}.

(** One concrete order, for evaluating the model. *)
Definition canonical_order : MapOrder :=
  {| map_range := fun K _ _ A m => map_to_list m; map_range_perm := fun K _ _ A m => reflexivity _ |}.

Section map_range.
Context `{MO : MapOrder} {K : Type} `{HK : Countable K} {A : Type}.
Implicit Types m : gmap K A.

Lemma elem_of_map_range m k v : (k, v) ∈ map_range m <-> m !! k = Some v.
Proof. rewrite map_range_perm. apply elem_of_map_to_list. Qed.

Definition map_values m : list A := (map_range m).*2.

Lemma elem_of_map_values m v : v ∈ map_values m <-> exists k, m !! k = Some v.
Proof.
  unfold map_values. rewrite list_elem_of_fmap. split.
  - intros ([k v'] & -> & H). exists k. by apply elem_of_map_range.
  - intros [k H]. exists (k, v). split; [done|]. by apply elem_of_map_range.
Qed.

Lemma NoDup_map_range_keys m : NoDup (map_range m).*1.
Proof. rewrite map_range_perm. apply NoDup_fst_map_to_list. Qed.

Lemma NoDup_map_range m : NoDup (map_range m).
Proof. eapply NoDup_fmap_1, NoDup_map_range_keys. Qed.
End map_range.

(** ** [slices.SortFunc]

    Insertion into a sorted prefix.  Go leaves the order of elements that
    compare equal open; [SortFunc_unique] shows that for a comparison that
    tells all elements of the list apart there is only one answer. *)

Section sort.
Context {A : Type} (cmp : A -> A -> Z).

Fixpoint sort_insert (x : A) (l : list A) : list A :=
  match l with
  | [] => [x]
  | y :: l' => if (cmp y x <=? 0)%Z then y :: sort_insert x l' else x :: l
  end.

Definition slices_SortFunc (l : list A) : list A := fold_left (fun acc x => sort_insert x acc) l [].

Definition cmp_le : relation A := fun x y => (cmp x y <= 0)%Z.

Class CmpOrder : Prop := {
  cmp_trans :: Transitive cmp_le;
  cmp_total x y : (cmp x y <= 0 \/ cmp y x <= 0)%Z
}.

Lemma sort_insert_perm x l : sort_insert x l ≡ₚ x :: l.
Proof.
  induction l as [|y l IH]; simpl; [done|].
  case_match; [|done]. rewrite IH. constructor.
Qed.

Lemma SortFunc_acc_perm l acc :
  fold_left (fun acc x => sort_insert x acc) l acc ≡ₚ l ++ acc.
Proof.
  revert acc. induction l as [|x l IH]; intros acc; simpl; [done|].
  rewrite IH, sort_insert_perm. symmetry. apply Permutation_middle.
Qed.

Lemma SortFunc_perm l : slices_SortFunc l ≡ₚ l.
Proof. unfold slices_SortFunc. by rewrite SortFunc_acc_perm, app_nil_r. Qed.

Lemma elem_of_SortFunc x l : x ∈ slices_SortFunc l <-> x ∈ l.
Proof. by rewrite SortFunc_perm. Qed.

Lemma length_SortFunc l : length (slices_SortFunc l) = length l.
Proof. by rewrite SortFunc_perm. Qed.

Lemma sort_insert_sorted x l :
  CmpOrder -> StronglySorted cmp_le l -> StronglySorted cmp_le (sort_insert x l).
Proof.
  intros HC Hl. induction Hl as [|y l Hl IH Hy]; simpl.
  - repeat constructor.
  - destruct (cmp y x <=? 0)%Z eqn:E.
    + apply Z.leb_le in E. constructor; [done|].
      rewrite sort_insert_perm. by constructor.
    + apply Z.leb_gt in E.
      assert (cmp_le x y) by (destruct (@cmp_total HC x y); [done|lia]).
      repeat constructor; try done.
      eapply Forall_impl; [exact Hy|]. intros z Hz. by etrans.
Qed.

Lemma SortFunc_sorted l : CmpOrder -> StronglySorted cmp_le (slices_SortFunc l).
Proof.
  intros HC. unfold slices_SortFunc.
  assert (Hn : StronglySorted cmp_le []) by constructor. revert Hn.
  generalize (@nil A). induction l as [|x l IH]; intros acc Hacc; simpl; [done|].
  apply IH. by apply sort_insert_sorted.
Qed.

Lemma SortFunc_unique l l' :
  CmpOrder ->
  (forall x y, x ∈ l -> y ∈ l -> cmp_le x y -> cmp_le y x -> x = y) ->
  StronglySorted cmp_le l' -> l' ≡ₚ l -> l' = slices_SortFunc l.
Proof.
  intros HC Hanti Hs Hp.
  assert (Hs2 := SortFunc_sorted l HC). assert (Hp2 := SortFunc_perm l).
  assert (Hp3 : l' ≡ₚ slices_SortFunc l) by (by rewrite Hp2).
  assert (Hanti' : forall x y, x ∈ l' -> y ∈ l' -> cmp_le x y -> cmp_le y x -> x = y)
    by (intros x y; rewrite Hp; apply Hanti).
  clear Hp Hp2 Hanti. revert Hs Hs2 Hp3 Hanti'. generalize (slices_SortFunc l) as k.
  intros k Hs. revert k. induction Hs as [|x l' Hs IH Hx]; intros k Hk Hp Ha.
  - by apply Permutation_nil_l in Hp.
  - destruct k as [|y k]; [by apply Permutation_nil_r in Hp|].
    inversion Hk as [|? ? Hk1 Hk2]; subst.
    assert (x = y) as ->.
    { assert (Hxk : x ∈ y :: k) by (rewrite <- Hp; apply list_elem_of_here).
      assert (Hyl : y ∈ x :: l') by (rewrite Hp; apply list_elem_of_here).
      apply elem_of_cons in Hxk as [->|Hxk]; [done|].
      apply elem_of_cons in Hyl as [->|Hyl]; [done|].
      apply Ha; try (apply elem_of_cons; tauto).
      - rewrite Forall_forall in Hx. by apply Hx.
      - rewrite Forall_forall in Hk2. by apply Hk2. }
    f_equal. apply IH; [done|by apply Permutation_cons_inv in Hp|].
    intros u v Hu Hv. apply Ha; apply elem_of_cons; tauto.
Qed.
End sort.
Arguments CmpOrder {A} cmp.

(** Only the comparisons of elements of the list matter. *)
Lemma sort_insert_ext {A} (cmp cmp' : A -> A -> Z) x l :
  (forall y, y ∈ l -> cmp y x = cmp' y x) -> sort_insert cmp x l = sort_insert cmp' x l.
Proof.
  induction l as [|y l IH]; intros H; simpl; [done|]. rewrite (H y) by left.
  case_match; [|done]. f_equal. apply IH. intros z Hz. apply H. by right.
Qed.

Lemma SortFunc_ext {A} (cmp cmp' : A -> A -> Z) l :
  (forall x y, x ∈ l -> y ∈ l -> cmp x y = cmp' x y) -> slices_SortFunc cmp l = slices_SortFunc cmp' l.
Proof.
  intros H. unfold slices_SortFunc.
  assert (Hacc : forall y, y ∈ @nil A -> y ∈ l) by (intros y Hy; by apply elem_of_nil in Hy).
  assert (Hrest : forall y, y ∈ l -> y ∈ l) by done. revert Hacc Hrest.
  generalize (@nil A) as acc. generalize l at 2 4 5 as rest.
  induction rest as [|x rest IH]; intros acc Hacc Hrest; simpl; [done|].
  rewrite (sort_insert_ext cmp cmp').
  - apply IH; [|intros y Hy; apply Hrest; by right].
    intros y Hy. rewrite sort_insert_perm in Hy. apply elem_of_cons in Hy as [->|Hy]; [apply Hrest; left|auto].
  - intros y Hy. apply H; [auto|apply Hrest; left].
Qed.

Lemma StronglySorted_take {A} (R : relation A) n l :
  StronglySorted R l -> StronglySorted R (take n l).
Proof.
  intros H. revert n. induction H as [|x l H IH Hx]; intros [|n]; simpl; constructor; auto.
  by apply Forall_take.
Qed.

Lemma StronglySorted_app_le {A} (R : relation A) l1 l2 x y :
  StronglySorted R (l1 ++ l2) -> x ∈ l1 -> y ∈ l2 -> R x y.
Proof.
  induction l1 as [|z l1 IH]; simpl; intros Hs Hx Hy; [by apply elem_of_nil in Hx|].
  inversion Hs as [|? ? Hs' Hz]; subst. apply elem_of_cons in Hx as [->|Hx]; [|auto].
  rewrite Forall_forall in Hz. apply Hz. apply elem_of_app. by right.
Qed.

Lemma NoDup_fmap_filter {A B} (f : A -> B) (P : A -> Prop) `{forall x, Decision (P x)} (l : list A) :
  NoDup (f <$> l) -> NoDup (f <$> filter P l).
Proof.
  induction l as [|x l IH]; [done|]. intros [Hx Hnd]%NoDup_cons. rewrite filter_cons.
  case_decide; [|auto]. apply NoDup_cons. split; [|auto]. intros (y & Heq & Hy)%list_elem_of_fmap.
  apply list_elem_of_filter in Hy as [_ Hy]. apply Hx, list_elem_of_fmap. eauto.
Qed.

(** ** Maps built by a loop over a list *)

Section fold_maps.
Context {X A : Type} (k : X -> string) (v : X -> A).
Implicit Types (l : list X).

(** [m[k(x)] = v(x)]: the last one wins. *)
Lemma lookup_fold_insert l (m : gmap string A) i :
  fold_left (fun m x => <[k x := v x]> m) l m !! i =
  match last (filter (fun x => k x = i) l) with Some x => Some (v x) | None => m !! i end.
Proof.
  induction l as [|x l IH] using rev_ind; [done|].
  rewrite fold_left_app, filter_app, filter_cons, filter_nil. simpl.
  destruct (decide (k x = i)) as [<-|Hne].
  - by rewrite lookup_insert_eq, last_snoc.
  - by rewrite lookup_insert_ne, IH, app_nil_r by done.
Qed.

(** [m[k(x)] = append(m[k(x)], v(x))] *)
Lemma lookup_fold_append l (m : gmap string (list A)) i :
  default [] (fold_left (fun m x => <[k x := default [] (m !! k x) ++ [v x]]> m) l m !! i) =
  default [] (m !! i) ++ (v <$> filter (fun x => k x = i) l).
Proof.
  induction l as [|x l IH] using rev_ind; [by rewrite app_nil_r|].
  rewrite fold_left_app, filter_app, filter_cons, filter_nil. simpl.
  destruct (decide (k x = i)) as [<-|Hne].
  - rewrite lookup_insert_eq. simpl. by rewrite IH, fmap_app, app_assoc.
  - by rewrite lookup_insert_ne, IH, app_nil_r by done.
Qed.

(** [m[k(x)]++] *)
Lemma lookup_fold_count l (m : gmap string Z) i :
  default 0%Z (fold_left (fun m x => <[k x := (default 0 (m !! k x) + 1)%Z]> m) l m !! i) =
  (default 0 (m !! i) + Z.of_nat (length (filter (fun x => k x = i) l)))%Z.
Proof.
  induction l as [|x l IH] using rev_ind; [simpl; lia|].
  rewrite fold_left_app, filter_app, filter_cons, filter_nil. simpl.
  destruct (decide (k x = i)) as [<-|Hne].
  - rewrite lookup_insert_eq. simpl. rewrite IH, length_app. simpl. lia.
  - rewrite lookup_insert_ne, IH, app_nil_r by done. done.
Qed.
End fold_maps.

Lemma lookup_fold_insert_is_Some {X A} (k : X -> string) (f : gmap string A -> X -> A) l (m : gmap string A) i :
  is_Some (fold_left (fun m x => <[k x := f m x]> m) l m !! i) <-> is_Some (m !! i) \/ i ∈ k <$> l.
Proof.
  induction l as [|x l IH] using rev_ind; simpl; [rewrite elem_of_nil; tauto|].
  rewrite fold_left_app, fmap_app, elem_of_app. simpl. rewrite list_elem_of_singleton.
  destruct (decide (k x = i)) as [<-|Hne].
  - rewrite lookup_insert_eq. naive_solver.
  - rewrite lookup_insert_ne, IH by done. naive_solver.
Qed.

(** With distinct keys the map is the list. *)
Lemma lookup_fold_insert_NoDup {X A} (k : X -> string) (v : X -> A) l i a :
  NoDup (k <$> l) ->
  fold_left (fun m x => <[k x := v x]> m) l (∅ : gmap string A) !! i = Some a <-> exists x, x ∈ l /\ k x = i /\ v x = a.
Proof.
  intros Hnd. rewrite lookup_fold_insert. split.
  - destruct (last _) as [x|] eqn:E; [|by rewrite lookup_empty]. intros [= <-]. exists x.
    apply last_Some_elem_of, list_elem_of_filter in E as [? ?]. done.
  - intros (x & Hx & Hk & <-).
    assert (Hf : filter (fun x => k x = i) l = [x]); [|by rewrite Hf].
    induction l as [|y l IH]; [by apply elem_of_nil in Hx|].
    apply NoDup_cons in Hnd as [Hy Hnd]. rewrite filter_cons.
    assert (Hnone : k y = i -> forall z, z ∈ l -> k z <> i).
    { intros E z Hz E'. apply Hy, list_elem_of_fmap. exists z. split; [congruence|done]. }
    apply elem_of_cons in Hx as [->|Hx].
    + rewrite decide_True by done. f_equal.
      destruct (filter (fun x => k x = i) l) as [|z l'] eqn:E; [done|].
      assert (Hz : z ∈ filter (fun x => k x = i) l) by (rewrite E; left).
      apply list_elem_of_filter in Hz as [Hz Hz']. by destruct (Hnone Hk z Hz').
    + rewrite decide_False; [by apply IH|]. intros E. by apply (Hnone E x Hx).
Qed.

(** [for x in l { if b(x) { continue }; acc = append(acc, f(x)) }] *)
Lemma fold_left_skip_append {A B} (b : A -> bool) (f : A -> B) l acc :
  fold_left (fun acc x => if b x then acc else acc ++ [f x]) l acc = acc ++ (f <$> filter (fun x => b x = false) l).
Proof.
  revert acc. induction l as [|x l IH]; intros acc; simpl; [by rewrite app_nil_r|].
  rewrite IH, filter_cons. destruct (b x); simpl; [done|]. by rewrite <- app_assoc.
Qed.
