(* ===== verification/GoStd.v ===== *)
(** * The parts of the Go standard library the runtime uses

    Times, durations and machine integers, [strings], [fmt], [strconv.Quote],
    [encoding/json] for the flat structs of replay details, and [crypto/sha1]
    for [makeID].  All definitions evaluate.

    [time.Time] is an integer: nanoseconds since Go's zero time
    (0001-01-01 00:00:00 UTC).  The runtime calls [.UTC()] on every reading,
    which strips the monotonic clock, so the wall clock is all there is.
    Strings are byte strings; the text functions are those of the ASCII
    range (a byte of 128 and above is copied as it is). *)

From stdpp Require Import pretty.
From Stdlib Require Import Ascii.
From S2P Require Export Prelude.
#[local] Open Scope Z_scope.

(** ** Integers *)

Definition two64 : Z := 2 ^ 64.
Definition two63 : Z := 2 ^ 63.

(** The value of an [int]/[int64] computation. *)
Definition wrap64 (z : Z) : Z := (z + two63) mod two64 - two63.

Definition in_int64 (z : Z) : Prop := - two63 <= z < two63.

Lemma wrap64_id z : in_int64 z -> wrap64 z = z.
Proof.
  unfold in_int64, wrap64, two63, two64. intros H. rewrite Z.mod_small; lia.
Qed.

Lemma wrap64_range z : in_int64 (wrap64 z).
Proof.
  unfold in_int64, wrap64, two63, two64.
  pose proof (Z.mod_pos_bound (z + 2 ^ 63) (2 ^ 64)) as H. lia.
Qed.

Lemma wrap64_succ_neq z : in_int64 z -> wrap64 (z + 1) <> z.
Proof.
  intros H Heq. assert (Hc : z + 1 < two63 \/ z + 1 = two63) by (unfold in_int64 in H; lia).
  destruct Hc as [Hc|Hc].
  - rewrite wrap64_id in Heq; [lia|]. unfold in_int64 in *. lia.
  - rewrite Hc in Heq. assert (z = two63 - 1) as -> by lia.
    revert Heq. vm_compute. congruence.
Qed.

(** ** [time] *)

Definition time : Type := Z.
Definition Duration : Type := Z.

Bind Scope Z_scope with time.
Bind Scope Z_scope with Duration.

Definition zero_time : time := 0.
Definition Nanosecond : Duration := 1.
Definition Second : Duration := 1000000000.
Definition Minute : Duration := 60 * Second.
Definition Hour : Duration := 60 * Minute.

Definition IsZero (t : time) : bool := t =? 0.
Definition Before (t u : time) : bool := t <? u.
Definition After (t u : time) : bool := u <? t.
Definition Add (t : time) (d : Duration) : time := t + d.
(** [Time.Sub] saturates. *)
Definition Sub (t u : time) : Duration := Z.max (- two63) (Z.min (two63 - 1) (t - u)).
(** [Time.Truncate], for a positive duration. *)
Definition Truncate (t : time) (d : Duration) : time := if d <=? 0 then t else t - t mod d.

(** ** [strings] *)

(** A Go string is compared byte by byte. *)
Definition str_ltb (a b : string) : bool := String.ltb a b.

Definition is_empty (s : string) : bool := match s with EmptyString => true | _ => false end.

Definition is_space (c : ascii) : bool :=
  let n := nat_of_ascii c in (n =? 32)%nat || ((9 <=? n)%nat && (n <=? 13)%nat).

Fixpoint trim_left (s : string) : string :=
  match s with
  | EmptyString => s
  | String c s' => if is_space c then trim_left s' else s
  end.

Fixpoint trim_right (s : string) : string :=
  match s with
  | EmptyString => s
  | String c s' =>
      match trim_right s' with
      | EmptyString => if is_space c then EmptyString else String c EmptyString
      | r => String c r
      end
  end.

Definition TrimSpace (s : string) : string := trim_right (trim_left s).

Definition Join (items : list string) (sep : string) : string := String.concat sep items.

(** ** [fmt] and [strconv] *)

Definition Itoa (z : Z) : string := pretty z.

Definition hex_digit (z : Z) : ascii :=
  ascii_of_nat (if z <? 10 then 48 + Z.to_nat z else 87 + Z.to_nat z).

Definition byte_of (c : ascii) : Z := Z.of_nat (nat_of_ascii c).

Definition hex_byte (b : Z) : string :=
  String (hex_digit (b / 16)) (String (hex_digit (b mod 16)) EmptyString).

Definition dquote : ascii := "034".
Definition backslash : ascii := "092".

Definition newline : string := String "010" EmptyString.

Definition escaped (c : ascii) : string := String backslash (String c EmptyString).

(** [strconv.Quote] ([%q]). *)
Definition quote_char (c : ascii) : string :=
  let n := byte_of c in
  if n =? 34 then escaped dquote
  else if n =? 92 then escaped backslash
  else if n =? 7 then escaped "a"
  else if n =? 8 then escaped "b"
  else if n =? 12 then escaped "f"
  else if n =? 10 then escaped "n"
  else if n =? 13 then escaped "r"
  else if n =? 9 then escaped "t"
  else if n =? 11 then escaped "v"
  else if (n <? 32) || (n =? 127) then escaped "x" +:+ hex_byte n
  else String c EmptyString.

Fixpoint map_string (f : ascii -> string) (s : string) : string :=
  match s with
  | EmptyString => EmptyString
  | String c s' => f c +:+ map_string f s'
  end.

Definition Quote (s : string) : string :=
  String dquote (map_string quote_char s +:+ String dquote EmptyString).

(** *** Formatting times (UTC) *)

Definition pad (width : nat) (z : Z) : string :=
  let s := Itoa z in
  String.concat "" (replicate (width - String.length s) "0") +:+ s.

(** Year, month and day of a day number (0 is 0001-01-01). *)
Definition civil (day : Z) : Z * Z * Z :=
  let z := day + 306 in
  let era := z / 146097 in
  let doe := z mod 146097 in
  let yoe := (doe - doe / 1460 + doe / 36524 - doe / 146096) / 365 in
  let doy := doe - (365 * yoe + yoe / 4 - yoe / 100) in
  let mp := (5 * doy + 2) / 153 in
  let d := doy - (153 * mp + 2) / 5 + 1 in
  let m := if mp <? 10 then mp + 3 else mp - 9 in
  (yoe + era * 400 + (if m <=? 2 then 1 else 0), m, d).

Definition format_date (t : time) : string :=
  let '(y, m, d) := civil (t / (24 * Hour)) in
  pad 4 y +:+ "-" +:+ pad 2 m +:+ "-" +:+ pad 2 d.

Definition format_clock (t : time) : string :=
  let s := t mod (24 * Hour) / Second in
  pad 2 (s / 3600) +:+ ":" +:+ pad 2 (s / 60 mod 60) +:+ ":" +:+ pad 2 (s mod 60).

Fixpoint strip_zeros (s : string) : string :=
  match s with
  | EmptyString => EmptyString
  | String c s' =>
      match strip_zeros s' with
      | EmptyString => if Ascii.eqb c "0" then EmptyString else String c EmptyString
      | r => String c r
      end
  end.

(** The [.999999999] of a layout: trailing zeros dropped. *)
Definition format_fraction (t : time) : string :=
  match strip_zeros (pad 9 (t mod Second)) with
  | EmptyString => EmptyString
  | s => "." +:+ s
  end.

Definition Format_RFC3339 (t : time) : string := format_date t +:+ "T" +:+ format_clock t +:+ "Z".
Definition Format_RFC3339Nano (t : time) : string :=
  format_date t +:+ "T" +:+ format_clock t +:+ format_fraction t +:+ "Z".
(** [Time.String]. *)
Definition time_string (t : time) : string :=
  format_date t +:+ " " +:+ format_clock t +:+ format_fraction t +:+ " +0000 UTC".

(** An operand of [fmt.Fprint]. *)
Inductive printable :=
| PStr (s : string)
| PInt (z : Z)
| PTime (t : time).

Definition Sprint (p : printable) : string :=
  match p with PStr s => s | PInt z => Itoa z | PTime t => time_string t end.

(** ** [crypto/sha1] *)

Section sha1.
Definition mask32 : Z := 4294967295.
Definition add32 (a b : Z) : Z := Z.land (a + b) mask32.
Definition rotl32 (n x : Z) : Z := Z.land (Z.lor (Z.shiftl x n) (Z.shiftr x (32 - n))) mask32.
Definition not32 (x : Z) : Z := Z.lxor x mask32.

Fixpoint bytes_of (s : string) : list Z :=
  match s with EmptyString => [] | String c s' => byte_of c :: bytes_of s' end.

Definition be_bytes (n : nat) (z : Z) : list Z :=
  (fun i => Z.land (Z.shiftr z (8 * (Z.of_nat n - 1 - Z.of_nat i))) 255) <$> seq 0 n.

Definition pad_message (m : list Z) : list Z :=
  let len := Z.of_nat (length m) in
  m ++ 128 :: replicate (Z.to_nat ((55 - len) mod 64)) 0 ++ be_bytes 8 (8 * len).

Fixpoint words (fuel : nat) (l : list Z) : list Z :=
  match fuel, l with
  | S n, a :: b :: c :: d :: l' =>
      (Z.shiftl a 24 + Z.shiftl b 16 + Z.shiftl c 8 + d) :: words n l'
  | _, _ => []
  end.

(** The message schedule, kept in reverse: the last 16 words come first. *)
Fixpoint schedule (n : nat) (rev_w : list Z) : list Z :=
  match n with
  | O => rev_w
  | S n' =>
      let w i := nth i rev_w 0 in
      schedule n' (rotl32 1 (Z.lxor (Z.lxor (w 2%nat) (w 7%nat)) (Z.lxor (w 13%nat) (w 15%nat))) :: rev_w)
  end.

Record digest := { h0 : Z; h1 : Z; h2 : Z; h3 : Z; h4 : Z }.

Definition round (s : digest * Z) (w : Z) : digest * Z :=
  let '({| h0 := a; h1 := b; h2 := c; h3 := d; h4 := e |}, i) := s in
  let '(f, k) :=
    if i <? 20 then (Z.lor (Z.land b c) (Z.land (not32 b) d), 1518500249)
    else if i <? 40 then (Z.lxor b (Z.lxor c d), 1859775393)
    else if i <? 60 then (Z.lor (Z.land b c) (Z.lor (Z.land b d) (Z.land c d)), 2400959708)
    else (Z.lxor b (Z.lxor c d), 3395469782) in
  let t := add32 (add32 (add32 (rotl32 5 a) f) (add32 e k)) w in
  ({| h0 := t; h1 := a; h2 := rotl32 30 b; h3 := c; h4 := d |}, i + 1).

Definition block (h : digest) (ws : list Z) : digest :=
  let '(r, _) := fold_left round (rev (schedule 64 (rev ws))) (h, 0) in
  {| h0 := add32 (h0 h) (h0 r); h1 := add32 (h1 h) (h1 r); h2 := add32 (h2 h) (h2 r);
     h3 := add32 (h3 h) (h3 r); h4 := add32 (h4 h) (h4 r) |}.

Fixpoint blocks (fuel : nat) (h : digest) (ws : list Z) : digest :=
  match fuel, ws with
  | S n, _ :: _ => blocks n (block h (take 16 ws)) (drop 16 ws)
  | _, _ => h
  end.

Definition sha1 (s : string) : list Z :=
  let m := pad_message (bytes_of s) in
  let ws := words (length m) m in
  let h := blocks (length ws)
    {| h0 := 1732584193; h1 := 4023233417; h2 := 2562383102; h3 := 271733878; h4 := 3285377520 |} ws in
  be_bytes 4 (h0 h) ++ be_bytes 4 (h1 h) ++ be_bytes 4 (h2 h) ++ be_bytes 4 (h3 h) ++ be_bytes 4 (h4 h).

Definition hex_EncodeToString (l : list Z) : string := String.concat "" (hex_byte <$> l).
End sha1.

(** [makeID] of local_runtime.go: the first 16 hex digits of the SHA-1 of the
    parts, printed one after the other with nothing between them. *)
Definition makeID (parts : list printable) : string :=
  String.substring 0 16 (hex_EncodeToString (sha1 (String.concat "" (Sprint <$> parts)))).

Example sha1_abc : hex_EncodeToString (sha1 "abc") = "a9993e364706816aba3e25717850c26c9cd0d89d".
Proof. vm_compute. reflexivity. Qed.

Example time_string_example :
  time_string (63745207861 * Second + 120000000) = "2021-01-02 18:11:01.12 +0000 UTC".
Proof. vm_compute. reflexivity. Qed.

(** ** [encoding/json] *)

#[warnings="-register-all"]
Inductive json :=
| JStr (s : string)
| JInt (z : Z)
| JBool (b : bool)
| JStrs (l : list string)
| JObj (fields : list (string * json)).

Definition json_char (c : ascii) : string :=
  let n := byte_of c in
  if n =? 34 then escaped dquote
  else if n =? 92 then escaped backslash
  else if n =? 8 then escaped "b"
  else if n =? 12 then escaped "f"
  else if n =? 10 then escaped "n"
  else if n =? 13 then escaped "r"
  else if n =? 9 then escaped "t"
  else if (n <? 32) || (n =? 60) || (n =? 62) || (n =? 38) then escaped "u" +:+ "00" +:+ hex_byte n
  else String c EmptyString.

Definition json_string (s : string) : string :=
  String dquote (map_string json_char s +:+ String dquote EmptyString).

Fixpoint json_render (j : json) : string :=
  match j with
  | JStr s => json_string s
  | JInt z => Itoa z
  | JBool b => if b then "true" else "false"
  | JStrs l => "[" +:+ Join (json_string <$> l) "," +:+ "]"
  | JObj fields =>
      "{" +:+ Join (map (fun f => json_string f.1 +:+ ":" +:+ json_render f.2) fields) "," +:+ "}"
  end.

(** A field tagged [omitempty]. *)
Definition omitempty (name : string) (j : json) : list (string * json) :=
  match j with
  | JStr "" | JInt 0 | JBool false | JStrs [] => []
  | _ => [(name, j)]
  end.

Definition field (name : string) (j : json) : list (string * json) := [(name, j)].

(** ** Comparison functions passed to [slices.SortFunc] *)

Section compare.
Context {A : Type}.

Definition compare_time (tm : A -> time) (a b : A) : Z :=
  if Before (tm a) (tm b) then -1 else if After (tm a) (tm b) then 1 else 0.

Definition compare_id (id : A -> string) (a b : A) : Z :=
  if str_ltb (id a) (id b) then -1 else if str_ltb (id b) (id a) then 1 else 0.

Definition compare_time_id (tm : A -> time) (id : A -> string) (a b : A) : Z :=
  if Before (tm a) (tm b) then -1
  else if After (tm a) (tm b) then 1
  else compare_id id a b.
End compare.

Lemma string_compare_trans_lt a b c :
  String.compare a b = Lt -> String.compare b c = Lt -> String.compare a c = Lt.
Proof.
  revert b c. induction a as [|x a IH]; intros [|y b] [|z c]; simpl; try done.
  unfold Ascii.compare.
  destruct (N.compare_spec (N_of_ascii x) (N_of_ascii y)) as [E1|E1|E1]; try done;
  destruct (N.compare_spec (N_of_ascii y) (N_of_ascii z)) as [E2|E2|E2]; try done;
  destruct (N.compare_spec (N_of_ascii x) (N_of_ascii z)) as [E3|E3|E3]; try done; try lia.
  apply IH.
Qed.

Lemma str_ltb_trans a b c : str_ltb a b = true -> str_ltb b c = true -> str_ltb a c = true.
Proof.
  unfold str_ltb, String.ltb. intros H1 H2.
  destruct (String.compare a b) eqn:E1; try done.
  destruct (String.compare b c) eqn:E2; try done.
  by rewrite (string_compare_trans_lt _ _ _ E1 E2).
Qed.

Lemma str_ltb_irrefl a : str_ltb a a = false.
Proof.
  unfold str_ltb, String.ltb. pose proof (String.compare_antisym a a) as H.
  by destruct (String.compare a a).
Qed.

Lemma str_ltb_antisym a b : str_ltb a b = false -> str_ltb b a = false -> a = b.
Proof.
  unfold str_ltb, String.ltb. pose proof (String.compare_antisym a b) as H.
  destruct (String.compare a b) eqn:E; [intros _ _; by apply String.compare_eq_iff|done|].
  destruct (String.compare b a) eqn:E2; done.
Qed.

Lemma str_ltb_asym a b : str_ltb a b = true -> str_ltb b a = false.
Proof.
  intros H. destruct (str_ltb b a) eqn:E; [|done].
  pose proof (str_ltb_trans _ _ _ H E) as H2. by rewrite str_ltb_irrefl in H2.
Qed.

Lemma str_leb_trans a b c : str_ltb b a = false -> str_ltb c b = false -> str_ltb c a = false.
Proof.
  intros H1 H2. destruct (str_ltb c a) eqn:E; [|done].
  destruct (str_ltb a b) eqn:E1.
  - by rewrite (str_ltb_trans _ _ _ E E1) in H2.
  - by rewrite (str_ltb_antisym _ _ H1 E1), E in H2.
Qed.

Section compare_order.
Context {A : Type} (tm : A -> time) (id : A -> string).

Lemma compare_id_le a b : cmp_le (compare_id id) a b <-> str_ltb (id b) (id a) = false.
Proof.
  unfold cmp_le, compare_id. destruct (str_ltb (id a) (id b)) eqn:E1.
  - rewrite (str_ltb_asym _ _ E1). split; [done|lia].
  - destruct (str_ltb (id b) (id a)); split; done || lia.
Qed.

Lemma compare_time_le a b : cmp_le (compare_time tm) a b <-> tm a <= tm b.
Proof. unfold cmp_le, compare_time, Before, After. repeat case_match; split; lia. Qed.

Lemma compare_time_id_le a b :
  cmp_le (compare_time_id tm id) a b <->
  tm a < tm b \/ (tm a = tm b /\ str_ltb (id b) (id a) = false).
Proof.
  rewrite <- compare_id_le. unfold cmp_le, compare_time_id, Before, After.
  repeat case_match; split; lia.
Qed.

Global Instance compare_id_order : CmpOrder (compare_id id).
Proof.
  split.
  - intros a b c. rewrite !compare_id_le. intros H1 H2. by eapply str_leb_trans.
  - intros a b. change (cmp_le (compare_id id) a b \/ cmp_le (compare_id id) b a).
    rewrite !compare_id_le. destruct (str_ltb (id b) (id a)) eqn:E; [right|by left].
    by apply str_ltb_asym.
Qed.

Global Instance compare_time_order : CmpOrder (compare_time tm).
Proof.
  split.
  - intros a b c. rewrite !compare_time_le. lia.
  - intros a b. change (cmp_le (compare_time tm) a b \/ cmp_le (compare_time tm) b a).
    rewrite !compare_time_le. lia.
Qed.

Global Instance compare_time_id_order : CmpOrder (compare_time_id tm id).
Proof.
  split.
  - intros a b c. rewrite !compare_time_id_le. intros [H1|[H1 H1']] [H2|[H2 H2']].
    1-3: left; lia.
    right. split; [lia|]. by eapply str_leb_trans.
  - intros a b.
    change (cmp_le (compare_time_id tm id) a b \/ cmp_le (compare_time_id tm id) b a).
    rewrite !compare_time_id_le. destruct (Z.lt_trichotomy (tm a) (tm b)) as [H|[H|H]]; [tauto| |tauto].
    destruct (str_ltb (id b) (id a)) eqn:E; [right|left]; right; split; try lia.
    by apply str_ltb_asym.
Qed.
End compare_order.

#[global] Opaque makeID.

(** ** [TrimSpace] *)

Definition starts_blank (s : string) : bool :=
  match s with EmptyString => false | String c _ => is_space c end.

Lemma trim_left_starts s : starts_blank (trim_left s) = false.
Proof. induction s as [|c s IH]; simpl; [done|]. by destruct (is_space c) eqn:E. Qed.

Lemma trim_left_id s : starts_blank s = false -> trim_left s = s.
Proof. destruct s as [|c s]; simpl; [done|]. by intros ->. Qed.

Lemma trim_right_starts s : starts_blank s = false -> starts_blank (trim_right s) = false.
Proof.
  destruct s as [|c s]; simpl; [done|]. intros H.
  destruct (trim_right s); simpl; by rewrite ?H.
Qed.

Lemma trim_right_idemp s : trim_right (trim_right s) = trim_right s.
Proof.
  induction s as [|c s IH]; simpl; [done|].
  destruct (trim_right s) as [|c' s'] eqn:E.
  - destruct (is_space c) eqn:Ec; simpl; [done|]. by rewrite Ec.
  - simpl in *. by rewrite IH.
Qed.

Lemma TrimSpace_idemp s : TrimSpace (TrimSpace s) = TrimSpace s.
Proof.
  unfold TrimSpace. rewrite (trim_left_id (trim_right _)).
  - apply trim_right_idemp.
  - apply trim_right_starts, trim_left_starts.
Qed.

#[global] Opaque TrimSpace.
