(* ===== verification/GoText.v ===== *)
(** * More of the standard library: text, floats, durations, csv *)

From Stdlib Require Import Ascii.
From Stdlib Require Export Floats.SpecFloat.
From S2P Require Export GoStd.
#[local] Open Scope Z_scope.

(** * More of Go's standard library: text, floats, durations

    What the policy, memory and context packages use of [strings],
    [unicode/utf8], [math], [fmt] and [time], executable. *)

(** ** [strings] (letters are ASCII) *)

Definition lower_char (c : ascii) : ascii :=
  let n := nat_of_ascii c in
  if ((65 <=? n)%nat && (n <=? 90)%nat)%bool then ascii_of_nat (n + 32) else c.

Fixpoint ToLower (s : string) : string :=
  match s with EmptyString => EmptyString | String c s => String (lower_char c) (ToLower s) end.

Definition HasPrefix (s prefix : string) : bool := String.prefix prefix s.

(** [Contains s sub]: [sub] starts at some position of [s]. *)
Fixpoint Contains (s sub : string) : bool :=
  HasPrefix s sub || match s with EmptyString => false | String _ s => Contains s sub end.

(** [strings.Fields]: the maximal runs of non-blanks. *)
Fixpoint fields_from (word : string) (s : string) : list string :=
  match s with
  | EmptyString => if is_empty word then [] else [word]
  | String c s =>
      if is_space c then (if is_empty word then [] else [word]) ++ fields_from "" s
      else fields_from (word +:+ String c EmptyString) s
  end.

Definition Fields (s : string) : list string := fields_from "" s.

(** [NewReplacer] with single characters on the left. *)
Definition replace_chars (from : list ascii) (to : ascii) (s : string) : string :=
  map_string (fun c => String (if bool_decide (c ∈ from) then to else c) EmptyString) s.

(** The first [n] bytes. *)
Definition byte_prefix (n : nat) (s : string) : string := String.substring 0 n s.

(** [if s == "" ... seen map]: the distinct non-empty items, in order. *)
Fixpoint unique_from (seen : list string) (items : list string) : list string :=
  match items with
  | [] => []
  | item :: items =>
      if bool_decide (item = "") || bool_decide (item ∈ seen) then unique_from seen items
      else item :: unique_from (item :: seen) items
  end.

(** ** [unicode/utf8]: the length of the first rune *)

Definition continuation (c : ascii) (lo hi : Z) : bool := (lo <=? byte_of c) && (byte_of c <=? hi).

(** An invalid or short sequence is one byte, decoded as U+FFFD. *)
Definition rune_width (s : string) : nat :=
  match s with
  | EmptyString => 0%nat
  | String a rest =>
      let x := byte_of a in
      let second lo hi := match rest with String b _ => continuation b lo hi | _ => false end in
      let third := match rest with String _ (String c _) => continuation c 128 191 | _ => false end in
      let fourth := match rest with String _ (String _ (String d _)) => continuation d 128 191 | _ => false end in
      if (194 <=? x) && (x <=? 223) && second 128 191 then 2%nat
      else if (x =? 224) && second 160 191 && third then 3%nat
      else if (((225 <=? x) && (x <=? 236)) || ((238 <=? x) && (x <=? 239))) && second 128 191 && third then 3%nat
      else if (x =? 237) && second 128 159 && third then 3%nat
      else if (x =? 240) && second 144 191 && third && fourth then 4%nat
      else if (241 <=? x) && (x <=? 243) && second 128 191 && third && fourth then 4%nat
      else if (x =? 244) && second 128 143 && third && fourth then 4%nat
      else 1%nat
  end.

(** [len([]rune(s))]; [skip] bytes still belong to the last rune. *)
Fixpoint runes_from (skip : nat) (s : string) : nat :=
  match s with
  | EmptyString => 0
  | String _ rest =>
      match skip with
      | S skip => runes_from skip rest
      | O => S (runes_from (rune_width s - 1) rest)
      end
  end%nat.

Definition rune_count (s : string) : Z := Z.of_nat (runes_from 0 s).

(** The rune at the head of [s]; U+FFFD for a byte that starts none. *)
Definition rune_value (s : string) : Z :=
  let bits k i := match String.get i s with Some a => byte_of a mod 2 ^ k | None => 0 end in
  match rune_width s with
  | 2%nat => bits 5 0%nat * 64 + bits 6 1%nat
  | 3%nat => (bits 4 0%nat * 64 + bits 6 1%nat) * 64 + bits 6 2%nat
  | 4%nat => ((bits 3 0%nat * 64 + bits 6 1%nat) * 64 + bits 6 2%nat) * 64 + bits 6 3%nat
  | _ => if bits 8 0%nat <? 128 then bits 8 0%nat else 65533
  end.

Fixpoint range_runes_from (skip : nat) (s : string) : list Z :=
  match s with
  | EmptyString => []
  | String _ rest =>
      match skip with
      | S skip => range_runes_from skip rest
      | O => rune_value s :: range_runes_from (rune_width s - 1)%nat rest
      end
  end.

(** [for _, char := range s] *)
Definition range_runes (s : string) : list Z := range_runes_from 0 s.

Example range_runes_utf8 : range_runes "aé世" = [97; 233; 19990].
Proof. reflexivity. Qed.

Lemma runes_from_le skip s : (runes_from skip s <= String.length s)%nat.
Proof.
  revert skip. induction s as [|c s IH]; intros skip; [done|]. cbn [runes_from String.length].
  destruct skip as [|skip]; [|specialize (IH skip); lia].
  specialize (IH (rune_width (String c s) - 1)%nat). lia.
Qed.

Lemma rune_count_bounds s : 0 <= rune_count s <= Z.of_nat (String.length s).
Proof. unfold rune_count. pose proof (runes_from_le 0 s). lia. Qed.

Lemma rune_count_pos s : s <> "" -> 1 <= rune_count s.
Proof. unfold rune_count. destruct s; [done|]. cbn [runes_from]. lia. Qed.

Example rune_count_ascii : rune_count "abcd" = 4.
Proof. reflexivity. Qed.

(** ** [float64] *)

#[global] Abbreviation float64 := spec_float.
Definition f_prec : Z := 53.
Definition f_emax : Z := 1024.

Definition f_add : float64 -> float64 -> float64 := SFadd f_prec f_emax.
Definition f_sub : float64 -> float64 -> float64 := SFsub f_prec f_emax.
Definition f_mul : float64 -> float64 -> float64 := SFmul f_prec f_emax.
Definition f_div : float64 -> float64 -> float64 := SFdiv f_prec f_emax.
Definition f_eqb : float64 -> float64 -> bool := SFeqb.
Definition f_ltb : float64 -> float64 -> bool := SFltb.
Definition f_leb : float64 -> float64 -> bool := SFleb.
(** [float64(z)] *)
Definition f_of_int (z : Z) : float64 := binary_normalize f_prec f_emax z 0 false.
(** The constant [n/d], correctly rounded. *)
Definition f_const (n d : Z) : float64 := f_div (f_of_int n) (f_of_int d).
Definition f_sqrt : float64 -> float64 := SFsqrt f_prec f_emax.
(** [math.Min] *)
Definition f_min (a b : float64) : float64 :=
  match a, b with
  | S754_infinity true, _ | _, S754_infinity true => S754_infinity true
  | S754_nan, _ | _, S754_nan => S754_nan
  | S754_zero sa, S754_zero sb => S754_zero (sa || sb)
  | _, _ => if f_ltb a b then a else b
  end.
Definition f_zero : float64 := S754_zero false.

(** [z / 2^k] rounded down, and the remainder. *)
Definition shift_down (m : Z) (k : Z) : Z * Z := (m / 2 ^ k, m mod 2 ^ k).

(** [math.Round]: to the nearest integer, halves away from zero. *)
Definition f_round (f : float64) : float64 :=
  match f with
  | S754_finite s m e =>
      if 0 <=? e then f else
      let '(q, r) := shift_down (Zpos m) (- e) in
      let q := if 2 ^ (- e) <=? 2 * r then q + 1 else q in
      binary_normalize f_prec f_emax (if s then - q else q) 0 s
  | _ => f
  end.

(** [int(f)] for a value that fits. *)
Definition f_to_int (f : float64) : Z :=
  match f with
  | S754_finite s m e =>
      let q := if 0 <=? e then Zpos m * 2 ^ e else (shift_down (Zpos m) (- e)).1 in
      if s then - q else q
  | _ => 0
  end.

(** [Sprintf("%.<digits>f", f)]: the exact value, rounded half to even. *)
Definition decimals (m e : Z) (digits : Z) : Z :=
  let n := m * 10 ^ digits in
  if 0 <=? e then n * 2 ^ e else
  let '(q, r) := shift_down n (- e) in
  if (2 ^ (- e) <? 2 * r) || ((2 ^ (- e) =? 2 * r) && Z.odd q) then q + 1 else q.

Definition fixed_point (digits : nat) (q : Z) : string :=
  Itoa (q / 10 ^ Z.of_nat digits) +:+ "." +:+ pad digits (q mod 10 ^ Z.of_nat digits).

Definition Sprintf_f (digits : nat) (f : float64) : string :=
  match f with
  | S754_nan => "NaN"
  | S754_infinity s => if s then "-Inf" else "+Inf"
  | S754_zero s => (if s then "-" else "") +:+ fixed_point digits 0
  | S754_finite s m e => (if s then "-" else "") +:+ fixed_point digits (decimals (Zpos m) e (Z.of_nat digits))
  end.

Example Sprintf_f_examples :
  Sprintf_f 4 (f_const 1 61) = "0.0164" /\ Sprintf_f 2 (f_const 75 100) = "0.75" /\
  Sprintf_f 4 (f_round (f_const (-25) 10)) = "-3.0000".
Proof. vm_compute. split_and!; reflexivity. Qed.

(** ** [time.Duration] *)

Definition f_Hours (d : Duration) : float64 :=
  f_add (f_of_int (Z.quot d Hour)) (f_div (f_of_int (Z.rem d Hour)) (f_of_int Hour)).

(** [Duration.Truncate]: towards zero. *)
Definition Duration_Truncate (d m : Duration) : Duration := if m <=? 0 then d else d - Z.rem d m.

(** The digits after the point, without trailing zeros. *)
Definition duration_fraction (width : nat) (z : Z) : string :=
  match strip_zeros (pad width z) with EmptyString => "" | s => "." +:+ s end.

Definition Duration_String (d : Duration) : string :=
  let u := Z.abs d in
  let sign := if d <? 0 then "-" else "" in
  if u =? 0 then "0s"
  else if u <? Second then
    sign +:+ (if u <? 1000 then Itoa u +:+ "ns"
              else if u <? 1000000 then Itoa (u / 1000) +:+ duration_fraction 3 (u mod 1000) +:+ "µs"
              else Itoa (u / 1000000) +:+ duration_fraction 6 (u mod 1000000) +:+ "ms")
  else
    let s := u / Second in
    let seconds := Itoa (s mod 60) +:+ duration_fraction 9 (u mod Second) +:+ "s" in
    let minutes := s / 60 in
    sign +:+ (if minutes =? 0 then seconds
              else if minutes / 60 =? 0 then Itoa (minutes mod 60) +:+ "m" +:+ seconds
              else Itoa (minutes / 60) +:+ "h" +:+ Itoa (minutes mod 60) +:+ "m" +:+ seconds).

Example Duration_String_examples :
  Duration_String (90 * 24 * Hour) = "2160h0m0s" /\ Duration_String (1500 * 1000000) = "1.5s" /\
  Duration_String (-1100) = "-1.1µs".
Proof. vm_compute. split_and!; reflexivity. Qed.

(** ** Facts *)

Lemma unique_from_elem seen items x :
  x ∈ unique_from seen items <-> x ∈ items /\ x <> "" /\ x ∉ seen.
Proof.
  revert seen. induction items as [|y items IH]; intros seen; cbn [unique_from]; [set_solver|].
  destruct (bool_decide (y = "") || bool_decide (y ∈ seen)) eqn:E.
  - rewrite IH. apply orb_true_iff in E as [E|E]; apply bool_decide_eq_true in E; set_solver.
  - apply orb_false_iff in E as [E1 E2]. apply bool_decide_eq_false in E1, E2.
    rewrite elem_of_cons, IH. destruct (decide (x = y)) as [->|Hne]; set_solver.
Qed.

Lemma unique_from_NoDup seen items : NoDup (unique_from seen items).
Proof.
  revert seen. induction items as [|y items IH]; intros seen; cbn [unique_from]; [constructor|].
  case_match; [done|]. constructor; [|done]. rewrite unique_from_elem. set_solver.
Qed.

(** Ordered values: everything but NaN. *)
Definition f_ordered (f : float64) : Prop := f <> S754_nan.

Lemma string_length_app s t : String.length (s +:+ t) = (String.length s + String.length t)%nat.
Proof. induction s as [|a s IH]; [done|]. change (String a s +:+ t) with (String a (s +:+ t)). simpl. by rewrite IH. Qed.

Lemma string_app_inj_r s t u : s +:+ u = t +:+ u -> s = t.
Proof.
  revert t. induction s as [|a s IH]; intros [|b t] E; [done|exfalso..|].
  1,2: apply (f_equal String.length) in E; rewrite !string_length_app in E; simpl in E; lia.
  change (String a (s +:+ u) = String b (t +:+ u)) in E. injection E as -> E. f_equal. by apply IH.
Qed.

(** * [encoding/csv]

    The reader the observation package uses: comma separated, quotes doubled
    inside quoted fields, leading blanks of a field dropped
    ([TrimLeadingSpace]), every record as long as the first.  The text of an
    error is not modelled ([None]). *)

Definition newline_char : ascii := "010".
Definition return_char : ascii := "013".

(** Line ends become newlines; a return at the end of the text is dropped. *)
Fixpoint normalize_newlines (s : string) : string :=
  match s with
  | EmptyString => EmptyString
  | String c s' =>
      if Ascii.eqb c return_char then
        match s' with
        | EmptyString => EmptyString
        | String d _ => if Ascii.eqb d newline_char then normalize_newlines s' else String c (normalize_newlines s')
        end
      else String c (normalize_newlines s')
  end.

Inductive csv_mode := FieldStart | Unquoted | Quoted.

Definition snoc (word : string) (c : ascii) : string := word +:+ String c EmptyString.

Definition next_field (word : string) (rest : option (list string * string)) : option (list string * string) :=
  '(fields, s) ← rest; Some (word :: fields, s).

(** The fields of one record; [word] is what has been read of the current one. *)
Fixpoint csv_fields (mode : csv_mode) (word : string) (s : string) : option (list string * string) :=
  match s with
  | EmptyString => match mode with Quoted => None | _ => Some ([word], EmptyString) end
  | String c s' =>
      match mode with
      | Quoted =>
          if Ascii.eqb c dquote then
            match s' with
            | EmptyString => Some ([word], EmptyString)
            | String d s'' =>
                if Ascii.eqb d dquote then csv_fields Quoted (snoc word dquote) s''
                else if Ascii.eqb d "," then next_field word (csv_fields FieldStart EmptyString s'')
                else if Ascii.eqb d newline_char then Some ([word], s'')
                else None
            end
          else csv_fields Quoted (snoc word c) s'
      | _ =>
          if Ascii.eqb c newline_char then Some ([word], s')
          else if Ascii.eqb c "," then next_field word (csv_fields FieldStart EmptyString s')
          else
            match mode with
            | FieldStart =>
                if is_space c then csv_fields FieldStart EmptyString s'
                else if Ascii.eqb c dquote then csv_fields Quoted EmptyString s'
                else csv_fields Unquoted (snoc word c) s'
            | _ => if Ascii.eqb c dquote then None else csv_fields Unquoted (snoc word c) s'
            end
      end
  end.

(** Empty lines are skipped. *)
Fixpoint skip_newlines (s : string) : string :=
  match s with
  | String c s' => if Ascii.eqb c newline_char then skip_newlines s' else s
  | EmptyString => EmptyString
  end.

(** The records up to the end of the text; [n] is fuel. *)
Fixpoint csv_records (n : nat) (s : string) : option (list (list string)) :=
  match n, skip_newlines s with
  | _, EmptyString => Some []
  | O, _ => None
  | S n, s => '(fields, rest) ← csv_fields FieldStart EmptyString s; records ← csv_records n rest; Some (fields :: records)
  end.

(** The first record and the others, each as long as the first. *)
Definition read_csv (text : string) : option (list string * list (list string)) :=
  match csv_records (S (String.length text)) (normalize_newlines text) with
  | Some (header :: records) =>
      if forallb (fun r => bool_decide (length r = length header)) records then Some (header, records) else None
  | _ => None
  end.

Definition lines (l : list string) : string := Join l newline.

(** Quotes written as apostrophes. *)
Definition quoted_lines (l : list string) : string := replace_chars ["'"%char] dquote (lines l).

Example read_csv_example :
  read_csv (quoted_lines ["a, b ,c"; ""; " 1,'x, ''y''', z "; "2,,"]) =
    Some (["a"; "b "; "c"], [["1"; quoted_lines ["x, 'y'"]; "z "]; ["2"; ""; ""]]) /\
  read_csv "a,b" = Some (["a"; "b"], []) /\ read_csv "" = None /\ read_csv (lines ["a,b"; "1"]) = None /\
  read_csv (quoted_lines ["a"; "x'y"]) = None /\ read_csv (quoted_lines ["a"; "'x"]) = None.
Proof. vm_compute. split_and!; reflexivity. Qed.

(** Every record is as long as the header. *)
Lemma read_csv_lengths text header records :
  read_csv text = Some (header, records) -> Forall (fun r => length r = length header) records.
Proof.
  unfold read_csv. destruct (csv_records _ _) as [[|h rs]|]; try done.
  destruct (forallb _ rs) eqn:E; [|done]. intros [= <- <-]. rewrite forallb_forall in E.
  apply Forall_forall. intros r Hr%list_elem_of_In. by apply E, bool_decide_eq_true_1 in Hr.
Qed.

Lemma csv_fields_rest mode word s fields rest :
  csv_fields mode word s = Some (fields, rest) -> (String.length rest <= String.length s)%nat /\
    (s <> EmptyString -> (String.length rest < String.length s)%nat).
Proof.
  assert (Hn : (String.length s <= String.length s)%nat) by lia. revert Hn.
  generalize (String.length s) at 2 as n. intros n. revert mode word s fields rest.
  induction n as [|n IH]; intros mode word s fields rest Hn H; destruct s as [|c s].
  1,3: destruct mode; try done; by injection H as <- <-.
  { cbn in Hn. lia. }
  cbn [String.length] in *. assert (Hlt : forall mode word t fields rest, (String.length t <= String.length s)%nat ->
    csv_fields mode word t = Some (fields, rest) -> (String.length rest <= String.length t)%nat)
    by (intros; eapply IH; [|done]; lia).
  assert (Hnext : forall mode word w t fields rest, (String.length t <= String.length s)%nat ->
    next_field w (csv_fields mode word t) = Some (fields, rest) -> (String.length rest <= String.length t)%nat).
  { intros m w w' t f r Ht. unfold next_field. destruct (csv_fields m w t) as [[f' r']|] eqn:E; [|done].
    intros [= <- <-]. by eapply Hlt. }
  enough ((String.length rest <= String.length s)%nat) by lia. cbn [csv_fields] in H.
  repeat case_match; try discriminate; subst; try (injection H as <- <-); cbn [String.length] in *; try lia.
  all: first [apply Hlt in H; cbn; lia | apply Hnext in H; cbn; lia].
Qed.

(** The fuel is enough: the text is not read, but its length spent. *)
Lemma csv_records_enough n m s :
  (String.length s < n)%nat -> (String.length s < m)%nat -> csv_records n s = csv_records m s.
Proof.
  revert m s. induction n as [|n IH]; intros m s Hn Hm; [lia|]. destruct m as [|m]; [lia|]. cbn [csv_records].
  assert (Hs : (String.length (skip_newlines s) <= String.length s)%nat).
  { clear. induction s as [|c s IH]; [done|]. cbn. destruct (Ascii.eqb _ _); cbn; lia. }
  destruct (skip_newlines s) as [|c t] eqn:E; [done|].
  destruct (csv_fields FieldStart EmptyString (String c t)) as [[fields rest]|] eqn:Ef; [|done].
  apply csv_fields_rest in Ef as [_ Ef]. specialize (Ef ltac:(done)). cbn [mbind option_bind].
  by rewrite (IH m rest) by lia.
Qed.
