(* ===== verification/FloatOrder.v ===== *)
(** * The order of float64 values

    Comparing numbers is comparing integer keys, so the comparisons of Go are
    a total preorder on everything but NaN, which compares with nothing. *)

From S2P Require Export GoText.
#[local] Open Scope Z_scope.

(** Comparing floats that are not NaN is comparing their keys. *)
Definition f_key (f : float64) : Z * Z * Z :=
  match f with
  | S754_nan => (-3, 0, 0)
  | S754_infinity s => (if s then -2 else 2, 0, 0)
  | S754_zero _ => (0, 0, 0)
  | S754_finite s m e => if s then (-1, - e, - Zpos m) else (1, e, Zpos m)
  end.

Definition key_ltb (a b : Z * Z * Z) : bool :=
  (a.1.1 <? b.1.1) || ((a.1.1 =? b.1.1) && ((a.1.2 <? b.1.2) || ((a.1.2 =? b.1.2) && (a.2 <? b.2)))).

Definition key_eqb (a b : Z * Z * Z) : bool := (a.1.1 =? b.1.1) && (a.1.2 =? b.1.2) && (a.2 =? b.2).

Lemma f_ltb_key a b : f_ordered a -> f_ordered b -> f_ltb a b = key_ltb (f_key a) (f_key b).
Proof.
  unfold f_ordered, f_ltb, SFltb, key_ltb.
  destruct a as [sa|sa| |sa ma ea]; destruct b as [sb|sb| |sb mb eb]; intros Ha Hb; try done;
    try (destruct sa; destruct sb; reflexivity); try (destruct sa; reflexivity); try (destruct sb; reflexivity).
  unfold SFcompare, f_key. destruct sa, sb; cbn [fst snd]; try reflexivity;
    change (Pos.compare_cont Eq ma mb) with (Pos.compare ma mb);
    destruct (Z.compare_spec ea eb); try destruct (Pos.compare_spec ma mb); subst; cbn [CompOpp]; try lia.
Qed.

Lemma f_eqb_key a b : f_ordered a -> f_ordered b -> f_eqb a b = key_eqb (f_key a) (f_key b).
Proof.
  unfold f_ordered, f_eqb, SFeqb, key_eqb.
  destruct a as [sa|sa| |sa ma ea]; destruct b as [sb|sb| |sb mb eb]; intros Ha Hb; try done;
    try (destruct sa; destruct sb; reflexivity); try (destruct sa; reflexivity); try (destruct sb; reflexivity).
  unfold SFcompare, f_key. destruct sa, sb; cbn [fst snd]; try reflexivity;
    change (Pos.compare_cont Eq ma mb) with (Pos.compare ma mb);
    destruct (Z.compare_spec ea eb); try destruct (Pos.compare_spec ma mb); subst; cbn [CompOpp]; try lia.
Qed.

Definition key_leb (a b : Z * Z * Z) : bool := negb (key_ltb b a).

Lemma f_leb_key a b : f_ordered a -> f_ordered b -> f_leb a b = key_leb (f_key a) (f_key b).
Proof.
  unfold f_ordered, f_leb, SFleb, key_leb, key_ltb.
  destruct a as [sa|sa| |sa ma ea]; destruct b as [sb|sb| |sb mb eb]; intros Ha Hb; try done;
    try (destruct sa; destruct sb; reflexivity); try (destruct sa; reflexivity); try (destruct sb; reflexivity).
  unfold SFcompare, f_key. destruct sa, sb; cbn [fst snd]; try reflexivity;
    change (Pos.compare_cont Eq ma mb) with (Pos.compare ma mb);
    destruct (Z.compare_spec ea eb); try destruct (Pos.compare_spec ma mb); subst; cbn [CompOpp]; try lia.
Qed.

(** What compares is a number. *)
Lemma f_leb_ordered a b : f_leb a b = true -> f_ordered a /\ f_ordered b.
Proof. intros H. split; intros ->; revert H; unfold f_leb, SFleb; [done|]. by destruct a as [[]|[]| |[]]. Qed.
Lemma f_ltb_ordered a b : f_ltb a b = true -> f_ordered a /\ f_ordered b.
Proof. intros H. split; intros ->; revert H; unfold f_ltb, SFltb; [done|]. by destruct a as [[]|[]| |[]]. Qed.

Lemma f_leb_trans a b c : f_leb a b = true -> f_leb b c = true -> f_leb a c = true.
Proof.
  intros H1 H2. destruct (f_leb_ordered _ _ H1), (f_leb_ordered _ _ H2). revert H1 H2.
  rewrite !f_leb_key by done. unfold key_leb, key_ltb.
  destruct (f_key a) as [[a1 a2] a3], (f_key b) as [[b1 b2] b3], (f_key c) as [[c1 c2] c3]. cbn [fst snd]. lia.
Qed.

(** A number is below another or not below it. *)
Lemma f_leb_negb a b : f_ordered a -> f_ordered b -> f_leb a b = negb (f_ltb b a).
Proof. intros Ha Hb. rewrite f_leb_key, f_ltb_key by done. done. Qed.

Lemma f_ltb_leb a b : f_ltb a b = true -> f_leb a b = true.
Proof.
  intros H. destruct (f_ltb_ordered _ _ H). revert H. rewrite f_leb_key, f_ltb_key by done. unfold key_leb, key_ltb.
  destruct (f_key a) as [[a1 a2] a3], (f_key b) as [[b1 b2] b3]. cbn [fst snd]. lia.
Qed.

Lemma f_leb_refl a : f_ordered a -> f_leb a a = true.
Proof. intros H. rewrite f_leb_key by done. unfold key_leb, key_ltb. destruct (f_key a) as [[? ?] ?]. cbn [fst snd]. lia. Qed.

(** The absolute value. *)
Definition f_abs (f : float64) : float64 := if f_ltb f f_zero then SFopp f else f.

Lemma f_abs_ordered f : f_ordered f -> f_ordered (f_abs f).
Proof. unfold f_abs. destruct f as [[]|[]| |[]]; done. Qed.

Lemma f_abs_nonneg f : f_ordered f -> f_leb f_zero (f_abs f) = true.
Proof. destruct f as [[]|[]| |[]]; done. Qed.

Lemma f_leb_ltb_trans a b c : f_leb a b = true -> f_ltb b c = true -> f_ltb a c = true.
Proof.
  intros H1 H2. destruct (f_leb_ordered _ _ H1), (f_ltb_ordered _ _ H2). revert H1 H2.
  rewrite f_leb_key, !f_ltb_key by done. unfold key_leb, key_ltb.
  destruct (f_key a) as [[a1 a2] a3], (f_key b) as [[b1 b2] b3], (f_key c) as [[c1 c2] c3]. cbn [fst snd]. lia.
Qed.

(** The greater of two numbers, the first if the second is NaN. *)
Lemma f_leb_max t m v :
  f_ordered m -> f_leb t (if f_ltb m v then v else m) = f_leb t m || f_leb t v.
Proof.
  intros Hm. destruct (f_ltb m v) eqn:E.
  - destruct (f_leb t m) eqn:Et; [|done]. apply f_ltb_leb in E. by rewrite (f_leb_trans _ _ _ Et E).
  - destruct (f_leb t v) eqn:Et; [|by rewrite orb_false_r]. destruct (f_leb_ordered _ _ Et) as [_ Hv].
    rewrite orb_true_r. eapply f_leb_trans; [exact Et|]. rewrite f_leb_negb by done. by rewrite E.
Qed.
(** ** Results that are numbers *)

Definition nonneg_shr (r : shr_record) : Prop := 0 <= shr_m r.

Lemma shr_1_nonneg r : nonneg_shr r -> nonneg_shr (shr_1 r).
Proof. unfold nonneg_shr. destruct r as [[|[p|p|]|[p|p|]] ? ?]; cbn; lia. Qed.

Lemma iter_shr_nonneg p r : nonneg_shr r -> nonneg_shr (SpecFloat.iter_pos shr_1 p r).
Proof. revert r. induction p as [p IH|p IH|]; intros r Hr; cbn; auto using shr_1_nonneg. Qed.

Lemma shr_fexp_nonneg m e l : 0 <= m -> nonneg_shr (shr_fexp f_prec f_emax m e l).1.
Proof.
  intros Hm. unfold shr_fexp, shr.
  assert (H : nonneg_shr (shr_record_of_loc m l)) by (by destruct l as [|[]]).
  destruct (_ - _); cbn [fst]; [done|by apply iter_shr_nonneg|done].
Qed.

Lemma round_nonneg m l : 0 <= m -> 0 <= round_nearest_even m l.
Proof. destruct l as [|[]]; cbn; try (destruct (Z.even m)); lia. Qed.

(** Rounding a magnitude never makes NaN. *)
Lemma binary_round_aux_ordered s m e l : 0 <= m -> f_ordered (binary_round_aux f_prec f_emax s m e l).
Proof.
  intros Hm. unfold binary_round_aux. pose proof (shr_fexp_nonneg m e l Hm) as H1.
  destruct (shr_fexp f_prec f_emax m e l) as [r1 e1]. cbn [fst] in H1.
  pose proof (shr_fexp_nonneg (round_nearest_even (shr_m r1) (loc_of_shr_record r1)) e1 loc_Exact (round_nonneg _ _ H1)) as H2.
  destruct (shr_fexp _ _ (round_nearest_even _ _) _ _) as [r2 e2]. cbn [fst] in H2. unfold nonneg_shr in H2.
  destruct (shr_m r2); [done| |lia]. by case_match.
Qed.

Lemma binary_normalize_ordered z e s : f_ordered (binary_normalize f_prec f_emax z e s).
Proof.
  unfold binary_normalize, binary_round. destruct z as [|p|p]; [done| |];
    destruct (shl_align _ _ _) as [mz ez]; by apply binary_round_aux_ordered.
Qed.

Lemma f_of_int_ordered z : f_ordered (f_of_int z).
Proof. apply binary_normalize_ordered. Qed.

Definition f_finite (f : float64) : Prop := match f with S754_zero _ | S754_finite _ _ _ => True | _ => False end.

Lemma f_div_core m1 e1 m2 e2 s : f_ordered
  (let '(mz, ez, lz) := SFdiv_core_binary f_prec f_emax (Zpos m1) e1 (Zpos m2) e2 in binary_round_aux f_prec f_emax s mz ez lz).
Proof.
  unfold SFdiv_core_binary. set (m' := match _ - _ with Z0 => _ | Zpos _ => _ | Zneg _ => _ end).
  assert (Hm : 0 <= m') by (subst m'; destruct (_ - _); [done|by apply Z.shiftl_nonneg|done]).
  pose proof (Z_div_mod m' (Zpos m2) eq_refl) as Hq. destruct (Z.div_eucl m' (Zpos m2)) as [q r].
  apply binary_round_aux_ordered. nia.
Qed.

(** Dividing a number by a finite number other than zero gives a number. *)
Lemma f_div_ordered a s m e : f_ordered a -> f_ordered (f_div a (S754_finite s m e)).
Proof. unfold f_div, SFdiv. destruct a; try done. intros _. apply f_div_core. Qed.

Lemma f_sub_ordered a b : f_finite a -> f_ordered b -> f_ordered (f_sub a b).
Proof.
  unfold f_sub, SFsub. destruct a as [[]|[]| |[]], b as [[]|[]| |[]]; try done; intros _ _; apply binary_normalize_ordered.
Qed.

(** ** Integers as numbers *)

Lemma digits_low p : 2 ^ (Zpos (digits2_pos p) - 1) <= Zpos p.
Proof.
  induction p as [p IH|p IH|]; cbn [digits2_pos]; [| |done];
    replace (Zpos (Pos.succ (digits2_pos p)) - 1) with (Z.succ (Zpos (digits2_pos p) - 1)) by lia;
    rewrite Z.pow_succ_r by lia; lia.
Qed.

Lemma iter_shr_m p r : nonneg_shr r -> shr_m (SpecFloat.iter_pos shr_1 p r) = shr_m r / 2 ^ Zpos p.
Proof.
  assert (H1 : forall r, nonneg_shr r -> shr_m (shr_1 r) = shr_m r / 2).
  { intros [[|[q|q|]|q] rr rs] H; try done; cbn [shr_1 shr_m]; unfold nonneg_shr in H; cbn in H; try lia;
      [rewrite (Pos2Z.inj_xI q)|rewrite (Pos2Z.inj_xO q)];
      [by rewrite (Z.mul_comm 2), Z.div_add_l, Z.add_0_r by lia|by rewrite Z.mul_comm, Z.div_mul by lia]. }
  revert r. induction p as [p IH|p IH|]; intros r Hr; cbn [SpecFloat.iter_pos]; [| |by apply H1];
    rewrite !IH by auto using shr_1_nonneg, iter_shr_nonneg.
  - rewrite H1 by done. rewrite !Z.div_div by (try apply Z.pow_pos_nonneg; lia). f_equal.
    replace (Zpos p~1) with (1 + Zpos p + Zpos p) by lia. rewrite !Z.pow_add_r by lia. lia.
  - rewrite !Z.div_div by (try apply Z.pow_pos_nonneg; lia). f_equal.
    replace (Zpos p~0) with (Zpos p + Zpos p) by lia. by rewrite Z.pow_add_r by lia.
Qed.

(** Digits dropped by rounding, of a magnitude not below the least exponent. *)
Lemma shr_fexp_pos m e l d :
  0 < m -> -1074 <= e -> m < 2 ^ d ->
  let r := shr_fexp f_prec f_emax m e l in 0 < shr_m r.1 <= m /\ e <= r.2 <= e + Z.max 0 (d - 53).
Proof.
  intros Hm He Hd. destruct m as [|p|p]; [done| |done]. cbv zeta. unfold shr_fexp, fexp, SpecFloat.emin, f_prec, f_emax, Zdigits2.
  set (n := Zpos (digits2_pos p)). pose proof (digits_low p) as Hl. fold n in Hl.
  assert (Hn : n <= d).
  { assert (H : n - 1 < d); [|lia]. apply (Z.pow_lt_mono_r_iff 2); [done| |lia].
    destruct (Z.lt_ge_cases d 0) as [Hneg|]; [|done]. rewrite (Z.pow_neg_r 2 d Hneg) in Hd. lia. }
  assert (Hr : shr_m (shr_record_of_loc (Zpos p) l) = Zpos p) by (by destruct l as [|[]]).
  assert (Hr0 : nonneg_shr (shr_record_of_loc (Zpos p) l)) by (unfold nonneg_shr; lia).
  unfold shr. destruct (_ - e) as [|k|k] eqn:Ek; cbn [fst snd]; [lia| |lia].
  rewrite iter_shr_m, Hr by done. assert (Hk : Zpos k = n - 53) by lia. split; [|lia].
  assert (Hp : 0 < 2 ^ Zpos k) by (apply Z.pow_pos_nonneg; lia). split; [|apply Z.div_le_upper_bound; nia].
  apply Z.div_str_pos. split; [done|]. transitivity (2 ^ (n - 1)); [apply Z.pow_le_mono_r; lia|done].
Qed.

Lemma round_range m l : 0 < m -> 0 < round_nearest_even m l <= m + 1.
Proof. destruct l as [|[]]; cbn; try (destruct (Z.even m)); lia. Qed.

Definition f_nonzero (f : float64) : Prop := exists s m e, f = S754_finite s m e.

Lemma iter_double k p : Zpos (Pos.iter xO p k) = Zpos p * 2 ^ Zpos k.
Proof.
  induction k as [|k IH] using Pos.peano_ind; [cbn; lia|]. rewrite Pos.iter_succ, Pos2Z.inj_succ, Z.pow_succ_r by lia. lia.
Qed.

(** An integer of machine width is neither rounded to zero nor to infinity. *)
Lemma binary_round_int s p : Zpos p < 2 ^ 64 -> exists m e, binary_round f_prec f_emax s p 0 = S754_finite s m e.
Proof.
  intros Hp. unfold binary_round. destruct (shl_align p 0 _) as [mz ez] eqn:E.
  assert (H : -52 <= ez <= 0 /\ Zpos mz < 2 ^ 116).
  { unfold shl_align, fexp, SpecFloat.emin, f_prec, f_emax in E. rewrite Z.add_0_r in E.
    destruct (_ - 0) as [|k|k] eqn:Ek; injection E as <- <-; (split; [lia|]);
      [transitivity (2 ^ 64); [done|by apply Z.pow_lt_mono_r]..|].
    rewrite iter_double. assert (Hk : 2 ^ Zpos k <= 2 ^ 52) by (apply Z.pow_le_mono_r; lia).
    change (2 ^ 116) with (2 ^ 64 * 2 ^ 52). assert (0 < 2 ^ 52) by done. nia. }
  clear E. destruct H as [He Hm]. unfold binary_round_aux.
  destruct (shr_fexp_pos (Zpos mz) ez loc_Exact 116) as [H1 H2]; [lia..|].
  destruct (shr_fexp f_prec f_emax (Zpos mz) ez loc_Exact) as [r1 e1]. cbn [fst snd] in *.
  destruct (round_range (shr_m r1) (loc_of_shr_record r1)) as [H3 H4]; [lia|].
  destruct (shr_fexp_pos (round_nearest_even (shr_m r1) (loc_of_shr_record r1)) e1 loc_Exact 117) as [H5 H6]; [lia..|].
  destruct (shr_fexp _ _ (round_nearest_even _ _) _ _) as [r2 e2]. cbn [fst snd] in *.
  destruct (shr_m r2) as [|q|q]; [lia| |lia]. rewrite (proj2 (Z.leb_le e2 (f_emax - f_prec))) by (unfold f_emax, f_prec; lia).
  by eexists _, _.
Qed.

Lemma f_of_int_finite z : in_int64 z -> f_finite (f_of_int z).
Proof.
  unfold in_int64, f_of_int, binary_normalize. intros Hz. destruct z as [|p|p]; [done| |];
    [destruct (binary_round_int false p) as (m & e & ->)|destruct (binary_round_int true p) as (m & e & ->)]; by (unfold two63 in *; lia) || done.
Qed.

(** A quotient of integers. *)
Lemma f_div_int_ordered a b : f_ordered a -> in_int64 b -> b <> 0 -> f_ordered (f_div a (f_of_int b)).
Proof.
  unfold in_int64, f_of_int, binary_normalize. intros Ha Hb Hz. destruct b as [|p|p]; [done| |];
    [destruct (binary_round_int false p) as (m & e & ->)|destruct (binary_round_int true p) as (m & e & ->)];
    solve [unfold two63 in *; lia | by apply f_div_ordered].
Qed.
