(* ===== verification/Errors.v ===== *)
(** * Errors of the runtime

    The error values the code builds and tests with [errors.Is]/[errors.As]:
    the typed errors of [internal/runtime/store.go] and [task_dispatch.go],
    agent failures of [internal/protocol/responses.go], plain
    [errors.New]/[fmt.Errorf] values, [%w] wrapping and [errors.Join]. *)

From S2P Require Export GoStd.

(** [XOther s] of an enumeration is a string that is none of the named
    constants; the zero value is [XOther ""]. *)

Inductive FailureCategory :=
| FailureCategoryTransient
| FailureCategoryTimeout
| FailureCategoryValidation
| FailureCategoryTrustValidation
| FailureCategoryPolicy
| FailureCategoryGovernanceDenied
| FailureCategoryDeniedByOp
| FailureCategoryProtocol
| FailureCategoryUnrecoverable
| FailureCategoryOther (s : string).
#[export] Instance FailureCategory_eq_dec : EqDecision FailureCategory.
Proof. solve_decision. Defined.
Definition FailureCategory_string (x : FailureCategory) : string :=
  match x with
  | FailureCategoryTransient => "transient"
  | FailureCategoryTimeout => "timeout"
  | FailureCategoryValidation => "validation"
  | FailureCategoryTrustValidation => "trust_validation"
  | FailureCategoryPolicy => "policy"
  | FailureCategoryGovernanceDenied => "governance_denied"
  | FailureCategoryDeniedByOp => "denied_by_operator"
  | FailureCategoryProtocol => "protocol"
  | FailureCategoryUnrecoverable => "unrecoverable"
  | FailureCategoryOther s => s
  end.
#[export] Instance zero_FailureCategory : Zero FailureCategory := FailureCategoryOther "".

Inductive AgentFailureCategory :=
| AgentFailureValidation
| AgentFailurePolicy
| AgentFailureTransient
| AgentFailureUnrecoverable
| AgentFailureUnsupportedMessage
| AgentFailureBadPayload
| AgentFailureCategoryOther (s : string).
#[export] Instance AgentFailureCategory_eq_dec : EqDecision AgentFailureCategory.
Proof. solve_decision. Defined.
Definition AgentFailureCategory_string (x : AgentFailureCategory) : string :=
  match x with
  | AgentFailureValidation => "validation"
  | AgentFailurePolicy => "policy"
  | AgentFailureTransient => "transient"
  | AgentFailureUnrecoverable => "unrecoverable"
  | AgentFailureUnsupportedMessage => "unsupported_message"
  | AgentFailureBadPayload => "bad_payload"
  | AgentFailureCategoryOther s => s
  end.
#[export] Instance zero_AgentFailureCategory : Zero AgentFailureCategory := AgentFailureCategoryOther "".

Record AgentFailure := mkAgentFailure {
  af_Category : AgentFailureCategory;
  af_Message : string;
  af_Details : gmap string string
}.
#[export] Instance eta_AgentFailure : Eta AgentFailure := eta! mkAgentFailure < af_Category ; af_Message ; af_Details >.
#[export] Instance zero_AgentFailure : Zero AgentFailure := mkAgentFailure zero zero zero.

#[warnings="-register-all"]
Inductive error :=
| PlainError (msg : string)
| ConflictError (Resource ID Reason : string)
| NotFoundError (Resource ID : string)
| InvalidTransitionError (Resource ID From To Reason : string)
| FollowUpExecutionError (Category : FailureCategory) (Summary : string) (cause : option error)
| AgentExecutionError (Recipient Kind : string) (Failure : AgentFailure) (Cause : option error)
| PolicyDeniedError (Reason : string)
| WrapError (prefix : string) (cause : error)
| JoinError (head : error) (rest : error).

(** [errors.Join(errs...)]: nil when there is none. *)
Fixpoint errors_Join (errs : list error) : option error :=
  match errs with
  | [] => None
  | e :: errs' => Some (match errors_Join errs' with None => e | Some r => JoinError e r end)
  end.

(** A result or an error: Go's [(value, error)], the value beside an error
    dropped. *)
#[export] Instance result_ret : MRet (sum error) := fun A => inr.
#[export] Instance result_bind : MBind (sum error) := fun A B k m =>
  match m with inl e => inl e | inr a => k a end.

(** An error unless there is a value. *)
Definition or_error {A} (e : error) (o : option A) : error + A :=
  match o with Some a => inr a | None => inl e end.

(** An error if there is one. *)
Definition check (e : option error) : error + unit :=
  match e with Some e => inl e | None => inr tt end.

Definition conflict_message (Resource ID Reason : string) : string :=
  if Reason != "" then Resource +:+ " " +:+ Quote ID +:+ " conflict: " +:+ Reason
  else Resource +:+ " " +:+ Quote ID +:+ " conflict".

Definition not_found_message (Resource ID : string) : string :=
  Resource +:+ " " +:+ Quote ID +:+ " not found".

Definition transition_message (Resource ID From To Reason : string) : string :=
  let text := Resource +:+ " " +:+ Quote ID +:+ " cannot transition from " +:+ From +:+ " to " +:+ To in
  if Reason != "" then text +:+ ": " +:+ Reason else text.

Definition follow_up_message (Summary : string) (cause : option string) : string :=
  if Summary != "" then Summary
  else match cause with Some m => m | None => "follow-up execution failed" end.

(** [err.Error()] *)
Fixpoint error_string (e : error) : string :=
  match e with
  | PlainError msg => msg
  | ConflictError r i w => conflict_message r i w
  | NotFoundError r i => not_found_message r i
  | InvalidTransitionError r i f t w => transition_message r i f t w
  | FollowUpExecutionError _ s cause =>
      follow_up_message s (match cause with Some e' => Some (error_string e') | None => None end)
  | AgentExecutionError r k f cause =>
      r +:+ " " +:+ k +:+ " failed: " +:+ af_Message f +:+
      match cause with Some e' => ": " +:+ error_string e' | None => "" end
  | PolicyDeniedError w => if w == "" then "memory write denied by policy" else "memory write denied by policy: " +:+ w
  | WrapError p e' => p +:+ error_string e'
  | JoinError a b => error_string a +:+ newline +:+ error_string b
  end.

(** The tree [errors.Is] and [errors.As] walk: does an error in it satisfy
    [p]?  ([FollowUpExecutionError], [AgentExecutionError] and a [%w] error unwrap to their cause,
    a joined error to its parts.) *)
Fixpoint error_any (p : error -> bool) (e : error) : bool :=
  p e ||
  match e with
  | FollowUpExecutionError _ _ (Some e') | AgentExecutionError _ _ _ (Some e') => error_any p e'
  | WrapError _ e' => error_any p e'
  | JoinError a b => error_any p a || error_any p b
  | _ => false
  end.

(** [errors.As]: the first error of the tree on which [f] answers. *)
Fixpoint error_as {A} (f : error -> option A) (e : error) : option A :=
  match f e with
  | Some a => Some a
  | None =>
      match e with
      | FollowUpExecutionError _ _ (Some e') | AgentExecutionError _ _ _ (Some e') => error_as f e'
      | WrapError _ e' => error_as f e'
      | JoinError a b => match error_as f a with Some r => Some r | None => error_as f b end
      | _ => None
      end
  end.

(** [ConflictError] and [InvalidTransitionError] unwrap to the two sentinels
    that [IsConflict] accepts. *)
Definition IsConflict (e : error) : bool :=
  error_any (fun e => match e with
                      | ConflictError _ _ _ | InvalidTransitionError _ _ _ _ _ => true
                      | _ => false end) e.

Definition IsNotFound (e : error) : bool :=
  error_any (fun e => match e with NotFoundError _ _ => true | _ => false end) e.

(** internal/memory/errors.go *)
Definition IsPolicyDenied (e : error) : bool :=
  error_any (fun e => match e with PolicyDeniedError _ => true | _ => false end) e.

(** agent_runtime_bridge.go *)
Definition FailureCategoryFromAgentError (e : error) : option FailureCategory :=
  match error_as (fun e => match e with AgentExecutionError _ _ f _ => Some f | _ => None end) e with
  | None => None
  | Some f =>
      Some (match af_Category f with
            | AgentFailureValidation => FailureCategoryValidation
            | AgentFailurePolicy => FailureCategoryPolicy
            | AgentFailureTransient => FailureCategoryTransient
            | AgentFailureUnsupportedMessage | AgentFailureBadPayload => FailureCategoryProtocol
            | AgentFailureUnrecoverable => FailureCategoryUnrecoverable
            | AgentFailureCategoryOther _ => FailureCategoryUnrecoverable
            end)
  end.

(** task_activation.go *)
Definition failureCategoryFromExecutionError (e : option error) : FailureCategory :=
  match e with
  | None => FailureCategoryOther ""
  | Some e =>
      let fallback :=
        match FailureCategoryFromAgentError e with
        | Some c => c
        | None => FailureCategoryUnrecoverable
        end in
      match error_as (fun e => match e with FollowUpExecutionError c _ _ => Some c | _ => None end) e with
      | Some c => if c != FailureCategoryOther "" then c else fallback
      | None => fallback
      end
  end.

Lemma errors_Join_None errs : errors_Join errs = None <-> errs = [].
Proof. by destruct errs. Qed.
