(* ===== verification/TaskSpec.v ===== *)
(** * Task specifications and generated task graphs ([internal/taskspec])

    The types of types.go, generated.go and task_graph.go, [Normalize] and the
    [Validate] methods, with what [Validate] returning nil means. *)

From S2P Require Export Errors.

(** ** Data *)

Inductive RiskLevel :=
| RiskLevelUnknown
| RiskLevelLow
| RiskLevelMedium
| RiskLevelHigh
| RiskLevelCritical
| RiskLevelOther (s : string).
#[export] Instance RiskLevel_eq_dec : EqDecision RiskLevel.
Proof. solve_decision. Defined.
Definition RiskLevel_string (x : RiskLevel) : string :=
  match x with
  | RiskLevelUnknown => "unknown"
  | RiskLevelLow => "low"
  | RiskLevelMedium => "medium"
  | RiskLevelHigh => "high"
  | RiskLevelCritical => "critical"
  | RiskLevelOther s => s
  end.
#[export] Instance zero_RiskLevel : Zero RiskLevel := RiskLevelOther "".

Inductive ApprovalRequirement :=
| ApprovalRequirementNone
| ApprovalRequirementNotify
| ApprovalRequirementRecommended
| ApprovalRequirementMandatory
| ApprovalRequirementOther (s : string).
#[export] Instance ApprovalRequirement_eq_dec : EqDecision ApprovalRequirement.
Proof. solve_decision. Defined.
Definition ApprovalRequirement_string (x : ApprovalRequirement) : string :=
  match x with
  | ApprovalRequirementNone => "none"
  | ApprovalRequirementNotify => "notify"
  | ApprovalRequirementRecommended => "recommended"
  | ApprovalRequirementMandatory => "mandatory"
  | ApprovalRequirementOther s => s
  end.
#[export] Instance zero_ApprovalRequirement : Zero ApprovalRequirement := ApprovalRequirementOther "".

Inductive UserIntentType :=
| UserIntentUnknown
| UserIntentMonthlyReview
| UserIntentDebtVsInvest
| UserIntentBehaviorIntervention
| UserIntentLifeEventTrigger
| UserIntentTaxOptimization
| UserIntentPortfolioRebalance
| UserIntentTypeOther (s : string).
#[export] Instance UserIntentType_eq_dec : EqDecision UserIntentType.
Proof. solve_decision. Defined.
Definition UserIntentType_string (x : UserIntentType) : string :=
  match x with
  | UserIntentUnknown => "unknown"
  | UserIntentMonthlyReview => "monthly_review"
  | UserIntentDebtVsInvest => "debt_vs_invest"
  | UserIntentBehaviorIntervention => "behavior_intervention"
  | UserIntentLifeEventTrigger => "life_event_trigger"
  | UserIntentTaxOptimization => "tax_optimization"
  | UserIntentPortfolioRebalance => "portfolio_rebalance"
  | UserIntentTypeOther s => s
  end.
#[export] Instance zero_UserIntentType : Zero UserIntentType := UserIntentTypeOther "".
#[export] Instance UserIntentType_countable : Countable UserIntentType.
Proof.
  refine (inj_countable'
    (fun x => match x with
| UserIntentUnknown => inl 0%nat | UserIntentMonthlyReview => inl 1%nat | UserIntentDebtVsInvest => inl 2%nat | UserIntentBehaviorIntervention => inl 3%nat | UserIntentLifeEventTrigger => inl 4%nat | UserIntentTaxOptimization => inl 5%nat | UserIntentPortfolioRebalance => inl 6%nat | UserIntentTypeOther s => inr s end)
    (fun c => match c with
| inl 0%nat => UserIntentUnknown | inl 1%nat => UserIntentMonthlyReview | inl 2%nat => UserIntentDebtVsInvest | inl 3%nat => UserIntentBehaviorIntervention | inl 4%nat => UserIntentLifeEventTrigger | inl 5%nat => UserIntentTaxOptimization | inl _ => UserIntentPortfolioRebalance | inr s => UserIntentTypeOther s end) _).
  by intros [].
Defined.

Record TaskScope := mkTaskScope {
  sc_Areas : list string;
  sc_Start : option time;
  sc_End : option time;
  sc_Notes : list string
}.
#[export] Instance eta_TaskScope : Eta TaskScope := eta! mkTaskScope < sc_Areas ; sc_Start ; sc_End ; sc_Notes >.
#[export] Instance zero_TaskScope : Zero TaskScope := mkTaskScope zero zero zero zero.

Record ConstraintSet := mkConstraintSet {
  cs_Hard : list string;
  cs_Soft : list string
}.
#[export] Instance eta_ConstraintSet : Eta ConstraintSet := eta! mkConstraintSet < cs_Hard ; cs_Soft >.
#[export] Instance zero_ConstraintSet : Zero ConstraintSet := mkConstraintSet zero zero.

Record SuccessCriteria := mkSuccessCriteria {
  su_ID : string;
  su_Description : string
}.
#[export] Instance eta_SuccessCriteria : Eta SuccessCriteria := eta! mkSuccessCriteria < su_ID ; su_Description >.
#[export] Instance zero_SuccessCriteria : Zero SuccessCriteria := mkSuccessCriteria zero zero.

Record RequiredEvidenceRef := mkRequiredEvidenceRef {
  re_Type : string;
  re_Reason : string;
  re_Mandatory : bool
}.
#[export] Instance eta_RequiredEvidenceRef : Eta RequiredEvidenceRef := eta! mkRequiredEvidenceRef < re_Type ; re_Reason ; re_Mandatory >.
#[export] Instance zero_RequiredEvidenceRef : Zero RequiredEvidenceRef := mkRequiredEvidenceRef zero zero zero.

Record TaskSpec := mkTaskSpec {
  ts_ID : string;
  ts_Goal : string;
  ts_Scope : TaskScope;
  ts_Constraints : ConstraintSet;
  ts_RiskLevel : RiskLevel;
  ts_SuccessCriteria : list SuccessCriteria;
  ts_RequiredEvidence : list RequiredEvidenceRef;
  ts_ApprovalRequirement : ApprovalRequirement;
  ts_Deadline : option time;
  ts_UserIntentType : UserIntentType;
  ts_CreatedAt : time
}.
#[export] Instance eta_TaskSpec : Eta TaskSpec := eta! mkTaskSpec < ts_ID ; ts_Goal ; ts_Scope ; ts_Constraints ; ts_RiskLevel ; ts_SuccessCriteria ; ts_RequiredEvidence ; ts_ApprovalRequirement ; ts_Deadline ; ts_UserIntentType ; ts_CreatedAt >.
#[export] Instance zero_TaskSpec : Zero TaskSpec := mkTaskSpec zero zero zero zero zero zero zero zero zero zero zero.

Inductive TaskTriggerSource :=
| TaskTriggerSourceLifeEvent
| TaskTriggerSourceStateDiff
| TaskTriggerSourceMemory
| TaskTriggerSourceDeadline
| TaskTriggerSourcePolicyHint
| TaskTriggerSourceOther (s : string).
#[export] Instance TaskTriggerSource_eq_dec : EqDecision TaskTriggerSource.
Proof. solve_decision. Defined.
Definition TaskTriggerSource_string (x : TaskTriggerSource) : string :=
  match x with
  | TaskTriggerSourceLifeEvent => "life_event"
  | TaskTriggerSourceStateDiff => "state_diff"
  | TaskTriggerSourceMemory => "memory"
  | TaskTriggerSourceDeadline => "calendar_deadline"
  | TaskTriggerSourcePolicyHint => "policy_hint"
  | TaskTriggerSourceOther s => s
  end.
#[export] Instance zero_TaskTriggerSource : Zero TaskTriggerSource := TaskTriggerSourceOther "".

Inductive TaskGenerationReasonCode :=
| TaskGenerationReasonLifeEventImpact
| TaskGenerationReasonStateDiff
| TaskGenerationReasonRetrievedMemory
| TaskGenerationReasonCalendarDeadline
| TaskGenerationReasonCodeOther (s : string).
#[export] Instance TaskGenerationReasonCode_eq_dec : EqDecision TaskGenerationReasonCode.
Proof. solve_decision. Defined.
Definition TaskGenerationReasonCode_string (x : TaskGenerationReasonCode) : string :=
  match x with
  | TaskGenerationReasonLifeEventImpact => "life_event_impact"
  | TaskGenerationReasonStateDiff => "state_diff"
  | TaskGenerationReasonRetrievedMemory => "retrieved_memory"
  | TaskGenerationReasonCalendarDeadline => "calendar_deadline"
  | TaskGenerationReasonCodeOther s => s
  end.
#[export] Instance zero_TaskGenerationReasonCode : Zero TaskGenerationReasonCode := TaskGenerationReasonCodeOther "".

Inductive TaskPriority :=
| TaskPriorityLow
| TaskPriorityMedium
| TaskPriorityHigh
| TaskPriorityCritical
| TaskPriorityOther (s : string).
#[export] Instance TaskPriority_eq_dec : EqDecision TaskPriority.
Proof. solve_decision. Defined.
Definition TaskPriority_string (x : TaskPriority) : string :=
  match x with
  | TaskPriorityLow => "low"
  | TaskPriorityMedium => "medium"
  | TaskPriorityHigh => "high"
  | TaskPriorityCritical => "critical"
  | TaskPriorityOther s => s
  end.
#[export] Instance zero_TaskPriority : Zero TaskPriority := TaskPriorityOther "".

Record TaskDueWindow := mkTaskDueWindow {
  dw_NotBefore : option time;
  dw_NotAfter : option time
}.
#[export] Instance eta_TaskDueWindow : Eta TaskDueWindow := eta! mkTaskDueWindow < dw_NotBefore ; dw_NotAfter >.
#[export] Instance zero_TaskDueWindow : Zero TaskDueWindow := mkTaskDueWindow zero zero.

Record TaskGenerationReason := mkTaskGenerationReason {
  tr_Code : TaskGenerationReasonCode;
  tr_Description : string;
  tr_LifeEventID : string;
  tr_LifeEventKind : string;
  tr_EvidenceIDs : list string;
  tr_MemoryIDs : list string;
  tr_StateDiffFields : list string;
  tr_DeadlineEvidence : list string
}.
#[export] Instance eta_TaskGenerationReason : Eta TaskGenerationReason := eta! mkTaskGenerationReason < tr_Code ; tr_Description ; tr_LifeEventID ; tr_LifeEventKind ; tr_EvidenceIDs ; tr_MemoryIDs ; tr_StateDiffFields ; tr_DeadlineEvidence >.
#[export] Instance zero_TaskGenerationReason : Zero TaskGenerationReason := mkTaskGenerationReason zero zero zero zero zero zero zero zero.

Record GeneratedTaskMetadata := mkGeneratedTaskMetadata {
  gm_GeneratedAt : time;
  gm_ParentWorkflowID : string;
  gm_ParentTaskID : string;
  gm_RootCorrelationID : string;
  gm_TriggerSource : TaskTriggerSource;
  gm_Priority : TaskPriority;
  gm_DueWindow : TaskDueWindow;
  gm_RequiresApproval : bool;
  gm_ExecutionDepth : Z;
  gm_GenerationReasons : list TaskGenerationReason
}.
#[export] Instance eta_GeneratedTaskMetadata : Eta GeneratedTaskMetadata := eta! mkGeneratedTaskMetadata < gm_GeneratedAt ; gm_ParentWorkflowID ; gm_ParentTaskID ; gm_RootCorrelationID ; gm_TriggerSource ; gm_Priority ; gm_DueWindow ; gm_RequiresApproval ; gm_ExecutionDepth ; gm_GenerationReasons >.
#[export] Instance zero_GeneratedTaskMetadata : Zero GeneratedTaskMetadata := mkGeneratedTaskMetadata zero zero zero zero zero zero zero zero zero zero.

Record GeneratedTaskSpec := mkGeneratedTaskSpec {
  gt_Task : TaskSpec;
  gt_Metadata : GeneratedTaskMetadata
}.
#[export] Instance eta_GeneratedTaskSpec : Eta GeneratedTaskSpec := eta! mkGeneratedTaskSpec < gt_Task ; gt_Metadata >.
#[export] Instance zero_GeneratedTaskSpec : Zero GeneratedTaskSpec := mkGeneratedTaskSpec zero zero.

Record TaskDependency := mkTaskDependency {
  td_UpstreamTaskID : string;
  td_DownstreamTaskID : string;
  td_Reason : string;
  td_Mandatory : bool
}.
#[export] Instance eta_TaskDependency : Eta TaskDependency := eta! mkTaskDependency < td_UpstreamTaskID ; td_DownstreamTaskID ; td_Reason ; td_Mandatory >.
#[export] Instance zero_TaskDependency : Zero TaskDependency := mkTaskDependency zero zero zero zero.

Record TaskGraph := mkTaskGraph {
  tg_GraphID : string;
  tg_ParentWorkflowID : string;
  tg_ParentTaskID : string;
  tg_TriggerSource : TaskTriggerSource;
  tg_GeneratedAt : time;
  tg_GeneratedTasks : list GeneratedTaskSpec;
  tg_Dependencies : list TaskDependency;
  tg_SuppressionNotes : list string;
  tg_GenerationSummary : string
}.
#[export] Instance eta_TaskGraph : Eta TaskGraph := eta! mkTaskGraph < tg_GraphID ; tg_ParentWorkflowID ; tg_ParentTaskID ; tg_TriggerSource ; tg_GeneratedAt ; tg_GeneratedTasks ; tg_Dependencies ; tg_SuppressionNotes ; tg_GenerationSummary >.
#[export] Instance zero_TaskGraph : Zero TaskGraph := mkTaskGraph zero zero zero zero zero zero zero zero zero.

#[export] Instance SuccessCriteria_eq_dec : EqDecision SuccessCriteria.
Proof. solve_decision. Defined.
#[export] Instance TaskSpec_eq_dec : EqDecision TaskSpec.
Proof.
  assert (EqDecision TaskScope) by solve_decision.
  assert (EqDecision ConstraintSet) by solve_decision.
  assert (EqDecision RequiredEvidenceRef) by solve_decision.
  solve_decision.
Defined.
#[export] Instance TaskDependency_eq_dec : EqDecision TaskDependency.
Proof. solve_decision. Defined.
#[export] Instance GeneratedTaskMetadata_eq_dec : EqDecision GeneratedTaskMetadata.
Proof.
  assert (EqDecision TaskDueWindow) by solve_decision.
  assert (EqDecision TaskGenerationReason) by solve_decision.
  solve_decision.
Defined.

(** ** validation.go *)

Definition validRiskLevel (level : RiskLevel) : bool :=
  match level with
  | RiskLevelUnknown | RiskLevelLow | RiskLevelMedium | RiskLevelHigh | RiskLevelCritical => true
  | RiskLevelOther _ => false
  end.

Definition validApprovalRequirement (requirement : ApprovalRequirement) : bool :=
  match requirement with
  | ApprovalRequirementNone | ApprovalRequirementNotify
  | ApprovalRequirementRecommended | ApprovalRequirementMandatory => true
  | ApprovalRequirementOther _ => false
  end.

Definition validUserIntentType (intent : UserIntentType) : bool :=
  match intent with
  | UserIntentUnknown | UserIntentMonthlyReview | UserIntentDebtVsInvest
  | UserIntentBehaviorIntervention | UserIntentLifeEventTrigger
  | UserIntentTaxOptimization | UserIntentPortfolioRebalance => true
  | UserIntentTypeOther _ => false
  end.

(** The loop of [trimNonEmpty], with the set of strings already kept. *)
Fixpoint trimNonEmpty_loop (seen : gset string) (items : list string) : list string :=
  match items with
  | [] => []
  | item :: items' =>
      let trimmed := TrimSpace item in
      if trimmed == "" then trimNonEmpty_loop seen items'
      else if bool_decide (trimmed ∈ seen) then trimNonEmpty_loop seen items'
      else trimmed :: trimNonEmpty_loop ({[trimmed]} ∪ seen) items'
  end.

Definition trimNonEmpty (items : list string) : list string := trimNonEmpty_loop ∅ items.

Definition trimSuccessCriteria (c : SuccessCriteria) : SuccessCriteria :=
  c <| su_ID := TrimSpace (su_ID c) |> <| su_Description := TrimSpace (su_Description c) |>.

Definition trimRequiredEvidence (r : RequiredEvidenceRef) : RequiredEvidenceRef :=
  r <| re_Type := TrimSpace (re_Type r) |> <| re_Reason := TrimSpace (re_Reason r) |>.

(** [TaskSpec.Normalize].  The receiver is a copy, but its [SuccessCriteria]
    and [RequiredEvidence] slices share their arrays with the caller's value,
    so the two loops also rewrite the caller's: [Normalize_caller]. *)
Definition Normalize (t : TaskSpec) : TaskSpec :=
  t <| ts_Goal := TrimSpace (ts_Goal t) |>
    <| ts_Scope := (ts_Scope t) <| sc_Areas := trimNonEmpty (sc_Areas (ts_Scope t)) |>
                                <| sc_Notes := trimNonEmpty (sc_Notes (ts_Scope t)) |> |>
    <| ts_Constraints := (ts_Constraints t)
                           <| cs_Hard := trimNonEmpty (cs_Hard (ts_Constraints t)) |>
                           <| cs_Soft := trimNonEmpty (cs_Soft (ts_Constraints t)) |> |>
    <| ts_RiskLevel :=
         if negb (validRiskLevel (ts_RiskLevel t)) then RiskLevelUnknown else ts_RiskLevel t |>
    <| ts_ApprovalRequirement :=
         if negb (validApprovalRequirement (ts_ApprovalRequirement t)) then ApprovalRequirementNone
         else ts_ApprovalRequirement t |>
    <| ts_UserIntentType :=
         if negb (validUserIntentType (ts_UserIntentType t)) then UserIntentUnknown
         else ts_UserIntentType t |>
    <| ts_SuccessCriteria := trimSuccessCriteria <$> ts_SuccessCriteria t |>
    <| ts_RequiredEvidence := trimRequiredEvidence <$> ts_RequiredEvidence t |>.

Definition Normalize_caller (t : TaskSpec) : TaskSpec :=
  t <| ts_SuccessCriteria := trimSuccessCriteria <$> ts_SuccessCriteria t |>
    <| ts_RequiredEvidence := trimRequiredEvidence <$> ts_RequiredEvidence t |>.

(** [if cond { errs = append(errs, e) }] *)
Definition err_if (b : bool) (msg : string) : list error := if b then [PlainError msg] else [].

Definition blank (s : string) : bool := TrimSpace s == "".

Definition criteria_errors (i : nat) (c : SuccessCriteria) : list error :=
  err_if (blank (su_ID c)) ("success criteria " +:+ Itoa (Z.of_nat i) +:+ " must have an id") ++
  err_if (blank (su_Description c)) ("success criteria " +:+ Itoa (Z.of_nat i) +:+ " must have a description").

Definition evidence_errors (i : nat) (r : RequiredEvidenceRef) : list error :=
  err_if (blank (re_Type r)) ("required evidence " +:+ Itoa (Z.of_nat i) +:+ " must have a type") ++
  err_if (blank (re_Reason r)) ("required evidence " +:+ Itoa (Z.of_nat i) +:+ " must have a reason").

(** [t.After(u)] on optional times, as in [s != nil && e != nil && s.After(e)]. *)
Definition window_inverted (s e : option time) : bool :=
  match s, e with Some s, Some e => After s e | _, _ => false end.

(** [TaskSpec.Validate] *)
Definition TaskSpec_Validate (t : TaskSpec) : option error :=
  errors_Join
    (err_if (blank (ts_ID t)) "task spec id is required" ++
     err_if (blank (ts_Goal t)) "task spec goal is required" ++
     err_if (bool_decide (ts_SuccessCriteria t = [])) "at least one success criteria is required" ++
     err_if (negb (validRiskLevel (ts_RiskLevel t)))
       ("invalid risk level " +:+ Quote (RiskLevel_string (ts_RiskLevel t))) ++
     err_if (negb (validApprovalRequirement (ts_ApprovalRequirement t)))
       ("invalid approval requirement " +:+ Quote (ApprovalRequirement_string (ts_ApprovalRequirement t))) ++
     err_if (negb (validUserIntentType (ts_UserIntentType t)))
       ("invalid user intent type " +:+ Quote (UserIntentType_string (ts_UserIntentType t))) ++
     err_if (window_inverted (sc_Start (ts_Scope t)) (sc_End (ts_Scope t)))
       "task scope start must be before end" ++
     concat (imap criteria_errors (ts_SuccessCriteria t)) ++
     concat (imap evidence_errors (ts_RequiredEvidence t))).

(** ** generated.go *)

Definition validTaskPriority (priority : TaskPriority) : bool :=
  match priority with
  | TaskPriorityLow | TaskPriorityMedium | TaskPriorityHigh | TaskPriorityCritical => true
  | TaskPriorityOther _ => false
  end.

Definition validTaskTriggerSource (source : TaskTriggerSource) : bool :=
  match source with
  | TaskTriggerSourceLifeEvent | TaskTriggerSourceStateDiff | TaskTriggerSourceMemory
  | TaskTriggerSourceDeadline | TaskTriggerSourcePolicyHint => true
  | TaskTriggerSourceOther _ => false
  end.

Definition errMissingGeneratedAt := PlainError "generated task metadata generated_at is required".
Definition errMissingParentWorkflowID := PlainError "generated task metadata parent_workflow_id is required".
Definition errMissingParentTaskID := PlainError "generated task metadata parent_task_id is required".
Definition errMissingTriggerSource := PlainError "generated task metadata trigger_source is required".
Definition errInvalidTaskPriority := PlainError "generated task metadata priority is invalid".
Definition errInvalidExecutionDepth :=
  PlainError "generated task metadata execution_depth cannot be negative".
Definition errInvalidDueWindow :=
  PlainError "generated task metadata due_window not_before must be before not_after".

(** [GeneratedTaskSpec.Validate] *)
Definition GeneratedTaskSpec_Validate (g : GeneratedTaskSpec) : option error :=
  let m := gt_Metadata g in
  match TaskSpec_Validate (gt_Task g) with
  | Some e => Some e
  | None =>
      if IsZero (gm_GeneratedAt m) then Some errMissingGeneratedAt
      else if gm_ParentWorkflowID m == "" then Some errMissingParentWorkflowID
      else if gm_ParentTaskID m == "" then Some errMissingParentTaskID
      else if negb (validTaskTriggerSource (gm_TriggerSource m)) then Some errMissingTriggerSource
      else if negb (validTaskPriority (gm_Priority m)) then Some errInvalidTaskPriority
      else if (gm_ExecutionDepth m <? 0)%Z then Some errInvalidExecutionDepth
      else if window_inverted (dw_NotBefore (gm_DueWindow m)) (dw_NotAfter (gm_DueWindow m))
      then Some errInvalidDueWindow
      else None
  end.

Definition ToTaskSpec (g : GeneratedTaskSpec) : TaskSpec := gt_Task g.

(** ** task_graph.go *)

(** The first loop of [TaskGraph.Validate]: the errors and the ids collected. *)
Fixpoint validate_tasks (g : TaskGraph) (i : nat) (taskIDs : gset string)
    (tasks : list GeneratedTaskSpec) : list error * gset string :=
  match tasks with
  | [] => ([], taskIDs)
  | task :: tasks' =>
      match GeneratedTaskSpec_Validate task with
      | Some e =>
          let '(errs, ids) := validate_tasks g (S i) taskIDs tasks' in
          (WrapError ("generated task " +:+ Itoa (Z.of_nat i) +:+ " invalid: ") e :: errs, ids)
      | None =>
          let here :=
            err_if (gm_ParentWorkflowID (gt_Metadata task) != tg_ParentWorkflowID g)
              ("generated task " +:+ Itoa (Z.of_nat i) +:+ " parent_workflow_id mismatch") ++
            err_if (gm_ParentTaskID (gt_Metadata task) != tg_ParentTaskID g)
              ("generated task " +:+ Itoa (Z.of_nat i) +:+ " parent_task_id mismatch") in
          let id := ts_ID (gt_Task task) in
          if bool_decide (id ∈ taskIDs) then
            let '(errs, ids) := validate_tasks g (S i) taskIDs tasks' in
            (here ++ PlainError ("duplicate generated task id " +:+ Quote id +:+ " in task graph") :: errs, ids)
          else
            let '(errs, ids) := validate_tasks g (S i) ({[id]} ∪ taskIDs) tasks' in
            (here ++ errs, ids)
      end
  end.

Definition dependency_errors (taskIDs : gset string) (i : nat) (dep : TaskDependency) : list error :=
  if blank (td_UpstreamTaskID dep) || blank (td_DownstreamTaskID dep) then
    [PlainError ("task dependency " +:+ Itoa (Z.of_nat i) +:+ " requires upstream and downstream ids")]
  else
    err_if (td_UpstreamTaskID dep == td_DownstreamTaskID dep)
      ("task dependency " +:+ Itoa (Z.of_nat i) +:+ " cannot self-reference " +:+ Quote (td_UpstreamTaskID dep)) ++
    err_if (negb (bool_decide (td_UpstreamTaskID dep ∈ taskIDs)))
      ("task dependency " +:+ Itoa (Z.of_nat i) +:+ " references unknown upstream task "
       +:+ Quote (td_UpstreamTaskID dep)) ++
    err_if (negb (bool_decide (td_DownstreamTaskID dep ∈ taskIDs)))
      ("task dependency " +:+ Itoa (Z.of_nat i) +:+ " references unknown downstream task "
       +:+ Quote (td_DownstreamTaskID dep)) ++
    err_if (blank (td_Reason dep)) ("task dependency " +:+ Itoa (Z.of_nat i) +:+ " requires a reason").

(** [TaskGraph.Validate] *)
Definition TaskGraph_Validate (g : TaskGraph) : option error :=
  let '(task_errs, taskIDs) := validate_tasks g 0 ∅ (tg_GeneratedTasks g) in
  errors_Join
    (err_if (blank (tg_GraphID g)) "task graph graph_id is required" ++
     err_if (blank (tg_ParentWorkflowID g)) "task graph parent_workflow_id is required" ++
     err_if (blank (tg_ParentTaskID g)) "task graph parent_task_id is required" ++
     err_if (negb (validTaskTriggerSource (tg_TriggerSource g))) "task graph trigger_source is required" ++
     err_if (IsZero (tg_GeneratedAt g)) "task graph generated_at is required" ++
     err_if (match tg_GeneratedTasks g with [] => true | _ => false end)
       "task graph requires at least one generated task" ++
     task_errs ++
     concat (imap (dependency_errors taskIDs) (tg_Dependencies g))).

(** * Theorems *)

(** ** What [Validate] accepts *)

Lemma errors_Join_app l1 l2 :
  errors_Join (l1 ++ l2) = None <-> errors_Join l1 = None /\ errors_Join l2 = None.
Proof. rewrite !errors_Join_None. split; [apply app_eq_nil|]. by intros [-> ->]. Qed.

Lemma errors_Join_err_if b msg : errors_Join (err_if b msg) = None <-> b = false.
Proof. rewrite errors_Join_None. by destruct b. Qed.

Lemma errors_Join_imap {A} (f : nat -> A -> list error) l :
  errors_Join (concat (imap f l)) = None <-> forall i x, l !! i = Some x -> errors_Join (f i x) = None.
Proof.
  revert f. induction l as [|x l IH]; intros f; simpl.
  - split; [by intros _ [|]|done].
  - rewrite errors_Join_app, IH. split.
    + intros [H1 H2] [|i] y; simpl; [by intros [= <-]|]. apply H2.
    + intros H. split; [by apply (H 0)|]. intros i y. apply (H (S i)).
Qed.

Create Rewrite HintDb validate.
#[export] Hint Rewrite errors_Join_app errors_Join_err_if @errors_Join_imap
  bool_decide_eq_false negb_false_iff : validate.

Lemma blank_false s : blank s = false <-> TrimSpace s <> "".
Proof. unfold blank. by rewrite bool_decide_eq_false. Qed.

(** A well-formed task specification. *)
Record TaskSpec_ok (t : TaskSpec) : Prop := {
  ok_ID : TrimSpace (ts_ID t) <> "";
  ok_Goal : TrimSpace (ts_Goal t) <> "";
  ok_has_criteria : ts_SuccessCriteria t <> [];
  ok_RiskLevel : validRiskLevel (ts_RiskLevel t) = true;
  ok_Approval : validApprovalRequirement (ts_ApprovalRequirement t) = true;
  ok_Intent : validUserIntentType (ts_UserIntentType t) = true;
  ok_window : window_inverted (sc_Start (ts_Scope t)) (sc_End (ts_Scope t)) = false;
  ok_criteria : forall c, c ∈ ts_SuccessCriteria t ->
    TrimSpace (su_ID c) <> "" /\ TrimSpace (su_Description c) <> "";
  ok_evidence : forall r, r ∈ ts_RequiredEvidence t ->
    TrimSpace (re_Type r) <> "" /\ TrimSpace (re_Reason r) <> ""
}.

Lemma TaskSpec_Validate_spec (t : TaskSpec) : TaskSpec_Validate t = None <-> TaskSpec_ok t.
Proof.
  unfold TaskSpec_Validate. autorewrite with validate. rewrite !blank_false.
  unfold criteria_errors, evidence_errors. split.
  - intros (?&?&?&?&?&?&?&Hc&He). split; try done.
    + intros c [i Hi]%list_elem_of_lookup. specialize (Hc i c Hi).
      autorewrite with validate in Hc. by rewrite !blank_false in Hc.
    + intros r [i Hi]%list_elem_of_lookup. specialize (He i r Hi).
      autorewrite with validate in He. by rewrite !blank_false in He.
  - intros [? ? ? ? ? ? ? Hc He]. do 7 (split; [done|]). split.
    + intros i c Hi. autorewrite with validate. rewrite !blank_false.
      apply Hc. by eapply list_elem_of_lookup_2.
    + intros i r Hi. autorewrite with validate. rewrite !blank_false.
      apply He. by eapply list_elem_of_lookup_2.
Qed.

(** ** [Normalize] *)

Lemma trimNonEmpty_loop_elem seen l x :
  x ∈ trimNonEmpty_loop seen l -> x <> "" /\ TrimSpace x = x /\ x ∉ seen.
Proof.
  revert seen. induction l as [|y l IH]; intros seen; simpl; [by intros ?%elem_of_nil|].
  repeat case_bool_decide; [apply IH..|].
  intros [->|H']%elem_of_cons.
  - split_and!; [done|apply TrimSpace_idemp|done].
  - apply IH in H' as (?&?&Hn). split_and!; [done..|].
    intros Hs. apply Hn, elem_of_union. by right.
Qed.

Lemma trimNonEmpty_loop_NoDup seen l : NoDup (trimNonEmpty_loop seen l).
Proof.
  revert seen. induction l as [|y l IH]; intros seen; simpl; [constructor|].
  repeat case_bool_decide; [apply IH..|]. constructor; [|apply IH].
  intros (_&_&Hn)%trimNonEmpty_loop_elem. apply Hn, elem_of_union. left. by apply elem_of_singleton.
Qed.

Lemma trimNonEmpty_loop_fix seen l :
  NoDup l -> (forall x, x ∈ l -> x <> "" /\ TrimSpace x = x /\ x ∉ seen) ->
  trimNonEmpty_loop seen l = l.
Proof.
  intros Hnd. revert seen. induction Hnd as [|x l Hx Hnd IH]; intros seen H; simpl; [done|].
  destruct (H x) as (H1 & H2 & H3); [by left|]. rewrite H2.
  rewrite !bool_decide_eq_false_2 by done. f_equal. apply IH.
  intros y Hy. destruct (H y) as (?&?&?); [by right|]. split_and!; try done.
  intros [->%elem_of_singleton|?]%elem_of_union; done.
Qed.

Lemma trimNonEmpty_idemp l : trimNonEmpty (trimNonEmpty l) = trimNonEmpty l.
Proof.
  unfold trimNonEmpty. apply trimNonEmpty_loop_fix; [apply trimNonEmpty_loop_NoDup|].
  intros x (?&?&_)%trimNonEmpty_loop_elem. split_and!; [done..|]. apply not_elem_of_empty.
Qed.

Lemma trimSuccessCriteria_idemp c : trimSuccessCriteria (trimSuccessCriteria c) = trimSuccessCriteria c.
Proof. destruct c. unfold trimSuccessCriteria, set_field. simpl. by rewrite !TrimSpace_idemp. Qed.

Lemma trimRequiredEvidence_idemp r : trimRequiredEvidence (trimRequiredEvidence r) = trimRequiredEvidence r.
Proof. destruct r. unfold trimRequiredEvidence, set_field. simpl. by rewrite !TrimSpace_idemp. Qed.

Lemma fmap_idemp {A} (f : A -> A) (l : list A) : (forall x, f (f x) = f x) -> (f <$> (f <$> l)) = (f <$> l).
Proof. intros H. rewrite <- list_fmap_compose. apply list_fmap_ext. intros. apply H. Qed.

Lemma Normalize_idemp (t : TaskSpec) : Normalize (Normalize t) = Normalize t.
Proof.
  destruct t as [id goal [areas st en notes] [hard soft] risk crit ev appr dl intent cr].
  cbv beta iota zeta delta -[TrimSpace trimNonEmpty trimSuccessCriteria trimRequiredEvidence
    fmap validRiskLevel validApprovalRequirement validUserIntentType].
  rewrite !TrimSpace_idemp, !trimNonEmpty_idemp, !fmap_idemp
    by auto using trimSuccessCriteria_idemp, trimRequiredEvidence_idemp.
  by f_equal; [destruct risk|destruct appr|destruct intent].
Qed.

(** After [Normalize] the enumerations are valid, the texts trimmed and the
    string lists free of blanks and duplicates. *)
Lemma Normalize_valid (t : TaskSpec) :
  let n := Normalize t in
  validRiskLevel (ts_RiskLevel n) = true /\
  validApprovalRequirement (ts_ApprovalRequirement n) = true /\
  validUserIntentType (ts_UserIntentType n) = true /\
  NoDup (sc_Areas (ts_Scope n)) /\ NoDup (cs_Hard (ts_Constraints n)).
Proof.
  unfold Normalize. rsimpl. split_and!.
  1-3: by case_match eqn:E; [|apply negb_false_iff in E].
  all: apply trimNonEmpty_loop_NoDup.
Qed.

(** ** Well-formed task graphs *)

Record GeneratedTaskSpec_ok (g : GeneratedTaskSpec) : Prop := {
  gok_task : TaskSpec_ok (gt_Task g);
  gok_at : gm_GeneratedAt (gt_Metadata g) <> zero_time;
  gok_wf : gm_ParentWorkflowID (gt_Metadata g) <> "";
  gok_parent : gm_ParentTaskID (gt_Metadata g) <> "";
  gok_source : validTaskTriggerSource (gm_TriggerSource (gt_Metadata g)) = true;
  gok_priority : validTaskPriority (gm_Priority (gt_Metadata g)) = true;
  gok_depth : (0 <= gm_ExecutionDepth (gt_Metadata g))%Z;
  gok_window : window_inverted (dw_NotBefore (gm_DueWindow (gt_Metadata g)))
                               (dw_NotAfter (gm_DueWindow (gt_Metadata g))) = false
}.

Lemma GeneratedTaskSpec_Validate_spec g :
  GeneratedTaskSpec_Validate g = None <-> GeneratedTaskSpec_ok g.
Proof.
  unfold GeneratedTaskSpec_Validate. split.
  - destruct (TaskSpec_Validate (gt_Task g)) eqn:E1; [done|]. apply TaskSpec_Validate_spec in E1.
    unfold IsZero. repeat case_match; try done. intros _.
    repeat match goal with
    | H : bool_decide _ = false |- _ => apply bool_decide_eq_false in H
    | H : negb _ = false |- _ => apply negb_false_iff in H
    end. split; try done; unfold zero_time; lia.
  - intros [H1%TaskSpec_Validate_spec H2 H3 H4 H5 H6 H7 H8]. rewrite H1, H5, H6, H8. unfold IsZero.
    rewrite !bool_decide_eq_false_2 by done. unfold zero_time in H2.
    rewrite (proj2 (Z.eqb_neq _ _) H2), (proj2 (Z.ltb_ge _ _) H7). done.
Qed.

Definition task_ids (g : TaskGraph) : list string :=
  (fun t => ts_ID (gt_Task t)) <$> tg_GeneratedTasks g.

Record dependency_ok (ids : list string) (d : TaskDependency) : Prop := {
  dok_up : TrimSpace (td_UpstreamTaskID d) <> "";
  dok_down : TrimSpace (td_DownstreamTaskID d) <> "";
  dok_distinct : td_UpstreamTaskID d <> td_DownstreamTaskID d;
  dok_up_known : td_UpstreamTaskID d ∈ ids;
  dok_down_known : td_DownstreamTaskID d ∈ ids;
  dok_reason : TrimSpace (td_Reason d) <> ""
}.

(** A well-formed task graph (nothing is said about cycles: [Validate] does
    not look for them). *)
Record TaskGraph_ok (g : TaskGraph) : Prop := {
  tgok_id : TrimSpace (tg_GraphID g) <> "";
  tgok_wf : TrimSpace (tg_ParentWorkflowID g) <> "";
  tgok_parent : TrimSpace (tg_ParentTaskID g) <> "";
  tgok_source : validTaskTriggerSource (tg_TriggerSource g) = true;
  tgok_at : tg_GeneratedAt g <> zero_time;
  tgok_nonempty : tg_GeneratedTasks g <> [];
  tgok_tasks : forall t, t ∈ tg_GeneratedTasks g ->
    GeneratedTaskSpec_ok t /\
    gm_ParentWorkflowID (gt_Metadata t) = tg_ParentWorkflowID g /\
    gm_ParentTaskID (gt_Metadata t) = tg_ParentTaskID g;
  tgok_unique : NoDup (task_ids g);
  tgok_deps : forall d, d ∈ tg_Dependencies g -> dependency_ok (task_ids g) d
}.

Lemma validate_tasks_spec g i seen tasks errs ids :
  validate_tasks g i seen tasks = (errs, ids) ->
  errors_Join errs = None <->
    (forall t, t ∈ tasks -> GeneratedTaskSpec_ok t /\
       gm_ParentWorkflowID (gt_Metadata t) = tg_ParentWorkflowID g /\
       gm_ParentTaskID (gt_Metadata t) = tg_ParentTaskID g) /\
    NoDup ((fun t => ts_ID (gt_Task t)) <$> tasks) /\
    (forall t, t ∈ tasks -> ts_ID (gt_Task t) ∉ seen).
Proof.
  revert i seen errs ids. induction tasks as [|t tasks IH]; intros i seen errs ids; simpl.
  { intros [= <- <-]. split; [intros _|done].
    split_and!; [by intros ? ?%elem_of_nil|constructor|by intros ? ?%elem_of_nil]. }
  destruct (GeneratedTaskSpec_Validate t) eqn:Ev.
  { destruct (validate_tasks g (S i) seen tasks) as [es js] eqn:E. intros [= <- <-].
    split; [done|]. intros [H _]. destruct (H t) as [Hok _]; [by left|].
    apply GeneratedTaskSpec_Validate_spec in Hok. congruence. }
  apply GeneratedTaskSpec_Validate_spec in Ev.
  case_bool_decide as Hseen.
  { destruct (validate_tasks g (S i) seen tasks) as [es js] eqn:E. intros [= <- <-].
    rewrite errors_Join_app. simpl. split; [by intros [_ ?]|].
    intros (_ & _ & H). destruct (H t); [by left|done]. }
  destruct (validate_tasks g (S i) ({[ts_ID (gt_Task t)]} ∪ seen) tasks) as [es js] eqn:E.
  intros [= <- <-]. apply IH in E. autorewrite with validate. rewrite E. clear E IH.
  rewrite !bool_decide_eq_true. split.
  - intros ((H1 & H2) & H3 & H4 & H5). split_and!.
    + intros t' [->|Ht']%elem_of_cons; auto.
    + constructor; [|done]. intros (t' & Heq & Ht')%list_elem_of_fmap.
      apply (H5 t' Ht'), elem_of_union. left. apply elem_of_singleton. done.
    + intros t' [->|Ht']%elem_of_cons; [done|]. intros Hs. apply (H5 t' Ht'), elem_of_union. by right.
  - intros (H1 & [H2 H2']%NoDup_cons & H3). split_and!.
    + destruct (H1 t) as (_&?&?); [by left|done].
    + destruct (H1 t) as (_&?&?); [by left|done].
    + intros t' Ht'. apply H1. by right.
    + done.
    + intros t' Ht' [Heq%elem_of_singleton|Hs]%elem_of_union.
      * apply H2, list_elem_of_fmap. by exists t'.
      * by apply (H3 t'); [right|].
Qed.

(** The ids collected are those of the tasks, when there was no error. *)
Lemma validate_tasks_ids g i seen tasks errs ids x :
  validate_tasks g i seen tasks = (errs, ids) -> errors_Join errs = None ->
  x ∈ ids <-> x ∈ seen \/ x ∈ ((fun t => ts_ID (gt_Task t)) <$> tasks).
Proof.
  revert i seen errs ids. induction tasks as [|t tasks IH]; intros i seen errs ids; simpl.
  { intros [= <- <-] _. split; [by left|]. intros [?|?%elem_of_nil]; done. }
  destruct (GeneratedTaskSpec_Validate t).
  { by destruct (validate_tasks g (S i) seen tasks) as [es js]; intros [= <- <-]. }
  case_bool_decide.
  { destruct (validate_tasks g (S i) seen tasks) as [es js]; intros [= <- <-].
    rewrite errors_Join_app. by intros [_ ?]. }
  destruct (validate_tasks g (S i) ({[ts_ID (gt_Task t)]} ∪ seen) tasks) as [es js] eqn:E.
  intros [= <- <-]. rewrite errors_Join_app. intros [_ He].
  rewrite (IH _ _ _ _ E He), elem_of_union, elem_of_singleton, elem_of_cons. tauto.
Qed.

Lemma dependency_errors_spec taskIDs ids i d :
  (forall x, x ∈ taskIDs <-> x ∈ ids) ->
  errors_Join (dependency_errors taskIDs i d) = None <-> dependency_ok ids d.
Proof.
  intros Hids. unfold dependency_errors. destruct (blank _ || blank _) eqn:E.
  - split; [done|]. intros [H1%blank_false H2%blank_false _ _ _ _]. by rewrite H1, H2 in E.
  - apply orb_false_iff in E as [H1%blank_false H2%blank_false].
    autorewrite with validate. rewrite !bool_decide_eq_true, blank_false, !Hids.
    by split; [intros (?&?&?&?)|intros []].
Qed.

(** [TaskGraph.Validate] accepts exactly the well-formed graphs. *)
Lemma TaskGraph_Validate_spec (g : TaskGraph) : TaskGraph_Validate g = None <-> TaskGraph_ok g.
Proof.
  unfold TaskGraph_Validate.
  destruct (validate_tasks g 0 ∅ (tg_GeneratedTasks g)) as [errs ids] eqn:E.
  pose proof (validate_tasks_spec _ _ _ _ _ _ E) as Hspec.
  autorewrite with validate. rewrite !blank_false.
  assert (Hdeps : errors_Join errs = None ->
    (forall i d, tg_Dependencies g !! i = Some d -> errors_Join (dependency_errors ids i d) = None)
    <-> forall d, d ∈ tg_Dependencies g -> dependency_ok (task_ids g) d).
  { intros He. assert (Hids : forall x, x ∈ ids <-> x ∈ task_ids g).
    { intros x. rewrite (validate_tasks_ids _ _ _ _ _ _ _ E He). set_unfold. tauto. }
    split.
    - intros H d [i Hi]%list_elem_of_lookup. eapply dependency_errors_spec; eauto.
    - intros H i d Hi. eapply dependency_errors_spec; [done|]. eapply H, list_elem_of_lookup_2, Hi. }
  split.
  - intros (H1 & H2 & H3 & H4 & H5 & H6 & H7 & H8). pose proof (proj1 Hspec H7) as (Ht & Hn & _).
    split; try done.
    + unfold IsZero in H5. unfold zero_time. lia.
    + by destruct (tg_GeneratedTasks g).
    + by apply Hdeps.
  - intros [H1 H2 H3 H4 H5 H6 H7 H8 H9].
    assert (He : errors_Join errs = None).
    { by apply Hspec. }
    split_and!; try done.
    + unfold IsZero, zero_time in *. lia.
    + by destruct (tg_GeneratedTasks g).
    + by apply Hdeps.
Qed.

(** ** The type of a valid task *)

(** C40: [Validate] is the type checker of tasks and graphs: it accepts exactly
    the well-formed values, so every field constraint and every reference of
    a dependency to a task of its graph holds after it; and [Normalize] is
    idempotent, always makes the enumerations valid and leaves lists of
    distinct, nonempty, trimmed texts, whatever it was given. *)
Theorem validation_is_exact :
  (forall t, TaskSpec_Validate t = None <-> TaskSpec_ok t) /\
  (forall g, GeneratedTaskSpec_Validate g = None <-> GeneratedTaskSpec_ok g) /\
  (forall g, TaskGraph_Validate g = None <-> TaskGraph_ok g) /\
  (forall t, Normalize (Normalize t) = Normalize t) /\
  (forall t, validRiskLevel (ts_RiskLevel (Normalize t)) = true /\
     validApprovalRequirement (ts_ApprovalRequirement (Normalize t)) = true /\
     validUserIntentType (ts_UserIntentType (Normalize t)) = true) /\
  (forall t l, l = sc_Areas (ts_Scope (Normalize t)) \/ l = cs_Hard (ts_Constraints (Normalize t)) \/
     l = cs_Soft (ts_Constraints (Normalize t)) ->
     NoDup l /\ forall x, x ∈ l -> x <> "" /\ TrimSpace x = x).
Proof.
  split; [exact TaskSpec_Validate_spec|]. split; [exact GeneratedTaskSpec_Validate_spec|].
  split; [exact TaskGraph_Validate_spec|]. split; [exact Normalize_idemp|]. split.
  - intros t. pose proof (Normalize_valid t) as H. cbv zeta in H. tauto.
  - intros t l Hl. assert (exists k, l = trimNonEmpty k) as [k ->].
    { destruct Hl as [-> |[-> | ->]]; unfold Normalize; rsimpl; eexists; reflexivity. }
    split; [apply trimNonEmpty_loop_NoDup|]. intros x Hx. apply trimNonEmpty_loop_elem in Hx. tauto.
Qed.

Lemma validation_is_exact_witness :
  NoDup (sc_Areas (ts_Scope (Normalize (zero <| ts_Scope := zero <| sc_Areas := ["a"; " a "; ""; "b"] |> |>)))).
Proof.
  destruct validation_is_exact as (_ & _ & _ & _ & _ & H). refine (proj1 (H _ _ _)). by left.
Defined.
