(* ===== verification/Domain.v ===== *)
(** * Domain data the runtime carries

    [internal/state] (the financial world state, its snapshot), the typed
    reports of [internal/reporting] with the records of [finance],
    [analysis] and [skills] they contain, and [governance.PolicyDecision].
    A [float64] is a [spec_float]; the runtime only stores these numbers. *)

From Stdlib Require Export Floats.SpecFloat.
From S2P Require Export TaskSpec.

#[export] Instance zero_float : Zero spec_float := S754_zero false.

(** The dynamic values of [map[string]any]. *)
#[warnings="-register-all"]
Inductive any :=
| AnyNil
| AnyInt (z : Z)
| AnyFloat (f : spec_float)
| AnyBool (b : bool)
| AnyString (s : string)
| AnyList (l : list any)
| AnyMap (m : list (string * any)).

Definition EvidenceID : Type := string.
#[export] Instance zero_EvidenceID : Zero EvidenceID := "".

(** ** internal/state/types.go *)

Record LiabilityAccount := mkLiabilityAccount {
  la_Name : string;
  la_BalanceCents : Z;
  la_AnnualRate : spec_float;
  la_MinimumDueCents : Z
}.
#[export] Instance eta_LiabilityAccount : Eta LiabilityAccount := eta! mkLiabilityAccount < la_Name ; la_BalanceCents ; la_AnnualRate ; la_MinimumDueCents >.
#[export] Instance zero_LiabilityAccount : Zero LiabilityAccount := mkLiabilityAccount zero zero zero zero.

Record CashflowState := mkCashflowState {
  cf_MonthlyInflowCents : Z;
  cf_MonthlyOutflowCents : Z;
  cf_MonthlyNetIncomeCents : Z;
  cf_MonthlyFixedExpenseCents : Z;
  cf_MonthlyVariableExpenseCents : Z;
  cf_SavingsRate : spec_float;
  cf_LastComputedMonth : string
}.
#[export] Instance eta_CashflowState : Eta CashflowState := eta! mkCashflowState < cf_MonthlyInflowCents ; cf_MonthlyOutflowCents ; cf_MonthlyNetIncomeCents ; cf_MonthlyFixedExpenseCents ; cf_MonthlyVariableExpenseCents ; cf_SavingsRate ; cf_LastComputedMonth >.
#[export] Instance zero_CashflowState : Zero CashflowState := mkCashflowState zero zero zero zero zero zero zero.

Record LiabilityState := mkLiabilityState {
  li_TotalDebtCents : Z;
  li_AverageAPR : spec_float;
  li_DebtBurdenRatio : spec_float;
  li_MinimumPaymentPressure : spec_float;
  li_Accounts : list LiabilityAccount
}.
#[export] Instance eta_LiabilityState : Eta LiabilityState := eta! mkLiabilityState < li_TotalDebtCents ; li_AverageAPR ; li_DebtBurdenRatio ; li_MinimumPaymentPressure ; li_Accounts >.
#[export] Instance zero_LiabilityState : Zero LiabilityState := mkLiabilityState zero zero zero zero zero.

Record PortfolioState := mkPortfolioState {
  pf_TotalInvestableAssetsCents : Z;
  pf_AssetAllocations : gmap string spec_float;
  pf_TargetAllocations : gmap string spec_float;
  pf_AllocationDrift : gmap string spec_float;
  pf_EmergencyFundMonths : spec_float
}.
#[export] Instance eta_PortfolioState : Eta PortfolioState := eta! mkPortfolioState < pf_TotalInvestableAssetsCents ; pf_AssetAllocations ; pf_TargetAllocations ; pf_AllocationDrift ; pf_EmergencyFundMonths >.
#[export] Instance zero_PortfolioState : Zero PortfolioState := mkPortfolioState zero zero zero zero zero.

Record TaxState := mkTaxState {
  tx_EffectiveTaxRate : spec_float;
  tx_TaxAdvantagedContributionCents : Z;
  tx_ChildcareTaxSignal : bool;
  tx_FamilyTaxNotes : list string;
  tx_UpcomingDeadlines : list string
}.
#[export] Instance eta_TaxState : Eta TaxState := eta! mkTaxState < tx_EffectiveTaxRate ; tx_TaxAdvantagedContributionCents ; tx_ChildcareTaxSignal ; tx_FamilyTaxNotes ; tx_UpcomingDeadlines >.
#[export] Instance zero_TaxState : Zero TaxState := mkTaxState zero zero zero zero zero.

Record BehaviorState := mkBehaviorState {
  bh_AnomalyFlags : list string;
  bh_InterventionQueue : list string;
  bh_LateNightSpendingFrequency : spec_float;
  bh_DuplicateSubscriptionCount : Z;
  bh_RecurringSubscriptions : list string
}.
#[export] Instance eta_BehaviorState : Eta BehaviorState := eta! mkBehaviorState < bh_AnomalyFlags ; bh_InterventionQueue ; bh_LateNightSpendingFrequency ; bh_DuplicateSubscriptionCount ; bh_RecurringSubscriptions >.
#[export] Instance zero_BehaviorState : Zero BehaviorState := mkBehaviorState zero zero zero zero zero.

Record WorkflowState := mkWorkflowState {
  ws_ActiveWorkflowID : string;
  ws_LastTaskID : string;
  ws_Phase : string;
  ws_PendingApprovals : list string;
  ws_EvidenceStatus : string;
  ws_LastUpdatedAt : time
}.
#[export] Instance eta_WorkflowState : Eta WorkflowState := eta! mkWorkflowState < ws_ActiveWorkflowID ; ws_LastTaskID ; ws_Phase ; ws_PendingApprovals ; ws_EvidenceStatus ; ws_LastUpdatedAt >.
#[export] Instance zero_WorkflowState : Zero WorkflowState := mkWorkflowState zero zero zero zero zero zero.

Record RiskState := mkRiskState {
  rk_LiquidityRisk : string;
  rk_ConcentrationRisk : string;
  rk_DebtStressLevel : string;
  rk_OverallRisk : string;
  rk_ComplianceFlags : list string
}.
#[export] Instance eta_RiskState : Eta RiskState := eta! mkRiskState < rk_LiquidityRisk ; rk_ConcentrationRisk ; rk_DebtStressLevel ; rk_OverallRisk ; rk_ComplianceFlags >.
#[export] Instance zero_RiskState : Zero RiskState := mkRiskState zero zero zero zero zero.

Record StateVersion := mkStateVersion {
  sv_Sequence : Z;
  sv_SnapshotID : string;
  sv_UpdatedAt : time
}.
#[export] Instance eta_StateVersion : Eta StateVersion := eta! mkStateVersion < sv_Sequence ; sv_SnapshotID ; sv_UpdatedAt >.
#[export] Instance zero_StateVersion : Zero StateVersion := mkStateVersion zero zero zero.

Record FinancialWorldState := mkFinancialWorldState {
  fw_UserID : string;
  fw_CashflowState : CashflowState;
  fw_LiabilityState : LiabilityState;
  fw_PortfolioState : PortfolioState;
  fw_TaxState : TaxState;
  fw_BehaviorState : BehaviorState;
  fw_WorkflowState : WorkflowState;
  fw_RiskState : RiskState;
  fw_Version : StateVersion
}.
#[export] Instance eta_FinancialWorldState : Eta FinancialWorldState := eta! mkFinancialWorldState < fw_UserID ; fw_CashflowState ; fw_LiabilityState ; fw_PortfolioState ; fw_TaxState ; fw_BehaviorState ; fw_WorkflowState ; fw_RiskState ; fw_Version >.
#[export] Instance zero_FinancialWorldState : Zero FinancialWorldState := mkFinancialWorldState zero zero zero zero zero zero zero zero zero.

Record StateSnapshot := mkStateSnapshot {
  ss_State : FinancialWorldState;
  ss_CapturedAt : time;
  ss_Reason : string
}.
#[export] Instance eta_StateSnapshot : Eta StateSnapshot := eta! mkStateSnapshot < ss_State ; ss_CapturedAt ; ss_Reason >.
#[export] Instance zero_StateSnapshot : Zero StateSnapshot := mkStateSnapshot zero zero zero.

(** [FinancialWorldState.Snapshot]; [system_now] is what [time.Now().UTC()]
    returns if it is called. *)
Definition Snapshot (system_now : time) (s : FinancialWorldState) (reason : string)
    (capturedAt : time) : StateSnapshot :=
  {| ss_State := s;
     ss_CapturedAt := if IsZero capturedAt then system_now else capturedAt;
     ss_Reason := reason |}.

(** runtime/store.go *)
Definition snapshotRefFor (stateSnapshot : StateSnapshot) : string :=
  sv_SnapshotID (fw_Version (ss_State stateSnapshot)).

(** ** Records inside reports *)

Inductive MetricValueType :=
| MetricValueTypeInt64
| MetricValueTypeFloat64
| MetricValueTypeBool
| MetricValueTypeString
| MetricValueTypeOther (s : string).
#[export] Instance MetricValueType_eq_dec : EqDecision MetricValueType.
Proof. solve_decision. Defined.
Definition MetricValueType_string (x : MetricValueType) : string :=
  match x with
  | MetricValueTypeInt64 => "int64"
  | MetricValueTypeFloat64 => "float64"
  | MetricValueTypeBool => "bool"
  | MetricValueTypeString => "string"
  | MetricValueTypeOther s => s
  end.
#[export] Instance zero_MetricValueType : Zero MetricValueType := MetricValueTypeOther "".

Record MetricRecord := mkMetricRecord {
  mr_Ref : string;
  mr_Domain : string;
  mr_Name : string;
  mr_ValueType : MetricValueType;
  mr_Int64Value : Z;
  mr_Float64Value : spec_float;
  mr_BoolValue : bool;
  mr_StringValue : string;
  mr_Unit : string;
  mr_AsOf : time;
  mr_SourceRefs : list string;
  mr_EvidenceRefs : list string;
  mr_Derivation : string
}.
#[export] Instance eta_MetricRecord : Eta MetricRecord := eta! mkMetricRecord < mr_Ref ; mr_Domain ; mr_Name ; mr_ValueType ; mr_Int64Value ; mr_Float64Value ; mr_BoolValue ; mr_StringValue ; mr_Unit ; mr_AsOf ; mr_SourceRefs ; mr_EvidenceRefs ; mr_Derivation >.
#[export] Instance zero_MetricRecord : Zero MetricRecord := mkMetricRecord zero zero zero zero zero zero zero zero zero zero zero zero zero.

Record RiskFlag := mkRiskFlag {
  rf_Code : string;
  rf_Severity : string;
  rf_Detail : string;
  rf_EvidenceIDs : list EvidenceID;
  rf_MetricRefs : list string;
  rf_MemoryRefs : list string;
  rf_Caveats : list string;
  rf_PolicyRuleRefs : list string
}.
#[export] Instance eta_RiskFlag : Eta RiskFlag := eta! mkRiskFlag < rf_Code ; rf_Severity ; rf_Detail ; rf_EvidenceIDs ; rf_MetricRefs ; rf_MemoryRefs ; rf_Caveats ; rf_PolicyRuleRefs >.
#[export] Instance zero_RiskFlag : Zero RiskFlag := mkRiskFlag zero zero zero zero zero zero zero zero.

Inductive RecommendationType :=
| RecommendationTypeCashflowAdjustment
| RecommendationTypeExpenseReduction
| RecommendationTypeDebtPaydown
| RecommendationTypeDebtRestructure
| RecommendationTypeInvestMore
| RecommendationTypePortfolioRebalance
| RecommendationTypeTaxAction
| RecommendationTypeBehaviorSubscriptionCleanup
| RecommendationTypeBehaviorSpendNudge
| RecommendationTypeBehaviorGuardrail
| RecommendationTypeOther (s : string).
#[export] Instance RecommendationType_eq_dec : EqDecision RecommendationType.
Proof. solve_decision. Defined.
Definition RecommendationType_string (x : RecommendationType) : string :=
  match x with
  | RecommendationTypeCashflowAdjustment => "cashflow_adjustment"
  | RecommendationTypeExpenseReduction => "expense_reduction"
  | RecommendationTypeDebtPaydown => "debt_paydown"
  | RecommendationTypeDebtRestructure => "debt_restructure"
  | RecommendationTypeInvestMore => "invest_more"
  | RecommendationTypePortfolioRebalance => "portfolio_rebalance"
  | RecommendationTypeTaxAction => "tax_action"
  | RecommendationTypeBehaviorSubscriptionCleanup => "behavior_subscription_cleanup"
  | RecommendationTypeBehaviorSpendNudge => "behavior_spend_nudge"
  | RecommendationTypeBehaviorGuardrail => "behavior_guardrail"
  | RecommendationTypeOther s => s
  end.
#[export] Instance zero_RecommendationType : Zero RecommendationType := RecommendationTypeOther "".

Record Recommendation := mkRecommendation {
  rc_ID : string;
  rc_Type : RecommendationType;
  rc_Title : string;
  rc_Detail : string;
  rc_RiskLevel : RiskLevel;
  rc_GroundingRefs : list string;
  rc_MetricRefs : list string;
  rc_EvidenceRefs : list string;
  rc_MemoryRefs : list string;
  rc_Caveats : list string;
  rc_ApprovalRequired : bool;
  rc_ApprovalReason : string;
  rc_PolicyRuleRefs : list string;
  rc_Metadata : gmap string string
}.
#[export] Instance eta_Recommendation : Eta Recommendation := eta! mkRecommendation < rc_ID ; rc_Type ; rc_Title ; rc_Detail ; rc_RiskLevel ; rc_GroundingRefs ; rc_MetricRefs ; rc_EvidenceRefs ; rc_MemoryRefs ; rc_Caveats ; rc_ApprovalRequired ; rc_ApprovalReason ; rc_PolicyRuleRefs ; rc_Metadata >.
#[export] Instance zero_Recommendation : Zero Recommendation := mkRecommendation zero zero zero zero zero zero zero zero zero zero zero zero zero zero.

Record SkillItem := mkSkillItem {
  si_Title : string;
  si_Detail : string;
  si_Severity : string;
  si_EvidenceIDs : list EvidenceID
}.
#[export] Instance eta_SkillItem : Eta SkillItem := eta! mkSkillItem < si_Title ; si_Detail ; si_Severity ; si_EvidenceIDs >.
#[export] Instance zero_SkillItem : Zero SkillItem := mkSkillItem zero zero zero zero.

(** ** internal/reporting/types.go *)

Inductive ArtifactKind :=
| ArtifactKindMonthlyReviewReport
| ArtifactKindDebtDecisionReport
| ArtifactKindLifeEventAssessment
| ArtifactKindTaxOptimizationReport
| ArtifactKindPortfolioRebalanceReport
| ArtifactKindBehaviorInterventionReport
| ArtifactKindWorkflowTimeline
| ArtifactKindVerificationReport
| ArtifactKindCheckpointDump
| ArtifactKindApprovalRequest
| ArtifactKindReplayBundle
| ArtifactKindReplaySummary
| ArtifactKindEvalRunResult
| ArtifactKindOther (s : string).
#[export] Instance ArtifactKind_eq_dec : EqDecision ArtifactKind.
Proof. solve_decision. Defined.
Definition ArtifactKind_string (x : ArtifactKind) : string :=
  match x with
  | ArtifactKindMonthlyReviewReport => "monthly_review_report"
  | ArtifactKindDebtDecisionReport => "debt_decision_report"
  | ArtifactKindLifeEventAssessment => "life_event_assessment_report"
  | ArtifactKindTaxOptimizationReport => "tax_optimization_report"
  | ArtifactKindPortfolioRebalanceReport => "portfolio_rebalance_report"
  | ArtifactKindBehaviorInterventionReport => "behavior_intervention_report"
  | ArtifactKindWorkflowTimeline => "workflow_timeline"
  | ArtifactKindVerificationReport => "verification_report"
  | ArtifactKindCheckpointDump => "checkpoint_dump"
  | ArtifactKindApprovalRequest => "approval_request"
  | ArtifactKindReplayBundle => "replay_bundle"
  | ArtifactKindReplaySummary => "replay_summary"
  | ArtifactKindEvalRunResult => "eval_run_result"
  | ArtifactKindOther s => s
  end.
#[export] Instance zero_ArtifactKind : Zero ArtifactKind := ArtifactKindOther "".

Record ArtifactRef := mkArtifactRef {
  ar_Kind : ArtifactKind;
  ar_ID : string;
  ar_Location : string;
  ar_Summary : string
}.
#[export] Instance eta_ArtifactRef : Eta ArtifactRef := eta! mkArtifactRef < ar_Kind ; ar_ID ; ar_Location ; ar_Summary >.
#[export] Instance zero_ArtifactRef : Zero ArtifactRef := mkArtifactRef zero zero zero zero.

Record WorkflowArtifact := mkWorkflowArtifact {
  wa_ID : string;
  wa_WorkflowID : string;
  wa_TaskID : string;
  wa_Kind : ArtifactKind;
  wa_ProducedBy : string;
  wa_ConsumedBy : list string;
  wa_Ref : ArtifactRef;
  wa_ContentJSON : string;
  wa_CreatedAt : time
}.
#[export] Instance eta_WorkflowArtifact : Eta WorkflowArtifact := eta! mkWorkflowArtifact < wa_ID ; wa_WorkflowID ; wa_TaskID ; wa_Kind ; wa_ProducedBy ; wa_ConsumedBy ; wa_Ref ; wa_ContentJSON ; wa_CreatedAt >.
#[export] Instance zero_WorkflowArtifact : Zero WorkflowArtifact := mkWorkflowArtifact zero zero zero zero zero zero zero zero zero.

Record MonthlyReviewReport := mkMonthlyReviewReport {
  mrr_TaskID : string;
  mrr_WorkflowID : string;
  mrr_Summary : string;
  mrr_CashflowMetrics : gmap string any;
  mrr_TaxSignals : gmap string any;
  mrr_MetricRecords : list MetricRecord;
  mrr_RiskItems : list SkillItem;
  mrr_RiskFlags : list RiskFlag;
  mrr_OptimizationSuggestions : list SkillItem;
  mrr_Recommendations : list Recommendation;
  mrr_TodoItems : list SkillItem;
  mrr_SourceBlockIDs : list string;
  mrr_SourceMemoryIDs : list string;
  mrr_SourceEvidenceIDs : list EvidenceID;
  mrr_GroundingRefs : list string;
  mrr_Caveats : list string;
  mrr_ApprovalRequired : bool;
  mrr_ApprovalReason : string;
  mrr_PolicyRuleRefs : list string;
  mrr_Confidence : spec_float;
  mrr_GeneratedAt : time
}.
#[export] Instance eta_MonthlyReviewReport : Eta MonthlyReviewReport := eta! mkMonthlyReviewReport < mrr_TaskID ; mrr_WorkflowID ; mrr_Summary ; mrr_CashflowMetrics ; mrr_TaxSignals ; mrr_MetricRecords ; mrr_RiskItems ; mrr_RiskFlags ; mrr_OptimizationSuggestions ; mrr_Recommendations ; mrr_TodoItems ; mrr_SourceBlockIDs ; mrr_SourceMemoryIDs ; mrr_SourceEvidenceIDs ; mrr_GroundingRefs ; mrr_Caveats ; mrr_ApprovalRequired ; mrr_ApprovalReason ; mrr_PolicyRuleRefs ; mrr_Confidence ; mrr_GeneratedAt >.
#[export] Instance zero_MonthlyReviewReport : Zero MonthlyReviewReport := mkMonthlyReviewReport zero zero zero zero zero zero zero zero zero zero zero zero zero zero zero zero zero zero zero zero zero.

Record DebtDecisionReport := mkDebtDecisionReport {
  ddr_TaskID : string;
  ddr_WorkflowID : string;
  ddr_Conclusion : string;
  ddr_Reasons : list string;
  ddr_Actions : list SkillItem;
  ddr_Recommendations : list Recommendation;
  ddr_RiskFlags : list RiskFlag;
  ddr_Metrics : gmap string any;
  ddr_MetricRecords : list MetricRecord;
  ddr_EvidenceIDs : list EvidenceID;
  ddr_SourceBlockIDs : list string;
  ddr_SourceMemoryIDs : list string;
  ddr_SourceEvidenceIDs : list EvidenceID;
  ddr_GroundingRefs : list string;
  ddr_Caveats : list string;
  ddr_ApprovalRequired : bool;
  ddr_ApprovalReason : string;
  ddr_PolicyRuleRefs : list string;
  ddr_Confidence : spec_float;
  ddr_GeneratedAt : time
}.
#[export] Instance eta_DebtDecisionReport : Eta DebtDecisionReport := eta! mkDebtDecisionReport < ddr_TaskID ; ddr_WorkflowID ; ddr_Conclusion ; ddr_Reasons ; ddr_Actions ; ddr_Recommendations ; ddr_RiskFlags ; ddr_Metrics ; ddr_MetricRecords ; ddr_EvidenceIDs ; ddr_SourceBlockIDs ; ddr_SourceMemoryIDs ; ddr_SourceEvidenceIDs ; ddr_GroundingRefs ; ddr_Caveats ; ddr_ApprovalRequired ; ddr_ApprovalReason ; ddr_PolicyRuleRefs ; ddr_Confidence ; ddr_GeneratedAt >.
#[export] Instance zero_DebtDecisionReport : Zero DebtDecisionReport := mkDebtDecisionReport zero zero zero zero zero zero zero zero zero zero zero zero zero zero zero zero zero zero zero zero.

Record LifeEventAssessmentReport := mkLifeEventAssessmentReport {
  ler_TaskID : string;
  ler_WorkflowID : string;
  ler_EventSummary : string;
  ler_StateDiffSummary : list string;
  ler_MemoryUpdateSummary : list string;
  ler_GeneratedTaskIDs : list string;
  ler_GeneratedTaskStatuses : gmap string string;
  ler_RequiredCapabilities : gmap string string;
  ler_MissingCapabilities : gmap string string;
  ler_SourceBlockIDs : list string;
  ler_SourceMemoryIDs : list string;
  ler_SourceEvidenceIDs : list EvidenceID;
  ler_VerificationNotes : list string;
  ler_GovernanceNotes : list string;
  ler_GeneratedAt : time
}.
#[export] Instance eta_LifeEventAssessmentReport : Eta LifeEventAssessmentReport := eta! mkLifeEventAssessmentReport < ler_TaskID ; ler_WorkflowID ; ler_EventSummary ; ler_StateDiffSummary ; ler_MemoryUpdateSummary ; ler_GeneratedTaskIDs ; ler_GeneratedTaskStatuses ; ler_RequiredCapabilities ; ler_MissingCapabilities ; ler_SourceBlockIDs ; ler_SourceMemoryIDs ; ler_SourceEvidenceIDs ; ler_VerificationNotes ; ler_GovernanceNotes ; ler_GeneratedAt >.
#[export] Instance zero_LifeEventAssessmentReport : Zero LifeEventAssessmentReport := mkLifeEventAssessmentReport zero zero zero zero zero zero zero zero zero zero zero zero zero zero zero.

Record TaxOptimizationReport := mkTaxOptimizationReport {
  tor_TaskID : string;
  tor_WorkflowID : string;
  tor_Summary : string;
  tor_DeterministicMetrics : gmap string any;
  tor_RecommendedActions : list SkillItem;
  tor_Recommendations : list Recommendation;
  tor_MetricRecords : list MetricRecord;
  tor_SourceBlockIDs : list string;
  tor_SourceMemoryIDs : list string;
  tor_SourceEvidenceIDs : list EvidenceID;
  tor_RiskFlags : list RiskFlag;
  tor_GroundingRefs : list string;
  tor_Caveats : list string;
  tor_ApprovalRequired : bool;
  tor_ApprovalReason : string;
  tor_PolicyRuleRefs : list string;
  tor_Confidence : spec_float;
  tor_GeneratedAt : time
}.
#[export] Instance eta_TaxOptimizationReport : Eta TaxOptimizationReport := eta! mkTaxOptimizationReport < tor_TaskID ; tor_WorkflowID ; tor_Summary ; tor_DeterministicMetrics ; tor_RecommendedActions ; tor_Recommendations ; tor_MetricRecords ; tor_SourceBlockIDs ; tor_SourceMemoryIDs ; tor_SourceEvidenceIDs ; tor_RiskFlags ; tor_GroundingRefs ; tor_Caveats ; tor_ApprovalRequired ; tor_ApprovalReason ; tor_PolicyRuleRefs ; tor_Confidence ; tor_GeneratedAt >.
#[export] Instance zero_TaxOptimizationReport : Zero TaxOptimizationReport := mkTaxOptimizationReport zero zero zero zero zero zero zero zero zero zero zero zero zero zero zero zero zero zero.

Record PortfolioRebalanceReport := mkPortfolioRebalanceReport {
  prr_TaskID : string;
  prr_WorkflowID : string;
  prr_Summary : string;
  prr_DeterministicMetrics : gmap string any;
  prr_RecommendedActions : list SkillItem;
  prr_Recommendations : list Recommendation;
  prr_MetricRecords : list MetricRecord;
  prr_SourceBlockIDs : list string;
  prr_SourceMemoryIDs : list string;
  prr_SourceEvidenceIDs : list EvidenceID;
  prr_RiskFlags : list RiskFlag;
  prr_GroundingRefs : list string;
  prr_Caveats : list string;
  prr_ApprovalRequired : bool;
  prr_ApprovalReason : string;
  prr_PolicyRuleRefs : list string;
  prr_Confidence : spec_float;
  prr_GeneratedAt : time
}.
#[export] Instance eta_PortfolioRebalanceReport : Eta PortfolioRebalanceReport := eta! mkPortfolioRebalanceReport < prr_TaskID ; prr_WorkflowID ; prr_Summary ; prr_DeterministicMetrics ; prr_RecommendedActions ; prr_Recommendations ; prr_MetricRecords ; prr_SourceBlockIDs ; prr_SourceMemoryIDs ; prr_SourceEvidenceIDs ; prr_RiskFlags ; prr_GroundingRefs ; prr_Caveats ; prr_ApprovalRequired ; prr_ApprovalReason ; prr_PolicyRuleRefs ; prr_Confidence ; prr_GeneratedAt >.
#[export] Instance zero_PortfolioRebalanceReport : Zero PortfolioRebalanceReport := mkPortfolioRebalanceReport zero zero zero zero zero zero zero zero zero zero zero zero zero zero zero zero zero zero.

Record BehaviorInterventionReport := mkBehaviorInterventionReport {
  bir_TaskID : string;
  bir_WorkflowID : string;
  bir_Summary : string;
  bir_DeterministicMetrics : gmap string any;
  bir_SelectedSkillFamily : string;
  bir_SelectedSkillVersion : string;
  bir_SelectedRecipeID : string;
  bir_SkillSelectionReasons : list string;
  bir_Recommendations : list Recommendation;
  bir_MetricRecords : list MetricRecord;
  bir_SourceBlockIDs : list string;
  bir_SourceMemoryIDs : list string;
  bir_SourceEvidenceIDs : list EvidenceID;
  bir_RiskFlags : list RiskFlag;
  bir_GroundingRefs : list string;
  bir_Caveats : list string;
  bir_ApprovalRequired : bool;
  bir_ApprovalReason : string;
  bir_PolicyRuleRefs : list string;
  bir_Confidence : spec_float;
  bir_GeneratedAt : time
}.
#[export] Instance eta_BehaviorInterventionReport : Eta BehaviorInterventionReport := eta! mkBehaviorInterventionReport < bir_TaskID ; bir_WorkflowID ; bir_Summary ; bir_DeterministicMetrics ; bir_SelectedSkillFamily ; bir_SelectedSkillVersion ; bir_SelectedRecipeID ; bir_SkillSelectionReasons ; bir_Recommendations ; bir_MetricRecords ; bir_SourceBlockIDs ; bir_SourceMemoryIDs ; bir_SourceEvidenceIDs ; bir_RiskFlags ; bir_GroundingRefs ; bir_Caveats ; bir_ApprovalRequired ; bir_ApprovalReason ; bir_PolicyRuleRefs ; bir_Confidence ; bir_GeneratedAt >.
#[export] Instance zero_BehaviorInterventionReport : Zero BehaviorInterventionReport := mkBehaviorInterventionReport zero zero zero zero zero zero zero zero zero zero zero zero zero zero zero zero zero zero zero zero zero.

Record ReportPayload := mkReportPayload {
  rp_MonthlyReview : option MonthlyReviewReport;
  rp_DebtDecision : option DebtDecisionReport;
  rp_LifeEventAssessment : option LifeEventAssessmentReport;
  rp_TaxOptimization : option TaxOptimizationReport;
  rp_PortfolioRebalance : option PortfolioRebalanceReport;
  rp_BehaviorIntervention : option BehaviorInterventionReport
}.
#[export] Instance eta_ReportPayload : Eta ReportPayload := eta! mkReportPayload < rp_MonthlyReview ; rp_DebtDecision ; rp_LifeEventAssessment ; rp_TaxOptimization ; rp_PortfolioRebalance ; rp_BehaviorIntervention >.
#[export] Instance zero_ReportPayload : Zero ReportPayload := mkReportPayload zero zero zero zero zero zero.

Definition is_set {A} (o : option A) : bool := match o with Some _ => true | None => false end.

(** [ReportPayload.Validate]: exactly one report is set. *)
Definition ReportPayload_Validate (p : ReportPayload) : option error :=
  let one (b : bool) := if b then 1%Z else 0%Z in
  let count := (one (is_set (rp_MonthlyReview p)) + one (is_set (rp_DebtDecision p))
    + one (is_set (rp_LifeEventAssessment p)) + one (is_set (rp_TaxOptimization p))
    + one (is_set (rp_PortfolioRebalance p)) + one (is_set (rp_BehaviorIntervention p)))%Z in
  if (count =? 1)%Z then None
  else Some (PlainError ("report payload must set exactly one typed report, got " +:+ Itoa count)).

(** The accessors test the reports in this order and read the first one set. *)
Definition first_report {A} (p : ReportPayload)
    (f1 : MonthlyReviewReport -> A) (f2 : DebtDecisionReport -> A) (f3 : LifeEventAssessmentReport -> A)
    (f4 : TaxOptimizationReport -> A) (f5 : PortfolioRebalanceReport -> A)
    (f6 : BehaviorInterventionReport -> A) (default : A) : A :=
  match rp_MonthlyReview p with Some r => f1 r | None =>
  match rp_DebtDecision p with Some r => f2 r | None =>
  match rp_LifeEventAssessment p with Some r => f3 r | None =>
  match rp_TaxOptimization p with Some r => f4 r | None =>
  match rp_PortfolioRebalance p with Some r => f5 r | None =>
  match rp_BehaviorIntervention p with Some r => f6 r | None => default
  end end end end end end.

(** The accessors that have no case for a life-event assessment, which then
    falls through to the reports after it. *)
Definition first_decision_report {A} (p : ReportPayload)
    (f1 : MonthlyReviewReport -> A) (f2 : DebtDecisionReport -> A)
    (f4 : TaxOptimizationReport -> A) (f5 : PortfolioRebalanceReport -> A)
    (f6 : BehaviorInterventionReport -> A) (default : A) : A :=
  first_report (p <| rp_LifeEventAssessment := None |>) f1 f2 (fun _ => default) f4 f5 f6 default.

Definition ReportPayload_Summary (p : ReportPayload) : string :=
  first_report p mrr_Summary ddr_Conclusion ler_EventSummary tor_Summary prr_Summary bir_Summary "".

Definition ReportPayload_ArtifactKind (p : ReportPayload) : ArtifactKind :=
  first_report p (fun _ => ArtifactKindMonthlyReviewReport) (fun _ => ArtifactKindDebtDecisionReport)
    (fun _ => ArtifactKindLifeEventAssessment) (fun _ => ArtifactKindTaxOptimizationReport)
    (fun _ => ArtifactKindPortfolioRebalanceReport) (fun _ => ArtifactKindBehaviorInterventionReport)
    (ArtifactKindOther "").

Definition ReportPayload_ProducedAt (p : ReportPayload) : time :=
  first_report p mrr_GeneratedAt ddr_GeneratedAt ler_GeneratedAt tor_GeneratedAt prr_GeneratedAt
    bir_GeneratedAt zero_time.

Definition ReportPayload_WorkflowID (p : ReportPayload) : string :=
  first_report p mrr_WorkflowID ddr_WorkflowID ler_WorkflowID tor_WorkflowID prr_WorkflowID
    bir_WorkflowID "".

Definition ReportPayload_Recommendations (p : ReportPayload) : list Recommendation :=
  first_decision_report p mrr_Recommendations ddr_Recommendations tor_Recommendations
    prr_Recommendations bir_Recommendations [].

Definition ReportPayload_RiskFlags (p : ReportPayload) : list RiskFlag :=
  first_decision_report p mrr_RiskFlags ddr_RiskFlags tor_RiskFlags prr_RiskFlags bir_RiskFlags [].

Definition ReportPayload_MetricRecords (p : ReportPayload) : list MetricRecord :=
  first_decision_report p mrr_MetricRecords ddr_MetricRecords tor_MetricRecords prr_MetricRecords
    bir_MetricRecords [].

Definition ReportPayload_GroundingRefs (p : ReportPayload) : list string :=
  first_decision_report p mrr_GroundingRefs ddr_GroundingRefs tor_GroundingRefs prr_GroundingRefs
    bir_GroundingRefs [].

Definition ReportPayload_Caveats (p : ReportPayload) : list string :=
  first_decision_report p mrr_Caveats ddr_Caveats tor_Caveats prr_Caveats bir_Caveats [].

Definition ReportPayload_PolicyRuleRefs (p : ReportPayload) : list string :=
  first_decision_report p mrr_PolicyRuleRefs ddr_PolicyRuleRefs tor_PolicyRuleRefs prr_PolicyRuleRefs
    bir_PolicyRuleRefs [].

Definition ReportPayload_ApprovalRequired (p : ReportPayload) : bool :=
  first_decision_report p mrr_ApprovalRequired ddr_ApprovalRequired tor_ApprovalRequired
    prr_ApprovalRequired bir_ApprovalRequired false.

Definition ReportPayload_ApprovalReason (p : ReportPayload) : string :=
  first_decision_report p mrr_ApprovalReason ddr_ApprovalReason tor_ApprovalReason prr_ApprovalReason
    bir_ApprovalReason "".

(** ** internal/governance/types.go *)

Inductive PolicyDecisionOutcome :=
| PolicyDecisionAllow
| PolicyDecisionDeny
| PolicyDecisionRequireApproval
| PolicyDecisionRedact
| PolicyDecisionEscalate
| PolicyDecisionOutcomeOther (s : string).
#[export] Instance PolicyDecisionOutcome_eq_dec : EqDecision PolicyDecisionOutcome.
Proof. solve_decision. Defined.
Definition PolicyDecisionOutcome_string (x : PolicyDecisionOutcome) : string :=
  match x with
  | PolicyDecisionAllow => "allow"
  | PolicyDecisionDeny => "deny"
  | PolicyDecisionRequireApproval => "require_approval"
  | PolicyDecisionRedact => "redact"
  | PolicyDecisionEscalate => "escalate"
  | PolicyDecisionOutcomeOther s => s
  end.
#[export] Instance zero_PolicyDecisionOutcome : Zero PolicyDecisionOutcome := PolicyDecisionOutcomeOther "".

Record PolicyDecision := mkPolicyDecision {
  pd_Outcome : PolicyDecisionOutcome;
  pd_Reason : string;
  pd_AppliedPolicy : string;
  pd_PolicyRuleRefs : list string;
  pd_EvaluatedAt : time;
  pd_AuditRef : string
}.
#[export] Instance eta_PolicyDecision : Eta PolicyDecision := eta! mkPolicyDecision < pd_Outcome ; pd_Reason ; pd_AppliedPolicy ; pd_PolicyRuleRefs ; pd_EvaluatedAt ; pd_AuditRef >.
#[export] Instance zero_PolicyDecision : Zero PolicyDecision := mkPolicyDecision zero zero zero zero zero zero.

(** ** Theorems *)

(** A report payload that validates has exactly one report, and the accessors
    agree on which one it is: the artifact kind names it. *)
Lemma ReportPayload_Validate_one (p : ReportPayload) :
  ReportPayload_Validate p = None -> ReportPayload_ArtifactKind p <> ArtifactKindOther "".
Proof. destruct p as [[] [] [] [] [] []]; by vm_compute. Qed.
