(* ===== verification/RuntimeTypes.v ===== *)
(** * Data of the runtime ([internal/runtime])

    The structs and string enumerations of types.go, async_types.go, store.go,
    task_graph.go, task_dispatch.go, timeline.go, commands.go and
    service_helpers.go, field by field.

    Pointers to scalars and structs are [option]s.  The one slice whose
    sharing the code relies on (and suffers from) is
    [TaskGraphSnapshot.RegisteredTasks]: it is an address into the heap of
    World.v, so that two snapshots can hold the same array. *)

From S2P Require Export Domain.

(** The address of an array of [FollowUpTaskRecord]; 0 is the nil slice. *)
Definition addr : Type := nat.
#[export] Instance zero_addr : Zero addr := 0%nat.
#[export] Instance zero_nat : Zero nat := 0%nat.

(** ** types.go *)

Inductive WorkflowExecutionState :=
| WorkflowStateCreated
| WorkflowStatePlanning
| WorkflowStateActing
| WorkflowStateVerifying
| WorkflowStateReplanning
| WorkflowStateWaitingApproval
| WorkflowStatePaused
| WorkflowStateRetrying
| WorkflowStateCompleted
| WorkflowStateFailed
| WorkflowStateAborted
| WorkflowExecutionStateOther (s : string).
#[export] Instance WorkflowExecutionState_eq_dec : EqDecision WorkflowExecutionState.
Proof. solve_decision. Defined.
Definition WorkflowExecutionState_string (x : WorkflowExecutionState) : string :=
  match x with
  | WorkflowStateCreated => "created"
  | WorkflowStatePlanning => "planning"
  | WorkflowStateActing => "acting"
  | WorkflowStateVerifying => "verifying"
  | WorkflowStateReplanning => "replanning"
  | WorkflowStateWaitingApproval => "waiting_approval"
  | WorkflowStatePaused => "paused"
  | WorkflowStateRetrying => "retrying"
  | WorkflowStateCompleted => "completed"
  | WorkflowStateFailed => "failed"
  | WorkflowStateAborted => "aborted"
  | WorkflowExecutionStateOther s => s
  end.
#[export] Instance zero_WorkflowExecutionState : Zero WorkflowExecutionState := WorkflowExecutionStateOther "".

Inductive RecoveryStrategy :=
| RecoveryStrategyRetry
| RecoveryStrategyReplan
| RecoveryStrategyWaitForApproval
| RecoveryStrategyAbort
| RecoveryStrategyEscalate
| RecoveryStrategyOther (s : string).
#[export] Instance RecoveryStrategy_eq_dec : EqDecision RecoveryStrategy.
Proof. solve_decision. Defined.
Definition RecoveryStrategy_string (x : RecoveryStrategy) : string :=
  match x with
  | RecoveryStrategyRetry => "retry"
  | RecoveryStrategyReplan => "replan"
  | RecoveryStrategyWaitForApproval => "wait_for_approval"
  | RecoveryStrategyAbort => "abort"
  | RecoveryStrategyEscalate => "escalate"
  | RecoveryStrategyOther s => s
  end.
#[export] Instance zero_RecoveryStrategy : Zero RecoveryStrategy := RecoveryStrategyOther "".

Record CheckpointRecord := mkCheckpointRecord {
  ck_ID : string;
  ck_WorkflowID : string;
  ck_State : WorkflowExecutionState;
  ck_ResumeState : WorkflowExecutionState;
  ck_StateVersion : Z;
  ck_Summary : string;
  ck_CapturedAt : time
}.
#[export] Instance eta_CheckpointRecord : Eta CheckpointRecord := eta! mkCheckpointRecord < ck_ID ; ck_WorkflowID ; ck_State ; ck_ResumeState ; ck_StateVersion ; ck_Summary ; ck_CapturedAt >.
#[export] Instance zero_CheckpointRecord : Zero CheckpointRecord := mkCheckpointRecord zero zero zero zero zero zero zero.

Record ResumeToken := mkResumeToken {
  rt_Token : string;
  rt_WorkflowID : string;
  rt_CheckpointID : string;
  rt_IssuedAt : time;
  rt_ExpiresAt : time
}.
#[export] Instance eta_ResumeToken : Eta ResumeToken := eta! mkResumeToken < rt_Token ; rt_WorkflowID ; rt_CheckpointID ; rt_IssuedAt ; rt_ExpiresAt >.
#[export] Instance zero_ResumeToken : Zero ResumeToken := mkResumeToken zero zero zero zero zero.

Record HumanApprovalPending := mkHumanApprovalPending {
  ha_ApprovalID : string;
  ha_WorkflowID : string;
  ha_RequestedAction : string;
  ha_RequiredRoles : list string;
  ha_RequestedAt : time;
  ha_Deadline : option time
}.
#[export] Instance eta_HumanApprovalPending : Eta HumanApprovalPending := eta! mkHumanApprovalPending < ha_ApprovalID ; ha_WorkflowID ; ha_RequestedAction ; ha_RequiredRoles ; ha_RequestedAt ; ha_Deadline >.
#[export] Instance zero_HumanApprovalPending : Zero HumanApprovalPending := mkHumanApprovalPending zero zero zero zero zero zero.

Record ExecutionContext := mkExecutionContext {
  ec_WorkflowID : string;
  ec_TaskID : string;
  ec_CorrelationID : string;
  ec_Attempt : Z
}.
#[export] Instance eta_ExecutionContext : Eta ExecutionContext := eta! mkExecutionContext < ec_WorkflowID ; ec_TaskID ; ec_CorrelationID ; ec_Attempt >.
#[export] Instance zero_ExecutionContext : Zero ExecutionContext := mkExecutionContext zero zero zero zero.

(** ** async_types.go *)

Inductive WorkerRole :=
| WorkerRoleWorker
| WorkerRoleScheduler
| WorkerRoleAll
| WorkerRoleOther (s : string).
#[export] Instance WorkerRole_eq_dec : EqDecision WorkerRole.
Proof. solve_decision. Defined.
Definition WorkerRole_string (x : WorkerRole) : string :=
  match x with
  | WorkerRoleWorker => "worker"
  | WorkerRoleScheduler => "scheduler"
  | WorkerRoleAll => "all"
  | WorkerRoleOther s => s
  end.
#[export] Instance zero_WorkerRole : Zero WorkerRole := WorkerRoleOther "".

Record WorkerRegistration := mkWorkerRegistration {
  wr_WorkerID : string;
  wr_Role : WorkerRole;
  wr_BackendProfile : string;
  wr_StartedAt : time;
  wr_LastHeartbeat : time
}.
#[export] Instance eta_WorkerRegistration : Eta WorkerRegistration := eta! mkWorkerRegistration < wr_WorkerID ; wr_Role ; wr_BackendProfile ; wr_StartedAt ; wr_LastHeartbeat >.
#[export] Instance zero_WorkerRegistration : Zero WorkerRegistration := mkWorkerRegistration zero zero zero zero zero.

Inductive WorkItemKind :=
| WorkItemKindReevaluateTaskGraph
| WorkItemKindExecuteReadyTask
| WorkItemKindResumeApprovedCheckpoint
| WorkItemKindRetryFailedExecution
| WorkItemKindSchedulerWakeup
| WorkItemKindOther (s : string).
#[export] Instance WorkItemKind_eq_dec : EqDecision WorkItemKind.
Proof. solve_decision. Defined.
Definition WorkItemKind_string (x : WorkItemKind) : string :=
  match x with
  | WorkItemKindReevaluateTaskGraph => "reevaluate_task_graph"
  | WorkItemKindExecuteReadyTask => "execute_ready_task"
  | WorkItemKindResumeApprovedCheckpoint => "resume_approved_checkpoint"
  | WorkItemKindRetryFailedExecution => "retry_failed_execution"
  | WorkItemKindSchedulerWakeup => "scheduler_wakeup"
  | WorkItemKindOther s => s
  end.
#[export] Instance zero_WorkItemKind : Zero WorkItemKind := WorkItemKindOther "".

Inductive WorkItemStatus :=
| WorkItemStatusQueued
| WorkItemStatusClaimed
| WorkItemStatusCompleted
| WorkItemStatusFailed
| WorkItemStatusAbandoned
| WorkItemStatusOther (s : string).
#[export] Instance WorkItemStatus_eq_dec : EqDecision WorkItemStatus.
Proof. solve_decision. Defined.
Definition WorkItemStatus_string (x : WorkItemStatus) : string :=
  match x with
  | WorkItemStatusQueued => "queued"
  | WorkItemStatusClaimed => "claimed"
  | WorkItemStatusCompleted => "completed"
  | WorkItemStatusFailed => "failed"
  | WorkItemStatusAbandoned => "abandoned"
  | WorkItemStatusOther s => s
  end.
#[export] Instance zero_WorkItemStatus : Zero WorkItemStatus := WorkItemStatusOther "".

Inductive SchedulerWakeupKind :=
| SchedulerWakeupDueWindow
| SchedulerWakeupDependency
| SchedulerWakeupCapability
| SchedulerWakeupApproval
| SchedulerWakeupRetry
| SchedulerWakeupOperator
| SchedulerWakeupKindOther (s : string).
#[export] Instance SchedulerWakeupKind_eq_dec : EqDecision SchedulerWakeupKind.
Proof. solve_decision. Defined.
Definition SchedulerWakeupKind_string (x : SchedulerWakeupKind) : string :=
  match x with
  | SchedulerWakeupDueWindow => "due_window"
  | SchedulerWakeupDependency => "dependency_reevaluation"
  | SchedulerWakeupCapability => "capability_reevaluation"
  | SchedulerWakeupApproval => "approval_resume"
  | SchedulerWakeupRetry => "retry_backoff"
  | SchedulerWakeupOperator => "operator_reevaluate"
  | SchedulerWakeupKindOther s => s
  end.
#[export] Instance zero_SchedulerWakeupKind : Zero SchedulerWakeupKind := SchedulerWakeupKindOther "".

Record WorkItem := mkWorkItem {
  wi_ID : string;
  wi_Kind : WorkItemKind;
  wi_Status : WorkItemStatus;
  wi_DedupeKey : string;
  wi_GraphID : string;
  wi_TaskID : string;
  wi_ExecutionID : string;
  wi_ApprovalID : string;
  wi_CheckpointID : string;
  wi_WorkflowID : string;
  wi_AvailableAt : time;
  wi_ClaimedAt : option time;
  wi_CompletedAt : option time;
  wi_FailedAt : option time;
  wi_LastUpdatedAt : time;
  wi_Reason : string;
  wi_WakeupKind : SchedulerWakeupKind;
  wi_RetryNotBefore : option time;
  wi_AttemptCount : Z;
  wi_LeaseID : string;
  wi_FencingToken : Z;
  wi_ClaimToken : string;
  wi_ClaimedByWorkerID : string;
  wi_LeaseExpiresAt : option time
}.
#[export] Instance eta_WorkItem : Eta WorkItem := eta! mkWorkItem < wi_ID ; wi_Kind ; wi_Status ; wi_DedupeKey ; wi_GraphID ; wi_TaskID ; wi_ExecutionID ; wi_ApprovalID ; wi_CheckpointID ; wi_WorkflowID ; wi_AvailableAt ; wi_ClaimedAt ; wi_CompletedAt ; wi_FailedAt ; wi_LastUpdatedAt ; wi_Reason ; wi_WakeupKind ; wi_RetryNotBefore ; wi_AttemptCount ; wi_LeaseID ; wi_FencingToken ; wi_ClaimToken ; wi_ClaimedByWorkerID ; wi_LeaseExpiresAt >.
#[export] Instance zero_WorkItem : Zero WorkItem := mkWorkItem zero zero zero zero zero zero zero zero zero zero zero zero zero zero zero zero zero zero zero zero zero zero zero zero.

Record WorkClaim := mkWorkClaim {
  wc_WorkItem : WorkItem;
  wc_WorkerID : string;
  wc_LeaseID : string;
  wc_ClaimToken : string;
  wc_FencingToken : Z;
  wc_ClaimedAt : time;
  wc_LeaseExpiresAt : time
}.
#[export] Instance eta_WorkClaim : Eta WorkClaim := eta! mkWorkClaim < wc_WorkItem ; wc_WorkerID ; wc_LeaseID ; wc_ClaimToken ; wc_FencingToken ; wc_ClaimedAt ; wc_LeaseExpiresAt >.
#[export] Instance zero_WorkClaim : Zero WorkClaim := mkWorkClaim zero zero zero zero zero zero zero.

Record WorkLease := mkWorkLease {
  wl_WorkItemID : string;
  wl_WorkerID : string;
  wl_LeaseID : string;
  wl_FencingToken : Z;
  wl_ClaimToken : string;
  wl_ClaimedAt : time;
  wl_LeaseExpiresAt : time
}.
#[export] Instance eta_WorkLease : Eta WorkLease := eta! mkWorkLease < wl_WorkItemID ; wl_WorkerID ; wl_LeaseID ; wl_FencingToken ; wl_ClaimToken ; wl_ClaimedAt ; wl_LeaseExpiresAt >.
#[export] Instance zero_WorkLease : Zero WorkLease := mkWorkLease zero zero zero zero zero zero zero.

Record LeaseHeartbeat := mkLeaseHeartbeat {
  lh_WorkItemID : string;
  lh_WorkerID : string;
  lh_LeaseID : string;
  lh_FencingToken : Z;
  lh_RecordedAt : time;
  lh_LeaseExpiresAt : time
}.
#[export] Instance eta_LeaseHeartbeat : Eta LeaseHeartbeat := eta! mkLeaseHeartbeat < lh_WorkItemID ; lh_WorkerID ; lh_LeaseID ; lh_FencingToken ; lh_RecordedAt ; lh_LeaseExpiresAt >.
#[export] Instance zero_LeaseHeartbeat : Zero LeaseHeartbeat := mkLeaseHeartbeat zero zero zero zero zero zero.

Inductive ExecutionAttemptStatus :=
| ExecutionAttemptStatusStarted
| ExecutionAttemptStatusSucceeded
| ExecutionAttemptStatusFailed
| ExecutionAttemptStatusAbandoned
| ExecutionAttemptStatusReclaimed
| ExecutionAttemptStatusOther (s : string).
#[export] Instance ExecutionAttemptStatus_eq_dec : EqDecision ExecutionAttemptStatus.
Proof. solve_decision. Defined.
Definition ExecutionAttemptStatus_string (x : ExecutionAttemptStatus) : string :=
  match x with
  | ExecutionAttemptStatusStarted => "started"
  | ExecutionAttemptStatusSucceeded => "succeeded"
  | ExecutionAttemptStatusFailed => "failed"
  | ExecutionAttemptStatusAbandoned => "abandoned"
  | ExecutionAttemptStatusReclaimed => "reclaimed"
  | ExecutionAttemptStatusOther s => s
  end.
#[export] Instance zero_ExecutionAttemptStatus : Zero ExecutionAttemptStatus := ExecutionAttemptStatusOther "".

Record ExecutionAttempt := mkExecutionAttempt {
  ea_AttemptID : string;
  ea_WorkItemID : string;
  ea_WorkItemKind : WorkItemKind;
  ea_GraphID : string;
  ea_TaskID : string;
  ea_ExecutionID : string;
  ea_ApprovalID : string;
  ea_WorkerID : string;
  ea_LeaseID : string;
  ea_FencingToken : Z;
  ea_Status : ExecutionAttemptStatus;
  ea_FailureCategory : FailureCategory;
  ea_FailureSummary : string;
  ea_StartedAt : time;
  ea_FinishedAt : option time;
  ea_CheckpointID : string;
  ea_ProducedArtifactIDs : list string
}.
#[export] Instance eta_ExecutionAttempt : Eta ExecutionAttempt := eta! mkExecutionAttempt < ea_AttemptID ; ea_WorkItemID ; ea_WorkItemKind ; ea_GraphID ; ea_TaskID ; ea_ExecutionID ; ea_ApprovalID ; ea_WorkerID ; ea_LeaseID ; ea_FencingToken ; ea_Status ; ea_FailureCategory ; ea_FailureSummary ; ea_StartedAt ; ea_FinishedAt ; ea_CheckpointID ; ea_ProducedArtifactIDs >.
#[export] Instance zero_ExecutionAttempt : Zero ExecutionAttempt := mkExecutionAttempt zero zero zero zero zero zero zero zero zero zero zero zero zero zero zero zero zero.

Inductive WorkEnqueueDisposition :=
| WorkEnqueueDispositionEnqueued
| WorkEnqueueDispositionDuplicateSuppressed
| WorkEnqueueDispositionOther (s : string).
#[export] Instance WorkEnqueueDisposition_eq_dec : EqDecision WorkEnqueueDisposition.
Proof. solve_decision. Defined.
Definition WorkEnqueueDisposition_string (x : WorkEnqueueDisposition) : string :=
  match x with
  | WorkEnqueueDispositionEnqueued => "enqueued"
  | WorkEnqueueDispositionDuplicateSuppressed => "duplicate_suppressed"
  | WorkEnqueueDispositionOther s => s
  end.
#[export] Instance zero_WorkEnqueueDisposition : Zero WorkEnqueueDisposition := WorkEnqueueDispositionOther "".

Record WorkEnqueueResult := mkWorkEnqueueResult {
  wq_WorkItemID : string;
  wq_Kind : WorkItemKind;
  wq_Disposition : WorkEnqueueDisposition;
  wq_DedupeKey : string;
  wq_ExistingWorkItemID : string
}.
#[export] Instance eta_WorkEnqueueResult : Eta WorkEnqueueResult := eta! mkWorkEnqueueResult < wq_WorkItemID ; wq_Kind ; wq_Disposition ; wq_DedupeKey ; wq_ExistingWorkItemID >.
#[export] Instance zero_WorkEnqueueResult : Zero WorkEnqueueResult := mkWorkEnqueueResult zero zero zero zero zero.

Record LeaseReclaimResult := mkLeaseReclaimResult {
  lr_WorkItemID : string;
  lr_LeaseID : string;
  lr_WorkerID : string;
  lr_FencingToken : Z;
  lr_Reason : string;
  lr_ReclaimedAt : time
}.
#[export] Instance eta_LeaseReclaimResult : Eta LeaseReclaimResult := eta! mkLeaseReclaimResult < lr_WorkItemID ; lr_LeaseID ; lr_WorkerID ; lr_FencingToken ; lr_Reason ; lr_ReclaimedAt >.
#[export] Instance zero_LeaseReclaimResult : Zero LeaseReclaimResult := mkLeaseReclaimResult zero zero zero zero zero zero.

Record RetryBackoffPolicy := mkRetryBackoffPolicy {
  bp_BaseDelay : Duration;
  bp_MaxDelay : Duration
}.
#[export] Instance eta_RetryBackoffPolicy : Eta RetryBackoffPolicy := eta! mkRetryBackoffPolicy < bp_BaseDelay ; bp_MaxDelay >.
#[export] Instance zero_RetryBackoffPolicy : Zero RetryBackoffPolicy := mkRetryBackoffPolicy zero zero.

Record SchedulerWakeup := mkSchedulerWakeup {
  sw_ID : string;
  sw_GraphID : string;
  sw_TaskID : string;
  sw_ExecutionID : string;
  sw_ApprovalID : string;
  sw_Kind : SchedulerWakeupKind;
  sw_AvailableAt : time;
  sw_Reason : string
}.
#[export] Instance eta_SchedulerWakeup : Eta SchedulerWakeup := eta! mkSchedulerWakeup < sw_ID ; sw_GraphID ; sw_TaskID ; sw_ExecutionID ; sw_ApprovalID ; sw_Kind ; sw_AvailableAt ; sw_Reason >.
#[export] Instance zero_SchedulerWakeup : Zero SchedulerWakeup := mkSchedulerWakeup zero zero zero zero zero zero zero zero.

Record FenceValidation := mkFenceValidation {
  fv_WorkItemID : string;
  fv_LeaseID : string;
  fv_FencingToken : Z;
  fv_WorkerID : string
}.
#[export] Instance eta_FenceValidation : Eta FenceValidation := eta! mkFenceValidation < fv_WorkItemID ; fv_LeaseID ; fv_FencingToken ; fv_WorkerID >.
#[export] Instance zero_FenceValidation : Zero FenceValidation := mkFenceValidation zero zero zero zero.

(** ** task_graph.go *)

Inductive TaskQueueStatus :=
| TaskQueueStatusReady
| TaskQueueStatusDependencyBlocked
| TaskQueueStatusDeferred
| TaskQueueStatusWaitingApproval
| TaskQueueStatusQueuedPendingCapability
| TaskQueueStatusExecuting
| TaskQueueStatusCompleted
| TaskQueueStatusFailed
| TaskQueueStatusOther (s : string).
#[export] Instance TaskQueueStatus_eq_dec : EqDecision TaskQueueStatus.
Proof. solve_decision. Defined.
Definition TaskQueueStatus_string (x : TaskQueueStatus) : string :=
  match x with
  | TaskQueueStatusReady => "ready"
  | TaskQueueStatusDependencyBlocked => "dependency_blocked"
  | TaskQueueStatusDeferred => "deferred"
  | TaskQueueStatusWaitingApproval => "waiting_approval"
  | TaskQueueStatusQueuedPendingCapability => "queued_pending_capability"
  | TaskQueueStatusExecuting => "executing"
  | TaskQueueStatusCompleted => "completed"
  | TaskQueueStatusFailed => "failed"
  | TaskQueueStatusOther s => s
  end.
#[export] Instance zero_TaskQueueStatus : Zero TaskQueueStatus := TaskQueueStatusOther "".

Record FollowUpTaskRecord := mkFollowUpTaskRecord {
  ft_Task : TaskSpec;
  ft_Metadata : GeneratedTaskMetadata;
  ft_Version : Z;
  ft_Status : TaskQueueStatus;
  ft_RequiredCapability : string;
  ft_MissingCapabilityReason : string;
  ft_Dependencies : list TaskDependency;
  ft_BlockingReasons : list string;
  ft_SuppressedReasons : list string;
  ft_RegisteredAt : time;
  ft_RegistrationOrder : Z;
  ft_LastUpdatedAt : time
}.
#[export] Instance eta_FollowUpTaskRecord : Eta FollowUpTaskRecord := eta! mkFollowUpTaskRecord < ft_Task ; ft_Metadata ; ft_Version ; ft_Status ; ft_RequiredCapability ; ft_MissingCapabilityReason ; ft_Dependencies ; ft_BlockingReasons ; ft_SuppressedReasons ; ft_RegisteredAt ; ft_RegistrationOrder ; ft_LastUpdatedAt >.
#[export] Instance zero_FollowUpTaskRecord : Zero FollowUpTaskRecord := mkFollowUpTaskRecord zero zero zero zero zero zero zero zero zero zero zero zero.

Record SpawnedTaskRecord := mkSpawnedTaskRecord {
  sp_TaskID : string;
  sp_Status : TaskQueueStatus;
  sp_RequiredCapability : string;
  sp_MissingCapabilityReason : string;
  sp_RegisteredAt : time
}.
#[export] Instance eta_SpawnedTaskRecord : Eta SpawnedTaskRecord := eta! mkSpawnedTaskRecord < sp_TaskID ; sp_Status ; sp_RequiredCapability ; sp_MissingCapabilityReason ; sp_RegisteredAt >.
#[export] Instance zero_SpawnedTaskRecord : Zero SpawnedTaskRecord := mkSpawnedTaskRecord zero zero zero zero zero.

Record DeferredTaskRecord := mkDeferredTaskRecord {
  df_TaskID : string;
  df_Status : TaskQueueStatus;
  df_NotBefore : option time;
  df_NotAfter : option time;
  df_Reason : string;
  df_DeferredAt : time
}.
#[export] Instance eta_DeferredTaskRecord : Eta DeferredTaskRecord := eta! mkDeferredTaskRecord < df_TaskID ; df_Status ; df_NotBefore ; df_NotAfter ; df_Reason ; df_DeferredAt >.
#[export] Instance zero_DeferredTaskRecord : Zero DeferredTaskRecord := mkDeferredTaskRecord zero zero zero zero zero zero.

(** ** task_dispatch.go *)

Record TaskExecutionRecord := mkTaskExecutionRecord {
  te_ExecutionID : string;
  te_TaskID : string;
  te_Intent : UserIntentType;
  te_ParentGraphID : string;
  te_ParentWorkflowID : string;
  te_RootTaskID : string;
  te_TriggeredByTaskID : string;
  te_ExecutionDepth : Z;
  te_Capability : string;
  te_WorkflowID : string;
  te_RootCorrelationID : string;
  te_CorrelationID : string;
  te_CausationID : string;
  te_Status : TaskQueueStatus;
  te_Version : Z;
  te_Attempt : Z;
  te_RetryCount : Z;
  te_LastRecoveryStrategy : RecoveryStrategy;
  te_LastTransitionAt : time;
  te_StartedAt : time;
  te_CompletedAt : time;
  te_FailedAt : time;
  te_InputStateVersion : Z;
  te_UpdatedStateVersion : Z;
  te_InputStateSnapshotRef : string;
  te_UpdatedStateSnapshotRef : string;
  te_Committed : bool;
  te_CheckpointID : string;
  te_ResumeToken : string;
  te_ResumeState : WorkflowExecutionState;
  te_ApprovalID : string;
  te_PendingApproval : bool;
  te_FailureCategory : FailureCategory;
  te_FailureSummary : string;
  te_ArtifactIDs : list string
}.
#[export] Instance eta_TaskExecutionRecord : Eta TaskExecutionRecord := eta! mkTaskExecutionRecord < te_ExecutionID ; te_TaskID ; te_Intent ; te_ParentGraphID ; te_ParentWorkflowID ; te_RootTaskID ; te_TriggeredByTaskID ; te_ExecutionDepth ; te_Capability ; te_WorkflowID ; te_RootCorrelationID ; te_CorrelationID ; te_CausationID ; te_Status ; te_Version ; te_Attempt ; te_RetryCount ; te_LastRecoveryStrategy ; te_LastTransitionAt ; te_StartedAt ; te_CompletedAt ; te_FailedAt ; te_InputStateVersion ; te_UpdatedStateVersion ; te_InputStateSnapshotRef ; te_UpdatedStateSnapshotRef ; te_Committed ; te_CheckpointID ; te_ResumeToken ; te_ResumeState ; te_ApprovalID ; te_PendingApproval ; te_FailureCategory ; te_FailureSummary ; te_ArtifactIDs >.
#[export] Instance zero_TaskExecutionRecord : Zero TaskExecutionRecord := mkTaskExecutionRecord zero zero zero zero zero zero zero zero zero zero zero zero zero zero zero zero zero zero zero zero zero zero zero zero zero zero zero zero zero zero zero zero zero zero zero.

Record FollowUpActivationContext := mkFollowUpActivationContext {
  ac_GraphID : string;
  ac_ParentGraphID : string;
  ac_ParentWorkflowID : string;
  ac_RootTaskID : string;
  ac_TriggeredByTaskID : string;
  ac_RootCorrelationID : string;
  ac_TriggerSource : TaskTriggerSource;
  ac_GenerationReasons : list TaskGenerationReason;
  ac_LifeEventID : string;
  ac_LifeEventKind : string;
  ac_SourceEvidenceIDs : list string;
  ac_ExecutionDepth : Z
}.
#[export] Instance eta_FollowUpActivationContext : Eta FollowUpActivationContext := eta! mkFollowUpActivationContext < ac_GraphID ; ac_ParentGraphID ; ac_ParentWorkflowID ; ac_RootTaskID ; ac_TriggeredByTaskID ; ac_RootCorrelationID ; ac_TriggerSource ; ac_GenerationReasons ; ac_LifeEventID ; ac_LifeEventKind ; ac_SourceEvidenceIDs ; ac_ExecutionDepth >.
#[export] Instance zero_FollowUpActivationContext : Zero FollowUpActivationContext := mkFollowUpActivationContext zero zero zero zero zero zero zero zero zero zero zero zero.

Record AutoExecutionPolicy := mkAutoExecutionPolicy {
  ap_AllowedIntents : gmap UserIntentType unit;
  ap_MaxExecutionDepth : Z;
  ap_MaxAttempts : Z;
  ap_ContinueIndependentOnFailure : bool;
  ap_ContinueIndependentOnApproval : bool
}.
#[export] Instance eta_AutoExecutionPolicy : Eta AutoExecutionPolicy := eta! mkAutoExecutionPolicy < ap_AllowedIntents ; ap_MaxExecutionDepth ; ap_MaxAttempts ; ap_ContinueIndependentOnFailure ; ap_ContinueIndependentOnApproval >.
#[export] Instance zero_AutoExecutionPolicy : Zero AutoExecutionPolicy := mkAutoExecutionPolicy zero zero zero zero zero.

Record TaskActivationResult := mkTaskActivationResult {
  ta_GraphID : string;
  ta_RegisteredTasks : list FollowUpTaskRecord;
  ta_ReadyTaskIDs : list string;
  ta_EvaluatedAt : time
}.
#[export] Instance eta_TaskActivationResult : Eta TaskActivationResult := eta! mkTaskActivationResult < ta_GraphID ; ta_RegisteredTasks ; ta_ReadyTaskIDs ; ta_EvaluatedAt >.
#[export] Instance zero_TaskActivationResult : Zero TaskActivationResult := mkTaskActivationResult zero zero zero zero.

Record FollowUpExecutionBatchResult := mkFollowUpExecutionBatchResult {
  fb_GraphID : string;
  fb_RegisteredTasks : list FollowUpTaskRecord;
  fb_ExecutedTasks : list TaskExecutionRecord;
  fb_LatestCommittedStateSnapshot : StateSnapshot;
  fb_ExecutedAt : time
}.
#[export] Instance eta_FollowUpExecutionBatchResult : Eta FollowUpExecutionBatchResult := eta! mkFollowUpExecutionBatchResult < fb_GraphID ; fb_RegisteredTasks ; fb_ExecutedTasks ; fb_LatestCommittedStateSnapshot ; fb_ExecutedAt >.
#[export] Instance zero_FollowUpExecutionBatchResult : Zero FollowUpExecutionBatchResult := mkFollowUpExecutionBatchResult zero zero zero zero zero.

Record TaskGraphSnapshot := mkTaskGraphSnapshot {
  gs_Graph : TaskGraph;
  gs_Version : Z;
  gs_RegisteredTasks : addr;
  gs_Spawned : list SpawnedTaskRecord;
  gs_Deferred : list DeferredTaskRecord;
  gs_BaseStateSnapshot : StateSnapshot;
  gs_BaseStateSnapshotRef : string;
  gs_LatestCommittedStateSnapshot : StateSnapshot;
  gs_LatestCommittedStateRef : string;
  gs_ExecutedTasks : list TaskExecutionRecord;
  gs_RegisteredAt : time
}.
#[export] Instance eta_TaskGraphSnapshot : Eta TaskGraphSnapshot := eta! mkTaskGraphSnapshot < gs_Graph ; gs_Version ; gs_RegisteredTasks ; gs_Spawned ; gs_Deferred ; gs_BaseStateSnapshot ; gs_BaseStateSnapshotRef ; gs_LatestCommittedStateSnapshot ; gs_LatestCommittedStateRef ; gs_ExecutedTasks ; gs_RegisteredAt >.
#[export] Instance zero_TaskGraphSnapshot : Zero TaskGraphSnapshot := mkTaskGraphSnapshot zero zero zero zero zero zero zero zero zero zero zero.

Record FollowUpRegistrationResult := mkFollowUpRegistrationResult {
  fr_Graph : TaskGraph;
  fr_RegisteredTasks : addr;
  fr_Spawned : list SpawnedTaskRecord;
  fr_Deferred : list DeferredTaskRecord
}.
#[export] Instance eta_FollowUpRegistrationResult : Eta FollowUpRegistrationResult := eta! mkFollowUpRegistrationResult < fr_Graph ; fr_RegisteredTasks ; fr_Spawned ; fr_Deferred >.
#[export] Instance zero_FollowUpRegistrationResult : Zero FollowUpRegistrationResult := mkFollowUpRegistrationResult zero zero zero zero.

(** ** store.go *)

Inductive ApprovalStatus :=
| ApprovalStatusPending
| ApprovalStatusApproved
| ApprovalStatusDenied
| ApprovalStatusOther (s : string).
#[export] Instance ApprovalStatus_eq_dec : EqDecision ApprovalStatus.
Proof. solve_decision. Defined.
Definition ApprovalStatus_string (x : ApprovalStatus) : string :=
  match x with
  | ApprovalStatusPending => "pending"
  | ApprovalStatusApproved => "approved"
  | ApprovalStatusDenied => "denied"
  | ApprovalStatusOther s => s
  end.
#[export] Instance zero_ApprovalStatus : Zero ApprovalStatus := ApprovalStatusOther "".

Inductive OperatorActionType :=
| OperatorActionApprove
| OperatorActionDeny
| OperatorActionResume
| OperatorActionRetry
| OperatorActionReevaluate
| OperatorActionTypeOther (s : string).
#[export] Instance OperatorActionType_eq_dec : EqDecision OperatorActionType.
Proof. solve_decision. Defined.
Definition OperatorActionType_string (x : OperatorActionType) : string :=
  match x with
  | OperatorActionApprove => "approve"
  | OperatorActionDeny => "deny"
  | OperatorActionResume => "resume"
  | OperatorActionRetry => "retry"
  | OperatorActionReevaluate => "reevaluate"
  | OperatorActionTypeOther s => s
  end.
#[export] Instance zero_OperatorActionType : Zero OperatorActionType := OperatorActionTypeOther "".

Inductive OperatorActionStatus :=
| OperatorActionStatusRequested
| OperatorActionStatusApplied
| OperatorActionStatusFailed
| OperatorActionStatusOther (s : string).
#[export] Instance OperatorActionStatus_eq_dec : EqDecision OperatorActionStatus.
Proof. solve_decision. Defined.
Definition OperatorActionStatus_string (x : OperatorActionStatus) : string :=
  match x with
  | OperatorActionStatusRequested => "requested"
  | OperatorActionStatusApplied => "applied"
  | OperatorActionStatusFailed => "failed"
  | OperatorActionStatusOther s => s
  end.
#[export] Instance zero_OperatorActionStatus : Zero OperatorActionStatus := OperatorActionStatusOther "".

Record ApprovalStateRecord := mkApprovalStateRecord {
  as_ApprovalID : string;
  as_GraphID : string;
  as_TaskID : string;
  as_WorkflowID : string;
  as_ExecutionID : string;
  as_RequestedAction : string;
  as_RequiredRoles : list string;
  as_RequestedAt : time;
  as_Deadline : option time;
  as_Status : ApprovalStatus;
  as_ResolvedAt : option time;
  as_ResolvedBy : string;
  as_ResolutionNote : string;
  as_Version : Z
}.
#[export] Instance eta_ApprovalStateRecord : Eta ApprovalStateRecord := eta! mkApprovalStateRecord < as_ApprovalID ; as_GraphID ; as_TaskID ; as_WorkflowID ; as_ExecutionID ; as_RequestedAction ; as_RequiredRoles ; as_RequestedAt ; as_Deadline ; as_Status ; as_ResolvedAt ; as_ResolvedBy ; as_ResolutionNote ; as_Version >.
#[export] Instance zero_ApprovalStateRecord : Zero ApprovalStateRecord := mkApprovalStateRecord zero zero zero zero zero zero zero zero zero zero zero zero zero zero.

Record OperatorActionRecord := mkOperatorActionRecord {
  oa_ActionID : string;
  oa_RequestID : string;
  oa_ActionType : OperatorActionType;
  oa_Actor : string;
  oa_Roles : list string;
  oa_GraphID : string;
  oa_TaskID : string;
  oa_ApprovalID : string;
  oa_WorkflowID : string;
  oa_Status : OperatorActionStatus;
  oa_Note : string;
  oa_RequestedAt : time;
  oa_AppliedAt : option time;
  oa_FailureSummary : string;
  oa_ExpectedVersion : Z
}.
#[export] Instance eta_OperatorActionRecord : Eta OperatorActionRecord := eta! mkOperatorActionRecord < oa_ActionID ; oa_RequestID ; oa_ActionType ; oa_Actor ; oa_Roles ; oa_GraphID ; oa_TaskID ; oa_ApprovalID ; oa_WorkflowID ; oa_Status ; oa_Note ; oa_RequestedAt ; oa_AppliedAt ; oa_FailureSummary ; oa_ExpectedVersion >.
#[export] Instance zero_OperatorActionRecord : Zero OperatorActionRecord := mkOperatorActionRecord zero zero zero zero zero zero zero zero zero zero zero zero zero zero zero.

Record ReplayEventRecord := mkReplayEventRecord {
  ev_EventID : string;
  ev_RootCorrelationID : string;
  ev_ParentWorkflowID : string;
  ev_WorkflowID : string;
  ev_GraphID : string;
  ev_TaskID : string;
  ev_ApprovalID : string;
  ev_ExecutionID : string;
  ev_ActionType : string;
  ev_Summary : string;
  ev_OccurredAt : time;
  ev_DetailsJSON : string;
  ev_CommittedStateRef : string;
  ev_UpdatedStateRef : string;
  ev_ArtifactIDs : list string;
  ev_OperatorActionID : string;
  ev_CheckpointID : string;
  ev_ResumeToken : string
}.
#[export] Instance eta_ReplayEventRecord : Eta ReplayEventRecord := eta! mkReplayEventRecord < ev_EventID ; ev_RootCorrelationID ; ev_ParentWorkflowID ; ev_WorkflowID ; ev_GraphID ; ev_TaskID ; ev_ApprovalID ; ev_ExecutionID ; ev_ActionType ; ev_Summary ; ev_OccurredAt ; ev_DetailsJSON ; ev_CommittedStateRef ; ev_UpdatedStateRef ; ev_ArtifactIDs ; ev_OperatorActionID ; ev_CheckpointID ; ev_ResumeToken >.
#[export] Instance zero_ReplayEventRecord : Zero ReplayEventRecord := mkReplayEventRecord zero zero zero zero zero zero zero zero zero zero zero zero zero zero zero zero zero zero.

Inductive CheckpointPayloadKind :=
| CheckpointPayloadKindFollowUpFinalizeResume
| CheckpointPayloadKindOther (s : string).
#[export] Instance CheckpointPayloadKind_eq_dec : EqDecision CheckpointPayloadKind.
Proof. solve_decision. Defined.
Definition CheckpointPayloadKind_string (x : CheckpointPayloadKind) : string :=
  match x with
  | CheckpointPayloadKindFollowUpFinalizeResume => "follow_up_finalize_resume"
  | CheckpointPayloadKindOther s => s
  end.
#[export] Instance zero_CheckpointPayloadKind : Zero CheckpointPayloadKind := CheckpointPayloadKindOther "".

Record FollowUpFinalizeResumePayload := mkFollowUpFinalizeResumePayload {
  fp_GraphID : string;
  fp_TaskID : string;
  fp_WorkflowID : string;
  fp_ArtifactKind : ArtifactKind;
  fp_DraftReport : ReportPayload;
  fp_DisclosureDecision : PolicyDecision;
  fp_PendingStateSnapshotRef : string
}.
#[export] Instance eta_FollowUpFinalizeResumePayload : Eta FollowUpFinalizeResumePayload := eta! mkFollowUpFinalizeResumePayload < fp_GraphID ; fp_TaskID ; fp_WorkflowID ; fp_ArtifactKind ; fp_DraftReport ; fp_DisclosureDecision ; fp_PendingStateSnapshotRef >.
#[export] Instance zero_FollowUpFinalizeResumePayload : Zero FollowUpFinalizeResumePayload := mkFollowUpFinalizeResumePayload zero zero zero zero zero zero zero.

Record CheckpointPayloadEnvelope := mkCheckpointPayloadEnvelope {
  ce_Kind : CheckpointPayloadKind;
  ce_PayloadRef : string;
  ce_FollowUpFinalizeResume : option FollowUpFinalizeResumePayload
}.
#[export] Instance eta_CheckpointPayloadEnvelope : Eta CheckpointPayloadEnvelope := eta! mkCheckpointPayloadEnvelope < ce_Kind ; ce_PayloadRef ; ce_FollowUpFinalizeResume >.
#[export] Instance zero_CheckpointPayloadEnvelope : Zero CheckpointPayloadEnvelope := mkCheckpointPayloadEnvelope zero zero zero.

Record FollowUpWorkflowRunResult := mkFollowUpWorkflowRunResult {
  fx_WorkflowID : string;
  fx_RuntimeState : WorkflowExecutionState;
  fx_UpdatedState : FinancialWorldState;
  fx_Artifacts : list WorkflowArtifact;
  fx_Checkpoint : option CheckpointRecord;
  fx_ResumeToken : option ResumeToken;
  fx_CheckpointPayload : option CheckpointPayloadEnvelope;
  fx_PendingApproval : option HumanApprovalPending;
  fx_FailureCategory : FailureCategory;
  fx_FailureSummary : string;
  fx_LastRecoveryStrategy : RecoveryStrategy
}.
#[export] Instance eta_FollowUpWorkflowRunResult : Eta FollowUpWorkflowRunResult := eta! mkFollowUpWorkflowRunResult < fx_WorkflowID ; fx_RuntimeState ; fx_UpdatedState ; fx_Artifacts ; fx_Checkpoint ; fx_ResumeToken ; fx_CheckpointPayload ; fx_PendingApproval ; fx_FailureCategory ; fx_FailureSummary ; fx_LastRecoveryStrategy >.
#[export] Instance zero_FollowUpWorkflowRunResult : Zero FollowUpWorkflowRunResult := mkFollowUpWorkflowRunResult zero zero zero zero zero zero zero zero zero zero zero.

(** ** timeline.go, observability *)

Record WorkflowTimelineEntry := mkWorkflowTimelineEntry {
  tl_State : WorkflowExecutionState;
  tl_Event : string;
  tl_Summary : string;
  tl_OccurredAt : time
}.
#[export] Instance eta_WorkflowTimelineEntry : Eta WorkflowTimelineEntry := eta! mkWorkflowTimelineEntry < tl_State ; tl_Event ; tl_Summary ; tl_OccurredAt >.
#[export] Instance zero_WorkflowTimelineEntry : Zero WorkflowTimelineEntry := mkWorkflowTimelineEntry zero zero zero zero.

Record LogEntry := mkLogEntry {
  le_TraceID : string;
  le_CorrelationID : string;
  le_Category : string;
  le_Message : string;
  le_Details : gmap string string;
  le_OccurredAt : time
}.
#[export] Instance eta_LogEntry : Eta LogEntry := eta! mkLogEntry < le_TraceID ; le_CorrelationID ; le_Category ; le_Message ; le_Details ; le_OccurredAt >.
#[export] Instance zero_LogEntry : Zero LogEntry := mkLogEntry zero zero zero zero zero zero.

(** ** commands.go *)

Record ApproveTaskCommand := mkApproveTaskCommand {
  apc_RequestID : string;
  apc_ApprovalID : string;
  apc_Actor : string;
  apc_Roles : list string;
  apc_Note : string;
  apc_ExpectedVersion : Z
}.
#[export] Instance eta_ApproveTaskCommand : Eta ApproveTaskCommand := eta! mkApproveTaskCommand < apc_RequestID ; apc_ApprovalID ; apc_Actor ; apc_Roles ; apc_Note ; apc_ExpectedVersion >.
#[export] Instance zero_ApproveTaskCommand : Zero ApproveTaskCommand := mkApproveTaskCommand zero zero zero zero zero zero.

Record DenyTaskCommand := mkDenyTaskCommand {
  dnc_RequestID : string;
  dnc_ApprovalID : string;
  dnc_Actor : string;
  dnc_Roles : list string;
  dnc_Note : string;
  dnc_ExpectedVersion : Z
}.
#[export] Instance eta_DenyTaskCommand : Eta DenyTaskCommand := eta! mkDenyTaskCommand < dnc_RequestID ; dnc_ApprovalID ; dnc_Actor ; dnc_Roles ; dnc_Note ; dnc_ExpectedVersion >.
#[export] Instance zero_DenyTaskCommand : Zero DenyTaskCommand := mkDenyTaskCommand zero zero zero zero zero zero.

Record ResumeFollowUpTaskCommand := mkResumeFollowUpTaskCommand {
  rsc_RequestID : string;
  rsc_GraphID : string;
  rsc_TaskID : string;
  rsc_Actor : string;
  rsc_Roles : list string;
  rsc_Note : string;
  rsc_ExpectedVersion : Z
}.
#[export] Instance eta_ResumeFollowUpTaskCommand : Eta ResumeFollowUpTaskCommand := eta! mkResumeFollowUpTaskCommand < rsc_RequestID ; rsc_GraphID ; rsc_TaskID ; rsc_Actor ; rsc_Roles ; rsc_Note ; rsc_ExpectedVersion >.
#[export] Instance zero_ResumeFollowUpTaskCommand : Zero ResumeFollowUpTaskCommand := mkResumeFollowUpTaskCommand zero zero zero zero zero zero zero.

Record RetryFailedFollowUpTaskCommand := mkRetryFailedFollowUpTaskCommand {
  rtc_RequestID : string;
  rtc_GraphID : string;
  rtc_TaskID : string;
  rtc_Actor : string;
  rtc_Roles : list string;
  rtc_Note : string;
  rtc_ExpectedVersion : Z
}.
#[export] Instance eta_RetryFailedFollowUpTaskCommand : Eta RetryFailedFollowUpTaskCommand := eta! mkRetryFailedFollowUpTaskCommand < rtc_RequestID ; rtc_GraphID ; rtc_TaskID ; rtc_Actor ; rtc_Roles ; rtc_Note ; rtc_ExpectedVersion >.
#[export] Instance zero_RetryFailedFollowUpTaskCommand : Zero RetryFailedFollowUpTaskCommand := mkRetryFailedFollowUpTaskCommand zero zero zero zero zero zero zero.

Record ReevaluateTaskGraphCommand := mkReevaluateTaskGraphCommand {
  rvc_RequestID : string;
  rvc_GraphID : string;
  rvc_Actor : string;
  rvc_Roles : list string;
  rvc_Note : string
}.
#[export] Instance eta_ReevaluateTaskGraphCommand : Eta ReevaluateTaskGraphCommand := eta! mkReevaluateTaskGraphCommand < rvc_RequestID ; rvc_GraphID ; rvc_Actor ; rvc_Roles ; rvc_Note >.
#[export] Instance zero_ReevaluateTaskGraphCommand : Zero ReevaluateTaskGraphCommand := mkReevaluateTaskGraphCommand zero zero zero zero zero.

Record TaskCommandResult := mkTaskCommandResult {
  cr_Action : OperatorActionRecord;
  cr_GraphID : string;
  cr_TaskID : string;
  cr_ApprovalID : string;
  cr_ExecutionID : string;
  cr_Status : TaskQueueStatus;
  cr_AutoResumeTried : bool;
  cr_AutoResumeApplied : bool;
  cr_FailureSummary : string;
  cr_EnqueueResults : list WorkEnqueueResult;
  cr_EnqueuedWorkItemIDs : list string;
  cr_EnqueuedWorkKinds : list WorkItemKind;
  cr_AsyncDispatchAccepted : bool
}.
#[export] Instance eta_TaskCommandResult : Eta TaskCommandResult := eta! mkTaskCommandResult < cr_Action ; cr_GraphID ; cr_TaskID ; cr_ApprovalID ; cr_ExecutionID ; cr_Status ; cr_AutoResumeTried ; cr_AutoResumeApplied ; cr_FailureSummary ; cr_EnqueueResults ; cr_EnqueuedWorkItemIDs ; cr_EnqueuedWorkKinds ; cr_AsyncDispatchAccepted >.
#[export] Instance zero_TaskCommandResult : Zero TaskCommandResult := mkTaskCommandResult zero zero zero zero zero zero zero zero zero zero zero zero zero.

Record WorkerPassResult := mkWorkerPassResult {
  wp_WorkerID : string;
  wp_ScannedGraphs : Z;
  wp_Reevaluated : list string;
  wp_Executed : list TaskExecutionRecord;
  wp_ResumedTasks : list string;
  wp_SkippedTasks : list string;
  wp_ClaimedWorkItemIDs : list string;
  wp_CompletedWorkItemIDs : list string;
  wp_FailedWorkItemIDs : list string;
  wp_ReclaimedWorkItemIDs : list string;
  wp_SchedulerWakeups : list string;
  wp_CompletedAt : string;
  wp_DryRun : bool
}.
#[export] Instance eta_WorkerPassResult : Eta WorkerPassResult := eta! mkWorkerPassResult < wp_WorkerID ; wp_ScannedGraphs ; wp_Reevaluated ; wp_Executed ; wp_ResumedTasks ; wp_SkippedTasks ; wp_ClaimedWorkItemIDs ; wp_CompletedWorkItemIDs ; wp_FailedWorkItemIDs ; wp_ReclaimedWorkItemIDs ; wp_SchedulerWakeups ; wp_CompletedAt ; wp_DryRun >.
#[export] Instance zero_WorkerPassResult : Zero WorkerPassResult := mkWorkerPassResult zero zero zero zero zero zero zero zero zero zero zero zero zero.

Record SchedulerTickResult := mkSchedulerTickResult {
  st_ScannedGraphs : Z;
  st_SavedWakeups : list SchedulerWakeup;
  st_DispatchedWakeups : list SchedulerWakeup;
  st_EnqueueResults : list WorkEnqueueResult;
  st_EnqueuedWorkItemIDs : list string;
  st_EnqueuedWorkKinds : list WorkItemKind;
  st_TickedAt : time
}.
#[export] Instance eta_SchedulerTickResult : Eta SchedulerTickResult := eta! mkSchedulerTickResult < st_ScannedGraphs ; st_SavedWakeups ; st_DispatchedWakeups ; st_EnqueueResults ; st_EnqueuedWorkItemIDs ; st_EnqueuedWorkKinds ; st_TickedAt >.
#[export] Instance zero_SchedulerTickResult : Zero SchedulerTickResult := mkSchedulerTickResult zero zero zero zero zero zero zero.

(** ** Details of replay events, and their JSON *)

Record followUpExecutionReplayDetails := mkfollowUpExecutionReplayDetails {
  fd_Status : TaskQueueStatus;
  fd_Intent : string;
  fd_FailureCategory : FailureCategory;
  fd_FailureSummary : string;
  fd_ApprovalID : string;
  fd_CheckpointID : string;
  fd_ResumeToken : string;
  fd_Committed : bool;
  fd_UpdatedStateRef : string;
  fd_ArtifactIDs : list string
}.
#[export] Instance eta_followUpExecutionReplayDetails : Eta followUpExecutionReplayDetails := eta! mkfollowUpExecutionReplayDetails < fd_Status ; fd_Intent ; fd_FailureCategory ; fd_FailureSummary ; fd_ApprovalID ; fd_CheckpointID ; fd_ResumeToken ; fd_Committed ; fd_UpdatedStateRef ; fd_ArtifactIDs >.
#[export] Instance zero_followUpExecutionReplayDetails : Zero followUpExecutionReplayDetails := mkfollowUpExecutionReplayDetails zero zero zero zero zero zero zero zero zero zero.

Record AsyncReplayEventDetails := mkAsyncReplayEventDetails {
  ad_WorkerID : string;
  ad_WorkItemID : string;
  ad_WorkItemKind : string;
  ad_LeaseID : string;
  ad_FencingToken : Z;
  ad_AttemptID : string;
  ad_HeartbeatTimestamps : list string;
  ad_ReclaimReason : string;
  ad_SchedulerDecision : string;
  ad_RetryBackoffDecision : string;
  ad_StoreBackendProfile : string;
  ad_GraphID : string;
  ad_TaskID : string;
  ad_ExecutionID : string;
  ad_ApprovalID : string;
  ad_ReadyTaskIDs : list string;
  ad_ExecutedTaskIDs : list string;
  ad_RetryOfExecutionID : string
}.
#[export] Instance eta_AsyncReplayEventDetails : Eta AsyncReplayEventDetails := eta! mkAsyncReplayEventDetails < ad_WorkerID ; ad_WorkItemID ; ad_WorkItemKind ; ad_LeaseID ; ad_FencingToken ; ad_AttemptID ; ad_HeartbeatTimestamps ; ad_ReclaimReason ; ad_SchedulerDecision ; ad_RetryBackoffDecision ; ad_StoreBackendProfile ; ad_GraphID ; ad_TaskID ; ad_ExecutionID ; ad_ApprovalID ; ad_ReadyTaskIDs ; ad_ExecutedTaskIDs ; ad_RetryOfExecutionID >.
#[export] Instance zero_AsyncReplayEventDetails : Zero AsyncReplayEventDetails := mkAsyncReplayEventDetails zero zero zero zero zero zero zero zero zero zero zero zero zero zero zero zero zero zero.

Record operatorAsyncDispatchReplayDetails := mkoperatorAsyncDispatchReplayDetails {
  od_WorkerAction : string;
  od_WorkItemID : string;
  od_WorkItemKind : string;
  od_SchedulerDecision : string;
  od_StoreBackendProfile : string
}.
#[export] Instance eta_operatorAsyncDispatchReplayDetails : Eta operatorAsyncDispatchReplayDetails := eta! mkoperatorAsyncDispatchReplayDetails < od_WorkerAction ; od_WorkItemID ; od_WorkItemKind ; od_SchedulerDecision ; od_StoreBackendProfile >.
#[export] Instance zero_operatorAsyncDispatchReplayDetails : Zero operatorAsyncDispatchReplayDetails := mkoperatorAsyncDispatchReplayDetails zero zero zero zero zero.

Definition marshal_followUpExecutionReplayDetails (d : followUpExecutionReplayDetails) : string :=
  json_render (JObj (
    field "status" (JStr (TaskQueueStatus_string (fd_Status d))) ++
    field "intent" (JStr (fd_Intent d)) ++
    omitempty "failure_category" (JStr (FailureCategory_string (fd_FailureCategory d))) ++
    omitempty "failure_summary" (JStr (fd_FailureSummary d)) ++
    omitempty "approval_id" (JStr (fd_ApprovalID d)) ++
    omitempty "checkpoint_id" (JStr (fd_CheckpointID d)) ++
    omitempty "resume_token" (JStr (fd_ResumeToken d)) ++
    field "committed" (JBool (fd_Committed d)) ++
    omitempty "updated_state_ref" (JStr (fd_UpdatedStateRef d)) ++
    omitempty "artifact_ids" (JStrs (fd_ArtifactIDs d)))).

Definition marshal_AsyncReplayEventDetails (d : AsyncReplayEventDetails) : string :=
  json_render (JObj (
    omitempty "worker_id" (JStr (ad_WorkerID d)) ++
    omitempty "work_item_id" (JStr (ad_WorkItemID d)) ++
    omitempty "work_item_kind" (JStr (ad_WorkItemKind d)) ++
    omitempty "lease_id" (JStr (ad_LeaseID d)) ++
    omitempty "fencing_token" (JInt (ad_FencingToken d)) ++
    omitempty "attempt_id" (JStr (ad_AttemptID d)) ++
    omitempty "heartbeat_timestamps" (JStrs (ad_HeartbeatTimestamps d)) ++
    omitempty "reclaim_reason" (JStr (ad_ReclaimReason d)) ++
    omitempty "scheduler_decision" (JStr (ad_SchedulerDecision d)) ++
    omitempty "retry_backoff_decision" (JStr (ad_RetryBackoffDecision d)) ++
    omitempty "store_backend_profile" (JStr (ad_StoreBackendProfile d)) ++
    omitempty "graph_id" (JStr (ad_GraphID d)) ++
    omitempty "task_id" (JStr (ad_TaskID d)) ++
    omitempty "execution_id" (JStr (ad_ExecutionID d)) ++
    omitempty "approval_id" (JStr (ad_ApprovalID d)) ++
    omitempty "ready_task_ids" (JStrs (ad_ReadyTaskIDs d)) ++
    omitempty "executed_task_ids" (JStrs (ad_ExecutedTaskIDs d)) ++
    omitempty "retry_of_execution_id" (JStr (ad_RetryOfExecutionID d)))).

Definition marshal_operatorAsyncDispatchReplayDetails (d : operatorAsyncDispatchReplayDetails) : string :=
  json_render (JObj (
    field "worker_action" (JStr (od_WorkerAction d)) ++
    field "work_item_id" (JStr (od_WorkItemID d)) ++
    field "work_item_kind" (JStr (od_WorkItemKind d)) ++
    omitempty "scheduler_decision" (JStr (od_SchedulerDecision d)) ++
    omitempty "store_backend_profile" (JStr (od_StoreBackendProfile d)))).

(** ** Decidable equality of task records ([reflect.DeepEqual]) *)

#[export] Instance FollowUpTaskRecord_eq_dec : EqDecision FollowUpTaskRecord.
Proof. solve_decision. Defined.
#[export] Instance SpawnedTaskRecord_eq_dec : EqDecision SpawnedTaskRecord.
Proof. solve_decision. Defined.
#[export] Instance WorkItem_eq_dec : EqDecision WorkItem.
Proof. solve_decision. Defined.
#[export] Instance DeferredTaskRecord_eq_dec : EqDecision DeferredTaskRecord.
Proof. solve_decision. Defined.

(** ** Validation methods *)

(** [validWorkflowState] (validation.go) *)
Definition validWorkflowState (state : WorkflowExecutionState) : bool :=
  match state with
  | WorkflowStateCreated | WorkflowStatePlanning | WorkflowStateActing | WorkflowStateVerifying
  | WorkflowStateReplanning | WorkflowStateWaitingApproval | WorkflowStatePaused
  | WorkflowStateRetrying | WorkflowStateCompleted | WorkflowStateFailed | WorkflowStateAborted => true
  | WorkflowExecutionStateOther _ => false
  end.

(** [CheckpointRecord.Validate] *)
Definition CheckpointRecord_Validate (c : CheckpointRecord) : option error :=
  if ck_ID c == "" then Some (PlainError "checkpoint id is required")
  else if ck_WorkflowID c == "" then Some (PlainError "checkpoint workflow id is required")
  else if negb (validWorkflowState (ck_State c)) || negb (validWorkflowState (ck_ResumeState c))
  then Some (PlainError "checkpoint states must be valid")
  else if IsZero (ck_CapturedAt c) then Some (PlainError "checkpoint captured_at is required")
  else None.

(** [ResumeToken.Validate] *)
Definition ResumeToken_Validate (r : ResumeToken) : option error :=
  if rt_Token r == "" then Some (PlainError "resume token is required")
  else if (rt_WorkflowID r == "") || (rt_CheckpointID r == "")
  then Some (PlainError "resume token must bind workflow and checkpoint")
  else if IsZero (rt_IssuedAt r) || IsZero (rt_ExpiresAt r)
  then Some (PlainError "resume token timestamps are required")
  else if Before (rt_ExpiresAt r) (rt_IssuedAt r)
  then Some (PlainError "resume token expiry must be after issue time")
  else None.

(** [CheckpointPayloadEnvelope.Validate] *)
Definition CheckpointPayloadEnvelope_Validate (p : CheckpointPayloadEnvelope) : option error :=
  if ce_PayloadRef p != "" then
    if ce_Kind p == CheckpointPayloadKindOther ""
    then Some (PlainError "checkpoint payload ref requires payload kind") else None
  else
    match ce_Kind p with
    | CheckpointPayloadKindFollowUpFinalizeResume =>
        match ce_FollowUpFinalizeResume p with
        | None => Some (PlainError "follow_up_finalize_resume payload is required")
        | Some f =>
            if (fp_GraphID f == "") || (fp_TaskID f == "") || (fp_WorkflowID f == "")
            then Some (PlainError "follow_up_finalize_resume requires graph/task/workflow ids")
            else match ReportPayload_Validate (fp_DraftReport f) with
                 | Some e => Some (WrapError "follow_up_finalize_resume draft report invalid: " e)
                 | None =>
                     if fp_PendingStateSnapshotRef f == ""
                     then Some (PlainError "follow_up_finalize_resume requires pending state snapshot ref")
                     else None
                 end
        end
    | CheckpointPayloadKindOther s =>
        Some (PlainError ("unsupported checkpoint payload kind " +:+ Quote s))
    end.

(** [FollowUpTaskRecord.Validate] (task_graph.go) *)
Definition FollowUpTaskRecord_Validate (r : FollowUpTaskRecord) : option error :=
  match TaskSpec_Validate (ft_Task r) with
  | Some e => Some e
  | None =>
      let about := "follow-up task " +:+ Quote (ts_ID (ft_Task r)) in
      if blank (ft_RequiredCapability r) then Some (PlainError (about +:+ " requires required_capability"))
      else if IsZero (ft_RegisteredAt r) then Some (PlainError (about +:+ " requires registered_at"))
      else if (ft_Status r == TaskQueueStatusQueuedPendingCapability) && blank (ft_MissingCapabilityReason r)
      then Some (PlainError (about +:+ " requires missing_capability_reason when queued_pending_capability"))
      else None
  end.

(** ** Small helpers *)

(** [firstNonEmpty] *)
Fixpoint firstNonEmpty (values : list string) : string :=
  match values with
  | [] => ""
  | item :: values' => if item != "" then item else firstNonEmpty values'
  end.

(** [uniqueStrings]: unlike [trimNonEmpty] it keeps the item untrimmed. *)
Fixpoint uniqueStrings_loop (seen : gset string) (items : list string) : list string :=
  match items with
  | [] => []
  | item :: items' =>
      if blank item then uniqueStrings_loop seen items'
      else if bool_decide (item ∈ seen) then uniqueStrings_loop seen items'
      else item :: uniqueStrings_loop ({[item]} ∪ seen) items'
  end.

Definition uniqueStrings (items : list string) : list string := uniqueStrings_loop ∅ items.

(** [artifactIDs] *)
Definition artifactIDs (items : list WorkflowArtifact) : list string := wa_ID <$> items.

(** [findTaskRecord] *)
Definition findTaskRecord (records : list FollowUpTaskRecord) (taskID : string) : option FollowUpTaskRecord :=
  snd <$> list_find (fun r => ts_ID (ft_Task r) = taskID) records.
