(* ===== verification/AgentTypes.v ===== *)
(** * Data of the observation, memory, governance and context packages

    The structs and string enumerations of [internal/observation/types.go],
    [internal/memory/types.go], [internal/skills/types.go],
    [internal/governance], [internal/finance/types.go],
    [internal/analysis/types.go] and [internal/context], field by field. *)

From S2P Require Export Domain Errors GoText.

(** ** internal/observation/types.go *)

Inductive EvidenceType :=
| EvidenceTypeLedgerTransaction
| EvidenceTypeDocumentStatement
| EvidenceTypeEventSignal
| EvidenceTypeMarketPolicy
| EvidenceTypeCalendarDeadline
| EvidenceTypeExtractedTable
| EvidenceTypeAgenticParse
| EvidenceTypeTransactionBatch
| EvidenceTypeRecurringSubscription
| EvidenceTypeLateNightSpendingSignal
| EvidenceTypeDebtObligationSnapshot
| EvidenceTypePortfolioAllocationSnap
| EvidenceTypePayslipStatement
| EvidenceTypeCreditCardStatement
| EvidenceTypeTaxDocument
| EvidenceTypeBrokerStatement
| EvidenceTypeOther (s : string).
#[export] Instance EvidenceType_eq_dec : EqDecision EvidenceType.
Proof. solve_decision. Defined.
Definition EvidenceType_string (x : EvidenceType) : string :=
  match x with
  | EvidenceTypeLedgerTransaction => "ledger_transaction"
  | EvidenceTypeDocumentStatement => "document_statement"
  | EvidenceTypeEventSignal => "event_signal"
  | EvidenceTypeMarketPolicy => "market_policy"
  | EvidenceTypeCalendarDeadline => "calendar_deadline"
  | EvidenceTypeExtractedTable => "extracted_table"
  | EvidenceTypeAgenticParse => "agentic_parse"
  | EvidenceTypeTransactionBatch => "transaction_batch"
  | EvidenceTypeRecurringSubscription => "recurring_subscription_signal"
  | EvidenceTypeLateNightSpendingSignal => "late_night_spending_signal"
  | EvidenceTypeDebtObligationSnapshot => "debt_obligation_snapshot"
  | EvidenceTypePortfolioAllocationSnap => "portfolio_allocation_snapshot"
  | EvidenceTypePayslipStatement => "payslip_statement"
  | EvidenceTypeCreditCardStatement => "credit_card_statement"
  | EvidenceTypeTaxDocument => "tax_document"
  | EvidenceTypeBrokerStatement => "broker_statement"
  | EvidenceTypeOther s => s
  end.
#[export] Instance zero_EvidenceType : Zero EvidenceType := EvidenceTypeOther "".

Inductive EvidenceNormalizationStatus :=
| EvidenceNormalizationNormalized
| EvidenceNormalizationPartial
| EvidenceNormalizationRejected
| EvidenceNormalizationStatusOther (s : string).
#[export] Instance EvidenceNormalizationStatus_eq_dec : EqDecision EvidenceNormalizationStatus.
Proof. solve_decision. Defined.
Definition EvidenceNormalizationStatus_string (x : EvidenceNormalizationStatus) : string :=
  match x with
  | EvidenceNormalizationNormalized => "normalized"
  | EvidenceNormalizationPartial => "partial"
  | EvidenceNormalizationRejected => "rejected"
  | EvidenceNormalizationStatusOther s => s
  end.
#[export] Instance zero_EvidenceNormalizationStatus : Zero EvidenceNormalizationStatus := EvidenceNormalizationStatusOther "".

Record EvidenceSource := mkEvidenceSource {
  es_Kind : string;
  es_Adapter : string;
  es_Reference : string;
  es_Provenance : string
}.
#[export] Instance eta_EvidenceSource : Eta EvidenceSource := eta! mkEvidenceSource < es_Kind ; es_Adapter ; es_Reference ; es_Provenance >.
#[export] Instance zero_EvidenceSource : Zero EvidenceSource := mkEvidenceSource zero zero zero zero.

Record EvidenceTimeRange := mkEvidenceTimeRange {
  et_ObservedAt : time;
  et_Start : option time;
  et_End : option time
}.
#[export] Instance eta_EvidenceTimeRange : Eta EvidenceTimeRange := eta! mkEvidenceTimeRange < et_ObservedAt ; et_Start ; et_End >.
#[export] Instance zero_EvidenceTimeRange : Zero EvidenceTimeRange := mkEvidenceTimeRange zero zero zero.

Record EvidenceConfidence := mkEvidenceConfidence {
  eco_Score : spec_float;
  eco_Reason : string
}.
#[export] Instance eta_EvidenceConfidence : Eta EvidenceConfidence := eta! mkEvidenceConfidence < eco_Score ; eco_Reason >.
#[export] Instance zero_EvidenceConfidence : Zero EvidenceConfidence := mkEvidenceConfidence zero zero.

Record EvidenceArtifactRef := mkEvidenceArtifactRef {
  ea_ObjectKey : string;
  ea_MediaType : string;
  ea_Checksum : string
}.
#[export] Instance eta_EvidenceArtifactRef : Eta EvidenceArtifactRef := eta! mkEvidenceArtifactRef < ea_ObjectKey ; ea_MediaType ; ea_Checksum >.
#[export] Instance zero_EvidenceArtifactRef : Zero EvidenceArtifactRef := mkEvidenceArtifactRef zero zero zero.

Record EvidenceClaim := mkEvidenceClaim {
  ecl_Subject : string;
  ecl_Predicate : string;
  ecl_Object : string;
  ecl_ValueJSON : string
}.
#[export] Instance eta_EvidenceClaim : Eta EvidenceClaim := eta! mkEvidenceClaim < ecl_Subject ; ecl_Predicate ; ecl_Object ; ecl_ValueJSON >.
#[export] Instance zero_EvidenceClaim : Zero EvidenceClaim := mkEvidenceClaim zero zero zero zero.

Record EvidenceNormalizationResult := mkEvidenceNormalizationResult {
  en_Status : EvidenceNormalizationStatus;
  en_CanonicalUnit : string;
  en_Notes : list string;
  en_RejectedReason : string
}.
#[export] Instance eta_EvidenceNormalizationResult : Eta EvidenceNormalizationResult := eta! mkEvidenceNormalizationResult < en_Status ; en_CanonicalUnit ; en_Notes ; en_RejectedReason >.
#[export] Instance zero_EvidenceNormalizationResult : Zero EvidenceNormalizationResult := mkEvidenceNormalizationResult zero zero zero zero.

Record EvidenceRecord := mkEvidenceRecord {
  er_ID : EvidenceID;
  er_Type : EvidenceType;
  er_Source : EvidenceSource;
  er_TimeRange : EvidenceTimeRange;
  er_Confidence : EvidenceConfidence;
  er_Artifact : option EvidenceArtifactRef;
  er_Claims : list EvidenceClaim;
  er_Normalization : EvidenceNormalizationResult;
  er_Summary : string;
  er_CreatedAt : time
}.
#[export] Instance eta_EvidenceRecord : Eta EvidenceRecord := eta! mkEvidenceRecord < er_ID ; er_Type ; er_Source ; er_TimeRange ; er_Confidence ; er_Artifact ; er_Claims ; er_Normalization ; er_Summary ; er_CreatedAt >.
#[export] Instance zero_EvidenceRecord : Zero EvidenceRecord := mkEvidenceRecord zero zero zero zero zero zero zero zero zero zero.

(** ** internal/memory/types.go *)

Inductive MemoryKind :=
| MemoryKindEpisodic
| MemoryKindSemantic
| MemoryKindProcedural
| MemoryKindPolicy
| MemoryKindOther (s : string).
#[export] Instance MemoryKind_eq_dec : EqDecision MemoryKind.
Proof. solve_decision. Defined.
Definition MemoryKind_string (x : MemoryKind) : string :=
  match x with
  | MemoryKindEpisodic => "episodic"
  | MemoryKindSemantic => "semantic"
  | MemoryKindProcedural => "procedural"
  | MemoryKindPolicy => "policy"
  | MemoryKindOther s => s
  end.
#[export] Instance zero_MemoryKind : Zero MemoryKind := MemoryKindOther "".

Record MemoryFact := mkMemoryFact {
  mf_Key : string;
  mf_Value : string;
  mf_EvidenceID : EvidenceID
}.
#[export] Instance eta_MemoryFact : Eta MemoryFact := eta! mkMemoryFact < mf_Key ; mf_Value ; mf_EvidenceID >.
#[export] Instance zero_MemoryFact : Zero MemoryFact := mkMemoryFact zero zero zero.

Record MemoryRelation := mkMemoryRelation {
  mrl_Type : string;
  mrl_TargetMemoryID : string;
  mrl_Description : string
}.
#[export] Instance eta_MemoryRelation : Eta MemoryRelation := eta! mkMemoryRelation < mrl_Type ; mrl_TargetMemoryID ; mrl_Description >.
#[export] Instance zero_MemoryRelation : Zero MemoryRelation := mkMemoryRelation zero zero zero.

Record MemorySource := mkMemorySource {
  ms_EvidenceIDs : list EvidenceID;
  ms_TaskID : string;
  ms_WorkflowID : string;
  ms_TraceID : string;
  ms_Actor : string
}.
#[export] Instance eta_MemorySource : Eta MemorySource := eta! mkMemorySource < ms_EvidenceIDs ; ms_TaskID ; ms_WorkflowID ; ms_TraceID ; ms_Actor >.
#[export] Instance zero_MemorySource : Zero MemorySource := mkMemorySource zero zero zero zero zero.

Record MemoryConfidence := mkMemoryConfidence {
  mc_Score : spec_float;
  mc_Rationale : string
}.
#[export] Instance eta_MemoryConfidence : Eta MemoryConfidence := eta! mkMemoryConfidence < mc_Score ; mc_Rationale >.
#[export] Instance zero_MemoryConfidence : Zero MemoryConfidence := mkMemoryConfidence zero zero.

Record SupersedesRef := mkSupersedesRef {
  su_MemoryID : string;
  su_Reason : string
}.
#[export] Instance eta_SupersedesRef : Eta SupersedesRef := eta! mkSupersedesRef < su_MemoryID ; su_Reason >.
#[export] Instance zero_SupersedesRef : Zero SupersedesRef := mkSupersedesRef zero zero.

Record ConflictRef := mkConflictRef {
  cr_MemoryID : string;
  cr_Reason : string
}.
#[export] Instance eta_ConflictRef : Eta ConflictRef := eta! mkConflictRef < cr_MemoryID ; cr_Reason >.
#[export] Instance zero_ConflictRef : Zero ConflictRef := mkConflictRef zero zero.

Record MemoryRecord := mkMemoryRecord {
  mm_ID : string;
  mm_Kind : MemoryKind;
  mm_Summary : string;
  mm_Facts : list MemoryFact;
  mm_Relations : list MemoryRelation;
  mm_Source : MemorySource;
  mm_Confidence : MemoryConfidence;
  mm_CreatedAt : time;
  mm_UpdatedAt : time;
  mm_Supersedes : list SupersedesRef;
  mm_Conflicts : list ConflictRef
}.
#[export] Instance eta_MemoryRecord : Eta MemoryRecord := eta! mkMemoryRecord < mm_ID ; mm_Kind ; mm_Summary ; mm_Facts ; mm_Relations ; mm_Source ; mm_Confidence ; mm_CreatedAt ; mm_UpdatedAt ; mm_Supersedes ; mm_Conflicts >.
#[export] Instance zero_MemoryRecord : Zero MemoryRecord := mkMemoryRecord zero zero zero zero zero zero zero zero zero zero zero.

Record MemoryAccessAudit := mkMemoryAccessAudit {
  maa_ID : string;
  maa_MemoryID : string;
  maa_WorkflowID : string;
  maa_TaskID : string;
  maa_TraceID : string;
  maa_QueryID : string;
  maa_Accessor : string;
  maa_Purpose : string;
  maa_Action : string;
  maa_Reason : string;
  maa_Score : spec_float;
  maa_AccessedAt : time
}.
#[export] Instance eta_MemoryAccessAudit : Eta MemoryAccessAudit := eta! mkMemoryAccessAudit < maa_ID ; maa_MemoryID ; maa_WorkflowID ; maa_TaskID ; maa_TraceID ; maa_QueryID ; maa_Accessor ; maa_Purpose ; maa_Action ; maa_Reason ; maa_Score ; maa_AccessedAt >.
#[export] Instance zero_MemoryAccessAudit : Zero MemoryAccessAudit := mkMemoryAccessAudit zero zero zero zero zero zero zero zero zero zero zero zero.

Record MemoryWriteEvent := mkMemoryWriteEvent {
  mwe_ID : string;
  mwe_MemoryID : string;
  mwe_WorkflowID : string;
  mwe_TaskID : string;
  mwe_TraceID : string;
  mwe_Action : string;
  mwe_Summary : string;
  mwe_Provider : string;
  mwe_Model : string;
  mwe_OccurredAt : time;
  mwe_Details : string
}.
#[export] Instance eta_MemoryWriteEvent : Eta MemoryWriteEvent := eta! mkMemoryWriteEvent < mwe_ID ; mwe_MemoryID ; mwe_WorkflowID ; mwe_TaskID ; mwe_TraceID ; mwe_Action ; mwe_Summary ; mwe_Provider ; mwe_Model ; mwe_OccurredAt ; mwe_Details >.
#[export] Instance zero_MemoryWriteEvent : Zero MemoryWriteEvent := mkMemoryWriteEvent zero zero zero zero zero zero zero zero zero zero zero.

Record RetrievalQuery := mkRetrievalQuery {
  rq_QueryID : string;
  rq_WorkflowID : string;
  rq_TaskID : string;
  rq_TraceID : string;
  rq_Consumer : string;
  rq_ContextView : string;
  rq_Text : string;
  rq_LexicalTerms : list string;
  rq_SemanticHint : string;
  rq_TopK : Z;
  rq_RetrievalPolicy : string;
  rq_FreshnessPolicy : string;
  rq_EmbeddingModel : string;
  rq_EmbeddingProfile : string
}.
#[export] Instance eta_RetrievalQuery : Eta RetrievalQuery := eta! mkRetrievalQuery < rq_QueryID ; rq_WorkflowID ; rq_TaskID ; rq_TraceID ; rq_Consumer ; rq_ContextView ; rq_Text ; rq_LexicalTerms ; rq_SemanticHint ; rq_TopK ; rq_RetrievalPolicy ; rq_FreshnessPolicy ; rq_EmbeddingModel ; rq_EmbeddingProfile >.
#[export] Instance zero_RetrievalQuery : Zero RetrievalQuery := mkRetrievalQuery zero zero zero zero zero zero zero zero zero zero zero zero zero zero.

Record RetrievalResult := mkRetrievalResult {
  rr_MemoryID : string;
  rr_Score : spec_float;
  rr_LexicalScore : spec_float;
  rr_SemanticScore : spec_float;
  rr_FusedScore : spec_float;
  rr_Reason : string;
  rr_Rejected : bool;
  rr_RejectionRule : string;
  rr_RejectionReason : string;
  rr_Selected : bool;
  rr_MatchedTerms : list string;
  rr_FreshnessAgeDays : Z;
  rr_Memory : MemoryRecord
}.
#[export] Instance eta_RetrievalResult : Eta RetrievalResult := eta! mkRetrievalResult < rr_MemoryID ; rr_Score ; rr_LexicalScore ; rr_SemanticScore ; rr_FusedScore ; rr_Reason ; rr_Rejected ; rr_RejectionRule ; rr_RejectionReason ; rr_Selected ; rr_MatchedTerms ; rr_FreshnessAgeDays ; rr_Memory >.
#[export] Instance zero_RetrievalResult : Zero RetrievalResult := mkRetrievalResult zero zero zero zero zero zero zero zero zero zero zero zero zero.

Record MemoryRelations := mkMemoryRelations {
  mrs_Relations : list MemoryRelation;
  mrs_Supersedes : list SupersedesRef;
  mrs_Conflicts : list ConflictRef
}.
#[export] Instance eta_MemoryRelations : Eta MemoryRelations := eta! mkMemoryRelations < mrs_Relations ; mrs_Supersedes ; mrs_Conflicts >.
#[export] Instance zero_MemoryRelations : Zero MemoryRelations := mkMemoryRelations zero zero zero.

Record MemoryEmbeddingRecord := mkMemoryEmbeddingRecord {
  me_MemoryID : string;
  me_Provider : string;
  me_Model : string;
  me_Vector : list spec_float;
  me_Dimensions : Z;
  me_EmbeddedAt : time;
  me_ContentHash : string
}.
#[export] Instance eta_MemoryEmbeddingRecord : Eta MemoryEmbeddingRecord := eta! mkMemoryEmbeddingRecord < me_MemoryID ; me_Provider ; me_Model ; me_Vector ; me_Dimensions ; me_EmbeddedAt ; me_ContentHash >.
#[export] Instance zero_MemoryEmbeddingRecord : Zero MemoryEmbeddingRecord := mkMemoryEmbeddingRecord zero zero zero zero zero zero zero.

Record PreparedMemoryWrite := mkPreparedMemoryWrite {
  pw_Record : MemoryRecord;
  pw_Relations : MemoryRelations;
  pw_Embedding : option MemoryEmbeddingRecord;
  pw_Terms : gmap string Z;
  pw_Audit : option MemoryAccessAudit;
  pw_WriteEvents : list MemoryWriteEvent
}.
#[export] Instance eta_PreparedMemoryWrite : Eta PreparedMemoryWrite := eta! mkPreparedMemoryWrite < pw_Record ; pw_Relations ; pw_Embedding ; pw_Terms ; pw_Audit ; pw_WriteEvents >.
#[export] Instance zero_PreparedMemoryWrite : Zero PreparedMemoryWrite := mkPreparedMemoryWrite zero zero zero zero zero zero.

Record DurableWriteResult := mkDurableWriteResult {
  dw_MemoryID : string;
  dw_CommittedAt : time;
  dw_EmbeddingSet : bool;
  dw_TermsSet : bool
}.
#[export] Instance eta_DurableWriteResult : Eta DurableWriteResult := eta! mkDurableWriteResult < dw_MemoryID ; dw_CommittedAt ; dw_EmbeddingSet ; dw_TermsSet >.
#[export] Instance zero_DurableWriteResult : Zero DurableWriteResult := mkDurableWriteResult zero zero zero zero.

Record LexicalCandidate := mkLexicalCandidate {
  lc_MemoryID : string;
  lc_Score : spec_float;
  lc_MatchedTerms : list string
}.
#[export] Instance eta_LexicalCandidate : Eta LexicalCandidate := eta! mkLexicalCandidate < lc_MemoryID ; lc_Score ; lc_MatchedTerms >.
#[export] Instance zero_LexicalCandidate : Zero LexicalCandidate := mkLexicalCandidate zero zero zero.

Record FreshnessPolicy := mkFreshnessPolicy {
  fpl_Name : string;
  fpl_EpisodicMaxAge : Duration;
  fpl_RejectLowConfidence : bool;
  fpl_LowConfidenceFloor : spec_float;
  fpl_MinAcceptedFusedScore : spec_float
}.
#[export] Instance eta_FreshnessPolicy : Eta FreshnessPolicy := eta! mkFreshnessPolicy < fpl_Name ; fpl_EpisodicMaxAge ; fpl_RejectLowConfidence ; fpl_LowConfidenceFloor ; fpl_MinAcceptedFusedScore >.
#[export] Instance zero_FreshnessPolicy : Zero FreshnessPolicy := mkFreshnessPolicy zero zero zero zero zero.

Record RetrievalPolicy := mkRetrievalPolicy {
  rpl_Name : string;
  rpl_FreshnessPolicy : FreshnessPolicy
}.
#[export] Instance eta_RetrievalPolicy : Eta RetrievalPolicy := eta! mkRetrievalPolicy < rpl_Name ; rpl_FreshnessPolicy >.
#[export] Instance zero_RetrievalPolicy : Zero RetrievalPolicy := mkRetrievalPolicy zero zero.

Record IndexBuildSummary := mkIndexBuildSummary {
  ibs_RecordsScanned : Z;
  ibs_RecordsIndexed : Z;
  ibs_EmbeddingsBuilt : Z;
  ibs_TermsBuilt : Z;
  ibs_Provider : string;
  ibs_Model : string;
  ibs_StartedAt : time;
  ibs_CompletedAt : time
}.
#[export] Instance eta_IndexBuildSummary : Eta IndexBuildSummary := eta! mkIndexBuildSummary < ibs_RecordsScanned ; ibs_RecordsIndexed ; ibs_EmbeddingsBuilt ; ibs_TermsBuilt ; ibs_Provider ; ibs_Model ; ibs_StartedAt ; ibs_CompletedAt >.
#[export] Instance zero_IndexBuildSummary : Zero IndexBuildSummary := mkIndexBuildSummary zero zero zero zero zero zero zero zero.

Record EmbeddingRequest := mkEmbeddingRequest {
  emr_Provider : string;
  emr_Model : string;
  emr_Input : string;
  emr_WorkflowID : string;
  emr_TaskID : string;
  emr_TraceID : string;
  emr_Actor : string;
  emr_QueryID : string
}.
#[export] Instance eta_EmbeddingRequest : Eta EmbeddingRequest := eta! mkEmbeddingRequest < emr_Provider ; emr_Model ; emr_Input ; emr_WorkflowID ; emr_TaskID ; emr_TraceID ; emr_Actor ; emr_QueryID >.
#[export] Instance zero_EmbeddingRequest : Zero EmbeddingRequest := mkEmbeddingRequest zero zero zero zero zero zero zero zero.

Record EmbeddingUsageRecord := mkEmbeddingUsageRecord {
  emu_Provider : string;
  emu_Model : string;
  emu_WorkflowID : string;
  emu_TaskID : string;
  emu_TraceID : string;
  emu_Actor : string;
  emu_QueryID : string;
  emu_InputTokens : Z;
  emu_EstimatedCostUSD : spec_float;
  emu_RecordedAt : time
}.
#[export] Instance eta_EmbeddingUsageRecord : Eta EmbeddingUsageRecord := eta! mkEmbeddingUsageRecord < emu_Provider ; emu_Model ; emu_WorkflowID ; emu_TaskID ; emu_TraceID ; emu_Actor ; emu_QueryID ; emu_InputTokens ; emu_EstimatedCostUSD ; emu_RecordedAt >.
#[export] Instance zero_EmbeddingUsageRecord : Zero EmbeddingUsageRecord := mkEmbeddingUsageRecord zero zero zero zero zero zero zero zero zero zero.

Record EmbeddingResponse := mkEmbeddingResponse {
  emp_Provider : string;
  emp_Model : string;
  emp_Vector : list spec_float;
  emp_Dimensions : Z;
  emp_ResponseID : string;
  emp_Latency : Duration;
  emp_Usage : EmbeddingUsageRecord;
  emp_RawResponse : string
}.
#[export] Instance eta_EmbeddingResponse : Eta EmbeddingResponse := eta! mkEmbeddingResponse < emp_Provider ; emp_Model ; emp_Vector ; emp_Dimensions ; emp_ResponseID ; emp_Latency ; emp_Usage ; emp_RawResponse >.
#[export] Instance zero_EmbeddingResponse : Zero EmbeddingResponse := mkEmbeddingResponse zero zero zero zero zero zero zero zero.

(** ** internal/skills/types.go *)

Inductive SkillFamily :=
| SkillFamilySubscriptionCleanup
| SkillFamilyLateNightSpendNudge
| SkillFamilyDiscretionaryGuardrail
| SkillFamilyOther (s : string).
#[export] Instance SkillFamily_eq_dec : EqDecision SkillFamily.
Proof. solve_decision. Defined.
Definition SkillFamily_string (x : SkillFamily) : string :=
  match x with
  | SkillFamilySubscriptionCleanup => "subscription_cleanup"
  | SkillFamilyLateNightSpendNudge => "late_night_spend_nudge"
  | SkillFamilyDiscretionaryGuardrail => "discretionary_guardrail"
  | SkillFamilyOther s => s
  end.
#[export] Instance zero_SkillFamily : Zero SkillFamily := SkillFamilyOther "".
#[export] Instance SkillFamily_countable : Countable SkillFamily.
Proof.
  refine (inj_countable'
    (fun x => match x with
| SkillFamilySubscriptionCleanup => inl 0%nat | SkillFamilyLateNightSpendNudge => inl 1%nat | SkillFamilyDiscretionaryGuardrail => inl 2%nat | SkillFamilyOther s => inr s end)
    (fun c => match c with
| inl 0%nat => SkillFamilySubscriptionCleanup | inl 1%nat => SkillFamilyLateNightSpendNudge | inl _ => SkillFamilyDiscretionaryGuardrail | inr s => SkillFamilyOther s end) _).
  by intros [].
Defined.

Inductive InterventionIntensity :=
| InterventionIntensityLow
| InterventionIntensityModerate
| InterventionIntensityHigh
| InterventionIntensityOther (s : string).
#[export] Instance InterventionIntensity_eq_dec : EqDecision InterventionIntensity.
Proof. solve_decision. Defined.
Definition InterventionIntensity_string (x : InterventionIntensity) : string :=
  match x with
  | InterventionIntensityLow => "low"
  | InterventionIntensityModerate => "moderate"
  | InterventionIntensityHigh => "high"
  | InterventionIntensityOther s => s
  end.
#[export] Instance zero_InterventionIntensity : Zero InterventionIntensity := InterventionIntensityOther "".

Record SkillTrigger := mkSkillTrigger {
  sg_Intent : string;
  sg_Keywords : list string;
  sg_RequiredEvidence : list string
}.
#[export] Instance eta_SkillTrigger : Eta SkillTrigger := eta! mkSkillTrigger < sg_Intent ; sg_Keywords ; sg_RequiredEvidence >.
#[export] Instance zero_SkillTrigger : Zero SkillTrigger := mkSkillTrigger zero zero zero.

Record SkillPolicy := mkSkillPolicy {
  sp_RequiresApprovalRecipes : list string;
  sp_PolicyRuleRefs : list string
}.
#[export] Instance eta_SkillPolicy : Eta SkillPolicy := eta! mkSkillPolicy < sp_RequiresApprovalRecipes ; sp_PolicyRuleRefs >.
#[export] Instance zero_SkillPolicy : Zero SkillPolicy := mkSkillPolicy zero zero.

Record SkillExpectedOutput := mkSkillExpectedOutput {
  so_BlockKind : string;
  so_RecommendationTypes : list string
}.
#[export] Instance eta_SkillExpectedOutput : Eta SkillExpectedOutput := eta! mkSkillExpectedOutput < so_BlockKind ; so_RecommendationTypes >.
#[export] Instance zero_SkillExpectedOutput : Zero SkillExpectedOutput := mkSkillExpectedOutput zero zero.

Record SkillRecipe := mkSkillRecipe {
  sr_ID : string;
  sr_Title : string;
  sr_Description : string;
  sr_InterventionIntensity : InterventionIntensity;
  sr_RequiredEvidenceTypes : list string;
  sr_RequiredStateBlocks : list string;
  sr_ApprovalRequired : bool;
  sr_PolicyRuleRefs : list string
}.
#[export] Instance eta_SkillRecipe : Eta SkillRecipe := eta! mkSkillRecipe < sr_ID ; sr_Title ; sr_Description ; sr_InterventionIntensity ; sr_RequiredEvidenceTypes ; sr_RequiredStateBlocks ; sr_ApprovalRequired ; sr_PolicyRuleRefs >.
#[export] Instance zero_SkillRecipe : Zero SkillRecipe := mkSkillRecipe zero zero zero zero zero zero zero zero.

Record SkillManifest := mkSkillManifest {
  sm_Family : SkillFamily;
  sm_Version : string;
  sm_Title : string;
  sm_Description : string;
  sm_Trigger : SkillTrigger;
  sm_Policy : SkillPolicy;
  sm_ExpectedOutput : SkillExpectedOutput;
  sm_Recipes : list SkillRecipe
}.
#[export] Instance eta_SkillManifest : Eta SkillManifest := eta! mkSkillManifest < sm_Family ; sm_Version ; sm_Title ; sm_Description ; sm_Trigger ; sm_Policy ; sm_ExpectedOutput ; sm_Recipes >.
#[export] Instance zero_SkillManifest : Zero SkillManifest := mkSkillManifest zero zero zero zero zero zero zero zero.

Record SkillSelectionReason := mkSkillSelectionReason {
  ssr_Code : string;
  ssr_Detail : string;
  ssr_EvidenceRefs : list string;
  ssr_StateRefs : list string;
  ssr_MemoryRefs : list string;
  ssr_PolicyRuleRefs : list string
}.
#[export] Instance eta_SkillSelectionReason : Eta SkillSelectionReason := eta! mkSkillSelectionReason < ssr_Code ; ssr_Detail ; ssr_EvidenceRefs ; ssr_StateRefs ; ssr_MemoryRefs ; ssr_PolicyRuleRefs >.
#[export] Instance zero_SkillSelectionReason : Zero SkillSelectionReason := mkSkillSelectionReason zero zero zero zero zero zero.

Record SkillSelection := mkSkillSelection {
  sse_Family : SkillFamily;
  sse_Version : string;
  sse_RecipeID : string;
  sse_Reasons : list SkillSelectionReason;
  sse_EvidenceRefs : list string;
  sse_StateRefs : list string;
  sse_MemoryRefs : list string;
  sse_PolicyRuleRefs : list string;
  sse_InterventionIntensity : InterventionIntensity
}.
#[export] Instance eta_SkillSelection : Eta SkillSelection := eta! mkSkillSelection < sse_Family ; sse_Version ; sse_RecipeID ; sse_Reasons ; sse_EvidenceRefs ; sse_StateRefs ; sse_MemoryRefs ; sse_PolicyRuleRefs ; sse_InterventionIntensity >.
#[export] Instance zero_SkillSelection : Zero SkillSelection := mkSkillSelection zero zero zero zero zero zero zero zero zero.

Record ProceduralMemoryContextRecord := mkProceduralMemoryContextRecord {
  pm_ID : string;
  pm_Kind : string;
  pm_Facts : gmap string string
}.
#[export] Instance eta_ProceduralMemoryContextRecord : Eta ProceduralMemoryContextRecord := eta! mkProceduralMemoryContextRecord < pm_ID ; pm_Kind ; pm_Facts >.
#[export] Instance zero_ProceduralMemoryContextRecord : Zero ProceduralMemoryContextRecord := mkProceduralMemoryContextRecord zero zero zero.

Record SelectionInput := mkSelectionInput {
  sin_Task : TaskSpec;
  sin_AllowedFamilies : list string;
  sin_SelectionHint : string;
  sin_CurrentState : FinancialWorldState;
  sin_Evidence : list EvidenceRecord;
  sin_ProceduralMemories : list ProceduralMemoryContextRecord
}.
#[export] Instance eta_SelectionInput : Eta SelectionInput := eta! mkSelectionInput < sin_Task ; sin_AllowedFamilies ; sin_SelectionHint ; sin_CurrentState ; sin_Evidence ; sin_ProceduralMemories >.
#[export] Instance zero_SelectionInput : Zero SelectionInput := mkSelectionInput zero zero zero zero zero zero.

(** ** internal/finance/types.go, internal/analysis/types.go *)

Record CashflowDeterministicMetrics := mkCashflowDeterministicMetrics {
  fcm_MonthlyInflowCents : Z;
  fcm_MonthlyOutflowCents : Z;
  fcm_MonthlyNetIncomeCents : Z;
  fcm_SavingsRate : spec_float;
  fcm_DuplicateSubscriptionCount : Z;
  fcm_LateNightSpendingFrequency : spec_float
}.
#[export] Instance eta_CashflowDeterministicMetrics : Eta CashflowDeterministicMetrics := eta! mkCashflowDeterministicMetrics < fcm_MonthlyInflowCents ; fcm_MonthlyOutflowCents ; fcm_MonthlyNetIncomeCents ; fcm_SavingsRate ; fcm_DuplicateSubscriptionCount ; fcm_LateNightSpendingFrequency >.
#[export] Instance zero_CashflowDeterministicMetrics : Zero CashflowDeterministicMetrics := mkCashflowDeterministicMetrics zero zero zero zero zero zero.

Record DebtDeterministicMetrics := mkDebtDeterministicMetrics {
  fdm_DebtBurdenRatio : spec_float;
  fdm_MinimumPaymentPressure : spec_float;
  fdm_AverageAPR : spec_float;
  fdm_MonthlyNetIncomeCents : Z;
  fdm_MaxAllocationDrift : spec_float;
  fdm_OverallRisk : string
}.
#[export] Instance eta_DebtDeterministicMetrics : Eta DebtDeterministicMetrics := eta! mkDebtDeterministicMetrics < fdm_DebtBurdenRatio ; fdm_MinimumPaymentPressure ; fdm_AverageAPR ; fdm_MonthlyNetIncomeCents ; fdm_MaxAllocationDrift ; fdm_OverallRisk >.
#[export] Instance zero_DebtDeterministicMetrics : Zero DebtDeterministicMetrics := mkDebtDeterministicMetrics zero zero zero zero zero zero.

Record TaxDeterministicMetrics := mkTaxDeterministicMetrics {
  ftm_EffectiveTaxRate : spec_float;
  ftm_TaxAdvantagedContributionCents : Z;
  ftm_ChildcareTaxSignal : bool;
  ftm_UpcomingDeadlineCount : Z
}.
#[export] Instance eta_TaxDeterministicMetrics : Eta TaxDeterministicMetrics := eta! mkTaxDeterministicMetrics < ftm_EffectiveTaxRate ; ftm_TaxAdvantagedContributionCents ; ftm_ChildcareTaxSignal ; ftm_UpcomingDeadlineCount >.
#[export] Instance zero_TaxDeterministicMetrics : Zero TaxDeterministicMetrics := mkTaxDeterministicMetrics zero zero zero zero.

Record PortfolioDeterministicMetrics := mkPortfolioDeterministicMetrics {
  fpm_TotalInvestableAssetsCents : Z;
  fpm_EmergencyFundMonths : spec_float;
  fpm_MaxAllocationDrift : spec_float;
  fpm_CashAllocation : spec_float
}.
#[export] Instance eta_PortfolioDeterministicMetrics : Eta PortfolioDeterministicMetrics := eta! mkPortfolioDeterministicMetrics < fpm_TotalInvestableAssetsCents ; fpm_EmergencyFundMonths ; fpm_MaxAllocationDrift ; fpm_CashAllocation >.
#[export] Instance zero_PortfolioDeterministicMetrics : Zero PortfolioDeterministicMetrics := mkPortfolioDeterministicMetrics zero zero zero zero.

Record CashflowBlockResult := mkCashflowBlockResult {
  cbr_BlockID : string;
  cbr_Summary : string;
  cbr_KeyFindings : list string;
  cbr_DeterministicMetrics : CashflowDeterministicMetrics;
  cbr_MetricRecords : list MetricRecord;
  cbr_EvidenceIDs : list EvidenceID;
  cbr_MemoryIDsUsed : list string;
  cbr_MetricRefs : list string;
  cbr_GroundingRefs : list string;
  cbr_RiskFlags : list RiskFlag;
  cbr_Recommendations : list Recommendation;
  cbr_Caveats : list string;
  cbr_ApprovalRequired : bool;
  cbr_ApprovalReason : string;
  cbr_PolicyRuleRefs : list string;
  cbr_Confidence : spec_float
}.
#[export] Instance eta_CashflowBlockResult : Eta CashflowBlockResult := eta! mkCashflowBlockResult < cbr_BlockID ; cbr_Summary ; cbr_KeyFindings ; cbr_DeterministicMetrics ; cbr_MetricRecords ; cbr_EvidenceIDs ; cbr_MemoryIDsUsed ; cbr_MetricRefs ; cbr_GroundingRefs ; cbr_RiskFlags ; cbr_Recommendations ; cbr_Caveats ; cbr_ApprovalRequired ; cbr_ApprovalReason ; cbr_PolicyRuleRefs ; cbr_Confidence >.
#[export] Instance zero_CashflowBlockResult : Zero CashflowBlockResult := mkCashflowBlockResult zero zero zero zero zero zero zero zero zero zero zero zero zero zero zero zero.

Record DebtBlockResult := mkDebtBlockResult {
  dbr_BlockID : string;
  dbr_Summary : string;
  dbr_KeyFindings : list string;
  dbr_DeterministicMetrics : DebtDeterministicMetrics;
  dbr_MetricRecords : list MetricRecord;
  dbr_EvidenceIDs : list EvidenceID;
  dbr_MemoryIDsUsed : list string;
  dbr_MetricRefs : list string;
  dbr_GroundingRefs : list string;
  dbr_RiskFlags : list RiskFlag;
  dbr_Recommendations : list Recommendation;
  dbr_Caveats : list string;
  dbr_ApprovalRequired : bool;
  dbr_ApprovalReason : string;
  dbr_PolicyRuleRefs : list string;
  dbr_Confidence : spec_float
}.
#[export] Instance eta_DebtBlockResult : Eta DebtBlockResult := eta! mkDebtBlockResult < dbr_BlockID ; dbr_Summary ; dbr_KeyFindings ; dbr_DeterministicMetrics ; dbr_MetricRecords ; dbr_EvidenceIDs ; dbr_MemoryIDsUsed ; dbr_MetricRefs ; dbr_GroundingRefs ; dbr_RiskFlags ; dbr_Recommendations ; dbr_Caveats ; dbr_ApprovalRequired ; dbr_ApprovalReason ; dbr_PolicyRuleRefs ; dbr_Confidence >.
#[export] Instance zero_DebtBlockResult : Zero DebtBlockResult := mkDebtBlockResult zero zero zero zero zero zero zero zero zero zero zero zero zero zero zero zero.

Record TaxBlockResult := mkTaxBlockResult {
  tbr_BlockID : string;
  tbr_Summary : string;
  tbr_KeyFindings : list string;
  tbr_DeterministicMetrics : TaxDeterministicMetrics;
  tbr_MetricRecords : list MetricRecord;
  tbr_EvidenceIDs : list EvidenceID;
  tbr_MemoryIDsUsed : list string;
  tbr_MetricRefs : list string;
  tbr_GroundingRefs : list string;
  tbr_RiskFlags : list RiskFlag;
  tbr_Recommendations : list Recommendation;
  tbr_Caveats : list string;
  tbr_ApprovalRequired : bool;
  tbr_ApprovalReason : string;
  tbr_PolicyRuleRefs : list string;
  tbr_Confidence : spec_float
}.
#[export] Instance eta_TaxBlockResult : Eta TaxBlockResult := eta! mkTaxBlockResult < tbr_BlockID ; tbr_Summary ; tbr_KeyFindings ; tbr_DeterministicMetrics ; tbr_MetricRecords ; tbr_EvidenceIDs ; tbr_MemoryIDsUsed ; tbr_MetricRefs ; tbr_GroundingRefs ; tbr_RiskFlags ; tbr_Recommendations ; tbr_Caveats ; tbr_ApprovalRequired ; tbr_ApprovalReason ; tbr_PolicyRuleRefs ; tbr_Confidence >.
#[export] Instance zero_TaxBlockResult : Zero TaxBlockResult := mkTaxBlockResult zero zero zero zero zero zero zero zero zero zero zero zero zero zero zero zero.

Record PortfolioBlockResult := mkPortfolioBlockResult {
  pbr_BlockID : string;
  pbr_Summary : string;
  pbr_KeyFindings : list string;
  pbr_DeterministicMetrics : PortfolioDeterministicMetrics;
  pbr_MetricRecords : list MetricRecord;
  pbr_EvidenceIDs : list EvidenceID;
  pbr_MemoryIDsUsed : list string;
  pbr_MetricRefs : list string;
  pbr_GroundingRefs : list string;
  pbr_RiskFlags : list RiskFlag;
  pbr_Recommendations : list Recommendation;
  pbr_Caveats : list string;
  pbr_ApprovalRequired : bool;
  pbr_ApprovalReason : string;
  pbr_PolicyRuleRefs : list string;
  pbr_Confidence : spec_float
}.
#[export] Instance eta_PortfolioBlockResult : Eta PortfolioBlockResult := eta! mkPortfolioBlockResult < pbr_BlockID ; pbr_Summary ; pbr_KeyFindings ; pbr_DeterministicMetrics ; pbr_MetricRecords ; pbr_EvidenceIDs ; pbr_MemoryIDsUsed ; pbr_MetricRefs ; pbr_GroundingRefs ; pbr_RiskFlags ; pbr_Recommendations ; pbr_Caveats ; pbr_ApprovalRequired ; pbr_ApprovalReason ; pbr_PolicyRuleRefs ; pbr_Confidence >.
#[export] Instance zero_PortfolioBlockResult : Zero PortfolioBlockResult := mkPortfolioBlockResult zero zero zero zero zero zero zero zero zero zero zero zero zero zero zero zero.

Record BehaviorMetricBundle := mkBehaviorMetricBundle {
  bmb_DuplicateSubscriptionCount : Z;
  bmb_LateNightSpendCount : Z;
  bmb_LateNightSpendRatio : spec_float;
  bmb_DiscretionaryPressureScore : spec_float;
  bmb_RecurringSubscriptionCount : Z;
  bmb_MonthlyVariableExpenseCents : Z;
  bmb_MonthlyNetIncomeCents : Z
}.
#[export] Instance eta_BehaviorMetricBundle : Eta BehaviorMetricBundle := eta! mkBehaviorMetricBundle < bmb_DuplicateSubscriptionCount ; bmb_LateNightSpendCount ; bmb_LateNightSpendRatio ; bmb_DiscretionaryPressureScore ; bmb_RecurringSubscriptionCount ; bmb_MonthlyVariableExpenseCents ; bmb_MonthlyNetIncomeCents >.
#[export] Instance zero_BehaviorMetricBundle : Zero BehaviorMetricBundle := mkBehaviorMetricBundle zero zero zero zero zero zero zero.

Record BehaviorBlockResult := mkBehaviorBlockResult {
  bbr_BlockID : string;
  bbr_Summary : string;
  bbr_KeyFindings : list string;
  bbr_DeterministicMetrics : BehaviorMetricBundle;
  bbr_MetricRecords : list MetricRecord;
  bbr_EvidenceIDs : list EvidenceID;
  bbr_MemoryIDsUsed : list string;
  bbr_MetricRefs : list string;
  bbr_GroundingRefs : list string;
  bbr_RiskFlags : list RiskFlag;
  bbr_Recommendations : list Recommendation;
  bbr_Caveats : list string;
  bbr_ApprovalRequired : bool;
  bbr_ApprovalReason : string;
  bbr_PolicyRuleRefs : list string;
  bbr_SelectedSkill : SkillSelection;
  bbr_SkillSelectionReasons : list string;
  bbr_Confidence : spec_float
}.
#[export] Instance eta_BehaviorBlockResult : Eta BehaviorBlockResult := eta! mkBehaviorBlockResult < bbr_BlockID ; bbr_Summary ; bbr_KeyFindings ; bbr_DeterministicMetrics ; bbr_MetricRecords ; bbr_EvidenceIDs ; bbr_MemoryIDsUsed ; bbr_MetricRefs ; bbr_GroundingRefs ; bbr_RiskFlags ; bbr_Recommendations ; bbr_Caveats ; bbr_ApprovalRequired ; bbr_ApprovalReason ; bbr_PolicyRuleRefs ; bbr_SelectedSkill ; bbr_SkillSelectionReasons ; bbr_Confidence >.
#[export] Instance zero_BehaviorBlockResult : Zero BehaviorBlockResult := mkBehaviorBlockResult zero zero zero zero zero zero zero zero zero zero zero zero zero zero zero zero zero zero.

Record BlockResultEnvelope := mkBlockResultEnvelope {
  be_BlockID : string;
  be_BlockKind : string;
  be_AssignedRecipient : string;
  be_Cashflow : option CashflowBlockResult;
  be_Debt : option DebtBlockResult;
  be_Tax : option TaxBlockResult;
  be_Portfolio : option PortfolioBlockResult;
  be_Behavior : option BehaviorBlockResult
}.
#[export] Instance eta_BlockResultEnvelope : Eta BlockResultEnvelope := eta! mkBlockResultEnvelope < be_BlockID ; be_BlockKind ; be_AssignedRecipient ; be_Cashflow ; be_Debt ; be_Tax ; be_Portfolio ; be_Behavior >.
#[export] Instance zero_BlockResultEnvelope : Zero BlockResultEnvelope := mkBlockResultEnvelope zero zero zero zero zero zero zero zero.

Definition BlockResultEnvelope_Summary (e : BlockResultEnvelope) : string :=
  match be_Cashflow e, be_Debt e, be_Tax e, be_Portfolio e, be_Behavior e with
  | Some r, _, _, _, _ => cbr_Summary r
  | _, Some r, _, _, _ => dbr_Summary r
  | _, _, Some r, _, _ => tbr_Summary r
  | _, _, _, Some r, _ => pbr_Summary r
  | _, _, _, _, Some r => bbr_Summary r
  | _, _, _, _, _ => ""
  end.

Definition BlockResultEnvelope_EvidenceIDs (e : BlockResultEnvelope) : list EvidenceID :=
  match be_Cashflow e, be_Debt e, be_Tax e, be_Portfolio e, be_Behavior e with
  | Some r, _, _, _, _ => cbr_EvidenceIDs r
  | _, Some r, _, _, _ => dbr_EvidenceIDs r
  | _, _, Some r, _, _ => tbr_EvidenceIDs r
  | _, _, _, Some r, _ => pbr_EvidenceIDs r
  | _, _, _, _, Some r => bbr_EvidenceIDs r
  | _, _, _, _, _ => []
  end.

Definition BlockResultEnvelope_MemoryIDsUsed (e : BlockResultEnvelope) : list string :=
  match be_Cashflow e, be_Debt e, be_Tax e, be_Portfolio e, be_Behavior e with
  | Some r, _, _, _, _ => cbr_MemoryIDsUsed r
  | _, Some r, _, _, _ => dbr_MemoryIDsUsed r
  | _, _, Some r, _, _ => tbr_MemoryIDsUsed r
  | _, _, _, Some r, _ => pbr_MemoryIDsUsed r
  | _, _, _, _, Some r => bbr_MemoryIDsUsed r
  | _, _, _, _, _ => []
  end.

Definition one_if {A} (o : option A) : nat := match o with Some _ => 1 | None => 0 end.
Definition block_id_from {A} (id : A -> string) (o : option A) (current : string) : string :=
  match o with Some r => if current == "" then id r else current | None => current end.

(** [BlockResultEnvelope.Validate]. *)
Definition BlockResultEnvelope_Validate (e : BlockResultEnvelope) : option error :=
  let count := (one_if (be_Cashflow e) + one_if (be_Debt e) + one_if (be_Tax e) + one_if (be_Portfolio e)
                + one_if (be_Behavior e))%nat in
  let blockID := block_id_from bbr_BlockID (be_Behavior e) (block_id_from pbr_BlockID (be_Portfolio e)
    (block_id_from tbr_BlockID (be_Tax e) (block_id_from dbr_BlockID (be_Debt e)
      (block_id_from cbr_BlockID (be_Cashflow e) (be_BlockID e))))) in
  let kind := be_BlockKind e in
  let attached what := Some (PlainError (what +:+ " result cannot be attached to block kind " +:+ Quote kind)) in
  if negb (count =? 1)%nat then
    Some (PlainError ("block result envelope must contain exactly one typed result, got " +:+ Itoa (Z.of_nat count)))
  else if (blockID == "") || (kind == "") || (be_AssignedRecipient e == "") then
    Some (PlainError "block result envelope requires block id, block kind, and assigned recipient")
  else if bool_decide (is_Some (be_Cashflow e)) && (kind != "cashflow_review_block") && (kind != "cashflow_liquidity_block") then
    if kind != "cashflow_event_impact_block" then attached "cashflow" else None
  else if bool_decide (is_Some (be_Debt e)) && (kind != "debt_review_block") && (kind != "debt_tradeoff_block") then
    if kind != "debt_housing_impact_block" then attached "debt" else None
  else if bool_decide (is_Some (be_Tax e)) && (kind != "tax_event_impact_block") && (kind != "tax_optimization_block") then attached "tax"
  else if bool_decide (is_Some (be_Portfolio e)) && (kind != "portfolio_event_impact_block") && (kind != "portfolio_rebalance_block") then attached "portfolio"
  else if bool_decide (is_Some (be_Behavior e)) && (kind != "behavior_intervention_block") then attached "behavior"
  else None.

(** ** internal/governance *)

Inductive ActionRiskLevel :=
| ActionRiskLow
| ActionRiskMedium
| ActionRiskHigh
| ActionRiskCritical
| ActionRiskLevelOther (s : string).
#[export] Instance ActionRiskLevel_eq_dec : EqDecision ActionRiskLevel.
Proof. solve_decision. Defined.
Definition ActionRiskLevel_string (x : ActionRiskLevel) : string :=
  match x with
  | ActionRiskLow => "low"
  | ActionRiskMedium => "medium"
  | ActionRiskHigh => "high"
  | ActionRiskCritical => "critical"
  | ActionRiskLevelOther s => s
  end.
#[export] Instance zero_ActionRiskLevel : Zero ActionRiskLevel := ActionRiskLevelOther "".

Record ApprovalPolicy := mkApprovalPolicy {
  apl_Name : string;
  apl_MinRiskLevel : ActionRiskLevel;
  apl_RequiredRoles : list string;
  apl_AutoApprove : bool
}.
#[export] Instance eta_ApprovalPolicy : Eta ApprovalPolicy := eta! mkApprovalPolicy < apl_Name ; apl_MinRiskLevel ; apl_RequiredRoles ; apl_AutoApprove >.
#[export] Instance zero_ApprovalPolicy : Zero ApprovalPolicy := mkApprovalPolicy zero zero zero zero.

Record ToolExecutionPolicy := mkToolExecutionPolicy {
  tp_ToolName : string;
  tp_AllowedRoles : list string;
  tp_EgressAllowlist : list string;
  tp_MaxCallsPerTask : Z;
  tp_RequiresApprovalAbove : ActionRiskLevel
}.
#[export] Instance eta_ToolExecutionPolicy : Eta ToolExecutionPolicy := eta! mkToolExecutionPolicy < tp_ToolName ; tp_AllowedRoles ; tp_EgressAllowlist ; tp_MaxCallsPerTask ; tp_RequiresApprovalAbove >.
#[export] Instance zero_ToolExecutionPolicy : Zero ToolExecutionPolicy := mkToolExecutionPolicy zero zero zero zero zero.

Record MemoryWritePolicy := mkMemoryWritePolicy {
  mw_MinConfidence : spec_float;
  mw_RequireEvidence : bool;
  mw_AllowKinds : list MemoryKind
}.
#[export] Instance eta_MemoryWritePolicy : Eta MemoryWritePolicy := eta! mkMemoryWritePolicy < mw_MinConfidence ; mw_RequireEvidence ; mw_AllowKinds >.
#[export] Instance zero_MemoryWritePolicy : Zero MemoryWritePolicy := mkMemoryWritePolicy zero zero zero.

Record ReportDisclosurePolicy := mkReportDisclosurePolicy {
  rd_Audience : string;
  rd_AllowPII : bool;
  rd_RedactedFields : list string
}.
#[export] Instance eta_ReportDisclosurePolicy : Eta ReportDisclosurePolicy := eta! mkReportDisclosurePolicy < rd_Audience ; rd_AllowPII ; rd_RedactedFields >.
#[export] Instance zero_ReportDisclosurePolicy : Zero ReportDisclosurePolicy := mkReportDisclosurePolicy zero zero zero.

Record AuditEvent := mkAuditEvent {
  au_ID : string;
  au_Actor : string;
  au_Action : string;
  au_Resource : string;
  au_Outcome : string;
  au_Reason : string;
  au_PolicyRuleRefs : list string;
  au_OccurredAt : time;
  au_CorrelationID : string
}.
#[export] Instance eta_AuditEvent : Eta AuditEvent := eta! mkAuditEvent < au_ID ; au_Actor ; au_Action ; au_Resource ; au_Outcome ; au_Reason ; au_PolicyRuleRefs ; au_OccurredAt ; au_CorrelationID >.
#[export] Instance zero_AuditEvent : Zero AuditEvent := mkAuditEvent zero zero zero zero zero zero zero zero zero.

Record ActionRequest := mkActionRequest {
  aq_Actor : string;
  aq_ActorRoles : list string;
  aq_Action : string;
  aq_Resource : string;
  aq_RiskLevel : ActionRiskLevel;
  aq_Recommendations : list Recommendation;
  aq_RiskFlags : list RiskFlag;
  aq_ApprovalRequired : bool;
  aq_ApprovalReason : string;
  aq_PolicyRuleRefs : list string;
  aq_DisclosureReady : bool;
  aq_CorrelationID : string
}.
#[export] Instance eta_ActionRequest : Eta ActionRequest := eta! mkActionRequest < aq_Actor ; aq_ActorRoles ; aq_Action ; aq_Resource ; aq_RiskLevel ; aq_Recommendations ; aq_RiskFlags ; aq_ApprovalRequired ; aq_ApprovalReason ; aq_PolicyRuleRefs ; aq_DisclosureReady ; aq_CorrelationID >.
#[export] Instance zero_ActionRequest : Zero ActionRequest := mkActionRequest zero zero zero zero zero zero zero zero zero zero zero zero.

Record ReportRequest := mkReportRequest {
  rrq_Actor : string;
  rrq_Audience : string;
  rrq_ContainsPII : bool;
  rrq_CorrelationID : string
}.
#[export] Instance eta_ReportRequest : Eta ReportRequest := eta! mkReportRequest < rrq_Actor ; rrq_Audience ; rrq_ContainsPII ; rrq_CorrelationID >.
#[export] Instance zero_ReportRequest : Zero ReportRequest := mkReportRequest zero zero zero zero.

Record RiskAssessment := mkRiskAssessment {
  ra_Level : ActionRiskLevel;
  ra_Reasons : list string
}.
#[export] Instance eta_RiskAssessment : Eta RiskAssessment := eta! mkRiskAssessment < ra_Level ; ra_Reasons >.
#[export] Instance zero_RiskAssessment : Zero RiskAssessment := mkRiskAssessment zero zero.

Record ApprovalEvaluation := mkApprovalEvaluation {
  ae_RiskAssessment : RiskAssessment;
  ae_Decision : option PolicyDecision;
  ae_Audit : option AuditEvent
}.
#[export] Instance eta_ApprovalEvaluation : Eta ApprovalEvaluation := eta! mkApprovalEvaluation < ae_RiskAssessment ; ae_Decision ; ae_Audit >.
#[export] Instance zero_ApprovalEvaluation : Zero ApprovalEvaluation := mkApprovalEvaluation zero zero zero.

Record ReportEvaluation := mkReportEvaluation {
  re_Decision : PolicyDecision;
  re_Audit : AuditEvent
}.
#[export] Instance eta_ReportEvaluation : Eta ReportEvaluation := eta! mkReportEvaluation < re_Decision ; re_Audit >.
#[export] Instance zero_ReportEvaluation : Zero ReportEvaluation := mkReportEvaluation zero zero.

Record ApprovalEvaluationInput := mkApprovalEvaluationInput {
  ai_CurrentState : FinancialWorldState;
  ai_WorkflowID : string;
  ai_Action : string;
  ai_Resource : string;
  ai_Actor : string;
  ai_ActorRoles : list string;
  ai_ForceApproval : bool;
  ai_Recommendations : list Recommendation;
  ai_RiskFlags : list RiskFlag;
  ai_ApprovalRequired : bool;
  ai_ApprovalReason : string;
  ai_PolicyRuleRefs : list string;
  ai_DisclosureReady : bool
}.
#[export] Instance eta_ApprovalEvaluationInput : Eta ApprovalEvaluationInput := eta! mkApprovalEvaluationInput < ai_CurrentState ; ai_WorkflowID ; ai_Action ; ai_Resource ; ai_Actor ; ai_ActorRoles ; ai_ForceApproval ; ai_Recommendations ; ai_RiskFlags ; ai_ApprovalRequired ; ai_ApprovalReason ; ai_PolicyRuleRefs ; ai_DisclosureReady >.
#[export] Instance zero_ApprovalEvaluationInput : Zero ApprovalEvaluationInput := mkApprovalEvaluationInput zero zero zero zero zero zero zero zero zero zero zero zero zero.

(** ** internal/context/types.go *)

Inductive ContextView :=
| ContextViewPlanning
| ContextViewExecution
| ContextViewVerification
| ContextViewOther (s : string).
#[export] Instance ContextView_eq_dec : EqDecision ContextView.
Proof. solve_decision. Defined.
Definition ContextView_string (x : ContextView) : string :=
  match x with
  | ContextViewPlanning => "planning"
  | ContextViewExecution => "execution"
  | ContextViewVerification => "verification"
  | ContextViewOther s => s
  end.
#[export] Instance zero_ContextView : Zero ContextView := ContextViewOther "".

Inductive CompactionStrategy :=
| CompactionStrategyNone
| CompactionStrategyStateAware
| CompactionStrategyEvidenceFocused
| CompactionStrategyVerificationLean
| CompactionStrategyOther (s : string).
#[export] Instance CompactionStrategy_eq_dec : EqDecision CompactionStrategy.
Proof. solve_decision. Defined.
Definition CompactionStrategy_string (x : CompactionStrategy) : string :=
  match x with
  | CompactionStrategyNone => "none"
  | CompactionStrategyStateAware => "state_aware"
  | CompactionStrategyEvidenceFocused => "evidence_focused"
  | CompactionStrategyVerificationLean => "verification_lean"
  | CompactionStrategyOther s => s
  end.
#[export] Instance zero_CompactionStrategy : Zero CompactionStrategy := CompactionStrategyOther "".

Inductive ContextSelectionReason :=
| ContextSelectionRequiredEvidence
| ContextSelectionRiskSignal
| ContextSelectionRecentState
| ContextSelectionMemoryRelevance
| ContextSelectionSkillRequirement
| ContextSelectionVerificationGap
| ContextSelectionReasonOther (s : string).
#[export] Instance ContextSelectionReason_eq_dec : EqDecision ContextSelectionReason.
Proof. solve_decision. Defined.
Definition ContextSelectionReason_string (x : ContextSelectionReason) : string :=
  match x with
  | ContextSelectionRequiredEvidence => "required_evidence"
  | ContextSelectionRiskSignal => "risk_signal"
  | ContextSelectionRecentState => "recent_state"
  | ContextSelectionMemoryRelevance => "memory_relevance"
  | ContextSelectionSkillRequirement => "skill_requirement"
  | ContextSelectionVerificationGap => "verification_gap"
  | ContextSelectionReasonOther s => s
  end.
#[export] Instance zero_ContextSelectionReason : Zero ContextSelectionReason := ContextSelectionReasonOther "".

Inductive ContextBlockSource :=
| ContextBlockSourceTask
| ContextBlockSourceState
| ContextBlockSourceEvidence
| ContextBlockSourceMemory
| ContextBlockSourceSkill
| ContextBlockSourceOther (s : string).
#[export] Instance ContextBlockSource_eq_dec : EqDecision ContextBlockSource.
Proof. solve_decision. Defined.
Definition ContextBlockSource_string (x : ContextBlockSource) : string :=
  match x with
  | ContextBlockSourceTask => "task"
  | ContextBlockSourceState => "state"
  | ContextBlockSourceEvidence => "evidence"
  | ContextBlockSourceMemory => "memory"
  | ContextBlockSourceSkill => "skill"
  | ContextBlockSourceOther s => s
  end.
#[export] Instance zero_ContextBlockSource : Zero ContextBlockSource := ContextBlockSourceOther "".

Record ContextBudget := mkContextBudget {
  cb_MaxStateBlocks : Z;
  cb_MaxMemoryBlocks : Z;
  cb_MaxEvidenceItems : Z;
  cb_MaxCharacters : Z;
  cb_MaxInputTokens : Z;
  cb_ReservedOutputTokens : Z;
  cb_HardTokenLimit : Z
}.
#[export] Instance eta_ContextBudget : Eta ContextBudget := eta! mkContextBudget < cb_MaxStateBlocks ; cb_MaxMemoryBlocks ; cb_MaxEvidenceItems ; cb_MaxCharacters ; cb_MaxInputTokens ; cb_ReservedOutputTokens ; cb_HardTokenLimit >.
#[export] Instance zero_ContextBudget : Zero ContextBudget := mkContextBudget zero zero zero zero zero zero zero.

Record TokenBudget := mkTokenBudget {
  tb_MaxInputTokens : Z;
  tb_ReservedOutputTokens : Z;
  tb_HardTokenLimit : Z
}.
#[export] Instance eta_TokenBudget : Eta TokenBudget := eta! mkTokenBudget < tb_MaxInputTokens ; tb_ReservedOutputTokens ; tb_HardTokenLimit >.
#[export] Instance zero_TokenBudget : Zero TokenBudget := mkTokenBudget zero zero zero.

Record ContextBlockDecision := mkContextBlockDecision {
  bd_Source : ContextBlockSource;
  bd_Ref : string;
  bd_EstimatedTokens : Z;
  bd_Reason : string
}.
#[export] Instance eta_ContextBlockDecision : Eta ContextBlockDecision := eta! mkContextBlockDecision < bd_Source ; bd_Ref ; bd_EstimatedTokens ; bd_Reason >.
#[export] Instance zero_ContextBlockDecision : Zero ContextBlockDecision := mkContextBlockDecision zero zero zero zero.

Record ContextBudgetDecision := mkContextBudgetDecision {
  bg_EstimatedInputTokens : Z;
  bg_TargetInputTokens : Z;
  bg_Included : list ContextBlockDecision;
  bg_Excluded : list ContextBlockDecision
}.
#[export] Instance eta_ContextBudgetDecision : Eta ContextBudgetDecision := eta! mkContextBudgetDecision < bg_EstimatedInputTokens ; bg_TargetInputTokens ; bg_Included ; bg_Excluded >.
#[export] Instance zero_ContextBudgetDecision : Zero ContextBudgetDecision := mkContextBudgetDecision zero zero zero zero.

Record ContextCompactionResult := mkContextCompactionResult {
  cc_Strategy : CompactionStrategy;
  cc_InitialTokenEstimate : Z;
  cc_FinalTokenEstimate : Z;
  cc_Notes : list string
}.
#[export] Instance eta_ContextCompactionResult : Eta ContextCompactionResult := eta! mkContextCompactionResult < cc_Strategy ; cc_InitialTokenEstimate ; cc_FinalTokenEstimate ; cc_Notes >.
#[export] Instance zero_ContextCompactionResult : Zero ContextCompactionResult := mkContextCompactionResult zero zero zero zero.

Record InjectedStateBlock := mkInjectedStateBlock {
  ib_Name : string;
  ib_Version : Z;
  ib_DataJSON : string;
  ib_Source : string;
  ib_Mandatory : bool;
  ib_BlockSource : ContextBlockSource;
  ib_SelectionReason : ContextSelectionReason
}.
#[export] Instance eta_InjectedStateBlock : Eta InjectedStateBlock := eta! mkInjectedStateBlock < ib_Name ; ib_Version ; ib_DataJSON ; ib_Source ; ib_Mandatory ; ib_BlockSource ; ib_SelectionReason >.
#[export] Instance zero_InjectedStateBlock : Zero InjectedStateBlock := mkInjectedStateBlock zero zero zero zero zero zero zero.

Record MemoryBlock := mkMemoryBlock {
  mb_MemoryID : string;
  mb_Kind : MemoryKind;
  mb_Summary : string;
  mb_BlockSource : ContextBlockSource;
  mb_SelectionReason : ContextSelectionReason
}.
#[export] Instance eta_MemoryBlock : Eta MemoryBlock := eta! mkMemoryBlock < mb_MemoryID ; mb_Kind ; mb_Summary ; mb_BlockSource ; mb_SelectionReason >.
#[export] Instance zero_MemoryBlock : Zero MemoryBlock := mkMemoryBlock zero zero zero zero zero.

Record EvidenceSummaryBlock := mkEvidenceSummaryBlock {
  eb_EvidenceID : EvidenceID;
  eb_Type : EvidenceType;
  eb_Summary : string;
  eb_BlockSource : ContextBlockSource;
  eb_SelectionReason : ContextSelectionReason
}.
#[export] Instance eta_EvidenceSummaryBlock : Eta EvidenceSummaryBlock := eta! mkEvidenceSummaryBlock < eb_EvidenceID ; eb_Type ; eb_Summary ; eb_BlockSource ; eb_SelectionReason >.
#[export] Instance zero_EvidenceSummaryBlock : Zero EvidenceSummaryBlock := mkEvidenceSummaryBlock zero zero zero zero zero.

Record SkillBlock := mkSkillBlock {
  sb_SkillName : string;
  sb_Description : string;
  sb_BlockSource : ContextBlockSource;
  sb_SelectionReason : ContextSelectionReason
}.
#[export] Instance eta_SkillBlock : Eta SkillBlock := eta! mkSkillBlock < sb_SkillName ; sb_Description ; sb_BlockSource ; sb_SelectionReason >.
#[export] Instance zero_SkillBlock : Zero SkillBlock := mkSkillBlock zero zero zero zero.

Record ContextSlice := mkContextSlice {
  cs_View : ContextView;
  cs_TaskID : string;
  cs_Goal : string;
  cs_Budget : ContextBudget;
  cs_TokenBudget : TokenBudget;
  cs_BudgetDecision : ContextBudgetDecision;
  cs_Compaction : ContextCompactionResult;
  cs_EvidenceIDs : list EvidenceID;
  cs_MemoryIDs : list string;
  cs_StateBlocks : list InjectedStateBlock;
  cs_MemoryBlocks : list MemoryBlock;
  cs_EvidenceBlocks : list EvidenceSummaryBlock;
  cs_SkillBlocks : list SkillBlock;
  cs_RequiredSkills : list string;
  cs_Compacted : bool
}.
#[export] Instance eta_ContextSlice : Eta ContextSlice := eta! mkContextSlice < cs_View ; cs_TaskID ; cs_Goal ; cs_Budget ; cs_TokenBudget ; cs_BudgetDecision ; cs_Compaction ; cs_EvidenceIDs ; cs_MemoryIDs ; cs_StateBlocks ; cs_MemoryBlocks ; cs_EvidenceBlocks ; cs_SkillBlocks ; cs_RequiredSkills ; cs_Compacted >.
#[export] Instance zero_ContextSlice : Zero ContextSlice := mkContextSlice zero zero zero zero zero zero zero zero zero zero zero zero zero zero zero.

Record BlockContextSpec := mkBlockContextSpec {
  bs_PlanID : string;
  bs_BlockID : string;
  bs_BlockKind : string;
  bs_AssignedRecipient : string;
  bs_Goal : string;
  bs_RequiredEvidenceRefs : list string;
  bs_RequiredMemoryKinds : list MemoryKind;
  bs_RequiredStateBlocks : list string;
  bs_ExecutionView : ContextView;
  bs_VerificationRules : list string;
  bs_SelectedSkill : option SkillSelection
}.
#[export] Instance eta_BlockContextSpec : Eta BlockContextSpec := eta! mkBlockContextSpec < bs_PlanID ; bs_BlockID ; bs_BlockKind ; bs_AssignedRecipient ; bs_Goal ; bs_RequiredEvidenceRefs ; bs_RequiredMemoryKinds ; bs_RequiredStateBlocks ; bs_ExecutionView ; bs_VerificationRules ; bs_SelectedSkill >.
#[export] Instance zero_BlockContextSpec : Zero BlockContextSpec := mkBlockContextSpec zero zero zero zero zero zero zero zero zero zero zero.

Record BlockExecutionContext := mkBlockExecutionContext {
  bx_View : ContextView;
  bx_PlanID : string;
  bx_BlockID : string;
  bx_BlockKind : string;
  bx_AssignedRecipient : string;
  bx_Goal : string;
  bx_SelectionReason : ContextSelectionReason;
  bx_SelectedSkill : option SkillSelection;
  bx_SelectedMemoryIDs : list string;
  bx_SelectedEvidenceIDs : list EvidenceID;
  bx_SelectedStateBlocks : list string;
  bx_EstimatedInputTokens : Z;
  bx_Slice : ContextSlice
}.
#[export] Instance eta_BlockExecutionContext : Eta BlockExecutionContext := eta! mkBlockExecutionContext < bx_View ; bx_PlanID ; bx_BlockID ; bx_BlockKind ; bx_AssignedRecipient ; bx_Goal ; bx_SelectionReason ; bx_SelectedSkill ; bx_SelectedMemoryIDs ; bx_SelectedEvidenceIDs ; bx_SelectedStateBlocks ; bx_EstimatedInputTokens ; bx_Slice >.
#[export] Instance zero_BlockExecutionContext : Zero BlockExecutionContext := mkBlockExecutionContext zero zero zero zero zero zero zero zero zero zero zero zero zero.

Record BlockVerificationContext := mkBlockVerificationContext {
  bv_View : ContextView;
  bv_PlanID : string;
  bv_BlockID : string;
  bv_BlockKind : string;
  bv_SelectionReason : ContextSelectionReason;
  bv_SelectedMemoryIDs : list string;
  bv_SelectedEvidenceIDs : list EvidenceID;
  bv_SelectedStateBlocks : list string;
  bv_EstimatedInputTokens : Z;
  bv_VerificationRules : list string;
  bv_ResultSummary : string;
  bv_Slice : ContextSlice
}.
#[export] Instance eta_BlockVerificationContext : Eta BlockVerificationContext := eta! mkBlockVerificationContext < bv_View ; bv_PlanID ; bv_BlockID ; bv_BlockKind ; bv_SelectionReason ; bv_SelectedMemoryIDs ; bv_SelectedEvidenceIDs ; bv_SelectedStateBlocks ; bv_EstimatedInputTokens ; bv_VerificationRules ; bv_ResultSummary ; bv_Slice >.
#[export] Instance zero_BlockVerificationContext : Zero BlockVerificationContext := mkBlockVerificationContext zero zero zero zero zero zero zero zero zero zero zero zero.
