(* ===== verification/EvidenceTypes.v ===== *)
(** * Data of the observation, state and finance packages, continued

    Raw records and requests of [internal/observation/types.go], patches and
    diffs of [internal/state/types.go], the metric bundles of
    [internal/finance/types.go] and the records of [internal/behavior/types.go],
    field by field. *)

From S2P Require Export AgentTypes.

(** ** internal/observation/types.go *)

Inductive DocumentKind :=
| DocumentKindPayslip
| DocumentKindCreditCardStatement
| DocumentKindTaxDocument
| DocumentKindBrokerStatement
| DocumentKindOther (s : string).
#[export] Instance DocumentKind_eq_dec : EqDecision DocumentKind.
Proof. solve_decision. Defined.
Definition DocumentKind_string (x : DocumentKind) : string :=
  match x with
  | DocumentKindPayslip => "payslip"
  | DocumentKindCreditCardStatement => "credit_card_statement"
  | DocumentKindTaxDocument => "tax_document"
  | DocumentKindBrokerStatement => "broker_statement"
  | DocumentKindOther s => s
  end.
#[export] Instance zero_DocumentKind : Zero DocumentKind := DocumentKindOther "".

Inductive LifeEventKind :=
| LifeEventSalaryChange
| LifeEventNewChild
| LifeEventJobChange
| LifeEventHousingChange
| LifeEventKindOther (s : string).
#[export] Instance LifeEventKind_eq_dec : EqDecision LifeEventKind.
Proof. solve_decision. Defined.
Definition LifeEventKind_string (x : LifeEventKind) : string :=
  match x with
  | LifeEventSalaryChange => "salary_change"
  | LifeEventNewChild => "new_child"
  | LifeEventJobChange => "job_change"
  | LifeEventHousingChange => "housing_change"
  | LifeEventKindOther s => s
  end.
#[export] Instance zero_LifeEventKind : Zero LifeEventKind := LifeEventKindOther "".

Record ObservationRequest := mkObservationRequest {
  oq_TaskID : string;
  oq_SourceKind : string;
  oq_Params : gmap string string
}.
#[export] Instance eta_ObservationRequest : Eta ObservationRequest := eta! mkObservationRequest < oq_TaskID ; oq_SourceKind ; oq_Params >.
#[export] Instance zero_ObservationRequest : Zero ObservationRequest := mkObservationRequest zero zero zero.

Record LedgerTransactionRecord := mkLedgerTransactionRecord {
  lt_UserID : string;
  lt_TransactionID : string;
  lt_AccountID : string;
  lt_OccurredAt : time;
  lt_Description : string;
  lt_Merchant : string;
  lt_Category : string;
  lt_Direction : string;
  lt_AmountCents : Z
}.
#[export] Instance eta_LedgerTransactionRecord : Eta LedgerTransactionRecord := eta! mkLedgerTransactionRecord < lt_UserID ; lt_TransactionID ; lt_AccountID ; lt_OccurredAt ; lt_Description ; lt_Merchant ; lt_Category ; lt_Direction ; lt_AmountCents >.
#[export] Instance zero_LedgerTransactionRecord : Zero LedgerTransactionRecord := mkLedgerTransactionRecord zero zero zero zero zero zero zero zero zero.

Record DebtRecord := mkDebtRecord {
  dr_UserID : string;
  dr_AccountID : string;
  dr_Name : string;
  dr_BalanceCents : Z;
  dr_AnnualRate : spec_float;
  dr_MinimumDueCents : Z;
  dr_SnapshotAt : time
}.
#[export] Instance eta_DebtRecord : Eta DebtRecord := eta! mkDebtRecord < dr_UserID ; dr_AccountID ; dr_Name ; dr_BalanceCents ; dr_AnnualRate ; dr_MinimumDueCents ; dr_SnapshotAt >.
#[export] Instance zero_DebtRecord : Zero DebtRecord := mkDebtRecord zero zero zero zero zero zero zero.

Record HoldingRecord := mkHoldingRecord {
  hr_UserID : string;
  hr_AccountID : string;
  hr_SnapshotAt : time;
  hr_AssetClass : string;
  hr_Symbol : string;
  hr_MarketValueCents : Z;
  hr_TargetAllocation : spec_float
}.
#[export] Instance eta_HoldingRecord : Eta HoldingRecord := eta! mkHoldingRecord < hr_UserID ; hr_AccountID ; hr_SnapshotAt ; hr_AssetClass ; hr_Symbol ; hr_MarketValueCents ; hr_TargetAllocation >.
#[export] Instance zero_HoldingRecord : Zero HoldingRecord := mkHoldingRecord zero zero zero zero zero zero zero.

Record DocumentArtifact := mkDocumentArtifact {
  da_ID : string;
  da_UserID : string;
  da_Kind : DocumentKind;
  da_Filename : string;
  da_MediaType : string;
  da_Content : string;
  da_ObservedAt : time
}.
#[export] Instance eta_DocumentArtifact : Eta DocumentArtifact := eta! mkDocumentArtifact < da_ID ; da_UserID ; da_Kind ; da_Filename ; da_MediaType ; da_Content ; da_ObservedAt >.
#[export] Instance zero_DocumentArtifact : Zero DocumentArtifact := mkDocumentArtifact zero zero zero zero zero zero zero.

Record SalaryChangeEventPayload := mkSalaryChangeEventPayload {
  sc_PreviousMonthlyIncomeCents : Z;
  sc_NewMonthlyIncomeCents : Z;
  sc_EffectiveAt : time
}.
#[export] Instance eta_SalaryChangeEventPayload : Eta SalaryChangeEventPayload := eta! mkSalaryChangeEventPayload < sc_PreviousMonthlyIncomeCents ; sc_NewMonthlyIncomeCents ; sc_EffectiveAt >.
#[export] Instance zero_SalaryChangeEventPayload : Zero SalaryChangeEventPayload := mkSalaryChangeEventPayload zero zero zero.

Record NewChildEventPayload := mkNewChildEventPayload {
  nc_EstimatedMonthlyCostCents : Z;
  nc_ChildcareTaxEligible : bool;
  nc_ExpectedCareStartAt : time
}.
#[export] Instance eta_NewChildEventPayload : Eta NewChildEventPayload := eta! mkNewChildEventPayload < nc_EstimatedMonthlyCostCents ; nc_ChildcareTaxEligible ; nc_ExpectedCareStartAt >.
#[export] Instance zero_NewChildEventPayload : Zero NewChildEventPayload := mkNewChildEventPayload zero zero zero.

Record JobChangeEventPayload := mkJobChangeEventPayload {
  jc_PreviousEmployer : string;
  jc_NewEmployer : string;
  jc_PreviousMonthlyIncomeCents : Z;
  jc_NewMonthlyIncomeCents : Z;
  jc_BenefitsEnrollmentDeadlineAt : time
}.
#[export] Instance eta_JobChangeEventPayload : Eta JobChangeEventPayload := eta! mkJobChangeEventPayload < jc_PreviousEmployer ; jc_NewEmployer ; jc_PreviousMonthlyIncomeCents ; jc_NewMonthlyIncomeCents ; jc_BenefitsEnrollmentDeadlineAt >.
#[export] Instance zero_JobChangeEventPayload : Zero JobChangeEventPayload := mkJobChangeEventPayload zero zero zero zero zero.

Record HousingChangeEventPayload := mkHousingChangeEventPayload {
  hc_PreviousMonthlyHousingCostCents : Z;
  hc_NewMonthlyHousingCostCents : Z;
  hc_MortgageBalanceCents : Z;
  hc_EffectiveAt : time
}.
#[export] Instance eta_HousingChangeEventPayload : Eta HousingChangeEventPayload := eta! mkHousingChangeEventPayload < hc_PreviousMonthlyHousingCostCents ; hc_NewMonthlyHousingCostCents ; hc_MortgageBalanceCents ; hc_EffectiveAt >.
#[export] Instance zero_HousingChangeEventPayload : Zero HousingChangeEventPayload := mkHousingChangeEventPayload zero zero zero zero.

Record LifeEventRecord := mkLifeEventRecord {
  le_ID : string;
  le_UserID : string;
  le_Kind : LifeEventKind;
  le_Source : string;
  le_Provenance : string;
  le_ObservedAt : time;
  le_Confidence : spec_float;
  le_SalaryChange : option SalaryChangeEventPayload;
  le_NewChild : option NewChildEventPayload;
  le_JobChange : option JobChangeEventPayload;
  le_HousingChange : option HousingChangeEventPayload
}.
#[export] Instance eta_LifeEventRecord : Eta LifeEventRecord := eta! mkLifeEventRecord < le_ID ; le_UserID ; le_Kind ; le_Source ; le_Provenance ; le_ObservedAt ; le_Confidence ; le_SalaryChange ; le_NewChild ; le_JobChange ; le_HousingChange >.
#[export] Instance zero_LifeEventRecord : Zero LifeEventRecord := mkLifeEventRecord zero zero zero zero zero zero zero zero zero zero zero.

Record CalendarDeadlineRecord := mkCalendarDeadlineRecord {
  cd_ID : string;
  cd_UserID : string;
  cd_Kind : string;
  cd_RelatedEventID : string;
  cd_RelatedEventKind : LifeEventKind;
  cd_Source : string;
  cd_Provenance : string;
  cd_ObservedAt : time;
  cd_DeadlineAt : time;
  cd_Description : string;
  cd_Confidence : spec_float
}.
#[export] Instance eta_CalendarDeadlineRecord : Eta CalendarDeadlineRecord := eta! mkCalendarDeadlineRecord < cd_ID ; cd_UserID ; cd_Kind ; cd_RelatedEventID ; cd_RelatedEventKind ; cd_Source ; cd_Provenance ; cd_ObservedAt ; cd_DeadlineAt ; cd_Description ; cd_Confidence >.
#[export] Instance zero_CalendarDeadlineRecord : Zero CalendarDeadlineRecord := mkCalendarDeadlineRecord zero zero zero zero zero zero zero zero zero zero zero.

(** ** internal/state/types.go *)

Record StateDiff := mkStateDiff {
  sdf_FromVersion : Z;
  sdf_ToVersion : Z;
  sdf_ChangedFields : list string;
  sdf_EvidenceIDs : list EvidenceID
}.
#[export] Instance eta_StateDiff : Eta StateDiff := eta! mkStateDiff < sdf_FromVersion ; sdf_ToVersion ; sdf_ChangedFields ; sdf_EvidenceIDs >.
#[export] Instance zero_StateDiff : Zero StateDiff := mkStateDiff zero zero zero zero.

Record StateMutation := mkStateMutation {
  smu_Path : string;
  smu_Operation : string;
  smu_ValueJSON : string;
  smu_EvidenceID : EvidenceID
}.
#[export] Instance eta_StateMutation : Eta StateMutation := eta! mkStateMutation < smu_Path ; smu_Operation ; smu_ValueJSON ; smu_EvidenceID >.
#[export] Instance zero_StateMutation : Zero StateMutation := mkStateMutation zero zero zero zero.

Record EvidencePatch := mkEvidencePatch {
  epa_Evidence : list EvidenceRecord;
  epa_Mutations : list StateMutation;
  epa_Summary : string;
  epa_AppliedAt : time
}.
#[export] Instance eta_EvidencePatch : Eta EvidencePatch := eta! mkEvidencePatch < epa_Evidence ; epa_Mutations ; epa_Summary ; epa_AppliedAt >.
#[export] Instance zero_EvidencePatch : Zero EvidencePatch := mkEvidencePatch zero zero zero zero.

(** ** internal/finance/types.go *)

Record CashflowMetricBundle := mkCashflowMetricBundle {
  cmb_Metrics : CashflowDeterministicMetrics;
  cmb_Records : list MetricRecord
}.
#[export] Instance eta_CashflowMetricBundle : Eta CashflowMetricBundle := eta! mkCashflowMetricBundle < cmb_Metrics ; cmb_Records >.
#[export] Instance zero_CashflowMetricBundle : Zero CashflowMetricBundle := mkCashflowMetricBundle zero zero.

Record DebtDecisionMetricBundle := mkDebtDecisionMetricBundle {
  dmb_Metrics : DebtDeterministicMetrics;
  dmb_Records : list MetricRecord
}.
#[export] Instance eta_DebtDecisionMetricBundle : Eta DebtDecisionMetricBundle := eta! mkDebtDecisionMetricBundle < dmb_Metrics ; dmb_Records >.
#[export] Instance zero_DebtDecisionMetricBundle : Zero DebtDecisionMetricBundle := mkDebtDecisionMetricBundle zero zero.

Record TaxMetricBundle := mkTaxMetricBundle {
  tmb_Metrics : TaxDeterministicMetrics;
  tmb_Records : list MetricRecord
}.
#[export] Instance eta_TaxMetricBundle : Eta TaxMetricBundle := eta! mkTaxMetricBundle < tmb_Metrics ; tmb_Records >.
#[export] Instance zero_TaxMetricBundle : Zero TaxMetricBundle := mkTaxMetricBundle zero zero.

Record PortfolioMetricBundle := mkPortfolioMetricBundle {
  pmb_Metrics : PortfolioDeterministicMetrics;
  pmb_Records : list MetricRecord
}.
#[export] Instance eta_PortfolioMetricBundle : Eta PortfolioMetricBundle := eta! mkPortfolioMetricBundle < pmb_Metrics ; pmb_Records >.
#[export] Instance zero_PortfolioMetricBundle : Zero PortfolioMetricBundle := mkPortfolioMetricBundle zero zero.

(** ** internal/behavior/types.go *)

Record BehaviorEvidence := mkBehaviorEvidence {
  bev_CurrentState : FinancialWorldState;
  bev_Evidence : list EvidenceRecord
}.
#[export] Instance eta_BehaviorEvidence : Eta BehaviorEvidence := eta! mkBehaviorEvidence < bev_CurrentState ; bev_Evidence >.
#[export] Instance zero_BehaviorEvidence : Zero BehaviorEvidence := mkBehaviorEvidence zero zero.

Record BehaviorMetrics := mkBehaviorMetrics {
  bme_DuplicateSubscriptionCount : Z;
  bme_LateNightSpendCount : Z;
  bme_LateNightSpendRatio : spec_float;
  bme_DiscretionaryPressureScore : spec_float;
  bme_RecurringSubscriptionCount : Z;
  bme_MonthlyVariableExpenseCents : Z;
  bme_MonthlyNetIncomeCents : Z
}.
#[export] Instance eta_BehaviorMetrics : Eta BehaviorMetrics := eta! mkBehaviorMetrics < bme_DuplicateSubscriptionCount ; bme_LateNightSpendCount ; bme_LateNightSpendRatio ; bme_DiscretionaryPressureScore ; bme_RecurringSubscriptionCount ; bme_MonthlyVariableExpenseCents ; bme_MonthlyNetIncomeCents >.
#[export] Instance zero_BehaviorMetrics : Zero BehaviorMetrics := mkBehaviorMetrics zero zero zero zero zero zero zero.

Record BehaviorBundle := mkBehaviorBundle {
  bmb_Metrics : BehaviorMetrics;
  bmb_Records : list MetricRecord
}.
#[export] Instance eta_BehaviorBundle : Eta BehaviorBundle := eta! mkBehaviorBundle < bmb_Metrics ; bmb_Records >.
#[export] Instance zero_BehaviorBundle : Zero BehaviorBundle := mkBehaviorBundle zero zero.

Record BehaviorTrend := mkBehaviorTrend {
  btr_Code : string;
  btr_Detail : string
}.
#[export] Instance eta_BehaviorTrend : Eta BehaviorTrend := eta! mkBehaviorTrend < btr_Code ; btr_Detail >.
#[export] Instance zero_BehaviorTrend : Zero BehaviorTrend := mkBehaviorTrend zero zero.

Record BehaviorAnomaly := mkBehaviorAnomaly {
  ban_Code : string;
  ban_Severity : string;
  ban_Detail : string;
  ban_MetricRefs : list string;
  ban_EvidenceRefs : list string
}.
#[export] Instance eta_BehaviorAnomaly : Eta BehaviorAnomaly := eta! mkBehaviorAnomaly < ban_Code ; ban_Severity ; ban_Detail ; ban_MetricRefs ; ban_EvidenceRefs >.
#[export] Instance zero_BehaviorAnomaly : Zero BehaviorAnomaly := mkBehaviorAnomaly zero zero zero zero zero.

Inductive BehaviorRecommendationType :=
| BehaviorRecommendationSubscriptionCleanup
| BehaviorRecommendationSpendNudge
| BehaviorRecommendationGuardrail
| BehaviorRecommendationTypeOther (s : string).
#[export] Instance BehaviorRecommendationType_eq_dec : EqDecision BehaviorRecommendationType.
Proof. solve_decision. Defined.
Definition BehaviorRecommendationType_string (x : BehaviorRecommendationType) : string :=
  match x with
  | BehaviorRecommendationSubscriptionCleanup => "subscription_cleanup"
  | BehaviorRecommendationSpendNudge => "spend_nudge"
  | BehaviorRecommendationGuardrail => "guardrail"
  | BehaviorRecommendationTypeOther s => s
  end.
#[export] Instance zero_BehaviorRecommendationType : Zero BehaviorRecommendationType := BehaviorRecommendationTypeOther "".

Record BehaviorRecommendation := mkBehaviorRecommendation {
  bre_Type : BehaviorRecommendationType;
  bre_Title : string;
  bre_Detail : string;
  bre_RiskLevel : RiskLevel;
  bre_EvidenceRefs : list string;
  bre_MetricRefs : list string;
  bre_StateRefs : list string;
  bre_MemoryRefs : list string;
  bre_Caveats : list string;
  bre_ApprovalRequired : bool;
  bre_ApprovalReason : string;
  bre_PolicyRuleRefs : list string
}.
#[export] Instance eta_BehaviorRecommendation : Eta BehaviorRecommendation := eta! mkBehaviorRecommendation < bre_Type ; bre_Title ; bre_Detail ; bre_RiskLevel ; bre_EvidenceRefs ; bre_MetricRefs ; bre_StateRefs ; bre_MemoryRefs ; bre_Caveats ; bre_ApprovalRequired ; bre_ApprovalReason ; bre_PolicyRuleRefs >.
#[export] Instance zero_BehaviorRecommendation : Zero BehaviorRecommendation := mkBehaviorRecommendation zero zero zero zero zero zero zero zero zero zero zero zero.

Record AnalysisOutput := mkAnalysisOutput {
  aou_Summary : string;
  aou_Metrics : BehaviorBundle;
  aou_Trends : list BehaviorTrend;
  aou_Anomalies : list BehaviorAnomaly;
  aou_Recommendations : list BehaviorRecommendation;
  aou_SelectedSkill : SkillSelection;
  aou_EvidenceRefs : list string;
  aou_MemoryRefs : list string;
  aou_GeneratedAt : time
}.
#[export] Instance eta_AnalysisOutput : Eta AnalysisOutput := eta! mkAnalysisOutput < aou_Summary ; aou_Metrics ; aou_Trends ; aou_Anomalies ; aou_Recommendations ; aou_SelectedSkill ; aou_EvidenceRefs ; aou_MemoryRefs ; aou_GeneratedAt >.
#[export] Instance zero_AnalysisOutput : Zero AnalysisOutput := mkAnalysisOutput zero zero zero zero zero zero zero zero zero.
