(* ===== verification/PlanTypes.v ===== *)
(** * Data of the planning, model, structured-output and verification packages

    The structs and string enumerations of [internal/taskspec/intake.go],
    [internal/planning], [internal/model/interfaces.go], [internal/prompt], [internal/structured]
    and [internal/verification/types.go], field by field. *)

From S2P Require Export EvidenceTypes.

(** ** internal/taskspec/intake.go *)

Inductive TaskIntakeConfidence :=
| TaskIntakeConfidenceLow
| TaskIntakeConfidenceMedium
| TaskIntakeConfidenceHigh
| TaskIntakeConfidenceOther (s : string).
#[export] Instance TaskIntakeConfidence_eq_dec : EqDecision TaskIntakeConfidence.
Proof. solve_decision. Defined.
Definition TaskIntakeConfidence_string (x : TaskIntakeConfidence) : string :=
  match x with
  | TaskIntakeConfidenceLow => "low"
  | TaskIntakeConfidenceMedium => "medium"
  | TaskIntakeConfidenceHigh => "high"
  | TaskIntakeConfidenceOther s => s
  end.
#[export] Instance zero_TaskIntakeConfidence : Zero TaskIntakeConfidence := TaskIntakeConfidenceOther "".

Inductive TaskIntakeFailureReason :=
| TaskIntakeFailureNone
| TaskIntakeFailureUnsupportedInput
| TaskIntakeFailureMissingGoal
| TaskIntakeFailureValidation
| TaskIntakeFailureReasonOther (s : string).
#[export] Instance TaskIntakeFailureReason_eq_dec : EqDecision TaskIntakeFailureReason.
Proof. solve_decision. Defined.
Definition TaskIntakeFailureReason_string (x : TaskIntakeFailureReason) : string :=
  match x with
  | TaskIntakeFailureNone => ""
  | TaskIntakeFailureUnsupportedInput => "unsupported_input"
  | TaskIntakeFailureMissingGoal => "missing_goal"
  | TaskIntakeFailureValidation => "validation_failure"
  | TaskIntakeFailureReasonOther s => s
  end.
#[export] Instance zero_TaskIntakeFailureReason : Zero TaskIntakeFailureReason := TaskIntakeFailureNone.

Inductive TaskRejectionReason :=
| TaskRejectionNone
| TaskRejectionOutOfScope
| TaskRejectionMissingIntent
| TaskRejectionInsufficientInput
| TaskRejectionReasonOther (s : string).
#[export] Instance TaskRejectionReason_eq_dec : EqDecision TaskRejectionReason.
Proof. solve_decision. Defined.
Definition TaskRejectionReason_string (x : TaskRejectionReason) : string :=
  match x with
  | TaskRejectionNone => ""
  | TaskRejectionOutOfScope => "out_of_scope"
  | TaskRejectionMissingIntent => "missing_intent"
  | TaskRejectionInsufficientInput => "insufficient_input"
  | TaskRejectionReasonOther s => s
  end.
#[export] Instance zero_TaskRejectionReason : Zero TaskRejectionReason := TaskRejectionNone.

Record TaskIntakeResult := mkTaskIntakeResult {
  ti_Accepted : bool;
  ti_RawInput : string;
  ti_Confidence : TaskIntakeConfidence;
  ti_FailureReason : TaskIntakeFailureReason;
  ti_RejectionReason : TaskRejectionReason;
  ti_Notes : list string;
  ti_TaskSpec : option TaskSpec
}.
#[export] Instance eta_TaskIntakeResult : Eta TaskIntakeResult := eta! mkTaskIntakeResult < ti_Accepted ; ti_RawInput ; ti_Confidence ; ti_FailureReason ; ti_RejectionReason ; ti_Notes ; ti_TaskSpec >.
#[export] Instance zero_TaskIntakeResult : Zero TaskIntakeResult := mkTaskIntakeResult zero zero zero zero zero zero zero.

(** ** internal/planning *)

Inductive PlanPhase :=
| PlanPhasePlan
| PlanPhaseAct
| PlanPhaseVerify
| PlanPhaseReplan
| PlanPhaseEscalate
| PlanPhaseAbort
| PlanPhaseOther (s : string).
#[export] Instance PlanPhase_eq_dec : EqDecision PlanPhase.
Proof. solve_decision. Defined.
Definition PlanPhase_string (x : PlanPhase) : string :=
  match x with
  | PlanPhasePlan => "plan"
  | PlanPhaseAct => "act"
  | PlanPhaseVerify => "verify"
  | PlanPhaseReplan => "replan"
  | PlanPhaseEscalate => "escalate"
  | PlanPhaseAbort => "abort"
  | PlanPhaseOther s => s
  end.
#[export] Instance zero_PlanPhase : Zero PlanPhase := PlanPhaseOther "".

Record PlanStateMachine := mkPlanStateMachine {
  psm_Current : PlanPhase;
  psm_History : list PlanPhase
}.
#[export] Instance eta_PlanStateMachine : Eta PlanStateMachine := eta! mkPlanStateMachine < psm_Current ; psm_History >.
#[export] Instance zero_PlanStateMachine : Zero PlanStateMachine := mkPlanStateMachine zero zero.

Inductive ExecutionBlockKind :=
| ExecutionBlockKindCashflowReview
| ExecutionBlockKindDebtReview
| ExecutionBlockKindCashflowLiquidity
| ExecutionBlockKindDebtTradeoff
| ExecutionBlockKindCashflowEventImpact
| ExecutionBlockKindDebtHousingImpact
| ExecutionBlockKindTaxEventImpact
| ExecutionBlockKindPortfolioEventImpact
| ExecutionBlockKindTaxOptimization
| ExecutionBlockKindPortfolioRebalance
| ExecutionBlockKindBehaviorIntervention
| ExecutionBlockKindOther (s : string).
#[export] Instance ExecutionBlockKind_eq_dec : EqDecision ExecutionBlockKind.
Proof. solve_decision. Defined.
Definition ExecutionBlockKind_string (x : ExecutionBlockKind) : string :=
  match x with
  | ExecutionBlockKindCashflowReview => "cashflow_review_block"
  | ExecutionBlockKindDebtReview => "debt_review_block"
  | ExecutionBlockKindCashflowLiquidity => "cashflow_liquidity_block"
  | ExecutionBlockKindDebtTradeoff => "debt_tradeoff_block"
  | ExecutionBlockKindCashflowEventImpact => "cashflow_event_impact_block"
  | ExecutionBlockKindDebtHousingImpact => "debt_housing_impact_block"
  | ExecutionBlockKindTaxEventImpact => "tax_event_impact_block"
  | ExecutionBlockKindPortfolioEventImpact => "portfolio_event_impact_block"
  | ExecutionBlockKindTaxOptimization => "tax_optimization_block"
  | ExecutionBlockKindPortfolioRebalance => "portfolio_rebalance_block"
  | ExecutionBlockKindBehaviorIntervention => "behavior_intervention_block"
  | ExecutionBlockKindOther s => s
  end.
#[export] Instance zero_ExecutionBlockKind : Zero ExecutionBlockKind := ExecutionBlockKindOther "".

Record ExecutionBlockDependency := mkExecutionBlockDependency {
  eb_BlockID : string
}.
#[export] Instance eta_ExecutionBlockDependency : Eta ExecutionBlockDependency := eta! mkExecutionBlockDependency < eb_BlockID >.
#[export] Instance zero_ExecutionBlockDependency : Zero ExecutionBlockDependency := mkExecutionBlockDependency zero.

Record ExecutionBlockRequirement := mkExecutionBlockRequirement {
  xr_RequirementID : string;
  xr_Type : string;
  xr_Mandatory : bool
}.
#[export] Instance eta_ExecutionBlockRequirement : Eta ExecutionBlockRequirement := eta! mkExecutionBlockRequirement < xr_RequirementID ; xr_Type ; xr_Mandatory >.
#[export] Instance zero_ExecutionBlockRequirement : Zero ExecutionBlockRequirement := mkExecutionBlockRequirement zero zero zero.

Record ExecutionBlockSuccessCriteria := mkExecutionBlockSuccessCriteria {
  eu_ID : string;
  eu_Description : string
}.
#[export] Instance eta_ExecutionBlockSuccessCriteria : Eta ExecutionBlockSuccessCriteria := eta! mkExecutionBlockSuccessCriteria < eu_ID ; eu_Description >.
#[export] Instance zero_ExecutionBlockSuccessCriteria : Zero ExecutionBlockSuccessCriteria := mkExecutionBlockSuccessCriteria zero zero.

Record ExecutionBlockVerificationHint := mkExecutionBlockVerificationHint {
  eh_Rule : string;
  eh_Description : string
}.
#[export] Instance eta_ExecutionBlockVerificationHint : Eta ExecutionBlockVerificationHint := eta! mkExecutionBlockVerificationHint < eh_Rule ; eh_Description >.
#[export] Instance zero_ExecutionBlockVerificationHint : Zero ExecutionBlockVerificationHint := mkExecutionBlockVerificationHint zero zero.

Record ExecutionBlockRiskHint := mkExecutionBlockRiskHint {
  ei_Level : string;
  ei_Rationale : string
}.
#[export] Instance eta_ExecutionBlockRiskHint : Eta ExecutionBlockRiskHint := eta! mkExecutionBlockRiskHint < ei_Level ; ei_Rationale >.
#[export] Instance zero_ExecutionBlockRiskHint : Zero ExecutionBlockRiskHint := mkExecutionBlockRiskHint zero zero.

Record ExecutionBlock := mkExecutionBlock {
  xb_ID : string;
  xb_Kind : ExecutionBlockKind;
  xb_AssignedRecipient : string;
  xb_Goal : string;
  xb_RequiredEvidenceRefs : list ExecutionBlockRequirement;
  xb_RequiredMemoryKinds : list MemoryKind;
  xb_RequiredStateBlocks : list string;
  xb_ExecutionContextView : ContextView;
  xb_SuccessCriteria : list ExecutionBlockSuccessCriteria;
  xb_VerificationHints : list ExecutionBlockVerificationHint;
  xb_RiskHints : list ExecutionBlockRiskHint;
  xb_AllowedSkillFamilies : list string;
  xb_SkillSelectionHint : string;
  xb_SelectedSkill : option SkillSelection;
  xb_DependsOn : list ExecutionBlockDependency
}.
#[export] Instance eta_ExecutionBlock : Eta ExecutionBlock := eta! mkExecutionBlock < xb_ID ; xb_Kind ; xb_AssignedRecipient ; xb_Goal ; xb_RequiredEvidenceRefs ; xb_RequiredMemoryKinds ; xb_RequiredStateBlocks ; xb_ExecutionContextView ; xb_SuccessCriteria ; xb_VerificationHints ; xb_RiskHints ; xb_AllowedSkillFamilies ; xb_SkillSelectionHint ; xb_SelectedSkill ; xb_DependsOn >.
#[export] Instance zero_ExecutionBlock : Zero ExecutionBlock := mkExecutionBlock zero zero zero zero zero zero zero zero zero zero zero zero zero zero zero.

Record PlanStep := mkPlanStep {
  ps_ID : string;
  ps_Name : string;
  ps_Description : string;
  ps_RequiredEvidenceTypes : list string;
  ps_RequiredTools : list string;
  ps_RequiredSkills : list string;
  ps_Emphasis : string
}.
#[export] Instance eta_PlanStep : Eta PlanStep := eta! mkPlanStep < ps_ID ; ps_Name ; ps_Description ; ps_RequiredEvidenceTypes ; ps_RequiredTools ; ps_RequiredSkills ; ps_Emphasis >.
#[export] Instance zero_PlanStep : Zero PlanStep := mkPlanStep zero zero zero zero zero zero zero.

Record PlanTraceMetadata := mkPlanTraceMetadata {
  pt_PromptID : string;
  pt_PromptVersion : string;
  pt_ModelProfile : string;
  pt_EstimatedInputTokens : Z;
  pt_PromptTokens : Z;
  pt_CompletionTokens : Z;
  pt_TotalTokens : Z;
  pt_EstimatedCostUSD : spec_float;
  pt_FallbackUsed : bool;
  pt_FallbackReason : string;
  pt_StructuredFailure : string;
  pt_GeneratedAt : time
}.
#[export] Instance eta_PlanTraceMetadata : Eta PlanTraceMetadata := eta! mkPlanTraceMetadata < pt_PromptID ; pt_PromptVersion ; pt_ModelProfile ; pt_EstimatedInputTokens ; pt_PromptTokens ; pt_CompletionTokens ; pt_TotalTokens ; pt_EstimatedCostUSD ; pt_FallbackUsed ; pt_FallbackReason ; pt_StructuredFailure ; pt_GeneratedAt >.
#[export] Instance zero_PlanTraceMetadata : Zero PlanTraceMetadata := mkPlanTraceMetadata zero zero zero zero zero zero zero zero zero zero zero zero.

Record ExecutionPlan := mkExecutionPlan {
  ep_WorkflowID : string;
  ep_TaskID : string;
  ep_PlanID : string;
  ep_CreatedAt : time;
  ep_Summary : string;
  ep_Rationale : string;
  ep_VerificationFocusNotes : list string;
  ep_Trace : option PlanTraceMetadata;
  ep_Blocks : list ExecutionBlock;
  ep_Steps : list PlanStep
}.
#[export] Instance eta_ExecutionPlan : Eta ExecutionPlan := eta! mkExecutionPlan < ep_WorkflowID ; ep_TaskID ; ep_PlanID ; ep_CreatedAt ; ep_Summary ; ep_Rationale ; ep_VerificationFocusNotes ; ep_Trace ; ep_Blocks ; ep_Steps >.
#[export] Instance zero_ExecutionPlan : Zero ExecutionPlan := mkExecutionPlan zero zero zero zero zero zero zero zero zero zero.

Record PlannerStepEmphasisNote := mkPlannerStepEmphasisNote {
  pe_StepID : string;
  pe_Emphasis : string
}.
#[export] Instance eta_PlannerStepEmphasisNote : Eta PlannerStepEmphasisNote := eta! mkPlannerStepEmphasisNote < pe_StepID ; pe_Emphasis >.
#[export] Instance zero_PlannerStepEmphasisNote : Zero PlannerStepEmphasisNote := mkPlannerStepEmphasisNote zero zero.

Record PlannerStructuredCandidate := mkPlannerStructuredCandidate {
  pc_PlanSummary : string;
  pc_Rationale : string;
  pc_VerificationFocusNotes : list string;
  pc_BlockOrder : list string;
  pc_StepEmphasis : list PlannerStepEmphasisNote
}.
#[export] Instance eta_PlannerStructuredCandidate : Eta PlannerStructuredCandidate := eta! mkPlannerStructuredCandidate < pc_PlanSummary ; pc_Rationale ; pc_VerificationFocusNotes ; pc_BlockOrder ; pc_StepEmphasis >.
#[export] Instance zero_PlannerStructuredCandidate : Zero PlannerStructuredCandidate := mkPlannerStructuredCandidate zero zero zero zero zero.

Record PlannerStructuredSchema := mkPlannerStructuredSchema {
  pz_AllowedBlockIDs : list string;
  pz_AllowedStepIDs : list string
}.
#[export] Instance eta_PlannerStructuredSchema : Eta PlannerStructuredSchema := eta! mkPlannerStructuredSchema < pz_AllowedBlockIDs ; pz_AllowedStepIDs >.
#[export] Instance zero_PlannerStructuredSchema : Zero PlannerStructuredSchema := mkPlannerStructuredSchema zero zero.

(** ** internal/model/interfaces.go *)

Inductive ModelProfile :=
| ModelProfilePlannerReasoning
| ModelProfileCashflowFast
| ModelProfileOther (s : string).
#[export] Instance ModelProfile_eq_dec : EqDecision ModelProfile.
Proof. solve_decision. Defined.
Definition ModelProfile_string (x : ModelProfile) : string :=
  match x with
  | ModelProfilePlannerReasoning => "planner_reasoning"
  | ModelProfileCashflowFast => "cashflow_fast"
  | ModelProfileOther s => s
  end.
#[export] Instance zero_ModelProfile : Zero ModelProfile := ModelProfileOther "".

Inductive GenerationPhase :=
| GenerationPhaseInitial
| GenerationPhaseRepair
| GenerationPhaseOther (s : string).
#[export] Instance GenerationPhase_eq_dec : EqDecision GenerationPhase.
Proof. solve_decision. Defined.
Definition GenerationPhase_string (x : GenerationPhase) : string :=
  match x with
  | GenerationPhaseInitial => "initial"
  | GenerationPhaseRepair => "repair"
  | GenerationPhaseOther s => s
  end.
#[export] Instance zero_GenerationPhase : Zero GenerationPhase := GenerationPhaseOther "".

Inductive MessageRole :=
| MessageRoleSystem
| MessageRoleUser
| MessageRoleAssistant
| MessageRoleOther (s : string).
#[export] Instance MessageRole_eq_dec : EqDecision MessageRole.
Proof. solve_decision. Defined.
Definition MessageRole_string (x : MessageRole) : string :=
  match x with
  | MessageRoleSystem => "system"
  | MessageRoleUser => "user"
  | MessageRoleAssistant => "assistant"
  | MessageRoleOther s => s
  end.
#[export] Instance zero_MessageRole : Zero MessageRole := MessageRoleOther "".

Inductive ResponseFormatType :=
| ResponseFormatText
| ResponseFormatJSONObject
| ResponseFormatTypeOther (s : string).
#[export] Instance ResponseFormatType_eq_dec : EqDecision ResponseFormatType.
Proof. solve_decision. Defined.
Definition ResponseFormatType_string (x : ResponseFormatType) : string :=
  match x with
  | ResponseFormatText => "text"
  | ResponseFormatJSONObject => "json_object"
  | ResponseFormatTypeOther s => s
  end.
#[export] Instance zero_ResponseFormatType : Zero ResponseFormatType := ResponseFormatTypeOther "".

Record Message := mkMessage {
  mg_Role : MessageRole;
  mg_Content : string
}.
#[export] Instance eta_Message : Eta Message := eta! mkMessage < mg_Role ; mg_Content >.
#[export] Instance zero_Message : Zero Message := mkMessage zero zero.

Record ResponseFormat := mkResponseFormat {
  mf_Type : ResponseFormatType
}.
#[export] Instance eta_ResponseFormat : Eta ResponseFormat := eta! mkResponseFormat < mf_Type >.
#[export] Instance zero_ResponseFormat : Zero ResponseFormat := mkResponseFormat zero.

Record ModelRequest := mkModelRequest {
  mq_Provider : string;
  mq_Model : string;
  mq_Profile : ModelProfile;
  mq_Messages : list Message;
  mq_ResponseFormat : ResponseFormat;
  mq_MaxOutputTokens : Z;
  mq_Temperature : spec_float;
  mq_WorkflowID : string;
  mq_TaskID : string;
  mq_TraceID : string;
  mq_Agent : string;
  mq_PromptID : string;
  mq_PromptVersion : string;
  mq_GenerationPhase : GenerationPhase;
  mq_AttemptIndex : Z
}.
#[export] Instance eta_ModelRequest : Eta ModelRequest := eta! mkModelRequest < mq_Provider ; mq_Model ; mq_Profile ; mq_Messages ; mq_ResponseFormat ; mq_MaxOutputTokens ; mq_Temperature ; mq_WorkflowID ; mq_TaskID ; mq_TraceID ; mq_Agent ; mq_PromptID ; mq_PromptVersion ; mq_GenerationPhase ; mq_AttemptIndex >.
#[export] Instance zero_ModelRequest : Zero ModelRequest := mkModelRequest zero zero zero zero zero zero zero zero zero zero zero zero zero zero zero.

Record UsageStats := mkUsageStats {
  mu_PromptTokens : Z;
  mu_CompletionTokens : Z;
  mu_TotalTokens : Z;
  mu_EstimatedCostUSD : spec_float
}.
#[export] Instance eta_UsageStats : Eta UsageStats := eta! mkUsageStats < mu_PromptTokens ; mu_CompletionTokens ; mu_TotalTokens ; mu_EstimatedCostUSD >.
#[export] Instance zero_UsageStats : Zero UsageStats := mkUsageStats zero zero zero zero.

Record ModelResponse := mkModelResponse {
  ms_Provider : string;
  ms_Model : string;
  ms_Profile : ModelProfile;
  ms_ResponseID : string;
  ms_Content : string;
  ms_FinishReason : string;
  ms_Usage : UsageStats;
  ms_Latency : Duration;
  ms_RawResponse : string
}.
#[export] Instance eta_ModelResponse : Eta ModelResponse := eta! mkModelResponse < ms_Provider ; ms_Model ; ms_Profile ; ms_ResponseID ; ms_Content ; ms_FinishReason ; ms_Usage ; ms_Latency ; ms_RawResponse >.
#[export] Instance zero_ModelResponse : Zero ModelResponse := mkModelResponse zero zero zero zero zero zero zero zero zero.

Record StructuredGenerationRequest := mkStructuredGenerationRequest {
  sgq_ModelRequest : ModelRequest
}.
#[export] Instance eta_StructuredGenerationRequest : Eta StructuredGenerationRequest := eta! mkStructuredGenerationRequest < sgq_ModelRequest >.
#[export] Instance zero_StructuredGenerationRequest : Zero StructuredGenerationRequest := mkStructuredGenerationRequest zero.

Record StructuredGenerationResult := mkStructuredGenerationResult {
  sgr_Response : ModelResponse;
  sgr_Content : string
}.
#[export] Instance eta_StructuredGenerationResult : Eta StructuredGenerationResult := eta! mkStructuredGenerationResult < sgr_Response ; sgr_Content >.
#[export] Instance zero_StructuredGenerationResult : Zero StructuredGenerationResult := mkStructuredGenerationResult zero zero.

(** ** internal/prompt *)

Record PromptRenderPolicy := mkPromptRenderPolicy {
  pp_ContextInjectionPolicy : string
}.
#[export] Instance eta_PromptRenderPolicy : Eta PromptRenderPolicy := eta! mkPromptRenderPolicy < pp_ContextInjectionPolicy >.
#[export] Instance zero_PromptRenderPolicy : Zero PromptRenderPolicy := mkPromptRenderPolicy zero.

Record PromptTraceInput := mkPromptTraceInput {
  pi_SelectedStateBlocks : list string;
  pi_SelectedMemoryIDs : list string;
  pi_SelectedEvidenceIDs : list string;
  pi_SelectedSkillNames : list string;
  pi_ExcludedBlockRefs : list string;
  pi_CompactionDecisions : list string;
  pi_EstimatedInputTokens : Z
}.
#[export] Instance eta_PromptTraceInput : Eta PromptTraceInput := eta! mkPromptTraceInput < pi_SelectedStateBlocks ; pi_SelectedMemoryIDs ; pi_SelectedEvidenceIDs ; pi_SelectedSkillNames ; pi_ExcludedBlockRefs ; pi_CompactionDecisions ; pi_EstimatedInputTokens >.
#[export] Instance zero_PromptTraceInput : Zero PromptTraceInput := mkPromptTraceInput zero zero zero zero zero zero zero.

Record PromptTemplate := mkPromptTemplate {
  pm_ID : string;
  pm_Version : string;
  pm_ModelProfile : ModelProfile;
  pm_SystemPath : string;
  pm_UserPath : string;
  pm_RenderPolicy : PromptRenderPolicy;
  pm_systemContent : string;
  pm_userContent : string
}.
#[export] Instance eta_PromptTemplate : Eta PromptTemplate := eta! mkPromptTemplate < pm_ID ; pm_Version ; pm_ModelProfile ; pm_SystemPath ; pm_UserPath ; pm_RenderPolicy ; pm_systemContent ; pm_userContent >.
#[export] Instance zero_PromptTemplate : Zero PromptTemplate := mkPromptTemplate zero zero zero zero zero zero zero zero.

Record PromptRenderTrace := mkPromptRenderTrace {
  pq_PromptID : string;
  pq_PromptVersion : string;
  pq_ModelProfile : ModelProfile;
  pq_SelectedStateBlocks : list string;
  pq_SelectedMemoryIDs : list string;
  pq_SelectedEvidenceIDs : list string;
  pq_SelectedSkillNames : list string;
  pq_ExcludedBlockRefs : list string;
  pq_CompactionDecisions : list string;
  pq_AppliedPolicy : string;
  pq_RenderDecisions : list string;
  pq_EstimatedInputTokens : Z;
  pq_RenderedAt : time
}.
#[export] Instance eta_PromptRenderTrace : Eta PromptRenderTrace := eta! mkPromptRenderTrace < pq_PromptID ; pq_PromptVersion ; pq_ModelProfile ; pq_SelectedStateBlocks ; pq_SelectedMemoryIDs ; pq_SelectedEvidenceIDs ; pq_SelectedSkillNames ; pq_ExcludedBlockRefs ; pq_CompactionDecisions ; pq_AppliedPolicy ; pq_RenderDecisions ; pq_EstimatedInputTokens ; pq_RenderedAt >.
#[export] Instance zero_PromptRenderTrace : Zero PromptRenderTrace := mkPromptRenderTrace zero zero zero zero zero zero zero zero zero zero zero zero zero.

Record RenderedPrompt := mkRenderedPrompt {
  po_ID : string;
  po_Version : string;
  po_ModelProfile : ModelProfile;
  po_System : string;
  po_User : string;
  po_Trace : PromptRenderTrace
}.
#[export] Instance eta_RenderedPrompt : Eta RenderedPrompt := eta! mkRenderedPrompt < po_ID ; po_Version ; po_ModelProfile ; po_System ; po_User ; po_Trace >.
#[export] Instance zero_RenderedPrompt : Zero RenderedPrompt := mkRenderedPrompt zero zero zero zero zero zero.

Record promptSection := mkpromptSection {
  pn_Heading : string;
  pn_Content : string
}.
#[export] Instance eta_promptSection : Eta promptSection := eta! mkpromptSection < pn_Heading ; pn_Content >.
#[export] Instance zero_promptSection : Zero promptSection := mkpromptSection zero zero.

(** ** internal/structured *)

Inductive StructuredFailure :=
| FailureCategoryParseFailed
| FailureCategorySchemaInvalid
| FailureCategoryGroundingInvalid
| FailureCategoryRepairFailed
| FailureCategoryFallbackUsed
| FailureCategoryFallbackFailed
| StructuredFailureOther (s : string).
#[export] Instance StructuredFailure_eq_dec : EqDecision StructuredFailure.
Proof. solve_decision. Defined.
Definition StructuredFailure_string (x : StructuredFailure) : string :=
  match x with
  | FailureCategoryParseFailed => "parse_failed"
  | FailureCategorySchemaInvalid => "schema_invalid"
  | FailureCategoryGroundingInvalid => "grounding_invalid"
  | FailureCategoryRepairFailed => "repair_failed"
  | FailureCategoryFallbackUsed => "fallback_used"
  | FailureCategoryFallbackFailed => "fallback_failed"
  | StructuredFailureOther s => s
  end.
#[export] Instance zero_StructuredFailure : Zero StructuredFailure := StructuredFailureOther "".

Record RepairPolicy := mkRepairPolicy {
  rp_MaxAttempts : Z
}.
#[export] Instance eta_RepairPolicy : Eta RepairPolicy := eta! mkRepairPolicy < rp_MaxAttempts >.
#[export] Instance zero_RepairPolicy : Zero RepairPolicy := mkRepairPolicy zero.

Record TraceRecord := mkTraceRecord {
  str_SchemaName : string;
  str_TraceID : string;
  str_WorkflowID : string;
  str_TaskID : string;
  str_Agent : string;
  str_PromptID : string;
  str_PromptVersion : string;
  str_GenerationPhase : GenerationPhase;
  str_AttemptIndex : Z;
  str_ParseAttempts : Z;
  str_RepairAttempts : Z;
  str_FailureCategory : StructuredFailure;
  str_ValidationDiagnostics : list string;
  str_FallbackUsed : bool;
  str_FallbackReason : string;
  str_RecordedAt : time
}.
#[export] Instance eta_TraceRecord : Eta TraceRecord := eta! mkTraceRecord < str_SchemaName ; str_TraceID ; str_WorkflowID ; str_TaskID ; str_Agent ; str_PromptID ; str_PromptVersion ; str_GenerationPhase ; str_AttemptIndex ; str_ParseAttempts ; str_RepairAttempts ; str_FailureCategory ; str_ValidationDiagnostics ; str_FallbackUsed ; str_FallbackReason ; str_RecordedAt >.
#[export] Instance zero_TraceRecord : Zero TraceRecord := mkTraceRecord zero zero zero zero zero zero zero zero zero zero zero zero zero zero zero zero.

(** ** internal/verification/types.go *)

Inductive VerificationStatus :=
| VerificationStatusPass
| VerificationStatusFail
| VerificationStatusNeedsReplan
| VerificationStatusBlocked
| VerificationStatusOther (s : string).
#[export] Instance VerificationStatus_eq_dec : EqDecision VerificationStatus.
Proof. solve_decision. Defined.
Definition VerificationStatus_string (x : VerificationStatus) : string :=
  match x with
  | VerificationStatusPass => "pass"
  | VerificationStatusFail => "fail"
  | VerificationStatusNeedsReplan => "needs_replan"
  | VerificationStatusBlocked => "blocked"
  | VerificationStatusOther s => s
  end.
#[export] Instance zero_VerificationStatus : Zero VerificationStatus := VerificationStatusOther "".

Inductive VerificationScope :=
| VerificationScopeBlock
| VerificationScopeFinal
| VerificationScopeOther (s : string).
#[export] Instance VerificationScope_eq_dec : EqDecision VerificationScope.
Proof. solve_decision. Defined.
Definition VerificationScope_string (x : VerificationScope) : string :=
  match x with
  | VerificationScopeBlock => "block"
  | VerificationScopeFinal => "final"
  | VerificationScopeOther s => s
  end.
#[export] Instance zero_VerificationScope : Zero VerificationScope := VerificationScopeOther "".

Inductive ValidationCategory :=
| ValidationCategoryGrounding
| ValidationCategoryNumeric
| ValidationCategoryBusiness
| ValidationCategoryOther (s : string).
#[export] Instance ValidationCategory_eq_dec : EqDecision ValidationCategory.
Proof. solve_decision. Defined.
Definition ValidationCategory_string (x : ValidationCategory) : string :=
  match x with
  | ValidationCategoryGrounding => "grounding"
  | ValidationCategoryNumeric => "numeric"
  | ValidationCategoryBusiness => "business"
  | ValidationCategoryOther s => s
  end.
#[export] Instance zero_ValidationCategory : Zero ValidationCategory := ValidationCategoryOther "".

Inductive ValidationSeverity :=
| ValidationSeverityInfo
| ValidationSeverityWarning
| ValidationSeverityError
| ValidationSeverityCritical
| ValidationSeverityOther (s : string).
#[export] Instance ValidationSeverity_eq_dec : EqDecision ValidationSeverity.
Proof. solve_decision. Defined.
Definition ValidationSeverity_string (x : ValidationSeverity) : string :=
  match x with
  | ValidationSeverityInfo => "info"
  | ValidationSeverityWarning => "warning"
  | ValidationSeverityError => "error"
  | ValidationSeverityCritical => "critical"
  | ValidationSeverityOther s => s
  end.
#[export] Instance zero_ValidationSeverity : Zero ValidationSeverity := ValidationSeverityOther "".

Record EvidenceCoverageItem := mkEvidenceCoverageItem {
  ci_RequirementID : string;
  ci_Covered : bool;
  ci_EvidenceIDs : list EvidenceID;
  ci_GapReason : string
}.
#[export] Instance eta_EvidenceCoverageItem : Eta EvidenceCoverageItem := eta! mkEvidenceCoverageItem < ci_RequirementID ; ci_Covered ; ci_EvidenceIDs ; ci_GapReason >.
#[export] Instance zero_EvidenceCoverageItem : Zero EvidenceCoverageItem := mkEvidenceCoverageItem zero zero zero zero.

Record EvidenceCoverageReport := mkEvidenceCoverageReport {
  cr_TaskID : string;
  cr_CoverageRatio : spec_float;
  cr_Items : list EvidenceCoverageItem
}.
#[export] Instance eta_EvidenceCoverageReport : Eta EvidenceCoverageReport := eta! mkEvidenceCoverageReport < cr_TaskID ; cr_CoverageRatio ; cr_Items >.
#[export] Instance zero_EvidenceCoverageReport : Zero EvidenceCoverageReport := mkEvidenceCoverageReport zero zero zero.

Record ValidationDiagnostic := mkValidationDiagnostic {
  vd_Code : string;
  vd_Category : ValidationCategory;
  vd_Severity : ValidationSeverity;
  vd_Message : string;
  vd_MetricRefs : list string;
  vd_EvidenceRefs : list string;
  vd_MemoryRefs : list string;
  vd_GroundingRefs : list string;
  vd_PolicyRuleRefs : list string;
  vd_RecommendationIndex : option nat
}.
#[export] Instance eta_ValidationDiagnostic : Eta ValidationDiagnostic := eta! mkValidationDiagnostic < vd_Code ; vd_Category ; vd_Severity ; vd_Message ; vd_MetricRefs ; vd_EvidenceRefs ; vd_MemoryRefs ; vd_GroundingRefs ; vd_PolicyRuleRefs ; vd_RecommendationIndex >.
#[export] Instance zero_ValidationDiagnostic : Zero ValidationDiagnostic := mkValidationDiagnostic zero zero zero zero zero zero zero zero zero zero.

Record VerificationResult := mkVerificationResult {
  vr_Status : VerificationStatus;
  vr_Scope : VerificationScope;
  vr_BlockID : string;
  vr_BlockKind : string;
  vr_Validator : string;
  vr_Message : string;
  vr_Details : gmap string any;
  vr_FailedRules : list string;
  vr_MissingEvidence : list string;
  vr_RecommendedReplanAction : string;
  vr_Severity : string;
  vr_Category : ValidationCategory;
  vr_Diagnostics : list ValidationDiagnostic;
  vr_EvidenceCoverage : EvidenceCoverageReport;
  vr_CheckedAt : time
}.
#[export] Instance eta_VerificationResult : Eta VerificationResult := eta! mkVerificationResult < vr_Status ; vr_Scope ; vr_BlockID ; vr_BlockKind ; vr_Validator ; vr_Message ; vr_Details ; vr_FailedRules ; vr_MissingEvidence ; vr_RecommendedReplanAction ; vr_Severity ; vr_Category ; vr_Diagnostics ; vr_EvidenceCoverage ; vr_CheckedAt >.
#[export] Instance zero_VerificationResult : Zero VerificationResult := mkVerificationResult zero zero zero zero zero zero zero zero zero zero zero zero zero zero zero.

Record OracleVerdict := mkOracleVerdict {
  ov_Scenario : string;
  ov_Passed : bool;
  ov_Score : spec_float;
  ov_Reasons : list string;
  ov_CheckedAt : time
}.
#[export] Instance eta_OracleVerdict : Eta OracleVerdict := eta! mkOracleVerdict < ov_Scenario ; ov_Passed ; ov_Score ; ov_Reasons ; ov_CheckedAt >.
#[export] Instance zero_OracleVerdict : Zero OracleVerdict := mkOracleVerdict zero zero zero zero zero.

Record PipelineResult := mkPipelineResult {
  pr_CoverageReport : EvidenceCoverageReport;
  pr_BlockResults : gmap string (list VerificationResult);
  pr_FinalResults : list VerificationResult;
  pr_Results : list VerificationResult;
  pr_OracleVerdict : OracleVerdict
}.
#[export] Instance eta_PipelineResult : Eta PipelineResult := eta! mkPipelineResult < pr_CoverageReport ; pr_BlockResults ; pr_FinalResults ; pr_Results ; pr_OracleVerdict >.
#[export] Instance zero_PipelineResult : Zero PipelineResult := mkPipelineResult zero zero zero zero zero.
