(* ===== verification/ContextModel.v ===== *)
(** * Context slices (internal/context)

    What a model is shown: state, memory, evidence and skill blocks are
    selected, and the compactor drops blocks until the slice fits its token
    budget.  The encoder of state blocks ([json.Marshal]) is a parameter. *)

From S2P Require Export AgentTypes.
#[local] Open Scope Z_scope.

(** ** Token estimation (token_estimator.go, token_budget.go) *)

Class TokenEstimator := { EstimateText : string -> Z }.

Definition HeuristicTokenEstimator : TokenEstimator := {|
  EstimateText text :=
    if text == "" then 0 else
    let runes := rune_count text in
    let estimate := runes / 4 in
    let estimate := if runes mod 4 =? 0 then estimate else estimate + 1 in
    if estimate <? 1 then 1 else estimate
|}.

Definition tokenBudgetFor (budget : ContextBudget) : TokenBudget := {|
  tb_MaxInputTokens := cb_MaxInputTokens budget;
  tb_ReservedOutputTokens := cb_ReservedOutputTokens budget;
  tb_HardTokenLimit := cb_HardTokenLimit budget
|}.

Definition tokenTarget (budget : ContextBudget) : Z :=
  let target := cb_MaxInputTokens budget in
  if target <=? 0 then 0 else
  let target := if 0 <? cb_ReservedOutputTokens budget
                then wrap64 (target - cb_ReservedOutputTokens budget) else target in
  let target := if (0 <? cb_HardTokenLimit budget) && (cb_HardTokenLimit budget <? target)
                then cb_HardTokenLimit budget else target in
  if target <? 0 then 0 else target.

(** ** Compaction (compactor.go) *)

Definition estimateStateBlockTokens (block : InjectedStateBlock) (E : TokenEstimator) : Z :=
  EstimateText (ib_Name block +:+ newline +:+ ib_DataJSON block).
Definition estimateMemoryBlockTokens (block : MemoryBlock) (E : TokenEstimator) : Z :=
  EstimateText (mb_MemoryID block +:+ newline +:+ mb_Summary block).
Definition estimateEvidenceBlockTokens (block : EvidenceSummaryBlock) (E : TokenEstimator) : Z :=
  EstimateText (eb_EvidenceID block +:+ newline +:+ eb_Summary block).
Definition estimateSkillBlockTokens (block : SkillBlock) (E : TokenEstimator) : Z :=
  EstimateText (sb_SkillName block +:+ newline +:+ sb_Description block).

(** [for _, block := range blocks { total += f(block) }] *)
Definition add_tokens {A} (f : A -> Z) (blocks : list A) (total : Z) : Z :=
  fold_left (fun total block => total + f block) blocks total.

Definition estimateSliceTokens (slice : ContextSlice) (E : TokenEstimator) : Z :=
  add_tokens (fun block => estimateSkillBlockTokens block E) (cs_SkillBlocks slice)
    (add_tokens (fun block => estimateEvidenceBlockTokens block E) (cs_EvidenceBlocks slice)
      (add_tokens (fun block => estimateMemoryBlockTokens block E) (cs_MemoryBlocks slice)
        (add_tokens (fun block => estimateStateBlockTokens block E) (cs_StateBlocks slice) 0))).

Definition collectMemoryIDs (blocks : list MemoryBlock) : list string := mb_MemoryID <$> blocks.
Definition collectEvidenceIDs (blocks : list EvidenceSummaryBlock) : list EvidenceID := eb_EvidenceID <$> blocks.
Definition stateBlockNames (blocks : list InjectedStateBlock) : list string := ib_Name <$> blocks.

(** *** [excludeBlocksToFitBudget] *)

Definition token_decision (source : ContextBlockSource) (ref : string) (tokens : Z) : ContextBlockDecision :=
  {| bd_Source := source; bd_Ref := ref; bd_EstimatedTokens := tokens; bd_Reason := "trimmed_to_fit_token_budget" |}.

Definition trim_note (kind ref : string) : string :=
  "trimmed " +:+ kind +:+ " block " +:+ ref +:+ " to fit token budget".

(** The case that drops the last memory block, which the switch has twice. *)
Definition trim_memory (slice : ContextSlice) (E : TokenEstimator) (block : MemoryBlock)
    : ContextSlice * ContextBlockDecision * string :=
  let blocks := removelast (cs_MemoryBlocks slice) in
  (slice <| cs_MemoryBlocks := blocks |> <| cs_MemoryIDs := collectMemoryIDs blocks |>,
   token_decision ContextBlockSourceMemory (mb_MemoryID block) (estimateMemoryBlockTokens block E),
   trim_note "memory" (mb_MemoryID block)).

(** One turn of the loop; [None] is the default case. *)
Definition trim (slice : ContextSlice) (strategy : CompactionStrategy) (E : TokenEstimator)
    : option (ContextSlice * ContextBlockDecision * string) :=
  match last (cs_SkillBlocks slice) with
  | Some block =>
      Some (slice <| cs_SkillBlocks := removelast (cs_SkillBlocks slice) |>,
            token_decision ContextBlockSourceSkill (sb_SkillName block) (estimateSkillBlockTokens block E),
            trim_note "skill" (sb_SkillName block))
  | None =>
  match (if strategy != CompactionStrategyEvidenceFocused then last (cs_MemoryBlocks slice) else None) with
  | Some block => Some (trim_memory slice E block)
  | None =>
  match (if (1 <? length (cs_StateBlocks slice))%nat then last (cs_StateBlocks slice) else None) with
  | Some block =>
      Some (slice <| cs_StateBlocks := removelast (cs_StateBlocks slice) |>,
            token_decision ContextBlockSourceState (ib_Name block) (estimateStateBlockTokens block E),
            trim_note "state" (ib_Name block))
  | None =>
  match (if (1 <? length (cs_EvidenceBlocks slice))%nat then last (cs_EvidenceBlocks slice) else None) with
  | Some block =>
      let blocks := removelast (cs_EvidenceBlocks slice) in
      Some (slice <| cs_EvidenceBlocks := blocks |> <| cs_EvidenceIDs := collectEvidenceIDs blocks |>,
            token_decision ContextBlockSourceEvidence (eb_EvidenceID block) (estimateEvidenceBlockTokens block E),
            trim_note "evidence" (eb_EvidenceID block))
  | None =>
  match last (cs_MemoryBlocks slice) with
  | Some block => Some (trim_memory slice E block)
  | None => None
  end end end end end.

Definition exhausted_note : string := "token budget exhausted; no additional block can be safely trimmed".

Definition block_count (slice : ContextSlice) : nat :=
  length (cs_StateBlocks slice) + length (cs_MemoryBlocks slice) +
  length (cs_EvidenceBlocks slice) + length (cs_SkillBlocks slice).

Fixpoint exclude_loop (fuel : nat) (slice : ContextSlice) (strategy : CompactionStrategy) (targetTokens : Z)
    (E : TokenEstimator) (excluded : list ContextBlockDecision) (notes : list string)
    : outcome error (ContextSlice * list ContextBlockDecision * list string) :=
  match fuel with
  | O => OutOfFuel
  | S fuel =>
      if targetTokens <? estimateSliceTokens slice E then
        match trim slice strategy E with
        | Some (slice, decision, note) =>
            exclude_loop fuel slice strategy targetTokens E (excluded ++ [decision]) (notes ++ [note])
        | None => Ok (slice, excluded, notes ++ [exhausted_note])
        end
      else Ok (slice, excluded, notes)
  end.

(** Every turn drops a block, so one turn per block and one more are enough. *)
Definition excludeBlocksToFitBudget (slice : ContextSlice) (strategy : CompactionStrategy) (targetTokens : Z)
    (E : TokenEstimator) : outcome error (ContextSlice * list ContextBlockDecision * list string) :=
  exclude_loop (S (block_count slice)) slice strategy targetTokens E [] [].

(** *** The legacy character budget *)

Record char_trim := mkCharTrim {
  ct_total : Z;
  ct_kept : list InjectedStateBlock;
  ct_excluded : list ContextBlockDecision;
  ct_notes : list string
}.

Definition trim_chars (charBudget : Z) (E : TokenEstimator) (acc : char_trim) (block : InjectedStateBlock) : char_trim :=
  let totalChars := ct_total acc + Z.of_nat (String.length (ib_DataJSON block)) in
  if charBudget <? totalChars then
    {| ct_total := totalChars; ct_kept := ct_kept acc;
       ct_excluded := ct_excluded acc ++
         [{| bd_Source := ContextBlockSourceState; bd_Ref := ib_Name block;
             bd_EstimatedTokens := estimateStateBlockTokens block E; bd_Reason := "trimmed_to_fit_character_budget" |}];
       ct_notes := ct_notes acc ++ ["trimmed state block " +:+ ib_Name block +:+ " to fit legacy character budget"] |}
  else
    {| ct_total := totalChars; ct_kept := ct_kept acc ++ [block];
       ct_excluded := ct_excluded acc; ct_notes := ct_notes acc |}.

Definition char_budget_trim (charBudget : Z) (E : TokenEstimator) (blocks : list InjectedStateBlock) : char_trim :=
  fold_left (trim_chars charBudget E) blocks {| ct_total := 0; ct_kept := []; ct_excluded := []; ct_notes := [] |}.

Definition included (source : ContextBlockSource) (ref : string) (tokens : Z) (reason : ContextSelectionReason)
    : ContextBlockDecision :=
  {| bd_Source := source; bd_Ref := ref; bd_EstimatedTokens := tokens;
     bd_Reason := ContextSelectionReason_string reason |}.

Definition buildBudgetDecision (slice : ContextSlice) (excluded : list ContextBlockDecision) (targetTokens : Z)
    (E : TokenEstimator) : ContextBudgetDecision := {|
  bg_EstimatedInputTokens := estimateSliceTokens slice E;
  bg_TargetInputTokens := targetTokens;
  bg_Included :=
    ((fun b => included ContextBlockSourceState (ib_Name b) (estimateStateBlockTokens b E) (ib_SelectionReason b)) <$> cs_StateBlocks slice) ++
    ((fun b => included ContextBlockSourceMemory (mb_MemoryID b) (estimateMemoryBlockTokens b E) (mb_SelectionReason b)) <$> cs_MemoryBlocks slice) ++
    ((fun b => included ContextBlockSourceEvidence (eb_EvidenceID b) (estimateEvidenceBlockTokens b E) (eb_SelectionReason b)) <$> cs_EvidenceBlocks slice) ++
    ((fun b => included ContextBlockSourceSkill (sb_SkillName b) (estimateSkillBlockTokens b E) (sb_SelectionReason b)) <$> cs_SkillBlocks slice);
  bg_Excluded := excluded
|}.

(** The blocks that a strategy drops before any budget is looked at. *)
Definition pretrim (strategy : CompactionStrategy) (slice : ContextSlice) : ContextSlice :=
  let slice := if (strategy == CompactionStrategyVerificationLean) && (1 <? length (cs_MemoryBlocks slice))%nat
               then slice <| cs_MemoryBlocks := take 1 (cs_MemoryBlocks slice) |> else slice in
  if (strategy == CompactionStrategyEvidenceFocused) && (3 <? length (cs_StateBlocks slice))%nat
  then slice <| cs_StateBlocks := take 3 (cs_StateBlocks slice) |> else slice.

(** The two budgets: the tokens, or, without a token target, the characters. *)
Definition fit_budget (strategy : CompactionStrategy) (targetTokens : Z) (E : TokenEstimator) (slice : ContextSlice)
    : outcome error (ContextSlice * list ContextBlockDecision * list string) :=
  if (0 <? targetTokens) && (targetTokens <? estimateSliceTokens slice E) then
    excludeBlocksToFitBudget slice strategy targetTokens E
  else if (targetTokens =? 0) && (0 <? cb_MaxCharacters (cs_Budget slice)) then
    let acc := char_budget_trim (cb_MaxCharacters (cs_Budget slice)) E (cs_StateBlocks slice) in
    Ok (slice <| cs_StateBlocks := ct_kept acc |>, ct_excluded acc, ct_notes acc)
  else Ok (slice, [], []).

Definition known_strategy (strategy : CompactionStrategy) : bool :=
  match strategy with CompactionStrategyOther _ => false | _ => true end.

(** [StateAwareCompactor.Compact]; [None] for the estimator is its nil. *)
Definition Compact (estimator : option TokenEstimator) (slice : ContextSlice) (strategy : CompactionStrategy)
    : outcome error ContextSlice :=
  if strategy == CompactionStrategyNone then Ok slice
  else if negb (known_strategy strategy) then
    Err (PlainError ("unsupported compaction strategy " +:+ Quote (CompactionStrategy_string strategy)))
  else
    let E := default HeuristicTokenEstimator estimator in
    let compacted := pretrim strategy slice in
    let initialTokens := estimateSliceTokens compacted E in
    let targetTokens := tokenTarget (cs_Budget compacted) in
    match fit_budget strategy targetTokens E compacted with
    | Ok (compacted, excluded, notes) =>
        let decision := buildBudgetDecision compacted excluded targetTokens E in
        Ok (compacted <| cs_BudgetDecision := decision |>
                      <| cs_Compaction := {| cc_Strategy := strategy; cc_InitialTokenEstimate := initialTokens;
                                             cc_FinalTokenEstimate := bg_EstimatedInputTokens decision; cc_Notes := notes |} |>
                      <| cs_Compacted := true |>)
    | Err e => Err e
    | Panic why => Panic why
    | OutOfFuel => OutOfFuel
    end.

Definition ExcludedBlockRefs (slice : ContextSlice) : list string :=
  (fun item => ContextBlockSource_string (bd_Source item) +:+ ":" +:+ bd_Ref item) <$>
    bg_Excluded (cs_BudgetDecision slice).
Definition CompactionNotes (slice : ContextSlice) : list string := cc_Notes (cs_Compaction slice).
Definition SkillNames (slice : ContextSlice) : list string := sb_SkillName <$> cs_SkillBlocks slice.

Definition ContextSummary (slice : ContextSlice) : string :=
  Join (((fun b => "[state] " +:+ ib_Name b +:+ ": " +:+ ib_DataJSON b) <$> cs_StateBlocks slice) ++
        ((fun b => "[memory] " +:+ mb_MemoryID b +:+ ": " +:+ mb_Summary b) <$> cs_MemoryBlocks slice) ++
        ((fun b => "[evidence] " +:+ eb_EvidenceID b +:+ ": " +:+ eb_Summary b) <$> cs_EvidenceBlocks slice) ++
        ((fun b => "[skill] " +:+ sb_SkillName b +:+ ": " +:+ sb_Description b) <$> cs_SkillBlocks slice)) newline.

(** ** Selection (selection.go, block_selection.go, budget.go) *)

Definition DefaultBudgetForView (view : ContextView) : ContextBudget :=
  let budget s m e c i r h :=
    {| cb_MaxStateBlocks := s; cb_MaxMemoryBlocks := m; cb_MaxEvidenceItems := e; cb_MaxCharacters := c;
       cb_MaxInputTokens := i; cb_ReservedOutputTokens := r; cb_HardTokenLimit := h |} in
  match view with
  | ContextViewPlanning => budget 4 3 4 2200 1800 700 2200
  | ContextViewExecution => budget 6 4 6 3200 2200 800 2800
  | ContextViewVerification => budget 4 2 6 2400 1600 400 2000
  | ContextViewOther _ => budget 4 3 4 2200 1800 700 2200
  end.

Definition resolveBudget (explicit : ContextBudget) (view : ContextView) : ContextBudget :=
  if (cb_MaxStateBlocks explicit != 0) || (cb_MaxMemoryBlocks explicit != 0) ||
     (cb_MaxEvidenceItems explicit != 0) || (cb_MaxCharacters explicit != 0)
  then explicit else DefaultBudgetForView view.

(** [for _, x := range l { blocks = append(blocks, f(x)); if max > 0 && len(blocks) >= max { break } }] *)
Fixpoint append_until {A B} (max : Z) (f : A -> B) (blocks : list B) (l : list A) : list B :=
  match l with
  | [] => blocks
  | x :: l =>
      let blocks := blocks ++ [f x] in
      if (0 <? max) && (max <=? Z.of_nat (length blocks)) then blocks else append_until max f blocks l
  end.

(** [make([]T, 0, cap)] for elements of [size] bytes panics if the capacity is
    negative or the memory it takes more than the runtime can address (2^48
    bytes on linux/amd64). *)
Definition make_slice {A} (size cap : Z) (rest : outcome error A) : outcome error A :=
  if (cap <? 0) || (2 ^ 48 <? size * cap) then Panic "makeslice: cap out of range" else rest.

(** The parts of the state that become blocks. *)
Inductive state_part :=
| PartCashflow (s : CashflowState)
| PartLiability (s : LiabilityState)
| PartPortfolio (s : PortfolioState)
| PartTax (s : TaxState)
| PartBehavior (s : BehaviorState)
| PartRisk (s : RiskState)
| PartWorkflow (s : WorkflowState).

(** [json.Marshal] of a part of the state. *)
Class StateEncoder := { marshal_state : state_part -> error + string }.

Section selection.
Context `{JE : StateEncoder}.

Definition candidates (currentState : FinancialWorldState) (view : ContextView)
    : option (list (string * state_part * ContextSelectionReason)) :=
  let cashflow r := ("cashflow_state", PartCashflow (fw_CashflowState currentState), r) in
  let liability r := ("liability_state", PartLiability (fw_LiabilityState currentState), r) in
  let risk r := ("risk_state", PartRisk (fw_RiskState currentState), r) in
  let workflow r := ("workflow_state", PartWorkflow (fw_WorkflowState currentState), r) in
  let tax r := ("tax_state", PartTax (fw_TaxState currentState), r) in
  let portfolio r := ("portfolio_state", PartPortfolio (fw_PortfolioState currentState), r) in
  let behavior r := ("behavior_state", PartBehavior (fw_BehaviorState currentState), r) in
  match view with
  | ContextViewPlanning =>
      Some [cashflow ContextSelectionRequiredEvidence; liability ContextSelectionRiskSignal;
            risk ContextSelectionRiskSignal; workflow ContextSelectionRecentState]
  | ContextViewExecution =>
      Some [cashflow ContextSelectionRequiredEvidence; liability ContextSelectionRequiredEvidence;
            portfolio ContextSelectionRequiredEvidence; tax ContextSelectionRequiredEvidence;
            behavior ContextSelectionRiskSignal; risk ContextSelectionRiskSignal]
  | ContextViewVerification =>
      Some [workflow ContextSelectionVerificationGap; risk ContextSelectionRiskSignal;
            cashflow ContextSelectionVerificationGap; tax ContextSelectionVerificationGap]
  | ContextViewOther _ => None
  end.

Definition state_block (currentState : FinancialWorldState) (name payload : string) (reason : ContextSelectionReason)
    : InjectedStateBlock := {|
  ib_Name := name;
  ib_Version := sv_Sequence (fw_Version currentState);
  ib_DataJSON := payload;
  ib_Source := "financial_world_state";
  ib_Mandatory := true;
  ib_BlockSource := ContextBlockSourceState;
  ib_SelectionReason := reason
|}.

Fixpoint state_blocks (currentState : FinancialWorldState) (max : Z) (blocks : list InjectedStateBlock)
    (items : list (string * state_part * ContextSelectionReason)) : outcome error (list InjectedStateBlock) :=
  match items with
  | [] => Ok blocks
  | (name, part, reason) :: items =>
      match marshal_state part with
      | inl err => Err err
      | inr payload =>
          let blocks := blocks ++ [state_block currentState name payload reason] in
          if (0 <? max) && (max <=? Z.of_nat (length blocks)) then Ok blocks
          else state_blocks currentState max blocks items
      end
  end.

Definition selectStateBlocks (currentState : FinancialWorldState) (view : ContextView) (budget : ContextBudget)
    : outcome error (list InjectedStateBlock) :=
  make_slice 96 (cb_MaxStateBlocks budget)
    match candidates currentState view with
    | None => Err (PlainError ("unsupported context view " +:+ Quote (ContextView_string view)))
    | Some items => state_blocks currentState (cb_MaxStateBlocks budget) [] items
    end.
End selection.

Definition memory_block (view : ContextView) (item : MemoryRecord) : MemoryBlock := {|
  mb_MemoryID := mm_ID item;
  mb_Kind := mm_Kind item;
  mb_Summary := mm_Summary item;
  mb_BlockSource := ContextBlockSourceMemory;
  mb_SelectionReason :=
    if (view == ContextViewVerification) && (mm_Kind item == MemoryKindPolicy)
    then ContextSelectionVerificationGap else ContextSelectionMemoryRelevance
|}.

Definition selectMemoryBlocks (memories : list MemoryRecord) (view : ContextView) (budget : ContextBudget)
    : outcome error (list MemoryBlock) :=
  make_slice 80 (cb_MaxMemoryBlocks budget) (Ok (append_until (cb_MaxMemoryBlocks budget) (memory_block view) [] memories)).

Definition compactSummary (summary : string) (maxLen : nat) : string :=
  let summary := TrimSpace summary in
  if (String.length summary <=? maxLen)%nat then summary else byte_prefix maxLen summary +:+ "...".

Definition evidence_block (view : ContextView) (item : EvidenceRecord) : EvidenceSummaryBlock := {|
  eb_EvidenceID := er_ID item;
  eb_Type := er_Type item;
  eb_Summary := compactSummary (er_Summary item) 180;
  eb_BlockSource := ContextBlockSourceEvidence;
  eb_SelectionReason :=
    if view == ContextViewVerification then ContextSelectionVerificationGap else ContextSelectionRequiredEvidence
|}.

Definition selectEvidenceBlocks (evidence : list EvidenceRecord) (view : ContextView) (budget : ContextBudget)
    : outcome error (list EvidenceSummaryBlock) :=
  make_slice 80 (cb_MaxEvidenceItems budget) (Ok (append_until (cb_MaxEvidenceItems budget) (evidence_block view) [] evidence)).

Definition requiredSkillsForIntent (intent : UserIntentType) : list string :=
  match intent with
  | UserIntentMonthlyReview => ["monthly_review"]
  | UserIntentDebtVsInvest => ["debt_optimization"]
  | UserIntentBehaviorIntervention => ["behavior_intervention"]
  | _ => []
  end.

Definition selectSkillBlocks (intent : UserIntentType) : list SkillBlock :=
  (fun skill => {| sb_SkillName := skill;
                   sb_Description := "skill injected because it matches task intent and output contract";
                   sb_BlockSource := ContextBlockSourceSkill;
                   sb_SelectionReason := ContextSelectionSkillRequirement |}) <$> requiredSkillsForIntent intent.

(** [if len(names) == 0 { return blocks }] and the set of the allowed ones. *)
Definition filter_allowed {A} (key : A -> string) (allowed : list string) (l : list A) : list A :=
  if bool_decide (allowed = []) then l else filter (fun x => key x ∈ allowed) l.

Definition filterStateBlocksByNames (blocks : list InjectedStateBlock) (names : list string) : list InjectedStateBlock :=
  filter_allowed ib_Name names blocks.
Definition filterEvidenceBlocksByTypes (blocks : list EvidenceSummaryBlock) (allowedTypes : list string)
    : list EvidenceSummaryBlock :=
  filter_allowed (fun block => EvidenceType_string (eb_Type block)) allowedTypes blocks.
Definition filterEvidenceRecordsByTypes (records : list EvidenceRecord) (allowedTypes : list string)
    : list EvidenceRecord :=
  filter_allowed (fun record => EvidenceType_string (er_Type record)) allowedTypes records.
Definition filterEvidenceRecordsByIDs (records : list EvidenceRecord) (ids : list EvidenceID) : list EvidenceRecord :=
  filter_allowed er_ID ids records.

Definition matchesMemoryKind (kind : MemoryKind) (allowed : list MemoryKind) : bool :=
  bool_decide (allowed = []) || bool_decide (kind ∈ allowed).

Definition mentions (summary : string) (words : list string) : bool := existsb (Contains summary) words.

Definition matchesMemorySummary (summary blockKind : string) : bool :=
  let summary := ToLower summary in
  let about prefix word := HasPrefix blockKind prefix || Contains blockKind word in
  if about "cashflow_" "cashflow" then
    mentions summary ["subscription"; "late-night"; "monthly review"; "decision"; "life event"]
  else if about "debt_" "debt" then
    mentions summary ["debt pressure"; "debt-versus-invest"; "debt burden"; "decision"; "monthly review"; "housing"]
  else if about "tax_" "tax" then
    mentions summary ["tax signal"; "withholding"; "family-related tax"; "deadline"; "life event"]
  else if about "portfolio_" "portfolio" then
    mentions summary ["decision"; "liquidity"; "life event"; "debt pressure"]
  else true.

Definition filterMemoryBlocksForSpec (blocks : list MemoryBlock) (spec : BlockContextSpec) : list MemoryBlock :=
  filter (fun block => matchesMemoryKind (mb_Kind block) (bs_RequiredMemoryKinds spec) &&
                       matchesMemorySummary (mb_Summary block) (bs_BlockKind spec) = true) blocks.
Definition filterMemoryRecordsForSpec (records : list MemoryRecord) (spec : BlockContextSpec) : list MemoryRecord :=
  filter (fun record => matchesMemoryKind (mm_Kind record) (bs_RequiredMemoryKinds spec) &&
                        matchesMemorySummary (mm_Summary record) (bs_BlockKind spec) = true) records.

(** ** Assemblers (assembler.go, execution_context.go, verification_context.go)

    [compactor] and [estimator] are the fields of the assembler; a nil
    compactor is the [StateAwareCompactor] over the estimator. *)

Definition strategyForView (view : ContextView) : CompactionStrategy :=
  match view with
  | ContextViewExecution => CompactionStrategyEvidenceFocused
  | ContextViewVerification => CompactionStrategyVerificationLean
  | _ => CompactionStrategyStateAware
  end.

Definition ContextCompactor : Type := ContextSlice -> CompactionStrategy -> outcome error ContextSlice.

Record ContextAssembler := mkContextAssembler {
  ca_Budget : ContextBudget;
  ca_Compactor : option ContextCompactor;
  ca_Estimator : option TokenEstimator
}.

Definition run_compactor (a : ContextAssembler) : ContextCompactor :=
  match ca_Compactor a with Some compact => compact | None => Compact (ca_Estimator a) end.

(** Sequencing of pure outcomes. *)
Definition obind {E A B} (o : outcome E A) (k : A -> outcome E B) : outcome E B :=
  match o with Ok a => k a | Err e => Err e | Panic w => Panic w | OutOfFuel => OutOfFuel end.

Definition new_slice (view : ContextView) (taskID goal : string) (budget : ContextBudget)
    (stateBlocks : list InjectedStateBlock) (memoryBlocks : list MemoryBlock)
    (evidenceBlocks : list EvidenceSummaryBlock) : ContextSlice :=
  zero <| cs_View := view |> <| cs_TaskID := taskID |> <| cs_Goal := goal |>
       <| cs_Budget := budget |> <| cs_TokenBudget := tokenBudgetFor budget |>
       <| cs_StateBlocks := stateBlocks |> <| cs_MemoryBlocks := memoryBlocks |>
       <| cs_EvidenceBlocks := evidenceBlocks |>
       <| cs_MemoryIDs := collectMemoryIDs memoryBlocks |>
       <| cs_EvidenceIDs := collectEvidenceIDs evidenceBlocks |>.

Section assemblers.
Context `{JE : StateEncoder}.

(** [DefaultContextAssembler.Assemble] *)
Definition Assemble (a : ContextAssembler) (spec : TaskSpec) (currentState : FinancialWorldState)
    (memories : list MemoryRecord) (evidence : list EvidenceRecord) (view : ContextView) : outcome error ContextSlice :=
  let budget := resolveBudget (ca_Budget a) view in
  obind (selectStateBlocks currentState view budget) (fun stateBlocks =>
  obind (selectMemoryBlocks memories view budget) (fun memoryBlocks =>
  obind (selectEvidenceBlocks evidence view budget) (fun evidenceBlocks =>
  let slice := new_slice view (ts_ID spec) (ts_Goal spec) budget stateBlocks memoryBlocks evidenceBlocks
               <| cs_RequiredSkills := requiredSkillsForIntent (ts_UserIntentType spec) |>
               <| cs_SkillBlocks := selectSkillBlocks (ts_UserIntentType spec) |> in
  run_compactor a slice (strategyForView view)))).

Definition blockSelectionReason (blockKind : string) : ContextSelectionReason :=
  if bool_decide (blockKind ∈ ["cashflow_review_block"; "cashflow_liquidity_block"; "cashflow_event_impact_block"])
  then ContextSelectionRequiredEvidence
  else if bool_decide (blockKind ∈ ["debt_review_block"; "debt_tradeoff_block"; "debt_housing_impact_block"])
  then ContextSelectionRiskSignal
  else if bool_decide (blockKind ∈ ["tax_event_impact_block"; "portfolio_event_impact_block"])
  then ContextSelectionMemoryRelevance
  else ContextSelectionRecentState.

(** [ExecutionContextAssembler.Assemble] *)
Definition AssembleExecution (a : ContextAssembler) (spec : BlockContextSpec) (currentState : FinancialWorldState)
    (memories : list MemoryRecord) (evidence : list EvidenceRecord) : outcome error BlockExecutionContext :=
  let view := if bs_ExecutionView spec == ContextViewOther "" then ContextViewExecution else bs_ExecutionView spec in
  let budget := resolveBudget (ca_Budget a) view in
  obind (selectStateBlocks currentState view budget) (fun stateBlocks =>
  let stateBlocks := filterStateBlocksByNames stateBlocks (bs_RequiredStateBlocks spec) in
  obind (selectMemoryBlocks memories view budget) (fun memoryBlocks =>
  let memoryBlocks := filterMemoryBlocksForSpec memoryBlocks spec in
  obind (selectEvidenceBlocks evidence view budget) (fun evidenceBlocks =>
  let evidenceBlocks := filterEvidenceBlocksByTypes evidenceBlocks (bs_RequiredEvidenceRefs spec) in
  let slice := new_slice view (bs_BlockID spec) (bs_Goal spec) budget stateBlocks memoryBlocks evidenceBlocks in
  obind (run_compactor a slice CompactionStrategyEvidenceFocused) (fun compacted =>
  if bool_decide (cs_EvidenceIDs compacted = []) then
    Err (PlainError ("execution context for block " +:+ Quote (bs_BlockID spec) +:+ " requires selected evidence"))
  else Ok {|
    bx_View := view;
    bx_PlanID := bs_PlanID spec;
    bx_BlockID := bs_BlockID spec;
    bx_BlockKind := bs_BlockKind spec;
    bx_AssignedRecipient := bs_AssignedRecipient spec;
    bx_Goal := bs_Goal spec;
    bx_SelectionReason := blockSelectionReason (bs_BlockKind spec);
    bx_SelectedSkill := bs_SelectedSkill spec;
    bx_SelectedMemoryIDs := cs_MemoryIDs compacted;
    bx_SelectedEvidenceIDs := cs_EvidenceIDs compacted;
    bx_SelectedStateBlocks := stateBlockNames (cs_StateBlocks compacted);
    bx_EstimatedInputTokens := bg_EstimatedInputTokens (cs_BudgetDecision compacted);
    bx_Slice := compacted
  |})))).

Definition verification_context (planID blockID blockKind : string) (rules : list string) (summary : string)
    (compacted : ContextSlice) : BlockVerificationContext := {|
  bv_View := ContextViewVerification;
  bv_PlanID := planID;
  bv_BlockID := blockID;
  bv_BlockKind := blockKind;
  bv_SelectionReason := ContextSelectionVerificationGap;
  bv_SelectedMemoryIDs := cs_MemoryIDs compacted;
  bv_SelectedEvidenceIDs := cs_EvidenceIDs compacted;
  bv_SelectedStateBlocks := stateBlockNames (cs_StateBlocks compacted);
  bv_EstimatedInputTokens := bg_EstimatedInputTokens (cs_BudgetDecision compacted);
  bv_VerificationRules := rules;
  bv_ResultSummary := summary;
  bv_Slice := compacted
|}.

(** [VerificationContextAssembler.AssembleBlock] *)
Definition AssembleBlock (a : ContextAssembler) (spec : BlockContextSpec) (result : BlockResultEnvelope)
    (currentState : FinancialWorldState) (memories : list MemoryRecord) (evidence : list EvidenceRecord)
    : outcome error BlockVerificationContext :=
  let view := ContextViewVerification in
  let budget := resolveBudget (ca_Budget a) view in
  obind (selectStateBlocks currentState view budget) (fun stateBlocks =>
  let stateBlocks := filterStateBlocksByNames stateBlocks (bs_RequiredStateBlocks spec) in
  obind (selectMemoryBlocks memories view budget) (fun memoryBlocks =>
  let memoryBlocks := filterMemoryBlocksForSpec memoryBlocks spec in
  obind (selectEvidenceBlocks (filterEvidenceRecordsByIDs evidence (BlockResultEnvelope_EvidenceIDs result)) view budget)
    (fun evidenceBlocks =>
  let evidenceBlocks := filterEvidenceBlocksByTypes evidenceBlocks (bs_RequiredEvidenceRefs spec) in
  let slice := new_slice view (bs_BlockID spec) (bs_Goal spec) budget stateBlocks memoryBlocks evidenceBlocks in
  obind (run_compactor a slice CompactionStrategyVerificationLean) (fun compacted =>
  if bool_decide (cs_EvidenceIDs compacted = []) then
    Err (PlainError ("verification context for block " +:+ Quote (bs_BlockID spec) +:+ " requires selected evidence"))
  else Ok (verification_context (bs_PlanID spec) (bs_BlockID spec) (bs_BlockKind spec) (bs_VerificationRules spec)
             (BlockResultEnvelope_Summary result) compacted))))).

(** [VerificationContextAssembler.AssembleFinal] *)
Definition AssembleFinal (a : ContextAssembler) (planID reportSummary : string) (currentState : FinancialWorldState)
    (memories : list MemoryRecord) (evidence : list EvidenceRecord) : outcome error BlockVerificationContext :=
  let view := ContextViewVerification in
  let budget := resolveBudget (ca_Budget a) view in
  obind (selectStateBlocks currentState view budget) (fun stateBlocks =>
  obind (selectMemoryBlocks memories view budget) (fun memoryBlocks =>
  obind (selectEvidenceBlocks evidence view budget) (fun evidenceBlocks =>
  let slice := new_slice view planID "final_report_verification" budget stateBlocks memoryBlocks evidenceBlocks in
  obind (run_compactor a slice CompactionStrategyVerificationLean) (fun compacted =>
  Ok (verification_context planID "final-report" "final_report" ["final_report_schema"; "final_report_grounding"]
        reportSummary compacted))))).
End assemblers.

(** validation.go *)
Definition validContextView (view : ContextView) : bool :=
  match view with ContextViewOther _ => false | _ => true end.

Definition ContextSlice_Validate (s : ContextSlice) : option error :=
  if cs_TaskID s == "" then Some (PlainError "context slice task id is required")
  else if negb (validContextView (cs_View s)) then
    Some (PlainError ("invalid context view " +:+ Quote (ContextView_string (cs_View s))))
  else None.
