(* ===== verification/ContextThm.v ===== *)
(** * Theorems on context slices

    Compaction terminates and keeps prefixes of what it was given: some
    strategies first drop memory or state blocks without a word; what the
    budget makes it drop is reported block by block, and the rest either fits
    or has nothing left to drop.  Assembling panics for a negative maximum. *)

From S2P Require Export ContextModel.
#[local] Open Scope Z_scope.

(** ** Sums of tokens *)

Definition total {A} (f : A -> Z) (l : list A) : Z := foldr (fun x t => f x + t) 0 l.

Lemma add_tokens_total {A} (f : A -> Z) l t : add_tokens f l t = t + total f l.
Proof.
  unfold add_tokens. revert t. induction l as [|x l IH]; intros t; cbn; [lia|]. rewrite IH. cbn [total foldr].
  unfold total. lia.
Qed.

Lemma total_app {A} (f : A -> Z) l1 l2 : total f (l1 ++ l2) = total f l1 + total f l2.
Proof. induction l1 as [|x l1 IH]; cbn; [done|]. unfold total in *. lia. Qed.

Lemma total_snoc {A} (f : A -> Z) l x : total f (l ++ [x]) = total f l + f x.
Proof. rewrite total_app. cbn. lia. Qed.

Definition slice_total (E : TokenEstimator) (slice : ContextSlice) : Z :=
  total (fun b => estimateStateBlockTokens b E) (cs_StateBlocks slice) +
  total (fun b => estimateMemoryBlockTokens b E) (cs_MemoryBlocks slice) +
  total (fun b => estimateEvidenceBlockTokens b E) (cs_EvidenceBlocks slice) +
  total (fun b => estimateSkillBlockTokens b E) (cs_SkillBlocks slice).

Lemma estimateSliceTokens_total slice E : estimateSliceTokens slice E = slice_total E slice.
Proof. unfold estimateSliceTokens, slice_total. rewrite !add_tokens_total. lia. Qed.

Lemma last_removelast {A} (l : list A) x : last l = Some x -> l = removelast l ++ [x].
Proof. intros [l' ->]%last_Some. by rewrite removelast_last. Qed.

Lemma removelast_prefix {A} (l : list A) x : last l = Some x -> removelast l `prefix_of` l.
Proof. intros H%last_removelast. exists [x]. exact H. Qed.

Lemma removelast_length {A} (l : list A) x : last l = Some x -> length l = S (length (removelast l)).
Proof. intros H%last_removelast. rewrite H at 1. rewrite length_app. cbn. lia. Qed.

Lemma removelast_total {A} (f : A -> Z) (l : list A) x : last l = Some x -> total f l = total f (removelast l) + f x.
Proof. intros H%last_removelast. rewrite H at 1. apply total_snoc. Qed.

(** ** What compaction may do to a slice *)

(** The blocks of [s'] are prefixes of those of [s], and the rest is the same. *)
Record shrinks (s' s : ContextSlice) : Prop := {
  sh_state : cs_StateBlocks s' `prefix_of` cs_StateBlocks s;
  sh_memory : cs_MemoryBlocks s' `prefix_of` cs_MemoryBlocks s;
  sh_evidence : cs_EvidenceBlocks s' `prefix_of` cs_EvidenceBlocks s;
  sh_skill : cs_SkillBlocks s' `prefix_of` cs_SkillBlocks s;
  sh_view : cs_View s' = cs_View s;
  sh_task : cs_TaskID s' = cs_TaskID s;
  sh_goal : cs_Goal s' = cs_Goal s;
  sh_budget : cs_Budget s' = cs_Budget s
}.

#[export] Instance shrinks_preorder : PreOrder shrinks.
Proof.
  split.
  - intros s. by split.
  - intros a b c [] []. split; try congruence; by etrans.
Qed.

(** Nothing that the loop may drop is left. *)
Definition exhausted (s : ContextSlice) : Prop :=
  cs_SkillBlocks s = [] /\ cs_MemoryBlocks s = [] /\
  (length (cs_StateBlocks s) <= 1)%nat /\ (length (cs_EvidenceBlocks s) <= 1)%nat.

Definition evidence_in_sync (s : ContextSlice) : Prop := cs_EvidenceIDs s = collectEvidenceIDs (cs_EvidenceBlocks s).
Definition memory_in_sync (s : ContextSlice) : Prop := cs_MemoryIDs s = collectMemoryIDs (cs_MemoryBlocks s).

(** What one turn does. *)
Record trimmed (E : TokenEstimator) (s s' : ContextSlice) (d : ContextBlockDecision) : Prop := {
  tr_shrinks : shrinks s' s;
  tr_tokens : slice_total E s = slice_total E s' + bd_EstimatedTokens d;
  tr_count : block_count s = S (block_count s');
  tr_evidence : evidence_in_sync s -> evidence_in_sync s';
  tr_memory : memory_in_sync s -> memory_in_sync s'
}.

Lemma trimmed_skill E s b :
  last (cs_SkillBlocks s) = Some b ->
  trimmed E s (s <| cs_SkillBlocks := removelast (cs_SkillBlocks s) |>)
    (token_decision ContextBlockSourceSkill (sb_SkillName b) (estimateSkillBlockTokens b E)).
Proof.
  intros H. pose proof (removelast_prefix _ _ H). split; [by split|unfold slice_total|unfold block_count|done|done]; rsimpl.
  - rewrite (removelast_total _ _ _ H). cbn [bd_EstimatedTokens token_decision]. lia.
  - rewrite (removelast_length _ _ H). lia.
Qed.

Lemma trimmed_state E s b :
  last (cs_StateBlocks s) = Some b ->
  trimmed E s (s <| cs_StateBlocks := removelast (cs_StateBlocks s) |>)
    (token_decision ContextBlockSourceState (ib_Name b) (estimateStateBlockTokens b E)).
Proof.
  intros H. pose proof (removelast_prefix _ _ H). split; [by split|unfold slice_total|unfold block_count|done|done]; rsimpl.
  - rewrite (removelast_total _ _ _ H). cbn [bd_EstimatedTokens token_decision]. lia.
  - rewrite (removelast_length _ _ H). lia.
Qed.

Lemma trimmed_memory E s b :
  last (cs_MemoryBlocks s) = Some b -> trimmed E s (trim_memory s E b).1.1 (trim_memory s E b).1.2.
Proof.
  intros H. pose proof (removelast_prefix _ _ H). unfold trim_memory. cbn [fst snd].
  split; [by split|unfold slice_total|unfold block_count|done|by intros _]; rsimpl.
  - rewrite (removelast_total _ _ _ H). cbn [bd_EstimatedTokens token_decision]. lia.
  - rewrite (removelast_length _ _ H). lia.
Qed.

Lemma trimmed_evidence E s b :
  last (cs_EvidenceBlocks s) = Some b ->
  trimmed E s (s <| cs_EvidenceBlocks := removelast (cs_EvidenceBlocks s) |>
                 <| cs_EvidenceIDs := collectEvidenceIDs (removelast (cs_EvidenceBlocks s)) |>)
    (token_decision ContextBlockSourceEvidence (eb_EvidenceID b) (estimateEvidenceBlockTokens b E)).
Proof.
  intros H. pose proof (removelast_prefix _ _ H). split; [by split|unfold slice_total|unfold block_count|by intros _|done]; rsimpl.
  - rewrite (removelast_total _ _ _ H). cbn [bd_EstimatedTokens token_decision]. lia.
  - rewrite (removelast_length _ _ H). lia.
Qed.

Lemma if_last {A} (c : bool) (l : list A) b : (if c then last l else None) = Some b -> last l = Some b.
Proof. by destruct c. Qed.

Lemma trim_spec s strategy E :
  match trim s strategy E with
  | Some (s', d, n) => trimmed E s s' d
  | None => exhausted s
  end.
Proof.
  unfold trim. destruct (last (cs_SkillBlocks s)) as [b|] eqn:Hsk; [by apply trimmed_skill|].
  destruct (if strategy != CompactionStrategyEvidenceFocused then last (cs_MemoryBlocks s) else None) as [b|] eqn:Hm1.
  { apply if_last in Hm1. by apply (trimmed_memory E s b). }
  destruct (if (1 <? length (cs_StateBlocks s))%nat then last (cs_StateBlocks s) else None) as [b|] eqn:Hst.
  { apply if_last in Hst. by apply trimmed_state. }
  destruct (if (1 <? length (cs_EvidenceBlocks s))%nat then last (cs_EvidenceBlocks s) else None) as [b|] eqn:Hev.
  { apply if_last in Hev. by apply trimmed_evidence. }
  destruct (last (cs_MemoryBlocks s)) as [b|] eqn:Hm2; [by apply (trimmed_memory E s b)|].
  apply last_None in Hsk, Hm2. split_and!; [done|done| |].
  - destruct (Nat.ltb_spec 1 (length (cs_StateBlocks s))); [|lia]. rewrite last_None in Hst. rewrite Hst in *. cbn in *. lia.
  - destruct (Nat.ltb_spec 1 (length (cs_EvidenceBlocks s))); [|lia]. rewrite last_None in Hev. rewrite Hev in *. cbn in *. lia.
Qed.

(** ** The loop *)

Definition excluded_tokens (l : list ContextBlockDecision) : Z := total bd_EstimatedTokens l.

(** [s'] is what the loop leaves of [s], and [ex] what it dropped, in order. *)
Record fitted (E : TokenEstimator) (target : Z) (s s' : ContextSlice) (ex : list ContextBlockDecision) : Prop := {
  ft_shrinks : shrinks s' s;
  ft_tokens : slice_total E s = slice_total E s' + excluded_tokens ex;
  ft_count : (block_count s = block_count s' + length ex)%nat;
  ft_fits : slice_total E s' <= target \/ exhausted s';
  (** no block was dropped from a slice that fitted *)
  ft_needed : forall ex1 d ex2, ex = ex1 ++ d :: ex2 -> target < slice_total E s' + excluded_tokens (d :: ex2);
  ft_evidence : evidence_in_sync s -> evidence_in_sync s';
  ft_memory : memory_in_sync s -> memory_in_sync s'
}.

Lemma exclude_loop_spec fuel s strategy target E ex0 notes :
  (block_count s < fuel)%nat ->
  exists s' ex notes', exclude_loop fuel s strategy target E ex0 notes = Ok (s', ex0 ++ ex, notes') /\
    fitted E target s s' ex.
Proof.
  revert s ex0 notes. induction fuel as [|fuel IH]; intros s ex0 notes Hf; [lia|].
  cbn [exclude_loop]. rewrite estimateSliceTokens_total.
  assert (Hstop : slice_total E s <= target \/ exhausted s -> fitted E target s s []).
  { intros H. split; [done|cbn; lia|cbn; lia|done| |done|done]. intros ex1 d ex2 Heq. by destruct ex1. }
  destruct (Z.ltb_spec target (slice_total E s)) as [Hlt|Hge].
  2: { exists s, [], notes. rewrite app_nil_r. split; [done|]. apply Hstop. by left. }
  pose proof (trim_spec s strategy E) as Ht. destruct (trim s strategy E) as [[[s1 d] n]|].
  2: { exists s, [], (notes ++ [exhausted_note]). rewrite app_nil_r. split; [done|]. apply Hstop. by right. }
  destruct Ht as [H1 H2 H3 H4 H5].
  destruct (IH s1 (ex0 ++ [d]) (notes ++ [n])) as (s' & ex & notes' & Heq & [G1 G2 G7 G3 G4 G5 G6]); [lia|].
  exists s', (d :: ex), notes'. rewrite Heq, <- app_assoc. split; [done|]. split; [by etrans| |cbn; lia|done| |auto|auto].
  - unfold excluded_tokens in *. cbn. unfold total in *. lia.
  - intros ex1 d' ex2 Hex. destruct ex1 as [|d1 ex1].
    + injection Hex as <- <-. unfold excluded_tokens in *. cbn. unfold total in *. lia.
    + injection Hex as <- Hex. by apply (G4 ex1).
Qed.

Lemma excludeBlocksToFitBudget_spec s strategy target E :
  exists s' ex notes, excludeBlocksToFitBudget s strategy target E = Ok (s', ex, notes) /\ fitted E target s s' ex.
Proof. apply (exclude_loop_spec (S (block_count s)) s strategy target E [] []). lia. Qed.

(** ** The character budget *)

Definition block_bytes (b : InjectedStateBlock) : Z := Z.of_nat (String.length (ib_DataJSON b)).

Lemma total_nonneg {A} (f : A -> Z) l : (forall x, 0 <= f x) -> 0 <= total f l.
Proof. intros H. induction l as [|x l IH]; cbn; [lia|]. specialize (H x). unfold total in IH. lia. Qed.

(** The state blocks that stay are the longest prefix whose bytes fit. *)
Lemma char_budget_spec budget E blocks :
  exists rest,
    blocks = ct_kept (char_budget_trim budget E blocks) ++ rest /\
    (0 <= budget -> total block_bytes (ct_kept (char_budget_trim budget E blocks)) <= budget) /\
    (forall b rest', rest = b :: rest' ->
       budget < total block_bytes (ct_kept (char_budget_trim budget E blocks)) + block_bytes b) /\
    excluded_tokens (ct_excluded (char_budget_trim budget E blocks)) =
      total (fun b => estimateStateBlockTokens b E) rest /\
    length (ct_excluded (char_budget_trim budget E blocks)) = length rest.
Proof.
  assert (Hnn : forall b, 0 <= block_bytes b) by (intros b; unfold block_bytes; lia).
  cut (exists rest,
    blocks = ct_kept (char_budget_trim budget E blocks) ++ rest /\
    (0 <= budget -> total block_bytes (ct_kept (char_budget_trim budget E blocks)) <= budget) /\
    (forall b rest', rest = b :: rest' ->
       budget < total block_bytes (ct_kept (char_budget_trim budget E blocks)) + block_bytes b) /\
    excluded_tokens (ct_excluded (char_budget_trim budget E blocks)) =
      total (fun b => estimateStateBlockTokens b E) rest /\
    length (ct_excluded (char_budget_trim budget E blocks)) = length rest /\
    ct_total (char_budget_trim budget E blocks) = total block_bytes blocks).
  { naive_solver. }
  unfold char_budget_trim.
  induction blocks as [|b blocks IH] using rev_ind.
  { exists []. cbn. split_and!; done || lia. }
  rewrite !fold_left_app. cbn [fold_left]. destruct IH as (rest & H1 & H2 & H3 & H4 & H6 & H5).
  set (acc := fold_left (trim_chars budget E) blocks _) in *.
  assert (Hstep : exists d n, bd_EstimatedTokens d = estimateStateBlockTokens b E /\ trim_chars budget E acc b =
    if budget <? total block_bytes blocks + block_bytes b
    then mkCharTrim (total block_bytes blocks + block_bytes b) (ct_kept acc) (ct_excluded acc ++ [d]) n
    else mkCharTrim (total block_bytes blocks + block_bytes b) (ct_kept acc ++ [b]) (ct_excluded acc) n).
  { unfold trim_chars. rewrite H5. fold (block_bytes b). destruct (budget <? _).
    - eexists _, _. split; [|reflexivity]. done.
    - exists (token_decision ContextBlockSourceState "" (estimateStateBlockTokens b E)). eexists. split; [|reflexivity]. done. }
  destruct Hstep as (d & n & Hd & Hstep). rewrite Hstep. clear Hstep.
  destruct (Z.ltb_spec budget (total block_bytes blocks + block_bytes b)) as [Hlt|Hge];
    cbn [ct_kept ct_excluded ct_total].
  - exists (rest ++ [b]). split_and!.
    + by rewrite app_assoc, <- H1.
    + done.
    + intros b' rest' Hr. destruct rest as [|b0 rest].
      * injection Hr as <- _. rewrite app_nil_r in H1. by rewrite <- H1.
      * injection Hr as <- _. by apply (H3 b0 rest).
    + unfold excluded_tokens in *. rewrite !total_app, H4. cbn. lia.
    + rewrite !length_app, H6. done.
    + rewrite total_app. cbn. lia.
  - assert (Hrest : rest = []).
    { destruct rest as [|b0 rest]; [done|]. specialize (H3 b0 rest eq_refl).
      assert (Ht : total block_bytes blocks = total block_bytes (ct_kept acc) + (block_bytes b0 + total block_bytes rest)).
      { rewrite H1 at 1. by rewrite total_app. }
      pose proof (total_nonneg block_bytes rest Hnn). specialize (Hnn b). lia. }
    subst rest. rewrite app_nil_r in H1. exists []. rewrite app_nil_r. split_and!.
    + by rewrite <- H1.
    + intros _. rewrite <- H1, total_snoc. lia.
    + done.
    + exact H4.
    + exact H6.
    + rewrite total_snoc. lia.
Qed.

(** ** [Compact] *)

Lemma pretrim_shrinks strategy s : shrinks (pretrim strategy s) s.
Proof.
  unfold pretrim. cbv zeta.
  assert (H1 : forall c : bool, shrinks (if c then s <| cs_MemoryBlocks := take 1 (cs_MemoryBlocks s) |> else s) s).
  { intros []; [|done]. split; try done. rsimpl. apply prefix_take. }
  assert (H2 : forall (c : bool) t, shrinks t s ->
    shrinks (if c then t <| cs_StateBlocks := take 3 (cs_StateBlocks t) |> else t) s).
  { intros [] t Ht; [|done]. etrans; [|exact Ht]. split; try done. rsimpl. apply prefix_take. }
  apply H2, H1.
Qed.

Lemma pretrim_sync strategy s :
  (evidence_in_sync s -> evidence_in_sync (pretrim strategy s)) /\
  (strategy <> CompactionStrategyVerificationLean -> memory_in_sync s -> memory_in_sync (pretrim strategy s)).
Proof.
  unfold pretrim, evidence_in_sync, memory_in_sync. cbv zeta. split.
  - intros H. by repeat case_match.
  - intros Hs H. rewrite (bool_decide_eq_false_2 _ Hs). cbn [andb]. by repeat case_match.
Qed.

(** A slice as the budgets get it: the verification-lean strategy keeps one
    memory block and the evidence-focused one three state blocks, whatever the
    budget is. *)
Definition before_budget (strategy : CompactionStrategy) (s : ContextSlice) : ContextSlice :=
  match strategy with
  | CompactionStrategyVerificationLean => s <| cs_MemoryBlocks := take 1 (cs_MemoryBlocks s) |>
  | CompactionStrategyEvidenceFocused => s <| cs_StateBlocks := take 3 (cs_StateBlocks s) |>
  | _ => s
  end.

Lemma pretrim_spec strategy s : pretrim strategy s = before_budget strategy s.
Proof.
  unfold pretrim, before_budget. cbv zeta.
  rewrite !bool_decide_decide.
  destruct strategy; repeat (case_decide; [try discriminate|try done]); cbn [andb]; try done.
  - destruct (Nat.ltb_spec 3 (length (cs_StateBlocks s))) as [|Hle]; [done|]. rewrite take_ge by done. by destruct s.
  - destruct (Nat.ltb_spec 1 (length (cs_MemoryBlocks s))) as [|Hle]; [done|]. rewrite take_ge by done. by destruct s.
Qed.

(** What [fit_budget] leaves: the token loop, the characters, or the slice. *)
Record budgeted (E : TokenEstimator) (target : Z) (s s' : ContextSlice) (ex : list ContextBlockDecision) : Prop := {
  bu_shrinks : shrinks s' s;
  bu_tokens : slice_total E s = slice_total E s' + excluded_tokens ex;
  bu_count : (block_count s = block_count s' + length ex)%nat;
  bu_fits : 0 < target -> slice_total E s' <= target \/ exhausted s';
  bu_needed : 0 < target ->
    forall ex1 d ex2, ex = ex1 ++ d :: ex2 -> target < slice_total E s' + excluded_tokens (d :: ex2);
  bu_chars : target = 0 -> 0 < cb_MaxCharacters (cs_Budget s) ->
    total block_bytes (cs_StateBlocks s') <= cb_MaxCharacters (cs_Budget s);
  bu_evidence : evidence_in_sync s -> evidence_in_sync s';
  bu_memory : memory_in_sync s -> memory_in_sync s'
}.

Lemma fit_budget_spec strategy target E s :
  0 <= target ->
  exists s' ex notes, fit_budget strategy target E s = Ok (s', ex, notes) /\ budgeted E target s s' ex.
Proof.
  intros Ht. unfold fit_budget. rewrite estimateSliceTokens_total.
  destruct (Z.ltb_spec 0 target) as [Hpos|Hz]; cbn [andb].
  - rewrite (proj2 (Z.eqb_neq target 0)) by lia. cbn [andb].
    destruct (Z.ltb_spec target (slice_total E s)) as [Hlt|Hge].
    + destruct (excludeBlocksToFitBudget_spec s strategy target E) as (s' & ex & notes & -> & []).
      exists s', ex, notes. split; [done|]. split; auto; lia.
    + exists s, [], []. split; [done|]. split; [done|cbn; lia|cbn; lia|by left| |lia|done|done]. intros _ [|] ? ? ?; done.
  - assert (target = 0) as -> by lia. cbn [andb Z.eqb].
    destruct (Z.ltb_spec 0 (cb_MaxCharacters (cs_Budget s))) as [Hc|Hc].
    + destruct (char_budget_spec (cb_MaxCharacters (cs_Budget s)) E (cs_StateBlocks s)) as (rest & H1 & H2 & H3 & H4 & H6).
      set (acc := char_budget_trim _ E _) in *. exists (s <| cs_StateBlocks := ct_kept acc |>), (ct_excluded acc), (ct_notes acc).
      split; [done|]. split; try (by intros; lia); try done.
      * split; try done. rsimpl. exists rest. exact H1.
      * unfold slice_total. rsimpl. rewrite H4, H1 at 1. rewrite total_app. lia.
      * unfold block_count. rsimpl. rewrite H6, H1 at 1. rewrite length_app. lia.
      * intros _ _. rsimpl. apply H2. lia.
    + exists s, [], []. split; [done|]. split; try (by intros; lia); try done; cbn; lia.
Qed.

Lemma tokenTarget_nonneg b : 0 <= tokenTarget b.
Proof. unfold tokenTarget. repeat case_match; lia. Qed.

(** The target of a budget: the input tokens less the reserved output, under
    the hard limit, and 0 ("no token budget") when nothing is left. *)
Lemma tokenTarget_spec b :
  in_int64 (cb_MaxInputTokens b) -> in_int64 (cb_ReservedOutputTokens b) ->
  0 <= tokenTarget b /\
  (tokenTarget b = 0 <-> cb_MaxInputTokens b <= 0 \/ cb_MaxInputTokens b <= cb_ReservedOutputTokens b) /\
  (0 < tokenTarget b -> tokenTarget b <= cb_MaxInputTokens b /\
     tokenTarget b <= cb_MaxInputTokens b - Z.max 0 (cb_ReservedOutputTokens b) /\
     (0 < cb_HardTokenLimit b -> tokenTarget b <= cb_HardTokenLimit b)).
Proof.
  intros H1 H2. unfold in_int64 in *. unfold tokenTarget.
  assert (Hw : 0 < cb_MaxInputTokens b -> 0 < cb_ReservedOutputTokens b ->
    wrap64 (cb_MaxInputTokens b - cb_ReservedOutputTokens b) = cb_MaxInputTokens b - cb_ReservedOutputTokens b).
  { intros. apply wrap64_id. unfold in_int64. lia. }
  destruct (Z.leb_spec (cb_MaxInputTokens b) 0); [split_and!; [lia| |lia]; tauto|].
  destruct (Z.ltb_spec 0 (cb_ReservedOutputTokens b)); [rewrite Hw by done|];
    destruct (Z.ltb_spec 0 (cb_HardTokenLimit b)); cbn [andb];
    repeat case_match; rewrite ?Z.ltb_lt, ?Z.ltb_ge in *; lia.
Qed.

Lemma Compact_fits (estimator : option TokenEstimator) (slice : ContextSlice) (strategy : CompactionStrategy) :
  known_strategy strategy = true -> strategy <> CompactionStrategyNone ->
  let E := default HeuristicTokenEstimator estimator in
  let target := tokenTarget (cs_Budget slice) in
  let given := before_budget strategy slice in
  exists s', Compact estimator slice strategy = Ok s' /\ shrinks given slice /\ shrinks s' given /\
    (block_count given = block_count s' + length (bg_Excluded (cs_BudgetDecision s')))%nat /\
    bg_EstimatedInputTokens (cs_BudgetDecision s') = estimateSliceTokens s' E /\
    cc_FinalTokenEstimate (cs_Compaction s') = estimateSliceTokens s' E /\
    cc_InitialTokenEstimate (cs_Compaction s') = estimateSliceTokens given E /\
    estimateSliceTokens given E = estimateSliceTokens s' E + excluded_tokens (bg_Excluded (cs_BudgetDecision s')) /\
    (0 < target -> estimateSliceTokens s' E <= target \/ exhausted s') /\
    (0 < target -> forall ex1 d ex2, bg_Excluded (cs_BudgetDecision s') = ex1 ++ d :: ex2 ->
       target < estimateSliceTokens s' E + excluded_tokens (d :: ex2)) /\
    (target = 0 -> 0 < cb_MaxCharacters (cs_Budget slice) ->
       total block_bytes (cs_StateBlocks s') <= cb_MaxCharacters (cs_Budget slice)) /\
    (evidence_in_sync slice -> evidence_in_sync s') /\
    (strategy <> CompactionStrategyVerificationLean -> memory_in_sync slice -> memory_in_sync s').
Proof.
  intros Hk Hn E target given. unfold given. rewrite <- !pretrim_spec. pose proof (pretrim_shrinks strategy slice) as Hp.
  destruct (fit_budget_spec strategy target E (pretrim strategy slice) (tokenTarget_nonneg _))
    as (s1 & ex & notes & Hfit & [B1 B2 B8 B3 B4 B5 B6 B7]).
  destruct (pretrim_sync strategy slice) as [Hev Hmem]. pose proof (sh_budget _ _ Hp) as Hb.
  unfold Compact. rewrite (bool_decide_eq_false_2 _ Hn), Hk. cbn [negb]. cbv zeta. rewrite Hb.
  fold E. fold target. rewrite Hfit. eexists. split; [reflexivity|].
  set (s' := s1 <| cs_BudgetDecision := _ |> <| cs_Compaction := _ |> <| cs_Compacted := _ |>).
  assert (Hs : estimateSliceTokens s' E = slice_total E s1) by (rewrite estimateSliceTokens_total; done).
  rewrite Hs, !estimateSliceTokens_total in *. rewrite Hb in B5.
  change (bg_EstimatedInputTokens (cs_BudgetDecision s')) with (estimateSliceTokens s1 E).
  change (cc_FinalTokenEstimate (cs_Compaction s')) with (estimateSliceTokens s1 E).
  change (cc_InitialTokenEstimate (cs_Compaction s')) with (estimateSliceTokens (pretrim strategy slice) E).
  change (bg_Excluded (cs_BudgetDecision s')) with ex. rewrite !estimateSliceTokens_total.
  split; [done|]. split; [transitivity s1; [by split|done]|]. split; [exact B8|]. split_and!; auto.
Qed.

(** C34: for every strategy but "none", compaction ends.  First, and whatever
    the budget, the verification-lean strategy keeps only the first memory
    block and the evidence-focused one only the first three state blocks;
    these blocks are in no report.  From what is left ([before_budget]) blocks
    are dropped at the ends of the lists, each with one entry among the
    excluded ones, whose tokens are the difference between the initial and
    the final estimate.  With a token target the final estimate fits it unless
    all skill and memory blocks are gone and at most one state and one
    evidence block are left, and every excluded block was needed: before it
    was dropped the slice was over the target.  Without one, the state blocks
    fit the character budget if there is one.  The listed evidence IDs stay
    those of the blocks, and so do the memory IDs except under the
    verification-lean strategy. *)
Theorem compaction_spec (estimator : option TokenEstimator) (slice : ContextSlice) (strategy : CompactionStrategy) :
  known_strategy strategy = true -> strategy <> CompactionStrategyNone ->
  let E := default HeuristicTokenEstimator estimator in
  let target := tokenTarget (cs_Budget slice) in
  let given := before_budget strategy slice in
  exists s', Compact estimator slice strategy = Ok s' /\ shrinks given slice /\ shrinks s' given /\
    (block_count given = block_count s' + length (bg_Excluded (cs_BudgetDecision s')))%nat /\
    bg_EstimatedInputTokens (cs_BudgetDecision s') = estimateSliceTokens s' E /\
    cc_FinalTokenEstimate (cs_Compaction s') = estimateSliceTokens s' E /\
    cc_InitialTokenEstimate (cs_Compaction s') = estimateSliceTokens given E /\
    estimateSliceTokens given E = estimateSliceTokens s' E + excluded_tokens (bg_Excluded (cs_BudgetDecision s')) /\
    (0 < target -> estimateSliceTokens s' E <= target \/ exhausted s') /\
    (0 < target -> forall ex1 d ex2, bg_Excluded (cs_BudgetDecision s') = ex1 ++ d :: ex2 ->
       target < estimateSliceTokens s' E + excluded_tokens (d :: ex2)) /\
    (target = 0 -> 0 < cb_MaxCharacters (cs_Budget slice) ->
       total block_bytes (cs_StateBlocks s') <= cb_MaxCharacters (cs_Budget slice)) /\
    (evidence_in_sync slice -> evidence_in_sync s') /\
    (strategy <> CompactionStrategyVerificationLean -> memory_in_sync slice -> memory_in_sync s').
Proof. apply Compact_fits. Qed.

(** A slice with two memory blocks that fits its budget. *)
Definition sample_memory_block (id : string) : MemoryBlock :=
  zero <| mb_MemoryID := id |> <| mb_Summary := "decision on debt pressure" |>.

Definition sample_slice : ContextSlice :=
  new_slice ContextViewVerification "t1" "review" (DefaultBudgetForView ContextViewVerification) []
    [sample_memory_block "m1"; sample_memory_block "m2"] [].

Lemma compaction_spec_witness :
  exists s', Compact None sample_slice CompactionStrategyVerificationLean = Ok s' /\
    (length (cs_MemoryBlocks s') <= 1)%nat.
Proof.
  destruct (compaction_spec None sample_slice CompactionStrategyVerificationLean) as (s' & H1 & _ & [_ H2 _ _ _ _ _ _] & _).
  - reflexivity.
  - discriminate.
  - exists s'. split; [exact H1|]. apply prefix_length in H2. exact H2.
Defined.

(** The verification-lean strategy keeps one memory block, but lists the IDs
    of all, and does not report the others as excluded. *)
Lemma lean_lists_dropped_memories :
  exists s', Compact None sample_slice CompactionStrategyVerificationLean = Ok s' /\
    collectMemoryIDs (cs_MemoryBlocks s') = ["m1"] /\ cs_MemoryIDs s' = ["m1"; "m2"] /\
    bg_Excluded (cs_BudgetDecision s') = [].
Proof. eexists. split; [vm_compute; reflexivity|]. split_and!; reflexivity. Qed.

(** ** Assembled slices *)

Lemma append_until_spec {A B} max (f : A -> B) acc l :
  max <= 0 \/ Z.of_nat (length acc) < max ->
  append_until max f acc l =
    acc ++ (f <$> (if 0 <? max then take (Z.to_nat max - length acc) l else l)).
Proof.
  revert acc. induction l as [|x l IH]; intros acc Hacc; cbn [append_until].
  { rewrite take_nil. destruct (0 <? max); cbn; by rewrite app_nil_r. }
  rewrite length_app. cbn [length]. destruct (Z.ltb_spec 0 max) as [Hpos|Hneg]; cbn [andb].
  - replace (Z.to_nat max - length acc)%nat with (S (Z.to_nat max - S (length acc))) by lia. cbn [take fmap list_fmap].
    destruct (Z.leb_spec max (Z.of_nat (length acc + 1))) as [Hle|Hgt].
    + replace (Z.to_nat max - S (length acc))%nat with 0%nat by lia. done.
    + rewrite IH by (rewrite length_app; cbn; lia). rewrite length_app. cbn [length].
      rewrite <- app_assoc. cbn. do 3 f_equal. f_equal. lia.
  - rewrite IH by lia. by rewrite <- app_assoc.
Qed.

Lemma append_until_nil {A B} max (f : A -> B) l :
  append_until max f [] l = f <$> (if 0 <? max then take (Z.to_nat max) l else l).
Proof. rewrite append_until_spec; [by rewrite Nat.sub_0_r|]. cbn. lia. Qed.

Lemma append_until_length {A B} max (f : A -> B) l :
  0 < max -> Z.of_nat (length (append_until max f [] l)) <= max.
Proof.
  intros H. rewrite append_until_nil, (proj2 (Z.ltb_lt _ _) H), length_fmap, length_take. lia.
Qed.

Lemma make_slice_ok {A} size cap (rest : outcome error A) :
  0 <= cap <= 2 ^ 40 -> 0 < size <= 2 ^ 8 -> make_slice size cap rest = rest.
Proof.
  intros Hc Hs. unfold make_slice. destruct (Z.ltb_spec cap 0); [lia|]. destruct (Z.ltb_spec (2 ^ 48) (size * cap)); [nia|done].
Qed.

Lemma make_slice_negative {A} size cap (rest : outcome error A) :
  cap < 0 -> make_slice size cap rest = Panic "makeslice: cap out of range".
Proof. intros Hc. unfold make_slice. by destruct (Z.ltb_spec cap 0); [|lia]. Qed.

Section assembled.
Context `{JE : StateEncoder}.

(** The encoder never fails: the numbers of the state are finite. *)
Definition encodes : Prop := forall part, exists payload, marshal_state part = inr payload.

Lemma state_blocks_spec currentState max acc items :
  encodes -> max <= 0 \/ Z.of_nat (length acc) < max ->
  exists blocks, state_blocks currentState max acc items = Ok blocks /\
    (0 < max -> Z.of_nat (length blocks) <= max).
Proof.
  intros Henc. revert acc. induction items as [|[[name part] reason] items IH]; intros acc Hacc; cbn [state_blocks].
  { exists acc. split; [done|lia]. }
  destruct (Henc part) as [payload ->]. rewrite length_app. cbn [length].
  destruct ((0 <? max) && (max <=? Z.of_nat (length acc + 1))) eqn:E.
  - eexists. split; [done|]. rewrite length_app. cbn [length]. intros Hm. lia.
  - apply IH. rewrite length_app. cbn [length]. apply andb_false_iff in E.
    rewrite Z.ltb_ge, Z.leb_gt in E. lia.
Qed.

Lemma selectStateBlocks_spec currentState view budget :
  encodes -> validContextView view = true -> 0 <= cb_MaxStateBlocks budget <= 2 ^ 40 ->
  exists blocks, selectStateBlocks currentState view budget = Ok blocks /\
    (0 < cb_MaxStateBlocks budget -> Z.of_nat (length blocks) <= cb_MaxStateBlocks budget).
Proof.
  intros Henc Hv Hmax. unfold selectStateBlocks. rewrite make_slice_ok by lia.
  destruct (candidates currentState view) as [items|] eqn:E; [|by destruct view].
  apply state_blocks_spec; [done|]. cbn. lia.
Qed.

(** The maxima of a budget. *)
Definition maxima (b : ContextBudget) : list Z := [cb_MaxStateBlocks b; cb_MaxMemoryBlocks b; cb_MaxEvidenceItems b].

Lemma assembling_panics budget compactor estimator spec currentState memories evidence view :
  encodes -> validContextView view = true ->
  let b := resolveBudget budget view in
  Forall (fun n => n <= 2 ^ 40) (maxima b) -> Exists (fun n => n < 0) (maxima b) ->
  exists why, Assemble (mkContextAssembler budget compactor estimator) spec currentState memories evidence view = Panic why.
Proof.
  intros Henc Hv b Hle Hneg. unfold maxima in Hle, Hneg. rewrite !Forall_cons in Hle. rewrite !Exists_cons, Exists_nil in Hneg.
  unfold Assemble. cbn [ca_Budget]. fold b. eexists.
  destruct (Z.lt_ge_cases (cb_MaxStateBlocks b) 0) as [H1|H1].
  { unfold selectStateBlocks. by rewrite make_slice_negative. }
  destruct (selectStateBlocks_spec currentState view b Henc Hv) as (blocks & -> & _); [lia|]. cbn [obind].
  unfold selectMemoryBlocks, selectEvidenceBlocks.
  destruct (Z.lt_ge_cases (cb_MaxMemoryBlocks b) 0) as [H2|H2]; [by rewrite make_slice_negative|].
  rewrite make_slice_ok by lia. cbn [obind]. by rewrite make_slice_negative by lia.
Qed.

End assembled.

Definition constant_encoder : StateEncoder := {| marshal_state _ := inr "{}" |}.

