(* ===== verification/Memory.v ===== *)
(** * The memory package (internal/memory)

    Three parts: what a memory is and how memories compare; the store, the
    write gate and the retrievers; embeddings, semantic search and the
    indexer. *)

From Stdlib Require Import Ascii.
From S2P Require Export AgentTypes.
#[local] Open Scope Z_scope.

(** * Memory (internal/memory)

    Durable memories: validation, conflict and supersedence detection, the
    write gate of [DefaultMemoryWriter], and hybrid retrieval: two retrievers,
    reciprocal rank fusion, reranking, rejection and top-K selection.
    Embedding providers, the semantic backend and the query store of a
    database are parameters. *)

(** ** Validation (validation.go) *)

Definition blank_text (s : string) : bool := TrimSpace s == "".

Definition validMemoryKind (kind : MemoryKind) : bool :=
  match kind with MemoryKindOther _ => false | _ => true end.

Definition MemorySource_Validate (s : MemorySource) : list error :=
  err_if (bool_decide (ms_EvidenceIDs s = []) && (ms_TaskID s == "") && (ms_WorkflowID s == ""))
    "memory source requires at least one provenance reference".

Definition MemoryConfidence_Validate (c : MemoryConfidence) : list error :=
  if f_ltb (mc_Score c) f_zero || f_ltb (f_of_int 1) (mc_Score c) then
    [PlainError "memory confidence must be within [0,1]"]
  else err_if (blank_text (mc_Rationale c)) "memory confidence rationale is required".

Definition fact_errors (i : nat) (fact : MemoryFact) : list error :=
  err_if (blank_text (mf_Key fact)) ("memory fact " +:+ Itoa (Z.of_nat i) +:+ " key is required") ++
  err_if (blank_text (mf_Value fact)) ("memory fact " +:+ Itoa (Z.of_nat i) +:+ " value is required").

Definition MemoryRecord_Validate (r : MemoryRecord) : option error :=
  errors_Join (
    err_if (blank_text (mm_ID r)) "memory record id is required" ++
    err_if (negb (validMemoryKind (mm_Kind r))) ("invalid memory kind " +:+ Quote (MemoryKind_string (mm_Kind r))) ++
    err_if (blank_text (mm_Summary r)) "memory summary is required" ++
    err_if (bool_decide (length (mm_Facts r) = 0%nat)) "memory must contain at least one fact" ++
    concat (imap fact_errors (mm_Facts r)) ++
    MemorySource_Validate (mm_Source r) ++
    MemoryConfidence_Validate (mm_Confidence r) ++
    err_if (negb (IsZero (mm_UpdatedAt r)) && negb (IsZero (mm_CreatedAt r)) && Before (mm_UpdatedAt r) (mm_CreatedAt r))
      "memory updated_at cannot be before created_at" ++
    concat ((fun s => err_if (su_MemoryID s == mm_ID r) "memory record cannot supersede itself") <$> mm_Supersedes r) ++
    concat ((fun c => err_if (cr_MemoryID c == mm_ID r) "memory record cannot conflict with itself") <$> mm_Conflicts r)).

(** ** Conflicts (conflict.go) *)

(** Some fact of the candidate has the key of a fact of the record and another value. *)
Definition facts_conflict (candidate record : MemoryRecord) : bool :=
  existsb (fun fact => existsb (fun existing =>
    (mf_Key fact == mf_Key existing) && (mf_Value fact != mf_Value existing)) (mm_Facts record)) (mm_Facts candidate).

Definition other_record (candidate record : MemoryRecord) : bool :=
  negb ((mm_ID record == mm_ID candidate) || (mm_Kind record != mm_Kind candidate)).

(** [dedupe...Refs]: by the key [id::reason]. *)
Fixpoint dedupe_refs {A} (id reason : A -> string) (seen : list string) (items : list A) : list A :=
  match items with
  | [] => []
  | item :: items =>
      let key := id item +:+ "::" +:+ reason item in
      if (id item == "") || bool_decide (key ∈ seen) then dedupe_refs id reason seen items
      else item :: dedupe_refs id reason (key :: seen) items
  end.

Definition dedupeConflictRefs : list ConflictRef -> list ConflictRef := dedupe_refs cr_MemoryID cr_Reason [].
Definition dedupeSupersedesRefs : list SupersedesRef -> list SupersedesRef := dedupe_refs su_MemoryID su_Reason [].

Definition conflict_ref (record : MemoryRecord) : ConflictRef :=
  {| cr_MemoryID := mm_ID record; cr_Reason := "same fact key with different value" |}.

(** [DefaultConflictDetector.Detect] *)
Definition DetectConflicts (existing : list MemoryRecord) (candidate : MemoryRecord) : list ConflictRef :=
  dedupeConflictRefs (fold_left (fun conflicts record =>
    if negb (other_record candidate record) then conflicts
    else if facts_conflict candidate record then conflicts ++ [conflict_ref record] else conflicts) existing []).

(** [strings.EqualFold], on ASCII letters. *)
Definition EqualFold (a b : string) : bool := ToLower a == ToLower b.

Definition supersedes_ref (record : MemoryRecord) : SupersedesRef :=
  {| su_MemoryID := mm_ID record; su_Reason := "same summary updated with newer evidence" |}.

(** [DefaultSupersedenceDetector.Detect] *)
Definition DetectSupersedes (existing : list MemoryRecord) (candidate : MemoryRecord) : list SupersedesRef :=
  dedupeSupersedesRefs (fold_left (fun supersedes record =>
    if negb (other_record candidate record) then supersedes
    else if EqualFold (TrimSpace (mm_Summary record)) (TrimSpace (mm_Summary candidate)) &&
            After (mm_UpdatedAt candidate) (mm_UpdatedAt record)
    then supersedes ++ [supersedes_ref record] else supersedes) existing []).

(** ** Tokens (implementation.go) *)

Definition fallbackString (value fallback : string) : string := if blank_text value then fallback else value.

Definition separators : list ascii :=
  [","%char; "."%char; ":"%char; ";"%char; "010"%char; "009"%char; "/"%char; "_"%char].

Definition normalizeTokens (text : string) : list string := Fields (replace_chars separators " " (ToLower text)).

Definition tokenizeForIndexing (text : string) : list string := normalizeTokens text.

Definition dedupeTokens (items : list string) : list string := unique_from [] (TrimSpace <$> items).

Definition tokenizeForQuery (text : string) : list string := dedupeTokens (normalizeTokens text).

Definition flattenFacts (facts : list MemoryFact) : string :=
  Join ((fun fact => mf_Key fact +:+ " " +:+ mf_Value fact) <$> facts) " ".

Definition semanticText (record : MemoryRecord) : string := mm_Summary record +:+ " " +:+ flattenFacts (mm_Facts record).

Definition queryTokens (query : RetrievalQuery) : list string :=
  dedupeTokens (rq_LexicalTerms query ++ tokenizeForQuery (rq_Text query)).

(** [math.Round(value*scale)/scale] *)
Definition roundTo (value : float64) (precision : Z) : float64 :=
  let scale := f_of_int (10 ^ precision) in
  f_div (f_round (f_mul value scale)) scale.

Definition maxInt (left right : Z) : Z := if right <? left then left else right.

Definition matching (tokens : list string) (record : MemoryRecord) : list string :=
  filter (fun token => Contains (ToLower (semanticText record)) token = true) tokens.

Definition lexicalScore (tokens : list string) (record : MemoryRecord) : float64 :=
  let matches := Z.of_nat (length (matching tokens record)) in
  if matches =? 0 then f_zero
  else roundTo (f_div (f_of_int matches) (f_of_int (maxInt (Z.of_nat (length tokens)) 1))) 4.

Definition matchedTerms (tokens : list string) (record : MemoryRecord) : list string :=
  dedupeTokens (matching tokens record).

Definition containsAllTokens (text : string) (tokens : list string) : bool :=
  negb (bool_decide (tokens = [])) && forallb (Contains text) tokens.

Definition tokenFrequency (text : string) : gmap string Z :=
  fold_left (fun freq token => <[token := (default 0 (freq !! token) + 1)]> freq) (tokenizeForIndexing text) ∅.

(** [sort.Slice] with a strict order, as a comparison. *)
Definition compare_by {A} (less : A -> A -> bool) (a b : A) : Z :=
  if less a b then -1 else if less b a then 1 else 0.

(** By score, best first, then by ID. *)
Definition result_less (a b : RetrievalResult) : bool :=
  if f_eqb (rr_Score a) (rr_Score b) then str_ltb (rr_MemoryID a) (rr_MemoryID b)
  else f_ltb (rr_Score b) (rr_Score a).

Definition sortResults (results : list RetrievalResult) : list RetrievalResult :=
  slices_SortFunc (compare_by result_less) results.

Definition topK {A} (results : list A) (limit : Z) : list A :=
  if (limit <=? 0) || (Z.of_nat (length results) <=? limit) then results else take (Z.to_nat limit) results.

(** ** Fusion *)

Inductive source := SourceLexical | SourceSemantic.
Definition source_string (s : source) : string :=
  match s with SourceLexical => "lexical" | SourceSemantic => "semantic" end.

Definition set_source_score (s : source) (score : float64) (r : RetrievalResult) : RetrievalResult :=
  match s with SourceLexical => r <| rr_LexicalScore := score |> | SourceSemantic => r <| rr_SemanticScore := score |> end.

(** [1.0 / (k + float64(rank+1))] *)
Definition reciprocal_rank (k : float64) (rank : nat) : float64 :=
  f_div (f_of_int 1) (f_add k (f_of_int (Z.of_nat rank + 1))).

Definition fuse_one (k : float64) (s : source) (combined : gmap string RetrievalResult) (rank : nat)
    (result : RetrievalResult) : gmap string RetrievalResult :=
  let score := reciprocal_rank k rank in
  match combined !! rr_MemoryID result with
  | Some existing =>
      let existing := existing <| rr_Score := f_add (rr_Score existing) score |> in
      let existing := existing <| rr_FusedScore := rr_Score existing |>
                               <| rr_Reason := rr_Reason existing +:+ "+" +:+ source_string s |> in
      <[rr_MemoryID result := set_source_score s (rr_Score result) existing]> combined
  | None =>
      let fused := result <| rr_Score := score |> <| rr_FusedScore := score |>
                          <| rr_Reason := "rrf:" +:+ source_string s |> in
      <[rr_MemoryID result := set_source_score s (rr_Score result) fused]> combined
  end.

Fixpoint accumulate (k : float64) (s : source) (rank : nat) (results : list RetrievalResult)
    (combined : gmap string RetrievalResult) : gmap string RetrievalResult :=
  match results with
  | [] => combined
  | result :: results => accumulate k s (S rank) results (fuse_one k s combined rank result)
  end.

(** [ReciprocalRankFusion.Fuse] *)
Definition Fuse `{MO : MapOrder} (K : float64) (lexical semantic : list RetrievalResult) : list RetrievalResult :=
  let k := if f_eqb K f_zero then f_of_int 60 else K in
  sortResults (map_values (accumulate k SourceSemantic 0 semantic (accumulate k SourceLexical 0 lexical ∅))).

(** [BaselineReranker.Rerank] *)
Definition Rerank (query : RetrievalQuery) (results : list RetrievalResult) : list RetrievalResult :=
  let tokens := queryTokens query in
  sortResults ((fun r =>
    if containsAllTokens (ToLower (mm_Summary (rr_Memory r))) tokens
    then r <| rr_Score := f_add (rr_Score r) (f_const 2 10) |> <| rr_Reason := rr_Reason r +:+ "+summary_boost" |>
    else r) <$> results).

(** ** Rejection *)

Record ThresholdRejectionPolicy := mkThresholdRejectionPolicy {
  tr_MinScore : float64;
  tr_DefaultPolicy : RetrievalPolicy;
  tr_Policies : option (gmap string RetrievalPolicy)
}.

Definition default_policy (p : ThresholdRejectionPolicy) (query : RetrievalQuery) : RetrievalPolicy :=
  let policy := tr_DefaultPolicy p in
  let policy := if rpl_Name policy == "" then
      {| rpl_Name := "default";
         rpl_FreshnessPolicy := {|
           fpl_Name := fallbackString (rq_FreshnessPolicy query) "default";
           fpl_EpisodicMaxAge := 90 * 24 * Hour;
           fpl_RejectLowConfidence := true;
           fpl_LowConfidenceFloor := f_const 7 10;
           fpl_MinAcceptedFusedScore := tr_MinScore p |} |}
    else policy in
  if fpl_Name (rpl_FreshnessPolicy policy) == ""
  then policy <| rpl_FreshnessPolicy := rpl_FreshnessPolicy policy <| fpl_Name := fallbackString (rq_FreshnessPolicy query) "default" |> |>
  else policy.

Definition resolvePolicy (p : ThresholdRejectionPolicy) (query : RetrievalQuery) : RetrievalPolicy :=
  match tr_Policies p with
  | Some policies =>
      if rq_RetrievalPolicy query != "" then
        match policies !! rq_RetrievalPolicy query with Some policy => policy | None => default_policy p query end
      else default_policy p query
  | None => default_policy p query
  end.

Definition reject (rule reason : string) (r : RetrievalResult) : RetrievalResult :=
  r <| rr_Rejected := true |> <| rr_RejectionRule := rule |> <| rr_RejectionReason := reason |>.

Definition rejection_threshold (p : ThresholdRejectionPolicy) (policy : FreshnessPolicy) : float64 :=
  let threshold := if f_eqb (tr_MinScore p) f_zero then f_const 15 1000 else tr_MinScore p in
  if f_ltb f_zero (fpl_MinAcceptedFusedScore policy) then fpl_MinAcceptedFusedScore policy else threshold.

(** [if results[i].FusedScore == 0 { results[i].FusedScore = results[i].Score }] *)
Definition with_fused_score (r : RetrievalResult) : RetrievalResult :=
  if f_eqb (rr_FusedScore r) f_zero then r <| rr_FusedScore := rr_Score r |> else r.

(** One turn of the loop of [Reject]. *)
Definition reject_one (threshold : float64) (policy : FreshnessPolicy) (now : time) (r : RetrievalResult) : RetrievalResult :=
  let r := with_fused_score r in
  if f_ltb (rr_FusedScore r) threshold then
    reject "low_fused_score" ("fused score " +:+ Sprintf_f 4 (rr_FusedScore r) +:+ " below threshold " +:+ Sprintf_f 4 threshold) r
  else if fpl_RejectLowConfidence policy && f_ltb (mc_Score (mm_Confidence (rr_Memory r))) (fpl_LowConfidenceFloor policy) then
    reject "low_confidence" ("confidence " +:+ Sprintf_f 2 (mc_Score (mm_Confidence (rr_Memory r))) +:+
      " below floor " +:+ Sprintf_f 2 (fpl_LowConfidenceFloor policy)) r
  else if (0 <? fpl_EpisodicMaxAge policy) && (mm_Kind (rr_Memory r) == MemoryKindEpisodic) &&
          negb (IsZero (mm_UpdatedAt (rr_Memory r))) then
    let age := Sub now (mm_UpdatedAt (rr_Memory r)) in
    let r := r <| rr_FreshnessAgeDays := f_to_int (f_div (f_Hours age) (f_of_int 24)) |> in
    if fpl_EpisodicMaxAge policy <? age then
      reject "stale_episodic" ("episodic memory age " +:+ Duration_String (Duration_Truncate age (24 * Hour)) +:+
        " exceeds policy " +:+ Duration_String (fpl_EpisodicMaxAge policy)) r
    else r
  else r.

(** [ThresholdRejectionPolicy.Reject] *)
Definition Reject (p : ThresholdRejectionPolicy) (now : time) (query : RetrievalQuery) (results : list RetrievalResult)
    : list RetrievalResult :=
  let policy := rpl_FreshnessPolicy (resolvePolicy p query) in
  match reject_one (rejection_threshold p policy) policy now <$> results with
  | [] => [zero <| rr_Rejected := true |> <| rr_RejectionRule := "empty_hit" |>
                <| rr_RejectionReason := "retrieval returned no candidates" |>]
  | results => results
  end.

(** * Operations of the memory package (internal/memory)

    The stateful half of the package: the in-memory store and vector index,
    the write gate of [DefaultMemoryWriter] with its committers, the lexical,
    semantic and hybrid retrievers and the indexer.  A method is a value of
    [MM]: it takes the memory world, and returns it with a value, an error or
    a panic.  Interfaces are records of such operations, as in [World]. *)

(** ** State *)

(** [InMemoryMemoryStore.records], [MemoryAccessAuditLog.entries],
    [InMemoryVectorIndex.vectors], and the readings of the clock. *)
Record MemoryWorld := mkMemoryWorld {
  mem_records : gmap string MemoryRecord;
  mem_entries : list MemoryAccessAudit;
  mem_vectors : gmap string (list float64);
  mem_clock : nat -> time;
  mem_reads : nat
}.
#[export] Instance eta_MemoryWorld : Eta MemoryWorld := eta! mkMemoryWorld <
  mem_records ; mem_entries ; mem_vectors ; mem_clock ; mem_reads >.

Definition memory_world (clock : nat -> time) : MemoryWorld := mkMemoryWorld ∅ [] ∅ clock 0%nat.

Abbreviation MM := (ST error MemoryWorld).

(** [nowUTC(w.Now)], [time.Now().UTC()] *)
Definition nowUTC : MM time :=
  w ← get;
  put (w <| mem_reads := S (mem_reads w) |>);;
  mret (mem_clock w (mem_reads w)).

(** [t.UnixNano()] *)
Definition UnixNano (t : time) : Z := wrap64 (t - 62135596800 * Second).

(** ** Interfaces (interfaces.go) *)

Record MemoryWriteCommitter := { CommitPreparedWrite : PreparedMemoryWrite -> MM DurableWriteResult }.

(** [MemoryStore_committer]: the outcome of the type assertion [Store.(MemoryWriteCommitter)]. *)
Record MemoryStore := {
  MemoryStore_Put : MemoryRecord -> MM unit;
  MemoryStore_Get : string -> MM (option MemoryRecord);
  MemoryStore_List : MM (list MemoryRecord);
  MemoryStore_committer : option MemoryWriteCommitter
}.

Record MemoryQueryStore := {
  LoadByIDs : list string -> MM (list MemoryRecord);
  SearchLexical : list string -> Z -> MM (list LexicalCandidate)
}.

Record MemoryRelationStore := { SaveRelations : string -> MemoryRelations -> MM unit }.
Record MemoryAuditStore := { AppendAccess : MemoryAccessAudit -> MM unit }.
Record MemoryWriteEventStore := { AppendWriteEvent : MemoryWriteEvent -> MM unit }.

Record MemoryEmbeddingStore := {
  SaveEmbedding : MemoryEmbeddingRecord -> MM unit;
  ListEmbeddings : string -> MM (list MemoryEmbeddingRecord);
  DeleteEmbeddings : string -> MM unit;
  ReplaceTerms : string -> gmap string Z -> MM unit
}.

Record EmbeddingProvider := {
  GenerateEmbedding : EmbeddingRequest -> MM EmbeddingResponse;
  Embed : string -> MM (list float64)
}.

Record VectorIndex := {
  Upsert : string -> list float64 -> MM unit;
  VectorIndex_Search : list float64 -> Z -> MM (list RetrievalResult)
}.

Record SemanticSearchBackend := { Backend_Search : RetrievalQuery -> list MemoryRecord -> MM (list RetrievalResult) }.

Definition RetrievalScorer : Type := RetrievalQuery -> MemoryRecord -> float64 * string.

(** [HybridRetriever], [RankFusionStrategy], [Reranker] and [RejectionPolicy] *)
Definition HybridRetriever : Type := RetrievalQuery -> MM (list RetrievalResult).
Definition RankFusionStrategy : Type := list RetrievalResult -> list RetrievalResult -> MM (list RetrievalResult).
Definition Reranker : Type := RetrievalQuery -> list RetrievalResult -> MM (list RetrievalResult).
Definition RejectionPolicy : Type := RetrievalQuery -> list RetrievalResult -> MM (list RetrievalResult).

(** ** [InMemoryMemoryStore], [MemoryAccessAuditLog] *)

Section memory.
Context `{MO : MapOrder}.

Definition Put (record : MemoryRecord) : MM unit :=
  modify (fun w => w <| mem_records := <[mm_ID record := record]> (mem_records w) |>).

Definition Get (id : string) : MM (option MemoryRecord) := gets (fun w => mem_records w !! id).

(** Newest first. *)
Definition updated_later (a b : MemoryRecord) : bool := After (mm_UpdatedAt a) (mm_UpdatedAt b).

Definition List : MM (list MemoryRecord) :=
  gets (fun w => slices_SortFunc (compare_by updated_later) (map_values (mem_records w))).

Definition durable_result (prepared : PreparedMemoryWrite) : DurableWriteResult := {|
  dw_MemoryID := mm_ID (pw_Record prepared);
  dw_CommittedAt := mm_UpdatedAt (pw_Record prepared);
  dw_EmbeddingSet := bool_decide (pw_Embedding prepared <> None);
  dw_TermsSet := bool_decide (0 < size (pw_Terms prepared))%nat
|}.

Definition InMemory_CommitPreparedWrite (prepared : PreparedMemoryWrite) : MM DurableWriteResult :=
  modify (fun w => w <| mem_records := <[mm_ID (pw_Record prepared) := pw_Record prepared]> (mem_records w) |>);;
  mret (durable_result prepared).

Definition InMemoryMemoryStore : MemoryStore := {|
  MemoryStore_Put := Put;
  MemoryStore_Get := Get;
  MemoryStore_List := List;
  MemoryStore_committer := Some {| CommitPreparedWrite := InMemory_CommitPreparedWrite |}
|}.

(** [MemoryAccessAuditLog.Append] *)
Definition Append (entry : MemoryAccessAudit) : MM unit :=
  modify (fun w => w <| mem_entries := mem_entries w ++ [entry] |>).

(** ** The writer *)

Record DefaultMemoryWriter := mkDefaultMemoryWriter {
  wr_Store : option MemoryStore;
  wr_Committer : option MemoryWriteCommitter;
  wr_Relations : option MemoryRelationStore;
  wr_AuditStore : option MemoryAuditStore;
  wr_WriteEventStore : option MemoryWriteEventStore;
  wr_EmbeddingStore : option MemoryEmbeddingStore;
  wr_EmbeddingProvider : option EmbeddingProvider;
  wr_EmbeddingModel : string;
  wr_AuditLog : bool;
  wr_ConflictDetector : option (list MemoryRecord -> MemoryRecord -> list ConflictRef);
  wr_SupersedenceDetector : option (list MemoryRecord -> MemoryRecord -> list SupersedesRef);
  wr_MinConfidence : float64;
  wr_LowConfidenceEpisodicFloor : float64
}.

(** [fallbackMemoryWriteCommitter.CommitPreparedWrite] *)
Definition fallback_CommitPreparedWrite (w : DefaultMemoryWriter) (store : MemoryStore) (prepared : PreparedMemoryWrite)
    : MM DurableWriteResult :=
  if is_set (wr_Relations w) || is_set (wr_AuditStore w) || is_set (wr_WriteEventStore w) || is_set (wr_EmbeddingStore w)
  then fail (PlainError "memory write requires a transactional committer when auxiliary durable stores are configured")
  else MemoryStore_Put store (pw_Record prepared);; mret (durable_result prepared).

Definition committer (w : DefaultMemoryWriter) (store : MemoryStore) : MemoryWriteCommitter :=
  match wr_Committer w, MemoryStore_committer store with
  | Some committer, _ | None, Some committer => committer
  | None, None => {| CommitPreparedWrite := fallback_CommitPreparedWrite w store |}
  end.

Definition conflictDetector (w : DefaultMemoryWriter) := default DetectConflicts (wr_ConflictDetector w).
Definition supersedenceDetector (w : DefaultMemoryWriter) := default DetectSupersedes (wr_SupersedenceDetector w).

Definition contentHash (text : string) : string := hex_EncodeToString (sha1 text).

Definition write_subject (record : MemoryRecord) : string :=
  fallbackString (ms_TraceID (mm_Source record))
    (fallbackString (ms_WorkflowID (mm_Source record)) (ms_TaskID (mm_Source record))).

Definition write_id (kind : string) (record : MemoryRecord) (auditTime : time) : string :=
  mm_ID record +:+ "-" +:+ kind +:+ "-" +:+ write_subject record +:+ "-" +:+ Itoa (UnixNano auditTime).

Definition write_audit (record : MemoryRecord) (auditTime : time) : MemoryAccessAudit := zero
  <| maa_ID := write_id "write" record auditTime |>
  <| maa_MemoryID := mm_ID record |>
  <| maa_WorkflowID := ms_WorkflowID (mm_Source record) |>
  <| maa_TaskID := ms_TaskID (mm_Source record) |>
  <| maa_TraceID := ms_TraceID (mm_Source record) |>
  <| maa_Accessor := fallbackString (ms_Actor (mm_Source record)) "memory_writer" |>
  <| maa_Purpose := "persist memory record" |>
  <| maa_Action := "write" |>
  <| maa_AccessedAt := mm_UpdatedAt record |>.

Definition write_event (record : MemoryRecord) (auditTime : time) : MemoryWriteEvent := zero
  <| mwe_ID := write_id "write-event" record auditTime |>
  <| mwe_MemoryID := mm_ID record |>
  <| mwe_WorkflowID := ms_WorkflowID (mm_Source record) |>
  <| mwe_TaskID := ms_TaskID (mm_Source record) |>
  <| mwe_TraceID := ms_TraceID (mm_Source record) |>
  <| mwe_Action := "write" |>
  <| mwe_Summary := "persisted durable memory record" |>
  <| mwe_OccurredAt := mm_UpdatedAt record |>
  <| mwe_Details := "kind=" +:+ MemoryKind_string (mm_Kind record) +:+ " confidence=" +:+
                    Sprintf_f 2 (mc_Score (mm_Confidence record)) |>.

Definition index_event (record : MemoryRecord) (auditTime occurredAt : time) (response : EmbeddingResponse)
    : MemoryWriteEvent := zero
  <| mwe_ID := write_id "index" record auditTime |>
  <| mwe_MemoryID := mm_ID record |>
  <| mwe_WorkflowID := ms_WorkflowID (mm_Source record) |>
  <| mwe_TaskID := ms_TaskID (mm_Source record) |>
  <| mwe_TraceID := ms_TraceID (mm_Source record) |>
  <| mwe_Action := "index_embedding_and_terms" |>
  <| mwe_Summary := "indexed memory for hybrid retrieval" |>
  <| mwe_Provider := emp_Provider response |>
  <| mwe_Model := emp_Model response |>
  <| mwe_OccurredAt := occurredAt |>
  <| mwe_Details := "dimensions=" +:+ Itoa (emp_Dimensions response) |>.

Definition embedding_record (record : MemoryRecord) (response : EmbeddingResponse) (embeddedAt : time)
    : MemoryEmbeddingRecord := {|
  me_MemoryID := mm_ID record;
  me_Provider := emp_Provider response;
  me_Model := emp_Model response;
  me_Vector := emp_Vector response;
  me_Dimensions := emp_Dimensions response;
  me_EmbeddedAt := embeddedAt;
  me_ContentHash := contentHash (semanticText record)
|}.

Definition prepareWrite (w : DefaultMemoryWriter) (record : MemoryRecord) : MM PreparedMemoryWrite :=
  auditTime ← nowUTC;
  let prepared := {|
    pw_Record := record;
    pw_Relations := {| mrs_Relations := mm_Relations record; mrs_Supersedes := mm_Supersedes record;
                       mrs_Conflicts := mm_Conflicts record |};
    pw_Embedding := None;
    pw_Terms := ∅;
    pw_Audit := Some (write_audit record auditTime);
    pw_WriteEvents := [write_event record auditTime] |} in
  match wr_EmbeddingProvider w with
  | Some provider =>
      if blank_text (wr_EmbeddingModel w) then mret prepared else
      response ← GenerateEmbedding provider (zero
        <| emr_Model := wr_EmbeddingModel w |>
        <| emr_Input := semanticText record |>
        <| emr_WorkflowID := ms_WorkflowID (mm_Source record) |>
        <| emr_TaskID := ms_TaskID (mm_Source record) |>
        <| emr_TraceID := ms_TraceID (mm_Source record) |>
        <| emr_Actor := fallbackString (ms_Actor (mm_Source record)) "memory_writer" |>);
      embeddedAt ← nowUTC;
      occurredAt ← nowUTC;
      mret (prepared
        <| pw_Embedding := Some (embedding_record record response embeddedAt) |>
        <| pw_Terms := tokenFrequency (semanticText record) |>
        <| pw_WriteEvents := pw_WriteEvents prepared ++ [index_event record auditTime occurredAt response] |>)
  | None => mret prepared
  end.

Definition minConfidence (w : DefaultMemoryWriter) : float64 :=
  if f_eqb (wr_MinConfidence w) f_zero then f_const 75 100 else wr_MinConfidence w.
Definition episodicFloor (w : DefaultMemoryWriter) : float64 :=
  if f_eqb (wr_LowConfidenceEpisodicFloor w) f_zero then f_const 55 100 else wr_LowConfidenceEpisodicFloor w.

(** The confidence gate of [Write]. *)
Definition below_threshold (w : DefaultMemoryWriter) (record : MemoryRecord) : bool :=
  f_ltb (mc_Score (mm_Confidence record)) (minConfidence w) &&
  negb ((mm_Kind record == MemoryKindEpisodic) && f_leb (episodicFloor w) (mc_Score (mm_Confidence record))).

(** What [Write] adds to the record before it is committed. *)
Definition annotate (w : DefaultMemoryWriter) (existing : list MemoryRecord) (record : MemoryRecord) : MemoryRecord :=
  let record := record <| mm_Conflicts := dedupeConflictRefs (mm_Conflicts record ++ conflictDetector w existing record) |> in
  record <| mm_Supersedes := dedupeSupersedesRefs (mm_Supersedes record ++ supersedenceDetector w existing record) |>.

(** [DefaultMemoryWriter.Write] *)
Definition Write (w : DefaultMemoryWriter) (record : MemoryRecord) : MM unit :=
  match wr_Store w with
  | None => fail (PlainError "memory writer requires a store")
  | Some store =>
      match MemoryRecord_Validate record with
      | Some err => fail err
      | None =>
          if bool_decide (ms_EvidenceIDs (mm_Source record) = []) && (ms_TaskID (mm_Source record) == "") &&
             (ms_WorkflowID (mm_Source record) == "")
          then fail (PlainError "memory provenance is required")
          else if below_threshold w record
          then fail (PlainError ("memory confidence " +:+ Sprintf_f 2 (mc_Score (mm_Confidence record)) +:+
                                 " below writer threshold " +:+ Sprintf_f 2 (minConfidence w)))
          else
            at_ ← nowUTC;
            let record := record <| mm_UpdatedAt := at_ |> in
            let record := if IsZero (mm_CreatedAt record) then record <| mm_CreatedAt := mm_UpdatedAt record |> else record in
            existing ← MemoryStore_List store;
            let record := annotate w existing record in
            prepared ← prepareWrite w record;
            _ ← CommitPreparedWrite (committer w store) prepared;
            match pw_Audit prepared with
            | Some audit => if wr_AuditLog w then Append audit else mret tt
            | None => mret tt
            end
      end
  end.

(** ** Retrievers *)

Definition access_entry (query : RetrievalQuery) (action purpose : string) (now : time) (index : nat)
    (result : RetrievalResult) : MemoryAccessAudit := {|
  maa_ID := rr_MemoryID result +:+ "-" +:+ action +:+ "-" +:+ Itoa (UnixNano now) +:+ "-" +:+ Itoa (Z.of_nat index);
  maa_MemoryID := rr_MemoryID result;
  maa_WorkflowID := rq_WorkflowID query;
  maa_TaskID := rq_TaskID query;
  maa_TraceID := rq_TraceID query;
  maa_QueryID := rq_QueryID query;
  maa_Accessor := "hybrid_retriever";
  maa_Purpose := purpose;
  maa_Action := action;
  maa_Reason := rr_Reason result;
  maa_Score := rr_FusedScore result;
  maa_AccessedAt := now
|}.

Definition logMemoryResults (log : bool) (store : option MemoryAuditStore) (query : RetrievalQuery)
    (results : list RetrievalResult) (action purpose : string) : MM unit :=
  now ← nowUTC;
  for_each (fun indexed : nat * RetrievalResult =>
    let '(index, result) := indexed in
    if rr_MemoryID result == "" then mret tt else
    let entry := access_entry query action purpose now index result in
    match store with Some store => _ ← attempt (AppendAccess store entry); mret tt | None => mret tt end;;
    if log then Append entry else mret tt) (imap pair results).

(** The map [recordByID]: the last record of an ID. *)
Definition recordByID (records : list MemoryRecord) : gmap string MemoryRecord :=
  fold_left (fun byID record => <[mm_ID record := record]> byID) records ∅.

Record LexicalRetriever := mkLexicalRetriever {
  lx_Store : MemoryStore;
  lx_Query : option MemoryQueryStore;
  lx_Audit : option MemoryAuditStore;
  lx_AuditLog : bool
}.

Definition lexical_candidate_result (record : MemoryRecord) (candidate : LexicalCandidate) : RetrievalResult := zero
  <| rr_MemoryID := lc_MemoryID candidate |>
  <| rr_Score := lc_Score candidate |>
  <| rr_LexicalScore := lc_Score candidate |>
  <| rr_FusedScore := lc_Score candidate |>
  <| rr_Reason := "lexical bm25-like scoring" |>
  <| rr_MatchedTerms := lc_MatchedTerms candidate |>
  <| rr_Memory := record |>.

Definition lexical_result (tokens : list string) (record : MemoryRecord) : option RetrievalResult :=
  let score := lexicalScore tokens record in
  if f_eqb score f_zero then None else Some (zero
    <| rr_MemoryID := mm_ID record |>
    <| rr_Score := score |>
    <| rr_LexicalScore := score |>
    <| rr_FusedScore := score |>
    <| rr_Reason := "lexical token overlap" |>
    <| rr_MatchedTerms := matchedTerms tokens record |>
    <| rr_Memory := record |>).

(** [LexicalRetriever.Retrieve] *)
Definition Lexical_Retrieve (r : LexicalRetriever) : HybridRetriever := fun query =>
  results ← match lx_Query r with
    | Some store =>
        candidates ← SearchLexical store (queryTokens query) (wrap64 (rq_TopK query * 2));
        records ← LoadByIDs store (lc_MemoryID <$> candidates);
        let byID := recordByID records in
        mret (sortResults (omap (fun candidate =>
          record ← byID !! lc_MemoryID candidate; Some (lexical_candidate_result record candidate)) candidates))
    | None =>
        records ← MemoryStore_List (lx_Store r);
        mret (sortResults (omap (lexical_result (queryTokens query)) records))
    end;
  logMemoryResults (lx_AuditLog r) (lx_Audit r) query results "retrieve_lexical" (fallbackString (rq_Text query) "lexical lookup");;
  mret (topK results (rq_TopK query)).

Record SemanticRetriever := mkSemanticRetriever {
  smr_Store : MemoryStore;
  smr_Backend : option SemanticSearchBackend;
  smr_Audit : option MemoryAuditStore;
  smr_AuditLog : bool
}.

(** The two zero scores that [SemanticRetriever.Retrieve] fills in. *)
Definition with_semantic_scores (r : RetrievalResult) : RetrievalResult :=
  let r := if f_eqb (rr_SemanticScore r) f_zero then r <| rr_SemanticScore := rr_Score r |> else r in
  with_fused_score r.

(** [SemanticRetriever.Retrieve] *)
Definition Semantic_Retrieve (r : SemanticRetriever) : HybridRetriever := fun query =>
  match smr_Backend r with
  | None => fail (PlainError "semantic retriever requires backend")
  | Some backend =>
      records ← MemoryStore_List (smr_Store r);
      results ← Backend_Search backend query records;
      let results := with_semantic_scores <$> sortResults results in
      logMemoryResults (smr_AuditLog r) (smr_Audit r) query results "retrieve_semantic"
        (fallbackString (rq_SemanticHint query) "semantic lookup");;
      mret (topK results (rq_TopK query))
  end.

Record HybridMemoryRetriever := mkHybridMemoryRetriever {
  hy_Lexical : HybridRetriever;
  hy_Semantic : HybridRetriever;
  hy_Fusion : RankFusionStrategy;
  hy_Reranker : Reranker;
  hy_RejectionPolicy : RejectionPolicy
}.

Definition retrievalCandidateWindow (topK : Z) : Z :=
  if topK <=? 0 then 8
  else if topK <? 3 then topK + 5
  else maxInt (wrap64 (topK * 3)) (wrap64 (topK + 4)).

(** A result that may be selected. *)
Definition acceptable (r : RetrievalResult) : bool := negb (rr_Rejected r) && (rr_MemoryID r != "").

Definition allCandidatesRejected (results : list RetrievalResult) : bool :=
  let candidates := filter (fun r => rr_MemoryID r <> "") results in
  bool_decide (candidates <> []) && forallb rr_Rejected candidates.

(** The loop over [accepted]; [index] counts the accepted results seen. *)
Fixpoint select_accepted (topK index : Z) (results : list RetrievalResult) : list RetrievalResult :=
  match results with
  | [] => []
  | r :: results =>
      if acceptable r then
        (if (0 <? topK) && (topK <=? index) then r else r <| rr_Selected := true |>) :: select_accepted topK (index + 1) results
      else r :: select_accepted topK index results
  end.

Definition fully_rejected : RetrievalResult := zero
  <| rr_Rejected := true |>
  <| rr_RejectionRule := "fully_rejected" |>
  <| rr_RejectionReason := "all fused candidates were rejected before final topK selection" |>.

(** What [HybridMemoryRetriever.Retrieve] does with the results of the rejection policy. *)
Definition select_results (topK : Z) (results : list RetrievalResult) : list RetrievalResult :=
  if negb (existsb acceptable results) && bool_decide (0 < length results)%nat then
    let cleared := (fun r => r <| rr_Selected := false |>) <$> results in
    if allCandidatesRejected cleared then cleared ++ [fully_rejected] else cleared
  else select_accepted topK 0 results.

(** [HybridMemoryRetriever.Retrieve] *)
Definition Hybrid_Retrieve (r : HybridMemoryRetriever) : HybridRetriever := fun query =>
  let expandedQuery := query <| rq_TopK := retrievalCandidateWindow (rq_TopK query) |> in
  lexical ← hy_Lexical r expandedQuery;
  semantic ← hy_Semantic r expandedQuery;
  fused ← hy_Fusion r lexical semantic;
  reranked ← hy_Reranker r query fused;
  results ← hy_RejectionPolicy r query reranked;
  mret (select_results (rq_TopK query) results).

(** The package's own fusion, reranking and rejection. *)
Definition ReciprocalRankFusion (K : float64) : RankFusionStrategy := fun lexical semantic => mret (Fuse K lexical semantic).
Definition BaselineReranker : Reranker := fun query results => mret (Rerank query results).
Definition ThresholdRejection (p : ThresholdRejectionPolicy) : RejectionPolicy := fun query results =>
  at_ ← nowUTC; mret (Reject p at_ query results).
End memory.

(** * Embeddings, semantic search and indexing of memories (internal/memory)

    The keyword-hash embedding provider, the in-memory vector index, the two
    semantic search backends and the indexer (implementation.go,
    retrieval_real.go), and the query builders of the agents
    (query_builder.go). *)

(** ** Vectors *)

(** [hash*31 + int(char)] and the final [-hash] wrap; the least int is its own opposite. *)
Definition tokenHash (token : string) : Z :=
  let hash := fold_left (fun hash char => wrap64 (wrap64 (hash * 31) + char)) (range_runes token) 17 in
  if hash <? 0 then wrap64 (- hash) else hash.

Definition normalizeVector (vector : list float64) : list float64 :=
  let sumSquares := fold_left (fun sum value => f_add sum (f_mul value value)) vector f_zero in
  if f_eqb sumSquares f_zero then vector else
  let norm := f_sqrt sumSquares in
  (fun value => f_div value norm) <$> vector.

Definition cosineSimilarity (left right : list float64) : float64 :=
  if bool_decide (Nat.min (length right) (length left) = 0%nat) then f_zero
  else roundTo (fold_left (fun sum '(l, r) => f_add sum (f_mul l r)) (zip left right) f_zero) 4.

(** ** [KeywordEmbeddingProvider] *)

Definition keyword_dims (Dimensions : Z) : Z := if Dimensions =? 0 then 16 else Dimensions.

(** [vector[index] += 1] *)
Definition count_token (dims : Z) (vector : list float64) (token : string) : MM (list float64) :=
  let index := Z.rem (tokenHash token) dims in
  if (index <? 0) || (Z.of_nat (length vector) <=? index) then panic "index out of range"
  else mret (alter (fun value => f_add value (f_of_int 1)) (Z.to_nat index) vector).

Definition Keyword_Embed (Dimensions : Z) (text : string) : MM (list float64) :=
  let dims := keyword_dims Dimensions in
  if dims <? 0 then panic "makeslice: len out of range" else
  vector ← for_fold (count_token dims) (replicate (Z.to_nat dims) f_zero) (tokenizeForIndexing text);
  mret (normalizeVector vector).

Definition Keyword_GenerateEmbedding (Dimensions : Z) (request : EmbeddingRequest) : MM EmbeddingResponse :=
  vector ← Keyword_Embed Dimensions (emr_Input request);
  recordedAt ← nowUTC;
  let model := fallbackString (emr_Model request) "keyword-hash" in
  mret {| emp_Provider := "static-keyword";
          emp_Model := model;
          emp_Vector := vector;
          emp_Dimensions := Z.of_nat (length vector);
          emp_ResponseID := "";
          emp_Latency := 5 * 1000000;
          emp_Usage := {|
            emu_Provider := "static-keyword";
            emu_Model := model;
            emu_WorkflowID := emr_WorkflowID request;
            emu_TaskID := emr_TaskID request;
            emu_TraceID := emr_TraceID request;
            emu_Actor := emr_Actor request;
            emu_QueryID := emr_QueryID request;
            emu_InputTokens := maxInt (Z.of_nat (length (tokenizeForIndexing (emr_Input request)))) 1;
            emu_EstimatedCostUSD := f_zero;
            emu_RecordedAt := recordedAt |};
          emp_RawResponse := "" |}.

Definition KeywordEmbeddingProvider (Dimensions : Z) : EmbeddingProvider := {|
  GenerateEmbedding := Keyword_GenerateEmbedding Dimensions;
  Embed := Keyword_Embed Dimensions
|}.

(** ** [InMemoryVectorIndex] *)

Section index.
Context `{MO : MapOrder}.

Definition Index_Upsert (id : string) (vector : list float64) : MM unit :=
  modify (fun w => w <| mem_vectors := <[id := vector]> (mem_vectors w) |>).

Definition Index_Search (vector : list float64) (limit : Z) : MM (list RetrievalResult) :=
  gets (fun w =>
    let results := (fun '(id, candidate) => zero
      <| rr_MemoryID := id |>
      <| rr_Score := cosineSimilarity vector candidate |>
      <| rr_Reason := "vector similarity" |>) <$> map_range (mem_vectors w) in
    topK (sortResults results) limit).

Definition InMemoryVectorIndex : VectorIndex := {| Upsert := Index_Upsert; VectorIndex_Search := Index_Search |}.
End index.

(** ** [DefaultRetrievalScorer] *)

Definition shared_tokens (query : RetrievalQuery) (record : MemoryRecord) : Z :=
  let text := ToLower (rq_Text query +:+ " " +:+ rq_SemanticHint query) in
  Z.of_nat (length (matching (tokenizeForQuery text) record)).

Definition DefaultRetrievalScorer : RetrievalScorer := fun query record =>
  let shared := shared_tokens query record in
  if shared =? 0 then (f_const 1 100, "semantic baseline floor")
  else (f_min (f_const 99 100) (f_add (f_const 2 10) (f_mul (f_of_int shared) (f_const 12 100))),
        "semantic scorer token affinity").

(** [roundTo((score+boost)/2, 4)] *)
Definition average (score boost : float64) : float64 := roundTo (f_div (f_add score boost) (f_of_int 2)) 4.

(** ** [FakeSemanticSearchBackend]: embeds every record on every search *)

Record FakeSemanticSearchBackend := mkFakeSemanticSearchBackend {
  fk_Provider : option EmbeddingProvider;
  fk_Index : option VectorIndex;
  fk_Scorer : option RetrievalScorer
}.

Definition fake_result (scorer : RetrievalScorer) (query : RetrievalQuery) (byID : gmap string MemoryRecord)
    (result : RetrievalResult) : option RetrievalResult :=
  record ← byID !! rr_MemoryID result;
  let '(boost, reason) := scorer query record in
  let score := average (rr_Score result) boost in
  Some (result <| rr_Score := score |> <| rr_SemanticScore := score |> <| rr_FusedScore := score |>
               <| rr_Reason := reason |> <| rr_Memory := record |>).

Definition Fake_Search (b : FakeSemanticSearchBackend) (query : RetrievalQuery) (records : list MemoryRecord)
    : MM (list RetrievalResult) :=
  match fk_Provider b, fk_Index b with
  | None, _ => fail (PlainError "semantic search backend requires embedding provider")
  | Some _, None => fail (PlainError "semantic search backend requires vector index")
  | Some provider, Some index =>
      let scorer := default DefaultRetrievalScorer (fk_Scorer b) in
      for_each (fun record =>
        vector ← Embed provider (semanticText record);
        Upsert index (mm_ID record) vector) records;;
      queryVector ← Embed provider (rq_Text query +:+ " " +:+ rq_SemanticHint query);
      baseResults ← VectorIndex_Search index queryVector (maxInt (wrap64 (rq_TopK query * 2)) (rq_TopK query));
      let byID := recordByID records in
      mret (topK (sortResults (omap (fake_result scorer query byID) baseResults)) (rq_TopK query))
  end.

(** ** [EmbeddedSemanticSearchBackend]: embeddings from a store *)

Definition stringsTrimSpaceJoin (parts : list string) : string :=
  Join (filter (fun part => part <> "") (TrimSpace <$> parts)) " ".

Record EmbeddedSemanticSearchBackend := mkEmbeddedSemanticSearchBackend {
  esb_Provider : option EmbeddingProvider;
  esb_Embeddings : option MemoryEmbeddingStore;
  esb_Model : string;
  esb_Scorer : option RetrievalScorer
}.

Definition embedded_result (scorer : RetrievalScorer) (query : RetrievalQuery) (byID : gmap string MemoryRecord)
    (vector : list float64) (embedding : MemoryEmbeddingRecord) : option RetrievalResult :=
  record ← byID !! me_MemoryID embedding;
  let score := cosineSimilarity vector (me_Vector embedding) in
  let '(boost, reason) := scorer query record in
  let fused := average score boost in
  Some (zero <| rr_MemoryID := mm_ID record |> <| rr_Score := fused |> <| rr_SemanticScore := score |>
             <| rr_FusedScore := fused |> <| rr_Reason := reason |> <| rr_Memory := record |>).

Definition Embedded_Search (b : EmbeddedSemanticSearchBackend) (query : RetrievalQuery) (records : list MemoryRecord)
    : MM (list RetrievalResult) :=
  match esb_Provider b, esb_Embeddings b with
  | None, _ => fail (PlainError "semantic search backend requires embedding provider")
  | Some _, None => fail (PlainError "semantic search backend requires embedding store")
  | Some provider, Some store =>
      if esb_Model b == "" then fail (PlainError "semantic search backend requires embedding model") else
      let scorer := default DefaultRetrievalScorer (esb_Scorer b) in
      response ← GenerateEmbedding provider (zero
        <| emr_Model := esb_Model b |>
        <| emr_Input := stringsTrimSpaceJoin [rq_Text query; rq_SemanticHint query] |>
        <| emr_WorkflowID := rq_WorkflowID query |>
        <| emr_TaskID := rq_TaskID query |>
        <| emr_TraceID := rq_TraceID query |>
        <| emr_Actor := fallbackString (rq_Consumer query) "semantic_retriever" |>
        <| emr_QueryID := rq_QueryID query |>);
      embeddings ← ListEmbeddings store (esb_Model b);
      let byID := recordByID records in
      mret (topK (sortResults (omap (embedded_result scorer query byID (emp_Vector response)) embeddings)) (rq_TopK query))
  end.

(** ** [DefaultMemoryIndexer]

    A summary returned beside an error is dropped. *)

Record DefaultMemoryIndexer := mkDefaultMemoryIndexer {
  ix_Store : option MemoryStore;
  ix_Embeddings : option MemoryEmbeddingStore;
  ix_Writer : option MemoryWriteEventStore;
  ix_Provider : option EmbeddingProvider;
  ix_Model : string;
  ix_WorkflowID : string;
  ix_TaskID : string;
  ix_TraceID : string
}.

Definition index_request (i : DefaultMemoryIndexer) (record : MemoryRecord) : EmbeddingRequest := zero
  <| emr_Model := ix_Model i |>
  <| emr_Input := semanticText record |>
  <| emr_WorkflowID := ix_WorkflowID i |>
  <| emr_TaskID := ix_TaskID i |>
  <| emr_TraceID := ix_TraceID i |>
  <| emr_Actor := "memory_indexer" |>.

Definition backfill_event (i : DefaultMemoryIndexer) (id action text : string) (summary : IndexBuildSummary)
    (details : string) : MemoryWriteEvent := zero
  <| mwe_ID := id +:+ Itoa (UnixNano (ibs_CompletedAt summary)) |>
  <| mwe_MemoryID := "all" |>
  <| mwe_WorkflowID := ix_WorkflowID i |>
  <| mwe_TaskID := ix_TaskID i |>
  <| mwe_TraceID := ix_TraceID i |>
  <| mwe_Action := action |>
  <| mwe_Summary := text |>
  <| mwe_OccurredAt := ibs_CompletedAt summary |>
  <| mwe_Details := details |>.

(** [_ = i.Writer.AppendWriteEvent(...)] *)
Definition append_event (writer : option MemoryWriteEventStore) (event : MemoryWriteEvent) : MM unit :=
  match writer with Some writer => _ ← attempt (AppendWriteEvent writer event); mret tt | None => mret tt end.

Definition backfill_embedding (i : DefaultMemoryIndexer) (provider : EmbeddingProvider) (store : MemoryEmbeddingStore)
    (summary : IndexBuildSummary) (record : MemoryRecord) : MM IndexBuildSummary :=
  response ← GenerateEmbedding provider (index_request i record);
  embeddedAt ← nowUTC;
  SaveEmbedding store (embedding_record record response embeddedAt);;
  mret (summary <| ibs_EmbeddingsBuilt := ibs_EmbeddingsBuilt summary + 1 |>
                <| ibs_Provider := emp_Provider response |> <| ibs_Model := emp_Model response |>).

Definition BackfillEmbeddings (i : DefaultMemoryIndexer) : MM IndexBuildSummary :=
  start ← nowUTC;
  match ix_Store i, ix_Embeddings i, ix_Provider i with
  | Some memories, Some store, Some provider =>
      if ix_Model i == "" then fail (PlainError "memory indexer requires embedding model") else
      records ← MemoryStore_List memories;
      summary ← for_fold (backfill_embedding i provider store)
        (zero <| ibs_RecordsScanned := Z.of_nat (length records) |> <| ibs_StartedAt := start |>) records;
      completed ← nowUTC;
      let summary := summary <| ibs_RecordsIndexed := ibs_EmbeddingsBuilt summary |> <| ibs_CompletedAt := completed |> in
      append_event (ix_Writer i)
        (backfill_event i "memory-index-embeddings-" "backfill_embeddings"
           ("indexed " +:+ Itoa (ibs_EmbeddingsBuilt summary) +:+ " memory embeddings") summary
           ("records_scanned=" +:+ Itoa (ibs_RecordsScanned summary))
         <| mwe_Provider := ibs_Provider summary |> <| mwe_Model := ibs_Model summary |>);;
      mret summary
  | _, _, _ => fail (PlainError "memory indexer requires store, embeddings, and provider")
  end.

Definition backfill_terms (store : MemoryEmbeddingStore) (summary : IndexBuildSummary) (record : MemoryRecord)
    : MM IndexBuildSummary :=
  let terms := tokenFrequency (semanticText record) in
  ReplaceTerms store (mm_ID record) terms;;
  mret (summary <| ibs_RecordsIndexed := ibs_RecordsIndexed summary + 1 |>
                <| ibs_TermsBuilt := ibs_TermsBuilt summary + Z.of_nat (size terms) |>).

Definition BackfillLexicalTerms (i : DefaultMemoryIndexer) : MM IndexBuildSummary :=
  start ← nowUTC;
  match ix_Store i, ix_Embeddings i with
  | Some memories, Some store =>
      records ← MemoryStore_List memories;
      summary ← for_fold (backfill_terms store)
        (zero <| ibs_RecordsScanned := Z.of_nat (length records) |> <| ibs_StartedAt := start |>) records;
      completed ← nowUTC;
      let summary := summary <| ibs_CompletedAt := completed |> in
      append_event (ix_Writer i)
        (backfill_event i "memory-index-terms-" "backfill_terms"
           ("indexed lexical terms for " +:+ Itoa (ibs_RecordsIndexed summary) +:+ " records") summary
           ("terms_built=" +:+ Itoa (ibs_TermsBuilt summary)));;
      mret summary
  | _, _ => fail (PlainError "memory indexer requires store and embedding store")
  end.

Definition RebuildIndexes (i : DefaultMemoryIndexer) : MM IndexBuildSummary :=
  match ix_Embeddings i with
  | None => fail (PlainError "memory indexer requires embedding store")
  | Some store =>
      (if ix_Model i != "" then DeleteEmbeddings store (ix_Model i) else mret tt);;
      terms ← BackfillLexicalTerms i;
      embeddings ← BackfillEmbeddings i;
      mret {| ibs_RecordsScanned := maxInt (ibs_RecordsScanned terms) (ibs_RecordsScanned embeddings);
              ibs_RecordsIndexed := maxInt (ibs_RecordsIndexed terms) (ibs_RecordsIndexed embeddings);
              ibs_EmbeddingsBuilt := ibs_EmbeddingsBuilt embeddings;
              ibs_TermsBuilt := ibs_TermsBuilt terms;
              ibs_Provider := ibs_Provider embeddings;
              ibs_Model := ibs_Model embeddings;
              ibs_StartedAt := ibs_StartedAt terms;
              ibs_CompletedAt := ibs_CompletedAt embeddings |}
  end.

(** ** Query builders (query_builder.go) *)

Record QueryBuildInput := mkQueryBuildInput {
  qb_WorkflowID : string;
  qb_Task : TaskSpec;
  qb_State : FinancialWorldState;
  qb_Evidence : list EvidenceRecord;
  qb_TraceID : string
}.

(** The three builders have the same fields. *)
Record QueryBuilder := mkQueryBuilder {
  bq_TopK : Z;
  bq_RetrievalPolicy : string;
  bq_FreshnessPolicy : string
}.

Definition when {A} (b : bool) (l : list A) : list A := if b then l else [].

Definition evidenceKeywords (evidence : list EvidenceRecord) : list string :=
  dedupeTokens (concat ((fun item =>
    match er_Type item with
    | EvidenceTypeRecurringSubscription => ["subscriptions"; "recurring"]
    | EvidenceTypeLateNightSpendingSignal => ["late-night"; "spending"]
    | EvidenceTypeDebtObligationSnapshot => ["debt"; "payment"]
    | EvidenceTypeTaxDocument => ["tax"; "deadline"]
    | _ => []
    end) <$> evidence)).

Definition fallbackQueryString (value fallback : string) : string := if blank_text value then fallback else value.

Definition duplicates (input : QueryBuildInput) : bool :=
  0 <? bh_DuplicateSubscriptionCount (fw_BehaviorState (qb_State input)).
Definition late_night (input : QueryBuildInput) : bool :=
  f_ltb f_zero (bh_LateNightSpendingFrequency (fw_BehaviorState (qb_State input))).

Definition built_query (b : QueryBuilder) (input : QueryBuildInput) (topK : Z) (suffix consumer view hint policy freshness : string)
    (terms : list string) : RetrievalQuery := zero
  <| rq_QueryID := qb_WorkflowID input +:+ ":" +:+ ts_ID (qb_Task input) +:+ ":" +:+ suffix |>
  <| rq_WorkflowID := qb_WorkflowID input |>
  <| rq_TaskID := ts_ID (qb_Task input) |>
  <| rq_TraceID := qb_TraceID input |>
  <| rq_Consumer := consumer |>
  <| rq_ContextView := view |>
  <| rq_Text := ts_Goal (qb_Task input) |>
  <| rq_LexicalTerms := dedupeTokens terms |>
  <| rq_SemanticHint := hint |>
  <| rq_TopK := (if bq_TopK b =? 0 then topK else bq_TopK b) |>
  <| rq_RetrievalPolicy := fallbackQueryString (bq_RetrievalPolicy b) policy |>
  <| rq_FreshnessPolicy := fallbackQueryString (bq_FreshnessPolicy b) freshness |>.

Definition PlannerMemoryQueryBuilder_Build (b : QueryBuilder) (input : QueryBuildInput) : RetrievalQuery :=
  built_query b input 4 "planning" "planner_agent" "planning"
    "monthly financial review planning, prior risk signals, prior recommendations, decision emphasis"
    "monthly_review_planning" "monthly_review_default"
    (dedupeTokens (sc_Areas (ts_Scope (qb_Task input))) ++
     when (duplicates input) ["subscriptions"; "cashflow"] ++
     when (f_ltb f_zero (li_DebtBurdenRatio (fw_LiabilityState (qb_State input)))) ["debt"; "liquidity"]).

Definition BehaviorSkillSelectionQueryBuilder_Build (b : QueryBuilder) (input : QueryBuildInput) : RetrievalQuery :=
  let cashflow := fw_CashflowState (qb_State input) in
  built_query b input 5 "behavior-skill-selection" "behavior_skill_selector" "execution"
    "behavior intervention skill selection, prior guardrail outcomes, subscription cleanup effectiveness, late-night spend interventions"
    "behavior_skill_selection" "behavior_default"
    (sc_Areas (ts_Scope (qb_Task input)) ++ evidenceKeywords (qb_Evidence input) ++
     ["behavior"; "intervention"; "skill"; "recipe"; "guardrail"] ++
     when (duplicates input) ["subscription"; "cleanup"] ++
     when (late_night input) ["late-night"; "spending"; "nudge"] ++
     when ((cf_MonthlyNetIncomeCents cashflow <? 0) || (0 <? cf_MonthlyVariableExpenseCents cashflow)) ["discretionary"; "guardrail"]).

Definition CashflowMemoryQueryBuilder_Build (b : QueryBuilder) (input : QueryBuildInput) : RetrievalQuery :=
  built_query b input 4 "cashflow" "cashflow_agent" "execution"
    "monthly cashflow review, spending anomalies, recurring subscriptions, cashflow stability, recommendation framing"
    "monthly_review_cashflow" "monthly_review_default"
    (sc_Areas (ts_Scope (qb_Task input)) ++ evidenceKeywords (qb_Evidence input) ++
     when (duplicates input) ["subscription"] ++
     when (late_night input) ["late-night"; "spending"] ++
     when (cf_MonthlyNetIncomeCents (fw_CashflowState (qb_State input)) <? 0) ["net"; "cashflow_pressure"]).
