(* ===== verification/MemoryThm.v ===== *)
(** * Correctness of the memory package

    Rank fusion against its definition by ranks, and its independence of map
    order; which results the rejection policy rejects and which the hybrid
    retriever selects; conflict detection; the write gate. *)

From S2P Require Export Memory FloatOrder.
#[local] Open Scope Z_scope.

(** The order [sortResults] uses, extended to all results. *)
Definition key_less (a b : RetrievalResult) : bool :=
  if key_eqb (f_key (rr_Score a)) (f_key (rr_Score b)) then str_ltb (rr_MemoryID a) (rr_MemoryID b)
  else key_ltb (f_key (rr_Score b)) (f_key (rr_Score a)).

Definition scored (results : list RetrievalResult) : Prop := Forall (fun r => f_ordered (rr_Score r)) results.

Lemma result_less_key a b : f_ordered (rr_Score a) -> f_ordered (rr_Score b) -> result_less a b = key_less a b.
Proof. intros Ha Hb. unfold result_less, key_less. by rewrite f_eqb_key, f_ltb_key. Qed.

Lemma key_differs (a1 a2 a3 b1 b2 b3 : Z) : (a1, a2, a3) <> (b1, b2, b3) -> (a1 <> b1 \/ a2 <> b2 \/ a3 <> b3)%Z.
Proof. intros E. destruct (decide (a1 = b1)), (decide (a2 = b2)), (decide (a3 = b3)); subst; tauto. Qed.

Lemma key_less_asym a b : key_less a b = true -> key_less b a = false.
Proof.
  unfold key_less, key_eqb, key_ltb.
  destruct (f_key (rr_Score a)) as [[a1 a2] a3], (f_key (rr_Score b)) as [[b1 b2] b3]; cbn [fst snd].
  destruct ((a1 =? b1) && (a2 =? b2) && (a3 =? b3)) eqn:E1;
    destruct ((b1 =? a1) && (b2 =? a2) && (b3 =? a3)) eqn:E2; try lia.
  apply str_ltb_asym.
Qed.

Lemma key_less_cases a b :
  (compare_by key_less a b <= 0) <->
  key_ltb (f_key (rr_Score b)) (f_key (rr_Score a)) = true \/
  (f_key (rr_Score a) = f_key (rr_Score b) /\ str_ltb (rr_MemoryID b) (rr_MemoryID a) = false).
Proof.
  unfold compare_by, key_less. destruct (f_key (rr_Score a)) as [[a1 a2] a3], (f_key (rr_Score b)) as [[b1 b2] b3].
  unfold key_eqb, key_ltb. cbn [fst snd].
  destruct (decide ((a1, a2, a3) = (b1, b2, b3))) as [E|E].
  - injection E as -> -> ->. rewrite !Z.eqb_refl, !Z.ltb_irrefl. simpl.
    destruct (str_ltb (rr_MemoryID a) (rr_MemoryID b)) eqn:E1.
    2: { destruct (str_ltb (rr_MemoryID b) (rr_MemoryID a)); (split; [intros ?; try lia; auto|intros [?|[_ ?]]; done]). }
    rewrite (str_ltb_asym _ _ E1). split; [auto|lia].
  - assert (Hd : (a1 <> b1 \/ a2 <> b2 \/ a3 <> b3)%Z) by (apply key_differs; done).
    assert (Hne : (a1 =? b1) && (a2 =? b2) && (a3 =? b3) = false) by lia.
    assert (Hne' : (b1 =? a1) && (b2 =? a2) && (b3 =? a3) = false) by lia.
    rewrite Hne, Hne'. destruct (_ || _) eqn:E1; [split; [auto|lia]|].
    destruct ((a1 <? b1) || _) eqn:E2; [|lia].
    split; [lia|]. intros [?|[? _]]; done.
Qed.

#[export] Instance key_less_order : CmpOrder (compare_by key_less).
Proof.
  split.
  - intros a b c. unfold cmp_le. rewrite !key_less_cases. unfold key_ltb.
    destruct (f_key (rr_Score a)) as [[a1 a2] a3], (f_key (rr_Score b)) as [[b1 b2] b3],
      (f_key (rr_Score c)) as [[c1 c2] c3]; cbn [fst snd].
    intros [H1|[H1 H1']] [H2|[H2 H2']]; try (left; lia); try (simplify_eq; left; lia).
    right. simplify_eq. split; [done|].
    destruct (str_ltb (rr_MemoryID c) (rr_MemoryID a)) eqn:E; [|done].
    destruct (str_ltb (rr_MemoryID b) (rr_MemoryID c)) eqn:E2.
    + by rewrite (str_ltb_trans _ _ _ E2 E) in H1'.
    + pose proof (str_ltb_antisym _ _ E2 H2') as Heq. congruence.
  - intros a b. rewrite !key_less_cases. unfold key_ltb.
    destruct (f_key (rr_Score a)) as [[a1 a2] a3], (f_key (rr_Score b)) as [[b1 b2] b3]; cbn [fst snd].
    destruct (decide ((a1, a2, a3) = (b1, b2, b3))) as [E|E].
    + injection E as -> -> ->. destruct (str_ltb (rr_MemoryID b) (rr_MemoryID a)) eqn:E1; [|left; by right].
      right. right. by rewrite (str_ltb_asym _ _ E1).
    + assert (Hd : (a1 <> b1 \/ a2 <> b2 \/ a3 <> b3)%Z) by (apply key_differs; done).
      destruct ((b1 <? a1) || ((b1 =? a1) && ((b2 <? a2) || ((b2 =? a2) && (b3 <? a3))))) eqn:E1; [left; by left|].
      right. left. lia.
Qed.

Lemma sortResults_key results : scored results -> sortResults results = slices_SortFunc (compare_by key_less) results.
Proof.
  unfold scored. rewrite Forall_forall. intros H. apply SortFunc_ext. intros a b Ha Hb. unfold compare_by.
  by rewrite !result_less_key by auto.
Qed.

(** Best first, ties by ID. *)
Definition ranked (results : list RetrievalResult) : Prop :=
  StronglySorted (fun a b => result_less b a = false) results.

Lemma sortResults_ranked results : scored results -> ranked (sortResults results).
Proof.
  intros H. assert (Hs : scored (sortResults results)) by (unfold scored, sortResults; by rewrite SortFunc_perm).
  pose proof (SortFunc_sorted (compare_by key_less) results _) as HS. rewrite <- sortResults_key in HS by done.
  unfold ranked. revert HS Hs. generalize (sortResults results) as l. clear.
  induction 1 as [|a l HS IH Ha]; intros Hl; constructor.
  - apply IH. by inversion Hl.
  - apply Forall_cons in Hl as [Ha' Hl]. rewrite Forall_forall in *. intros b Hb.
    specialize (Ha b Hb). unfold cmp_le in Ha. rewrite result_less_key by auto.
    unfold compare_by in Ha. destruct (key_less b a) eqn:E; [|done].
    destruct (key_less a b) eqn:E2; [|done]. by rewrite (key_less_asym _ _ E) in E2.
Qed.

(** Results with IDs of their own are ranked in one way only. *)
Lemma sortResults_unique results results' :
  scored results -> NoDup (rr_MemoryID <$> results) -> results' ≡ₚ results -> sortResults results' = sortResults results.
Proof.
  intros Hs Hnd Hp. assert (Hs' : scored results') by (unfold scored; by rewrite Hp).
  rewrite (sortResults_key results), (sortResults_key results') by done.
  apply SortFunc_unique; [apply _| |apply SortFunc_sorted, _|by rewrite SortFunc_perm].
  intros a b Ha Hb. unfold cmp_le. rewrite !key_less_cases. intros H1 H2.
  assert (rr_MemoryID a = rr_MemoryID b) as Hid.
  { unfold key_ltb in *.
    destruct (f_key (rr_Score a)) as [[a1 a2] a3], (f_key (rr_Score b)) as [[b1 b2] b3]; cbn [fst snd] in *.
    destruct H1 as [H1|[H1 H1']], H2 as [H2|[H2 H2']]; simplify_eq; try lia. by apply str_ltb_antisym. }
  apply elem_of_Permutation in Ha as [l Hl]. rewrite Hl in Hnd, Hb. simpl in Hnd.
  apply NoDup_cons in Hnd as [Hnd _]. apply elem_of_cons in Hb as [->|Hb]; [done|].
  destruct Hnd. rewrite Hid. by apply list_elem_of_fmap_2.
Qed.

(** ** Fusion *)

(** The ranks, from [n], at which a list has an ID. *)
Fixpoint ranks_from (n : nat) (id : string) (results : list RetrievalResult) : list nat :=
  match results with
  | [] => []
  | r :: results => if rr_MemoryID r == id then n :: ranks_from (S n) id results else ranks_from (S n) id results
  end.

(** The sum of [1/(k+rank+1)] over the ranks, in this order; none without a rank. *)
Definition add_rank (k : float64) (score : option float64) (rank : nat) : option float64 :=
  Some (match score with Some score => f_add score (reciprocal_rank k rank) | None => reciprocal_rank k rank end).

Definition rank_score (k : float64) (lexical semantic : list RetrievalResult) (id : string) : option float64 :=
  fold_left (add_rank k) (ranks_from 0 id lexical ++ ranks_from 0 id semantic) None.

Definition fusion_constant (K : float64) : float64 := if f_eqb K f_zero then f_of_int 60 else K.

Lemma accumulate_score k s n results combined id :
  rr_Score <$> accumulate k s n results combined !! id =
  fold_left (add_rank k) (ranks_from n id results) (rr_Score <$> combined !! id).
Proof.
  revert n combined. induction results as [|r results IH]; intros n combined; [done|].
  cbn [accumulate ranks_from]. rewrite IH. unfold fuse_one. case_bool_decide as E.
  - subst id. cbn [fold_left]. f_equal. unfold add_rank.
    destruct (combined !! rr_MemoryID r) as [x|]; rewrite lookup_insert_eq; by destruct s.
  - f_equal. destruct (combined !! rr_MemoryID r) as [x|]; by rewrite lookup_insert_ne.
Qed.

Lemma ranks_from_nil n id results : ranks_from n id results = [] <-> id ∉ rr_MemoryID <$> results.
Proof.
  revert n. induction results as [|r results IH]; intros n; cbn [ranks_from fmap list_fmap]; [set_solver|].
  case_bool_decide; [set_solver|]. rewrite IH. set_solver.
Qed.

(** What fusion keeps of a result: its memory, and the ID it is filed under. *)
Lemma accumulate_kept k s n results combined :
  map_Forall (fun id r => rr_MemoryID r = id /\ rr_FusedScore r = rr_Score r) combined ->
  map_Forall (fun id r => rr_MemoryID r = id /\ rr_FusedScore r = rr_Score r) (accumulate k s n results combined).
Proof.
  revert n combined. induction results as [|r results IH]; intros n combined H; [done|].
  cbn [accumulate]. apply IH. unfold fuse_one. destruct (combined !! rr_MemoryID r) as [x|] eqn:E.
  - apply H in E as [E _]. apply map_Forall_insert_2; [|done]. by destruct s.
  - apply map_Forall_insert_2; [|done]. by destruct s.
Qed.

Definition same_memory (a b : RetrievalResult) : Prop := rr_MemoryID a = rr_MemoryID b /\ rr_Memory a = rr_Memory b.

Lemma accumulate_memory k s n results combined (known : list RetrievalResult) :
  map_Forall (fun _ r => Exists (same_memory r) known) combined ->
  map_Forall (fun _ r => Exists (same_memory r) (known ++ results)) (accumulate k s n results combined).
Proof.
  revert n combined known. induction results as [|r results IH]; intros n combined known H; [by rewrite app_nil_r|].
  cbn [accumulate]. rewrite (cons_middle r known results), app_assoc. apply IH.
  assert (Hmono : forall x, Exists (same_memory x) known -> Exists (same_memory x) (known ++ [r]))
    by (intros x ?; apply Exists_app; by left).
  unfold fuse_one. destruct (combined !! rr_MemoryID r) as [x|] eqn:E; apply map_Forall_insert_2.
  - apply Hmono. apply H in E. eapply Exists_impl; [exact E|]. intros y [? ?]. by destruct s.
  - intros i y Hy. apply Hmono. by apply (H i).
  - apply Exists_app. right. constructor. by destruct s.
  - intros i y Hy. apply Hmono. by apply (H i).
Qed.

Section fuse.
Context (K : float64) (lexical semantic : list RetrievalResult).

Definition fused_map : gmap string RetrievalResult :=
  accumulate (fusion_constant K) SourceSemantic 0 semantic (accumulate (fusion_constant K) SourceLexical 0 lexical ∅).

Lemma fused_map_score id : rr_Score <$> fused_map !! id = rank_score (fusion_constant K) lexical semantic id.
Proof. unfold fused_map, rank_score. by rewrite !accumulate_score, lookup_empty, fold_left_app. Qed.

Lemma fused_map_kept : map_Forall (fun id r => rr_MemoryID r = id /\ rr_FusedScore r = rr_Score r) fused_map.
Proof. do 2 apply accumulate_kept. apply map_Forall_empty. Qed.

Lemma Fuse_perm `{MO : MapOrder} : Fuse K lexical semantic ≡ₚ map_values fused_map.
Proof. unfold Fuse, sortResults. by rewrite SortFunc_perm. Qed.

Lemma fused_ids `{MO : MapOrder} : rr_MemoryID <$> map_values fused_map = (map_range fused_map).*1.
Proof.
  unfold map_values. rewrite <- list_fmap_compose. apply list_fmap_ext. intros i [id r] Hi. simpl.
  apply list_elem_of_lookup_2, elem_of_map_range, fused_map_kept in Hi. tauto.
Qed.

Lemma fused_values `{MO : MapOrder} r :
  r ∈ Fuse K lexical semantic <-> fused_map !! rr_MemoryID r = Some r.
Proof.
  rewrite Fuse_perm, elem_of_map_values. split; [|eauto]. intros [id Hid].
  pose proof (fused_map_kept _ _ Hid) as [-> _]. done.
Qed.
End fuse.

Lemma fold_add_rank_Some k ranks score : is_Some (fold_left (add_rank k) ranks (Some score)).
Proof. revert score. induction ranks; simpl; eauto. Qed.

Lemma rank_score_Some k lexical semantic id :
  is_Some (rank_score k lexical semantic id) <-> id ∈ rr_MemoryID <$> lexical ++ semantic.
Proof.
  unfold rank_score. rewrite fmap_app, elem_of_app.
  pose proof (ranks_from_nil 0 id lexical) as HL. pose proof (ranks_from_nil 0 id semantic) as HS.
  destruct (decide (id ∈ rr_MemoryID <$> lexical)), (decide (id ∈ rr_MemoryID <$> semantic));
    destruct (ranks_from 0 id lexical) eqn:E1, (ranks_from 0 id semantic) eqn:E2; simpl;
    pose proof fold_add_rank_Some; pose proof (@is_Some_None float64); naive_solver.
Qed.

Lemma Fuse_ids_NoDup `{MO : MapOrder} K lexical semantic : NoDup (rr_MemoryID <$> Fuse K lexical semantic).
Proof. rewrite Fuse_perm, fused_ids. apply NoDup_map_range_keys. Qed.

Lemma fused_id `{MO : MapOrder} K lexical semantic id :
  id ∈ rr_MemoryID <$> Fuse K lexical semantic <-> id ∈ rr_MemoryID <$> lexical ++ semantic.
Proof.
  rewrite <- (rank_score_Some (fusion_constant K)), <- fused_map_score, fmap_is_Some, list_elem_of_fmap.
  split; [intros (r & -> & Hr%fused_values); eauto|]. intros [r Hr].
  pose proof (fused_map_kept _ _ _ _ _ Hr) as [Hid _]. exists r. split; [done|]. apply fused_values. by rewrite Hid.
Qed.

(** Reciprocal rank fusion: every memory of the two lists is in the
    outcome once and no other is, with the memory of one of its results; its
    score is the sum over both lists of one over the fusion constant plus its
    rank; and when no score is NaN the outcome is ranked best first, ties by
    ID, and does not depend on the order in which Go ranges over the map. *)
Theorem Fuse_spec `{MO : MapOrder} K lexical semantic :
  NoDup (rr_MemoryID <$> Fuse K lexical semantic) /\
  (forall id, id ∈ rr_MemoryID <$> Fuse K lexical semantic <-> id ∈ rr_MemoryID <$> lexical ++ semantic) /\
  (forall r, r ∈ Fuse K lexical semantic ->
    rank_score (fusion_constant K) lexical semantic (rr_MemoryID r) = Some (rr_Score r) /\
    rr_FusedScore r = rr_Score r /\ Exists (same_memory r) (lexical ++ semantic)) /\
  (scored (Fuse K lexical semantic) ->
    ranked (Fuse K lexical semantic) /\
    (forall MO' : MapOrder, Fuse (MO := MO') K lexical semantic = Fuse (MO := MO) K lexical semantic)).
Proof.
  assert (Hnd : NoDup (rr_MemoryID <$> map_values (fused_map K lexical semantic)))
    by (rewrite fused_ids; apply NoDup_map_range_keys).
  split_and!.
  - apply Fuse_ids_NoDup.
  - apply fused_id.
  - intros r Hr%fused_values. split_and!.
    + by rewrite <- fused_map_score, Hr.
    + by apply (fused_map_kept _ _ _ _ _ Hr).
    + assert (Hm : map_Forall (fun _ r => Exists (same_memory r) ([] ++ lexical ++ semantic)) (fused_map K lexical semantic))
        by (rewrite app_assoc; do 2 apply accumulate_memory; apply map_Forall_empty).
      by apply (Hm _ _ Hr).
  - intros Hs. assert (Hs' : scored (map_values (fused_map K lexical semantic))).
    { unfold scored in *. by rewrite Fuse_perm in Hs. }
    split; [by apply sortResults_ranked|]. intros MO'. apply sortResults_unique; [exact Hs'|exact Hnd|].
    unfold map_values. apply fmap_Permutation. etrans; [apply map_range_perm|]. symmetry. apply map_range_perm.
Qed.

(** ** Rejection *)

(** The gates of [Reject], in the order they are tried. *)
Definition low_fused_score (threshold : float64) (r : RetrievalResult) : bool :=
  f_ltb (rr_FusedScore (with_fused_score r)) threshold.
Definition low_confidence (policy : FreshnessPolicy) (r : RetrievalResult) : bool :=
  fpl_RejectLowConfidence policy && f_ltb (mc_Score (mm_Confidence (rr_Memory r))) (fpl_LowConfidenceFloor policy).
Definition stale_episodic (policy : FreshnessPolicy) (now : time) (r : RetrievalResult) : bool :=
  (0 <? fpl_EpisodicMaxAge policy) && (mm_Kind (rr_Memory r) == MemoryKindEpisodic) &&
  negb (IsZero (mm_UpdatedAt (rr_Memory r))) && (fpl_EpisodicMaxAge policy <? Sub now (mm_UpdatedAt (rr_Memory r))).

Definition verdict (threshold : float64) (policy : FreshnessPolicy) (now : time) (r : RetrievalResult) : option string :=
  if low_fused_score threshold r then Some "low_fused_score"
  else if low_confidence policy r then Some "low_confidence"
  else if stale_episodic policy now r then Some "stale_episodic"
  else None.

(** What the policy leaves alone. *)
Definition same_candidate (a b : RetrievalResult) : Prop :=
  rr_MemoryID a = rr_MemoryID b /\ rr_Score a = rr_Score b /\ rr_LexicalScore a = rr_LexicalScore b /\
  rr_SemanticScore a = rr_SemanticScore b /\ rr_Reason a = rr_Reason b /\ rr_Selected a = rr_Selected b /\
  rr_MatchedTerms a = rr_MatchedTerms b /\ rr_Memory a = rr_Memory b.

Lemma with_fused_score_candidate r : same_candidate (with_fused_score r) r /\ rr_Rejected (with_fused_score r) = rr_Rejected r
  /\ rr_RejectionRule (with_fused_score r) = rr_RejectionRule r.
Proof. unfold with_fused_score, same_candidate. case_match; done. Qed.

Lemma reject_one_spec threshold policy now r :
  let r' := reject_one threshold policy now r in
  same_candidate r' r /\
  rr_Rejected r' = is_set (verdict threshold policy now r) || rr_Rejected r /\
  rr_RejectionRule r' = default (rr_RejectionRule r) (verdict threshold policy now r).
Proof.
  cbv zeta. destruct (with_fused_score_candidate r) as (Hc & Hr & Hrule).
  unfold reject_one, verdict, low_fused_score, low_confidence, stale_episodic.
  assert (Hm : rr_Memory (with_fused_score r) = rr_Memory r) by apply Hc. rewrite Hm.
  destruct (f_ltb (rr_FusedScore (with_fused_score r)) threshold); [done|].
  destruct (fpl_RejectLowConfidence policy && _); [done|].
  destruct ((0 <? fpl_EpisodicMaxAge policy) && _ && _); [|done].
  destruct (fpl_EpisodicMaxAge policy <? _); done.
Qed.

Lemma Reject_nonempty p now query results :
  results <> [] ->
  Reject p now query results =
  reject_one (rejection_threshold p (rpl_FreshnessPolicy (resolvePolicy p query)))
    (rpl_FreshnessPolicy (resolvePolicy p query)) now <$> results.
Proof. intros Hne. unfold Reject. by destruct results. Qed.

(** The rejection policy rejects a candidate exactly when its fused score
    is below the threshold, or its confidence below the floor where the policy
    has one, or it is an episodic memory older than the policy allows; the
    rule names the first of these that applies, in this order.  It neither
    drops nor reorders nor changes the candidates otherwise, and answers an
    empty list with one rejected placeholder. *)
Theorem Reject_spec p now query results :
  let policy := rpl_FreshnessPolicy (resolvePolicy p query) in
  let threshold := rejection_threshold p policy in
  (results <> [] ->
    Forall2 (fun r r' =>
      same_candidate r' r /\
      (rr_Rejected r' = true <->
        rr_Rejected r = true \/ low_fused_score threshold r = true \/ low_confidence policy r = true \/
        stale_episodic policy now r = true) /\
      rr_RejectionRule r' = default (rr_RejectionRule r) (verdict threshold policy now r))
      results (Reject p now query results)) /\
  (results = [] -> exists r, Reject p now query results = [r] /\ rr_Rejected r = true /\ rr_MemoryID r = "").
Proof.
  cbv zeta. split.
  - intros Hne. rewrite Reject_nonempty by done. clear Hne.
    set (policy := rpl_FreshnessPolicy _). set (threshold := rejection_threshold p policy).
    induction results as [|r results IH]; simpl; constructor; [|done].
    destruct (reject_one_spec threshold policy now r) as (H1 & H2 & H3). split_and!; [done| |done].
    rewrite H2, orb_true_iff. unfold verdict.
    destruct (low_fused_score threshold r), (low_confidence policy r), (stale_episodic policy now r); simpl; intuition.
  - intros ->. by eexists.
Qed.

(** ** Selection *)

Definition unselected (results : list RetrievalResult) : Prop := Forall (fun r => rr_Selected r = false) results.

Definition first_accepted (topK : Z) (results : list RetrievalResult) : list RetrievalResult :=
  let accepted := filter (fun r => acceptable r = true) results in
  if topK <=? 0 then accepted else take (Z.to_nat topK) accepted.

Lemma select_accepted_unlimited topK index results :
  topK <= 0 -> unselected results ->
  filter (fun r => rr_Selected r = true) (select_accepted topK index results) =
  (fun r => r <| rr_Selected := true |>) <$> filter (fun r => acceptable r = true) results.
Proof.
  intros HK. revert index. induction results as [|r results IH]; intros index Hu; [done|].
  apply Forall_cons in Hu as [Hr Hu]. cbn [select_accepted]. rewrite (filter_cons _ r). destruct (acceptable r) eqn:E.
  - rewrite decide_True by done. replace (0 <? topK) with false by lia. simpl.
    rewrite filter_cons_True by done. by rewrite IH.
  - rewrite decide_False by done. rewrite filter_cons_False by (by rewrite Hr). by apply IH.
Qed.

Lemma select_accepted_limited topK index results :
  0 < topK -> 0 <= index -> unselected results ->
  filter (fun r => rr_Selected r = true) (select_accepted topK index results) =
  (fun r => r <| rr_Selected := true |>) <$> take (Z.to_nat (topK - index)) (filter (fun r => acceptable r = true) results).
Proof.
  intros HK. revert index. induction results as [|r results IH]; intros index Hi Hu; [by destruct (Z.to_nat _)|].
  apply Forall_cons in Hu as [Hr Hu]. cbn [select_accepted]. rewrite (filter_cons _ r). destruct (acceptable r) eqn:E.
  - rewrite decide_True by done. replace (0 <? topK) with true by lia. simpl.
    destruct (topK <=? index) eqn:EK.
    + rewrite filter_cons_False by (by rewrite Hr). rewrite IH by (done || lia).
      by replace (Z.to_nat (topK - (index + 1))) with 0%nat by lia;
        replace (Z.to_nat (topK - index)) with 0%nat by lia.
    + rewrite filter_cons_True by done. rewrite IH by (done || lia).
      by replace (Z.to_nat (topK - index)) with (S (Z.to_nat (topK - (index + 1)))) by lia.
  - rewrite decide_False by done. rewrite filter_cons_False by (by rewrite Hr). by apply IH.
Qed.

Lemma no_acceptable results : existsb acceptable results = false -> filter (fun r => acceptable r = true) results = [].
Proof.
  induction results as [|r results IH]; simpl; [done|]. intros [E ?]%orb_false_iff.
  rewrite filter_cons_False by (by rewrite E). auto.
Qed.

Lemma selected_results topK results :
  unselected results ->
  filter (fun r => rr_Selected r = true) (select_results topK results) =
  (fun r => r <| rr_Selected := true |>) <$> first_accepted topK results.
Proof.
  intros Hu. unfold select_results, first_accepted. destruct (existsb acceptable results) eqn:E; simpl.
  - destruct (topK <=? 0) eqn:EK; [apply select_accepted_unlimited; [lia|done]|].
    rewrite select_accepted_limited by (done || lia). by rewrite Z.sub_0_r.
  - apply no_acceptable in E. rewrite E, take_nil. destruct results as [|r results]; [by destruct (topK <=? 0)|].
    case_bool_decide; [|simpl in *; lia].
    assert (Hc : filter (fun r => rr_Selected r = true) ((fun r => r <| rr_Selected := false |>) <$> r :: results) = []).
    { generalize (r :: results) as l. intros l. induction l as [|x l IH]; [done|]. simpl.
      by rewrite filter_cons_False. }
    replace (if topK <=? 0 then [] else []) with (@nil RetrievalResult) by (by destruct (topK <=? 0)).
    destruct (allCandidatesRejected _); [|done]. by rewrite filter_app, Hc.
Qed.

(** Retrieved results come neither rejected nor selected. *)
Definition fresh (r : RetrievalResult) : Prop := rr_Rejected r = false /\ rr_Selected r = false.

Lemma accumulate_fresh k s n results combined :
  Forall fresh results -> map_Forall (fun _ r => fresh r) combined ->
  map_Forall (fun _ r => fresh r) (accumulate k s n results combined).
Proof.
  revert n combined. induction results as [|r results IH]; intros n combined Hr H; [done|].
  apply Forall_cons in Hr as [Hr Hrs]. cbn [accumulate]. apply IH; [done|]. unfold fuse_one.
  destruct (combined !! rr_MemoryID r) as [x|] eqn:E.
  - apply H in E. apply map_Forall_insert_2; [|done]. by destruct s.
  - apply map_Forall_insert_2; [|done]. by destruct s.
Qed.

Lemma Fuse_fresh `{MO : MapOrder} K lexical semantic :
  Forall fresh (lexical ++ semantic) -> Forall fresh (Fuse K lexical semantic).
Proof.
  rewrite Forall_app. intros [Hl Hs]. apply Forall_forall. intros r Hr%fused_values.
  assert (H : map_Forall (fun _ r => fresh r) (fused_map K lexical semantic)).
  { do 2 (apply accumulate_fresh; [done|]). apply map_Forall_empty. }
  by apply (H _ _ Hr).
Qed.

(** Reranking permutes and changes only scores and reasons. *)
Definition rerank_one (tokens : list string) (r : RetrievalResult) : RetrievalResult :=
  if containsAllTokens (ToLower (mm_Summary (rr_Memory r))) tokens
  then r <| rr_Score := f_add (rr_Score r) (f_const 2 10) |> <| rr_Reason := rr_Reason r +:+ "+summary_boost" |>
  else r.

Lemma Rerank_perm query results : Rerank query results ≡ₚ rerank_one (queryTokens query) <$> results.
Proof. unfold Rerank, sortResults. by rewrite SortFunc_perm. Qed.

Lemma Rerank_keeps {A} (f : RetrievalResult -> A) query results :
  (forall tokens r, f (rerank_one tokens r) = f r) -> f <$> Rerank query results ≡ₚ f <$> results.
Proof.
  intros H. rewrite Rerank_perm, <- list_fmap_compose. apply reflexive_eq, list_fmap_ext.
  intros i r _. apply H.
Qed.

Lemma Rerank_fresh query results : Forall fresh results -> Forall fresh (Rerank query results).
Proof.
  intros H. rewrite Rerank_perm. apply Forall_fmap. eapply Forall_impl; [exact H|]. intros r [? ?].
  unfold compose, rerank_one, fresh. by case_match.
Qed.

Section hybrid.
Context `{MO : MapOrder} (K : float64) (p : ThresholdRejectionPolicy) (lex sem : HybridRetriever).

(** The hybrid retriever with the package's fusion, reranking and rejection. *)
Definition hybrid : HybridMemoryRetriever :=
  mkHybridMemoryRetriever lex sem (ReciprocalRankFusion K) BaselineReranker (ThresholdRejection p).

(** The candidates as the policy judged them, best first. *)
Definition judged (query : RetrievalQuery) (now : time) (lexical semantic : list RetrievalResult) : list RetrievalResult :=
  Reject p now query (Rerank query (Fuse K lexical semantic)).

Definition expanded (query : RetrievalQuery) : RetrievalQuery :=
  query <| rq_TopK := retrievalCandidateWindow (rq_TopK query) |>.

Lemma Hybrid_Retrieve_run query w w1 w2 lexical semantic :
  lex (expanded query) w = (w1, Ok lexical) -> sem (expanded query) w1 = (w2, Ok semantic) ->
  Hybrid_Retrieve hybrid query w =
  (w2 <| mem_reads := S (mem_reads w2) |>,
   Ok (select_results (rq_TopK query) (judged query (mem_clock w2 (mem_reads w2)) lexical semantic))).
Proof.
  intros Hl Hs. unfold Hybrid_Retrieve. fold (expanded query).
  erewrite run_bind_Ok by exact Hl. erewrite run_bind_Ok by exact Hs. reflexivity.
Qed.
End hybrid.

Lemma Reject_unselected p now query results : Forall fresh results -> unselected (Reject p now query results).
Proof.
  intros H. destruct (decide (results = [])) as [->|Hne]; [by repeat constructor|].
  rewrite Reject_nonempty by done.
  unfold unselected. apply Forall_fmap. eapply Forall_impl; [exact H|]. intros r [_ Hr]. unfold compose.
  destruct (reject_one_spec (rejection_threshold p (rpl_FreshnessPolicy (resolvePolicy p query)))
    (rpl_FreshnessPolicy (resolvePolicy p query)) now r) as [(_ & _ & _ & _ & _ & -> & _) _]. done.
Qed.

Lemma judged_ids `{MO : MapOrder} K p query now lexical semantic :
  Fuse K lexical semantic <> [] ->
  rr_MemoryID <$> judged K p query now lexical semantic ≡ₚ rr_MemoryID <$> Fuse K lexical semantic.
Proof.
  intros Hne. unfold judged. rewrite Reject_nonempty.
  - rewrite <- list_fmap_compose. rewrite <- (Rerank_keeps rr_MemoryID query) by (intros; unfold rerank_one; by case_match).
    apply reflexive_eq, list_fmap_ext. intros i r _. unfold compose.
    edestruct reject_one_spec as [(-> & _) _]. done.
  - intros E. pose proof (Rerank_perm query (Fuse K lexical semantic)) as HP. rewrite E in HP.
    apply Permutation_nil_l in HP. by destruct (Fuse K lexical semantic).
Qed.

Lemma first_accepted_sublist topK results : first_accepted topK results `sublist_of` filter (fun r => acceptable r = true) results.
Proof. unfold first_accepted. case_match; [done|]. apply sublist_take. Qed.

Lemma judged_accepted `{MO : MapOrder} K p query now lexical semantic r :
  r ∈ judged K p query now lexical semantic -> acceptable r = true ->
  exists c, c ∈ Rerank query (Fuse K lexical semantic) /\ same_candidate r c /\
    verdict (rejection_threshold p (rpl_FreshnessPolicy (resolvePolicy p query)))
      (rpl_FreshnessPolicy (resolvePolicy p query)) now c = None.
Proof.
  unfold judged. destruct (decide (Rerank query (Fuse K lexical semantic) = [])) as [->|Hne].
  - intros [->|[]%elem_of_nil]%elem_of_cons. done.
  - rewrite Reject_nonempty by done. intros (c & -> & Hc)%list_elem_of_fmap Ha. exists c. split; [done|].
    revert Ha. generalize (rejection_threshold p (rpl_FreshnessPolicy (resolvePolicy p query))) as threshold.
    generalize (rpl_FreshnessPolicy (resolvePolicy p query)) as policy. intros policy threshold H.
    destruct (reject_one_spec threshold policy now c) as (Hsame & Hrej & _). split; [exact Hsame|].
    revert H. unfold acceptable. rewrite Hrej. by destruct (verdict threshold policy now c).
Qed.

(** C36: Hybrid retrieval with the package's fusion, reranking and rejection,
    whatever the two retrievers answer: the selected results are the first
    [TopK] accepted ones (all of them when [TopK] is not positive) of the
    judged candidates in rank order; each is a memory a retriever found and
    passed every gate of the policy; no memory is selected twice. *)
Theorem hybrid_selection `{MO : MapOrder} K p lex sem query w w1 w2 lexical semantic :
  lex (expanded query) w = (w1, Ok lexical) -> sem (expanded query) w1 = (w2, Ok semantic) ->
  Forall fresh (lexical ++ semantic) ->
  let now := mem_clock w2 (mem_reads w2) in
  let candidates := judged K p query now lexical semantic in
  let policy := rpl_FreshnessPolicy (resolvePolicy p query) in
  exists w' out, Hybrid_Retrieve (hybrid K p lex sem) query w = (w', Ok out) /\
    let selected := filter (fun r => rr_Selected r = true) out in
    selected = (fun r => r <| rr_Selected := true |>) <$> first_accepted (rq_TopK query) candidates /\
    (0 < rq_TopK query -> Z.of_nat (length selected) <= rq_TopK query) /\
    NoDup (rr_MemoryID <$> selected) /\
    (forall r, r ∈ selected -> rr_MemoryID r ∈ rr_MemoryID <$> lexical ++ semantic /\
      exists c, c ∈ Rerank query (Fuse K lexical semantic) /\ rr_MemoryID c = rr_MemoryID r /\
        verdict (rejection_threshold p policy) policy now c = None).
Proof.
  intros Hl Hs Hfresh now candidates policy.
  eexists _, _. split; [exact (Hybrid_Retrieve_run K p lex sem query w w1 w2 lexical semantic Hl Hs)|].
  intros selected. unfold selected. clear selected.
  assert (Hu : unselected candidates) by (apply Reject_unselected, Rerank_fresh, Fuse_fresh, Hfresh).
  rewrite selected_results by exact Hu. fold candidates.
  pose proof (first_accepted_sublist (rq_TopK query) candidates) as Hsub.
  assert (Hids : forall l, rr_MemoryID <$> ((fun r => r <| rr_Selected := true |>) <$> l) = rr_MemoryID <$> l)
    by (intros l; rewrite <- list_fmap_compose; by apply list_fmap_ext).
  split_and!; [done| | |].
  - intros HK. rewrite length_fmap. unfold first_accepted. destruct (Z.leb_spec (rq_TopK query) 0); [lia|].
    rewrite length_take. lia.
  - rewrite Hids. eapply sublist_NoDup; [|apply fmap_sublist, Hsub].
    apply NoDup_fmap_filter. unfold candidates. destruct (decide (Fuse K lexical semantic = [])) as [E|Hne].
    + unfold judged. rewrite E. by apply NoDup_singleton.
    + rewrite judged_ids by done. apply Fuse_ids_NoDup.
  - intros r (x & -> & Hx)%list_elem_of_fmap. eapply elem_of_sublist in Hx; [|exact Hsub].
    apply list_elem_of_filter in Hx as [Ha Hx].
    destruct (judged_accepted _ _ _ _ _ _ _ Hx Ha) as (c & Hc & (Hid & _) & Hv).
    split; [|exists c; done]. change (rr_MemoryID (x <| rr_Selected := true |>)) with (rr_MemoryID x).
    rewrite Hid. apply (fused_id K lexical semantic). rewrite <- (Rerank_keeps rr_MemoryID query) by (intros; unfold rerank_one; by case_match).
    by apply list_elem_of_fmap_2.
Qed.

(** A memory both retrievers find, best in both, among three. *)
Definition sample_memory (id : string) : MemoryRecord := zero
  <| mm_ID := id |> <| mm_Kind := MemoryKindSemantic |> <| mm_Summary := "subscription review" |>
  <| mm_Confidence := {| mc_Score := f_const 9 10; mc_Rationale := "sample" |} |>.
Definition sample_result (id : string) (score : float64) : RetrievalResult := zero
  <| rr_MemoryID := id |> <| rr_Score := score |> <| rr_FusedScore := score |> <| rr_Memory := sample_memory id |>.
Definition sample_retriever (ids : list string) : HybridRetriever := fun _ => mret ((fun id => sample_result id (f_const 1 2)) <$> ids).
Definition sample_policy : ThresholdRejectionPolicy := mkThresholdRejectionPolicy f_zero zero None.

Lemma hybrid_selection_witness :
  exists w' out, Hybrid_Retrieve (hybrid (MO := canonical_order) f_zero sample_policy
    (sample_retriever ["m1"; "m2"]) (sample_retriever ["m3"; "m1"])) (zero <| rq_TopK := 1 |>) (memory_world (fun _ => 1)) = (w', Ok out) /\
  rr_MemoryID <$> filter (fun r => rr_Selected r = true) out = ["m1"].
Proof.
  destruct (hybrid_selection (MO := canonical_order) f_zero sample_policy (sample_retriever ["m1"; "m2"]) (sample_retriever ["m3"; "m1"])
    (zero <| rq_TopK := 1 |>) (memory_world (fun _ => 1)) _ _ _ _ eq_refl eq_refl) as (w' & out & Hrun & Hsel & _).
  { repeat constructor. }
  exists w', out. split; [exact Hrun|]. rewrite Hsel. vm_compute. reflexivity.
Defined.

(** ** Conflicts *)

Lemma dedupe_refs_ids {A} (id reason : A -> string) (why : string) seen items :
  Forall (fun a => reason a = why) items ->
  (forall x, x ∈ id <$> dedupe_refs id reason seen items <-> x ∈ id <$> items /\ x <> "" /\ (x +:+ "::" +:+ why) ∉ seen) /\
  NoDup (id <$> dedupe_refs id reason seen items).
Proof.
  assert (Hinj : forall x y, x +:+ "::" +:+ why = y +:+ "::" +:+ why -> x = y).
  { intros x y E. by apply (string_app_inj_r _ _ ("::" +:+ why)). }
  revert seen. induction items as [|a items IH]; intros seen Hw.
  { split; [|constructor]. intros x. simpl. rewrite elem_of_nil. tauto. }
  apply Forall_cons in Hw as [Ha Hw]. cbn [dedupe_refs]. rewrite Ha.
  destruct (bool_decide (id a = "") || bool_decide ((id a +:+ "::" +:+ why) ∈ seen)) eqn:E.
  - specialize (IH seen Hw) as [IH1 IH2]. split; [|done]. intros x. rewrite IH1. cbn [fmap list_fmap]. rewrite elem_of_cons.
    apply orb_true_iff in E as [E|E]; apply bool_decide_eq_true in E; naive_solver.
  - specialize (IH ((id a +:+ "::" +:+ why) :: seen) Hw) as [IH1 IH2].
    apply orb_false_iff in E as [E1 E2]. apply bool_decide_eq_false in E1, E2. cbn [fmap list_fmap]. split.
    + intros x. rewrite !elem_of_cons, IH1, not_elem_of_cons. destruct (decide (x = id a)) as [->|Hne]; [tauto|].
      assert (x +:+ "::" +:+ why <> id a +:+ "::" +:+ why) by (intros H; by apply Hinj in H). tauto.
    + constructor; [|done]. rewrite IH1, elem_of_cons. tauto.
Qed.

Lemma dedupe_refs_Forall {A} (id reason : A -> string) (P : A -> Prop) seen items :
  Forall P items -> Forall P (dedupe_refs id reason seen items).
Proof.
  revert seen. induction items as [|a items IH]; intros seen H; [done|]. apply Forall_cons in H as [Ha H].
  cbn [dedupe_refs]. case_match; [auto|constructor; auto].
Qed.

Lemma fold_conflicts {A} (keep : MemoryRecord -> bool) (test : MemoryRecord -> bool) (ref : MemoryRecord -> A) existing acc :
  fold_left (fun refs record => if negb (keep record) then refs else if test record then refs ++ [ref record] else refs) existing acc =
  acc ++ (ref <$> filter (fun r => keep r && test r = true) existing).
Proof.
  revert acc. induction existing as [|r existing IH]; intros acc; simpl; [by rewrite app_nil_r|].
  rewrite IH, filter_cons. destruct (keep r), (test r); simpl; try done. by rewrite <- app_assoc.
Qed.

(** Two records of one kind that give one key different values. *)
Definition contradicts (candidate record : MemoryRecord) : Prop :=
  mm_ID record <> mm_ID candidate /\ mm_Kind record = mm_Kind candidate /\
  exists fact existing, fact ∈ mm_Facts candidate /\ existing ∈ mm_Facts record /\
    mf_Key fact = mf_Key existing /\ mf_Value fact <> mf_Value existing.

Definition outdates (candidate record : MemoryRecord) : Prop :=
  mm_ID record <> mm_ID candidate /\ mm_Kind record = mm_Kind candidate /\
  ToLower (TrimSpace (mm_Summary record)) = ToLower (TrimSpace (mm_Summary candidate)) /\
  mm_UpdatedAt record < mm_UpdatedAt candidate.

Lemma other_record_spec candidate record :
  other_record candidate record = true <-> mm_ID record <> mm_ID candidate /\ mm_Kind record = mm_Kind candidate.
Proof. unfold other_record. rewrite negb_true_iff, orb_false_iff, negb_false_iff, bool_decide_eq_false, bool_decide_eq_true. done. Qed.

Lemma facts_conflict_spec candidate record :
  facts_conflict candidate record = true <->
  exists fact existing, fact ∈ mm_Facts candidate /\ existing ∈ mm_Facts record /\
    mf_Key fact = mf_Key existing /\ mf_Value fact <> mf_Value existing.
Proof.
  unfold facts_conflict. rewrite existsb_exists. setoid_rewrite existsb_exists.
  setoid_rewrite <- list_elem_of_In. setoid_rewrite andb_true_iff.
  setoid_rewrite negb_true_iff. setoid_rewrite bool_decide_eq_true. setoid_rewrite bool_decide_eq_false. naive_solver.
Qed.

Lemma elem_of_fmap_filter {A B} (f : A -> B) (b : A -> bool) (l : list A) x :
  x ∈ f <$> filter (fun a => b a = true) l <-> exists a, a ∈ l /\ b a = true /\ f a = x.
Proof. rewrite list_elem_of_fmap. setoid_rewrite list_elem_of_filter. naive_solver. Qed.

Lemma DetectConflicts_ids existing candidate :
  NoDup (cr_MemoryID <$> DetectConflicts existing candidate) /\
  forall id, id ∈ cr_MemoryID <$> DetectConflicts existing candidate <->
    id <> "" /\ exists record, record ∈ existing /\ mm_ID record = id /\ contradicts candidate record.
Proof.
  unfold DetectConflicts. rewrite fold_conflicts. cbn [app]. unfold dedupeConflictRefs.
  match goal with |- context [conflict_ref <$> ?l] =>
    destruct (dedupe_refs_ids cr_MemoryID cr_Reason "same fact key with different value" [] (conflict_ref <$> l)) as [Hids Hnd] end;
    [by apply Forall_fmap, Forall_true|]. split; [exact Hnd|].
  intros id. rewrite Hids, <- list_fmap_compose, elem_of_fmap_filter.
  setoid_rewrite andb_true_iff. setoid_rewrite other_record_spec. setoid_rewrite facts_conflict_spec.
  unfold contradicts, compose, conflict_ref. simpl. pose proof (@not_elem_of_nil string). naive_solver.
Qed.

Lemma DetectSupersedes_ids existing candidate :
  NoDup (su_MemoryID <$> DetectSupersedes existing candidate) /\
  forall id, id ∈ su_MemoryID <$> DetectSupersedes existing candidate <->
    id <> "" /\ exists record, record ∈ existing /\ mm_ID record = id /\ outdates candidate record.
Proof.
  unfold DetectSupersedes. rewrite fold_conflicts. cbn [app]. unfold dedupeSupersedesRefs.
  match goal with |- context [supersedes_ref <$> ?l] =>
    destruct (dedupe_refs_ids su_MemoryID su_Reason "same summary updated with newer evidence" [] (supersedes_ref <$> l)) as [Hids Hnd] end;
    [by apply Forall_fmap, Forall_true|]. split; [exact Hnd|].
  intros id. rewrite Hids, <- list_fmap_compose, elem_of_fmap_filter.
  setoid_rewrite andb_true_iff. setoid_rewrite other_record_spec.
  unfold outdates, compose, supersedes_ref, EqualFold, After. simpl.
  setoid_rewrite andb_true_iff. setoid_rewrite bool_decide_eq_true. setoid_rewrite Z.ltb_lt.
  pose proof (@not_elem_of_nil string). naive_solver.
Qed.

(** ** The write gate *)

Lemma valid_provenance record :
  MemoryRecord_Validate record = None ->
  bool_decide (ms_EvidenceIDs (mm_Source record) = []) && (ms_TaskID (mm_Source record) == "") &&
    (ms_WorkflowID (mm_Source record) == "") = false.
Proof.
  unfold MemoryRecord_Validate, MemorySource_Validate. rewrite !errors_Join_app, !errors_Join_err_if. intros H. tauto.
Qed.

(** A writer over the in-memory store, with the package's detectors and no embedding provider. *)
Record in_memory_writer `{MO : MapOrder} (wr : DefaultMemoryWriter) : Prop := {
  writes_to : wr_Store wr = Some InMemoryMemoryStore;
  no_committer : wr_Committer wr = None;
  no_provider : wr_EmbeddingProvider wr = None;
  own_conflicts : wr_ConflictDetector wr = None;
  own_supersedence : wr_SupersedenceDetector wr = None
}.

(** What the writer stores: the record with its times and references. *)
Definition stored_record `{MO : MapOrder} (wr : DefaultMemoryWriter) (w : MemoryWorld) (record : MemoryRecord) : MemoryRecord :=
  let at_ := mem_clock w (mem_reads w) in
  let record := record <| mm_UpdatedAt := at_ |> in
  let record := if IsZero (mm_CreatedAt record) then record <| mm_CreatedAt := at_ |> else record in
  annotate wr (slices_SortFunc (compare_by updated_later) (map_values (mem_records w))) record.

(** A field of the writer that is not set stands for its default. *)
Definition or_default (configured default : float64) : float64 :=
  if f_eqb configured f_zero then default else configured.

(** Valid, and confident enough: at least 0.75, or an episodic record of at
    least 0.55, where the writer configures no other bounds. *)
Definition admissible (wr : DefaultMemoryWriter) (record : MemoryRecord) : Prop :=
  let score := mc_Score (mm_Confidence record) in
  MemoryRecord_Validate record = None /\
  (f_ltb score (or_default (wr_MinConfidence wr) (f_const 75 100)) = false \/
   mm_Kind record = MemoryKindEpisodic /\
     f_leb (or_default (wr_LowConfidenceEpisodicFloor wr) (f_const 55 100)) score = true).

Lemma below_threshold_admissible wr record :
  admissible wr record <-> MemoryRecord_Validate record = None /\ below_threshold wr record = false.
Proof.
  unfold admissible, below_threshold, minConfidence, episodicFloor. fold (or_default (wr_MinConfidence wr) (f_const 75 100)).
  fold (or_default (wr_LowConfidenceEpisodicFloor wr) (f_const 55 100)). cbv zeta.
  rewrite andb_false_iff, negb_false_iff, andb_true_iff, bool_decide_eq_true. done.
Qed.

Lemma Write_rejected wr record w store :
  wr_Store wr = Some store -> ~ admissible wr record -> exists err, Write wr record w = (w, Err err).
Proof.
  intros Hs Hn. unfold Write. rewrite Hs. destruct (MemoryRecord_Validate record) as [err|] eqn:E; [by eexists|].
  case_match; [by eexists|]. destruct (below_threshold wr record) eqn:E2; [by eexists|].
  by destruct Hn; apply below_threshold_admissible.
Qed.

Lemma Write_accepted `{MO : MapOrder} wr record w :
  in_memory_writer wr -> admissible wr record ->
  let stored := stored_record wr w record in
  Write wr record w =
  (w <| mem_reads := S (S (mem_reads w)) |> <| mem_records := <[mm_ID stored := stored]> (mem_records w) |>
     <| mem_entries := mem_entries w ++ (if wr_AuditLog wr then [write_audit stored (mem_clock w (S (mem_reads w)))] else []) |>, Ok tt).
Proof.
  intros [Hs Hc Hp _ _] [Hv Hb]%below_threshold_admissible. cbv zeta. unfold Write. rewrite Hs, Hv, (valid_provenance _ Hv), Hb.
  unfold committer, prepareWrite. rewrite Hc, Hp. destruct wr as [? ? ? ? ? ? ? ? log]. destruct w, log; try reflexivity.
  cbn. by rewrite app_nil_r.
Qed.

(** A writer over the store keeps what the caller says, and dates it. *)
Lemma stored_keeps `{MO : MapOrder} wr w record :
  let stored := stored_record wr w record in
  mm_ID stored = mm_ID record /\ mm_Kind stored = mm_Kind record /\ mm_Facts stored = mm_Facts record /\
  mm_Summary stored = mm_Summary record /\ mm_Confidence stored = mm_Confidence record /\
  mm_Source stored = mm_Source record /\ mm_UpdatedAt stored = mem_clock w (mem_reads w).
Proof. unfold stored_record. destruct (IsZero (mm_CreatedAt _)); done. Qed.

Lemma known_records `{MO : MapOrder} w (P : MemoryRecord -> Prop) :
  (exists r, r ∈ slices_SortFunc (compare_by updated_later) (map_values (mem_records w)) /\ P r) <->
  (exists key r, mem_records w !! key = Some r /\ P r).
Proof. setoid_rewrite elem_of_SortFunc. setoid_rewrite elem_of_map_values. naive_solver. Qed.

Lemma stored_conflicts `{MO : MapOrder} wr w record :
  wr_ConflictDetector wr = None -> mm_Conflicts record = [] ->
  NoDup (cr_MemoryID <$> mm_Conflicts (stored_record wr w record)) /\
  forall id, id ∈ cr_MemoryID <$> mm_Conflicts (stored_record wr w record) <->
    id <> "" /\ exists key other, mem_records w !! key = Some other /\ mm_ID other = id /\ contradicts record other.
Proof.
  intros Hd Hn. set (record' := if IsZero (mm_CreatedAt record)
    then (record <| mm_UpdatedAt := mem_clock w (mem_reads w) |>) <| mm_CreatedAt := mem_clock w (mem_reads w) |>
    else record <| mm_UpdatedAt := mem_clock w (mem_reads w) |>).
  assert (Hc : mm_Conflicts (stored_record wr w record) = dedupeConflictRefs
    (DetectConflicts (slices_SortFunc (compare_by updated_later) (map_values (mem_records w))) record')).
  { unfold stored_record, annotate, conflictDetector, record'. rewrite Hd. simpl. destruct (IsZero (mm_CreatedAt record)); simpl; by rewrite Hn. }
  assert (Hsame : forall other, contradicts record' other <-> contradicts record other)
    by (intros; unfold contradicts, record'; by destruct (IsZero _)).
  rewrite Hc. set (existing := slices_SortFunc _ _) in *.
  destruct (DetectConflicts_ids existing record') as [Hnd Hids].
  assert (Hw : Forall (fun c => cr_Reason c = "same fact key with different value") (DetectConflicts existing record')).
  { unfold DetectConflicts. rewrite fold_conflicts. apply dedupe_refs_Forall, Forall_fmap, Forall_true. done. }
  destruct (dedupe_refs_ids cr_MemoryID cr_Reason _ [] _ Hw) as [Hd1 Hd2]. split; [exact Hd2|].
  intros id. rewrite Hd1, Hids. setoid_rewrite <- Hsame.
  pose proof (known_records w (fun r => mm_ID r = id /\ contradicts record' r)) as Hk. fold existing in Hk.
  pose proof (@not_elem_of_nil string). naive_solver.
Qed.

(** C37: The write gate over the in-memory store: a record is written exactly
    when it is valid and its confidence is not below the threshold (an
    episodic record passes from the lower floor on), and a rejected one leaves
    the store and the log as they were.  A written record replaces the one
    of its ID, is dated by the clock, and one that names no conflicts itself
    refers to every other stored record of its kind that gives one of its keys
    another value, each once, and to nothing else. *)
Theorem Write_gate `{MO : MapOrder} wr record w :
  in_memory_writer wr ->
  (~ admissible wr record -> exists err, Write wr record w = (w, Err err)) /\
  (admissible wr record ->
    exists w' stored, Write wr record w = (w', Ok tt) /\
      mem_records w' = <[mm_ID record := stored]> (mem_records w) /\
      (mm_ID stored = mm_ID record /\ mm_Kind stored = mm_Kind record /\ mm_Facts stored = mm_Facts record /\
       mm_Summary stored = mm_Summary record /\ mm_Confidence stored = mm_Confidence record /\
       mm_Source stored = mm_Source record /\ mm_UpdatedAt stored = mem_clock w (mem_reads w)) /\
      (exists audit, maa_MemoryID audit = mm_ID record /\
        mem_entries w' = mem_entries w ++ (if wr_AuditLog wr then [audit] else [])) /\
      (mm_Conflicts record = [] ->
        NoDup (cr_MemoryID <$> mm_Conflicts stored) /\
        forall id, id ∈ cr_MemoryID <$> mm_Conflicts stored <->
          id <> "" /\ exists key other, mem_records w !! key = Some other /\ mm_ID other = id /\ contradicts record other)).
Proof.
  intros Hwr. split; [intros Hn; by eapply Write_rejected, Hn; apply Hwr|]. intros Ha.
  pose proof (stored_keeps wr w record) as Hk. pose proof (proj1 Hk) as Hid.
  eexists _, (stored_record wr w record). split; [by apply Write_accepted|].
  split_and!; try apply Hk.
  - cbn. by rewrite <- Hid.
  - eexists. split; [|reflexivity]. exact Hid.
  - intros Hc. by apply stored_conflicts; [apply own_conflicts|].
Qed.

Definition sample_writer `{MO : MapOrder} : DefaultMemoryWriter :=
  mkDefaultMemoryWriter (Some InMemoryMemoryStore) None None None None None None "" true None None f_zero f_zero.

Definition sample_record (id value : string) (createdAt : time) : MemoryRecord := sample_memory id
  <| mm_Facts := [{| mf_Key := "rent"; mf_Value := value; mf_EvidenceID := "" |}] |>
  <| mm_Source := zero <| ms_TaskID := "t1" |> |> <| mm_CreatedAt := createdAt |>.

Lemma Write_gate_witness :
  exists w' stored, Write (sample_writer (MO := canonical_order)) (sample_record "m2" "900" 5)
      (memory_world (fun _ => 7) <| mem_records := {["m1" := sample_record "m1" "800" 3]} |>) = (w', Ok tt) /\
    mem_records w' !! "m2" = Some stored /\ "m1" ∈ cr_MemoryID <$> mm_Conflicts stored.
Proof.
  destruct (Write_gate (MO := canonical_order) (sample_writer (MO := canonical_order)) (sample_record "m2" "900" 5)
    (memory_world (fun _ => 7) <| mem_records := {["m1" := sample_record "m1" "800" 3]} |>)) as [_ H].
  { by split. }
  destruct H as (w' & stored & Hrun & Hrec & _ & _ & Hc); [split; [|left]; vm_compute; reflexivity|].
  exists w', stored. split; [exact Hrun|]. split; [rewrite Hrec; apply lookup_insert_eq|].
  destruct (Hc eq_refl) as [_ Hids]. apply Hids. split; [done|]. exists "m1", (sample_record "m1" "800" 3).
  split; [reflexivity|]. split; [reflexivity|]. split; [done|]. split; [reflexivity|].
  eexists _, _. split; [left|]. split; [left|]. done.
Defined.

(** A record dated ahead of the clock is valid when it is written and not
    when it is read back: [Write] sets [UpdatedAt] after validating. *)
Lemma written_record_invalid `{MO : MapOrder} :
  admissible sample_writer (sample_record "m1" "800" 9) /\
  MemoryRecord_Validate (stored_record sample_writer (memory_world (fun _ => 7)) (sample_record "m1" "800" 9)) <> None.
Proof.
  split; [split; [|left]; vm_compute; reflexivity|]. unfold stored_record, annotate, sample_writer, conflictDetector, supersedenceDetector.
  cbn [wr_ConflictDetector wr_SupersedenceDetector default mem_records memory_world].
  assert (Hnil : slices_SortFunc (compare_by updated_later) (map_values (∅ : gmap string MemoryRecord)) = []).
  { unfold map_values. pose proof (map_range_perm (∅ : gmap string MemoryRecord)) as HP.
    rewrite map_to_list_empty in HP. apply Permutation_nil_r in HP. by rewrite HP. }
  rewrite Hnil. by vm_compute.
Qed.

(** The key [id::reason] does not tell all references apart. *)
Lemma conflict_ref_collision :
  exists a b : ConflictRef, a <> b /\ cr_MemoryID a <> cr_MemoryID b /\ dedupeConflictRefs [a; b] = [a].
Proof.
  exists {| cr_MemoryID := "m"; cr_Reason := "x::same fact key with different value" |},
    {| cr_MemoryID := "m::x"; cr_Reason := "same fact key with different value" |}.
  split_and!; [done..|]. vm_compute. reflexivity.
Qed.
