(* ===== verification/Governance.v ===== *)
(** * Governance (internal/governance)

    The policy engine: which actions are allowed, need an approval or are
    denied, which reports are redacted and which memories may be written; the
    risk classifier and the approval service over them.  An engine reads the
    clock once for a decision; the reading is the argument [now]. *)

From S2P Require Export Memory.
#[local] Open Scope Z_scope.

(** ** Sensitive recommendations (risk_taxonomy.go, disclosure.go) *)

Definition recommendationTypeSensitive (kind : RecommendationType) : bool :=
  match kind with
  | RecommendationTypeInvestMore | RecommendationTypePortfolioRebalance | RecommendationTypeDebtRestructure
  | RecommendationTypeTaxAction | RecommendationTypeBehaviorGuardrail => true
  | _ => false
  end.

Definition lacks_disclosure (recommendation : Recommendation) : bool :=
  recommendationTypeSensitive (rc_Type recommendation) && bool_decide (rc_Caveats recommendation = []).

Definition DisclosureReady (recommendations : list Recommendation) : bool :=
  negb (existsb lacks_disclosure recommendations).

(** ** Risk levels and validation (validation.go) *)

Definition validActionRisk (level : ActionRiskLevel) : bool :=
  match level with ActionRiskLevelOther _ => false | _ => true end.

(** The map lookup answers 0 for a level it does not have. *)
Definition risk_rank (level : ActionRiskLevel) : Z :=
  match level with
  | ActionRiskLow => 1 | ActionRiskMedium => 2 | ActionRiskHigh => 3 | ActionRiskCritical => 4
  | ActionRiskLevelOther _ => 0
  end.

Definition compareRisk (left right : ActionRiskLevel) : Z := risk_rank left - risk_rank right.

Definition hasIntersection (a b : list string) : bool := existsb (fun item => bool_decide (item ∈ a)) b.

Definition containsMemoryKind (items : list MemoryKind) (target : MemoryKind) : bool := existsb (fun item => item == target) items.

Definition ActionRequest_Validate (r : ActionRequest) : option error :=
  errors_Join (
    err_if (aq_Actor r == "") "action actor is required" ++
    err_if (aq_Action r == "") "action name is required" ++
    err_if (aq_Resource r == "") "action resource is required" ++
    err_if (negb (validActionRisk (aq_RiskLevel r))) ("invalid action risk " +:+ Quote (ActionRiskLevel_string (aq_RiskLevel r))) ++
    err_if (aq_CorrelationID r == "") "correlation id is required").

Definition ApprovalPolicy_Validate (p : ApprovalPolicy) : option error :=
  if apl_Name p == "" then Some (PlainError "approval policy name is required")
  else if negb (validActionRisk (apl_MinRiskLevel p))
  then Some (PlainError ("invalid approval policy min risk " +:+ Quote (ActionRiskLevel_string (apl_MinRiskLevel p))))
  else None.

Definition ToolExecutionPolicy_Validate (p : ToolExecutionPolicy) : option error :=
  if tp_ToolName p == "" then Some (PlainError "tool execution policy tool name is required")
  else if negb (validActionRisk (tp_RequiresApprovalAbove p))
  then Some (PlainError ("invalid tool execution approval risk " +:+ Quote (ActionRiskLevel_string (tp_RequiresApprovalAbove p))))
  else if tp_MaxCallsPerTask p <? 0 then Some (PlainError "max calls per task must be non-negative")
  else None.

Fixpoint allowed_kinds_error (kinds : list MemoryKind) : option error :=
  match kinds with
  | [] => None
  | MemoryKindOther s :: _ => Some (PlainError ("invalid allowed memory kind " +:+ Quote s))
  | _ :: kinds => allowed_kinds_error kinds
  end.

Definition MemoryWritePolicy_Validate (p : MemoryWritePolicy) : option error :=
  if f_ltb (mw_MinConfidence p) f_zero || f_ltb (f_of_int 1) (mw_MinConfidence p)
  then Some (PlainError "memory write min confidence must be within [0,1]")
  else allowed_kinds_error (mw_AllowKinds p).

(** ** Approval rules (approval_rules.go) *)

Module Rules.
Definition ApprovalHighRisk := "approval.high_risk".
Definition ApprovalSensitiveRecommendation := "approval.sensitive_recommendation".
Definition ApprovalLowLiquidityAggressiveInvest := "approval.low_liquidity_aggressive_invest".
Definition ApprovalBehaviorGuardrailHardCap := "behavior.guardrail.hard_cap.approval_required".
Definition DenyMissingDisclosure := "deny.missing_disclosure".
Definition DenyInsufficientActorRole := "deny.insufficient_actor_role".
End Rules.

(** [firstNonEmpty] of this package: blank is empty. *)
Definition first_nonblank (value fallback : string) : string :=
  if negb (blank_text value) then value else if negb (blank_text fallback) then fallback else "".

Definition recommendationRiskLevel (level : RiskLevel) : ActionRiskLevel :=
  match level with
  | RiskLevelCritical => ActionRiskCritical
  | RiskLevelHigh => ActionRiskHigh
  | RiskLevelMedium => ActionRiskMedium
  | _ => ActionRiskLow
  end.

(** [outcome], [reason] and [ruleRefs] as the rules build them up. *)
Definition ruling : Type := PolicyDecisionOutcome * string * list string.

(** The outcome when a rule asks for an approval. *)
Definition require (reason rule : string) (so_far : ruling) : ruling :=
  (PolicyDecisionRequireApproval, reason, so_far.2 ++ [rule]).

(** The switch over the type of one recommendation. *)
Definition recommendation_rule (r : Recommendation) (so_far : ruling) : ruling :=
  match rc_Type r with
  | RecommendationTypeInvestMore =>
      if rc_ApprovalRequired r
      then require (first_nonblank (rc_ApprovalReason r) "aggressive investment recommendation requires approval")
             Rules.ApprovalLowLiquidityAggressiveInvest so_far
      else so_far
  | RecommendationTypeBehaviorGuardrail =>
      if rc_ApprovalRequired r
      then require (first_nonblank (rc_ApprovalReason r) "high-intensity behavior guardrail requires approval")
             Rules.ApprovalBehaviorGuardrailHardCap so_far
      else so_far
  | RecommendationTypePortfolioRebalance | RecommendationTypeDebtRestructure | RecommendationTypeTaxAction =>
      if recommendationTypeSensitive (rc_Type r) && (0 <=? compareRisk (recommendationRiskLevel (rc_RiskLevel r)) ActionRiskHigh)
      then require (first_nonblank (rc_ApprovalReason r) "sensitive recommendation requires approval")
             Rules.ApprovalSensitiveRecommendation so_far
      else so_far
  | _ => so_far
  end.

Definition missing_disclosure : ruling :=
  (PolicyDecisionDeny, "sensitive recommendation is missing disclosure-ready caveats", [Rules.DenyMissingDisclosure]).

(** The loop over the recommendations; a missing disclosure returns at once. *)
Fixpoint recommendation_rules (disclosed : bool) (recommendations : list Recommendation) (so_far : ruling) : ruling + ruling :=
  match recommendations with
  | [] => inr so_far
  | r :: recommendations =>
      let so_far := recommendation_rule r so_far in
      if lacks_disclosure r && negb disclosed then inl missing_disclosure
      else recommendation_rules disclosed recommendations so_far
  end.

Definition role_denied (policy : ToolExecutionPolicy) (request : ActionRequest) : bool :=
  bool_decide (0 < length (tp_AllowedRoles policy))%nat && negb (hasIntersection (tp_AllowedRoles policy) (aq_ActorRoles request)).

Definition tool_rule (policy : ToolExecutionPolicy) (request : ActionRequest) (so_far : ruling) : ruling :=
  if 0 <=? compareRisk (aq_RiskLevel request) (tp_RequiresApprovalAbove policy)
  then require "tool execution policy requires approval" Rules.ApprovalHighRisk so_far else so_far.

Definition allowed_so_far (so_far : ruling) : bool := so_far.1.1 == PolicyDecisionAllow.

(** The rules after the loop. *)
Definition request_rules (request : ActionRequest) (so_far : ruling) : ruling :=
  let so_far := if aq_ApprovalRequired request && allowed_so_far so_far
    then require (first_nonblank (aq_ApprovalReason request) "report marked recommendation as approval required")
           Rules.ApprovalSensitiveRecommendation so_far
    else so_far in
  if Contains (ToLower (aq_Action request)) "single_stock" &&
     (0 <=? compareRisk (aq_RiskLevel request) ActionRiskHigh) && allowed_so_far so_far
  then require "single-stock high-risk actions cannot auto-execute" Rules.ApprovalSensitiveRecommendation so_far
  else so_far.

Definition approvalRulesForAction (request : ActionRequest) (toolPolicy : option ToolExecutionPolicy) : ruling :=
  let start : ruling := (PolicyDecisionAllow, "action allowed by default", []) in
  let rules so_far :=
    match recommendation_rules (aq_DisclosureReady request) (aq_Recommendations request) so_far with
    | inl denied => denied
    | inr so_far => let '(outcome, reason, refs) := request_rules request so_far in (outcome, reason, unique_from [] refs)
    end in
  match toolPolicy with
  | None => rules start
  | Some policy =>
      if role_denied policy request
      then (PolicyDecisionDeny, "actor roles do not satisfy tool execution policy", [Rules.DenyInsufficientActorRole])
      else rules (tool_rule policy request start)
  end.

(** ** The policy engine (validation.go) *)

Definition decided : Type := outcome error (PolicyDecision * AuditEvent).

(** [PolicyEngine] of interfaces.go *)
Record PolicyEngine := {
  PolicyEngine_EvaluateAction : ActionRequest -> ApprovalPolicy -> option ToolExecutionPolicy -> decided;
  PolicyEngine_EvaluateMemoryWrite : MemoryRecord -> MemoryWritePolicy -> string -> decided;
  PolicyEngine_EvaluateReport : ReportRequest -> ReportDisclosurePolicy -> decided
}.

Section engine.
Context (now : time).

(** What the approval policy adds to the ruling. *)
Definition policy_rule (approval : ApprovalPolicy) (request : ActionRequest) (so_far : ruling) : ruling :=
  if (0 <=? compareRisk (aq_RiskLevel request) (apl_MinRiskLevel approval)) && negb (apl_AutoApprove approval) &&
     allowed_so_far so_far
  then require "approval policy requires human review" Rules.ApprovalHighRisk so_far else so_far.

Definition action_decision (request : ActionRequest) (approval : ApprovalPolicy) (toolPolicy : option ToolExecutionPolicy)
    : PolicyDecision * AuditEvent :=
  let '(outcome, reason, ruleRefs) := policy_rule approval request (approvalRulesForAction request toolPolicy) in
  let refs := unique_from [] (aq_PolicyRuleRefs request ++ ruleRefs) in
  ({| pd_Outcome := outcome;
      pd_Reason := reason;
      pd_AppliedPolicy := apl_Name approval;
      pd_PolicyRuleRefs := refs;
      pd_EvaluatedAt := now;
      pd_AuditRef := aq_CorrelationID request |},
   {| au_ID := aq_CorrelationID request +:+ "-action";
      au_Actor := aq_Actor request;
      au_Action := aq_Action request;
      au_Resource := aq_Resource request;
      au_Outcome := PolicyDecisionOutcome_string outcome;
      au_Reason := reason;
      au_PolicyRuleRefs := refs;
      au_OccurredAt := now;
      au_CorrelationID := aq_CorrelationID request |}).

Definition EvaluateAction (request : ActionRequest) (approval : ApprovalPolicy) (toolPolicy : option ToolExecutionPolicy)
    : decided :=
  match ActionRequest_Validate request, ApprovalPolicy_Validate approval, toolPolicy ≫= ToolExecutionPolicy_Validate with
  | Some err, _, _ | None, Some err, _ | None, None, Some err => Err err
  | None, None, None => Ok (action_decision request approval toolPolicy)
  end.

(** The last rule that applies gives the reason. *)
Definition memory_ruling (record : MemoryRecord) (policy : MemoryWritePolicy) : PolicyDecisionOutcome * string :=
  let ruling := (PolicyDecisionAllow, "memory write allowed") in
  let ruling := if f_ltb (mc_Score (mm_Confidence record)) (mw_MinConfidence policy)
    then (PolicyDecisionDeny, "memory confidence below policy threshold") else ruling in
  let ruling := if mw_RequireEvidence policy && bool_decide (ms_EvidenceIDs (mm_Source record) = [])
    then (PolicyDecisionDeny, "memory write requires evidence provenance") else ruling in
  if bool_decide (mw_AllowKinds policy <> []) && negb (containsMemoryKind (mw_AllowKinds policy) (mm_Kind record))
  then (PolicyDecisionDeny, "memory kind is not allowed by policy") else ruling.

Definition EvaluateMemoryWrite (record : MemoryRecord) (policy : MemoryWritePolicy) (correlationID : string) : decided :=
  match MemoryRecord_Validate record, MemoryWritePolicy_Validate policy with
  | Some err, _ | None, Some err => Err err
  | None, None =>
      let '(outcome, reason) := memory_ruling record policy in
      Ok ({| pd_Outcome := outcome;
             pd_Reason := reason;
             pd_AppliedPolicy := "memory_write_policy";
             pd_PolicyRuleRefs := [];
             pd_EvaluatedAt := now;
             pd_AuditRef := correlationID |},
          {| au_ID := correlationID +:+ "-memory";
             au_Actor := ms_Actor (mm_Source record);
             au_Action := "memory_write";
             au_Resource := mm_ID record;
             au_Outcome := PolicyDecisionOutcome_string outcome;
             au_Reason := reason;
             au_PolicyRuleRefs := [];
             au_OccurredAt := now;
             au_CorrelationID := correlationID |})
  end.

Definition EvaluateReport (request : ReportRequest) (policy : ReportDisclosurePolicy) : decided :=
  if rrq_Actor request == "" then Err (PlainError "report actor is required")
  else if rrq_Audience request == "" then Err (PlainError "report audience is required")
  else
    let '(outcome, reason) := if rrq_ContainsPII request && negb (rd_AllowPII policy)
      then (PolicyDecisionRedact, "report disclosure requires redaction")
      else (PolicyDecisionAllow, "report can be disclosed") in
    Ok ({| pd_Outcome := outcome;
           pd_Reason := reason;
           pd_AppliedPolicy := "report_disclosure_policy";
           pd_PolicyRuleRefs := [];
           pd_EvaluatedAt := now;
           pd_AuditRef := rrq_CorrelationID request |},
        {| au_ID := rrq_CorrelationID request +:+ "-report";
           au_Actor := rrq_Actor request;
           au_Action := "report_disclosure";
           au_Resource := rrq_Audience request;
           au_Outcome := PolicyDecisionOutcome_string outcome;
           au_Reason := reason;
           au_PolicyRuleRefs := [];
           au_OccurredAt := now;
           au_CorrelationID := rrq_CorrelationID request |}).

Definition StaticPolicyEngine : PolicyEngine := {|
  PolicyEngine_EvaluateAction := EvaluateAction;
  PolicyEngine_EvaluateMemoryWrite := EvaluateMemoryWrite;
  PolicyEngine_EvaluateReport := EvaluateReport
|}.

(** ** Risk classification (phase2.go) *)

Definition Classify (current : FinancialWorldState) (action : string) : RiskAssessment :=
  let debt := li_DebtBurdenRatio (fw_LiabilityState current) in
  let pressure := li_MinimumPaymentPressure (fw_LiabilityState current) in
  let overall := rk_OverallRisk (fw_RiskState current) in
  let '(level, reasons) :=
    if f_leb (f_const 35 100) debt || f_leb (f_const 2 10) pressure then (ActionRiskHigh, ["debt pressure is high"])
    else if f_leb (f_const 2 10) debt then (ActionRiskMedium, ["debt burden is elevated"])
    else (ActionRiskLow, []) in
  let '(level, reasons) :=
    if overall == "high" then (ActionRiskHigh, reasons ++ ["overall financial risk is high"])
    else if (overall == "medium") && (level == ActionRiskLow)
    then (ActionRiskMedium, reasons ++ ["overall financial risk is medium"])
    else (level, reasons) in
  let '(level, reasons) :=
    if Contains (ToLower action) "invest" || Contains (ToLower action) "stock" then
      (if level == ActionRiskMedium then ActionRiskHigh
       else if level == ActionRiskLow then ActionRiskMedium else level,
       reasons ++ ["investment actions carry higher execution risk"])
    else (level, reasons) in
  let '(level, reasons) :=
    if f_leb (f_const 3 10) (bh_LateNightSpendingFrequency (fw_BehaviorState current)) && (level == ActionRiskLow)
    then (ActionRiskMedium, reasons ++ ["behavior signal indicates spending volatility"])
    else (level, reasons) in
  {| ra_Level := level;
     ra_Reasons := match reasons with [] => ["risk baseline is low"] | _ => reasons end |}.

Definition RiskClassifier : Type := FinancialWorldState -> string -> RiskAssessment.

(** ** The approval service (approval_service.go) *)

Record ApprovalService := mkApprovalService {
  svc_Classifier : option RiskClassifier;
  svc_Decider : option PolicyEngine;
  svc_PolicyEngine : option PolicyEngine;
  svc_ApprovalPolicy : ApprovalPolicy;
  svc_ToolPolicy : option ToolExecutionPolicy;
  svc_ReportPolicy : ReportDisclosurePolicy
}.

Definition policyEngine (s : ApprovalService) : PolicyEngine := default StaticPolicyEngine (svc_PolicyEngine s).
(** [decider()]: the engine that [ApprovalDecider.Decide] calls. *)
Definition decider (s : ApprovalService) : PolicyEngine := default (policyEngine s) (svc_Decider s).
Definition classifier (s : ApprovalService) : RiskClassifier := default Classify (svc_Classifier s).

Definition default_approval_policy : ApprovalPolicy := {|
  apl_Name := "default-approval-policy";
  apl_MinRiskLevel := ActionRiskHigh;
  apl_RequiredRoles := ["operator"];
  apl_AutoApprove := false
|}.
Definition approvalPolicy (s : ApprovalService) : ApprovalPolicy :=
  if apl_Name (svc_ApprovalPolicy s) != "" then svc_ApprovalPolicy s else default_approval_policy.

Definition reportPolicy (s : ApprovalService) : ReportDisclosurePolicy :=
  if rd_Audience (svc_ReportPolicy s) != "" then svc_ReportPolicy s
  else {| rd_Audience := "user"; rd_AllowPII := false; rd_RedactedFields := [] |}.

Definition merge_level (level : ActionRiskLevel) (recommendation : Recommendation) : ActionRiskLevel :=
  let mapped := recommendationRiskLevel (rc_RiskLevel recommendation) in
  if 0 <? compareRisk mapped level then mapped else level.

Definition mergeRecommendationRisk (base : RiskAssessment) (recommendations : list Recommendation) : RiskAssessment := {|
  ra_Level := fold_left merge_level recommendations (ra_Level base);
  ra_Reasons := unique_from [] (ra_Reasons base ++
    match recommendations with [] => [] | _ => ["recommendation contract supplied explicit risk semantics"] end)
|}.

Definition action_request (input : ApprovalEvaluationInput) (level : ActionRiskLevel) : ActionRequest := {|
  aq_Actor := ai_Actor input;
  aq_ActorRoles := ai_ActorRoles input;
  aq_Action := ai_Action input;
  aq_Resource := ai_Resource input;
  aq_RiskLevel := level;
  aq_Recommendations := ai_Recommendations input;
  aq_RiskFlags := ai_RiskFlags input;
  aq_ApprovalRequired := ai_ApprovalRequired input;
  aq_ApprovalReason := ai_ApprovalReason input;
  aq_PolicyRuleRefs := ai_PolicyRuleRefs input;
  aq_DisclosureReady := ai_DisclosureReady input;
  aq_CorrelationID := ai_WorkflowID input
|}.

(** [ForceApproval] turns an allowed action into one that needs an approval. *)
Definition force_approval (input : ApprovalEvaluationInput) (decision : PolicyDecision) (audit : AuditEvent)
    : PolicyDecision * AuditEvent :=
  if ai_ForceApproval input && (pd_Outcome decision == PolicyDecisionAllow) then
    let decision := decision <| pd_Outcome := PolicyDecisionRequireApproval |>
                             <| pd_Reason := "workflow risk assessment explicitly flagged approval" |> in
    (decision, audit <| au_Outcome := PolicyDecisionOutcome_string PolicyDecisionRequireApproval |>
                     <| au_Reason := pd_Reason decision |>)
  else (decision, audit).

Definition Service_EvaluateAction (s : ApprovalService) (input : ApprovalEvaluationInput)
    : outcome error ApprovalEvaluation :=
  let risk := mergeRecommendationRisk (classifier s (ai_CurrentState input) (ai_Action input)) (ai_Recommendations input) in
  match PolicyEngine_EvaluateAction (decider s) (action_request input (ra_Level risk)) (approvalPolicy s) (svc_ToolPolicy s) with
  | Ok (decision, audit) =>
      let '(decision, audit) := force_approval input decision audit in
      Ok {| ae_RiskAssessment := risk; ae_Decision := Some decision; ae_Audit := Some audit |}
  | Err err => Err err
  | Panic why => Panic why
  | OutOfFuel => OutOfFuel
  end.

Definition Service_EvaluateReport (s : ApprovalService) (workflowID actor audience : string) (containsPII : bool)
    : outcome error ReportEvaluation :=
  match PolicyEngine_EvaluateReport (policyEngine s)
          {| rrq_Actor := actor; rrq_Audience := audience; rrq_ContainsPII := containsPII; rrq_CorrelationID := workflowID |}
          (reportPolicy s) with
  | Ok (decision, audit) => Ok {| re_Decision := decision; re_Audit := audit |}
  | Err err => Err err
  | Panic why => Panic why
  | OutOfFuel => OutOfFuel
  end.

(** ** [MemoryWriteGateService] *)

Record MemoryWriteGateService := mkMemoryWriteGateService {
  mg_PolicyEngine : option PolicyEngine;
  mg_Policy : MemoryWritePolicy;
  mg_CorrelationID : string
}.

Definition gate_policy (policy : MemoryWritePolicy) : MemoryWritePolicy :=
  if f_eqb (mw_MinConfidence policy) f_zero && negb (mw_RequireEvidence policy) && bool_decide (mw_AllowKinds policy = [])
  then {| mw_MinConfidence := f_const 7 10; mw_RequireEvidence := false;
          mw_AllowKinds := [MemoryKindEpisodic; MemoryKindSemantic; MemoryKindProcedural; MemoryKindPolicy] |}
  else policy.

End engine.

(** [gate_now] is the reading for a missing correlation ID, [now] the engine's. *)
Definition AllowWrite (gate_now now : time) (s : MemoryWriteGateService) (record : MemoryRecord) : outcome error unit :=
  let engine := default (StaticPolicyEngine now) (mg_PolicyEngine s) in
  let correlationID := if mg_CorrelationID s == "" then "memory-gate-" +:+ Itoa (UnixNano gate_now) else mg_CorrelationID s in
  match PolicyEngine_EvaluateMemoryWrite engine record (gate_policy (mg_Policy s)) correlationID with
  | Ok (decision, _) =>
      if pd_Outcome decision != PolicyDecisionAllow then Err (PlainError (pd_Reason decision)) else Ok tt
  | Err err => Err err
  | Panic why => Panic why
  | OutOfFuel => OutOfFuel
  end.
