(* ===== verification/GovernanceThm.v ===== *)
(** * Correctness of the policy engine

    When an action is allowed, needs an approval or is denied; the decision is
    monotone in the risk; the approval service never lets a risky action
    through by default; the memory write gate. *)

From S2P Require Export Governance.
#[local] Open Scope Z_scope.

(** ** What the rules ask for *)

Definition at_least (level threshold : ActionRiskLevel) : Prop := risk_rank threshold <= risk_rank level.

Definition needs_disclosure (request : ActionRequest) : Prop :=
  aq_DisclosureReady request = false /\ exists r, r ∈ aq_Recommendations request /\ lacks_disclosure r = true.

Definition denied (request : ActionRequest) (toolPolicy : option ToolExecutionPolicy) : Prop :=
  (exists policy, toolPolicy = Some policy /\ role_denied policy request = true) \/ needs_disclosure request.

(** A recommendation that needs an approval itself. *)
Definition demands_approval (r : Recommendation) : Prop :=
  match rc_Type r with
  | RecommendationTypeInvestMore | RecommendationTypeBehaviorGuardrail => rc_ApprovalRequired r = true
  | RecommendationTypePortfolioRebalance | RecommendationTypeDebtRestructure | RecommendationTypeTaxAction =>
      rc_RiskLevel r = RiskLevelHigh \/ rc_RiskLevel r = RiskLevelCritical
  | _ => False
  end.

Definition needs_approval (request : ActionRequest) (approval : ApprovalPolicy) (toolPolicy : option ToolExecutionPolicy) : Prop :=
  (exists policy, toolPolicy = Some policy /\ at_least (aq_RiskLevel request) (tp_RequiresApprovalAbove policy)) \/
  (exists r, r ∈ aq_Recommendations request /\ demands_approval r) \/
  aq_ApprovalRequired request = true \/
  (Contains (ToLower (aq_Action request)) "single_stock" = true /\ at_least (aq_RiskLevel request) ActionRiskHigh) \/
  (at_least (aq_RiskLevel request) (apl_MinRiskLevel approval) /\ apl_AutoApprove approval = false).

(** ** Rulings *)

(** A ruling before the last step is to allow without a rule, or to require an approval by some rule. *)
Definition open_ruling (x : ruling) : Prop :=
  (x.1.1 = PolicyDecisionAllow /\ x.2 = []) \/ (x.1.1 = PolicyDecisionRequireApproval /\ exists rule, rule <> "" /\ rule ∈ x.2).

Lemma require_open reason rule so_far : rule <> "" -> open_ruling (require reason rule so_far).
Proof. intros H. right. split; [done|]. exists rule. split; [done|]. cbn. apply elem_of_app. right. left. Qed.

Lemma allowed_so_far_spec x : open_ruling x -> allowed_so_far x = true <-> x.1.1 <> PolicyDecisionRequireApproval.
Proof. unfold allowed_so_far. rewrite bool_decide_eq_true. intros [[-> _]|[-> _]]; naive_solver. Qed.

(** [x] requires an approval. *)
Definition requires (x : ruling) : Prop := x.1.1 = PolicyDecisionRequireApproval.

Lemma compareRisk_at_least level threshold : (0 <=? compareRisk level threshold) = true <-> at_least level threshold.
Proof. unfold compareRisk, at_least. rewrite Z.leb_le. lia. Qed.

(** One rule: under its guard it requires an approval. *)
Lemma guarded_rule (b : bool) (P : Prop) reason rule so_far :
  rule <> "" -> open_ruling so_far -> (b = true <-> P) ->
  let x := if b then require reason rule so_far else so_far in
  open_ruling x /\ (requires x <-> requires so_far \/ P).
Proof.
  intros Hr Ho Hb. destruct b; cbv zeta iota.
  - split; [by apply require_open|]. split; [intros _; right; by apply Hb|done].
  - split; [done|]. split; [tauto|]. intros [?|H]; [done|]. by apply Hb in H.
Qed.

(** The same for a rule that only speaks while the action is allowed. *)
Lemma guarded_allowed (b : bool) (P : Prop) reason rule so_far :
  rule <> "" -> open_ruling so_far -> (b = true <-> P) ->
  let x := if b && allowed_so_far so_far then require reason rule so_far else so_far in
  open_ruling x /\ (requires x <-> requires so_far \/ P).
Proof.
  intros Hr Ho Hb. destruct (guarded_rule (b && allowed_so_far so_far) (P /\ ~ requires so_far) reason rule so_far Hr Ho) as [H1 H2].
  { rewrite andb_true_iff, (allowed_so_far_spec _ Ho), Hb. done. }
  split; [exact H1|]. rewrite H2. assert (requires so_far \/ ~ requires so_far) by (unfold requires; destruct Ho as [[-> _]|[-> _]]; auto).
  tauto.
Qed.

Lemma high_recommendation level :
  (0 <=? compareRisk (recommendationRiskLevel level) ActionRiskHigh) = true <-> level = RiskLevelHigh \/ level = RiskLevelCritical.
Proof. destruct level; split; cbv; naive_solver. Qed.

Lemma recommendation_rule_spec r so_far :
  open_ruling so_far -> open_ruling (recommendation_rule r so_far) /\
  (requires (recommendation_rule r so_far) <-> requires so_far \/ demands_approval r).
Proof.
  intros Ho. unfold recommendation_rule, demands_approval.
  destruct (rc_Type r); cbn [recommendationTypeSensitive andb]; try tauto;
    apply guarded_rule; try done; apply high_recommendation.
Qed.

Lemma recommendation_rules_spec disclosed recommendations so_far :
  open_ruling so_far ->
  match recommendation_rules disclosed recommendations so_far with
  | inl x => x = missing_disclosure /\ disclosed = false /\ exists r, r ∈ recommendations /\ lacks_disclosure r = true
  | inr x => (disclosed = true \/ forall r, r ∈ recommendations -> lacks_disclosure r = false) /\ open_ruling x /\
      (requires x <-> requires so_far \/ exists r, r ∈ recommendations /\ demands_approval r)
  end.
Proof.
  revert so_far. induction recommendations as [|r recommendations IH]; intros so_far Ho; cbn [recommendation_rules].
  - split; [right; by intros r ?%elem_of_nil|]. split; [done|]. setoid_rewrite elem_of_nil. naive_solver.
  - destruct (recommendation_rule_spec r so_far Ho) as [Ho' Hr].
    destruct (lacks_disclosure r && negb disclosed) eqn:E.
    + apply andb_true_iff in E as [E1 E2%negb_true_iff]. split_and!; [done..|]. exists r. split; [left|done].
    + specialize (IH _ Ho'). destruct (recommendation_rules disclosed recommendations _) as [x|x].
      * destruct IH as (-> & -> & r' & H1 & H2). split_and!; [done..|]. exists r'. split; [by right|done].
      * destruct IH as (H1 & H2 & H3). split_and!; [|done|].
        -- destruct disclosed; [by left|]. right. destruct H1 as [?|H1]; [done|]. rewrite andb_true_r in E.
           intros r' [->|?]%elem_of_cons; auto.
        -- rewrite H3, Hr. setoid_rewrite elem_of_cons. naive_solver.
Qed.

Lemma request_rules_spec request so_far :
  open_ruling so_far -> open_ruling (request_rules request so_far) /\
  (requires (request_rules request so_far) <-> requires so_far \/ aq_ApprovalRequired request = true \/
    (Contains (ToLower (aq_Action request)) "single_stock" = true /\ at_least (aq_RiskLevel request) ActionRiskHigh)).
Proof.
  intros Ho. unfold request_rules.
  match goal with |- context [if aq_ApprovalRequired request && _ then require ?a ?b _ else _] =>
    destruct (guarded_allowed (aq_ApprovalRequired request) (aq_ApprovalRequired request = true) a b so_far) as [H1 H2]; [done..|] end.
  set (x := if aq_ApprovalRequired request && _ then _ else _) in *.
  match goal with |- context [require ?a ?b x] =>
    destruct (guarded_allowed (Contains (ToLower (aq_Action request)) "single_stock" && (0 <=? compareRisk (aq_RiskLevel request) ActionRiskHigh))
      (Contains (ToLower (aq_Action request)) "single_stock" = true /\ at_least (aq_RiskLevel request) ActionRiskHigh) a b x) as [H3 H4]; [done|done| |] end.
  { by rewrite andb_true_iff, compareRisk_at_least. }
  split; [exact H3|]. rewrite H4, H2. tauto.
Qed.

(** ** The decision *)

(** The ruling denies with a rule, or is still open. *)
Definition final_ruling (is_denied : Prop) (is_required : Prop) (x : ruling) : Prop :=
  (is_denied /\ x.1.1 = PolicyDecisionDeny /\ exists rule, rule <> "" /\ rule ∈ x.2) \/
  (~ is_denied /\ open_ruling x /\ (requires x <-> is_required)).

Lemma unique_open x : open_ruling x -> open_ruling (x.1, unique_from [] x.2).
Proof.
  intros [[H1 H2]|[H1 (rule & Hr & H2)]]; [left|right]; (split; [done|]); cbn [snd].
  - by rewrite H2.
  - exists rule. split; [done|]. apply unique_from_elem. split_and!; [done..|]. apply not_elem_of_nil.
Qed.

Lemma loop_final request so_far (P : Prop) :
  open_ruling so_far -> (requires so_far <-> P) ->
  final_ruling (needs_disclosure request)
    (P \/ (exists r, r ∈ aq_Recommendations request /\ demands_approval r) \/ aq_ApprovalRequired request = true \/
     (Contains (ToLower (aq_Action request)) "single_stock" = true /\ at_least (aq_RiskLevel request) ActionRiskHigh))
    (match recommendation_rules (aq_DisclosureReady request) (aq_Recommendations request) so_far with
     | inl denied => denied
     | inr so_far => let '(outcome, reason, refs) := request_rules request so_far in (outcome, reason, unique_from [] refs)
     end).
Proof.
  intros Ho HP. pose proof (recommendation_rules_spec (aq_DisclosureReady request) (aq_Recommendations request) so_far Ho) as H.
  destruct (recommendation_rules _ _ _) as [x|x].
  - destruct H as (-> & Hd & Hr). left. split; [by split|]. split; [done|]. eexists. split; [|left]. done.
  - destruct H as (Hd & Hx & Hreq). right.
    destruct (request_rules_spec request x Hx) as [H1 H2]. destruct (request_rules request x) as [[outcome reason] refs].
    split; [|split].
    + intros [Hd' (r & Hr & Hl)]. destruct Hd as [Hd|Hd]; [congruence|]. by rewrite (Hd r Hr) in Hl.
    + by apply unique_open in H1.
    + change (requires (outcome, reason, unique_from [] refs)) with (requires (outcome, reason, refs)). rewrite H2, Hreq, HP. tauto.
Qed.

Lemma approvalRules_final request toolPolicy :
  final_ruling (denied request toolPolicy)
    ((exists policy, toolPolicy = Some policy /\ at_least (aq_RiskLevel request) (tp_RequiresApprovalAbove policy)) \/
     (exists r, r ∈ aq_Recommendations request /\ demands_approval r) \/ aq_ApprovalRequired request = true \/
     (Contains (ToLower (aq_Action request)) "single_stock" = true /\ at_least (aq_RiskLevel request) ActionRiskHigh))
    (approvalRulesForAction request toolPolicy).
Proof.
  unfold approvalRulesForAction, denied.
  assert (Hstart : open_ruling (PolicyDecisionAllow, "action allowed by default", [])) by by left.
  destruct toolPolicy as [policy|].
  - destruct (role_denied policy request) eqn:E.
    { left. split; [left; eauto|]. split; [done|]. eexists. split; [|left]. done. }
    destruct (guarded_rule (0 <=? compareRisk (aq_RiskLevel request) (tp_RequiresApprovalAbove policy))
      (at_least (aq_RiskLevel request) (tp_RequiresApprovalAbove policy)) "tool execution policy requires approval"
      Rules.ApprovalHighRisk (PolicyDecisionAllow, "action allowed by default", [])) as [H1 H2];
      [done|done|apply compareRisk_at_least|].
    destruct (loop_final request _ (at_least (aq_RiskLevel request) (tp_RequiresApprovalAbove policy)) H1) as [(A & B)|(A & B & C)].
    { rewrite H2. unfold requires. cbn. naive_solver. }
    + left. split; [by right|exact B].
    + right. split; [intros [(p & [= <-] & Hp)|?]; [congruence|done]|]. split; [exact B|]. rewrite C. naive_solver.
  - destruct (loop_final request (PolicyDecisionAllow, "action allowed by default", []) False Hstart ltac:(done)) as [(A & B)|(A & B & C)].
    + left. split; [by right|exact B].
    + right. split; [intros [(p & ? & _)|?]; done|]. split; [exact B|]. rewrite C. naive_solver.
Qed.

Lemma decision_final request approval toolPolicy :
  final_ruling (denied request toolPolicy) (needs_approval request approval toolPolicy)
    (policy_rule approval request (approvalRulesForAction request toolPolicy)).
Proof.
  destruct (approvalRules_final request toolPolicy) as [(A & B & C)|(A & B & C)].
  - left. split; [done|]. unfold policy_rule. rewrite (proj2 (andb_false_iff _ _)); [done|right].
    unfold allowed_so_far. by rewrite B.
  - right. split; [done|]. unfold policy_rule.
    match goal with |- context [require ?a ?b ?x] =>
      destruct (guarded_allowed ((0 <=? compareRisk (aq_RiskLevel request) (apl_MinRiskLevel approval)) && negb (apl_AutoApprove approval))
        (at_least (aq_RiskLevel request) (apl_MinRiskLevel approval) /\ apl_AutoApprove approval = false) a b x) as [H1 H2];
      [done|exact B|by rewrite andb_true_iff, compareRisk_at_least, negb_true_iff|] end.
    split; [exact H1|]. rewrite H2, C. unfold needs_approval. tauto.
Qed.

Definition decision_of (request : ActionRequest) (approval : ApprovalPolicy) (toolPolicy : option ToolExecutionPolicy)
    : PolicyDecisionOutcome := (policy_rule approval request (approvalRulesForAction request toolPolicy)).1.1.

Lemma decision_outcomes request approval toolPolicy :
  decision_of request approval toolPolicy = PolicyDecisionAllow \/
  decision_of request approval toolPolicy = PolicyDecisionRequireApproval \/
  decision_of request approval toolPolicy = PolicyDecisionDeny.
Proof. pose proof (decision_final request approval toolPolicy) as [(_ & ? & _)|(_ & [[? _]|[? _]] & _)]; unfold decision_of; auto. Qed.

Lemma decision_of_spec request approval toolPolicy :
  (decision_of request approval toolPolicy = PolicyDecisionDeny <-> denied request toolPolicy) /\
  (decision_of request approval toolPolicy = PolicyDecisionRequireApproval <->
     ~ denied request toolPolicy /\ needs_approval request approval toolPolicy) /\
  (decision_of request approval toolPolicy = PolicyDecisionAllow <->
     ~ denied request toolPolicy /\ ~ needs_approval request approval toolPolicy).
Proof.
  unfold decision_of. pose proof (decision_final request approval toolPolicy) as H. unfold final_ruling, open_ruling, requires in H.
  destruct H as [(A & B & _)|(A & [[B _]|[B _]] & C)]; rewrite B in *; naive_solver.
Qed.

Lemma action_decision_outcome now request approval toolPolicy :
  pd_Outcome (action_decision now request approval toolPolicy).1 = decision_of request approval toolPolicy.
Proof. unfold action_decision, decision_of. by destruct (policy_rule _ _ _) as [[? ?] ?]. Qed.

Definition valid_inputs (request : ActionRequest) (approval : ApprovalPolicy) (toolPolicy : option ToolExecutionPolicy) : Prop :=
  ActionRequest_Validate request = None /\ ApprovalPolicy_Validate approval = None /\
  (forall policy, toolPolicy = Some policy -> ToolExecutionPolicy_Validate policy = None).

Lemma EvaluateAction_valid now request approval toolPolicy :
  valid_inputs request approval toolPolicy ->
  EvaluateAction now request approval toolPolicy = Ok (action_decision now request approval toolPolicy).
Proof.
  intros (H1 & H2 & H3). unfold EvaluateAction. rewrite H1, H2. destruct toolPolicy; simpl; [by rewrite H3|done].
Qed.

(** ** The contract of the engine, without its functions *)

(** [level] is [threshold] or riskier: low, medium, high, critical.  (A
    threshold that is none of them is below everything.) *)
Definition reaches (level threshold : ActionRiskLevel) : Prop :=
  match threshold with
  | ActionRiskLow => level ∈ [ActionRiskLow; ActionRiskMedium; ActionRiskHigh; ActionRiskCritical]
  | ActionRiskMedium => level ∈ [ActionRiskMedium; ActionRiskHigh; ActionRiskCritical]
  | ActionRiskHigh => level ∈ [ActionRiskHigh; ActionRiskCritical]
  | ActionRiskCritical => level = ActionRiskCritical
  | ActionRiskLevelOther _ => True
  end.

Definition known_level (level : ActionRiskLevel) : Prop := reaches level ActionRiskLow.

(** The request and the policies are complete. *)
Definition complete_request (r : ActionRequest) : Prop :=
  aq_Actor r <> "" /\ aq_Action r <> "" /\ aq_Resource r <> "" /\ known_level (aq_RiskLevel r) /\ aq_CorrelationID r <> "".

Definition complete_policies (approval : ApprovalPolicy) (toolPolicy : option ToolExecutionPolicy) : Prop :=
  apl_Name approval <> "" /\ known_level (apl_MinRiskLevel approval) /\
  forall tool, toolPolicy = Some tool ->
    tp_ToolName tool <> "" /\ known_level (tp_RequiresApprovalAbove tool) /\ 0 <= tp_MaxCallsPerTask tool.

(** The tool names roles, and the actor has none of them. *)
Definition lacks_role (tool : ToolExecutionPolicy) (r : ActionRequest) : Prop :=
  tp_AllowedRoles tool <> [] /\ forall role, role ∈ aq_ActorRoles r -> role ∉ tp_AllowedRoles tool.

(** A recommendation that may not be given without a caveat has none. *)
Definition undisclosed (r : ActionRequest) : Prop :=
  aq_DisclosureReady r = false /\
  exists rec, rec ∈ aq_Recommendations r /\ rc_Caveats rec = [] /\
    rc_Type rec ∈ [RecommendationTypeInvestMore; RecommendationTypePortfolioRebalance; RecommendationTypeDebtRestructure;
                   RecommendationTypeTaxAction; RecommendationTypeBehaviorGuardrail].

Definition forbidden (r : ActionRequest) (toolPolicy : option ToolExecutionPolicy) : Prop :=
  (exists tool, toolPolicy = Some tool /\ lacks_role tool r) \/ undisclosed r.

Definition approval_due (r : ActionRequest) (approval : ApprovalPolicy) (toolPolicy : option ToolExecutionPolicy) : Prop :=
  (exists tool, toolPolicy = Some tool /\ reaches (aq_RiskLevel r) (tp_RequiresApprovalAbove tool)) \/
  (exists rec, rec ∈ aq_Recommendations r /\ demands_approval rec) \/
  aq_ApprovalRequired r = true \/
  (Contains (ToLower (aq_Action r)) "single_stock" = true /\ reaches (aq_RiskLevel r) ActionRiskHigh) \/
  (reaches (aq_RiskLevel r) (apl_MinRiskLevel approval) /\ apl_AutoApprove approval = false).

Lemma reaches_spec level threshold : at_least level threshold <-> reaches level threshold.
Proof.
  unfold at_least, reaches.
  destruct threshold, level; cbn [risk_rank]; rewrite ?elem_of_cons, ?elem_of_nil; split; intros H; try lia; naive_solver.
Qed.

Lemma known_level_spec level : validActionRisk level = true <-> known_level level.
Proof. destruct level; unfold known_level, reaches; cbn; rewrite ?elem_of_cons, ?elem_of_nil; naive_solver. Qed.

Lemma err_if_nil (b : bool) text : err_if b text = [] <-> b = false.
Proof. by destruct b. Qed.

Lemma valid_inputs_spec r approval toolPolicy :
  valid_inputs r approval toolPolicy <-> complete_request r /\ complete_policies approval toolPolicy.
Proof.
  unfold valid_inputs, complete_request, complete_policies, ActionRequest_Validate, ApprovalPolicy_Validate.
  rewrite errors_Join_None, !app_nil, !err_if_nil, !bool_decide_eq_false, negb_false_iff, known_level_spec.
  assert (Ha : forall p, (if apl_Name p == "" then Some (PlainError "approval policy name is required")
      else if negb (validActionRisk (apl_MinRiskLevel p))
      then Some (PlainError ("invalid approval policy min risk " +:+ Quote (ActionRiskLevel_string (apl_MinRiskLevel p))))
      else None) = None <-> apl_Name p <> "" /\ known_level (apl_MinRiskLevel p)).
  { intros p. rewrite <- known_level_spec. case_bool_decide; [naive_solver|]. destruct (validActionRisk _); cbn; naive_solver. }
  assert (Ht : forall tool, ToolExecutionPolicy_Validate tool = None <->
      tp_ToolName tool <> "" /\ known_level (tp_RequiresApprovalAbove tool) /\ 0 <= tp_MaxCallsPerTask tool).
  { intros tool. unfold ToolExecutionPolicy_Validate. rewrite <- known_level_spec. case_bool_decide; [naive_solver|].
    destruct (validActionRisk _); cbn [negb]; [|naive_solver]. destruct (Z.ltb_spec (tp_MaxCallsPerTask tool) 0); [|naive_solver].
    split; [done|]. intros (_ & _ & ?). lia. }
  rewrite Ha. setoid_rewrite Ht. tauto.
Qed.

Lemma forbidden_spec r toolPolicy : denied r toolPolicy <-> forbidden r toolPolicy.
Proof.
  assert (Hrole : forall tool, role_denied tool r = true <-> lacks_role tool r).
  { intros tool. unfold role_denied, lacks_role, hasIntersection.
    rewrite andb_true_iff, bool_decide_eq_true, negb_true_iff, <- not_true_iff_false, existsb_exists.
    setoid_rewrite bool_decide_eq_true. setoid_rewrite <- list_elem_of_In.
    assert (Hlen : (0 < length (tp_AllowedRoles tool))%nat <-> tp_AllowedRoles tool <> []).
    { destruct (tp_AllowedRoles tool); cbn; split; try done; lia. }
    rewrite Hlen. naive_solver. }
  assert (Hdisc : needs_disclosure r <-> undisclosed r).
  { unfold needs_disclosure, undisclosed, lacks_disclosure. setoid_rewrite andb_true_iff. setoid_rewrite bool_decide_eq_true.
    split; intros (H & rec & H1 & H2 & H3); (split; [done|]); exists rec; split_and!; try done;
      destruct (rc_Type rec); cbn in *; rewrite ?elem_of_cons, ?elem_of_nil in *; naive_solver. }
  unfold denied, forbidden. setoid_rewrite Hrole. by rewrite Hdisc.
Qed.

Lemma approval_due_spec r approval toolPolicy : needs_approval r approval toolPolicy <-> approval_due r approval toolPolicy.
Proof. unfold needs_approval, approval_due. setoid_rewrite reaches_spec. done. Qed.

Lemma decision_named now request approval toolPolicy :
  pd_Outcome (action_decision now request approval toolPolicy).1 <> PolicyDecisionAllow ->
  exists rule, rule ∈ pd_PolicyRuleRefs (action_decision now request approval toolPolicy).1.
Proof.
  pose proof (decision_final request approval toolPolicy) as H. unfold action_decision in *.
  destruct (policy_rule approval request (approvalRulesForAction request toolPolicy)) as [[outcome reason] refs].
  cbn. intros Hn. assert (exists rule, rule <> "" /\ rule ∈ refs) as (rule & Hr & Hin).
  { destruct H as [(_ & _ & H)|(_ & [[H _]|[_ H]] & _)]; done. }
  exists rule. apply unique_from_elem. rewrite elem_of_app. split_and!; [by right|done|apply not_elem_of_nil].
Qed.

(** C27: The policy engine decides every complete request under complete
    policies, and refuses every other.  It denies exactly when the tool names
    roles of which the actor has none, or when a recommendation to invest,
    rebalance, restructure debt, act on tax or guard spending has no caveat
    and the request does not vouch for the disclosure.  Otherwise it requires
    an approval exactly when the risk reaches the tool's level, a
    recommendation demands one, the request does, the action is on a single
    stock at high risk, or the risk reaches the approval policy's level and
    that policy does not approve by itself.  Otherwise it allows.  A decision
    that does not allow names a rule, and the audit event repeats it. *)
Theorem EvaluateAction_spec now request approval toolPolicy :
  let accepted := complete_request request /\ complete_policies approval toolPolicy in
  (accepted ->
    exists decision audit, EvaluateAction now request approval toolPolicy = Ok (decision, audit) /\
      (pd_Outcome decision = PolicyDecisionDeny <-> forbidden request toolPolicy) /\
      (pd_Outcome decision = PolicyDecisionRequireApproval <->
         ~ forbidden request toolPolicy /\ approval_due request approval toolPolicy) /\
      (pd_Outcome decision = PolicyDecisionAllow <->
         ~ forbidden request toolPolicy /\ ~ approval_due request approval toolPolicy) /\
      (pd_Outcome decision <> PolicyDecisionAllow -> exists rule, rule ∈ pd_PolicyRuleRefs decision) /\
      au_Outcome audit = PolicyDecisionOutcome_string (pd_Outcome decision) /\ au_Reason audit = pd_Reason decision /\
      au_PolicyRuleRefs audit = pd_PolicyRuleRefs decision /\ au_OccurredAt audit = pd_EvaluatedAt decision) /\
  (~ accepted -> exists err, EvaluateAction now request approval toolPolicy = Err err).
Proof.
  cbv zeta. rewrite <- valid_inputs_spec. split.
  - intros Hv. rewrite EvaluateAction_valid by done.
    pose proof (decision_of_spec request approval toolPolicy) as (D1 & D2 & D3).
    rewrite forbidden_spec in D1, D2, D3. rewrite approval_due_spec in D2, D3.
    pose proof (action_decision_outcome now request approval toolPolicy) as Ho.
    pose proof (decision_named now request approval toolPolicy) as Hn.
    eexists _, _. split; [apply f_equal, surjective_pairing|]. rewrite Ho in Hn |- *. split_and!; [done..| | | |];
      unfold action_decision, decision_of; by destruct (policy_rule _ _ _) as [[? ?] ?].
  - intros Hn. unfold EvaluateAction. destruct (ActionRequest_Validate request) eqn:E1; [by eexists|].
    destruct (ApprovalPolicy_Validate approval) eqn:E2; [by eexists|].
    destruct (toolPolicy ≫= ToolExecutionPolicy_Validate) as [err|] eqn:E3; [by eexists|].
    destruct Hn. split_and!; [done..|]. by intros policy ->.
Qed.

Definition sample_request (level : ActionRiskLevel) : ActionRequest := zero
  <| aq_Actor := "advisor" |> <| aq_Action := "rebalance" |> <| aq_Resource := "portfolio" |>
  <| aq_RiskLevel := level |> <| aq_CorrelationID := "wf-1" |>.

(** ** Monotonicity *)

(** How strict an outcome is. *)
Definition strictness (outcome : PolicyDecisionOutcome) : Z :=
  match outcome with PolicyDecisionAllow => 0 | PolicyDecisionRequireApproval => 1 | PolicyDecisionDeny => 2 | _ => 3 end.

(** A riskier action is never decided more leniently: raising the risk
    level, asking for an approval in the request, adding recommendations or
    dropping roles keeps or tightens the decision. *)
Theorem decision_monotone now (request request' : ActionRequest) approval toolPolicy d a d' a' :
  EvaluateAction now request approval toolPolicy = Ok (d, a) ->
  EvaluateAction now request' approval toolPolicy = Ok (d', a') ->
  aq_Action request' = aq_Action request -> at_least (aq_RiskLevel request') (aq_RiskLevel request) ->
  (aq_ApprovalRequired request = true -> aq_ApprovalRequired request' = true) ->
  (aq_DisclosureReady request' = true -> aq_DisclosureReady request = true) ->
  aq_Recommendations request ⊆ aq_Recommendations request' -> aq_ActorRoles request' ⊆ aq_ActorRoles request ->
  strictness (pd_Outcome d) <= strictness (pd_Outcome d').
Proof.
  intros H H' Hact Hlevel Hreq Hdisc Hrecs Hroles.
  assert (Hd : forall r d a, EvaluateAction now r approval toolPolicy = Ok (d, a) -> pd_Outcome d = decision_of r approval toolPolicy).
  { intros r d0 a0. unfold EvaluateAction. repeat case_match; try done. intros [= Heq]. by rewrite <- (action_decision_outcome now), Heq. }
  rewrite (Hd _ _ _ H), (Hd _ _ _ H').
  destruct (decision_of_spec request approval toolPolicy) as (D1 & D2 & D3).
  destruct (decision_of_spec request' approval toolPolicy) as (D1' & D2' & D3').
  assert (Hden : denied request toolPolicy -> denied request' toolPolicy).
  { intros [(p & Hp & Hr)|[Hn (r & Hr & Hl)]]; [left|right].
    - exists p. split; [done|]. revert Hr. unfold role_denied, hasIntersection. rewrite !andb_true_iff, !negb_true_iff.
      intros [? Hr]. split; [done|]. apply not_true_iff_false. rewrite existsb_exists. intros (x & Hx & Hx').
      apply not_true_iff_false in Hr. apply Hr, existsb_exists. exists x. split; [|done].
      apply list_elem_of_In, Hroles, list_elem_of_In, Hx.
    - split; [|exists r; split; [by apply Hrecs|done]]. destruct (aq_DisclosureReady request'); [|done]. by rewrite Hdisc in Hn. }
  assert (Hneed : needs_approval request approval toolPolicy -> needs_approval request' approval toolPolicy).
  { unfold needs_approval, at_least in *. rewrite Hact.
    intros [(p & Hp & Hr)|[(r & Hr & Hl)|[Hr|[[Hs Hr]|[Hr Ha]]]]].
    - left. exists p. split; [done|lia].
    - right. left. exists r. split; [by apply Hrecs|done].
    - right. right. left. auto.
    - do 3 right. left. split; [done|lia].
    - do 4 right. split; [lia|done]. }
  destruct (decision_outcomes request approval toolPolicy) as [E|[E|E]], (decision_outcomes request' approval toolPolicy) as [E'|[E'|E']]; rewrite E, E'; cbn; try lia; exfalso; naive_solver.
Qed.

Lemma decision_monotone_witness :
  exists d a d' a', EvaluateAction 1 (sample_request ActionRiskLow) default_approval_policy None = Ok (d, a) /\
    EvaluateAction 1 (sample_request ActionRiskCritical) default_approval_policy None = Ok (d', a') /\
    strictness (pd_Outcome d) <= strictness (pd_Outcome d').
Proof.
  eexists _, _, _, _. split; [reflexivity|]. split; [reflexivity|].
  eapply (decision_monotone 1 (sample_request ActionRiskLow) (sample_request ActionRiskCritical) default_approval_policy None);
    [reflexivity|reflexivity|reflexivity|vm_compute; discriminate|done|done|done|done].
Defined.

(** ** The approval service *)

Lemma merge_level_spec recommendations level :
  let merged := fold_left merge_level recommendations level in
  at_least merged level /\
  (forall r, r ∈ recommendations -> at_least merged (recommendationRiskLevel (rc_RiskLevel r))) /\
  (merged = level \/ exists r, r ∈ recommendations /\ merged = recommendationRiskLevel (rc_RiskLevel r)).
Proof.
  revert level. induction recommendations as [|r recommendations IH]; intros level; cbn [fold_left].
  - split_and!; [unfold at_least; lia|by intros r ?%elem_of_nil|by left].
  - destruct (IH (merge_level level r)) as (H1 & H2 & H3).
    assert (Hm : at_least (merge_level level r) level /\ at_least (merge_level level r) (recommendationRiskLevel (rc_RiskLevel r)) /\
                 (merge_level level r = level \/ merge_level level r = recommendationRiskLevel (rc_RiskLevel r))).
    { unfold merge_level, compareRisk, at_least. case_match eqn:E; [apply Z.ltb_lt in E|apply Z.ltb_ge in E]; split_and!; auto; lia. }
    destruct Hm as (M1 & M2 & M3). unfold at_least in *. split_and!; [lia| |].
    + intros x [->|Hx]%elem_of_cons; [lia|auto].
    + setoid_rewrite elem_of_cons. destruct H3 as [->|(x & Hx & ->)]; [destruct M3 as [->| ->]; eauto|eauto].
Qed.

(** A service with the package's engine and default policies. *)
Definition default_service (classifier : option RiskClassifier) (toolPolicy : option ToolExecutionPolicy) : ApprovalService :=
  mkApprovalService classifier None None zero toolPolicy zero.

Definition assessed (s : ApprovalService) (input : ApprovalEvaluationInput) : RiskAssessment :=
  classifier s (ai_CurrentState input) (ai_Action input).

Lemma service_decides now classify toolPolicy input evaluation :
  let s := default_service classify toolPolicy in
  Service_EvaluateAction now s input = Ok evaluation ->
  exists decision audit, ae_Decision evaluation = Some decision /\ ae_Audit evaluation = Some audit /\
    au_Outcome audit = PolicyDecisionOutcome_string (pd_Outcome decision) /\ au_Reason audit = pd_Reason decision /\
    let level := ra_Level (ae_RiskAssessment evaluation) in
    (pd_Outcome decision = PolicyDecisionAllow <->
       ai_ForceApproval input = false /\ ~ at_least (ra_Level (assessed s input)) ActionRiskHigh /\
       (forall r, r ∈ ai_Recommendations input -> ~ at_least (recommendationRiskLevel (rc_RiskLevel r)) ActionRiskHigh) /\
       ~ denied (action_request input level) toolPolicy /\
       ~ needs_approval (action_request input level) default_approval_policy toolPolicy) /\
    at_least level (ra_Level (assessed s input)) /\
    (forall r, r ∈ ai_Recommendations input -> at_least level (recommendationRiskLevel (rc_RiskLevel r))) /\
    (level = ra_Level (assessed s input) \/
     exists r, r ∈ ai_Recommendations input /\ level = recommendationRiskLevel (rc_RiskLevel r)).
Proof.
  intros s H. unfold Service_EvaluateAction in H.
  destruct (merge_level_spec (ai_Recommendations input) (ra_Level (assessed s input))) as (M1 & M2 & M3).
  set (risk := mergeRecommendationRisk _ _) in H. change (fold_left _ _ _) with (ra_Level risk) in M1, M2, M3.
  change (decider now s) with (StaticPolicyEngine now) in H. change (approvalPolicy s) with default_approval_policy in H.
  change (svc_ToolPolicy s) with toolPolicy in H. cbn [PolicyEngine_EvaluateAction StaticPolicyEngine] in H.
  unfold EvaluateAction in H. change (ApprovalPolicy_Validate default_approval_policy) with (@None error) in H.
  destruct (ActionRequest_Validate _); [done|]. destruct (toolPolicy ≫= _); [done|].
  pose proof (action_decision_outcome now (action_request input (ra_Level risk)) default_approval_policy toolPolicy) as Ho.
  assert (Ha : let '(d, a) := action_decision now (action_request input (ra_Level risk)) default_approval_policy toolPolicy in
    au_Outcome a = PolicyDecisionOutcome_string (pd_Outcome d) /\ au_Reason a = pd_Reason d)
    by (unfold action_decision; by destruct (policy_rule _ _ _) as [[? ?] ?]).
  destruct (action_decision _ _ _ _) as [d a]. cbn [fst] in Ho. destruct Ha as [Ha1 Ha2].
  destruct (decision_of_spec (action_request input (ra_Level risk)) default_approval_policy toolPolicy) as (_ & _ & D).
  assert (Hlow : ~ needs_approval (action_request input (ra_Level risk)) default_approval_policy toolPolicy ->
    ~ at_least (ra_Level (assessed s input)) ActionRiskHigh /\
    (forall r, r ∈ ai_Recommendations input -> ~ at_least (recommendationRiskLevel (rc_RiskLevel r)) ActionRiskHigh)).
  { intros Hn. assert (Hh : ~ at_least (ra_Level risk) ActionRiskHigh) by (intros Hh; apply Hn; do 4 right; by split).
    unfold at_least in *. split; [lia|]. intros r Hr. specialize (M2 r Hr). lia. }
  rewrite <- Ho in D. unfold force_approval in H. destruct (ai_ForceApproval input) eqn:Hf; cbn [andb] in H.
  - case_bool_decide as Hout; injection H as <-; eexists _, _; (split; [reflexivity|]); (split; [reflexivity|]); cbn.
    + split_and!; [done|done| |exact M1|exact M2|exact M3]. split; [done|]. by intros [? _].
    + split_and!; [done|done| |exact M1|exact M2|exact M3]. split; [done|]. by intros [? _].
  - injection H as <-. eexists _, _; (split; [reflexivity|]); (split; [reflexivity|]); cbn.
    split_and!; [done|done| |exact M1|exact M2|exact M3]. naive_solver.
Qed.

(** There are no other decisions. *)
Lemma service_outcome now classify toolPolicy input evaluation decision :
  Service_EvaluateAction now (default_service classify toolPolicy) input = Ok evaluation -> ae_Decision evaluation = Some decision ->
  pd_Outcome decision = PolicyDecisionAllow \/ pd_Outcome decision = PolicyDecisionRequireApproval \/ pd_Outcome decision = PolicyDecisionDeny.
Proof.
  intros H Hd. unfold Service_EvaluateAction in H. set (risk := mergeRecommendationRisk _ _) in H.
  change (decider now (default_service classify toolPolicy)) with (StaticPolicyEngine now) in H.
  change (approvalPolicy (default_service classify toolPolicy)) with default_approval_policy in H.
  cbn [PolicyEngine_EvaluateAction StaticPolicyEngine] in H.
  unfold EvaluateAction in H. change (ApprovalPolicy_Validate default_approval_policy) with (@None error) in H.
  destruct (ActionRequest_Validate _); [done|]. destruct (svc_ToolPolicy _ ≫= _); [done|].
  pose proof (action_decision_outcome now (action_request input (ra_Level risk)) default_approval_policy
    (svc_ToolPolicy (default_service classify toolPolicy))) as Ho.
  pose proof (decision_outcomes (action_request input (ra_Level risk)) default_approval_policy (svc_ToolPolicy (default_service classify toolPolicy))) as H3.
  rewrite <- Ho in H3. destruct (action_decision _ _ _ _) as [d a]. cbn [fst] in H3. unfold force_approval in H.
  destruct (ai_ForceApproval input); cbn [andb] in H; [case_bool_decide|]; injection H as <-; injection Hd as <-; cbn; auto.
Qed.

(** C28: With the package's engine and default policies the approval service
    lets an action through only when nobody forces an approval, both the
    classifier and every recommendation rate it below high, and no rule
    denies it or asks for an approval.  The level it reports is the highest
    of the classifier's and the recommendations', and the audit event agrees
    with the decision. *)
Theorem service_allows_only_low_risk now classify toolPolicy input evaluation :
  let s := default_service classify toolPolicy in
  Service_EvaluateAction now s input = Ok evaluation ->
  exists decision audit, ae_Decision evaluation = Some decision /\ ae_Audit evaluation = Some audit /\
    au_Outcome audit = PolicyDecisionOutcome_string (pd_Outcome decision) /\ au_Reason audit = pd_Reason decision /\
    let level := ra_Level (ae_RiskAssessment evaluation) in
    (pd_Outcome decision = PolicyDecisionAllow <->
       ai_ForceApproval input = false /\ ~ at_least (ra_Level (assessed s input)) ActionRiskHigh /\
       (forall r, r ∈ ai_Recommendations input -> ~ at_least (recommendationRiskLevel (rc_RiskLevel r)) ActionRiskHigh) /\
       ~ denied (action_request input level) toolPolicy /\
       ~ needs_approval (action_request input level) default_approval_policy toolPolicy) /\
    at_least level (ra_Level (assessed s input)) /\
    (forall r, r ∈ ai_Recommendations input -> at_least level (recommendationRiskLevel (rc_RiskLevel r))) /\
    (level = ra_Level (assessed s input) \/
     exists r, r ∈ ai_Recommendations input /\ level = recommendationRiskLevel (rc_RiskLevel r)).
Proof. exact (service_decides now classify toolPolicy input evaluation). Qed.

Definition sample_input (force : bool) : ApprovalEvaluationInput := zero
  <| ai_WorkflowID := "wf-1" |> <| ai_Action := "rebalance" |> <| ai_Resource := "portfolio" |> <| ai_Actor := "advisor" |>
  <| ai_ForceApproval := force |>.

Lemma service_allows_only_low_risk_witness :
  exists evaluation, Service_EvaluateAction 1 (default_service None None) (sample_input false) = Ok evaluation /\
    exists decision audit, ae_Decision evaluation = Some decision /\ ae_Audit evaluation = Some audit /\
      au_Outcome audit = PolicyDecisionOutcome_string (pd_Outcome decision).
Proof.
  eexists. split; [reflexivity|].
  destruct (service_allows_only_low_risk 1 None None (sample_input false) _ eq_refl) as (d & a & H1 & H2 & H3 & _).
  exists d, a. split_and!; [exact H1|exact H2|exact H3].
Defined.

(** [RequiresApprovalAbove] includes the level itself. *)
Lemma tool_threshold_inclusive request approval policy :
  ~ denied request (Some policy) -> aq_RiskLevel request = tp_RequiresApprovalAbove policy ->
  decision_of request approval (Some policy) = PolicyDecisionRequireApproval.
Proof.
  intros Hd Hl. apply decision_of_spec. split; [done|]. left. exists policy. split; [done|]. unfold at_least. by rewrite Hl.
Qed.

(** The roles an approval policy requires play no part. *)
Lemma required_roles_unused now request approval roles toolPolicy :
  EvaluateAction now request (approval <| apl_RequiredRoles := roles |>) toolPolicy = EvaluateAction now request approval toolPolicy.
Proof. reflexivity. Qed.

(** A forced approval names no rule. *)
Lemma forced_approval_without_rule :
  exists evaluation decision, Service_EvaluateAction 1 (default_service None None) (sample_input true) = Ok evaluation /\
    ae_Decision evaluation = Some decision /\ pd_Outcome decision = PolicyDecisionRequireApproval /\
    pd_PolicyRuleRefs decision = [].
Proof. eexists _, _. split_and!; reflexivity. Qed.

(** ** The memory write gate *)

Lemma memory_ruling_spec record policy :
  (memory_ruling record policy).1 = PolicyDecisionAllow <->
  f_ltb (mc_Score (mm_Confidence record)) (mw_MinConfidence policy) = false /\
  (mw_RequireEvidence policy = true -> ms_EvidenceIDs (mm_Source record) <> []) /\
  (mw_AllowKinds policy <> [] -> mm_Kind record ∈ mw_AllowKinds policy).
Proof.
  unfold memory_ruling.
  assert (Hk : containsMemoryKind (mw_AllowKinds policy) (mm_Kind record) = true <-> mm_Kind record ∈ mw_AllowKinds policy).
  { unfold containsMemoryKind. rewrite existsb_exists. setoid_rewrite bool_decide_eq_true. setoid_rewrite <- list_elem_of_In. naive_solver. }
  destruct (containsMemoryKind _ _), (f_ltb _ _), (mw_RequireEvidence policy); cbn [andb negb];
    rewrite ?andb_false_r, ?andb_true_r; repeat case_bool_decide; cbn [fst]; naive_solver.
Qed.

Lemma AllowWrite_spec gate_now now s record :
  mg_PolicyEngine s = None ->
  let policy := gate_policy (mg_Policy s) in
  AllowWrite gate_now now s record = Ok tt <->
  MemoryRecord_Validate record = None /\ MemoryWritePolicy_Validate policy = None /\
  (memory_ruling record policy).1 = PolicyDecisionAllow.
Proof.
  intros Hs. cbv zeta. unfold AllowWrite. rewrite Hs. cbn [default StaticPolicyEngine PolicyEngine_EvaluateMemoryWrite].
  unfold EvaluateMemoryWrite. destruct (MemoryRecord_Validate record); [naive_solver|].
  destruct (MemoryWritePolicy_Validate _); [naive_solver|]. destruct (memory_ruling _ _) as [o reason]. cbn.
  case_bool_decide; cbn; naive_solver.
Qed.
