(* ===== verification/Skills.v ===== *)
(** * Behavior skills and their selection *)

From S2P Require Export Memory.
#[local] Open Scope Z_scope.

(** * Behavior skills (internal/skills)

    The skill catalog, the deterministic selector that picks a family and a
    recipe from the hint, the procedural memories and the state, the runtime
    that resolves a selection, and the two deterministic review skills. *)

(** ** Manifests (manifest.go, policy.go) *)

Definition SkillRecipe_Validate (r : SkillRecipe) : option error :=
  if sr_ID r == "" then Some (PlainError "recipe id is required")
  else if sr_Title r == "" then Some (PlainError "recipe title is required")
  else if InterventionIntensity_string (sr_InterventionIntensity r) == ""
  then Some (PlainError "recipe intervention intensity is required")
  else None.

Fixpoint recipes_error (seen : list string) (recipes : list SkillRecipe) : option error :=
  match recipes with
  | [] => None
  | recipe :: recipes =>
      match SkillRecipe_Validate recipe with
      | Some err => Some (WrapError ("recipe " +:+ Quote (sr_ID recipe) +:+ " invalid: ") err)
      | None =>
          if bool_decide (sr_ID recipe ∈ seen) then Some (PlainError ("duplicate recipe id " +:+ Quote (sr_ID recipe)))
          else recipes_error (sr_ID recipe :: seen) recipes
      end
  end.

Definition SkillManifest_Validate (m : SkillManifest) : option error :=
  if SkillFamily_string (sm_Family m) == "" then Some (PlainError "skill family is required")
  else if sm_Version m == "" then Some (PlainError "skill version is required")
  else if sm_Title m == "" then Some (PlainError "skill title is required")
  else if sg_Intent (sm_Trigger m) == "" then Some (PlainError "skill trigger intent is required")
  else if so_BlockKind (sm_ExpectedOutput m) == "" then Some (PlainError "skill expected output block kind is required")
  else if bool_decide (sm_Recipes m = []) then Some (PlainError "skill manifest requires at least one recipe")
  else recipes_error [] (sm_Recipes m).

Definition recipeForID (manifest : SkillManifest) (recipeID : string) : option SkillRecipe :=
  List.find (fun item => sr_ID item == recipeID) (sm_Recipes manifest).

(** [SkillManifest.RequiresApproval] *)
Definition RequiresApproval (m : SkillManifest) (recipeID : string) : bool :=
  if recipeID == "" then false
  else if existsb (fun item => item == recipeID) (sp_RequiresApprovalRecipes (sm_Policy m)) then true
  else match recipeForID m recipeID with Some recipe => sr_ApprovalRequired recipe | None => false end.

(** ** The catalog (catalog.go)

    Keyed by the text of the family, then by the version. *)

Abbreviation StaticSkillCatalog := (gmap string (gmap string SkillManifest)).

Definition add_manifest (items : StaticSkillCatalog) (manifest : SkillManifest) : outcome error StaticSkillCatalog :=
  match SkillManifest_Validate manifest with
  | Some err => Err err
  | None =>
      let family := SkillFamily_string (sm_Family manifest) in
      let versions := default ∅ (items !! family) in
      if is_set (versions !! sm_Version manifest)
      then Err (PlainError ("duplicate skill manifest " +:+ family +:+ ":" +:+ sm_Version manifest))
      else Ok (<[family := <[sm_Version manifest := manifest]> versions]> items)
  end.

Fixpoint add_manifests (items : StaticSkillCatalog) (manifests : list SkillManifest) : outcome error StaticSkillCatalog :=
  match manifests with
  | [] => Ok items
  | manifest :: manifests =>
      match add_manifest items manifest with
      | Ok items => add_manifests items manifests
      | failed => failed
      end
  end.

Definition NewStaticSkillCatalog (manifests : list SkillManifest) : outcome error StaticSkillCatalog := add_manifests ∅ manifests.

Section catalog.
Context `{MO : MapOrder}.

Definition sorted_keys {A} (m : gmap string A) : list string := slices_SortFunc (compare_id id) (map_range m).*1.

Definition Families (c : StaticSkillCatalog) : list string := sorted_keys c.

(** The last version in the order of their texts. *)
Definition Latest (c : StaticSkillCatalog) (family : SkillFamily) : option SkillManifest :=
  versions ← c !! SkillFamily_string family;
  version ← last (sorted_keys versions);
  versions !! version.

Definition Manifest (c : StaticSkillCatalog) (family : SkillFamily) (version : string) : option SkillManifest :=
  versions ← c !! SkillFamily_string family;
  versions !! version.

(** ** The default catalog *)

Definition both_states : list string := ["behavior_state"; "cashflow_state"].
Definition hard_cap_rule : string := "behavior.guardrail.hard_cap.approval_required".

Definition subscription_manifest : SkillManifest := {|
  sm_Family := SkillFamilySubscriptionCleanup; sm_Version := "v1"; sm_Title := "Subscription Cleanup";
  sm_Description := "Surface duplicate or overlapping recurring subscriptions and propose cleanup.";
  sm_Trigger := {| sg_Intent := "behavior_intervention"; sg_Keywords := ["订阅清理"; "subscription cleanup"];
                   sg_RequiredEvidence := ["transaction_batch"; "recurring_subscription_signal"] |};
  sm_Policy := {| sp_RequiresApprovalRecipes := []; sp_PolicyRuleRefs := [] |};
  sm_ExpectedOutput := {| so_BlockKind := "behavior_intervention_block";
                          so_RecommendationTypes := ["behavior_subscription_cleanup"] |};
  sm_Recipes := [{| sr_ID := "subscription_cleanup.v1"; sr_Title := "Subscription Cleanup v1";
    sr_Description := "Recommend cancelling overlapping subscriptions and reducing duplicate recurring spend.";
    sr_InterventionIntensity := InterventionIntensityModerate;
    sr_RequiredEvidenceTypes := ["transaction_batch"; "recurring_subscription_signal"];
    sr_RequiredStateBlocks := both_states; sr_ApprovalRequired := false; sr_PolicyRuleRefs := [] |}]
|}.

Definition late_night_evidence : list string := ["transaction_batch"; "late_night_spending_signal"].

Definition late_night_manifest : SkillManifest := {|
  sm_Family := SkillFamilyLateNightSpendNudge; sm_Version := "v1"; sm_Title := "Late-Night Spend Nudge";
  sm_Description := "Address late-night discretionary spend spikes with lighter intervention.";
  sm_Trigger := {| sg_Intent := "behavior_intervention"; sg_Keywords := ["深夜消费"; "late night spending"];
                   sg_RequiredEvidence := late_night_evidence |};
  sm_Policy := {| sp_RequiresApprovalRecipes := []; sp_PolicyRuleRefs := [] |};
  sm_ExpectedOutput := {| so_BlockKind := "behavior_intervention_block"; so_RecommendationTypes := ["behavior_spend_nudge"] |};
  sm_Recipes := [{| sr_ID := "late_night_spend_nudge.v1"; sr_Title := "Late-Night Spend Nudge v1";
    sr_Description := "Recommend a lighter review and spend pause for late-night discretionary activity.";
    sr_InterventionIntensity := InterventionIntensityLow; sr_RequiredEvidenceTypes := late_night_evidence;
    sr_RequiredStateBlocks := both_states; sr_ApprovalRequired := false; sr_PolicyRuleRefs := [] |}]
|}.

Definition soft_nudge : SkillRecipe := {|
  sr_ID := "soft_nudge.v1"; sr_Title := "Soft Nudge v1";
  sr_Description := "Recommend a lightweight discretionary-spend review with minimal intervention.";
  sr_InterventionIntensity := InterventionIntensityLow; sr_RequiredEvidenceTypes := late_night_evidence;
  sr_RequiredStateBlocks := both_states; sr_ApprovalRequired := false; sr_PolicyRuleRefs := [] |}.

Definition budget_guardrail : SkillRecipe := {|
  sr_ID := "budget_guardrail.v1"; sr_Title := "Budget Guardrail v1";
  sr_Description := "Recommend a stricter budget guardrail for recurring discretionary pressure.";
  sr_InterventionIntensity := InterventionIntensityModerate; sr_RequiredEvidenceTypes := late_night_evidence;
  sr_RequiredStateBlocks := both_states; sr_ApprovalRequired := false; sr_PolicyRuleRefs := [] |}.

Definition hard_cap : SkillRecipe := {|
  sr_ID := "hard_cap.v1"; sr_Title := "Hard Cap v1";
  sr_Description := "Recommend a hard discretionary spending cap under repeated pressure. This is governed and approval-gated.";
  sr_InterventionIntensity := InterventionIntensityHigh; sr_RequiredEvidenceTypes := late_night_evidence;
  sr_RequiredStateBlocks := both_states ++ ["risk_state"]; sr_ApprovalRequired := true;
  sr_PolicyRuleRefs := [hard_cap_rule] |}.

Definition guardrail_manifest : SkillManifest := {|
  sm_Family := SkillFamilyDiscretionaryGuardrail; sm_Version := "v1"; sm_Title := "Discretionary Guardrail";
  sm_Description := "Escalate discretionary spend interventions based on repeated anomalies and prior outcome memory.";
  sm_Trigger := {| sg_Intent := "behavior_intervention";
                   sg_Keywords := ["消费护栏"; "behavior intervention"; "spending behavior review"];
                   sg_RequiredEvidence := late_night_evidence |};
  sm_Policy := {| sp_RequiresApprovalRecipes := ["hard_cap.v1"]; sp_PolicyRuleRefs := [] |};
  sm_ExpectedOutput := {| so_BlockKind := "behavior_intervention_block"; so_RecommendationTypes := ["behavior_guardrail"] |};
  sm_Recipes := [soft_nudge; budget_guardrail; hard_cap]
|}.

Definition DefaultBehaviorSkillCatalog : outcome error StaticSkillCatalog :=
  NewStaticSkillCatalog [subscription_manifest; late_night_manifest; guardrail_manifest].

(** ** Selection (selection.go) *)

Definition normalizeFamilies (items : list string) : list string := filter (fun item => item <> "") (TrimSpace <$> items).

Definition familyAllowed (allowed : list string) (family : SkillFamily) : bool :=
  bool_decide (allowed = []) || bool_decide (SkillFamily_string family ∈ allowed).

Definition defaultRecipeID (family : SkillFamily) : string :=
  match family with
  | SkillFamilySubscriptionCleanup => "subscription_cleanup.v1"
  | SkillFamilyLateNightSpendNudge => "late_night_spend_nudge.v1"
  | _ => "soft_nudge.v1"
  end.

(** [uniqueStrings] of this package: blank items are dropped, others kept as they are. *)
Definition uniqueStrings (items : list string) : list string :=
  unique_from [] (filter (fun item => blank_text item = false) items).

Definition evidenceRefs (records : list EvidenceRecord) : list string := uniqueStrings (er_ID <$> records).

Definition procedural (item : ProceduralMemoryContextRecord) : bool := pm_Kind item == "procedural".

Definition proceduralMemoryRefs (records : list ProceduralMemoryContextRecord) : list string :=
  uniqueStrings (pm_ID <$> filter (fun item => procedural item = true) records).

Definition hasGuardrailProceduralMemory (records : list ProceduralMemoryContextRecord) : bool :=
  existsb (fun item => procedural item &&
    (default "" (pm_Facts item !! "skill_family") == SkillFamily_string SkillFamilyDiscretionaryGuardrail)) records.

Definition late_night_frequency (input : SelectionInput) : float64 :=
  bh_LateNightSpendingFrequency (fw_BehaviorState (sin_CurrentState input)).

Definition pickGuardrailRecipe (input : SelectionInput) : string :=
  let repeated := hasGuardrailProceduralMemory (sin_ProceduralMemories input) in
  let lowerHint := ToLower (TrimSpace (sin_SelectionHint input)) in
  let highPressure := f_leb (f_const 45 100) (late_night_frequency input) ||
    (cf_MonthlyNetIncomeCents (fw_CashflowState (sin_CurrentState input)) <? 0) in
  if Contains lowerHint "hard_cap" && repeated then "hard_cap.v1"
  else if repeated && highPressure then "hard_cap.v1"
  else if repeated || f_leb (f_const 35 100) (late_night_frequency input) then "budget_guardrail.v1"
  else "soft_nudge.v1".

Definition selection_reason (code detail : string) (evidenceRefs memoryRefs policyRuleRefs : list string) : SkillSelectionReason := {|
  ssr_Code := code; ssr_Detail := detail; ssr_EvidenceRefs := evidenceRefs; ssr_StateRefs := both_states;
  ssr_MemoryRefs := memoryRefs; ssr_PolicyRuleRefs := policyRuleRefs |}.

(** The chain of conditions that picks the family. *)
Definition chosen_family (input : SelectionInput) : SkillFamily * list SkillSelectionReason :=
  let allowed := normalizeFamilies (sin_AllowedFamilies input) in
  let evidence := evidenceRefs (sin_Evidence input) in
  let memories := proceduralMemoryRefs (sin_ProceduralMemories input) in
  let lowerHint := ToLower (TrimSpace (sin_SelectionHint input)) in
  let behavior := fw_BehaviorState (sin_CurrentState input) in
  if Contains lowerHint "subscription" && familyAllowed allowed SkillFamilySubscriptionCleanup then
    (SkillFamilySubscriptionCleanup, [selection_reason "selection_hint_subscription"
      "the explicit intervention request focused on subscriptions, so the selector chose the subscription cleanup family" evidence [] []])
  else if Contains lowerHint "guardrail" || Contains lowerHint "hard_cap" || Contains lowerHint "spending_cap" then
    (SkillFamilyDiscretionaryGuardrail, [selection_reason "selection_hint_guardrail"
      "the explicit intervention request focused on a spending guardrail, so the selector chose the discretionary guardrail family"
      evidence [] []])
  else if Contains lowerHint "late_night" && familyAllowed allowed SkillFamilyLateNightSpendNudge then
    (SkillFamilyLateNightSpendNudge, [selection_reason "selection_hint_late_night"
      "the explicit intervention request focused on late-night spending, so the selector chose the late-night nudge family" evidence [] []])
  else if hasGuardrailProceduralMemory (sin_ProceduralMemories input) && familyAllowed allowed SkillFamilyDiscretionaryGuardrail then
    (SkillFamilyDiscretionaryGuardrail, [selection_reason "procedural_memory_repeat_anomaly"
      "retrieved procedural memory shows a prior guardrail already ran against a similar anomaly, so the selector kept the guardrail family and escalated the intervention"
      [] memories []])
  else if (2 <=? bh_DuplicateSubscriptionCount behavior) && familyAllowed allowed SkillFamilySubscriptionCleanup then
    (SkillFamilySubscriptionCleanup, [selection_reason "duplicate_subscriptions"
      "duplicate subscriptions are the dominant anomaly, so subscription cleanup takes priority" evidence [] []])
  else if f_leb (f_const 30 100) (bh_LateNightSpendingFrequency behavior) && familyAllowed allowed SkillFamilyLateNightSpendNudge then
    (SkillFamilyLateNightSpendNudge, [selection_reason "late_night_spike"
      "late-night discretionary spend spike dominates, so the late-night nudge skill is selected" evidence [] []])
  else if familyAllowed allowed SkillFamilyDiscretionaryGuardrail then
    (SkillFamilyDiscretionaryGuardrail, [selection_reason "discretionary_pressure"
      "discretionary pressure is the dominant signal, so the guardrail family is selected" evidence [] []])
  else (SkillFamilyDiscretionaryGuardrail, []).

(** The recipe, with the reasons and policy references the guardrail family adds. *)
Definition chosen_recipe (input : SelectionInput) (chosen : SkillFamily) : string * list SkillSelectionReason * list string :=
  let memories := proceduralMemoryRefs (sin_ProceduralMemories input) in
  if chosen == SkillFamilyDiscretionaryGuardrail then
    let recipeID := pickGuardrailRecipe input in
    (recipeID,
     (if (recipeID == "budget_guardrail.v1") && bool_decide (memories <> []) then [selection_reason "procedural_memory_escalation"
        "retrieved procedural memory shows a prior lower-intensity guardrail already ran against a similar anomaly, so the selector escalated to budget_guardrail.v1"
        [] memories []] else []) ++
     (if recipeID == "hard_cap.v1" then [selection_reason "high_intensity_guardrail"
        "repeated discretionary-pressure anomaly plus prior procedural memory escalated the recipe to hard_cap.v1"
        [] memories [hard_cap_rule]] else []),
     if recipeID == "hard_cap.v1" then [hard_cap_rule] else [])
  else if Contains (ToLower (sin_SelectionHint input)) "hard_cap" then ("hard_cap.v1", [], [])
  else (defaultRecipeID chosen, [], []).

(** [DeterministicBehaviorSkillSelector.Select] *)
Definition Select (catalog : option StaticSkillCatalog) (input : SelectionInput) : outcome error SkillSelection :=
  match catalog with
  | None => Err (PlainError "skill selector requires catalog")
  | Some catalog =>
      let '(chosen, reasons) := chosen_family input in
      match Latest catalog chosen with
      | None => Err (PlainError ("missing default manifest for family " +:+ SkillFamily_string chosen))
      | Some manifest =>
          let '(recipeID, more_reasons, policyRefs) := chosen_recipe input chosen in
          match recipeForID manifest recipeID with
          | None => Err (PlainError ("selected recipe " +:+ Quote recipeID +:+ " missing in manifest " +:+
                                     SkillFamily_string (sm_Family manifest) +:+ ":" +:+ sm_Version manifest))
          | Some recipe => Ok {|
              sse_Family := chosen;
              sse_Version := sm_Version manifest;
              sse_RecipeID := sr_ID recipe;
              sse_Reasons := reasons ++ more_reasons;
              sse_EvidenceRefs := evidenceRefs (sin_Evidence input);
              sse_StateRefs := both_states;
              sse_MemoryRefs := proceduralMemoryRefs (sin_ProceduralMemories input);
              sse_PolicyRuleRefs := uniqueStrings (policyRefs ++ sr_PolicyRuleRefs recipe ++ sp_PolicyRuleRefs (sm_Policy manifest));
              sse_InterventionIntensity := sr_InterventionIntensity recipe |}
          end
      end
  end.

(** [StaticSkillRuntime.Resolve] *)
Definition Resolve (catalog : option StaticSkillCatalog) (selection : SkillSelection) : outcome error (SkillManifest * SkillRecipe) :=
  match catalog with
  | None => Err (PlainError "skill runtime requires catalog")
  | Some catalog =>
      let name := SkillFamily_string (sse_Family selection) +:+ ":" +:+ sse_Version selection in
      match Manifest catalog (sse_Family selection) (sse_Version selection) with
      | None => Err (PlainError ("unknown skill manifest " +:+ name))
      | Some manifest =>
          match recipeForID manifest (sse_RecipeID selection) with
          | None => Err (PlainError ("unknown recipe " +:+ Quote (sse_RecipeID selection) +:+ " for " +:+ name))
          | Some recipe => Ok (manifest, recipe)
          end
      end
  end.
End catalog.

(** * Correctness of skill selection

    What a catalog holds, that the selector always answers with a recipe of
    the default catalog, and when it escalates to the hard cap. *)

(** ** The catalog *)

Definition catalog_lookup (c : StaticSkillCatalog) (family version : string) : option SkillManifest :=
  versions ← c !! family; versions !! version.

Lemma add_manifest_Ok c m c' :
  add_manifest c m = Ok c' ->
  SkillManifest_Validate m = None /\ catalog_lookup c (SkillFamily_string (sm_Family m)) (sm_Version m) = None /\
  forall family version, catalog_lookup c' family version =
    if bool_decide (family = SkillFamily_string (sm_Family m) /\ version = sm_Version m) then Some m
    else catalog_lookup c family version.
Proof.
  unfold add_manifest. destruct (SkillManifest_Validate m); [done|].
  destruct (is_set _) eqn:E; [done|]. intros [= <-].
  assert (Hno : default ∅ (c !! SkillFamily_string (sm_Family m)) !! sm_Version m = None)
    by (by destruct (default ∅ _ !! _)).
  unfold catalog_lookup. split_and!; [done| |].
  - destruct (c !! SkillFamily_string (sm_Family m)); [exact Hno|done].
  - intros family version. destruct (decide (family = SkillFamily_string (sm_Family m))) as [->|Hf].
    + rewrite lookup_insert_eq. cbn. destruct (decide (version = sm_Version m)) as [->|Hv].
      * rewrite lookup_insert_eq. by rewrite bool_decide_eq_true_2.
      * rewrite lookup_insert_ne by done. rewrite bool_decide_eq_false_2 by naive_solver.
        by destruct (c !! SkillFamily_string (sm_Family m)).
    + rewrite lookup_insert_ne by done. by rewrite bool_decide_eq_false_2 by naive_solver.
Qed.

Lemma add_manifests_Ok c manifests c' :
  add_manifests c manifests = Ok c' ->
  Forall (fun m => SkillManifest_Validate m = None) manifests /\
  (forall family version m, catalog_lookup c' family version = Some m <->
     catalog_lookup c family version = Some m \/
     (m ∈ manifests /\ SkillFamily_string (sm_Family m) = family /\ sm_Version m = version)) /\
  (forall m, m ∈ manifests -> catalog_lookup c (SkillFamily_string (sm_Family m)) (sm_Version m) = None).
Proof.
  revert c. induction manifests as [|m manifests IH]; intros c; cbn [add_manifests].
  - intros [= ->]. split_and!; [done| |by intros m ?%elem_of_nil]. intros. rewrite elem_of_nil. naive_solver.
  - destruct (add_manifest c m) as [c1| | |] eqn:E; try done. intros H.
    destruct (add_manifest_Ok _ _ _ E) as (Hv & Hno & Hc1). destruct (IH _ H) as (Hf & Hl & Hn). split_and!.
    + by constructor.
    + intros family version m'. rewrite Hl, Hc1, elem_of_cons. case_bool_decide as Hb; [|naive_solver].
      destruct Hb as [-> ->]. rewrite Hno. naive_solver.
    + intros m' [->|Hm]%elem_of_cons; [done|]. specialize (Hn m' Hm). rewrite Hc1 in Hn. by case_bool_decide.
Qed.

Lemma add_manifests_families c manifests c' family :
  add_manifests c manifests = Ok c' ->
  is_Some (c' !! family) <-> is_Some (c !! family) \/ family ∈ (fun m => SkillFamily_string (sm_Family m)) <$> manifests.
Proof.
  revert c. induction manifests as [|m manifests IH]; intros c; cbn [add_manifests].
  - intros [= ->]. rewrite elem_of_nil. tauto.
  - destruct (add_manifest c m) as [c1| | |] eqn:E; try done. intros H. rewrite (IH _ H). cbn [fmap list_fmap]. rewrite elem_of_cons.
    unfold add_manifest in E. destruct (SkillManifest_Validate m); [done|]. destruct (is_set _); [done|]. injection E as <-.
    destruct (decide (family = SkillFamily_string (sm_Family m))) as [->|Hne].
    + rewrite lookup_insert_eq. naive_solver.
    + rewrite lookup_insert_ne by done. naive_solver.
Qed.

Lemma sorted_keys_elem `{MO : MapOrder} {A} (m : gmap string A) k : k ∈ sorted_keys m <-> is_Some (m !! k).
Proof.
  unfold sorted_keys. rewrite elem_of_SortFunc, list_elem_of_fmap. split.
  - intros ([k' a] & -> & H%elem_of_map_range). by exists a.
  - intros [a H]. exists (k, a). split; [done|]. by apply elem_of_map_range.
Qed.

#[export] Instance compare_id_order : CmpOrder (compare_id (A := string) id).
Proof.
  assert (Hle : forall a b, cmp_le (compare_id id) a b <-> str_ltb b a = false).
  { intros a b. unfold cmp_le, compare_id. cbn. destruct (str_ltb a b) eqn:E; [by rewrite (str_ltb_asym _ _ E)|].
    by destruct (str_ltb b a). }
  split.
  - intros a b c. rewrite !Hle. intros H1 H2. destruct (str_ltb c a) eqn:E; [|done].
    destruct (str_ltb b c) eqn:E2.
    + by rewrite (str_ltb_trans _ _ _ E2 E) in H1.
    + pose proof (str_ltb_antisym _ _ E2 H2). congruence.
  - intros a b. destruct (str_ltb b a) eqn:E; [right|left].
    + apply (proj2 (Hle b a)). by apply str_ltb_asym.
    + by apply (proj2 (Hle a b)).
Qed.

Lemma StronglySorted_last {A} (R : relation A) l x y :
  StronglySorted R l -> last l = Some y -> x ∈ l -> x = y \/ R x y.
Proof.
  intros HS Hl Hx. destruct l as [|z l _] using rev_ind; [done|]. rewrite last_snoc in Hl. injection Hl as ->.
  apply elem_of_app in Hx as [Hx|Hx%list_elem_of_singleton]; [right|by left].
  eapply (StronglySorted_app_le R l [y]); [done|done|left].
Qed.

(** A catalog built from manifests answers each of them under its family
    and version and nothing else; it is built only when all are valid and no
    two share both.  [Latest] answers, for a family that has a manifest, the
    one whose version text is the greatest, and [Families] lists exactly the
    families that have one. *)
Theorem catalog_spec `{MO : MapOrder} manifests c :
  NewStaticSkillCatalog manifests = Ok c ->
  Forall (fun m => SkillManifest_Validate m = None) manifests /\
  (forall family version m, Manifest c family version = Some m <->
     m ∈ manifests /\ SkillFamily_string (sm_Family m) = SkillFamily_string family /\ sm_Version m = version) /\
  (forall family m, Latest c family = Some m ->
     m ∈ manifests /\ SkillFamily_string (sm_Family m) = SkillFamily_string family /\
     forall m', m' ∈ manifests -> SkillFamily_string (sm_Family m') = SkillFamily_string family ->
       str_ltb (sm_Version m) (sm_Version m') = false) /\
  (forall m, m ∈ manifests -> is_Some (Latest c (sm_Family m))) /\
  (forall family, family ∈ Families c <-> exists m, m ∈ manifests /\ SkillFamily_string (sm_Family m) = family).
Proof.
  intros H. destruct (add_manifests_Ok _ _ _ H) as (Hv & Hl & _).
  assert (Hl' : forall family version m, catalog_lookup c family version = Some m <->
    m ∈ manifests /\ SkillFamily_string (sm_Family m) = family /\ sm_Version m = version)
    by (intros; rewrite Hl; naive_solver).
  split_and!; [done|by intros; apply Hl'| | |].
  - intros family m. unfold Latest. destruct (c !! SkillFamily_string family) as [versions|] eqn:E; [|done]. cbn.
    destruct (last (sorted_keys versions)) as [version|] eqn:Elast; [|done]. cbn. intros Hm.
    assert (Hin : catalog_lookup c (SkillFamily_string family) version = Some m) by (unfold catalog_lookup; by rewrite E).
    apply Hl' in Hin as (H1 & H2 & H3). split_and!; [done..|]. intros m' Hm' Hf.
    assert (Hin' : catalog_lookup c (SkillFamily_string family) (sm_Version m') = Some m') by by apply Hl'.
    unfold catalog_lookup in Hin'. rewrite E in Hin'. cbn in Hin'.
    assert (Hk : sm_Version m' ∈ sorted_keys versions) by (apply sorted_keys_elem; eauto).
    destruct (StronglySorted_last _ _ _ _ (SortFunc_sorted (compare_id id) _ _) Elast Hk) as [->|Hle].
    + rewrite H3. apply str_ltb_irrefl.
    + rewrite H3. unfold cmp_le, compare_id in Hle. cbn in Hle.
      destruct (str_ltb version (sm_Version m')) eqn:E3; [|done]. by rewrite (str_ltb_asym _ _ E3) in Hle.
  - intros m Hm. assert (Hin : catalog_lookup c (SkillFamily_string (sm_Family m)) (sm_Version m) = Some m) by by apply Hl'.
    unfold catalog_lookup in Hin. unfold Latest. destruct (c !! SkillFamily_string (sm_Family m)) as [versions|]; [|done].
    cbn in *. assert (Hk : sm_Version m ∈ sorted_keys versions) by (apply sorted_keys_elem; eauto).
    destruct (last (sorted_keys versions)) as [v|] eqn:E.
    + cbn. apply last_Some_elem_of in E. by apply sorted_keys_elem in E.
    + apply last_None in E. rewrite E in Hk. by apply elem_of_nil in Hk.
  - intros family. unfold Families. rewrite sorted_keys_elem, (add_manifests_families _ _ _ _ H), lookup_empty, list_elem_of_fmap.
    rewrite is_Some_alt. naive_solver.
Qed.

(** ** Selection *)

(** The default catalog. *)
Definition default_catalog : StaticSkillCatalog :=
  match DefaultBehaviorSkillCatalog with Ok c => c | _ => ∅ end.

Lemma default_catalog_ok : DefaultBehaviorSkillCatalog = Ok default_catalog.
Proof. reflexivity. Qed.

(** The manifest the default catalog has for each family. *)
Definition default_manifest (family : SkillFamily) : option SkillManifest :=
  match family with
  | SkillFamilySubscriptionCleanup => Some subscription_manifest
  | SkillFamilyLateNightSpendNudge => Some late_night_manifest
  | SkillFamilyDiscretionaryGuardrail => Some guardrail_manifest
  | SkillFamilyOther _ => None
  end.

Lemma default_latest `{MO : MapOrder} family :
  (forall s, family <> SkillFamilyOther s) ->
  Latest default_catalog family = default_manifest family /\
  Manifest default_catalog family "v1" = default_manifest family.
Proof.
  intros Hf. assert (Hone : forall m, default_catalog !! SkillFamily_string family = Some {["v1" := m]} ->
    Latest default_catalog family = Some m /\ Manifest default_catalog family "v1" = Some m).
  { intros m E. unfold Latest, Manifest. rewrite E. cbn.
    assert (Hk : sorted_keys {["v1" := m]} = ["v1"]).
    { unfold sorted_keys. pose proof (map_range_perm ({["v1" := m]} : gmap string SkillManifest)) as HP.
      rewrite map_to_list_singleton in HP. apply Permutation_singleton_r in HP. by rewrite HP. }
    rewrite Hk. cbn. by rewrite lookup_singleton_eq. }
  destruct family; [apply Hone; reflexivity..|]. by destruct (Hf s).
Qed.

Lemma chosen_family_known input s : (chosen_family input).1 <> SkillFamilyOther s.
Proof. unfold chosen_family. repeat case_match; done. Qed.

(** What the guardrail family takes to escalate to the hard cap. *)
Definition under_pressure (input : SelectionInput) : Prop :=
  f_leb (f_const 45 100) (late_night_frequency input) = true \/
  cf_MonthlyNetIncomeCents (fw_CashflowState (sin_CurrentState input)) < 0.

Definition escalates (input : SelectionInput) : Prop :=
  hasGuardrailProceduralMemory (sin_ProceduralMemories input) = true /\
  (Contains (ToLower (TrimSpace (sin_SelectionHint input))) "hard_cap" = true \/ under_pressure input).

Lemma pickGuardrailRecipe_spec input :
  (pickGuardrailRecipe input = "hard_cap.v1" /\ escalates input) \/
  (~ escalates input /\ (pickGuardrailRecipe input = "budget_guardrail.v1" \/ pickGuardrailRecipe input = "soft_nudge.v1")).
Proof.
  unfold pickGuardrailRecipe, escalates, under_pressure.
  destruct (hasGuardrailProceduralMemory _); destruct (Contains _ "hard_cap"); cbn [andb orb].
  - left. by auto.
  - destruct (f_leb (f_const 45 100) (late_night_frequency input)); cbn [orb]; [left; auto|].
    destruct (Z.ltb_spec (cf_MonthlyNetIncomeCents (fw_CashflowState (sin_CurrentState input))) 0); [left; auto|].
    right. split; [|by left]. intros [_ [?|[?|?]]]; [done..|lia].
  - right. split; [by intros [? _]|]. case_match; auto.
  - right. split; [by intros [? _]|]. case_match; auto.
Qed.

(** The selection of a known recipe from a known manifest. *)
Definition selected (input : SelectionInput) (manifest : SkillManifest) (recipe : SkillRecipe)
    (more : list SkillSelectionReason) (refs : list string) : SkillSelection := {|
  sse_Family := (chosen_family input).1;
  sse_Version := sm_Version manifest;
  sse_RecipeID := sr_ID recipe;
  sse_Reasons := (chosen_family input).2 ++ more;
  sse_EvidenceRefs := evidenceRefs (sin_Evidence input);
  sse_StateRefs := both_states;
  sse_MemoryRefs := proceduralMemoryRefs (sin_ProceduralMemories input);
  sse_PolicyRuleRefs := uniqueStrings (refs ++ sr_PolicyRuleRefs recipe ++ sp_PolicyRuleRefs (sm_Policy manifest));
  sse_InterventionIntensity := sr_InterventionIntensity recipe
|}.

Lemma Select_default `{MO : MapOrder} input manifest recipe recipeID more refs :
  default_manifest (chosen_family input).1 = Some manifest ->
  chosen_recipe input (chosen_family input).1 = (recipeID, more, refs) ->
  recipeForID manifest recipeID = Some recipe ->
  sm_Version manifest = "v1" -> sr_ID recipe = recipeID ->
  Select (Some default_catalog) input = Ok (selected input manifest recipe more refs) /\
  Resolve (Some default_catalog) (selected input manifest recipe more refs) = Ok (manifest, recipe).
Proof.
  intros Hm Hr Hf Hv Hid.
  destruct (default_latest (chosen_family input).1 (chosen_family_known input)) as [HL HM]. unfold Select, Resolve, selected.
  destruct (chosen_family input) as [chosen reasons]. cbn [fst snd sse_Family sse_Version sse_RecipeID] in *.
  rewrite HL, Hm, Hr, Hf, Hv, HM, Hm. by rewrite Hid, Hf.
Qed.

(** With the default catalog the selector always answers, except when the
    hint asks for a hard cap while another family was chosen.  Its selection
    resolves to the recipe it names, of the chosen family; it needs an
    approval exactly when it is the hard cap; and the hard cap is selected
    exactly when the guardrail family is chosen, a procedural memory shows an
    earlier guardrail, and the hint asks for it or the pressure is high.  A
    selected hard cap has high intensity and names the rule that makes
    governance require an approval. *)
Theorem default_selection_spec `{MO : MapOrder} input :
  let family := (chosen_family input).1 in
  let asked := Contains (ToLower (sin_SelectionHint input)) "hard_cap" in
  (family <> SkillFamilyDiscretionaryGuardrail /\ asked = true ->
    exists err, Select (Some default_catalog) input = Err err) /\
  (family = SkillFamilyDiscretionaryGuardrail \/ asked = false ->
    exists selection manifest recipe, Select (Some default_catalog) input = Ok selection /\ sse_Family selection = family /\
      Resolve (Some default_catalog) selection = Ok (manifest, recipe) /\ sr_ID recipe = sse_RecipeID selection /\
      sse_InterventionIntensity selection = sr_InterventionIntensity recipe /\
      (RequiresApproval manifest (sse_RecipeID selection) = true <-> sse_RecipeID selection = "hard_cap.v1") /\
      (sse_RecipeID selection = "hard_cap.v1" <-> family = SkillFamilyDiscretionaryGuardrail /\ escalates input) /\
      (sse_RecipeID selection = "hard_cap.v1" ->
        hard_cap_rule ∈ sse_PolicyRuleRefs selection /\ sse_InterventionIntensity selection = InterventionIntensityHigh)).
Proof.
  cbv zeta. pose proof (chosen_family_known input) as Hknown.
  split.
  - intros [Hf Ha]. destruct (default_latest (chosen_family input).1 Hknown) as [HL _].
    unfold Select. destruct (chosen_family input) as [chosen reasons]. cbn [fst] in *. rewrite HL.
    unfold chosen_recipe. rewrite bool_decide_eq_false_2, Ha by done.
    destruct chosen; cbn [default_manifest]; [by eexists|by eexists|done|by destruct (Hknown s)].
  - intros H. destruct (chosen_recipe input (chosen_family input).1) as [[recipeID more] refs] eqn:Er.
    assert (Hcase : exists manifest recipe, default_manifest (chosen_family input).1 = Some manifest /\
      recipeForID manifest recipeID = Some recipe /\ sm_Version manifest = "v1" /\ sr_ID recipe = recipeID /\
      (RequiresApproval manifest recipeID = true <-> recipeID = "hard_cap.v1") /\
      (recipeID = "hard_cap.v1" <-> (chosen_family input).1 = SkillFamilyDiscretionaryGuardrail /\ escalates input) /\
      (recipeID = "hard_cap.v1" -> hard_cap_rule ∈ sr_PolicyRuleRefs recipe /\ sr_InterventionIntensity recipe = InterventionIntensityHigh)).
    { unfold chosen_recipe in Er. destruct (chosen_family input) as [chosen reasons]. cbn [fst] in *.
      destruct (decide (chosen = SkillFamilyDiscretionaryGuardrail)) as [->|Hne].
      - rewrite bool_decide_eq_true_2 in Er by done. injection Er as Er _ _.
        exists guardrail_manifest. destruct (pickGuardrailRecipe_spec input) as [[E He]|[He [E|E]]];
          rewrite E in Er; subst recipeID; eexists; split_and!; try reflexivity; try done;
          (by split) || (by intros _; split; [left|]) || (split; [done|by intros [_ ?]]).
      - rewrite bool_decide_eq_false_2 in Er by done. destruct H as [?|Ha]; [done|]. rewrite Ha in Er. injection Er as <- <- <-.
        destruct chosen; [exists subscription_manifest|exists late_night_manifest|done|by destruct (Hknown s)];
          eexists; split_and!; try reflexivity; try done; (by split) || (split; [done|by intros [? _]]). }
    destruct Hcase as (manifest & recipe & Hm & Hf & Hv & Hid & HA & HH & HR).
    destruct (Select_default input manifest recipe recipeID more refs Hm Er Hf Hv Hid) as [HS HRes].
    exists (selected input manifest recipe more refs), manifest, recipe. cbn [selected sse_Family sse_RecipeID sse_InterventionIntensity sse_PolicyRuleRefs].
    rewrite Hid. split_and!; try done. intros E. destruct (HR E) as [Hrule Hint]. split; [|done].
    unfold uniqueStrings. apply unique_from_elem. rewrite list_elem_of_filter, !elem_of_app.
    split_and!; [vm_compute; done|by right; left|done|apply not_elem_of_nil].
Qed.

Lemma catalog_spec_witness :
  is_Some (Latest (MO := canonical_order) default_catalog SkillFamilyDiscretionaryGuardrail).
Proof.
  destruct (catalog_spec (MO := canonical_order) [subscription_manifest; late_night_manifest; guardrail_manifest]
    default_catalog eq_refl) as (_ & _ & _ & H & _).
  apply (H guardrail_manifest). right. right. left.
Defined.

(** ** Corners of the selector *)

(** The allowed families do not hold for a guardrail hint. *)
Lemma guardrail_hint_ignores_allowed :
  (chosen_family (zero <| sin_AllowedFamilies := ["subscription_cleanup"] |> <| sin_SelectionHint := "guardrail" |>)).1 =
  SkillFamilyDiscretionaryGuardrail.
Proof. reflexivity. Qed.

(** Nor when no condition holds: the family falls back to the guardrail, without a reason. *)
Lemma fallback_ignores_allowed :
  chosen_family (zero <| sin_AllowedFamilies := ["subscription_cleanup"] |>) = (SkillFamilyDiscretionaryGuardrail, []).
Proof. reflexivity. Qed.

(** A hint for both a subscription cleanup and a hard cap is an error. *)
Lemma subscription_hard_cap_fails `{MO : MapOrder} :
  exists err, Select (Some default_catalog) (zero <| sin_SelectionHint := "subscription hard_cap" |>) = Err err.
Proof.
  unfold Select. destruct (default_latest SkillFamilySubscriptionCleanup ltac:(done)) as [HL _].
  replace (chosen_family _) with (SkillFamilySubscriptionCleanup,
    [selection_reason "selection_hint_subscription"
      "the explicit intervention request focused on subscriptions, so the selector chose the subscription cleanup family" [] [] []])
    by reflexivity.
  rewrite HL. cbn [default_manifest].
  replace (chosen_recipe _ _) with ("hard_cap.v1", @nil SkillSelectionReason, @nil string) by reflexivity.
  by eexists.
Qed.

(** The greatest version text is not the greatest version. *)
Lemma versions_compare_as_text : str_ltb "v10" "v9" = true.
Proof. reflexivity. Qed.
