(* ===== verification/TimeText.v ===== *)
(** * Times as text

    The SQL stores keep a time in a TEXT column, formatted as RFC3339Nano, and
    compare such columns as text.  Here: the digits of a formatted time, how
    texts compare, and reading a text back. *)

From stdpp Require Import pretty.
From Stdlib Require Import Ascii.
From S2P Require Export GoStd.
#[local] Open Scope Z_scope.

(** ** Digits *)

Definition digit (z : Z) : ascii := pretty_N_char (Z.to_N z).

(** The last [w] digits of [z], before [s]. *)
Fixpoint digits (w : nat) (z : Z) (s : string) : string :=
  match w with
  | O => s
  | S w' => digits w' (z / 10) (String (digit (z mod 10)) s)
  end.

Definition zeros (n : nat) : string := String.concat "" (replicate n "0").

Lemma zeros_S n : zeros (S n) = String "0" (zeros n).
Proof. by destruct n. Qed.

Lemma string_app_cons c (a b : string) : String c a +:+ b = String c (a +:+ b).
Proof. done. Qed.

Lemma zeros_snoc n s : zeros n +:+ String "0" s = zeros (S n) +:+ s.
Proof.
  induction n as [|n IH]; [done|]. by rewrite (zeros_S n), (zeros_S (S n)), !string_app_cons, IH.
Qed.

Lemma digits_0 w s : digits w 0 s = zeros w +:+ s.
Proof.
  revert s. induction w as [|w IH]; intros s; [done|]. cbn [digits].
  change (0 / 10) with 0. change (digit (0 mod 10)) with "0"%char. rewrite IH. apply zeros_snoc.
Qed.

Lemma digits_pretty w z s :
  0 <= z < 10 ^ Z.of_nat w ->
  exists k, (k <= w)%nat /\ String.length (pretty_N_go (Z.to_N z) s) = (k + String.length s)%nat /\
    digits w z s = zeros (w - k) +:+ pretty_N_go (Z.to_N z) s.
Proof.
  revert z s. induction w as [|w IH]; intros z s Hz.
  { exists 0%nat. assert (z = 0) as -> by lia. by rewrite pretty_N_go_0. }
  destruct (decide (z = 0)) as [->|Hne].
  { exists 0%nat. rewrite pretty_N_go_0, digits_0, Nat.sub_0_r. split_and!; [lia|done|done]. }
  assert (Hw : 10 ^ Z.of_nat (S w) = 10 * 10 ^ Z.of_nat w) by (rewrite Nat2Z.inj_succ, Z.pow_succ_r; lia).
  rewrite pretty_N_go_step by lia.
  replace (Z.to_N z `div` 10)%N with (Z.to_N (z / 10)) by (rewrite Z2N.inj_div; [done|lia|done]).
  replace (pretty_N_char (Z.to_N z `mod` 10)) with (digit (z mod 10))
    by (unfold digit; rewrite Z2N.inj_mod; [done|lia|done]).
  destruct (IH (z / 10) (String (digit (z mod 10)) s)) as (k & Hk & Hlen & Heq).
  { split; [apply Z.div_pos; lia|]. apply Z.div_lt_upper_bound; lia. }
  exists (S k). cbn [digits]. rewrite Heq, Hlen. split_and!; [lia|simpl; lia|]. by rewrite Nat.sub_succ.
Qed.

Lemma string_app_assoc (a b c : string) : (a +:+ b) +:+ c = a +:+ (b +:+ c).
Proof. induction a as [|x a IH]; [done|]. by rewrite !string_app_cons, IH. Qed.

Lemma string_app_nil (a : string) : a +:+ "" = a.
Proof. induction a as [|x a IH]; [done|]. by rewrite !string_app_cons, IH. Qed.

Lemma digits_app w z s s' : digits w z s +:+ s' = digits w z (s +:+ s').
Proof. revert z s. induction w as [|w IH]; intros z s; [done|]. cbn [digits]. by rewrite IH. Qed.

(** Padding to a width the number fits in is its digits. *)
Lemma pad_digits w z s : 0 <= z < 10 ^ Z.of_nat (S w) -> pad (S w) z +:+ s = digits (S w) z s.
Proof.
  intros Hz. unfold pad. fold (zeros (S w - String.length (Itoa z))). destruct (decide (z = 0)) as [->|Hne].
  - change (Itoa 0) with "0". rewrite digits_0. cbn [String.length]. rewrite Nat.sub_succ, Nat.sub_0_r.
    rewrite string_app_assoc. apply (zeros_snoc w s).
  - destruct (digits_pretty (S w) z "" Hz) as (k & Hk & Hlen & Heq).
    assert (Hp : Itoa z = pretty_N_go (Z.to_N z) "").
    { destruct z as [|p|p]; [done| |lia]. unfold Itoa, pretty, pretty_Z, pretty, pretty_N. done. }
    rewrite Hp, Hlen. cbn [String.length]. rewrite Nat.add_0_r, <- Heq, digits_app. done.
Qed.

(** The first of [S w] digits. *)
Lemma digits_front w z s : digits (S w) z s = String (digit (z / 10 ^ Z.of_nat w mod 10)) (digits w z s).
Proof.
  revert z s. induction w as [|w IH]; intros z s.
  { cbn. by rewrite Z.div_1_r. }
  change (digits (S (S w)) z s) with (digits (S w) (z / 10) (String (digit (z mod 10)) s)). rewrite IH.
  rewrite Z.div_div by lia. rewrite Nat2Z.inj_succ, Z.pow_succ_r by lia. done.
Qed.

Lemma digits_mod w z s : digits w (z mod 10 ^ Z.of_nat w) s = digits w z s.
Proof.
  revert z s. induction w as [|w IH]; intros z s; [done|]. cbn [digits].
  assert (Hw : 10 ^ Z.of_nat (S w) = 10 * 10 ^ Z.of_nat w) by (rewrite Nat2Z.inj_succ, Z.pow_succ_r; lia).
  rewrite Hw. assert (Hm : z mod (10 * 10 ^ Z.of_nat w) = z / 10 mod 10 ^ Z.of_nat w * 10 + z mod 10)
    by (rewrite Z.rem_mul_r by lia; lia).
  assert (Hr : z mod (10 * 10 ^ Z.of_nat w) mod 10 = z mod 10).
  { rewrite Hm, Z.add_comm, Z.mod_add by lia. by rewrite Z.mod_mod by lia. }
  assert (Hd : z mod (10 * 10 ^ Z.of_nat w) / 10 = z / 10 mod 10 ^ Z.of_nat w).
  { rewrite Hm, Z.div_add_l by lia. rewrite (Z.div_small (z mod 10)) by (apply Z.mod_pos_bound; lia). lia. }
  by rewrite Hr, Hd, IH.
Qed.

(** ** Comparing digits *)

Lemma digit_compare a b : 0 <= a < 10 -> 0 <= b < 10 -> Ascii.compare (digit a) (digit b) = (a ?= b).
Proof.
  intros Ha Hb.
  assert (Hall : forallb (fun x => forallb (fun y =>
    bool_decide (Ascii.compare (digit x) (digit y) = (x ?= y))) [0;1;2;3;4;5;6;7;8;9]) [0;1;2;3;4;5;6;7;8;9] = true)
    by (vm_compute; reflexivity).
  rewrite forallb_forall in Hall. assert (Hin : forall x, 0 <= x < 10 -> In x [0;1;2;3;4;5;6;7;8;9]) by (simpl; lia).
  specialize (Hall a (Hin a Ha)). rewrite forallb_forall in Hall. exact (bool_decide_eq_true_1 _ (Hall b (Hin b Hb))).
Qed.

Definition lex (c1 c2 : comparison) : comparison := match c1 with Eq => c2 | _ => c1 end.

Lemma string_compare_cons x y a b :
  String.compare (String x a) (String y b) = lex (Ascii.compare x y) (String.compare a b).
Proof. simpl. by destruct (Ascii.compare x y). Qed.

Lemma compare_step (a b : Z) : (a ?= b) = lex (a / 10 ?= b / 10) (a mod 10 ?= b mod 10).
Proof.
  unfold lex. pose proof (Z.mod_pos_bound a 10). pose proof (Z.mod_pos_bound b 10).
  pose proof (Z.div_mod a 10). pose proof (Z.div_mod b 10).
  destruct (Z.compare_spec (a / 10) (b / 10)); [destruct (Z.compare_spec (a mod 10) (b mod 10))|..];
    first [apply Z.compare_eq_iff | apply Z.compare_lt_iff | apply Z.compare_gt_iff]; lia.
Qed.

Lemma lex_assoc c1 c2 c3 : lex (lex c1 c2) c3 = lex c1 (lex c2 c3).
Proof. by destruct c1. Qed.

(** Digits of the same width compare as the numbers. *)
Lemma digits_compare w a b s s' :
  0 <= a < 10 ^ Z.of_nat w -> 0 <= b < 10 ^ Z.of_nat w ->
  String.compare (digits w a s) (digits w b s') = lex (a ?= b) (String.compare s s').
Proof.
  revert a b s s'. induction w as [|w IH]; intros a b s s' Ha Hb.
  { assert (a = 0) as -> by lia. assert (b = 0) as -> by lia. done. }
  assert (Hw : 10 ^ Z.of_nat (S w) = 10 * 10 ^ Z.of_nat w) by (rewrite Nat2Z.inj_succ, Z.pow_succ_r; lia).
  cbn [digits]. rewrite IH.
  - rewrite string_compare_cons, digit_compare by (apply Z.mod_pos_bound; lia).
    by rewrite <- lex_assoc, <- compare_step.
  - split; [apply Z.div_pos; lia|]. apply Z.div_lt_upper_bound; lia.
  - split; [apply Z.div_pos; lia|]. apply Z.div_lt_upper_bound; lia.
Qed.

(** ** Reading digits *)

Definition digit_value (c : ascii) : option Z :=
  let n := Z.of_N (N_of_ascii c) in
  if (48 <=? n) && (n <=? 57) then Some (n - 48) else None.

Lemma digit_value_digit z : 0 <= z < 10 -> digit_value (digit z) = Some z.
Proof.
  intros Hz. assert (Hall : forallb (fun x => bool_decide (digit_value (digit x) = Some x)) [0;1;2;3;4;5;6;7;8;9] = true)
    by (vm_compute; reflexivity).
  rewrite forallb_forall in Hall. eapply bool_decide_eq_true_1, Hall. simpl. lia.
Qed.

(** Exactly [w] digits. *)
Fixpoint read_digits (w : nat) (acc : Z) (s : string) : option (Z * string) :=
  match w with
  | O => Some (acc, s)
  | S w' =>
      match s with
      | String c s' => match digit_value c with Some v => read_digits w' (acc * 10 + v) s' | None => None end
      | EmptyString => None
      end
  end.

Lemma read_digits_digits w z acc s :
  0 <= z < 10 ^ Z.of_nat w -> read_digits w acc (digits w z s) = Some (acc * 10 ^ Z.of_nat w + z, s).
Proof.
  revert z acc. induction w as [|w IH]; intros z acc Hz.
  { assert (z = 0) as -> by lia. simpl. do 2 f_equal. lia. }
  assert (Hw : 10 ^ Z.of_nat (S w) = 10 * 10 ^ Z.of_nat w) by (rewrite Nat2Z.inj_succ, Z.pow_succ_r; lia).
  assert (Hpos : 0 < 10 ^ Z.of_nat w) by lia.
  assert (Hq : 0 <= z / 10 ^ Z.of_nat w < 10).
  { split; [apply Z.div_pos; lia|]. apply Z.div_lt_upper_bound; lia. }
  rewrite digits_front. cbn [read_digits]. rewrite (Z.mod_small _ 10) by done.
  rewrite digit_value_digit by done. rewrite <- digits_mod, IH by (apply Z.mod_pos_bound; lia).
  rewrite Hw. do 2 f_equal. pose proof (Z.div_mod z (10 ^ Z.of_nat w)). lia.
Qed.

(** At most [w] digits after the point; missing ones are zeros. *)
Fixpoint read_fraction (w : nat) (s : string) : Z * string :=
  match w, s with
  | S w', String c s' =>
      match digit_value c with
      | Some v => let '(z, rest) := read_fraction w' s' in (v * 10 ^ Z.of_nat w' + z, rest)
      | None => (0, s)
      end
  | _, _ => (0, s)
  end.

Lemma strip_digits w z :
  0 <= z < 10 ^ Z.of_nat w ->
  read_fraction w (strip_zeros (digits w z "") +:+ "Z") = (z, "Z") /\ (strip_zeros (digits w z "") = "" <-> z = 0).
Proof.
  revert z. induction w as [|w IH]; intros z Hz.
  { assert (z = 0) as -> by lia. done. }
  assert (Hw : 10 ^ Z.of_nat (S w) = 10 * 10 ^ Z.of_nat w) by (rewrite Nat2Z.inj_succ, Z.pow_succ_r; lia).
  assert (Hpos : 0 < 10 ^ Z.of_nat w) by lia.
  assert (Hq : 0 <= z / 10 ^ Z.of_nat w < 10).
  { split; [apply Z.div_pos; lia|]. apply Z.div_lt_upper_bound; lia. }
  pose proof (Z.div_mod z (10 ^ Z.of_nat w)) as Hdm. pose proof (Z.mod_pos_bound z (10 ^ Z.of_nat w) Hpos) as Hb.
  rewrite digits_front, (Z.mod_small _ 10) by done. rewrite <- digits_mod.
  destruct (IH (z mod 10 ^ Z.of_nat w) Hb) as [H1 H2]. set (q := z / 10 ^ Z.of_nat w) in *.
  cbn [strip_zeros]. destruct (strip_zeros (digits w _ "")) as [|c rest] eqn:E.
  - assert (Hz0 : z mod 10 ^ Z.of_nat w = 0) by tauto.
    assert (Hc : Ascii.eqb (digit q) "0" = bool_decide (q = 0)).
    { clear - Hq. assert (Hall : forallb (fun x => bool_decide (Ascii.eqb (digit x) "0" = bool_decide (x = 0)))
        [0;1;2;3;4;5;6;7;8;9] = true) by (vm_compute; reflexivity).
      rewrite forallb_forall in Hall. eapply bool_decide_eq_true_1, Hall. simpl. lia. }
    rewrite Hc. case_bool_decide as Hq0.
    + split; [|split; [intros _; lia|done]]. rewrite ?string_app_cons. cbn [read_fraction]. change (digit_value "Z") with (@None Z).
      cbv iota. f_equal. lia.
    + split; [|split; [done|intros ->; contradiction Hq0; by apply Z.div_0_l; lia]].
      rewrite ?string_app_cons. cbn [read_fraction]. rewrite digit_value_digit by done.
      rewrite ?string_app_cons in H1. rewrite H1. f_equal. lia.
  - split; [|split; [done|intros ->]].
    + rewrite ?string_app_cons. cbn [read_fraction]. rewrite digit_value_digit by done.
      rewrite ?string_app_cons in H1. rewrite H1. f_equal. lia.
    + rewrite Zmod_0_l in H2. by destruct H2 as [_ H2]; specialize (H2 eq_refl).
Qed.

(** ** The calendar *)

(** A 400-year era starts in March and has 146097 days; year [y] of it starts
    on day [year_start y]. *)
Definition year_start (y : Z) : Z := 365 * y + y / 4 - y / 100.
Definition year_of (doe : Z) : Z := (doe - doe / 1460 + doe / 36524 - doe / 146096) / 365.

Lemma year_of_mono a b : 0 <= a <= b -> b < 146097 -> year_of a <= year_of b.
Proof. intros Ha Hb. unfold year_of. apply Z.div_le_mono; [lia|]. Z.to_euclidean_division_equations. lia. Qed.

Lemma years_checked :
  forallb (fun n => let y := Z.of_nat n in
    (year_of (year_start y) =? y) && (if y =? 0 then true else year_of (year_start y - 1) =? y - 1)) (seq 0 400) = true.
Proof. vm_compute. reflexivity. Qed.

Lemma year_of_start y : 0 <= y < 400 ->
  year_of (year_start y) = y /\ (0 < y -> year_of (year_start y - 1) = y - 1).
Proof.
  intros Hy. pose proof years_checked as H. rewrite forallb_forall in H. specialize (H (Z.to_nat y)).
  rewrite Z2Nat.id in H by lia. cbv zeta in H.
  assert (Hin : In (Z.to_nat y) (seq 0 400)) by (apply in_seq; lia). specialize (H Hin).
  apply andb_true_iff in H as [H1 H2]. apply Z.eqb_eq in H1. split; [done|]. intros Hpos.
  destruct (Z.eqb_spec y 0); [lia|]. by apply Z.eqb_eq in H2.
Qed.

Lemma year_start_bounds y : 0 <= y < 400 -> 0 <= year_start y < 146097.
Proof. unfold year_start. intros Hy. Z.to_euclidean_division_equations. lia. Qed.

Lemma year_of_spec doe : 0 <= doe < 146097 ->
  0 <= year_of doe < 400 /\ 0 <= doe - year_start (year_of doe) <= 365.
Proof.
  intros Hd. assert (Hy : 0 <= year_of doe < 400).
  { pose proof (year_of_mono 0 doe). pose proof (year_of_mono doe 146096).
    change (year_of 0) with 0 in *. change (year_of 146096) with 399 in *. lia. }
  split; [done|]. set (y := year_of doe) in *. pose proof (year_start_bounds y Hy). split.
  - destruct (decide (year_start y <= doe)) as [Hle|Hgt]; [lia|].
    destruct (year_of_start y Hy) as [_ H1].
    assert (0 < y) by (destruct (decide (y = 0)) as [E|E]; [rewrite E in Hgt; change (year_start 0) with 0 in Hgt; lia|lia]).
    pose proof (year_of_mono doe (year_start y - 1)). fold y in H2. lia.
  - destruct (decide (y = 399)) as [->|Hne]; [change (year_start 399) with 145731; lia|].
    assert (Hs : year_start (y + 1) - year_start y <= 366).
    { unfold year_start. Z.to_euclidean_division_equations. lia. }
    destruct (decide (doe < year_start (y + 1))) as [Hlt|Hge]; [lia|].
    destruct (year_of_start (y + 1)) as [H1 _]; [lia|].
    pose proof (year_of_mono (year_start (y + 1)) doe). pose proof (year_start_bounds (y + 1)).
    fold y in H2. lia.
Qed.

(** Month and day of a day of such a year. *)
Definition month_of (doy : Z) : Z := let mp := (5 * doy + 2) / 153 in if mp <? 10 then mp + 3 else mp - 9.
Definition day_of (doy : Z) : Z := let mp := (5 * doy + 2) / 153 in doy - (153 * mp + 2) / 5 + 1.
(** January and February belong to the next calendar year. *)
Definition carry (doy : Z) : Z := if month_of doy <=? 2 then 1 else 0.

Definition month_key (doy : Z) : Z := carry doy * 512 + month_of doy * 32 + day_of doy.

(** The inverse. *)
Definition doy_of (m d : Z) : Z := (153 * (m + (if 2 <? m then -3 else 9)) + 2) / 5 + d - 1.

Lemma months_checked :
  forallb (fun n => let doy := Z.of_nat n in
    (1 <=? month_of doy) && (month_of doy <=? 12) && (1 <=? day_of doy) && (day_of doy <=? 31) &&
    (doy_of (month_of doy) (day_of doy) =? doy) &&
    (month_key doy <? month_key (doy + 1)) && (97 <=? month_key doy) && (month_key doy <? 512 + 97))
  (seq 0 366) = true.
Proof. vm_compute. reflexivity. Qed.

Lemma month_spec doy : 0 <= doy <= 365 ->
  1 <= month_of doy <= 12 /\ 1 <= day_of doy <= 31 /\ doy_of (month_of doy) (day_of doy) = doy /\
  month_key doy < month_key (doy + 1) /\ 97 <= month_key doy < 609.
Proof.
  intros Hd. pose proof months_checked as H. rewrite forallb_forall in H. specialize (H (Z.to_nat doy)).
  rewrite Z2Nat.id in H by lia. cbv zeta in H.
  assert (Hin : In (Z.to_nat doy) (seq 0 366)) by (apply in_seq; lia). specialize (H Hin).
  repeat (apply andb_true_iff in H as [H ?]). lia.
Qed.

Lemma month_key_mono a b : 0 <= a < b -> b <= 365 -> month_key a < month_key b.
Proof.
  intros Hab Hb. assert (Hk : forall k : nat, a + 1 + Z.of_nat k <= 365 -> month_key a < month_key (a + 1 + Z.of_nat k)).
  { induction k as [|k IH]; intros Hk.
    - rewrite Z.add_0_r. apply month_spec. lia.
    - etrans; [apply IH; lia|]. replace (a + 1 + Z.of_nat (S k)) with (a + 1 + Z.of_nat k + 1) by lia.
      apply month_spec. lia. }
  specialize (Hk (Z.to_nat (b - a - 1))). replace (a + 1 + Z.of_nat (Z.to_nat (b - a - 1))) with b in Hk by lia.
  apply Hk. lia.
Qed.

(** A date as one number that orders as the date. *)
Definition date_key (date : Z * Z * Z) : Z := let '(y, m, d) := date in y * 512 + m * 32 + d.

(** Day [day] is day [doy] of year [yoe] of an era. *)
Lemma civil_parts day : 0 <= day ->
  let z := day + 306 in
  let yoe := year_of (z mod 146097) in
  let doy := z mod 146097 - year_start yoe in
  civil day = (yoe + z / 146097 * 400 + carry doy, month_of doy, day_of doy) /\
  0 <= yoe < 400 /\ 0 <= doy <= 365.
Proof.
  intros Hd z yoe doy. assert (Hb : 0 <= z mod 146097 < 146097) by (apply Z.mod_pos_bound; lia).
  destruct (year_of_spec _ Hb) as [H1 H2]. split; [|done].
  unfold civil. fold z. fold (year_of (z mod 146097)). fold yoe.
  replace (z mod 146097 - (365 * yoe + yoe / 4 - yoe / 100)) with doy by (unfold doy, year_start; lia).
  unfold carry, month_of, day_of. done.
Qed.

Lemma civil_mono a b : 0 <= a < b -> date_key (civil a) < date_key (civil b).
Proof.
  intros Hab. destruct (civil_parts a) as (Ea & Hya & Hda); [lia|].
  destruct (civil_parts b) as (Eb & Hyb & Hdb); [lia|]. rewrite Ea, Eb. unfold date_key.
  set (za := a + 306) in *. set (zb := b + 306) in *.
  set (ya := year_of (za mod 146097)) in *. set (yb := year_of (zb mod 146097)) in *.
  set (da := za mod 146097 - year_start ya) in *. set (db := zb mod 146097 - year_start yb) in *.
  pose proof (month_spec da Hda) as (_ & _ & _ & _ & Hka). pose proof (month_spec db Hdb) as (_ & _ & _ & _ & Hkb).
  unfold month_key in *.
  assert (Hcase : za / 146097 < zb / 146097 \/ za / 146097 = zb / 146097 /\ za mod 146097 < zb mod 146097).
  { Z.to_euclidean_division_equations. lia. }
  destruct Hcase as [He|[He Hd]]; [lia|].
  assert (Hyy : ya <= yb).
  { apply year_of_mono; [|apply Z.mod_pos_bound; lia]. split; [apply Z.mod_pos_bound; lia|lia]. }
  destruct (decide (ya = yb)) as [Ey|Hne]; [|lia].
  assert (Hdd : da < db) by (unfold da, db; rewrite Ey; lia).
  pose proof (month_key_mono da db) as Hm. unfold month_key in Hm. lia.
Qed.

(** The last day of the year 9999. *)
Definition last_day : Z := 3652058.

Lemma civil_bounds day : 0 <= day <= last_day ->
  let '(y, m, d) := civil day in 1 <= y <= 9999 /\ 1 <= m <= 12 /\ 1 <= d <= 31.
Proof.
  intros Hd. destruct (civil_parts day) as (E & Hy & Hdoy); [lia|].
  pose proof (month_spec _ Hdoy) as (H1 & H2 & _).
  assert (Hlo : date_key (civil 0) <= date_key (civil day)).
  { destruct (decide (day = 0)) as [->|Hne]; [lia|]. apply Z.lt_le_incl, civil_mono. lia. }
  assert (Hhi : date_key (civil day) <= date_key (civil last_day)).
  { destruct (decide (day = last_day)) as [->|Hne]; [lia|]. apply Z.lt_le_incl, civil_mono. lia. }
  change (date_key (civil 0)) with 545 in Hlo. change (date_key (civil last_day)) with 5119903 in Hhi.
  rewrite E in *. unfold date_key in *. lia.
Qed.

(** The number of a day. *)
Definition day_number (y m d : Z) : Z :=
  let y' := if m <=? 2 then y - 1 else y in
  y' / 400 * 146097 + year_start (y' mod 400) + doy_of m d - 306.

Lemma day_number_civil day : 0 <= day -> let '(y, m, d) := civil day in day_number y m d = day.
Proof.
  intros Hd. destruct (civil_parts day Hd) as (E & Hy & Hdoy). rewrite E.
  destruct (month_spec _ Hdoy) as (_ & _ & Hinv & _). unfold day_number. rewrite Hinv. unfold carry.
  set (doy := _ - year_start _) in *. set (yoe := year_of _) in *.
  destruct (Z.leb_spec (month_of doy) 2).
  - replace (yoe + (day + 306) / 146097 * 400 + 1 - 1) with (yoe + (day + 306) / 146097 * 400) by lia.
    rewrite Z.div_add, Z.mod_add, Z.div_small, Z.mod_small by lia. unfold doy.
    pose proof (Z.div_mod (day + 306) 146097). lia.
  - rewrite Z.add_0_r, Z.div_add, Z.mod_add, Z.div_small, Z.mod_small by lia. unfold doy.
    pose proof (Z.div_mod (day + 306) 146097). lia.
Qed.

(** ** The text of a time *)

(** Years 1 to 9999. *)
Definition in_text_range (t : time) : Prop := 0 <= t < (last_day + 1) * (24 * Hour).

Definition time_text (t : time) : string := Format_RFC3339Nano t.

Lemma format_fraction_eq t :
  format_fraction t = match strip_zeros (digits 9 (t mod Second) "") with
                      | EmptyString => EmptyString | s => "." +:+ s end.
Proof.
  unfold format_fraction. rewrite <- (string_app_nil (pad 9 (t mod Second))). rewrite pad_digits; [done|].
  apply Z.mod_pos_bound. done.
Qed.

(** The text up to the seconds, before [s]. *)
Definition text_upto_second (t : time) (s : string) : string :=
  let '(y, m, d) := civil (t / (24 * Hour)) in
  let sec := t mod (24 * Hour) / Second in
  digits 4 y (String "-" (digits 2 m (String "-" (digits 2 d (String "T"
    (digits 2 (sec / 3600) (String ":" (digits 2 (sec / 60 mod 60) (String ":" (digits 2 (sec mod 60) s)))))))))).

Lemma clock_bounds t : 0 <= t mod (24 * Hour) / Second < 86400.
Proof.
  assert (H : 0 <= t mod (24 * Hour) < 24 * Hour) by (apply Z.mod_pos_bound; done).
  unfold Hour, Minute, Second in *. split; [apply Z.div_pos; lia|]. apply Z.div_lt_upper_bound; lia.
Qed.

Lemma time_text_eq t : in_text_range t -> time_text t = text_upto_second t (format_fraction t +:+ "Z").
Proof.
  intros Ht. unfold time_text, Format_RFC3339Nano, format_date, format_clock, text_upto_second.
  assert (Hd : 0 <= t / (24 * Hour) <= last_day).
  { unfold in_text_range in Ht. split; [apply Z.div_pos; [lia|done]|].
    apply Z.lt_succ_r, Z.div_lt_upper_bound; [done|lia]. }
  pose proof (civil_bounds _ Hd) as Hb. destruct (civil (t / (24 * Hour))) as [[y m] d].
  destruct Hb as (Hy & Hm & Hdd). pose proof (clock_bounds t) as Hs. set (sec := t mod (24 * Hour) / Second) in *.
  assert (Hsm : forall x, 0 <= x mod 60 < 60) by (intros x; apply Z.mod_pos_bound; lia).
  pose proof (Hsm sec). pose proof (Hsm (sec / 60)).
  assert (0 <= sec / 3600 < 24) by (split; [apply Z.div_pos; lia|apply Z.div_lt_upper_bound; lia]).
  rewrite !string_app_assoc. rewrite pad_digits by lia. f_equal. rewrite string_app_cons. f_equal.
  rewrite pad_digits by lia. change ("" +:+ ?x) with x. f_equal. rewrite string_app_cons. f_equal.
  rewrite pad_digits by lia. f_equal. rewrite string_app_cons. f_equal.
  rewrite pad_digits by lia. f_equal. rewrite string_app_cons. f_equal.
  rewrite pad_digits by lia. f_equal. rewrite string_app_cons. f_equal.
  by rewrite pad_digits by lia.
Qed.

(** *** How texts compare *)

Lemma lex_key n a b x y :
  0 <= x < n -> 0 <= y < n -> lex (a ?= b) (x ?= y) = (a * n + x ?= b * n + y).
Proof.
  intros Hx Hy. unfold lex. destruct (Z.compare_spec a b) as [->|H|H]; symmetry.
  - destruct (Z.compare_spec x y); [apply Z.compare_eq_iff|apply Z.compare_lt_iff|apply Z.compare_gt_iff]; lia.
  - apply Z.compare_lt_iff. nia.
  - apply Z.compare_gt_iff. nia.
Qed.

Lemma civil_compare a b : 0 <= a -> 0 <= b -> (date_key (civil a) ?= date_key (civil b)) = (a ?= b).
Proof.
  intros Ha Hb. destruct (Z.compare_spec a b) as [->|H|H].
  - apply Z.compare_refl.
  - apply Z.compare_lt_iff, civil_mono. lia.
  - apply Z.compare_gt_iff, civil_mono. lia.
Qed.

Lemma string_compare_same c a b : String.compare (String c a) (String c b) = String.compare a b.
Proof. rewrite string_compare_cons. unfold Ascii.compare. by rewrite N.compare_refl. Qed.

Lemma second_parts t : t / Second = t / (24 * Hour) * 86400 + t mod (24 * Hour) / Second.
Proof. unfold Hour, Minute, Second. Z.to_euclidean_division_equations. lia. Qed.

(** Up to the seconds, texts compare as the seconds. *)
Lemma upto_second_compare t t' s s' :
  in_text_range t -> in_text_range t' ->
  String.compare (text_upto_second t s) (text_upto_second t' s') =
    lex (t / Second ?= t' / Second) (String.compare s s').
Proof.
  intros Ht Ht'. unfold text_upto_second.
  assert (Hday : forall u, in_text_range u -> 0 <= u / (24 * Hour) <= last_day).
  { intros u Hu. unfold in_text_range in Hu. split; [apply Z.div_pos; [lia|done]|].
    apply Z.lt_succ_r, Z.div_lt_upper_bound; [done|lia]. }
  pose proof (Hday t Ht) as Hd. pose proof (Hday t' Ht') as Hd'.
  pose proof (civil_bounds _ Hd) as Hb. pose proof (civil_bounds _ Hd') as Hb'.
  pose proof (civil_compare (t / (24 * Hour)) (t' / (24 * Hour))) as Hc.
  pose proof (clock_bounds t) as Hs. pose proof (clock_bounds t') as Hs'.
  rewrite (second_parts t), (second_parts t').
  set (sec := t mod (24 * Hour) / Second) in *. set (sec' := t' mod (24 * Hour) / Second) in *.
  set (day := t / (24 * Hour)) in *. set (day' := t' / (24 * Hour)) in *.
  destruct (civil day) as [[y m] d]. destruct (civil day') as [[y' m'] d'].
  destruct Hb as (Hy & Hm & Hdd), Hb' as (Hy' & Hm' & Hdd').
  assert (Hsm : forall x, 0 <= x mod 60 < 60) by (intros x; apply Z.mod_pos_bound; lia).
  pose proof (Hsm sec). pose proof (Hsm (sec / 60)). pose proof (Hsm sec'). pose proof (Hsm (sec' / 60)).
  assert (forall x, 0 <= x < 86400 -> 0 <= x / 3600 < 24)
    by (intros x Hx; split; [apply Z.div_pos; lia|apply Z.div_lt_upper_bound; lia]).
  assert (0 <= sec / 3600 < 24) by auto. assert (0 <= sec' / 3600 < 24) by auto.
  repeat (rewrite digits_compare by lia; rewrite ?string_compare_same).
  assert (Hdate : lex (y ?= y') (lex (m ?= m') (d ?= d')) = (day ?= day')).
  { rewrite <- Hc by lia. unfold date_key. rewrite <- lex_assoc, (lex_key 16), (lex_key 32) by lia.
    f_equal; lia. }
  assert (Hsplit : forall x, (x / 3600 * 60 + x / 60 mod 60) * 60 + x mod 60 = x).
  { intros x. clear. Z.to_euclidean_division_equations. lia. }
  assert (Hclock : lex (sec / 3600 ?= sec' / 3600)
    (lex (sec / 60 mod 60 ?= sec' / 60 mod 60) (sec mod 60 ?= sec' mod 60)) = (sec ?= sec')).
  { rewrite <- lex_assoc, (lex_key 60), (lex_key 60) by lia. by rewrite !Hsplit. }
  rewrite <- (lex_key 86400) by done. rewrite <- Hdate, <- Hclock, !lex_assoc. reflexivity.
Qed.

(** SQL's [<=] on two text columns. *)
Definition text_leb (a b : string) : bool := negb (str_ltb b a).

Lemma str_ltb_time t t' :
  in_text_range t -> in_text_range t' -> t / Second <> t' / Second ->
  str_ltb (time_text t) (time_text t') = (t <? t').
Proof.
  intros Ht Ht' Hne. unfold str_ltb, String.ltb. rewrite !time_text_eq, upto_second_compare by done.
  unfold lex. assert (Hs : 0 < Second) by done.
  pose proof (Z.div_mod t Second). pose proof (Z.div_mod t' Second).
  pose proof (Z.mod_pos_bound t Second Hs). pose proof (Z.mod_pos_bound t' Second Hs).
  destruct (Z.compare_spec (t / Second) (t' / Second)); [done| |]; symmetry.
  - apply Z.ltb_lt. nia.
  - apply Z.ltb_ge. nia.
Qed.

(** A time on a whole second has no fraction. *)
Definition whole_second (t : time) : Prop := t mod Second = 0.

Lemma str_ltb_whole t t' :
  in_text_range t -> in_text_range t' -> whole_second t -> whole_second t' ->
  str_ltb (time_text t) (time_text t') = (t <? t').
Proof.
  intros Ht Ht' Hw Hw'. destruct (decide (t / Second = t' / Second)) as [E|E]; [|by apply str_ltb_time].
  assert (t = t') as ->.
  { unfold whole_second in *. pose proof (Z.div_mod t Second). pose proof (Z.div_mod t' Second).
    assert (Second <> 0) by done. lia. }
  by rewrite str_ltb_irrefl, Z.ltb_irrefl.
Qed.

(** [<=] on texts is right up to a second. *)
Lemma text_leb_bounds t t' :
  in_text_range t -> in_text_range t' ->
  (text_leb (time_text t) (time_text t') = true -> t < t' + Second) /\
  (t + Second <= t' -> text_leb (time_text t) (time_text t') = true).
Proof.
  intros Ht Ht'. assert (Hs : 0 < Second) by done. unfold text_leb.
  pose proof (Z.div_mod t Second). pose proof (Z.div_mod t' Second).
  pose proof (Z.mod_pos_bound t Second Hs). pose proof (Z.mod_pos_bound t' Second Hs).
  destruct (decide (t' / Second = t / Second)) as [E|E].
  - split; [intros _; nia|intros Hle; nia].
  - rewrite str_ltb_time by done. split; [|intros Hle; apply negb_true_iff, Z.ltb_ge; lia].
    intros Hle%negb_true_iff. apply Z.ltb_ge in Hle. lia.
Qed.

(** ** Reading a text back: [time.Parse(time.RFC3339Nano, ...)] on the texts that
    [Format] writes *)

Definition read_char (c : ascii) (s : string) : option string :=
  match s with String c' s' => if Ascii.eqb c' c then Some s' else None | EmptyString => None end.

Definition Parse_RFC3339Nano (s : string) : option time :=
  '(y, s) ← read_digits 4 0 s; s ← read_char "-" s;
  '(m, s) ← read_digits 2 0 s; s ← read_char "-" s;
  '(d, s) ← read_digits 2 0 s; s ← read_char "T" s;
  '(hh, s) ← read_digits 2 0 s; s ← read_char ":" s;
  '(mm, s) ← read_digits 2 0 s; s ← read_char ":" s;
  '(ss, s) ← read_digits 2 0 s;
  let '(ns, s) := match read_char "." s with Some s' => read_fraction 9 s' | None => (0, s) end in
  s ← read_char "Z" s;
  let day := day_number y m d in
  if (s == "") && bool_decide (civil day = (y, m, d)) && (hh <? 24) && (mm <? 60) && (ss <? 60)
  then Some (day * (24 * Hour) + ((hh * 60 + mm) * 60 + ss) * Second + ns)
  else None.

(** [mustParseTime]: [None] is its panic. *)
Definition mustParseTime (value : string) : option time :=
  if TrimSpace value == "" then Some zero_time else Parse_RFC3339Nano value.

Lemma read_fraction_text t :
  match read_char "." (format_fraction t +:+ "Z") with
  | Some s' => read_fraction 9 s' | None => (0, format_fraction t +:+ "Z") end = (t mod Second, "Z").
Proof.
  rewrite format_fraction_eq. destruct (strip_digits 9 (t mod Second)) as [H1 H2];
    [apply Z.mod_pos_bound; done|].
  destruct (strip_zeros (digits 9 (t mod Second) "")) as [|c rest].
  - by rewrite (proj1 H2 eq_refl).
  - exact H1.
Qed.

Lemma Parse_text t : in_text_range t -> Parse_RFC3339Nano (time_text t) = Some t.
Proof.
  intros Ht. rewrite time_text_eq by done. unfold text_upto_second.
  assert (Hd : 0 <= t / (24 * Hour) <= last_day).
  { unfold in_text_range in Ht. split; [apply Z.div_pos; [lia|done]|].
    apply Z.lt_succ_r, Z.div_lt_upper_bound; [done|lia]. }
  pose proof (civil_bounds _ Hd) as Hb. pose proof (day_number_civil _ (proj1 Hd)) as Hn.
  pose proof (clock_bounds t) as Hs. set (sec := t mod (24 * Hour) / Second) in *.
  destruct (civil (t / (24 * Hour))) as [[y m] d] eqn:Ec. destruct Hb as (Hy & Hm & Hdd).
  assert (Hsm : forall x, 0 <= x mod 60 < 60) by (intros x; apply Z.mod_pos_bound; lia).
  pose proof (Hsm sec). pose proof (Hsm (sec / 60)).
  assert (0 <= sec / 3600 < 24) by (split; [apply Z.div_pos; lia|apply Z.div_lt_upper_bound; lia]).
  unfold Parse_RFC3339Nano.
  repeat (rewrite read_digits_digits by lia; cbn [mbind option_bind]; try change (read_char ?c (String ?c ?x)) with (Some x);
    cbn [mbind option_bind]).
  rewrite read_fraction_text. change (read_char "Z" "Z") with (Some ""). cbn [mbind option_bind].
  rewrite !Z.mul_0_l, !Z.add_0_l, Hn, Ec. rewrite !bool_decide_eq_true_2 by done.
  rewrite !(proj2 (Z.ltb_lt _ _)) by lia. cbn [andb]. f_equal.
  replace ((sec / 3600 * 60 + sec / 60 mod 60) * 60 + sec mod 60) with sec
    by (clear; Z.to_euclidean_division_equations; lia).
  unfold sec, Hour, Minute, Second. clear. Z.to_euclidean_division_equations. lia.
Qed.

Lemma trim_digit z s : 0 <= z < 10 -> TrimSpace (String (digit z) s) <> "".
Proof.
  intros Hz. assert (Hsp : is_space (digit z) = false).
  { assert (Hall : forallb (fun x => negb (is_space (digit x))) [0;1;2;3;4;5;6;7;8;9] = true)
      by (vm_compute; reflexivity).
    rewrite forallb_forall in Hall. apply negb_true_iff, Hall. simpl. lia. }
  with_strategy transparent [TrimSpace] (unfold TrimSpace). cbn [trim_left]. rewrite Hsp. cbn [trim_right]. rewrite Hsp. by destruct (trim_right s).
Qed.

Lemma mustParseTime_text t : in_text_range t -> mustParseTime (time_text t) = Some t.
Proof.
  intros Ht. unfold mustParseTime. case_bool_decide as E; [|by apply Parse_text].
  exfalso. revert E. rewrite time_text_eq by done. unfold text_upto_second.
  destruct (civil _) as [[y m] d]. rewrite digits_front. apply trim_digit, Z.mod_pos_bound. lia.
Qed.

Lemma time_text_inj t t' : in_text_range t -> in_text_range t' -> time_text t = time_text t' -> t = t'.
Proof. intros Ht Ht' E. pose proof (Parse_text t Ht) as H. rewrite E, Parse_text in H by done. by injection H. Qed.

(** ** Clocks whose texts are ordered

    A clock that only shows times of [P] can be compared in SQL. *)

Class TextClock (P : time -> Prop) : Prop := {
  clock_range t : P t -> in_text_range t;
  clock_nonzero t : P t -> t <> zero_time;
  clock_order t t' : P t -> P t' -> str_ltb (time_text t) (time_text t') = (t <? t')
}.

(** Whole seconds. *)
Definition second_clock (t : time) : Prop := in_text_range t /\ t <> zero_time /\ whole_second t.

#[export] Instance second_text_clock : TextClock second_clock.
Proof. unfold second_clock. split; [tauto|tauto|]. intros t t' (? & _ & ?) (? & _ & ?). by apply str_ltb_whole. Qed.

(** Times that need all nine digits of the fraction. *)
Definition nanosecond_clock (t : time) : Prop := in_text_range t /\ t mod 10 <> 0.

Lemma strip_zeros_digits w z s c :
  strip_zeros (String c s) = String c s -> strip_zeros (digits w z (String c s)) = digits w z (String c s).
Proof.
  revert z c s. induction w as [|w IH]; intros z c s Hs; [done|]. cbn [digits]. apply IH.
  set (x := digit (z mod 10)). clearbody x. change (strip_zeros (String x (String c s))) with
    (match strip_zeros (String c s) with
     | EmptyString => if Ascii.eqb x "0" then EmptyString else String x EmptyString
     | String _ _ as r => String x r end). by rewrite Hs.
Qed.

Lemma nanosecond_fraction t :
  t mod 10 <> 0 -> format_fraction t = "." +:+ digits 9 (t mod Second) "".
Proof.
  intros Hne. rewrite format_fraction_eq.
  assert (Hm : (t mod Second) mod 10 = t mod 10).
  { unfold Second. clear. Z.to_euclidean_division_equations. lia. }
  cut (strip_zeros (digits 9 (t mod Second) "") = digits 9 (t mod Second) "").
  { intros ->. by rewrite digits_front. }
  change (digits 9 ?z "") with (digits 8 (z / 10) (String (digit (z mod 10)) "")). apply strip_zeros_digits.
  rewrite Hm. pose proof (Z.mod_pos_bound t 10 ltac:(lia)) as Hb. revert Hne Hb. generalize (t mod 10). intros d Hd Hb.
  assert (Hall : forallb (fun x => bool_decide (strip_zeros (String (digit x) "") = String (digit x) ""))
    [1;2;3;4;5;6;7;8;9] = true) by (vm_compute; reflexivity).
  rewrite forallb_forall in Hall. eapply bool_decide_eq_true_1, Hall. simpl. lia.
Qed.

#[export] Instance nanosecond_text_clock : TextClock nanosecond_clock.
Proof.
  unfold nanosecond_clock. split; [tauto| |].
  { intros t [_ H] ->. by apply H. }
  intros t t' [Ht Hn] [Ht' Hn'].
  destruct (decide (t / Second = t' / Second)) as [E|E]; [|by apply str_ltb_time].
  unfold str_ltb, String.ltb. rewrite !time_text_eq, upto_second_compare by done.
  rewrite !nanosecond_fraction, !string_app_assoc, !string_app_cons, !digits_app by done.
  change ("" +:+ ?x) with x. rewrite string_compare_same.
  assert (Hb : forall x, 0 <= x mod Second < 10 ^ Z.of_nat 9) by (intros x; apply Z.mod_pos_bound; done).
  rewrite digits_compare by apply Hb. rewrite E, Z.compare_refl. cbn [lex].
  pose proof (Z.div_mod t Second ltac:(done)). pose proof (Z.div_mod t' Second ltac:(done)).
  destruct (Z.compare_spec (t mod Second) (t' mod Second)); symmetry;
    first [apply Z.ltb_lt | apply Z.ltb_ge]; nia.
Qed.

Section text_clock.
Context {P : time -> Prop} `{TC : !TextClock P}.

Lemma text_leb_clock t t' : P t -> P t' -> text_leb (time_text t) (time_text t') = (t <=? t').
Proof. intros H H'. unfold text_leb. rewrite clock_order by done. by rewrite Z.leb_antisym. Qed.

Lemma mustParseTime_clock t : P t -> mustParseTime (time_text t) = Some t.
Proof. intros H. by apply mustParseTime_text, clock_range. Qed.

Lemma clock_IsZero t : P t -> IsZero t = false.
Proof. intros H%clock_nonzero. unfold IsZero. by apply Z.eqb_neq. Qed.
End text_clock.

(** ** Claims *)

(** A time that a store has written as text is read back as the same
    time: for every time of the years 1 to 9999, to the nanosecond,
    [mustParseTime] of its RFC3339Nano text is that time. *)
Theorem time_text_roundtrip t : in_text_range t -> mustParseTime (Format_RFC3339Nano t) = Some t.
Proof. apply mustParseTime_text. Qed.

Lemma time_text_roundtrip_witness :
  Format_RFC3339Nano (63745207861 * Second + 120) = "2021-01-02T18:11:01.00000012Z" /\
  mustParseTime (Format_RFC3339Nano (63745207861 * Second + 120)) = Some (63745207861 * Second + 120).
Proof.
  split; [vm_compute; reflexivity|]. apply (time_text_roundtrip (63745207861 * Second + 120)).
  unfold in_text_range. vm_compute. split; congruence.
Defined.

(** The order of the texts is the order of the times, but only up to a
    second.  Texts of times in different seconds, and of times on whole
    seconds, compare as the times do.  In general a text that is less or
    equal belongs to a time less than a second later, and a time at least a
    second earlier has a lesser text; within a second the order can be
    inverted, because the format drops the trailing zeros of the fraction. *)
Theorem time_text_order t t' :
  in_text_range t -> in_text_range t' ->
  (t / Second <> t' / Second \/ (whole_second t /\ whole_second t') ->
   str_ltb (Format_RFC3339Nano t) (Format_RFC3339Nano t') = (t <? t')) /\
  (text_leb (Format_RFC3339Nano t) (Format_RFC3339Nano t') = true -> t < t' + Second) /\
  (t + Second <= t' -> text_leb (Format_RFC3339Nano t) (Format_RFC3339Nano t') = true) /\
  (exists u u', in_text_range u /\ in_text_range u' /\ u' < u /\
   str_ltb (Format_RFC3339Nano u) (Format_RFC3339Nano u') = true).
Proof.
  intros Ht Ht'. destruct (text_leb_bounds t t' Ht Ht') as [H1 H2].
  split; [|split; [exact H1|split; [exact H2|]]].
  - intros [H|[H H']]; [by apply str_ltb_time | by apply str_ltb_whole].
  - exists (Second + 500000000), Second. unfold in_text_range. vm_compute. repeat split; congruence.
Qed.

Lemma time_text_order_witness :
  str_ltb (Format_RFC3339Nano 5) (Format_RFC3339Nano (Second + 7)) = true.
Proof.
  assert (Hr : in_text_range 5 /\ in_text_range (Second + 7))
    by (unfold in_text_range; vm_compute; repeat split; congruence).
  destruct Hr as [H1 H2]. rewrite (proj1 (time_text_order 5 (Second + 7) H1 H2)).
  - reflexivity.
  - left. vm_compute. discriminate.
Defined.
