(* ===== verification/GoNum.v ===== *)
(** * Numbers and times as text ([strconv], [time.Parse])

    Decimal literals, correctly rounded to a float64; the shortest decimal
    that reads back as a given float64, as [encoding/json] writes it; integers
    in base ten; RFC 3339 times with an offset. *)

From Stdlib Require Import Ascii.
From S2P Require Export GoText TimeText.
#[local] Open Scope Z_scope.

(** ** Decimal literals *)

Definition is_digit (c : ascii) : bool := match digit_value c with Some _ => true | None => false end.

(** The digits at the head of the text: how many, and their value. *)
Fixpoint span_digits (s : string) : list Z * string :=
  match s with
  | String c s' =>
      match digit_value c with
      | Some v => let '(l, rest) := span_digits s' in (v :: l, rest)
      | None => ([], s)
      end
  | EmptyString => ([], s)
  end.

Definition digits_value (l : list Z) : Z := fold_left (fun acc v => acc * 10 + v) l 0.

(** An optional sign: whether it is a minus. *)
Definition read_sign (plus : bool) (s : string) : bool * string :=
  match s with
  | String c s' =>
      if Ascii.eqb c "-" then (true, s')
      else if plus && Ascii.eqb c "+" then (false, s') else (false, s)
  | EmptyString => (false, s)
  end.

(** [(-1)^neg * mantissa * 10^exponent] *)
Record decimal := mkDecimal { dec_neg : bool; dec_mantissa : Z; dec_exponent : Z }.

(** The exponent part of a literal: absent, or well formed, or an error. *)
Definition read_exponent (s : string) : option (Z * string) :=
  match s with
  | String c s' =>
      if Ascii.eqb c "e" || Ascii.eqb c "E" then
        let '(neg, s') := read_sign true s' in
        match span_digits s' with
        | ([], _) => None
        | (l, rest) => Some ((if neg then - digits_value l else digits_value l), rest)
        end
      else Some (0, s)
  | EmptyString => Some (0, s)
  end.

(** The fraction of a literal: its digits. *)
Definition read_point (s : string) : option (list Z * string) :=
  match s with
  | String c s' =>
      if Ascii.eqb c "." then
        match span_digits s' with ([], _) => None | r => Some r end
      else Some ([], s)
  | EmptyString => Some ([], s)
  end.

(** A number of JSON at the head of the text: no superfluous zero in front,
    digits on both sides of the point. *)
Definition read_number (s : string) : option (decimal * string) :=
  let '(neg, s) := read_sign false s in
  match span_digits s with
  | ([], _) | (0 :: _ :: _, _) => None
  | (whole, s) =>
      '(fraction, s) ← read_point s;
      '(e, s) ← read_exponent s;
      Some (mkDecimal neg (digits_value (whole ++ fraction)) (e - Z.of_nat (length fraction)), s)
  end.

(** ** The float64 nearest to a decimal *)

(** [m / 2^k] with enough bits for a correct rounding; the last bit says
    whether there is more. *)
Definition ratio_float (neg : bool) (m d : Z) : float64 :=
  let k := Z.max 0 (Z.log2 d - Z.log2 m + 66) in
  let '(q, r) := (m * 2 ^ k / d, (m * 2 ^ k) mod d) in
  let q := 2 * q + (if r =? 0 then 0 else 1) in
  binary_normalize f_prec f_emax (if neg then - q else q) (- k - 1) neg.

(** Exponents far out of range are decided without computing the power. *)
Definition decimal_float (x : decimal) : float64 :=
  let '(mkDecimal neg m e) := x in
  if m =? 0 then S754_zero neg
  else if 400 <? Z.log2 m / 3 + e then S754_infinity neg
  else if Z.log2 m + 1 + e <? -800 then S754_zero neg
  else if 0 <=? e then binary_normalize f_prec f_emax (if neg then - (m * 10 ^ e) else m * 10 ^ e) 0 neg
  else ratio_float neg m (10 ^ (- e)).

Definition is_infinite (f : float64) : bool := match f with S754_infinity _ => true | _ => false end.

#[export] Instance spec_float_eq_dec : EqDecision spec_float.
Proof. solve_decision. Defined.

(** ** The shortest decimal of a float64 *)

(** The value [m * 2^e] as a fraction. *)
Definition float_fraction (m e : Z) : Z * Z := if 0 <=? e then (m * 2 ^ e, 1) else (m, 2 ^ (- e)).

(** [10^p <= n/d], for any sign of [p]. *)
Definition pow10_leb (p n d : Z) : bool := if 0 <=? p then d * 10 ^ p <=? n else d <=? n * 10 ^ (- p).

(** The decimal exponent: the greatest [p <= start] with [10^p <= n/d]. *)
Fixpoint decimal_exponent (fuel : nat) (p n d : Z) : Z :=
  match fuel with
  | O => p
  | S fuel => if pow10_leb p n d then p else decimal_exponent fuel (p - 1) n d
  end.

(** [n/d * 10^(-k)] as a quotient and whether the rest is above one half. *)
Definition scaled (n d k : Z) : Z * bool :=
  let '(n, d) := if 0 <=? k then (n, d * 10 ^ k) else (n * 10 ^ (- k), d) in
  (n / d, d <? 2 * (n mod d)).

(** The first number of digits for which the decimal below or above the value
    reads back; of two, the nearer. *)
Fixpoint shortest (fuel : nat) (count : Z) (p n d : Z) (f : float64) : Z * Z :=
  let k := p + 1 - count in
  let '(q, up) := scaled n d k in
  let reads x := bool_decide (decimal_float (mkDecimal false x k) = f) in
  let best := if up then q + 1 else q in
  let other := if up then q else q + 1 in
  match fuel with
  | O => (best, k)
  | S fuel =>
      if reads best then (best, k) else if reads other then (other, k)
      else shortest fuel (count + 1) p n d f
  end.

(** The digits of [m * 2^e] and the exponent of the last one. *)
Definition shortest_decimal (m : positive) (e : Z) : Z * Z :=
  let '(n, d) := float_fraction (Zpos m) e in
  let p := decimal_exponent 40 ((Z.log2 n - Z.log2 d) * 30103 / 100000 + 2) n d in
  shortest 17 1 p n d (S754_finite false m e).

Fixpoint drop_trailing_zeros (fuel : nat) (q k : Z) : Z * Z :=
  match fuel with
  | O => (q, k)
  | S fuel => if (q mod 10 =? 0) && negb (q =? 0) then drop_trailing_zeros fuel (q / 10) (k + 1) else (q, k)
  end.

(** [strconv.FormatFloat(f, 'f', -1, 64)] of [q * 10^k]. *)
Definition format_fixed (q k : Z) : string :=
  if 0 <=? k then Itoa (q * 10 ^ k)
  else
    let w := Z.to_nat (- k) in
    Itoa (q / 10 ^ (- k)) +:+ "." +:+ pad w (q mod 10 ^ (- k)).

(** [FormatFloat(f, 'e', -1, 64)], with the exponent as [encoding/json] writes
    it (one digit is enough after [e-]). *)
Definition format_exponent (q k : Z) : string :=
  let text := Itoa q in
  let e := k + Z.of_nat (String.length text) - 1 in
  let mantissa := match text with
                  | String c EmptyString => text
                  | String c rest => String c ("." +:+ rest)
                  | EmptyString => text
                  end in
  mantissa +:+ (if e <? 0 then "e-" +:+ Itoa (- e) else "e+" +:+ pad 2 e).

(** The text of a finite float64 in JSON; infinities and NaN have none. *)
Definition float_text (f : float64) : option string :=
  match f with
  | S754_nan | S754_infinity _ => None
  | S754_zero s => Some (if s then "-0" else "0")
  | S754_finite s m e =>
      let '(q, k) := shortest_decimal m e in
      let '(q, k) := drop_trailing_zeros 20 q k in
      let size := k + Z.of_nat (String.length (Itoa q)) in
      Some ((if s then "-" else "") +:+
            (if (-5 <=? size) && (size <=? 21) then format_fixed q k else format_exponent q k))
  end.

Example float_text_examples :
  float_text (f_const 1 10) = Some "0.1" /\ float_text (f_of_int 100) = Some "100" /\
  float_text (f_const 1 3) = Some "0.3333333333333333" /\ float_text (f_const (-25) 100) = Some "-0.25" /\
  float_text (f_mul (f_of_int (10 ^ 15)) (f_of_int (10 ^ 7))) = Some "1e+22" /\
  float_text (f_const 1 (10 ^ 7)) = Some "1e-7" /\ float_text (f_const 123456 (10 ^ 11)) = Some "0.00000123456".
Proof. vm_compute. split_and!; reflexivity. Qed.

(** The number a literal stands for. *)
Definition literal_float (text : string) : option float64 :=
  match read_number text with
  | Some (x, "") => let f := decimal_float x in if is_infinite f then None else Some f
  | _ => None
  end.

Example literal_float_examples :
  literal_float "0.1" = Some (f_const 1 10) /\ literal_float "-12.5e1" = Some (f_of_int (-125)) /\
  literal_float "1e400" = None /\ literal_float "01" = None /\ literal_float "5e-324" = Some (S754_finite false 1 (-1074)).
Proof. vm_compute. split_and!; reflexivity. Qed.

(** ** [strconv.ParseInt(text, 10, 64)] and [ParseFloat(text, 64)] *)

Definition ParseInt (text : string) : option Z :=
  let '(neg, rest) := read_sign true text in
  match span_digits rest with
  | ([], _) => None
  | (l, "") =>
      let z := if neg then - digits_value l else digits_value l in
      if (- two63 <=? z) && (z <? two63) then Some z else None
  | _ => None
  end.

(** Digits on at least one side of the point; the names of the infinities and
    of NaN; not the hexadecimal form. *)
Definition ParseFloat (text : string) : option float64 :=
  let '(neg, s) := read_sign true text in
  if bool_decide (ToLower s ∈ ["inf"; "infinity"]) then Some (S754_infinity neg)
  else if ToLower text == "nan" then Some S754_nan
  else
    let '(whole, s) := span_digits s in
    let '(fraction, s) := match s with
                          | String c s' => if Ascii.eqb c "." then span_digits s' else ([], s)
                          | EmptyString => ([], s)
                          end in
    match whole ++ fraction with
    | [] => None
    | l =>
        '(e, s) ← read_exponent s;
        if is_empty s then
          let f := decimal_float (mkDecimal neg (digits_value l) (e - Z.of_nat (length fraction))) in
          if is_infinite f then None else Some f
        else None
    end.

(** ** Times *)

(** [time.Parse(time.RFC3339, text)] in UTC: the seconds may have a fraction,
    the offset is [Z] or hours and minutes. *)
Definition read_offset (s : string) : option (Z * string) :=
  match s with
  | String c s' =>
      if Ascii.eqb c "Z" then Some (0, s')
      else if Ascii.eqb c "+" || Ascii.eqb c "-" then
        '(hh, s') ← read_digits 2 0 s'; s' ← read_char ":" s'; '(mm, s') ← read_digits 2 0 s';
        if (hh <=? 24) && (mm <? 60)
        then Some ((if Ascii.eqb c "-" then -1 else 1) * (hh * 60 + mm) * Minute, s') else None
      else None
  | EmptyString => None
  end.

Definition read_seconds_fraction (s : string) : Z * string :=
  match s with
  | String c (String d _ as s') =>
      if (Ascii.eqb c "." || Ascii.eqb c ",") && is_digit d then
        let '(ns, _) := read_fraction 9 s' in (ns, (span_digits s').2)
      else (0, s)
  | _ => (0, s)
  end.

Definition read_date (s : string) : option (Z * string) :=
  '(y, s) ← read_digits 4 0 s; s ← read_char "-" s;
  '(m, s) ← read_digits 2 0 s; s ← read_char "-" s;
  '(d, s) ← read_digits 2 0 s;
  let day := day_number y m d in
  if bool_decide (civil day = (y, m, d)) then Some (day, s) else None.

Definition Parse_RFC3339 (s : string) : option time :=
  '(day, s) ← read_date s; s ← read_char "T" s;
  '(hh, s) ← read_digits 2 0 s; s ← read_char ":" s;
  '(mm, s) ← read_digits 2 0 s; s ← read_char ":" s;
  '(ss, s) ← read_digits 2 0 s;
  let '(ns, s) := read_seconds_fraction s in
  '(offset, s) ← read_offset s;
  if (s == "") && (hh <? 24) && (mm <? 60) && (ss <? 60)
  then Some (day * (24 * Hour) + ((hh * 60 + mm) * 60 + ss) * Second + ns - offset)
  else None.

(** [time.Parse("2006-01-02", text)] *)
Definition Parse_date (s : string) : option time :=
  '(day, s) ← read_date s;
  if s == "" then Some (day * (24 * Hour)) else None.

(** [t.AddDate(years, months, days)]: a month that is too short runs over. *)
Definition AddDate (t : time) (years months days : Z) : time :=
  let '(y, m, d) := civil (t / (24 * Hour)) in
  let months := m - 1 + months in
  let y := y + years + months / 12 in
  (day_number y (months mod 12 + 1) 1 + (d - 1) + days) * (24 * Hour) + t mod (24 * Hour).

(** [t.Format("20060102150405")] and [t.Format("2006-01")] *)
Definition Format_compact (t : time) : string :=
  let '(y, m, d) := civil (t / (24 * Hour)) in
  let s := t mod (24 * Hour) / Second in
  pad 4 y +:+ pad 2 m +:+ pad 2 d +:+ pad 2 (s / 3600) +:+ pad 2 (s / 60 mod 60) +:+ pad 2 (s mod 60).

Definition Format_month (t : time) : string :=
  let '(y, m, _) := civil (t / (24 * Hour)) in pad 4 y +:+ "-" +:+ pad 2 m.

(** [t.Hour()] *)
Definition Hour_of (t : time) : Z := t mod (24 * Hour) / Hour.

Example time_examples :
  Parse_RFC3339 "2024-03-31T08:00:00+08:00" = Parse_RFC3339 "2024-03-31T00:00:00Z" /\
  (Format_RFC3339Nano <$> Parse_RFC3339 "2024-11-30T23:59:59.250Z") = Some "2024-11-30T23:59:59.25Z" /\
  ((fun t => Format_RFC3339 (AddDate t 0 3 0)) <$> Parse_date "2024-11-30") = Some "2025-03-02T00:00:00Z" /\
  ((fun t => Format_RFC3339 (AddDate t 0 0 (-14))) <$> Parse_date "2024-01-10") = Some "2023-12-27T00:00:00Z" /\
  (Format_compact <$> Parse_date "2024-01-10") = Some "20240110000000" /\ Parse_date "2024-02-30" = None.
Proof. vm_compute. split_and!; reflexivity. Qed.
