(* ===== verification/GoJson.v ===== *)
(** * JSON, and reading back what was written *)

From Stdlib Require Import Ascii.
From stdpp Require Import pretty.
From S2P Require Export GoNum.
#[local] Open Scope Z_scope.

(** * JSON ([encoding/json])

    Texts to values and back, and values to and from Go types.  Object members
    keep their order; an unknown member is ignored; names are compared first
    exactly, then without case.  The text of a decoding error is not modelled
    ([None]). *)

(** ** Values *)

#[warnings="-register-all"]
Inductive jvalue :=
| VNull
| VBool (b : bool)
| VNum (literal : string)
| VStr (s : string)
| VArr (l : list jvalue)
| VObj (members : list (string * jvalue)).

(** ** Strings *)

(** The bytes of a rune. *)
Definition byte_char (z : Z) : ascii := ascii_of_N (Z.to_N z).
Definition encode_rune (r : Z) : string :=
  if r <? 128 then String (byte_char r) EmptyString
  else if r <? 2048 then
    String (byte_char (192 + r / 64)) (String (byte_char (128 + r mod 64)) EmptyString)
  else if r <? 65536 then
    String (byte_char (224 + r / 4096)) (String (byte_char (128 + r / 64 mod 64))
      (String (byte_char (128 + r mod 64)) EmptyString))
  else
    String (byte_char (240 + r / 262144)) (String (byte_char (128 + r / 4096 mod 64))
      (String (byte_char (128 + r / 64 mod 64)) (String (byte_char (128 + r mod 64)) EmptyString))).

Definition replacement : string := encode_rune 65533.

(** A byte that starts no rune is written as an escaped U+FFFD, the line
    separators are escaped. *)
Fixpoint quote_from (s : string) : string :=
  match s with
  | EmptyString => EmptyString
  | String a s1 =>
      if byte_of a <? 128 then json_char a +:+ quote_from s1 else
      match rune_width s, s1 with
      | 2%nat, String b s2 => String a (String b (quote_from s2))
      | 3%nat, String b (String c s3) =>
          (if bool_decide (rune_value s = 8232) then String backslash "u2028"
           else if bool_decide (rune_value s = 8233) then String backslash "u2029"
           else String a (String b (String c EmptyString))) +:+ quote_from s3
      | 4%nat, String b (String c (String d s4)) => String a (String b (String c (String d (quote_from s4))))
      | _, _ => String backslash "ufffd" +:+ quote_from s1
      end
  end.

Definition quote_json (s : string) : string := String dquote (quote_from s +:+ String dquote EmptyString).

Definition hex_value (c : ascii) : option Z :=
  let n := byte_of c in
  if (48 <=? n) && (n <=? 57) then Some (n - 48)
  else if (97 <=? n) && (n <=? 102) then Some (n - 87)
  else if (65 <=? n) && (n <=? 70) then Some (n - 55) else None.

Definition hex4 (a b c d : ascii) : option Z :=
  x ← hex_value a; y ← hex_value b; z ← hex_value c; w ← hex_value d;
  Some (((x * 16 + y) * 16 + z) * 16 + w).

Definition is_high (r : Z) : bool := (55296 <=? r) && (r <? 56320).
Definition is_low (r : Z) : bool := (56320 <=? r) && (r <? 57344).

Definition simple_escape (c : ascii) : option ascii :=
  let n := byte_of c in
  if (n =? 34) || (n =? 92) || (n =? 47) then Some c
  else if n =? 98 then Some (byte_char 8)
  else if n =? 102 then Some (byte_char 12)
  else if n =? 110 then Some (byte_char 10)
  else if n =? 114 then Some (byte_char 13)
  else if n =? 116 then Some (byte_char 9) else None.

Definition prepend (head : string) (tail : option (string * string)) : option (string * string) :=
  '(s, rest) ← tail; Some (head +:+ s, rest).

(** The text up to the closing quote. *)
Fixpoint read_chars (s : string) : option (string * string) :=
  match s with
  | EmptyString => None
  | String a s1 =>
      if Ascii.eqb a dquote then Some (EmptyString, s1)
      else if Ascii.eqb a backslash then
        match s1 with
        | String e s2 =>
            if Ascii.eqb e "u" then
              match s2 with
              | String h1 (String h2 (String h3 (String h4 s6))) =>
                  match hex4 h1 h2 h3 h4 with
                  | None => None
                  | Some r =>
                      if is_high r then
                        match s6 with
                        | String b (String u (String k1 (String k2 (String k3 (String k4 s12))))) =>
                            match hex4 k1 k2 k3 k4 with
                            | Some l =>
                                if Ascii.eqb b backslash && Ascii.eqb u "u" && is_low l
                                then prepend (encode_rune (65536 + (r - 55296) * 1024 + (l - 56320))) (read_chars s12)
                                else prepend replacement (read_chars s6)
                            | None => prepend replacement (read_chars s6)
                            end
                        | _ => prepend replacement (read_chars s6)
                        end
                      else if is_low r then prepend replacement (read_chars s6)
                      else prepend (encode_rune r) (read_chars s6)
                  end
              | _ => None
              end
            else match simple_escape e with
                 | Some c => prepend (String c EmptyString) (read_chars s2)
                 | None => None
                 end
        | EmptyString => None
        end
      else if byte_of a <? 32 then None
      else if byte_of a <? 128 then prepend (String a EmptyString) (read_chars s1)
      else match rune_width s, s1 with
           | 2%nat, String b s2 => prepend (String a (String b EmptyString)) (read_chars s2)
           | 3%nat, String b (String c s3) => prepend (String a (String b (String c EmptyString))) (read_chars s3)
           | 4%nat, String b (String c (String d s4)) =>
               prepend (String a (String b (String c (String d EmptyString)))) (read_chars s4)
           | _, _ => prepend replacement (read_chars s1)
           end
  end.

(** Valid UTF-8. *)
Fixpoint valid_text (s : string) : bool :=
  match s with
  | EmptyString => true
  | String a s1 =>
      if byte_of a <? 128 then valid_text s1 else
      match rune_width s, s1 with
      | 2%nat, String b s2 => valid_text s2
      | 3%nat, String b (String c s3) => valid_text s3
      | 4%nat, String b (String c (String d s4)) => valid_text s4
      | _, _ => false
      end
  end.

(** ** Rendering *)

Fixpoint render (v : jvalue) : string :=
  match v with
  | VNull => "null"
  | VBool b => if b then "true" else "false"
  | VNum literal => literal
  | VStr s => quote_json s
  | VArr l => "[" +:+ (Join (map render l) "," +:+ "]")
  | VObj members =>
      "{" +:+ (Join (map (fun m => quote_json m.1 +:+ (":" +:+ render m.2)) members) "," +:+ "}")
  end.

(** ** Parsing *)

Definition is_json_space (c : ascii) : bool :=
  let n := byte_of c in (n =? 32) || (n =? 9) || (n =? 10) || (n =? 13).

Fixpoint skip_space (s : string) : string :=
  match s with
  | String c s' => if is_json_space c then skip_space s' else s
  | EmptyString => s
  end.

Fixpoint read_word (word s : string) : option string :=
  match word with
  | EmptyString => Some s
  | String c word' =>
      match s with
      | String c' s' => if Ascii.eqb c c' then read_word word' s' else None
      | EmptyString => None
      end
  end.

(** The literal of a number, as it is written. *)
Definition read_literal (s : string) : option (string * string) :=
  '(_, rest) ← read_number s;
  Some (String.substring 0 (String.length s - String.length rest) s, rest).

(** A value at the head of the text; [n] is fuel. *)
Fixpoint read_value (n : nat) (s : string) : option (jvalue * string) :=
  match n with
  | O => None
  | S n =>
      match skip_space s with
      | EmptyString => None
      | String c rest as s =>
          if Ascii.eqb c "{" then
            match skip_space rest with
            | String c' rest' =>
                if Ascii.eqb c' "}" then Some (VObj [], rest')
                else '(members, rest) ← read_members n (String c' rest'); Some (VObj members, rest)
            | EmptyString => None
            end
          else if Ascii.eqb c "[" then
            match skip_space rest with
            | String c' rest' =>
                if Ascii.eqb c' "]" then Some (VArr [], rest')
                else '(l, rest) ← read_elements n (String c' rest'); Some (VArr l, rest)
            | EmptyString => None
            end
          else if Ascii.eqb c dquote then '(text, rest) ← read_chars rest; Some (VStr text, rest)
          else if Ascii.eqb c "n" then rest ← read_word "null" s; Some (VNull, rest)
          else if Ascii.eqb c "t" then rest ← read_word "true" s; Some (VBool true, rest)
          else if Ascii.eqb c "f" then rest ← read_word "false" s; Some (VBool false, rest)
          else '(literal, rest) ← read_literal s; Some (VNum literal, rest)
      end
  end
with read_elements (n : nat) (s : string) : option (list jvalue * string) :=
  match n with
  | O => None
  | S n =>
      '(v, rest) ← read_value n s;
      match skip_space rest with
      | String c rest =>
          if Ascii.eqb c "]" then Some ([v], rest)
          else if Ascii.eqb c "," then '(l, rest) ← read_elements n rest; Some (v :: l, rest)
          else None
      | EmptyString => None
      end
  end
with read_members (n : nat) (s : string) : option (list (string * jvalue) * string) :=
  match n with
  | O => None
  | S n =>
      match skip_space s with
      | String c rest =>
          if Ascii.eqb c dquote then
            '(name, rest) ← read_chars rest;
            match skip_space rest with
            | String c rest =>
                if Ascii.eqb c ":" then
                  '(v, rest) ← read_value n rest;
                  match skip_space rest with
                  | String c rest =>
                      if Ascii.eqb c "}" then Some ([(name, v)], rest)
                      else if Ascii.eqb c "," then '(l, rest) ← read_members n rest; Some ((name, v) :: l, rest)
                      else None
                  | EmptyString => None
                  end
                else None
            | EmptyString => None
            end
          else None
      | EmptyString => None
      end
  end.

Fixpoint depth (v : jvalue) : Z :=
  match v with
  | VArr l => 1 + fold_right Z.max 0 (map depth l)
  | VObj members => 1 + fold_right Z.max 0 (map (fun m => depth m.2) members)
  | _ => 0
  end.

(** Two calls per byte are enough fuel; nesting is limited. *)
Definition parse (s : string) : option jvalue :=
  '(v, rest) ← read_value (2 * String.length s + 2) s;
  if is_empty (skip_space rest) && (depth v <=? 10000) then Some v else None.

(** * Reading back JSON texts

    [parse (render v)] is [v] again, for values whose strings are valid UTF-8
    and whose number literals are literals of JSON. *)

(** Induction over nested values. *)
Section jvalue_ind'.
Context (P : jvalue -> Prop).
Hypothesis Hnull : P VNull.
Hypothesis Hbool : forall b, P (VBool b).
Hypothesis Hnum : forall l, P (VNum l).
Hypothesis Hstr : forall s, P (VStr s).
Hypothesis Harr : forall l, Forall P l -> P (VArr l).
Hypothesis Hobj : forall members, Forall (fun m => P m.2) members -> P (VObj members).

Fixpoint jvalue_nested_ind (v : jvalue) : P v :=
  match v with
  | VNull => Hnull
  | VBool b => Hbool b
  | VNum l => Hnum l
  | VStr s => Hstr s
  | VArr l => Harr l ((fix go l : Forall P l :=
      match l with [] => Forall_nil_2 _ | x :: l => Forall_cons_2 _ _ _ (jvalue_nested_ind x) (go l) end) l)
  | VObj members => Hobj members ((fix go l : Forall (fun m => P m.2) l :=
      match l with [] => Forall_nil_2 _ | x :: l => Forall_cons_2 _ _ _ (jvalue_nested_ind x.2) (go l) end) members)
  end.
End jvalue_ind'.

(** ** Bytes *)

Lemma byte_of_bounds a : 0 <= byte_of a < 256.
Proof. unfold byte_of. pose proof (nat_ascii_bounded a). lia. Qed.

Lemma byte_char_byte a : byte_char (byte_of a) = a.
Proof.
  unfold byte_char, byte_of, nat_of_ascii. rewrite N_nat_Z, N2Z.id. apply ascii_N_embedding.
Qed.

Lemma byte_of_inj a b : byte_of a = byte_of b -> a = b.
Proof. intros E. by rewrite <- (byte_char_byte a), E, byte_char_byte. Qed.

(** A property of all ASCII characters, decided by trying them. *)
Lemma ascii_forall (P : ascii -> bool) :
  forallb (fun n => P (ascii_of_nat n)) (seq 0 256) = true -> forall a, P a = true.
Proof.
  intros H a. rewrite forallb_forall in H. specialize (H (nat_of_ascii a)).
  rewrite ascii_nat_embedding in H. apply H, in_seq. pose proof (nat_ascii_bounded a). lia.
Qed.

(** ** Strings *)

(** A character written by [json_char] is read as itself. *)
Lemma read_json_char a tail :
  byte_of a < 128 -> read_chars (json_char a +:+ tail) = prepend (String a EmptyString) (read_chars tail).
Proof.
  intros Ha. destruct a as [[] [] [] [] [] [] [] []]; try (exfalso; revert Ha; vm_compute; discriminate); reflexivity.
Qed.

Ltac rune_cases s :=
  unfold rune_width; cbv zeta;
  repeat match goal with |- context [if ?b then _ else _] => destruct b eqn:? end.

(** The shape of the text at a rune of several bytes. *)
Lemma rune_width_cases a s1 :
  (rune_width (String a s1) = 2%nat /\ 194 <= byte_of a <= 223 /\
     exists b s2, s1 = String b s2 /\ 128 <= byte_of b <= 191) \/
  (rune_width (String a s1) = 3%nat /\ 224 <= byte_of a <= 239 /\
     exists b c s3, s1 = String b (String c s3) /\ 128 <= byte_of b <= 191 /\ 128 <= byte_of c <= 191) \/
  (rune_width (String a s1) = 4%nat /\ 240 <= byte_of a <= 244 /\
     exists b c d s4, s1 = String b (String c (String d s4)) /\
       128 <= byte_of b <= 191 /\ 128 <= byte_of c <= 191 /\ 128 <= byte_of d <= 191) \/
  rune_width (String a s1) = 1%nat.
Proof.
  unfold rune_width, continuation; cbv zeta. set (x := byte_of a).
  repeat case_match; try (by right; right; right); rewrite ?andb_false_r in *;
    repeat match goal with H : (_ && _)%bool = true |- _ => apply andb_prop in H as [? ?]
      | H : (_ || _)%bool = true |- _ => apply orb_prop in H as [?|?]
      | H : (_ <=? _) = true |- _ => apply Z.leb_le in H
      | H : (_ =? _) = true |- _ => apply Z.eqb_eq in H end; try discriminate.
  all: first [left; split; [done|]; split; [lia|]; eexists _, _; split; [reflexivity|lia]
    |right; left; split; [done|]; split; [lia|]; eexists _, _, _; split; [reflexivity|lia]
    |right; right; left; split; [done|]; split; [lia|]; eexists _, _, _, _; split; [reflexivity|lia]|idtac].
Qed.

(** The width is decided by the bytes of the rune. *)
Lemma rune_width_2 a b s t :
  rune_width (String a (String b s)) = 2%nat -> rune_width (String a (String b t)) = 2%nat.
Proof. unfold rune_width; cbv zeta. case_match; [done|]. repeat case_match; discriminate. Qed.

Lemma rune_width_3 a b c s t :
  rune_width (String a (String b (String c s))) = 3%nat -> rune_width (String a (String b (String c t))) = 3%nat.
Proof. unfold rune_width; cbv zeta. repeat (case_match; [done || discriminate|]). repeat case_match; discriminate. Qed.

Lemma rune_width_4 a b c d s t :
  rune_width (String a (String b (String c (String d s)))) = 4%nat ->
  rune_width (String a (String b (String c (String d t)))) = 4%nat.
Proof. unfold rune_width; cbv zeta. repeat (case_match; [done || discriminate|]). done. Qed.

(** A byte from 128 on is neither a quote, nor a backslash, nor a control. *)
Lemma high_byte a : 128 <= byte_of a ->
  Ascii.eqb a dquote = false /\ Ascii.eqb a backslash = false /\ (byte_of a <? 32) = false /\ (byte_of a <? 128) = false.
Proof.
  intros Ha. rewrite !Z.ltb_ge. split_and!; try lia; apply Ascii.eqb_neq; intros ->; revert Ha; vm_compute; congruence.
Qed.

Lemma read_chars_high a s1 : 128 <= byte_of a ->
  read_chars (String a s1) =
  match rune_width (String a s1), s1 with
  | 2%nat, String b s2 => prepend (String a (String b EmptyString)) (read_chars s2)
  | 3%nat, String b (String c s3) => prepend (String a (String b (String c EmptyString))) (read_chars s3)
  | 4%nat, String b (String c (String d s4)) =>
      prepend (String a (String b (String c (String d EmptyString)))) (read_chars s4)
  | _, _ => prepend replacement (read_chars s1)
  end.
Proof. intros (E1 & E2 & E3 & E4)%high_byte. cbn [read_chars]. by rewrite E1, E2, E3, E4. Qed.

(** The three bytes of a rune. *)
Lemma rune_value_3 a b c s :
  rune_width (String a (String b (String c s))) = 3%nat ->
  rune_value (String a (String b (String c s))) =
    (byte_of a mod 2 ^ 4 * 64 + byte_of b mod 2 ^ 6) * 64 + byte_of c mod 2 ^ 6.
Proof. intros E. unfold rune_value. rewrite E. reflexivity. Qed.

Lemma separator_bytes a b c s r :
  rune_width (String a (String b (String c s))) = 3%nat ->
  224 <= byte_of a <= 239 -> 128 <= byte_of b <= 191 -> 128 <= byte_of c <= 191 ->
  r = 8232 \/ r = 8233 -> rune_value (String a (String b (String c s))) = r ->
  encode_rune r = String a (String b (String c EmptyString)).
Proof.
  intros Hw Ha Hb Hc Hr. rewrite rune_value_3 by done. change (2 ^ 4) with 16. change (2 ^ 6) with 64. intros E.
  assert (byte_of a = 226 /\ byte_of b = 128 /\ byte_of c = r - 8064) as (Ea & Eb & Ec)
    by (Z.to_euclidean_division_equations; lia).
  rewrite <- (byte_char_byte a), <- (byte_char_byte b), <- (byte_char_byte c), Ea, Eb, Ec.
  by destruct Hr as [-> | ->].
Qed.

Lemma prepend_some head s rest : prepend head (Some (s, rest)) = Some (head +:+ s, rest).
Proof. done. Qed.

(** The text between quotes is read back. *)
Lemma read_quoted s tail :
  valid_text s = true -> read_chars (quote_from s +:+ String dquote tail) = Some (s, tail).
Proof.
  assert (Hn : (String.length s <= String.length s)%nat) by lia. revert Hn.
  generalize (String.length s) at 2 as n. intros n. revert s. induction n as [|n IH]; intros s Hn Hv.
  { destruct s; [reflexivity|]. cbn in Hn. lia. }
  destruct s as [|a s1]; [reflexivity|]. cbn [String.length] in Hn. cbn [valid_text quote_from] in *.
  destruct (Z.ltb_spec (byte_of a) 128) as [Ha|Ha].
  { rewrite string_app_assoc, read_json_char, IH by (done || lia). done. }
  destruct (rune_width_cases a s1) as [(E & Hb & b & s2 & -> & H2)|[(E & Hb & b & c & s3 & -> & H2 & H3)|
    [(E & Hb & b & c & d & s4 & -> & H2 & H3 & H4)|E]]]; rewrite E in *; [| | |by destruct s1].
  - cbn [String.length] in Hn. rewrite !string_app_cons, read_chars_high by done.
    rewrite (rune_width_2 _ _ _ _ E). cbv beta iota. rewrite IH by (done || lia). done.
  - cbn [String.length] in Hn. rewrite string_app_assoc.
    repeat case_bool_decide; [change (String backslash "u2028" +:+ ?t) with (String backslash ("u2028" +:+ t))
      |change (String backslash "u2029" +:+ ?t) with (String backslash ("u2029" +:+ t))|].
    + change (read_chars (String backslash ("u2028" +:+ ?t))) with (prepend (encode_rune 8232) (read_chars t)).
      rewrite IH by (done || lia). rewrite (separator_bytes a b c s3 8232) by (done || lia). done.
    + change (read_chars (String backslash ("u2029" +:+ ?t))) with (prepend (encode_rune 8233) (read_chars t)).
      rewrite IH by (done || lia). rewrite (separator_bytes a b c s3 8233) by (done || lia). done.
    + rewrite !string_app_cons, read_chars_high by done. rewrite (rune_width_3 _ _ _ _ _ E). cbv beta iota. change (EmptyString +:+ ?x) with x. rewrite IH by (done || lia). done.
  - cbn [String.length] in Hn. rewrite !string_app_cons, read_chars_high by done.
    rewrite (rune_width_4 _ _ _ _ _ _ E). cbv beta iota. rewrite IH by (done || lia). done.
Qed.

(** ** Numbers *)

(** What follows a value of JSON does not continue a number. *)
Definition ends_number (s : string) : bool :=
  match s with
  | EmptyString => true
  | String c _ => negb (is_digit c || Ascii.eqb c "." || Ascii.eqb c "e" || Ascii.eqb c "E")
  end.

Lemma span_digits_app s rest l t :
  ends_number rest = true -> span_digits s = (l, t) -> span_digits (s +:+ rest) = (l, t +:+ rest).
Proof.
  intros He. revert l t. induction s as [|c s IH]; intros l t; cbn [span_digits].
  - intros [= <- <-]. change ("" +:+ rest) with rest. destruct rest as [|c rest]; [done|]. cbn in He |- *.
    unfold is_digit in He. by destruct (digit_value c).
  - rewrite string_app_cons. cbn [span_digits]. destruct (digit_value c).
    + destruct (span_digits s) as [l' t'] eqn:E. intros [= <- <-]. by rewrite (IH _ _ eq_refl).
    + by intros [= <- <-].
Qed.

Lemma read_sign_app plus s rest : s <> "" -> read_sign plus (s +:+ rest) = ((read_sign plus s).1, (read_sign plus s).2 +:+ rest).
Proof. destruct s as [|c s]; [done|]. intros _. rewrite string_app_cons. cbn [read_sign]. by repeat case_match. Qed.

Lemma span_digits_length s l t : span_digits s = (l, t) -> String.length s = (length l + String.length t)%nat.
Proof.
  revert l t. induction s as [|c s IH]; intros l t; cbn [span_digits]; [by intros [= <- <-]|].
  destruct (digit_value c); [|by intros [= <- <-]]. destruct (span_digits s) as [l' t'] eqn:E.
  intros [= <- <-]. cbn. by rewrite (IH _ _ eq_refl).
Qed.

Lemma read_point_app s rest l t :
  ends_number rest = true -> read_point s = Some (l, t) -> read_point (s +:+ rest) = Some (l, t +:+ rest).
Proof.
  intros He. destruct s as [|c s]; cbn [read_point].
  - intros [= <- <-]. change ("" +:+ rest) with rest. destruct rest as [|c rest]; [done|].
    cbn in He |- *. apply negb_true_iff in He. rewrite !orb_false_iff in He. destruct He as [[[_ ->] _] _]. done.
  - rewrite string_app_cons. cbn [read_point]. destruct (Ascii.eqb c "."); [|by intros [= <- <-]].
    destruct (span_digits s) as [l' t'] eqn:E. rewrite (span_digits_app _ _ _ _ He E).
    destruct l'; [done|]. by intros [= <- <-].
Qed.

Lemma read_exponent_app s rest e t :
  ends_number rest = true -> read_exponent s = Some (e, t) -> read_exponent (s +:+ rest) = Some (e, t +:+ rest).
Proof.
  intros He. destruct s as [|c s]; cbn [read_exponent].
  - intros [= <- <-]. change ("" +:+ rest) with rest. destruct rest as [|c rest]; [done|].
    cbn in He |- *. apply negb_true_iff in He. rewrite !orb_false_iff in He. destruct He as [[[_ _] ->] ->]. done.
  - rewrite string_app_cons. cbn [read_exponent]. destruct (_ || _); [|by intros [= <- <-]].
    destruct s as [|c' s]; [done|]. rewrite read_sign_app by done.
    destruct (read_sign true (String c' s)) as [neg s'] eqn:Es. cbn [fst snd].
    destruct (span_digits s') as [l' t'] eqn:E. rewrite (span_digits_app _ _ _ _ He E).
    destruct l'; [done|]. by intros [= <- <-].
Qed.

Lemma read_number_app s rest x t :
  ends_number rest = true -> read_number s = Some (x, t) -> read_number (s +:+ rest) = Some (x, t +:+ rest).
Proof.
  intros He. unfold read_number. destruct s as [|c s]; [done|]. rewrite read_sign_app by done.
  destruct (read_sign false (String c s)) as [neg s'] eqn:Es. cbn [fst snd].
  destruct (span_digits s') as [l t'] eqn:E. rewrite (span_digits_app _ _ _ _ He E).
  assert (H : forall whole, ('(fraction, s1) ← read_point t'; '(e, s2) ← read_exponent s1;
      Some (mkDecimal neg (digits_value (whole ++ fraction)) (e - Z.of_nat (length fraction)), s2)) = Some (x, t) ->
    ('(fraction, s1) ← read_point (t' +:+ rest); '(e, s2) ← read_exponent s1;
      Some (mkDecimal neg (digits_value (whole ++ fraction)) (e - Z.of_nat (length fraction)), s2)) = Some (x, t +:+ rest)).
  { intros whole. destruct (read_point t') as [[fraction s1]|] eqn:Ep; [|done].
    rewrite (read_point_app _ _ _ _ He Ep). cbn [mbind option_bind].
    destruct (read_exponent s1) as [[e s2]|] eqn:Ee; [|done].
    rewrite (read_exponent_app _ _ _ _ He Ee). cbn [mbind option_bind]. by intros [= <- <-]. }
  destruct l as [|[] [|]]; try done; apply H.
Qed.

(** A literal of JSON: a number and nothing after it. *)
Definition is_literal (s : string) : bool :=
  match read_number s with Some (_, "") => true | _ => false end.

Lemma substring_app s rest : String.substring 0 (String.length s) (s +:+ rest) = s.
Proof.
  induction s as [|c s IH]; [by destruct rest|]. rewrite string_app_cons. cbn. by rewrite IH.
Qed.

Lemma read_literal_app s rest :
  ends_number rest = true -> is_literal s = true -> read_literal (s +:+ rest) = Some (s, rest).
Proof.
  intros He. unfold is_literal, read_literal. destruct (read_number s) as [[x t]|] eqn:E; [|done].
  destruct t; [|done]. intros _. rewrite (read_number_app _ _ _ _ He E). cbn [mbind option_bind].
  change ("" +:+ rest) with rest. rewrite string_length_app.
  replace (String.length s + String.length rest - String.length rest)%nat with (String.length s) by lia.
  by rewrite substring_app.
Qed.

(** A number starts with a digit or a minus, so it is no other value. *)
Lemma literal_head s : is_literal s = true ->
  exists c t, s = String c t /\ (is_digit c = true \/ c = "-"%char).
Proof.
  unfold is_literal, read_number. destruct s as [|c s]; [done|]. intros H. exists c, s. split; [done|].
  revert H. cbn [read_sign]. destruct (Ascii.eqb_spec c "-"); [by right|].
  cbn [span_digits andb]. unfold is_digit. destruct (digit_value c); [by left|done].
Qed.

Lemma literal_char c : is_digit c = true \/ c = "-"%char ->
  is_json_space c = false /\ Ascii.eqb c "{" = false /\ Ascii.eqb c "[" = false /\ Ascii.eqb c dquote = false /\
  Ascii.eqb c "n" = false /\ Ascii.eqb c "t" = false /\ Ascii.eqb c "f" = false.
Proof.
  intros Hc. assert (Hd : (is_digit c || Ascii.eqb c "-") = true)
    by (destruct Hc as [-> | ->]; rewrite ?orb_true_r; reflexivity). clear Hc.
  pose proof (ascii_forall (fun c => implb (is_digit c || Ascii.eqb c "-")
    (negb (is_json_space c) && negb (Ascii.eqb c "{") && negb (Ascii.eqb c "[") && negb (Ascii.eqb c dquote) &&
     negb (Ascii.eqb c "n") && negb (Ascii.eqb c "t") && negb (Ascii.eqb c "f"))) eq_refl c) as H.
  cbn beta in H. rewrite Hd in H. cbn [implb] in H.
  repeat (apply andb_prop in H as [H ?]). repeat match goal with H : negb _ = true |- _ => apply negb_true_iff in H end. done.
Qed.

(** ** Values *)

(** What [json.Marshal] produces: valid strings and literals. *)
Fixpoint well_formed (v : jvalue) : bool :=
  match v with
  | VNull | VBool _ => true
  | VNum l => is_literal l
  | VStr s => valid_text s
  | VArr l => forallb well_formed l
  | VObj members => forallb (fun m => valid_text m.1 && well_formed m.2) members
  end.

(** A rendered value starts with a character that is no space and closes
    nothing. *)
Lemma render_head v : well_formed v = true ->
  exists c t, render v = String c t /\ is_json_space c = false /\ Ascii.eqb c "]" = false.
Proof.
  destruct v as [|b|l|s|l|members]; intros Hv; [| | | |by eexists _, _|by eexists _, _].
  - by eexists _, _. - destruct b; by eexists _, _.
  - destruct (literal_head l Hv) as (c & t & -> & Hc). exists c, t. split; [done|].
    split; [by apply literal_char|]. destruct Hc as [Hc | ->]; [|done].
    destruct (Ascii.eqb_spec c "]"); [by subst|done].
  - by eexists _, _.
Qed.

Lemma skip_space_render v rest : well_formed v = true -> skip_space (render v +:+ rest) = render v +:+ rest.
Proof.
  intros (c & t & -> & Hs & _)%render_head. rewrite string_app_cons. cbn [skip_space]. by rewrite Hs.
Qed.

Lemma Join_cons x y l sep : Join (x :: y :: l) sep = x +:+ (sep +:+ Join (y :: l) sep).
Proof. done. Qed.

Definition reads_back (v : jvalue) : Prop :=
  forall n rest, (2 * String.length (render v) <= n + 1)%nat -> ends_number rest = true ->
    read_value n (render v +:+ rest) = Some (v, rest).

Lemma read_value_array n c text rest' :
  is_json_space c = false -> Ascii.eqb c "]" = false ->
  read_value (S n) (String "[" (String c text +:+ rest')) =
  '(l, rest) ← read_elements n (String c text +:+ rest'); Some (VArr l, rest).
Proof.
  intros Hs Hc. rewrite string_app_cons. cbn [read_value].
  change (skip_space (String "[" ?t)) with (String "[" t). cbv beta iota.
  change (Ascii.eqb "[" "{") with false. change (Ascii.eqb "[" "[") with true. cbv beta iota.
  cbn [skip_space]. rewrite Hs. cbv beta iota. by rewrite Hc.
Qed.

Lemma read_elements_render l n rest :
  l <> [] -> Forall (fun v => well_formed v = true /\ reads_back v) l ->
  (2 * String.length (Join (map render l) ",") <= n)%nat ->
  read_elements n (Join (map render l) "," +:+ String "]" rest) = Some (l, rest).
Proof.
  intros Hne Hl. revert n. induction Hl as [|v l [Hw Hv] Hl IH]; intros n Hn; [done|].
  destruct l as [|v' l].
  - cbn [map] in *. change (Join [render v] ",") with (render v) in *.
    destruct (render_head v Hw) as (c & t & Et & _). destruct n as [|n]; [rewrite Et in Hn; cbn in Hn; lia|].
    cbn [read_elements]. rewrite Hv by (done || lia). reflexivity.
  - cbn [map] in *. rewrite Join_cons in *. rewrite !string_length_app in Hn. cbn [String.length] in Hn.
    destruct n as [|n]; [lia|]. cbn [read_elements]. rewrite string_app_assoc, Hv by (done || lia).
    cbn [mbind option_bind]. change (skip_space (("," +:+ ?t) +:+ ?r)) with (String "," (t +:+ r)). cbv beta iota.
    change (Ascii.eqb "," "]") with false. change (Ascii.eqb "," ",") with true. cbv beta iota.
    rewrite IH by (done || lia). reflexivity.
Qed.

Definition render_member (m : string * jvalue) : string := quote_json m.1 +:+ (":" +:+ render m.2).

Lemma read_member_value m n tail :
  valid_text m.1 = true -> reads_back m.2 -> (2 * String.length (render m.2) <= n + 1)%nat -> ends_number tail = true ->
  read_members (S n) (render_member m +:+ tail) =
  match skip_space tail with
  | String c rest =>
      if Ascii.eqb c "}" then Some ([m], rest)
      else if Ascii.eqb c "," then '(l, rest) ← read_members n rest; Some (m :: l, rest) else None
  | EmptyString => None
  end.
Proof.
  intros Hname Hv Hn Ht. destruct m as [name v]. cbn [fst snd] in *. unfold render_member, quote_json. cbn [fst snd].
  rewrite !string_app_assoc. rewrite string_app_cons. cbn [read_members].
  change (skip_space (String dquote ?t)) with (String dquote t). cbv beta iota.
  change (Ascii.eqb dquote dquote) with true. cbv beta iota. rewrite !string_app_assoc.
  rewrite string_app_cons. change ("" +:+ ?t) with t. rewrite read_quoted by done. cbn [mbind option_bind].
  change (skip_space (":" +:+ ?t)) with (String ":" t). cbv beta iota.
  change (Ascii.eqb ":" ":") with true. cbv beta iota. rewrite Hv by done. reflexivity.
Qed.

Lemma read_members_render l n rest :
  l <> [] -> Forall (fun m => valid_text m.1 = true /\ reads_back m.2) l ->
  (2 * String.length (Join (map render_member l) ",") <= n)%nat ->
  read_members n (Join (map render_member l) "," +:+ String "}" rest) = Some (l, rest).
Proof.
  intros Hne Hl. revert n. induction Hl as [|m l [Hname Hv] Hl IH]; intros n Hn; [done|].
  assert (Hm : (String.length (render m.2) < String.length (render_member m))%nat).
  { unfold render_member, quote_json. cbn [String.length]. rewrite !string_length_app. cbn. lia. }
  destruct l as [|m' l].
  - cbn [map] in *. change (Join [render_member m] ",") with (render_member m) in *.
    destruct n as [|n]; [lia|]. rewrite read_member_value by (done || lia). reflexivity.
  - cbn [map] in *. rewrite Join_cons in *. rewrite !string_length_app in Hn. cbn [String.length] in Hn.
    destruct n as [|n]; [lia|]. rewrite string_app_assoc, read_member_value by (done || lia).
    change (skip_space (("," +:+ ?t) +:+ ?r)) with (String "," (t +:+ r)). cbv beta iota.
    change (Ascii.eqb "," "}") with false. change (Ascii.eqb "," ",") with true. cbv beta iota.
    rewrite IH by (done || lia). reflexivity.
Qed.

Lemma render_VObj members : render (VObj members) = "{" +:+ (Join (map render_member members) "," +:+ "}").
Proof. done. Qed.

Lemma read_value_render v : well_formed v = true -> reads_back v.
Proof.
  induction v as [|b|l|s|l IH|members IH] using jvalue_nested_ind; intros Hw n rest Hn He.
  - destruct n as [|n]; [cbn in Hn; lia|reflexivity].
  - destruct n as [|n]; [destruct b; cbn in Hn; lia|]. by destruct b.
  - cbn [render] in *. destruct (literal_head l Hw) as (c & t & Et & Hc). destruct n as [|n]; [rewrite Et in Hn; cbn in Hn; lia|].
    pose proof (literal_char c Hc) as (E1 & E2 & E3 & E4 & E5 & E6 & E7). pose proof (read_literal_app l rest He Hw) as Hl.
    rewrite Et in Hl |- *. rewrite string_app_cons in Hl |- *. cbn [read_value skip_space]. rewrite E1, E2, E3, E4, E5, E6, E7.
    by rewrite Hl.
  - cbn [render] in *. unfold quote_json in *. destruct n as [|n]; [cbn in Hn; lia|]. rewrite string_app_cons.
    cbn [read_value]. change (skip_space (String dquote ?t)) with (String dquote t). cbv beta iota.
    change (Ascii.eqb dquote "{") with false. change (Ascii.eqb dquote "[") with false.
    change (Ascii.eqb dquote dquote) with true. cbv beta iota. rewrite string_app_assoc, string_app_cons.
    change ("" +:+ ?t) with t. rewrite read_quoted by exact Hw. reflexivity.
  - cbn [well_formed] in Hw. rewrite forallb_forall in Hw.
    assert (Hl : Forall (fun v => well_formed v = true /\ reads_back v) l).
    { rewrite Forall_forall in IH |- *. intros v Hv%list_elem_of_In. split; [by apply Hw|].
      apply IH; [by apply list_elem_of_In|by apply Hw]. }
    clear IH Hw. destruct l as [|v l]; [change (2 * 2 <= n + 1)%nat in Hn; destruct n as [|n]; [lia|reflexivity]|].
    set (items := v :: l) in *. cbn [render] in *. change ("[" +:+ ?t) with (String "[" t) in *.
    cbn [String.length] in Hn. rewrite string_length_app in Hn. cbn [String.length] in Hn.
    destruct n as [|n]; [lia|]. rewrite string_app_cons, string_app_assoc. change ("]" +:+ rest) with (String "]" rest).
    pose proof (read_elements_render items n rest) as Hr.
    assert (Hhead : exists c t, Join (map render items) "," = String c t /\ is_json_space c = false /\ Ascii.eqb c "]" = false).
    { unfold items in *. apply Forall_cons in Hl as [[Hw _] _]. destruct (render_head v Hw) as (c & t & Et & Hc).
      destruct l; cbn [map]; [exists c, t; by split|]. rewrite Join_cons, Et. eexists c, _. by split. }
    destruct Hhead as (c & t & Et & Hs & Hc). rewrite Et in *. rewrite read_value_array by done.
    rewrite Hr by (done || lia). reflexivity.
  - cbn [well_formed] in Hw. rewrite forallb_forall in Hw.
    assert (Hl : Forall (fun m => valid_text m.1 = true /\ reads_back m.2) members).
    { rewrite Forall_forall in IH |- *. intros m Hm. pose proof (Hw m (proj1 (list_elem_of_In _ _) Hm)) as Hb.
      apply andb_prop in Hb as [Hb1 Hb2]. split; [done|]. by apply IH. }
    clear IH Hw. destruct members as [|m l]; [change (2 * 2 <= n + 1)%nat in Hn; destruct n as [|n]; [lia|reflexivity]|].
    set (items := m :: l) in *. rewrite render_VObj in *. change ("{" +:+ ?t) with (String "{" t) in *.
    cbn [String.length] in Hn. rewrite string_length_app in Hn. cbn [String.length] in Hn.
    destruct n as [|n]; [lia|]. rewrite string_app_cons, string_app_assoc. change ("}" +:+ rest) with (String "}" rest).
    pose proof (read_members_render items n rest) as Hr.
    assert (Hhead : exists t, Join (map render_member items) "," = String dquote t).
    { unfold items. destruct l; cbn [map]; [by eexists|]. rewrite Join_cons. by eexists. }
    destruct Hhead as (t & Et). rewrite Et in *. cbn [read_value].
    change (skip_space (String "{" ?t)) with (String "{" t). cbv beta iota. change (Ascii.eqb "{" "{") with true. cbv beta iota.
    rewrite string_app_cons in *. change (skip_space (String dquote ?t)) with (String dquote t). cbv beta iota.
    change (Ascii.eqb dquote "}") with false. cbv beta iota. rewrite Hr by (done || lia). reflexivity.
Qed.

(** A rendered value parses to itself. *)
Lemma parse_render v : well_formed v = true -> depth v <= 10000 -> parse (render v) = Some v.
Proof.
  intros Hw Hd. unfold parse. pose proof (read_value_render v Hw (2 * String.length (render v) + 2)%nat "" ltac:(lia) eq_refl) as H.
  rewrite string_app_nil in H. rewrite H. cbn [mbind option_bind]. by rewrite (proj2 (Z.leb_le _ _) Hd).
Qed.
