(* ===== verification/JsonCodec.v ===== *)
(** * Go types as JSON

    [json.Marshal] and [json.Unmarshal] of the types the domain packages store
    as text: for each type its writer, its reader, what [omitempty] leaves
    out, and the values that survive the round trip.  A codec is [Lawful] when
    they do; structs, slices, maps and pointers inherit it.

    Members of an object are looked up by exact name, then without (ASCII)
    case; an unknown member is ignored; [null] leaves a scalar or struct and
    clears a slice, map or pointer.  An empty slice is written [[]], an empty
    map [{}]. *)

From Stdlib Require Import Ascii.
From stdpp Require Import pretty.
From S2P Require Export GoJson Domain.
#[local] Open Scope Z_scope.

(** ** Codecs *)

Record codec (A : Type) := Codec {
  c_zero : A;
  c_enc : A -> option jvalue;
  c_dec : jvalue -> A -> option A;
  c_omit : A -> bool;
  c_ok : A -> Prop;
  c_depth : Z;
}.
Arguments Codec {A} _ _ _ _ _ _.
Arguments c_zero {A} _.
Arguments c_enc {A} _ _.
Arguments c_dec {A} _ _ _.
Arguments c_omit {A} _ _.
Arguments c_ok {A} _ _.
Arguments c_depth {A} _.

Class Lawful {A} (c : codec A) : Prop := {
  c_reads a : c_ok c a ->
    exists v, c_enc c a = Some v /\ well_formed v = true /\ depth v <= c_depth c /\ c_dec c v (c_zero c) = Some a;
  c_omits a : c_ok c a -> c_omit c a = true -> a = c_zero c;
  c_depth_nonneg : 0 <= c_depth c;
}.

Definition Marshal {A} (c : codec A) (a : A) : option string := render <$> c_enc c a.
Definition Unmarshal {A} (c : codec A) (text : string) : option A := v ← parse text; c_dec c v (c_zero c).

(** ** Scalars *)

Definition json_int : codec Z := {|
  c_zero := 0;
  c_enc z := Some (VNum (Itoa z));
  c_dec v prev := match v with VNum l => ParseInt l | VNull => Some prev | _ => None end;
  c_omit z := z =? 0;
  c_ok := in_int64;
  c_depth := 0;
|}.

(** The text of the number is read as the same number. *)
Definition float_reads_back (f : float64) : bool :=
  match f with
  | S754_zero true => false
  | _ => match float_text f with Some t => is_literal t && bool_decide (literal_float t = Some f) | None => false end
  end.

Definition json_float : codec float64 := {|
  c_zero := f_zero;
  c_enc f := VNum <$> float_text f;
  c_dec v prev := match v with VNum l => literal_float l | VNull => Some prev | _ => None end;
  c_omit f := f_eqb f f_zero;
  c_ok f := float_reads_back f = true;
  c_depth := 0;
|}.

Definition json_bool : codec bool := {|
  c_zero := false;
  c_enc b := Some (VBool b);
  c_dec v prev := match v with VBool b => Some b | VNull => Some prev | _ => None end;
  c_omit := negb;
  c_ok _ := True;
  c_depth := 0;
|}.

Definition json_text : codec string := {|
  c_zero := "";
  c_enc s := Some (VStr s);
  c_dec v prev := match v with VStr s => Some s | VNull => Some prev | _ => None end;
  c_omit := is_empty;
  c_ok s := valid_text s = true;
  c_depth := 0;
|}.

(** A time of the years 0 to 9999; a comma before the fraction is not
    accepted. *)
Definition time_year (t : time) : Z := let '(y, _, _) := civil (t / (24 * Hour)) in y.

Definition json_time : codec time := {|
  c_zero := zero_time;
  c_enc t := if (0 <=? time_year t) && (time_year t <=? 9999) then Some (VStr (Format_RFC3339Nano t)) else None;
  c_dec v prev := match v with
                  | VStr s => if Contains s "," then None else Parse_RFC3339 s
                  | VNull => Some prev | _ => None end;
  c_omit _ := false;
  c_ok := in_text_range;
  c_depth := 0;
|}.

(** ** Slices, maps, pointers *)

Section containers.
Context {A : Type} (c : codec A).

Definition json_slice : codec (list A) := {|
  c_zero := [];
  c_enc l := VArr <$> mapM (c_enc c) l;
  c_dec v _ := match v with VArr l => mapM (fun v => c_dec c v (c_zero c)) l | VNull => Some [] | _ => None end;
  c_omit l := match l with [] => true | _ => false end;
  c_ok := Forall (c_ok c);
  c_depth := 1 + c_depth c;
|}.

Definition decode_entry (acc : option (gmap string A)) (m : string * jvalue) : option (gmap string A) :=
  acc ← acc; x ← c_dec c m.2 (c_zero c); Some (<[m.1 := x]> acc).

Definition json_map : codec (gmap string A) := {|
  c_zero := ∅;
  c_enc m := VObj <$> mapM (fun kv => v ← c_enc c kv.2; Some (kv.1, v))
                           (slices_SortFunc (compare_id fst) (map_to_list m));
  c_dec v prev := match v with
                  | VObj members => foldl decode_entry (Some prev) members
                  | VNull => Some ∅ | _ => None end;
  c_omit m := bool_decide (m = ∅);
  c_ok m := forall k a, m !! k = Some a -> valid_text k = true /\ c_ok c a;
  c_depth := 1 + c_depth c;
|}.

Definition json_pointer : codec (option A) := {|
  c_zero := None;
  c_enc p := match p with Some a => c_enc c a | None => Some VNull end;
  c_dec v prev := match v with VNull => Some None | _ => Some <$> c_dec c v (default (c_zero c) prev) end;
  c_omit p := match p with None => true | _ => false end;
  c_ok p := match p with Some a => c_ok c a /\ c_enc c a <> Some VNull | None => True end;
  c_depth := c_depth c;
|}.
End containers.

(** ** Structs *)

Record field_of (S : Type) := Field {
  f_type : Type;
  f_codec : codec f_type;
  f_name : string;
  f_omitempty : bool;
  f_get : S -> f_type;
  f_set : f_type -> S -> S;
}.
Arguments Field {S f_type} _ _ _ _ _.
Arguments f_type {S} _.
Arguments f_codec {S} _.
Arguments f_name {S} _.
Arguments f_omitempty {S} _.
Arguments f_get {S} _ _.
Arguments f_set {S} _ _ _.

Section struct.
Context {S : Type} (z : S) (fs : list (field_of S)).

Fixpoint encode_fields (fs : list (field_of S)) (s : S) : option (list (string * jvalue)) :=
  match fs with
  | [] => Some []
  | f :: fs =>
      if f_omitempty f && c_omit (f_codec f) (f_get f s) then encode_fields fs s
      else v ← c_enc (f_codec f) (f_get f s); rest ← encode_fields fs s; Some ((f_name f, v) :: rest)
  end.

Definition field_named (name : string) : option (field_of S) :=
  match List.find (fun f => f_name f == name) fs with
  | Some f => Some f
  | None => List.find (fun f => ToLower (f_name f) == ToLower name) fs
  end.

Definition decode_member (m : string * jvalue) (s : S) : option S :=
  match field_named m.1 with
  | Some f => x ← c_dec (f_codec f) m.2 (f_get f s); Some (f_set f x s)
  | None => Some s
  end.

Definition decode_members (members : list (string * jvalue)) (s : S) : option S :=
  foldl (fun acc m => acc ← acc; decode_member m acc) (Some s) members.

Definition json_struct : codec S := {|
  c_zero := z;
  c_enc s := VObj <$> encode_fields fs s;
  c_dec v prev := match v with VObj members => decode_members members prev | VNull => Some prev | _ => None end;
  c_omit _ := false;
  c_ok s := Forall (fun f => c_ok (f_codec f) (f_get f s)) fs;
  c_depth := 1 + foldr Z.max 0 ((fun f => c_depth (f_codec f)) <$> fs);
|}.
End struct.

(** ** Integers *)

Lemma digits_value_snoc l d : digits_value (l ++ [d]) = digits_value l * 10 + d.
Proof. unfold digits_value. by rewrite fold_left_app. Qed.

Lemma pretty_char_digit n : (n < 10)%N -> digit_value (pretty_N_char n) = Some (Z.of_N n).
Proof.
  intros Hn. rewrite <- (digit_value_digit (Z.of_N n)) by lia. unfold digit. by rewrite N2Z.id.
Qed.

(** The digits of a number in front of [s]. *)
Lemma span_pretty n s l t :
  span_digits s = (l, t) ->
  exists l', span_digits (pretty_N_go n s) = (l' ++ l, t) /\ digits_value l' = Z.of_N n /\
    match l' with [] => n = 0%N | d :: _ => d <> 0 end.
Proof.
  revert s l. induction (N.lt_wf_0 n) as [n _ IH]. intros s l Hs. destruct (decide (n = 0)%N) as [->|Hne].
  { exists []. by rewrite pretty_N_go_0. }
  rewrite pretty_N_go_step by lia.
  destruct (IH (n `div` 10)%N ltac:(apply N.div_lt; lia) (String (pretty_N_char (n `mod` 10)) s) (Z.of_N (n `mod` 10) :: l))
    as (l' & E & Hv & Hd).
  { cbn [span_digits]. rewrite pretty_char_digit by (apply N.mod_lt; lia). by rewrite Hs. }
  exists (l' ++ [Z.of_N (n `mod` 10)]). rewrite E, <- app_assoc. split; [done|]. rewrite digits_value_snoc, Hv.
  pose proof (N.div_mod n 10 ltac:(lia)). split; [lia|].
  destruct l' as [|d l']; [|done]. cbn. rewrite Hd in *. lia.
Qed.

(** The literal of an integer, after an optional minus. *)
Lemma span_pretty_N n :
  exists l, span_digits (pretty n) = (l, "") /\ digits_value l = Z.of_N n /\
    match l with [] | 0 :: _ :: _ => False | _ => True end.
Proof.
  unfold pretty, pretty_N. destruct (decide (n = 0)%N) as [->|Hne].
  { exists [0]. by repeat split. }
  destruct (span_pretty n "" [] "" eq_refl) as (l' & E & Hv & Hd). exists l'. rewrite app_nil_r in E.
  split; [done|]. split; [done|]. destruct l' as [|d l']; [done|]. by destruct d, l'.
Qed.

Lemma Itoa_nonneg z : 0 <= z -> Itoa z = pretty (Z.to_N z).
Proof. by destruct z. Qed.
Lemma Itoa_neg z : z < 0 -> Itoa z = String "-" (pretty (Z.to_N (- z))).
Proof. by destruct z. Qed.

(** An unsigned literal starts with a digit. *)
Lemma unsigned_head s l t plus : span_digits s = (l, t) -> l <> [] -> read_sign plus s = (false, s).
Proof.
  destruct s as [|c s]; [by intros [= <- <-]|]. cbn [span_digits read_sign]. intros E Hl.
  assert (Hc : is_digit c = true) by (unfold is_digit; destruct (digit_value c); [done|by injection E as <- <-]).
  pose proof (ascii_forall (fun c => implb (is_digit c) (negb (Ascii.eqb c "-") && negb (Ascii.eqb c "+"))) eq_refl c) as H.
  cbn beta in H. rewrite Hc in H. cbn [implb] in H. apply andb_prop in H as [H1 H2]. apply negb_true_iff in H1, H2.
  rewrite H1, H2. by rewrite andb_false_r.
Qed.

Lemma read_number_digits neg s l :
  span_digits s = (l, "") -> match l with [] | 0 :: _ :: _ => False | _ => True end ->
  read_sign false (if neg : bool then String "-" s else s) = (neg, s) /\
  is_literal (if neg then String "-" s else s) = true.
Proof.
  intros E Hl. assert (Hs : read_sign false (if neg then String "-" s else s) = (neg, s)).
  { destruct neg; [done|]. eapply unsigned_head; [done|]. by destruct l. }
  split; [done|]. unfold is_literal, read_number. rewrite Hs, E.
  destruct l as [|[] [|]]; by try destruct Hl.
Qed.

Lemma Itoa_literal z : is_literal (Itoa z) = true.
Proof.
  destruct (Z.lt_ge_cases z 0) as [Hz|Hz].
  - destruct (span_pretty_N (Z.to_N (- z))) as (l & E & _ & Hl). rewrite Itoa_neg by done.
    apply (read_number_digits true _ _ E Hl).
  - destruct (span_pretty_N (Z.to_N z)) as (l & E & _ & Hl). rewrite Itoa_nonneg by done.
    apply (read_number_digits false _ _ E Hl).
Qed.

Lemma ParseInt_Itoa z : in_int64 z -> ParseInt (Itoa z) = Some z.
Proof.
  intros [H1 H2]. unfold ParseInt. destruct (Z.lt_ge_cases z 0) as [Hz|Hz].
  - destruct (span_pretty_N (Z.to_N (- z))) as (l & E & Hv & Hl). rewrite Itoa_neg by done.
    change (read_sign true (String "-" ?s)) with (true, s). cbv beta iota. rewrite E.
    destruct l as [|d l]; [done|]. rewrite Hv, Z2N.id by lia. rewrite Z.opp_involutive.
    by rewrite (proj2 (Z.leb_le _ _) H1), (proj2 (Z.ltb_lt _ _) H2).
  - destruct (span_pretty_N (Z.to_N z)) as (l & E & Hv & Hl). rewrite Itoa_nonneg by done.
    rewrite (unsigned_head _ _ _ true E) by (by destruct l). rewrite E.
    destruct l as [|d l]; [done|]. rewrite Hv, Z2N.id by lia.
    by rewrite (proj2 (Z.leb_le _ _) H1), (proj2 (Z.ltb_lt _ _) H2).
Qed.

#[export] Instance lawful_int : Lawful json_int.
Proof.
  split; [|by intros a _ ->%Z.eqb_eq|done]. intros z Hz. eexists. split; [reflexivity|].
  split; [apply Itoa_literal|]. split; [done|]. by apply ParseInt_Itoa.
Qed.

#[export] Instance lawful_float : Lawful json_float.
Proof.
  split; [| |done].
  - intros f Hf. cbn in *. unfold float_reads_back in Hf. destruct (float_text f) as [t|]; [|by repeat case_match].
    exists (VNum t). assert (H : is_literal t && bool_decide (literal_float t = Some f) = true) by (by repeat case_match).
    apply andb_prop in H as [H1 H2]. split; [done|]. split; [done|]. split; [done|]. by apply bool_decide_eq_true in H2.
  - intros f. cbn. intros Hf Hz. destruct f as [[]|[]| |[] ? ?]; done.
Qed.

#[export] Instance lawful_bool : Lawful json_bool.
Proof. split; [by eexists|by intros []|done]. Qed.

#[export] Instance lawful_text : Lawful json_text.
Proof. split; [by eexists|by intros []|done]. Qed.

(** ** Times *)

(** Every character satisfies [p]. *)
Fixpoint all_chars (p : ascii -> bool) (s : string) : bool :=
  match s with EmptyString => true | String c s => p c && all_chars p s end.

Lemma all_chars_app p s t : all_chars p (s +:+ t) = all_chars p s && all_chars p t.
Proof. induction s as [|c s IH]; [done|]. rewrite string_app_cons. cbn. by rewrite IH, andb_assoc. Qed.

Lemma all_chars_digits p w z s :
  (forall d, 0 <= d < 10 -> p (digit d) = true) -> all_chars p (digits w z s) = all_chars p s.
Proof.
  intros Hp. revert z s. induction w as [|w IH]; intros z s; [done|]. cbn [digits]. rewrite IH. cbn.
  by rewrite Hp by (apply Z.mod_pos_bound; lia).
Qed.

Lemma all_chars_strip p s : all_chars p s = true -> all_chars p (strip_zeros s) = true.
Proof.
  induction s as [|c s IH]; [done|]. cbn [all_chars strip_zeros]. intros [Hc Hs]%andb_prop. specialize (IH Hs).
  destruct (strip_zeros s); [destruct (Ascii.eqb c "0")|]; cbn [all_chars] in *; rewrite ?Hc; done.
Qed.

Lemma digit_cases (p : ascii -> bool) :
  forallb (fun x => p (digit x)) [0;1;2;3;4;5;6;7;8;9] = true -> forall d, 0 <= d < 10 -> p (digit d) = true.
Proof. intros H d Hd. rewrite forallb_forall in H. apply H. simpl. lia. Qed.

(** A plain character: ASCII, and no comma. *)
Definition plain (c : ascii) : bool := (byte_of c <? 128) && negb (Ascii.eqb c ",").

Lemma plain_valid s : all_chars plain s = true -> valid_text s = true.
Proof.
  induction s as [|c s IH]; [done|]. cbn [all_chars valid_text]. intros [Hc Hs]%andb_prop.
  apply andb_prop in Hc as [-> _]. by apply IH.
Qed.

Lemma plain_no_comma s : all_chars plain s = true -> Contains s "," = false.
Proof.
  induction s as [|c s IH]; [done|]. cbn [all_chars Contains]. intros [Hc Hs]%andb_prop.
  apply andb_prop in Hc as [_ Hc]. apply negb_true_iff, Ascii.eqb_neq in Hc. rewrite (IH Hs).
  rewrite orb_false_r. unfold HasPrefix, String.prefix. destruct (ascii_dec _ _); [congruence|done].
Qed.

Lemma time_text_plain t : in_text_range t -> all_chars plain (Format_RFC3339Nano t) = true.
Proof.
  intros Ht. fold (time_text t). rewrite time_text_eq by done. unfold text_upto_second.
  destruct (civil _) as [[y m] d]. assert (Hp : forall d, 0 <= d < 10 -> plain (digit d) = true) by (by apply digit_cases).
  repeat (rewrite all_chars_digits by done; cbn [all_chars]; change (plain ?c) with true; cbn [andb]).
  rewrite all_chars_app. assert (Hf : all_chars plain (format_fraction t) = true); [|by rewrite Hf].
  rewrite format_fraction_eq. pose proof (all_chars_strip plain (digits 9 (t mod Second) "")) as Hs.
  rewrite all_chars_digits in Hs by done. specialize (Hs eq_refl). by destruct (strip_zeros _).
Qed.

Lemma span_all_digits s rest :
  all_chars is_digit s = true -> (span_digits (s +:+ String "Z" rest)).2 = String "Z" rest.
Proof.
  induction s as [|c s IH]; [done|]. rewrite string_app_cons. cbn [all_chars span_digits]. unfold is_digit at 1.
  intros [Hc Hs]%andb_prop. specialize (IH Hs). destruct (digit_value c); [|done]. by destruct (span_digits _).
Qed.

Lemma read_seconds_fraction_text t : read_seconds_fraction (format_fraction t +:+ "Z") = (t mod Second, "Z").
Proof.
  pose proof (read_fraction_text t) as H. rewrite format_fraction_eq in *.
  assert (Hd : all_chars is_digit (strip_zeros (digits 9 (t mod Second) "")) = true).
  { apply all_chars_strip. by rewrite all_chars_digits by (by apply digit_cases). }
  destruct (strip_zeros (digits 9 (t mod Second) "")) as [|c rest]; [exact H|].
  change (("." +:+ String c rest) +:+ "Z") with (String "." (String c (rest +:+ "Z"))) in *.
  change (read_char "." (String "." ?s)) with (Some s) in H. unfold read_seconds_fraction.
  pose proof (span_all_digits _ "" Hd) as Hs. rewrite string_app_cons in Hs. cbn [all_chars] in Hd. apply andb_prop in Hd as [-> _].
  change ((Ascii.eqb "." "." || Ascii.eqb "." ",") && true) with true. cbv beta iota. rewrite H, Hs. done.
Qed.

Lemma Parse_RFC3339_text t : in_text_range t -> Parse_RFC3339 (Format_RFC3339Nano t) = Some t.
Proof.
  intros Ht. fold (time_text t). rewrite time_text_eq by done. unfold text_upto_second.
  assert (Hd : 0 <= t / (24 * Hour) <= last_day).
  { unfold in_text_range in Ht. split; [apply Z.div_pos; [lia|done]|].
    apply Z.lt_succ_r, Z.div_lt_upper_bound; [done|lia]. }
  pose proof (civil_bounds _ Hd) as Hb. pose proof (day_number_civil _ (proj1 Hd)) as Hn.
  pose proof (clock_bounds t) as Hs. set (sec := t mod (24 * Hour) / Second) in *.
  destruct (civil (t / (24 * Hour))) as [[y m] d] eqn:Ec. destruct Hb as (Hy & Hm & Hdd).
  assert (Hsm : forall x, 0 <= x mod 60 < 60) by (intros x; apply Z.mod_pos_bound; lia).
  pose proof (Hsm sec). pose proof (Hsm (sec / 60)).
  assert (0 <= sec / 3600 < 24) by (split; [apply Z.div_pos; lia|apply Z.div_lt_upper_bound; lia]).
  unfold Parse_RFC3339, read_date.
  repeat (rewrite read_digits_digits by lia; cbn [mbind option_bind];
    try change (read_char ?c (String ?c ?x)) with (Some x); cbn [mbind option_bind]).
  rewrite !Z.mul_0_l, !Z.add_0_l, Hn, Ec, bool_decide_eq_true_2 by done. cbn [mbind option_bind].
  change (read_char ?c (String ?c ?x)) with (Some x). cbn [mbind option_bind].
  repeat (rewrite read_digits_digits by lia; cbn [mbind option_bind];
    try change (read_char ?c (String ?c ?x)) with (Some x); cbn [mbind option_bind]).
  rewrite read_seconds_fraction_text. change (read_offset "Z") with (Some (0, "")). cbn [mbind option_bind].
  rewrite !Z.mul_0_l, !Z.add_0_l, bool_decide_eq_true_2 by done.
  rewrite !(proj2 (Z.ltb_lt _ _)) by lia. cbn [andb]. f_equal.
  replace ((sec / 3600 * 60 + sec / 60 mod 60) * 60 + sec mod 60) with sec
    by (clear; Z.to_euclidean_division_equations; lia).
  unfold sec, Hour, Minute, Second. clear. Z.to_euclidean_division_equations. lia.
Qed.

#[export] Instance lawful_time : Lawful json_time.
Proof.
  split; [|done|done]. intros t Ht. cbn [c_ok c_enc c_dec c_depth c_zero json_time] in *. pose proof (time_text_plain t Ht) as Hp.
  assert (Hy : 0 <= time_year t <= 9999).
  { unfold time_year. assert (Hd : 0 <= t / (24 * Hour) <= last_day).
    { unfold in_text_range in Ht. split; [apply Z.div_pos; [lia|done]|].
      apply Z.lt_succ_r, Z.div_lt_upper_bound; [done|lia]. }
    pose proof (civil_bounds _ Hd) as Hb. destruct (civil _) as [[y m] d]. lia. }
  rewrite !(proj2 (Z.leb_le _ _)) by lia. eexists. split; [reflexivity|].
  split; [by apply plain_valid|]. split; [done|]. rewrite plain_no_comma by done. by apply Parse_RFC3339_text.
Qed.

(** ** Slices, maps and pointers inherit the law *)

Lemma depth_list d l : 0 <= d -> Forall (fun v => depth v <= d) l -> fold_right Z.max 0 (map depth l) <= d.
Proof. intros Hd. induction 1 as [|v l Hv _ IH]; cbn [map fold_right]; lia. Qed.

Section laws.
Context {A : Type} (c : codec A) `{!Lawful c}.

#[export] Instance lawful_slice : Lawful (json_slice c).
Proof.
  pose proof (c_depth_nonneg (c := c)) as Hn. split; [|by intros []|cbn; lia].
  intros l Hl. cbn [c_ok c_enc c_dec c_depth c_zero json_slice] in *.
  assert (H : exists vs, mapM (c_enc c) l = Some vs /\ forallb well_formed vs = true /\
    Forall (fun v => depth v <= c_depth c) vs /\ mapM (fun v => c_dec c v (c_zero c)) vs = Some l).
  { induction Hl as [|a l Ha _ (vs & E & Hw & Hd & Hr)]; [by exists []|].
    destruct (c_reads a Ha) as (v & Ev & Hwv & Hdv & Hrv). exists (v :: vs). cbn [mapM]. rewrite Ev, E, Hrv. cbn [mbind option_bind].
    rewrite Hr. cbn. rewrite Hwv. split_and!; try done. by constructor. }
  destruct H as (vs & E & Hw & Hd & Hr). exists (VArr vs). rewrite E. split; [done|]. split; [done|].
  split; [|done]. cbn [depth]. pose proof (depth_list _ _ Hn Hd). lia.
Qed.

Lemma foldl_insert_union (items : list (string * A)) (m : gmap string A) :
  NoDup items.*1 -> foldl (fun acc kv => <[kv.1 := kv.2]> acc) m items = list_to_map items ∪ m.
Proof.
  revert m. induction items as [|[k a] items IH]; intros m Hn; [cbn; by rewrite (left_id_L ∅ (∪))|].
  cbn [fmap list_fmap] in Hn. apply NoDup_cons in Hn as [Hk Hn]. cbn [foldl fst snd]. rewrite IH by done.
  rewrite list_to_map_cons, <- insert_union_l, insert_union_r; [done|]. by apply not_elem_of_list_to_map.
Qed.

#[export] Instance lawful_map : Lawful (json_map c).
Proof.
  pose proof (c_depth_nonneg (c := c)) as Hn.
  split; [|by intros m _ H%bool_decide_eq_true|cbn; lia].
  intros m Hm. cbn [c_ok c_enc c_dec c_depth c_zero json_map] in *.
  pose proof (SortFunc_perm (compare_id fst) (map_to_list m)) as Hp. set (items := slices_SortFunc _ _) in *.
  assert (Hok : Forall (fun kv => valid_text kv.1 = true /\ c_ok c kv.2) items).
  { rewrite Hp. apply Forall_forall. intros [k a] Hka%elem_of_map_to_list. by apply Hm. }
  assert (H : exists vs, mapM (fun kv => v ← c_enc c kv.2; Some (kv.1, v)) items = Some vs /\
    forallb (fun m => valid_text m.1 && well_formed m.2) vs = true /\ Forall (fun v => depth v <= c_depth c) vs.*2 /\
    forall prev, foldl (decode_entry c) (Some prev) vs =
      Some (foldl (fun acc kv => <[kv.1 := kv.2]> acc) prev items)).
  { clear Hp Hm. induction Hok as [|[k a] l [Hk Ha] _ (vs & E & Hw & Hd & Hr)]; [by exists []|].
    destruct (c_reads a Ha) as (v & Ev & Hwv & Hdv & Hrv). exists ((k, v) :: vs). cbn [mapM fst snd] in *. rewrite Ev.
    cbn [mbind option_bind] in *. rewrite E. cbn [forallb fst snd fmap list_fmap foldl]. rewrite Hwv, Hk, Hw. split_and!; try done.
    - by constructor.
    - intros prev. unfold decode_entry at 2. cbn [mbind option_bind fst snd]. rewrite Hrv. apply Hr. }
  destruct H as (vs & E & Hw & Hd & Hr). exists (VObj vs). split; [by rewrite E|]. split; [done|]. split.
  - cbn [depth]. pose proof (depth_list _ _ Hn Hd) as Hl.
    rewrite <- (map_map snd depth). change (map snd vs) with vs.*2. lia.
  - rewrite Hr, foldl_insert_union. 2: { rewrite Hp. apply NoDup_fst_map_to_list. }
    rewrite (right_id_L ∅ (∪)). f_equal. rewrite <- (list_to_map_to_list m). apply list_to_map_proper; [|done].
    rewrite Hp. apply NoDup_fst_map_to_list.
Qed.

#[export] Instance lawful_pointer : Lawful (json_pointer c).
Proof.
  split; [|by intros []|apply (c_depth_nonneg (c := c))]. intros [a|] Ha; cbn [c_ok c_enc c_dec c_depth c_zero json_pointer] in *.
  - destruct Ha as [Ha Hnull]. destruct (c_reads a Ha) as (v & Ev & Hw & Hd & Hr). exists v. rewrite Ev in *.
    split; [done|]. split; [done|]. split; [done|]. cbn [default]. rewrite Hr. by destruct v.
  - eexists. split; [done|]. split; [done|]. split; [apply (c_depth_nonneg (c := c))|done].
Qed.
End laws.

(** ** Structs *)

(** Setting the fields one after another, each found untouched, gives the
    struct; a field set to its zero value is the field left alone. *)
Fixpoint sets_all {S} (fs : list (field_of S)) (s acc : S) : Prop :=
  match fs with
  | [] => acc = s
  | f :: fs =>
      f_get f acc = c_zero (f_codec f) /\ f_set f (c_zero (f_codec f)) acc = acc /\
      sets_all fs s (f_set f (f_get f s) acc)
  end.

Section struct_law.
Context {S : Type} (z : S) (fs : list (field_of S)).

Lemma field_named_exact f : NoDup (f_name <$> fs) -> f ∈ fs -> field_named fs (f_name f) = Some f.
Proof.
  intros Hn Hf. unfold field_named. assert (H : List.find (fun g => f_name g == f_name f) fs = Some f); [|by rewrite H].
  clear z. induction fs as [|g l IH]; [by apply elem_of_nil in Hf|]. cbn [fmap list_fmap] in Hn. apply NoDup_cons in Hn as [Hg Hn].
  cbn [List.find]. apply elem_of_cons in Hf as [->|Hf]; [by rewrite bool_decide_eq_true_2|].
  rewrite bool_decide_eq_false_2; [by apply IH|]. intros E. apply Hg. rewrite E. by apply list_elem_of_fmap_2.
Qed.

Lemma decode_members_None l : foldl (fun acc m => acc ← acc; decode_member fs m acc) None l = None.
Proof. induction l as [|m l IH]; [done|exact IH]. Qed.

Lemma encode_decode_fields suffix s acc :
  NoDup (f_name <$> fs) -> suffix ⊆ fs -> Forall (fun f => Lawful (f_codec f) /\ valid_text (f_name f) = true) suffix ->
  Forall (fun f => c_ok (f_codec f) (f_get f s)) suffix -> sets_all suffix s acc ->
  exists ms, encode_fields suffix s = Some ms /\ decode_members fs ms acc = Some s /\
    forallb (fun m => valid_text m.1 && well_formed m.2) ms = true /\
    Forall (fun v => depth v <= foldr Z.max 0 ((fun f => c_depth (f_codec f)) <$> suffix)) ms.*2.
Proof.
  intros Hn. revert acc. induction suffix as [|f suffix IH]; intros acc Hsub Hl Hok Hs.
  { exists []. cbn in Hs. subst acc. by repeat split. }
  apply Forall_cons in Hl as [[Hf Hname] Hl]. apply Forall_cons in Hok as [Hokf Hok].
  destruct Hs as (Hget & Hzero & Hs). assert (Hin : f ∈ fs) by (apply Hsub; left).
  assert (Hsub' : suffix ⊆ fs) by (intros g Hg; apply Hsub; by right).
  destruct (IH _ Hsub' Hl Hok Hs) as (ms & E & Hd & Hw & Hdep). cbn [encode_fields fmap list_fmap foldr].
  set (rest := foldr Z.max 0 _) in *.
  assert (Hmax : Forall (fun v => depth v <= Z.max (c_depth (f_codec f)) rest) ms.*2)
    by (eapply Forall_impl; [exact Hdep|cbn; intros; lia]).
  destruct (f_omitempty f && c_omit (f_codec f) (f_get f s)) eqn:Eo.
  - apply andb_prop in Eo as [_ Eo]. exists ms. rewrite (c_omits _ Hokf Eo), Hzero in Hd. by rewrite E.
  - destruct (c_reads _ Hokf) as (v & Ev & Hwv & Hdv & Hrv). rewrite Ev, E. cbn [mbind option_bind].
    exists ((f_name f, v) :: ms). split; [done|]. split; [|split].
    + unfold decode_members in *. cbn [foldl mbind option_bind]. unfold decode_member at 2. cbn [fst snd].
      rewrite field_named_exact by done. rewrite Hget, Hrv. exact Hd.
    + cbn [forallb fst snd]. by rewrite Hname, Hwv.
    + cbn [fmap list_fmap snd]. constructor; [lia|done].
Qed.

Lemma lawful_struct :
  NoDup (f_name <$> fs) -> Forall (fun f => Lawful (f_codec f) /\ valid_text (f_name f) = true) fs ->
  (forall s, sets_all fs s z) -> Lawful (json_struct z fs).
Proof.
  intros Hn Hl Hs. assert (H0 : 0 <= foldr Z.max 0 ((fun f => c_depth (f_codec f)) <$> fs)).
  { clear. induction fs as [|f l IH]; cbn; lia. }
  split; [|done|cbn; lia]. intros s Hok. cbn [c_ok c_enc c_dec c_depth c_zero json_struct] in *.
  destruct (encode_decode_fields fs s z Hn ltac:(done) Hl Hok (Hs s)) as (ms & E & Hd & Hw & Hdep).
  exists (VObj ms). rewrite E. split; [done|]. split; [done|]. split; [|done].
  cbn [depth]. pose proof (depth_list _ _ H0 Hdep) as Hdl. rewrite <- (map_map snd depth). change (map snd ms) with ms.*2. lia.
Qed.
End struct_law.

(** Decides the conditions of [lawful_struct] for a given struct. *)
Ltac solve_lawful :=
  apply lawful_struct;
  [ apply (bool_decide_unpack _); vm_compute; exact I
  | repeat (apply Forall_cons_2; [split; [cbn [f_codec]; apply _ | reflexivity]|]); apply Forall_nil_2
  | let s := fresh in intros s; destruct s; repeat split ].

(** Decides [c_ok] of a concrete value. *)
Ltac solve_ok :=
  repeat first
    [ apply Forall_nil_2
    | apply Forall_cons_2
    | match goal with
      | |- c_ok (json_struct _ _) _ => cbn [c_ok json_struct]
      | |- c_ok (json_slice _) _ => cbn [c_ok json_slice]
      | |- c_ok _ _ => progress cbn [c_ok f_codec f_get json_text json_int json_bool json_time json_float]
      | |- valid_text _ = true => vm_compute; reflexivity
      | |- float_reads_back _ = true => vm_compute; reflexivity
      | |- in_int64 _ => vm_compute; split; (reflexivity || discriminate)
      | |- in_text_range _ => vm_compute; split; (reflexivity || discriminate)
      | |- True => exact I
      end ].

(** What is marshalled is not empty and is unmarshalled to itself. *)
Lemma Marshal_Unmarshal {A} (c : codec A) `{!Lawful c} a :
  c_ok c a -> c_depth c <= 10000 -> exists t, Marshal c a = Some t /\ t <> "" /\ Unmarshal c t = Some a.
Proof.
  intros Ha Hd. destruct (c_reads a Ha) as (v & Ev & Hw & Hdv & Hr). exists (render v). unfold Marshal, Unmarshal.
  rewrite Ev. split; [done|]. split; [by destruct (render_head v Hw) as (? & ? & -> & _)|].
  rewrite parse_render by (done || lia). exact Hr.
Qed.
