(* ===== verification/Observation.v ===== *)
(** * Observation ([internal/observation])

    The validation of evidence and raw records ([validation.go]), the ledger,
    document, event and calendar adapters, the extractors, the normalizer and
    the CSV loaders ([adapter_impl.go], [event_adapter.go]).  A claim holds its
    value as JSON text.  [time.Now()] is a parameter of each operation that
    reads it; the texts of the errors of [encoding/json], [encoding/csv],
    [strconv] and [time.Parse] are those of a [TextErrors]. *)

From Stdlib Require Import Ascii.
From S2P Require Export JsonCodec GoText EvidenceTypes.
#[local] Open Scope Z_scope.

(** The errors of the text packages of the standard library, by the text
    that could not be read. *)
Class TextErrors := {
  json_error : string -> error;
  marshal_error : error;
  csv_error : string -> error;
  number_error : string -> error;
  time_error : string -> error;
}.

(** ** Validation (validation.go) *)

(** Out of [[0,1]]; NaN is not. *)
Definition outside_unit (f : float64) : bool := f_ltb f f_zero || f_ltb (f_const 1 1) f.

Definition validEvidenceType (t : EvidenceType) : bool :=
  match t with EvidenceTypeOther _ => false | _ => true end.

Definition EvidenceSource_Validate (s : EvidenceSource) : list error :=
  err_if (blank (es_Kind s)) "evidence source kind is required" ++
  err_if (blank (es_Adapter s)) "evidence source adapter is required" ++
  err_if (blank (es_Reference s)) "evidence source reference is required" ++
  err_if (blank (es_Provenance s)) "evidence source provenance is required".

Definition EvidenceTimeRange_Validate (t : EvidenceTimeRange) : list error :=
  if IsZero (et_ObservedAt t) then [PlainError "observed_at is required"]
  else match et_Start t, et_End t with
       | Some start, Some end_ => err_if (After start end_) "time range start must be before end"
       | _, _ => []
       end.

Definition EvidenceConfidence_Validate (c : EvidenceConfidence) : list error :=
  if outside_unit (eco_Score c) then [PlainError "evidence confidence score must be within [0,1]"]
  else err_if (blank (eco_Reason c)) "evidence confidence reason is required".

Definition EvidenceNormalizationResult_Validate (n : EvidenceNormalizationResult) : list error :=
  match en_Status n with
  | EvidenceNormalizationNormalized | EvidenceNormalizationPartial => []
  | EvidenceNormalizationRejected =>
      err_if (blank (en_RejectedReason n)) "rejected normalization must include a rejected_reason"
  | EvidenceNormalizationStatusOther s => [PlainError ("invalid normalization status " +:+ Quote s)]
  end.

Definition claim_errors (i : nat) (claim : EvidenceClaim) : list error :=
  err_if (blank (ecl_Subject claim)) ("claim " +:+ Itoa (Z.of_nat i) +:+ " subject is required") ++
  err_if (blank (ecl_Predicate claim)) ("claim " +:+ Itoa (Z.of_nat i) +:+ " predicate is required").

Definition evidence_errors (r : EvidenceRecord) : list error :=
  err_if (blank (er_ID r)) "evidence id is required" ++
  err_if (negb (validEvidenceType (er_Type r))) ("invalid evidence type " +:+ Quote (EvidenceType_string (er_Type r))) ++
  EvidenceSource_Validate (er_Source r) ++
  EvidenceTimeRange_Validate (er_TimeRange r) ++
  EvidenceConfidence_Validate (er_Confidence r) ++
  EvidenceNormalizationResult_Validate (er_Normalization r) ++
  err_if (bool_decide (er_Claims r = [])) "evidence must contain at least one claim" ++
  concat (imap claim_errors (er_Claims r)) ++
  match er_Artifact r with
  | Some a => err_if (blank (ea_ObjectKey a)) "artifact object key is required when artifact is present"
  | None => []
  end.

(** [EvidenceRecord.Validate] *)
Definition EvidenceRecord_Validate (r : EvidenceRecord) : option error := errors_Join (evidence_errors r).

Definition validLifeEventKind (kind : LifeEventKind) : bool :=
  match kind with LifeEventKindOther _ => false | _ => true end.

Definition countNonNilLifeEventPayloads (r : LifeEventRecord) : Z :=
  let one {A} (p : option A) := match p with Some _ => 1 | None => 0 end in
  one (le_SalaryChange r) + one (le_NewChild r) + one (le_JobChange r) + one (le_HousingChange r).

(** The time a payload must carry. *)
Definition payload_time {A} (at_ : A -> time) (p : option A) : bool :=
  match p with Some a => negb (IsZero (at_ a)) | None => false end.

(** The first condition that fails. *)
Definition first_error (checks : list (bool * string)) : option error :=
  match List.find (fun c => c.1) checks with Some c => Some (PlainError c.2) | None => None end.

(** [LifeEventRecord.Validate] *)
Definition LifeEventRecord_Validate (r : LifeEventRecord) : option error :=
  first_error
    [(blank (le_ID r), "life event id is required");
     (blank (le_UserID r), "life event user_id is required");
     (negb (validLifeEventKind (le_Kind r)), "invalid life event kind " +:+ Quote (LifeEventKind_string (le_Kind r)));
     (blank (le_Source r), "life event source is required");
     (blank (le_Provenance r), "life event provenance is required");
     (IsZero (le_ObservedAt r), "life event observed_at is required");
     (outside_unit (le_Confidence r), "life event confidence must be within [0,1]");
     (negb (countNonNilLifeEventPayloads r =? 1), "life event record must include exactly one typed payload");
     match le_Kind r with
     | LifeEventSalaryChange =>
         (negb (payload_time sc_EffectiveAt (le_SalaryChange r)), "salary_change event requires typed payload with effective_at")
     | LifeEventNewChild =>
         (negb (payload_time nc_ExpectedCareStartAt (le_NewChild r)), "new_child event requires typed payload with expected_care_start_at")
     | LifeEventJobChange =>
         (negb (payload_time jc_BenefitsEnrollmentDeadlineAt (le_JobChange r)),
          "job_change event requires typed payload with benefits enrollment deadline")
     | LifeEventHousingChange =>
         (negb (payload_time hc_EffectiveAt (le_HousingChange r)), "housing_change event requires typed payload with effective_at")
     | LifeEventKindOther _ => (false, "")
     end].

Definition WindowStart (r : LifeEventRecord) : option time :=
  match le_Kind r with
  | LifeEventSalaryChange => sc_EffectiveAt <$> le_SalaryChange r
  | LifeEventNewChild => nc_ExpectedCareStartAt <$> le_NewChild r
  | LifeEventJobChange => (fun p => AddDate (jc_BenefitsEnrollmentDeadlineAt p) 0 0 (-14)) <$> le_JobChange r
  | LifeEventHousingChange => hc_EffectiveAt <$> le_HousingChange r
  | LifeEventKindOther _ => None
  end.

Definition WindowEnd (r : LifeEventRecord) : option time :=
  (fun start => AddDate start 0 3 0) <$> WindowStart r.

(** [CalendarDeadlineRecord.Validate] *)
Definition CalendarDeadlineRecord_Validate (r : CalendarDeadlineRecord) : option error :=
  first_error
    [(blank (cd_ID r), "calendar deadline id is required");
     (blank (cd_UserID r), "calendar deadline user_id is required");
     (blank (cd_Kind r), "calendar deadline kind is required");
     (blank (cd_Source r), "calendar deadline source is required");
     (blank (cd_Provenance r), "calendar deadline provenance is required");
     (IsZero (cd_ObservedAt r) || IsZero (cd_DeadlineAt r), "calendar deadline observed_at and deadline_at are required");
     (blank (cd_Description r), "calendar deadline description is required");
     (outside_unit (cd_Confidence r), "calendar deadline confidence must be within [0,1]");
     ((cd_RelatedEventKind r != LifeEventKindOther "") && negb (validLifeEventKind (cd_RelatedEventKind r)),
      "invalid related event kind " +:+ Quote (LifeEventKind_string (cd_RelatedEventKind r)))].

(** ** Interfaces (interfaces.go) *)

Record RawObservation := mkRawObservation { raw_Source : EvidenceSource; raw_Payload : string }.

(** [EvidenceExtractor.Extract] and [EvidenceNormalizer.Normalize] *)
Definition EvidenceExtractor : Type := RawObservation -> error + list EvidenceClaim.
Definition EvidenceNormalizer : Type := EvidenceRecord -> error + EvidenceRecord.

(** ** Helpers (adapter_impl.go) *)

Definition roundTo (value : float64) (precision : Z) : float64 :=
  let scale := f_of_int (10 ^ precision) in f_div (f_round (f_mul value scale)) scale.

Definition maxInt64 (left right : Z) : Z := if right <? left then left else right.

(** [strings.EqualFold], for ASCII letters *)
Definition EqualFold (a b : string) : bool := ToLower a == ToLower b.

Definition normalizeToken (value : string) : string :=
  replace_chars ["-"%char] "_" (replace_chars [" "%char] "_" (TrimSpace (ToLower value))).

Definition inferCanonicalUnit (claims : list EvidenceClaim) : string :=
  let unit_of claim :=
    if Contains (ecl_Predicate claim) "cents" then Some "cents"
    else if existsb (Contains (ecl_Predicate claim)) ["rate"; "ratio"; "frequency"; "months"; "drift"; "allocations"]
    then Some "ratio" else None in
  default "canonical" (head (omap unit_of claims)).

Definition isFixedExpenseCategory (category : string) : bool :=
  bool_decide (ToLower (TrimSpace category) ∈ ["subscription"; "rent"; "utilities"; "insurance"; "childcare"; "loan_payment"]).

Definition isSubscriptionTransaction (tx : LedgerTransactionRecord) : bool :=
  if EqualFold (lt_Category tx) "subscription" then true
  else let text := ToLower (TrimSpace (lt_Description tx +:+ " " +:+ lt_Merchant tx)) in
       existsb (Contains text) ["subscription"; "netflix"; "spotify"; "icloud"; "gym"].

(** Within the bounds that are set. *)
Definition not_before (t : time) (start : option time) : bool :=
  match start with Some s => negb (Before t s) | None => true end.
Definition not_after (t : time) (end_ : option time) : bool :=
  match end_ with Some e => negb (After t e) | None => true end.
Definition of_user (userID owner : string) : bool := (userID == "") || (owner == userID).

Definition filterTransactions (records : list LedgerTransactionRecord) (userID : string) (start end_ : option time) :
    list LedgerTransactionRecord :=
  List.filter (fun r => of_user userID (lt_UserID r) && not_before (lt_OccurredAt r) start && not_after (lt_OccurredAt r) end_) records.

Definition filterDebts (records : list DebtRecord) (userID : string) (end_ : option time) : list DebtRecord :=
  List.filter (fun r => of_user userID (dr_UserID r) && not_after (dr_SnapshotAt r) end_) records.

Definition filterHoldings (records : list HoldingRecord) (userID : string) (end_ : option time) : list HoldingRecord :=
  List.filter (fun r => of_user userID (hr_UserID r) && not_after (hr_SnapshotAt r) end_) records.

Definition parse_bound (value : string) : option time :=
  let value := TrimSpace value in
  if value == "" then None
  else match Parse_RFC3339 value with Some t => Some t | None => Parse_date value end.

Definition param (params : gmap string string) (name : string) : string := default "" (params !! name).

Definition parseRequestTimeRange (params : gmap string string) : option time * option time :=
  (parse_bound (param params "start"), parse_bound (param params "end")).

Definition is_inflow (tx : LedgerTransactionRecord) : bool := EqualFold (lt_Direction tx) "inflow".
Definition is_outflow (tx : LedgerTransactionRecord) : bool := EqualFold (lt_Direction tx) "outflow".

(** The name a subscription is listed under. *)
Definition merchant_name (tx : LedgerTransactionRecord) : string :=
  let merchant := TrimSpace (lt_Merchant tx) in
  if merchant == "" then TrimSpace (lt_Description tx) else merchant.

Fixpoint merchants_from (seen : list string) (transactions : list LedgerTransactionRecord) : list string :=
  match transactions with
  | [] => []
  | tx :: rest =>
      let merchant := merchant_name tx in
      let key := ToLower merchant in
      if is_inflow tx || negb (isSubscriptionTransaction tx) || (merchant == "") || bool_decide (key ∈ seen)
      then merchants_from seen rest
      else merchant :: merchants_from (key :: seen) rest
  end.

Definition recurringSubscriptionMerchants (transactions : list LedgerTransactionRecord) : list string :=
  merchants_from [] transactions.

Definition outgoingTransactions (transactions : list LedgerTransactionRecord) : list LedgerTransactionRecord :=
  List.filter is_outflow transactions.

(** [total += value] over an [int64] *)
Definition sum64 {A} (value : A -> Z) (l : list A) : Z :=
  fold_left (fun total a => wrap64 (total + value a)) l 0.

Definition totalMonthlyInflowFromTransactions (transactions : list LedgerTransactionRecord) (userID : string)
    (start end_ : option time) : Z :=
  sum64 lt_AmountCents (List.filter is_inflow (filterTransactions transactions userID start end_)).

Definition totalMonthlyOutflowFromTransactions (transactions : list LedgerTransactionRecord) : Z :=
  sum64 lt_AmountCents (List.filter is_outflow transactions).

(** ** Claims *)

Section claims.
Context `{TE : TextErrors} `{MO : MapOrder}.

Definition marshalled {A} (c : codec A) (a : A) : error + string := or_error marshal_error (Marshal c a).

(** [extractors]: [claimsFromPairs], a pair with its value already typed. *)
Definition claim (subject predicate object_ : string) {A} (c : codec A) (value : A) : error + EvidenceClaim :=
  payload ← marshalled c value;
  mret (mkEvidenceClaim subject predicate object_ payload).

Fixpoint claimsFromPairs (items : list (error + EvidenceClaim)) : error + list EvidenceClaim :=
  match items with
  | [] => mret []
  | item :: items => c ← item; rest ← claimsFromPairs items; mret (c :: rest)
  end.

Definition json_transaction : codec LedgerTransactionRecord := json_struct zero
  [Field json_text "user_id" false lt_UserID (fun x s => s <| lt_UserID := x |>);
   Field json_text "transaction_id" false lt_TransactionID (fun x s => s <| lt_TransactionID := x |>);
   Field json_text "account_id" false lt_AccountID (fun x s => s <| lt_AccountID := x |>);
   Field json_time "occurred_at" false lt_OccurredAt (fun x s => s <| lt_OccurredAt := x |>);
   Field json_text "description" false lt_Description (fun x s => s <| lt_Description := x |>);
   Field json_text "merchant" false lt_Merchant (fun x s => s <| lt_Merchant := x |>);
   Field json_text "category" false lt_Category (fun x s => s <| lt_Category := x |>);
   Field json_text "direction" false lt_Direction (fun x s => s <| lt_Direction := x |>);
   Field json_int "amount_cents" false lt_AmountCents (fun x s => s <| lt_AmountCents := x |>)].

(** The running totals of [TransactionEvidenceExtractor.Extract]. *)
Record flow_totals := mkFlowTotals { inflow : Z; outflow : Z; fixedExpense : Z }.

Definition add_flow (t : flow_totals) (tx : LedgerTransactionRecord) : flow_totals :=
  if is_inflow tx then mkFlowTotals (wrap64 (inflow t + lt_AmountCents tx)) (outflow t) (fixedExpense t)
  else mkFlowTotals (inflow t) (wrap64 (outflow t + lt_AmountCents tx))
         (if isFixedExpenseCategory (lt_Category tx) then wrap64 (fixedExpense t + lt_AmountCents tx) else fixedExpense t).

Definition flow_values (t : flow_totals) : gmap string Z :=
  list_to_map
    [("monthly_inflow_cents", inflow t);
     ("monthly_outflow_cents", outflow t);
     ("monthly_net_income_cents", wrap64 (inflow t - outflow t));
     ("monthly_fixed_expense_cents", fixedExpense t);
     ("monthly_variable_expense_cents", wrap64 (outflow t - fixedExpense t))].

(** [TransactionEvidenceExtractor.Extract] *)
Definition TransactionEvidenceExtractor : EvidenceExtractor := fun raw =>
  transactions ← or_error (json_error (raw_Payload raw)) (Unmarshal (json_slice json_transaction) (raw_Payload raw));
  let totals := fold_left add_flow transactions (mkFlowTotals 0 0 0) in
  claimsFromPairs ((fun kv => claim "cashflow" kv.1 "month" json_int kv.2) <$> map_range (flow_values totals)).

(** ** The normalizer *)

Definition normalize_claim (c : EvidenceClaim) : EvidenceClaim :=
  c <| ecl_Subject := normalizeToken (ecl_Subject c) |>
    <| ecl_Predicate := normalizeToken (ecl_Predicate c) |>
    <| ecl_Object := normalizeToken (ecl_Object c) |>.

Definition normalize_result (claims : list EvidenceClaim) (n : EvidenceNormalizationResult) : EvidenceNormalizationResult :=
  let partial := existsb (fun c => blank (ecl_ValueJSON c)) claims in
  let n := if en_Status n == EvidenceNormalizationStatusOther ""
           then n <| en_Status := EvidenceNormalizationNormalized |> else n in
  let n := if en_CanonicalUnit n == "" then n <| en_CanonicalUnit := inferCanonicalUnit claims |> else n in
  let n := if partial && (en_Status n == EvidenceNormalizationNormalized)
           then n <| en_Status := EvidenceNormalizationPartial |>
                  <| en_Notes := en_Notes n ++ ["one or more claims were missing value_json"] |> else n in
  match claims with
  | [] => n <| en_Status := EvidenceNormalizationRejected |> <| en_RejectedReason := "no claims extracted" |>
  | _ => n
  end.

Definition normalized_record (system_now : time) (record : EvidenceRecord) : EvidenceRecord :=
  let claims := normalize_claim <$> er_Claims record in
  record
    <| er_CreatedAt := if IsZero (er_CreatedAt record) then system_now else er_CreatedAt record |>
    <| er_Summary := TrimSpace (er_Summary record) |>
    <| er_Claims := claims |>
    <| er_Normalization := normalize_result claims (er_Normalization record) |>.

(** [CanonicalEvidenceNormalizer.Normalize] *)
Definition CanonicalEvidenceNormalizer (system_now : time) : EvidenceNormalizer := fun record =>
  let normalized := normalized_record system_now record in
  _ ← check (EvidenceRecord_Validate normalized);
  mret normalized.
(** ** [LedgerObservationAdapter] *)

Record LedgerObservationAdapter := mkLedgerObservationAdapter {
  lo_Transactions : list LedgerTransactionRecord;
  lo_Debts : list DebtRecord;
  lo_Holdings : list HoldingRecord;
  lo_Extractor : option EvidenceExtractor;
  lo_Normalizer : option EvidenceNormalizer;
}.

Definition ledger_source (userID provenance : string) : EvidenceSource :=
  mkEvidenceSource "ledger" "ledger" userID provenance.

Definition evidence_id (kind userID : string) (now : time) : EvidenceID :=
  "evidence-" +:+ kind +:+ "-" +:+ userID +:+ "-" +:+ Format_compact now.

Section ledger.
Context (normalizer : EvidenceNormalizer) (userID : string) (now : time) (start end_ : option time).

Definition ledger_record (kind : string) (type : EvidenceType) (provenance : string) (score : float64) (reason : string)
    (status : EvidenceNormalizationStatus) (claims : list EvidenceClaim) (summary : string) : EvidenceRecord :=
  {| er_ID := evidence_id kind userID now;
     er_Type := type;
     er_Source := ledger_source userID provenance;
     er_TimeRange := mkEvidenceTimeRange now start end_;
     er_Confidence := mkEvidenceConfidence score reason;
     er_Artifact := None;
     er_Claims := claims;
     er_Normalization := zero <| en_Status := status |>;
     er_Summary := summary;
     er_CreatedAt := now |}.

Definition buildTransactionBatchEvidence (extractor : EvidenceExtractor) (taskID : string)
    (transactions : list LedgerTransactionRecord) : error + EvidenceRecord :=
  payload ← marshalled (json_slice json_transaction) transactions;
  claims ← extractor (mkRawObservation
    (mkEvidenceSource "ledger:transaction_batch" "ledger" taskID "ledger_transactions") payload);
  normalizer (ledger_record "transaction-batch" EvidenceTypeTransactionBatch "ledger_transactions" (f_const 98 100)
    "derived from structured transaction records" (EvidenceNormalizationStatusOther "") claims
    ("normalized " +:+ Itoa (Z.of_nat (length transactions)) +:+ " transactions into monthly cashflow evidence")).

Definition buildRecurringSubscriptionEvidence (transactions : list LedgerTransactionRecord) : error + EvidenceRecord :=
  let merchants := recurringSubscriptionMerchants transactions in
  claims ← claimsFromPairs
    [claim "behavior" "duplicate_subscription_count" "month" json_int (Z.of_nat (length merchants));
     claim "behavior" "recurring_subscription_merchants" "month" (json_slice json_text) merchants];
  normalizer (ledger_record "subscription-signal" EvidenceTypeRecurringSubscription "ledger_transactions" (f_const 9 10)
    "merchant/category heuristics over structured transactions" EvidenceNormalizationNormalized claims
    ("detected " +:+ Itoa (Z.of_nat (length merchants)) +:+ " recurring subscription merchants")).

(** From 23:00 to 04:59 UTC. *)
Definition late_night (tx : LedgerTransactionRecord) : bool :=
  let hour := Hour_of (lt_OccurredAt tx) in (23 <=? hour) || (hour <? 5).

Definition late_night_frequency (outgoing : list LedgerTransactionRecord) : float64 :=
  match outgoing with
  | [] => f_zero
  | _ => f_div (f_of_int (Z.of_nat (length (List.filter late_night outgoing)))) (f_of_int (Z.of_nat (length outgoing)))
  end.

Definition buildLateNightSpendingEvidence (transactions : list LedgerTransactionRecord) : error + EvidenceRecord :=
  let outgoing := outgoingTransactions transactions in
  let lateNightCount := Z.of_nat (length (List.filter late_night outgoing)) in
  let frequency := late_night_frequency outgoing in
  claims ← claimsFromPairs
    [claim "behavior" "late_night_spending_count" "month" json_int lateNightCount;
     claim "behavior" "late_night_spending_frequency" "month" json_float (roundTo frequency 4)];
  normalizer (ledger_record "late-night-signal" EvidenceTypeLateNightSpendingSignal "ledger_transactions" (f_const 88 100)
    "computed from transaction timestamps" EvidenceNormalizationNormalized claims
    ("late-night spending frequency is " +:+ Sprintf_f 2 frequency)).

(** The account summary, a [map[string]any]: its keys in order. *)
Definition json_debt_account : codec DebtRecord := json_struct zero
  [Field json_float "annual_rate" false dr_AnnualRate (fun x s => s <| dr_AnnualRate := x |>);
   Field json_int "balance_cents" false dr_BalanceCents (fun x s => s <| dr_BalanceCents := x |>);
   Field json_int "minimum_due_cents" false dr_MinimumDueCents (fun x s => s <| dr_MinimumDueCents := x |>);
   Field json_text "name" false dr_Name (fun x s => s <| dr_Name := x |>)].

Definition weighted_apr (debts : list DebtRecord) : float64 :=
  let totalDebt := sum64 dr_BalanceCents debts in
  let weighted := fold_left (fun acc d => f_add acc (f_mul (f_of_int (dr_BalanceCents d)) (dr_AnnualRate d))) debts f_zero in
  if 0 <? totalDebt then f_div weighted (f_of_int totalDebt) else f_zero.

Definition debt_burden (transactions : list LedgerTransactionRecord) (debts : list DebtRecord) : float64 :=
  let monthlyIncome := maxInt64 (totalMonthlyInflowFromTransactions transactions userID start end_) 1 in
  f_div (f_of_int (sum64 dr_MinimumDueCents debts)) (f_of_int monthlyIncome).

(** [a.Transactions] are all the transactions of the adapter. *)
Definition buildDebtSnapshotEvidence (allTransactions : list LedgerTransactionRecord) (debts : list DebtRecord) :
    error + EvidenceRecord :=
  let averageAPR := weighted_apr debts in
  let debtBurden := debt_burden allTransactions debts in
  let minimumPaymentPressure := debtBurden in
  claims ← claimsFromPairs
    [claim "liability" "total_debt_cents" "snapshot" json_int (sum64 dr_BalanceCents debts);
     claim "liability" "average_apr" "snapshot" json_float (roundTo averageAPR 4);
     claim "liability" "debt_burden_ratio" "snapshot" json_float (roundTo debtBurden 4);
     claim "liability" "minimum_payment_pressure" "snapshot" json_float (roundTo minimumPaymentPressure 4);
     claim "liability" "accounts" "snapshot" (json_slice json_debt_account) debts];
  normalizer (ledger_record "debt-snapshot" EvidenceTypeDebtObligationSnapshot "debt_snapshot" (f_const 97 100)
    "derived from structured debt account records" EvidenceNormalizationNormalized claims
    ("captured " +:+ Itoa (Z.of_nat (length debts)) +:+ " debt accounts with " +:+ Sprintf_f 2 averageAPR +:+ " weighted APR")).

(** Totals and targets per asset class, shared with the broker statement:
    rows of class, value and target. *)
Definition asset_rows : Type := list (string * (Z * float64)).

Definition asset_totals (rows : asset_rows) : gmap string Z :=
  fold_left (fun m r => <[r.1 := wrap64 (default 0 (m !! r.1) + r.2.1)]> m) rows ∅.
Definition asset_targets (rows : asset_rows) : gmap string float64 :=
  fold_left (fun m r => <[r.1 := r.2.2]> m) rows ∅.
Definition total_assets (rows : asset_rows) : Z := sum64 (fun r => r.2.1) rows.
Definition asset_ratio (rows : asset_rows) (value : Z) : float64 :=
  f_div (f_of_int value) (f_of_int (maxInt64 (total_assets rows) 1)).
Definition asset_allocations (rows : asset_rows) : gmap string float64 :=
  (fun value => roundTo (asset_ratio rows value) 4) <$> asset_totals rows.
Definition asset_drift (rows : asset_rows) : gmap string float64 :=
  map_imap (fun class value =>
    Some (roundTo (f_sub (asset_ratio rows value) (default f_zero (asset_targets rows !! class))) 4)) (asset_totals rows).

Definition holding_rows (holdings : list HoldingRecord) : asset_rows :=
  (fun h => (hr_AssetClass h, (hr_MarketValueCents h, hr_TargetAllocation h))) <$> holdings.

Definition emergency_fund_months (rows : asset_rows) (transactions : list LedgerTransactionRecord) : float64 :=
  let monthlyOutflow := maxInt64 (totalMonthlyOutflowFromTransactions transactions) 1 in
  match asset_totals rows !! "cash" with
  | Some cashValue => roundTo (f_div (f_of_int cashValue) (f_of_int monthlyOutflow)) 2
  | None => f_zero
  end.

Definition buildPortfolioSnapshotEvidence (holdings : list HoldingRecord) (transactions : list LedgerTransactionRecord) :
    error + EvidenceRecord :=
  let rows := holding_rows holdings in
  claims ← claimsFromPairs
    [claim "portfolio" "total_investable_assets_cents" "snapshot" json_int (total_assets rows);
     claim "portfolio" "asset_allocations" "snapshot" (json_map json_float) (asset_allocations rows);
     claim "portfolio" "target_allocations" "snapshot" (json_map json_float) (asset_targets rows);
     claim "portfolio" "allocation_drift" "snapshot" (json_map json_float) (asset_drift rows);
     claim "portfolio" "emergency_fund_months" "snapshot" json_float (emergency_fund_months rows transactions)];
  normalizer (ledger_record "portfolio-snapshot" EvidenceTypePortfolioAllocationSnap "holdings_snapshot" (f_const 96 100)
    "derived from structured holding records" EvidenceNormalizationNormalized claims
    ("captured " +:+ Itoa (Z.of_nat (length holdings)) +:+ " holdings across " +:+
     Itoa (Z.of_nat (size (asset_totals rows))) +:+ " asset classes")).
End ledger.

(** The records an adapter builds, in order; the first error ends it. *)
Definition when {A} (b : bool) (records : error + list A) : error + list A := if b then records else mret [].

(** [LedgerObservationAdapter.Observe]; [now] is the reading of the adapter's
    clock, [system_now] that of [time.Now()] in the normalizer. *)
Definition Ledger_Observe (a : LedgerObservationAdapter) (request : ObservationRequest) (now system_now : time) :
    error + list EvidenceRecord :=
  let '(start, end_) := parseRequestTimeRange (oq_Params request) in
  let userID := TrimSpace (param (oq_Params request) "user_id") in
  let transactions := filterTransactions (lo_Transactions a) userID start end_ in
  let debts := filterDebts (lo_Debts a) userID end_ in
  let holdings := filterHoldings (lo_Holdings a) userID end_ in
  let extractor := default TransactionEvidenceExtractor (lo_Extractor a) in
  let normalizer := default (CanonicalEvidenceNormalizer system_now) (lo_Normalizer a) in
  flows ← when (negb (bool_decide (transactions = [])))
    (batch ← buildTransactionBatchEvidence normalizer userID now start end_ extractor (oq_TaskID request) transactions;
     subscription ← buildRecurringSubscriptionEvidence normalizer userID now start end_ transactions;
     lateNight ← buildLateNightSpendingEvidence normalizer userID now start end_ transactions;
     mret [batch; subscription; lateNight]);
  debtSnapshot ← when (negb (bool_decide (debts = [])))
    (record ← buildDebtSnapshotEvidence normalizer userID now start end_ (lo_Transactions a) debts; mret [record]);
  portfolioSnapshot ← when (negb (bool_decide (holdings = [])))
    (record ← buildPortfolioSnapshotEvidence normalizer userID now start end_ holdings transactions; mret [record]);
  mret (flows ++ debtSnapshot ++ portfolioSnapshot).
(** ** CSV loaders *)

Definition csv_row : Type := gmap string string.
Definition column (row : csv_row) (name : string) : string := default "" (row !! name).

Definition csv_row_of (header record : list string) : csv_row :=
  fold_left (fun row cell => <[cell.1 := TrimSpace cell.2]> row) (zip (TrimSpace <$> header) record) ∅.

(** [readCSVRows]: the records are as long as the header, so no column is
    missing. *)
Definition readCSVRows (data : string) : error + list csv_row :=
  parsed ← or_error (csv_error data) (read_csv data);
  mret (map (csv_row_of parsed.1) parsed.2).

Definition int_column (row : csv_row) (name : string) : error + Z :=
  or_error (number_error (column row name)) (ParseInt (column row name)).
Definition float_column (row : csv_row) (name : string) : error + float64 :=
  or_error (number_error (column row name)) (ParseFloat (column row name)).
Definition time_column (row : csv_row) (name : string) : error + time :=
  or_error (time_error (column row name)) (Parse_RFC3339 (column row name)).

Fixpoint each_row {A} (load : csv_row -> error + A) (rows : list csv_row) : error + list A :=
  match rows with
  | [] => mret []
  | row :: rows => a ← load row; rest ← each_row load rows; mret (a :: rest)
  end.

Definition transaction_of_row (row : csv_row) : error + LedgerTransactionRecord :=
  occurredAt ← time_column row "occurred_at";
  amountCents ← int_column row "amount_cents";
  mret {| lt_UserID := column row "user_id"; lt_TransactionID := column row "transaction_id";
          lt_AccountID := column row "account_id"; lt_OccurredAt := occurredAt;
          lt_Description := column row "description"; lt_Merchant := column row "merchant";
          lt_Category := column row "category"; lt_Direction := column row "direction";
          lt_AmountCents := amountCents |}.

Definition LoadLedgerTransactionsCSV (data : string) : error + list LedgerTransactionRecord :=
  rows ← readCSVRows data; each_row transaction_of_row rows.

Definition debt_of_row (row : csv_row) : error + DebtRecord :=
  snapshotAt ← time_column row "snapshot_at";
  balanceCents ← int_column row "balance_cents";
  annualRate ← float_column row "annual_rate";
  minimumDueCents ← int_column row "minimum_due_cents";
  mret {| dr_UserID := column row "user_id"; dr_AccountID := column row "account_id"; dr_Name := column row "name";
          dr_BalanceCents := balanceCents; dr_AnnualRate := annualRate; dr_MinimumDueCents := minimumDueCents;
          dr_SnapshotAt := snapshotAt |}.

Definition LoadDebtRecordsCSV (data : string) : error + list DebtRecord :=
  rows ← readCSVRows data; each_row debt_of_row rows.

Definition holding_of_row (row : csv_row) : error + HoldingRecord :=
  snapshotAt ← time_column row "snapshot_at";
  marketValueCents ← int_column row "market_value_cents";
  targetAllocation ← float_column row "target_allocation";
  mret {| hr_UserID := column row "user_id"; hr_AccountID := column row "account_id"; hr_SnapshotAt := snapshotAt;
          hr_AssetClass := column row "asset_class"; hr_Symbol := column row "symbol";
          hr_MarketValueCents := marketValueCents; hr_TargetAllocation := targetAllocation |}.

Definition LoadHoldingRecordsCSV (data : string) : error + list HoldingRecord :=
  rows ← readCSVRows data; each_row holding_of_row rows.

(** ** Documents *)

Definition extractPayslipClaims (data : string) : error + list EvidenceClaim :=
  rows ← readCSVRows data;
  row ← or_error (PlainError "payslip document requires at least one row") (head rows);
  grossPay ← int_column row "gross_pay_cents";
  netPay ← int_column row "net_pay_cents";
  taxWithheld ← int_column row "tax_withheld_cents";
  childcareBenefit ← int_column row "childcare_benefit_cents";
  let effectiveTaxRate := if 0 <? grossPay then roundTo (f_div (f_of_int taxWithheld) (f_of_int grossPay)) 4 else f_zero in
  claimsFromPairs
    [claim "cashflow" "monthly_inflow_cents" "payroll" json_int netPay;
     claim "cashflow" "monthly_net_income_cents" "payroll" json_int netPay;
     claim "tax" "effective_tax_rate" "payroll" json_float effectiveTaxRate;
     claim "tax" "tax_withheld_cents" "payroll" json_int taxWithheld;
     claim "tax" "childcare_benefit_cents" "payroll" json_int childcareBenefit;
     claim "tax" "childcare_tax_signal" "payroll" json_bool (0 <? childcareBenefit)].

Definition extractCreditCardClaims (data : string) : error + list EvidenceClaim :=
  rows ← readCSVRows data;
  row ← or_error (PlainError "credit card statement requires at least one row") (head rows);
  totalDue ← int_column row "total_due_cents";
  minimumDue ← int_column row "minimum_due_cents";
  lateFee ← int_column row "late_fee_cents";
  claimsFromPairs
    [claim "liability" "credit_card_total_due_cents" "statement" json_int totalDue;
     claim "liability" "credit_card_minimum_due_cents" "statement" json_int minimumDue;
     claim "liability" "credit_card_late_fee_cents" "statement" json_int lateFee].

Definition broker_row (row : csv_row) : error + (string * (Z * float64)) :=
  marketValue ← int_column row "market_value_cents";
  targetAllocation ← float_column row "target_allocation";
  mret (column row "asset_class", (marketValue, targetAllocation)).

Definition extractBrokerClaims (data : string) : error + list EvidenceClaim :=
  rows ← readCSVRows data;
  rows ← each_row broker_row rows;
  claimsFromPairs
    [claim "portfolio" "total_investable_assets_cents" "broker" json_int (total_assets rows);
     claim "portfolio" "asset_allocations" "broker" (json_map json_float) (asset_allocations rows);
     claim "portfolio" "target_allocations" "broker" (json_map json_float) (asset_targets rows);
     claim "portfolio" "allocation_drift" "broker" (json_map json_float) (asset_drift rows)].

Definition extractTaxClaims (data : string) : error + list EvidenceClaim :=
  let text := ToLower data in
  let childcareSignal := Contains text "childcare" || Contains text "dependent care" in
  let reason := if childcareSignal then "family-related tax benefit keywords found in document"
                else "no family-related tax signal found" in
  claimsFromPairs
    [claim "tax" "childcare_tax_signal" "tax_document" json_bool childcareSignal;
     claim "tax" "tax_signal_reason" "tax_document" json_text reason].

(** [strings.TrimPrefix] *)
Definition TrimPrefix (s prefix : string) : string :=
  if HasPrefix s prefix then String.substring (String.length prefix) (String.length s - String.length prefix) s else s.

(** [DocumentEvidenceExtractor.Extract] *)
Definition DocumentEvidenceExtractor : EvidenceExtractor := fun raw =>
  let kind := TrimPrefix (es_Kind (raw_Source raw)) "document:" in
  if kind == DocumentKind_string DocumentKindPayslip then extractPayslipClaims (raw_Payload raw)
  else if kind == DocumentKind_string DocumentKindCreditCardStatement then extractCreditCardClaims (raw_Payload raw)
  else if kind == DocumentKind_string DocumentKindBrokerStatement then extractBrokerClaims (raw_Payload raw)
  else if kind == DocumentKind_string DocumentKindTaxDocument then extractTaxClaims (raw_Payload raw)
  else inl (PlainError ("unsupported document kind " +:+ Quote kind)).

Definition evidenceTypeForDocumentKind (kind : DocumentKind) : EvidenceType :=
  match kind with
  | DocumentKindPayslip => EvidenceTypePayslipStatement
  | DocumentKindCreditCardStatement => EvidenceTypeCreditCardStatement
  | DocumentKindTaxDocument => EvidenceTypeTaxDocument
  | DocumentKindBrokerStatement => EvidenceTypeBrokerStatement
  | DocumentKindOther _ => EvidenceTypeDocumentStatement
  end.

Definition document_record (adapterName : string) (artifact : DocumentArtifact) (claims : list EvidenceClaim) : EvidenceRecord :=
  {| er_ID := "evidence-document-" +:+ da_ID artifact;
     er_Type := evidenceTypeForDocumentKind (da_Kind artifact);
     er_Source := mkEvidenceSource "document" adapterName (da_ID artifact) (da_Filename artifact);
     er_TimeRange := mkEvidenceTimeRange (da_ObservedAt artifact) None None;
     er_Confidence := mkEvidenceConfidence (f_const 94 100) "derived from document artifact fields";
     er_Artifact := Some (mkEvidenceArtifactRef ("artifacts/" +:+ da_Filename artifact) (da_MediaType artifact)
                            ("bytes:" +:+ Itoa (Z.of_nat (String.length (da_Content artifact)))));
     er_Claims := claims;
     er_Normalization := zero <| en_Status := EvidenceNormalizationNormalized |>;
     er_Summary := "parsed " +:+ DocumentKind_string (da_Kind artifact) +:+ " document " +:+ da_Filename artifact;
     er_CreatedAt := da_ObservedAt artifact |}.

Definition buildDocumentEvidenceRecord (adapterName : string) (artifact : DocumentArtifact)
    (extractor : EvidenceExtractor) (normalizer : EvidenceNormalizer) : error + EvidenceRecord :=
  claims ← extractor (mkRawObservation
    (mkEvidenceSource ("document:" +:+ DocumentKind_string (da_Kind artifact)) adapterName (da_ID artifact) (da_Filename artifact))
    (da_Content artifact));
  normalizer (document_record adapterName artifact claims).

(** [StructuredDocumentObservationAdapter] and
    [AgenticDocumentObservationAdapterStub] *)
Record DocumentAdapter := mkDocumentAdapter {
  do_Artifacts : list DocumentArtifact;
  do_Extractor : option EvidenceExtractor;
  do_Normalizer : option EvidenceNormalizer;
}.

(** One record per artifact of the user that the adapter takes. *)
Fixpoint document_records (takes : DocumentKind -> bool) (userID : string)
    (build : DocumentArtifact -> error + EvidenceRecord) (artifacts : list DocumentArtifact) : error + list EvidenceRecord :=
  match artifacts with
  | [] => mret []
  | artifact :: artifacts =>
      if of_user userID (da_UserID artifact) && takes (da_Kind artifact) then
        record ← build artifact; rest ← document_records takes userID build artifacts; mret (record :: rest)
      else document_records takes userID build artifacts
  end.

(** [StructuredDocumentObservationAdapter.Observe] *)
Definition Structured_Observe (a : DocumentAdapter) (request : ObservationRequest) (system_now : time) :
    error + list EvidenceRecord :=
  let userID := TrimSpace (param (oq_Params request) "user_id") in
  let normalizer := default (CanonicalEvidenceNormalizer system_now) (do_Normalizer a) in
  let extractor := default DocumentEvidenceExtractor (do_Extractor a) in
  document_records (fun kind => negb (kind == DocumentKindTaxDocument)) userID
    (fun artifact => buildDocumentEvidenceRecord "document_structured" artifact extractor normalizer) (do_Artifacts a).

(** [AgenticDocumentObservationAdapterStub.Observe] *)
Definition Agentic_Observe (a : DocumentAdapter) (request : ObservationRequest) (system_now : time) :
    error + list EvidenceRecord :=
  let userID := TrimSpace (param (oq_Params request) "user_id") in
  let normalizer := default (CanonicalEvidenceNormalizer system_now) (do_Normalizer a) in
  let extractor := default DocumentEvidenceExtractor (do_Extractor a) in
  document_records (fun kind => kind == DocumentKindTaxDocument) userID
    (fun artifact =>
       record ← buildDocumentEvidenceRecord "document_agentic_stub" artifact extractor normalizer;
       let record := record
         <| er_Confidence := mkEvidenceConfidence (f_const 72 100) "heuristic agentic parsing stub over semi-structured tax text" |>
         <| er_Normalization := er_Normalization record
              <| en_Notes := en_Notes (er_Normalization record) ++
                   ["parsed via deterministic stub that preserves agentic adapter boundary"] |> |> in
       _ ← check (EvidenceRecord_Validate record);
       mret record) (do_Artifacts a).

(** ** Life events and deadlines (event_adapter.go) *)

(** [mustJSON] ignores the error. *)
Definition mustJSON {A} (c : codec A) (value : A) : string := default "" (Marshal c value).
Definition must_claim (subject predicate object_ : string) {A} (c : codec A) (value : A) : EvidenceClaim :=
  mkEvidenceClaim subject predicate object_ (mustJSON c value).

(** The claims of a payload, and the summary; [None] is the panic on a payload
    that is missing. *)
Definition life_event_claims (event : LifeEventRecord) : option (list EvidenceClaim * string) :=
  let id := le_ID event in
  match le_Kind event with
  | LifeEventSalaryChange =>
      p ← le_SalaryChange event;
      Some ([must_claim "cashflow" "monthly_income_delta_cents" id json_int
               (wrap64 (sc_NewMonthlyIncomeCents p - sc_PreviousMonthlyIncomeCents p));
             must_claim "event" "effective_at" id json_text (Format_RFC3339 (sc_EffectiveAt p))],
            "salary change event normalized into cashflow/tax/portfolio impact evidence")
  | LifeEventNewChild =>
      p ← le_NewChild event;
      Some ([must_claim "tax" "childcare_tax_signal" id json_bool (nc_ChildcareTaxEligible p);
             must_claim "cashflow" "childcare_cost_delta_cents" id json_int (nc_EstimatedMonthlyCostCents p);
             must_claim "event" "expected_care_start_at" id json_text (Format_RFC3339 (nc_ExpectedCareStartAt p))],
            "new child event normalized into childcare tax and cashflow impact evidence")
  | LifeEventJobChange =>
      p ← le_JobChange event;
      Some ([must_claim "cashflow" "monthly_income_delta_cents" id json_int
               (wrap64 (jc_NewMonthlyIncomeCents p - jc_PreviousMonthlyIncomeCents p));
             must_claim "tax" "withholding_review_required" id json_bool true;
             must_claim "event" "benefits_enrollment_deadline_at" id json_text
               (Format_RFC3339 (jc_BenefitsEnrollmentDeadlineAt p))],
            "job change event normalized into compensation and withholding impact evidence")
  | LifeEventHousingChange =>
      p ← le_HousingChange event;
      Some ([must_claim "cashflow" "housing_cost_delta_cents" id json_int
               (wrap64 (hc_NewMonthlyHousingCostCents p - hc_PreviousMonthlyHousingCostCents p));
             must_claim "liability" "mortgage_balance_cents" id json_int (hc_MortgageBalanceCents p);
             must_claim "event" "effective_at" id json_text (Format_RFC3339 (hc_EffectiveAt p))],
            "housing change event normalized into housing-cost and liability impact evidence")
  | LifeEventKindOther _ => Some ([], "life event trigger")
  end.

Definition buildLifeEventEvidence (event : LifeEventRecord) (observedAt : time) : option (error + EvidenceRecord) :=
  '(claims, summary) ← life_event_claims event;
  Some
    (if validLifeEventKind (le_Kind event) then inr
       {| er_ID := "evidence-life-event-" +:+ le_ID event;
          er_Type := EvidenceTypeEventSignal;
          er_Source := mkEvidenceSource "life_event" "event" (le_ID event) (le_Provenance event);
          er_TimeRange := mkEvidenceTimeRange observedAt (WindowStart event) (WindowEnd event);
          er_Confidence := mkEvidenceConfidence (le_Confidence event) "derived from structured life event source";
          er_Artifact := None;
          er_Claims := must_claim "life_event" "life_event_kind" (le_ID event) json_text (LifeEventKind_string (le_Kind event)) :: claims;
          er_Normalization := zero <| en_Status := EvidenceNormalizationNormalized |>;
          er_Summary := summary;
          er_CreatedAt := observedAt |}
     else inl (PlainError ("unsupported life event kind " +:+ Quote (LifeEventKind_string (le_Kind event))))).

Record EventObservationAdapter := mkEventObservationAdapter {
  ev_Events : list LifeEventRecord;
  ev_Normalizer : option EvidenceNormalizer;
}.

Definition event_selected (request : ObservationRequest) (event : LifeEventRecord) : bool :=
  let wanted name actual := let value := TrimSpace (param (oq_Params request) name) in (value == "") || (actual == value) in
  wanted "user_id" (le_UserID event) && wanted "event_id" (le_ID event) &&
  wanted "event_kind" (LifeEventKind_string (le_Kind event)).

(** [None] is a panic. *)
Fixpoint event_records (normalizer : EvidenceNormalizer) (now : time) (events : list LifeEventRecord) :
    option (error + list EvidenceRecord) :=
  match events with
  | [] => Some (mret [])
  | event :: events =>
      match LifeEventRecord_Validate event with
      | Some err => Some (inl err)
      | None =>
          built ← buildLifeEventEvidence event now;
          match built ≫= normalizer with
          | inl err => Some (inl err)
          | inr normalized =>
              rest ← event_records normalizer now events;
              Some (match rest with inl err => inl err | inr records => inr (normalized :: records) end)
          end
      end
  end.

(** [EventObservationAdapter.Observe] *)
Definition Event_Observe (a : EventObservationAdapter) (request : ObservationRequest) (now system_now : time) :
    option (error + list EvidenceRecord) :=
  event_records (default (CanonicalEvidenceNormalizer system_now) (ev_Normalizer a)) now
    (List.filter (event_selected request) (ev_Events a)).

Definition buildCalendarDeadlineEvidence (deadline : CalendarDeadlineRecord) (observedAt : time) : EvidenceRecord :=
  let id := cd_ID deadline in
  {| er_ID := "evidence-calendar-deadline-" +:+ id;
     er_Type := EvidenceTypeCalendarDeadline;
     er_Source := mkEvidenceSource "calendar_deadline" "calendar_deadline" id (cd_Provenance deadline);
     er_TimeRange := mkEvidenceTimeRange observedAt (Some (cd_ObservedAt deadline)) (Some (cd_DeadlineAt deadline));
     er_Confidence := mkEvidenceConfidence (cd_Confidence deadline) "derived from structured deadline source";
     er_Artifact := None;
     er_Claims :=
       [must_claim "deadline" "deadline_kind" id json_text (cd_Kind deadline);
        must_claim "deadline" "deadline_at" id json_text (Format_RFC3339 (cd_DeadlineAt deadline));
        must_claim "deadline" "description" id json_text (cd_Description deadline);
        must_claim "deadline" "related_event_kind" id json_text (LifeEventKind_string (cd_RelatedEventKind deadline))];
     er_Normalization := zero <| en_Status := EvidenceNormalizationNormalized |>;
     er_Summary := cd_Description deadline;
     er_CreatedAt := observedAt |}.

Record CalendarDeadlineObservationAdapter := mkCalendarDeadlineObservationAdapter {
  cal_Deadlines : list CalendarDeadlineRecord;
  cal_Normalizer : option EvidenceNormalizer;
}.

Definition deadline_selected (request : ObservationRequest) (deadline : CalendarDeadlineRecord) : bool :=
  let value name := TrimSpace (param (oq_Params request) name) in
  ((value "user_id" == "") || (cd_UserID deadline == value "user_id")) &&
  ((value "event_id" == "") || (cd_RelatedEventID deadline == "") || (cd_RelatedEventID deadline == value "event_id")) &&
  ((value "event_kind" == "") || (LifeEventKind_string (cd_RelatedEventKind deadline) == value "event_kind")).

Fixpoint deadline_records (normalizer : EvidenceNormalizer) (now : time) (deadlines : list CalendarDeadlineRecord) :
    error + list EvidenceRecord :=
  match deadlines with
  | [] => mret []
  | deadline :: deadlines =>
      _ ← check (CalendarDeadlineRecord_Validate deadline);
      normalized ← normalizer (buildCalendarDeadlineEvidence deadline now);
      rest ← deadline_records normalizer now deadlines;
      mret (normalized :: rest)
  end.

(** [CalendarDeadlineObservationAdapter.Observe] *)
Definition Calendar_Observe (a : CalendarDeadlineObservationAdapter) (request : ObservationRequest) (now system_now : time) :
    error + list EvidenceRecord :=
  deadline_records (default (CanonicalEvidenceNormalizer system_now) (cal_Normalizer a)) now
    (slices_SortFunc (compare_time cd_DeadlineAt) (List.filter (deadline_selected request) (cal_Deadlines a))).
End claims.
