(* ===== verification/Reducers.v ===== *)
(** * State patches and reducers ([internal/state], [internal/reducers])

    The state reducer that applies an evidence patch ([state/reducer.go]), the
    validation of patches and states, and the reducers that turn evidence into
    a patch ([reducers/reducers.go]).  Blocks of the state travel as JSON text
    inside mutations.

    Three slices of the next state ([AnomalyFlags], [InterventionQueue],
    [ComplianceFlags]) are built with [append(s[:0], ...)] over the array of
    the caller's state, so [BuildPatch] also returns that state as it reads
    afterwards. *)

From S2P Require Export Observation.
#[local] Open Scope Z_scope.

(** ** The blocks of the state as JSON (state/types.go) *)

Definition json_account : codec LiabilityAccount := json_struct zero
  [Field json_text "name" false la_Name (fun x s => s <| la_Name := x |>);
   Field json_int "balance_cents" false la_BalanceCents (fun x s => s <| la_BalanceCents := x |>);
   Field json_float "annual_rate" false la_AnnualRate (fun x s => s <| la_AnnualRate := x |>);
   Field json_int "minimum_due_cents" false la_MinimumDueCents (fun x s => s <| la_MinimumDueCents := x |>)].

Definition json_cashflow : codec CashflowState := json_struct zero
  [Field json_int "monthly_inflow_cents" false cf_MonthlyInflowCents (fun x s => s <| cf_MonthlyInflowCents := x |>);
   Field json_int "monthly_outflow_cents" false cf_MonthlyOutflowCents (fun x s => s <| cf_MonthlyOutflowCents := x |>);
   Field json_int "monthly_net_income_cents" false cf_MonthlyNetIncomeCents (fun x s => s <| cf_MonthlyNetIncomeCents := x |>);
   Field json_int "monthly_fixed_expense_cents" false cf_MonthlyFixedExpenseCents
     (fun x s => s <| cf_MonthlyFixedExpenseCents := x |>);
   Field json_int "monthly_variable_expense_cents" false cf_MonthlyVariableExpenseCents
     (fun x s => s <| cf_MonthlyVariableExpenseCents := x |>);
   Field json_float "savings_rate" false cf_SavingsRate (fun x s => s <| cf_SavingsRate := x |>);
   Field json_text "last_computed_month" true cf_LastComputedMonth (fun x s => s <| cf_LastComputedMonth := x |>)].

Definition json_liability : codec LiabilityState := json_struct zero
  [Field json_int "total_debt_cents" false li_TotalDebtCents (fun x s => s <| li_TotalDebtCents := x |>);
   Field json_float "average_apr" false li_AverageAPR (fun x s => s <| li_AverageAPR := x |>);
   Field json_float "debt_burden_ratio" false li_DebtBurdenRatio (fun x s => s <| li_DebtBurdenRatio := x |>);
   Field json_float "minimum_payment_pressure" false li_MinimumPaymentPressure
     (fun x s => s <| li_MinimumPaymentPressure := x |>);
   Field (json_slice json_account) "accounts" true li_Accounts (fun x s => s <| li_Accounts := x |>)].

Definition json_portfolio : codec PortfolioState := json_struct zero
  [Field json_int "total_investable_assets_cents" false pf_TotalInvestableAssetsCents
     (fun x s => s <| pf_TotalInvestableAssetsCents := x |>);
   Field (json_map json_float) "asset_allocations" true pf_AssetAllocations (fun x s => s <| pf_AssetAllocations := x |>);
   Field (json_map json_float) "target_allocations" true pf_TargetAllocations (fun x s => s <| pf_TargetAllocations := x |>);
   Field (json_map json_float) "allocation_drift" true pf_AllocationDrift (fun x s => s <| pf_AllocationDrift := x |>);
   Field json_float "emergency_fund_months" false pf_EmergencyFundMonths (fun x s => s <| pf_EmergencyFundMonths := x |>)].

Definition json_tax : codec TaxState := json_struct zero
  [Field json_float "effective_tax_rate" false tx_EffectiveTaxRate (fun x s => s <| tx_EffectiveTaxRate := x |>);
   Field json_int "tax_advantaged_contribution_cents" false tx_TaxAdvantagedContributionCents
     (fun x s => s <| tx_TaxAdvantagedContributionCents := x |>);
   Field json_bool "childcare_tax_signal" false tx_ChildcareTaxSignal (fun x s => s <| tx_ChildcareTaxSignal := x |>);
   Field (json_slice json_text) "family_tax_notes" true tx_FamilyTaxNotes (fun x s => s <| tx_FamilyTaxNotes := x |>);
   Field (json_slice json_text) "upcoming_deadlines" true tx_UpcomingDeadlines (fun x s => s <| tx_UpcomingDeadlines := x |>)].

Definition json_behavior : codec BehaviorState := json_struct zero
  [Field (json_slice json_text) "anomaly_flags" true bh_AnomalyFlags (fun x s => s <| bh_AnomalyFlags := x |>);
   Field (json_slice json_text) "intervention_queue" true bh_InterventionQueue (fun x s => s <| bh_InterventionQueue := x |>);
   Field json_float "late_night_spending_frequency" false bh_LateNightSpendingFrequency
     (fun x s => s <| bh_LateNightSpendingFrequency := x |>);
   Field json_int "duplicate_subscription_count" false bh_DuplicateSubscriptionCount
     (fun x s => s <| bh_DuplicateSubscriptionCount := x |>);
   Field (json_slice json_text) "recurring_subscriptions" true bh_RecurringSubscriptions
     (fun x s => s <| bh_RecurringSubscriptions := x |>)].

Definition json_workflow : codec WorkflowState := json_struct zero
  [Field json_text "active_workflow_id" true ws_ActiveWorkflowID (fun x s => s <| ws_ActiveWorkflowID := x |>);
   Field json_text "last_task_id" true ws_LastTaskID (fun x s => s <| ws_LastTaskID := x |>);
   Field json_text "phase" false ws_Phase (fun x s => s <| ws_Phase := x |>);
   Field (json_slice json_text) "pending_approvals" true ws_PendingApprovals (fun x s => s <| ws_PendingApprovals := x |>);
   Field json_text "evidence_status" true ws_EvidenceStatus (fun x s => s <| ws_EvidenceStatus := x |>);
   Field json_time "last_updated_at" false ws_LastUpdatedAt (fun x s => s <| ws_LastUpdatedAt := x |>)].

Definition json_risk : codec RiskState := json_struct zero
  [Field json_text "liquidity_risk" false rk_LiquidityRisk (fun x s => s <| rk_LiquidityRisk := x |>);
   Field json_text "concentration_risk" false rk_ConcentrationRisk (fun x s => s <| rk_ConcentrationRisk := x |>);
   Field json_text "debt_stress_level" false rk_DebtStressLevel (fun x s => s <| rk_DebtStressLevel := x |>);
   Field json_text "overall_risk" false rk_OverallRisk (fun x s => s <| rk_OverallRisk := x |>);
   Field (json_slice json_text) "compliance_flags" true rk_ComplianceFlags (fun x s => s <| rk_ComplianceFlags := x |>)].

(** ** Validation *)

(** [FinancialWorldState.Validate] (validation.go) *)
Definition FinancialWorldState_Validate (s : FinancialWorldState) : option error :=
  errors_Join (
    err_if (fw_UserID s == "") "user_id is required" ++
    err_if (outside_unit (cf_SavingsRate (fw_CashflowState s))) "cashflow savings rate must be within [0,1]" ++
    err_if (outside_unit (li_DebtBurdenRatio (fw_LiabilityState s))) "liability debt burden ratio must be within [0,1]" ++
    err_if (outside_unit (li_MinimumPaymentPressure (fw_LiabilityState s)))
      "liability minimum payment pressure must be within [0,1]" ++
    err_if (f_ltb (pf_EmergencyFundMonths (fw_PortfolioState s)) f_zero) "emergency fund months must be non-negative" ++
    err_if (outside_unit (tx_EffectiveTaxRate (fw_TaxState s))) "effective tax rate must be within [0,1]" ++
    err_if (outside_unit (bh_LateNightSpendingFrequency (fw_BehaviorState s)))
      "late-night spending frequency must be within [0,1]" ++
    err_if ((sv_Sequence (fw_Version s) =? 0) && (sv_SnapshotID (fw_Version s) != ""))
      ("snapshot id " +:+ Quote (sv_SnapshotID (fw_Version s)) +:+ " cannot exist on zero sequence")).

Definition mutation_errors (i : nat) (m : StateMutation) : list error :=
  let at_ text := "mutation " +:+ Itoa (Z.of_nat i) +:+ text in
  err_if (smu_Path m == "") (at_ " path is required") ++
  err_if (smu_Operation m == "") (at_ " operation is required") ++
  err_if (smu_ValueJSON m == "") (at_ " value_json is required") ++
  err_if (smu_EvidenceID m == "") (at_ " evidence_id is required").

(** [EvidencePatch.Validate] (reducer.go) *)
Definition EvidencePatch_Validate (p : EvidencePatch) : option error :=
  errors_Join (
    err_if (bool_decide (epa_Evidence p = [])) "evidence patch requires evidence" ++
    err_if (bool_decide (epa_Mutations p = [])) "evidence patch requires mutations" ++
    omap EvidenceRecord_Validate (epa_Evidence p) ++
    concat (imap mutation_errors (epa_Mutations p))).

Section state.
Context `{TE : TextErrors}.

(** ** Applying a patch (state/reducer.go) *)

Definition decoded {A} (c : codec A) (text : string) : error + A := or_error (json_error text) (Unmarshal c text).

Definition applyMutation (s : FinancialWorldState) (m : StateMutation) : error + FinancialWorldState :=
  let set {A} (c : codec A) (f : A -> FinancialWorldState) : error + FinancialWorldState :=
    value ← decoded c (smu_ValueJSON m); mret (f value) in
  let path := smu_Path m in
  if path == "cashflow" then set json_cashflow (fun v => s <| fw_CashflowState := v |>)
  else if path == "cashflow.monthly_net_income_cents" then
    set json_int (fun v => s <| fw_CashflowState := fw_CashflowState s <| cf_MonthlyNetIncomeCents := v |> |>)
  else if path == "cashflow.monthly_inflow_cents" then
    set json_int (fun v => s <| fw_CashflowState := fw_CashflowState s <| cf_MonthlyInflowCents := v |> |>)
  else if path == "cashflow.monthly_outflow_cents" then
    set json_int (fun v => s <| fw_CashflowState := fw_CashflowState s <| cf_MonthlyOutflowCents := v |> |>)
  else if path == "liability" then set json_liability (fun v => s <| fw_LiabilityState := v |>)
  else if path == "liability.total_debt_cents" then
    set json_int (fun v => s <| fw_LiabilityState := fw_LiabilityState s <| li_TotalDebtCents := v |> |>)
  else if path == "portfolio" then set json_portfolio (fun v => s <| fw_PortfolioState := v |>)
  else if path == "tax" then set json_tax (fun v => s <| fw_TaxState := v |>)
  else if path == "behavior" then set json_behavior (fun v => s <| fw_BehaviorState := v |>)
  else if path == "workflow" then set json_workflow (fun v => s <| fw_WorkflowState := v |>)
  else if path == "workflow.phase" then
    set json_text (fun v => s <| fw_WorkflowState := fw_WorkflowState s <| ws_Phase := v |> |>)
  else if path == "risk" then set json_risk (fun v => s <| fw_RiskState := v |>)
  else if path == "risk.compliance_flags" then
    set (json_slice json_text) (fun v => s <| fw_RiskState := fw_RiskState s <| rk_ComplianceFlags := v |> |>)
  else inl (PlainError ("unsupported state mutation path " +:+ Quote path)).

Fixpoint applyMutations (ids : list EvidenceID) (s : FinancialWorldState) (ms : list StateMutation) :
    error + FinancialWorldState :=
  match ms with
  | [] => mret s
  | m :: ms =>
      if bool_decide (smu_EvidenceID m ∈ ids) then s ← applyMutation s m; applyMutations ids s ms
      else inl (PlainError ("mutation references unknown evidence id " +:+ Quote (smu_EvidenceID m)))
  end.

Definition two64_succ (sequence : Z) : Z := (sequence + 1) mod two64.

(** [DefaultStateReducer.ApplyEvidencePatch]; [system_now] is what
    [time.Now()] returns if it is called. *)
Definition ApplyEvidencePatch (system_now : time) (current : FinancialWorldState) (patch : EvidencePatch) :
    error + (FinancialWorldState * StateDiff) :=
  _ ← check (EvidencePatch_Validate patch);
  let ids := er_ID <$> epa_Evidence patch in
  next ← applyMutations ids current (epa_Mutations patch);
  let appliedAt := if IsZero (epa_AppliedAt patch) then system_now else epa_AppliedAt patch in
  let sequence := two64_succ (sv_Sequence (fw_Version current)) in
  let next := next <| fw_Version := mkStateVersion sequence ("state-v" +:+ Itoa sequence) appliedAt |>
                   <| fw_WorkflowState := fw_WorkflowState next <| ws_LastUpdatedAt := appliedAt |> |> in
  mret (next, {| sdf_FromVersion := sv_Sequence (fw_Version current);
                 sdf_ToVersion := sequence;
                 sdf_ChangedFields := smu_Path <$> epa_Mutations patch;
                 sdf_EvidenceIDs := ids |}).
(** ** Reading claims (reducers/reducers.go) *)

Definition claim_for (record : EvidenceRecord) (predicate : string) : option EvidenceClaim :=
  List.find (fun c => ecl_Predicate c == predicate) (er_Claims record).

(** [claimInt64], [claimFloat64], ...: the value of the first claim with the
    predicate, if there is one. *)
Definition claim_value {A} (c : codec A) (record : EvidenceRecord) (predicate : string) : error + option A :=
  match claim_for record predicate with
  | Some claim => value ← decoded c (ecl_ValueJSON claim); mret (Some value)
  | None => mret None
  end.

(** [if value, ok, err := claim...; err != nil { return err } else if ok { ... }] *)
Definition with_claim {A S} (c : codec A) (record : EvidenceRecord) (predicate : string) (set : A -> S -> S) (next : S) :
    error + S :=
  value ← claim_value c record predicate;
  mret (match value with Some v => set v next | None => next end).

Fixpoint reduce_over {S} (step : EvidenceRecord -> S -> error + S) (evidence : list EvidenceRecord) (next : S) : error + S :=
  match evidence with
  | [] => mret next
  | record :: evidence => next ← step record next; reduce_over step evidence next
  end.

(** Go's [roundTo] of this package: [int(x)] truncates. *)
Definition roundDown (value : float64) (precision : Z) : float64 :=
  let scale := f_of_int (10 ^ precision) in
  f_div (f_of_int (f_to_int (f_add (f_mul value scale) (f_const 1 2)))) scale.

Definition appendUnique (items : list string) (value : string) : list string :=
  if bool_decide (value ∈ items) then items else items ++ [value].

(** ** The reducers *)

Definition cashflow_step (record : EvidenceRecord) (next : CashflowState) : error + CashflowState :=
  match er_Type record with
  | EvidenceTypeTransactionBatch =>
      next ← with_claim json_int record "monthly_inflow_cents" (fun v s => s <| cf_MonthlyInflowCents := v |>) next;
      next ← with_claim json_int record "monthly_outflow_cents" (fun v s => s <| cf_MonthlyOutflowCents := v |>) next;
      next ← with_claim json_int record "monthly_net_income_cents" (fun v s => s <| cf_MonthlyNetIncomeCents := v |>) next;
      next ← with_claim json_int record "monthly_fixed_expense_cents" (fun v s => s <| cf_MonthlyFixedExpenseCents := v |>) next;
      next ← with_claim json_int record "monthly_variable_expense_cents"
               (fun v s => s <| cf_MonthlyVariableExpenseCents := v |>) next;
      mret (match et_Start (er_TimeRange record) with
            | Some start => next <| cf_LastComputedMonth := Format_month start |>
            | None => next
            end)
  | EvidenceTypeEventSignal =>
      next ← with_claim json_int record "monthly_income_delta_cents" (fun v s =>
               s <| cf_MonthlyInflowCents := wrap64 (cf_MonthlyInflowCents s + v) |>
                 <| cf_MonthlyNetIncomeCents := wrap64 (cf_MonthlyNetIncomeCents s + v) |>) next;
      next ← with_claim json_int record "housing_cost_delta_cents" (fun v s =>
               s <| cf_MonthlyOutflowCents := wrap64 (cf_MonthlyOutflowCents s + v) |>
                 <| cf_MonthlyFixedExpenseCents := wrap64 (cf_MonthlyFixedExpenseCents s + v) |>
                 <| cf_MonthlyNetIncomeCents := wrap64 (cf_MonthlyNetIncomeCents s - v) |>) next;
      with_claim json_int record "childcare_cost_delta_cents" (fun v s =>
        s <| cf_MonthlyOutflowCents := wrap64 (cf_MonthlyOutflowCents s + v) |>
          <| cf_MonthlyVariableExpenseCents := wrap64 (cf_MonthlyVariableExpenseCents s + v) |>
          <| cf_MonthlyNetIncomeCents := wrap64 (cf_MonthlyNetIncomeCents s - v) |>) next
  | _ => mret next
  end.

Definition savings_rate (s : CashflowState) : float64 :=
  let savings := f_div (f_of_int (wrap64 (cf_MonthlyInflowCents s - cf_MonthlyOutflowCents s)))
                       (f_of_int (cf_MonthlyInflowCents s)) in
  roundDown (if f_ltb savings f_zero then f_zero else savings) 4.

Definition CashflowReducer (current : CashflowState) (evidence : list EvidenceRecord) : error + CashflowState :=
  next ← reduce_over cashflow_step evidence current;
  mret (if 0 <? cf_MonthlyInflowCents next then next <| cf_SavingsRate := savings_rate next |> else next).

Definition liability_step (record : EvidenceRecord) (next : LiabilityState) : error + LiabilityState :=
  match er_Type record with
  | EvidenceTypeDebtObligationSnapshot =>
      next ← with_claim json_int record "total_debt_cents" (fun v s => s <| li_TotalDebtCents := v |>) next;
      next ← with_claim json_float record "average_apr" (fun v s => s <| li_AverageAPR := v |>) next;
      next ← with_claim json_float record "debt_burden_ratio" (fun v s => s <| li_DebtBurdenRatio := v |>) next;
      next ← with_claim json_float record "minimum_payment_pressure" (fun v s => s <| li_MinimumPaymentPressure := v |>) next;
      with_claim (json_slice json_account) record "accounts" (fun v s => s <| li_Accounts := v |>) next
  | EvidenceTypeEventSignal =>
      with_claim json_int record "mortgage_balance_cents" (fun v s =>
        if 0 <? v then s <| li_TotalDebtCents := v |> else s) next
  | _ => mret next
  end.

Definition LiabilityReducer (current : LiabilityState) (evidence : list EvidenceRecord) : error + LiabilityState :=
  reduce_over liability_step evidence current.

Definition portfolio_step (record : EvidenceRecord) (next : PortfolioState) : error + PortfolioState :=
  match er_Type record with
  | EvidenceTypePortfolioAllocationSnap | EvidenceTypeBrokerStatement =>
      next ← with_claim json_int record "total_investable_assets_cents" (fun v s => s <| pf_TotalInvestableAssetsCents := v |>) next;
      next ← with_claim (json_map json_float) record "asset_allocations" (fun v s => s <| pf_AssetAllocations := v |>) next;
      next ← with_claim (json_map json_float) record "target_allocations" (fun v s => s <| pf_TargetAllocations := v |>) next;
      next ← with_claim (json_map json_float) record "allocation_drift" (fun v s => s <| pf_AllocationDrift := v |>) next;
      with_claim json_float record "emergency_fund_months" (fun v s => s <| pf_EmergencyFundMonths := v |>) next
  | _ => mret next
  end.

Definition PortfolioReducer (current : PortfolioState) (evidence : list EvidenceRecord) : error + PortfolioState :=
  reduce_over portfolio_step evidence current.

Definition tax_step (record : EvidenceRecord) (next : TaxState) : error + TaxState :=
  let childcare := with_claim json_bool record "childcare_tax_signal" (fun v s => s <| tx_ChildcareTaxSignal := v |>) in
  match er_Type record with
  | EvidenceTypePayslipStatement =>
      next ← with_claim json_float record "effective_tax_rate" (fun v s => s <| tx_EffectiveTaxRate := v |>) next;
      next ← with_claim json_int record "childcare_benefit_cents" (fun v s => s <| tx_TaxAdvantagedContributionCents := v |>) next;
      childcare next
  | EvidenceTypeTaxDocument =>
      next ← childcare next;
      with_claim json_text record "tax_signal_reason" (fun v s =>
        if v == "" then s else s <| tx_FamilyTaxNotes := appendUnique (tx_FamilyTaxNotes s) v |>) next
  | EvidenceTypeEventSignal =>
      next ← childcare next;
      with_claim json_bool record "withholding_review_required" (fun v s =>
        if v then s <| tx_FamilyTaxNotes := appendUnique (tx_FamilyTaxNotes s) "withholding_review_required" |> else s) next
  | EvidenceTypeCalendarDeadline =>
      with_claim json_text record "description" (fun v s =>
        if v == "" then s else s <| tx_UpcomingDeadlines := appendUnique (tx_UpcomingDeadlines s) v |>) next
  | _ => mret next
  end.

Definition TaxReducer (current : TaxState) (evidence : list EvidenceRecord) : error + TaxState :=
  reduce_over tax_step evidence current.

Definition behavior_step (record : EvidenceRecord) (next : BehaviorState) : error + BehaviorState :=
  match er_Type record with
  | EvidenceTypeRecurringSubscription =>
      next ← with_claim json_int record "duplicate_subscription_count" (fun v s => s <| bh_DuplicateSubscriptionCount := v |>) next;
      with_claim (json_slice json_text) record "recurring_subscription_merchants" (fun v s => s <| bh_RecurringSubscriptions := v |>) next
  | EvidenceTypeLateNightSpendingSignal =>
      with_claim json_float record "late_night_spending_frequency" (fun v s => s <| bh_LateNightSpendingFrequency := v |>) next
  | _ => mret next
  end.

Definition late_night_flag (s : BehaviorState) : bool := f_leb (f_const 3 10) (bh_LateNightSpendingFrequency s).
Definition subscription_flag (s : BehaviorState) : bool := 2 <=? bh_DuplicateSubscriptionCount s.

Definition item_if (b : bool) (item : string) : list string := if b then [item] else [].

Definition BehaviorReducer (current : BehaviorState) (evidence : list EvidenceRecord) : error + BehaviorState :=
  next ← reduce_over behavior_step evidence current;
  mret (next
    <| bh_AnomalyFlags := item_if (late_night_flag next) "late_night_spending" ++
                          item_if (subscription_flag next) "duplicate_subscriptions" |>
    <| bh_InterventionQueue := item_if (late_night_flag next) "review late-night discretionary spending" ++
                               item_if (subscription_flag next) "review recurring subscriptions" |>).

(** The greatest absolute drift; NaN is passed over. *)
Definition max_drift (drifts : list float64) : float64 :=
  fold_left (fun maximum drift =>
    let value := if f_ltb drift f_zero then SFopp drift else drift in
    if f_ltb maximum value then value else maximum) drifts f_zero.

Definition level (high medium : bool) : string := if high then "high" else if medium then "medium" else "low".

Definition RiskReducer `{MO : MapOrder} (current : RiskState) (cashflow : CashflowState) (liability : LiabilityState)
    (portfolio : PortfolioState) (tax : TaxState) (behavior : BehaviorState) : RiskState :=
  let savings := cf_SavingsRate cashflow in
  let months := pf_EmergencyFundMonths portfolio in
  let drift := max_drift (map_values (pf_AllocationDrift portfolio)) in
  let burden := li_DebtBurdenRatio liability in
  let pressure := li_MinimumPaymentPressure liability in
  let liquidity := level (f_ltb savings (f_const 5 100) || f_ltb months (f_of_int 1))
                         (f_ltb savings (f_const 2 10) || f_ltb months (f_of_int 3)) in
  let concentration := level (f_leb (f_const 15 100) drift) (f_leb (f_const 8 100) drift) in
  let debt := level (f_leb (f_const 35 100) burden || f_leb (f_const 2 10) pressure)
                    (f_leb (f_const 2 10) burden || f_leb (f_const 1 10) pressure) in
  current
    <| rk_LiquidityRisk := liquidity |>
    <| rk_ConcentrationRisk := concentration |>
    <| rk_DebtStressLevel := debt |>
    <| rk_ComplianceFlags := item_if (tx_ChildcareTaxSignal tax) "family_tax_followup" ++
                             item_if (2 <=? bh_DuplicateSubscriptionCount behavior) "subscription_review" |>
    <| rk_OverallRisk := level ((liquidity == "high") || (debt == "high") || (concentration == "high"))
                               ((liquidity == "medium") || (concentration == "medium") || (debt == "medium")) |>.

Definition WorkflowReducer (current : WorkflowState) (taskID workflowID phase : string) (evidence : list EvidenceRecord)
    (now : time) : WorkflowState :=
  let next := current <| ws_ActiveWorkflowID := workflowID |> <| ws_LastTaskID := taskID |> in
  let next := if phase == "" then next else next <| ws_Phase := phase |> in
  let next := next <| ws_LastUpdatedAt := now |> in
  match evidence with [] => next | _ => next <| ws_EvidenceStatus := "observed" |> end.

(** ** The patch *)

(** The blocks a patch replaces: the values of the [map[string]any]. *)
Inductive state_block :=
| CashflowBlock (s : CashflowState)
| LiabilityBlock (s : LiabilityState)
| PortfolioBlock (s : PortfolioState)
| TaxBlock (s : TaxState)
| BehaviorBlock (s : BehaviorState)
| RiskBlock (s : RiskState)
| WorkflowBlock (s : WorkflowState).

Definition marshal_block (b : state_block) : error + string :=
  match b with
  | CashflowBlock s => marshalled json_cashflow s
  | LiabilityBlock s => marshalled json_liability s
  | PortfolioBlock s => marshalled json_portfolio s
  | TaxBlock s => marshalled json_tax s
  | BehaviorBlock s => marshalled json_behavior s
  | RiskBlock s => marshalled json_risk s
  | WorkflowBlock s => marshalled json_workflow s
  end.

Fixpoint mutations_for (id : EvidenceID) (blocks : list (string * state_block)) : error + list StateMutation :=
  match blocks with
  | [] => mret []
  | (key, block) :: blocks =>
      payload ← marshal_block block;
      rest ← mutations_for id blocks;
      mret (mkStateMutation key "replace" payload id :: rest)
  end.

(** The blocks in the order of their keys. *)
Definition buildMutations `{MO : MapOrder} (evidence : list EvidenceRecord) (blocks : gmap string state_block) :
    error + list StateMutation :=
  match evidence with
  | [] => inl (PlainError "build mutations requires evidence")
  | first :: _ => mutations_for (er_ID first) (slices_SortFunc (compare_id fst) (map_range blocks))
  end.

(** A slice whose array has been reused for [next]: what [old] reads then. *)
Definition reused {A} (old next : list A) : list A := take (length old) (next ++ drop (length next) old).

Record reduced_blocks := mkReducedBlocks {
  rb_Cashflow : CashflowState;
  rb_Liability : LiabilityState;
  rb_Portfolio : PortfolioState;
  rb_Tax : TaxState;
  rb_Behavior : BehaviorState;
  rb_Risk : RiskState;
  rb_Workflow : WorkflowState;
}.

Definition reduced `{MO : MapOrder} (current : FinancialWorldState) (evidence : list EvidenceRecord)
    (taskID workflowID phase : string) (now : time) : error + reduced_blocks :=
  cashflow ← CashflowReducer (fw_CashflowState current) evidence;
  liability ← LiabilityReducer (fw_LiabilityState current) evidence;
  portfolio ← PortfolioReducer (fw_PortfolioState current) evidence;
  tax ← TaxReducer (fw_TaxState current) evidence;
  behavior ← BehaviorReducer (fw_BehaviorState current) evidence;
  mret (mkReducedBlocks cashflow liability portfolio tax behavior
    (RiskReducer (fw_RiskState current) cashflow liability portfolio tax behavior)
    (WorkflowReducer (fw_WorkflowState current) taskID workflowID phase evidence now)).

Definition block_map (b : reduced_blocks) : gmap string state_block :=
  list_to_map
    [("cashflow", CashflowBlock (rb_Cashflow b));
     ("liability", LiabilityBlock (rb_Liability b));
     ("portfolio", PortfolioBlock (rb_Portfolio b));
     ("tax", TaxBlock (rb_Tax b));
     ("behavior", BehaviorBlock (rb_Behavior b));
     ("risk", RiskBlock (rb_Risk b));
     ("workflow", WorkflowBlock (rb_Workflow b))].

(** The state [BuildPatch] was called with, once the reducers are through. *)
Definition caller_state (current : FinancialWorldState) (b : reduced_blocks) : FinancialWorldState :=
  let behavior := fw_BehaviorState current in
  let risk := fw_RiskState current in
  current
    <| fw_BehaviorState := behavior
         <| bh_AnomalyFlags := reused (bh_AnomalyFlags behavior) (bh_AnomalyFlags (rb_Behavior b)) |>
         <| bh_InterventionQueue := reused (bh_InterventionQueue behavior) (bh_InterventionQueue (rb_Behavior b)) |> |>
    <| fw_RiskState := risk
         <| rk_ComplianceFlags := reused (rk_ComplianceFlags risk) (rk_ComplianceFlags (rb_Risk b)) |> |>.

(** [DeterministicReducerEngine.BuildPatch]: the caller's state afterwards,
    and the patch or the error; [now] is the reading of the clock. *)
Definition BuildPatch `{MO : MapOrder} (current : FinancialWorldState) (evidence : list EvidenceRecord)
    (taskID workflowID phase : string) (now : time) : FinancialWorldState * (error + EvidencePatch) :=
  match evidence with
  | [] => (current, inl (PlainError "reducers require at least one evidence record"))
  | _ =>
      match reduced current evidence taskID workflowID phase now with
      | inl err => (current, inl err)
      | inr blocks =>
          (caller_state current blocks,
           mutations ← buildMutations evidence (block_map blocks);
           mret {| epa_Evidence := evidence;
                   epa_Mutations := mutations;
                   epa_Summary := "applied " +:+ Itoa (Z.of_nat (length evidence)) +:+
                                  " evidence records into financial world state";
                   epa_AppliedAt := now |})
      end
  end.
End state.
