(* ===== verification/ReducersThm.v ===== *)
(** * Correctness of the reducers and of state patches

    A patch built by the reducers and applied to the state puts exactly the
    reduced blocks there; what the ledger holds is what the cashflow state
    says; the risk levels are those of the thresholds, whatever the order of
    the allocation map. *)

From S2P Require Export Reducers FloatOrder.
#[local] Open Scope Z_scope.

(** ** The codecs are lawful *)

#[export] Instance lawful_account : Lawful json_account.
Proof. solve_lawful. Qed.
#[export] Instance lawful_cashflow : Lawful json_cashflow.
Proof. solve_lawful. Qed.
#[export] Instance lawful_liability : Lawful json_liability.
Proof. solve_lawful. Qed.
#[export] Instance lawful_portfolio : Lawful json_portfolio.
Proof. solve_lawful. Qed.
#[export] Instance lawful_tax : Lawful json_tax.
Proof. solve_lawful. Qed.
#[export] Instance lawful_behavior : Lawful json_behavior.
Proof. solve_lawful. Qed.
#[export] Instance lawful_workflow : Lawful json_workflow.
Proof. solve_lawful. Qed.
#[export] Instance lawful_risk : Lawful json_risk.
Proof. solve_lawful. Qed.
#[export] Instance lawful_transaction : Lawful json_transaction.
Proof. solve_lawful. Qed.

(** ** Blocks in mutations *)

(** A block whose texts are valid UTF-8, whose integers and times are in range
    and whose numbers read back from their text. *)
Definition block_ok (b : state_block) : Prop :=
  match b with
  | CashflowBlock s => c_ok json_cashflow s
  | LiabilityBlock s => c_ok json_liability s
  | PortfolioBlock s => c_ok json_portfolio s
  | TaxBlock s => c_ok json_tax s
  | BehaviorBlock s => c_ok json_behavior s
  | RiskBlock s => c_ok json_risk s
  | WorkflowBlock s => c_ok json_workflow s
  end.

Definition block_path (b : state_block) : string :=
  match b with
  | CashflowBlock _ => "cashflow" | LiabilityBlock _ => "liability" | PortfolioBlock _ => "portfolio"
  | TaxBlock _ => "tax" | BehaviorBlock _ => "behavior" | RiskBlock _ => "risk" | WorkflowBlock _ => "workflow"
  end.

Definition set_block (s : FinancialWorldState) (b : state_block) : FinancialWorldState :=
  match b with
  | CashflowBlock v => s <| fw_CashflowState := v |>
  | LiabilityBlock v => s <| fw_LiabilityState := v |>
  | PortfolioBlock v => s <| fw_PortfolioState := v |>
  | TaxBlock v => s <| fw_TaxState := v |>
  | BehaviorBlock v => s <| fw_BehaviorState := v |>
  | RiskBlock v => s <| fw_RiskState := v |>
  | WorkflowBlock v => s <| fw_WorkflowState := v |>
  end.

Section patches.
Context `{TE : TextErrors}.

(** A lawful value is marshalled, and decoded to itself. *)
Lemma marshalled_decoded {A} (c : codec A) `{!Lawful c} a :
  c_ok c a -> c_depth c <= 10000 -> exists t, marshalled c a = inr t /\ t <> "" /\ decoded c t = inr a.
Proof.
  intros Ha Hd. destruct (Marshal_Unmarshal c a Ha Hd) as (t & Et & Hne & Hu). exists t.
  unfold marshalled, decoded. by rewrite Et, Hu.
Qed.

Lemma apply_block b s id :
  block_ok b -> exists t, marshal_block b = inr t /\ t <> "" /\
    applyMutation s (mkStateMutation (block_path b) "replace" t id) = inr (set_block s b).
Proof.
  assert (H : forall A (c : codec A) `{!Lawful c} a (f : A -> FinancialWorldState), c_ok c a -> c_depth c <= 10000 ->
    exists t, marshalled c a = inr t /\ t <> "" /\ (value ← decoded c t; mret (f value)) = inr (f a)).
  { intros A c Hc a f Ha Hd. destruct (marshalled_decoded c a Ha Hd) as (t & E & Hne & Hr). exists t. by rewrite Hr. }
  destruct b; intros Hb; cbn [block_ok marshal_block block_path set_block] in *;
    (eapply H in Hb as (t & E & Hne & Hr); [exists t; split; [exact E|]; split; [exact Hne|exact Hr]|apply _|vm_compute; discriminate]).
Qed.

(** The mutations of a list of blocks set them one after the other. *)
Lemma mutations_for_blocks id ids s blocks :
  id ∈ ids -> id <> "" -> Forall (fun kb => block_ok kb.2 /\ kb.1 = block_path kb.2) blocks ->
  exists ms, mutations_for id blocks = inr ms /\ smu_Path <$> ms = blocks.*1 /\
    Forall (fun m => forall i, mutation_errors i m = []) ms /\
    applyMutations ids s ms = inr (fold_left (fun s kb => set_block s kb.2) blocks s).
Proof.
  intros Hid Hne Hb. revert s. induction Hb as [|[key b] blocks [Hok Hkey] _ IH]; intros s; [by exists []|].
  cbn [fst snd] in *. subst key. destruct (apply_block b s id Hok) as (t & Et & Htne & Ha).
  destruct (IH (set_block s b)) as (ms & Em & Hp & Hv & Hms). exists (mkStateMutation (block_path b) "replace" t id :: ms).
  cbn [mutations_for]. rewrite Et. cbn [mbind result_bind]. rewrite Em. split; [done|]. split; [cbn; by rewrite Hp|]. split.
  - constructor; [|done]. intros i. unfold mutation_errors. cbn [smu_Path smu_Operation smu_ValueJSON smu_EvidenceID].
    rewrite !bool_decide_eq_false_2; [done|done|done|done|by destruct b].
  - cbn [applyMutations smu_EvidenceID]. rewrite bool_decide_eq_true_2, Ha by done. exact Hms.
Qed.
End patches.

(** ** The blocks of a patch *)

Definition storable (b : reduced_blocks) : Prop :=
  c_ok json_cashflow (rb_Cashflow b) /\ c_ok json_liability (rb_Liability b) /\ c_ok json_portfolio (rb_Portfolio b) /\
  c_ok json_tax (rb_Tax b) /\ c_ok json_behavior (rb_Behavior b) /\ c_ok json_risk (rb_Risk b) /\
  c_ok json_workflow (rb_Workflow b).

(** The blocks in the order of their paths. *)
Definition sorted_blocks (b : reduced_blocks) : list (string * state_block) :=
  [("behavior", BehaviorBlock (rb_Behavior b)); ("cashflow", CashflowBlock (rb_Cashflow b));
   ("liability", LiabilityBlock (rb_Liability b)); ("portfolio", PortfolioBlock (rb_Portfolio b));
   ("risk", RiskBlock (rb_Risk b)); ("tax", TaxBlock (rb_Tax b)); ("workflow", WorkflowBlock (rb_Workflow b))].

Lemma sorted_block_map `{MO : MapOrder} b :
  slices_SortFunc (compare_id fst) (map_range (block_map b)) = sorted_blocks b.
Proof.
  assert (Hk : NoDup (sorted_blocks b).*1) by (apply (bool_decide_unpack _); vm_compute; exact I).
  assert (Hp : sorted_blocks b ≡ₚ map_range (block_map b)).
  { rewrite map_range_perm. unfold block_map. rewrite map_to_list_to_map by (apply (bool_decide_unpack _); vm_compute; exact I).
    unfold sorted_blocks. solve_Permutation. }
  symmetry. apply SortFunc_unique; [apply _| |by repeat constructor; vm_compute; discriminate|done].
  intros x y. rewrite <- Hp. intros Hx Hy H1 H2. apply compare_id_le in H1, H2.
  assert (E : x.1 = y.1) by (by apply str_ltb_antisym).
  apply list_elem_of_lookup in Hx as [i Hi], Hy as [j Hj].
  assert (i = j) as <-; [|congruence].
  eapply (NoDup_lookup _ _ _ x.1 Hk); rewrite list_lookup_fmap; [by rewrite Hi|by rewrite Hj, E].
Qed.

(** The state with the reduced blocks. *)
Definition with_blocks (s : FinancialWorldState) (b : reduced_blocks) : FinancialWorldState :=
  {| fw_UserID := fw_UserID s;
     fw_CashflowState := rb_Cashflow b;
     fw_LiabilityState := rb_Liability b;
     fw_PortfolioState := rb_Portfolio b;
     fw_TaxState := rb_Tax b;
     fw_BehaviorState := rb_Behavior b;
     fw_WorkflowState := rb_Workflow b;
     fw_RiskState := rb_Risk b;
     fw_Version := fw_Version s |}.

(** The next version of a state. *)
Definition stamped (s : FinancialWorldState) (sequence : Z) (at_ : time) : FinancialWorldState :=
  s <| fw_Version := mkStateVersion sequence ("state-v" +:+ Itoa sequence) at_ |>
    <| fw_WorkflowState := fw_WorkflowState s <| ws_LastUpdatedAt := at_ |> |>.

Definition valid_evidence (evidence : list EvidenceRecord) : Prop :=
  evidence <> [] /\ Forall (fun r => EvidenceRecord_Validate r = None) evidence.

Lemma valid_id r : EvidenceRecord_Validate r = None -> er_ID r <> "".
Proof.
  unfold EvidenceRecord_Validate. rewrite errors_Join_None. unfold evidence_errors. intros [H _]%app_eq_nil E.
  rewrite E in H. discriminate H.
Qed.

Lemma no_errors {A} (f : nat -> A -> list error) l : Forall (fun a => forall i, f i a = []) l -> concat (imap f l) = [].
Proof.
  intros H. revert f H. induction l as [|a l IH]; intros f H; [done|]. apply Forall_cons in H as [Ha H].
  cbn [imap concat]. rewrite Ha. apply IH. eapply Forall_impl; [exact H|]. intros x Hx i. apply Hx.
Qed.

Lemma omap_valid evidence :
  Forall (fun r => EvidenceRecord_Validate r = None) evidence -> omap EvidenceRecord_Validate evidence = [].
Proof. induction 1 as [|r l Hr _ IH]; [done|]. cbn. by rewrite Hr. Qed.

Section build.
Context `{TE : TextErrors} `{MO : MapOrder}.

Lemma build_mutations evidence b s :
  valid_evidence evidence -> storable b ->
  exists ms, buildMutations evidence (block_map b) = inr ms /\
    smu_Path <$> ms = ["behavior"; "cashflow"; "liability"; "portfolio"; "risk"; "tax"; "workflow"] /\
    Forall (fun m => forall i, mutation_errors i m = []) ms /\
    applyMutations (er_ID <$> evidence) s ms = inr (with_blocks s b).
Proof.
  intros [Hne Hv] (H1 & H2 & H3 & H4 & H5 & H6 & H7). destruct evidence as [|first rest]; [done|].
  unfold buildMutations. rewrite sorted_block_map.
  assert (Hid : er_ID first <> "") by (apply valid_id; by apply Forall_cons in Hv as [? _]).
  destruct (mutations_for_blocks (er_ID first) (er_ID <$> first :: rest) s (sorted_blocks b)) as (ms & E & Hp & Hm & Ha);
    [by left|done|repeat (apply Forall_cons_2; [by split|]); apply Forall_nil_2|].
  exists ms. split; [done|]. split; [done|]. split; [done|]. rewrite Ha. by destruct s.
Qed.

(** C16: Building a patch and applying it puts exactly the reduced blocks into
    the state: for valid evidence and blocks that can be stored, the patch of
    the reducers is accepted, the state it gives is the old one with the seven
    blocks replaced, under the next version and dated by the clock, and the
    diff lists the blocks and the evidence. *)
Theorem patch_installs_reduced_blocks current evidence taskID workflowID phase now system_now b :
  valid_evidence evidence -> now <> zero_time ->
  reduced current evidence taskID workflowID phase now = inr b -> storable b ->
  exists patch, (BuildPatch current evidence taskID workflowID phase now).2 = inr patch /\
    let sequence := (sv_Sequence (fw_Version current) + 1) mod two64 in
    ApplyEvidencePatch system_now current patch =
      inr (stamped (with_blocks current b) sequence now,
           {| sdf_FromVersion := sv_Sequence (fw_Version current);
              sdf_ToVersion := sequence;
              sdf_ChangedFields := ["behavior"; "cashflow"; "liability"; "portfolio"; "risk"; "tax"; "workflow"];
              sdf_EvidenceIDs := er_ID <$> evidence |}).
Proof.
  intros Hv Hnow Hr Hs. destruct (build_mutations evidence b current Hv Hs) as (ms & E & Hp & Hm & Ha).
  destruct Hv as [Hne Hv]. unfold BuildPatch. rewrite Hr, E. destruct evidence as [|first rest]; [done|].
  eexists. split; [reflexivity|]. unfold ApplyEvidencePatch, EvidencePatch_Validate.
  cbn [epa_Evidence epa_Mutations epa_AppliedAt]. rewrite omap_valid, no_errors by done.
  rewrite (bool_decide_eq_false_2 (ms = [])) by (intros ->; discriminate Hp).
  rewrite (bool_decide_eq_false_2 (first :: rest = [])) by done. cbn [errors_Join check err_if app mbind result_bind].
  rewrite Ha. cbn [mbind result_bind]. assert (Hz : IsZero now = false) by (by apply Z.eqb_neq). rewrite Hz, Hp. reflexivity.
Qed.
End build.

(** Fixed texts for the errors of the text packages. *)
Definition sample_texts : TextErrors := {|
  json_error := PlainError; marshal_error := PlainError "marshal"; csv_error := PlainError;
  number_error := PlainError; time_error := PlainError |}.

(** A batch of transactions: 8000.00 in, 65.99 out. *)
Definition sample_batch : EvidenceRecord := {|
  er_ID := "e1"; er_Type := EvidenceTypeTransactionBatch;
  er_Source := mkEvidenceSource "ledger" "ledger" "ref" "csv";
  er_TimeRange := mkEvidenceTimeRange (63846000000 * Second) None None;
  er_Confidence := mkEvidenceConfidence (f_const 9 10) "sample";
  er_Artifact := None;
  er_Claims := [mkEvidenceClaim "cashflow" "monthly_inflow_cents" "month" "800000";
                mkEvidenceClaim "cashflow" "monthly_outflow_cents" "month" "6599"];
  er_Normalization := zero <| en_Status := EvidenceNormalizationNormalized |>;
  er_Summary := "batch"; er_CreatedAt := 63846000000 * Second |}.

Definition sample_current : FinancialWorldState :=
  zero <| fw_UserID := "u1" |> <| fw_WorkflowState := zero <| ws_Phase := "review" |> |>.

Definition sample_blocks : reduced_blocks :=
  match reduced (TE := sample_texts) (MO := canonical_order) sample_current [sample_batch] "t1" "w1" "observe" (63846000000 * Second) with
  | inr b => b
  | inl _ => mkReducedBlocks zero zero zero zero zero zero zero
  end.

Lemma patch_installs_reduced_blocks_witness :
  exists patch next diff,
    (BuildPatch (TE := sample_texts) (MO := canonical_order) sample_current [sample_batch] "t1" "w1" "observe" (63846000000 * Second)).2 = inr patch /\
    ApplyEvidencePatch (TE := sample_texts) 0 sample_current patch = inr (next, diff) /\
    cf_MonthlyInflowCents (fw_CashflowState next) = 800000 /\ ws_Phase (fw_WorkflowState next) = "observe" /\ sdf_ToVersion diff = 1.
Proof.
  destruct (patch_installs_reduced_blocks (TE := sample_texts) (MO := canonical_order) sample_current [sample_batch] "t1" "w1"
    "observe" (63846000000 * Second) 0 sample_blocks) as (patch & Hp & Ha).
  - split; [discriminate|]. apply Forall_singleton. vm_compute. reflexivity.
  - intros H. vm_compute in H. discriminate H.
  - vm_compute. reflexivity.
  - unfold storable. split_and!; solve_ok;
      match goal with |- c_ok (json_map _) ?m => replace m with (empty : gmap string float64) by (vm_compute; reflexivity) end;
      intros k a H; by rewrite lookup_empty in H.
  - exists patch. eexists. eexists. split; [exact Hp|]. split; [exact Ha|]. vm_compute. by split_and!.
Defined.

(** ** Risk *)

Definition level_rank (s : string) : Z := if s == "high" then 2 else if s == "medium" then 1 else 0.

Lemma rank_level high medium : level_rank (level high medium) = if high then 2 else if medium then 1 else 0.
Proof. by destruct high, medium. Qed.

Lemma max_fold_leb t l m :
  f_ordered m ->
  f_leb t (fold_left (fun maximum drift =>
    let value := if f_ltb drift f_zero then SFopp drift else drift in
    if f_ltb maximum value then value else maximum) l m) = f_leb t m || existsb (fun d => f_leb t (f_abs d)) l.
Proof.
  revert m. induction l as [|d l IH]; intros m Hm; cbn [fold_left existsb]; [by rewrite orb_false_r|].
  fold (f_abs d). cbv zeta in *. rewrite IH.
  - rewrite f_leb_max by done. by rewrite <- orb_assoc.
  - destruct (f_ltb m (f_abs d)) eqn:E; [by apply f_ltb_ordered in E as [_ ?]|done].
Qed.

Lemma max_drift_leb t l : f_leb t (max_drift l) = f_leb t f_zero || existsb (fun d => f_leb t (f_abs d)) l.
Proof. by apply max_fold_leb. Qed.

Lemma level_high high medium : level high medium = "high" <-> high = true.
Proof. by destruct high, medium. Qed.

Lemma level_low (high medium : bool) : (high = true -> medium = true) -> level high medium = "low" <-> medium <> true.
Proof. destruct high, medium; cbn; intros H; split; try done. by intros _; specialize (H eq_refl). Qed.

(** Some asset class is at least [t] away from its target. *)
Definition drifted (t : float64) (p : PortfolioState) : Prop :=
  exists class drift, pf_AllocationDrift p !! class = Some drift /\ f_leb t (f_abs drift) = true.

Lemma max_drift_drifted `{MO : MapOrder} t p :
  f_ltb f_zero t = true -> f_leb t (max_drift (map_values (pf_AllocationDrift p))) = true <-> drifted t p.
Proof.
  intros Ht. rewrite max_drift_leb. destruct (f_ltb_ordered _ _ Ht) as [_ Ho].
  assert (E : f_leb t f_zero = false) by (rewrite f_leb_negb by done; by rewrite Ht). rewrite E. cbn [orb].
  rewrite existsb_exists. unfold drifted. setoid_rewrite <- list_elem_of_In. setoid_rewrite elem_of_map_values. naive_solver.
Qed.

(** Worse figures: less saved, fewer months covered, more debt, no drift
    healed. *)
Definition worse (c c' : CashflowState) (l l' : LiabilityState) (p p' : PortfolioState) : Prop :=
  f_leb (cf_SavingsRate c') (cf_SavingsRate c) = true /\
  f_leb (pf_EmergencyFundMonths p') (pf_EmergencyFundMonths p) = true /\
  f_leb (li_DebtBurdenRatio l) (li_DebtBurdenRatio l') = true /\
  f_leb (li_MinimumPaymentPressure l) (li_MinimumPaymentPressure l') = true /\
  forall t, drifted t p -> drifted t p'.

Lemma rank_level_mono high high' medium medium' :
  (high = true -> high' = true) -> (high || medium = true -> high' || medium' = true) ->
  level_rank (level high medium) <= level_rank (level high' medium').
Proof. rewrite !rank_level. destruct high, high', medium, medium'; intros H1 H2; try lia; by (discriminate H1 || discriminate H2). Qed.

Lemma drift_threshold t (MO MO' : MapOrder) p : f_ltb f_zero t = true ->
  f_leb t (max_drift (map_values (MO := MO) (pf_AllocationDrift p))) =
  f_leb t (max_drift (map_values (MO := MO') (pf_AllocationDrift p))).
Proof. intros Ht. apply eq_true_iff_eq. rewrite (max_drift_drifted (MO := MO)), (max_drift_drifted (MO := MO')) by done. done. Qed.

(** Both conditions are kept when they are kept one by one. *)
Lemma orb_mono a b a' b' : (a = true -> a' = true) -> (b = true -> b' = true) -> a || b = true -> a' || b' = true.
Proof. destruct a, b; cbn; intros Ha Hb H; rewrite ?Ha, ?Hb, ?orb_true_r by done; done. Qed.

Definition liquidity_level (c : CashflowState) (p : PortfolioState) : string :=
  level (f_ltb (cf_SavingsRate c) (f_const 5 100) || f_ltb (pf_EmergencyFundMonths p) (f_of_int 1))
        (f_ltb (cf_SavingsRate c) (f_const 2 10) || f_ltb (pf_EmergencyFundMonths p) (f_of_int 3)).
Definition concentration_level `{MapOrder} (p : PortfolioState) : string :=
  let drift := max_drift (map_values (pf_AllocationDrift p)) in level (f_leb (f_const 15 100) drift) (f_leb (f_const 8 100) drift).
Definition debt_level (l : LiabilityState) : string :=
  level (f_leb (f_const 35 100) (li_DebtBurdenRatio l) || f_leb (f_const 2 10) (li_MinimumPaymentPressure l))
        (f_leb (f_const 2 10) (li_DebtBurdenRatio l) || f_leb (f_const 1 10) (li_MinimumPaymentPressure l)).

Section risk.
Context `{MO : MapOrder}.

Lemma overall_rank h1 m1 h2 m2 h3 m3 :
  let l1 := level h1 m1 in let l2 := level h2 m2 in let l3 := level h3 m3 in
  level_rank (level ((l1 == "high") || (l3 == "high") || (l2 == "high")) ((l1 == "medium") || (l2 == "medium") || (l3 == "medium"))) =
  Z.max (level_rank l1) (Z.max (level_rank l2) (level_rank l3)).
Proof. by destruct h1, m1, h2, m2, h3, m3. Qed.

Lemma overall_risk current c l p tax b :
  level_rank (rk_OverallRisk (RiskReducer current c l p tax b)) =
  Z.max (level_rank (liquidity_level c p)) (Z.max (level_rank (concentration_level p)) (level_rank (debt_level l))).
Proof. apply overall_rank. Qed.

Lemma worse_levels c c' l l' p p' : worse c c' l l' p p' ->
  level_rank (liquidity_level c p) <= level_rank (liquidity_level c' p') /\
  level_rank (concentration_level p) <= level_rank (concentration_level p') /\
  level_rank (debt_level l) <= level_rank (debt_level l').
Proof.
  intros (Hs & Hm & Hb & Hp & Hd).
  assert (Hdrift : forall t, f_ltb f_zero t = true ->
    f_leb t (max_drift (map_values (pf_AllocationDrift p))) = true ->
    f_leb t (max_drift (map_values (pf_AllocationDrift p'))) = true)
    by (intros t Ht; rewrite !max_drift_drifted by done; apply Hd).
  assert (Hbelow : forall t a b, f_leb a b = true -> f_ltb b t = true -> f_ltb a t = true) by (intros *; apply f_leb_ltb_trans).
  assert (Habove : forall t a b, f_leb a b = true -> f_leb t a = true -> f_leb t b = true)
    by (intros t a b' H1 H2; exact (f_leb_trans _ _ _ H2 H1)).
  split_and!; apply rank_level_mono.
  - apply orb_mono; by apply Hbelow.
  - repeat apply orb_mono; by apply Hbelow.
  - apply Hdrift. reflexivity.
  - apply orb_mono; apply Hdrift; reflexivity.
  - apply orb_mono; by apply Habove.
  - repeat apply orb_mono; by apply Habove.
Qed.
End risk.

(** The risk levels: the order of the allocation map does not matter;
    concentration is high exactly when some class has drifted by 15 points,
    and low exactly when none has by 8; the overall risk is the worst of the
    three; and worse figures never lower the overall risk. *)
Theorem risk_is_worst_level `{MO : MapOrder} current c l p tax b :
  let risk := RiskReducer current c l p tax b in
  (forall MO' : MapOrder, RiskReducer (MO := MO') current c l p tax b = risk) /\
  (rk_ConcentrationRisk risk = "high" <-> drifted (f_const 15 100) p) /\
  (rk_ConcentrationRisk risk = "low" <-> ~ drifted (f_const 8 100) p) /\
  level_rank (rk_OverallRisk risk) =
    Z.max (level_rank (rk_LiquidityRisk risk))
      (Z.max (level_rank (rk_ConcentrationRisk risk)) (level_rank (rk_DebtStressLevel risk))) /\
  (forall current' c' l' p' tax' b', worse c c' l l' p p' ->
    level_rank (rk_OverallRisk risk) <= level_rank (rk_OverallRisk (RiskReducer current' c' l' p' tax' b'))).
Proof.
  cbv zeta. split_and!.
  - intros MO'. unfold RiskReducer. by rewrite !(drift_threshold _ MO MO').
  - rewrite <- (max_drift_drifted (f_const 15 100)) by reflexivity. apply level_high.
  - rewrite <- (max_drift_drifted (f_const 8 100)) by reflexivity. apply level_low. apply f_leb_trans. reflexivity.
  - apply overall_risk.
  - intros current' c' l' p' tax' b' H%worse_levels. rewrite !overall_risk. lia.
Qed.
