(* ===== verification/ObservationThm.v ===== *)
(** * Correctness of the observation package

    What the ledger adapter reports is what the transactions add up to, and
    what the cashflow reducer reads from it; a normalized record is left alone
    by another normalization. *)

From Stdlib Require Import Ascii.
From S2P Require Export ReducersThm.
#[local] Open Scope Z_scope.

(** ** Sums over [int64] *)

Lemma wrap64_add a b : wrap64 (wrap64 a + b) = wrap64 (a + b).
Proof.
  unfold wrap64. f_equal. replace ((a + two63) mod two64 - two63 + b + two63) with ((a + two63) mod two64 + b) by lia.
  rewrite Z.add_mod_idemp_l by done. f_equal. lia.
Qed.

(** The mathematical sum. *)
Definition total {A} (value : A -> Z) (l : list A) : Z := foldr Z.add 0 (value <$> l).

Lemma sum64_from {A} (value : A -> Z) l acc :
  fold_left (fun t a => wrap64 (t + value a)) l (wrap64 acc) = wrap64 (acc + total value l).
Proof.
  unfold total. revert acc. induction l as [|a l IH]; intros acc; cbn; [by rewrite Z.add_0_r|].
  rewrite wrap64_add, IH. f_equal. lia.
Qed.

Lemma sum64_total {A} (value : A -> Z) l : sum64 value l = wrap64 (total value l).
Proof. apply (sum64_from value l 0). Qed.

(** What [TransactionEvidenceExtractor] adds up. *)
Definition fixed_outflow (tx : LedgerTransactionRecord) : bool := negb (is_inflow tx) && isFixedExpenseCategory (lt_Category tx).

Definition amounts (p : LedgerTransactionRecord -> bool) (txs : list LedgerTransactionRecord) : Z :=
  total lt_AmountCents (List.filter p txs).

Lemma flows_total txs :
  fold_left add_flow txs (mkFlowTotals 0 0 0) =
  mkFlowTotals (wrap64 (amounts is_inflow txs)) (wrap64 (amounts (fun tx => negb (is_inflow tx)) txs))
    (wrap64 (amounts fixed_outflow txs)).
Proof.
  assert (H : forall i o f, fold_left add_flow txs (mkFlowTotals (wrap64 i) (wrap64 o) (wrap64 f)) =
    mkFlowTotals (wrap64 (i + amounts is_inflow txs)) (wrap64 (o + amounts (fun tx => negb (is_inflow tx)) txs))
      (wrap64 (f + amounts fixed_outflow txs))); [|apply (H 0 0 0)].
  unfold amounts, total, fixed_outflow. induction txs as [|tx txs IH]; intros i o f; cbn [fold_left List.filter fmap list_fmap foldr].
  { by rewrite !Z.add_0_r. }
  unfold add_flow at 2. cbn [inflow outflow fixedExpense].
  destruct (is_inflow tx), (isFixedExpenseCategory (lt_Category tx)); cbn [negb andb fmap list_fmap foldr];
    rewrite ?wrap64_add, IH; f_equal; f_equal; lia.
Qed.

(** ** Claims *)

Section claims.
Context `{TE : TextErrors} `{MO : MapOrder}.

Lemma claim_int subject predicate object_ z :
  claim subject predicate object_ json_int z = inr (mkEvidenceClaim subject predicate object_ (Itoa z)).
Proof. done. Qed.

Lemma claimsFromPairs_fmap {A} (f : A -> error + EvidenceClaim) (g : A -> EvidenceClaim) l :
  (forall a, f a = inr (g a)) -> claimsFromPairs (f <$> l) = inr (g <$> l).
Proof. intros H. induction l as [|a l IH]; [done|]. cbn. by rewrite H, IH. Qed.

Lemma decoded_int z : in_int64 z -> decoded json_int (Itoa z) = inr z.
Proof.
  intros Hz. destruct (marshalled_decoded json_int z Hz) as (t & E & _ & H); [done|]. by injection E as <-.
Qed.

(** A predicate used once is found. *)
Lemma claim_for_elem record c :
  NoDup (ecl_Predicate <$> er_Claims record) -> c ∈ er_Claims record -> claim_for record (ecl_Predicate c) = Some c.
Proof.
  unfold claim_for. generalize (er_Claims record) as l. induction l as [|d l IH]; intros Hn Hc; [by apply elem_of_nil in Hc|].
  cbn [fmap list_fmap List.find] in *. apply NoDup_cons in Hn as [Hd Hn]. apply elem_of_cons in Hc as [->|Hc].
  - by rewrite bool_decide_eq_true_2.
  - rewrite bool_decide_eq_false_2; [by apply IH|]. intros E. apply Hd. rewrite E. by apply list_elem_of_fmap_2.
Qed.
(** The claims of a batch, up to the order of the map they are taken from. *)
Definition int_claim (kv : string * Z) : EvidenceClaim := mkEvidenceClaim "cashflow" kv.1 "month" (Itoa kv.2).

Lemma claim_value_int record l k v :
  er_Claims record ≡ₚ int_claim <$> l -> NoDup l.*1 -> (k, v) ∈ l -> in_int64 v ->
  claim_value json_int record k = inr (Some v).
Proof.
  intros Hp Hn Hkv Hv. unfold claim_value.
  pose proof (claim_for_elem record (int_claim (k, v))) as H. cbn [int_claim ecl_Predicate fst] in H. rewrite H.
  - cbn [ecl_ValueJSON int_claim snd]. by rewrite decoded_int.
  - rewrite Hp. rewrite <- list_fmap_compose. exact Hn.
  - rewrite Hp. by apply list_elem_of_fmap_2.
Qed.

Lemma normalizer_inr system_now record n :
  CanonicalEvidenceNormalizer system_now record = inr n ->
  n = normalized_record system_now record /\ EvidenceRecord_Validate n = None.
Proof.
  unfold CanonicalEvidenceNormalizer. destruct (EvidenceRecord_Validate _) eqn:E; [done|]. by intros [= <-].
Qed.

Definition flow_list (t : flow_totals) : list (string * Z) :=
  [("monthly_inflow_cents", inflow t);
   ("monthly_outflow_cents", outflow t);
   ("monthly_net_income_cents", wrap64 (inflow t - outflow t));
   ("monthly_fixed_expense_cents", fixedExpense t);
   ("monthly_variable_expense_cents", wrap64 (outflow t - fixedExpense t))].

Lemma flow_values_perm t : map_range (flow_values t) ≡ₚ flow_list t.
Proof.
  rewrite map_range_perm. apply (map_to_list_to_map (M := gmap string)).
  apply (bool_decide_unpack _). vm_compute. exact I.
Qed.

Lemma normalize_flow_claims t : normalize_claim <$> (int_claim <$> flow_list t) = int_claim <$> flow_list t.
Proof. reflexivity. Qed.

Section batch.
Context (system_now : time) (userID : string) (now : time) (start end_ : option time).

(** The batch of the default extractor and normalizer. *)
Lemma batch_claims taskID txs batch :
  Forall (c_ok json_transaction) txs ->
  buildTransactionBatchEvidence (CanonicalEvidenceNormalizer system_now) userID now start end_
    TransactionEvidenceExtractor taskID txs = inr batch ->
  er_Type batch = EvidenceTypeTransactionBatch /\ et_Start (er_TimeRange batch) = start /\
  er_Claims batch ≡ₚ int_claim <$> flow_list (fold_left add_flow txs (mkFlowTotals 0 0 0)).
Proof.
  intros Hok. unfold buildTransactionBatchEvidence, TransactionEvidenceExtractor.
  destruct (marshalled_decoded (json_slice json_transaction) txs Hok) as (t & Et & _ & Hd); [vm_compute; discriminate|].
  unfold decoded in Hd. rewrite Et. cbn [mbind result_bind raw_Payload]. rewrite Hd. cbn [mbind result_bind].
  rewrite (claimsFromPairs_fmap _ int_claim) by done. cbn [mbind result_bind].
  intros [-> _]%normalizer_inr. split; [done|]. split; [done|].
  cbn [normalized_record er_Claims ledger_record]. unfold normalized_record, ledger_record. cbn [er_Claims set_field].
  change (normalize_claim <$> (int_claim <$> map_range (flow_values (fold_left add_flow txs (mkFlowTotals 0 0 0)))) ≡ₚ
    int_claim <$> flow_list (fold_left add_flow txs (mkFlowTotals 0 0 0))).
  by rewrite flow_values_perm, normalize_flow_claims.
Qed.
End batch.
End claims.

(** A step of a computation that returned has returned. *)
Lemma result_bind_inr {A B} (m : error + A) (k : A -> error + B) b :
  (m ≫= k) = inr b <-> exists a, m = inr a /\ k a = inr b.
Proof. destruct m as [e|a]; split; [done|by intros (? & [=] & _)|by exists a|by intros (? & [= ->] & H)]. Qed.

Ltac returned H :=
  repeat lazymatch type of H with
  | mbind _ _ = inr _ => apply result_bind_inr in H; let a := fresh "r" in let E := fresh "E" in destruct H as (a & E & H)
  end.

(** The cashflow block with the totals of a batch. *)
Definition with_flows (t : flow_totals) (month : string) (s : CashflowState) : CashflowState :=
  {| cf_MonthlyInflowCents := inflow t;
     cf_MonthlyOutflowCents := outflow t;
     cf_MonthlyNetIncomeCents := wrap64 (inflow t - outflow t);
     cf_MonthlyFixedExpenseCents := fixedExpense t;
     cf_MonthlyVariableExpenseCents := wrap64 (outflow t - fixedExpense t);
     cf_SavingsRate := cf_SavingsRate s;
     cf_LastComputedMonth := month |}.

Definition month_of (start : option time) (s : CashflowState) : string :=
  match start with Some t => Format_month t | None => cf_LastComputedMonth s end.

Section cashflow.
Context `{TE : TextErrors} `{MO : MapOrder}.

Lemma cashflow_step_batch batch t s :
  er_Type batch = EvidenceTypeTransactionBatch -> er_Claims batch ≡ₚ int_claim <$> flow_list t ->
  in_int64 (inflow t) -> in_int64 (outflow t) -> in_int64 (fixedExpense t) ->
  cashflow_step batch s = inr (with_flows t (month_of (et_Start (er_TimeRange batch)) s) s).
Proof.
  intros Ht Hc Hi Ho Hf. unfold cashflow_step. rewrite Ht.
  assert (Hn : NoDup (flow_list t).*1) by (apply (bool_decide_unpack _); vm_compute; exact I).
  assert (Hv : forall k v, (k, v) ∈ flow_list t -> claim_value json_int batch k = inr (Some v)).
  { intros k v Hkv. eapply claim_value_int; [done..|].
    unfold flow_list in Hkv. repeat (apply elem_of_cons in Hkv as [[= -> ->]|Hkv]; [by try apply wrap64_range|]).
    by apply elem_of_nil in Hkv. }
  unfold with_claim.
  rewrite (Hv "monthly_inflow_cents" (inflow t)) by (unfold flow_list; set_solver).
  rewrite (Hv "monthly_outflow_cents" (outflow t)) by (unfold flow_list; set_solver).
  rewrite (Hv "monthly_net_income_cents" (wrap64 (inflow t - outflow t))) by (unfold flow_list; set_solver).
  rewrite (Hv "monthly_fixed_expense_cents" (fixedExpense t)) by (unfold flow_list; set_solver).
  rewrite (Hv "monthly_variable_expense_cents" (wrap64 (outflow t - fixedExpense t))) by (unfold flow_list; set_solver).
  cbn [mbind result_bind mret result_ret]. by destruct (et_Start (er_TimeRange batch)).
Qed.

(** Evidence of other types leaves the cashflow block. *)
Definition no_cashflow (r : EvidenceRecord) : Prop :=
  er_Type r <> EvidenceTypeTransactionBatch /\ er_Type r <> EvidenceTypeEventSignal.

Lemma reduce_no_cashflow records s : Forall no_cashflow records -> reduce_over cashflow_step records s = inr s.
Proof.
  induction 1 as [|r records [H1 H2] _ IH]; [done|]. cbn [reduce_over].
  assert (E : cashflow_step r s = inr s) by (unfold cashflow_step; destruct (er_Type r); (done || congruence)).
  rewrite E. exact IH.
Qed.

(** A record the default normalizer returned has the type it was given. *)
Lemma normalized_type system_now record n :
  CanonicalEvidenceNormalizer system_now record = inr n -> er_Type n = er_Type record.
Proof. by intros [-> _]%normalizer_inr. Qed.

Lemma observed_records a request now system_now records :
  lo_Extractor a = None -> lo_Normalizer a = None ->
  Ledger_Observe a request now system_now = inr records ->
  let '(start, end_) := parseRequestTimeRange (oq_Params request) in
  let userID := TrimSpace (param (oq_Params request) "user_id") in
  let txs := filterTransactions (lo_Transactions a) userID start end_ in
  exists flows rest, records = flows ++ rest /\ Forall no_cashflow rest /\
    (txs = [] -> flows = []) /\
    (txs <> [] -> exists batch, flows = [batch] /\
      buildTransactionBatchEvidence (CanonicalEvidenceNormalizer system_now) userID now start end_
        TransactionEvidenceExtractor (oq_TaskID request) txs = inr batch).
Proof.
  intros Hx Hn. unfold Ledger_Observe. destruct (parseRequestTimeRange _) as [start end_]. rewrite Hx, Hn. cbn [default].
  cbv zeta. set (userID := TrimSpace _). set (txs := filterTransactions _ _ _ _). intros H. returned H. injection H as <-.
  assert (Hother : forall (b : bool) (m : error + EvidenceRecord) l, when b (record ← m; mret [record]) = inr l ->
    (forall record, m = inr record -> no_cashflow record) -> Forall no_cashflow l).
  { intros b m l Hl Hm. destruct b; [|injection Hl as <-; constructor]. cbn [when] in Hl. returned Hl. injection Hl as <-.
    constructor; [by apply Hm|constructor]. }
  apply Hother in E0; [|by intros record Hr; unfold buildDebtSnapshotEvidence in Hr; returned Hr;
    apply normalized_type in Hr; unfold no_cashflow; rewrite Hr].
  apply Hother in E1; [|by intros record Hr; unfold buildPortfolioSnapshotEvidence in Hr; returned Hr;
    apply normalized_type in Hr; unfold no_cashflow; rewrite Hr].
  case_bool_decide as Htx; cbn [negb when] in E.
  - injection E as <-. exists [], (r0 ++ r1). split; [done|]. split; [by apply Forall_app|]. by split.
  - returned E. injection E as <-. exists [r2], ([r3; r4] ++ r0 ++ r1). split; [done|]. split; [|split; [done|by eexists]].
    unfold buildRecurringSubscriptionEvidence in E3. unfold buildLateNightSpendingEvidence in E4. returned E3. returned E4.
    apply normalized_type in E3, E4. repeat apply Forall_cons_2; [by unfold no_cashflow; rewrite E3|by unfold no_cashflow; rewrite E4|].
    by apply Forall_app.
Qed.
End cashflow.

Lemma wrap64_sub a b : wrap64 (wrap64 a - wrap64 b) = wrap64 (a - b).
Proof.
  unfold wrap64. f_equal.
  replace ((a + two63) mod two64 - two63 - ((b + two63) mod two64 - two63) + two63)
    with ((a + two63) mod two64 - (b + two63) mod two64 + two63) by lia.
  rewrite <- Z.add_mod_idemp_l, <- Zminus_mod, Z.add_mod_idemp_l by done. f_equal. lia.
Qed.

Definition variable_outflow (tx : LedgerTransactionRecord) : bool :=
  negb (is_inflow tx) && negb (isFixedExpenseCategory (lt_Category tx)).

Lemma outflow_parts txs :
  amounts (fun tx => negb (is_inflow tx)) txs = amounts fixed_outflow txs + amounts variable_outflow txs.
Proof.
  unfold amounts, total, fixed_outflow, variable_outflow. induction txs as [|tx txs IH]; [done|]. cbn [List.filter].
  destruct (is_inflow tx), (isFixedExpenseCategory (lt_Category tx)); cbn [negb andb fmap list_fmap foldr]; lia.
Qed.

Lemma savings_rate_ext s s' :
  cf_MonthlyInflowCents s = cf_MonthlyInflowCents s' -> cf_MonthlyOutflowCents s = cf_MonthlyOutflowCents s' ->
  savings_rate s = savings_rate s'.
Proof. unfold savings_rate. by intros -> ->. Qed.

(** The transactions of a request, and the start of its window. *)
Definition requested (a : LedgerObservationAdapter) (request : ObservationRequest) : list LedgerTransactionRecord :=
  let '(start, end_) := parseRequestTimeRange (oq_Params request) in
  filterTransactions (lo_Transactions a) (TrimSpace (param (oq_Params request) "user_id")) start end_.

(** C17: What the ledger holds is what the cashflow state says: the records
    the ledger adapter observes make the cashflow reducer set the inflow, the
    outflow, the net income and the fixed and variable expenses to the sums
    over the requested transactions (as 64-bit integers), whatever the order
    of the claims and whatever else was observed; every transaction that is
    not an inflow counts as an outflow. *)
Theorem ledger_reaches_cashflow `{TE : TextErrors} `{MO : MapOrder} a request now system_now records current :
  lo_Extractor a = None -> lo_Normalizer a = None ->
  requested a request <> [] -> Forall (c_ok json_transaction) (requested a request) ->
  Ledger_Observe a request now system_now = inr records ->
  exists next, CashflowReducer current records = inr next /\
    let txs := requested a request in
    cf_MonthlyInflowCents next = wrap64 (amounts is_inflow txs) /\
    cf_MonthlyOutflowCents next = wrap64 (amounts (fun tx => negb (is_inflow tx)) txs) /\
    cf_MonthlyNetIncomeCents next = wrap64 (amounts is_inflow txs - amounts (fun tx => negb (is_inflow tx)) txs) /\
    cf_MonthlyFixedExpenseCents next = wrap64 (amounts fixed_outflow txs) /\
    cf_MonthlyVariableExpenseCents next = wrap64 (amounts variable_outflow txs) /\
    cf_LastComputedMonth next = month_of (parseRequestTimeRange (oq_Params request)).1 current /\
    cf_SavingsRate next = if 0 <? cf_MonthlyInflowCents next then savings_rate next else cf_SavingsRate current.
Proof.
  intros Hx Hn Hne Hok H. apply observed_records in H; [|done..]. unfold requested in *.
  destruct (parseRequestTimeRange _) as [start end_]. cbv zeta in H. set (txs := filterTransactions _ _ _ _) in *.
  destruct H as (flows & rest & -> & Hrest & _ & Hb). destruct (Hb Hne) as (batch & -> & Hbatch).
  apply batch_claims in Hbatch as (Ht & Hs & Hc); [|done]. rewrite flows_total in Hc.
  unfold CashflowReducer. cbn [app reduce_over].
  rewrite (cashflow_step_batch batch _ current Ht Hc) by apply wrap64_range. rewrite Hs.
  cbn [mbind result_bind]. rewrite reduce_no_cashflow by done. cbn [mbind result_bind]. eexists. split; [reflexivity|].
  cbv zeta. rewrite <- wrap64_sub. replace (amounts variable_outflow txs)
    with (amounts (fun tx => negb (is_inflow tx)) txs - amounts fixed_outflow txs) by (rewrite outflow_parts; lia).
  rewrite <- (wrap64_sub (amounts (fun tx => negb (is_inflow tx)) txs) (amounts fixed_outflow txs)).
  unfold with_flows. cbn [inflow outflow fixedExpense cf_MonthlyInflowCents].
  destruct (0 <? wrap64 (amounts is_inflow txs)) eqn:Ei;
    (split; [reflexivity|]; split; [reflexivity|]; split; [reflexivity|]; split; [reflexivity|]; split; [reflexivity|];
     split; [reflexivity|]);
  match goal with |- _ = if 0 <? ?x then _ else _ => change x with (wrap64 (amounts is_inflow txs)) end; rewrite Ei;
    [apply savings_rate_ext|]; reflexivity.
Qed.

(** A sample ledger: a salary and a subscription. *)
Definition sample_ledger : LedgerObservationAdapter := {|
  lo_Transactions :=
    [mkLedgerTransactionRecord "u1" "t1" "a1" (63844880400 * Second) "Salary" "ACME" "salary" "inflow" 800000;
     mkLedgerTransactionRecord "u1" "t2" "a1" (63845019000 * Second) "Netflix" "Netflix" "subscription" "outflow" 1599;
     mkLedgerTransactionRecord "u1" "t3" "a1" (63845029000 * Second) "Move" "Bank" "transfer" "transfer" 5000];
  lo_Debts := [mkDebtRecord "u1" "a2" "card" 500000 (f_const 2199 10000) 12000 0];
  lo_Holdings := [mkHoldingRecord "u1" "a3" 0 "cash" "USD" 100000 (f_const 3 10)];
  lo_Extractor := None; lo_Normalizer := None |}.

Definition sample_observation : ObservationRequest :=
  mkObservationRequest "task" "ledger" {["user_id" := "u1"; "start" := "2024-03-01"]}.

Definition sample_now : time := 63846000000 * Second.

Definition sample_records : list EvidenceRecord :=
  match Ledger_Observe (TE := sample_texts) (MO := canonical_order) sample_ledger sample_observation sample_now 0 with
  | inr records => records
  | inl _ => []
  end.

Lemma ledger_reaches_cashflow_witness :
  exists next, CashflowReducer (TE := sample_texts) zero sample_records = inr next /\
    cf_MonthlyInflowCents next = 800000 /\ cf_MonthlyOutflowCents next = 6599 /\ cf_LastComputedMonth next = "2024-03".
Proof.
  destruct (ledger_reaches_cashflow (TE := sample_texts) (MO := canonical_order) sample_ledger sample_observation
    sample_now 0 sample_records zero) as (next & Hn & Hi & Ho & _ & _ & _ & Hm & _).
  - reflexivity.
  - reflexivity.
  - intros H. apply (f_equal length) in H. vm_compute in H. discriminate H.
  - change (requested sample_ledger sample_observation) with (lo_Transactions sample_ledger).
    unfold sample_ledger, json_transaction. cbn [lo_Transactions]. solve_ok.
  - vm_compute. reflexivity.
  - exists next. split; [exact Hn|]. split; [rewrite Hi; vm_compute; reflexivity|].
    split; [rewrite Ho; vm_compute; reflexivity|]. rewrite Hm. vm_compute. reflexivity.
Defined.

(** ** Normalization *)

#[local] Transparent TrimSpace.

Fixpoint map_chars (f : ascii -> ascii) (s : string) : string :=
  match s with EmptyString => EmptyString | String c s => String (f c) (map_chars f s) end.

Lemma map_chars_compose f g s : map_chars f (map_chars g s) = map_chars (fun c => f (g c)) s.
Proof. induction s as [|c s IH]; cbn; [done|by rewrite IH]. Qed.

Lemma map_chars_ext f g s : (forall c, f c = g c) -> map_chars f s = map_chars g s.
Proof. intros H. induction s as [|c s IH]; cbn; [done|by rewrite IH, H]. Qed.

Lemma ToLower_chars s : ToLower s = map_chars lower_char s.
Proof. induction s as [|c s IH]; cbn; [done|by rewrite IH]. Qed.

Lemma replace_chars_chars from to s :
  replace_chars from to s = map_chars (fun c => if bool_decide (c ∈ from) then to else c) s.
Proof. unfold replace_chars. induction s as [|c s IH]; cbn; [done|by rewrite IH]. Qed.

Lemma trim_left_chars f s : (forall c, is_space (f c) = is_space c) -> trim_left (map_chars f s) = map_chars f (trim_left s).
Proof. intros Hf. induction s as [|c s IH]; cbn; [done|]. rewrite Hf. by destruct (is_space c). Qed.

Lemma trim_right_chars f s : (forall c, is_space (f c) = is_space c) -> trim_right (map_chars f s) = map_chars f (trim_right s).
Proof.
  intros Hf. induction s as [|c s IH]; cbn; [done|]. rewrite IH, Hf.
  destruct (trim_right s); cbn; [by destruct (is_space c)|done].
Qed.

(** A map that makes no blank keeps a trimmed text trimmed. *)
Lemma trim_kept f s :
  (forall c, is_space c = false -> is_space (f c) = false) -> TrimSpace s = s -> TrimSpace (map_chars f s) = map_chars f s.
Proof.
  intros Hf Hs. assert (Hl : starts_blank s = false).
  { rewrite <- Hs. unfold TrimSpace. apply trim_right_starts, trim_left_starts. }
  unfold TrimSpace in *. rewrite trim_left_id in Hs by done. rewrite trim_left_id.
  - clear Hl. induction s as [|c s IH]; [done|]. cbn [trim_right map_chars] in *. destruct (trim_right s) as [|c' s'] eqn:E.
    + destruct (is_space c) eqn:Ec; [done|]. injection Hs as <-. cbn. by rewrite Hf.
    + injection Hs as Hs. rewrite IH by done. rewrite <- Hs. done.
  - destruct s as [|c s]; [done|]. cbn in *. by apply Hf.
Qed.

Definition token_char (c : ascii) : ascii :=
  let c := if bool_decide (c ∈ [" "%char]) then "_"%char else c in if bool_decide (c ∈ ["-"%char]) then "_"%char else c.

Lemma normalizeToken_chars s : normalizeToken s = map_chars token_char (map_chars lower_char (TrimSpace s)).
Proof.
  unfold normalizeToken, TrimSpace. rewrite !replace_chars_chars, ToLower_chars, trim_left_chars, trim_right_chars, map_chars_compose.
  - done.
  - intros c. apply eqb_true_iff, (ascii_forall (fun c => eqb (is_space (lower_char c)) (is_space c))). by vm_compute.
  - intros c. apply eqb_true_iff, (ascii_forall (fun c => eqb (is_space (lower_char c)) (is_space c))). by vm_compute.
Qed.

Lemma normalizeToken_idemp s : normalizeToken (normalizeToken s) = normalizeToken s.
Proof.
  rewrite (normalizeToken_chars s). set (t := map_chars token_char _).
  assert (Ht : TrimSpace t = t).
  { unfold t. rewrite map_chars_compose. apply trim_kept; [|apply TrimSpace_idemp].
    intros c Hc. pose proof (ascii_forall (fun c => implb (negb (is_space c)) (negb (is_space (token_char (lower_char c))))) eq_refl c) as H.
    cbn beta in H. rewrite Hc in H. by apply negb_true_iff in H. }
  rewrite normalizeToken_chars, Ht. unfold t. rewrite !map_chars_compose. apply map_chars_ext. intros c.
  apply Ascii.eqb_eq, (ascii_forall (fun c => Ascii.eqb (token_char (lower_char (token_char (lower_char c)))) (token_char (lower_char c)))).
  by vm_compute.
Qed.

Lemma normalize_claim_eq s p o v :
  normalize_claim (mkEvidenceClaim s p o v) = mkEvidenceClaim (normalizeToken s) (normalizeToken p) (normalizeToken o) v.
Proof. done. Qed.

Lemma normalize_claim_idemp c : normalize_claim (normalize_claim c) = normalize_claim c.
Proof. destruct c. by rewrite !normalize_claim_eq, !normalizeToken_idemp. Qed.

Lemma canonical_unit_nonempty claims : inferCanonicalUnit claims <> "".
Proof.
  unfold inferCanonicalUnit. set (f := fun claim : EvidenceClaim => _).
  assert (Hf : forall c u, f c = Some u -> u <> "") by (intros c u; unfold f; by repeat case_match; intros [= <-]).
  destruct (head (omap f claims)) as [u|] eqn:E; [|done]. cbn. destruct (omap f claims) as [|v l] eqn:El; [done|].
  injection E as ->. assert (Hu : u ∈ omap f claims) by (rewrite El; left).
  apply list_elem_of_omap in Hu as (c & _ & Hc). by eapply Hf.
Qed.

(** What a normalization leaves alone. *)
Definition settled (claims : list EvidenceClaim) (n : EvidenceNormalizationResult) : Prop :=
  en_Status n <> EvidenceNormalizationStatusOther "" /\ en_CanonicalUnit n <> "" /\
  (existsb (fun c => blank (ecl_ValueJSON c)) claims = true -> en_Status n <> EvidenceNormalizationNormalized) /\
  (claims = [] -> en_Status n = EvidenceNormalizationRejected /\ en_RejectedReason n = "no claims extracted").

Lemma settled_kept claims n : settled claims n -> normalize_result claims n = n.
Proof.
  intros (H1 & H2 & H3 & H4). unfold normalize_result. set (partial := existsb _ _) in *. clearbody partial.
  rewrite (bool_decide_eq_false_2 _ H1), (bool_decide_eq_false_2 _ H2).
  assert (E : partial && (en_Status n == EvidenceNormalizationNormalized) = false).
  { destruct partial; [|done]. by apply bool_decide_eq_false_2, H3. }
  rewrite E. destruct claims; [|done]. destruct n. cbn in H4. by destruct (H4 eq_refl) as [-> ->].
Qed.

Lemma normalize_result_settled claims n : settled claims (normalize_result claims n).
Proof.
  unfold normalize_result, settled. set (partial := existsb _ _). clearbody partial.
  pose proof (canonical_unit_nonempty claims) as Hu. set (u := inferCanonicalUnit claims) in *. clearbody u.
  set (n1 := if en_Status n == _ then _ else _).
  assert (H1 : en_Status n1 <> EvidenceNormalizationStatusOther "")
    by (unfold n1; case_bool_decide; [done|assumption]). clearbody n1.
  set (n2 := if en_CanonicalUnit n1 == "" then _ else _).
  assert (H2 : en_CanonicalUnit n2 <> "" /\ en_Status n2 = en_Status n1)
    by (unfold n2; case_bool_decide; by split). clearbody n2. destruct H2 as [H2 E2]. rewrite <- E2 in H1.
  set (n3 := if partial && _ then _ else _).
  assert (H3 : en_Status n3 <> EvidenceNormalizationStatusOther "" /\ en_CanonicalUnit n3 <> "" /\
    (partial = true -> en_Status n3 <> EvidenceNormalizationNormalized)).
  { unfold n3. destruct partial; cbn [andb]; [|by split_and!]. case_bool_decide; by split_and!. }
  clearbody n3. destruct H3 as (H3 & H4 & H5). destruct claims; [|by split_and!]. by split_and!.
Qed.

(** Normalizing evidence is idempotent: what the normalizer returns is
    valid, keeps the identity, the type, the source, the time range and the
    confidence of the record, has tokens for its subjects, predicates and
    objects, and is returned unchanged when it is normalized again, at any
    later time. *)
Theorem normalize_idempotent record now later n :
  er_CreatedAt record <> zero_time \/ now <> zero_time ->
  CanonicalEvidenceNormalizer now record = inr n ->
  EvidenceRecord_Validate n = None /\
  (er_ID n, er_Type n, er_Source n, er_TimeRange n, er_Confidence n) =
    (er_ID record, er_Type record, er_Source record, er_TimeRange record, er_Confidence record) /\
  Forall (fun c => normalizeToken (ecl_Predicate c) = ecl_Predicate c) (er_Claims n) /\
  CanonicalEvidenceNormalizer later n = inr n.
Proof.
  intros Ht [-> Hv]%normalizer_inr. split; [done|]. split; [done|]. set (n := normalized_record now record) in *.
  assert (Hc : normalize_claim <$> er_Claims n = er_Claims n).
  { change (er_Claims n) with (normalize_claim <$> er_Claims record). rewrite <- list_fmap_compose.
    apply list_fmap_ext. intros i c _. apply normalize_claim_idemp. }
  split.
  - change (er_Claims n) with (normalize_claim <$> er_Claims record). apply Forall_fmap, Forall_true. intros [s p o v].
    apply normalizeToken_idemp.
  - unfold CanonicalEvidenceNormalizer. assert (E : normalized_record later n = n); [|by rewrite E, Hv].
    assert (Hz : IsZero (er_CreatedAt n) = false).
    { unfold n, normalized_record. cbn. destruct (IsZero (er_CreatedAt record)) eqn:E; [|done].
      apply Z.eqb_neq. apply Z.eqb_eq in E. unfold zero_time in *. destruct Ht as [Ht|Ht]; [by destruct Ht|exact Ht]. }
    unfold normalized_record. rewrite Hc, Hz. change (er_Summary n) with (TrimSpace (er_Summary record)). rewrite TrimSpace_idemp.
    rewrite settled_kept; [change (TrimSpace (er_Summary record)) with (er_Summary n); clearbody n; by destruct n|]. unfold n, normalized_record. cbn. apply normalize_result_settled.
Qed.

(** An extracted claim with blanks, a dash and capitals. *)
Definition untidy_record : EvidenceRecord := {|
  er_ID := "e1"; er_Type := EvidenceTypeTransactionBatch;
  er_Source := mkEvidenceSource "ledger" "ledger" "ref" "csv";
  er_TimeRange := mkEvidenceTimeRange sample_now None None;
  er_Confidence := mkEvidenceConfidence (f_const 9 10) "sample";
  er_Artifact := None;
  er_Claims := [mkEvidenceClaim "Cash Flow" " Monthly-Inflow Cents" "" "5"];
  er_Normalization := zero; er_Summary := " summary "; er_CreatedAt := zero_time |}.

Definition tidy_record : EvidenceRecord := normalized_record sample_now untidy_record.

Lemma normalize_idempotent_witness :
  er_Claims tidy_record = [mkEvidenceClaim "cash_flow" "monthly_inflow_cents" "" "5"] /\
  CanonicalEvidenceNormalizer (sample_now + 1) tidy_record = inr tidy_record.
Proof.
  split; [vm_compute; reflexivity|].
  apply (normalize_idempotent untidy_record sample_now (sample_now + 1) tidy_record).
  - right. intros H. vm_compute in H. discriminate H.
  - vm_compute. reflexivity.
Defined.
