(* ===== verification/Finance.v ===== *)
(** * The finance engine and behavior analysis ([internal/finance],
    [internal/behavior])

    The metric bundles of [engine.go] with the provenance of [provenance.go],
    and the metrics, recommendations, analysis and validator of the behavior
    package.  Numbers are computed in [float64] as the code does, without
    fusing a product into a sum. *)

From S2P Require Export Reducers.
#[local] Open Scope Z_scope.

(** ** internal/finance *)

Definition clamp01 (value : float64) : float64 :=
  if f_ltb value f_zero then f_zero else if f_ltb (f_const 1 1) value then f_const 1 1 else value.

Definition clampSigned (value : float64) : float64 :=
  if f_ltb value (f_const (-1) 1) then f_const (-1) 1 else if f_ltb (f_const 1 1) value then f_const 1 1 else value.

(** The first item, then whatever is greater. *)
Definition maxFloat (items : list float64) : float64 :=
  match items with
  | [] => f_zero
  | first :: rest => fold_left (fun maximum item => if f_ltb maximum item then item else maximum) rest first
  end.

Definition max64 (left right : Z) : Z := if right <? left then left else right.
Definition boolAsFloat (value : bool) : float64 := if value then f_of_int 1 else f_zero.
Definition hasNote (items : list string) (target : string) : bool := bool_decide (target ∈ items).

Definition sourceRefs (evidence : list EvidenceRecord) : list string :=
  unique_from [] ((fun r => es_Reference (er_Source r)) <$> evidence).
Definition evidenceRefs (evidence : list EvidenceRecord) : list string := unique_from [] (er_ID <$> evidence).

Definition debtPressureScore (current : FinancialWorldState) : float64 :=
  let liability := fw_LiabilityState current in
  clamp01 (maxFloat [f_div (li_DebtBurdenRatio liability) (f_const 35 100);
                     f_div (li_MinimumPaymentPressure liability) (f_const 20 100);
                     f_div (li_AverageAPR liability) (f_const 25 100)]).

Section engine.
Context `{MO : MapOrder} (current : FinancialWorldState) (evidence : list EvidenceRecord) (asOf : time).

Definition maxAllocationDrift (items : gmap string float64) : float64 := max_drift (map_values items).

(** [intMetric], [floatMetric], [boolMetric], [stringMetric]: the name is the
    reference. *)
Definition metric (domain name derivation : string) : MetricRecord :=
  {| mr_Ref := name; mr_Domain := domain; mr_Name := name; mr_ValueType := zero; mr_Int64Value := 0;
     mr_Float64Value := f_zero; mr_BoolValue := false; mr_StringValue := ""; mr_Unit := ""; mr_AsOf := asOf;
     mr_SourceRefs := sourceRefs evidence; mr_EvidenceRefs := evidenceRefs evidence; mr_Derivation := derivation |}.

Definition intMetric (domain name : string) (value : Z) (unit derivation : string) : MetricRecord :=
  metric domain name derivation <| mr_ValueType := MetricValueTypeInt64 |> <| mr_Int64Value := value |> <| mr_Unit := unit |>.
Definition floatMetric (domain name : string) (value : float64) (unit derivation : string) : MetricRecord :=
  metric domain name derivation <| mr_ValueType := MetricValueTypeFloat64 |> <| mr_Float64Value := value |> <| mr_Unit := unit |>.
Definition boolMetric (domain name : string) (value : bool) (derivation : string) : MetricRecord :=
  metric domain name derivation <| mr_ValueType := MetricValueTypeBool |> <| mr_BoolValue := value |>.
Definition stringMetric (domain name value derivation : string) : MetricRecord :=
  metric domain name derivation <| mr_ValueType := MetricValueTypeString |> <| mr_StringValue := value |>.

Definition subscription_burden (behavior : BehaviorState) : float64 :=
  let duplicates := bh_DuplicateSubscriptionCount behavior in
  let recurring := Z.of_nat (length (bh_RecurringSubscriptions behavior)) in
  if 0 <? recurring then f_div (f_of_int duplicates) (f_of_int recurring)
  else if 0 <? duplicates then f_min (f_div (f_of_int duplicates) (f_const 3 1)) (f_const 1 1) else f_zero.

(** [DeterministicEngine.Cashflow] *)
Definition Cashflow : CashflowMetricBundle :=
  let cashflow := fw_CashflowState current in
  let behavior := fw_BehaviorState current in
  let metrics := {| fcm_MonthlyInflowCents := cf_MonthlyInflowCents cashflow;
                    fcm_MonthlyOutflowCents := cf_MonthlyOutflowCents cashflow;
                    fcm_MonthlyNetIncomeCents := cf_MonthlyNetIncomeCents cashflow;
                    fcm_SavingsRate := cf_SavingsRate cashflow;
                    fcm_DuplicateSubscriptionCount := bh_DuplicateSubscriptionCount behavior;
                    fcm_LateNightSpendingFrequency := bh_LateNightSpendingFrequency behavior |} in
  let savingsQuality := clamp01 (f_div (fcm_SavingsRate metrics) (f_const 20 100)) in
  let emergencyMonths := pf_EmergencyFundMonths (fw_PortfolioState current) in
  let recurringSignal :=
    if 0 <? cf_MonthlyOutflowCents cashflow
    then clamp01 (f_div (f_of_int (cf_MonthlyFixedExpenseCents cashflow)) (f_of_int (cf_MonthlyOutflowCents cashflow)))
    else f_zero in
  let int := intMetric "cashflow" in
  let float := floatMetric "cashflow" in
  {| cmb_Metrics := metrics;
     cmb_Records :=
       [int "monthly_inflow_cents" (fcm_MonthlyInflowCents metrics) "cents" "copied from reducer cashflow state";
        int "monthly_outflow_cents" (fcm_MonthlyOutflowCents metrics) "cents" "copied from reducer cashflow state";
        int "monthly_net_income_cents" (fcm_MonthlyNetIncomeCents metrics) "cents" "monthly inflow minus outflow";
        float "savings_rate" (fcm_SavingsRate metrics) "ratio" "copied from reducer cashflow state";
        float "savings_rate_quality_score" savingsQuality "score" "normalized against 20% savings target";
        float "debt_pressure_score" (debtPressureScore current) "score"
          "derived from debt burden, minimum payment pressure, and APR";
        float "emergency_fund_coverage_months" emergencyMonths "months" "copied from portfolio emergency fund coverage";
        float "liquidity_buffer_months" emergencyMonths "months"
          "current emergency fund coverage reused as liquidity buffer metric";
        float "subscription_burden_ratio" (clamp01 (subscription_burden behavior)) "ratio"
          "duplicate subscriptions relative to recurring subscription set";
        float "recurring_expense_signal" recurringSignal "ratio" "fixed expenses relative to monthly outflow";
        int "duplicate_subscription_count" (fcm_DuplicateSubscriptionCount metrics) "count" "copied from reducer behavior state";
        float "late_night_spending_frequency" (fcm_LateNightSpendingFrequency metrics) "ratio"
          "copied from reducer behavior state"] |}.

(** [DeterministicEngine.DebtDecision] *)
Definition DebtDecision : DebtDecisionMetricBundle :=
  let cashflow := fw_CashflowState current in
  let liability := fw_LiabilityState current in
  let portfolio := fw_PortfolioState current in
  let metrics := {| fdm_DebtBurdenRatio := li_DebtBurdenRatio liability;
                    fdm_MinimumPaymentPressure := li_MinimumPaymentPressure liability;
                    fdm_AverageAPR := li_AverageAPR liability;
                    fdm_MonthlyNetIncomeCents := cf_MonthlyNetIncomeCents cashflow;
                    fdm_MaxAllocationDrift := maxAllocationDrift (pf_AllocationDrift portfolio);
                    fdm_OverallRisk := rk_OverallRisk (fw_RiskState current) |} in
  let investableSurplus := max64 (fdm_MonthlyNetIncomeCents metrics) 0 in
  let cashBufferImpact :=
    if 0 <? cf_MonthlyOutflowCents cashflow
    then clamp01 (f_div (f_of_int investableSurplus) (f_of_int (cf_MonthlyOutflowCents cashflow))) else f_zero in
  let liquidityAfterPaydown := f_sub (pf_EmergencyFundMonths portfolio) cashBufferImpact in
  let liquidityAfterPaydown := if f_ltb liquidityAfterPaydown f_zero then f_zero else liquidityAfterPaydown in
  let debtPressure := debtPressureScore current in
  let effectiveTradeoff := clampSigned (f_sub
    (clamp01 (f_div (f_of_int investableSurplus) (f_of_int (max64 (cf_MonthlyOutflowCents cashflow) 1)))) debtPressure) in
  let int := intMetric "debt_decision" in
  let float := floatMetric "debt_decision" in
  {| dmb_Metrics := metrics;
     dmb_Records :=
       [float "debt_burden_ratio" (fdm_DebtBurdenRatio metrics) "ratio" "copied from reducer liability state";
        float "minimum_payment_pressure" (fdm_MinimumPaymentPressure metrics) "ratio" "copied from reducer liability state";
        float "average_apr" (fdm_AverageAPR metrics) "ratio" "copied from reducer liability state";
        int "monthly_net_income_cents" (fdm_MonthlyNetIncomeCents metrics) "cents" "copied from reducer cashflow state";
        float "debt_payoff_pressure" debtPressure "score" "derived from debt burden, minimum payment pressure, and APR";
        float "liquidity_after_paydown" liquidityAfterPaydown "months"
          "emergency fund months after allocating one month surplus to debt paydown";
        int "investable_surplus_cents" investableSurplus "cents" "max(monthly net income, 0)";
        float "cash_buffer_impact" cashBufferImpact "ratio" "one-month surplus relative to monthly outflow";
        float "effective_tradeoff_score" effectiveTradeoff "score" "investable surplus signal minus debt payoff pressure";
        float "emergency_fund_coverage_months" (pf_EmergencyFundMonths portfolio) "months" "copied from reducer portfolio state";
        float "max_allocation_drift" (fdm_MaxAllocationDrift metrics) "ratio" "max absolute allocation drift";
        stringMetric "debt_decision" "overall_risk" (fdm_OverallRisk metrics) "copied from reducer risk state"] |}.

(** [DeterministicEngine.Tax] *)
Definition Tax : TaxMetricBundle :=
  let tax := fw_TaxState current in
  let metrics := {| ftm_EffectiveTaxRate := tx_EffectiveTaxRate tax;
                    ftm_TaxAdvantagedContributionCents := tx_TaxAdvantagedContributionCents tax;
                    ftm_ChildcareTaxSignal := tx_ChildcareTaxSignal tax;
                    ftm_UpcomingDeadlineCount := Z.of_nat (length (tx_UpcomingDeadlines tax)) |} in
  {| tmb_Metrics := metrics;
     tmb_Records :=
       [floatMetric "tax" "effective_tax_rate" (ftm_EffectiveTaxRate metrics) "ratio" "copied from reducer tax state";
        intMetric "tax" "tax_advantaged_contribution_cents" (ftm_TaxAdvantagedContributionCents metrics) "cents"
          "copied from reducer tax state";
        boolMetric "tax" "childcare_tax_signal" (ftm_ChildcareTaxSignal metrics) "copied from reducer tax state";
        intMetric "tax" "tax_deadline_risk" (ftm_UpcomingDeadlineCount metrics) "count" "upcoming tax deadlines count";
        floatMetric "tax" "withholding_gap_signal" (boolAsFloat (hasNote (tx_FamilyTaxNotes tax) "withholding_review_required"))
          "score" "derived from withholding review note"] |}.

(** [DeterministicEngine.Portfolio] *)
Definition Portfolio : PortfolioMetricBundle :=
  let portfolio := fw_PortfolioState current in
  let metrics := {| fpm_TotalInvestableAssetsCents := pf_TotalInvestableAssetsCents portfolio;
                    fpm_EmergencyFundMonths := pf_EmergencyFundMonths portfolio;
                    fpm_MaxAllocationDrift := maxAllocationDrift (pf_AllocationDrift portfolio);
                    fpm_CashAllocation := default f_zero (pf_AssetAllocations portfolio !! "cash") |} in
  let float := floatMetric "portfolio" in
  {| pmb_Metrics := metrics;
     pmb_Records :=
       [intMetric "portfolio" "total_investable_assets_cents" (fpm_TotalInvestableAssetsCents metrics) "cents"
          "copied from reducer portfolio state";
        float "emergency_fund_months" (fpm_EmergencyFundMonths metrics) "months" "copied from reducer portfolio state";
        float "portfolio_drift_score" (fpm_MaxAllocationDrift metrics) "ratio" "max absolute allocation drift";
        float "rebalance_pressure" (fpm_MaxAllocationDrift metrics) "ratio" "max allocation drift reused as rebalance pressure";
        float "cash_allocation" (fpm_CashAllocation metrics) "ratio" "cash asset allocation";
        float "portfolio_liquidity_impact" (clamp01 (f_sub (f_const 1 1) (fpm_CashAllocation metrics))) "score"
          "lower cash allocation increases liquidity impact of rebalance"] |}.
End engine.

Definition refsFromRecords (records : list MetricRecord) : list string := mr_Ref <$> records.

(** ** internal/behavior: metrics.go *)

(** [claimInt], [claimFloat]: the first claim that can be read. *)
Definition claim_or_zero {A} (c : codec A) (zero_value : A) (records : list EvidenceRecord) (predicate : string) : A :=
  default zero_value (head (omap (fun claim =>
    if ecl_Predicate claim == predicate then Unmarshal c (ecl_ValueJSON claim) else None) (concat (er_Claims <$> records)))).
Definition claimInt : list EvidenceRecord -> string -> Z := claim_or_zero json_int 0.
Definition claimFloat : list EvidenceRecord -> string -> float64 := claim_or_zero json_float f_zero.

Definition evidenceIDs (records : list EvidenceRecord) (allowed : list EvidenceType) : list string :=
  er_ID <$> List.filter (fun r => bool_decide (allowed = []) || bool_decide (er_Type r ∈ allowed)) records.

(** [round], to the nearest with halves away from zero *)
Definition behavior_round (value : float64) (places : Z) : float64 :=
  let factor := f_of_int (10 ^ places) in
  let shifted := if f_leb f_zero value then f_add (f_mul value factor) (f_const 1 2) else f_sub (f_mul value factor) (f_const 1 2) in
  f_div (f_of_int (f_to_int shifted)) factor.

(** A claim of zero counts as none. *)
Definition late_night_ratio (evidence : BehaviorEvidence) : float64 :=
  let ratio := claimFloat (bev_Evidence evidence) "late_night_spending_frequency" in
  if f_eqb ratio f_zero then bh_LateNightSpendingFrequency (fw_BehaviorState (bev_CurrentState evidence)) else ratio.
Definition duplicate_count (evidence : BehaviorEvidence) : Z :=
  let count := claimInt (bev_Evidence evidence) "duplicate_subscription_count" in
  if count =? 0 then bh_DuplicateSubscriptionCount (fw_BehaviorState (bev_CurrentState evidence)) else count.

Definition net_pressure (cashflow : CashflowState) : float64 :=
  if cf_MonthlyNetIncomeCents cashflow <? 0 then f_const 1 1
  else if f_ltb (cf_SavingsRate cashflow) (f_const 10 100) then f_const 4 10 else f_zero.

Definition variable_ratio (cashflow : CashflowState) : float64 :=
  if 0 <? cf_MonthlyOutflowCents cashflow
  then f_div (f_of_int (cf_MonthlyVariableExpenseCents cashflow)) (f_of_int (cf_MonthlyOutflowCents cashflow)) else f_zero.

Definition duplicate_pressure (count : Z) : float64 :=
  let pressure := f_div (f_of_int count) (f_const 3 1) in
  if f_ltb (f_const 1 1) pressure then f_const 1 1 else pressure.

Definition pressure_score (evidence : BehaviorEvidence) : float64 :=
  let cashflow := fw_CashflowState (bev_CurrentState evidence) in
  behavior_round
    (f_add (f_add (f_add (f_mul (f_const 45 100) (clamp01 (variable_ratio cashflow)))
                         (f_mul (f_const 30 100) (clamp01 (late_night_ratio evidence))))
                  (f_mul (f_const 15 100) (duplicate_pressure (duplicate_count evidence))))
           (f_mul (f_const 10 100) (net_pressure cashflow))) 4.

(** [ComputeMetrics] *)
Definition ComputeMetrics (evidence : BehaviorEvidence) (asOf : time) : BehaviorBundle :=
  let current := bev_CurrentState evidence in
  let lateNightCount := claimInt (bev_Evidence evidence) "late_night_spending_count" in
  let lateNightRatio := late_night_ratio evidence in
  let duplicateCount := duplicate_count evidence in
  let recurringCount := Z.of_nat (length (bh_RecurringSubscriptions (fw_BehaviorState current))) in
  let score := pressure_score evidence in
  let record ref name unit allowed derivation : MetricRecord :=
    {| mr_Ref := ref; mr_Domain := "behavior"; mr_Name := name; mr_ValueType := zero; mr_Int64Value := 0;
       mr_Float64Value := f_zero; mr_BoolValue := false; mr_StringValue := ""; mr_Unit := unit; mr_AsOf := asOf;
       mr_SourceRefs := []; mr_EvidenceRefs := evidenceIDs (bev_Evidence evidence) allowed; mr_Derivation := derivation |} in
  let int m value : MetricRecord := m <| mr_ValueType := MetricValueTypeInt64 |> <| mr_Int64Value := value |> in
  let float m value : MetricRecord := m <| mr_ValueType := MetricValueTypeFloat64 |> <| mr_Float64Value := value |> in
  {| bmb_Metrics :=
       {| bme_DuplicateSubscriptionCount := duplicateCount;
          bme_LateNightSpendCount := lateNightCount;
          bme_LateNightSpendRatio := behavior_round lateNightRatio 4;
          bme_DiscretionaryPressureScore := score;
          bme_RecurringSubscriptionCount := recurringCount;
          bme_MonthlyVariableExpenseCents := cf_MonthlyVariableExpenseCents (fw_CashflowState current);
          bme_MonthlyNetIncomeCents := cf_MonthlyNetIncomeCents (fw_CashflowState current) |};
     bmb_Records :=
       [int (record "duplicate_subscription_count" "duplicate subscription count" "count"
               [EvidenceTypeRecurringSubscription] "derived from recurring subscription evidence or behavior state") duplicateCount;
        int (record "late_night_spend_count" "late night spend count" "count"
               [EvidenceTypeLateNightSpendingSignal] "derived from late-night spending evidence") lateNightCount;
        float (record "late_night_spend_ratio" "late night spend ratio" "ratio"
                 [EvidenceTypeLateNightSpendingSignal] "derived from late-night spending evidence or behavior state")
              (behavior_round lateNightRatio 4);
        float (record "discretionary_pressure_score" "discretionary pressure score" "score"
                 [EvidenceTypeTransactionBatch; EvidenceTypeRecurringSubscription; EvidenceTypeLateNightSpendingSignal]
                 "weighted combination of variable expense pressure, late-night ratio, duplicate subscriptions, and net income pressure")
              score;
        int (record "recurring_subscription_count" "recurring subscription merchant count" "count"
               [EvidenceTypeRecurringSubscription] "derived from behavior state recurring subscriptions") recurringCount] |}.

(** ** recommendation.go *)

Definition severityForPressure (score : float64) : string := if f_leb (f_const 75 100) score then "high" else "medium".

Definition riskForRecipe (recipeID : string) : RiskLevel :=
  if recipeID == "hard_cap.v1" then RiskLevelHigh
  else if recipeID == "budget_guardrail.v1" then RiskLevelMedium else RiskLevelLow.

Definition caveatsForRecipe (recipeID : string) : list string :=
  if recipeID == "hard_cap.v1" then ["高强度消费护栏属于强干预建议，必须经治理审批后再执行。"]
  else if recipeID == "budget_guardrail.v1" then ["先以预算护栏和强提醒为主，不做外部支付限制。"]
  else ["优先采用低摩擦引导，不直接限制支付能力。"].

Definition refs (bundle : BehaviorBundle) : list string := mr_Ref <$> bmb_Records bundle.

Definition behavior_anomalies (metrics : BehaviorMetrics) (evidenceRefs : list string) : list BehaviorAnomaly :=
  let score := bme_DiscretionaryPressureScore metrics in
  (if 2 <=? bme_DuplicateSubscriptionCount metrics then
     [mkBehaviorAnomaly "duplicate_subscriptions" "medium" "duplicate subscription overlap indicates cleanup opportunity"
        ["duplicate_subscription_count"; "recurring_subscription_count"] evidenceRefs] else []) ++
  (if f_leb (f_const 30 100) (bme_LateNightSpendRatio metrics) || (4 <=? bme_LateNightSpendCount metrics) then
     [mkBehaviorAnomaly "late_night_spend_spike" "medium" "late-night discretionary spending frequency is elevated"
        ["late_night_spend_count"; "late_night_spend_ratio"] evidenceRefs] else []) ++
  (if f_leb (f_const 55 100) score then
     [mkBehaviorAnomaly "discretionary_pressure" (severityForPressure score)
        "discretionary pressure score is elevated enough to justify intervention"
        ["discretionary_pressure_score"] evidenceRefs] else []).

Definition behavior_recommendation (bundle : BehaviorBundle) (selection : SkillSelection) (evidenceRefs memoryRefs : list string) :
    BehaviorRecommendation :=
  let rec : BehaviorRecommendation := zero
    <| bre_EvidenceRefs := evidenceRefs |> <| bre_MetricRefs := refs bundle |>
    <| bre_StateRefs := ["behavior_state"; "cashflow_state"] |> <| bre_MemoryRefs := memoryRefs |> in
  let recipe := sse_RecipeID selection in
  match sse_Family selection with
  | SkillFamilySubscriptionCleanup =>
      rec <| bre_Type := BehaviorRecommendationSubscriptionCleanup |> <| bre_Title := "清理重复订阅" |>
          <| bre_Detail := "重复订阅异常主导当前行为问题，优先梳理重复扣费和低价值订阅。" |>
          <| bre_RiskLevel := RiskLevelMedium |>
          <| bre_Caveats := ["优先取消重复和低价值订阅，不直接影响必要固定支出。"] |>
  | SkillFamilyLateNightSpendNudge =>
      rec <| bre_Type := BehaviorRecommendationSpendNudge |> <| bre_Title := "建立深夜消费提醒" |>
          <| bre_Detail := "深夜消费占比偏高，先用低摩擦提醒和延迟购买机制压缩冲动支出。" |>
          <| bre_RiskLevel := RiskLevelMedium |>
          <| bre_Caveats := ["先用提醒和预算提示，不建议直接采用强限制。"] |>
  | SkillFamilyDiscretionaryGuardrail | SkillFamilyOther _ =>
      let rec := rec <| bre_Type := BehaviorRecommendationGuardrail |> <| bre_Title := "设置可选消费护栏" |>
          <| bre_Detail := "可选支出压力已进入需要干预的区间，应按当前 recipe 强度建立消费护栏。" |>
          <| bre_RiskLevel := riskForRecipe recipe |> <| bre_Caveats := caveatsForRecipe recipe |>
          <| bre_PolicyRuleRefs := sse_PolicyRuleRefs selection |> in
      if recipe == "hard_cap.v1"
      then rec <| bre_ApprovalRequired := true |>
               <| bre_ApprovalReason := "高强度 discretionary guardrail 需要治理审批" |>
      else rec
  end.

(** [Recommend] *)
Definition Recommend (bundle : BehaviorBundle) (selection : SkillSelection) (evidenceRefs memoryRefs : list string) :
    list BehaviorRecommendation * list BehaviorAnomaly * list BehaviorTrend :=
  let metrics := bmb_Metrics bundle in
  let trend := mkBehaviorTrend "behavior_pressure_summary"
    ("行为压力分数 " +:+ Sprintf_f 2 (bme_DiscretionaryPressureScore metrics) +:+ "，深夜消费占比 " +:+
     Sprintf_f 2 (bme_LateNightSpendRatio metrics) +:+ "，重复订阅数 " +:+ Itoa (bme_DuplicateSubscriptionCount metrics) +:+ "。") in
  ([behavior_recommendation bundle selection evidenceRefs memoryRefs], behavior_anomalies metrics evidenceRefs, [trend]).

(** ** analysis.go *)

(** [uniqueStrings] of the behavior package passes over blanks. *)
Definition behavior_uniqueStrings (items : list string) : list string :=
  unique_from [] (List.filter (fun item => negb (blank item)) items).

Definition collectEvidenceRefs (records : list EvidenceRecord) : list string := behavior_uniqueStrings (er_ID <$> records).

Definition analysis_summary (selected : SkillSelection) (anomalies : list BehaviorAnomaly) : string :=
  let opening := "行为干预块选择了 " +:+ SkillFamily_string (sse_Family selected) +:+ "/" +:+ sse_RecipeID selected +:+ "。" in
  match anomalies with
  | [] => opening
  | _ => Join [opening; "当前识别到异常：" +:+ Join (ban_Code <$> anomalies) "、" +:+ "。"] " "
  end.

Definition selected_skill (selected : SkillSelection) : bool :=
  negb ((sse_Family selected == SkillFamilyOther "") || (sse_RecipeID selected == "")).

(** [Analyzer.Analyze] *)
Definition Analyze (evidence : BehaviorEvidence) (selected : SkillSelection) (memoryRefs : list string) (now : time) :
    error + AnalysisOutput :=
  if selected_skill selected then
    let bundle := ComputeMetrics evidence now in
    let evidenceRefs := collectEvidenceRefs (bev_Evidence evidence) in
    let '(recommendations, anomalies, trends) := Recommend bundle selected evidenceRefs memoryRefs in
    mret {| aou_Summary := analysis_summary selected anomalies;
            aou_Metrics := bundle; aou_Trends := trends; aou_Anomalies := anomalies;
            aou_Recommendations := recommendations; aou_SelectedSkill := selected;
            aou_EvidenceRefs := evidenceRefs; aou_MemoryRefs := memoryRefs; aou_GeneratedAt := now |}
  else inl (PlainError "behavior analysis requires selected skill").

Definition recommendationsRequireApproval (items : list Recommendation) : bool := existsb rc_ApprovalRequired items.
Definition approvalReason (items : list Recommendation) : string :=
  default "" (head (List.filter (fun reason => reason != "") (rc_ApprovalReason <$> items))).

Definition block_recommendation_type (type : BehaviorRecommendationType) : RecommendationType :=
  match type with
  | BehaviorRecommendationSubscriptionCleanup => RecommendationTypeBehaviorSubscriptionCleanup
  | BehaviorRecommendationSpendNudge => RecommendationTypeBehaviorSpendNudge
  | _ => RecommendationTypeBehaviorGuardrail
  end.

Definition block_recommendation (blockID : string) (skill : SkillSelection) (idx : nat) (item : BehaviorRecommendation) : Recommendation :=
  {| rc_ID := blockID +:+ ":behavior:" +:+ Itoa (Z.of_nat idx);
     rc_Type := block_recommendation_type (bre_Type item);
     rc_Title := bre_Title item; rc_Detail := bre_Detail item; rc_RiskLevel := bre_RiskLevel item;
     rc_GroundingRefs := bre_MetricRefs item; rc_MetricRefs := bre_MetricRefs item;
     rc_EvidenceRefs := bre_EvidenceRefs item; rc_MemoryRefs := bre_MemoryRefs item; rc_Caveats := bre_Caveats item;
     rc_ApprovalRequired := bre_ApprovalRequired item; rc_ApprovalReason := bre_ApprovalReason item;
     rc_PolicyRuleRefs := bre_PolicyRuleRefs item;
     rc_Metadata := {["skill_family" := SkillFamily_string (sse_Family skill);
                      "skill_version" := sse_Version skill;
                      "recipe_id" := sse_RecipeID skill]} |}.

Definition block_metrics (m : BehaviorMetrics) : BehaviorMetricBundle :=
  {| bmb_DuplicateSubscriptionCount := bme_DuplicateSubscriptionCount m;
     bmb_LateNightSpendCount := bme_LateNightSpendCount m;
     bmb_LateNightSpendRatio := bme_LateNightSpendRatio m;
     bmb_DiscretionaryPressureScore := bme_DiscretionaryPressureScore m;
     bmb_RecurringSubscriptionCount := bme_RecurringSubscriptionCount m;
     bmb_MonthlyVariableExpenseCents := bme_MonthlyVariableExpenseCents m;
     bmb_MonthlyNetIncomeCents := bme_MonthlyNetIncomeCents m |}.

(** [AnalysisOutput.ToBlockResult] *)
Definition ToBlockResult (o : AnalysisOutput) (blockID : string) (memoryIDs : list string) (evidenceIDs : list EvidenceID)
    (confidence : float64) : BehaviorBlockResult :=
  let recommendations := imap (block_recommendation blockID (aou_SelectedSkill o)) (aou_Recommendations o) in
  {| bbr_BlockID := blockID;
     bbr_Summary := aou_Summary o;
     bbr_KeyFindings := btr_Detail <$> aou_Trends o;
     bbr_DeterministicMetrics := block_metrics (bmb_Metrics (aou_Metrics o));
     bbr_MetricRecords := bmb_Records (aou_Metrics o);
     bbr_EvidenceIDs := evidenceIDs;
     bbr_MemoryIDsUsed := memoryIDs;
     bbr_MetricRefs := refs (aou_Metrics o);
     bbr_GroundingRefs := refs (aou_Metrics o);
     bbr_RiskFlags := (fun a : BehaviorAnomaly => (zero : RiskFlag)
       <| rf_Code := ban_Code a |> <| rf_Severity := ban_Severity a |> <| rf_Detail := ban_Detail a |>
       <| rf_MetricRefs := ban_MetricRefs a |> <| rf_MemoryRefs := aou_MemoryRefs o |>) <$> aou_Anomalies o;
     bbr_Recommendations := recommendations;
     bbr_Caveats := behavior_uniqueStrings (concat (bre_Caveats <$> aou_Recommendations o));
     bbr_ApprovalRequired := recommendationsRequireApproval recommendations;
     bbr_ApprovalReason := approvalReason recommendations;
     bbr_PolicyRuleRefs := behavior_uniqueStrings (concat (bre_PolicyRuleRefs <$> aou_Recommendations o));
     bbr_SelectedSkill := aou_SelectedSkill o;
     bbr_SkillSelectionReasons := ssr_Detail <$> sse_Reasons (aou_SelectedSkill o);
     bbr_Confidence := confidence |}.

(** [BehaviorValidator.Validate] (validator.go) *)
Definition BehaviorValidator (output : AnalysisOutput) : option error :=
  first_error
    [(aou_Summary output == "", "behavior summary is required");
     (negb (selected_skill (aou_SelectedSkill output)), "selected skill is required");
     (bool_decide (aou_Recommendations output = []), "behavior recommendation is required");
     (existsb (fun r => bool_decide (bre_MetricRefs r = []) || bool_decide (bre_EvidenceRefs r = [])) (aou_Recommendations output),
      "behavior recommendation requires metric and evidence refs")].
