(* ===== verification/FinanceThm.v ===== *)
(** * Correctness of the finance engine and of behavior analysis

    What the finance engine puts into its bundles, metric by metric: numbers of
    the state, and scores that stay in their range for every state whose
    numbers are not NaN; a behavior analysis refers only to metrics it has
    computed, and only the hard cap needs an approval. *)

From S2P Require Export Finance FloatOrder ReducersThm.
#[local] Open Scope Z_scope.

(** ** Ranges *)

Definition between (lo hi f : float64) : Prop := f_leb lo f = true /\ f_leb f hi = true.
Definition unit_range : float64 -> Prop := between f_zero (f_const 1 1).
Definition signed_range : float64 -> Prop := between (f_const (-1) 1) (f_const 1 1).

Lemma not_below a b : f_ordered a -> f_ordered b -> f_ltb a b = false -> f_leb b a = true.
Proof. intros Ha Hb H. by rewrite f_leb_negb, H by done. Qed.

Lemma clamp01_range f : f_ordered f -> unit_range (clamp01 f).
Proof.
  intros Hf. unfold clamp01, unit_range, between. destruct (f_ltb f f_zero) eqn:E1; [by split|].
  destruct (f_ltb (f_const 1 1) f) eqn:E2; [by split|]. split; by apply not_below.
Qed.

Lemma clampSigned_range f : f_ordered f -> signed_range (clampSigned f).
Proof.
  intros Hf. unfold clampSigned, signed_range, between. destruct (f_ltb f (f_const (-1) 1)) eqn:E1; [by split|].
  destruct (f_ltb (f_const 1 1) f) eqn:E2; [by split|]. split; by apply not_below.
Qed.

(** What lies in a range of finite numbers is finite. *)
Lemma unit_finite f : unit_range f -> f_finite f.
Proof. intros [H1 H2]. destruct f as [[]|[]| |[]]; try done; cbn in H1, H2; discriminate. Qed.

Lemma unit_zero : unit_range f_zero.
Proof. by split. Qed.

Lemma maxFloat_ordered f l : Forall f_ordered (f :: l) -> f_ordered (maxFloat (f :: l)).
Proof.
  intros [Hf Hl]%Forall_cons. cbn [maxFloat]. revert f Hf. induction Hl as [|g l Hg _ IH]; intros f Hf; [done|].
  cbn [fold_left]. apply IH. by destruct (f_ltb f g).
Qed.

Lemma f_const_finite n d s m e : f_const n d = S754_finite s m e -> forall a, f_ordered a -> f_ordered (f_div a (f_const n d)).
Proof. intros -> a. apply f_div_ordered. Qed.

(** ** States whose numbers are numbers *)

Definition numbers_ok (s : FinancialWorldState) : Prop :=
  f_ordered (cf_SavingsRate (fw_CashflowState s)) /\
  f_ordered (li_DebtBurdenRatio (fw_LiabilityState s)) /\
  f_ordered (li_MinimumPaymentPressure (fw_LiabilityState s)) /\
  f_ordered (li_AverageAPR (fw_LiabilityState s)) /\
  f_ordered (default f_zero (pf_AssetAllocations (fw_PortfolioState s) !! "cash")) /\
  in_int64 (cf_MonthlyOutflowCents (fw_CashflowState s)) /\
  in_int64 (Z.of_nat (length (bh_RecurringSubscriptions (fw_BehaviorState s)))) /\
  f_ordered (pf_EmergencyFundMonths (fw_PortfolioState s)).

Section scores.
Context `{MO : MapOrder} (s : FinancialWorldState) (evidence : list EvidenceRecord) (asOf : time) (Hs : numbers_ok s).

Lemma debt_pressure_range : unit_range (debtPressureScore s).
Proof using Hs.
  destruct Hs as (_ & H1 & H2 & H3 & _). apply clamp01_range, maxFloat_ordered.
  repeat apply Forall_cons_2; [..|apply Forall_nil_2]; by (eapply f_const_finite; [vm_compute; reflexivity|]).
Qed.

Lemma int_ratio_range a b : in_int64 b -> unit_range (if 0 <? b then clamp01 (f_div (f_of_int a) (f_of_int b)) else f_zero).
Proof.
  intros Hb. destruct (0 <? b) eqn:E; [|apply unit_zero].
  apply clamp01_range, f_div_int_ordered; [apply f_of_int_ordered|done|lia].
Qed.

Lemma subscription_range : unit_range (clamp01 (subscription_burden (fw_BehaviorState s))).
Proof using Hs.
  destruct Hs as (_ & _ & _ & _ & _ & _ & Hl & _). apply clamp01_range. unfold subscription_burden.
  destruct (0 <? Z.of_nat _) eqn:E; [apply f_div_int_ordered; [apply f_of_int_ordered|done|lia]|].
  destruct (0 <? bh_DuplicateSubscriptionCount _); [|done].
  assert (H : f_ordered (f_div (f_of_int (bh_DuplicateSubscriptionCount (fw_BehaviorState s))) (f_const 3 1)))
    by (eapply f_const_finite; [vm_compute; reflexivity|apply f_of_int_ordered]).
  revert H. generalize (f_div (f_of_int (bh_DuplicateSubscriptionCount (fw_BehaviorState s))) (f_const 3 1)).
  intros f Hf. change (f_const 1 1) with (S754_finite false 4503599627370496 (-52)). unfold f_min.
  destruct f as [[]|[]| |[]]; try done; by destruct (f_ltb _ _).
Qed.

Lemma tradeoff_range n :
  signed_range (clampSigned (f_sub
    (clamp01 (f_div (f_of_int n) (f_of_int (max64 (cf_MonthlyOutflowCents (fw_CashflowState s)) 1)))) (debtPressureScore s))).
Proof using Hs.
  assert (Hd : f_ordered (debtPressureScore s)) by (apply (f_leb_ordered f_zero); apply debt_pressure_range).
  apply clampSigned_range, f_sub_ordered; [|done]. apply unit_finite, clamp01_range, f_div_int_ordered; [apply f_of_int_ordered| |];
    destruct Hs as (_ & _ & _ & _ & _ & Ho & _); revert Ho; unfold max64, in_int64, two63; destruct (1 <? _) eqn:E; lia.
Qed.
End scores.

(** ** The metrics, one by one *)

Inductive metric_value :=
| VInt (z : Z)
| VFloat (f : float64)
| VBool (b : bool)
| VString (s : string).

(** The value that the type of a record points to. *)
Definition value_of (m : MetricRecord) : option metric_value :=
  match mr_ValueType m with
  | MetricValueTypeInt64 => Some (VInt (mr_Int64Value m))
  | MetricValueTypeFloat64 => Some (VFloat (mr_Float64Value m))
  | MetricValueTypeBool => Some (VBool (mr_BoolValue m))
  | MetricValueTypeString => Some (VString (mr_StringValue m))
  | MetricValueTypeOther _ => None
  end.

Definition equals (v : metric_value) (m : MetricRecord) : Prop := value_of m = Some v.
Definition score (lo hi : float64) (m : MetricRecord) : Prop := exists f, value_of m = Some (VFloat f) /\ between lo hi f.
Definition unit_score : MetricRecord -> Prop := score f_zero (f_const 1 1).
Definition not_negative (m : MetricRecord) : Prop := exists f, value_of m = Some (VFloat f) /\ f_leb f_zero f = true.

(** The greatest absolute drift of an asset class, or 0: it reaches just the
    levels that 0 or the drift of some class reaches. *)
Definition greatest_drift (s : FinancialWorldState) (m : MetricRecord) : Prop :=
  exists f, value_of m = Some (VFloat f) /\
    forall t, f_leb t f = true <-> f_leb t f_zero = true \/ drifted t (fw_PortfolioState s).

(** What the four bundles hold, in order. *)
Definition cashflow_metrics (s : FinancialWorldState) : list (string * (MetricRecord -> Prop)) :=
  let c := fw_CashflowState s in
  let b := fw_BehaviorState s in
  let months := VFloat (pf_EmergencyFundMonths (fw_PortfolioState s)) in
  [("monthly_inflow_cents", equals (VInt (cf_MonthlyInflowCents c)));
   ("monthly_outflow_cents", equals (VInt (cf_MonthlyOutflowCents c)));
   ("monthly_net_income_cents", equals (VInt (cf_MonthlyNetIncomeCents c)));
   ("savings_rate", equals (VFloat (cf_SavingsRate c)));
   ("savings_rate_quality_score", unit_score);
   ("debt_pressure_score", unit_score);
   ("emergency_fund_coverage_months", equals months);
   ("liquidity_buffer_months", equals months);
   ("subscription_burden_ratio", unit_score);
   ("recurring_expense_signal", unit_score);
   ("duplicate_subscription_count", equals (VInt (bh_DuplicateSubscriptionCount b)));
   ("late_night_spending_frequency", equals (VFloat (bh_LateNightSpendingFrequency b)))].

Definition debt_metrics (s : FinancialWorldState) : list (string * (MetricRecord -> Prop)) :=
  let c := fw_CashflowState s in
  let l := fw_LiabilityState s in
  [("debt_burden_ratio", equals (VFloat (li_DebtBurdenRatio l)));
   ("minimum_payment_pressure", equals (VFloat (li_MinimumPaymentPressure l)));
   ("average_apr", equals (VFloat (li_AverageAPR l)));
   ("monthly_net_income_cents", equals (VInt (cf_MonthlyNetIncomeCents c)));
   ("debt_payoff_pressure", unit_score);
   ("liquidity_after_paydown", not_negative);
   ("investable_surplus_cents", equals (VInt (Z.max 0 (cf_MonthlyNetIncomeCents c))));
   ("cash_buffer_impact", unit_score);
   ("effective_tradeoff_score", score (f_const (-1) 1) (f_const 1 1));
   ("emergency_fund_coverage_months", equals (VFloat (pf_EmergencyFundMonths (fw_PortfolioState s))));
   ("max_allocation_drift", greatest_drift s);
   ("overall_risk", equals (VString (rk_OverallRisk (fw_RiskState s))))].

Definition tax_metrics (s : FinancialWorldState) : list (string * (MetricRecord -> Prop)) :=
  let x := fw_TaxState s in
  let review := bool_decide ("withholding_review_required" ∈ tx_FamilyTaxNotes x) in
  [("effective_tax_rate", equals (VFloat (tx_EffectiveTaxRate x)));
   ("tax_advantaged_contribution_cents", equals (VInt (tx_TaxAdvantagedContributionCents x)));
   ("childcare_tax_signal", equals (VBool (tx_ChildcareTaxSignal x)));
   ("tax_deadline_risk", equals (VInt (Z.of_nat (length (tx_UpcomingDeadlines x)))));
   ("withholding_gap_signal", equals (VFloat (if review then f_const 1 1 else f_zero)))].

Definition portfolio_metrics (s : FinancialWorldState) : list (string * (MetricRecord -> Prop)) :=
  let p := fw_PortfolioState s in
  [("total_investable_assets_cents", equals (VInt (pf_TotalInvestableAssetsCents p)));
   ("emergency_fund_months", equals (VFloat (pf_EmergencyFundMonths p)));
   ("portfolio_drift_score", greatest_drift s);
   ("rebalance_pressure", greatest_drift s);
   ("cash_allocation", equals (VFloat (default f_zero (pf_AssetAllocations p !! "cash"))));
   ("portfolio_liquidity_impact", unit_score)].

(** The records are those of the table, each with its value. *)
Definition holds (records : list MetricRecord) (table : list (string * (MetricRecord -> Prop))) : Prop :=
  Forall2 (fun m entry => mr_Ref m = entry.1 /\ entry.2 m) records table.

Lemma holds_refs records table : holds records table -> refsFromRecords records = table.*1.
Proof. unfold holds, refsFromRecords. induction 1 as [|m entry records table [H _] _ IH]; [done|]. cbn. by rewrite H, IH. Qed.

Lemma max_drift_greatest `{MO : MapOrder} s m :
  value_of m = Some (VFloat (max_drift (map_values (pf_AllocationDrift (fw_PortfolioState s))))) -> greatest_drift s m.
Proof.
  intros Hm. eexists. split; [exact Hm|]. intros t. rewrite max_drift_leb, orb_true_iff, existsb_exists.
  unfold drifted. setoid_rewrite <- list_elem_of_In. setoid_rewrite elem_of_map_values. naive_solver.
Qed.

Lemma unit_scored m f : value_of m = Some (VFloat f) -> unit_range f -> unit_score m.
Proof. intros H1 H2. by exists f. Qed.

Lemma f_sub_finite_r a b : f_ordered a -> f_finite b -> f_ordered (f_sub a b).
Proof.
  unfold f_sub, SFsub. destruct a as [[]|[]| |[]], b as [[]|[]| |[]]; try done; intros _ _; apply binary_normalize_ordered.
Qed.

Lemma not_below_zero f : f_ordered f -> f_leb f_zero (if f_ltb f f_zero then f_zero else f) = true.
Proof. intros Hf. destruct (f_ltb f f_zero) eqn:E; [done|]. by apply not_below. Qed.

(** C29: What the finance engine reports of a state, metric by metric.  The
    bundles hold just the metrics of the four tables, in that order.  The
    copied ones are the numbers of the state; the surplus is the net income
    or 0; the drift metrics are the greatest absolute drift of an asset
    class.  The scores, the subscription burden, the recurring expense signal
    and the cash buffer impact lie between 0 and 1, the trade-off between -1
    and 1, and the liquidity after a paydown is not negative.  Of the state
    it is assumed that the savings rate, the debt burden, the payment
    pressure, the APR, the share of cash and the months of emergency fund are
    not NaN (they may be infinite), and that the outflow and the number of
    subscriptions fit 64 bits. *)
Theorem scores_in_range `{MO : MapOrder} s evidence asOf :
  numbers_ok s ->
  holds (cmb_Records (Cashflow s evidence asOf)) (cashflow_metrics s) /\
  holds (dmb_Records (DebtDecision s evidence asOf)) (debt_metrics s) /\
  holds (tmb_Records (Tax s evidence asOf)) (tax_metrics s) /\
  holds (pmb_Records (Portfolio s evidence asOf)) (portfolio_metrics s).
Proof.
  intros Hs. pose proof Hs as (Hr & _ & _ & _ & Hc & Ho & _ & Hm). pose proof (debt_pressure_range s Hs) as Hd.
  assert (Hone : forall a, f_ordered a -> f_ordered (f_sub (f_const 1 1) a)) by (intros a; by apply f_sub_ordered).
  assert (Hq : unit_range (clamp01 (f_div (cf_SavingsRate (fw_CashflowState s)) (f_const 20 100)))).
  { apply clamp01_range. eapply f_const_finite; [vm_compute; reflexivity|exact Hr]. }
  split_and!; repeat apply Forall2_cons_2; try apply Forall2_nil_2; (split; [reflexivity|]); try reflexivity;
    try (eapply max_drift_greatest; reflexivity);
    try (eapply unit_scored; [reflexivity|]; first [exact Hq|exact Hd|apply (subscription_range s Hs)|apply (int_ratio_range _ _ Ho)]).
  - eexists. split; [reflexivity|]. apply not_below_zero, f_sub_finite_r; [exact Hm|]. apply unit_finite, int_ratio_range, Ho.
  - set (n := cf_MonthlyNetIncomeCents (fw_CashflowState s)). change (Some (VInt (max64 n 0)) = Some (VInt (Z.max 0 n))).
    unfold max64. do 2 f_equal. destruct (Z.ltb_spec 0 n); lia.
  - eexists. split; [reflexivity|]. apply (tradeoff_range s Hs).
  - eapply unit_scored; [reflexivity|]. apply clamp01_range, Hone, Hc.
Qed.

(** A household with debts. *)
Definition sample_state : FinancialWorldState :=
  zero <| fw_CashflowState := zero <| cf_MonthlyOutflowCents := 500000 |> <| cf_MonthlyNetIncomeCents := 300000 |>
                                   <| cf_MonthlyFixedExpenseCents := 250000 |> <| cf_SavingsRate := f_const 375 1000 |> |>
       <| fw_LiabilityState := zero <| li_DebtBurdenRatio := f_const 1 4 |> <| li_MinimumPaymentPressure := f_const 11 100 |>
                                    <| li_AverageAPR := f_const 18 100 |> |>
       <| fw_BehaviorState := zero <| bh_DuplicateSubscriptionCount := 2 |> <| bh_RecurringSubscriptions := ["a"; "b"; "c"; "d"] |> |>.

Lemma scores_in_range_witness : holds (dmb_Records (DebtDecision (MO := canonical_order) sample_state [] 1)) (debt_metrics sample_state).
Proof.
  refine (proj1 (proj2 (scores_in_range (MO := canonical_order) sample_state [] 1 _))).
  unfold numbers_ok, f_ordered. split_and!; vm_compute; first [discriminate|split; congruence].
Defined.

(** ** Behavior *)

(** The family that takes the strength of its intervention from the recipe. *)
Definition guardrail_family (f : SkillFamily) : Prop :=
  f <> SkillFamilySubscriptionCleanup /\ f <> SkillFamilyLateNightSpendNudge.

Definition hard_cap (s : SkillSelection) : Prop := guardrail_family (sse_Family s) /\ sse_RecipeID s = "hard_cap.v1".

Lemma recommendation_refs bundle selected ids memoryRefs :
  let r := behavior_recommendation bundle selected ids memoryRefs in bre_MetricRefs r = refs bundle /\ bre_EvidenceRefs r = ids.
Proof. unfold behavior_recommendation. destruct (sse_Family selected); try done; by destruct (sse_RecipeID selected == "hard_cap.v1"). Qed.

(** Only the hard cap needs an approval. *)
Lemma recommendation_approval bundle selected ids memoryRefs :
  let r := behavior_recommendation bundle selected ids memoryRefs in
  (bre_ApprovalRequired r = true <-> hard_cap selected) /\
  (bre_ApprovalRequired r = true -> bre_ApprovalReason r <> "" /\ bre_RiskLevel r = RiskLevelHigh).
Proof.
  unfold behavior_recommendation, hard_cap, guardrail_family, riskForRecipe.
  destruct (sse_Family selected); try (split; [split; [done|naive_solver]|done]);
    (case_bool_decide as E; [by split|split; [split; [done|naive_solver]|done]]).
Qed.

Definition computed_refs : list string :=
  ["duplicate_subscription_count"; "late_night_spend_count"; "late_night_spend_ratio"; "discretionary_pressure_score";
   "recurring_subscription_count"].

Lemma refs_ComputeMetrics evidence now : refs (ComputeMetrics evidence now) = computed_refs.
Proof. reflexivity. Qed.

Lemma elem_of_if {A} (b : bool) (x a : A) : a ∈ (if b then [x] else []) -> a = x.
Proof. destruct b; [by intros ->%list_elem_of_singleton|by intros ?%elem_of_nil]. Qed.

Lemma anomaly_metrics metrics ids a : a ∈ behavior_anomalies metrics ids -> ban_MetricRefs a ⊆ computed_refs.
Proof.
  unfold behavior_anomalies, computed_refs. rewrite !elem_of_app.
  intros [Ha|[Ha|Ha]]; apply elem_of_if in Ha as ->; cbn [ban_MetricRefs]; set_solver.
Qed.

Lemma collected_elem records x :
  x ∈ collectEvidenceRefs records <-> blank x = false /\ exists r, r ∈ records /\ er_ID r = x.
Proof.
  unfold collectEvidenceRefs, behavior_uniqueStrings. rewrite unique_from_elem, list_elem_of_In, filter_In, <- list_elem_of_In.
  rewrite list_elem_of_fmap, negb_true_iff. split; [naive_solver|]. intros [Hb (r & Er & Hr)].
  split_and!; [naive_solver|done| |by apply not_elem_of_nil]. intros ->. discriminate Hb.
Qed.

Lemma analysis_summary_nonempty selected anomalies : analysis_summary selected anomalies <> "".
Proof. unfold analysis_summary. by destruct anomalies. Qed.

Lemma validator_one out rec :
  aou_Summary out <> "" -> selected_skill (aou_SelectedSkill out) = true -> aou_Recommendations out = [rec] ->
  bre_MetricRefs rec <> [] -> BehaviorValidator out = None <-> bre_EvidenceRefs rec <> [].
Proof.
  intros H1 H2 H3 H4. unfold BehaviorValidator. rewrite H2, H3. unfold first_error. cbn [List.find fst snd negb existsb].
  rewrite (bool_decide_eq_false_2 _ H1), (bool_decide_eq_false_2 _ H4), (bool_decide_eq_false_2 ([rec] = [])) by done.
  cbn [orb]. rewrite orb_false_r. case_bool_decide; naive_solver.
Qed.

Lemma collected_nonempty records : collectEvidenceRefs records <> [] <-> exists r, r ∈ records /\ blank (er_ID r) = false.
Proof.
  split.
  - intros H. destruct (collectEvidenceRefs records) as [|x l] eqn:E; [by destruct H|].
    assert (Hx : x ∈ collectEvidenceRefs records) by (rewrite E; left). apply collected_elem in Hx as (Hb & r & Hr & <-). by exists r.
  - intros (r & Hr & Hb) E. assert (Hx : er_ID r ∈ collectEvidenceRefs records); [|by rewrite E in Hx; apply elem_of_nil in Hx]. apply collected_elem. eauto.
Qed.

(** A behavior analysis refers only to what it has computed and seen: the
    block made from it bases every recommendation on metrics of its own
    records and on evidence it was given, and every risk flag on such metrics;
    it passes the validator exactly when some evidence has an id; it needs an
    approval exactly for the hard cap of the guardrail, and then gives a reason
    and calls the risk high. *)
Theorem analysis_is_grounded evidence selected memoryRefs now out blockID memoryIDs ids confidence :
  Analyze evidence selected memoryRefs now = inr out ->
  let block := ToBlockResult out blockID memoryIDs ids confidence in
  (forall r, r ∈ bbr_Recommendations block ->
    rc_MetricRefs r ⊆ refsFromRecords (bbr_MetricRecords block) /\ rc_EvidenceRefs r ⊆ (er_ID <$> bev_Evidence evidence)) /\
  (forall f, f ∈ bbr_RiskFlags block -> rf_MetricRefs f ⊆ refsFromRecords (bbr_MetricRecords block)) /\
  (BehaviorValidator out = None <-> exists r, r ∈ bev_Evidence evidence /\ blank (er_ID r) = false) /\
  (bbr_ApprovalRequired block = true <-> hard_cap selected) /\
  (bbr_ApprovalRequired block = true ->
    bbr_ApprovalReason block <> "" /\ Forall (fun r => rc_RiskLevel r = RiskLevelHigh) (bbr_Recommendations block)).
Proof.
  unfold Analyze. destruct (selected_skill selected) eqn:Hsel; [|done].
  set (bundle := ComputeMetrics evidence now). assert (Hb : refs bundle = computed_refs) by apply refs_ComputeMetrics.
  clearbody bundle. unfold Recommend. intros [= <-]. cbv zeta.
  set (collected := collectEvidenceRefs (bev_Evidence evidence)). set (rec := behavior_recommendation _ _ _ _).
  unfold ToBlockResult. cbn [bbr_Recommendations bbr_MetricRecords bbr_RiskFlags bbr_ApprovalRequired bbr_ApprovalReason
    aou_Recommendations aou_Metrics aou_Anomalies aou_SelectedSkill imap].
  change (refsFromRecords (bmb_Records bundle)) with (refs bundle). rewrite Hb.
  destruct (recommendation_refs bundle selected collected memoryRefs) as [Hm He]. fold rec in Hm, He.
  destruct (recommendation_approval bundle selected collected memoryRefs) as [Ha Hr]. fold rec in Ha, Hr.
  clearbody rec.
  split; [|split; [|split; [|split]]].
  - intros r ->%list_elem_of_singleton. cbn [block_recommendation rc_MetricRefs rc_EvidenceRefs]. rewrite Hm, He, Hb. split; [done|].
    intros x (_ & r & Hr' & <-)%collected_elem. by apply list_elem_of_fmap_2.
  - intros f (a & -> & Hin)%list_elem_of_fmap. exact (anomaly_metrics _ _ _ Hin).
  - rewrite <- collected_nonempty. fold collected. rewrite <- He.
    apply (validator_one _ rec); [apply analysis_summary_nonempty|exact Hsel|reflexivity|by rewrite Hm, Hb].
  - rewrite <- Ha. cbn [recommendationsRequireApproval existsb block_recommendation rc_ApprovalRequired]. by rewrite orb_false_r.
  - cbn [recommendationsRequireApproval existsb block_recommendation rc_ApprovalRequired]. rewrite orb_false_r.
    intros H. destruct (Hr H) as [H1 H2]. split; [|by apply Forall_singleton].
    unfold approvalReason. cbn [fmap list_fmap block_recommendation rc_ApprovalReason List.filter].
    by rewrite (bool_decide_eq_false_2 _ H1).
Qed.

(** A hard cap on a household that spends late at night. *)
Definition sample_selection : SkillSelection :=
  zero <| sse_Family := SkillFamilyDiscretionaryGuardrail |> <| sse_RecipeID := "hard_cap.v1" |>.
Definition sample_evidence : BehaviorEvidence := mkBehaviorEvidence sample_state [zero <| er_ID := "e1" |>].
Definition sample_output : AnalysisOutput :=
  match Analyze sample_evidence sample_selection ["m1"] 1 with inr out => out | inl _ => zero end.

Lemma analysis_is_grounded_witness :
  BehaviorValidator sample_output = None /\ bbr_ApprovalRequired (ToBlockResult sample_output "b1" [] ["e1"] f_zero) = true.
Proof.
  destruct (analysis_is_grounded sample_evidence sample_selection ["m1"] 1 sample_output "b1" [] ["e1"] f_zero)
    as (_ & _ & Hv & Ha & _); [vm_compute; reflexivity|]. split.
  - apply Hv. eexists. split; [left|reflexivity].
  - apply Ha. by split.
Defined.
