(* ===== verification/Structured.v ===== *)
(** * Structured model output, and what its pipeline returns *)

From S2P Require Export GoJson PlanTypes.
#[local] Open Scope Z_scope.

(** * Structured model output ([internal/structured])

    [Pipeline.Execute] (pipeline.go) and what it calls (repair.go): ask a
    generator for text, parse and validate it, ask for repairs a bounded
    number of times, and fall back.  The generator (a language model), the
    fallback and the recorder of traces act on a state [W] of the caller; the
    clock of [recordTrace] is a parameter of the same kind. *)

Section structured.
Context {W T : Type} `{ZT : Zero T}.

(** ** Schemas, results and pipelines *)

(** [Schema]: [Parser] and [Validator] may be nil. *)
Record Schema := mkSchema {
  sch_Name : string;
  sch_Parser : option (string -> error + T);
  sch_Validator : option (T -> list string)
}.

Record Result := mkResult {
  rs_Value : T;
  rs_Generation : StructuredGenerationResult;
  rs_FailureCategory : StructuredFailure;
  rs_ValidationDiagnostics : list string;
  rs_RepairAttempts : Z;
  rs_FallbackUsed : bool;
  rs_FallbackReason : string
}.
#[export] Instance eta_Result : Eta Result := eta! mkResult < rs_Value ; rs_Generation ; rs_FailureCategory ; rs_ValidationDiagnostics ; rs_RepairAttempts ; rs_FallbackUsed ; rs_FallbackReason >.
#[export] Instance zero_Result : Zero Result := mkResult zero zero zero zero zero zero zero.

(** [model.StructuredGenerator] *)
Definition StructuredGenerator : Type :=
  StructuredGenerationRequest -> ST error W StructuredGenerationResult.

(** [TraceRecorder], with the [time.Now] of [recordTrace]. *)
Record TraceRecorder := mkTraceRecorder {
  RecordStructuredOutput : TraceRecord -> W -> W;
  trace_now : W -> W * time
}.

Record Pipeline := mkPipeline {
  pl_Schema : Schema;
  pl_Generator : option StructuredGenerator;
  pl_RepairPolicy : RepairPolicy;
  pl_Fallback : option (ST error W T);
  pl_TraceRecorder : option TraceRecorder
}.

Definition DefaultRepairPolicy : RepairPolicy := mkRepairPolicy 1.

(** ** repair.go *)

(** [json.MarshalIndent] of a list of strings with prefix [""] and indent of
    two spaces; the list is nil when it is empty. *)
Definition MarshalIndent (items : list string) : string :=
  if bool_decide (items = []) then "null"
  else "[" +:+ newline +:+ "  " +:+
       Join (quote_json <$> items) ("," +:+ newline +:+ "  ") +:+ newline +:+ "]".

Definition repair_system : string :=
  "You repair malformed or schema-invalid structured JSON outputs. Return only corrected JSON.".

Definition repair_user (schemaName raw : string) (diagnostics : list string) : string :=
  "The previous structured output was invalid." +:+ newline +:+
  "Schema: " +:+ schemaName +:+ newline +:+
  "Diagnostics:" +:+ newline +:+
  MarshalIndent diagnostics +:+ newline +:+
  "Return only corrected JSON. Do not add explanation." +:+ newline +:+
  "Original invalid output:" +:+ newline +:+
  raw.

Definition buildRepairRequest (request : StructuredGenerationRequest) (schemaName raw : string)
    (diagnostics : list string) (attempt : Z) : StructuredGenerationRequest :=
  let m := sgq_ModelRequest request in
  request <| sgq_ModelRequest :=
    m <| mq_PromptID := mq_PromptID m +:+ ".repair" |>
      <| mq_GenerationPhase := GenerationPhaseRepair |>
      <| mq_AttemptIndex := attempt |>
      <| mq_Messages := [mkMessage MessageRoleSystem repair_system;
                         mkMessage MessageRoleUser (repair_user schemaName raw diagnostics)] |> |>.

(** The fields of a trace record that come from the request. *)
Definition traced_request (request : StructuredGenerationRequest) (record : TraceRecord) : TraceRecord :=
  let m := sgq_ModelRequest request in
  record <| str_TraceID := mq_TraceID m |>
         <| str_WorkflowID := mq_WorkflowID m |>
         <| str_TaskID := mq_TaskID m |>
         <| str_Agent := mq_Agent m |>
         <| str_PromptID := mq_PromptID m |>
         <| str_PromptVersion := mq_PromptVersion m |>
         <| str_GenerationPhase :=
              if GenerationPhase_string (mq_GenerationPhase m) == "" then GenerationPhaseInitial
              else mq_GenerationPhase m |>
         <| str_AttemptIndex := if mq_AttemptIndex m =? 0 then 1 else mq_AttemptIndex m |>.

Definition recordTrace (recorder : option TraceRecorder) (request : StructuredGenerationRequest)
    (record : TraceRecord) : ST error W unit :=
  match recorder with
  | None => mret tt
  | Some r => modify (fun w =>
      let '(w, now) := trace_now r w in
      RecordStructuredOutput r (traced_request request record <| str_RecordedAt := now |>) w)
  end.

Definition callGenerator (generator : option StructuredGenerator) (request : StructuredGenerationRequest) :
    ST error W StructuredGenerationResult :=
  match generator with
  | None => fail (PlainError "structured generator is required")
  | Some generate => generate request
  end.

(** ** pipeline.go *)

Section execute.
Context (p : Pipeline).

(** The value and its diagnostics; an error comes without diagnostics. *)
Definition parseAndValidate (raw : string) : error + (T * list string) :=
  match sch_Parser (pl_Schema p) with
  | None => inl (PlainError ("schema " +:+ Quote (sch_Name (pl_Schema p)) +:+ " parser is required"))
  | Some parse =>
      value ← parse raw;
      mret (value, match sch_Validator (pl_Schema p) with None => [] | Some validate => validate value end)
  end.

Definition executeFallback (category : StructuredFailure) (reason : string) : ST error W T :=
  match pl_Fallback p with
  | None => fail (PlainError (StructuredFailure_string category +:+ ": " +:+ reason))
  | Some execute => execute
  end.

(** [parseErrString]; [%v] of a list of strings puts spaces between them. *)
Definition parseErrString (outcome : error + (T * list string)) : string :=
  match outcome with
  | inl err => error_string err
  | inr (_, []) => ""
  | inr (_, diagnostics) => "[" +:+ Join diagnostics " " +:+ "]"
  end.

Definition outcome_diagnostics (outcome : error + (T * list string)) : list string :=
  match outcome with inl _ => [] | inr (_, diagnostics) => diagnostics end.

(** The category of an outcome that is not accepted. *)
Definition outcome_category (outcome : error + (T * list string)) : StructuredFailure :=
  match outcome_diagnostics outcome with [] => FailureCategoryParseFailed | _ => FailureCategorySchemaInvalid end.

(** The record of one attempt. *)
Definition attempt_record (parseAttempts repairAttempts : Z) (category : StructuredFailure)
    (diagnostics : list string) : TraceRecord :=
  (zero : TraceRecord) <| str_SchemaName := sch_Name (pl_Schema p) |>
    <| str_ParseAttempts := parseAttempts |> <| str_RepairAttempts := repairAttempts |>
    <| str_FailureCategory := category |> <| str_ValidationDiagnostics := diagnostics |>.

Definition with_fallback (used : bool) (reason : string) (record : TraceRecord) : TraceRecord :=
  record <| str_FallbackUsed := used |> <| str_FallbackReason := reason |>.

(** The local variables of the repair loop. *)
Record repair_state := mkRepairState {
  lastCategory : StructuredFailure;
  lastReason : string;
  lastRequest : StructuredGenerationRequest;
  lastRaw : string;
  diagnostics : list string;
  parseAttempts : Z;
  repairAttempts : Z
}.

Definition repaired_result (value : T) (generation : StructuredGenerationResult) (attempts : Z) : Result :=
  (zero : Result) <| rs_Value := value |> <| rs_Generation := generation |>
    <| rs_RepairAttempts := attempts |>.

(** The loop over [repairAttempts < MaxAttempts]; [turns] bounds the turns
    that are left.  It leaves with a result ([return]) or, at [break] or when
    the attempts are used up, with its variables. *)
Fixpoint repair_loop (initialRequest : StructuredGenerationRequest) (maxAttempts : Z) (turns : nat)
    (st : repair_state) : ST error W (Result + repair_state) :=
  match turns with
  | O => out_of_fuel
  | S turns =>
      if repairAttempts st <? maxAttempts then
        let attempts := repairAttempts st + 1 in
        let request := buildRepairRequest initialRequest (sch_Name (pl_Schema p)) (lastRaw st)
                         (diagnostics st) attempts in
        generated ← attempt (callGenerator (pl_Generator p) request);
        match generated with
        | inl err =>
            recordTrace (pl_TraceRecorder p) request
              (attempt_record (parseAttempts st) attempts FailureCategoryRepairFailed (diagnostics st));;
            mret (inr (mkRepairState FailureCategoryRepairFailed (error_string err) request (lastRaw st)
                         (diagnostics st) (parseAttempts st) attempts))
        | inr repaired =>
            let parses := parseAttempts st + 1 in
            match parseAndValidate (sgr_Content repaired) with
            | inr (value, []) =>
                recordTrace (pl_TraceRecorder p) request (attempt_record parses attempts zero []);;
                mret (inl (repaired_result value repaired attempts))
            | outcome =>
                recordTrace (pl_TraceRecorder p) request
                  (attempt_record parses attempts (outcome_category outcome) (outcome_diagnostics outcome));;
                repair_loop initialRequest maxAttempts turns
                  (mkRepairState (outcome_category outcome) (parseErrString outcome) request
                     (sgr_Content repaired) (outcome_diagnostics outcome) parses attempts)
            end
        end
      else mret (inr st)
  end.

Definition fallback_result (value : T) (diagnostics : list string) (attempts : Z) (reason : string) : Result :=
  (zero : Result) <| rs_Value := value |> <| rs_FailureCategory := FailureCategoryFallbackUsed |>
    <| rs_ValidationDiagnostics := diagnostics |> <| rs_RepairAttempts := attempts |>
    <| rs_FallbackUsed := true |> <| rs_FallbackReason := reason |>.

(** The fallback and its trace record; [category] is the one recorded when the
    fallback has a value. *)
Definition fall_back (request : StructuredGenerationRequest) (given category : StructuredFailure)
    (reason : string) (diagnostics : list string) (parseAttempts repairAttempts : Z) : ST error W Result :=
  value ← attempt (executeFallback given reason);
  match value with
  | inl fallbackErr =>
      recordTrace (pl_TraceRecorder p) request
        (with_fallback true reason
           (attempt_record parseAttempts repairAttempts FailureCategoryFallbackFailed diagnostics));;
      fail fallbackErr
  | inr value =>
      recordTrace (pl_TraceRecorder p) request
        (with_fallback true reason (attempt_record parseAttempts repairAttempts category diagnostics));;
      mret (fallback_result value diagnostics repairAttempts reason)
  end.

Definition initial_request (request : StructuredGenerationRequest) : StructuredGenerationRequest :=
  let m := sgq_ModelRequest request in
  request <| sgq_ModelRequest :=
    m <| mq_GenerationPhase := GenerationPhaseInitial |>
      <| mq_AttemptIndex := if mq_AttemptIndex m =? 0 then 1 else mq_AttemptIndex m |> |>.

Definition max_attempts : Z :=
  rp_MaxAttempts (if rp_MaxAttempts (pl_RepairPolicy p) =? 0 then DefaultRepairPolicy else pl_RepairPolicy p).

Definition Execute (request : StructuredGenerationRequest) : ST error W Result :=
  let initialRequest := initial_request request in
  generated ← attempt (callGenerator (pl_Generator p) initialRequest);
  match generated with
  | inl err =>
      fall_back initialRequest FailureCategoryFallbackUsed FailureCategoryFallbackUsed (error_string err) [] 0 0
  | inr genResult =>
      match parseAndValidate (sgr_Content genResult) with
      | inr (value, []) =>
          recordTrace (pl_TraceRecorder p) initialRequest (attempt_record 1 0 zero []);;
          mret ((zero : Result) <| rs_Value := value |> <| rs_Generation := genResult |>)
      | outcome =>
          recordTrace (pl_TraceRecorder p) initialRequest
            (attempt_record 1 0 (outcome_category outcome) (outcome_diagnostics outcome));;
          ended ← repair_loop initialRequest max_attempts (S (Z.to_nat max_attempts))
                    (mkRepairState (outcome_category outcome) (parseErrString outcome) initialRequest
                       (sgr_Content genResult) (outcome_diagnostics outcome) 1 0);
          match ended with
          | inl result => mret result
          | inr st =>
              fall_back (lastRequest st) (lastCategory st) (lastCategory st) (lastReason st) (diagnostics st)
                (parseAttempts st) (repairAttempts st)
          end
      end
  end.
End execute.
End structured.
Arguments Schema : clear implicits.
Arguments Result : clear implicits.
Arguments Pipeline : clear implicits.
Arguments StructuredGenerator : clear implicits.
Arguments TraceRecorder : clear implicits.

(** * Structured model output: what [Pipeline.Execute] returns

    Whatever the generator answers, the value returned passed the schema or
    is the fallback's, and the generator is asked at most once more than the
    repair policy allows.  [within] is a Hoare triple with a cost: how many
    times a computation calls the generator. *)

(** ** Computations with a cost *)

Section within.
Context {W : Type} (count : W -> nat).

(** Started anywhere, [m] ends without panic, adds at most [n] to the count,
    and its value satisfies [Q], or its error [F]. *)
Definition within {A} (n : nat) (Q : A -> Prop) (F : error -> Prop) (m : ST error W A) : Prop :=
  forall w, (count (m w).1 <= count w + n)%nat /\
    match (m w).2 with Ok a => Q a | Err e => F e | _ => False end.

Lemma within_ret {A} n (Q : A -> Prop) F a : Q a -> within n Q F (mret a).
Proof. intros HQ w. simpl. split; [lia | done]. Qed.

Lemma within_fail {A} n (Q : A -> Prop) (F : error -> Prop) e : F e -> within n Q F (fail e).
Proof. intros HF w. simpl. split; [lia | done]. Qed.

Lemma within_bind {A B} n1 n2 (Q1 : A -> Prop) (Q : B -> Prop) F m k :
  within n1 Q1 F m -> (forall a, Q1 a -> within n2 Q F (k a)) -> within (n1 + n2) Q F (m ≫= k).
Proof.
  intros Hm Hk w. unfold mbind, ST_bind. destruct (Hm w) as [Hc H].
  destruct (m w) as [w1 [a|e|why|]]; simpl in *; [|split; [lia | done] | done | done].
  destruct (Hk a H w1) as [Hc' H']. split; [lia | done].
Qed.

Lemma within_attempt {A} n (Q : A -> Prop) (F F' : error -> Prop) m :
  within n Q F m -> within n (fun r => match r with inl e => F e | inr a => Q a end) F' (attempt m).
Proof.
  intros Hm w. unfold attempt. destruct (Hm w) as [Hc H].
  by destruct (m w) as [w1 [a|e|why|]].
Qed.

Lemma within_weaken {A} n n' (Q Q' : A -> Prop) (F F' : error -> Prop) m :
  within n Q F m -> (n <= n')%nat -> (forall a, Q a -> Q' a) -> (forall e, F e -> F' e) -> within n' Q' F' m.
Proof.
  intros Hm Hn HQ HF w. destruct (Hm w) as [Hc H]. split; [lia|].
  destruct (m w).2; auto.
Qed.
End within.

Section execute.
Context {W T : Type} `{ZT : Zero T} (p : Pipeline W T) (count : W -> nat).

(** The pipeline's surroundings: the generator and the fallback end, only the
    generator is counted, and it counts one call. *)
Record well_behaved : Prop := {
  wb_generator g request : pl_Generator p = Some g -> within count 1 (fun _ => True) (fun _ => True) (g request);
  wb_fallback f : pl_Fallback p = Some f -> within count 0 (fun _ => True) (fun _ => True) f;
  wb_recorder r record w : pl_TraceRecorder p = Some r -> count (RecordStructuredOutput r record w) = count w;
  wb_clock r w : pl_TraceRecorder p = Some r -> count (trace_now r w).1 = count w;
}.

(** A result whose value is the schema's reading of what was generated, with
    nothing to object to. *)
Definition accepted (r : Result T) : Prop :=
  rs_FallbackUsed r = false /\ 0 <= rs_RepairAttempts r <= Z.max 0 (max_attempts p) /\
  (exists parse, sch_Parser (pl_Schema p) = Some parse /\ parse (sgr_Content (rs_Generation r)) = inr (rs_Value r)) /\
  forall validate, sch_Validator (pl_Schema p) = Some validate -> validate (rs_Value r) = [].

(** A result whose value is the fallback's. *)
Definition fell_back (r : Result T) : Prop :=
  rs_FallbackUsed r = true /\ rs_FailureCategory r = FailureCategoryFallbackUsed /\
  exists f w w', pl_Fallback p = Some f /\ f w = (w', Ok (rs_Value r)).

(** The error of a fallback that is missing or fails. *)
Definition fallback_error (e : error) : Prop :=
  match pl_Fallback p with Some f => exists w w', f w = (w', Err e) | None => True end.

Context (HW : well_behaved).

Lemma within_record {A} n (Q : A -> Prop) F request record k :
  within count n Q F k -> within count n Q F (recordTrace (pl_TraceRecorder p) request record;; k).
Proof.
  intros Hk. apply (within_bind count 0 n (fun _ => True)); [|done].
  unfold recordTrace. destruct (pl_TraceRecorder p) as [r|] eqn:E; [|by apply within_ret].
  intros w. simpl. pose proof (wb_clock HW r w E) as Hc.
  destruct (trace_now r w) as [w1 t]. rewrite (wb_recorder HW r _ w1 E). simpl in Hc. split; [lia | done].
Qed.

Lemma within_generate request :
  within count 1 (fun _ => True) (fun _ => False) (attempt (callGenerator (pl_Generator p) request)).
Proof.
  eapply within_weaken;
    [apply (within_attempt count 1 (fun _ => True) (fun _ => True) (fun _ => False)) | lia | done | done].
  unfold callGenerator. destruct (pl_Generator p) as [g|] eqn:E; [by apply (wb_generator HW) | by apply within_fail].
Qed.

Lemma within_fall_back request given category reason diagnostics parses repairs :
  within count 0 fell_back fallback_error
    (fall_back p request given category reason diagnostics parses repairs).
Proof.
  unfold fall_back.
  apply (within_bind count 0 0 (fun r => match r with
    | inl e => fallback_error e
    | inr v => exists f w w', pl_Fallback p = Some f /\ f w = (w', Ok v) end)).
  - apply (within_attempt count 0 (fun v => exists f w w', pl_Fallback p = Some f /\ f w = (w', Ok v))).
    unfold executeFallback, fallback_error. destruct (pl_Fallback p) as [f|] eqn:E; [|by apply within_fail].
    intros w. destruct (wb_fallback HW f E w) as [Hc H]. split; [done|].
    destruct (f w) as [w' [v|e|why|]] eqn:Ef; simpl in *; eauto.
  - intros [e|v] H; apply within_record; [by apply within_fail | apply within_ret].
    repeat split; [done..|]. exact H.
Qed.

Lemma parsed_and_valid raw value :
  parseAndValidate p raw = inr (value, []) ->
  (exists parse, sch_Parser (pl_Schema p) = Some parse /\ parse raw = inr value) /\
  forall validate, sch_Validator (pl_Schema p) = Some validate -> validate value = [].
Proof.
  unfold parseAndValidate. destruct (sch_Parser (pl_Schema p)) as [parse|]; [|done]. simpl.
  destruct (parse raw) as [e|v] eqn:E; [done|]. simpl. intros [= <- Hv]. split; [eauto|].
  intros validate HV. by rewrite HV in Hv.
Qed.

(** The loop asks once per attempt that is left. *)
Lemma within_repair_loop initialRequest turns st :
  0 <= repairAttempts st -> Z.max 0 (max_attempts p - repairAttempts st) < Z.of_nat turns ->
  within count (Z.to_nat (max_attempts p - repairAttempts st))
    (fun r => match r with inl r => accepted r | inr _ => True end) (fun _ => False)
    (repair_loop p initialRequest (max_attempts p) turns st).
Proof.
  revert st. induction turns as [|turns IH]; intros st H0 Hfuel; simpl; [lia|].
  destruct (repairAttempts st <? max_attempts p) eqn:E; [apply Z.ltb_lt in E | by apply within_ret].
  replace (Z.to_nat (max_attempts p - repairAttempts st))
    with (1 + Z.to_nat (max_attempts p - (repairAttempts st + 1)))%nat by lia.
  apply (within_bind count 1 _ (fun _ => True)); [apply within_generate|].
  intros [err|repaired] _; [apply within_record; by apply within_ret|].
  destruct (parseAndValidate p (sgr_Content repaired)) as [e|[value [|d ds]]] eqn:Ep; apply within_record.
  - apply (IH (mkRepairState _ _ _ _ _ _ (repairAttempts st + 1))); simpl; lia.
  - apply within_ret. split; [done|]. split; [simpl; lia | exact (parsed_and_valid _ _ Ep)].
  - apply (IH (mkRepairState _ _ _ _ _ _ (repairAttempts st + 1))); simpl; lia.
Qed.
End execute.

Lemma structured_output_spec {W T} `{ZT : Zero T} (p : Pipeline W T) (count : W -> nat)
    (request : StructuredGenerationRequest) :
  well_behaved p count ->
  within count (S (Z.to_nat (max_attempts p))) (fun r => accepted p r \/ fell_back p r) (fallback_error p)
    (Execute p request).
Proof.
  intros HW. unfold Execute.
  apply (within_bind count 1 _ (fun _ => True));
    [eapply within_weaken; [by apply within_generate | lia | done | done]|].
  assert (Hfall : forall n request given category reason diagnostics parses repairs,
    within count n (fun r => accepted p r \/ fell_back p r) (fallback_error p)
      (fall_back p request given category reason diagnostics parses repairs)).
  { intros. eapply within_weaken; [by apply within_fall_back | lia | by right | done]. }
  intros [err|generated] _; [apply Hfall|].
  assert (Hloop : forall outcome : error + (T * list string),
    within count (Z.to_nat (max_attempts p)) (fun r => accepted p r \/ fell_back p r) (fallback_error p)
      (ended ← repair_loop p (initial_request request) (max_attempts p) (S (Z.to_nat (max_attempts p)))
         (mkRepairState (outcome_category outcome) (parseErrString outcome) (initial_request request)
            (sgr_Content generated) (outcome_diagnostics outcome) 1 0);
       match ended with
       | inl result => mret result
       | inr st => fall_back p (lastRequest st) (lastCategory st) (lastCategory st) (lastReason st)
                     (diagnostics st) (parseAttempts st) (repairAttempts st)
       end)).
  { intros outcome. rewrite <- (Nat.add_0_r (Z.to_nat (max_attempts p))) at 1.
    apply (within_bind count _ _ (fun e => match e with inl r => accepted p r | inr _ => True end));
      [|intros [r|st] H; [apply within_ret; left; exact H | apply Hfall]].
    eapply within_weaken; [apply (within_repair_loop p count HW); cbn [repairAttempts]; lia | cbn [repairAttempts]; lia | by intros [r|st] | done]. }
  destruct (parseAndValidate p (sgr_Content generated)) as [e|[value [|d ds]]] eqn:Ep;
    apply within_record; [done | apply Hloop | done | | done | apply Hloop].
  apply within_ret. left. split; [done|]. split; [split; [done | apply Z.le_max_l] | exact (parsed_and_valid p _ _ Ep)].
Qed.

(** C24: The value a structured pipeline returns has passed the schema's parser
    and validator, or it is the fallback's and is reported as such; an error
    comes only from the fallback.  The generator is asked at most once, and
    once more per repair attempt of the policy, and [Execute] always ends. *)
Theorem structured_output_accepted_or_fallback {W T} `{ZT : Zero T} (p : Pipeline W T) (count : W -> nat)
    (request : StructuredGenerationRequest) :
  well_behaved p count ->
  within count (S (Z.to_nat (max_attempts p))) (fun r => accepted p r \/ fell_back p r) (fallback_error p)
    (Execute p request).
Proof. apply structured_output_spec. Qed.

(** A generator that answers badly once and then well: the repair is taken. *)
Definition sample_pipeline : Pipeline nat string := {|
  pl_Schema := mkSchema "Word" (Some (fun raw => inr raw)) (Some (fun v => if v == "good" then [] else ["bad word"]));
  pl_Generator := Some (fun request n =>
    (S n, Ok ((zero : StructuredGenerationResult) <| sgr_Content :=
      if mq_GenerationPhase (sgq_ModelRequest request) == GenerationPhaseRepair then "good" else "bad" |>)));
  pl_RepairPolicy := zero;
  pl_Fallback := Some (mret "fallback");
  pl_TraceRecorder := None
|}.

Lemma structured_output_accepted_or_fallback_witness :
  well_behaved sample_pipeline id /\ rs_Value <$> (match (Execute sample_pipeline zero 0%nat).2 with Ok r => Some r | _ => None end) = Some "good" /\
  within id 2 (fun r => accepted sample_pipeline r \/ fell_back sample_pipeline r) (fallback_error sample_pipeline)
    (Execute sample_pipeline zero).
Proof.
  assert (well_behaved sample_pipeline id).
  { split; [intros g request [= <-] w | intros f [= <-] w | done | done]; simpl; split; (unfold id; lia) || done. }
  split; [done|]. split; [vm_compute; reflexivity|].
  apply (structured_output_accepted_or_fallback sample_pipeline id zero). done.
Defined.
