(* ===== verification/Prompt.v ===== *)
(** * Prompts ([internal/prompt])

    The registry with its embedded templates, the render policies and
    [PromptRenderer.Render].  The data of a prompt is a map of texts, valid
    UTF-8, as every caller's struct of strings becomes through JSON.  Of
    [text/template] the model has the actions the templates use, which print
    one field. *)

From Stdlib Require Import Ascii.
From S2P Require Export PlanTypes.
#[local] Open Scope Z_scope.

(** ** The templates (templates/*.tmpl) *)

Definition text_lines (lines : list string) : string := String.concat "" ((fun l => l +:+ newline) <$> lines).

(** An apostrophe stands for a double quote, which the templates have and
    apostrophes they have not. *)
Definition quoted (s : string) : string :=
  map_string (fun c => if Ascii.eqb c "039"%char then String dquote EmptyString else String c EmptyString) s.

Definition cashflow_system : string := (text_lines
  ["你是 Personal CFO OS 的 CashflowAgent。";
   "你必须基于给定的 deterministic metrics、selected evidence 和 selected memories 输出严格 JSON。";
   "你不能发明新的金额、比率或趋势数值；所有数字真相都以 deterministic metrics 为准。";
   "你的职责是：产出 grounded summary、key findings、recommendations、risk flags、metric refs、evidence refs、confidence 和 caveats。";
   ""]).

Definition cashflow_user : string := quoted (text_lines
  ["任务目标：{{ .Goal }}";
   "Block：{{ .BlockID }} / {{ .BlockKind }}";
   "";
   "{{ .PolicyOrderedSections }}";
   "";
   "请输出 JSON，字段固定为：";
   "{";
   "  'summary': 'string',";
   "  'key_findings': ['string'],";
   "  'grounded_recommendations': [{'title':'string','detail':'string','severity':'low|medium|high','evidence_refs':['evidence_id']}],";
   "  'risk_flags': [{'code':'string','severity':'low|medium|high','detail':'string','evidence_ids':['evidence_id']}],";
   "  'metric_refs': ['metric_name'],";
   "  'evidence_refs': ['evidence_id'],";
   "  'confidence': 0.0,";
   "  'caveats': ['string']";
   "}"]).

Definition planner_system : string := (text_lines
  ["你是 Personal CFO OS 的 PlannerAgent。";
   "你必须基于给定的候选 blocks 和已有上下文，输出严格 JSON。";
   "你不能发明新的 block kind、recipient、protocol shape，也不能删除必须存在的 blocks。";
   "你的职责是：在允许的候选集内决定 block order、步骤强调点、verification focus notes 和规划 rationale。";
   ""]).

Definition planner_user : string := quoted (text_lines
  ["任务目标：{{ .Goal }}";
   "";
   "{{ .PolicyOrderedSections }}";
   "";
   "请输出 JSON，字段固定为：";
   "{";
   "  'plan_summary': 'string',";
   "  'rationale': 'string',";
   "  'verification_focus_notes': ['string'],";
   "  'block_order': ['block_id'],";
   "  'step_emphasis': [{'step_id':'string','emphasis':'string'}]";
   "}"]).

Definition template_files : gmap string string := list_to_map
  [("templates/cashflow.monthly_review.v1.system.tmpl", cashflow_system);
   ("templates/cashflow.monthly_review.v1.user.tmpl", cashflow_user);
   ("templates/planner.monthly_review.v1.system.tmpl", planner_system);
   ("templates/planner.monthly_review.v1.user.tmpl", planner_user)].

(** ** The registry (registry.go) *)

Definition ContextInjectionPolicyContextThenCandidateCatalog := "context_then_candidate_catalog".
Definition ContextInjectionPolicyContextThenGroundedMetrics := "context_then_grounded_metrics".

Definition PromptRegistry : Type := gmap string PromptTemplate.

Definition read_template (label path : string) : error + string :=
  or_error (WrapError ("read prompt " +:+ label +:+ " template " +:+ Quote path +:+ ": ")
              (PlainError ("open " +:+ path +:+ ": file does not exist")))
    (template_files !! path).

Definition Register (r : PromptRegistry) (template : PromptTemplate) : error + PromptRegistry :=
  if pm_ID template == "" then inl (PlainError "prompt template id is required")
  else
    systemContent ← read_template "system" (pm_SystemPath template);
    userContent ← read_template "user" (pm_UserPath template);
    mret (<[pm_ID template := template <| pm_systemContent := systemContent |> <| pm_userContent := userContent |>]> r).

Definition default_templates : list PromptTemplate :=
  [mkPromptTemplate "planner.monthly_review.v1" "v1" ModelProfilePlannerReasoning
     "templates/planner.monthly_review.v1.system.tmpl" "templates/planner.monthly_review.v1.user.tmpl"
     (mkPromptRenderPolicy ContextInjectionPolicyContextThenCandidateCatalog) "" "";
   mkPromptTemplate "cashflow.monthly_review.v1" "v1" ModelProfileCashflowFast
     "templates/cashflow.monthly_review.v1.system.tmpl" "templates/cashflow.monthly_review.v1.user.tmpl"
     (mkPromptRenderPolicy ContextInjectionPolicyContextThenGroundedMetrics) "" ""].

Fixpoint register_all (r : PromptRegistry) (templates : list PromptTemplate) : error + PromptRegistry :=
  match templates with
  | [] => mret r
  | t :: templates => r ← Register r t; register_all r templates
  end.

Definition NewRegistry : error + PromptRegistry := register_all ∅ default_templates.

(** [None] is the nil registry. *)
Definition Lookup (r : option PromptRegistry) (id : string) : error + PromptTemplate :=
  match r with
  | None => inl (PlainError "prompt registry is nil")
  | Some r => or_error (PlainError ("unknown prompt template " +:+ Quote id)) (r !! id)
  end.

(** ** Rendering (renderer.go) *)

Definition joinPromptSections (sections : list promptSection) : string :=
  Join ((fun s => pn_Heading s +:+ "：" +:+ newline +:+ TrimSpace (pn_Content s)) <$>
          filter (fun s => pn_Heading s <> "" /\ TrimSpace (pn_Content s) <> "") sections)
    (newline +:+ newline).

Definition stringValue (data : gmap string string) (name : string) : string := default "" (data !! name).

Definition policy_sections (policy : string) : list (string * string) * string :=
  if policy == ContextInjectionPolicyContextThenCandidateCatalog then
    ([("上下文", "ContextSummary"); ("候选 blocks", "CandidateBlocks"); ("候选步骤", "CandidateSteps")],
     "section_order=context->candidate_blocks->candidate_steps")
  else if policy == ContextInjectionPolicyContextThenGroundedMetrics then
    ([("上下文", "ContextSummary"); ("deterministic metrics", "MetricsSummary");
      ("selected evidence", "EvidenceSummary"); ("selected memories", "MemorySummary")],
     "section_order=context->grounded_metrics->evidence->memory")
  else ([("上下文", "ContextSummary")], "section_order=context").

Definition applyRenderPolicy (templateDef : PromptTemplate) (data : gmap string string) :
    gmap string string * list string :=
  let policy := pp_ContextInjectionPolicy (pm_RenderPolicy templateDef) in
  let '(sections, order) := policy_sections policy in
  (<["PolicyOrderedSections" :=
       joinPromptSections ((fun '(heading, name) => mkpromptSection heading (stringValue data name)) <$> sections)]> data,
   ["applied_policy=" +:+ policy; order]).

(** The text before the next [mark], and the text after it. *)
Fixpoint split_at (mark s : string) : option (string * string) :=
  if String.prefix mark s then Some (EmptyString, String.substring (String.length mark) (String.length s) s)
  else match s with
       | EmptyString => None
       | String c s => '(before, after) ← split_at mark s; Some (String c before, after)
       end.

(** What an action prints: [.Name], a field of the data. *)
Definition print_action (data : gmap string string) (action : string) : error + string :=
  match TrimSpace action with
  | String "046" name => mret (default "<no value>" (data !! name))
  | other => inl (PlainError ("template action not modelled: " +:+ other))
  end.

Fixpoint render_from (fuel : nat) (data : gmap string string) (content : string) : error + string :=
  match fuel with
  | O => mret content
  | S fuel =>
      match split_at "{{" content with
      | None => mret content
      | Some (before, rest) =>
          match split_at "}}" rest with
          | None => inl (PlainError "template: prompt:1: unclosed action")
          | Some (action, rest) =>
              printed ← print_action data action;
              tail ← render_from fuel data rest;
              mret (before +:+ printed +:+ tail)
          end
      end
  end.

(** [renderTemplate]; a template has fewer actions than characters. *)
Definition renderTemplate (content : string) (data : gmap string string) : error + string :=
  render_from (S (String.length content)) data content.

Definition heuristicTokenEstimate (text : string) : Z :=
  if text == "" then 0
  else
    let runes := rune_count text in
    let estimate := runes / 4 in
    let estimate := if runes mod 4 =? 0 then estimate else estimate + 1 in
    Z.max estimate 1.

(** The trace of a rendering, but for its time. *)
Definition render_trace (templateDef : PromptTemplate) (traceInput : PromptTraceInput) (decisions : list string)
    (system user : string) : PromptRenderTrace :=
  (zero : PromptRenderTrace)
    <| pq_PromptID := pm_ID templateDef |>
    <| pq_PromptVersion := pm_Version templateDef |>
    <| pq_ModelProfile := pm_ModelProfile templateDef |>
    <| pq_SelectedStateBlocks := pi_SelectedStateBlocks traceInput |>
    <| pq_SelectedMemoryIDs := pi_SelectedMemoryIDs traceInput |>
    <| pq_SelectedEvidenceIDs := pi_SelectedEvidenceIDs traceInput |>
    <| pq_SelectedSkillNames := pi_SelectedSkillNames traceInput |>
    <| pq_ExcludedBlockRefs := pi_ExcludedBlockRefs traceInput |>
    <| pq_CompactionDecisions := pi_CompactionDecisions traceInput |>
    <| pq_AppliedPolicy := pp_ContextInjectionPolicy (pm_RenderPolicy templateDef) |>
    <| pq_RenderDecisions := decisions |>
    <| pq_EstimatedInputTokens :=
         Z.max (pi_EstimatedInputTokens traceInput) (heuristicTokenEstimate system + heuristicTokenEstimate user) |>.

Definition wrap_result {A} (prefix : string) (r : error + A) : error + A :=
  match r with inl e => inl (WrapError prefix e) | inr a => inr a end.

Section renderer.
Context {W : Type} (clock : W -> W * time).

Record PromptRenderer := mkPromptRenderer {
  prn_Registry : option PromptRegistry;
  prn_RecordPromptRender : option (PromptRenderTrace -> W -> W)
}.

Definition Messages (p : RenderedPrompt) : list Message :=
  [mkMessage MessageRoleSystem (po_System p); mkMessage MessageRoleUser (po_User p)].

(** What [Render] computes before it reads the clock. *)
Definition rendered_texts (r : PromptRenderer) (id : string) (data : gmap string string) :
    error + (PromptTemplate * list string * string * string) :=
  templateDef ← Lookup (prn_Registry r) id;
  let '(renderData, decisions) := applyRenderPolicy templateDef data in
  system ← wrap_result ("render prompt system template " +:+ Quote id +:+ ": ")
             (renderTemplate (pm_systemContent templateDef) renderData);
  user ← wrap_result ("render prompt user template " +:+ Quote id +:+ ": ")
           (renderTemplate (pm_userContent templateDef) renderData);
  mret (templateDef, decisions, system, user).

Definition Render (r : PromptRenderer) (id : string) (data : gmap string string) (traceInput : PromptTraceInput) :
    ST error W RenderedPrompt :=
  match prn_Registry r with
  | None => fail (PlainError "prompt renderer requires registry")
  | Some _ =>
      match rendered_texts r id data with
      | inl e => fail e
      | inr (templateDef, decisions, system, user) => fun w =>
          let '(w, now) := clock w in
          let trace := render_trace templateDef traceInput decisions system user <| pq_RenderedAt := now |> in
          let w := match prn_RecordPromptRender r with None => w | Some record => record trace w end in
          (w, Ok ((zero : RenderedPrompt)
                    <| po_ID := pm_ID templateDef |> <| po_Version := pm_Version templateDef |>
                    <| po_ModelProfile := pm_ModelProfile templateDef |>
                    <| po_System := system |> <| po_User := user |> <| po_Trace := trace |>))
      end
  end.
End renderer.
Arguments PromptRenderer : clear implicits.

(** The registry holds both prompts, and rendering fills every action in. *)
Example registry_renders :
  match NewRegistry with
  | inl _ => false
  | inr r =>
      match rendered_texts (W:=unit) (mkPromptRenderer (Some r) None) "planner.monthly_review.v1"
              {["Goal" := "复盘"; "ContextSummary" := " cash "; "CandidateBlocks" := "b"]} with
      | inr (_, _, system, user) =>
          (system == planner_system) && Contains user "任务目标：复盘" && negb (Contains user "{{") &&
          Contains user (Join ["上下文：" +:+ newline +:+ "cash"; "候选 blocks：" +:+ newline +:+ "b"] (newline +:+ newline))
      | inl _ => false
      end
  end = true.
Proof. vm_compute. reflexivity. Qed.
