(* ===== verification/Planning.v ===== *)
(** * Planning ([internal/planning])

    The execution blocks of every intent and the deterministic planner
    (block_plan.go, phase2.go), the validation of a plan with its search for
    cyclic dependencies (block_plan_validation.go), the phases of a plan
    (validation.go), and the planner that lets a language model choose the
    order of the blocks (provider_planner.go). *)

From S2P Require Export Structured Prompt ContextModel Memory GoNum Observation.
#[local] Open Scope Z_scope.

(** ** Blocks (block_plan.go) *)

Definition BlockRecipientCashflowAgent := "cashflow_agent".
Definition BlockRecipientDebtAgent := "debt_agent".
Definition BlockRecipientTaxAgent := "tax_agent".
Definition BlockRecipientPortfolioAgent := "portfolio_agent".
Definition BlockRecipientBehaviorAgent := "behavior_agent".

Definition requirement_of (item : RequiredEvidenceRef) : ExecutionBlockRequirement :=
  mkExecutionBlockRequirement (re_Type item) (re_Type item) (re_Mandatory item).

Definition requiredByType (items : list RequiredEvidenceRef) (allowedTypes : list string) :
    list ExecutionBlockRequirement :=
  requirement_of <$> filter (fun item => re_Type item ∈ allowedTypes) items.

Definition summary_mentions (texts : list string) (item : MemoryBlock) : bool :=
  existsb (Contains (ToLower (mb_Summary item))) texts.

Definition hasDebtPriorityMemory (slice : ContextSlice) : bool :=
  existsb (summary_mentions ["debt pressure"; "debt-versus-invest"; "debt burden"]) (cs_MemoryBlocks slice).

Definition hasTaxPriorityMemory (slice : ContextSlice) : bool :=
  existsb (summary_mentions ["tax signal"; "family-related tax"; "withholding"]) (cs_MemoryBlocks slice).

Definition taskHasScopeNote (spec : TaskSpec) (note : string) : bool :=
  existsb (fun item => EqualFold item note) (sc_Notes (ts_Scope spec)).

Definition depends (ids : list string) : list ExecutionBlockDependency := mkExecutionBlockDependency <$> ids.

Section blocks.
Context (spec : TaskSpec).

Definition monthly_cashflow_block : ExecutionBlock :=
  (zero : ExecutionBlock)
    <| xb_ID := "cashflow-review" |>
    <| xb_Kind := ExecutionBlockKindCashflowReview |>
    <| xb_AssignedRecipient := BlockRecipientCashflowAgent |>
    <| xb_Goal := "分析本月现金流、储蓄率、重复订阅与深夜消费信号，并给出 evidence-backed 建议。" |>
    <| xb_RequiredEvidenceRefs := requiredByType (ts_RequiredEvidence spec)
        ["transaction_batch"; "recurring_subscription_signal"; "late_night_spending_signal"; "payslip_statement"] |>
    <| xb_RequiredMemoryKinds := [MemoryKindSemantic; MemoryKindEpisodic; MemoryKindProcedural] |>
    <| xb_RequiredStateBlocks := ["cashflow_state"; "behavior_state"; "risk_state"] |>
    <| xb_ExecutionContextView := ContextViewExecution |>
    <| xb_SuccessCriteria := [mkExecutionBlockSuccessCriteria "cashflow-metrics" "monthly inflow, outflow, savings rate, and behavior signals are explicitly surfaced"] |>
    <| xb_VerificationHints := [mkExecutionBlockVerificationHint "cashflow_grounding" "recommendations must reference selected transaction or behavior evidence"] |>
    <| xb_RiskHints := [mkExecutionBlockRiskHint "medium" "cashflow pressure or spending volatility may materially change the review emphasis"] |>.

Definition monthly_debt_block (cashflowBlock : ExecutionBlock) : ExecutionBlock :=
  (zero : ExecutionBlock)
    <| xb_ID := "debt-review" |>
    <| xb_Kind := ExecutionBlockKindDebtReview |>
    <| xb_AssignedRecipient := BlockRecipientDebtAgent |>
    <| xb_Goal := "分析债务负担、最低还款压力和高风险债务暴露，并给出债务侧建议。" |>
    <| xb_RequiredEvidenceRefs := requiredByType (ts_RequiredEvidence spec)
        ["debt_obligation_snapshot"; "transaction_batch"; "credit_card_statement"] |>
    <| xb_RequiredMemoryKinds := [MemoryKindSemantic; MemoryKindProcedural] |>
    <| xb_RequiredStateBlocks := ["liability_state"; "cashflow_state"; "risk_state"] |>
    <| xb_ExecutionContextView := ContextViewExecution |>
    <| xb_SuccessCriteria := [mkExecutionBlockSuccessCriteria "debt-risk-coverage" "debt burden, APR pressure, and minimum payment pressure are reflected in the output"] |>
    <| xb_VerificationHints := [mkExecutionBlockVerificationHint "debt_grounding" "debt recommendations must cite debt snapshot or credit card evidence"] |>
    <| xb_RiskHints := [mkExecutionBlockRiskHint "high" "high debt pressure should elevate debt analysis priority and downstream governance sensitivity"] |>
    <| xb_DependsOn := [mkExecutionBlockDependency (xb_ID cashflowBlock)] |>.

Definition monthlyReviewBlocks (slice : ContextSlice) : list ExecutionBlock :=
  let cashflowBlock := monthly_cashflow_block in
  let debtBlock := monthly_debt_block cashflowBlock in
  if hasDebtPriorityMemory slice then
    let cashflowBlock := cashflowBlock <| xb_DependsOn := [mkExecutionBlockDependency (xb_ID debtBlock)] |> in
    let debtBlock := debtBlock <| xb_DependsOn := [] |> in
    let debtBlock := debtBlock <| xb_RiskHints := xb_RiskHints debtBlock ++
      [mkExecutionBlockRiskHint "high" "retrieved debt-pressure memory raised debt block priority for this review window"] |> in
    [debtBlock; cashflowBlock]
  else [cashflowBlock; debtBlock].

Definition decision_cashflow_block : ExecutionBlock :=
  (zero : ExecutionBlock)
    <| xb_ID := "cashflow-liquidity" |>
    <| xb_Kind := ExecutionBlockKindCashflowLiquidity |>
    <| xb_AssignedRecipient := BlockRecipientCashflowAgent |>
    <| xb_Goal := "评估继续投资或提前还贷前的流动性缓冲、现金流净结余和消费波动。" |>
    <| xb_RequiredEvidenceRefs := requiredByType (ts_RequiredEvidence spec)
        ["transaction_batch"; "portfolio_allocation_snapshot"; "payslip_statement"] |>
    <| xb_RequiredMemoryKinds := [MemoryKindSemantic; MemoryKindEpisodic] |>
    <| xb_RequiredStateBlocks := ["cashflow_state"; "portfolio_state"; "risk_state"] |>
    <| xb_ExecutionContextView := ContextViewExecution |>
    <| xb_SuccessCriteria := [mkExecutionBlockSuccessCriteria "liquidity-coverage" "liquidity and cashflow cushion are made explicit before any decision recommendation"] |>
    <| xb_VerificationHints := [mkExecutionBlockVerificationHint "liquidity_grounding" "cashflow/liquidity recommendation must be grounded in selected transaction or portfolio evidence"] |>
    <| xb_RiskHints := [mkExecutionBlockRiskHint "medium" "weak liquidity coverage can change whether debt paydown should be prioritized"] |>.

Definition decision_debt_block (cashflowBlock : ExecutionBlock) : ExecutionBlock :=
  (zero : ExecutionBlock)
    <| xb_ID := "debt-tradeoff" |>
    <| xb_Kind := ExecutionBlockKindDebtTradeoff |>
    <| xb_AssignedRecipient := BlockRecipientDebtAgent |>
    <| xb_Goal := "比较提前还贷与继续投资的债务压力、APR 暴露与最低还款影响。" |>
    <| xb_RequiredEvidenceRefs := requiredByType (ts_RequiredEvidence spec)
        ["debt_obligation_snapshot"; "transaction_batch"; "portfolio_allocation_snapshot"] |>
    <| xb_RequiredMemoryKinds := [MemoryKindSemantic; MemoryKindEpisodic] |>
    <| xb_RequiredStateBlocks := ["liability_state"; "cashflow_state"; "risk_state"] |>
    <| xb_ExecutionContextView := ContextViewExecution |>
    <| xb_SuccessCriteria := [mkExecutionBlockSuccessCriteria "tradeoff-grounding" "debt tradeoff recommendation explicitly reflects APR, debt burden, and payment pressure"] |>
    <| xb_VerificationHints := [mkExecutionBlockVerificationHint "decision_grounding" "tradeoff conclusion must cite debt snapshot and relevant cashflow evidence"] |>
    <| xb_RiskHints := [mkExecutionBlockRiskHint "high" "high APR or minimum payment pressure should bias the decision toward debt risk reduction"] |>
    <| xb_DependsOn := [mkExecutionBlockDependency (xb_ID cashflowBlock)] |>.

Definition debtDecisionBlocks (slice : ContextSlice) : list ExecutionBlock :=
  let cashflowBlock := decision_cashflow_block in
  let debtBlock := decision_debt_block cashflowBlock in
  if hasDebtPriorityMemory slice then
    let cashflowBlock := cashflowBlock <| xb_DependsOn := [mkExecutionBlockDependency (xb_ID debtBlock)] |> in
    let debtBlock := debtBlock <| xb_DependsOn := [] |> in
    let debtBlock := debtBlock <| xb_RiskHints := xb_RiskHints debtBlock ++
      [mkExecutionBlockRiskHint "high" "retrieved debt decision memory increased debt tradeoff priority"] |> in
    [debtBlock; cashflowBlock]
  else [cashflowBlock; debtBlock].

Definition cashflowEventBlock (dependsOn : list ExecutionBlockDependency) : ExecutionBlock :=
  (zero : ExecutionBlock)
    <| xb_ID := "cashflow-event-impact" |>
    <| xb_Kind := ExecutionBlockKindCashflowEventImpact |>
    <| xb_AssignedRecipient := BlockRecipientCashflowAgent |>
    <| xb_Goal := "评估 life event 对现金流、月度结余与流动性缓冲的影响。" |>
    <| xb_RequiredEvidenceRefs := requiredByType (ts_RequiredEvidence spec)
        ["event_signal"; "calendar_deadline"; "transaction_batch"; "payslip_statement"] |>
    <| xb_RequiredMemoryKinds := [MemoryKindSemantic; MemoryKindEpisodic; MemoryKindProcedural] |>
    <| xb_RequiredStateBlocks := ["cashflow_state"; "risk_state"; "workflow_state"] |>
    <| xb_ExecutionContextView := ContextViewExecution |>
    <| xb_SuccessCriteria := [mkExecutionBlockSuccessCriteria "cashflow-event-impact" "event-driven cashflow delta and liquidity implications are explicit and grounded"] |>
    <| xb_VerificationHints := [mkExecutionBlockVerificationHint "cashflow_event_grounding" "cashflow event recommendations must cite event and supporting transaction evidence"] |>
    <| xb_RiskHints := [mkExecutionBlockRiskHint "medium" "event-driven cashflow changes can shift downstream tax and portfolio urgency"] |>
    <| xb_DependsOn := dependsOn |>.

Definition portfolioEventBlock (dependsOn : list ExecutionBlockDependency) : ExecutionBlock :=
  (zero : ExecutionBlock)
    <| xb_ID := "portfolio-event-impact" |>
    <| xb_Kind := ExecutionBlockKindPortfolioEventImpact |>
    <| xb_AssignedRecipient := BlockRecipientPortfolioAgent |>
    <| xb_Goal := "评估 life event 对配置漂移、流动性缓冲和再平衡动作的影响。" |>
    <| xb_RequiredEvidenceRefs := requiredByType (ts_RequiredEvidence spec)
        ["event_signal"; "portfolio_allocation_snapshot"; "transaction_batch"] |>
    <| xb_RequiredMemoryKinds := [MemoryKindSemantic; MemoryKindEpisodic] |>
    <| xb_RequiredStateBlocks := ["portfolio_state"; "cashflow_state"; "risk_state"] |>
    <| xb_ExecutionContextView := ContextViewExecution |>
    <| xb_SuccessCriteria := [mkExecutionBlockSuccessCriteria "portfolio-event-impact" "portfolio drift, liquidity tradeoff, and rebalance implications are explicit and grounded"] |>
    <| xb_VerificationHints := [mkExecutionBlockVerificationHint "portfolio_event_grounding" "portfolio recommendations must cite portfolio and event evidence"] |>
    <| xb_RiskHints := [mkExecutionBlockRiskHint "medium" "event-driven cashflow changes may alter allocation drift tolerance and liquidity needs"] |>
    <| xb_DependsOn := dependsOn |>.

Definition debtHousingImpactBlock : ExecutionBlock :=
  (zero : ExecutionBlock)
    <| xb_ID := "debt-housing-impact" |>
    <| xb_Kind := ExecutionBlockKindDebtHousingImpact |>
    <| xb_AssignedRecipient := BlockRecipientDebtAgent |>
    <| xb_Goal := "评估 housing change 对债务压力、按揭余额和最低还款覆盖的影响。" |>
    <| xb_RequiredEvidenceRefs := requiredByType (ts_RequiredEvidence spec)
        ["event_signal"; "debt_obligation_snapshot"; "transaction_batch"] |>
    <| xb_RequiredMemoryKinds := [MemoryKindSemantic; MemoryKindProcedural] |>
    <| xb_RequiredStateBlocks := ["liability_state"; "cashflow_state"; "risk_state"] |>
    <| xb_ExecutionContextView := ContextViewExecution |>
    <| xb_SuccessCriteria := [mkExecutionBlockSuccessCriteria "housing-debt-impact" "housing-event debt pressure and liability impact are explicit and grounded"] |>
    <| xb_VerificationHints := [mkExecutionBlockVerificationHint "housing_debt_grounding" "debt housing recommendations must cite mortgage or debt evidence"] |>
    <| xb_RiskHints := [mkExecutionBlockRiskHint "high" "housing changes often create immediate debt and liquidity pressure"] |>.

Definition taxEventBlock : ExecutionBlock :=
  (zero : ExecutionBlock)
    <| xb_ID := "tax-event-impact" |>
    <| xb_Kind := ExecutionBlockKindTaxEventImpact |>
    <| xb_AssignedRecipient := BlockRecipientTaxAgent |>
    <| xb_Goal := "评估 life event 对税务、预扣和福利截止日期的影响。" |>
    <| xb_RequiredEvidenceRefs := requiredByType (ts_RequiredEvidence spec)
        ["event_signal"; "calendar_deadline"; "tax_document"; "payslip_statement"] |>
    <| xb_RequiredMemoryKinds := [MemoryKindSemantic; MemoryKindProcedural] |>
    <| xb_RequiredStateBlocks := ["tax_state"; "cashflow_state"; "risk_state"] |>
    <| xb_ExecutionContextView := ContextViewExecution |>
    <| xb_SuccessCriteria := [mkExecutionBlockSuccessCriteria "tax-event-impact" "tax changes, withholding implications, and deadlines are explicit and grounded"] |>
    <| xb_VerificationHints := [mkExecutionBlockVerificationHint "tax_event_grounding" "tax recommendations must cite tax, payroll, or event evidence"] |>
    <| xb_RiskHints := [mkExecutionBlockRiskHint "medium" "life events frequently create tax follow-up obligations and deadline-sensitive work"] |>.

(** The two orders of a tax, a cashflow and a portfolio block. *)
Definition tax_first : list ExecutionBlock :=
  [taxEventBlock; cashflowEventBlock (depends ["tax-event-impact"]);
   portfolioEventBlock (depends ["cashflow-event-impact"])].
Definition cashflow_first : list ExecutionBlock :=
  [cashflowEventBlock []; taxEventBlock; portfolioEventBlock (depends ["tax-event-impact"])].

Definition lifeEventBlocks (slice : ContextSlice) : list ExecutionBlock :=
  if taskHasScopeNote spec "new_child" then
    [taxEventBlock; cashflowEventBlock (depends ["tax-event-impact"])]
  else if taskHasScopeNote spec "housing_change" then
    [debtHousingImpactBlock; cashflowEventBlock (depends ["debt-housing-impact"]);
     portfolioEventBlock (depends ["cashflow-event-impact"])]
  else if taskHasScopeNote spec "job_change" then
    if hasTaxPriorityMemory slice then tax_first else cashflow_first
  else if hasTaxPriorityMemory slice then tax_first else cashflow_first.

Definition taxOptimizationBlocks : list ExecutionBlock :=
  [(zero : ExecutionBlock)
     <| xb_ID := "tax-optimization" |>
     <| xb_Kind := ExecutionBlockKindTaxOptimization |>
     <| xb_AssignedRecipient := BlockRecipientTaxAgent |>
     <| xb_Goal := "评估税务优化、预扣调整、税优账户使用和 deadline-sensitive tax actions。" |>
     <| xb_RequiredEvidenceRefs := requiredByType (ts_RequiredEvidence spec)
         ["event_signal"; "calendar_deadline"; "tax_document"; "payslip_statement"] |>
     <| xb_RequiredMemoryKinds := [MemoryKindSemantic; MemoryKindProcedural] |>
     <| xb_RequiredStateBlocks := ["tax_state"; "cashflow_state"; "risk_state"] |>
     <| xb_ExecutionContextView := ContextViewExecution |>
     <| xb_SuccessCriteria := [mkExecutionBlockSuccessCriteria "tax-optimization-grounded" "tax optimization output explicitly reflects withholding, tax signals, and deadline-sensitive work"] |>
     <| xb_VerificationHints := [mkExecutionBlockVerificationHint "tax_optimization_grounding" "tax optimization recommendations must cite tax, payroll, or deadline evidence"] |>
     <| xb_RiskHints := [mkExecutionBlockRiskHint "medium" "tax optimization may be deadline-sensitive and approval-sensitive for withholding changes"] |>].

Definition portfolioRebalanceBlocks : list ExecutionBlock :=
  [(zero : ExecutionBlock)
     <| xb_ID := "portfolio-rebalance" |>
     <| xb_Kind := ExecutionBlockKindPortfolioRebalance |>
     <| xb_AssignedRecipient := BlockRecipientPortfolioAgent |>
     <| xb_Goal := "评估配置漂移、现金头寸、流动性缓冲和再平衡 caveats。" |>
     <| xb_RequiredEvidenceRefs := requiredByType (ts_RequiredEvidence spec)
         ["event_signal"; "portfolio_allocation_snapshot"; "transaction_batch"] |>
     <| xb_RequiredMemoryKinds := [MemoryKindSemantic; MemoryKindEpisodic] |>
     <| xb_RequiredStateBlocks := ["portfolio_state"; "cashflow_state"; "risk_state"] |>
     <| xb_ExecutionContextView := ContextViewExecution |>
     <| xb_SuccessCriteria := [mkExecutionBlockSuccessCriteria "portfolio-rebalance-grounded" "rebalance output explicitly reflects allocation drift, liquidity, and event-driven contribution changes"] |>
     <| xb_VerificationHints := [mkExecutionBlockVerificationHint "portfolio_rebalance_grounding" "portfolio rebalance recommendations must cite portfolio, liquidity, and event evidence"] |>
     <| xb_RiskHints := [mkExecutionBlockRiskHint "medium" "rebalance actions may be gated by liquidity or event-driven cash needs"] |>].

Definition skill_hint : string :=
  let mentions text := Contains (ToLower (ts_Goal spec)) text in
  if mentions "hard_cap" || mentions "强消费护栏" || mentions "硬性消费护栏" then "behavior_guardrail_hard_cap"
  else if mentions "消费护栏" || mentions "guardrail" || mentions "spending cap" then "behavior_guardrail"
  else if mentions "订阅" || mentions "subscription" then "subscription_cleanup"
  else if mentions "深夜消费" || mentions "late-night" then "late_night"
  else "behavior_intervention_default".

Definition behaviorInterventionBlocks : list ExecutionBlock :=
  [(zero : ExecutionBlock)
     <| xb_ID := "behavior-intervention" |>
     <| xb_Kind := ExecutionBlockKindBehaviorIntervention |>
     <| xb_AssignedRecipient := BlockRecipientBehaviorAgent |>
     <| xb_Goal := "分析订阅重叠、深夜消费和 discretionary spend 异常，并选择合适的 behavior skill family/version/recipe 生成受治理的干预建议。" |>
     <| xb_RequiredEvidenceRefs := requiredByType (ts_RequiredEvidence spec)
         ["transaction_batch"; "recurring_subscription_signal"; "late_night_spending_signal"] |>
     <| xb_RequiredMemoryKinds := [MemoryKindSemantic; MemoryKindEpisodic; MemoryKindProcedural] |>
     <| xb_RequiredStateBlocks := ["behavior_state"; "cashflow_state"; "risk_state"] |>
     <| xb_ExecutionContextView := ContextViewExecution |>
     <| xb_SuccessCriteria := [mkExecutionBlockSuccessCriteria "behavior-anomaly-coverage" "duplicate subscriptions, late-night spikes, and discretionary pressure are surfaced as deterministic signals";
        mkExecutionBlockSuccessCriteria "skill-selection-explainable" "selected skill family/version/recipe is explainable through evidence, state, and procedural memory"] |>
     <| xb_VerificationHints := [mkExecutionBlockVerificationHint "behavior_grounding" "behavior recommendations and selected skill must stay grounded in deterministic evidence, state, and procedural memory"] |>
     <| xb_RiskHints := [mkExecutionBlockRiskHint "high" "high-intensity guardrail recipes must be governed and may require approval"] |>
     <| xb_AllowedSkillFamilies := [SkillFamily_string SkillFamilySubscriptionCleanup; SkillFamily_string SkillFamilyLateNightSpendNudge; SkillFamily_string SkillFamilyDiscretionaryGuardrail] |>
     <| xb_SkillSelectionHint := skill_hint |>].
End blocks.

(** ** Validation (block_plan_validation.go) *)

Definition requires (agent : string) (label : string) (kind : ExecutionBlockKind) (recipient : string) : error + unit :=
  if recipient != agent then
    inl (PlainError (label +:+ " block " +:+ Quote (ExecutionBlockKind_string kind) +:+ " must be assigned to " +:+ Quote agent))
  else mret tt.

Definition validateBlockRecipient (kind : ExecutionBlockKind) (recipient : string) : error + unit :=
  match kind with
  | ExecutionBlockKindCashflowReview | ExecutionBlockKindCashflowLiquidity | ExecutionBlockKindCashflowEventImpact =>
      requires BlockRecipientCashflowAgent "cashflow" kind recipient
  | ExecutionBlockKindDebtReview | ExecutionBlockKindDebtTradeoff | ExecutionBlockKindDebtHousingImpact =>
      requires BlockRecipientDebtAgent "debt" kind recipient
  | ExecutionBlockKindTaxEventImpact | ExecutionBlockKindTaxOptimization =>
      requires BlockRecipientTaxAgent "tax" kind recipient
  | ExecutionBlockKindPortfolioEventImpact | ExecutionBlockKindPortfolioRebalance =>
      requires BlockRecipientPortfolioAgent "portfolio" kind recipient
  | ExecutionBlockKindBehaviorIntervention => requires BlockRecipientBehaviorAgent "behavior" kind recipient
  | ExecutionBlockKindOther s => inl (PlainError ("unsupported execution block kind " +:+ Quote s))
  end.

(** [if cond { return error }] *)
Definition refuse (cond : bool) (text : string) : error + unit :=
  if cond then inl (PlainError text) else mret tt.

(** [ExecutionBlock.Validate] *)
Definition ExecutionBlock_Validate (b : ExecutionBlock) : error + unit :=
  refuse (xb_ID b == "") "block id is required";;
  refuse (ExecutionBlockKind_string (xb_Kind b) == "") "block kind is required";;
  refuse (xb_AssignedRecipient b == "") "assigned recipient is required";;
  validateBlockRecipient (xb_Kind b) (xb_AssignedRecipient b);;
  refuse (xb_Goal b == "") "block goal is required";;
  refuse (xb_RequiredEvidenceRefs b == []) "block requires at least one evidence requirement";;
  refuse (existsb (fun req => (xr_RequirementID req == "") || (xr_Type req == "")) (xb_RequiredEvidenceRefs b))
    "block evidence requirements must include requirement id and type";;
  refuse (negb (existsb xr_Mandatory (xb_RequiredEvidenceRefs b)))
    "block must include at least one mandatory evidence requirement";;
  refuse (ContextView_string (xb_ExecutionContextView b) == "") "execution context view is required";;
  refuse (xb_SuccessCriteria b == []) "block must include success criteria";;
  refuse ((xb_Kind b == ExecutionBlockKindBehaviorIntervention) && (xb_AllowedSkillFamilies b == []))
    "behavior intervention block must include allowed skill families";;
  refuse (existsb (fun item => (eu_ID item == "") || (eu_Description item == "")) (xb_SuccessCriteria b))
    "success criteria must include id and description";;
  refuse (xb_VerificationHints b == []) "block must include verification hints";;
  refuse (existsb (fun item => (eh_Rule item == "") || (eh_Description item == "")) (xb_VerificationHints b))
    "verification hints must include rule and description".

(** The first loop of [ExecutionPlan.Validate]: the blocks by id. *)
Fixpoint index_blocks (seen : gmap string ExecutionBlock) (blocks : list ExecutionBlock) :
    error + gmap string ExecutionBlock :=
  match blocks with
  | [] => mret seen
  | block :: blocks =>
      match ExecutionBlock_Validate block with
      | inl err => inl (WrapError ("execution block " +:+ Quote (xb_ID block) +:+ " invalid: ") err)
      | inr _ =>
          refuse (bool_decide (is_Some (seen !! xb_ID block))) ("duplicate execution block id " +:+ Quote (xb_ID block));;
          index_blocks (<[xb_ID block := block]> seen) blocks
      end
  end.

(** Every element passes, or the error of the first that does not. *)
Fixpoint check_all {A} (f : A -> error + unit) (l : list A) : error + unit :=
  match l with
  | [] => mret tt
  | x :: l => f x;; check_all f l
  end.

Definition check_dependency (seen : gmap string ExecutionBlock) (block : ExecutionBlock)
    (dep : ExecutionBlockDependency) : error + unit :=
  refuse (bool_decide (seen !! eb_BlockID dep = None))
    ("execution block " +:+ Quote (xb_ID block) +:+ " depends on unknown block " +:+ Quote (eb_BlockID dep));;
  refuse (eb_BlockID dep == xb_ID block) ("execution block " +:+ Quote (xb_ID block) +:+ " cannot depend on itself").

Definition dependency_ids (seen : gmap string ExecutionBlock) (id : string) : list string :=
  eb_BlockID <$> xb_DependsOn (default zero (seen !! id)).

(** The maps [visiting] and [visited], as the sets of the ids that are true. *)
Record search := mkSearch { visiting : gset string; visited : gset string }.

(** Visits the ids of a list in turn, until an error. *)
Fixpoint visit_all (visit : string -> search -> option (search * (error + unit))) (ids : list string) (st : search) :
    option (search * (error + unit)) :=
  match ids with
  | [] => Some (st, mret tt)
  | id :: ids =>
      match visit id st with
      | Some (st, inr _) => visit_all visit ids st
      | other => other
      end
  end.

(** The closure [visit]; [None] when the depth given does not suffice. *)
Fixpoint visit (seen : gmap string ExecutionBlock) (depth : nat) (id : string) (st : search) :
    option (search * (error + unit)) :=
  match depth with
  | O => None
  | S depth =>
      if bool_decide (id ∈ visited st) then Some (st, mret tt)
      else if bool_decide (id ∈ visiting st) then
        Some (st, inl (PlainError ("cyclic dependency detected at " +:+ Quote id)))
      else
        match visit_all (visit seen depth) (dependency_ids seen id) (mkSearch ({[id]} ∪ visiting st) (visited st)) with
        | Some (st, inr _) => Some (mkSearch (visiting st ∖ {[id]}) ({[id]} ∪ visited st), mret tt)
        | other => other
        end
  end.

(** [ExecutionPlan.Validate].  A path of the search visits each block at most
    once before it meets one again, which bounds its depth. *)
Definition ExecutionPlan_Validate (p : ExecutionPlan) : option (error + unit) :=
  let before : error + gmap string ExecutionBlock :=
    refuse (ep_WorkflowID p == "") "execution plan workflow_id is required";;
    refuse (ep_TaskID p == "") "execution plan task_id is required";;
    refuse (IsZero (ep_CreatedAt p)) "execution plan created_at is required";;
    refuse (bool_decide (ep_Blocks p = [])) "execution plan requires at least one execution block";;
    seen ← index_blocks ∅ (ep_Blocks p);
    check_all (fun block => check_all (check_dependency seen block) (xb_DependsOn block)) (ep_Blocks p);;
    mret seen in
  match before with
  | inl err => Some (inl err)
  | inr seen =>
      snd <$> visit_all (visit seen (S (S (length (ep_Blocks p))))) (xb_ID <$> ep_Blocks p) (mkSearch ∅ ∅)
  end.

(** ** Phases (validation.go) *)

Definition allowedTransitions (phase : PlanPhase) : list PlanPhase :=
  match phase with
  | PlanPhasePlan => [PlanPhaseAct; PlanPhaseAbort]
  | PlanPhaseAct => [PlanPhaseVerify; PlanPhaseEscalate; PlanPhaseAbort]
  | PlanPhaseVerify => [PlanPhaseReplan; PlanPhaseEscalate; PlanPhaseAbort]
  | PlanPhaseReplan => [PlanPhaseAct; PlanPhaseAbort]
  | _ => []
  end.

Definition CurrentPhase (s : PlanStateMachine) : PlanPhase :=
  if PlanPhase_string (psm_Current s) == "" then PlanPhasePlan else psm_Current s.

(** [Transition] keeps the default it gives [Current] when it fails. *)
Definition Transition (s : PlanStateMachine) (next : PlanPhase) : PlanStateMachine * (error + unit) :=
  let s := s <| psm_Current := CurrentPhase s |> in
  if bool_decide (next ∈ allowedTransitions (psm_Current s)) then
    (s <| psm_History := psm_History s ++ [psm_Current s] |> <| psm_Current := next |>, mret tt)
  else
    (s, inl (PlainError ("invalid planning transition from " +:+ Quote (PlanPhase_string (psm_Current s)) +:+
                         " to " +:+ Quote (PlanPhase_string next)))).

(** ** The deterministic planner (phase2.go) *)

(** [Now] of the source is the reading of the clock that [CreatePlan] takes. *)
Record DeterministicPlanner := mkDeterministicPlanner {
  dp_PlanStateMachine : PlanStateMachine;
  dp_Task : option TaskSpec
}.
#[export] Instance eta_DeterministicPlanner : Eta DeterministicPlanner := eta! mkDeterministicPlanner < dp_PlanStateMachine ; dp_Task >.
#[export] Instance zero_DeterministicPlanner : Zero DeterministicPlanner := mkDeterministicPlanner zero zero.

Definition BindTask (p : DeterministicPlanner) (spec : TaskSpec) : DeterministicPlanner := p <| dp_Task := Some spec |>.

Definition requiredEvidenceTypes (items : list RequiredEvidenceRef) : list string := re_Type <$> items.

Definition plan_blocks (spec : TaskSpec) (slice : ContextSlice) : list ExecutionBlock :=
  match ts_UserIntentType spec with
  | UserIntentMonthlyReview => monthlyReviewBlocks spec slice
  | UserIntentDebtVsInvest => debtDecisionBlocks spec slice
  | UserIntentBehaviorIntervention => behaviorInterventionBlocks spec
  | UserIntentLifeEventTrigger => lifeEventBlocks spec slice
  | UserIntentTaxOptimization => taxOptimizationBlocks spec
  | UserIntentPortfolioRebalance => portfolioRebalanceBlocks spec
  | _ => []
  end.

Definition plan_steps (spec : TaskSpec) : list PlanStep :=
  match ts_UserIntentType spec with
  | UserIntentMonthlyReview =>
      [(zero : PlanStep)
       <| ps_ID := "collect-and-confirm" |>
       <| ps_Name := "确认证据覆盖" |>
       <| ps_Description := "检查交易、债务、持仓、税务相关证据是否完整，并将缺口标记给后续验证阶段。" |>
       <| ps_RequiredEvidenceTypes := requiredEvidenceTypes (ts_RequiredEvidence spec) |>;
       (zero : PlanStep)
       <| ps_ID := "compute-metrics" |>
       <| ps_Name := "计算月度指标" |>
       <| ps_Description := "基于状态块与证据摘要计算现金流、债务、税务和行为信号。" |>
       <| ps_RequiredTools := ["compute_cashflow_metrics_tool"; "compute_tax_signal_tool"] |>
       <| ps_RequiredSkills := ["monthly_review"] |>;
       (zero : PlanStep)
       <| ps_ID := "assemble-report" |>
       <| ps_Name := "生成结构化复盘报告" |>
       <| ps_Description := "将风险点、优化建议和待办项组装为结构化报告，并产出 artifacts。" |>
       <| ps_RequiredTools := ["generate_task_artifact_tool"] |>
       <| ps_RequiredSkills := ["monthly_review"] |>]
  | UserIntentDebtVsInvest =>
      [(zero : PlanStep)
       <| ps_ID := "gather-decision-evidence" |>
       <| ps_Name := "收集债务与投资证据" |>
       <| ps_Description := "拉取债务、现金流和持仓证据，形成决策基线。" |>
       <| ps_RequiredEvidenceTypes := requiredEvidenceTypes (ts_RequiredEvidence spec) |>;
       (zero : PlanStep)
       <| ps_ID := "compute-decision-metrics" |>
       <| ps_Name := "计算对比指标" |>
       <| ps_Description := "使用确定性指标比较提前还贷与继续投资的风险和现金流影响。" |>
       <| ps_RequiredTools := ["compute_debt_decision_metrics_tool"] |>
       <| ps_RequiredSkills := ["debt_optimization"] |>]
  | UserIntentBehaviorIntervention =>
      [(zero : PlanStep)
       <| ps_ID := "collect-behavior-evidence" |>
       <| ps_Name := "收集行为证据" |>
       <| ps_Description := "拉取交易、订阅和深夜消费信号，形成行为干预的 deterministic evidence baseline。" |>
       <| ps_RequiredEvidenceTypes := requiredEvidenceTypes (ts_RequiredEvidence spec) |>;
       (zero : PlanStep)
       <| ps_ID := "select-behavior-skill" |>
       <| ps_Name := "选择 behavior skill" |>
       <| ps_Description := "在 planner 输出的 allowed skill family 范围内，用 evidence、state 和 procedural memory 解析具体 family/version/recipe。" |>
       <| ps_RequiredSkills := ["behavior_intervention"] |>;
       (zero : PlanStep)
       <| ps_ID := "execute-behavior-intervention" |>
       <| ps_Name := "执行 behavior intervention block" |>
       <| ps_Description := "由 behavior agent 产出 grounded behavior recommendations，并进入 verification / governance 主链。" |>
       <| ps_RequiredSkills := ["behavior_intervention"] |>]
  | UserIntentLifeEventTrigger =>
      [(zero : PlanStep)
       <| ps_ID := "observe-life-event" |>
       <| ps_Name := "归一化 life event 证据" |>
       <| ps_Description := "事件与 deadline 先归一化为 typed evidence，再驱动状态更新和 block plan。" |>
       <| ps_RequiredEvidenceTypes := requiredEvidenceTypes (ts_RequiredEvidence spec) |>;
       (zero : PlanStep)
       <| ps_ID := "analyze-event-impact" |>
       <| ps_Name := "执行事件影响分析块" |>
       <| ps_Description := "按照 plan.Blocks 顺序执行现金流、债务、税务和配置影响分析。" |>
       <| ps_RequiredTools := ["query_event_tool"; "query_calendar_deadline_tool"; "compute_tax_signal_tool"] |>
       <| ps_RequiredSkills := ["life_event_trigger"] |>;
       (zero : PlanStep)
       <| ps_ID := "spawn-follow-up" |>
       <| ps_Name := "生成后续财务任务图" |>
       <| ps_Description := "基于已验证的事件分析结果生成 typed follow-up tasks 并注册到 runtime。" |>
       <| ps_RequiredTools := ["generate_task_artifact_tool"] |>
       <| ps_RequiredSkills := ["life_event_trigger"] |>]
  | UserIntentTaxOptimization =>
      [(zero : PlanStep)
       <| ps_ID := "collect-tax-follow-up-evidence" |>
       <| ps_Name := "收集 tax follow-up 证据" |>
       <| ps_Description := "拉取与本次 life event 相关的 event、deadline、tax document 和 payroll evidence。" |>
       <| ps_RequiredEvidenceTypes := requiredEvidenceTypes (ts_RequiredEvidence spec) |>;
       (zero : PlanStep)
       <| ps_ID := "analyze-tax-optimization" |>
       <| ps_Name := "执行 tax optimization block" |>
       <| ps_Description := "使用单 block tax analysis 生成 grounded follow-up optimization output。" |>
       <| ps_RequiredTools := ["query_event_tool"; "query_calendar_deadline_tool"; "compute_tax_signal_tool"] |>
       <| ps_RequiredSkills := ["tax_optimization"] |>]
  | UserIntentPortfolioRebalance =>
      [(zero : PlanStep)
       <| ps_ID := "collect-portfolio-follow-up-evidence" |>
       <| ps_Name := "收集 portfolio follow-up 证据" |>
       <| ps_Description := "拉取与本次 life event 相关的 event、holdings 和 liquidity baseline evidence。" |>
       <| ps_RequiredEvidenceTypes := requiredEvidenceTypes (ts_RequiredEvidence spec) |>;
       (zero : PlanStep)
       <| ps_ID := "analyze-portfolio-rebalance" |>
       <| ps_Name := "执行 portfolio rebalance block" |>
       <| ps_Description := "使用单 block portfolio analysis 生成 grounded rebalance output。" |>
       <| ps_RequiredTools := ["query_event_tool"; "query_portfolio_tool"; "compute_portfolio_impact_metrics_tool"] |>
       <| ps_RequiredSkills := ["portfolio_rebalance"] |>]
  | _ => []
  end.

(** The plan [CreatePlan] returns at the time [now]. *)
Definition deterministic_plan (now : time) (spec : TaskSpec) (slice : ContextSlice) (workflowID : string) : ExecutionPlan :=
  (zero : ExecutionPlan)
    <| ep_WorkflowID := workflowID |>
    <| ep_TaskID := ts_ID spec |>
    <| ep_PlanID := workflowID +:+ "-plan-" +:+ Format_compact now |>
    <| ep_CreatedAt := now |>
    <| ep_Blocks := plan_blocks spec slice |>
    <| ep_Steps := plan_steps spec |>.

Definition CreatePlan (p : DeterministicPlanner) (now : time) (spec : TaskSpec) (slice : ContextSlice)
    (workflowID : string) : DeterministicPlanner * ExecutionPlan :=
  (BindTask p spec, deterministic_plan now spec slice workflowID).

(** ** The planner that asks a model (provider_planner.go) *)

Section schema.
Context `{TE : TextErrors} `{MO : MapOrder}.

Definition json_emphasis : codec PlannerStepEmphasisNote := json_struct zero
  [Field json_text "step_id" false pe_StepID (fun x s => s <| pe_StepID := x |>);
   Field json_text "emphasis" false pe_Emphasis (fun x s => s <| pe_Emphasis := x |>)].

Definition json_candidate : codec PlannerStructuredCandidate := json_struct zero
  [Field json_text "plan_summary" false pc_PlanSummary (fun x s => s <| pc_PlanSummary := x |>);
   Field json_text "rationale" false pc_Rationale (fun x s => s <| pc_Rationale := x |>);
   Field (json_slice json_text) "verification_focus_notes" true pc_VerificationFocusNotes
     (fun x s => s <| pc_VerificationFocusNotes := x |>);
   Field (json_slice json_text) "block_order" false pc_BlockOrder (fun x s => s <| pc_BlockOrder := x |>);
   Field (json_slice json_emphasis) "step_emphasis" true pc_StepEmphasis (fun x s => s <| pc_StepEmphasis := x |>)].

(** The counters of the map [remaining]. *)
Definition remaining_counts (allowed order : list string) : gmap string Z :=
  let bump (d : Z) (m : gmap string Z) (id : string) := <[id := default 0 (m !! id) + d]> m in
  fold_left (bump (-1)) order (fold_left (bump 1) allowed ∅).

Definition order_diagnostics (s : PlannerStructuredSchema) (value : PlannerStructuredCandidate) : list string :=
  if negb (length (pc_BlockOrder value) =? length (pz_AllowedBlockIDs s))%nat then
    ["block_order must include every allowed block exactly once"]
  else
    (fun '(id, _) => "block_order mismatch for " +:+ id) <$>
      filter (fun '(_, count) => count <> 0) (map_range (remaining_counts (pz_AllowedBlockIDs s) (pc_BlockOrder value))).

Definition emphasis_diagnostics (s : PlannerStructuredSchema) (item : PlannerStepEmphasisNote) : list string :=
  (if bool_decide (pe_StepID item ∈ pz_AllowedStepIDs s) then [] else ["unknown step_id " +:+ pe_StepID item]) ++
  (if blank (pe_Emphasis item) then ["empty emphasis for step_id " +:+ pe_StepID item] else []).

(** [PlannerStructuredSchema.Validate] *)
Definition PlannerStructuredSchema_Validate (s : PlannerStructuredSchema) (value : PlannerStructuredCandidate) : list string :=
  (if blank (pc_PlanSummary value) then ["plan_summary is required"] else []) ++
  (if blank (pc_Rationale value) then ["rationale is required"] else []) ++
  order_diagnostics s value ++
  concat (emphasis_diagnostics s <$> pc_StepEmphasis value).

(** [PlannerStructuredSchema.Schema], with [structured.JSONParser]. *)
Definition planner_schema (s : PlannerStructuredSchema) : Schema PlannerStructuredCandidate :=
  mkSchema "PlannerPlanSchema" (Some (fun raw => or_error (json_error raw) (Unmarshal json_candidate raw)))
    (Some (PlannerStructuredSchema_Validate s)).
End schema.

(** [map[string]X] built by a loop over a list: the last one with a key wins. *)
Definition index_by {A B} (key : A -> string) (value : A -> B) (l : list A) : gmap string B :=
  fold_left (fun m x => <[key x := value x]> m) l ∅.

Definition with_emphasis (emphasisByStep : gmap string string) (step : PlanStep) : PlanStep :=
  match emphasisByStep !! ps_ID step with Some emphasis => step <| ps_Emphasis := emphasis |> | None => step end.

Definition compiled_blocks (base : ExecutionPlan) (candidate : PlannerStructuredCandidate) : list ExecutionBlock :=
  match omap (fun key => index_by xb_ID id (ep_Blocks base) !! key) (pc_BlockOrder candidate) with
  | [] => ep_Blocks base
  | blocks => blocks
  end.

(** [PlanCompiler.Compile] at the time [now] *)
Definition Compile (now : time) (base : ExecutionPlan) (candidate : PlannerStructuredCandidate)
    (renderTrace : PromptRenderTrace) (generation : StructuredGenerationResult)
    (pipelineResult : Result PlannerStructuredCandidate) : ExecutionPlan :=
  let usage := ms_Usage (sgr_Response generation) in
  base <| ep_Blocks := compiled_blocks base candidate |>
       <| ep_Steps := with_emphasis (index_by pe_StepID pe_Emphasis (pc_StepEmphasis candidate)) <$> ep_Steps base |>
       <| ep_Summary := pc_PlanSummary candidate |>
       <| ep_Rationale := pc_Rationale candidate |>
       <| ep_VerificationFocusNotes := pc_VerificationFocusNotes candidate |>
       <| ep_Trace := Some ((zero : PlanTraceMetadata)
            <| pt_PromptID := pq_PromptID renderTrace |>
            <| pt_PromptVersion := pq_PromptVersion renderTrace |>
            <| pt_ModelProfile := ModelProfile_string (pq_ModelProfile renderTrace) |>
            <| pt_EstimatedInputTokens := pq_EstimatedInputTokens renderTrace |>
            <| pt_PromptTokens := mu_PromptTokens usage |>
            <| pt_CompletionTokens := mu_CompletionTokens usage |>
            <| pt_TotalTokens := mu_TotalTokens usage |>
            <| pt_EstimatedCostUSD := mu_EstimatedCostUSD usage |>
            <| pt_FallbackUsed := rs_FallbackUsed pipelineResult |>
            <| pt_FallbackReason := rs_FallbackReason pipelineResult |>
            <| pt_StructuredFailure := StructuredFailure_string (rs_FailureCategory pipelineResult) |>
            <| pt_GeneratedAt := now |>) |>.

Definition attachPlannerFallbackTrace (now : time) (plan : ExecutionPlan)
    (failureCategory reason promptID profile : string) : ExecutionPlan :=
  plan <| ep_Trace := Some ((zero : PlanTraceMetadata)
    <| pt_PromptID := promptID |> <| pt_ModelProfile := profile |> <| pt_FallbackUsed := true |>
    <| pt_FallbackReason := reason |> <| pt_StructuredFailure := failureCategory |> <| pt_GeneratedAt := now |>) |>.

Definition candidateBlocksText (blocks : list ExecutionBlock) : string :=
  Join ((fun b => render (VObj [("id", VStr (xb_ID b)); ("kind", VStr (ExecutionBlockKind_string (xb_Kind b)));
                                ("assigned_recipient", VStr (xb_AssignedRecipient b)); ("goal", VStr (xb_Goal b))])) <$> blocks)
    newline.

Definition json_strings (name : string) (l : list string) : list (string * jvalue) :=
  match l with [] => [] | _ => [(name, VArr (VStr <$> l))] end.

Definition candidateStepsText (steps : list PlanStep) : string :=
  Join ((fun s => render (VObj ([("id", VStr (ps_ID s)); ("name", VStr (ps_Name s)); ("description", VStr (ps_Description s))] ++
                     json_strings "required_evidence_types" (ps_RequiredEvidenceTypes s) ++
                     json_strings "required_tools" (ps_RequiredTools s) ++
                     json_strings "required_skills" (ps_RequiredSkills s) ++
                     (if ps_Emphasis s == "" then [] else [("emphasis", VStr (ps_Emphasis s))])))) <$> steps)
    newline.

Section provider.
Context {W : Type} (clock : W -> W * time) `{TE : TextErrors} `{MO : MapOrder}.

(** The planners the two pointers of [ProviderBackedPlanner] refer to, and
    what the renderer, the generator and the recorder act on. *)
Record PlannerWorld := mkPlannerWorld {
  pw_Planners : gmap Z DeterministicPlanner;
  pw_Outside : W
}.

(** [*DeterministicPlanner]; [None] is nil. *)
Definition PlannerPointer : Type := option Z.

Record ProviderBackedPlanner := mkProviderBackedPlanner {
  pb_PromptRenderer : PromptRenderer W;
  pb_Generator : option (StructuredGenerator W);
  pb_TraceRecorder : option (TraceRecorder W);
  pb_CatalogPlanner : PlannerPointer;
  pb_FallbackPlanner : PlannerPointer
}.

Definition outside {A} (m : ST error W A) : ST error PlannerWorld A :=
  zoom pw_Outside (fun w world => mkPlannerWorld (pw_Planners world) w) m.

Definition read_clock : ST error W time := fun w => let '(w, now) := clock w in (w, Ok now).

(** Runs a method of the planner at an address of the heap. *)
Definition with_planner {A} (address : Z) (method : DeterministicPlanner -> DeterministicPlanner * A) :
    ST error PlannerWorld A := fun world =>
  let '(planner, result) := method (default zero (pw_Planners world !! address)) in
  (mkPlannerWorld (<[address := planner]> (pw_Planners world)) (pw_Outside world), Ok result).

(** [CandidatePlanCatalogBuilder.Build] and [DeterministicFallbackPlanner.CreatePlan]:
    a nil planner is replaced by a new one. *)
Definition create_plan (pointer : PlannerPointer) (spec : TaskSpec) (slice : ContextSlice) (workflowID : string) :
    ST error PlannerWorld ExecutionPlan :=
  now ← outside read_clock;
  let plan planner := CreatePlan planner now spec slice workflowID in
  match pointer with
  | None => mret (plan zero).2
  | Some address => with_planner address plan
  end.

Definition planner_prompt_data (spec : TaskSpec) (slice : ContextSlice) (catalog : ExecutionPlan) : gmap string string :=
  <["Goal" := ts_Goal spec]> (<["CandidateBlocks" := candidateBlocksText (ep_Blocks catalog)]>
  (<["CandidateSteps" := candidateStepsText (ep_Steps catalog)]> (<["ContextSummary" := ContextSummary slice]> ∅))).

Definition planner_trace_input (slice : ContextSlice) : PromptTraceInput :=
  mkPromptTraceInput (ib_Name <$> cs_StateBlocks slice) (cs_MemoryIDs slice) (cs_EvidenceIDs slice)
    (SkillNames slice) (ExcludedBlockRefs slice) (CompactionNotes slice)
    (bg_EstimatedInputTokens (cs_BudgetDecision slice)).

Definition fallback_candidate (allowedBlockIDs : list string) : PlannerStructuredCandidate :=
  (zero : PlannerStructuredCandidate)
    <| pc_PlanSummary := "deterministic fallback monthly review plan" |>
    <| pc_Rationale := "provider-backed planner output was unavailable or invalid, so deterministic monthly review ordering was used" |>
    <| pc_VerificationFocusNotes := ["use deterministic block order and existing block-level verification hints"] |>
    <| pc_BlockOrder := allowedBlockIDs |>.

Definition planner_pipeline (p : ProviderBackedPlanner) (catalog : ExecutionPlan) : Pipeline W PlannerStructuredCandidate :=
  let allowedBlockIDs := xb_ID <$> ep_Blocks catalog in
  let allowedStepIDs := ps_ID <$> ep_Steps catalog in
  {| pl_Schema := planner_schema (mkPlannerStructuredSchema allowedBlockIDs allowedStepIDs);
     pl_Generator := pb_Generator p;
     pl_RepairPolicy := DefaultRepairPolicy;
     pl_Fallback := Some (mret (fallback_candidate allowedBlockIDs));
     pl_TraceRecorder := pb_TraceRecorder p |}.

Definition planner_request (spec : TaskSpec) (workflowID : string) (rendered : RenderedPrompt) : StructuredGenerationRequest :=
  mkStructuredGenerationRequest ((zero : ModelRequest)
    <| mq_Profile := ModelProfilePlannerReasoning |>
    <| mq_Messages := Messages rendered |>
    <| mq_ResponseFormat := mkResponseFormat ResponseFormatJSONObject |>
    <| mq_MaxOutputTokens := 700 |>
    <| mq_Temperature := f_const 1 10 |>
    <| mq_WorkflowID := workflowID |>
    <| mq_TaskID := ts_ID spec |>
    <| mq_TraceID := workflowID |>
    <| mq_Agent := "planner_agent" |>
    <| mq_PromptID := po_ID rendered |>
    <| mq_PromptVersion := po_Version rendered |>).

(** [fallback.CreatePlan] and the trace of why it was used. *)
Definition fallback_plan (p : ProviderBackedPlanner) (spec : TaskSpec) (slice : ContextSlice)
    (workflowID failureCategory : string) (err : error) (promptID profile : string) : ST error PlannerWorld ExecutionPlan :=
  plan ← create_plan (pb_FallbackPlanner p) spec slice workflowID;
  now ← outside read_clock;
  mret (attachPlannerFallbackTrace now plan failureCategory (error_string err) promptID profile).

Definition CreatePlanWithContext (p : ProviderBackedPlanner) (spec : TaskSpec) (slice : ContextSlice)
    (workflowID : string) : ST error PlannerWorld ExecutionPlan :=
  catalog ← create_plan (pb_CatalogPlanner p) spec slice workflowID;
  if ts_UserIntentType spec != UserIntentMonthlyReview then
    create_plan (pb_FallbackPlanner p) spec slice workflowID
  else
    rendered ← attempt (outside (Render clock (pb_PromptRenderer p) "planner.monthly_review.v1"
                                   (planner_prompt_data spec slice catalog) (planner_trace_input slice)));
    match rendered with
    | inl err =>
        fallback_plan p spec slice workflowID "prompt_render_failed" err "planner.monthly_review.v1"
          (ModelProfile_string ModelProfilePlannerReasoning)
    | inr rendered =>
        result ← attempt (outside (Execute (planner_pipeline p catalog) (planner_request spec workflowID rendered)));
        match result with
        | inl err =>
            fallback_plan p spec slice workflowID (StructuredFailure_string FailureCategoryFallbackFailed) err
              (po_ID rendered) (ModelProfile_string (po_ModelProfile rendered))
        | inr result =>
            now ← outside read_clock;
            mret (Compile now catalog (rs_Value result) (po_Trace rendered) (rs_Generation result) result)
        end
    end.
End provider.
Arguments PlannerWorld : clear implicits.
Arguments ProviderBackedPlanner : clear implicits.
