(* ===== verification/PlanningThm.v ===== *)
(** * Plans: what validation accepts, and what a model may change

    The search of [ExecutionPlan.Validate] decides whether the dependencies
    are acyclic ([visit_spec]), so validation accepts exactly the well-formed
    plans.  The deterministic planner lists every block after the blocks it
    depends on; the planner that asks a model returns the same blocks in an
    order the model chooses. *)

From S2P Require Export Structured Planning.
#[local] Open Scope Z_scope.

(** ** Sequences of checks *)

Lemma refuse_ok {A} (cond : bool) text (k : error + A) a :
  (refuse cond text;; k) = inr a <-> cond = false /\ k = inr a.
Proof. destruct cond; simpl; naive_solver. Qed.

Lemma refuse_last_ok (cond : bool) text : refuse cond text = inr tt <-> cond = false.
Proof. destruct cond; simpl; naive_solver. Qed.

Lemma check_all_ok {A} (f : A -> error + unit) l : check_all f l = inr tt <-> Forall (fun x => f x = inr tt) l.
Proof.
  induction l as [|x l IH]; simpl; [by split; [constructor|]|].
  rewrite Forall_cons, <- IH. destruct (f x) as [e|[]]; simpl; naive_solver.
Qed.

Lemma existsb_false {A} (p : A -> bool) l : existsb p l = false <-> Forall (fun x => p x = false) l.
Proof.
  induction l as [|x l IH]; simpl; [by split; [constructor|]|].
  rewrite orb_false_iff, Forall_cons, IH. done.
Qed.

(** ** Well-formed blocks and plans *)

(** The agent a kind of block must be assigned to. *)
Definition agent_of (kind : ExecutionBlockKind) : option string :=
  match kind with
  | ExecutionBlockKindCashflowReview | ExecutionBlockKindCashflowLiquidity | ExecutionBlockKindCashflowEventImpact =>
      Some "cashflow_agent"
  | ExecutionBlockKindDebtReview | ExecutionBlockKindDebtTradeoff | ExecutionBlockKindDebtHousingImpact =>
      Some "debt_agent"
  | ExecutionBlockKindTaxEventImpact | ExecutionBlockKindTaxOptimization => Some "tax_agent"
  | ExecutionBlockKindPortfolioEventImpact | ExecutionBlockKindPortfolioRebalance => Some "portfolio_agent"
  | ExecutionBlockKindBehaviorIntervention => Some "behavior_agent"
  | ExecutionBlockKindOther _ => None
  end.

Record valid_block (b : ExecutionBlock) : Prop := {
  vb_id : xb_ID b <> "";
  vb_agent : agent_of (xb_Kind b) = Some (xb_AssignedRecipient b);
  vb_goal : xb_Goal b <> "";
  vb_refs : Forall (fun req => xr_RequirementID req <> "" /\ xr_Type req <> "") (xb_RequiredEvidenceRefs b);
  vb_mandatory : Exists (fun req => xr_Mandatory req = true) (xb_RequiredEvidenceRefs b);
  vb_view : ContextView_string (xb_ExecutionContextView b) <> "";
  vb_criteria : xb_SuccessCriteria b <> [] /\
    Forall (fun item => eu_ID item <> "" /\ eu_Description item <> "") (xb_SuccessCriteria b);
  vb_skills : xb_Kind b = ExecutionBlockKindBehaviorIntervention -> xb_AllowedSkillFamilies b <> [];
  vb_hints : xb_VerificationHints b <> [] /\
    Forall (fun item => eh_Rule item <> "" /\ eh_Description item <> "") (xb_VerificationHints b);
}.

Lemma either_empty_false (a b : string) : (a == "") || (b == "") = false <-> a <> "" /\ b <> "".
Proof. rewrite orb_false_iff, !bool_decide_eq_false. done. Qed.

Lemma recipient_ok kind recipient :
  validateBlockRecipient kind recipient = inr tt <-> agent_of kind = Some recipient.
Proof.
  assert (forall agent label, requires agent label kind recipient = inr tt <-> Some agent = Some recipient).
  { intros agent label. unfold requires. destruct (bool_decide (recipient = agent)) eqn:E; simpl.
    - apply bool_decide_eq_true in E. naive_solver.
    - apply bool_decide_eq_false in E. naive_solver. }
  destruct kind; simpl; auto. split; discriminate.
Qed.

Lemma recipient_then_ok {A} kind recipient (k : error + A) a :
  (validateBlockRecipient kind recipient;; k) = inr a <-> agent_of kind = Some recipient /\ k = inr a.
Proof.
  rewrite <- recipient_ok. destruct (validateBlockRecipient kind recipient) as [e|[]]; simpl; naive_solver.
Qed.

Lemma block_validation_exact b : ExecutionBlock_Validate b = inr tt <-> valid_block b.
Proof.
  unfold ExecutionBlock_Validate.
  rewrite !refuse_ok, recipient_then_ok, !refuse_ok, refuse_last_ok.
  rewrite !existsb_false, !bool_decide_eq_false, negb_false_iff.
  setoid_rewrite either_empty_false.
  rewrite andb_false_iff, !bool_decide_eq_false, existsb_exists.
  assert (Hm : (exists x, In x (xb_RequiredEvidenceRefs b) /\ xr_Mandatory x = true) <->
               Exists (fun req => xr_Mandatory req = true) (xb_RequiredEvidenceRefs b)) by (by rewrite List.Exists_exists).
  rewrite Hm. split.
  - intros (Hid & _ & _ & Hag & Hgoal & _ & Hrefs & Hman & Hview & Hc & Hsk & Hcs & Hh & Hhs).
    split; auto. intros Hk. destruct Hsk; done.
  - intros [Hid Hag Hgoal Hrefs Hman Hview [Hc Hcs] Hsk [Hh Hhs]].
    assert (xb_AssignedRecipient b <> "") by (destruct (xb_Kind b); simpl in Hag; congruence).
    assert (ExecutionBlockKind_string (xb_Kind b) <> "") by (destruct (xb_Kind b); simpl in *; congruence).
    assert (xb_RequiredEvidenceRefs b <> []) by (intros E; rewrite E in Hman; inversion Hman).
    repeat split; auto. destruct (decide (xb_Kind b = ExecutionBlockKindBehaviorIntervention)); auto.
Qed.

Definition block_ids (blocks : list ExecutionBlock) : list string := xb_ID <$> blocks.

(** Block [a] waits for block [b]. *)
Definition waits_for (blocks : list ExecutionBlock) (a b : string) : Prop :=
  exists block, block ∈ blocks /\ xb_ID block = a /\ b ∈ eb_BlockID <$> xb_DependsOn block.

Record well_formed_plan (p : ExecutionPlan) : Prop := {
  wp_workflow : ep_WorkflowID p <> "";
  wp_task : ep_TaskID p <> "";
  wp_created : ep_CreatedAt p <> zero_time;
  wp_blocks : ep_Blocks p <> [];
  wp_valid : Forall valid_block (ep_Blocks p);
  wp_unique : NoDup (block_ids (ep_Blocks p));
  wp_known : forall a b, waits_for (ep_Blocks p) a b -> b ∈ block_ids (ep_Blocks p);
  wp_acyclic : forall a, ~ tc (waits_for (ep_Blocks p)) a a;
}.

(** ** The index of the blocks *)

Lemma index_blocks_ok blocks seen seen' :
  index_blocks seen blocks = inr seen' <->
  Forall valid_block blocks /\ NoDup (block_ids blocks) /\
  (forall b, b ∈ blocks -> seen !! xb_ID b = None) /\ seen' = foldl (fun m b => <[xb_ID b := b]> m) seen blocks.
Proof.
  unfold block_ids. revert seen. induction blocks as [|b blocks IH]; intros seen; simpl.
  - split; [intros [= <-]; repeat split; [constructor|constructor|set_solver] | naive_solver].
  - rewrite Forall_cons, NoDup_cons, <- block_validation_exact.
    destruct (ExecutionBlock_Validate b) as [e|[]] eqn:E; [naive_solver|].
    rewrite refuse_ok, IH, bool_decide_eq_false, <- eq_None_not_Some, list_elem_of_fmap. split.
    + intros (Hb & Hv & Hd & Hs & ->). repeat split; auto.
      * intros (b' & Hid & Hin). specialize (Hs b' Hin). rewrite <- Hid, lookup_insert in Hs.
        by rewrite decide_True in Hs.
      * intros b' [->|Hin]%elem_of_cons; [done|]. specialize (Hs b' Hin).
        destruct (decide (xb_ID b = xb_ID b')) as [Heq|Hne]; [by rewrite <- Heq | by rewrite lookup_insert_ne in Hs].
    + intros ((_ & Hv) & (Hn & Hd) & Hs & ->). repeat split; auto; [apply Hs; constructor|].
      intros b' Hin. rewrite lookup_insert_ne; [apply Hs; by constructor|].
      intros Heq. apply Hn. exists b'. done.
Qed.

Lemma index_lookup blocks (seen : gmap string ExecutionBlock) id b :
  NoDup (block_ids blocks) ->
  (foldl (fun m b => <[xb_ID b := b]> m) seen blocks) !! id = Some b <->
  (b ∈ blocks /\ xb_ID b = id) \/ (~ id ∈ block_ids blocks /\ seen !! id = Some b).
Proof.
  unfold block_ids. revert seen. induction blocks as [|c blocks IH]; intros seen; simpl; [set_solver|].
  rewrite NoDup_cons. intros [Hn Hd]. rewrite IH by done. rewrite !elem_of_cons.
  destruct (decide (xb_ID c = id)) as [<-|Hne].
  - rewrite lookup_insert, decide_True by done. split.
    + intros [[Hb Hid]|[_ [= ->]]]; auto.
    + intros [[[->|Hb] Hid]|[Hno _]]; auto. exfalso. auto.
  - rewrite lookup_insert_ne by done. split; [intuition congruence|].
    intros [[[->|Hb] Hid]|[Hno Hs]]; [done | auto | right; split; [|done]; intros H; apply Hno; auto].
Qed.

(** ** The search for a cycle *)

Section search.
Context (seen : gmap string ExecutionBlock).

Definition edge (a b : string) : Prop := b ∈ dependency_ids seen a.

(** What the search knows of the blocks it has finished: they depend on
    finished blocks only and are on no cycle, and none is still open. *)
Record finished (st : search) : Prop := {
  fi_closed a b : a ∈ visited st -> edge a b -> b ∈ visited st;
  fi_acyclic a : a ∈ visited st -> ~ tc edge a a;
  fi_open : visited st ## visiting st;
}.

Lemma closed_tc (V : gset string) a b :
  (forall a b, a ∈ V -> edge a b -> b ∈ V) -> tc edge a b -> a ∈ V -> b ∈ V.
Proof. intros Hc H. induction H as [a b H | a b c H _ IH]; intros Ha; eauto. Qed.

(** A step of the search: it succeeds with the block [id] finished and the
    same blocks open, or it has found a cycle. *)
Definition found (ids : list string) (st : search) (r : option (search * (error + unit))) : Prop :=
  match r with
  | Some (st', inr _) =>
      visiting st' = visiting st /\ visited st ⊆ visited st' /\ finished st' /\ (forall id, id ∈ ids -> id ∈ visited st')
  | Some (_, inl _) => exists a, tc edge a a
  | None => False
  end.

Context (D : gset string) (HD : forall a b, edge a b -> b ∈ D).

Definition admissible (st : search) (id : string) : Prop :=
  id ∈ D /\ forall p, p ∈ visiting st -> tc edge p id.

Lemma visit_all_spec depth visit ids st :
  (forall id st, finished st -> visiting st ⊆ D -> (size (D ∖ visiting st) < depth)%nat -> admissible st id ->
     found [id] st (visit id st)) ->
  finished st -> visiting st ⊆ D -> (size (D ∖ visiting st) < depth)%nat -> Forall (admissible st) ids -> found ids st (visit_all visit ids st).
Proof.
  intros Hvisit. revert st. induction ids as [|id ids IH]; intros st Hf HvD Hroom Hids; simpl.
  - split; [done|]. split; [done|]. split; [done|]. set_solver.
  - apply Forall_cons in Hids as [Hid Hids]. pose proof (Hvisit id st Hf HvD Hroom Hid) as H.
    destruct (visit id st) as [[st' [e|u]]|]; [exact H | | done].
    destruct H as (Hv & Hsub & Hf' & Hin).
    assert (Hids' : Forall (admissible st') ids).
    { eapply Forall_impl; [exact Hids|]. intros x [Hx Hp]. split; [done|]. by rewrite Hv. }
    assert (HvD' : visiting st' ⊆ D) by (by rewrite Hv).
    assert (Hroom' : (size (D ∖ visiting st') < depth)%nat) by (by rewrite Hv).
    specialize (IH st' Hf' HvD' Hroom' Hids'). unfold found in IH |- *.
    destruct (visit_all visit ids st') as [[st'' [e'|u']]|]; [exact IH | | exact IH].
    destruct IH as (Hv'' & Hsub'' & Hf'' & Hin''). split; [congruence|]. split; [set_solver|]. split; [done|].
    intros x [->|Hx]%elem_of_cons; [|auto]. apply Hsub''. apply Hin. constructor.
Qed.

Lemma visit_spec depth id st :
  finished st -> visiting st ⊆ D -> (size (D ∖ visiting st) < depth)%nat -> admissible st id ->
  found [id] st (visit seen depth id st).
Proof.
  revert id st. induction depth as [|depth IH]; intros id st Hf HvD Hroom [HidD Hreach]; [lia|]. simpl.
  case_bool_decide as Hvis; [split_and!; auto; set_solver|].
  case_bool_decide as Hopen; [exists id; auto|].
  set (st1 := mkSearch ({[id]} ∪ visiting st) (visited st)).
  assert (Hf1 : finished st1).
  { destruct Hf as [Hc Ha Ho]. split; [exact Hc | exact Ha |]. simpl. set_solver. }
  assert (Hall : found (dependency_ids seen id) st1 (visit_all (visit seen depth) (dependency_ids seen id) st1)).
  { apply (visit_all_spec depth); [exact IH | exact Hf1 | simpl; set_solver | |].
    - simpl. assert (Hlt : D ∖ ({[id]} ∪ visiting st) ⊂ D ∖ visiting st) by set_solver.
      apply subset_size in Hlt. lia.
    - apply Forall_forall. intros d Hd. split; [exact (HD id d Hd)|].
      intros q [->%elem_of_singleton|Hq]%elem_of_union; [by constructor|].
      eapply tc_r; [by apply Hreach | exact Hd]. }
  destruct (visit_all (visit seen depth) (dependency_ids seen id) st1) as [[st2 [e|u]]|]; [exact Hall | | done].
  destruct Hall as (Hv2 & Hsub & [Hc Ha Ho] & Hin). simpl in Hv2, Hsub.
  assert (Hnid : id ∉ visited st2) by (rewrite Hv2 in Ho; set_solver).
  unfold found. simpl. split; [rewrite Hv2; set_solver|]. split; [set_solver|]. split; [|set_solver].
  assert (Hsucc : forall b, edge id b -> b ∈ visited st2) by (intros b Hb; by apply Hin).
  split; simpl.
  - intros a b [->%elem_of_singleton|Hav]%elem_of_union Hab; apply elem_of_union_r; [by apply Hsucc | by eapply Hc].
  - intros a [->%elem_of_singleton|Hav]%elem_of_union; [|by apply Ha].
    intros Hcyc. apply Hnid. inversion Hcyc as [? ? H1|? b ? H1 H2]; subst; [by apply Hsucc|].
    eapply closed_tc; [exact Hc | exact H2 | by apply Hsucc].
  - rewrite Hv2. rewrite Hv2 in Ho. set_solver.
Qed.
End search.

(** ** Validation *)

Section validate.
Context (blocks : list ExecutionBlock) (Hd : NoDup (block_ids blocks)).

Definition index : gmap string ExecutionBlock := foldl (fun m b => <[xb_ID b := b]> m) ∅ blocks.

Lemma lookup_index id b : index !! id = Some b <-> b ∈ blocks /\ xb_ID b = id.
Proof. unfold index. rewrite index_lookup by done. rewrite lookup_empty. naive_solver. Qed.

Lemma in_index id : is_Some (index !! id) <-> id ∈ block_ids blocks.
Proof.
  unfold block_ids. rewrite list_elem_of_fmap. split.
  - intros [b [Hb Hid]%lookup_index]. by exists b.
  - intros (b & -> & Hb). exists b. by apply lookup_index.
Qed.

Lemma edge_waits_for a b : edge index a b <-> waits_for blocks a b.
Proof.
  unfold edge, dependency_ids, waits_for. split.
  - destruct (index !! a) as [blk|] eqn:E; simpl.
    + apply lookup_index in E as [Hin Hid]. eauto.
    + intros H. by apply elem_of_nil in H.
  - intros (blk & Hin & Hid & Hb). assert (index !! a = Some blk) as -> by (by apply lookup_index). done.
Qed.

Lemma tc_edge_waits_for a b : tc (edge index) a b <-> tc (waits_for blocks) a b.
Proof.
  split; intros H; induction H as [a b H | a b c H _ IH];
    [apply tc_once | eapply tc_l; [|exact IH] | apply tc_once | eapply tc_l; [|exact IH]]; by apply edge_waits_for.
Qed.

Lemma dependencies_ok :
  check_all (fun block => check_all (check_dependency index block) (xb_DependsOn block)) blocks = inr tt <->
  forall a b, waits_for blocks a b -> b ∈ block_ids blocks /\ b <> a.
Proof.
  rewrite check_all_ok, Forall_forall. split.
  - intros H a b (blk & Hin & <- & (dep & -> & Hdep)%list_elem_of_fmap).
    specialize (H blk Hin). rewrite check_all_ok, Forall_forall in H. specialize (H dep Hdep).
    unfold check_dependency in H.
    rewrite refuse_ok, refuse_last_ok, !bool_decide_eq_false in H. destruct H as [H1 H2].
    split; [|done]. apply in_index. by apply not_eq_None_Some.
  - intros H blk Hin. rewrite check_all_ok, Forall_forall. intros dep Hdep. unfold check_dependency.
    rewrite refuse_ok, refuse_last_ok, !bool_decide_eq_false.
    destruct (H (xb_ID blk) (eb_BlockID dep)) as [H1 H2]; [exists blk; split_and!; auto; by apply list_elem_of_fmap_2|].
    apply in_index in H1. split; [by apply not_eq_None_Some | done].
Qed.

Lemma size_ids : size (list_to_set (block_ids blocks) : gset string) = length blocks.
Proof. rewrite size_list_to_set by done. unfold block_ids. apply length_fmap. Qed.

Lemma search_decides :
  (forall a b, waits_for blocks a b -> b ∈ block_ids blocks) ->
  exists st r, visit_all (visit index (S (S (length blocks)))) (xb_ID <$> blocks) (mkSearch ∅ ∅) = Some (st, r) /\
    (r = inr tt <-> forall a, ~ tc (waits_for blocks) a a).
Proof.
  intros Hknown. pose (D := list_to_set (block_ids blocks) : gset string).
  assert (HD : forall a b, edge index a b -> b ∈ D).
  { intros a b Hab%edge_waits_for. apply elem_of_list_to_set. eauto. }
  assert (H : found index (xb_ID <$> blocks) (mkSearch ∅ ∅)
                (visit_all (visit index (S (S (length blocks)))) (xb_ID <$> blocks) (mkSearch ∅ ∅))).
  { apply (visit_all_spec index D HD (S (S (length blocks)))).
    - intros id st. by apply (visit_spec index D HD).
    - split; simpl; set_solver.
    - simpl. set_solver.
    - simpl. rewrite difference_empty_L. unfold D. rewrite size_ids. lia.
    - apply Forall_forall. intros id Hid. split; [by apply elem_of_list_to_set | simpl; set_solver]. }
  destruct (visit_all _ _ _) as [[st [e|[]]]|]; [| |done]; exists st; eexists; (split; [reflexivity|]).
  - destruct H as [a Ha%tc_edge_waits_for]. split; [done|]. intros Hno. by destruct (Hno a).
  - destruct H as (_ & _ & [_ Hac _] & Hall). split; [|done]. intros _ a Hcyc.
    apply (Hac a); [|by apply tc_edge_waits_for].
    apply Hall. inversion Hcyc as [? ? H1|? b ? H1 _]; subst; destruct H1 as (blk & Hin & <- & _); by apply list_elem_of_fmap_2.
Qed.
End validate.

Lemma plan_validation_spec (p : ExecutionPlan) :
  exists r, ExecutionPlan_Validate p = Some r /\ (r = inr tt <-> well_formed_plan p).
Proof.
  unfold ExecutionPlan_Validate.
  match goal with |- context [match ?m with inl _ => _ | inr _ => _ end] => set (before := m) end.
  assert (Hb : forall seen, before = inr seen <->
    ep_WorkflowID p <> "" /\ ep_TaskID p <> "" /\ ep_CreatedAt p <> zero_time /\ ep_Blocks p <> [] /\
    Forall valid_block (ep_Blocks p) /\ NoDup (block_ids (ep_Blocks p)) /\ seen = index (ep_Blocks p) /\
    forall a b, waits_for (ep_Blocks p) a b -> b ∈ block_ids (ep_Blocks p) /\ b <> a).
  { intros seen. unfold before. rewrite !refuse_ok, !bool_decide_eq_false. unfold IsZero.
    rewrite Z.eqb_neq. fold zero_time.
    assert (Hi : forall k : gmap string ExecutionBlock -> error + gmap string ExecutionBlock,
      (index_blocks ∅ (ep_Blocks p) ≫= k) = inr seen <->
      exists s, index_blocks ∅ (ep_Blocks p) = inr s /\ k s = inr seen).
    { intros k. destruct (index_blocks ∅ (ep_Blocks p)); simpl; naive_solver. }
    rewrite Hi. setoid_rewrite index_blocks_ok. split.
    - intros (Hw & Ht & Hc & Hbl & s & (Hv & Hd & _ & ->) & Hk). fold (index (ep_Blocks p)) in Hk.
      destruct (check_all _ (ep_Blocks p)) as [e|[]] eqn:E; simpl in Hk; [done|]. injection Hk as <-.
      pose proof (proj1 (dependencies_ok _ Hd) E) as Hk. done.
    - intros (Hw & Ht & Hc & Hbl & Hv & Hd & -> & Hk). split_and!; auto. exists (index (ep_Blocks p)).
      split; [split_and!; auto; intros; by rewrite lookup_empty|].
      apply (dependencies_ok _ Hd) in Hk. by rewrite Hk. }
  destruct before as [e|seen].
  - exists (inl e). split; [done|]. split; [done|]. intros [Hw Ht Hc Hbl Hv Hd Hk Hac].
    assert (inl e = inr (index (ep_Blocks p))); [|done]. apply Hb. split_and!; auto.
    intros a b Hab. split; [by eapply Hk|]. intros ->. apply (Hac a). by apply tc_once.
  - destruct (proj1 (Hb seen) eq_refl) as (Hw & Ht & Hc & Hbl & Hv & Hd & -> & Hk).
    destruct (search_decides (ep_Blocks p) Hd) as (st & r & -> & Hr); [intros a b Hab; by apply (Hk a b)|].
    exists r. split; [done|]. rewrite Hr. split.
    + intros Hac. split; auto. intros a b Hab. by apply (Hk a b).
    + by intros [].
Qed.

(** C15: [ExecutionPlan.Validate] always ends, within its depth, and accepts
    exactly the well-formed plans: the required fields are there, every block
    is valid and assigned to the agent of its kind, ids are unique,
    dependencies are known, and no block waits for itself, directly or
    through others. *)
Theorem plan_validation_is_exact (p : ExecutionPlan) :
  exists r, ExecutionPlan_Validate p = Some r /\ (r = inr tt <-> well_formed_plan p).
Proof. apply plan_validation_spec. Qed.

(** ** Orders that respect the dependencies *)

(** Every block comes after the blocks it depends on; [earlier] are the ids
    before the list. *)
Fixpoint in_order (earlier : list string) (blocks : list ExecutionBlock) : bool :=
  match blocks with
  | [] => true
  | b :: blocks =>
      forallb (fun dep => bool_decide (eb_BlockID dep ∈ earlier)) (xb_DependsOn b) && in_order (xb_ID b :: earlier) blocks
  end.

Lemma in_order_lookup earlier blocks i b d :
  in_order earlier blocks = true -> blocks !! i = Some b -> d ∈ eb_BlockID <$> xb_DependsOn b ->
  d ∈ earlier \/ exists j c, (j < i)%nat /\ blocks !! j = Some c /\ xb_ID c = d.
Proof.
  revert earlier i. induction blocks as [|c blocks IH]; intros earlier i H Hi Hd; [by rewrite lookup_nil in Hi|].
  simpl in H. apply andb_true_iff in H as [Hc H]. destruct i as [|i]; simpl in Hi.
  - injection Hi as <-. apply list_elem_of_fmap in Hd as (dep & -> & Hdep). left.
    rewrite forallb_forall in Hc. eapply bool_decide_eq_true. apply Hc. by apply list_elem_of_In.
  - destruct (IH _ i H Hi Hd) as [[->|He]%elem_of_cons|(j & c' & Hj & Hl & Hid)].
    + right. exists 0%nat, c. split_and!; [lia | done | done].
    + by left.
    + right. exists (S j), c'. split_and!; [lia | done | done].
Qed.

(** In such an order nothing is unknown and nothing is cyclic. *)
Lemma in_order_sound blocks :
  NoDup (block_ids blocks) -> in_order [] blocks = true ->
  (forall a b, waits_for blocks a b -> b ∈ block_ids blocks) /\ forall a, ~ tc (waits_for blocks) a a.
Proof.
  intros Hd Ho.
  pose (at_ (i : nat) (id : string) := block_ids blocks !! i = Some id).
  assert (Hstep : forall a b i, waits_for blocks a b -> at_ i a -> exists j, (j < i)%nat /\ at_ j b).
  { intros a b i (blk & Hin & Hid & Hb) Hi. unfold at_, block_ids in *.
    rewrite list_lookup_fmap in Hi. apply fmap_Some in Hi as (blk' & Hi & ->).
    assert (blk' = blk) as ->.
    { apply list_elem_of_lookup in Hin as [k Hk].
      assert (i = k) as ->; [|congruence].
      apply (NoDup_lookup _ i k (xb_ID blk) Hd); unfold block_ids; rewrite list_lookup_fmap.
      - by rewrite Hi, Hid.
      - by rewrite Hk. }
    destruct (in_order_lookup [] blocks i blk b Ho Hi Hb) as [[]%elem_of_nil|(j & c & Hj & Hl & <-)].
    exists j. split; [done|]. by rewrite list_lookup_fmap, Hl. }
  assert (Hpos : forall a b, waits_for blocks a b -> exists i, at_ i a).
  { intros a b (blk & Hin & <- & _). apply list_elem_of_lookup. by apply list_elem_of_fmap_2. }
  split.
  - intros a b Hab. destruct (Hpos a b Hab) as [i Hi]. destruct (Hstep a b i Hab Hi) as (j & _ & Hj).
    by eapply list_elem_of_lookup_2.
  - assert (Htc : forall a b, tc (waits_for blocks) a b -> forall i, at_ i a -> exists j, (j < i)%nat /\ at_ j b).
    { intros a b H. induction H as [a b H | a b c H _ IH]; intros i Hi; [eauto|].
      destruct (Hstep a b i H Hi) as (j & Hj & Hb). destruct (IH j Hb) as (k & Hk & Hc). exists k. split; [lia | done]. }
    intros a Hcyc. assert (exists b, waits_for blocks a b) as [b Hab] by (inversion Hcyc; eauto).
    destruct (Hpos a b Hab) as [i Hi]. destruct (Htc a a Hcyc i Hi) as (j & Hj & Ha).
    assert (i = j) by (by eapply NoDup_lookup). lia.
Qed.

(** ** The deterministic planner *)

(** Everything a valid block needs but its mandatory evidence. *)
Definition sound_block (b : ExecutionBlock) : Prop := Exists (fun req => xr_Mandatory req = true) (xb_RequiredEvidenceRefs b) -> valid_block b.

Lemma requiredByType_named items types :
  Forall (fun t => t <> "") types ->
  Forall (fun req => xr_RequirementID req <> "" /\ xr_Type req <> "") (requiredByType items types).
Proof.
  intros Ht. unfold requiredByType. apply Forall_fmap, Forall_forall. intros item [Hin _]%list_elem_of_filter.
  rewrite Forall_forall in Ht. simpl. auto.
Qed.

Ltac solve_sound_block :=
  intros Hmandatory; split; try exact Hmandatory; simpl;
  repeat first [ apply requiredByType_named | apply Forall_cons_2 | apply Forall_nil_2 | split | done | by intros ].

Lemma plan_blocks_sound spec slice : Forall sound_block (plan_blocks spec slice).
Proof.
  unfold plan_blocks. destruct (ts_UserIntentType spec); try apply Forall_nil_2;
    unfold monthlyReviewBlocks, debtDecisionBlocks, lifeEventBlocks, tax_first, cashflow_first,
      behaviorInterventionBlocks, taxOptimizationBlocks, portfolioRebalanceBlocks; repeat case_match;
    repeat apply Forall_cons_2; try apply Forall_nil_2; solve_sound_block.
Qed.

Lemma plan_blocks_ordered spec slice :
  NoDup (block_ids (plan_blocks spec slice)) /\ in_order [] (plan_blocks spec slice) = true.
Proof.
  unfold plan_blocks. destruct (ts_UserIntentType spec); try (split; [apply NoDup_nil_2 | reflexivity]);
    unfold monthlyReviewBlocks, debtDecisionBlocks, lifeEventBlocks, tax_first, cashflow_first,
      behaviorInterventionBlocks, taxOptimizationBlocks, portfolioRebalanceBlocks; repeat case_match;
    (split; [apply (bool_decide_unpack _); vm_compute; exact I | vm_compute; reflexivity]).
Qed.

Definition has_mandatory_evidence (b : ExecutionBlock) : Prop :=
  Exists (fun req => xr_Mandatory req = true) (xb_RequiredEvidenceRefs b).

Lemma deterministic_plan_spec (now : time) (spec : TaskSpec) (slice : ContextSlice) (workflowID : string) :
  let plan := deterministic_plan now spec slice workflowID in
  in_order [] (ep_Blocks plan) = true /\ NoDup (block_ids (ep_Blocks plan)) /\
  (ExecutionPlan_Validate plan = Some (inr tt) <->
   workflowID <> "" /\ ts_ID spec <> "" /\ now <> zero_time /\ plan_blocks spec slice <> [] /\
   Forall has_mandatory_evidence (plan_blocks spec slice)).
Proof.
  intros plan. change (ep_Blocks plan) with (plan_blocks spec slice).
  destruct (plan_blocks_ordered spec slice) as [Hd Ho]. split; [done|]. split; [done|].
  destruct (plan_validation_spec plan) as (r & -> & Hr).
  assert (Some r = Some (inr tt) <-> well_formed_plan plan) as -> by (rewrite <- Hr; naive_solver).
  split.
  - intros [Hw Ht Hc Hb Hv _ _ _]. split_and!; auto. eapply Forall_impl; [exact Hv|]. intros b. apply vb_mandatory.
  - intros (Hw & Ht & Hc & Hb & Hm). destruct (in_order_sound _ Hd Ho) as [Hk Ha]. split; auto.
    change (ep_Blocks plan) with (plan_blocks spec slice). apply Forall_forall. intros b Hin.
    pose proof (plan_blocks_sound spec slice) as Hs. rewrite Forall_forall in Hs, Hm. apply (Hs b Hin), (Hm b Hin).
Qed.

(** C30: The deterministic planner lists every block after the blocks it
    depends on, and its plan passes validation exactly when the workflow, the
    task and the time are given, the intent is one that is planned, and the
    task requires mandatory evidence for every block. *)
Theorem deterministic_plan_valid_iff (now : time) (spec : TaskSpec) (slice : ContextSlice) (workflowID : string) :
  let plan := deterministic_plan now spec slice workflowID in
  in_order [] (ep_Blocks plan) = true /\ NoDup (block_ids (ep_Blocks plan)) /\
  (ExecutionPlan_Validate plan = Some (inr tt) <->
   workflowID <> "" /\ ts_ID spec <> "" /\ now <> zero_time /\ plan_blocks spec slice <> [] /\
   Forall has_mandatory_evidence (plan_blocks spec slice)).
Proof. apply deterministic_plan_spec. Qed.

(** ** What a model may change *)

Section schema.
Context `{TE : TextErrors} `{MO : MapOrder}.

Lemma count_bump d l m id :
  default 0 ((fold_left (fun (m : gmap string Z) id => <[id := default 0 (m !! id) + d]> m) l m) !! id) =
  default 0 (m !! id) + d * Z.of_nat (count_occ String.string_dec l id).
Proof.
  revert m. induction l as [|x l IH]; intros m; cbn [fold_left count_occ]; [lia|]. rewrite IH.
  destruct (String.string_dec x id) as [->|Hne]; [rewrite lookup_insert, decide_True by done; cbn [from_option Datatypes.id]; lia|].
  by rewrite lookup_insert_ne.
Qed.

(** An order without diagnostics has every allowed block exactly once. *)
Lemma accepted_order s value :
  PlannerStructuredSchema_Validate s value = [] -> pc_BlockOrder value ≡ₚ pz_AllowedBlockIDs s.
Proof.
  unfold PlannerStructuredSchema_Validate. intros H.
  apply app_eq_nil in H as [_ H]. apply app_eq_nil in H as [_ H]. apply app_eq_nil in H as [H _].
  unfold order_diagnostics in H. case_match; [done|]. apply fmap_nil_inv in H.
  apply (Permutation_count_occ String.string_dec). intros id.
  set (m := remaining_counts (pz_AllowedBlockIDs s) (pc_BlockOrder value)) in *.
  assert (Hz : default 0 (m !! id) = 0).
  { destruct (m !! id) as [c|] eqn:E; [|done]. destruct (decide (c = 0)) as [->|Hc]; [done|]. exfalso.
    assert (Hin : (id, c) ∈ filter (fun '(_, count) => count <> 0) (map_range m)).
    { apply list_elem_of_filter. split; [done|]. by apply elem_of_map_range. }
    rewrite H in Hin. by apply elem_of_nil in Hin. }
  unfold m, remaining_counts in Hz. rewrite !count_bump, lookup_empty in Hz. cbn [from_option Datatypes.id] in Hz. lia.
Qed.
End schema.

Lemma index_by_id blocks : index_by xb_ID id blocks = index blocks.
Proof.
  unfold index_by, index. generalize (∅ : gmap string ExecutionBlock).
  induction blocks as [|b blocks IH]; intros m; simpl; [done | apply IH].
Qed.

Lemma omap_index blocks : NoDup (block_ids blocks) -> omap (fun key => index blocks !! key) (block_ids blocks) = blocks.
Proof.
  intros Hd. unfold block_ids.
  assert (H : forall l, l ⊆ blocks -> omap (fun key => index blocks !! key) (xb_ID <$> l) = l); [|by apply H].
  induction l as [|b l IH]; intros Hl; simpl; [done|].
  assert (index blocks !! xb_ID b = Some b) as -> by (apply lookup_index; [done|]; split; [set_solver | done]).
  f_equal. apply IH. set_solver.
Qed.

Lemma compiled_blocks_perm base candidate :
  NoDup (block_ids (ep_Blocks base)) -> pc_BlockOrder candidate ≡ₚ block_ids (ep_Blocks base) ->
  compiled_blocks base candidate ≡ₚ ep_Blocks base.
Proof.
  intros Hd Hp. unfold compiled_blocks. rewrite index_by_id.
  assert (H : omap (fun key => index (ep_Blocks base) !! key) (pc_BlockOrder candidate) ≡ₚ ep_Blocks base).
  { etrans; [apply omap_Permutation; exact Hp | by rewrite omap_index]. }
  by destruct (omap _ _).
Qed.

Lemma waits_for_perm blocks blocks' a b : blocks ≡ₚ blocks' -> waits_for blocks a b -> waits_for blocks' a b.
Proof. intros Hp (blk & Hin & H). exists blk. by rewrite <- Hp. Qed.

Lemma tc_waits_for_perm blocks blocks' a b :
  blocks ≡ₚ blocks' -> tc (waits_for blocks) a b -> tc (waits_for blocks') a b.
Proof.
  intros Hp H. induction H as [a b H | a b c H _ IH]; [apply tc_once | eapply tc_l; [|exact IH]];
    by eapply waits_for_perm.
Qed.

(** Validity does not depend on the order of the blocks. *)
Lemma well_formed_perm p p' :
  ep_Blocks p ≡ₚ ep_Blocks p' -> ep_WorkflowID p = ep_WorkflowID p' -> ep_TaskID p = ep_TaskID p' ->
  ep_CreatedAt p = ep_CreatedAt p' -> well_formed_plan p -> well_formed_plan p'.
Proof.
  intros Hp Hw Ht Hc [H1 H2 H3 H4 H5 H6 H7 H8].
  assert (Hids : block_ids (ep_Blocks p) ≡ₚ block_ids (ep_Blocks p')) by (unfold block_ids; by rewrite Hp).
  split; [congruence | congruence | congruence | | by rewrite <- Hp | by rewrite <- Hids | | ].
  - intros E. apply H4. rewrite E in Hp. by apply Permutation_nil_r in Hp.
  - intros a b Hab. rewrite <- Hids. eapply H7. by eapply waits_for_perm.
  - intros a Hcyc. apply (H8 a). by eapply tc_waits_for_perm.
Qed.

(** The plan differs from the deterministic one in the order of its blocks, in
    what its steps emphasise and in texts and traces; it is valid as often. *)
Record same_work (base plan : ExecutionPlan) : Prop := {
  sw_blocks : ep_Blocks plan ≡ₚ ep_Blocks base;
  sw_steps : (fun s => s <| ps_Emphasis := "" |>) <$> ep_Steps plan = (fun s => s <| ps_Emphasis := "" |>) <$> ep_Steps base;
  sw_names : (ep_WorkflowID plan, ep_TaskID plan, ep_PlanID plan, ep_CreatedAt plan) =
             (ep_WorkflowID base, ep_TaskID base, ep_PlanID base, ep_CreatedAt base);
  sw_valid : ExecutionPlan_Validate plan = Some (inr tt) <-> ExecutionPlan_Validate base = Some (inr tt);
}.

Lemma validates p : ExecutionPlan_Validate p = Some (inr tt) <-> well_formed_plan p.
Proof. destruct (plan_validation_spec p) as (r & -> & <-). naive_solver. Qed.

Lemma same_work_intro base plan :
  ep_Blocks plan ≡ₚ ep_Blocks base ->
  (fun s => s <| ps_Emphasis := "" |>) <$> ep_Steps plan = (fun s => s <| ps_Emphasis := "" |>) <$> ep_Steps base ->
  (ep_WorkflowID plan, ep_TaskID plan, ep_PlanID plan, ep_CreatedAt plan) =
    (ep_WorkflowID base, ep_TaskID base, ep_PlanID base, ep_CreatedAt base) ->
  same_work base plan.
Proof.
  intros Hb Hs Hn. split; auto. rewrite !validates. injection Hn as Hw Ht _ Hc.
  split; apply well_formed_perm; auto using Permutation_sym.
Qed.

Lemma compile_same_work now base candidate trace generation result :
  NoDup (block_ids (ep_Blocks base)) -> pc_BlockOrder candidate ≡ₚ block_ids (ep_Blocks base) ->
  same_work base (Compile now base candidate trace generation result).
Proof.
  intros Hd Hp. apply same_work_intro; [by apply compiled_blocks_perm | | done].
  change (ep_Steps (Compile now base candidate trace generation result)) with
    (with_emphasis (index_by pe_StepID pe_Emphasis (pc_StepEmphasis candidate)) <$> ep_Steps base).
  rewrite <- list_fmap_compose. apply list_fmap_ext. intros i s _. unfold compose, with_emphasis. by case_match.
Qed.

(** ** What surrounds a part that asks a model *)

Section model.
Context {W : Type} (clock : W -> W * time) `{TE : TextErrors} `{MO : MapOrder}.
Context (renderer : PromptRenderer W) (generator : option (StructuredGenerator W)) (recorder : option (TraceRecorder W)) (count : W -> nat).

(** The model, the recorders and the clock end, and only the model is counted. *)
Record model_surroundings : Prop := {
  so_generator g request : generator = Some g -> within count 1 (fun _ => True) (fun _ => True) (g request);
  so_recorder r record w : recorder = Some r -> count (RecordStructuredOutput r record w) = count w;
  so_trace_clock r w : recorder = Some r -> count (trace_now r w).1 = count w;
  so_renders record trace w : prn_RecordPromptRender renderer = Some record -> count (record trace w) = count w;
  so_clock w : count (clock w).1 = count w;
}.

Context (HS : model_surroundings).

Lemma within_reading : within count 0 (fun _ => True) (fun _ => False) (fun w => let '(w', t) := clock w in (w', Ok t)).
Proof. intros w. pose proof (so_clock HS w) as H. destruct (clock w) as [w' t]. simpl in *. split; [lia | done]. Qed.

Lemma within_rendering id data input : within count 0 (fun _ => True) (fun _ => True) (Render clock renderer id data input).
Proof.
  unfold Render. destruct (prn_Registry renderer); [|by apply within_fail].
  destruct (rendered_texts _ _ _) as [e|[[[t d] s] u]]; [by apply within_fail|].
  intros w. pose proof (so_clock HS w) as Hc. destruct (clock w) as [w' now]. simpl in *.
  destruct (prn_RecordPromptRender renderer) as [record|] eqn:E; simpl; [rewrite (so_renders HS _ _ _ E)|]; split; (lia || done).
Qed.

Lemma surrounded_pipeline {T} `{ZT : Zero T} (pl : Pipeline W T) :
  pl_Generator pl = generator -> pl_TraceRecorder pl = recorder ->
  (forall f, pl_Fallback pl = Some f -> within count 0 (fun _ => True) (fun _ => True) f) -> well_behaved pl count.
Proof.
  intros Hg Hr Hf. split.
  - intros g request E. apply (so_generator HS). congruence.
  - exact Hf.
  - intros r record w E. apply (so_recorder HS). congruence.
  - intros r w E. apply (so_trace_clock HS). congruence.
Qed.
End model.

Section provider.
Context {W : Type} (clock : W -> W * time) `{TE : TextErrors} `{MO : MapOrder}.
Context (p : ProviderBackedPlanner W) (count : W -> nat).

Definition surroundings : Prop := model_surroundings clock (pb_PromptRenderer p) (pb_Generator p) (pb_TraceRecorder p) count.

Definition calls (world : PlannerWorld W) : nat := count (pw_Outside world).

Lemma within_outside {A} n (Q : A -> Prop) F m : within count n Q F m -> within calls n Q F (outside m).
Proof. intros H world. unfold outside, zoom, calls. specialize (H (pw_Outside world)). by destruct (m (pw_Outside world)). Qed.

Context (HS : surroundings) (spec : TaskSpec) (slice : ContextSlice) (workflowID : string).

Definition planned (plan : ExecutionPlan) : Prop :=
  exists now, same_work (deterministic_plan now spec slice workflowID) plan.

Lemma within_clock : within calls 0 (fun _ => True) (fun _ => False) (outside (read_clock clock)).
Proof. apply within_outside, (within_reading _ _ _ _ _ HS). Qed.

Lemma within_create_plan pointer :
  within calls 0 (fun plan => exists now, plan = deterministic_plan now spec slice workflowID) (fun _ => False)
    (create_plan clock pointer spec slice workflowID).
Proof.
  unfold create_plan. apply (within_bind calls 0 0 (fun _ => True)); [apply within_clock|]. intros now _.
  destruct pointer as [address|]; [|apply within_ret; by exists now].
  intros world. unfold with_planner, calls. simpl. split; [lia | by exists now].
Qed.

Lemma within_fallback_plan n category err promptID profile :
  within calls n planned (fun _ => False) (fallback_plan clock p spec slice workflowID category err promptID profile).
Proof.
  apply (within_weaken calls 0 n planned planned (fun _ => False) (fun _ => False)); [|lia | done | done].
  unfold fallback_plan. eapply (within_bind calls 0 0); [apply within_create_plan|]. intros plan [now ->].
  apply (within_bind calls 0 0 (fun _ => True)); [apply within_clock|]. intros now' _. apply within_ret.
  exists now. by apply same_work_intro.
Qed.

Lemma pipeline_well_behaved catalog : well_behaved (planner_pipeline p catalog) count.
Proof. apply (surrounded_pipeline _ _ _ _ _ HS); [done..|]. intros f [= <-]. by apply within_ret. Qed.

(** Whatever the pipeline returns orders exactly the catalog's blocks. *)
Lemma pipeline_order catalog (r : Result PlannerStructuredCandidate) :
  accepted (planner_pipeline p catalog) r \/ fell_back (planner_pipeline p catalog) r ->
  pc_BlockOrder (rs_Value r) ≡ₚ block_ids (ep_Blocks catalog).
Proof.
  intros [(_ & _ & _ & H)|(_ & _ & f & w & w' & Hf & Hv)].
  - exact (accepted_order _ _ (H _ eq_refl)).
  - injection Hf as <-. injection Hv as _ Hv. rewrite <- Hv. reflexivity.
Qed.
End provider.

(** C6: Whatever the language model answers, or fails to answer, the
    provider-backed planner returns a plan: the deterministic plan of some
    reading of the clock with its blocks in an order of the model's choosing,
    valid exactly if the deterministic plan is.  The model is asked at most
    twice. *)
Theorem model_only_reorders {W} (clock : W -> W * time) `{TE : TextErrors} `{MO : MapOrder}
    (p : ProviderBackedPlanner W) (count : W -> nat) (spec : TaskSpec) (slice : ContextSlice) (workflowID : string) :
  surroundings clock p count ->
  within (calls count) 2
    (fun plan => exists now, same_work (deterministic_plan now spec slice workflowID) plan) (fun _ => False)
    (CreatePlanWithContext clock p spec slice workflowID).
Proof.
  intros HS. unfold CreatePlanWithContext.
  eapply (within_bind (calls count) 0 2); [by apply (within_create_plan clock p count HS)|]. intros catalog [now ->].
  case_match.
  { eapply within_weaken; [by apply (within_create_plan clock p count HS) | lia | | done]. intros plan [now' ->]. exists now'. by apply same_work_intro. }
  eapply (within_bind (calls count) 0 2);
    [apply within_attempt with (F := fun _ => True), within_outside, (within_rendering _ _ _ _ _ HS)|].
  intros [err|rendered] _; [apply (within_fallback_plan clock p count HS)|].
  set (catalog := deterministic_plan now spec slice workflowID).
  eapply (within_bind (calls count) 2 0).
  { eapply within_attempt with (F := fun _ => True), within_outside, within_weaken;
      [apply (structured_output_spec (planner_pipeline p catalog) count); eapply pipeline_well_behaved; exact HS
      | reflexivity | intros r Hr; exact Hr | done]. }
  intros [err|result] Hr; [apply (within_fallback_plan clock p count HS)|].
  apply (within_bind (calls count) 0 0 (fun _ => True)); [apply (within_clock clock p count HS)|]. intros now' _. apply within_ret.
  exists now. apply compile_same_work; [apply plan_blocks_ordered | by apply (pipeline_order p catalog)].
Qed.

(** ** A model that puts the debt review first *)

Definition example_texts : TextErrors := {|
  json_error := fun _ => PlainError "json"; marshal_error := PlainError "marshal"; csv_error := fun _ => PlainError "csv";
  number_error := fun _ => PlainError "number"; time_error := fun _ => PlainError "time" |}.

Definition debt_first_answer : string :=
  render (VObj [("plan_summary", VStr "debt first"); ("rationale", VStr "debt is urgent");
                ("block_order", VArr [VStr "debt-review"; VStr "cashflow-review"])]).

Definition example_registry : option PromptRegistry := match NewRegistry with inr r => Some r | inl _ => None end.

Definition example_planner : ProviderBackedPlanner nat := {|
  pb_PromptRenderer := mkPromptRenderer example_registry None;
  pb_Generator := Some (fun _ n => (S n, Ok ((zero : StructuredGenerationResult) <| sgr_Content := debt_first_answer |>)));
  pb_TraceRecorder := None;
  pb_CatalogPlanner := None;
  pb_FallbackPlanner := None
|}.

Definition example_clock (n : nat) : nat * time := (n, 1).
Definition monthly_spec : TaskSpec := (zero : TaskSpec) <| ts_ID := "task" |> <| ts_UserIntentType := UserIntentMonthlyReview |>.

Definition example_plan : option ExecutionPlan :=
  match (CreatePlanWithContext (TE := example_texts) (MO := canonical_order) example_clock example_planner
           monthly_spec zero "wf" (mkPlannerWorld ∅ 0%nat)).2 with Ok plan => Some plan | _ => None end.

Lemma model_only_reorders_witness :
  surroundings example_clock example_planner id /\
  within (calls id) 2
    (fun plan => exists now, same_work (deterministic_plan now monthly_spec zero "wf") plan) (fun _ => False)
    (CreatePlanWithContext (TE := example_texts) (MO := canonical_order) example_clock example_planner monthly_spec zero "wf").
Proof.
  assert (surroundings example_clock example_planner id).
  { split; try done. intros g request [= <-] w. simpl. split; [unfold id; lia | done]. }
  split; [done|].
  apply (model_only_reorders (TE := example_texts) (MO := canonical_order) example_clock example_planner id monthly_spec zero "wf").
  done.
Defined.

(** The schema accepts an order in which the debt review, which waits for the
    cashflow review, comes first. *)
Lemma model_may_ignore_dependencies :
  (fun plan => (block_ids (ep_Blocks plan), in_order [] (ep_Blocks plan))) <$> example_plan =
  Some (["debt-review"; "cashflow-review"], false).
Proof. vm_compute. reflexivity. Qed.
