(* ===== verification/Intake.v ===== *)
(** * Intake of tasks (taskspec/intake.go, taskspec/life_event_intake.go)

    A text becomes a task by keywords ([DeterministicIntakeService.Parse]), a
    life event by its kind ([EventTriggeredIntakeService.Build]).  The reading
    of the clock is a parameter. *)

From S2P Require Export PlanTypes Observation GoNum.
#[local] Open Scope Z_scope.

(** [t.Format("20060102")] *)
Definition Format_date8 (t : time) : string :=
  let '(y, m, d) := civil (t / (24 * Hour)) in pad 4 y +:+ pad 2 m +:+ pad 2 d.

(** [time.Date(t.Year(), t.Month(), 1, 0, 0, 0, 0, time.UTC)] *)
Definition first_of_month (t : time) : time :=
  let '(y, m, _) := civil (t / (24 * Hour)) in day_number y m 1 * (24 * Hour).

(** ** intake.go *)

Definition containsAny (input : string) (keywords : list string) : bool :=
  existsb (fun keyword => Contains input (ToLower keyword) || Contains input keyword) keywords.

Definition isMonthlyReviewIntent (input : string) : bool :=
  containsAny input ["月度财务复盘"; "月度复盘"; "财务复盘"; "monthly financial review"; "monthly review"].

Definition isDebtVsInvestIntent (input : string) : bool :=
  containsAny input ["提前还贷"; "继续投资"; "还贷还是投资"; "debt vs invest"; "pay down debt"; "invest"].

Definition isBehaviorInterventionIntent (input : string) : bool :=
  containsAny input ["行为干预"; "支出行为复盘"; "消费习惯复盘"; "订阅清理"; "深夜消费"; "消费护栏";
                     "behavior intervention"; "spending behavior review"].

Definition buildMonthlyReviewTaskSpec (goal : string) (now : time) : TaskSpec :=
  let start := first_of_month now in
  let end_ := Add (AddDate start 0 1 0) (- Second) in
  let deadline := Add now (48 * Hour) in
  (zero : TaskSpec)
    <| ts_ID := "task-monthly-review-" +:+ Format_date8 now |>
    <| ts_Goal := goal |>
    <| ts_Scope := (zero : TaskScope)
      <| sc_Areas := ["cashflow"; "liability"; "portfolio"; "tax"; "behavior"] |>
      <| sc_Start := Some start |>
      <| sc_End := Some end_ |> |>
    <| ts_Constraints := mkConstraintSet ["all financial calculations must be deterministic"; "high-risk recommendations cannot auto-execute"] ["prefer evidence-backed optimization suggestions"] |>
    <| ts_RiskLevel := RiskLevelMedium |>
    <| ts_SuccessCriteria := [mkSuccessCriteria "coverage" "required evidence for cashflow, liabilities, portfolio, and tax is covered";
       mkSuccessCriteria "report" "structured monthly report contains summary, risks, suggestions, and todo items";
       mkSuccessCriteria "traceability" "every major finding is backed by evidence or state-derived metrics"] |>
    <| ts_RequiredEvidence := [mkRequiredEvidenceRef "transaction_batch" "cashflow metrics and spending behavior" true;
       mkRequiredEvidenceRef "debt_obligation_snapshot" "debt pressure and minimum payment analysis" true;
       mkRequiredEvidenceRef "portfolio_allocation_snapshot" "allocation drift and liquidity view" true;
       mkRequiredEvidenceRef "payslip_statement" "income and payroll tax signals" false;
       mkRequiredEvidenceRef "tax_document" "family-related tax opportunities" false] |>
    <| ts_ApprovalRequirement := ApprovalRequirementRecommended |>
    <| ts_Deadline := Some deadline |>
    <| ts_UserIntentType := UserIntentMonthlyReview |>
    <| ts_CreatedAt := now |>.

Definition buildDebtVsInvestTaskSpec (goal : string) (now : time) : TaskSpec :=
  let start := AddDate now 0 (-3) 0 in
  let deadline := Add now (72 * Hour) in
  (zero : TaskSpec)
    <| ts_ID := "task-debt-vs-invest-" +:+ Format_date8 now |>
    <| ts_Goal := goal |>
    <| ts_Scope := (zero : TaskScope)
      <| sc_Areas := ["cashflow"; "liability"; "portfolio"] |>
      <| sc_Start := Some start |>
      <| sc_End := Some now |> |>
    <| ts_Constraints := mkConstraintSet ["do not auto-execute any high-risk investment recommendation"; "preserve liquidity coverage requirements"] ["prefer conclusions with explicit confidence and risk explanation"] |>
    <| ts_RiskLevel := RiskLevelHigh |>
    <| ts_SuccessCriteria := [mkSuccessCriteria "comparison" "compare debt paydown and investment continuation using deterministic metrics";
       mkSuccessCriteria "risk" "include liquidity impact and risk explanation";
       mkSuccessCriteria "evidence" "final conclusion is evidence-backed"] |>
    <| ts_RequiredEvidence := [mkRequiredEvidenceRef "transaction_batch" "cashflow and liquidity baseline" true;
       mkRequiredEvidenceRef "debt_obligation_snapshot" "debt obligations and minimum payment pressure" true;
       mkRequiredEvidenceRef "portfolio_allocation_snapshot" "investable asset mix and drift" true] |>
    <| ts_ApprovalRequirement := ApprovalRequirementMandatory |>
    <| ts_Deadline := Some deadline |>
    <| ts_UserIntentType := UserIntentDebtVsInvest |>
    <| ts_CreatedAt := now |>.

Definition buildBehaviorInterventionTaskSpec (goal : string) (now : time) : TaskSpec :=
  let start := AddDate now 0 (-2) 0 in
  let deadline := Add now (48 * Hour) in
  (zero : TaskSpec)
    <| ts_ID := "task-behavior-intervention-" +:+ Format_date8 now |>
    <| ts_Goal := goal |>
    <| ts_Scope := (zero : TaskScope)
      <| sc_Areas := ["behavior"; "cashflow"] |>
      <| sc_Start := Some start |>
      <| sc_End := Some now |> |>
    <| ts_Constraints := mkConstraintSet ["behavior recommendations must stay grounded in deterministic behavior metrics"; "high-risk behavior interventions cannot auto-execute without governance approval"] ["prefer procedural-memory-aware skill selection when prior interventions exist"] |>
    <| ts_RiskLevel := RiskLevelHigh |>
    <| ts_SuccessCriteria := [mkSuccessCriteria "anomaly_surfaced" "behavior anomalies and trends are surfaced from deterministic evidence and state";
       mkSuccessCriteria "skill_selection_explainable" "selected skill family/version/recipe is explainable via evidence, state, and procedural memory";
       mkSuccessCriteria "recommendation_grounded_governed" "behavior recommendations are grounded, validated, and governed"] |>
    <| ts_RequiredEvidence := [mkRequiredEvidenceRef "transaction_batch" "deterministic discretionary-spend analysis baseline" true;
       mkRequiredEvidenceRef "recurring_subscription_signal" "subscription overlap and cleanup detection" false;
       mkRequiredEvidenceRef "late_night_spending_signal" "late-night discretionary spend anomaly detection" false] |>
    <| ts_ApprovalRequirement := ApprovalRequirementRecommended |>
    <| ts_Deadline := Some deadline |>
    <| ts_UserIntentType := UserIntentBehaviorIntervention |>
    <| ts_CreatedAt := now |>.

Definition rejected (raw : string) (confidence : TaskIntakeConfidence) (failure : TaskIntakeFailureReason)
    (rejection : TaskRejectionReason) (note : string) : TaskIntakeResult :=
  (zero : TaskIntakeResult) <| ti_RawInput := raw |> <| ti_Confidence := confidence |>
    <| ti_FailureReason := failure |> <| ti_RejectionReason := rejection |> <| ti_Notes := [note] |>.

(** A built task is accepted if it validates. *)
Definition validated (raw : string) (spec : TaskSpec) (notes : list string) : TaskIntakeResult :=
  match TaskSpec_Validate spec with
  | Some err => rejected raw TaskIntakeConfidenceMedium TaskIntakeFailureValidation TaskRejectionNone (error_string err)
  | None =>
      (zero : TaskIntakeResult) <| ti_Accepted := true |> <| ti_RawInput := raw |>
        <| ti_Confidence := TaskIntakeConfidenceHigh |> <| ti_Notes := notes |> <| ti_TaskSpec := Some spec |>
  end.

Definition Parse (now : time) (raw : string) : TaskIntakeResult :=
  let input := TrimSpace raw in
  if input == "" then
    rejected raw TaskIntakeConfidenceLow TaskIntakeFailureMissingGoal TaskRejectionInsufficientInput
      "input is empty after trimming"
  else
    let lower := ToLower input in
    if isMonthlyReviewIntent lower then
      validated raw (buildMonthlyReviewTaskSpec input now)
        ["deterministic monthly review intent matched"; "success criteria template injected"]
    else if isDebtVsInvestIntent lower then
      validated raw (buildDebtVsInvestTaskSpec input now)
        ["deterministic debt-vs-invest intent matched"; "evidence-backed decision requirements injected"]
    else if isBehaviorInterventionIntent lower then
      validated raw (buildBehaviorInterventionTaskSpec input now)
        ["deterministic behavior intervention intent matched"; "behavior skill-selection success criteria injected"]
    else
      rejected raw TaskIntakeConfidenceLow TaskIntakeFailureUnsupportedInput TaskRejectionOutOfScope
        "deterministic intake only accepts monthly review, debt-vs-invest, and behavior intervention intents".

(** ** life_event_intake.go *)

Definition event_requirement (t : EvidenceType) (reason : string) (mandatory : bool) : RequiredEvidenceRef :=
  mkRequiredEvidenceRef (EvidenceType_string t) reason mandatory.

Definition base_requirements : list RequiredEvidenceRef :=
  [event_requirement EvidenceTypeEventSignal "life event trigger must be grounded in typed event evidence" true;
   event_requirement EvidenceTypeCalendarDeadline "follow-up due windows should use typed deadline evidence when available" false].

(** What the switch on the kind adds to the areas and the requirements, and
    the risk level and approval it sets. *)
Definition kind_profile (kind : LifeEventKind) :
    list string * list RequiredEvidenceRef * RiskLevel * ApprovalRequirement :=
  match kind with
  | LifeEventSalaryChange =>
      (["tax"; "portfolio"],
       [event_requirement EvidenceTypeTransactionBatch "cashflow baseline before salary change" true;
        event_requirement EvidenceTypePayslipStatement "salary and withholding change confirmation" false;
        event_requirement EvidenceTypePortfolioAllocationSnap "portfolio reallocation implications after salary change" false],
       RiskLevelMedium, ApprovalRequirementRecommended)
  | LifeEventNewChild =>
      (["tax"],
       [event_requirement EvidenceTypeTransactionBatch "cashflow baseline after family size change" true;
        event_requirement EvidenceTypeTaxDocument "family and childcare tax follow-up" false;
        event_requirement EvidenceTypePayslipStatement "payroll withholding and dependent changes" false],
       RiskLevelMedium, ApprovalRequirementRecommended)
  | LifeEventJobChange =>
      (["tax"; "portfolio"],
       [event_requirement EvidenceTypeTransactionBatch "cashflow and liquidity baseline after job change" true;
        event_requirement EvidenceTypePayslipStatement "new compensation and withholding baseline" false;
        event_requirement EvidenceTypePortfolioAllocationSnap "portfolio contribution and allocation implications" false],
       RiskLevelHigh, ApprovalRequirementMandatory)
  | LifeEventHousingChange =>
      (["debt"; "portfolio"],
       [event_requirement EvidenceTypeTransactionBatch "cashflow baseline after housing cost change" true;
        event_requirement EvidenceTypeDebtObligationSnapshot "mortgage or housing debt implications" false;
        event_requirement EvidenceTypePortfolioAllocationSnap "liquidity and asset allocation implications" false],
       RiskLevelHigh, ApprovalRequirementMandatory)
  | LifeEventKindOther _ => ([], [], RiskLevelMedium, ApprovalRequirementRecommended)
  end.

Definition buildLifeEventAnalysisWindow (event : LifeEventRecord) (now : time) : time * time :=
  let analysisStart := AddDate now 0 0 (-30) in
  let analysisStart :=
    match WindowStart event with
    | Some start => let candidate := AddDate start 0 0 (-30) in
                    if Before candidate analysisStart then candidate else analysisStart
    | None => analysisStart
    end in
  let analysisEnd :=
    match WindowEnd event with
    | Some end_ => if After end_ now then end_ else now
    | None => now
    end in
  (analysisStart, analysisEnd).

Definition buildLifeEventTaskSpec (event : LifeEventRecord) (now : time) : TaskSpec :=
  let kind := LifeEventKind_string (le_Kind event) in
  let '(areas, requirements, riskLevel, approval) := kind_profile (le_Kind event) in
  let goal := "Assess the financial impact of life event " +:+ Quote kind +:+ " and generate follow-up finance tasks." in
  let '(scopeStart, scopeEnd) := buildLifeEventAnalysisWindow event now in
  let deadline := Add now (72 * Hour) in
  (zero : TaskSpec)
    <| ts_ID := "task-life-event-" +:+ ToLower kind +:+ "-" +:+ Format_compact now |>
    <| ts_Goal := goal |>
    <| ts_Scope := (zero : TaskScope)
      <| sc_Areas := ["cashflow"; "risk"] ++ areas |>
      <| sc_Start := Some scopeStart |>
      <| sc_End := Some scopeEnd |>
      <| sc_Notes := ["workflow_c"; kind] |> |>
    <| ts_Constraints := mkConstraintSet ["life event input must first become typed evidence before workflow execution"; "generated follow-up tasks must remain convertible to standard TaskSpec"; "financial metrics must remain deterministic"] ["prefer generated tasks that are grounded in event evidence, state diff, and retrieved memories"] |>
    <| ts_RiskLevel := riskLevel |>
    <| ts_SuccessCriteria := [mkSuccessCriteria "event-grounding" "life event is represented by typed evidence and supporting state diff";
       mkSuccessCriteria "follow-up-graph" "generated follow-up tasks are typed, grounded, and registered in runtime";
       mkSuccessCriteria "governed-output" "generated tasks and assessment remain verifiable and governed"] |>
    <| ts_RequiredEvidence := base_requirements ++ requirements |>
    <| ts_ApprovalRequirement := approval |>
    <| ts_Deadline := Some deadline |>
    <| ts_UserIntentType := UserIntentLifeEventTrigger |>
    <| ts_CreatedAt := now |>.

(** [EventTriggeredIntakeService.Build] *)
Definition Build (now : time) (event : LifeEventRecord) : TaskIntakeResult :=
  let summary := LifeEventKind_string (le_Kind event) in
  match LifeEventRecord_Validate event with
  | Some err => rejected summary TaskIntakeConfidenceLow TaskIntakeFailureValidation TaskRejectionNone (error_string err)
  | None =>
      validated summary (buildLifeEventTaskSpec event now)
        ["life event trigger normalized into workflow task spec";
         "workflow c constraints and evidence requirements injected"]
  end.
