(* ===== verification/IntakeThm.v ===== *)
(** * Intake: what is accepted, and that accepted tasks can be planned

    The calendar facts behind the windows of the built tasks ([AddDate] moves
    by whole months of at least 28 days), and the contract of the two intake
    services: they accept exactly the inputs they recognise, and what they
    build validates and has a valid plan. *)

From S2P Require Export Intake PlanningThm.
#[local] Open Scope Z_scope.

(** ** The calendar *)

(** The first day of month [k], counted from January of year 0. *)
Definition month_start (k : Z) : Z := day_number (k / 12) (k mod 12 + 1) 1.

(** Evaluates the calendar at known months. *)
Ltac known_months := repeat match goal with
  | |- context [doy_of ?m ?d] => let v := eval vm_compute in (doy_of m d) in change (doy_of m d) with v
  | |- context [if ?m <=? 2 then ?a else ?b] =>
      let v := eval vm_compute in (m <=? 2) in change (if m <=? 2 then a else b) with (if v then a else b); cbv iota
  end.

Lemma year_length q :
  (q - 1) / 400 * 146097 + year_start ((q - 1) mod 400) + 365 <= q / 400 * 146097 + year_start (q mod 400).
Proof. unfold year_start. Z.to_euclidean_division_equations. lia. Qed.

Lemma month_start_succ k : month_start k + 28 <= month_start (k + 1).
Proof.
  unfold month_start.
  assert (Hr : 0 <= k mod 12 < 12) by (apply Z.mod_pos_bound; lia).
  pose proof (Z.div_mod k 12 ltac:(lia)) as Hk. set (q := k / 12) in *. set (r := k mod 12) in *. clearbody q r.
  pose proof (year_length q) as Hyear.
  destruct (decide (r = 11)) as [->|Er].
  - replace ((k + 1) / 12) with (q + 1) by (apply (Z.div_unique _ _ _ 0); lia).
    replace ((k + 1) mod 12) with 0 by (apply (Z.mod_unique _ _ (q + 1)); lia).
    unfold day_number. cbv zeta. known_months. replace (q + 1 - 1) with q by lia. lia.
  - replace ((k + 1) / 12) with q by (apply (Z.div_unique _ _ _ (r + 1)); lia).
    replace ((k + 1) mod 12) with (r + 1) by (apply (Z.mod_unique _ _ q); lia).
    assert (Hcases : r = 0 \/ r = 1 \/ r = 2 \/ r = 3 \/ r = 4 \/ r = 5 \/ r = 6 \/ r = 7 \/ r = 8 \/ r = 9 \/ r = 10) by lia.
    unfold day_number. cbv zeta.
    destruct Hcases as [->|[->|[->|[->|[->|[->|[->|[->|[->|[->| ->]]]]]]]]]]; known_months; lia.
Qed.

Lemma month_start_add k n : 0 <= n -> month_start k + 28 * n <= month_start (k + n).
Proof.
  intros Hn. pattern n. apply natlike_ind; [by rewrite !Z.add_0_r| |done].
  intros x Hx IH. pose proof (month_start_succ (k + x)). replace (k + Z.succ x) with (k + x + 1) by lia. lia.
Qed.

(** No date is before the year 1. *)
Lemma civil_year day : 0 <= day -> 1 <= (civil day).1.1.
Proof.
  intros Hd. pose proof (civil_parts day Hd) as H. cbv zeta in H. destruct H as (-> & Hy & Hdoy). simpl.
  set (yoe := year_of ((day + 306) mod 146097)) in *. set (doy := (day + 306) mod 146097 - year_start yoe) in *.
  assert (He : 0 <= (day + 306) / 146097) by (apply Z.div_pos; lia).
  assert (Hc : 0 <= carry doy) by (unfold carry; case_match; lia).
  destruct (decide (1 <= yoe + (day + 306) / 146097 * 400)) as [|Hsmall]; [lia|].
  assert (Hz : yoe = 0 /\ (day + 306) / 146097 = 0) by lia. destruct Hz as [Hyoe Hera].
  assert (Hdoy' : 306 <= doy).
  { unfold doy. rewrite Hyoe. change (year_start 0) with 0. pose proof (Z.div_mod (day + 306) 146097). lia. }
  assert (Hcarry : carry doy = 1); [|lia]. unfold carry, month_of.
  assert (Hmp : 10 <= (5 * doy + 2) / 153 < 12) by (clear -Hdoy Hdoy'; clearbody doy; Z.to_euclidean_division_equations; lia).
  destruct ((5 * doy + 2) / 153 <? 10) eqn:E; [lia|]. destruct ((5 * doy + 2) / 153 - 9 <=? 2) eqn:E'; lia.
Qed.

(** A time by its month, its day of the month and its time of day. *)
Lemma AddDate_parts t : 0 <= t -> exists k d, 1 <= d /\ 12 <= k /\
  t = (month_start k + (d - 1)) * (24 * Hour) + t mod (24 * Hour) /\
  first_of_month t = month_start k * (24 * Hour) /\
  forall months days, AddDate t 0 months days = (month_start (k + months) + (d - 1) + days) * (24 * Hour) + t mod (24 * Hour).
Proof.
  intros Ht. assert (Hday : 0 <= t / (24 * Hour)) by (apply Z.div_pos; unfold Hour, Minute, Second; lia).
  pose proof (civil_parts _ Hday) as Hp. cbv zeta in Hp.
  pose proof (day_number_civil _ Hday) as Hn. pose proof (civil_year _ Hday) as Hyear. unfold AddDate, first_of_month.
  destruct (civil (t / (24 * Hour))) as [[y m] d] eqn:E. destruct Hp as (Hc & _ & Hdoy). simpl in Hyear.
  destruct (month_spec _ Hdoy) as (Hm & Hd & _). injection Hc as Hy Hm' Hd'. rewrite <- Hm', <- Hd' in *.
  assert (Hdiv : forall n, (12 * y + (m - 1) + n) / 12 = y + (m - 1 + n) / 12 /\ (12 * y + (m - 1) + n) mod 12 = (m - 1 + n) mod 12).
  { intros n. replace (12 * y + (m - 1) + n) with (m - 1 + n + y * 12) by lia.
    rewrite Z.div_add, Z.mod_add by lia. lia. }
  assert (Hlin : forall y m d, day_number y m d = day_number y m 1 + (d - 1)).
  { intros. unfold day_number, doy_of. lia. }
  assert (H0 : month_start (12 * y + (m - 1)) = day_number y m 1).
  { unfold month_start. destruct (Hdiv 0) as [H1 H2]. rewrite Z.add_0_r in H1, H2. rewrite H1, H2, Z.add_0_r.
    rewrite Z.div_small, Z.mod_small by lia. f_equal; lia. }
  exists (12 * y + (m - 1)), d. split; [lia|]. split; [lia|]. split; [|split].
  - rewrite H0, <- Hlin, Hn. pose proof (Z.div_mod t (24 * Hour)). unfold Hour, Minute, Second in *. lia.
  - by rewrite H0.
  - intros months days. unfold month_start. destruct (Hdiv months) as [-> ->]. rewrite Z.add_0_r. done.
Qed.

Lemma month_start_nonneg k : 12 <= k -> 0 <= month_start k.
Proof.
  intros Hk. pose proof (month_start_add 12 (k - 12)). replace (12 + (k - 12)) with k in H by lia.
  change (month_start 12) with 0 in H. lia.
Qed.

(** Going back by months or days, and forward by months. *)
Lemma AddDate_back t months days : 0 <= t -> months <= 0 -> days <= 0 -> AddDate t 0 months days <= t.
Proof.
  intros Ht Hm Hd. destruct (AddDate_parts t Ht) as (k & d & _ & _ & Heq & _ & ->).
  pose proof (month_start_add (k + months) (- months)) as Hms. replace (k + months + - months) with k in Hms by lia.
  rewrite Heq at 2. unfold Hour, Minute, Second in *. lia.
Qed.

Lemma AddDate_forward t months : 0 <= t -> 0 <= months -> t + 28 * months * (24 * Hour) <= AddDate t 0 months 0.
Proof.
  intros Ht Hm. destruct (AddDate_parts t Ht) as (k & d & _ & _ & Heq & _ & ->).
  pose proof (month_start_add k months Hm). rewrite Heq at 1. unfold Hour, Minute, Second in *. lia.
Qed.

(** The window of a monthly review contains the time of the request. *)
Lemma month_window t : 0 <= t ->
  0 <= first_of_month t <= t /\ first_of_month t <= AddDate (first_of_month t) 0 1 0 + - Second.
Proof.
  intros Ht. destruct (AddDate_parts t Ht) as (k & d & Hd & Hk & Heq & Hf & _).
  pose proof (month_start_nonneg k Hk) as H0.
  assert (Hm : 0 <= t mod (24 * Hour)) by (apply Z.mod_pos_bound; unfold Hour, Minute, Second; lia).
  assert (Hb : 0 <= first_of_month t <= t).
  { rewrite Hf. split; [|rewrite Heq]; unfold Hour, Minute, Second in *; lia. }
  split; [done|]. pose proof (AddDate_forward (first_of_month t) 1 ltac:(lia) ltac:(lia)).
  unfold Hour, Minute, Second in *. lia.
Qed.

(** ** Built tasks validate *)

Lemma nonblank c s : is_space c = false -> TrimSpace (String c s) <> "".
Proof.
  #[local] Transparent TrimSpace.
  intros Hc. unfold TrimSpace. simpl. rewrite Hc. simpl. rewrite Hc. by destruct (trim_right s).
Qed.

Lemma nonblank_criteria l : Forall (fun c => blank (su_ID c) = false /\ blank (su_Description c) = false) l ->
  forall c, c ∈ l -> TrimSpace (su_ID c) <> "" /\ TrimSpace (su_Description c) <> "".
Proof. rewrite Forall_forall. intros H c Hc. destruct (H c Hc). by rewrite <- !blank_false. Qed.

Lemma nonblank_evidence l : Forall (fun r => blank (re_Type r) = false /\ blank (re_Reason r) = false) l ->
  forall r, r ∈ l -> TrimSpace (re_Type r) <> "" /\ TrimSpace (re_Reason r) <> "".
Proof. rewrite Forall_forall. intros H r Hr. destruct (H r Hr). by rewrite <- !blank_false. Qed.

Ltac solve_texts :=
  repeat apply Forall_cons_2; try apply Forall_nil_2; split; apply blank_false, nonblank; reflexivity.

Lemma build_ok spec start end_ :
  ts_SuccessCriteria spec <> [] ->
  Forall (fun c => blank (su_ID c) = false /\ blank (su_Description c) = false) (ts_SuccessCriteria spec) ->
  Forall (fun r => blank (re_Type r) = false /\ blank (re_Reason r) = false) (ts_RequiredEvidence spec) ->
  TrimSpace (ts_ID spec) <> "" -> TrimSpace (ts_Goal spec) <> "" ->
  validRiskLevel (ts_RiskLevel spec) && validApprovalRequirement (ts_ApprovalRequirement spec) &&
    validUserIntentType (ts_UserIntentType spec) = true ->
  sc_Start (ts_Scope spec) = Some start -> sc_End (ts_Scope spec) = Some end_ -> start <= end_ ->
  TaskSpec_Validate spec = None.
Proof.
  intros Hne Hc Hr Hid Hgoal Hv Hs He Hle. apply TaskSpec_Validate_spec.
  rewrite !andb_true_iff in Hv. destruct Hv as [[Hv1 Hv2] Hv3].
  split; auto; [| by apply nonblank_criteria | by apply nonblank_evidence].
  rewrite Hs, He. simpl. unfold After. lia.
Qed.

(** ** Built tasks can be planned *)

Lemma named_plan_validates now spec slice workflowID :
  now <> zero_time -> workflowID <> "" -> ts_ID spec <> "" -> plan_blocks spec slice <> [] ->
  Forall has_mandatory_evidence (plan_blocks spec slice) ->
  ExecutionPlan_Validate (deterministic_plan now spec slice workflowID) = Some (inr tt).
Proof. intros. destruct (deterministic_plan_spec now spec slice workflowID) as (_ & _ & Hiff). apply Hiff. auto. Qed.

Ltac solve_mandatory :=
  repeat case_match; repeat apply Forall_cons_2; try apply Forall_nil_2;
  unfold has_mandatory_evidence; apply (bool_decide_unpack _); vm_compute; exact I.

(** The words by which a text asks for each kind of task, and how many hours a
    task of each kind is given. *)
Definition words_for (intent : UserIntentType) : list string :=
  match intent with
  | UserIntentMonthlyReview => ["月度财务复盘"; "月度复盘"; "财务复盘"; "monthly financial review"; "monthly review"]
  | UserIntentDebtVsInvest => ["提前还贷"; "继续投资"; "还贷还是投资"; "debt vs invest"; "pay down debt"; "invest"]
  | UserIntentBehaviorIntervention =>
      ["行为干预"; "支出行为复盘"; "消费习惯复盘"; "订阅清理"; "深夜消费"; "消费护栏"; "behavior intervention"; "spending behavior review"]
  | _ => []
  end.

Definition hours_given (intent : UserIntentType) : Z :=
  match intent with
  | UserIntentMonthlyReview | UserIntentBehaviorIntervention => 48
  | _ => 72
  end.

(** A text asks for the first kind of task one of whose words it has, in any
    case and between any blanks. *)
Definition asks_for (raw : string) (intent : UserIntentType) : bool :=
  existsb (Contains (ToLower (TrimSpace raw))) (words_for intent).

Definition intent_of (raw : string) : option UserIntentType :=
  head (filter (fun intent => asks_for raw intent = true)
    [UserIntentMonthlyReview; UserIntentDebtVsInvest; UserIntentBehaviorIntervention]).

Lemma containsAny_lower input words :
  ToLower <$> words = words -> containsAny input words = existsb (Contains input) words.
Proof.
  induction words as [|w words IH]; [done|]. cbn [fmap list_fmap]. intros [= Hw Hr]. cbn [containsAny existsb].
  rewrite Hw, orb_diag. f_equal. by apply IH.
Qed.

Lemma intent_of_spec raw :
  let lower := ToLower (TrimSpace raw) in
  intent_of raw =
    if isMonthlyReviewIntent lower then Some UserIntentMonthlyReview
    else if isDebtVsInvestIntent lower then Some UserIntentDebtVsInvest
    else if isBehaviorInterventionIntent lower then Some UserIntentBehaviorIntervention
    else None.
Proof.
  cbv zeta. unfold isMonthlyReviewIntent, isDebtVsInvestIntent, isBehaviorInterventionIntent.
  rewrite !containsAny_lower by (vm_compute; reflexivity).
  change (intent_of raw = if asks_for raw UserIntentMonthlyReview then Some UserIntentMonthlyReview
    else if asks_for raw UserIntentDebtVsInvest then Some UserIntentDebtVsInvest
    else if asks_for raw UserIntentBehaviorIntervention then Some UserIntentBehaviorIntervention else None).
  unfold intent_of. rewrite !filter_cons, filter_nil. 
  destruct (asks_for raw UserIntentMonthlyReview), (asks_for raw UserIntentDebtVsInvest), (asks_for raw UserIntentBehaviorIntervention); reflexivity.
Qed.

(** The builder of an intent. *)
Definition built (intent : UserIntentType) : string -> time -> TaskSpec :=
  match intent with
  | UserIntentMonthlyReview => buildMonthlyReviewTaskSpec
  | UserIntentDebtVsInvest => buildDebtVsInvestTaskSpec
  | _ => buildBehaviorInterventionTaskSpec
  end.

(** What holds of every task an intake service builds at a time. *)
Record plannable (now : time) (spec : TaskSpec) : Prop := {
  pn_valid : TaskSpec_Validate spec = None;
  pn_created : ts_CreatedAt spec = now;
  pn_window : exists start end_, sc_Start (ts_Scope spec) = Some start /\ sc_End (ts_Scope spec) = Some end_ /\
                start <= now /\ start <= end_;
  pn_deadline : exists d, ts_Deadline spec = Some d /\ d = now + hours_given (ts_UserIntentType spec) * Hour /\ now < d;
  pn_plan : forall slice workflowID, now <> zero_time -> workflowID <> "" ->
    ExecutionPlan_Validate (deterministic_plan now spec slice workflowID) = Some (inr tt);
}.

Lemma plannable_intro now spec start end_ :
  ts_SuccessCriteria spec <> [] ->
  Forall (fun c => blank (su_ID c) = false /\ blank (su_Description c) = false) (ts_SuccessCriteria spec) ->
  Forall (fun r => blank (re_Type r) = false /\ blank (re_Reason r) = false) (ts_RequiredEvidence spec) ->
  TrimSpace (ts_ID spec) <> "" -> TrimSpace (ts_Goal spec) <> "" ->
  validRiskLevel (ts_RiskLevel spec) && validApprovalRequirement (ts_ApprovalRequirement spec) &&
    validUserIntentType (ts_UserIntentType spec) = true ->
  sc_Start (ts_Scope spec) = Some start -> sc_End (ts_Scope spec) = Some end_ -> start <= now -> start <= end_ ->
  ts_CreatedAt spec = now -> ts_Deadline spec = Some (now + hours_given (ts_UserIntentType spec) * Hour) ->
  (forall slice, plan_blocks spec slice <> [] /\ Forall has_mandatory_evidence (plan_blocks spec slice)) ->
  plannable now spec.
Proof.
  intros Hne Hc Hr Hid Hgoal Hv Hs He Hn Hle Hcr Hd Hp. split; auto; [by eapply build_ok | by exists start, end_ | |].
  { eexists. split; [exact Hd|]. split; [done|]. assert (0 < Hour) by done.
    destruct (ts_UserIntentType spec); cbn [hours_given]; lia. }
  intros slice workflowID Ht Hw. destruct (Hp slice). apply named_plan_validates; auto.
  intros E. by rewrite E in Hid.
Qed.

Lemma built_plannable intent goal now :
  0 <= now -> TrimSpace goal <> "" ->
  intent ∈ [UserIntentMonthlyReview; UserIntentDebtVsInvest; UserIntentBehaviorIntervention] ->
  plannable now (built intent goal now).
Proof.
  intros Hn Hgoal Hin. rewrite !elem_of_cons, elem_of_nil in Hin.
  destruct Hin as [->|[->|[->|[]]]]; cbn [built].
  - destruct (month_window now Hn) as [H1 H2].
    eapply plannable_intro; [done | solve_texts | solve_texts | by apply nonblank | exact Hgoal | reflexivity
      | reflexivity | reflexivity | lia | exact H2 | reflexivity | reflexivity |].
    intros slice. change (plan_blocks (buildMonthlyReviewTaskSpec goal now) slice) with
      (monthlyReviewBlocks (buildMonthlyReviewTaskSpec goal now) slice). unfold monthlyReviewBlocks.
    split; [by case_match | solve_mandatory].
  - pose proof (AddDate_back now (-3) 0 Hn).
    eapply plannable_intro; [done | solve_texts | solve_texts | by apply nonblank | exact Hgoal | reflexivity
      | reflexivity | reflexivity | lia | lia | reflexivity | reflexivity |].
    intros slice. change (plan_blocks (buildDebtVsInvestTaskSpec goal now) slice) with
      (debtDecisionBlocks (buildDebtVsInvestTaskSpec goal now) slice). unfold debtDecisionBlocks.
    split; [by case_match | solve_mandatory].
  - pose proof (AddDate_back now (-2) 0 Hn).
    eapply plannable_intro; [done | solve_texts | solve_texts | by apply nonblank | exact Hgoal | reflexivity
      | reflexivity | reflexivity | lia | lia | reflexivity | reflexivity |].
    intros slice. change (plan_blocks (buildBehaviorInterventionTaskSpec goal now) slice) with
      (behaviorInterventionBlocks (buildBehaviorInterventionTaskSpec goal now)). unfold behaviorInterventionBlocks.
    split; [done | solve_mandatory].
Qed.

(** ** Life events *)

Lemma requiredByType_mandatory item items types :
  re_Type item ∈ types -> re_Mandatory item = true ->
  Exists (fun req => xr_Mandatory req = true) (requiredByType (item :: items) types).
Proof.
  intros Ht Hm. unfold requiredByType. rewrite filter_cons_True by done. by apply Exists_cons_hd.
Qed.

Lemma life_event_blocks_mandatory spec slice item items :
  ts_RequiredEvidence spec = item :: items -> re_Type item = "event_signal" -> re_Mandatory item = true ->
  lifeEventBlocks spec slice <> [] /\ Forall has_mandatory_evidence (lifeEventBlocks spec slice).
Proof.
  intros He Ht Hm.
  assert (Hb : forall b types, xb_RequiredEvidenceRefs b = requiredByType (ts_RequiredEvidence spec) types ->
    "event_signal" ∈ types -> has_mandatory_evidence b).
  { intros b types Hr Hin. unfold has_mandatory_evidence. rewrite Hr, He. apply requiredByType_mandatory; by rewrite ?Ht. }
  unfold lifeEventBlocks, tax_first, cashflow_first. split; [by repeat case_match|].
  repeat case_match; repeat apply Forall_cons_2; try apply Forall_nil_2; (eapply Hb; [reflexivity | by left]).
Qed.

Lemma requirements_named kind :
  Forall (fun r => blank (re_Type r) = false /\ blank (re_Reason r) = false)
    (base_requirements ++ (kind_profile kind).1.1.2).
Proof. destruct kind; simpl; solve_texts. Qed.

Lemma analysis_window event now : 0 <= now ->
  let '(start, end_) := buildLifeEventAnalysisWindow event now in start <= now /\ start <= end_.
Proof.
  intros Hn. pose proof (AddDate_back now 0 (-30) Hn) as Hb. unfold buildLifeEventAnalysisWindow, Before, After.
  destruct (WindowStart event) as [s|]; destruct (WindowEnd event) as [e|]; repeat case_match; lia.
Qed.

Lemma event_plannable event now : 0 <= now -> plannable now (buildLifeEventTaskSpec event now).
Proof.
  intros Hn. unfold buildLifeEventTaskSpec. pose proof (analysis_window event now Hn) as Hw.
  pose proof (requirements_named (le_Kind event)) as Hreq.
  destruct (kind_profile (le_Kind event)) as [[[areas requirements] risk] approval] eqn:Ek.
  destruct (buildLifeEventAnalysisWindow event now) as [start end_]. destruct Hw as [H1 H2].
  assert (Hlevels : validRiskLevel risk && validApprovalRequirement approval = true).
  { destruct (le_Kind event); simpl in Ek; by injection Ek as <- <- <- <-. }
  eapply plannable_intro; [done | solve_texts | exact Hreq | by apply nonblank | by apply nonblank |
    | reflexivity | reflexivity | exact H1 | exact H2 | reflexivity | reflexivity |].
  - change (validRiskLevel risk && validApprovalRequirement approval && true = true). by rewrite Hlevels.
  - intros slice. match goal with |- context [plan_blocks ?s slice] =>
      change (plan_blocks s slice) with (lifeEventBlocks s slice) end.
    eapply life_event_blocks_mandatory; reflexivity.
Qed.

Lemma built_goal intent goal now : ts_Goal (built intent goal now) = goal.
Proof. by destruct intent. Qed.

Lemma validated_plannable now raw spec notes :
  plannable now spec -> ti_Accepted (validated raw spec notes) = true /\ ti_TaskSpec (validated raw spec notes) = Some spec.
Proof. intros [Hv _ _ _]. unfold validated. by rewrite Hv. Qed.

(** C25: Intake to plan.  A text is accepted exactly if it has a word of one of
    the three kinds of task, taken in their order; a life event exactly if it
    is valid.  What is accepted is the task of that kind: it validates; its
    window starts before the request and before its own end; its deadline lies
    after the request, by 48 hours for a monthly review or a behaviour
    intervention and by 72 for a debt decision or a life event; and the
    deterministic planner makes a plan of it that passes validation, whatever
    context it is given. *)
Theorem accepted_tasks_can_be_planned (now : time) : 0 <= now ->
  (forall raw,
     let r := Parse now raw in
     match intent_of raw with
     | Some intent => ti_Accepted r = true /\ exists spec, ti_TaskSpec r = Some spec /\ plannable now spec /\
                        ts_Goal spec = TrimSpace raw /\ ts_UserIntentType spec = intent
     | None => ti_Accepted r = false /\ ti_TaskSpec r = None /\ ti_RejectionReason r <> TaskRejectionNone
     end) /\
  (forall event,
     let r := Build now event in
     (ti_Accepted r = true <-> LifeEventRecord_Validate event = None) /\
     (forall spec, ti_TaskSpec r = Some spec -> plannable now spec /\ ts_UserIntentType spec = UserIntentLifeEventTrigger)).
Proof.
  intros Hn. split.
  - intros raw. rewrite intent_of_spec. unfold Parse. cbv zeta. case_bool_decide as Hraw.
    { rewrite Hraw. split_and!; done. }
    assert (Hgoal : TrimSpace (TrimSpace raw) <> "") by (by rewrite TrimSpace_idemp).
    assert (Hcase : forall intent notes,
      intent ∈ [UserIntentMonthlyReview; UserIntentDebtVsInvest; UserIntentBehaviorIntervention] ->
      let r := validated raw (built intent (TrimSpace raw) now) notes in
      ti_Accepted r = true /\ exists spec, ti_TaskSpec r = Some spec /\ plannable now spec /\
        ts_Goal spec = TrimSpace raw /\ ts_UserIntentType spec = intent).
    { intros intent notes Hin. pose proof (built_plannable intent (TrimSpace raw) now Hn Hgoal Hin) as Hp.
      destruct (validated_plannable now raw _ notes Hp) as [Ha Hs]. split; [done|].
      exists (built intent (TrimSpace raw) now). split; [done|]. split; [done|]. split; [apply built_goal|].
      rewrite !elem_of_cons, elem_of_nil in Hin. by destruct Hin as [->|[->|[->|[]]]]. }
    destruct (isMonthlyReviewIntent _); [apply (Hcase UserIntentMonthlyReview); set_solver|].
    destruct (isDebtVsInvestIntent _); [apply (Hcase UserIntentDebtVsInvest); set_solver|].
    destruct (isBehaviorInterventionIntent _); [apply (Hcase UserIntentBehaviorIntervention); set_solver|]. split_and!; done.
  - intros event. unfold Build. pose proof (event_plannable event now Hn) as Hp.
    destruct (LifeEventRecord_Validate event) as [err|]; [split; [split; discriminate | intros spec [=]]|].
    destruct (validated_plannable now (LifeEventKind_string (le_Kind event)) _
      ["life event trigger normalized into workflow task spec"; "workflow c constraints and evidence requirements injected"] Hp) as [Ha Hs].
    split; [done|]. rewrite Hs. intros spec [= <-]. split; [done|].
    unfold buildLifeEventTaskSpec. by destruct (kind_profile _) as [[[? ?] ?] ?], (buildLifeEventAnalysisWindow _ _).
Qed.

(** "invest" is a keyword, so a text that asks to investigate is taken for a
    debt decision; it has three days. *)
Lemma accepted_tasks_can_be_planned_witness :
  intent_of "Please investigate my bill" = Some UserIntentDebtVsInvest /\
  exists spec, ti_TaskSpec (Parse 1 "Please investigate my bill") = Some spec /\ ts_Deadline spec = Some (1 + 72 * Hour).
Proof.
  assert (H : intent_of "Please investigate my bill" = Some UserIntentDebtVsInvest) by (vm_compute; reflexivity).
  split; [exact H|].
  pose proof (proj1 (accepted_tasks_can_be_planned 1 ltac:(lia)) "Please investigate my bill") as Hp.
  cbv zeta in Hp. rewrite H in Hp. destruct Hp as (_ & spec & Hs & [_ _ _ (d & Hd & -> & _) _] & _ & Hi).
  exists spec. split; [exact Hs|]. rewrite Hd, Hi. reflexivity.
Defined.
