(* ===== verification/Verification.v ===== *)
(** * Verification of results (verification/phase2.go, block_validation.go,
    validation.go, pipeline.go)

    Coverage of the evidence a task requires, the validators of the typed
    block results, the checker of success criteria, the oracle and the
    questions the workflows ask of a list of results.  Validators that look at
    a whole report are in [ReportChecks], the pipeline in [VerifyPipeline].  A
    reading of the clock is a parameter. *)

From S2P Require Export Planning Finance.
#[local] Open Scope Z_scope.

(** ** Shared parts *)

Definition any_strings (l : list string) : any := AnyList (AnyString <$> l).

Definition matchingEvidenceIDs (requirementType : string) (evidence : list EvidenceRecord) : list EvidenceID :=
  er_ID <$> filter (fun record => EvidenceType_string (er_Type record) = requirementType) evidence.

Definition fullCoverage (taskID : string) : EvidenceCoverageReport := mkEvidenceCoverageReport taskID (f_of_int 1) [].

Definition severityForStatus (status : VerificationStatus) : string :=
  match status with
  | VerificationStatusFail => "high"
  | VerificationStatusNeedsReplan => "medium"
  | VerificationStatusBlocked => "high"
  | _ => "low"
  end.

Definition withScope (result : VerificationResult) (scope : VerificationScope) (blockID blockKind : string) : VerificationResult :=
  result <| vr_Scope := scope |> <| vr_BlockID := blockID |> <| vr_BlockKind := blockKind |>.

(** ** Evidence coverage *)

(** [DefaultEvidenceCoverageChecker.Check] *)
Definition coverage_item (evidence : list EvidenceRecord) (requirement : RequiredEvidenceRef) : EvidenceCoverageItem :=
  let evidenceIDs := matchingEvidenceIDs (re_Type requirement) evidence in
  let covered := match evidenceIDs with [] => false | _ => true end in
  mkEvidenceCoverageItem (re_Type requirement) covered evidenceIDs
    (if covered then ""
     else if re_Mandatory requirement then "mandatory evidence missing" else "optional evidence missing").

Definition CoverageChecker_Check (spec : TaskSpec) (evidence : list EvidenceRecord) : EvidenceCoverageReport :=
  let items := coverage_item evidence <$> ts_RequiredEvidence spec in
  let coveredCount := Z.of_nat (length (filter (fun item => ci_Covered item = true) items)) in
  let ratio := match ts_RequiredEvidence spec with
               | [] => f_of_int 1
               | required => f_div (f_of_int coveredCount) (f_of_int (Z.of_nat (length required)))
               end in
  mkEvidenceCoverageReport (ts_ID spec) ratio items.

(** The requirements the report leaves open: items are matched to the task's
    requirements by position. *)
Definition missing_requirements (spec : TaskSpec) (report : EvidenceCoverageReport) : list string :=
  (fun p => ci_RequirementID p.1) <$>
    filter (fun p => ci_Covered p.1 = false /\ re_Mandatory p.2 = true)
      (zip (cr_Items report) (ts_RequiredEvidence spec)).

Definition CoverageToVerificationResult (spec : TaskSpec) (report : EvidenceCoverageReport) (checkedAt : time) : VerificationResult :=
  let missing := missing_requirements spec report in
  let result : VerificationResult := zero
    <| vr_Status := VerificationStatusPass |>
    <| vr_Scope := VerificationScopeFinal |>
    <| vr_Validator := "evidence_coverage_checker" |>
    <| vr_Message := "required evidence coverage satisfied" |>
    <| vr_MissingEvidence := missing |>
    <| vr_RecommendedReplanAction := "collect missing mandatory evidence" |>
    <| vr_Severity := "medium" |>
    <| vr_EvidenceCoverage := report |>
    <| vr_CheckedAt := checkedAt |> in
  match last missing with
  | None => result
  | Some id =>
      result <| vr_Status := VerificationStatusNeedsReplan |>
        <| vr_Message := "mandatory evidence missing: " +:+ id |>
        <| vr_FailedRules := ["required_evidence"] |>
        <| vr_Details := {[ "missing_requirement_ids" := any_strings missing ]} |>
  end.

(** ** Blocks *)

Definition floatClose (left right : float64) : bool := f_leb (SFabs (f_sub left right)) (f_const 1 10000).

Definition cashflowMetricsConsistent (metrics : CashflowDeterministicMetrics) (current : CashflowState) : bool :=
  (fcm_MonthlyInflowCents metrics =? cf_MonthlyInflowCents current) &&
  (fcm_MonthlyOutflowCents metrics =? cf_MonthlyOutflowCents current) &&
  (fcm_MonthlyNetIncomeCents metrics =? cf_MonthlyNetIncomeCents current) &&
  floatClose (fcm_SavingsRate metrics) (cf_SavingsRate current).

Definition debtMetricsConsistent (metrics : DebtDeterministicMetrics) (current : LiabilityState) (overallRisk : string) : bool :=
  floatClose (fdm_DebtBurdenRatio metrics) (li_DebtBurdenRatio current) &&
  floatClose (fdm_MinimumPaymentPressure metrics) (li_MinimumPaymentPressure current) &&
  floatClose (fdm_AverageAPR metrics) (li_AverageAPR current) &&
  (fdm_OverallRisk metrics == overallRisk).

Definition taxMetricsConsistent (metrics : TaxDeterministicMetrics) (current : TaxState) : bool :=
  floatClose (ftm_EffectiveTaxRate metrics) (tx_EffectiveTaxRate current) &&
  (ftm_TaxAdvantagedContributionCents metrics =? tx_TaxAdvantagedContributionCents current) &&
  Bool.eqb (ftm_ChildcareTaxSignal metrics) (tx_ChildcareTaxSignal current) &&
  (ftm_UpcomingDeadlineCount metrics =? Z.of_nat (length (tx_UpcomingDeadlines current))).

Definition currentPortfolioMaxDrift `{MO : MapOrder} (current : PortfolioState) : float64 :=
  fold_left (fun maximum drift =>
    let drift := if f_ltb drift f_zero then SFopp drift else drift in
    if f_ltb maximum drift then drift else maximum) (map_values (pf_AllocationDrift current)) f_zero.

Definition currentPortfolioCashAllocation (current : PortfolioState) : float64 :=
  default f_zero (pf_AssetAllocations current !! "cash").

Definition portfolioMetricsConsistent `{MO : MapOrder} (metrics : PortfolioDeterministicMetrics) (current : PortfolioState) : bool :=
  (fpm_TotalInvestableAssetsCents metrics =? pf_TotalInvestableAssetsCents current) &&
  floatClose (fpm_EmergencyFundMonths metrics) (pf_EmergencyFundMonths current) &&
  floatClose (fpm_MaxAllocationDrift metrics) (currentPortfolioMaxDrift current) &&
  floatClose (fpm_CashAllocation metrics) (currentPortfolioCashAllocation current).

Definition behaviorMetricsConsistent (metrics : BehaviorMetricBundle) (current : FinancialWorldState) : bool :=
  (bmb_DuplicateSubscriptionCount metrics =? bh_DuplicateSubscriptionCount (fw_BehaviorState current)) &&
  f_ltb (SFabs (f_sub (bmb_LateNightSpendRatio metrics) (bh_LateNightSpendingFrequency (fw_BehaviorState current)))) (f_const 1 10000) &&
  (bmb_MonthlyVariableExpenseCents metrics =? cf_MonthlyVariableExpenseCents (fw_CashflowState current)) &&
  (bmb_MonthlyNetIncomeCents metrics =? cf_MonthlyNetIncomeCents (fw_CashflowState current)).

Definition recommendationTypeMismatch (result : BehaviorBlockResult) : bool :=
  match bbr_Recommendations result with
  | [] => true
  | first :: _ =>
      negb (rc_Type first ==
        match sse_Family (bbr_SelectedSkill result) with
        | SkillFamilySubscriptionCleanup => RecommendationTypeBehaviorSubscriptionCleanup
        | SkillFamilyLateNightSpendNudge => RecommendationTypeBehaviorSpendNudge
        | _ => RecommendationTypeBehaviorGuardrail
        end)
  end.

Definition allowed_cashflow_refs : list string :=
  ["monthly_inflow_cents"; "monthly_outflow_cents"; "monthly_net_income_cents"; "savings_rate";
   "savings_rate_quality_score"; "debt_pressure_score"; "emergency_fund_coverage_months";
   "liquidity_buffer_months"; "subscription_burden_ratio"; "recurring_expense_signal";
   "duplicate_subscription_count"; "late_night_spending_frequency"].

Definition cashflowMetricRefsConsistent (metricRefs : list string) : bool :=
  forallb (fun ref => bool_decide (ref ∈ allowed_cashflow_refs)) metricRefs.

Definition missingMandatoryEvidence (block : ExecutionBlock) (verificationContext : BlockVerificationContext) : list string :=
  let types := (fun item => EvidenceType_string (eb_Type item)) <$> cs_EvidenceBlocks (bv_Slice verificationContext) in
  xr_Type <$> filter (fun req => xr_Mandatory req = true /\ ~ xr_Type req ∈ types) (xb_RequiredEvidenceRefs block).

Definition is_nil {A} (l : list A) : bool := match l with [] => true | _ => false end.

Definition recommendationsGrounded (items : list Recommendation) (selected : list EvidenceID) : bool :=
  forallb (fun item =>
    negb (is_nil (rc_EvidenceRefs item) && is_nil (rc_GroundingRefs item)) &&
    (existsb (fun id => bool_decide (id ∈ selected)) (rc_EvidenceRefs item) || negb (is_nil (rc_GroundingRefs item))))
    items.

Definition severe_rules : list string := ["mandatory_evidence_gap"; "schema_invalid"; "grounding_failure"].

Definition verificationOutcome (failedRules : list string) (passMessage failMessage : string) : VerificationStatus * string :=
  match failedRules with
  | [] => (VerificationStatusPass, passMessage)
  | _ =>
      match List.find (fun rule => bool_decide (rule ∈ failedRules)) severe_rules with
      | Some rule => (VerificationStatusFail, failMessage +:+ ": " +:+ rule)
      | None => (VerificationStatusNeedsReplan, failMessage +:+ ": [" +:+ Join failedRules " " +:+ "]")
      end
  end.

(** The rule fails when the condition holds. *)
Definition fails (condition : bool) (rule : string) : list string := if condition then [rule] else [].

(** What the five validators return, given their names and what failed. *)
Definition block_result (spec : TaskSpec) (block : ExecutionBlock) (validator label action : string)
    (failedRules missingEvidence : list string) (extra : list (string * any))
    (verificationContext : BlockVerificationContext) (now : time) : VerificationResult :=
  let '(status, message) := verificationOutcome failedRules (label +:+ " verification passed") (label +:+ " validation failed") in
  (zero : VerificationResult)
    <| vr_Status := status |>
    <| vr_Scope := VerificationScopeBlock |>
    <| vr_BlockID := xb_ID block |>
    <| vr_BlockKind := ExecutionBlockKind_string (xb_Kind block) |>
    <| vr_Validator := validator |>
    <| vr_Message := message |>
    <| vr_FailedRules := failedRules |>
    <| vr_MissingEvidence := missingEvidence |>
    <| vr_RecommendedReplanAction := action |>
    <| vr_Severity := severityForStatus status |>
    <| vr_Details := list_to_map (("task_id", AnyString (ts_ID spec)) :: extra ++
         [("selected_evidence_ids", any_strings (bv_SelectedEvidenceIDs verificationContext));
          ("selected_memory_ids", any_strings (bv_SelectedMemoryIDs verificationContext));
          ("selected_state_blocks", any_strings (bv_SelectedStateBlocks verificationContext))]) |>
    <| vr_EvidenceCoverage := fullCoverage (ts_ID spec) |>
    <| vr_CheckedAt := now |>.

(** The first rules of every block validator. *)
Definition common_rules (block : ExecutionBlock) (verificationContext : BlockVerificationContext)
    (blockID summary : string) (evidenceIDs : list EvidenceID) : list string :=
  fails (negb (is_nil (missingMandatoryEvidence block verificationContext))) "mandatory_evidence_gap" ++
  fails ((blockID == "") || (summary == "") || is_nil evidenceIDs) "schema_invalid".

Definition ungrounded (recommendations : list Recommendation) (verificationContext : BlockVerificationContext) : list string :=
  fails (negb (recommendationsGrounded recommendations (bv_SelectedEvidenceIDs verificationContext))) "grounding_failure".

Definition cashflow_rules (block : ExecutionBlock) (result : CashflowBlockResult)
    (verificationContext : BlockVerificationContext) (currentState : FinancialWorldState) : list string :=
  common_rules block verificationContext (cbr_BlockID result) (cbr_Summary result) (cbr_EvidenceIDs result) ++
  ungrounded (cbr_Recommendations result) verificationContext ++
  fails (is_nil (cbr_Caveats result)) "caveat_missing" ++
  fails (negb (cashflowMetricRefsConsistent (cbr_MetricRefs result))) "metric_ref_invalid" ++
  fails (negb (cashflowMetricsConsistent (cbr_DeterministicMetrics result) (fw_CashflowState currentState))) "metric_consistency".

Definition debt_rules (block : ExecutionBlock) (result : DebtBlockResult)
    (verificationContext : BlockVerificationContext) (currentState : FinancialWorldState) : list string :=
  common_rules block verificationContext (dbr_BlockID result) (dbr_Summary result) (dbr_EvidenceIDs result) ++
  ungrounded (dbr_Recommendations result) verificationContext ++
  fails (is_nil (dbr_RiskFlags result)) "risk_caveat_missing" ++
  fails (negb (debtMetricsConsistent (dbr_DeterministicMetrics result) (fw_LiabilityState currentState)
                 (rk_OverallRisk (fw_RiskState currentState)))) "metric_consistency".

Definition tax_rules (block : ExecutionBlock) (result : TaxBlockResult)
    (verificationContext : BlockVerificationContext) (currentState : FinancialWorldState) : list string :=
  common_rules block verificationContext (tbr_BlockID result) (tbr_Summary result) (tbr_EvidenceIDs result) ++
  ungrounded (tbr_Recommendations result) verificationContext ++
  fails (negb (taxMetricsConsistent (tbr_DeterministicMetrics result) (fw_TaxState currentState))) "metric_consistency".

Definition portfolio_rules `{MO : MapOrder} (block : ExecutionBlock) (result : PortfolioBlockResult)
    (verificationContext : BlockVerificationContext) (currentState : FinancialWorldState) : list string :=
  common_rules block verificationContext (pbr_BlockID result) (pbr_Summary result) (pbr_EvidenceIDs result) ++
  ungrounded (pbr_Recommendations result) verificationContext ++
  fails (negb (portfolioMetricsConsistent (pbr_DeterministicMetrics result) (fw_PortfolioState currentState))) "metric_consistency".

Definition behavior_rules (block : ExecutionBlock) (result : BehaviorBlockResult)
    (verificationContext : BlockVerificationContext) (currentState : FinancialWorldState) : list string :=
  common_rules block verificationContext (bbr_BlockID result) (bbr_Summary result) (bbr_EvidenceIDs result) ++
  fails (negb (selected_skill (bbr_SelectedSkill result))) "selected_skill_missing" ++
  ungrounded (bbr_Recommendations result) verificationContext ++
  fails (f_leb (f_const 55 100) (bmb_DiscretionaryPressureScore (bbr_DeterministicMetrics result)) && is_nil (bbr_RiskFlags result))
    "risk_flags_missing" ++
  fails (negb (behaviorMetricsConsistent (bbr_DeterministicMetrics result) currentState)) "metric_consistency" ++
  fails (recommendationTypeMismatch result) "skill_recommendation_mismatch".

Section validators.
Context `{MO : MapOrder} (spec : TaskSpec) (block : ExecutionBlock)
  (verificationContext : BlockVerificationContext) (currentState : FinancialWorldState) (now : time).

Definition CashflowBlockValidator (result : CashflowBlockResult) : VerificationResult :=
  block_result spec block "cashflow_block_validator" "cashflow block"
    "collect missing cashflow evidence or repair cashflow block grounding"
    (cashflow_rules block result verificationContext currentState)
    (missingMandatoryEvidence block verificationContext) [] verificationContext now.

Definition DebtBlockValidator (result : DebtBlockResult) : VerificationResult :=
  block_result spec block "debt_block_validator" "debt block"
    "collect missing debt evidence or repair debt tradeoff grounding"
    (debt_rules block result verificationContext currentState)
    (missingMandatoryEvidence block verificationContext) [] verificationContext now.

Definition TaxBlockValidator (result : TaxBlockResult) : VerificationResult :=
  block_result spec block "tax_block_validator" "tax block"
    "collect missing tax evidence or repair tax grounding before generating follow-up tasks"
    (tax_rules block result verificationContext currentState)
    (missingMandatoryEvidence block verificationContext) [] verificationContext now.

Definition PortfolioBlockValidator (result : PortfolioBlockResult) : VerificationResult :=
  block_result spec block "portfolio_block_validator" "portfolio block"
    "collect missing portfolio evidence or repair portfolio grounding before generating follow-up tasks"
    (portfolio_rules block result verificationContext currentState)
    (missingMandatoryEvidence block verificationContext) [] verificationContext now.

Definition BehaviorBlockValidator (result : BehaviorBlockResult) : VerificationResult :=
  block_result spec block "behavior_block_validator" "behavior block"
    "repair behavior grounding, selected skill metadata, or anomaly justification before publishing the intervention"
    (behavior_rules block result verificationContext currentState)
    (missingMandatoryEvidence block verificationContext)
    [("selected_skill_family", AnyString (SkillFamily_string (sse_Family (bbr_SelectedSkill result))));
     ("selected_recipe_id", AnyString (sse_RecipeID (bbr_SelectedSkill result)))]
    verificationContext now.
End validators.

Definition severeBlockFailure (result : VerificationResult) : bool :=
  (vr_Scope result == VerificationScopeBlock) && (vr_Status result == VerificationStatusFail) &&
  existsb (fun rule => bool_decide (rule ∈ severe_rules)) (vr_FailedRules result).

(** ** Questions about results *)

(** [DefaultSuccessCriteriaChecker.Check] *)
Definition is_failure (result : VerificationResult) : bool :=
  match vr_Status result with VerificationStatusFail | VerificationStatusBlocked => true | _ => false end.

Definition SuccessChecker_Check (spec : TaskSpec) (results : list VerificationResult) (now : time) : VerificationResult :=
  let failures := vr_Validator <$> filter (fun r => is_failure r = true) results in
  let status := if is_nil failures then VerificationStatusPass else VerificationStatusNeedsReplan in
  (zero : VerificationResult)
    <| vr_Status := status |>
    <| vr_Validator := "success_criteria_checker" |>
    <| vr_Message := if is_nil failures then "success criteria satisfied" else "validators failed: " +:+ Join failures ", " |>
    <| vr_FailedRules := failures |>
    <| vr_RecommendedReplanAction := "rerun the plan with verification gaps resolved" |>
    <| vr_Severity := severityForStatus status |>
    <| vr_EvidenceCoverage := fullCoverage (ts_ID spec) |>
    <| vr_CheckedAt := now |>.

(** [BaselineTrajectoryOracle.Evaluate] *)
Definition passed (result : VerificationResult) : bool := vr_Status result == VerificationStatusPass.

Definition Oracle_Evaluate (scenario : string) (results : list VerificationResult) (now : time) : OracleVerdict :=
  match results with
  | [] => mkOracleVerdict scenario false f_zero ["no verification results provided"] now
  | _ =>
      let passedCount := length (filter (fun r => passed r = true) results) in
      mkOracleVerdict scenario (passedCount =? length results)%nat
        (f_div (f_of_int (Z.of_nat passedCount)) (f_of_int (Z.of_nat (length results))))
        ((fun r => vr_Validator r +:+ ": " +:+ vr_Message r) <$> filter (fun r => passed r = false) results) now
  end.

Definition NeedsReplan (results : list VerificationResult) : bool :=
  existsb (fun r => match vr_Status r with VerificationStatusFail | VerificationStatusNeedsReplan => true | _ => false end) results.

Definition HasTrustFailure (results : list VerificationResult) : bool :=
  existsb (fun r =>
    (vr_Status r == VerificationStatusFail) &&
    match vr_Category r with
    | ValidationCategoryGrounding | ValidationCategoryNumeric | ValidationCategoryBusiness => true
    | _ => false
    end) results.

(** ** Validation of the records (validation.go) *)

Definition validVerificationStatus (status : VerificationStatus) : bool :=
  match status with VerificationStatusOther _ => false | _ => true end.

Definition validVerificationScope (scope : VerificationScope) : bool :=
  match scope with VerificationScopeOther _ => false | _ => true end.

Definition EvidenceCoverageReport_Validate (r : EvidenceCoverageReport) : error + unit :=
  refuse (cr_TaskID r == "") "evidence coverage task id is required";;
  refuse (f_ltb (cr_CoverageRatio r) f_zero || f_ltb (f_of_int 1) (cr_CoverageRatio r)) "coverage ratio must be within [0,1]".

Definition VerificationResult_Validate (r : VerificationResult) : error + unit :=
  refuse (negb (validVerificationStatus (vr_Status r)))
    ("invalid verification status " +:+ Quote (VerificationStatus_string (vr_Status r)));;
  refuse (negb (vr_Scope r == VerificationScopeOther "") && negb (validVerificationScope (vr_Scope r)))
    ("invalid verification scope " +:+ Quote (VerificationScope_string (vr_Scope r)));;
  refuse (vr_Validator r == "") "verification validator is required";;
  EvidenceCoverageReport_Validate (vr_EvidenceCoverage r);;
  refuse (IsZero (vr_CheckedAt r)) "verification checked_at is required".

Definition OracleVerdict_Validate (o : OracleVerdict) : error + unit :=
  refuse (ov_Scenario o == "") "oracle scenario is required";;
  refuse (f_ltb (ov_Score o) f_zero || f_ltb (f_of_int 1) (ov_Score o)) "oracle score must be within [0,1]";;
  refuse (IsZero (ov_CheckedAt o)) "oracle checked_at is required".
