(* ===== verification/ReportChecks.v ===== *)
(** * Checks of reports, and which of them can fail *)

From Stdlib Require Import Ascii.
From S2P Require Export Verification.
#[local] Open Scope Z_scope.

(** * Validators of reports (verification/phase2.go, financial_validation.go)

    The deterministic and business validators read a report through its JSON,
    the trust validators (grounding, numbers, business rules) read its fields
    and the texts of its recommendations.  [reflect] on the report is a match
    on [Output], the reports the verification agent passes; [json.Marshal]
    followed by [json.Unmarshal] into a map is taken on JSON values (text and
    value correspond by [parse_render] of [GoJson]).  A reading of the clock
    is a parameter. *)

(** ** Reports as JSON *)

(** The members of a struct: a field with [omitempty] may be left out; a value
    may have no JSON (NaN, years beyond 9999). *)
Inductive member_value := Omitted | Written (v : option jvalue).

Fixpoint object_members (members : list (string * member_value)) : option (list (string * jvalue)) :=
  match members with
  | [] => Some []
  | (_, Omitted) :: members => object_members members
  | (name, Written v) :: members => v ← v; rest ← object_members members; Some ((name, v) :: rest)
  end.

Definition object_json (members : list (string * member_value)) : option jvalue := VObj <$> object_members members.

Definition array_json {A} (f : A -> option jvalue) (l : list A) : option jvalue := VArr <$> mapM f l.

(** A [map[string]any]: keys are written in order. *)
Fixpoint any_json (a : any) : option jvalue :=
  match a with
  | AnyNil => Some VNull
  | AnyInt z => Some (VNum (Itoa z))
  | AnyFloat f => VNum <$> float_text f
  | AnyBool b => Some (VBool b)
  | AnyString s => Some (VStr s)
  | AnyList l => VArr <$> mapM any_json l
  | AnyMap m =>
      (fun l => VObj (slices_SortFunc (compare_id fst) l)) <$> mapM (fun kv => v ← any_json kv.2; Some (kv.1, v)) m
  end.

Definition any_map_json (m : gmap string any) : option jvalue := any_json (AnyMap (map_to_list m)).

Definition skill_item_json (r : SkillItem) : option jvalue := object_json
  [("title", Written (c_enc json_text (si_Title r)));
   ("detail", Written (c_enc json_text (si_Detail r)));
   ("severity", if c_omit json_text (si_Severity r) then Omitted else Written (c_enc json_text (si_Severity r)));
   ("evidence_ids", if is_nil (si_EvidenceIDs r) then Omitted else Written (c_enc (json_slice json_text) (si_EvidenceIDs r)))].

Definition metric_record_json (r : MetricRecord) : option jvalue := object_json
  [("ref", Written (c_enc json_text (mr_Ref r)));
   ("domain", Written (c_enc json_text (mr_Domain r)));
   ("name", Written (c_enc json_text (mr_Name r)));
   ("value_type", Written (c_enc json_text (MetricValueType_string (mr_ValueType r))));
   ("int64_value", if c_omit json_int (mr_Int64Value r) then Omitted else Written (c_enc json_int (mr_Int64Value r)));
   ("float64_value", if c_omit json_float (mr_Float64Value r) then Omitted else Written (c_enc json_float (mr_Float64Value r)));
   ("bool_value", if c_omit json_bool (mr_BoolValue r) then Omitted else Written (c_enc json_bool (mr_BoolValue r)));
   ("string_value", if c_omit json_text (mr_StringValue r) then Omitted else Written (c_enc json_text (mr_StringValue r)));
   ("unit", if c_omit json_text (mr_Unit r) then Omitted else Written (c_enc json_text (mr_Unit r)));
   ("as_of", Written (c_enc json_time (mr_AsOf r)));
   ("source_refs", if is_nil (mr_SourceRefs r) then Omitted else Written (c_enc (json_slice json_text) (mr_SourceRefs r)));
   ("evidence_refs", if is_nil (mr_EvidenceRefs r) then Omitted else Written (c_enc (json_slice json_text) (mr_EvidenceRefs r)));
   ("derivation", if c_omit json_text (mr_Derivation r) then Omitted else Written (c_enc json_text (mr_Derivation r)))].

Definition risk_flag_json (r : RiskFlag) : option jvalue := object_json
  [("code", Written (c_enc json_text (rf_Code r)));
   ("severity", Written (c_enc json_text (rf_Severity r)));
   ("detail", Written (c_enc json_text (rf_Detail r)));
   ("evidence_ids", if is_nil (rf_EvidenceIDs r) then Omitted else Written (c_enc (json_slice json_text) (rf_EvidenceIDs r)));
   ("metric_refs", if is_nil (rf_MetricRefs r) then Omitted else Written (c_enc (json_slice json_text) (rf_MetricRefs r)));
   ("memory_refs", if is_nil (rf_MemoryRefs r) then Omitted else Written (c_enc (json_slice json_text) (rf_MemoryRefs r)));
   ("caveats", if is_nil (rf_Caveats r) then Omitted else Written (c_enc (json_slice json_text) (rf_Caveats r)));
   ("policy_rule_refs", if is_nil (rf_PolicyRuleRefs r) then Omitted else Written (c_enc (json_slice json_text) (rf_PolicyRuleRefs r)))].

Definition recommendation_json (r : Recommendation) : option jvalue := object_json
  [("id", if c_omit json_text (rc_ID r) then Omitted else Written (c_enc json_text (rc_ID r)));
   ("type", Written (c_enc json_text (RecommendationType_string (rc_Type r))));
   ("title", Written (c_enc json_text (rc_Title r)));
   ("detail", Written (c_enc json_text (rc_Detail r)));
   ("risk_level", Written (c_enc json_text (RiskLevel_string (rc_RiskLevel r))));
   ("grounding_refs", if is_nil (rc_GroundingRefs r) then Omitted else Written (c_enc (json_slice json_text) (rc_GroundingRefs r)));
   ("metric_refs", if is_nil (rc_MetricRefs r) then Omitted else Written (c_enc (json_slice json_text) (rc_MetricRefs r)));
   ("evidence_refs", if is_nil (rc_EvidenceRefs r) then Omitted else Written (c_enc (json_slice json_text) (rc_EvidenceRefs r)));
   ("memory_refs", if is_nil (rc_MemoryRefs r) then Omitted else Written (c_enc (json_slice json_text) (rc_MemoryRefs r)));
   ("caveats", if is_nil (rc_Caveats r) then Omitted else Written (c_enc (json_slice json_text) (rc_Caveats r)));
   ("approval_required", if c_omit json_bool (rc_ApprovalRequired r) then Omitted else Written (c_enc json_bool (rc_ApprovalRequired r)));
   ("approval_reason", if c_omit json_text (rc_ApprovalReason r) then Omitted else Written (c_enc json_text (rc_ApprovalReason r)));
   ("policy_rule_refs", if is_nil (rc_PolicyRuleRefs r) then Omitted else Written (c_enc (json_slice json_text) (rc_PolicyRuleRefs r)));
   ("metadata", if c_omit (json_map json_text) (rc_Metadata r) then Omitted else Written (c_enc (json_map json_text) (rc_Metadata r)))].

Definition monthly_review_json (r : MonthlyReviewReport) : option jvalue := object_json
  [("task_id", Written (c_enc json_text (mrr_TaskID r)));
   ("workflow_id", Written (c_enc json_text (mrr_WorkflowID r)));
   ("summary", Written (c_enc json_text (mrr_Summary r)));
   ("cashflow_metrics", Written (any_map_json (mrr_CashflowMetrics r)));
   ("tax_signals", Written (any_map_json (mrr_TaxSignals r)));
   ("metric_records", if is_nil (mrr_MetricRecords r) then Omitted else Written (array_json metric_record_json (mrr_MetricRecords r)));
   ("risk_items", Written (array_json skill_item_json (mrr_RiskItems r)));
   ("risk_flags", if is_nil (mrr_RiskFlags r) then Omitted else Written (array_json risk_flag_json (mrr_RiskFlags r)));
   ("optimization_suggestions", Written (array_json skill_item_json (mrr_OptimizationSuggestions r)));
   ("recommendations", if is_nil (mrr_Recommendations r) then Omitted else Written (array_json recommendation_json (mrr_Recommendations r)));
   ("todo_items", Written (array_json skill_item_json (mrr_TodoItems r)));
   ("source_block_ids", if is_nil (mrr_SourceBlockIDs r) then Omitted else Written (c_enc (json_slice json_text) (mrr_SourceBlockIDs r)));
   ("source_memory_ids", if is_nil (mrr_SourceMemoryIDs r) then Omitted else Written (c_enc (json_slice json_text) (mrr_SourceMemoryIDs r)));
   ("source_evidence_ids", if is_nil (mrr_SourceEvidenceIDs r) then Omitted else Written (c_enc (json_slice json_text) (mrr_SourceEvidenceIDs r)));
   ("grounding_refs", if is_nil (mrr_GroundingRefs r) then Omitted else Written (c_enc (json_slice json_text) (mrr_GroundingRefs r)));
   ("caveats", if is_nil (mrr_Caveats r) then Omitted else Written (c_enc (json_slice json_text) (mrr_Caveats r)));
   ("approval_required", Written (c_enc json_bool (mrr_ApprovalRequired r)));
   ("approval_reason", if c_omit json_text (mrr_ApprovalReason r) then Omitted else Written (c_enc json_text (mrr_ApprovalReason r)));
   ("policy_rule_refs", if is_nil (mrr_PolicyRuleRefs r) then Omitted else Written (c_enc (json_slice json_text) (mrr_PolicyRuleRefs r)));
   ("confidence", Written (c_enc json_float (mrr_Confidence r)));
   ("generated_at", Written (c_enc json_time (mrr_GeneratedAt r)))].

Definition debt_decision_json (r : DebtDecisionReport) : option jvalue := object_json
  [("task_id", Written (c_enc json_text (ddr_TaskID r)));
   ("workflow_id", Written (c_enc json_text (ddr_WorkflowID r)));
   ("conclusion", Written (c_enc json_text (ddr_Conclusion r)));
   ("reasons", Written (c_enc (json_slice json_text) (ddr_Reasons r)));
   ("actions", Written (array_json skill_item_json (ddr_Actions r)));
   ("recommendations", if is_nil (ddr_Recommendations r) then Omitted else Written (array_json recommendation_json (ddr_Recommendations r)));
   ("risk_flags", if is_nil (ddr_RiskFlags r) then Omitted else Written (array_json risk_flag_json (ddr_RiskFlags r)));
   ("metrics", Written (any_map_json (ddr_Metrics r)));
   ("metric_records", if is_nil (ddr_MetricRecords r) then Omitted else Written (array_json metric_record_json (ddr_MetricRecords r)));
   ("evidence_ids", Written (c_enc (json_slice json_text) (ddr_EvidenceIDs r)));
   ("source_block_ids", if is_nil (ddr_SourceBlockIDs r) then Omitted else Written (c_enc (json_slice json_text) (ddr_SourceBlockIDs r)));
   ("source_memory_ids", if is_nil (ddr_SourceMemoryIDs r) then Omitted else Written (c_enc (json_slice json_text) (ddr_SourceMemoryIDs r)));
   ("source_evidence_ids", if is_nil (ddr_SourceEvidenceIDs r) then Omitted else Written (c_enc (json_slice json_text) (ddr_SourceEvidenceIDs r)));
   ("grounding_refs", if is_nil (ddr_GroundingRefs r) then Omitted else Written (c_enc (json_slice json_text) (ddr_GroundingRefs r)));
   ("caveats", if is_nil (ddr_Caveats r) then Omitted else Written (c_enc (json_slice json_text) (ddr_Caveats r)));
   ("approval_required", Written (c_enc json_bool (ddr_ApprovalRequired r)));
   ("approval_reason", if c_omit json_text (ddr_ApprovalReason r) then Omitted else Written (c_enc json_text (ddr_ApprovalReason r)));
   ("policy_rule_refs", if is_nil (ddr_PolicyRuleRefs r) then Omitted else Written (c_enc (json_slice json_text) (ddr_PolicyRuleRefs r)));
   ("confidence", Written (c_enc json_float (ddr_Confidence r)));
   ("generated_at", Written (c_enc json_time (ddr_GeneratedAt r)))].

Definition life_event_json (r : LifeEventAssessmentReport) : option jvalue := object_json
  [("task_id", Written (c_enc json_text (ler_TaskID r)));
   ("workflow_id", Written (c_enc json_text (ler_WorkflowID r)));
   ("event_summary", Written (c_enc json_text (ler_EventSummary r)));
   ("state_diff_summary", if is_nil (ler_StateDiffSummary r) then Omitted else Written (c_enc (json_slice json_text) (ler_StateDiffSummary r)));
   ("memory_update_summary", if is_nil (ler_MemoryUpdateSummary r) then Omitted else Written (c_enc (json_slice json_text) (ler_MemoryUpdateSummary r)));
   ("generated_task_ids", if is_nil (ler_GeneratedTaskIDs r) then Omitted else Written (c_enc (json_slice json_text) (ler_GeneratedTaskIDs r)));
   ("generated_task_statuses", if c_omit (json_map json_text) (ler_GeneratedTaskStatuses r) then Omitted else Written (c_enc (json_map json_text) (ler_GeneratedTaskStatuses r)));
   ("required_capabilities", if c_omit (json_map json_text) (ler_RequiredCapabilities r) then Omitted else Written (c_enc (json_map json_text) (ler_RequiredCapabilities r)));
   ("missing_capabilities", if c_omit (json_map json_text) (ler_MissingCapabilities r) then Omitted else Written (c_enc (json_map json_text) (ler_MissingCapabilities r)));
   ("source_block_ids", if is_nil (ler_SourceBlockIDs r) then Omitted else Written (c_enc (json_slice json_text) (ler_SourceBlockIDs r)));
   ("source_memory_ids", if is_nil (ler_SourceMemoryIDs r) then Omitted else Written (c_enc (json_slice json_text) (ler_SourceMemoryIDs r)));
   ("source_evidence_ids", if is_nil (ler_SourceEvidenceIDs r) then Omitted else Written (c_enc (json_slice json_text) (ler_SourceEvidenceIDs r)));
   ("verification_notes", if is_nil (ler_VerificationNotes r) then Omitted else Written (c_enc (json_slice json_text) (ler_VerificationNotes r)));
   ("governance_notes", if is_nil (ler_GovernanceNotes r) then Omitted else Written (c_enc (json_slice json_text) (ler_GovernanceNotes r)));
   ("generated_at", Written (c_enc json_time (ler_GeneratedAt r)))].

Definition tax_optimization_json (r : TaxOptimizationReport) : option jvalue := object_json
  [("task_id", Written (c_enc json_text (tor_TaskID r)));
   ("workflow_id", Written (c_enc json_text (tor_WorkflowID r)));
   ("summary", Written (c_enc json_text (tor_Summary r)));
   ("deterministic_metrics", Written (any_map_json (tor_DeterministicMetrics r)));
   ("recommended_actions", Written (array_json skill_item_json (tor_RecommendedActions r)));
   ("recommendations", if is_nil (tor_Recommendations r) then Omitted else Written (array_json recommendation_json (tor_Recommendations r)));
   ("metric_records", if is_nil (tor_MetricRecords r) then Omitted else Written (array_json metric_record_json (tor_MetricRecords r)));
   ("source_block_ids", if is_nil (tor_SourceBlockIDs r) then Omitted else Written (c_enc (json_slice json_text) (tor_SourceBlockIDs r)));
   ("source_memory_ids", if is_nil (tor_SourceMemoryIDs r) then Omitted else Written (c_enc (json_slice json_text) (tor_SourceMemoryIDs r)));
   ("source_evidence_ids", if is_nil (tor_SourceEvidenceIDs r) then Omitted else Written (c_enc (json_slice json_text) (tor_SourceEvidenceIDs r)));
   ("risk_flags", Written (array_json risk_flag_json (tor_RiskFlags r)));
   ("grounding_refs", if is_nil (tor_GroundingRefs r) then Omitted else Written (c_enc (json_slice json_text) (tor_GroundingRefs r)));
   ("caveats", if is_nil (tor_Caveats r) then Omitted else Written (c_enc (json_slice json_text) (tor_Caveats r)));
   ("approval_required", Written (c_enc json_bool (tor_ApprovalRequired r)));
   ("approval_reason", if c_omit json_text (tor_ApprovalReason r) then Omitted else Written (c_enc json_text (tor_ApprovalReason r)));
   ("policy_rule_refs", if is_nil (tor_PolicyRuleRefs r) then Omitted else Written (c_enc (json_slice json_text) (tor_PolicyRuleRefs r)));
   ("confidence", Written (c_enc json_float (tor_Confidence r)));
   ("generated_at", Written (c_enc json_time (tor_GeneratedAt r)))].

Definition portfolio_rebalance_json (r : PortfolioRebalanceReport) : option jvalue := object_json
  [("task_id", Written (c_enc json_text (prr_TaskID r)));
   ("workflow_id", Written (c_enc json_text (prr_WorkflowID r)));
   ("summary", Written (c_enc json_text (prr_Summary r)));
   ("deterministic_metrics", Written (any_map_json (prr_DeterministicMetrics r)));
   ("recommended_actions", Written (array_json skill_item_json (prr_RecommendedActions r)));
   ("recommendations", if is_nil (prr_Recommendations r) then Omitted else Written (array_json recommendation_json (prr_Recommendations r)));
   ("metric_records", if is_nil (prr_MetricRecords r) then Omitted else Written (array_json metric_record_json (prr_MetricRecords r)));
   ("source_block_ids", if is_nil (prr_SourceBlockIDs r) then Omitted else Written (c_enc (json_slice json_text) (prr_SourceBlockIDs r)));
   ("source_memory_ids", if is_nil (prr_SourceMemoryIDs r) then Omitted else Written (c_enc (json_slice json_text) (prr_SourceMemoryIDs r)));
   ("source_evidence_ids", if is_nil (prr_SourceEvidenceIDs r) then Omitted else Written (c_enc (json_slice json_text) (prr_SourceEvidenceIDs r)));
   ("risk_flags", Written (array_json risk_flag_json (prr_RiskFlags r)));
   ("grounding_refs", if is_nil (prr_GroundingRefs r) then Omitted else Written (c_enc (json_slice json_text) (prr_GroundingRefs r)));
   ("caveats", if is_nil (prr_Caveats r) then Omitted else Written (c_enc (json_slice json_text) (prr_Caveats r)));
   ("approval_required", Written (c_enc json_bool (prr_ApprovalRequired r)));
   ("approval_reason", if c_omit json_text (prr_ApprovalReason r) then Omitted else Written (c_enc json_text (prr_ApprovalReason r)));
   ("policy_rule_refs", if is_nil (prr_PolicyRuleRefs r) then Omitted else Written (c_enc (json_slice json_text) (prr_PolicyRuleRefs r)));
   ("confidence", Written (c_enc json_float (prr_Confidence r)));
   ("generated_at", Written (c_enc json_time (prr_GeneratedAt r)))].

Definition behavior_intervention_json (r : BehaviorInterventionReport) : option jvalue := object_json
  [("task_id", Written (c_enc json_text (bir_TaskID r)));
   ("workflow_id", Written (c_enc json_text (bir_WorkflowID r)));
   ("summary", Written (c_enc json_text (bir_Summary r)));
   ("deterministic_metrics", Written (any_map_json (bir_DeterministicMetrics r)));
   ("selected_skill_family", Written (c_enc json_text (bir_SelectedSkillFamily r)));
   ("selected_skill_version", Written (c_enc json_text (bir_SelectedSkillVersion r)));
   ("selected_recipe_id", Written (c_enc json_text (bir_SelectedRecipeID r)));
   ("skill_selection_reasons", if is_nil (bir_SkillSelectionReasons r) then Omitted else Written (c_enc (json_slice json_text) (bir_SkillSelectionReasons r)));
   ("recommendations", if is_nil (bir_Recommendations r) then Omitted else Written (array_json recommendation_json (bir_Recommendations r)));
   ("metric_records", if is_nil (bir_MetricRecords r) then Omitted else Written (array_json metric_record_json (bir_MetricRecords r)));
   ("source_block_ids", if is_nil (bir_SourceBlockIDs r) then Omitted else Written (c_enc (json_slice json_text) (bir_SourceBlockIDs r)));
   ("source_memory_ids", if is_nil (bir_SourceMemoryIDs r) then Omitted else Written (c_enc (json_slice json_text) (bir_SourceMemoryIDs r)));
   ("source_evidence_ids", if is_nil (bir_SourceEvidenceIDs r) then Omitted else Written (c_enc (json_slice json_text) (bir_SourceEvidenceIDs r)));
   ("risk_flags", if is_nil (bir_RiskFlags r) then Omitted else Written (array_json risk_flag_json (bir_RiskFlags r)));
   ("grounding_refs", if is_nil (bir_GroundingRefs r) then Omitted else Written (c_enc (json_slice json_text) (bir_GroundingRefs r)));
   ("caveats", if is_nil (bir_Caveats r) then Omitted else Written (c_enc (json_slice json_text) (bir_Caveats r)));
   ("approval_required", Written (c_enc json_bool (bir_ApprovalRequired r)));
   ("approval_reason", if c_omit json_text (bir_ApprovalReason r) then Omitted else Written (c_enc json_text (bir_ApprovalReason r)));
   ("policy_rule_refs", if is_nil (bir_PolicyRuleRefs r) then Omitted else Written (c_enc (json_slice json_text) (bir_PolicyRuleRefs r)));
   ("confidence", Written (c_enc json_float (bir_Confidence r)));
   ("generated_at", Written (c_enc json_time (bir_GeneratedAt r)))].

(** The reports the pipeline is given. *)
Inductive Output :=
| MonthlyReviewOutput (r : MonthlyReviewReport)
| DebtDecisionOutput (r : DebtDecisionReport)
| LifeEventAssessmentOutput (r : LifeEventAssessmentReport)
| TaxOptimizationOutput (r : TaxOptimizationReport)
| PortfolioRebalanceOutput (r : PortfolioRebalanceReport)
| BehaviorInterventionOutput (r : BehaviorInterventionReport).

Definition output_json (output : Output) : option jvalue :=
  match output with
  | MonthlyReviewOutput r => monthly_review_json r
  | DebtDecisionOutput r => debt_decision_json r
  | LifeEventAssessmentOutput r => life_event_json r
  | TaxOptimizationOutput r => tax_optimization_json r
  | PortfolioRebalanceOutput r => portfolio_rebalance_json r
  | BehaviorInterventionOutput r => behavior_intervention_json r
  end.

(** A decoded map: the members of an object. *)
Definition payload : Type := list (string * jvalue).

Definition toMap `{TE : TextErrors} (output : Output) : error + payload :=
  match output_json output with
  | Some (VObj members) => inr members
  | _ => inl marshal_error
  end.

Definition lookup_key (p : payload) (key : string) : option jvalue := snd <$> List.find (fun m => m.1 == key) p.

Definition missingKeys (p : payload) (keys : list string) : list string :=
  filter (fun key => lookup_key p key = None) keys.

Definition extractString (p : payload) (key : string) : string :=
  match lookup_key p key with Some (VStr s) => s | _ => "" end.

Definition extractBool (p : payload) (key : string) : bool :=
  match lookup_key p key with Some (VBool b) => b | _ => false end.

Definition extractListLen (p : payload) (key : string) : Z :=
  match lookup_key p key with Some (VArr l) => Z.of_nat (length l) | _ => 0 end.

(** A decoded value written again: members in order, numbers as float64. *)
Fixpoint rewritten (v : jvalue) : jvalue :=
  match v with
  | VNum l => VNum (default l (f ← literal_float l; float_text f))
  | VArr l => VArr (map rewritten l)
  | VObj members => VObj (slices_SortFunc (compare_id fst) (map (fun m => (m.1, rewritten m.2)) members))
  | _ => v
  end.

Definition flattenOutput (p : payload) : string := ToLower (render (rewritten (VObj p))).

Definition contains_any (text : string) (candidates : list string) : bool :=
  existsb (fun candidate => Contains text (ToLower candidate)) candidates.

(** ** Structure and business checks (phase2.go) *)

Section report_validators.
Context `{TE : TextErrors} (spec : TaskSpec) (currentState : FinancialWorldState) (output : Output) (now : time).

Definition report_result (validator action message : string) (status : VerificationStatus) (failedRules : list string) : VerificationResult :=
  (zero : VerificationResult)
    <| vr_Status := status |>
    <| vr_Validator := validator |>
    <| vr_Message := message |>
    <| vr_FailedRules := failedRules |>
    <| vr_RecommendedReplanAction := action |>
    <| vr_Severity := severityForStatus status |>
    <| vr_EvidenceCoverage := fullCoverage (ts_ID spec) |>
    <| vr_CheckedAt := now |>.

Definition monthly_required_keys : list string :=
  ["summary"; "risk_items"; "optimization_suggestions"; "todo_items"; "cashflow_metrics"].

Definition MonthlyReviewDeterministicValidator : error + VerificationResult :=
  p ← toMap output;
  let missing := missingKeys p monthly_required_keys in
  let '(status, message) :=
    if is_nil missing then (VerificationStatusPass, "monthly review output structure is valid")
    else (VerificationStatusFail, "missing report keys: " +:+ Join missing ", ") in
  let incomplete := (cf_MonthlyInflowCents (fw_CashflowState currentState) =? 0) || (cf_MonthlyOutflowCents (fw_CashflowState currentState) =? 0) in
  let '(status, message) := if incomplete then (VerificationStatusNeedsReplan, "cashflow metrics are incomplete") else (status, message) in
  mret (report_result "monthly_review_deterministic_validator"
    "repair report structure and recompute missing cashflow metrics" message status
    (fails (negb (is_nil missing)) "required_output_keys" ++ fails incomplete "cashflow_metrics_complete")
    <| vr_Details := list_to_map ([("required_keys", any_strings monthly_required_keys)] ++
         (if is_nil missing then [] else [("missing_keys", any_strings missing)]) ++
         (if incomplete then [("cashflow_complete", AnyBool false)] else [])) |>).

(** The other deterministic validators only ask for keys. *)
Definition keys_validator (requiredKeys : list string) (validator label action : string) : error + VerificationResult :=
  p ← toMap output;
  let missing := missingKeys p requiredKeys in
  mret (if is_nil missing
        then report_result validator action (label +:+ " output structure is valid") VerificationStatusPass []
        else report_result validator action ("missing " +:+ label +:+ " keys: " +:+ Join missing ", ") VerificationStatusFail
               ["required_output_keys"]).

Definition TaxOptimizationDeterministicValidator : error + VerificationResult :=
  keys_validator ["summary"; "deterministic_metrics"; "recommended_actions"; "risk_flags"]
    "tax_optimization_deterministic_validator" "tax optimization"
    "repair tax optimization output structure and regenerate the report".

Definition PortfolioRebalanceDeterministicValidator : error + VerificationResult :=
  keys_validator ["summary"; "deterministic_metrics"; "recommended_actions"; "risk_flags"]
    "portfolio_rebalance_deterministic_validator" "portfolio rebalance"
    "repair portfolio rebalance output structure and regenerate the report".

Definition BehaviorInterventionDeterministicValidator : error + VerificationResult :=
  keys_validator ["summary"; "deterministic_metrics"; "selected_skill_family"; "selected_recipe_id"; "recommendations"; "risk_flags"]
    "behavior_intervention_deterministic_validator" "behavior intervention"
    "repair behavior report structure and regenerate the intervention output".

(** A case of a [switch]: when it holds, the status, message, rule and missing
    evidence; the first case that holds counts. *)
Definition business_case : Type := bool * (VerificationStatus * string * string * list string).

Fixpoint first_case (cases : list business_case) : option (VerificationStatus * string * string * list string) :=
  match cases with
  | [] => None
  | (holds, outcome) :: cases => if holds : bool then Some outcome else first_case cases
  end.

Definition business_result (validator passMessage action : string) (cases : list business_case) : VerificationResult :=
  match first_case cases with
  | None => report_result validator action passMessage VerificationStatusPass []
  | Some (status, message, rule, missing) =>
      report_result validator action message status [rule] <| vr_MissingEvidence := missing |>
  end.

Definition high_risk : bool := rk_OverallRisk (fw_RiskState currentState) == "high".
Definition heavy_debt : bool := f_leb (f_const 2 10) (li_DebtBurdenRatio (fw_LiabilityState currentState)).
Definition childcare_signal : bool := tx_ChildcareTaxSignal (fw_TaxState currentState).

Definition monthly_cases (p : payload) (reportText : string) : list business_case :=
  [(heavy_debt && negb (contains_any reportText ["债务"; "debt"]),
    (VerificationStatusFail, "high-risk debt signal was omitted from report", "debt_signal_coverage", ["debt_obligation_snapshot"]));
   (childcare_signal && negb (contains_any reportText ["税"; "tax"; "childcare"; "育儿"]),
    (VerificationStatusFail, "obvious tax signal was omitted from report", "tax_signal_coverage", ["tax_document"]));
   (high_risk && negb (extractBool p "approval_required"),
    (VerificationStatusNeedsReplan, "high overall risk should have triggered approval_required", "approval_required_high_risk", []));
   (f_ltb (cf_SavingsRate (fw_CashflowState currentState)) (f_const 1 10) &&
      negb (contains_any reportText ["现金流"; "cashflow"; "储蓄率"; "savings"]),
    (VerificationStatusNeedsReplan, "cashflow constraint explanation is missing", "cashflow_constraint_explanation", []))].

Definition MonthlyReviewBusinessValidator : error + VerificationResult :=
  p ← toMap output;
  mret (business_result "monthly_review_business_validator" "monthly review business checks passed"
    "augment report with missing business risk explanations" (monthly_cases p (flattenOutput p))).

Definition debt_cases (p : payload) (reportText : string) : list business_case :=
  [(extractString p "conclusion" == "",
    (VerificationStatusFail, "debt decision conclusion is missing", "decision_conclusion_required", []));
   (heavy_debt && negb (contains_any reportText ["债务"; "debt"; "还"]),
    (VerificationStatusFail, "high debt burden is not reflected in decision output", "debt_burden_coverage", []));
   (high_risk && negb (extractBool p "approval_required"),
    (VerificationStatusNeedsReplan, "high-risk debt decision should require approval", "approval_required_high_risk", []))].

Definition DebtDecisionBusinessValidator : error + VerificationResult :=
  p ← toMap output;
  mret (business_result "debt_decision_business_validator" "debt decision business checks passed"
    "recompute decision narrative with explicit debt and approval reasoning" (debt_cases p (flattenOutput p))).

Definition tax_cases (p : payload) (reportText : string) : list business_case :=
  [(childcare_signal && negb (contains_any reportText ["tax"; "税"; "childcare"; "育儿"]),
    (VerificationStatusFail, "childcare tax signal is not reflected in tax optimization output", "childcare_tax_signal_coverage", []));
   (negb (is_nil (tx_UpcomingDeadlines (fw_TaxState currentState))) &&
      negb (contains_any reportText ["deadline"; "截止"; "预扣"; "withholding"]),
    (VerificationStatusNeedsReplan, "deadline-sensitive or withholding caveat is missing", "deadline_caveat_required", []));
   (high_risk && (extractListLen p "risk_flags" =? 0),
    (VerificationStatusNeedsReplan, "high-risk tax optimization requires explicit structured risk flags", "risk_flags_required_high_risk", []))].

Definition TaxOptimizationBusinessValidator : error + VerificationResult :=
  p ← toMap output;
  mret (business_result "tax_optimization_business_validator" "tax optimization business checks passed"
    "rebuild the tax optimization report with explicit deadline, withholding, and approval reasoning" (tax_cases p (flattenOutput p))).

Definition portfolio_cases (p : payload) (reportText : string) : list business_case :=
  [(f_ltb (pf_EmergencyFundMonths (fw_PortfolioState currentState)) (f_of_int 3) &&
      negb (contains_any reportText ["liquidity"; "流动性"; "现金"; "应急金"]),
    (VerificationStatusNeedsReplan, "liquidity caveat is missing from portfolio rebalance output", "liquidity_caveat_required", []));
   (negb (bool_decide (pf_AllocationDrift (fw_PortfolioState currentState) = ∅)) &&
      negb (contains_any reportText ["rebalance"; "再平衡"; "drift"; "配置"]),
    (VerificationStatusNeedsReplan, "rebalance caveat is missing from portfolio output", "rebalance_caveat_required", []));
   (high_risk && (extractListLen p "risk_flags" =? 0),
    (VerificationStatusNeedsReplan, "high-risk portfolio rebalance requires explicit structured risk flags", "risk_flags_required_high_risk", []))].

Definition PortfolioRebalanceBusinessValidator : error + VerificationResult :=
  p ← toMap output;
  mret (business_result "portfolio_rebalance_business_validator" "portfolio rebalance business checks passed"
    "rebuild the portfolio rebalance report with explicit liquidity and rebalance caveats" (portfolio_cases p (flattenOutput p))).

Definition behavior_cases (p : payload) (reportText : string) : list business_case :=
  [((2 <=? bh_DuplicateSubscriptionCount (fw_BehaviorState currentState)) && negb (contains_any reportText ["订阅"; "subscription"]),
    (VerificationStatusFail, "duplicate subscription anomaly is not reflected in behavior intervention output", "duplicate_subscription_coverage", []));
   (f_leb (f_const 30 100) (bh_LateNightSpendingFrequency (fw_BehaviorState currentState)) &&
      negb (contains_any reportText ["深夜"; "late-night"; "spend"]),
    (VerificationStatusFail, "late-night spending anomaly is not reflected in behavior intervention output", "late_night_signal_coverage", []));
   ((extractString p "selected_recipe_id" == "hard_cap.v1") && negb (extractBool p "approval_required"),
    (VerificationStatusFail, "hard_cap.v1 must require approval", "hard_cap_requires_approval", []))].

Definition BehaviorInterventionBusinessValidator : error + VerificationResult :=
  p ← toMap output;
  mret (business_result "behavior_intervention_business_validator" "behavior intervention business checks passed"
    "rebuild behavior intervention output with explicit anomaly justification and approval semantics" (behavior_cases p (flattenOutput p))).
End report_validators.

(** ** Trust: what a report claims (financial_validation.go) *)

Record trustReportData := mkTrustReportData {
  td_Recommendations : list Recommendation;
  td_RiskFlags : list RiskFlag;
  td_MetricRecords : list MetricRecord
}.

Definition reportPayloadFromOutput (output : Output) : error + trustReportData :=
  match output with
  | MonthlyReviewOutput r => inr (mkTrustReportData (mrr_Recommendations r) (mrr_RiskFlags r) (mrr_MetricRecords r))
  | DebtDecisionOutput r => inr (mkTrustReportData (ddr_Recommendations r) (ddr_RiskFlags r) (ddr_MetricRecords r))
  | TaxOptimizationOutput r => inr (mkTrustReportData (tor_Recommendations r) (tor_RiskFlags r) (tor_MetricRecords r))
  | PortfolioRebalanceOutput r => inr (mkTrustReportData (prr_Recommendations r) (prr_RiskFlags r) (prr_MetricRecords r))
  | BehaviorInterventionOutput r => inr (mkTrustReportData (bir_Recommendations r) (bir_RiskFlags r) (bir_MetricRecords r))
  | LifeEventAssessmentOutput _ => inl (PlainError "unsupported report output type reporting.LifeEventAssessmentReport")
  end.

(** The refs that are named and not allowed, in order. *)
Definition unknownRefs (items allowed : list string) : list string :=
  slices_SortFunc (compare_id id) (filter (fun item => item <> "" /\ ~ item ∈ allowed) items).

Definition setFromMetricRecords (records : list MetricRecord) : list string :=
  filter (fun ref => ref <> "") (mr_Ref <$> records).

Definition requiresDisclosure (recommendation : Recommendation) : bool :=
  match rc_RiskLevel recommendation with
  | RiskLevelHigh | RiskLevelCritical => true
  | _ => rc_ApprovalRequired recommendation
  end.

Definition diagnosticAt (code : string) (category : ValidationCategory) (severity : ValidationSeverity) (message : string)
    (index : nat) (metricRefs evidenceRefs memoryRefs groundingRefs policyRuleRefs : list string) : ValidationDiagnostic :=
  mkValidationDiagnostic code category severity message metricRefs evidenceRefs memoryRefs groundingRefs policyRuleRefs (Some index).

(** A diagnostic that repeats the recommendation's refs. *)
Definition diagnostic_of (code : string) (category : ValidationCategory) (severity : ValidationSeverity) (message : string)
    (index : nat) (r : Recommendation) : ValidationDiagnostic :=
  diagnosticAt code category severity message index (rc_MetricRefs r) (rc_EvidenceRefs r) (rc_MemoryRefs r) (rc_GroundingRefs r)
    (rc_PolicyRuleRefs r).

Definition VerificationStatusFromDiagnostics (diagnostics : list ValidationDiagnostic) : VerificationStatus :=
  if existsb (fun d => match vd_Severity d with ValidationSeverityError | ValidationSeverityCritical => true | _ => false end) diagnostics
  then VerificationStatusFail else VerificationStatusPass.

(** [diagnostics[0]] exists when the status is fail. *)
Definition buildValidatorResult (taskID : string) (status : VerificationStatus) (category : ValidationCategory)
    (validator passMessage recommendedAction : string) (diagnostics : list ValidationDiagnostic) (now : time) : VerificationResult :=
  (zero : VerificationResult)
    <| vr_Status := status |>
    <| vr_Validator := validator |>
    <| vr_Message := match status, diagnostics with VerificationStatusFail, d :: _ => vd_Message d | _, _ => passMessage end |>
    <| vr_FailedRules := vd_Code <$> diagnostics |>
    <| vr_RecommendedReplanAction := recommendedAction |>
    <| vr_Severity := severityForStatus status |>
    <| vr_Category := category |>
    <| vr_Diagnostics := diagnostics |>
    <| vr_EvidenceCoverage := fullCoverage taskID |>
    <| vr_CheckedAt := now |>.

Definition diagnose_if (condition : bool) (d : ValidationDiagnostic) : list ValidationDiagnostic := if condition then [d] else [].

(** [FinancialGroundingValidator.Validate] *)
Definition grounding_error (code message : string) (index : nat) : list string -> list string -> list string -> ValidationDiagnostic :=
  fun metricRefs evidenceRefs memoryRefs =>
    diagnosticAt code ValidationCategoryGrounding ValidationSeverityError message index metricRefs evidenceRefs memoryRefs [] [].

Definition grounding_diagnostics (metricRefs evidenceRefs memoryRefs : list string) (index : nat) (r : Recommendation) :
    list ValidationDiagnostic :=
  let unknownMetrics := unknownRefs (rc_MetricRefs r) metricRefs in
  let unknownEvidence := unknownRefs (rc_EvidenceRefs r) evidenceRefs in
  let unknownMemories := unknownRefs (rc_MemoryRefs r) memoryRefs in
  diagnose_if (is_nil (rc_GroundingRefs r) && is_nil (rc_MetricRefs r) && is_nil (rc_EvidenceRefs r) && is_nil (rc_MemoryRefs r))
    (grounding_error "missing_grounding_refs" "recommendation is missing metric/evidence/memory grounding" index [] [] []) ++
  diagnose_if (negb (is_nil unknownMetrics))
    (grounding_error "unsupported_metric_ref" ("recommendation references unsupported metrics: " +:+ Join unknownMetrics ", ")
       index unknownMetrics [] []) ++
  diagnose_if (negb (is_nil unknownEvidence))
    (grounding_error "unsupported_evidence_ref" ("recommendation references unsupported evidence: " +:+ Join unknownEvidence ", ")
       index [] unknownEvidence []) ++
  diagnose_if (negb (is_nil unknownMemories))
    (grounding_error "unsupported_memory_ref" ("recommendation references unsupported memory: " +:+ Join unknownMemories ", ")
       index [] [] unknownMemories) ++
  diagnose_if (requiresDisclosure r && is_nil (rc_Caveats r))
    (diagnostic_of "missing_caveat" ValidationCategoryGrounding ValidationSeverityCritical
       "high-risk recommendation is missing required caveat/disclosure" index r).

(** A loop over the recommendations with their positions. *)
Definition each_recommendation (f : nat -> Recommendation -> list ValidationDiagnostic) (l : list Recommendation) :
    list ValidationDiagnostic := List.concat (imap f l).

Definition FinancialGroundingValidator (spec : TaskSpec) (evidence : list EvidenceRecord) (memories : list MemoryRecord)
    (finalContext : BlockVerificationContext) (output : Output) (now : time) : error + list VerificationResult :=
  data ← reportPayloadFromOutput output;
  let diagnostics := each_recommendation
    (grounding_diagnostics (setFromMetricRecords (td_MetricRecords data))
       ((er_ID <$> evidence) ++ bv_SelectedEvidenceIDs finalContext)
       ((mm_ID <$> memories) ++ bv_SelectedMemoryIDs finalContext)) (td_Recommendations data) in
  mret [buildValidatorResult (ts_ID spec) (VerificationStatusFromDiagnostics diagnostics) ValidationCategoryGrounding
    "financial_grounding_validator" "finance recommendation grounding checks passed"
    "repair unsupported refs or add required grounding/caveats before publishing the recommendation" diagnostics now].

(** * Theorems on the checks of a report's JSON

    Which keys a report always has, and which texts its keys alone contain. *)

(** ** Substrings *)

Definition part_of (sub s : string) : Prop := exists a b, s = a +:+ (sub +:+ b).

Lemma part_of_refl s : part_of s s.
Proof. exists "", "". by rewrite string_app_nil. Qed.

Lemma part_of_left a s sub : part_of sub s -> part_of sub (a +:+ s).
Proof. intros (b & c & ->). exists (a +:+ b), c. by rewrite string_app_assoc. Qed.

Lemma part_of_right s b sub : part_of sub s -> part_of sub (s +:+ b).
Proof. intros (a & c & ->). exists a, (c +:+ b). by rewrite !string_app_assoc. Qed.

Lemma part_of_trans s t u : part_of s t -> part_of t u -> part_of s u.
Proof. intros Hs (a & b & ->). by apply part_of_left, part_of_right. Qed.

Lemma part_of_Join x l sep : x ∈ l -> part_of x (Join l sep).
Proof.
  unfold Join. induction l as [|y l IH]; intros Hin; [by apply elem_of_nil in Hin|].
  apply elem_of_cons in Hin as [->|Hin].
  - destruct l; [apply part_of_refl | apply part_of_right, part_of_refl].
  - destruct l as [|z l]; [by apply elem_of_nil in Hin|]. by do 2 apply part_of_left; apply IH.
Qed.

Lemma HasPrefix_front p b : HasPrefix (p +:+ b) p = true.
Proof.
  unfold HasPrefix. induction p as [|c p IH]; [by destruct b|]. rewrite string_app_cons. simpl.
  by destruct (ascii_dec c c).
Qed.

Lemma part_of_Contains sub s : part_of sub s -> Contains s sub = true.
Proof.
  intros (a & b & ->). induction a as [|c a IH].
  - change ("" +:+ ?t) with t. pose proof (HasPrefix_front sub b) as H. destruct (sub +:+ b); cbn [Contains]; by rewrite H.
  - rewrite string_app_cons. cbn [Contains]. rewrite IH. apply orb_true_r.
Qed.

Lemma ToLower_app s t : ToLower (s +:+ t) = ToLower s +:+ ToLower t.
Proof. induction s as [|c s IH]; [done|]. rewrite !string_app_cons. cbn [ToLower]. by rewrite string_app_cons, IH. Qed.

Lemma part_of_ToLower sub s : part_of sub s -> part_of (ToLower sub) (ToLower s).
Proof. intros (a & b & ->). exists (ToLower a), (ToLower b). by rewrite !ToLower_app. Qed.

(** ** Keys of a payload *)

Lemma lookup_key_in (p : payload) key : is_Some (lookup_key p key) <-> key ∈ p.*1.
Proof.
  unfold lookup_key. rewrite fmap_is_Some. split.
  - intros [[k v] [Hin Hk]%find_some]. apply bool_decide_eq_true in Hk. simpl in Hk. subst k.
    apply list_elem_of_fmap. exists (key, v). split; [done|]. by apply list_elem_of_In.
  - intros ([k v] & -> & Hin)%list_elem_of_fmap. destruct (List.find _ p) eqn:E; [done|]. exfalso.
    apply list_elem_of_In in Hin. pose proof (find_none _ _ E _ Hin) as H. simpl in H.
    by apply bool_decide_eq_false in H.
Qed.

Definition written (m : string * member_value) : option string :=
  match m.2 with Written _ => Some m.1 | Omitted => None end.

Lemma object_members_keys ms p : object_members ms = Some p -> p.*1 = omap written ms.
Proof.
  revert p. induction ms as [|[name [|v]] ms IH]; intros p; cbn [object_members].
  - by intros [= <-].
  - intros H. by apply IH.
  - destruct v as [v|]; [|done]. simpl. destruct (object_members ms) as [rest|]; [|done].
    intros [= <-]. cbn. f_equal. by apply IH.
Qed.

(** The name of a member stands in the text that is searched. *)
Lemma key_in_text p key : key ∈ p.*1 -> part_of (ToLower (quote_json key)) (flattenOutput p).
Proof.
  intros ([k v] & -> & Hin)%list_elem_of_fmap. unfold flattenOutput. apply part_of_ToLower.
  cbn [rewritten render]. apply part_of_left, part_of_right.
  eapply part_of_trans; [|apply part_of_Join].
  2: { apply list_elem_of_In, in_map, list_elem_of_In, elem_of_SortFunc, list_elem_of_In.
       apply (in_map (fun m => (m.1, rewritten m.2))), list_elem_of_In, Hin. }
  apply part_of_right, part_of_refl.
Qed.

Lemma contains_key p key text candidates :
  key ∈ p.*1 -> text ∈ candidates -> part_of (ToLower text) (ToLower (quote_json key)) ->
  contains_any (flattenOutput p) candidates = true.
Proof.
  intros Hk Ht Hp. unfold contains_any. apply existsb_exists. exists text. split; [by apply list_elem_of_In|].
  apply part_of_Contains. eapply part_of_trans; [exact Hp | by apply key_in_text].
Qed.

(** ** Checks that depend on the kind of report alone *)

Ltac member := repeat (apply elem_of_cons; first [left; reflexivity | right]).

Section checks.
Context `{TE : TextErrors} (spec : TaskSpec) (state : FinancialWorldState) (t : time).

Lemma keys_written output members p :
  output_json output = object_json members -> toMap output = inr p -> p.*1 = omap written members.
Proof.
  unfold toMap. intros ->. unfold object_json. destruct (object_members members) as [q|] eqn:E; [|done].
  simpl. intros [= <-]. by apply object_members_keys.
Qed.

Lemma key_written (members : list (string * member_value)) key : (exists v, (key, Written v) ∈ members) -> key ∈ omap written members.
Proof. intros (v & Hin). apply list_elem_of_omap. by exists (key, Written v). Qed.

Lemma key_omitted (members : list (string * member_value)) key :
  Forall (fun m => m.1 = key -> m.2 = Omitted) members -> ~ key ∈ omap written members.
Proof.
  rewrite Forall_forall. intros H ([k m] & Hin & Hw)%list_elem_of_omap. unfold written in Hw. simpl in Hw.
  specialize (H _ Hin). simpl in H. destruct m; [done|]. injection Hw as ->. by specialize (H eq_refl).
Qed.

Lemma missing_nil (p : payload) keys : missingKeys p keys = [] <-> Forall (fun key => key ∈ p.*1) keys.
Proof.
  unfold missingKeys. induction keys as [|key keys IH]; [by split; [constructor|]|].
  rewrite filter_cons, Forall_cons, <- IH, <- lookup_key_in, <- not_eq_None_Some. case_decide; naive_solver.
Qed.

Lemma monthly_keys r p : toMap (MonthlyReviewOutput r) = inr p ->
  missingKeys p monthly_required_keys = [] /\ "tax_signals" ∈ p.*1 /\ "cashflow_metrics" ∈ p.*1.
Proof.
  intros Hp. rewrite missing_nil. apply (keys_written (MonthlyReviewOutput r) _ p eq_refl) in Hp. rewrite Hp.
  split_and!; [repeat apply Forall_cons_2; [..|apply Forall_nil_2]| |]; apply key_written; eexists; member.
Qed.

Definition action_keys : list string := ["summary"; "deterministic_metrics"; "recommended_actions"; "risk_flags"].

Lemma tax_keys r p : toMap (TaxOptimizationOutput r) = inr p -> missingKeys p action_keys = [].
Proof.
  intros Hp. rewrite missing_nil. apply (keys_written (TaxOptimizationOutput r) _ p eq_refl) in Hp. rewrite Hp.
  repeat apply Forall_cons_2; [..|apply Forall_nil_2]; apply key_written; eexists; member.
Qed.

Lemma portfolio_keys r p : toMap (PortfolioRebalanceOutput r) = inr p -> missingKeys p action_keys = [].
Proof.
  intros Hp. rewrite missing_nil. apply (keys_written (PortfolioRebalanceOutput r) _ p eq_refl) in Hp. rewrite Hp.
  repeat apply Forall_cons_2; [..|apply Forall_nil_2]; apply key_written; eexists; member.
Qed.

Definition behavior_keys : list string :=
  ["summary"; "deterministic_metrics"; "selected_skill_family"; "selected_recipe_id"; "recommendations"; "risk_flags"].

Lemma behavior_keys_exact r p : toMap (BehaviorInterventionOutput r) = inr p ->
  (missingKeys p behavior_keys = [] <-> bir_Recommendations r <> [] /\ bir_RiskFlags r <> []).
Proof.
  intros Hp. rewrite missing_nil. apply (keys_written (BehaviorInterventionOutput r) _ p eq_refl) in Hp. rewrite Hp.
  unfold behavior_keys. rewrite !Forall_cons. split.
  - intros (_ & _ & _ & _ & Hr & Hf & _). split; intros E; [revert Hr | revert Hf]; rewrite E; apply key_omitted;
      repeat apply Forall_cons_2; try apply Forall_nil_2; cbn [fst snd is_nil]; intros; (reflexivity || discriminate).
  - intros [Hr Hf]. split_and!; try apply Forall_nil_2; try (apply key_written; eexists; member; fail);
      destruct (bir_Recommendations r), (bir_RiskFlags r); try done; apply key_written; eexists; member.
Qed.

(** The structure check of a monthly, a tax and a portfolio report can not
    fail for want of a key: their JSON always has the required keys.  That of
    a behavior report passes exactly when there is at least one recommendation
    and at least one risk flag, since these are left out when empty: a report
    without an anomaly to flag is refused. *)
Theorem required_keys_by_kind :
  (forall r result, MonthlyReviewDeterministicValidator spec state (MonthlyReviewOutput r) t = inr result ->
     ~ "required_output_keys" ∈ vr_FailedRules result) /\
  (forall r result, TaxOptimizationDeterministicValidator spec (TaxOptimizationOutput r) t = inr result ->
     vr_Status result = VerificationStatusPass) /\
  (forall r result, PortfolioRebalanceDeterministicValidator spec (PortfolioRebalanceOutput r) t = inr result ->
     vr_Status result = VerificationStatusPass) /\
  (forall r result, BehaviorInterventionDeterministicValidator spec (BehaviorInterventionOutput r) t = inr result ->
     (vr_Status result = VerificationStatusPass <-> bir_Recommendations r <> [] /\ bir_RiskFlags r <> [])).
Proof.
  split_and!; intros r result.
  - unfold MonthlyReviewDeterministicValidator. destruct (toMap _) as [e|p] eqn:E; [done|].
    destruct (monthly_keys r p E) as (Hm & _). simpl. rewrite Hm. simpl.
    destruct (_ || _); intros [= <-]; simpl; set_solver.
  - unfold TaxOptimizationDeterministicValidator, keys_validator. destruct (toMap _) as [e|p] eqn:E; [done|].
    simpl. fold action_keys. rewrite (tax_keys r p E). by intros [= <-].
  - unfold PortfolioRebalanceDeterministicValidator, keys_validator. destruct (toMap _) as [e|p] eqn:E; [done|].
    simpl. fold action_keys. rewrite (portfolio_keys r p E). by intros [= <-].
  - unfold BehaviorInterventionDeterministicValidator, keys_validator. destruct (toMap _) as [e|p] eqn:E; [done|].
    simpl. fold behavior_keys. rewrite <- (behavior_keys_exact r p E). by destruct (missingKeys p behavior_keys); intros [= <-].
Qed.

Lemma first_case_rule cases status message rule missing :
  first_case cases = Some (status, message, rule, missing) ->
  Exists (fun c => c.1 = true /\ c.2 = (status, message, rule, missing)) cases.
Proof.
  induction cases as [|[[] o] cases IH]; simpl; [done| |]; intros H.
  - left. simpl. split; [done | congruence].
  - right. by apply IH.
Qed.

(** C20: Two checks of a monthly review can not fail, whatever the report says:
    that an obvious tax signal is mentioned, and that a low savings rate is
    explained.  The text that is searched is the report's JSON with its keys,
    and the keys "tax_signals" and "cashflow_metrics" are always in it. *)
Theorem monthly_text_checks_never_fail r :
  match MonthlyReviewBusinessValidator spec state (MonthlyReviewOutput r) t with
  | inr result => ~ "tax_signal_coverage" ∈ vr_FailedRules result /\
                  ~ "cashflow_constraint_explanation" ∈ vr_FailedRules result
  | inl _ => True
  end.
Proof.
  unfold MonthlyReviewBusinessValidator. destruct (toMap _) as [e|p] eqn:E; [done|]. simpl.
  destruct (monthly_keys r p E) as (_ & Ht & Hc).
  assert (H1 : contains_any (flattenOutput p) ["税"; "tax"; "childcare"; "育儿"] = true).
  { apply (contains_key p "tax_signals" "tax"); [done | member | exists (String dquote ""), ("_signals" +:+ String dquote ""); reflexivity]. }
  assert (H2 : contains_any (flattenOutput p) ["现金流"; "cashflow"; "储蓄率"; "savings"] = true).
  { apply (contains_key p "cashflow_metrics" "cashflow");
      [done | member | exists (String dquote ""), ("_metrics" +:+ String dquote ""); reflexivity]. }
  unfold business_result. destruct (first_case _) as [[[[status message] rule] missing]|] eqn:F; simpl; [|set_solver].
  apply first_case_rule, Exists_exists in F as (c & Hin & Hh & Ho). rewrite !list_elem_of_singleton.
  unfold monthly_cases in Hin. rewrite H1, H2, !andb_false_r in Hin. rewrite !elem_of_cons, elem_of_nil in Hin.
  destruct Hin as [->|[->|[->|[->|[]]]]]; simpl in Hh; try discriminate Hh; simpl in Ho; injection Ho as <- <- <- <-; done.
Qed.
End checks.
