(* ===== verification/NumericClaims.v ===== *)
(** * Numbers in texts: the scanners, and that no digit escapes them *)

From Stdlib Require Import Ascii.
From S2P Require Export ReportChecks Prompt.
#[local] Open Scope Z_scope.

(** * Numbers in texts (verification/financial_validation.go,
    cashflow_numeric_grounding.go, structured_output.go, grounding_precheck.go)

    The two regular expressions of the package as scanners: at each position
    the (greedy, leftmost) match if there is one, then on behind it.  A byte
    that starts no match is skipped; no match starts inside a rune.  What a
    report may say about its metrics is compared with what the scanners find.  *)

(** ** Scanning *)

Fixpoint span_while (p : ascii -> bool) (s : string) : string * string :=
  match s with
  | String c rest => if p c then let '(body, rest) := span_while p rest in (String c body, rest) else (EmptyString, s)
  | EmptyString => (EmptyString, EmptyString)
  end.

(** [(?:\.\d+)?] *)
Definition read_decimals (s : string) : string * string :=
  match s with
  | String "." rest =>
      match span_while is_digit rest with
      | (EmptyString, _) => (EmptyString, s)
      | (digits, rest) => (String "." digits, rest)
      end
  | _ => (EmptyString, s)
  end.

(** [(?:\$|¥)?] *)
Definition read_currency (s : string) : string * string :=
  if HasPrefix s "$" then ("$", String.substring 1 (String.length s - 1) s)
  else if HasPrefix s "¥" then ("¥", String.substring 2 (String.length s - 2) s)
  else (EmptyString, s).

Definition starts_digit (s : string) : bool := match s with String c _ => is_digit c | EmptyString => false end.
Definition digit_or_comma (c : ascii) : bool := is_digit c || Ascii.eqb c ",".

(** numericClaimPattern, at the start of [s]: the match and what follows. *)
Definition match_claim (s : string) : option (string * string) :=
  let '(currency, s) := read_currency s in
  if starts_digit s then
    let '(body, s) := span_while digit_or_comma s in
    let '(decimals, s) := read_decimals s in
    let '(percent, s) := match s with String "%" rest => ("%", rest) | _ => (EmptyString, s) end in
    Some (currency +:+ (body +:+ (decimals +:+ percent)), s)
  else None.

(** [(?:,\d{3})*] *)
Fixpoint read_groups (s : string) : string * string :=
  match s with
  | String "," (String a (String b (String c rest))) =>
      if is_digit a && is_digit b && is_digit c then
        let '(groups, rest) := read_groups rest in (String "," (String a (String b (String c groups))), rest)
      else (EmptyString, s)
  | _ => (EmptyString, s)
  end.

(** numericTokenPattern, at the start of [s]. *)
Definition match_token (s : string) : option (string * string) :=
  let '(sign, s) := match s with String "-" rest => ("-", rest) | _ => (EmptyString, s) end in
  if starts_digit s then
    let '(digits, s) := span_while is_digit s in
    let '(groups, s) := read_groups s in
    let '(decimals, s) := read_decimals s in
    Some (sign +:+ (digits +:+ (groups +:+ decimals)), s)
  else None.

Fixpoint find_all (matcher : string -> option (string * string)) (fuel : nat) (s : string) : list string :=
  match fuel with
  | O => []
  | S fuel =>
      match s with
      | EmptyString => []
      | String _ rest =>
          match matcher s with
          | Some (token, rest) => token :: find_all matcher fuel rest
          | None => find_all matcher fuel rest
          end
      end
  end.

(** [FindAllString(text, -1)]: every step goes on in the text. *)
Definition FindAllString (matcher : string -> option (string * string)) (text : string) : list string :=
  find_all matcher (S (String.length text)) text.

Definition ReplaceAll_comma (s : string) : string :=
  map_string (fun c => if Ascii.eqb c "," then EmptyString else String c EmptyString) s.

Fixpoint TrimRight_char (x : ascii) (s : string) : string :=
  match s with
  | EmptyString => EmptyString
  | String c rest =>
      match TrimRight_char x rest with
      | EmptyString => if Ascii.eqb c x then EmptyString else String c EmptyString
      | rest => String c rest
      end
  end.

(** [strconv.FormatFloat(f, 'f', -1, 64)] *)
Definition FormatFloat_f (f : float64) : string :=
  match f with
  | S754_nan => "NaN"
  | S754_infinity s => if s then "-Inf" else "+Inf"
  | S754_zero s => if s then "-0" else "0"
  | S754_finite s m e =>
      let '(q, k) := shortest_decimal m e in
      let '(q, k) := drop_trailing_zeros 20 q k in
      (if s then "-" else "") +:+ format_fixed q k
  end.

(** ** Numeric claims of a report (financial_validation.go) *)

Definition normalizeNumericClaim (claim : string) : string :=
  TrimPrefix (TrimPrefix (TrimSpace (ReplaceAll_comma claim)) "$") "¥".

(** [slices.Compact] *)
Fixpoint compact (l : list string) : list string :=
  match l with
  | x :: ((y :: _) as rest) => if x == y then compact rest else x :: compact rest
  | _ => l
  end.

Definition metricClaims (record : MetricRecord) : list string :=
  let claims := match mr_ValueType record with
    | MetricValueTypeFloat64 =>
        let value := mr_Float64Value record in
        normalizeNumericClaim (FormatFloat_f value) ::
          (if (mr_Unit record == "ratio") || (mr_Unit record == "percent")
           then [normalizeNumericClaim (Sprintf_f 2 (f_mul value (f_of_int 100)) +:+ "%")] else [])
    | MetricValueTypeInt64 => [normalizeNumericClaim (Itoa (mr_Int64Value record))]
    | MetricValueTypeString => [normalizeNumericClaim (mr_StringValue record)]
    | _ => []
    end in
  compact (filter (fun claim => claim <> "") claims).

(** Later records replace earlier ones with the same ref. *)
Definition metricRecordIndex (records : list MetricRecord) : gmap string MetricRecord :=
  fold_left (fun index record => if mr_Ref record == "" then index else <[mr_Ref record := record]> index) records ∅.

Definition allowedNumericClaims (index : gmap string MetricRecord) : list string :=
  mjoin ((fun entry => metricClaims entry.2) <$> map_to_list index).

Definition numericClaimMatchesRefs (claim : string) (refs : list string) (index : gmap string MetricRecord) : bool :=
  existsb (fun ref => match index !! ref with
                      | Some record => bool_decide (claim ∈ metricClaims record)
                      | None => false end) refs.

(** [checkTexts] *)
Definition unsupported_claim (index : gmap string MetricRecord) (refs : list string) (claim : string) : bool :=
  let normalized := normalizeNumericClaim claim in
  negb ((normalized == "") || bool_decide (normalized ∈ allowedNumericClaims index) ||
        numericClaimMatchesRefs normalized refs index).

Definition check_text (index : gmap string MetricRecord) (prefix : string) (refs : list string) (text : string)
    (idx : option nat) : list ValidationDiagnostic :=
  (fun claim => mkValidationDiagnostic "unsupported_numeric_claim" ValidationCategoryNumeric ValidationSeverityError
                  (prefix +:+ " contains unsupported numeric claim " +:+ Quote claim) refs [] [] [] [] idx) <$>
    filter (fun claim => unsupported_claim index refs claim = true) (FindAllString match_claim text).

Definition numeric_diagnostics (data : trustReportData) : list ValidationDiagnostic :=
  let index := metricRecordIndex (td_MetricRecords data) in
  each_recommendation (fun i r =>
    check_text index "recommendation title" (rc_MetricRefs r) (rc_Title r) (Some i) ++
    check_text index "recommendation detail" (rc_MetricRefs r) (rc_Detail r) (Some i)) (td_Recommendations data) ++
  mjoin ((fun risk => check_text index "risk flag detail" (rf_MetricRefs risk) (rf_Detail risk) None) <$> td_RiskFlags data).

(** [FinancialNumericConsistencyValidator.Validate] *)
Definition FinancialNumericConsistencyValidator (spec : TaskSpec) (output : Output) (now : time) : error + list VerificationResult :=
  data ← reportPayloadFromOutput output;
  let diagnostics := numeric_diagnostics data in
  mret [buildValidatorResult (ts_ID spec) (VerificationStatusFromDiagnostics diagnostics) ValidationCategoryNumeric
    "financial_numeric_consistency_validator" "numeric consistency checks passed"
    "remove unsupported numeric claims or align the recommendation text with deterministic metric records" diagnostics now].

(** ** Business rules of trust *)

Definition metricFloat (index : gmap string MetricRecord) (ref : string) : option float64 :=
  record ← index !! ref;
  match mr_ValueType record with
  | MetricValueTypeFloat64 => Some (mr_Float64Value record)
  | MetricValueTypeInt64 => Some (f_of_int (mr_Int64Value record))
  | _ => None
  end.

Definition metricBelow (index : gmap string MetricRecord) (ref : string) (threshold : float64) : bool :=
  match metricFloat index ref with Some value => f_ltb value threshold | None => false end.

Definition metricAtLeast (index : gmap string MetricRecord) (ref : string) (threshold : float64) : bool :=
  match metricFloat index ref with Some value => f_leb threshold value | None => false end.

Definition isAggressiveRecommendation (kind : RecommendationType) : bool :=
  match kind with
  | RecommendationTypeInvestMore | RecommendationTypePortfolioRebalance | RecommendationTypeDebtRestructure => true
  | _ => false
  end.

Definition containsAnyText (items candidates : list string) : bool :=
  let joined := ToLower (Join items " ") in
  existsb (fun candidate => Contains joined (ToLower candidate)) candidates.

Definition low_liquidity (index : gmap string MetricRecord) : bool :=
  metricBelow index "emergency_fund_coverage_months" (f_of_int 3) || metricBelow index "liquidity_buffer_months" (f_of_int 1).

Definition high_debt_pressure (index : gmap string MetricRecord) : bool :=
  metricAtLeast index "debt_pressure_score" (f_const 6 10) || metricAtLeast index "debt_payoff_pressure" (f_const 6 10).

Definition marked_high (r : Recommendation) : bool :=
  match rc_RiskLevel r with RiskLevelHigh | RiskLevelCritical => true | _ => false end.

Definition business_diagnostic (code : string) (severity : ValidationSeverity) (message : string) (i : nat) (r : Recommendation) :
    ValidationDiagnostic := diagnostic_of code ValidationCategoryBusiness severity message i r.

Definition monthly_rules (index : gmap string MetricRecord) (debtBurdenRatio : float64) (i : nat) (r : Recommendation) :
    list ValidationDiagnostic :=
  let aggressive := isAggressiveRecommendation (rc_Type r) && low_liquidity index in
  diagnose_if (aggressive && negb (marked_high r))
    (business_diagnostic "aggressive_low_liquidity_risk_missing" ValidationSeverityCritical
       "aggressive recommendation under low liquidity must be marked high risk" i r) ++
  diagnose_if (aggressive && is_nil (rc_Caveats r))
    (business_diagnostic "aggressive_low_liquidity_caveat_missing" ValidationSeverityCritical
       "aggressive recommendation under low liquidity must include caveat/disclosure" i r) ++
  diagnose_if (f_leb (f_const 2 10) debtBurdenRatio && (rc_Type r == RecommendationTypeOther ""))
    (diagnosticAt "missing_recommendation_type" ValidationCategoryBusiness ValidationSeverityError
       "monthly review recommendation must declare recommendation type for downstream governance" i [] [] [] [] []).

Definition invest_rules (index : gmap string MetricRecord) (i : nat) (r : Recommendation) : list ValidationDiagnostic :=
  let risky := (rc_Type r == RecommendationTypeInvestMore) && (low_liquidity index || high_debt_pressure index) in
  diagnose_if (risky && negb (marked_high r))
    (business_diagnostic "invest_more_high_risk_required" ValidationSeverityCritical
       "aggressive invest_more recommendation under low buffer/high debt pressure must be high risk" i r) ++
  diagnose_if (risky && negb (rc_ApprovalRequired r))
    (business_diagnostic "invest_more_requires_approval" ValidationSeverityCritical
       "aggressive invest_more recommendation under low buffer/high debt pressure must require approval" i r).

Definition tax_action_rules (i : nat) (r : Recommendation) : list ValidationDiagnostic :=
  diagnose_if ((rc_Type r == RecommendationTypeTaxAction) &&
               negb (containsAnyText (rc_Caveats r) ["deadline"; "withholding"; "compliance"; "截止"; "预扣"; "合规"]))
    (business_diagnostic "tax_action_caveat_required" ValidationSeverityError
       "tax action recommendations must include deadline/withholding/compliance caveat" i r).

Definition rebalance_rules (i : nat) (r : Recommendation) : list ValidationDiagnostic :=
  diagnose_if ((rc_Type r == RecommendationTypePortfolioRebalance) &&
               negb (containsAnyText (rc_Caveats r) ["drift"; "liquidity"; "tax"; "偏离"; "流动性"; "税"]))
    (business_diagnostic "portfolio_rebalance_caveat_required" ValidationSeverityError
       "portfolio rebalance recommendations must include drift/liquidity/tax caveat" i r).

Definition business_rules (spec : TaskSpec) (currentState : FinancialWorldState) (data : trustReportData) :
    list ValidationDiagnostic :=
  let index := metricRecordIndex (td_MetricRecords data) in
  match ts_UserIntentType spec with
  | UserIntentMonthlyReview =>
      each_recommendation (monthly_rules index (li_DebtBurdenRatio (fw_LiabilityState currentState))) (td_Recommendations data)
  | UserIntentDebtVsInvest => each_recommendation (invest_rules index) (td_Recommendations data)
  | UserIntentTaxOptimization => each_recommendation tax_action_rules (td_Recommendations data)
  | UserIntentPortfolioRebalance => each_recommendation rebalance_rules (td_Recommendations data)
  | _ => []
  end.

(** [TrustBusinessRuleValidator.Validate] *)
Definition TrustBusinessRuleValidator (spec : TaskSpec) (currentState : FinancialWorldState) (output : Output) (now : time) :
    error + list VerificationResult :=
  data ← reportPayloadFromOutput output;
  let diagnostics := business_rules spec currentState data in
  mret [buildValidatorResult (ts_ID spec) (VerificationStatusFromDiagnostics diagnostics) ValidationCategoryBusiness
    "financial_business_rule_validator" "financial business-rule checks passed"
    "repair recommendation risk/caveat/approval semantics to satisfy finance business rules" diagnostics now].

(** * Theorems on the scanners of numbers

    No digit of a text escapes the scanners, and a number is still there after
    normalisation. *)

Fixpoint has_digit (s : string) : bool :=
  match s with EmptyString => false | String c s => is_digit c || has_digit s end.

Lemma has_digit_app s t : has_digit (s +:+ t) = has_digit s || has_digit t.
Proof. induction s as [|c s IH]; simpl; [done|]. by rewrite IH, orb_assoc. Qed.

Lemma starts_has s : starts_digit s = true -> has_digit s = true.
Proof. destruct s as [|c s]; simpl; [done|]. intros ->. done. Qed.

Lemma has_digit_nonempty s : has_digit s = true -> s <> "".
Proof. by intros H ->. Qed.

(** ** Matches are the front of the text *)

Lemma span_while_app p s : (span_while p s).1 +:+ (span_while p s).2 = s.
Proof.
  induction s as [|c s IH]; simpl; [done|]. destruct (p c); [|done].
  destruct (span_while p s) as [a b]. simpl in *. by rewrite string_app_cons, IH.
Qed.

Lemma span_while_digit p s :
  (forall c, is_digit c = true -> p c = true) -> starts_digit s = true -> has_digit (span_while p s).1 = true.
Proof.
  intros Hp. destruct s as [|c s]; simpl; [done|]. intros Hc. rewrite (Hp c Hc).
  destruct (span_while p s). simpl. by rewrite Hc.
Qed.

Lemma read_decimals_app s : (read_decimals s).1 +:+ (read_decimals s).2 = s.
Proof.
  unfold read_decimals. destruct s as [|c s]; [done|].
  destruct (ascii_dec c "."%char) as [->|Hne].
  - pose proof (span_while_app is_digit s) as H. destruct (span_while is_digit s) as [[|d a] b]; simpl in *; [done | by rewrite string_app_cons, H].
  - assert (H : forall A (x y : A), match c with "."%char => x | _ => y end = y)
      by (intros A x y; destruct c as [[] [] [] [] [] [] [] []]; done).
    by rewrite H.
Qed.

(** Groups of three digits, by their length. *)
Lemma read_groups_app s : (read_groups s).1 +:+ (read_groups s).2 = s.
Proof.
  assert (H : forall n s, (String.length s <= n)%nat -> (read_groups s).1 +:+ (read_groups s).2 = s);
    [|by apply (H (String.length s))].
  clear s. induction n as [|n IH]; intros s Hn; [by destruct s; simpl in Hn; [|lia]|].
  destruct s as [|x s]; [done|].
  destruct s as [|a [|b [|c rest]]]; [by destruct x as [[] [] [] [] [] [] [] []]..|].
  destruct (ascii_dec x ","%char) as [->|Hne].
  - cbn [read_groups]. destruct (is_digit a && is_digit b && is_digit c); [|done].
    specialize (IH rest). destruct (read_groups rest) as [g r]. simpl in *. by rewrite !string_app_cons, IH by lia.
  - destruct x as [[] [] [] [] [] [] [] []]; done.
Qed.

Lemma prefix_app p s : HasPrefix s p = true -> p +:+ String.substring (String.length p) (String.length s - String.length p) s = s.
Proof.
  unfold HasPrefix. revert s. induction p as [|c p IH]; intros s H.
  - rewrite Nat.sub_0_r. clear H. change (String.substring 0 (String.length s) s = s).
    induction s as [|c s IH]; [done|]. simpl. by rewrite IH.
  - destruct s as [|d s]; [done|]. simpl in H. destruct (ascii_dec c d) as [->|]; [|done].
    cbn [String.length String.substring Nat.sub]. change (String d p +:+ ?t) with (String d (p +:+ t)). by rewrite IH.
Qed.

Lemma read_currency_app s : (read_currency s).1 +:+ (read_currency s).2 = s.
Proof.
  unfold read_currency. destruct (HasPrefix s "$") eqn:E1; [by apply (prefix_app "$")|].
  destruct (HasPrefix s "¥") eqn:E2; [by apply (prefix_app "¥") | done].
Qed.

Lemma read_currency_digit s : starts_digit s = true -> read_currency s = ("", s).
Proof. destruct s as [|c s]; [done|]. by destruct c as [[] [] [] [] [] [] [] []]. Qed.

(** A match starts where a digit could: it is the front of the text and holds
    a digit, and only where no digit stands there is none. *)
Definition scans (matcher : string -> option (string * string)) : Prop :=
  forall s, match matcher s with
            | Some (token, rest) => s = token +:+ rest /\ has_digit token = true
            | None => starts_digit s = false
            end.

Lemma claim_scans : scans match_claim.
Proof.
  intros s. unfold match_claim. pose proof (read_currency_app s) as Hc. pose proof (read_currency_digit s) as Hd.
  destruct (read_currency s) as [currency s1]. simpl in Hc. destruct (starts_digit s1) eqn:E.
  - pose proof (span_while_app digit_or_comma s1) as H1.
    assert (has_digit (span_while digit_or_comma s1).1 = true) as Hdig
      by (apply span_while_digit; [intros c Hdc; unfold digit_or_comma; by rewrite Hdc | done]).
    destruct (span_while digit_or_comma s1) as [body s2]. simpl in H1, Hdig.
    pose proof (read_decimals_app s2) as H2. destruct (read_decimals s2) as [decimals s3]. simpl in H2.
    assert (Hp : exists percent rest, match s3 with String "%" rest => ("%", rest) | _ => (EmptyString, s3) end = (percent, rest) /\
      percent +:+ rest = s3).
    { destruct s3 as [|x s3]; [by exists "", ""|]. destruct x as [[] [] [] [] [] [] [] []]; by eexists _, _. }
    destruct Hp as (percent & rest & -> & H3). split.
    + by rewrite !string_app_assoc, H3, H2, H1, Hc.
    + by rewrite !has_digit_app, Hdig, orb_true_r.
  - destruct (starts_digit s) eqn:Es; [|done]. specialize (Hd eq_refl). congruence.
Qed.

Lemma token_scans : scans match_token.
Proof.
  intros s. unfold match_token.
  assert (Hs : exists sign s1, match s with String "-" rest => ("-", rest) | _ => (EmptyString, s) end = (sign, s1) /\
    sign +:+ s1 = s /\ (starts_digit s = true -> s1 = s)).
  { destruct s as [|x s]; [by exists "", ""|]. destruct x as [[] [] [] [] [] [] [] []]; by eexists _, _. }
  destruct Hs as (sign & s1 & -> & Hs & Hd). destruct (starts_digit s1) eqn:E.
  - pose proof (span_while_app is_digit s1) as H1.
    assert (has_digit (span_while is_digit s1).1 = true) as Hdig by (by apply span_while_digit).
    destruct (span_while is_digit s1) as [digits s2]. simpl in H1, Hdig.
    pose proof (read_groups_app s2) as H2. destruct (read_groups s2) as [groups s3]. simpl in H2.
    pose proof (read_decimals_app s3) as H3. destruct (read_decimals s3) as [decimals s4]. simpl in H3. split.
    + by rewrite !string_app_assoc, H3, H2, H1, Hs.
    + by rewrite !has_digit_app, Hdig, orb_true_r.
  - destruct (starts_digit s) eqn:Es; [|done]. specialize (Hd eq_refl). congruence.
Qed.

(** ** No digit escapes *)

(** Gaps and tokens in turn, then the rest. *)
Fixpoint weave (pieces : list (string * string)) (rest : string) : string :=
  match pieces with
  | [] => rest
  | (gap, token) :: pieces => gap +:+ (token +:+ weave pieces rest)
  end.

(** The text is the tokens found with digit-free gaps between them. *)
Definition covers (matcher : string -> option (string * string)) (text : string) : Prop :=
  exists pieces rest,
    text = weave pieces rest /\ pieces.*2 = FindAllString matcher text /\
    Forall (fun piece => has_digit piece.1 = false /\ has_digit piece.2 = true) pieces /\ has_digit rest = false.

Lemma find_all_covers matcher fuel s :
  scans matcher -> (String.length s < fuel)%nat ->
  exists pieces rest,
    s = weave pieces rest /\ pieces.*2 = find_all matcher fuel s /\
    Forall (fun piece => has_digit piece.1 = false /\ has_digit piece.2 = true) pieces /\ has_digit rest = false.
Proof.
  intros Hm. revert s. induction fuel as [|fuel IH]; intros s Hs; [lia|].
  destruct s as [|c s]; [by exists [], ""|]. cbn [find_all]. pose proof (Hm (String c s)) as H.
  destruct (matcher (String c s)) as [[token rest]|].
  - destruct H as [Heq Hd].
    assert (Hl : (String.length rest < fuel)%nat).
    { assert (String.length token <> 0)%nat by (destruct token; [by apply has_digit_nonempty in Hd | simpl; lia]).
      apply (f_equal String.length) in Heq. rewrite string_length_app in Heq. lia. }
    destruct (IH rest Hl) as (pieces & tail & -> & <- & Hp & Ht).
    exists (("", token) :: pieces), tail. split_and!; [exact Heq | done | by constructor | done].
  - cbn in H. destruct (IH s) as (pieces & tail & -> & <- & Hp & Ht); [simpl in Hs; lia|].
    destruct pieces as [|[gap token] pieces].
    + exists [], (String c tail). split_and!; [done | done | done | cbn [has_digit]; by rewrite H].
    + exists ((String c gap, token) :: pieces), tail. apply Forall_cons in Hp as [[Hg Hk] Hp].
      split_and!; [cbn [weave]; by rewrite string_app_cons | done | | done].
      constructor; [|done]. split; [|done]. cbn [fst has_digit]. by rewrite H.
Qed.

Lemma FindAll_covers matcher text : scans matcher -> covers matcher text.
Proof. intros H. apply find_all_covers; [done | lia]. Qed.

Example scanned :
  FindAllString match_claim "save $1,200.50 or 15% of ¥30, not -5." = ["$1,200.50"; "15%"; "¥30,"; "5"] /\
  FindAllString match_token "-1,234.5, 1,2345 and 0.10%" = ["-1,234.5"; "1,234"; "5"; "0.10"].
Proof. vm_compute. split; reflexivity. Qed.

(** C19: No digit of a text escapes the two scanners of numbers: the text is
    the numbers they find, in order, with gaps between them that hold no
    digit. *)
Theorem no_digit_escapes (text : string) : covers match_claim text /\ covers match_token text.
Proof. split; apply FindAll_covers; [apply claim_scans | apply token_scans]. Qed.

(** ** A number is still one when it is normalised *)

Lemma has_digit_no_comma s : has_digit (ReplaceAll_comma s) = has_digit s.
Proof.
  unfold ReplaceAll_comma. induction s as [|c s IH]; [done|]. cbn [map_string has_digit]. rewrite has_digit_app, IH.
  destruct (Ascii.eqb_spec c ","%char) as [->|Hne]; [done|]. simpl. by rewrite orb_false_r.
Qed.

#[local] Transparent TrimSpace.

Lemma has_digit_trim s : has_digit (TrimSpace s) = has_digit s.
Proof.
  assert (Hsp : forall c, is_space c = true -> is_digit c = false) by (intros [[] [] [] [] [] [] [] []]; done).
  unfold TrimSpace. transitivity (has_digit (trim_left s)).
  - induction (trim_left s) as [|c t IH]; [done|]. cbn [trim_right has_digit]. rewrite <- IH.
    destruct (trim_right t) as [|d r]; [|done]. destruct (is_space c) eqn:E; [|done]. by rewrite (Hsp c E).
  - induction s as [|c s IH]; [done|]. cbn [trim_left]. destruct (is_space c) eqn:E; [|done].
    cbn [has_digit]. by rewrite (Hsp c E), IH.
Qed.

Lemma has_digit_prefix s p : has_digit p = false -> has_digit (TrimPrefix s p) = has_digit s.
Proof.
  intros Hp. unfold TrimPrefix. destruct (HasPrefix s p) eqn:E; [|done].
  rewrite <- (prefix_app p s E) at 3. by rewrite has_digit_app, Hp.
Qed.

Lemma normalized_has_digit claim : has_digit (normalizeNumericClaim claim) = has_digit claim.
Proof.
  unfold normalizeNumericClaim. by rewrite !has_digit_prefix, has_digit_trim, has_digit_no_comma by done.
Qed.

Lemma claim_not_empty text claim : claim ∈ FindAllString match_claim text -> normalizeNumericClaim claim <> "".
Proof.
  intros Hin. apply has_digit_nonempty. rewrite normalized_has_digit.
  destruct (FindAll_covers match_claim text claim_scans) as (pieces & rest & _ & Hp & Hd & _).
  rewrite <- Hp in Hin. apply list_elem_of_fmap in Hin as (piece & -> & Hin).
  rewrite Forall_forall in Hd. by apply Hd.
Qed.

(** A negative metric, stated as it is, is not one of the metrics: the scanner
    drops the sign. *)
Example negative_metric_unsupported :
  let net := (zero : MetricRecord) <| mr_Ref := "net" |> <| mr_ValueType := MetricValueTypeInt64 |> <| mr_Int64Value := -500 |> in
  metricClaims net = ["-500"] /\
  vd_Code <$> check_text (metricRecordIndex [net]) "recommendation title" ["net"] "Net income is -500 this month" None =
    ["unsupported_numeric_claim"].
Proof. vm_compute. split; reflexivity. Qed.
