(* ===== verification/CashflowGrounding.v ===== *)
(** * Grounding of the cashflow agent's texts (cashflow_numeric_grounding.go,
    structured_output.go, grounding_precheck.go, provider_result_validation.go)

    What a language model writes about the cashflow is accepted only when its
    numbers are those of the deterministic metrics and its references were
    selected. *)

From Stdlib Require Import Ascii.
From S2P Require Export NumericClaims.
#[local] Open Scope Z_scope.

Record CashflowStructuredCandidate := mkCashflowStructuredCandidate {
  cc_Summary : string;
  cc_KeyFindings : list string;
  cc_GroundedRecommendations : list Recommendation;
  cc_RiskFlags : list RiskFlag;
  cc_MetricRefs : list string;
  cc_GroundingRefs : list string;
  cc_EvidenceRefs : list string;
  cc_MemoryRefs : list string;
  cc_Confidence : float64;
  cc_Caveats : list string;
  cc_ApprovalRequired : bool;
  cc_ApprovalReason : string;
  cc_PolicyRuleRefs : list string
}.

(** ** Numbers *)

Definition normalizeNumericToken (token : string) : string :=
  let token := TrimSpace (ReplaceAll_comma token) in
  let token := if Contains token "." then TrimRight_char "." (TrimRight_char "0" token) else token in
  if token == "-0" then "0" else token.

Definition int_forms (value : Z) : list string := [Itoa value].

(** [addAllowedFloat]: an empty token is not added. *)
Definition float_forms (value : float64) : list string :=
  filter (fun token => token <> "") [normalizeNumericToken (Sprintf_f 4 value)].

Definition floatAndPercentForms (value : float64) : list string :=
  float_forms value ++ float_forms (f_mul value (f_of_int 100)).

Definition allowedCashflowNumericTokens (metrics : CashflowDeterministicMetrics) : list string :=
  int_forms (fcm_MonthlyInflowCents metrics) ++ int_forms (fcm_MonthlyOutflowCents metrics) ++
  int_forms (fcm_MonthlyNetIncomeCents metrics) ++ floatAndPercentForms (fcm_SavingsRate metrics) ++
  int_forms (fcm_DuplicateSubscriptionCount metrics) ++ floatAndPercentForms (fcm_LateNightSpendingFrequency metrics).

Record cashflowMetricRule := mkCashflowMetricRule {
  rule_Name : string;
  rule_Keywords : list string;
  rule_ExpectedForms : list string
}.

Definition cashflowMetricRules (metrics : CashflowDeterministicMetrics) : list cashflowMetricRule :=
  [mkCashflowMetricRule "monthly_inflow" ["流入"; "monthly inflow"] (int_forms (fcm_MonthlyInflowCents metrics));
   mkCashflowMetricRule "monthly_outflow" ["流出"; "支出"; "monthly outflow"] (int_forms (fcm_MonthlyOutflowCents metrics));
   mkCashflowMetricRule "monthly_net" ["净结余"; "净收入"; "月度结余"; "monthly net"; "monthly net income"]
     (int_forms (fcm_MonthlyNetIncomeCents metrics));
   mkCashflowMetricRule "savings_rate" ["储蓄率"; "savings rate"] (floatAndPercentForms (fcm_SavingsRate metrics));
   mkCashflowMetricRule "duplicate_subscription_count" ["重复订阅"; "duplicate subscription"]
     (int_forms (fcm_DuplicateSubscriptionCount metrics));
   mkCashflowMetricRule "late_night_spending_frequency" ["深夜消费频率"; "夜间消费频率"; "late-night spending frequency"]
     (floatAndPercentForms (fcm_LateNightSpendingFrequency metrics))].

(** The 24 bytes behind every occurrence of the keyword. *)
Fixpoint windows (fuel : nat) (needle remaining : string) : list string :=
  match fuel with
  | O => []
  | S fuel =>
      match split_at needle remaining with
      | None => []
      | Some (_, rest) => byte_prefix 24 rest :: windows fuel needle rest
      end
  end.

Definition first_token (window : string) : string :=
  match FindAllString match_token window with token :: _ => normalizeNumericToken token | [] => "" end.

Definition extractKeywordNumericClaims (text : string) (keywords : list string) : list string :=
  let lowered := ToLower text in
  unique_from [] (first_token <$>
    mjoin ((fun keyword => windows (S (String.length lowered)) (ToLower keyword) lowered) <$> keywords)).

Definition cashflowNarrativeFields (candidate : CashflowStructuredCandidate) : list (string * string) :=
  [("summary", cc_Summary candidate)] ++
  imap (fun i finding => ("key_findings[" +:+ Itoa (Z.of_nat i) +:+ "]", finding)) (cc_KeyFindings candidate) ++
  List.concat (imap (fun i item =>
    [("grounded_recommendations[" +:+ Itoa (Z.of_nat i) +:+ "].title", rc_Title item);
     ("grounded_recommendations[" +:+ Itoa (Z.of_nat i) +:+ "].detail", rc_Detail item)]) (cc_GroundedRecommendations candidate)) ++
  imap (fun i flag => ("risk_flags[" +:+ Itoa (Z.of_nat i) +:+ "].detail", rf_Detail flag)) (cc_RiskFlags candidate).

Definition field_diagnostics (metrics : CashflowDeterministicMetrics) (field : string * string) : list string :=
  let '(name, text) := field in
  if TrimSpace text == "" then []
  else
    ((fun rawToken => "unsupported numeric claim " +:+ rawToken +:+ " in " +:+ name) <$>
       filter (fun rawToken => normalizeNumericToken rawToken <> "" /\
                               ~ normalizeNumericToken rawToken ∈ allowedCashflowNumericTokens metrics)
         (FindAllString match_token text)) ++
    mjoin ((fun rule =>
      (fun claim => rule_Name rule +:+ " claim " +:+ claim +:+ " in " +:+ name +:+ " is inconsistent with deterministic metrics") <$>
        filter (fun claim => ~ claim ∈ rule_ExpectedForms rule) (extractKeywordNumericClaims text (rule_Keywords rule)))
      <$> cashflowMetricRules metrics).

(** The first occurrence of each (no diagnostic is empty). *)
Definition dedupeDiagnostics (items : list string) : list string := unique_from [] items.

Definition cashflowNumericGroundingDiagnostics (candidate : CashflowStructuredCandidate) (metrics : CashflowDeterministicMetrics) :
    list string :=
  dedupeDiagnostics (mjoin (field_diagnostics metrics <$> cashflowNarrativeFields candidate)).

(** ** References (structured_output.go) *)

Definition ValidatePlannerStructuredCandidate `{MO : MapOrder} (candidate : PlannerStructuredCandidate)
    (allowedBlockIDs allowedStepIDs : list string) : list string :=
  PlannerStructuredSchema_Validate (mkPlannerStructuredSchema allowedBlockIDs allowedStepIDs) candidate.

Definition validateRiskFlag (flag : RiskFlag) (allowedEvidence : list string) : error + unit :=
  refuse (TrimSpace (rf_Code flag) == "") "risk_flag code is required";;
  refuse (TrimSpace (rf_Severity flag) == "") "risk_flag severity is required";;
  refuse (TrimSpace (rf_Detail flag) == "") "risk_flag detail is required";;
  match List.find (fun id => negb (bool_decide (id ∈ allowedEvidence))) (rf_EvidenceIDs flag) with
  | Some id => inl (PlainError ("risk_flag evidence_ref " +:+ id +:+ " is not selected"))
  | None => mret tt
  end.

Definition unselected (prefix : string) (refs allowed : list string) : list string :=
  (fun ref => prefix +:+ ref +:+ " is not selected") <$> filter (fun ref => ~ ref ∈ allowed) refs.

Definition recommendation_diagnostics (allowedEvidence : list string) (item : Recommendation) : list string :=
  fails ((TrimSpace (rc_Title item) == "") || (TrimSpace (rc_Detail item) == "")) "recommendation title/detail is required" ++
  fails (RecommendationType_string (rc_Type item) == "") "recommendation type is required" ++
  fails (RiskLevel_string (rc_RiskLevel item) == "") "recommendation risk_level is required" ++
  unselected "recommendation evidence_ref " (rc_EvidenceRefs item) allowedEvidence.

Definition flag_diagnostics (allowedEvidence : list string) (flag : RiskFlag) : list string :=
  match validateRiskFlag flag allowedEvidence with inl err => [error_string err] | inr _ => [] end.

Definition ValidateCashflowStructuredCandidate (candidate : CashflowStructuredCandidate) (allowedMetricRefs : list string)
    (selectedEvidenceIDs : list EvidenceID) (metrics : CashflowDeterministicMetrics) : list string :=
  fails (TrimSpace (cc_Summary candidate) == "") "summary is required" ++
  fails (is_nil (cc_KeyFindings candidate)) "key_findings are required" ++
  fails (is_nil (cc_EvidenceRefs candidate)) "evidence_refs are required" ++
  fails (f_ltb (cc_Confidence candidate) f_zero || f_ltb (f_of_int 1) (cc_Confidence candidate)) "confidence must be within [0,1]" ++
  fails (is_nil (cc_Caveats candidate)) "caveats are required" ++
  ((fun ref => "unknown metric_ref " +:+ ref) <$> filter (fun ref => ~ ref ∈ allowedMetricRefs) (cc_MetricRefs candidate)) ++
  unselected "evidence_ref " (cc_EvidenceRefs candidate) selectedEvidenceIDs ++
  mjoin (recommendation_diagnostics selectedEvidenceIDs <$> cc_GroundedRecommendations candidate) ++
  mjoin (flag_diagnostics selectedEvidenceIDs <$> cc_RiskFlags candidate) ++
  cashflowNumericGroundingDiagnostics candidate metrics.

(** ** The precheck (grounding_precheck.go) *)

Definition RunCashflowGroundingPrecheck (candidate : CashflowStructuredCandidate) (metrics : CashflowDeterministicMetrics)
    (selectedEvidenceIDs : list EvidenceID) : error + unit :=
  refuse ((fcm_MonthlyInflowCents metrics =? 0) && (fcm_MonthlyOutflowCents metrics =? 0) &&
          (fcm_MonthlyNetIncomeCents metrics =? 0)) "cashflow deterministic metrics are empty";;
  refuse (is_nil selectedEvidenceIDs) "cashflow grounding requires selected evidence";;
  match List.find (fun ref => negb (bool_decide (ref ∈ selectedEvidenceIDs))) (cc_EvidenceRefs candidate) with
  | Some ref => inl (PlainError ("cashflow evidence ref " +:+ ref +:+ " is outside selected evidence"))
  | None =>
      match cashflowNumericGroundingDiagnostics candidate metrics with
      | [] => mret tt
      | diagnostics => inl (PlainError (Join diagnostics "; "))
      end
  end.

(** provider_result_validation.go *)
Definition StructuredOutputFailureNeedsFallback (category : StructuredFailure) : bool :=
  match category with StructuredFailureOther _ => false | _ => true end.
