(* ===== verification/VerifyPipeline.v ===== *)
(** * The verification pipeline (verification/pipeline.go)

    [Pipeline] with its replaceable parts, the verification of the blocks of a
    plan, of a final report and of a life event, composed as in the code.
    Parts are operations on a world [W] of their own; [time.Now] is
    [system_now].  The report is an [Output]; [plan.Validate] ends within its
    depth ([plan_validation_is_exact]), otherwise the run is out of fuel. *)

From S2P Require Export NumericClaims TaskSpec.
#[local] Open Scope Z_scope.

Section pipeline.
Context {W : Type} (system_now : W -> W * time) `{TE : TextErrors} `{MO : MapOrder}.

Definition ReportValidator : Type :=
  TaskSpec -> FinancialWorldState -> list EvidenceRecord -> Output -> ST error W VerificationResult.
Definition TrustValidator : Type :=
  TaskSpec -> FinancialWorldState -> list EvidenceRecord -> list MemoryRecord -> BlockVerificationContext -> Output ->
  ST error W (list VerificationResult).

Record Pipeline := mkPipeline {
  vp_CoverageChecker : option (TaskSpec -> list EvidenceRecord -> ST error W EvidenceCoverageReport);
  vp_DeterministicValidator : option ReportValidator;
  vp_BusinessValidator : option ReportValidator;
  vp_GroundingValidator : option TrustValidator;
  vp_NumericValidator : option TrustValidator;
  vp_TrustBusinessValidator : option TrustValidator;
  vp_SuccessChecker : option (TaskSpec -> list VerificationResult -> Output -> ST error W VerificationResult);
  vp_Oracle : option (string -> list VerificationResult -> ST error W OracleVerdict);
  vp_Now : option (W -> W * time)
}.

(** A part of the package itself: it reads the clock when it has a result. *)
Definition timed {A} (f : time -> error + A) : ST error W A := fun w =>
  let '(w', now) := system_now w in
  match f now with inl e => (w, Err e) | inr a => (w', Ok a) end.

Definition of_sum {A} (r : error + A) : ST error W A :=
  match r with inl e => fail e | inr a => mret a end.

Definition check_plan (plan : ExecutionPlan) : ST error W unit :=
  match ExecutionPlan_Validate plan with None => out_of_fuel | Some r => of_sum r end.

Context (p : Pipeline).

Definition now : ST error W time := fun w =>
  let '(w, t) := default system_now (vp_Now p) w in (w, Ok t).

Definition coverageChecker : TaskSpec -> list EvidenceRecord -> ST error W EvidenceCoverageReport :=
  default (fun spec evidence => mret (CoverageChecker_Check spec evidence)) (vp_CoverageChecker p).

Definition deterministicValidator : ReportValidator :=
  default (fun spec currentState _ output => timed (MonthlyReviewDeterministicValidator spec currentState output)) (vp_DeterministicValidator p).

Definition businessValidator (monthlyReview : bool) : ReportValidator :=
  default (fun spec currentState _ output =>
    timed (if monthlyReview then MonthlyReviewBusinessValidator spec currentState output
           else DebtDecisionBusinessValidator spec currentState output)) (vp_BusinessValidator p).

Definition groundingValidator : TrustValidator :=
  default (fun spec _ evidence memories finalContext output =>
    timed (FinancialGroundingValidator spec evidence memories finalContext output)) (vp_GroundingValidator p).

Definition numericValidator : TrustValidator :=
  default (fun spec _ _ _ _ output => timed (FinancialNumericConsistencyValidator spec output)) (vp_NumericValidator p).

Definition trustBusinessValidator : TrustValidator :=
  default (fun spec currentState _ _ _ output => timed (TrustBusinessRuleValidator spec currentState output)) (vp_TrustBusinessValidator p).

Definition successChecker : TaskSpec -> list VerificationResult -> Output -> ST error W VerificationResult :=
  default (fun spec results _ => timed (fun t => inr (SuccessChecker_Check spec results t))) (vp_SuccessChecker p).

Definition oracle : string -> list VerificationResult -> ST error W OracleVerdict :=
  default (fun scenario results => timed (fun t => inr (Oracle_Evaluate scenario results t))) (vp_Oracle p).

Definition finally (result : VerificationResult) : VerificationResult := withScope result VerificationScopeFinal "" "".

(** ** Trust *)

Definition verifyTrust (spec : TaskSpec) (currentState : FinancialWorldState) (evidence : list EvidenceRecord)
    (memories : list MemoryRecord) (finalContext : BlockVerificationContext) (output : Output) :
    ST error W (list VerificationResult) :=
  grounding ← groundingValidator spec currentState evidence memories finalContext output;
  numeric ← numericValidator spec currentState evidence memories finalContext output;
  business ← trustBusinessValidator spec currentState evidence memories finalContext output;
  mret (finally <$> (grounding ++ numeric ++ business)).

(** ** Blocks *)

(** The result of a block that can not be validated. *)
Definition block_failure (spec : TaskSpec) (block : ExecutionBlock) (validator message action : string) (t : time) :
    VerificationResult :=
  (zero : VerificationResult)
    <| vr_Status := VerificationStatusFail |>
    <| vr_Scope := VerificationScopeBlock |>
    <| vr_BlockID := xb_ID block |>
    <| vr_BlockKind := ExecutionBlockKind_string (xb_Kind block) |>
    <| vr_Validator := validator |>
    <| vr_Message := message |>
    <| vr_FailedRules := ["schema_invalid"] |>
    <| vr_RecommendedReplanAction := action |>
    <| vr_Severity := "high" |>
    <| vr_EvidenceCoverage := fullCoverage (ts_ID spec) |>
    <| vr_CheckedAt := t |>.

(** The validator of the typed result, in the order of the [switch]. *)
Definition typed_result (spec : TaskSpec) (currentState : FinancialWorldState) (block : ExecutionBlock)
    (envelope : BlockResultEnvelope) (context : BlockVerificationContext) : option (time -> VerificationResult) :=
  match be_Cashflow envelope, be_Debt envelope, be_Tax envelope, be_Portfolio envelope, be_Behavior envelope with
  | Some r, _, _, _, _ => Some (fun t => CashflowBlockValidator spec block context currentState t r)
  | None, Some r, _, _, _ => Some (fun t => DebtBlockValidator spec block context currentState t r)
  | None, None, Some r, _, _ => Some (fun t => TaxBlockValidator spec block context currentState t r)
  | None, None, None, Some r, _ => Some (fun t => PortfolioBlockValidator spec block context currentState t r)
  | None, None, None, None, Some r => Some (fun t => BehaviorBlockValidator spec block context currentState t r)
  | None, None, None, None, None => None
  end.

Definition verify_block (spec : TaskSpec) (currentState : FinancialWorldState)
    (resultByID : gmap string BlockResultEnvelope) (contextByID : gmap string BlockVerificationContext)
    (acc : gmap string (list VerificationResult) * bool) (block : ExecutionBlock) :
    ST error W (gmap string (list VerificationResult) * bool) :=
  let '(blockResults, severe) := acc in
  match resultByID !! xb_ID block, contextByID !! xb_ID block with
  | None, _ =>
      t ← now;
      mret (<[xb_ID block := [block_failure spec block "block_presence_validator" "required block result is missing"
                                "dispatch the missing analysis block before drafting the report" t]]> blockResults, true)
  | Some _, None =>
      t ← now;
      mret (<[xb_ID block := [block_failure spec block "block_context_validator" "block verification context is missing"
                                "assemble block verification context before verifying the report" t]]> blockResults, true)
  | Some envelope, Some context =>
      result ← (match typed_result spec currentState block envelope context with
        | Some validate => timed (fun t => inr (validate t))
        | None =>
            t ← now;
            mret (block_failure spec block "block_schema_validator" "typed block result is missing"
                    "rerun block analysis and return a typed block result" t)
        end);
      mret (<[xb_ID block := [result]]> blockResults, severe || severeBlockFailure result)
  end.

Definition verifyBlocks (spec : TaskSpec) (currentState : FinancialWorldState) (plan : ExecutionPlan)
    (results : list BlockResultEnvelope) (contexts : list BlockVerificationContext) :
    ST error W (gmap string (list VerificationResult) * bool) :=
  resultByID ← for_fold (fun acc item =>
    of_sum (match BlockResultEnvelope_Validate item with Some e => inl e | None => inr tt end);;
    mret (<[be_BlockID item := item]> acc)) ∅ results;
  let contextByID := fold_left (fun acc item => <[bv_BlockID item := item]> acc) contexts ∅ in
  for_fold (verify_block spec currentState resultByID contextByID) (∅, false) (ep_Blocks plan).

Definition flattenBlockResults (plan : ExecutionPlan) (byBlock : gmap string (list VerificationResult)) : list VerificationResult :=
  mjoin ((fun block => default [] (byBlock !! xb_ID block)) <$> ep_Blocks plan).

(** ** The final report *)

Definition context_result (validator valid incomplete action : string) (spec : TaskSpec) (finalContext : BlockVerificationContext)
    (t : time) : VerificationResult :=
  let broken := is_nil (bv_SelectedEvidenceIDs finalContext) || (bv_ResultSummary finalContext == "") in
  (zero : VerificationResult)
    <| vr_Status := if broken then VerificationStatusNeedsReplan else VerificationStatusPass |>
    <| vr_Scope := VerificationScopeFinal |>
    <| vr_Validator := validator |>
    <| vr_Message := if broken then incomplete else valid |>
    <| vr_FailedRules := fails broken "final_context_incomplete" |>
    <| vr_RecommendedReplanAction := action |>
    <| vr_Severity := if broken then "medium" else "low" |>
    <| vr_Details := list_to_map [("selected_memory_ids", any_strings (bv_SelectedMemoryIDs finalContext));
                                  ("selected_evidence_ids", any_strings (bv_SelectedEvidenceIDs finalContext));
                                  ("selected_state_blocks", any_strings (bv_SelectedStateBlocks finalContext))] |>
    <| vr_EvidenceCoverage := fullCoverage (ts_ID spec) |>
    <| vr_CheckedAt := t |>.

(** The validators of the report itself, by the intent of the task. *)
Definition report_results (spec : TaskSpec) (currentState : FinancialWorldState) (evidence : list EvidenceRecord)
    (output : Output) : ST error W (list VerificationResult) :=
  let both (deterministic business : ST error W VerificationResult) :=
    d ← deterministic; b ← business; mret [finally d; finally b] in
  match ts_UserIntentType spec with
  | UserIntentMonthlyReview =>
      both (deterministicValidator spec currentState evidence output) (businessValidator true spec currentState evidence output)
  | UserIntentTaxOptimization =>
      both (timed (TaxOptimizationDeterministicValidator spec output)) (timed (TaxOptimizationBusinessValidator spec currentState output))
  | UserIntentPortfolioRebalance =>
      both (timed (PortfolioRebalanceDeterministicValidator spec output))
           (timed (PortfolioRebalanceBusinessValidator spec currentState output))
  | UserIntentBehaviorIntervention =>
      both (timed (BehaviorInterventionDeterministicValidator spec output))
           (timed (BehaviorInterventionBusinessValidator spec currentState output))
  | _ => b ← businessValidator false spec currentState evidence output; mret [finally b]
  end.

Definition verifyFinal (spec : TaskSpec) (currentState : FinancialWorldState) (evidence : list EvidenceRecord)
    (memories : list MemoryRecord) (finalContext : BlockVerificationContext) (output : Output) :
    ST error W (list VerificationResult) :=
  t ← now;
  let contextResult := context_result "final_verification_context_validator" "final verification context is valid"
    "final verification context is incomplete" "rebuild final verification context with grounded evidence" spec finalContext t in
  reports ← report_results spec currentState evidence output;
  trust ← verifyTrust spec currentState evidence memories finalContext output;
  mret (contextResult :: reports ++ trust).

Definition short_circuit (spec : TaskSpec) (plan : ExecutionPlan) (memories : list MemoryRecord) (t : time) : VerificationResult :=
  (zero : VerificationResult)
    <| vr_Status := VerificationStatusNeedsReplan |>
    <| vr_Scope := VerificationScopeFinal |>
    <| vr_Validator := "final_validation_short_circuit" |>
    <| vr_Message := "block-level verification failed; final report validation skipped" |>
    <| vr_FailedRules := ["block_verification_short_circuit"] |>
    <| vr_RecommendedReplanAction := "repair failed block outputs before regenerating the final report" |>
    <| vr_Severity := "high" |>
    <| vr_Details := list_to_map [("plan_id", AnyString (ep_PlanID plan));
                                  ("selected_memory_count", AnyInt (Z.of_nat (length memories)))] |>
    <| vr_EvidenceCoverage := fullCoverage (ts_ID spec) |>
    <| vr_CheckedAt := t |>.

(** [verify] *)
Definition verify (scenario : string) (spec : TaskSpec) (currentState : FinancialWorldState) (evidence : list EvidenceRecord)
    (memories : list MemoryRecord) (plan : ExecutionPlan) (blockResults : list BlockResultEnvelope)
    (contexts : list BlockVerificationContext) (finalContext : BlockVerificationContext) (output : Output) :
    ST error W PipelineResult :=
  check_plan plan;;
  coverageReport ← coverageChecker spec evidence;
  t ← now;
  let coverageResult := finally (CoverageToVerificationResult spec coverageReport t) in
  '(blockMap, severeFailure) ← verifyBlocks spec currentState plan blockResults contexts;
  let flattened := coverageResult :: flattenBlockResults plan blockMap in
  if severeFailure : bool then
    t ← now;
    let finalResults := [short_circuit spec plan memories t] in
    verdict ← oracle scenario (flattened ++ finalResults);
    mret (mkPipelineResult coverageReport blockMap finalResults (flattened ++ finalResults) verdict)
  else
    finalResults ← verifyFinal spec currentState evidence memories finalContext output;
    let flattened := flattened ++ finalResults in
    success ← successChecker spec flattened output;
    let finalResults := finalResults ++ [finally success] in
    let flattened := flattened ++ [finally success] in
    verdict ← oracle scenario flattened;
    mret (mkPipelineResult coverageReport blockMap finalResults flattened verdict).

Definition VerifyMonthlyReview := verify "monthly-review".
Definition VerifyDebtDecision := verify "debt-vs-invest".
Definition VerifyTaxOptimization := verify "tax-optimization".
Definition VerifyPortfolioRebalance := verify "portfolio-rebalance".
Definition VerifyBehaviorIntervention := verify "behavior-intervention".

(** ** Life events *)

Definition VerifyLifeEventBlockPass (spec : TaskSpec) (currentState : FinancialWorldState) (evidence : list EvidenceRecord)
    (plan : ExecutionPlan) (blockResults : list BlockResultEnvelope) (contexts : list BlockVerificationContext) :
    ST error W PipelineResult :=
  check_plan plan;;
  coverageReport ← coverageChecker spec evidence;
  t ← now;
  let coverageResult := finally (CoverageToVerificationResult spec coverageReport t) in
  '(blockMap, _) ← verifyBlocks spec currentState plan blockResults contexts;
  let flattened := coverageResult :: flattenBlockResults plan blockMap in
  verdict ← oracle "life-event-analysis-blocks" flattened;
  mret (mkPipelineResult coverageReport blockMap [] flattened verdict).

(** What one generated task violates; a task without a reason is not looked
    at further, and only its first reason counts. *)
Definition generated_task_rules (allowedEvidence : list string) (seenIntents : list UserIntentType) (generated : GeneratedTaskSpec) :
    list string :=
  fails (bool_decide (ts_UserIntentType (gt_Task generated) ∈ seenIntents)) "duplicate_generated_task" ++
  match gm_GenerationReasons (gt_Metadata generated) with
  | [] => ["generated_task_reason_missing"]
  | reason :: _ =>
      fails (is_nil (tr_EvidenceIDs reason) && is_nil (tr_StateDiffFields reason) && is_nil (tr_MemoryIDs reason))
        "generated_task_ungrounded" ++
      fails (existsb (fun id => negb (bool_decide (id ∈ allowedEvidence))) (tr_EvidenceIDs reason)) "generated_task_unknown_evidence"
  end.

Fixpoint task_rules (allowedEvidence : list string) (seenIntents : list UserIntentType) (tasks : list GeneratedTaskSpec) :
    list string :=
  match tasks with
  | [] => []
  | generated :: tasks =>
      generated_task_rules allowedEvidence seenIntents generated ++
      task_rules allowedEvidence (ts_UserIntentType (gt_Task generated) :: seenIntents) tasks
  end.

Definition missingEvidenceFromTaskGraph (graph : TaskGraph) : list string :=
  mjoin ((fun task => match gm_GenerationReasons (gt_Metadata task) with
                      | reason :: _ => fails (is_nil (tr_EvidenceIDs reason)) (ts_ID (gt_Task task))
                      | [] => []
                      end) <$> tg_GeneratedTasks graph).

Definition task_grounding (spec : TaskSpec) (evidence : list EvidenceRecord) (memories : list MemoryRecord)
    (taskGraph : TaskGraph) (t : time) : VerificationResult :=
  let failedRules := task_rules (er_ID <$> evidence) [] (tg_GeneratedTasks taskGraph) in
  let result : VerificationResult := zero
    <| vr_Status := VerificationStatusPass |>
    <| vr_Scope := VerificationScopeFinal |>
    <| vr_Validator := "generated_task_grounding_validator" |>
    <| vr_Message := "generated tasks are grounded in validated blocks, evidence, state diff, and memories" |>
    <| vr_RecommendedReplanAction := "regenerate follow-up tasks from validated block results and event evidence" |>
    <| vr_Severity := "medium" |>
    <| vr_Details := list_to_map [("generated_task_count", AnyInt (Z.of_nat (length (tg_GeneratedTasks taskGraph))));
                                  ("memory_count", AnyInt (Z.of_nat (length memories)))] |>
    <| vr_EvidenceCoverage := fullCoverage (ts_ID spec) |>
    <| vr_CheckedAt := t |> in
  if is_nil failedRules then result
  else result
    <| vr_Status := VerificationStatusNeedsReplan |>
    <| vr_Message := "generated task validation failed" |>
    <| vr_FailedRules := unique_from [] failedRules |>
    <| vr_RecommendedReplanAction := "repair generated task grounding, deduplication, and evidence linkage before runtime registration" |>
    <| vr_MissingEvidence := missingEvidenceFromTaskGraph taskGraph |>.

Definition keysFromSet (items : list string) : list string := (map_range (list_to_map ((fun x => (x, tt)) <$> items) : gmap string unit)).*1.

(** [lifeEventAssessmentOutputFrom] finds its fields in one kind of report. *)
Definition assessment_result (spec : TaskSpec) (blockResults : list BlockResultEnvelope) (taskGraph : TaskGraph)
    (output : Output) (t : time) : VerificationResult :=
  let result : VerificationResult := zero
    <| vr_Status := VerificationStatusPass |>
    <| vr_Scope := VerificationScopeFinal |>
    <| vr_Validator := "life_event_assessment_consistency_validator" |>
    <| vr_Message := "life-event assessment is consistent with generated tasks and validated block outputs" |>
    <| vr_RecommendedReplanAction := "rebuild life-event assessment from validated block outputs and generated task graph" |>
    <| vr_Severity := "medium" |>
    <| vr_Details := list_to_map [("plan_id", AnyString (tg_ParentWorkflowID taskGraph));
                                  ("block_result_ids", any_strings (keysFromSet (be_BlockID <$> blockResults)))] |>
    <| vr_EvidenceCoverage := fullCoverage (ts_ID spec) |>
    <| vr_CheckedAt := t |> in
  let replan message rule := result <| vr_Status := VerificationStatusNeedsReplan |> <| vr_Message := message |>
                                    <| vr_FailedRules := [rule] |> in
  match output with
  | LifeEventAssessmentOutput report =>
      if (ler_EventSummary report == "") || is_nil (ler_GeneratedTaskIDs report)
      then replan "life-event assessment is incomplete" "assessment_incomplete" else result
  | _ => replan "life-event assessment payload is missing" "assessment_missing"
  end.

Definition verifyLifeEventFinal (spec : TaskSpec) (evidence : list EvidenceRecord) (memories : list MemoryRecord)
    (blockResults : list BlockResultEnvelope) (taskGraph : TaskGraph) (finalContext : BlockVerificationContext)
    (output : Output) : ST error W (list VerificationResult) :=
  t1 ← now;
  t2 ← now;
  t3 ← now;
  mret [context_result "life_event_final_context_validator" "life-event final verification context is valid"
          "life-event final verification context is incomplete"
          "rebuild life-event final verification context with grounded evidence and task graph" spec finalContext t1;
        task_grounding spec evidence memories taskGraph t2;
        assessment_result spec blockResults taskGraph output t3].

Definition VerifyLifeEventGeneratedTasksAndFinal (spec : TaskSpec) (evidence : list EvidenceRecord) (memories : list MemoryRecord)
    (plan : ExecutionPlan) (blockResults : list BlockResultEnvelope) (taskGraph : TaskGraph)
    (finalContext : BlockVerificationContext) (output : Output) : ST error W PipelineResult :=
  check_plan plan;;
  of_sum (match TaskGraph_Validate taskGraph with Some e => inl e | None => inr tt end);;
  coverageReport ← coverageChecker spec evidence;
  t ← now;
  let coverageResult := finally (CoverageToVerificationResult spec coverageReport t) in
  finalResults ← verifyLifeEventFinal spec evidence memories blockResults taskGraph finalContext output;
  let flattened := coverageResult :: finalResults in
  success ← successChecker spec flattened output;
  let flattened := flattened ++ [finally success] in
  verdict ← oracle "life-event-generated-tasks-final" flattened;
  mret (mkPipelineResult coverageReport ∅ (finalResults ++ [finally success]) flattened verdict).
End pipeline.
