(* ===== verification/VerificationThm.v ===== *)
(** * Theorems on verification

    What a passing verification guarantees, what the scanners of numbers see,
    and which checks of the package can never fail. *)

From Stdlib Require Import Ascii.
From S2P Require Import VerifyPipeline CashflowGrounding NumericClaims PlanningThm.
#[local] Open Scope Z_scope.

(** ** Runs that end *)

Section ends.
Context {W : Type}.

(** Every run ends, with a value in [Q] or an error in [F]. *)
Definition ends {A} (Q : A -> Prop) (F : error -> Prop) (m : ST error W A) : Prop :=
  forall w, match (m w).2 with Ok a => Q a | Err e => F e | _ => False end.

Lemma ends_ret {A} (Q : A -> Prop) F a : Q a -> ends Q F (mret a).
Proof. intros H w. exact H. Qed.

Lemma ends_fail {A} (Q : A -> Prop) (F : error -> Prop) e : F e -> ends Q F (fail e).
Proof. intros H w. exact H. Qed.

Lemma ends_bind {A B} (R : A -> Prop) (Q : B -> Prop) F (m : ST error W A) (k : A -> ST error W B) :
  ends R F m -> (forall a, R a -> ends Q F (k a)) -> ends Q F (m ≫= k).
Proof.
  intros Hm Hk w. unfold mbind, ST_bind. specialize (Hm w).
  destruct (m w) as [w1 [a|e|why|]]; simpl in *; [exact (Hk a Hm w1) | done..].
Qed.

Lemma ends_weaken {A} (Q Q' : A -> Prop) (F F' : error -> Prop) (m : ST error W A) :
  ends Q F m -> (forall a, Q a -> Q' a) -> (forall e, F e -> F' e) -> ends Q' F' m.
Proof. intros H HQ HF w. specialize (H w). destruct (m w).2; auto. Qed.

Lemma ends_timed {A} (clock : W -> W * time) (Q : A -> Prop) F (f : time -> error + A) :
  (forall t, match f t with inl e => F e | inr a => Q a end) -> ends Q F (timed clock f).
Proof.
  intros H w. unfold timed. destruct (clock w) as [w' t]. specialize (H t). by destruct (f t).
Qed.

Lemma ends_now (clock : W -> W * time) p F : ends (fun _ => True) F (now clock p).
Proof. intros w. unfold now. by destruct (default clock (vp_Now p) w). Qed.

Lemma ends_sum {A} (Q : A -> Prop) (F : error -> Prop) (r : error + A) :
  match r with inl e => F e | inr a => Q a end -> ends Q F (of_sum r).
Proof. destruct r; [apply ends_fail | apply ends_ret]. Qed.

(** A loop: the invariant speaks of the elements done. *)
Lemma ends_for_fold {A B} (I : list A -> B -> Prop) F (f : B -> A -> ST error W B) l acc :
  I [] acc ->
  (forall before x after acc, l = before ++ x :: after -> I before acc -> ends (I (before ++ [x])) F (f acc x)) ->
  ends (I l) F (for_fold f acc l).
Proof.
  intros H0 Hstep.
  cut (forall rest before acc, l = before ++ rest -> I before acc -> ends (I l) F (for_fold f acc rest));
    [intros H; exact (H l [] acc eq_refl H0)|].
  induction rest as [|x rest IH]; intros before b -> HI; cbn [for_fold].
  - apply ends_ret. by rewrite app_nil_r.
  - apply (ends_bind (I (before ++ [x]))); [exact (Hstep before x rest b eq_refl HI)|].
    intros b' HI'. apply (IH (before ++ [x])); [by rewrite <- app_assoc | done].
Qed.
End ends.

(** ** Rules and statuses *)

Lemma fails_nil b rule : fails b rule = [] <-> b = false.
Proof. by destruct b. Qed.

Lemma is_nil_true {A} (l : list A) : is_nil l = true <-> l = [].
Proof. by destruct l. Qed.

Lemma elem_of_fails x b rule : x ∈ fails b rule <-> b = true /\ x = rule.
Proof. destruct b; simpl; [rewrite list_elem_of_singleton | rewrite elem_of_nil]; naive_solver. Qed.

(** A result no validator of the package leaves blocked. *)
Definition decided (r : VerificationResult) : Prop :=
  match vr_Status r with VerificationStatusPass | VerificationStatusFail | VerificationStatusNeedsReplan => True | _ => False end.

Lemma passed_spec r : passed r = true <-> vr_Status r = VerificationStatusPass.
Proof. unfold passed. destruct (vr_Status r); split; (discriminate || done). Qed.

Lemma passed_needs_no_replan results :
  Forall decided results -> (NeedsReplan results = false <-> Forall (fun r => passed r = true) results).
Proof.
  intros HD. unfold NeedsReplan. induction HD as [|r results Hr HD IH]; simpl; [by split; [constructor|]|].
  rewrite orb_false_iff, Forall_cons, IH, passed_spec. unfold decided in Hr.
  by destruct (vr_Status r); naive_solver.
Qed.

Lemma filter_all {A} (P : A -> Prop) `{!forall x, Decision (P x)} (l : list A) :
  length (filter P l) = length l <-> Forall P l.
Proof.
  induction l as [|x l IH]; [by split; [constructor|]|]. rewrite Forall_cons, <- IH, filter_cons.
  destruct (decide (P x)); cbn [length]; [naive_solver lia|].
  pose proof (length_filter P l). split; [lia | naive_solver].
Qed.

(** Nothing is selected exactly when nothing satisfies the condition. *)
Lemma fmap_filter_nil {A B} (f : A -> B) (P : A -> Prop) `{!forall x, Decision (P x)} (l : list A) :
  f <$> filter P l = [] <-> forall x, x ∈ l -> ~ P x.
Proof.
  assert (f <$> filter P l = [] <-> filter P l = []) as -> by (destruct (filter P l); split; done).
  split.
  - intros E x Hin HP. apply (not_elem_of_nil x). rewrite <- E. by apply list_elem_of_filter.
  - intros Hno. apply elem_of_nil_inv. intros x [HP Hin]%list_elem_of_filter. by apply (Hno x).
Qed.

Lemma oracle_passes scenario results t :
  results <> [] -> (ov_Passed (Oracle_Evaluate scenario results t) = true <-> Forall (fun r => passed r = true) results).
Proof.
  destruct results as [|r results]; [done|]. intros _. unfold Oracle_Evaluate. cbn [ov_Passed].
  rewrite Nat.eqb_eq. apply filter_all.
Qed.

Lemma outcome_status rules pass failed :
  (verificationOutcome rules pass failed).1 =
    (if is_nil rules then VerificationStatusPass
     else if existsb (fun rule => bool_decide (rule ∈ rules)) severe_rules
     then VerificationStatusFail else VerificationStatusNeedsReplan).
Proof.
  destruct rules as [|x rules]; [done|]. unfold verificationOutcome. cbn [is_nil].
  destruct (List.find _ _) as [y|] eqn:E.
  - apply find_some in E as [Hin Hy].
    assert (existsb (fun rule => bool_decide (rule ∈ x :: rules)) severe_rules = true) as -> by (apply existsb_exists; eauto). done.
  - destruct (existsb _ _) eqn:Ex; [|done]. apply existsb_exists in Ex as (y & Hin & Hy).
    by rewrite (find_none _ _ E y Hin) in Hy.
Qed.

Lemma block_result_status spec block validator label action rules missing extra context t :
  vr_Status (block_result spec block validator label action rules missing extra context t) =
    (verificationOutcome rules (label +:+ " verification passed") (label +:+ " validation failed")).1.
Proof. unfold block_result. by destruct (verificationOutcome _ _ _). Qed.

Lemma block_result_decided spec block validator label action rules missing extra context t :
  decided (block_result spec block validator label action rules missing extra context t).
Proof.
  unfold decided. rewrite block_result_status, outcome_status.
  destruct (is_nil rules); [done|]. by destruct (existsb _ _).
Qed.

Lemma block_result_passed spec block validator label action rules missing extra context t :
  passed (block_result spec block validator label action rules missing extra context t) = true <-> rules = [].
Proof.
  rewrite passed_spec, block_result_status, outcome_status, <- is_nil_true.
  destruct (is_nil rules); [done|]. destruct (existsb _ _); split; discriminate.
Qed.

Lemma first_case_none cases : first_case cases = None <-> Forall (fun c => c.1 = false) cases.
Proof.
  induction cases as [|[b o] cases IH]; simpl; [by split; [constructor|]|].
  rewrite Forall_cons. destruct b; simpl; [|naive_solver]. split; [done | by intros [? _]].
Qed.

Lemma diagnose_nil b d : diagnose_if b d = [] <-> b = false.
Proof. by destruct b. Qed.

Lemma concat_nil {A} (ls : list (list A)) : List.concat ls = [] <-> Forall (fun l => l = []) ls.
Proof.
  induction ls as [|l ls IH]; simpl; [by split; [constructor|]|]. by rewrite Forall_cons, app_nil, IH.
Qed.

Lemma join_nil {A} (ls : list (list A)) : mjoin ls = [] <-> Forall (fun l => l = []) ls.
Proof.
  induction ls as [|l ls IH]; simpl; [by split; [constructor|]|]. by rewrite Forall_cons, app_nil, IH.
Qed.

(** Nothing is wrong with any recommendation, wherever it stands. *)
Lemma each_nil f (Q : Recommendation -> Prop) l :
  (forall i r, f i r = [] <-> Q r) -> (each_recommendation f l = [] <-> Forall Q l).
Proof.
  intros Hf. unfold each_recommendation. rewrite concat_nil.
  revert f Hf. induction l as [|r l IH]; intros f Hf; cbn [imap]; [by split; constructor|].
  rewrite !Forall_cons, Hf. f_equiv. apply (IH (f ∘ S)). intros i r'. apply (Hf (S i)).
Qed.

(** Diagnostics of this severity make a result fail. *)
Definition serious (d : ValidationDiagnostic) : Prop :=
  vd_Severity d = ValidationSeverityError \/ vd_Severity d = ValidationSeverityCritical.

Lemma trust_passes diagnostics :
  Forall serious diagnostics ->
  VerificationStatusFromDiagnostics diagnostics =
    if is_nil diagnostics then VerificationStatusPass else VerificationStatusFail.
Proof. intros [|d l [H|H] _]; [done|..]; unfold VerificationStatusFromDiagnostics; simpl; by rewrite H. Qed.

Lemma serious_if b d : serious d -> Forall serious (diagnose_if b d).
Proof. intros H. destruct b; [by apply Forall_singleton | apply Forall_nil_2]. Qed.

Lemma serious_each f l : (forall i r, Forall serious (f i r)) -> Forall serious (each_recommendation f l).
Proof.
  intros H. unfold each_recommendation. apply Forall_concat. apply Forall_forall. intros x Hx.
  apply elem_of_lookup_imap in Hx as (i & r & -> & _). apply H.
Qed.

(** ** What the result of a block must be *)

(** Evidence of every mandatory type is in the block's context. *)
Definition mandatory_covered (block : ExecutionBlock) (context : BlockVerificationContext) : Prop :=
  forall req, req ∈ xb_RequiredEvidenceRefs block -> xr_Mandatory req = true ->
  exists e, e ∈ cs_EvidenceBlocks (bv_Slice context) /\ EvidenceType_string (eb_Type e) = xr_Type req.

Definition grounded_in (selected : list EvidenceID) (r : Recommendation) : Prop :=
  rc_GroundingRefs r <> [] \/ exists id, id ∈ rc_EvidenceRefs r /\ id ∈ selected.

Record common_sound (block : ExecutionBlock) (context : BlockVerificationContext) (id summary : string)
    (evidence : list EvidenceID) (recommendations : list Recommendation) : Prop := {
  so_mandatory : mandatory_covered block context;
  so_filled : id <> "" /\ summary <> "" /\ evidence <> [];
  so_grounded : Forall (grounded_in (bv_SelectedEvidenceIDs context)) recommendations;
}.

(** What holds of the typed result the pipeline looks at, by its kind. *)
Definition block_sound `{MO : MapOrder} (state : FinancialWorldState) (block : ExecutionBlock) (envelope : BlockResultEnvelope)
    (context : BlockVerificationContext) : Prop :=
  let common := common_sound block context in
  match be_Cashflow envelope, be_Debt envelope, be_Tax envelope, be_Portfolio envelope, be_Behavior envelope with
  | Some r, _, _, _, _ =>
      common (cbr_BlockID r) (cbr_Summary r) (cbr_EvidenceIDs r) (cbr_Recommendations r) /\
      cbr_Caveats r <> [] /\ Forall (fun ref => ref ∈ allowed_cashflow_refs) (cbr_MetricRefs r) /\
      cashflowMetricsConsistent (cbr_DeterministicMetrics r) (fw_CashflowState state) = true
  | None, Some r, _, _, _ =>
      common (dbr_BlockID r) (dbr_Summary r) (dbr_EvidenceIDs r) (dbr_Recommendations r) /\
      dbr_RiskFlags r <> [] /\
      debtMetricsConsistent (dbr_DeterministicMetrics r) (fw_LiabilityState state) (rk_OverallRisk (fw_RiskState state)) = true
  | None, None, Some r, _, _ =>
      common (tbr_BlockID r) (tbr_Summary r) (tbr_EvidenceIDs r) (tbr_Recommendations r) /\
      taxMetricsConsistent (tbr_DeterministicMetrics r) (fw_TaxState state) = true
  | None, None, None, Some r, _ =>
      common (pbr_BlockID r) (pbr_Summary r) (pbr_EvidenceIDs r) (pbr_Recommendations r) /\
      portfolioMetricsConsistent (pbr_DeterministicMetrics r) (fw_PortfolioState state) = true
  | None, None, None, None, Some r =>
      common (bbr_BlockID r) (bbr_Summary r) (bbr_EvidenceIDs r) (bbr_Recommendations r) /\
      selected_skill (bbr_SelectedSkill r) = true /\
      (f_leb (f_const 55 100) (bmb_DiscretionaryPressureScore (bbr_DeterministicMetrics r)) = true -> bbr_RiskFlags r <> []) /\
      behaviorMetricsConsistent (bbr_DeterministicMetrics r) state = true /\
      recommendationTypeMismatch r = false
  | None, None, None, None, None => False
  end.

Lemma missing_mandatory_nil block context :
  missingMandatoryEvidence block context = [] <-> mandatory_covered block context.
Proof.
  unfold missingMandatoryEvidence, mandatory_covered. rewrite fmap_filter_nil. split.
  - intros H req Hin Hm.
    destruct (decide (xr_Type req ∈ (fun item => EvidenceType_string (eb_Type item)) <$> cs_EvidenceBlocks (bv_Slice context)))
      as [(e & Heq & He)%list_elem_of_fmap|Hd]; [by exists e | by destruct (H req Hin)].
  - intros H req Hin [Hm Hno]. destruct (H req Hin Hm) as (e & He & Heq). apply Hno, list_elem_of_fmap. by exists e.
Qed.

Lemma existsb_elem (ids selected : list string) :
  existsb (fun id => bool_decide (id ∈ selected)) ids = true <-> exists id, id ∈ ids /\ id ∈ selected.
Proof.
  rewrite existsb_exists. setoid_rewrite <- list_elem_of_In.
  split; intros (id & Hin & Hs); exists id; (split; [done|]); by apply bool_decide_eq_true in Hs || apply bool_decide_eq_true.
Qed.

Lemma grounded_spec recommendations selected :
  recommendationsGrounded recommendations selected = true <-> Forall (grounded_in selected) recommendations.
Proof.
  unfold recommendationsGrounded. induction recommendations as [|r l IH]; simpl; [by split; [constructor|]|].
  rewrite andb_true_iff, IH, Forall_cons. f_equiv. unfold grounded_in.
  rewrite andb_true_iff, orb_true_iff, existsb_elem.
  destruct (rc_GroundingRefs r), (rc_EvidenceRefs r); simpl; set_solver.
Qed.

Lemma refs_consistent refs : cashflowMetricRefsConsistent refs = true <-> Forall (fun ref => ref ∈ allowed_cashflow_refs) refs.
Proof.
  unfold cashflowMetricRefsConsistent. rewrite forallb_forall, Forall_forall. setoid_rewrite <- list_elem_of_In.
  split; intros H x Hx; specialize (H x Hx); by apply bool_decide_eq_true in H || apply bool_decide_eq_true.
Qed.

Lemma common_ok block context id summary evidence recommendations :
  common_rules block context id summary evidence = [] /\ ungrounded recommendations context = [] <->
  common_sound block context id summary evidence recommendations.
Proof.
  unfold common_rules, ungrounded.
  rewrite app_nil, !fails_nil, !negb_false_iff, is_nil_true, missing_mandatory_nil, grounded_spec, !orb_false_iff.
  rewrite !bool_decide_eq_false.
  assert (is_nil evidence = false <-> evidence <> []) as -> by (rewrite <- not_true_iff_false, is_nil_true; done).
  split; [intros ((Hm & (Hi & Hs) & He) & Hg); by split | intros [Hm (Hi & Hs & He) Hg]; done].
Qed.

Ltac rules_exact := rewrite ?app_nil, ?fails_nil, ?negb_false_iff, ?is_nil_true, ?refs_consistent; rewrite <- ?common_ok.

Lemma cashflow_rules_exact `{MO : MapOrder} block r context state :
  cashflow_rules block r context state = [] <->
  common_sound block context (cbr_BlockID r) (cbr_Summary r) (cbr_EvidenceIDs r) (cbr_Recommendations r) /\
  cbr_Caveats r <> [] /\ Forall (fun ref => ref ∈ allowed_cashflow_refs) (cbr_MetricRefs r) /\
  cashflowMetricsConsistent (cbr_DeterministicMetrics r) (fw_CashflowState state) = true.
Proof.
  unfold cashflow_rules. rules_exact. destruct (cbr_Caveats r); simpl; intuition congruence.
Qed.

Lemma debt_rules_exact block r context state :
  debt_rules block r context state = [] <->
  common_sound block context (dbr_BlockID r) (dbr_Summary r) (dbr_EvidenceIDs r) (dbr_Recommendations r) /\
  dbr_RiskFlags r <> [] /\
  debtMetricsConsistent (dbr_DeterministicMetrics r) (fw_LiabilityState state) (rk_OverallRisk (fw_RiskState state)) = true.
Proof. unfold debt_rules. rules_exact. destruct (dbr_RiskFlags r); simpl; intuition congruence. Qed.

Lemma tax_rules_exact block r context state :
  tax_rules block r context state = [] <->
  common_sound block context (tbr_BlockID r) (tbr_Summary r) (tbr_EvidenceIDs r) (tbr_Recommendations r) /\
  taxMetricsConsistent (tbr_DeterministicMetrics r) (fw_TaxState state) = true.
Proof. unfold tax_rules. rules_exact. tauto. Qed.

Lemma portfolio_rules_exact `{MO : MapOrder} block r context state :
  portfolio_rules block r context state = [] <->
  common_sound block context (pbr_BlockID r) (pbr_Summary r) (pbr_EvidenceIDs r) (pbr_Recommendations r) /\
  portfolioMetricsConsistent (pbr_DeterministicMetrics r) (fw_PortfolioState state) = true.
Proof. unfold portfolio_rules. rules_exact. tauto. Qed.

Lemma behavior_rules_exact block r context state :
  behavior_rules block r context state = [] <->
  common_sound block context (bbr_BlockID r) (bbr_Summary r) (bbr_EvidenceIDs r) (bbr_Recommendations r) /\
  selected_skill (bbr_SelectedSkill r) = true /\
  (f_leb (f_const 55 100) (bmb_DiscretionaryPressureScore (bbr_DeterministicMetrics r)) = true -> bbr_RiskFlags r <> []) /\
  behaviorMetricsConsistent (bbr_DeterministicMetrics r) state = true /\
  recommendationTypeMismatch r = false.
Proof.
  unfold behavior_rules. rules_exact.
  destruct (f_leb _ _), (bbr_RiskFlags r); simpl; intuition congruence.
Qed.

Section validated.
Context `{MO : MapOrder} (spec : TaskSpec) (state : FinancialWorldState).

Lemma typed_result_exact block envelope context t :
  match typed_result spec state block envelope context with
  | Some validate => decided (validate t) /\ (passed (validate t) = true <-> block_sound state block envelope context)
  | None => ~ block_sound state block envelope context
  end.
Proof.
  unfold typed_result, block_sound.
  destruct (be_Cashflow envelope) as [r|];
    [unfold CashflowBlockValidator; rewrite block_result_passed; split; [apply block_result_decided | apply cashflow_rules_exact]|].
  destruct (be_Debt envelope) as [r|];
    [unfold DebtBlockValidator; rewrite block_result_passed; split; [apply block_result_decided | apply debt_rules_exact]|].
  destruct (be_Tax envelope) as [r|];
    [unfold TaxBlockValidator; rewrite block_result_passed; split; [apply block_result_decided | apply tax_rules_exact]|].
  destruct (be_Portfolio envelope) as [r|];
    [unfold PortfolioBlockValidator; rewrite block_result_passed; split; [apply block_result_decided | apply portfolio_rules_exact]|].
  destruct (be_Behavior envelope) as [r|]; [|tauto].
  unfold BehaviorBlockValidator. rewrite block_result_passed. split; [apply block_result_decided | apply behavior_rules_exact].
Qed.

Lemma severe_not_passed r : severeBlockFailure r = true -> passed r = false.
Proof.
  unfold severeBlockFailure, passed. rewrite !andb_true_iff, !bool_decide_eq_true. intros [[_ ->] _]. done.
Qed.
End validated.

(** ** What a report that passes is *)

(** The last element with this key counts. *)
Definition last_by {A} (key : A -> string) (l : list A) (id : string) : option A := last (filter (fun x => key x = id) l).

(** A text's numbers are numbers of the metrics. *)
Definition numbers_stated (index : gmap string MetricRecord) (text : string) : Prop :=
  forall claim, claim ∈ FindAllString match_claim text ->
  exists ref record, index !! ref = Some record /\ normalizeNumericClaim claim ∈ metricClaims record.

Definition refs_known (refs : list string) (known : string -> Prop) : Prop := forall ref, ref ∈ refs -> ref <> "" -> known ref.

Section report.
Context (spec : TaskSpec) (state : FinancialWorldState) (evidence : list EvidenceRecord) (memories : list MemoryRecord)
  (finalContext : BlockVerificationContext) (data : trustReportData).

Let index := metricRecordIndex (td_MetricRecords data).

(** A recommendation rests on known metrics, evidence and memories, states
    only numbers of the metrics and discloses high risk. *)
Record recommendation_sound (r : Recommendation) : Prop := {
  rs_grounded : rc_GroundingRefs r <> [] \/ rc_MetricRefs r <> [] \/ rc_EvidenceRefs r <> [] \/ rc_MemoryRefs r <> [];
  rs_metrics : refs_known (rc_MetricRefs r) (fun ref => exists m, m ∈ td_MetricRecords data /\ mr_Ref m = ref);
  rs_evidence : refs_known (rc_EvidenceRefs r) (fun ref =>
    (exists e, e ∈ evidence /\ er_ID e = ref) \/ ref ∈ bv_SelectedEvidenceIDs finalContext);
  rs_memories : refs_known (rc_MemoryRefs r) (fun ref =>
    (exists m, m ∈ memories /\ mm_ID m = ref) \/ ref ∈ bv_SelectedMemoryIDs finalContext);
  rs_disclosed : requiresDisclosure r = true -> rc_Caveats r <> [];
  rs_numbers : numbers_stated index (rc_Title r) /\ numbers_stated index (rc_Detail r);
}.

(** What a task of this kind adds. *)
Definition rules_sound (r : Recommendation) : Prop :=
  match ts_UserIntentType spec with
  | UserIntentMonthlyReview =>
      (isAggressiveRecommendation (rc_Type r) = true -> low_liquidity index = true -> marked_high r = true /\ rc_Caveats r <> []) /\
      (f_leb (f_const 2 10) (li_DebtBurdenRatio (fw_LiabilityState state)) = true -> rc_Type r <> RecommendationTypeOther "")
  | UserIntentDebtVsInvest =>
      rc_Type r = RecommendationTypeInvestMore -> low_liquidity index = true \/ high_debt_pressure index = true ->
      marked_high r = true /\ rc_ApprovalRequired r = true
  | UserIntentTaxOptimization =>
      rc_Type r = RecommendationTypeTaxAction ->
      containsAnyText (rc_Caveats r) ["deadline"; "withholding"; "compliance"; "截止"; "预扣"; "合规"] = true
  | UserIntentPortfolioRebalance =>
      rc_Type r = RecommendationTypePortfolioRebalance ->
      containsAnyText (rc_Caveats r) ["drift"; "liquidity"; "tax"; "偏离"; "流动性"; "税"] = true
  | _ => True
  end.

Lemma unknown_refs_nil refs allowed :
  is_nil (unknownRefs refs allowed) = true <-> refs_known refs (fun ref => ref ∈ allowed).
Proof.
  rewrite is_nil_true. unfold unknownRefs, refs_known. split.
  - intros E ref Hin Hne. destruct (decide (ref ∈ allowed)) as [|Hno]; [done|].
    exfalso. apply (not_elem_of_nil ref). rewrite <- E. apply elem_of_SortFunc. by apply list_elem_of_filter.
  - intros H. apply elem_of_nil_inv. intros ref [[Hne Hno] Hin]%elem_of_SortFunc%list_elem_of_filter. by apply Hno, H.
Qed.

Lemma refs_known_iff refs (P Q : string -> Prop) :
  (forall ref, ref <> "" -> (P ref <-> Q ref)) -> (refs_known refs P <-> refs_known refs Q).
Proof. intros H. unfold refs_known. split; intros HP ref Hin Hne; by apply (H ref Hne), HP. Qed.

Lemma check_text_nil prefix refs text idx :
  check_text index prefix refs text idx = [] <-> numbers_stated index text.
Proof.
  unfold check_text, numbers_stated. rewrite fmap_filter_nil.
  assert (Hu : forall claim, unsupported_claim index refs claim = false <->
    normalizeNumericClaim claim = "" \/
    exists ref record, index !! ref = Some record /\ normalizeNumericClaim claim ∈ metricClaims record).
  { intros claim. unfold unsupported_claim. rewrite negb_false_iff, !orb_true_iff, !bool_decide_eq_true.
    unfold allowedNumericClaims, numericClaimMatchesRefs. rewrite existsb_exists, list_elem_of_join. split.
    - intros [[H|(l & Hl & Hin)]|(ref & Hin & H)]; [by left|right..].
      + apply list_elem_of_fmap in Hin as ([ref record] & -> & Hin%elem_of_map_to_list). by exists ref, record.
      + destruct (index !! ref) as [record|] eqn:E; [|done]. apply bool_decide_eq_true in H. by exists ref, record.
    - intros [H|(ref & record & E & Hin)]; [by left; left|left; right]. exists (metricClaims record). split; [done|].
      apply list_elem_of_fmap. exists (ref, record). split; [done|]. by apply elem_of_map_to_list. }
  split.
  - intros H claim Hin. apply H in Hin as Hc. rewrite not_true_iff_false, Hu in Hc.
    destruct Hc as [Hc|Hc]; [by apply claim_not_empty in Hin | done].
  - intros H claim Hin. rewrite not_true_iff_false, Hu. auto.
Qed.

Lemma metric_set ref : ref <> "" -> (ref ∈ setFromMetricRecords (td_MetricRecords data) <-> exists m, m ∈ td_MetricRecords data /\ mr_Ref m = ref).
Proof.
  intros Hne. unfold setFromMetricRecords. rewrite list_elem_of_filter, list_elem_of_fmap. naive_solver.
Qed.

Lemma grounding_nil i r :
  grounding_diagnostics (setFromMetricRecords (td_MetricRecords data))
    ((er_ID <$> evidence) ++ bv_SelectedEvidenceIDs finalContext) ((mm_ID <$> memories) ++ bv_SelectedMemoryIDs finalContext) i r = [] <->
  (rc_GroundingRefs r <> [] \/ rc_MetricRefs r <> [] \/ rc_EvidenceRefs r <> [] \/ rc_MemoryRefs r <> []) /\
  refs_known (rc_MetricRefs r) (fun ref => exists m, m ∈ td_MetricRecords data /\ mr_Ref m = ref) /\
  refs_known (rc_EvidenceRefs r) (fun ref => (exists e, e ∈ evidence /\ er_ID e = ref) \/ ref ∈ bv_SelectedEvidenceIDs finalContext) /\
  refs_known (rc_MemoryRefs r) (fun ref => (exists m, m ∈ memories /\ mm_ID m = ref) \/ ref ∈ bv_SelectedMemoryIDs finalContext) /\
  (requiresDisclosure r = true -> rc_Caveats r <> []).
Proof.
  unfold grounding_diagnostics. cbv zeta. rewrite !app_nil, !diagnose_nil, !negb_false_iff, !unknown_refs_nil, andb_false_iff.
  rewrite (refs_known_iff (rc_MetricRefs r) _ _ metric_set).
  rewrite (refs_known_iff (rc_EvidenceRefs r) (fun ref => ref ∈ _ ++ _)
    (fun ref => (exists e, e ∈ evidence /\ er_ID e = ref) \/ ref ∈ bv_SelectedEvidenceIDs finalContext))
    by (intros ref _; rewrite elem_of_app, list_elem_of_fmap; naive_solver).
  rewrite (refs_known_iff (rc_MemoryRefs r) (fun ref => ref ∈ _ ++ _)
    (fun ref => (exists m, m ∈ memories /\ mm_ID m = ref) \/ ref ∈ bv_SelectedMemoryIDs finalContext))
    by (intros ref _; rewrite elem_of_app, list_elem_of_fmap; naive_solver).
  destruct (rc_GroundingRefs r), (rc_MetricRefs r), (rc_EvidenceRefs r), (rc_MemoryRefs r), (requiresDisclosure r), (rc_Caveats r);
    simpl; intuition congruence.
Qed.

(** All the diagnostics are serious, and there are none exactly for sound
    recommendations and risk flags. *)
Lemma numeric_nil :
  numeric_diagnostics data = [] <->
  Forall (fun r => numbers_stated index (rc_Title r) /\ numbers_stated index (rc_Detail r)) (td_Recommendations data) /\
  Forall (fun risk => numbers_stated index (rf_Detail risk)) (td_RiskFlags data).
Proof.
  unfold numeric_diagnostics. cbv zeta. fold index. rewrite app_nil.
  rewrite (each_nil _ (fun r => numbers_stated index (rc_Title r) /\ numbers_stated index (rc_Detail r)))
    by (intros i r; by rewrite app_nil, !check_text_nil).
  f_equiv. induction (td_RiskFlags data) as [|risk l IH]; simpl; [by split; [constructor|]|].
  by rewrite app_nil, Forall_cons, check_text_nil, IH.
Qed.

Lemma business_nil : business_rules spec state data = [] <-> Forall rules_sound (td_Recommendations data).
Proof.
  unfold business_rules. cbv zeta. fold index.
  assert (Hall : forall Q, (forall r, Q r <-> rules_sound r) -> (Forall Q (td_Recommendations data) <-> Forall rules_sound (td_Recommendations data)))
    by (intros Q HQ; by apply Forall_iff).
  assert (Htrue : (forall r, rules_sound r) -> [] = @nil ValidationDiagnostic <-> Forall rules_sound (td_Recommendations data))
    by (intros H; split; [intros _; by apply Forall_true | done]).
  destruct (ts_UserIntentType spec) eqn:E; try (apply Htrue; intros r; unfold rules_sound; by rewrite E);
    apply each_nil; intros i r; unfold rules_sound; rewrite E.
  - unfold monthly_rules. cbv zeta. rewrite !app_nil, !diagnose_nil, !andb_false_iff, bool_decide_eq_false.
    destruct (isAggressiveRecommendation _), (low_liquidity _), (marked_high _), (f_leb _ _), (rc_Caveats r); simpl; intuition congruence.
  - unfold invest_rules. cbv zeta. rewrite !app_nil, !diagnose_nil, !andb_false_iff, bool_decide_eq_false, negb_false_iff.
    destruct (low_liquidity _), (high_debt_pressure _), (marked_high _), (rc_ApprovalRequired r), (decide (rc_Type r = RecommendationTypeInvestMore)); simpl; intuition congruence.
  - unfold tax_action_rules. rewrite !diagnose_nil, !andb_false_iff, bool_decide_eq_false, negb_false_iff.
    destruct (containsAnyText _ _), (decide (rc_Type r = RecommendationTypeTaxAction)); simpl; intuition congruence.
  - unfold rebalance_rules. rewrite !diagnose_nil, !andb_false_iff, bool_decide_eq_false, negb_false_iff.
    destruct (containsAnyText _ _), (decide (rc_Type r = RecommendationTypePortfolioRebalance)); simpl; intuition congruence.
Qed.
End report.

Lemma serious_grounding metricRefs evidenceRefs memoryRefs i r :
  Forall serious (grounding_diagnostics metricRefs evidenceRefs memoryRefs i r).
Proof.
  unfold grounding_diagnostics. cbv zeta. rewrite !Forall_app.
  split_and!; apply serious_if; (by left) || (by right).
Qed.

Lemma serious_text index prefix refs text idx : Forall serious (check_text index prefix refs text idx).
Proof. unfold check_text. apply Forall_fmap, Forall_true. intros claim. by left. Qed.

Lemma serious_numeric data : Forall serious (numeric_diagnostics data).
Proof.
  unfold numeric_diagnostics. cbv zeta. apply Forall_app. split.
  - apply serious_each. intros i r. apply Forall_app. split; apply serious_text.
  - apply Forall_join, Forall_fmap, Forall_true. intros risk. apply serious_text.
Qed.

Lemma serious_business spec state data : Forall serious (business_rules spec state data).
Proof.
  unfold business_rules. cbv zeta.
  destruct (ts_UserIntentType spec); try apply Forall_nil_2; apply serious_each; intros i r;
    unfold monthly_rules, invest_rules, tax_action_rules, rebalance_rules; cbv zeta;
    rewrite ?Forall_app; split_and?; apply serious_if; (by left) || (by right).
Qed.

Lemma built_result_exact taskID category validator pass action diagnostics t :
  Forall serious diagnostics ->
  let r := buildValidatorResult taskID (VerificationStatusFromDiagnostics diagnostics) category validator pass action diagnostics t in
  decided (finally r) /\ (passed (finally r) = true <-> diagnostics = []).
Proof.
  intros H. cbv zeta. unfold decided. rewrite passed_spec.
  change (vr_Status (finally _)) with (VerificationStatusFromDiagnostics diagnostics).
  rewrite (trust_passes _ H), <- is_nil_true. by destruct (is_nil diagnostics).
Qed.

(** ** The report itself *)

Section report_checks.
Context `{TE : TextErrors} (spec : TaskSpec) (state : FinancialWorldState).

Definition keys_present (p : payload) (keys : list string) : Prop := Forall (fun key => is_Some (lookup_key p key)) keys.

Definition no_case (cases : list business_case) : Prop := Forall (fun c => c.1 = false) cases.

(** The keys and the cases of the validators of the report. *)
Definition report_sound (p : payload) : Prop :=
  match ts_UserIntentType spec with
  | UserIntentMonthlyReview =>
      keys_present p monthly_required_keys /\
      cf_MonthlyInflowCents (fw_CashflowState state) <> 0 /\ cf_MonthlyOutflowCents (fw_CashflowState state) <> 0 /\
      no_case (monthly_cases state p (flattenOutput p))
  | UserIntentTaxOptimization =>
      keys_present p ["summary"; "deterministic_metrics"; "recommended_actions"; "risk_flags"] /\
      no_case (tax_cases state p (flattenOutput p))
  | UserIntentPortfolioRebalance =>
      keys_present p ["summary"; "deterministic_metrics"; "recommended_actions"; "risk_flags"] /\
      no_case (portfolio_cases state p (flattenOutput p))
  | UserIntentBehaviorIntervention =>
      keys_present p ["summary"; "deterministic_metrics"; "selected_skill_family"; "selected_recipe_id"; "recommendations"; "risk_flags"] /\
      no_case (behavior_cases state p (flattenOutput p))
  | _ => no_case (debt_cases state p (flattenOutput p))
  end.

Lemma missing_keys_nil p keys : is_nil (missingKeys p keys) = true <-> keys_present p keys.
Proof.
  rewrite is_nil_true. unfold missingKeys, keys_present. induction keys as [|key keys IH]; [by split; [constructor|]|].
  rewrite filter_cons, Forall_cons, <- IH, <- not_eq_None_Some. case_decide; naive_solver.
Qed.

(** A validator that fails with the payload, or has a result that passes
    exactly when [P] holds. *)
Definition checks (output : Output) (P : payload -> Prop) (f : time -> error + VerificationResult) : Prop :=
  forall t, match toMap output with
            | inl _ => exists e, f t = inl e
            | inr p => exists r, f t = inr r /\ decided (finally r) /\ (passed (finally r) = true <-> P p)
            end.

Lemma checks_keys output keys validator label action :
  checks output (fun p => keys_present p keys) (fun t => keys_validator spec output t keys validator label action).
Proof.
  intros t. unfold keys_validator. destruct (toMap output) as [e|p]; [by exists e|]. eexists. split; [reflexivity|].
  rewrite <- missing_keys_nil. by destruct (is_nil (missingKeys p keys)).
Qed.

Lemma checks_monthly output :
  checks output (fun p => keys_present p monthly_required_keys /\ cf_MonthlyInflowCents (fw_CashflowState state) <> 0 /\
                          cf_MonthlyOutflowCents (fw_CashflowState state) <> 0)
    (MonthlyReviewDeterministicValidator spec state output).
Proof.
  intros t. unfold MonthlyReviewDeterministicValidator. destruct (toMap output) as [e|p]; [by exists e|].
  setoid_rewrite <- missing_keys_nil. setoid_rewrite <- Z.eqb_neq. simpl mbind. cbv beta zeta.
  destruct (cf_MonthlyInflowCents _ =? 0), (cf_MonthlyOutflowCents _ =? 0), (is_nil (missingKeys p monthly_required_keys)); (eexists; split; [reflexivity|]);
    (split; [exact I|]); rewrite passed_spec; (split; [discriminate || done | intros (? & ? & ?); discriminate || done]).
Qed.

(** The cases of a [switch] do not pass. *)
Definition no_pass (c : business_case) : Prop :=
  c.2.1.1.1 = VerificationStatusFail \/ c.2.1.1.1 = VerificationStatusNeedsReplan.

Lemma checks_business output validator pass action (cases : payload -> list business_case) :
  (forall p, Forall no_pass (cases p)) ->
  checks output (fun p => no_case (cases p))
    (fun t => p ← toMap output; mret (business_result spec t validator pass action (cases p))).
Proof.
  intros HP t. destruct (toMap output) as [e|p]; [by exists e|]. eexists. split; [reflexivity|].
  unfold business_result, no_case. rewrite <- first_case_none. specialize (HP p).
  induction (cases p) as [|[[] [[[status message] rule] missing]] l IH]; [done| |].
  - apply Forall_cons in HP as [[H|H] _]; simpl in H; subst status; split; (done || by split).
  - apply Forall_cons in HP as [_ HP]. exact (IH HP).
Qed.

Ltac no_pass_cases := intros p; repeat apply Forall_cons_2; [..|apply Forall_nil_2]; (left; reflexivity) || (right; reflexivity).

Lemma no_pass_monthly text p : Forall no_pass (monthly_cases state p (text p)).
Proof. revert p. no_pass_cases. Qed.
Lemma no_pass_debt text p : Forall no_pass (debt_cases state p (text p)).
Proof. revert p. no_pass_cases. Qed.
Lemma no_pass_tax text p : Forall no_pass (tax_cases state p (text p)).
Proof. revert p. no_pass_cases. Qed.
Lemma no_pass_portfolio text p : Forall no_pass (portfolio_cases state p (text p)).
Proof. revert p. no_pass_cases. Qed.
Lemma no_pass_behavior text p : Forall no_pass (behavior_cases state p (text p)).
Proof. revert p. no_pass_cases. Qed.
End report_checks.

(** ** Runs of the pipeline *)

(** The pipeline of the package: no part is replaced, the clock may be. *)
Definition standard_pipeline {W} (clock : option (W -> W * time)) : VerifyPipeline.Pipeline (W:=W) :=
  VerifyPipeline.mkPipeline None None None None None None None None clock.

(** Results that are decided, and all pass exactly when [P] holds. *)
Definition results_mean (P : Prop) (results : list VerificationResult) : Prop :=
  Forall decided results /\ (Forall (fun r => passed r = true) results <-> P).

Lemma results_mean_one P r : decided r -> (passed r = true <-> P) -> results_mean P [r].
Proof. intros Hd HP. split; [by apply Forall_singleton | by rewrite Forall_singleton]. Qed.

Lemma results_mean_app P Q l l' : results_mean P l -> results_mean Q l' -> results_mean (P /\ Q) (l ++ l').
Proof. intros [H1 H2] [H3 H4]. split; [by apply Forall_app | by rewrite Forall_app, H2, H4]. Qed.

Lemma results_mean_iff P Q l : (P <-> Q) -> results_mean P l -> results_mean Q l.
Proof. intros HPQ [H1 H2]. split; [done | by rewrite H2]. Qed.

Section runs.
Context {W : Type} (system_now : W -> W * time) `{TE : TextErrors} `{MO : MapOrder} (clock : option (W -> W * time)).
Let pipeline := standard_pipeline clock.
Context (spec : TaskSpec) (state : FinancialWorldState) (evidence : list EvidenceRecord) (memories : list MemoryRecord)
  (finalContext : BlockVerificationContext) (output : Output).

Lemma ends_check (P : payload -> Prop) f :
  checks output P f ->
  ends (fun r => exists p, toMap output = inr p /\ results_mean (P p) [finally r]) (fun _ => exists e, toMap output = inl e)
    (timed system_now f).
Proof.
  intros H. apply ends_timed. intros t. specialize (H t). destruct (toMap output) as [e|p].
  - destruct H as (e' & ->). by exists e.
  - destruct H as (r & -> & Hd & HP). exists p. split; [done|]. by apply results_mean_one.
Qed.

Lemma ends_two (P Q : payload -> Prop) f g :
  checks output P f -> checks output Q g ->
  ends (fun l => exists p, toMap output = inr p /\ results_mean (P p /\ Q p) l) (fun _ => exists e, toMap output = inl e)
    (d ← timed system_now f; b ← timed system_now g; mret [finally d; finally b]).
Proof.
  intros Hf Hg. eapply ends_bind; [by apply ends_check|]. intros d (p & Hp & Hd).
  eapply ends_bind; [by apply ends_check|]. intros b (p' & Hp' & Hb). apply ends_ret.
  rewrite Hp in Hp'. injection Hp' as <-. exists p. split; [done|]. by apply (results_mean_app _ _ [_] [_]).
Qed.

Lemma ends_report_results :
  ends (fun l => exists p, toMap output = inr p /\ results_mean (report_sound spec state p) l)
       (fun _ => exists e, toMap output = inl e)
    (report_results system_now pipeline spec state evidence output).
Proof.
  unfold report_results, report_sound.
  assert (Hdebt : ends (fun l => exists p, toMap output = inr p /\ results_mean (no_case (debt_cases state p (flattenOutput p))) l)
    (fun _ => exists e, toMap output = inl e)
    (b ← businessValidator system_now pipeline false spec state evidence output; mret [finally b])).
  { eapply ends_bind; [apply ends_check, checks_business; intros p; apply no_pass_debt|].
    intros b Hb. by apply ends_ret. }
  destruct (ts_UserIntentType spec); try exact Hdebt.
  - eapply ends_weaken; [apply ends_two; [apply checks_monthly | apply checks_business; intros p; apply no_pass_monthly] | | done].
    intros l (p & Hp & Hl). exists p. split; [done|]. eapply results_mean_iff; [|exact Hl]. simpl. tauto.
  - apply ends_two; [apply checks_keys | apply checks_business; intros p; apply no_pass_behavior].
  - apply ends_two; [apply checks_keys | apply checks_business; intros p; apply no_pass_tax].
  - apply ends_two; [apply checks_keys | apply checks_business; intros p; apply no_pass_portfolio].
Qed.

(** Trust: the payload is a report, whose claims are all sound. *)
Definition claims_sound (data : trustReportData) : Prop :=
  Forall (recommendation_sound evidence memories finalContext data) (td_Recommendations data) /\
  Forall (fun risk => numbers_stated (metricRecordIndex (td_MetricRecords data)) (rf_Detail risk)) (td_RiskFlags data) /\
  Forall (rules_sound spec state data) (td_Recommendations data).

Lemma claims_exact data :
  claims_sound data <->
  each_recommendation (grounding_diagnostics (setFromMetricRecords (td_MetricRecords data))
    ((er_ID <$> evidence) ++ bv_SelectedEvidenceIDs finalContext) ((mm_ID <$> memories) ++ bv_SelectedMemoryIDs finalContext))
    (td_Recommendations data) = [] /\ numeric_diagnostics data = [] /\ business_rules spec state data = [].
Proof.
  rewrite numeric_nil, business_nil.
  rewrite (each_nil _ _ _ (grounding_nil evidence memories finalContext data)).
  unfold claims_sound. split.
  - intros (Hr & Hf & Hs). split_and!; try done; (eapply Forall_impl; [exact Hr|]); by intros r [].
  - intros (Hg & (Hn & Hf) & Hs). split_and!; try done. apply Forall_forall. intros r Hin.
    rewrite Forall_forall in Hg, Hn. destruct (Hg r Hin) as (? & ? & ? & ? & ?). by split; auto.
Qed.

Lemma ends_trust :
  ends (fun l => exists data, reportPayloadFromOutput output = inr data /\ results_mean (claims_sound data) l)
       (fun _ => exists e, reportPayloadFromOutput output = inl e)
    (verifyTrust system_now pipeline spec state evidence memories finalContext output).
Proof.
  unfold verifyTrust. destruct (reportPayloadFromOutput output) as [e|data] eqn:E.
  { eapply (ends_bind (fun _ => False)); [|done]. apply ends_timed. intros t.
    unfold FinancialGroundingValidator. rewrite E. by exists e. }
  assert (Hone : forall (f : time -> error + list VerificationResult) diagnostics taskID category validator pass action,
    (forall t, f t = inr [buildValidatorResult taskID (VerificationStatusFromDiagnostics diagnostics) category validator pass action diagnostics t]) ->
    Forall serious diagnostics ->
    ends (fun l => results_mean (diagnostics = []) (finally <$> l)) (fun _ => exists e : error, (inr data : error + trustReportData) = inl e) (timed system_now f)).
  { intros f diagnostics taskID category validator pass action Hf Hs. apply ends_timed. intros t. rewrite Hf.
    destruct (built_result_exact taskID category validator pass action diagnostics t Hs). by apply results_mean_one. }
  eapply ends_bind; [eapply Hone; [intros t; unfold FinancialGroundingValidator; by rewrite E | apply serious_each; intros; apply serious_grounding]|].
  intros g Hg.
  eapply ends_bind; [eapply Hone; [intros t; unfold FinancialNumericConsistencyValidator; by rewrite E | apply serious_numeric]|].
  intros n Hn.
  eapply ends_bind; [eapply Hone; [intros t; unfold TrustBusinessRuleValidator; by rewrite E | apply serious_business]|].
  intros b Hb. apply ends_ret. exists data. split; [done|]. rewrite !fmap_app.
  eapply results_mean_iff; [symmetry; apply claims_exact|]. apply results_mean_app; [done|]. by apply results_mean_app.
Qed.

Definition final_sound : Prop :=
  (bv_SelectedEvidenceIDs finalContext <> [] /\ bv_ResultSummary finalContext <> "") /\
  (exists p, toMap output = inr p /\ report_sound spec state p) /\
  (exists data, reportPayloadFromOutput output = inr data /\ claims_sound data).

Lemma ends_final :
  ends (results_mean final_sound) (fun _ => ~ final_sound)
    (verifyFinal system_now pipeline spec state evidence memories finalContext output).
Proof.
  unfold verifyFinal. eapply ends_bind; [apply ends_now|]. intros t _.
  eapply ends_bind; [eapply ends_weaken; [apply ends_report_results | exact (fun _ H => H) | intros _ [e He] (_ & (p & Hp & _) & _); congruence]|].
  intros reports (p & Hp & Hr).
  eapply ends_bind; [eapply ends_weaken; [apply ends_trust | exact (fun _ H => H) | intros _ [e He] (_ & _ & data & Hd & _); congruence]|].
  intros trust (data & Hd & Ht). apply ends_ret.
  apply (results_mean_iff ((bv_SelectedEvidenceIDs finalContext <> [] /\ bv_ResultSummary finalContext <> "") /\
    (report_sound spec state p /\ claims_sound data))).
  { unfold final_sound. split.
    - intros (Hc & Hs & Hcl). eauto 10.
    - intros (Hc & (p' & Hp' & Hs) & data' & Hd' & Hcl). rewrite Hp in Hp'. rewrite Hd in Hd'.
      injection Hp' as <-. injection Hd' as <-. done. }
  apply (results_mean_app _ _ [_]); [|by apply results_mean_app].
  unfold context_result. destruct (bv_SelectedEvidenceIDs finalContext), (bool_decide_reflect (bv_ResultSummary finalContext = ""));
    apply results_mean_one; (exact I || (rewrite passed_spec; simpl; split; (discriminate || naive_solver))).
Qed.
(** The envelope and the context that count for a block. *)
Definition block_verified (envelopes : list BlockResultEnvelope) (contexts : list BlockVerificationContext)
    (block : ExecutionBlock) : Prop :=
  exists envelope context,
    last_by be_BlockID envelopes (xb_ID block) = Some envelope /\ last_by bv_BlockID contexts (xb_ID block) = Some context /\
    block_sound state block envelope context.

(** A map holds one result of a block, which says whether it is verified. *)
Definition result_says (envelopes : list BlockResultEnvelope) (contexts : list BlockVerificationContext)
    (results : gmap string (list VerificationResult)) (block : ExecutionBlock) : Prop :=
  exists r, results !! xb_ID block = Some [r] /\ decided r /\ (passed r = true <-> block_verified envelopes contexts block).

Lemma ends_verify_block envelopes contexts resultByID contextByID acc block :
  (forall id, resultByID !! id = last_by be_BlockID envelopes id) ->
  (forall id, contextByID !! id = last_by bv_BlockID contexts id) ->
  ends (fun acc' => exists r, acc'.1 = <[xb_ID block := [r]]> acc.1 /\ decided r /\
          (passed r = true <-> block_verified envelopes contexts block) /\
          (acc'.2 = true -> acc.2 = true \/ ~ block_verified envelopes contexts block))
       (fun _ => False)
    (verify_block system_now pipeline spec state resultByID contextByID acc block).
Proof.
  intros Hr Hc. destruct acc as [results severe]. unfold verify_block.
  assert (Hmissing : (~ block_verified envelopes contexts block) -> forall validator message action flag,
    ends (fun acc' => exists r, acc'.1 = <[xb_ID block := [r]]> results /\ decided r /\
            (passed r = true <-> block_verified envelopes contexts block) /\
            (acc'.2 = true -> severe = true \/ ~ block_verified envelopes contexts block)) (fun _ => False)
      (t ← now system_now pipeline;
       mret (<[xb_ID block := [block_failure spec block validator message action t]]> results, flag))).
  { intros Hno validator message action flag. eapply ends_bind; [apply ends_now|]. intros t _. apply ends_ret.
    eexists. split; [reflexivity|]. split; [exact I|]. split; [|by right]. rewrite passed_spec. by split. }
  destruct (resultByID !! xb_ID block) as [envelope|] eqn:Ee; rewrite Hr in Ee;
    [|apply Hmissing; intros (? & ? & He & _); congruence].
  destruct (contextByID !! xb_ID block) as [context|] eqn:Ec; rewrite Hc in Ec;
    [|apply Hmissing; intros (? & ? & _ & He & _); congruence].
  assert (Hv : block_verified envelopes contexts block <-> block_sound state block envelope context).
  { unfold block_verified. split; [intros (? & ? & He & Hx & ?); congruence | eauto]. }
  pose proof (typed_result_exact spec state block envelope context) as Ht.
  apply (ends_bind (fun r => decided r /\ (passed r = true <-> block_verified envelopes contexts block))).
  - destruct (typed_result _ _ _ _ _) as [validate|].
    + apply ends_timed. intros t. rewrite Hv. apply Ht.
    + eapply ends_bind; [apply ends_now|]. intros t _. apply ends_ret. rewrite Hv. split; [exact I|].
      rewrite passed_spec. split; [done|]. intros H. by apply (Ht zero_time) in H.
  - intros r [Hd Hp]. apply ends_ret. exists r. split_and!; [done..|]. simpl. rewrite orb_true_iff.
    intros [H|H%severe_not_passed]; [by left|right]. rewrite <- Hp, H. done.
Qed.

Lemma flatten_means envelopes contexts results blocks :
  Forall (result_says envelopes contexts results) blocks ->
  results_mean (Forall (block_verified envelopes contexts) blocks)
    (mjoin ((fun block => default [] (results !! xb_ID block)) <$> blocks)).
Proof.
  induction 1 as [|block blocks (r & Hm & Hd & Hp) _ IH]; [split; [constructor | by split; [constructor|]]|].
  cbn [fmap list_fmap mjoin list_join]. rewrite Hm. cbn [default]. eapply results_mean_iff; [symmetry; apply Forall_cons|].
  apply (results_mean_app _ _ [r]); [by apply results_mean_one | exact IH].
Qed.

Lemma ends_blocks plan envelopes contexts :
  NoDup (block_ids (ep_Blocks plan)) ->
  ends (fun acc => Forall (fun e => BlockResultEnvelope_Validate e = None) envelopes /\
          results_mean (Forall (block_verified envelopes contexts) (ep_Blocks plan)) (flattenBlockResults plan acc.1) /\
          (acc.2 = true -> ~ Forall (block_verified envelopes contexts) (ep_Blocks plan)))
       (fun _ => ~ Forall (fun e => BlockResultEnvelope_Validate e = None) envelopes)
    (verifyBlocks system_now pipeline spec state plan envelopes contexts).
Proof.
  intros Hnd. unfold verifyBlocks.
  apply (ends_bind (fun m => (forall id, m !! id = last_by be_BlockID envelopes id) /\
    Forall (fun e => BlockResultEnvelope_Validate e = None) envelopes)).
  { apply (ends_for_fold (fun before m => (forall id, m !! id = last_by be_BlockID before id) /\
      Forall (fun e => BlockResultEnvelope_Validate e = None) before)).
    - split; [|constructor]. intros id. by rewrite lookup_empty.
    - intros before e after m -> [Hm Hall].
      apply (ends_bind (fun _ => BlockResultEnvelope_Validate e = None)).
      + apply ends_sum. destruct (BlockResultEnvelope_Validate e) eqn:E; [|done].
        intros Hf. rewrite Forall_app, Forall_cons in Hf. destruct Hf as (_ & He & _). congruence.
      + intros _ He. apply ends_ret. split; [|by apply Forall_app; split; [|apply Forall_singleton]].
        intros id. unfold last_by. rewrite filter_app, filter_cons, filter_nil.
        destruct (decide (be_BlockID e = id)) as [<-|Hne];
          [by rewrite lookup_insert_eq, last_snoc | rewrite lookup_insert_ne, app_nil_r by done; apply Hm]. }
  intros resultByID [Hr Hall].
  assert (Hc : forall id, fold_left (fun acc item => <[bv_BlockID item := item]> acc) contexts (∅ : gmap string BlockVerificationContext) !! id =
                          last_by bv_BlockID contexts id).
  { intros id. rewrite (lookup_fold_insert bv_BlockID (fun item => item)). unfold last_by. by destruct (last _). }
  eapply ends_weaken.
  - apply (ends_for_fold (fun before acc => Forall (result_says envelopes contexts acc.1) before /\
      (acc.2 = true -> Exists (fun b => ~ block_verified envelopes contexts b) before))).
    + split; [constructor | done].
    + intros before block after acc Hbl [Hm Hs].
      eapply ends_weaken; [by apply ends_verify_block | | intros _ []].
      intros acc' (r & Hacc & Hd & Hp & Hsev). split.
      * rewrite Hacc. apply Forall_app. split.
        -- apply Forall_forall. intros b Hin. rewrite Forall_forall in Hm. destruct (Hm b Hin) as (r' & Hr' & Hd').
           exists r'. rewrite lookup_insert_ne; [done|]. intros Heq.
           unfold block_ids in Hnd. rewrite Hbl, fmap_app, fmap_cons in Hnd.
           apply NoDup_app in Hnd as (_ & Hdis & _). apply (Hdis (xb_ID b)); [by apply list_elem_of_fmap_2|].
           rewrite <- Heq. left.
        -- apply Forall_singleton. exists r. by rewrite lookup_insert_eq.
      * intros H. apply Exists_app. destruct (Hsev H) as [H'|H']; [left; by apply Hs | right; by left].
  - intros acc [Hm Hs]. split; [done|]. split; [by apply flatten_means|].
    intros H Hf. apply Hs in H. apply Exists_exists in H as (b & Hin & Hb). rewrite Forall_forall in Hf. by apply Hb, Hf.
  - intros e H. exact H.
Qed.
End runs.

(** ** The whole verification *)

(** Every kind of evidence the task insists on is there. *)
Definition evidence_covered (spec : TaskSpec) (evidence : list EvidenceRecord) : Prop :=
  forall req, req ∈ ts_RequiredEvidence spec -> re_Mandatory req = true ->
  exists record, record ∈ evidence /\ EvidenceType_string (er_Type record) = re_Type req.

Lemma missing_requirements_nil spec evidence :
  missing_requirements spec (CoverageChecker_Check spec evidence) = [] <-> evidence_covered spec evidence.
Proof.
  unfold missing_requirements, evidence_covered, CoverageChecker_Check. cbn [cr_Items].
  assert (Hnil : forall l : list (EvidenceCoverageItem * RequiredEvidenceRef), (fun p => ci_RequirementID p.1) <$> l = [] <-> l = [])
    by (intros []; split; done).
  rewrite Hnil. clear Hnil. induction (ts_RequiredEvidence spec) as [|req l IH].
  { split; [intros _ req H; by apply elem_of_nil in H | done]. }
  cbn [fmap list_fmap zip zip_with]. rewrite filter_cons.
  assert (Hc : ci_Covered (coverage_item evidence req) = true <->
               exists record, record ∈ evidence /\ EvidenceType_string (er_Type record) = re_Type req).
  { unfold coverage_item, matchingEvidenceIDs. cbn [ci_Covered].
    destruct (filter _ evidence) as [|record rest] eqn:E; cbn [fmap list_fmap].
    - split; [done|intros (record & Hin & Heq)]. exfalso. apply (not_elem_of_nil record). rewrite <- E.
      by apply list_elem_of_filter.
    - split; [intros _|done]. exists record.
      assert (record ∈ record :: rest) as Hin by left. rewrite <- E in Hin. apply list_elem_of_filter in Hin. tauto. }
  case_decide as H; cbn [fst snd] in H.
  - split; [done|]. intros Hall. destruct H as [H1 H2]. apply (Hall req) in H2; [|left].
    apply Hc in H2. congruence.
  - rewrite IH. split.
    + intros Hall req' [->|Hin]%elem_of_cons Hm; [|by apply Hall].
      apply Hc. destruct (ci_Covered (coverage_item evidence req)); [done|]. by destruct H.
    + intros Hall req' Hin Hm. apply Hall; [by right | done].
Qed.

Lemma coverage_result_exact spec evidence t :
  results_mean (evidence_covered spec evidence)
    [finally (CoverageToVerificationResult spec (CoverageChecker_Check spec evidence) t)].
Proof.
  eapply results_mean_iff; [apply missing_requirements_nil|]. unfold CoverageToVerificationResult. cbv zeta.
  destruct (missing_requirements spec _) as [|id l]; [by apply results_mean_one; [exact I | rewrite passed_spec; split]|].
  assert (last (id :: l) <> None) as Hl by (rewrite last_None; done).
  destruct (last (id :: l)); [|done].
  apply results_mean_one; [exact I | rewrite passed_spec; split; discriminate].
Qed.

Lemma success_exact spec results t :
  Forall decided results ->
  decided (finally (SuccessChecker_Check spec results t)) /\
  (Forall (fun r => passed r = true) results -> passed (finally (SuccessChecker_Check spec results t)) = true).
Proof.
  intros Hd. unfold SuccessChecker_Check. cbv zeta. split; [by destruct (is_nil _)|].
  intros H. rewrite passed_spec.
  assert (filter (fun r => is_failure r = true) results = []) as ->; [|done].
  apply elem_of_nil_inv. intros r [Hf Hin]%list_elem_of_filter. rewrite Forall_forall in H.
  apply H, passed_spec in Hin. unfold is_failure in Hf. by rewrite Hin in Hf.
Qed.

Section whole.
Context {W : Type} (system_now : W -> W * time) `{TE : TextErrors} `{MO : MapOrder} (clock : option (W -> W * time)).
Context (spec : TaskSpec) (state : FinancialWorldState) (evidence : list EvidenceRecord) (memories : list MemoryRecord)
  (plan : ExecutionPlan) (envelopes : list BlockResultEnvelope) (contexts : list BlockVerificationContext)
  (finalContext : BlockVerificationContext) (output : Output).

(** What a report that passes rests on. *)
Record trustworthy : Prop := {
  tw_plan : well_formed_plan plan;
  tw_evidence : evidence_covered spec evidence;
  tw_envelopes : Forall (fun e => BlockResultEnvelope_Validate e = None) envelopes;
  tw_blocks : Forall (block_verified state envelopes contexts) (ep_Blocks plan);
  tw_final : final_sound spec state evidence memories finalContext output;
}.

Definition ov_agrees (r : PipelineResult) (P : Prop) : Prop :=
  (ov_Passed (pr_OracleVerdict r) = true <-> P) /\ NeedsReplan (pr_Results r) = negb (ov_Passed (pr_OracleVerdict r)).

(** The oracle passes what does not need another plan. *)
Lemma ends_oracle scenario (P : Prop) coverage results final all F :
  all <> [] -> Forall decided all -> (Forall (fun r => passed r = true) all <-> P) ->
  ends (fun r => ov_agrees r P) F
    (verdict ← oracle system_now (standard_pipeline clock) scenario all;
     mret (mkPipelineResult coverage results final all verdict)).
Proof.
  intros Hne Hd HP. apply (ends_bind (fun v => ov_Passed v = true <-> Forall (fun r => passed r = true) all)).
  { apply ends_timed. intros t. by apply oracle_passes. }
  intros v Hv. apply ends_ret. split; cbn [pr_OracleVerdict pr_Results]; [by rewrite Hv|].
  rewrite <- (passed_needs_no_replan _ Hd) in Hv.
  destruct (ov_Passed v), (NeedsReplan all); simpl; naive_solver.
Qed.

Lemma verify_spec scenario :
  ends (fun r => ov_agrees r trustworthy) (fun _ => ~ trustworthy)
    (verify system_now (standard_pipeline clock) scenario spec state evidence memories plan envelopes contexts finalContext output).
Proof.
  unfold verify. apply (ends_bind (fun _ => well_formed_plan plan)).
  { unfold check_plan. destruct (plan_validation_spec plan) as (r & -> & Hr). apply ends_sum.
    destruct r as [e|[]]; [|by apply Hr]. intros [Hp _ _ _ _]. apply Hr in Hp. done. }
  intros [] Hplan. apply (ends_bind (fun r => r = CoverageChecker_Check spec evidence)); [by apply ends_ret|]. intros ? ->.
  eapply ends_bind; [apply ends_now|]. intros t _. cbv zeta.
  pose proof (coverage_result_exact spec evidence t) as [Hcd Hcp].
  eapply ends_bind; [eapply ends_weaken; [apply ends_blocks, Hplan | exact (fun _ H => H) | intros e H []; by apply H]|].
  intros [blockMap severe] (Henv & [Hbd Hbp] & Hsev). cbn [fst snd] in *. destruct severe.
  - eapply ends_bind; [apply ends_now|]. intros t' _. apply ends_oracle; [done | |].
    + rewrite Forall_cons in Hcd. constructor; [tauto|]. apply Forall_app. split; [done|]. by apply Forall_singleton.
    + split.
      * intros H. exfalso. apply Forall_app in H as [_ H]. rewrite Forall_singleton, passed_spec in H. done.
      * intros [_ _ _ Hb _]. by apply Hsev in Hb.
  - eapply ends_bind; [eapply ends_weaken; [apply ends_final | exact (fun _ H => H) | intros e H []; by apply H]|].
    intros finals [Hfd Hfp].
    set (flattened := (finally (CoverageToVerificationResult spec (CoverageChecker_Check spec evidence) t)
        :: flattenBlockResults plan blockMap) ++ finals).
    assert (Hd : Forall decided flattened).
    { apply Forall_app. split; [|done]. rewrite Forall_cons in Hcd. constructor; [tauto | done]. }
    assert (Hall : Forall (fun r => passed r = true) flattened <-> trustworthy).
    { unfold flattened. rewrite Forall_app, Forall_cons. rewrite Forall_singleton in Hcp. rewrite Hcp, Hbp, Hfp.
      split; [intros ((? & ?) & ?); by split | intros []; tauto]. }
    apply (ends_bind (fun s => decided (finally s) /\ (Forall (fun r => passed r = true) flattened -> passed (finally s) = true))).
    { apply ends_timed. intros t'. by apply success_exact. }
    intros success [Hsd Hsp]. apply ends_oracle; [by unfold flattened | |].
    + apply Forall_app. split; [done|]. by apply Forall_singleton.
    + rewrite Forall_app, Forall_singleton, <- Hall. tauto.
Qed.

(** C1: With the package's own parts, every verification of a report ends,
    without a panic; when it ends in a result, the oracle's verdict is passed
    exactly when the workflows ask for no other plan, and exactly when the
    report is trustworthy: the plan is well formed, evidence of every
    mandatory type was collected, every block of the plan has a valid result
    and a context and the result is grounded in that context and agrees with
    the state, the final context is complete, the report has the required
    keys and explains its risks, every recommendation rests on known metrics,
    evidence and memories, discloses high risk and keeps the rules of the
    task, and every number a recommendation or a risk flag states is the
    number of a metric of the report.  A verification that ends in an error
    is one of a report that is not trustworthy. *)
Theorem verified_report_is_trustworthy (scenario : string) (w : W) :
  match (verify system_now (standard_pipeline clock) scenario spec state evidence memories plan envelopes contexts
           finalContext output w).2 with
  | Ok r => (ov_Passed (pr_OracleVerdict r) = true <-> trustworthy) /\
            NeedsReplan (pr_Results r) = negb (ov_Passed (pr_OracleVerdict r))
  | Err _ => ~ trustworthy
  | _ => False
  end.
Proof. exact (verify_spec scenario w). Qed.
End whole.

(** ** What the cashflow agent may write *)

(** A text is in line with the metrics: its numbers are theirs, and the number
    within 24 bytes behind a metric's name is that metric. *)
Definition text_in_line (metrics : CashflowDeterministicMetrics) (text : string) : Prop :=
  TrimSpace text <> "" ->
  (forall token, token ∈ FindAllString match_token text -> normalizeNumericToken token <> "" ->
     normalizeNumericToken token ∈ allowedCashflowNumericTokens metrics) /\
  (forall rule claim, rule ∈ cashflowMetricRules metrics -> claim ∈ extractKeywordNumericClaims text (rule_Keywords rule) ->
     claim ∈ rule_ExpectedForms rule).

Lemma field_nil metrics field : field_diagnostics metrics field = [] <-> text_in_line metrics field.2.
Proof.
  destruct field as [name text]. unfold field_diagnostics, text_in_line. cbn [snd].
  destruct (bool_decide_reflect (TrimSpace text = "")) as [|Hne]; [by split; [intros _ Hne|]|].
  rewrite app_nil, fmap_filter_nil. split.
  - intros [Ht Hr] _. split.
    + intros token Hin Hn. destruct (decide (normalizeNumericToken token ∈ allowedCashflowNumericTokens metrics)); [done|].
      by destruct (Ht token Hin).
    + intros rule claim Hrule Hin. rewrite join_nil, Forall_fmap, Forall_forall in Hr. specialize (Hr rule Hrule).
      simpl in Hr. rewrite fmap_filter_nil in Hr. destruct (decide (claim ∈ rule_ExpectedForms rule)); [done|].
      by destruct (Hr claim Hin).
  - intros H. destruct (H Hne) as [Ht Hr]. split.
    + intros token Hin [Hn Hno]. by apply Hno, Ht.
    + rewrite join_nil, Forall_fmap, Forall_forall. intros rule Hrule. simpl. rewrite fmap_filter_nil.
      intros claim Hin Hno. by apply Hno, (Hr rule).
Qed.

(** Every diagnostic of a field says something. *)
Lemma field_says metrics field x : x ∈ field_diagnostics metrics field -> x <> "".
Proof.
  destruct field as [name text]. unfold field_diagnostics. destruct (bool_decide _); [by intros ?%elem_of_nil|].
  intros [(token & -> & _)%list_elem_of_fmap|(l & Hx & (rule & -> & Hrule)%list_elem_of_fmap)%list_elem_of_join]%elem_of_app; [done|].
  apply list_elem_of_fmap in Hx as (claim & -> & _).
  assert (Hn : rule_Name rule <> ""); [|by destruct (rule_Name rule)].
  unfold cashflowMetricRules in Hrule. rewrite !elem_of_cons, elem_of_nil in Hrule.
  by destruct Hrule as [->|[->|[->|[->|[->|[->|[]]]]]]].
Qed.

Lemma numeric_grounding_nil candidate metrics :
  cashflowNumericGroundingDiagnostics candidate metrics = [] <->
  Forall (fun field => text_in_line metrics field.2) (cashflowNarrativeFields candidate).
Proof.
  unfold cashflowNumericGroundingDiagnostics, dedupeDiagnostics.
  assert (forall l, (forall x, x ∈ l -> x <> "") -> unique_from [] l = [] <-> l = []) as ->.
  { intros l Hl. split; [|by intros ->]. intros E. apply elem_of_nil_inv. intros x Hx.
    apply (not_elem_of_nil x). rewrite <- E. apply unique_from_elem. split_and!; [done | by apply Hl | apply not_elem_of_nil]. }
  - rewrite join_nil, Forall_fmap. apply Forall_iff. intros field. apply field_nil.
  - intros x (l & Hx & (field & -> & _)%list_elem_of_fmap)%list_elem_of_join. by eapply field_says.
Qed.

Lemma find_unselected (refs selected : list string) :
  List.find (fun ref => negb (bool_decide (ref ∈ selected))) refs = None <-> Forall (fun ref => ref ∈ selected) refs.
Proof.
  induction refs as [|ref refs IH]; simpl; [by split; [constructor|]|]. rewrite Forall_cons.
  destruct (bool_decide_reflect (ref ∈ selected)); simpl; [rewrite IH; tauto | split; [done | tauto]].
Qed.

Lemma precheck_spec (candidate : CashflowStructuredCandidate) (metrics : CashflowDeterministicMetrics)
    (selected : list EvidenceID) :
  RunCashflowGroundingPrecheck candidate metrics selected = inr tt <->
  (fcm_MonthlyInflowCents metrics <> 0 \/ fcm_MonthlyOutflowCents metrics <> 0 \/ fcm_MonthlyNetIncomeCents metrics <> 0) /\
  selected <> [] /\ Forall (fun ref => ref ∈ selected) (cc_EvidenceRefs candidate) /\
  Forall (fun field => text_in_line metrics field.2) (cashflowNarrativeFields candidate).
Proof.
  unfold RunCashflowGroundingPrecheck. rewrite !refuse_ok, !andb_false_iff, !Z.eqb_neq, <- find_unselected, <- numeric_grounding_nil.
  assert (is_nil selected = false <-> selected <> []) as -> by (destruct selected; split; done).
  destruct (List.find _ _); [intuition congruence|].
  destruct (cashflowNumericGroundingDiagnostics candidate metrics); intuition congruence.
Qed.

(** ** Occurrences of a word *)

Lemma prefix_iff mark s : String.prefix mark s = true <-> exists rest, s = mark +:+ rest.
Proof.
  revert s. induction mark as [|c mark IH]; intros s.
  - split; [by exists s|]. by destruct s.
  - destruct s as [|d s]; cbn [String.prefix].
    + split; [done|]. by intros [rest [=]].
    + destruct (Ascii.ascii_dec c d) as [->|Hne].
      * rewrite IH. split; intros [rest H]; exists rest; [by rewrite H|by injection H].
      * split; [done|]. by intros [rest [= ? _]].
Qed.

Lemma substring_all n s : (String.length s <= n)%nat -> String.substring 0 n s = s.
Proof.
  revert n. induction s as [|c s IH]; intros n Hn; [by destruct n|]. destruct n as [|n]; cbn in Hn; [lia|].
  cbn [String.substring]. rewrite IH by lia. done.
Qed.

Lemma substring_behind mark rest n : (String.length rest <= n)%nat -> String.substring (String.length mark) n (mark +:+ rest) = rest.
Proof. intros H. induction mark as [|c mark IH]; [by apply substring_all|]. cbn. exact IH. Qed.

Lemma length_string_app a b : String.length (a +:+ b) = (String.length a + String.length b)%nat.
Proof. induction a as [|c a IH]; [done|]. rewrite string_app_cons. cbn. by rewrite IH. Qed.

(** [split_at] finds the first occurrence. *)
Lemma split_at_spec mark s :
  match split_at mark s with
  | Some (a, b) => s = a +:+ mark +:+ b /\ forall a' b', s = a' +:+ mark +:+ b' -> (String.length a <= String.length a')%nat
  | None => forall a' b', s <> a' +:+ mark +:+ b'
  end.
Proof.
  induction s as [|c s IH].
  - cbn [split_at]. destruct (String.prefix mark "") eqn:E.
    + apply prefix_iff in E as [rest E]. destruct mark; [|done]. cbn. split; [done|]. intros. lia.
    + intros a' b' H. assert (String.prefix mark "" = true); [|congruence]. apply prefix_iff.
      destruct a'; [|done]. by exists b'.
  - cbn [split_at]. destruct (String.prefix mark (String c s)) eqn:E.
    + apply prefix_iff in E as [rest E]. rewrite E, substring_behind by (rewrite length_string_app; lia).
      split; [done|]. intros. cbn. lia.
    + assert (Hne : forall b', String c s <> mark +:+ b').
      { intros b' H. assert (String.prefix mark (String c s) = true); [|congruence]. apply prefix_iff. by exists b'. }
      destruct (split_at mark s) as [[a b]|]; cbn [mbind option_bind].
      * destruct IH as [-> Hmin]. split; [done|]. intros a' b' H. destruct a' as [|d a']; [by destruct (Hne b')|].
        rewrite string_app_cons in H. injection H as _ H. apply Hmin in H. cbn. lia.
      * intros a' b' H. destruct a' as [|d a']; [by destruct (Hne b')|]. rewrite string_app_cons in H.
        injection H as _ H. by destruct (IH a' b').
Qed.

(** No proper end of the word is its beginning, so that its occurrences do
    not overlap. *)
Definition borderless (word : string) : bool :=
  forallb (fun k => negb (bool_decide (String.prefix (String.substring k (String.length word) word) word = true)))
    (seq 1 (String.length word - 1)).

Lemma app_split (a b c d : string) :
  a +:+ b = c +:+ d -> (String.length a <= String.length c)%nat -> exists x, c = a +:+ x /\ b = x +:+ d.
Proof.
  revert c. induction a as [|e a IH]; intros c H Hl; [by exists c|]. destruct c as [|f c]; [cbn in Hl; lia|].
  rewrite !string_app_cons in H. injection H as <- H. cbn in Hl. destruct (IH c H) as (x & -> & Hx); [lia|].
  exists x. by rewrite string_app_cons.
Qed.

Lemma borderless_apart word a b a' b' :
  borderless word = true -> a +:+ word +:+ b = a' +:+ word +:+ b' -> (String.length a < String.length a')%nat ->
  exists x, a' = a +:+ word +:+ x /\ b = x +:+ word +:+ b'.
Proof.
  intros Hw H Hl. destruct (app_split a (word +:+ b) a' (word +:+ b') H) as (x & -> & Hx); [lia|].
  rewrite length_string_app in Hl.
  destruct (le_lt_dec (String.length word) (String.length x)) as [Hlong|Hshort].
  - destruct (app_split word b x (word +:+ b') Hx Hlong) as (y & -> & Hy). by exists y.
  - exfalso. symmetry in Hx. destruct (app_split x (word +:+ b') word b Hx) as (y & Hy & Hz); [lia|].
    unfold borderless in Hw. rewrite forallb_forall in Hw.
    assert (Hlen : String.length word = (String.length x + String.length y)%nat) by (rewrite Hy at 1; apply length_string_app).
    specialize (Hw (String.length x)). rewrite in_seq, negb_true_iff, bool_decide_eq_false in Hw. apply Hw; [lia|].
    assert (Hsub : String.substring (String.length x) (String.length word) word = y).
    { rewrite Hlen, Hy. apply substring_behind. lia. }
    rewrite Hsub. apply prefix_iff.
    destruct (app_split y b word b') as (z & Hz' & _); [by rewrite Hz|lia|]. by exists z.
Qed.

Lemma windows_spec word fuel s w :
  borderless word = true -> word <> "" -> (String.length s < fuel)%nat ->
  w ∈ windows fuel word s <-> exists a b, s = a +:+ word +:+ b /\ w = byte_prefix 24 b.
Proof.
  intros Hb Hne. revert s. induction fuel as [|fuel IH]; intros s Hf; [lia|]. cbn [windows].
  pose proof (split_at_spec word s) as Hs. destruct (split_at word s) as [[a b]|].
  - destruct Hs as [-> Hmin]. rewrite elem_of_cons, IH.
    + split.
      * intros [->|(a' & b' & -> & ->)]; [by exists a, b|]. exists (a +:+ word +:+ a'), b'. by rewrite !string_app_assoc.
      * intros (a' & b' & H & ->). pose proof (Hmin a' b' H) as Hl.
        destruct (le_lt_eq_dec _ _ Hl) as [Hlt|Heq].
        -- right. destruct (borderless_apart word a b a' b' Hb H Hlt) as (x & _ & ->). by exists x, b'.
        -- left. destruct (app_split a (word +:+ b) a' (word +:+ b') H) as (x & -> & Hx); [lia|].
           rewrite length_string_app in Heq. destruct x; [|cbn in Heq; lia]. cbn in Hx.
           destruct (app_split word b word b' Hx) as (y & Hy & ->); [lia|]. 
           assert (y = "") as ->; [|done]. apply (f_equal String.length) in Hy. rewrite length_string_app in Hy. destruct y; [done|cbn in Hy; lia].
    + rewrite !length_string_app in Hf. destruct word; [done|]. cbn in Hf. lia.
  - split; [by intros ?%elem_of_nil|]. intros (a & b & H & _). by destruct (Hs a b).
Qed.

(** ** The contract of the precheck, without its tables *)

(** The texts of a candidate that a reader sees. *)
Definition narrative_text (candidate : CashflowStructuredCandidate) (text : string) : Prop :=
  text = cc_Summary candidate \/ text ∈ cc_KeyFindings candidate \/
  (exists r, r ∈ cc_GroundedRecommendations candidate /\ (text = rc_Title r \/ text = rc_Detail r)) \/
  (exists flag, flag ∈ cc_RiskFlags candidate /\ text = rf_Detail flag).

(** How a text may state an amount or a count, and a rate: rounded to four
    places, as it is or in percent, without trailing zeros. *)
Definition whole_number (n : Z) : list string := [Itoa n].
Definition rate (x : float64) : list string :=
  [normalizeNumericToken (Sprintf_f 4 x); normalizeNumericToken (Sprintf_f 4 (f_mul x (f_of_int 100)))].

(** The names of each metric, and how its value may be stated. *)
Definition stated_metrics (m : CashflowDeterministicMetrics) : list (list string * list string) :=
  [(["流入"; "monthly inflow"], whole_number (fcm_MonthlyInflowCents m));
   (["流出"; "支出"; "monthly outflow"], whole_number (fcm_MonthlyOutflowCents m));
   (["净结余"; "净收入"; "月度结余"; "monthly net"; "monthly net income"], whole_number (fcm_MonthlyNetIncomeCents m));
   (["储蓄率"; "savings rate"], rate (fcm_SavingsRate m));
   (["重复订阅"; "duplicate subscription"], whole_number (fcm_DuplicateSubscriptionCount m));
   (["深夜消费频率"; "夜间消费频率"; "late-night spending frequency"], rate (fcm_LateNightSpendingFrequency m))].

(** [n] is the first number in the 24 bytes behind some occurrence of the
    name, in any case of its letters. *)
Definition number_behind (name text n : string) : Prop :=
  exists a b token tokens, ToLower text = a +:+ name +:+ b /\
    FindAllString match_token (byte_prefix 24 b) = token :: tokens /\ n = normalizeNumericToken token /\ n <> "".

(** A text in line with the metrics. *)
Definition stated_truly (m : CashflowDeterministicMetrics) (text : string) : Prop :=
  (forall token, token ∈ FindAllString match_token text -> normalizeNumericToken token <> "" ->
     exists names forms, (names, forms) ∈ stated_metrics m /\ normalizeNumericToken token ∈ forms) /\
  (forall names forms name n, (names, forms) ∈ stated_metrics m -> name ∈ names -> number_behind name text n -> n ∈ forms).

Lemma fields_texts candidate :
  snd <$> cashflowNarrativeFields candidate =
    cc_Summary candidate :: cc_KeyFindings candidate ++
    mjoin ((fun r => [rc_Title r; rc_Detail r]) <$> cc_GroundedRecommendations candidate) ++
    (rf_Detail <$> cc_RiskFlags candidate).
Proof.
  unfold cashflowNarrativeFields. rewrite !fmap_app, !fmap_imap. cbn [fmap list_fmap app]. f_equal.
  assert (H1 : forall (l : list string) (f : nat -> string), imap (fun n x => (f n, x).2) l = l).
  { intros l. induction l as [|x l IH]; intros f; [done|]. cbn. f_equal. apply (IH (f ∘ S)). }
  assert (H2 : forall (l : list RiskFlag) (f : nat -> string), imap (fun n x => (f n, rf_Detail x).2) l = rf_Detail <$> l).
  { intros l. induction l as [|x l IH]; intros f; [done|]. cbn. f_equal. apply (IH (f ∘ S)). }
  assert (H3 : forall (l : list Recommendation) (f g : nat -> string),
    snd <$> List.concat (imap (fun n x => [(f n, rc_Title x); (g n, rc_Detail x)]) l) =
    mjoin ((fun r => [rc_Title r; rc_Detail r]) <$> l)).
  { intros l. induction l as [|x l IH]; intros f g; [done|]. cbn. do 2 f_equal. apply (IH (f ∘ S) (g ∘ S)). }
  f_equal; [exact (H1 _ _)|]. f_equal; [exact (H3 _ _ _)|exact (H2 _ _)].
Qed.

Lemma fields_narrative candidate (P : string -> Prop) :
  Forall (fun field => P field.2) (cashflowNarrativeFields candidate) <-> forall text, narrative_text candidate text -> P text.
Proof.
  transitivity (Forall P (snd <$> cashflowNarrativeFields candidate)); [by rewrite Forall_fmap|].
  rewrite fields_texts, Forall_forall. unfold narrative_text. apply forall_proper. intros text.
  rewrite elem_of_cons, !elem_of_app, list_elem_of_join, list_elem_of_fmap. split; intros H Ht; apply H.
  - destruct Ht as [Ht|[Ht|[(r & Hr & Ht)|(f & Hf & Ht)]]]; [by left|right; by left| |].
    + right; right; left. exists [rc_Title r; rc_Detail r]. split; [|by apply list_elem_of_fmap; exists r].
      destruct Ht as [-> | ->]; set_solver.
    + right; right; right. eauto.
  - destruct Ht as [Ht|[Ht|[(l & Hl & Ht)|(f & Ht & Hf)]]]; [by left|right; by left| |].
    + right; right; left. apply list_elem_of_fmap in Ht as (r & -> & Hr). exists r. split; [done|].
      rewrite !elem_of_cons, elem_of_nil in Hl. naive_solver.
    + right; right; right. eauto.
Qed.

(** Every name of a metric is in small letters and does not overlap itself. *)
Lemma names_plain m names forms name :
  (names, forms) ∈ stated_metrics m -> name ∈ names -> borderless name = true /\ name <> "" /\ ToLower name = name.
Proof.
  intros Hn Hi.
  assert (H : Forall (fun name => borderless name = true /\ name <> "" /\ ToLower name = name) (mjoin (stated_metrics m).*1)).
  { cbn. repeat constructor; vm_compute; done. }
  rewrite Forall_forall in H. apply H, list_elem_of_join. exists names. split; [done|].
  apply list_elem_of_fmap. by exists (names, forms).
Qed.

Lemma claims_behind text names n :
  (forall name, name ∈ names -> borderless name = true /\ name <> "" /\ ToLower name = name) ->
  n ∈ extractKeywordNumericClaims text names <-> exists name, name ∈ names /\ number_behind name text n.
Proof.
  intros Hplain. unfold extractKeywordNumericClaims. cbv zeta. rewrite unique_from_elem, list_elem_of_fmap.
  setoid_rewrite list_elem_of_join. setoid_rewrite list_elem_of_fmap. split.
  - intros ((w & -> & l & Hw & name & -> & Hname) & Hne & _). destruct (Hplain name Hname) as (Hb & Hn & Hl).
    rewrite Hl in Hw. apply windows_spec in Hw as (a & b & Ht & ->); [|done|done|lia].
    exists name. split; [done|]. unfold first_token in *.
    destruct (FindAllString match_token (byte_prefix 24 b)) as [|token tokens] eqn:E; [done|]. exists a, b, token, tokens. done.
  - intros (name & Hname & a & b & token & tokens & Ht & Hf & -> & Hne). destruct (Hplain name Hname) as (Hb & Hn & Hl).
    split_and!; [|done|apply not_elem_of_nil]. exists (byte_prefix 24 b). unfold first_token. rewrite Hf. split; [done|].
    eexists. split; [|exists name; split; [reflexivity|done]]. rewrite Hl. apply windows_spec; [done|done|lia|]. by exists a, b.
Qed.

(** A form that is not empty is one of the checker's. *)
Lemma float_forms_rate x n : n <> "" -> n ∈ floatAndPercentForms x <-> n ∈ rate x.
Proof.
  intros Hn. unfold floatAndPercentForms, float_forms, rate. rewrite elem_of_app, !list_elem_of_filter, !elem_of_cons, !elem_of_nil.
  naive_solver.
Qed.

Lemma rules_table m n : n <> "" ->
  Forall2 (fun rule entry => rule_Keywords rule = entry.1 /\ (n ∈ rule_ExpectedForms rule <-> n ∈ entry.2))
    (cashflowMetricRules m) (stated_metrics m).
Proof.
  intros Hn. unfold cashflowMetricRules, stated_metrics.
  repeat apply Forall2_cons_2; try apply Forall2_nil_2; (split; [done|]); cbn [snd rule_ExpectedForms]; first [done|by apply float_forms_rate].
Qed.

Lemma allowed_table m n : n <> "" ->
  n ∈ allowedCashflowNumericTokens m <-> exists names forms, (names, forms) ∈ stated_metrics m /\ n ∈ forms.
Proof.
  intros Hn. unfold allowedCashflowNumericTokens. rewrite !elem_of_app, !(float_forms_rate _ _ Hn). split.
  - intros H. destruct H as [H|[H|[H|[H|[H|H]]]]];
      (eexists _, _; split; [|exact H]; repeat first [left; reflexivity|right]).
  - intros (names & forms & H & Hf). unfold stated_metrics in H. rewrite !elem_of_cons, elem_of_nil in H.
    destruct H as [[= _ ->]|[[= _ ->]|[[= _ ->]|[[= _ ->]|[[= _ ->]|[[= _ ->]|[]]]]]]]; tauto.
Qed.

Lemma and_iff_both (A B C D : Prop) : (A <-> C) -> (B <-> D) -> A /\ B <-> C /\ D.
Proof. tauto. Qed.

Lemma guarded_iff (A B C : Prop) : (A -> (B <-> C)) -> (A -> B) <-> (A -> C).
Proof. tauto. Qed.

Lemma text_in_line_stated m text : text_in_line m text <-> (TrimSpace text <> "" -> stated_truly m text).
Proof.
  unfold text_in_line, stated_truly. apply guarded_iff. intros _. apply and_iff_both.
  - apply forall_proper. intros token. apply guarded_iff. intros _.
    split; intros H Hn; [by apply allowed_table in H|by apply allowed_table; [|apply H]].
  - split.
    + intros H names forms name n Hin Hname Hbehind. assert (Hn : n <> "") by (by destruct Hbehind as (? & ? & ? & ? & ? & ? & ? & ?)).
      pose proof (rules_table m n Hn) as Ht. apply list_elem_of_lookup in Hin as [i Hi].
      destruct (Forall2_lookup_r _ _ _ _ _ Ht Hi) as (rule & Hr & Hk & Hf). apply Hf, (H rule); [by eapply list_elem_of_lookup_2|].
      cbn [fst] in Hk. rewrite Hk. apply claims_behind; [|by exists name]. intros name' Hname'.
      eapply names_plain; [by eapply list_elem_of_lookup_2|done].
    + intros H rule n Hin Hc. assert (Hn : n <> "").
      { unfold extractKeywordNumericClaims in Hc. by apply unique_from_elem in Hc as (_ & ? & _). }
      pose proof (rules_table m n Hn) as Ht. apply list_elem_of_lookup in Hin as [i Hi].
      destruct (Forall2_lookup_l _ _ _ _ _ Ht Hi) as ([names forms] & Hr & Hk & Hf). cbn [fst snd] in Hk, Hf. apply Hf.
      apply list_elem_of_lookup_2 in Hr. rewrite Hk in Hc.
      apply claims_behind in Hc as (name & Hname & Hb); [by apply (H names forms name n)|]. intros name' Hname'. by eapply names_plain.
Qed.

(** C18: The precheck of what the cashflow agent writes accepts exactly what is
    grounded.  There are metrics and selected evidence, and every evidence
    reference was selected.  In each text a reader sees (the summary, the key
    findings, the titles and details of the recommendations, the details of
    the risk flags), every number is a way to state one of the six metrics,
    and the first number in the 24 bytes behind any occurrence of a name of a
    metric states that metric: the inflow, outflow, net income and duplicate
    count as whole numbers, the savings rate and the late-night frequency
    rounded to four places, as they are or in percent. *)
Theorem precheck_accepts_exactly_grounded (candidate : CashflowStructuredCandidate) (metrics : CashflowDeterministicMetrics)
    (selected : list EvidenceID) :
  RunCashflowGroundingPrecheck candidate metrics selected = inr tt <->
  (fcm_MonthlyInflowCents metrics <> 0 \/ fcm_MonthlyOutflowCents metrics <> 0 \/ fcm_MonthlyNetIncomeCents metrics <> 0) /\
  selected <> [] /\ (forall ref, ref ∈ cc_EvidenceRefs candidate -> ref ∈ selected) /\
  forall text, narrative_text candidate text -> TrimSpace text <> "" -> stated_truly metrics text.
Proof.
  rewrite precheck_spec, fields_narrative, Forall_forall. setoid_rewrite text_in_line_stated. done.
Qed.

(** ** A report that passes, and one that states a number of its own *)

Definition sample_spec : TaskSpec := (zero : TaskSpec)
  <| ts_ID := "task" |> <| ts_UserIntentType := UserIntentTaxOptimization |>
  <| ts_RequiredEvidence := [mkRequiredEvidenceRef "tax_document" "needed" true] |>.

Definition sample_evidence : list EvidenceRecord :=
  [(zero : EvidenceRecord) <| er_ID := "ev-1" |> <| er_Type := EvidenceTypeTaxDocument |>].

Definition sample_recommendation (title : string) : Recommendation := (zero : Recommendation)
  <| rc_ID := "rec" |> <| rc_Type := RecommendationTypeTaxAction |> <| rc_Title := title |>
  <| rc_MetricRefs := ["contribution"] |> <| rc_EvidenceRefs := ["ev-1"] |> <| rc_Caveats := ["mind the deadline"] |>.

Definition sample_context : BlockVerificationContext := (zero : BlockVerificationContext)
  <| bv_BlockID := "tax-optimization" |> <| bv_SelectedEvidenceIDs := ["ev-1"] |> <| bv_ResultSummary := "tax" |>
  <| bv_Slice := (zero : ContextSlice) <| cs_EvidenceBlocks := [(zero : EvidenceSummaryBlock) <| eb_Type := EvidenceTypeTaxDocument |>] |> |>.

Definition sample_envelope (title : string) : BlockResultEnvelope := (zero : BlockResultEnvelope)
  <| be_BlockID := "tax-optimization" |> <| be_BlockKind := "tax_optimization_block" |> <| be_AssignedRecipient := "tax_agent" |>
  <| be_Tax := Some ((zero : TaxBlockResult)
       <| tbr_BlockID := "tax-optimization" |> <| tbr_Summary := "raise it" |> <| tbr_EvidenceIDs := ["ev-1"] |>
       <| tbr_Recommendations := [sample_recommendation title] |>) |>.

Definition sample_report (title : string) : Output := TaxOptimizationOutput ((zero : TaxOptimizationReport)
  <| tor_Summary := "raise it before the deadline" |> <| tor_Recommendations := [sample_recommendation title] |>
  <| tor_MetricRecords := [(zero : MetricRecord) <| mr_Ref := "contribution" |> <| mr_ValueType := MetricValueTypeInt64 |>
                                                <| mr_Int64Value := 1500 |>] |>).

Definition sample_run (title : string) : outcome error PipelineResult :=
  (verify (TE := example_texts) (MO := canonical_order) example_clock (standard_pipeline None) "tax-optimization" sample_spec zero sample_evidence []
    (deterministic_plan 1 sample_spec zero "wf") [sample_envelope title] [sample_context] sample_context (sample_report title) 0%nat).2.

Definition verdict_of (r : outcome error PipelineResult) : option (bool * list string) :=
  match r with
  | Ok r => Some (ov_Passed (pr_OracleVerdict r), mjoin (vr_FailedRules <$> pr_Results r))
  | _ => None
  end.

Example sample_passes : verdict_of (sample_run "Contribute 1,500 to the plan") = Some (true, []).
Proof. vm_compute. reflexivity. Qed.

Example sample_of_its_own : verdict_of (sample_run "Contribute 1,501 to the plan") =
  Some (false, ["unsupported_numeric_claim"; "financial_numeric_consistency_validator"]).
Proof. vm_compute. reflexivity. Qed.

Lemma verified_report_is_trustworthy_witness :
  trustworthy (TE := example_texts) (MO := canonical_order) sample_spec zero sample_evidence [] (deterministic_plan 1 sample_spec zero "wf")
    [sample_envelope "Contribute 1,500 to the plan"] [sample_context] sample_context (sample_report "Contribute 1,500 to the plan").
Proof.
  pose proof (verified_report_is_trustworthy (TE := example_texts) (MO := canonical_order) example_clock None sample_spec zero sample_evidence []
    (deterministic_plan 1 sample_spec zero "wf") [sample_envelope "Contribute 1,500 to the plan"] [sample_context] sample_context
    (sample_report "Contribute 1,500 to the plan") "tax-optimization" 0%nat) as H.
  match type of H with match ?m with Ok _ => _ | _ => _ end =>
    assert (E : match m with Ok r => ov_Passed (pr_OracleVerdict r) | _ => false end = true) by (vm_compute; reflexivity);
    destruct m as [r|e|why|]; [apply H, E | discriminate E | discriminate E | discriminate E] end.
Defined.
