(* ===== verification/Reporting.v ===== *)
(** * Drafting and finalising reports (reporting/aggregation.go, service.go)

    The aggregators make one report out of the results of a plan's blocks, the
    service drafts the report of a task and finalises it once governance
    allows its disclosure.  Operations run on a world [W]; [time.Now] is
    [system_now], an aggregator's own clock replaces it.  [sort.Slice] sorts
    keys that are distinct. *)

From S2P Require Export VerifyPipeline.
#[local] Open Scope Z_scope.

(** ** Parts of a report *)

Definition sorted_set (ids : list string) : list string := slices_SortFunc (compare_id id) (remove_dups ids).

Definition collectProvenance (results : list BlockResultEnvelope) : list string * list string * list EvidenceID :=
  (be_BlockID <$> results,
   sorted_set (mjoin (BlockResultEnvelope_MemoryIDsUsed <$> results)),
   sorted_set (mjoin (BlockResultEnvelope_EvidenceIDs <$> results))).

Definition riskFlagsToSkillItems (flags : list RiskFlag) : list SkillItem :=
  (fun flag => mkSkillItem (rf_Code flag) (rf_Detail flag) (rf_Severity flag) (rf_EvidenceIDs flag)) <$> flags.

Definition recommendationsToSkillItems (items : list Recommendation) : list SkillItem :=
  (fun item => mkSkillItem (rc_Title item) (rc_Detail item) (RiskLevel_string (rc_RiskLevel item)) []) <$> items.

Definition deriveTodoItems (items : list Recommendation) : list SkillItem :=
  (fun item => mkSkillItem (rc_Title item) (rc_Detail item) (RiskLevel_string (rc_RiskLevel item)) []) <$> items.

Definition cashflowMetricsMap (metrics : CashflowDeterministicMetrics) : gmap string any := list_to_map
  [("monthly_inflow_cents", AnyInt (fcm_MonthlyInflowCents metrics));
   ("monthly_outflow_cents", AnyInt (fcm_MonthlyOutflowCents metrics));
   ("monthly_net_income_cents", AnyInt (fcm_MonthlyNetIncomeCents metrics));
   ("savings_rate", AnyFloat (fcm_SavingsRate metrics));
   ("duplicate_subscription_count", AnyInt (fcm_DuplicateSubscriptionCount metrics));
   ("late_night_spending_frequency", AnyFloat (fcm_LateNightSpendingFrequency metrics))].

Definition debtDecisionMetricsMap (cashflow : CashflowDeterministicMetrics) (debt : DebtDeterministicMetrics) : gmap string any := list_to_map
  [("monthly_net_income_cents", AnyInt (fcm_MonthlyNetIncomeCents cashflow));
   ("savings_rate", AnyFloat (fcm_SavingsRate cashflow));
   ("debt_burden_ratio", AnyFloat (fdm_DebtBurdenRatio debt));
   ("minimum_payment_pressure", AnyFloat (fdm_MinimumPaymentPressure debt));
   ("average_apr", AnyFloat (fdm_AverageAPR debt));
   ("max_allocation_drift", AnyFloat (fdm_MaxAllocationDrift debt));
   ("overall_risk", AnyString (fdm_OverallRisk debt));
   ("duplicate_subscription_count", AnyInt (fcm_DuplicateSubscriptionCount cashflow));
   ("late_night_spending_frequency", AnyFloat (fcm_LateNightSpendingFrequency cashflow))].

Definition taxMetricsMap (metrics : TaxDeterministicMetrics) : gmap string any := list_to_map
  [("effective_tax_rate", AnyFloat (ftm_EffectiveTaxRate metrics));
   ("tax_advantaged_contribution_cents", AnyInt (ftm_TaxAdvantagedContributionCents metrics));
   ("childcare_tax_signal", AnyBool (ftm_ChildcareTaxSignal metrics));
   ("upcoming_deadline_count", AnyInt (ftm_UpcomingDeadlineCount metrics))].

Definition portfolioMetricsMap (metrics : PortfolioDeterministicMetrics) : gmap string any := list_to_map
  [("total_investable_assets_cents", AnyInt (fpm_TotalInvestableAssetsCents metrics));
   ("emergency_fund_months", AnyFloat (fpm_EmergencyFundMonths metrics));
   ("max_allocation_drift", AnyFloat (fpm_MaxAllocationDrift metrics));
   ("cash_allocation", AnyFloat (fpm_CashAllocation metrics))].

Definition behaviorMetricsMap (metrics : BehaviorMetricBundle) : gmap string any := list_to_map
  [("duplicate_subscription_count", AnyInt (bmb_DuplicateSubscriptionCount metrics));
   ("late_night_spend_count", AnyInt (bmb_LateNightSpendCount metrics));
   ("late_night_spend_ratio", AnyFloat (bmb_LateNightSpendRatio metrics));
   ("discretionary_pressure_score", AnyFloat (bmb_DiscretionaryPressureScore metrics));
   ("recurring_subscription_count", AnyInt (bmb_RecurringSubscriptionCount metrics))].

(** The first record of each ref, by ref. *)
Fixpoint first_records (seen : list string) (records : list MetricRecord) : list MetricRecord :=
  match records with
  | [] => []
  | record :: records =>
      if bool_decide (mr_Ref record = "") || bool_decide (mr_Ref record ∈ seen) then first_records seen records
      else record :: first_records (mr_Ref record :: seen) records
  end.

Definition appendMetricRecords (groups : list (list MetricRecord)) : list MetricRecord :=
  slices_SortFunc (compare_id mr_Ref) (first_records [] (mjoin groups)).

Definition appendGroundingRefs (groups : list (list string)) : list string :=
  slices_SortFunc (compare_id id) (unique_from [] (mjoin groups)).
Definition appendPolicyRuleRefs : list (list string) -> list string := appendGroundingRefs.
Definition appendCaveats : list (list string) -> list string := appendGroundingRefs.

Definition firstNonEmpty (values : list string) : string :=
  default "" (List.find (fun value => negb (TrimSpace value == "")) values).

Definition overallRiskApprovalReason (active : bool) : string :=
  if active then "当前总体风险已处于高位，需要治理审批后再发布最终建议" else "".

Definition overall_risk_high (current : FinancialWorldState) : bool :=
  (rk_OverallRisk (fw_RiskState current) == "high") || (rk_OverallRisk (fw_RiskState current) == "critical").

(** A behavior result adds nothing. *)
Definition block_confidence (item : BlockResultEnvelope) : float64 :=
  match be_Cashflow item, be_Debt item, be_Tax item, be_Portfolio item with
  | Some r, _, _, _ => cbr_Confidence r
  | None, Some r, _, _ => dbr_Confidence r
  | None, None, Some r, _ => tbr_Confidence r
  | None, None, None, Some r => pbr_Confidence r
  | None, None, None, None => f_zero
  end.

Definition averageConfidence (results : list BlockResultEnvelope) : float64 :=
  match results with
  | [] => f_zero
  | _ =>
      f_div (fold_left (fun total item =>
               if bool_decide (is_Some (be_Cashflow item) \/ is_Some (be_Debt item) \/ is_Some (be_Tax item) \/ is_Some (be_Portfolio item))
               then f_add total (block_confidence item) else total) results f_zero)
            (f_of_int (Z.of_nat (length results)))
  end.

Record DraftInput := mkDraftInput {
  di_Plan : ExecutionPlan;
  di_BlockResults : list BlockResultEnvelope;
  di_CurrentState : FinancialWorldState;
  di_Evidence : list EvidenceRecord;
  di_Memories : list MemoryRecord;
  di_StateDiff : list string;
  di_TaskGraph : option TaskGraph
}.

(** The loop of the two aggregators with several blocks: the last result of
    each kind; an envelope with both counts as a cashflow result. *)
Definition cashflow_and_debt (ordered : list BlockResultEnvelope) : option CashflowBlockResult * option DebtBlockResult :=
  fold_left (fun acc item =>
    match be_Cashflow item, be_Debt item with
    | Some r, _ => (Some r, acc.2)
    | None, Some r => (acc.1, Some r)
    | None, None => acc
    end) ordered (None, None).

(** ** Aggregators *)

Section aggregators.
Context {W : Type} (system_now : W -> W * time) `{TE : TextErrors} `{MO : MapOrder}.

(** [now] of an aggregator, a producer: its own clock or [time.Now]. *)
Definition read (clock : option (W -> W * time)) : ST error W time := fun w =>
  let '(w, t) := default system_now clock w in (w, Ok t).

Definition check_envelope (result : BlockResultEnvelope) : ST error W unit :=
  of_sum (match BlockResultEnvelope_Validate result with Some e => inl e | None => inr tt end).

Definition orderedBlockResults (plan : ExecutionPlan) (results : list BlockResultEnvelope) : ST error W (list BlockResultEnvelope) :=
  check_plan plan;;
  byID ← for_fold (fun acc result => check_envelope result;; mret (<[be_BlockID result := result]> acc))
           (∅ : gmap string BlockResultEnvelope) results;
  for_fold (fun ordered block =>
    match byID !! xb_ID block with
    | Some result => mret (ordered ++ [result])
    | None => fail (PlainError ("missing block result for " +:+ xb_ID block))
    end) [] (ep_Blocks plan).

(** The part of [finance.Engine] that is used. *)
Definition TaxEngine : Type := FinancialWorldState -> list EvidenceRecord -> time -> TaxMetricBundle.

Record MonthlyReviewAggregator := mkMonthlyReviewAggregator {
  ma_Engine : option TaxEngine;
  ma_Now : option (W -> W * time)
}.

Definition MonthlyReviewAggregator_Aggregate (a : MonthlyReviewAggregator) (spec : TaskSpec) (workflowID : string) (input : DraftInput) :
    ST error W MonthlyReviewReport :=
  ordered ← orderedBlockResults (di_Plan input) (di_BlockResults input);
  match cashflow_and_debt ordered with
  | (Some cashflow, Some debt) =>
      let '(sourceBlockIDs, sourceMemoryIDs, sourceEvidenceIDs) := collectProvenance ordered in
      let riskFlags := cbr_RiskFlags cashflow ++ dbr_RiskFlags debt in
      let recommendations := cbr_Recommendations cashflow ++ dbr_Recommendations debt in
      asOf ← read (ma_Now a);
      let taxSignals := taxMetricsMap (tmb_Metrics (default Tax (ma_Engine a) (di_CurrentState input) (di_Evidence input) asOf)) in
      let overallRiskApproval := overall_risk_high (di_CurrentState input) in
      generatedAt ← read (ma_Now a);
      mret {| mrr_TaskID := ts_ID spec;
              mrr_WorkflowID := workflowID;
              mrr_Summary := Join (BlockResultEnvelope_Summary <$> ordered) " ";
              mrr_CashflowMetrics := cashflowMetricsMap (cbr_DeterministicMetrics cashflow);
              mrr_TaxSignals := taxSignals;
              mrr_MetricRecords := appendMetricRecords [cbr_MetricRecords cashflow; dbr_MetricRecords debt];
              mrr_RiskItems := riskFlagsToSkillItems riskFlags;
              mrr_RiskFlags := riskFlags;
              mrr_OptimizationSuggestions := recommendationsToSkillItems recommendations;
              mrr_Recommendations := recommendations;
              mrr_TodoItems := deriveTodoItems recommendations;
              mrr_SourceBlockIDs := sourceBlockIDs;
              mrr_SourceMemoryIDs := sourceMemoryIDs;
              mrr_SourceEvidenceIDs := sourceEvidenceIDs;
              mrr_GroundingRefs := appendGroundingRefs [cbr_GroundingRefs cashflow; dbr_GroundingRefs debt];
              mrr_Caveats := appendCaveats [cbr_Caveats cashflow; dbr_Caveats debt];
              mrr_ApprovalRequired := overallRiskApproval || cbr_ApprovalRequired cashflow || dbr_ApprovalRequired debt;
              mrr_ApprovalReason := firstNonEmpty [cbr_ApprovalReason cashflow; dbr_ApprovalReason debt;
                                                   overallRiskApprovalReason overallRiskApproval];
              mrr_PolicyRuleRefs := appendPolicyRuleRefs [cbr_PolicyRuleRefs cashflow; dbr_PolicyRuleRefs debt];
              mrr_Confidence := averageConfidence ordered;
              mrr_GeneratedAt := generatedAt |}
  | _ => fail (PlainError "monthly review draft requires both cashflow and debt block results")
  end.

Definition DebtDecisionAggregator_Aggregate (Now : option (W -> W * time)) (spec : TaskSpec) (workflowID : string) (input : DraftInput) :
    ST error W DebtDecisionReport :=
  ordered ← orderedBlockResults (di_Plan input) (di_BlockResults input);
  match cashflow_and_debt ordered with
  | (Some cashflow, Some debt) =>
      let '(sourceBlockIDs, sourceMemoryIDs, sourceEvidenceIDs) := collectProvenance ordered in
      let recommendations := cbr_Recommendations cashflow ++ dbr_Recommendations debt in
      let overallRiskApproval := overall_risk_high (di_CurrentState input) in
      generatedAt ← read Now;
      mret {| ddr_TaskID := ts_ID spec;
              ddr_WorkflowID := workflowID;
              ddr_Conclusion := Join (BlockResultEnvelope_Summary <$> ordered) " ";
              ddr_Reasons := cbr_KeyFindings cashflow ++ dbr_KeyFindings debt;
              ddr_Actions := recommendationsToSkillItems recommendations;
              ddr_Recommendations := recommendations;
              ddr_RiskFlags := cbr_RiskFlags cashflow ++ dbr_RiskFlags debt;
              ddr_Metrics := debtDecisionMetricsMap (cbr_DeterministicMetrics cashflow) (dbr_DeterministicMetrics debt);
              ddr_MetricRecords := appendMetricRecords [cbr_MetricRecords cashflow; dbr_MetricRecords debt];
              ddr_EvidenceIDs := sourceEvidenceIDs;
              ddr_SourceBlockIDs := sourceBlockIDs;
              ddr_SourceMemoryIDs := sourceMemoryIDs;
              ddr_SourceEvidenceIDs := sourceEvidenceIDs;
              ddr_GroundingRefs := appendGroundingRefs [cbr_GroundingRefs cashflow; dbr_GroundingRefs debt];
              ddr_Caveats := appendCaveats [cbr_Caveats cashflow; dbr_Caveats debt];
              ddr_ApprovalRequired := overallRiskApproval || cbr_ApprovalRequired cashflow || dbr_ApprovalRequired debt;
              ddr_ApprovalReason := firstNonEmpty [cbr_ApprovalReason cashflow; dbr_ApprovalReason debt;
                                                   overallRiskApprovalReason overallRiskApproval];
              ddr_PolicyRuleRefs := appendPolicyRuleRefs [cbr_PolicyRuleRefs cashflow; dbr_PolicyRuleRefs debt];
              ddr_Confidence := averageConfidence ordered;
              ddr_GeneratedAt := generatedAt |}
  | _ => fail (PlainError "debt decision draft requires both cashflow and debt block results")
  end.

Definition LifeEventAssessmentAggregator_Aggregate (Now : option (W -> W * time)) (spec : TaskSpec) (workflowID : string)
    (input : DraftInput) : ST error W LifeEventAssessmentReport :=
  ordered ← orderedBlockResults (di_Plan input) (di_BlockResults input);
  match di_TaskGraph input with
  | None => fail (PlainError "life event assessment draft requires generated task graph")
  | Some graph =>
      of_sum (match TaskGraph_Validate graph with Some e => inl e | None => inr tt end);;
      let '(sourceBlockIDs, sourceMemoryIDs, sourceEvidenceIDs) := collectProvenance ordered in
      let by_task (f : GeneratedTaskSpec -> string) : gmap string string :=
        fold_left (fun m item => <[ts_ID (gt_Task item) := f item]> m) (tg_GeneratedTasks graph) ∅ in
      generatedAt ← read Now;
      mret ((zero : LifeEventAssessmentReport)
        <| ler_TaskID := ts_ID spec |>
        <| ler_WorkflowID := workflowID |>
        <| ler_EventSummary := Join ((BlockResultEnvelope_Summary <$> ordered) ++ tg_SuppressionNotes graph) " " |>
        <| ler_StateDiffSummary := di_StateDiff input |>
        <| ler_MemoryUpdateSummary := sourceMemoryIDs |>
        <| ler_GeneratedTaskIDs := (fun item => ts_ID (gt_Task item)) <$> tg_GeneratedTasks graph |>
        <| ler_GeneratedTaskStatuses := by_task (fun _ => "generated") |>
        <| ler_RequiredCapabilities := by_task (fun item => UserIntentType_string (ts_UserIntentType (gt_Task item)) +:+ "_workflow") |>
        <| ler_MissingCapabilities := ∅ |>
        <| ler_SourceBlockIDs := sourceBlockIDs |>
        <| ler_SourceMemoryIDs := sourceMemoryIDs |>
        <| ler_SourceEvidenceIDs := sourceEvidenceIDs |>
        <| ler_GeneratedAt := generatedAt |>)
  end.

Definition TaxOptimizationAggregator_Aggregate (Now : option (W -> W * time)) (spec : TaskSpec) (workflowID : string)
    (input : DraftInput) : ST error W TaxOptimizationReport :=
  ordered ← orderedBlockResults (di_Plan input) (di_BlockResults input);
  match be_Tax <$> ordered with
  | [Some result] =>
      let '(sourceBlockIDs, sourceMemoryIDs, sourceEvidenceIDs) := collectProvenance ordered in
      let high := overall_risk_high (di_CurrentState input) in
      generatedAt ← read Now;
      mret {| tor_TaskID := ts_ID spec;
              tor_WorkflowID := workflowID;
              tor_Summary := tbr_Summary result;
              tor_DeterministicMetrics := taxMetricsMap (tbr_DeterministicMetrics result);
              tor_RecommendedActions := recommendationsToSkillItems (tbr_Recommendations result);
              tor_Recommendations := tbr_Recommendations result;
              tor_MetricRecords := tbr_MetricRecords result;
              tor_SourceBlockIDs := sourceBlockIDs;
              tor_SourceMemoryIDs := sourceMemoryIDs;
              tor_SourceEvidenceIDs := sourceEvidenceIDs;
              tor_RiskFlags := tbr_RiskFlags result;
              tor_GroundingRefs := tbr_GroundingRefs result;
              tor_Caveats := tbr_Caveats result;
              tor_ApprovalRequired := tbr_ApprovalRequired result || high;
              tor_ApprovalReason := firstNonEmpty [tbr_ApprovalReason result; overallRiskApprovalReason high];
              tor_PolicyRuleRefs := tbr_PolicyRuleRefs result;
              tor_Confidence := tbr_Confidence result;
              tor_GeneratedAt := generatedAt |}
  | _ => fail (PlainError "tax optimization draft requires exactly one tax block result")
  end.

Definition PortfolioRebalanceAggregator_Aggregate (Now : option (W -> W * time)) (spec : TaskSpec) (workflowID : string)
    (input : DraftInput) : ST error W PortfolioRebalanceReport :=
  ordered ← orderedBlockResults (di_Plan input) (di_BlockResults input);
  match be_Portfolio <$> ordered with
  | [Some result] =>
      let '(sourceBlockIDs, sourceMemoryIDs, sourceEvidenceIDs) := collectProvenance ordered in
      let high := overall_risk_high (di_CurrentState input) in
      generatedAt ← read Now;
      mret {| prr_TaskID := ts_ID spec;
              prr_WorkflowID := workflowID;
              prr_Summary := pbr_Summary result;
              prr_DeterministicMetrics := portfolioMetricsMap (pbr_DeterministicMetrics result);
              prr_RecommendedActions := recommendationsToSkillItems (pbr_Recommendations result);
              prr_Recommendations := pbr_Recommendations result;
              prr_MetricRecords := pbr_MetricRecords result;
              prr_SourceBlockIDs := sourceBlockIDs;
              prr_SourceMemoryIDs := sourceMemoryIDs;
              prr_SourceEvidenceIDs := sourceEvidenceIDs;
              prr_RiskFlags := pbr_RiskFlags result;
              prr_GroundingRefs := pbr_GroundingRefs result;
              prr_Caveats := pbr_Caveats result;
              prr_ApprovalRequired := pbr_ApprovalRequired result || high;
              prr_ApprovalReason := firstNonEmpty [pbr_ApprovalReason result; overallRiskApprovalReason high];
              prr_PolicyRuleRefs := pbr_PolicyRuleRefs result;
              prr_Confidence := pbr_Confidence result;
              prr_GeneratedAt := generatedAt |}
  | _ => fail (PlainError "portfolio rebalance draft requires exactly one portfolio block result")
  end.

Definition BehaviorInterventionAggregator_Aggregate (Now : option (W -> W * time)) (spec : TaskSpec) (workflowID : string)
    (input : DraftInput) : ST error W BehaviorInterventionReport :=
  ordered ← orderedBlockResults (di_Plan input) (di_BlockResults input);
  match be_Behavior <$> ordered with
  | [Some result] =>
      let '(sourceBlockIDs, sourceMemoryIDs, sourceEvidenceIDs) := collectProvenance ordered in
      generatedAt ← read Now;
      mret {| bir_TaskID := ts_ID spec;
              bir_WorkflowID := workflowID;
              bir_Summary := bbr_Summary result;
              bir_DeterministicMetrics := behaviorMetricsMap (bbr_DeterministicMetrics result);
              bir_SelectedSkillFamily := SkillFamily_string (sse_Family (bbr_SelectedSkill result));
              bir_SelectedSkillVersion := sse_Version (bbr_SelectedSkill result);
              bir_SelectedRecipeID := sse_RecipeID (bbr_SelectedSkill result);
              bir_SkillSelectionReasons := bbr_SkillSelectionReasons result;
              bir_Recommendations := bbr_Recommendations result;
              bir_MetricRecords := bbr_MetricRecords result;
              bir_SourceBlockIDs := sourceBlockIDs;
              bir_SourceMemoryIDs := sourceMemoryIDs;
              bir_SourceEvidenceIDs := sourceEvidenceIDs;
              bir_RiskFlags := bbr_RiskFlags result;
              bir_GroundingRefs := bbr_GroundingRefs result;
              bir_Caveats := bbr_Caveats result;
              bir_ApprovalRequired := bbr_ApprovalRequired result;
              bir_ApprovalReason := bbr_ApprovalReason result;
              bir_PolicyRuleRefs := bbr_PolicyRuleRefs result;
              bir_Confidence := bbr_Confidence result;
              bir_GeneratedAt := generatedAt |}
  | _ => fail (PlainError "behavior intervention draft requires exactly one behavior block result")
  end.

(** ** Artifacts *)

(** workflow, task, kind, content, summary, who produced it *)
Definition ArtifactProducer : Type := string -> string -> ArtifactKind -> string -> string -> string -> ST error W WorkflowArtifact.

Definition StaticArtifactProducer (Now : option (W -> W * time)) : ArtifactProducer :=
  fun workflowID taskID kind contentJSON summary producedBy =>
  now ← read None;
  now ← match Now with Some clock => read (Some clock) | None => mret now end;
  let id := workflowID +:+ "-" +:+ ArtifactKind_string kind in
  mret ((zero : WorkflowArtifact)
    <| wa_ID := id |>
    <| wa_WorkflowID := workflowID |>
    <| wa_TaskID := taskID |>
    <| wa_Kind := kind |>
    <| wa_ProducedBy := producedBy |>
    <| wa_Ref := (zero : ArtifactRef) <| ar_Kind := kind |> <| ar_ID := id |> <| ar_Summary := summary |> |>
    <| wa_ContentJSON := contentJSON |>
    <| wa_CreatedAt := now |>).

Record ArtifactService := mkArtifactService {
  as_Producer : option ArtifactProducer;
  as_Now : option (W -> W * time)
}.

(** The service marshals reports only. *)
Definition ArtifactService_Produce (s : ArtifactService) (workflowID taskID : string) (kind : ArtifactKind) (content : Output)
    (summary producedBy : string) : ST error W WorkflowArtifact :=
  contentJSON ← of_sum (or_error marshal_error (render <$> output_json content));
  default (StaticArtifactProducer (as_Now s)) (as_Producer s) workflowID taskID kind contentJSON summary producedBy.

Definition ArtifactService_ProduceJSON : ArtifactService -> string -> string -> ArtifactKind -> Output -> string -> string ->
    ST error W WorkflowArtifact := ArtifactService_Produce.

(** ** The reporting service *)

(** An aggregator but the monthly review's is its clock. *)
Record Service := mkService {
  sv_MonthlyReviewAggregator : MonthlyReviewAggregator;
  sv_DebtDecisionAggregator : option (W -> W * time);
  sv_LifeEventAggregator : option (W -> W * time);
  sv_TaxOptimizationAggregator : option (W -> W * time);
  sv_PortfolioRebalanceAggregator : option (W -> W * time);
  sv_BehaviorInterventionAggregator : option (W -> W * time);
  sv_Artifacts : ArtifactService
}.

Definition Service_Draft (s : Service) (spec : TaskSpec) (workflowID : string) (input : DraftInput) : ST error W ReportPayload :=
  check_plan (di_Plan input);;
  for_each check_envelope (di_BlockResults input);;
  match ts_UserIntentType spec with
  | UserIntentMonthlyReview =>
      report ← MonthlyReviewAggregator_Aggregate (sv_MonthlyReviewAggregator s) spec workflowID input;
      mret ((zero : ReportPayload) <| rp_MonthlyReview := Some report |>)
  | UserIntentDebtVsInvest =>
      report ← DebtDecisionAggregator_Aggregate (sv_DebtDecisionAggregator s) spec workflowID input;
      mret ((zero : ReportPayload) <| rp_DebtDecision := Some report |>)
  | UserIntentLifeEventTrigger =>
      report ← LifeEventAssessmentAggregator_Aggregate (sv_LifeEventAggregator s) spec workflowID input;
      mret ((zero : ReportPayload) <| rp_LifeEventAssessment := Some report |>)
  | UserIntentTaxOptimization =>
      report ← TaxOptimizationAggregator_Aggregate (sv_TaxOptimizationAggregator s) spec workflowID input;
      mret ((zero : ReportPayload) <| rp_TaxOptimization := Some report |>)
  | UserIntentPortfolioRebalance =>
      report ← PortfolioRebalanceAggregator_Aggregate (sv_PortfolioRebalanceAggregator s) spec workflowID input;
      mret ((zero : ReportPayload) <| rp_PortfolioRebalance := Some report |>)
  | UserIntentBehaviorIntervention =>
      report ← BehaviorInterventionAggregator_Aggregate (sv_BehaviorInterventionAggregator s) spec workflowID input;
      mret ((zero : ReportPayload) <| rp_BehaviorIntervention := Some report |>)
  | intent => fail (PlainError ("unsupported intent type " +:+ Quote (UserIntentType_string intent) +:+ " for report draft"))
  end.

(** The text of a report under the decision. *)
Definition disclosed (decision : PolicyDecision) (text : string) : string :=
  if pd_Outcome decision == PolicyDecisionRedact then "[REDACTED] " +:+ text else text.

Definition finalize_report (s : Service) (workflowID taskID : string) (draft : ReportPayload) (disclosureDecision : PolicyDecision) :
    ST error W (ReportPayload * list WorkflowArtifact) :=
  let produce kind content summary := ArtifactService_Produce (sv_Artifacts s) workflowID taskID kind content summary "report_agent" in
  match draft with
  | mkReportPayload (Some r) _ _ _ _ _ =>
      let report := r <| mrr_Summary := disclosed disclosureDecision (mrr_Summary r) |> in
      artifact ← produce ArtifactKindMonthlyReviewReport (MonthlyReviewOutput report) (mrr_Summary report);
      mret ((zero : ReportPayload) <| rp_MonthlyReview := Some report |>, [artifact])
  | mkReportPayload None (Some r) _ _ _ _ =>
      let report := r <| ddr_Conclusion := disclosed disclosureDecision (ddr_Conclusion r) |> in
      artifact ← produce ArtifactKindDebtDecisionReport (DebtDecisionOutput report) (ddr_Conclusion report);
      mret ((zero : ReportPayload) <| rp_DebtDecision := Some report |>, [artifact])
  | mkReportPayload None None (Some r) _ _ _ =>
      let report := r <| ler_EventSummary := disclosed disclosureDecision (ler_EventSummary r) |> in
      artifact ← produce ArtifactKindLifeEventAssessment (LifeEventAssessmentOutput report) (ler_EventSummary report);
      mret ((zero : ReportPayload) <| rp_LifeEventAssessment := Some report |>, [artifact])
  | mkReportPayload None None None (Some r) _ _ =>
      let report := r <| tor_Summary := disclosed disclosureDecision (tor_Summary r) |> in
      artifact ← produce ArtifactKindTaxOptimizationReport (TaxOptimizationOutput report) (tor_Summary report);
      mret ((zero : ReportPayload) <| rp_TaxOptimization := Some report |>, [artifact])
  | mkReportPayload None None None None (Some r) _ =>
      let report := r <| prr_Summary := disclosed disclosureDecision (prr_Summary r) |> in
      artifact ← produce ArtifactKindPortfolioRebalanceReport (PortfolioRebalanceOutput report) (prr_Summary report);
      mret ((zero : ReportPayload) <| rp_PortfolioRebalance := Some report |>, [artifact])
  | mkReportPayload None None None None None (Some r) =>
      let report := r <| bir_Summary := disclosed disclosureDecision (bir_Summary r) |> in
      artifact ← produce ArtifactKindBehaviorInterventionReport (BehaviorInterventionOutput report) (bir_Summary report);
      mret ((zero : ReportPayload) <| rp_BehaviorIntervention := Some report |>, [artifact])
  | mkReportPayload None None None None None None => fail (PlainError "report draft payload is empty")
  end.

Definition Service_Finalize (s : Service) (workflowID taskID : string) (draft : ReportPayload) (disclosureDecision : PolicyDecision) :
    ST error W (ReportPayload * list WorkflowArtifact) :=
  match pd_Outcome disclosureDecision with
  | PolicyDecisionAllow | PolicyDecisionRedact => finalize_report s workflowID taskID draft disclosureDecision
  | outcome => fail (PlainError ("report finalization requires allow or redact disclosure outcome, got " +:+
                                 Quote (PolicyDecisionOutcome_string outcome)))
  end.
End aggregators.
