(* ===== verification/CashflowReasoner.v ===== *)
(** * The cashflow reasoners (agents/cashflow_reasoner.go, agents/domain_agents.go)

    What the domain agents share, the reasoner that writes its findings from
    the metrics of the finance engine and the one that lets a language model
    rewrite them.  Operations run on a world [W]; [time.Now] is [system_now]. *)

From S2P Require Export CashflowGrounding Reporting.
#[local] Open Scope Z_scope.

(** ** Shared by the domain agents *)

Definition approvalReasonFromRecommendations (items : list Recommendation) : string :=
  default "" (head (rc_ApprovalReason <$> filter (fun item => rc_ApprovalRequired item = true /\ rc_ApprovalReason item <> "") items)).

Definition nonempty (ref : string) : bool := ref != "".

Definition collectRecommendationPolicyRefs (items : list Recommendation) : list string :=
  unique_from [] (List.filter nonempty (mjoin (rc_PolicyRuleRefs <$> items))).

Definition prefixedRefs (prefix : string) (refs : list string) : list string :=
  (fun ref => prefix +:+ ":" +:+ ref) <$> List.filter nonempty refs.

Definition refMetric (records : list MetricRecord) (ref : string) : MetricRecord :=
  default zero (List.find (fun record => mr_Ref record == ref) records).

Definition collectEvidenceIDs (records : list EvidenceRecord) : list EvidenceID := er_ID <$> records.
Definition collectMemoryIDsFromRecords (records : list MemoryRecord) : list string := mm_ID <$> records.

Definition hasMemoryKeyword (records : list MemoryRecord) (keyword : string) : bool :=
  let mentions text := Contains (ToLower text) (ToLower keyword) in
  existsb (fun record => mentions (mm_Summary record) ||
             existsb (fun fact => mentions (mf_Key fact) || mentions (mf_Value fact)) (mm_Facts record)) records.

Definition confidenceFromEvidence (records : list EvidenceRecord) : float64 :=
  match records with
  | [] => f_const 4 10
  | _ => f_div (fold_left (fun total record => f_add total (eco_Score (er_Confidence record))) records f_zero)
               (f_of_int (Z.of_nat (length records)))
  end.

(** [finance.Engine] *)
Record Engine := mkEngine {
  en_Cashflow : FinancialWorldState -> list EvidenceRecord -> time -> CashflowMetricBundle;
  en_DebtDecision : FinancialWorldState -> list EvidenceRecord -> time -> DebtDecisionMetricBundle;
  en_Tax : FinancialWorldState -> list EvidenceRecord -> time -> TaxMetricBundle;
  en_Portfolio : FinancialWorldState -> list EvidenceRecord -> time -> PortfolioMetricBundle
}.

Definition DeterministicEngine `{MO : MapOrder} : Engine := mkEngine Cashflow DebtDecision Tax Portfolio.

(** ** The candidate's JSON *)

Definition json_enum {A} (values : list A) (other : string -> A) (to_text : A -> string) : codec A := {|
  c_zero := other "";
  c_enc a := c_enc json_text (to_text a);
  c_dec v prev := (fun s => default (other s) (List.find (fun a => to_text a == s) values)) <$> c_dec json_text v (to_text prev);
  c_omit a := c_omit json_text (to_text a);
  c_ok a := c_ok json_text (to_text a);
  c_depth := c_depth json_text
|}.

Definition json_recommendation_type : codec RecommendationType := json_enum
  [RecommendationTypeCashflowAdjustment; RecommendationTypeExpenseReduction; RecommendationTypeDebtPaydown;
   RecommendationTypeDebtRestructure; RecommendationTypeInvestMore; RecommendationTypePortfolioRebalance;
   RecommendationTypeTaxAction; RecommendationTypeBehaviorSubscriptionCleanup; RecommendationTypeBehaviorSpendNudge;
   RecommendationTypeBehaviorGuardrail] RecommendationTypeOther RecommendationType_string.

Definition json_risk_level : codec RiskLevel := json_enum
  [RiskLevelUnknown; RiskLevelLow; RiskLevelMedium; RiskLevelHigh; RiskLevelCritical] RiskLevelOther RiskLevel_string.

Definition json_risk_flag : codec RiskFlag := json_struct zero
  [Field json_text "code" false rf_Code (fun x s => s <| rf_Code := x |>);
   Field json_text "severity" false rf_Severity (fun x s => s <| rf_Severity := x |>);
   Field json_text "detail" false rf_Detail (fun x s => s <| rf_Detail := x |>);
   Field (json_slice json_text) "evidence_ids" true rf_EvidenceIDs (fun x s => s <| rf_EvidenceIDs := x |>);
   Field (json_slice json_text) "metric_refs" true rf_MetricRefs (fun x s => s <| rf_MetricRefs := x |>);
   Field (json_slice json_text) "memory_refs" true rf_MemoryRefs (fun x s => s <| rf_MemoryRefs := x |>);
   Field (json_slice json_text) "caveats" true rf_Caveats (fun x s => s <| rf_Caveats := x |>);
   Field (json_slice json_text) "policy_rule_refs" true rf_PolicyRuleRefs (fun x s => s <| rf_PolicyRuleRefs := x |>)].

Definition json_recommendation : codec Recommendation := json_struct zero
  [Field json_text "id" true rc_ID (fun x s => s <| rc_ID := x |>);
   Field json_recommendation_type "type" false rc_Type (fun x s => s <| rc_Type := x |>);
   Field json_text "title" false rc_Title (fun x s => s <| rc_Title := x |>);
   Field json_text "detail" false rc_Detail (fun x s => s <| rc_Detail := x |>);
   Field json_risk_level "risk_level" false rc_RiskLevel (fun x s => s <| rc_RiskLevel := x |>);
   Field (json_slice json_text) "grounding_refs" true rc_GroundingRefs (fun x s => s <| rc_GroundingRefs := x |>);
   Field (json_slice json_text) "metric_refs" true rc_MetricRefs (fun x s => s <| rc_MetricRefs := x |>);
   Field (json_slice json_text) "evidence_refs" true rc_EvidenceRefs (fun x s => s <| rc_EvidenceRefs := x |>);
   Field (json_slice json_text) "memory_refs" true rc_MemoryRefs (fun x s => s <| rc_MemoryRefs := x |>);
   Field (json_slice json_text) "caveats" true rc_Caveats (fun x s => s <| rc_Caveats := x |>);
   Field json_bool "approval_required" true rc_ApprovalRequired (fun x s => s <| rc_ApprovalRequired := x |>);
   Field json_text "approval_reason" true rc_ApprovalReason (fun x s => s <| rc_ApprovalReason := x |>);
   Field (json_slice json_text) "policy_rule_refs" true rc_PolicyRuleRefs (fun x s => s <| rc_PolicyRuleRefs := x |>);
   Field (json_map json_text) "metadata" true rc_Metadata (fun x s => s <| rc_Metadata := x |>)].

#[export] Instance eta_CashflowStructuredCandidate : Eta CashflowStructuredCandidate := eta! mkCashflowStructuredCandidate < cc_Summary ; cc_KeyFindings ; cc_GroundedRecommendations ; cc_RiskFlags ; cc_MetricRefs ; cc_GroundingRefs ; cc_EvidenceRefs ; cc_MemoryRefs ; cc_Confidence ; cc_Caveats ; cc_ApprovalRequired ; cc_ApprovalReason ; cc_PolicyRuleRefs >.
#[export] Instance zero_CashflowStructuredCandidate : Zero CashflowStructuredCandidate := mkCashflowStructuredCandidate zero zero zero zero zero zero zero zero zero zero zero zero zero.

Definition json_cashflow_candidate : codec CashflowStructuredCandidate := json_struct zero
  [Field json_text "summary" false cc_Summary (fun x s => s <| cc_Summary := x |>);
   Field (json_slice json_text) "key_findings" true cc_KeyFindings (fun x s => s <| cc_KeyFindings := x |>);
   Field (json_slice json_recommendation) "grounded_recommendations" true cc_GroundedRecommendations
     (fun x s => s <| cc_GroundedRecommendations := x |>);
   Field (json_slice json_risk_flag) "risk_flags" true cc_RiskFlags (fun x s => s <| cc_RiskFlags := x |>);
   Field (json_slice json_text) "metric_refs" true cc_MetricRefs (fun x s => s <| cc_MetricRefs := x |>);
   Field (json_slice json_text) "grounding_refs" true cc_GroundingRefs (fun x s => s <| cc_GroundingRefs := x |>);
   Field (json_slice json_text) "evidence_refs" true cc_EvidenceRefs (fun x s => s <| cc_EvidenceRefs := x |>);
   Field (json_slice json_text) "memory_refs" true cc_MemoryRefs (fun x s => s <| cc_MemoryRefs := x |>);
   Field json_float "confidence" false cc_Confidence (fun x s => s <| cc_Confidence := x |>);
   Field (json_slice json_text) "caveats" true cc_Caveats (fun x s => s <| cc_Caveats := x |>);
   Field json_bool "approval_required" true cc_ApprovalRequired (fun x s => s <| cc_ApprovalRequired := x |>);
   Field json_text "approval_reason" true cc_ApprovalReason (fun x s => s <| cc_ApprovalReason := x |>);
   Field (json_slice json_text) "policy_rule_refs" true cc_PolicyRuleRefs (fun x s => s <| cc_PolicyRuleRefs := x |>)].

(** [mustJSON] of the metrics, whose values are numbers: [json.MarshalIndent]
    with an indent of two spaces, empty where it fails. *)
Definition mustJSON (m : CashflowDeterministicMetrics) : string :=
  let members := [("monthly_inflow_cents", c_enc json_int (fcm_MonthlyInflowCents m));
                  ("monthly_outflow_cents", c_enc json_int (fcm_MonthlyOutflowCents m));
                  ("monthly_net_income_cents", c_enc json_int (fcm_MonthlyNetIncomeCents m));
                  ("savings_rate", c_enc json_float (fcm_SavingsRate m));
                  ("duplicate_subscription_count", c_enc json_int (fcm_DuplicateSubscriptionCount m));
                  ("late_night_spending_frequency", c_enc json_float (fcm_LateNightSpendingFrequency m))] in
  match mapM (fun '(name, v) => (fun v => quote_json name +:+ ": " +:+ render v) <$> v) members with
  | Some texts => "{" +:+ newline +:+ "  " +:+ Join texts ("," +:+ newline +:+ "  ") +:+ newline +:+ "}"
  | None => ""
  end.

Definition evidenceSummaryText (records : list EvidenceRecord) : string :=
  Join (slices_SortFunc (compare_id id)
    ((fun record => er_ID record +:+ "|" +:+ EvidenceType_string (er_Type record) +:+ "|" +:+ er_Summary record) <$> records)) newline.

Definition memorySummaryText (records : list MemoryRecord) : string :=
  Join (slices_SortFunc (compare_id id)
    ((fun record => mm_ID record +:+ "|" +:+ MemoryKind_string (mm_Kind record) +:+ "|" +:+ mm_Summary record) <$> records)) newline.

(** ** The deterministic reasoner *)

Record CashflowReasonerInput := mkCashflowReasonerInput {
  ci_WorkflowID : string;
  ci_TaskID : string;
  ci_TraceID : string;
  ci_CurrentState : FinancialWorldState;
  ci_RelevantMemories : list MemoryRecord;
  ci_RelevantEvidence : list EvidenceRecord;
  ci_Block : ExecutionBlock;
  ci_ExecutionContext : BlockExecutionContext
}.

Definition cashflow_caveats : list string := ["所有金额、比率和压力指标都以 Finance Engine 的 deterministic metric records 为准。"].

(** The findings at the metrics of the engine. *)
Definition cashflow_findings (input : CashflowReasonerInput) (bundle : CashflowMetricBundle) : CashflowBlockResult :=
  let metrics := cmb_Metrics bundle in
  let value ref := mr_Float64Value (refMetric (cmb_Records bundle) ref) in
  let evidenceIDs := collectEvidenceIDs (ci_RelevantEvidence input) in
  let memoryIDs := collectMemoryIDsFromRecords (ci_RelevantMemories input) in
  let id := xb_ID (ci_Block input) in
  let metricRefs := refsFromRecords (cmb_Records bundle) in
  let pressure := f_ltb (fcm_SavingsRate metrics) (f_const 15 100) || f_ltb (value "liquidity_buffer_months") (f_of_int 3) in
  let subscriptions := (0 <? fcm_DuplicateSubscriptionCount metrics) || hasMemoryKeyword (ci_RelevantMemories input) "subscription" in
  let late_night := f_leb (f_const 2 10) (fcm_LateNightSpendingFrequency metrics) || hasMemoryKeyword (ci_RelevantMemories input) "late-night" in
  let riskFlags :=
    (if pressure then [mkRiskFlag "cashflow_pressure" "medium" "储蓄率偏低，现金流缓冲较弱。" evidenceIDs
       ["savings_rate"; "liquidity_buffer_months"] memoryIDs cashflow_caveats []] else []) ++
    (if late_night then [mkRiskFlag "late_night_spending" "medium" "深夜消费波动偏高，建议把这部分支出单独复核。" evidenceIDs
       ["late_night_spending_frequency"] memoryIDs cashflow_caveats []] else []) in
  let recommendations :=
    (if pressure then [(zero : Recommendation)
       <| rc_ID := id +:+ ":cashflow-adjustment" |>
       <| rc_Type := RecommendationTypeCashflowAdjustment |>
       <| rc_Title := "优先修复月度结余" |>
       <| rc_Detail := "先控制可变支出并修复现金流缓冲，确保结余能覆盖后续债务或投资决策。" |>
       <| rc_RiskLevel := RiskLevelMedium |>
       <| rc_GroundingRefs := ["metric:savings_rate"; "metric:liquidity_buffer_months"] |>
       <| rc_MetricRefs := ["savings_rate"; "liquidity_buffer_months"; "monthly_net_income_cents"] |>
       <| rc_EvidenceRefs := evidenceIDs |>
       <| rc_MemoryRefs := memoryIDs |>
       <| rc_Caveats := cashflow_caveats |>] else []) ++
    (if subscriptions then [(zero : Recommendation)
       <| rc_ID := id +:+ ":expense-reduction" |>
       <| rc_Type := RecommendationTypeExpenseReduction |>
       <| rc_Title := "梳理经常性订阅" |>
       <| rc_Detail := "订阅负担和重复订阅信号说明现金流存在可优化项，先清理低使用率订阅。" |>
       <| rc_RiskLevel := RiskLevelLow |>
       <| rc_GroundingRefs := ["metric:duplicate_subscription_count"; "metric:subscription_burden_ratio"] |>
       <| rc_MetricRefs := ["duplicate_subscription_count"; "subscription_burden_ratio"; "recurring_expense_signal"] |>
       <| rc_EvidenceRefs := evidenceIDs |>
       <| rc_MemoryRefs := memoryIDs |>
       <| rc_Caveats := cashflow_caveats |>] else []) in
  {| cbr_BlockID := id;
     cbr_Summary :=
       "现金流块结论：当前月度结余 " +:+ Itoa (fcm_MonthlyNetIncomeCents metrics) +:+ " 分，储蓄率 " +:+ Sprintf_f 2 (fcm_SavingsRate metrics) +:+ "。" +:+
       (if hasMemoryKeyword (ci_RelevantMemories input) "decision" && Contains (ExecutionBlockKind_string (xb_Kind (ci_Block input))) "liquidity"
        then " 检索到历史债务决策记忆，本次更强调流动性缓冲与现金流稳定性。" else "");
     cbr_KeyFindings :=
       ["本期流入 " +:+ Itoa (fcm_MonthlyInflowCents metrics) +:+ " 分，流出 " +:+ Itoa (fcm_MonthlyOutflowCents metrics) +:+
          " 分，净结余 " +:+ Itoa (fcm_MonthlyNetIncomeCents metrics) +:+ " 分。";
        "储蓄率 " +:+ Sprintf_f 2 (fcm_SavingsRate metrics) +:+ "，流动性缓冲 " +:+ Sprintf_f 2 (value "liquidity_buffer_months") +:+
          " 月，应急金覆盖 " +:+ Sprintf_f 2 (value "emergency_fund_coverage_months") +:+ " 月。";
        "重复订阅 " +:+ Itoa (fcm_DuplicateSubscriptionCount metrics) +:+ "，深夜消费频率 " +:+
          Sprintf_f 2 (fcm_LateNightSpendingFrequency metrics) +:+ "，订阅负担 " +:+ Sprintf_f 2 (value "subscription_burden_ratio") +:+ "。"];
     cbr_DeterministicMetrics := metrics;
     cbr_MetricRecords := cmb_Records bundle;
     cbr_EvidenceIDs := evidenceIDs;
     cbr_MemoryIDsUsed := memoryIDs;
     cbr_MetricRefs := metricRefs;
     cbr_GroundingRefs := prefixedRefs "metric" metricRefs;
     cbr_RiskFlags := riskFlags;
     cbr_Recommendations := recommendations;
     cbr_Caveats := cashflow_caveats;
     cbr_ApprovalRequired := recommendationsRequireApproval recommendations;
     cbr_ApprovalReason := approvalReasonFromRecommendations recommendations;
     cbr_PolicyRuleRefs := collectRecommendationPolicyRefs recommendations;
     cbr_Confidence := confidenceFromEvidence (ci_RelevantEvidence input) |}.

Section reasoner.
Context {W : Type} (system_now : W -> W * time) `{TE : TextErrors} `{MO : MapOrder}.

Definition metricAsOf (current : FinancialWorldState) : ST error W time :=
  if sv_UpdatedAt (fw_Version current) != zero_time then mret (sv_UpdatedAt (fw_Version current))
  else read system_now None.

(** The interface [CashflowReasoner]. *)
Definition CashflowReasoner : Type := CashflowReasonerInput -> ST error W CashflowBlockResult.

(** [DeterministicCashflowReasoner.Analyze]; it is its engine. *)
Definition DeterministicCashflowReasoner (engine : option Engine) : CashflowReasoner := fun input =>
  asOf ← metricAsOf (ci_CurrentState input);
  mret (cashflow_findings input (en_Cashflow (default DeterministicEngine engine) (ci_CurrentState input) (ci_RelevantEvidence input) asOf)).

(** ** The reasoner that asks a model *)

Record ProviderBackedCashflowReasoner := mkProviderBackedCashflowReasoner {
  pr_Base : option Engine;
  pr_PromptRenderer : PromptRenderer W;
  pr_Generator : option (StructuredGenerator W);
  pr_TraceRecorder : option (TraceRecorder W)
}.

Definition allowedCashflowMetricRefs : list string := allowed_cashflow_refs.

Definition cashflowCandidateFromFallback (r : CashflowBlockResult) : CashflowStructuredCandidate := {|
  cc_Summary := cbr_Summary r;
  cc_KeyFindings := cbr_KeyFindings r;
  cc_GroundedRecommendations := cbr_Recommendations r;
  cc_RiskFlags := cbr_RiskFlags r;
  cc_MetricRefs := cbr_MetricRefs r;
  cc_GroundingRefs := cbr_GroundingRefs r;
  cc_EvidenceRefs := cbr_EvidenceIDs r;
  cc_MemoryRefs := cbr_MemoryIDsUsed r;
  cc_Confidence := cbr_Confidence r;
  cc_Caveats := cbr_Caveats r;
  cc_ApprovalRequired := cbr_ApprovalRequired r;
  cc_ApprovalReason := cbr_ApprovalReason r;
  cc_PolicyRuleRefs := cbr_PolicyRuleRefs r
|}.

Definition mergeCashflowCandidate (base : CashflowBlockResult) (c : CashflowStructuredCandidate) : CashflowBlockResult :=
  base <| cbr_Summary := cc_Summary c |>
       <| cbr_KeyFindings := cc_KeyFindings c |>
       <| cbr_RiskFlags := cc_RiskFlags c |>
       <| cbr_MetricRefs := cc_MetricRefs c |>
       <| cbr_GroundingRefs := cc_GroundingRefs c |>
       <| cbr_EvidenceIDs := cc_EvidenceRefs c |>
       <| cbr_MemoryIDsUsed := cc_MemoryRefs c |>
       <| cbr_Recommendations := cc_GroundedRecommendations c |>
       <| cbr_Confidence := cc_Confidence c |>
       <| cbr_Caveats := cc_Caveats c |>
       <| cbr_ApprovalRequired := cc_ApprovalRequired c |>
       <| cbr_ApprovalReason := cc_ApprovalReason c |>
       <| cbr_PolicyRuleRefs := cc_PolicyRuleRefs c |>.

Definition fallbackWithReason (base : CashflowBlockResult) (category reason : string) : CashflowBlockResult :=
  if reason == "" then base
  else base <| cbr_Caveats := cbr_Caveats base ++
         ["provider-backed cashflow reasoning fallback: " +:+ category +:+ " (" +:+ reason +:+ ")"] |>.

Definition cashflow_prompt_data (input : CashflowReasonerInput) (metrics : CashflowDeterministicMetrics) : gmap string string := list_to_map
  [("Goal", xb_Goal (ci_Block input));
   ("BlockID", xb_ID (ci_Block input));
   ("BlockKind", ExecutionBlockKind_string (xb_Kind (ci_Block input)));
   ("MetricsSummary", mustJSON metrics);
   ("EvidenceSummary", evidenceSummaryText (ci_RelevantEvidence input));
   ("MemorySummary", memorySummaryText (ci_RelevantMemories input));
   ("ContextSummary", ContextSummary (bx_Slice (ci_ExecutionContext input)))].

Definition cashflow_trace_input (c : BlockExecutionContext) : PromptTraceInput :=
  mkPromptTraceInput (bx_SelectedStateBlocks c) (bx_SelectedMemoryIDs c) (bx_SelectedEvidenceIDs c)
    (SkillNames (bx_Slice c)) (ExcludedBlockRefs (bx_Slice c)) (CompactionNotes (bx_Slice c)) (bx_EstimatedInputTokens c).

Definition cashflow_schema (selectedEvidenceIDs : list EvidenceID) (metrics : CashflowDeterministicMetrics) :
    Schema CashflowStructuredCandidate :=
  mkSchema "CashflowAnalysisSchema" (Some (fun raw => or_error (json_error raw) (Unmarshal json_cashflow_candidate raw)))
    (Some (fun value => ValidateCashflowStructuredCandidate value allowedCashflowMetricRefs selectedEvidenceIDs metrics)).

Definition cashflow_pipeline (r : ProviderBackedCashflowReasoner) (input : CashflowReasonerInput) (fallbackResult : CashflowBlockResult) :
    Structured.Pipeline W CashflowStructuredCandidate := {|
  pl_Schema := cashflow_schema (bx_SelectedEvidenceIDs (ci_ExecutionContext input)) (cbr_DeterministicMetrics fallbackResult);
  pl_Generator := pr_Generator r;
  pl_RepairPolicy := DefaultRepairPolicy;
  pl_Fallback := Some (mret (cashflowCandidateFromFallback fallbackResult));
  pl_TraceRecorder := pr_TraceRecorder r
|}.

Definition cashflow_request (input : CashflowReasonerInput) (rendered : RenderedPrompt) : StructuredGenerationRequest :=
  mkStructuredGenerationRequest ((zero : ModelRequest)
    <| mq_Profile := ModelProfileCashflowFast |>
    <| mq_Messages := Messages rendered |>
    <| mq_ResponseFormat := mkResponseFormat ResponseFormatJSONObject |>
    <| mq_MaxOutputTokens := 700 |>
    <| mq_Temperature := f_const 1 10 |>
    <| mq_WorkflowID := ci_WorkflowID input |>
    <| mq_TaskID := ci_TaskID input |>
    <| mq_TraceID := ci_TraceID input |>
    <| mq_Agent := "cashflow_agent" |>
    <| mq_PromptID := po_ID rendered |>
    <| mq_PromptVersion := po_Version rendered |>).

(** What is made of the pipeline's value. *)
Definition accept_candidate (input : CashflowReasonerInput) (fallbackResult : CashflowBlockResult)
    (candidate : CashflowStructuredCandidate) : CashflowBlockResult :=
  match RunCashflowGroundingPrecheck candidate (cbr_DeterministicMetrics fallbackResult)
          (bx_SelectedEvidenceIDs (ci_ExecutionContext input)) with
  | inl err => fallbackWithReason fallbackResult (StructuredFailure_string FailureCategoryGroundingInvalid) (error_string err)
  | inr _ => mergeCashflowCandidate fallbackResult candidate
  end.

Definition ProviderBackedCashflowReasoner_Analyze (r : ProviderBackedCashflowReasoner) : CashflowReasoner := fun input =>
  fallbackResult ← DeterministicCashflowReasoner (pr_Base r) input;
  rendered ← attempt (Render system_now (pr_PromptRenderer r) "cashflow.monthly_review.v1"
                        (cashflow_prompt_data input (cbr_DeterministicMetrics fallbackResult))
                        (cashflow_trace_input (ci_ExecutionContext input)));
  match rendered with
  | inl err => mret (fallbackWithReason fallbackResult "prompt_render_failed" (error_string err))
  | inr rendered =>
      result ← attempt (Execute (cashflow_pipeline r input fallbackResult) (cashflow_request input rendered));
      match result with
      | inl err => mret (fallbackWithReason fallbackResult (StructuredFailure_string FailureCategoryFallbackFailed) (error_string err))
      | inr result => mret (accept_candidate input fallbackResult (rs_Value result))
      end
  end.
End reasoner.
