(* ===== verification/CashflowThm.v ===== *)
(** * A model may word a cashflow analysis, not compute it

    Whatever the language model answers, the numbers of the analysis are the
    engine's; what it may replace is text and references, and those only when
    they are grounded in the numbers. *)

From S2P Require Import CashflowReasoner PlanningThm VerificationThm.
#[local] Open Scope Z_scope.

Section reasoner.
Context {W : Type} (system_now : W -> W * time) `{TE : TextErrors} `{MO : MapOrder}.
Context (r : ProviderBackedCashflowReasoner (W:=W)) (count : W -> nat) (input : CashflowReasonerInput).
Context (HS : model_surroundings system_now (pr_PromptRenderer r) (pr_Generator r) (pr_TraceRecorder r) count).

Let selected : list EvidenceID := bx_SelectedEvidenceIDs (ci_ExecutionContext input).

(** The analysis of the engine at some time. *)
Definition computed (base : CashflowBlockResult) : Prop :=
  exists asOf, base = cashflow_findings input (en_Cashflow (default DeterministicEngine (pr_Base r)) (ci_CurrentState input) (ci_RelevantEvidence input) asOf).

(** A candidate that may be merged: it passed the schema or is the engine's
    own, and every number and reference in it is grounded. *)
Definition grounded_candidate (base : CashflowBlockResult) (candidate : CashflowStructuredCandidate) : Prop :=
  (ValidateCashflowStructuredCandidate candidate allowedCashflowMetricRefs selected (cbr_DeterministicMetrics base) = [] \/
   candidate = cashflowCandidateFromFallback base) /\
  selected <> [] /\ Forall (fun ref => ref ∈ selected) (cc_EvidenceRefs candidate) /\
  Forall (fun field => text_in_line (cbr_DeterministicMetrics base) field.2) (cashflowNarrativeFields candidate).

(** What is returned: the engine's analysis, with at most another caveat, or
    in the words of a grounded candidate. *)
Definition worded (base result : CashflowBlockResult) : Prop :=
  (exists caveats, result = base <| cbr_Caveats := cbr_Caveats base ++ caveats |>) \/
  (exists candidate, result = mergeCashflowCandidate base candidate /\ grounded_candidate base candidate).

Lemma fallback_worded base category reason : worded base (fallbackWithReason base category reason).
Proof.
  left. unfold fallbackWithReason. case_match; [exists []|by eexists]. destruct base. cbn. by rewrite app_nil_r.
Qed.

Lemma accepted_worded base (result : Result CashflowStructuredCandidate) :
  accepted (cashflow_pipeline r input base) result \/ fell_back (cashflow_pipeline r input base) result ->
  worded base (accept_candidate input base (rs_Value result)).
Proof.
  intros H. unfold accept_candidate. destruct (RunCashflowGroundingPrecheck _ _ _) as [err|[]] eqn:E; [apply fallback_worded|].
  right. exists (rs_Value result). split; [done|]. apply precheck_spec in E as (_ & Hs & He & Ht). split_and!; [|done..].
  destruct H as [(_ & _ & _ & Hv)|(_ & _ & f & w & w' & [= <-] & [= _ <-])]; [left; exact (Hv _ eq_refl)|by right].
Qed.

Lemma analysed_within :
  within count 2 (fun result => exists base, computed base /\ worded base result) (fun _ => False)
    (ProviderBackedCashflowReasoner_Analyze system_now r input).
Proof.
  unfold ProviderBackedCashflowReasoner_Analyze.
  apply (within_bind count 0 2 computed).
  { unfold DeterministicCashflowReasoner, metricAsOf. apply (within_bind count 0 0 (fun _ => True)); [|intros asOf _; apply within_ret; by exists asOf].
    case_match; [by apply within_ret|exact (within_reading _ _ _ _ _ HS)]. }
  intros base Hb. apply (within_bind count 0 2 (fun _ => True)).
  { eapply within_weaken; [apply within_attempt with (F' := fun _ => False), (within_rendering _ _ _ _ _ HS)|lia|done|done]. }
  intros [err|rendered] _; [apply within_ret; exists base; split; [done|apply fallback_worded]|].
  apply (within_bind count 2 0 (fun x => match x with
    | inl _ => True
    | inr result => accepted (cashflow_pipeline r input base) result \/ fell_back (cashflow_pipeline r input base) result end)).
  { eapply within_weaken; [apply within_attempt with (F' := fun _ => False), (structured_output_spec (cashflow_pipeline r input base) count)
      |reflexivity|by intros [e|x]|done].
    apply (surrounded_pipeline _ _ _ _ _ HS); [done..|]. intros f [= <-]. by apply within_ret. }
  intros [err|result] H; apply within_ret; exists base; (split; [done|]); [apply fallback_worded|by apply accepted_worded].
Qed.
End reasoner.

(** C7: A model words the cashflow analysis and computes none of it.
    Whatever the model answers, or fails to answer, the provider-backed
    reasoner returns an analysis after at most two calls of it: block,
    metrics and metric records are the deterministic engine's; the rest is
    the engine's too, perhaps with one more caveat, or it is taken from a
    candidate that passed the schema (or is the engine's own), refers only to
    evidence that was selected, and states no number that is not a form of a
    metric, nor behind the name of a metric another number than that
    metric's. *)
Theorem model_only_words {W} (system_now : W -> W * time) `{TE : TextErrors} `{MO : MapOrder}
    (r : ProviderBackedCashflowReasoner (W:=W)) (count : W -> nat) (input : CashflowReasonerInput) :
  model_surroundings system_now (pr_PromptRenderer r) (pr_Generator r) (pr_TraceRecorder r) count ->
  within count 2 (fun result => exists base, computed r input base /\ worded input base result /\
      cbr_BlockID result = cbr_BlockID base /\ cbr_DeterministicMetrics result = cbr_DeterministicMetrics base /\
      cbr_MetricRecords result = cbr_MetricRecords base) (fun _ => False)
    (ProviderBackedCashflowReasoner_Analyze system_now r input).
Proof.
  intros HS. eapply within_weaken; [by apply analysed_within|reflexivity| |done]. intros result (base & Hb & Hw).
  exists base. split; [done|]. split; [done|]. destruct Hw as [[caveats ->]|(candidate & -> & _)]; done.
Qed.

(** ** A model whose words are taken, and one that invents a number *)

Definition words (summary : string) : string :=
  render (VObj [("summary", VStr summary); ("key_findings", VArr [VStr "income exceeds spending"]); ("evidence_refs", VArr [VStr "e1"]);
                ("confidence", VNum "0.9"); ("caveats", VArr [VStr "one month only"])]).

Definition wordy_reasoner (summary : string) : ProviderBackedCashflowReasoner (W:=nat) := {|
  pr_Base := None;
  pr_PromptRenderer := mkPromptRenderer example_registry None;
  pr_Generator := Some (fun _ n => (S n, Ok ((zero : StructuredGenerationResult) <| sgr_Content := words summary |>)));
  pr_TraceRecorder := None
|}.

Definition wordy_input : CashflowReasonerInput := {|
  ci_WorkflowID := "wf"; ci_TaskID := "task"; ci_TraceID := "trace";
  ci_CurrentState := zero <| fw_CashflowState := zero <| cf_MonthlyInflowCents := 800000 |> <| cf_MonthlyOutflowCents := 300000 |>
    <| cf_MonthlyNetIncomeCents := 500000 |> |>;
  ci_RelevantMemories := []; ci_RelevantEvidence := []; ci_Block := zero <| xb_ID := "cashflow-review" |>;
  ci_ExecutionContext := zero <| bx_SelectedEvidenceIDs := ["e1"] |> |}.

Definition wordy_summary (summary : string) : option (string * nat * Z) :=
  match ProviderBackedCashflowReasoner_Analyze (TE := example_texts) (MO := canonical_order) example_clock (wordy_reasoner summary) wordy_input 0%nat with
  | (calls, Ok result) => Some (if cbr_Summary result == summary then "taken" else "not taken", calls, fcm_MonthlyNetIncomeCents (cbr_DeterministicMetrics result))
  | _ => None
  end.

(** A summary without numbers and one with the right number are taken after
    one call; an invented number is repaired once, then not taken.  The number
    of the analysis is the engine's each time. *)
Example wordy_runs :
  (wordy_summary "a calm month", wordy_summary "net income 500000", wordy_summary "net income 900000") =
  (Some ("taken", 1%nat, 500000), Some ("taken", 1%nat, 500000), Some ("not taken", 2%nat, 500000)).
Proof. vm_compute. reflexivity. Qed.

Lemma model_only_words_witness :
  let r := wordy_reasoner "net income 900000" in
  model_surroundings example_clock (pr_PromptRenderer r) (pr_Generator r) (pr_TraceRecorder r) id /\
  within id 2 (fun result => exists base, computed (MO := canonical_order) r wordy_input base /\ worded wordy_input base result /\
      cbr_BlockID result = cbr_BlockID base /\ cbr_DeterministicMetrics result = cbr_DeterministicMetrics base /\
      cbr_MetricRecords result = cbr_MetricRecords base) (fun _ => False)
    (ProviderBackedCashflowReasoner_Analyze (TE := example_texts) (MO := canonical_order) example_clock r wordy_input).
Proof.
  intros r. assert (HS : model_surroundings example_clock (pr_PromptRenderer r) (pr_Generator r) (pr_TraceRecorder r) id).
  { split; try done. intros g request [= <-] w. simpl. split; [unfold id; lia | done]. }
  split; [exact HS|].
  exact (model_only_words (TE := example_texts) (MO := canonical_order) example_clock r id wordy_input HS).
Defined.
