(* ===== verification/Protocol.v ===== *)
(** * The agent protocol: its messages and their validation *)

From S2P Require Export Reporting.
#[local] Open Scope Z_scope.

(** * Data of the agent protocol, the agents and their memory (protocol/*.go,
    agents/types.go, memory/types.go)

    Messages between workflow and agents, field by field.  A payload with one
    field is that field; the five analysis requests have the same fields and
    share a record. *)

(** ** internal/memory *)

Record MemoryWriteContext := mkMemoryWriteContext {
  mx_WorkflowID : string;
  mx_TaskID : string;
  mx_TraceID : string;
  mx_Actor : string
}.
#[export] Instance eta_MemoryWriteContext : Eta MemoryWriteContext := eta! mkMemoryWriteContext < mx_WorkflowID ; mx_TaskID ; mx_TraceID ; mx_Actor >.
#[export] Instance zero_MemoryWriteContext : Zero MemoryWriteContext := mkMemoryWriteContext zero zero zero zero.

Record MemoryQueryRecord := mkMemoryQueryRecord {
  mqr_QueryID : string;
  mqr_WorkflowID : string;
  mqr_TaskID : string;
  mqr_TraceID : string;
  mqr_Consumer : string;
  mqr_ContextView : string;
  mqr_Text : string;
  mqr_LexicalTerms : list string;
  mqr_SemanticHint : string;
  mqr_TopK : Z;
  mqr_RetrievalPolicy : string;
  mqr_FreshnessPolicy : string;
  mqr_EmbeddingModel : string;
  mqr_EmbeddingProfile : string;
  mqr_OccurredAt : time
}.
#[export] Instance eta_MemoryQueryRecord : Eta MemoryQueryRecord := eta! mkMemoryQueryRecord < mqr_QueryID ; mqr_WorkflowID ; mqr_TaskID ; mqr_TraceID ; mqr_Consumer ; mqr_ContextView ; mqr_Text ; mqr_LexicalTerms ; mqr_SemanticHint ; mqr_TopK ; mqr_RetrievalPolicy ; mqr_FreshnessPolicy ; mqr_EmbeddingModel ; mqr_EmbeddingProfile ; mqr_OccurredAt >.
#[export] Instance zero_MemoryQueryRecord : Zero MemoryQueryRecord := mkMemoryQueryRecord zero zero zero zero zero zero zero zero zero zero zero zero zero zero zero.

Record MemoryRetrievalRecord := mkMemoryRetrievalRecord {
  mrt_QueryID : string;
  mrt_WorkflowID : string;
  mrt_TaskID : string;
  mrt_TraceID : string;
  mrt_Consumer : string;
  mrt_RetrievalPolicy : string;
  mrt_FreshnessPolicy : string;
  mrt_FusionSummary : string;
  mrt_SelectedMemoryID : list string;
  mrt_RejectedMemoryID : list string;
  mrt_Results : list RetrievalResult;
  mrt_OccurredAt : time
}.
#[export] Instance eta_MemoryRetrievalRecord : Eta MemoryRetrievalRecord := eta! mkMemoryRetrievalRecord < mrt_QueryID ; mrt_WorkflowID ; mrt_TaskID ; mrt_TraceID ; mrt_Consumer ; mrt_RetrievalPolicy ; mrt_FreshnessPolicy ; mrt_FusionSummary ; mrt_SelectedMemoryID ; mrt_RejectedMemoryID ; mrt_Results ; mrt_OccurredAt >.
#[export] Instance zero_MemoryRetrievalRecord : Zero MemoryRetrievalRecord := mkMemoryRetrievalRecord zero zero zero zero zero zero zero zero zero zero zero zero.

Record MemorySelectionRecord := mkMemorySelectionRecord {
  msl_QueryID : string;
  msl_WorkflowID : string;
  msl_TaskID : string;
  msl_TraceID : string;
  msl_Consumer : string;
  msl_SelectedMemoryIDs : list string;
  msl_RejectedMemoryIDs : list string;
  msl_Reason : string;
  msl_OccurredAt : time
}.
#[export] Instance eta_MemorySelectionRecord : Eta MemorySelectionRecord := eta! mkMemorySelectionRecord < msl_QueryID ; msl_WorkflowID ; msl_TaskID ; msl_TraceID ; msl_Consumer ; msl_SelectedMemoryIDs ; msl_RejectedMemoryIDs ; msl_Reason ; msl_OccurredAt >.
#[export] Instance zero_MemorySelectionRecord : Zero MemorySelectionRecord := mkMemorySelectionRecord zero zero zero zero zero zero zero zero zero.

Record WorkflowMemoryResult := mkWorkflowMemoryResult {
  wm_GeneratedIDs : list string;
  wm_GeneratedRecords : list MemoryRecord;
  wm_Retrieved : list MemoryRecord;
  wm_PlanningRetrieved : list MemoryRecord;
  wm_CashflowRetrieved : list MemoryRecord;
  wm_BehaviorRetrieved : list MemoryRecord
}.
#[export] Instance eta_WorkflowMemoryResult : Eta WorkflowMemoryResult := eta! mkWorkflowMemoryResult < wm_GeneratedIDs ; wm_GeneratedRecords ; wm_Retrieved ; wm_PlanningRetrieved ; wm_CashflowRetrieved ; wm_BehaviorRetrieved >.
#[export] Instance zero_WorkflowMemoryResult : Zero WorkflowMemoryResult := mkWorkflowMemoryResult zero zero zero zero zero zero.

Record SkillOutcomeMemory := mkSkillOutcomeMemory {
  so_WorkflowID : string;
  so_TaskID : string;
  so_TraceID : string;
  so_SkillFamily : string;
  so_SkillVersion : string;
  so_RecipeID : string;
  so_AnomalyCodes : list string;
  so_InterventionIntensity : InterventionIntensity;
  so_FinalRuntimeState : string;
  so_GovernanceOutcome : string;
  so_ApprovalOutcome : string;
  so_ArtifactRefs : list string;
  so_MemoryRefs : list string
}.
#[export] Instance eta_SkillOutcomeMemory : Eta SkillOutcomeMemory := eta! mkSkillOutcomeMemory < so_WorkflowID ; so_TaskID ; so_TraceID ; so_SkillFamily ; so_SkillVersion ; so_RecipeID ; so_AnomalyCodes ; so_InterventionIntensity ; so_FinalRuntimeState ; so_GovernanceOutcome ; so_ApprovalOutcome ; so_ArtifactRefs ; so_MemoryRefs >.
#[export] Instance zero_SkillOutcomeMemory : Zero SkillOutcomeMemory := mkSkillOutcomeMemory zero zero zero zero zero zero zero zero zero zero zero zero zero.

(** ** internal/protocol *)

Inductive MessageKind :=
| MessageKindPlanRequest
| MessageKindPlanResult
| MessageKindMemorySyncRequest
| MessageKindMemorySyncResult
| MessageKindReportDraftRequest
| MessageKindReportDraftResult
| MessageKindVerificationRequest
| MessageKindVerificationResult
| MessageKindGovernanceEvaluationRequest
| MessageKindGovernanceEvaluationResult
| MessageKindReportFinalizeRequest
| MessageKindReportFinalizeResult
| MessageKindCashflowAnalysisRequest
| MessageKindCashflowAnalysisResult
| MessageKindDebtAnalysisRequest
| MessageKindDebtAnalysisResult
| MessageKindTaxAnalysisRequest
| MessageKindTaxAnalysisResult
| MessageKindPortfolioAnalysisRequest
| MessageKindPortfolioAnalysisResult
| MessageKindBehaviorAnalysisRequest
| MessageKindBehaviorAnalysisResult
| MessageKindTaskGenerationRequest
| MessageKindTaskGenerationResult
| MessageKindOther (s : string).
#[export] Instance MessageKind_eq_dec : EqDecision MessageKind.
Proof. solve_decision. Defined.
Definition MessageKind_string (x : MessageKind) : string :=
  match x with
  | MessageKindPlanRequest => "plan_request"
  | MessageKindPlanResult => "plan_result"
  | MessageKindMemorySyncRequest => "memory_sync_request"
  | MessageKindMemorySyncResult => "memory_sync_result"
  | MessageKindReportDraftRequest => "report_draft_request"
  | MessageKindReportDraftResult => "report_draft_result"
  | MessageKindVerificationRequest => "verification_request"
  | MessageKindVerificationResult => "verification_result"
  | MessageKindGovernanceEvaluationRequest => "governance_evaluation_request"
  | MessageKindGovernanceEvaluationResult => "governance_evaluation_result"
  | MessageKindReportFinalizeRequest => "report_finalize_request"
  | MessageKindReportFinalizeResult => "report_finalize_result"
  | MessageKindCashflowAnalysisRequest => "cashflow_analysis_request"
  | MessageKindCashflowAnalysisResult => "cashflow_analysis_result"
  | MessageKindDebtAnalysisRequest => "debt_analysis_request"
  | MessageKindDebtAnalysisResult => "debt_analysis_result"
  | MessageKindTaxAnalysisRequest => "tax_analysis_request"
  | MessageKindTaxAnalysisResult => "tax_analysis_result"
  | MessageKindPortfolioAnalysisRequest => "portfolio_analysis_request"
  | MessageKindPortfolioAnalysisResult => "portfolio_analysis_result"
  | MessageKindBehaviorAnalysisRequest => "behavior_analysis_request"
  | MessageKindBehaviorAnalysisResult => "behavior_analysis_result"
  | MessageKindTaskGenerationRequest => "task_generation_request"
  | MessageKindTaskGenerationResult => "task_generation_result"
  | MessageKindOther s => s
  end.
#[export] Instance zero_MessageKind : Zero MessageKind := MessageKindOther "".

Record ProtocolMetadata := mkProtocolMetadata {
  pm_MessageID : string;
  pm_CorrelationID : string;
  pm_CausationID : string;
  pm_EmittedAt : time
}.
#[export] Instance eta_ProtocolMetadata : Eta ProtocolMetadata := eta! mkProtocolMetadata < pm_MessageID ; pm_CorrelationID ; pm_CausationID ; pm_EmittedAt >.
#[export] Instance zero_ProtocolMetadata : Zero ProtocolMetadata := mkProtocolMetadata zero zero zero zero.

Record StateReference := mkStateReference {
  sf_UserID : string;
  sf_SnapshotID : string;
  sf_Version : Z
}.
#[export] Instance eta_StateReference : Eta StateReference := eta! mkStateReference < sf_UserID ; sf_SnapshotID ; sf_Version >.
#[export] Instance zero_StateReference : Zero StateReference := mkStateReference zero zero zero.

Record PlanRequestPayload := mkPlanRequestPayload {
  pq_CurrentState : FinancialWorldState;
  pq_Memories : list MemoryRecord;
  pq_Evidence : list EvidenceRecord;
  pq_PlanningView : ContextView
}.
#[export] Instance eta_PlanRequestPayload : Eta PlanRequestPayload := eta! mkPlanRequestPayload < pq_CurrentState ; pq_Memories ; pq_Evidence ; pq_PlanningView >.
#[export] Instance zero_PlanRequestPayload : Zero PlanRequestPayload := mkPlanRequestPayload zero zero zero zero.

Record MemorySyncRequestPayload := mkMemorySyncRequestPayload {
  mq_CurrentState : FinancialWorldState;
  mq_Evidence : list EvidenceRecord;
  mq_ConclusionHint : string
}.
#[export] Instance eta_MemorySyncRequestPayload : Eta MemorySyncRequestPayload := eta! mkMemorySyncRequestPayload < mq_CurrentState ; mq_Evidence ; mq_ConclusionHint >.
#[export] Instance zero_MemorySyncRequestPayload : Zero MemorySyncRequestPayload := mkMemorySyncRequestPayload zero zero zero.

Record ReportDraftRequestPayload := mkReportDraftRequestPayload {
  dq_CurrentState : FinancialWorldState;
  dq_Memories : list MemoryRecord;
  dq_Evidence : list EvidenceRecord;
  dq_Plan : ExecutionPlan;
  dq_BlockResults : list BlockResultEnvelope;
  dq_StateDiff : StateDiff;
  dq_TaskGraph : option TaskGraph
}.
#[export] Instance eta_ReportDraftRequestPayload : Eta ReportDraftRequestPayload := eta! mkReportDraftRequestPayload < dq_CurrentState ; dq_Memories ; dq_Evidence ; dq_Plan ; dq_BlockResults ; dq_StateDiff ; dq_TaskGraph >.
#[export] Instance zero_ReportDraftRequestPayload : Zero ReportDraftRequestPayload := mkReportDraftRequestPayload zero zero zero zero zero zero zero.

Inductive VerificationStage :=
| VerificationStageFullReport
| VerificationStageAnalysisBlocks
| VerificationStageGeneratedTasksAndFinal
| VerificationStageOther (s : string).
#[export] Instance VerificationStage_eq_dec : EqDecision VerificationStage.
Proof. solve_decision. Defined.
Definition VerificationStage_string (x : VerificationStage) : string :=
  match x with
  | VerificationStageFullReport => "full_report"
  | VerificationStageAnalysisBlocks => "analysis_blocks"
  | VerificationStageGeneratedTasksAndFinal => "generated_tasks_and_final"
  | VerificationStageOther s => s
  end.
#[export] Instance zero_VerificationStage : Zero VerificationStage := VerificationStageOther "".

Record VerificationRequestPayload := mkVerificationRequestPayload {
  vq_Stage : VerificationStage;
  vq_CurrentState : FinancialWorldState;
  vq_Evidence : list EvidenceRecord;
  vq_Memories : list MemoryRecord;
  vq_Plan : ExecutionPlan;
  vq_BlockResults : list BlockResultEnvelope;
  vq_BlockVerificationContexts : list BlockVerificationContext;
  vq_FinalVerificationContext : BlockVerificationContext;
  vq_TaskGraph : option TaskGraph;
  vq_Report : ReportPayload
}.
#[export] Instance eta_VerificationRequestPayload : Eta VerificationRequestPayload := eta! mkVerificationRequestPayload < vq_Stage ; vq_CurrentState ; vq_Evidence ; vq_Memories ; vq_Plan ; vq_BlockResults ; vq_BlockVerificationContexts ; vq_FinalVerificationContext ; vq_TaskGraph ; vq_Report >.
#[export] Instance zero_VerificationRequestPayload : Zero VerificationRequestPayload := mkVerificationRequestPayload zero zero zero zero zero zero zero zero zero zero.

Record GovernanceEvaluationRequestPayload := mkGovernanceEvaluationRequestPayload {
  gq_CurrentState : FinancialWorldState;
  gq_Report : ReportPayload;
  gq_RequestedAction : string;
  gq_Actor : string;
  gq_ActorRoles : list string;
  gq_ContainsPII : bool;
  gq_Audience : string;
  gq_ForceApproval : bool;
  gq_TaskGraph : option TaskGraph;
  gq_GeneratedTasks : list GeneratedTaskSpec
}.
#[export] Instance eta_GovernanceEvaluationRequestPayload : Eta GovernanceEvaluationRequestPayload := eta! mkGovernanceEvaluationRequestPayload < gq_CurrentState ; gq_Report ; gq_RequestedAction ; gq_Actor ; gq_ActorRoles ; gq_ContainsPII ; gq_Audience ; gq_ForceApproval ; gq_TaskGraph ; gq_GeneratedTasks >.
#[export] Instance zero_GovernanceEvaluationRequestPayload : Zero GovernanceEvaluationRequestPayload := mkGovernanceEvaluationRequestPayload zero zero zero zero zero zero zero zero zero zero.

Record ReportFinalizeRequestPayload := mkReportFinalizeRequestPayload {
  fq_Draft : ReportPayload;
  fq_DisclosureDecision : PolicyDecision
}.
#[export] Instance eta_ReportFinalizeRequestPayload : Eta ReportFinalizeRequestPayload := eta! mkReportFinalizeRequestPayload < fq_Draft ; fq_DisclosureDecision >.
#[export] Instance zero_ReportFinalizeRequestPayload : Zero ReportFinalizeRequestPayload := mkReportFinalizeRequestPayload zero zero.

Record AnalysisRequestPayload := mkAnalysisRequestPayload {
  aq_CurrentState : FinancialWorldState;
  aq_RelevantMemories : list MemoryRecord;
  aq_RelevantEvidence : list EvidenceRecord;
  aq_Block : ExecutionBlock;
  aq_ExecutionContext : BlockExecutionContext
}.
#[export] Instance eta_AnalysisRequestPayload : Eta AnalysisRequestPayload := eta! mkAnalysisRequestPayload < aq_CurrentState ; aq_RelevantMemories ; aq_RelevantEvidence ; aq_Block ; aq_ExecutionContext >.
#[export] Instance zero_AnalysisRequestPayload : Zero AnalysisRequestPayload := mkAnalysisRequestPayload zero zero zero zero zero.

Record TaskGenerationRequestPayload := mkTaskGenerationRequestPayload {
  tq_CurrentState : FinancialWorldState;
  tq_EventEvidence : list EvidenceRecord;
  tq_Memories : list MemoryRecord;
  tq_StateDiff : StateDiff;
  tq_Plan : ExecutionPlan;
  tq_ValidatedBlockResults : list BlockResultEnvelope
}.
#[export] Instance eta_TaskGenerationRequestPayload : Eta TaskGenerationRequestPayload := eta! mkTaskGenerationRequestPayload < tq_CurrentState ; tq_EventEvidence ; tq_Memories ; tq_StateDiff ; tq_Plan ; tq_ValidatedBlockResults >.
#[export] Instance zero_TaskGenerationRequestPayload : Zero TaskGenerationRequestPayload := mkTaskGenerationRequestPayload zero zero zero zero zero zero.

Record MemorySyncResultPayload := mkMemorySyncResultPayload {
  ms_Result : WorkflowMemoryResult;
  ms_AuditRefs : list string
}.
#[export] Instance eta_MemorySyncResultPayload : Eta MemorySyncResultPayload := eta! mkMemorySyncResultPayload < ms_Result ; ms_AuditRefs >.
#[export] Instance zero_MemorySyncResultPayload : Zero MemorySyncResultPayload := mkMemorySyncResultPayload zero zero.

Record GovernanceEvaluationResultPayload := mkGovernanceEvaluationResultPayload {
  gr_Approval : ApprovalEvaluation;
  gr_Disclosure : ReportEvaluation;
  gr_RedactionRequired : bool
}.
#[export] Instance eta_GovernanceEvaluationResultPayload : Eta GovernanceEvaluationResultPayload := eta! mkGovernanceEvaluationResultPayload < gr_Approval ; gr_Disclosure ; gr_RedactionRequired >.
#[export] Instance zero_GovernanceEvaluationResultPayload : Zero GovernanceEvaluationResultPayload := mkGovernanceEvaluationResultPayload zero zero zero.

Record ReportFinalizeResultPayload := mkReportFinalizeResultPayload {
  fr_Report : ReportPayload;
  fr_Artifacts : list WorkflowArtifact
}.
#[export] Instance eta_ReportFinalizeResultPayload : Eta ReportFinalizeResultPayload := eta! mkReportFinalizeResultPayload < fr_Report ; fr_Artifacts >.
#[export] Instance zero_ReportFinalizeResultPayload : Zero ReportFinalizeResultPayload := mkReportFinalizeResultPayload zero zero.

Record AgentRequestBody := mkAgentRequestBody {
  rb_PlanRequest : option PlanRequestPayload;
  rb_MemorySyncRequest : option MemorySyncRequestPayload;
  rb_ReportDraftRequest : option ReportDraftRequestPayload;
  rb_VerificationRequest : option VerificationRequestPayload;
  rb_GovernanceEvaluationRequest : option GovernanceEvaluationRequestPayload;
  rb_ReportFinalizeRequest : option ReportFinalizeRequestPayload;
  rb_CashflowAnalysisRequest : option AnalysisRequestPayload;
  rb_DebtAnalysisRequest : option AnalysisRequestPayload;
  rb_TaxAnalysisRequest : option AnalysisRequestPayload;
  rb_PortfolioAnalysisRequest : option AnalysisRequestPayload;
  rb_BehaviorAnalysisRequest : option AnalysisRequestPayload;
  rb_TaskGenerationRequest : option TaskGenerationRequestPayload
}.
#[export] Instance eta_AgentRequestBody : Eta AgentRequestBody := eta! mkAgentRequestBody < rb_PlanRequest ; rb_MemorySyncRequest ; rb_ReportDraftRequest ; rb_VerificationRequest ; rb_GovernanceEvaluationRequest ; rb_ReportFinalizeRequest ; rb_CashflowAnalysisRequest ; rb_DebtAnalysisRequest ; rb_TaxAnalysisRequest ; rb_PortfolioAnalysisRequest ; rb_BehaviorAnalysisRequest ; rb_TaskGenerationRequest >.
#[export] Instance zero_AgentRequestBody : Zero AgentRequestBody := mkAgentRequestBody zero zero zero zero zero zero zero zero zero zero zero zero.

Record AgentResultBody := mkAgentResultBody {
  sb_PlanResult : option ExecutionPlan;
  sb_MemorySyncResult : option MemorySyncResultPayload;
  sb_ReportDraftResult : option ReportPayload;
  sb_VerificationResult : option PipelineResult;
  sb_GovernanceEvaluationResult : option GovernanceEvaluationResultPayload;
  sb_ReportFinalizeResult : option ReportFinalizeResultPayload;
  sb_CashflowAnalysisResult : option CashflowBlockResult;
  sb_DebtAnalysisResult : option DebtBlockResult;
  sb_TaxAnalysisResult : option TaxBlockResult;
  sb_PortfolioAnalysisResult : option PortfolioBlockResult;
  sb_BehaviorAnalysisResult : option BehaviorBlockResult;
  sb_TaskGenerationResult : option TaskGraph
}.
#[export] Instance eta_AgentResultBody : Eta AgentResultBody := eta! mkAgentResultBody < sb_PlanResult ; sb_MemorySyncResult ; sb_ReportDraftResult ; sb_VerificationResult ; sb_GovernanceEvaluationResult ; sb_ReportFinalizeResult ; sb_CashflowAnalysisResult ; sb_DebtAnalysisResult ; sb_TaxAnalysisResult ; sb_PortfolioAnalysisResult ; sb_BehaviorAnalysisResult ; sb_TaskGenerationResult >.
#[export] Instance zero_AgentResultBody : Zero AgentResultBody := mkAgentResultBody zero zero zero zero zero zero zero zero zero zero zero zero.

Record AgentEnvelope := mkAgentEnvelope {
  av_Metadata : ProtocolMetadata;
  av_Sender : string;
  av_Recipient : string;
  av_Task : TaskSpec;
  av_StateRef : StateReference;
  av_RequiredEvidence : list RequiredEvidenceRef;
  av_Deadline : option time;
  av_RiskLevel : RiskLevel;
  av_Kind : MessageKind;
  av_Payload : AgentRequestBody
}.
#[export] Instance eta_AgentEnvelope : Eta AgentEnvelope := eta! mkAgentEnvelope < av_Metadata ; av_Sender ; av_Recipient ; av_Task ; av_StateRef ; av_RequiredEvidence ; av_Deadline ; av_RiskLevel ; av_Kind ; av_Payload >.
#[export] Instance zero_AgentEnvelope : Zero AgentEnvelope := mkAgentEnvelope zero zero zero zero zero zero zero zero zero zero.

Inductive WorkflowEventType :=
| WorkflowEventPlanCreated
| WorkflowEventStateUpdated
| WorkflowEventToolCalled
| WorkflowEventApprovalRequired
| WorkflowEventVerificationFailed
| WorkflowEventReportReady
| WorkflowEventTypeOther (s : string).
#[export] Instance WorkflowEventType_eq_dec : EqDecision WorkflowEventType.
Proof. solve_decision. Defined.
Definition WorkflowEventType_string (x : WorkflowEventType) : string :=
  match x with
  | WorkflowEventPlanCreated => "plan_created"
  | WorkflowEventStateUpdated => "state_updated"
  | WorkflowEventToolCalled => "tool_called"
  | WorkflowEventApprovalRequired => "approval_required"
  | WorkflowEventVerificationFailed => "verification_failed"
  | WorkflowEventReportReady => "report_ready"
  | WorkflowEventTypeOther s => s
  end.
#[export] Instance zero_WorkflowEventType : Zero WorkflowEventType := WorkflowEventTypeOther "".

Record WorkflowEvent := mkWorkflowEvent {
  we_Metadata : ProtocolMetadata;
  we_WorkflowID : string;
  we_TaskID : string;
  we_Type : WorkflowEventType;
  we_Summary : string;
  we_StateRef : StateReference;
  we_Details : gmap string string
}.
#[export] Instance eta_WorkflowEvent : Eta WorkflowEvent := eta! mkWorkflowEvent < we_Metadata ; we_WorkflowID ; we_TaskID ; we_Type ; we_Summary ; we_StateRef ; we_Details >.
#[export] Instance zero_WorkflowEvent : Zero WorkflowEvent := mkWorkflowEvent zero zero zero zero zero zero zero.

Record AgentResponse := mkAgentResponse {
  an_Metadata : ProtocolMetadata;
  an_Sender : string;
  an_Recipient : string;
  an_Task : TaskSpec;
  an_StateRef : StateReference;
  an_RequiredEvidence : list RequiredEvidenceRef;
  an_Deadline : option time;
  an_RiskLevel : RiskLevel;
  an_Kind : MessageKind;
  an_Success : bool;
  an_Failure : option AgentFailure;
  an_Body : AgentResultBody;
  an_ProducedArtifacts : list WorkflowArtifact;
  an_ProducedMemories : list string;
  an_VerificationResults : list VerificationResult;
  an_EmittedWorkflowEvents : list WorkflowEvent
}.
#[export] Instance eta_AgentResponse : Eta AgentResponse := eta! mkAgentResponse < an_Metadata ; an_Sender ; an_Recipient ; an_Task ; an_StateRef ; an_RequiredEvidence ; an_Deadline ; an_RiskLevel ; an_Kind ; an_Success ; an_Failure ; an_Body ; an_ProducedArtifacts ; an_ProducedMemories ; an_VerificationResults ; an_EmittedWorkflowEvents >.
#[export] Instance zero_AgentResponse : Zero AgentResponse := mkAgentResponse zero zero zero zero zero zero zero zero zero zero zero zero zero zero zero zero.

(** ** internal/observability/agent_trace.go *)

Inductive AgentLifecycle :=
| AgentLifecycleDispatched
| AgentLifecycleStarted
| AgentLifecycleCompleted
| AgentLifecycleFailed
| AgentLifecycleOther (s : string).
#[export] Instance AgentLifecycle_eq_dec : EqDecision AgentLifecycle.
Proof. solve_decision. Defined.
Definition AgentLifecycle_string (x : AgentLifecycle) : string :=
  match x with
  | AgentLifecycleDispatched => "agent_dispatched"
  | AgentLifecycleStarted => "agent_handler_started"
  | AgentLifecycleCompleted => "agent_handler_completed"
  | AgentLifecycleFailed => "agent_handler_failed"
  | AgentLifecycleOther s => s
  end.
#[export] Instance zero_AgentLifecycle : Zero AgentLifecycle := AgentLifecycleOther "".

Record AgentExecutionRecord := mkAgentExecutionRecord {
  ax_DispatchID : string;
  ax_TraceID : string;
  ax_Recipient : string;
  ax_RequestKind : string;
  ax_ResultKind : string;
  ax_PlanID : string;
  ax_PlanBlockIDs : list string;
  ax_BlockID : string;
  ax_BlockKind : string;
  ax_SelectedMemoryIDs : list string;
  ax_SelectedEvidenceIDs : list string;
  ax_SelectedStateBlocks : list string;
  ax_Lifecycle : AgentLifecycle;
  ax_CorrelationID : string;
  ax_CausationID : string;
  ax_RequestMessageID : string;
  ax_ResultMessageID : string;
  ax_ErrorCategory : string;
  ax_WorkflowEventTypes : list string;
  ax_ResultSummary : string;
  ax_Summary : string;
  ax_OccurredAt : time
}.
#[export] Instance eta_AgentExecutionRecord : Eta AgentExecutionRecord := eta! mkAgentExecutionRecord < ax_DispatchID ; ax_TraceID ; ax_Recipient ; ax_RequestKind ; ax_ResultKind ; ax_PlanID ; ax_PlanBlockIDs ; ax_BlockID ; ax_BlockKind ; ax_SelectedMemoryIDs ; ax_SelectedEvidenceIDs ; ax_SelectedStateBlocks ; ax_Lifecycle ; ax_CorrelationID ; ax_CausationID ; ax_RequestMessageID ; ax_ResultMessageID ; ax_ErrorCategory ; ax_WorkflowEventTypes ; ax_ResultSummary ; ax_Summary ; ax_OccurredAt >.
#[export] Instance zero_AgentExecutionRecord : Zero AgentExecutionRecord := mkAgentExecutionRecord zero zero zero zero zero zero zero zero zero zero zero zero zero zero zero zero zero zero zero zero zero zero.

(** ** internal/agents/types.go *)

Record AgentHandlerResult := mkAgentHandlerResult {
  hr_Kind : MessageKind;
  hr_Body : AgentResultBody;
  hr_ProducedArtifacts : list WorkflowArtifact;
  hr_ProducedMemories : list string;
  hr_VerificationResults : list VerificationResult;
  hr_EmittedWorkflowEvents : list WorkflowEvent
}.
#[export] Instance eta_AgentHandlerResult : Eta AgentHandlerResult := eta! mkAgentHandlerResult < hr_Kind ; hr_Body ; hr_ProducedArtifacts ; hr_ProducedMemories ; hr_VerificationResults ; hr_EmittedWorkflowEvents >.
#[export] Instance zero_AgentHandlerResult : Zero AgentHandlerResult := mkAgentHandlerResult zero zero zero zero zero zero.

Record AgentDispatchResult := mkAgentDispatchResult {
  dr_DispatchID : string;
  dr_Request : AgentEnvelope;
  dr_Response : AgentResponse
}.
#[export] Instance eta_AgentDispatchResult : Eta AgentDispatchResult := eta! mkAgentDispatchResult < dr_DispatchID ; dr_Request ; dr_Response >.
#[export] Instance zero_AgentDispatchResult : Zero AgentDispatchResult := mkAgentDispatchResult zero zero zero.

Record StepDispatchMetadata := mkStepDispatchMetadata {
  sd_RequestMetadata : ProtocolMetadata;
  sd_ResponseMetadata : ProtocolMetadata;
  sd_EmittedEvents : list WorkflowEvent
}.
#[export] Instance eta_StepDispatchMetadata : Eta StepDispatchMetadata := eta! mkStepDispatchMetadata < sd_RequestMetadata ; sd_ResponseMetadata ; sd_EmittedEvents >.
#[export] Instance zero_StepDispatchMetadata : Zero StepDispatchMetadata := mkStepDispatchMetadata zero zero zero.

Record SystemStepMetadata := mkSystemStepMetadata {
  sm_WorkflowID : string;
  sm_Sender : string;
  sm_Task : TaskSpec;
  sm_StateRef : StateReference;
  sm_CorrelationID : string;
  sm_CausationID : string
}.
#[export] Instance eta_SystemStepMetadata : Eta SystemStepMetadata := eta! mkSystemStepMetadata < sm_WorkflowID ; sm_Sender ; sm_Task ; sm_StateRef ; sm_CorrelationID ; sm_CausationID >.
#[export] Instance zero_SystemStepMetadata : Zero SystemStepMetadata := mkSystemStepMetadata zero zero zero zero zero zero.

Record PlanStepResult := mkPlanStepResult {
  pl_Metadata : StepDispatchMetadata;
  pl_Plan : ExecutionPlan
}.
#[export] Instance eta_PlanStepResult : Eta PlanStepResult := eta! mkPlanStepResult < pl_Metadata ; pl_Plan >.
#[export] Instance zero_PlanStepResult : Zero PlanStepResult := mkPlanStepResult zero zero.

Record MemorySyncStepResult := mkMemorySyncStepResult {
  my_Metadata : StepDispatchMetadata;
  my_Result : WorkflowMemoryResult;
  my_AuditRefs : list string
}.
#[export] Instance eta_MemorySyncStepResult : Eta MemorySyncStepResult := eta! mkMemorySyncStepResult < my_Metadata ; my_Result ; my_AuditRefs >.
#[export] Instance zero_MemorySyncStepResult : Zero MemorySyncStepResult := mkMemorySyncStepResult zero zero zero.

Record ReportDraftStepResult := mkReportDraftStepResult {
  rd_Metadata : StepDispatchMetadata;
  rd_Draft : ReportPayload
}.
#[export] Instance eta_ReportDraftStepResult : Eta ReportDraftStepResult := eta! mkReportDraftStepResult < rd_Metadata ; rd_Draft >.
#[export] Instance zero_ReportDraftStepResult : Zero ReportDraftStepResult := mkReportDraftStepResult zero zero.

Record VerificationStepInput := mkVerificationStepInput {
  vi_Stage : VerificationStage;
  vi_CurrentState : FinancialWorldState;
  vi_Evidence : list EvidenceRecord;
  vi_Memories : list MemoryRecord;
  vi_Plan : ExecutionPlan;
  vi_BlockResults : list BlockResultEnvelope;
  vi_BlockVerificationContexts : list BlockVerificationContext;
  vi_FinalVerificationContext : BlockVerificationContext;
  vi_TaskGraph : option TaskGraph;
  vi_Report : ReportPayload
}.
#[export] Instance eta_VerificationStepInput : Eta VerificationStepInput := eta! mkVerificationStepInput < vi_Stage ; vi_CurrentState ; vi_Evidence ; vi_Memories ; vi_Plan ; vi_BlockResults ; vi_BlockVerificationContexts ; vi_FinalVerificationContext ; vi_TaskGraph ; vi_Report >.
#[export] Instance zero_VerificationStepInput : Zero VerificationStepInput := mkVerificationStepInput zero zero zero zero zero zero zero zero zero zero.

Record VerificationStepResult := mkVerificationStepResult {
  vs_Metadata : StepDispatchMetadata;
  vs_Result : PipelineResult
}.
#[export] Instance eta_VerificationStepResult : Eta VerificationStepResult := eta! mkVerificationStepResult < vs_Metadata ; vs_Result >.
#[export] Instance zero_VerificationStepResult : Zero VerificationStepResult := mkVerificationStepResult zero zero.

Record TaskGenerationStepResult := mkTaskGenerationStepResult {
  tn_Metadata : StepDispatchMetadata;
  tn_TaskGraph : TaskGraph
}.
#[export] Instance eta_TaskGenerationStepResult : Eta TaskGenerationStepResult := eta! mkTaskGenerationStepResult < tn_Metadata ; tn_TaskGraph >.
#[export] Instance zero_TaskGenerationStepResult : Zero TaskGenerationStepResult := mkTaskGenerationStepResult zero zero.

Record GovernanceStepResult := mkGovernanceStepResult {
  gs_Metadata : StepDispatchMetadata;
  gs_Approval : ApprovalEvaluation;
  gs_Disclosure : ReportEvaluation;
  gs_RedactionRequired : bool
}.
#[export] Instance eta_GovernanceStepResult : Eta GovernanceStepResult := eta! mkGovernanceStepResult < gs_Metadata ; gs_Approval ; gs_Disclosure ; gs_RedactionRequired >.
#[export] Instance zero_GovernanceStepResult : Zero GovernanceStepResult := mkGovernanceStepResult zero zero zero zero.

Record ReportFinalizeStepResult := mkReportFinalizeStepResult {
  rf2_Metadata : StepDispatchMetadata;
  rf2_Report : ReportPayload;
  rf2_Artifacts : list WorkflowArtifact
}.
#[export] Instance eta_ReportFinalizeStepResult : Eta ReportFinalizeStepResult := eta! mkReportFinalizeStepResult < rf2_Metadata ; rf2_Report ; rf2_Artifacts >.
#[export] Instance zero_ReportFinalizeStepResult : Zero ReportFinalizeStepResult := mkReportFinalizeStepResult zero zero zero.

Record AnalysisBlockStepResult := mkAnalysisBlockStepResult {
  ab_Metadata : StepDispatchMetadata;
  ab_Block : ExecutionBlock;
  ab_Result : BlockResultEnvelope
}.
#[export] Instance eta_AnalysisBlockStepResult : Eta AnalysisBlockStepResult := eta! mkAnalysisBlockStepResult < ab_Metadata ; ab_Block ; ab_Result >.
#[export] Instance zero_AnalysisBlockStepResult : Zero AnalysisBlockStepResult := mkAnalysisBlockStepResult zero zero zero.

(** * The agent protocol (protocol/message_types.go, validation.go)

    Kinds of messages and the validation of envelopes, responses, events and
    of the typed bodies they carry. *)

(** ** Kinds *)

(** A request kind and the kind of its result, in the order of the code. *)
Definition kind_pairs : list (MessageKind * MessageKind) :=
  [(MessageKindPlanRequest, MessageKindPlanResult);
   (MessageKindMemorySyncRequest, MessageKindMemorySyncResult);
   (MessageKindReportDraftRequest, MessageKindReportDraftResult);
   (MessageKindVerificationRequest, MessageKindVerificationResult);
   (MessageKindGovernanceEvaluationRequest, MessageKindGovernanceEvaluationResult);
   (MessageKindReportFinalizeRequest, MessageKindReportFinalizeResult);
   (MessageKindCashflowAnalysisRequest, MessageKindCashflowAnalysisResult);
   (MessageKindDebtAnalysisRequest, MessageKindDebtAnalysisResult);
   (MessageKindTaxAnalysisRequest, MessageKindTaxAnalysisResult);
   (MessageKindPortfolioAnalysisRequest, MessageKindPortfolioAnalysisResult);
   (MessageKindBehaviorAnalysisRequest, MessageKindBehaviorAnalysisResult);
   (MessageKindTaskGenerationRequest, MessageKindTaskGenerationResult)].

Definition IsRequest (k : MessageKind) : bool := existsb (fun p => p.1 == k) kind_pairs.
Definition IsResult (k : MessageKind) : bool := existsb (fun p => p.2 == k) kind_pairs.

Definition ExpectedResultKind (requestKind : MessageKind) : MessageKind :=
  match List.find (fun p => p.1 == requestKind) kind_pairs with
  | Some p => p.2
  | None => MessageKindOther ""
  end.

(** ** Parts *)

Definition ProtocolMetadata_Validate (m : ProtocolMetadata) : error + unit :=
  refuse (pm_MessageID m == "") "protocol metadata message_id is required";;
  refuse (pm_CorrelationID m == "") "protocol metadata correlation_id is required";;
  refuse (pm_EmittedAt m == zero_time) "protocol metadata emitted_at is required".

Definition WorkflowEvent_Validate (e : WorkflowEvent) : error + unit :=
  ProtocolMetadata_Validate (we_Metadata e);;
  refuse (we_WorkflowID e == "") "workflow event workflow_id is required";;
  refuse (we_TaskID e == "") "workflow event task_id is required";;
  match we_Type e with
  | WorkflowEventTypeOther type => inl (PlainError ("invalid workflow event type " +:+ Quote type))
  | _ => mret tt
  end.

(** The fields of a body that are set, with the kinds they belong to. *)
Definition request_fields (b : AgentRequestBody) : list (bool * MessageKind) :=
  [(is_set (rb_PlanRequest b), MessageKindPlanRequest);
   (is_set (rb_MemorySyncRequest b), MessageKindMemorySyncRequest);
   (is_set (rb_ReportDraftRequest b), MessageKindReportDraftRequest);
   (is_set (rb_VerificationRequest b), MessageKindVerificationRequest);
   (is_set (rb_GovernanceEvaluationRequest b), MessageKindGovernanceEvaluationRequest);
   (is_set (rb_ReportFinalizeRequest b), MessageKindReportFinalizeRequest);
   (is_set (rb_CashflowAnalysisRequest b), MessageKindCashflowAnalysisRequest);
   (is_set (rb_DebtAnalysisRequest b), MessageKindDebtAnalysisRequest);
   (is_set (rb_TaxAnalysisRequest b), MessageKindTaxAnalysisRequest);
   (is_set (rb_PortfolioAnalysisRequest b), MessageKindPortfolioAnalysisRequest);
   (is_set (rb_BehaviorAnalysisRequest b), MessageKindBehaviorAnalysisRequest);
   (is_set (rb_TaskGenerationRequest b), MessageKindTaskGenerationRequest)].

Definition result_fields (b : AgentResultBody) : list (bool * MessageKind) :=
  [(is_set (sb_PlanResult b), MessageKindPlanResult);
   (is_set (sb_MemorySyncResult b), MessageKindMemorySyncResult);
   (is_set (sb_ReportDraftResult b), MessageKindReportDraftResult);
   (is_set (sb_VerificationResult b), MessageKindVerificationResult);
   (is_set (sb_GovernanceEvaluationResult b), MessageKindGovernanceEvaluationResult);
   (is_set (sb_ReportFinalizeResult b), MessageKindReportFinalizeResult);
   (is_set (sb_CashflowAnalysisResult b), MessageKindCashflowAnalysisResult);
   (is_set (sb_DebtAnalysisResult b), MessageKindDebtAnalysisResult);
   (is_set (sb_TaxAnalysisResult b), MessageKindTaxAnalysisResult);
   (is_set (sb_PortfolioAnalysisResult b), MessageKindPortfolioAnalysisResult);
   (is_set (sb_BehaviorAnalysisResult b), MessageKindBehaviorAnalysisResult);
   (is_set (sb_TaskGenerationResult b), MessageKindTaskGenerationResult)].

(** Exactly one field is set and it is the kind's. *)
Definition check_fields (side : string) (fields : list (bool * MessageKind)) (kind : MessageKind) : error + unit :=
  let count := Z.of_nat (length (filter (fun f => f.1 = true) fields)) in
  refuse (negb (count =? 1)) ("agent " +:+ side +:+ " body must set exactly one typed field, got " +:+ Itoa count);;
  refuse (negb (existsb (fun f => f.1 && (f.2 == kind)) fields))
    ("agent " +:+ side +:+ " body does not match " +:+ side +:+ " kind " +:+ Quote (MessageKind_string kind)).

(** ** Bodies *)

Section validation.
Context {W : Type}.
Implicit Types (kind : MessageKind).

Definition check_if (condition : bool) (message : string) : ST error W unit := of_sum (refuse condition message).
Definition check_error (e : option error) : ST error W unit := of_sum (check e).
Definition required {A} (payload : option A) (message : string) : ST error W A :=
  match payload with Some a => mret a | None => fail (PlainError message) end.
Definition check_results : list BlockResultEnvelope -> ST error W unit := for_each check_envelope.

(** The cases of the five analysis requests. *)
Definition check_analysis (name recipient : string) (payload : option AnalysisRequestPayload) : ST error W AnalysisRequestPayload :=
  p ← required payload (name +:+ " analysis request payload is required");
  of_sum (ExecutionBlock_Validate (aq_Block p));;
  check_if (xb_AssignedRecipient (aq_Block p) != recipient)
    (name +:+ " analysis request must target " +:+ recipient +:+ ", got " +:+ Quote (xb_AssignedRecipient (aq_Block p)));;
  check_if (is_nil (aq_RelevantEvidence p)) (name +:+ " analysis request requires relevant evidence");;
  mret p.

Definition check_verification_stage (p : VerificationRequestPayload) : ST error W unit :=
  let selected := bv_SelectedEvidenceIDs (vq_FinalVerificationContext p) in
  if (vq_Stage p == VerificationStageOther "") || (vq_Stage p == VerificationStageFullReport) then
    check_if (is_nil (vq_BlockVerificationContexts p)) "verification request requires block verification contexts";;
    check_if (is_nil selected) "verification request requires final verification context with selected evidence";;
    check_error (ReportPayload_Validate (vq_Report p))
  else match vq_Stage p with
  | VerificationStageAnalysisBlocks =>
      check_if (is_nil (vq_BlockVerificationContexts p)) "analysis-block verification requires block verification contexts"
  | VerificationStageGeneratedTasksAndFinal =>
      graph ← required (vq_TaskGraph p) "generated-task verification requires task graph";
      check_error (TaskGraph_Validate graph);;
      check_error (ReportPayload_Validate (vq_Report p));;
      check_if (is_nil selected) "generated-task verification requires final verification context with selected evidence"
  | stage => fail (PlainError ("unsupported verification stage " +:+ Quote (VerificationStage_string stage)))
  end.

Definition check_request_payload (b : AgentRequestBody) kind : ST error W unit :=
  match kind with
  | MessageKindPlanRequest =>
      check_if (is_nil (from_option pq_Evidence [] (rb_PlanRequest b))) "plan request requires evidence"
  | MessageKindMemorySyncRequest =>
      check_if (is_nil (from_option mq_Evidence [] (rb_MemorySyncRequest b))) "memory sync request requires evidence"
  | MessageKindReportDraftRequest =>
      p ← required (rb_ReportDraftRequest b) "report draft request payload is required";
      check_plan (dq_Plan p);;
      check_if (is_nil (dq_BlockResults p)) "report draft request requires domain block results";;
      check_if (sdf_ToVersion (dq_StateDiff p) =? 0) "report draft request requires state diff";;
      check_results (dq_BlockResults p)
  | MessageKindVerificationRequest =>
      p ← required (rb_VerificationRequest b) "verification request payload is required";
      check_plan (vq_Plan p);;
      check_if (is_nil (vq_BlockResults p)) "verification request requires block results";;
      check_results (vq_BlockResults p);;
      check_verification_stage p
  | MessageKindGovernanceEvaluationRequest =>
      p ← required (rb_GovernanceEvaluationRequest b) "governance evaluation request payload is required";
      check_error (ReportPayload_Validate (gq_Report p));;
      check_error (gq_TaskGraph p ≫= TaskGraph_Validate);;
      for_each (fun task => check_error (GeneratedTaskSpec_Validate task)) (gq_GeneratedTasks p)
  | MessageKindReportFinalizeRequest =>
      p ← required (rb_ReportFinalizeRequest b) "report finalize request payload is required";
      check_error (ReportPayload_Validate (fq_Draft p))
  | MessageKindCashflowAnalysisRequest => check_analysis "cashflow" "cashflow_agent" (rb_CashflowAnalysisRequest b);; mret tt
  | MessageKindDebtAnalysisRequest => check_analysis "debt" "debt_agent" (rb_DebtAnalysisRequest b);; mret tt
  | MessageKindTaxAnalysisRequest => check_analysis "tax" "tax_agent" (rb_TaxAnalysisRequest b);; mret tt
  | MessageKindPortfolioAnalysisRequest => check_analysis "portfolio" "portfolio_agent" (rb_PortfolioAnalysisRequest b);; mret tt
  | MessageKindBehaviorAnalysisRequest =>
      p ← check_analysis "behavior" "behavior_agent" (rb_BehaviorAnalysisRequest b);
      check_if (negb (is_set (bx_SelectedSkill (aq_ExecutionContext p))))
        "behavior analysis request requires selected skill in execution context"
  | MessageKindTaskGenerationRequest =>
      p ← required (rb_TaskGenerationRequest b) "task generation request payload is required";
      check_plan (tq_Plan p);;
      check_if (sdf_ToVersion (tq_StateDiff p) =? 0) "task generation request requires state diff";;
      check_if (is_nil (tq_EventEvidence p)) "task generation request requires event evidence";;
      check_if (is_nil (tq_ValidatedBlockResults p)) "task generation request requires validated block results";;
      check_results (tq_ValidatedBlockResults p)
  | _ => mret tt
  end.

Definition AgentRequestBody_ValidateForKind (b : AgentRequestBody) kind : ST error W unit :=
  of_sum (check_fields "request" (request_fields b) kind);;
  check_request_payload b kind.

(** The cases of the five analysis results. *)
Definition check_analysis_result {A} (name : string) (block_id : A -> string) (payload : option A) : ST error W unit :=
  result ← required payload (name +:+ " analysis result payload is required");
  check_if (block_id result == "") (name +:+ " analysis result requires block id").

Definition check_result_payload (b : AgentResultBody) kind : ST error W unit :=
  match kind with
  | MessageKindReportDraftResult =>
      draft ← required (sb_ReportDraftResult b) "report draft result payload is required";
      check_error (ReportPayload_Validate draft)
  | MessageKindReportFinalizeResult =>
      p ← required (sb_ReportFinalizeResult b) "report finalize result payload is required";
      check_error (ReportPayload_Validate (fr_Report p))
  | MessageKindCashflowAnalysisResult => check_analysis_result "cashflow" cbr_BlockID (sb_CashflowAnalysisResult b)
  | MessageKindDebtAnalysisResult => check_analysis_result "debt" dbr_BlockID (sb_DebtAnalysisResult b)
  | MessageKindTaxAnalysisResult => check_analysis_result "tax" tbr_BlockID (sb_TaxAnalysisResult b)
  | MessageKindPortfolioAnalysisResult => check_analysis_result "portfolio" pbr_BlockID (sb_PortfolioAnalysisResult b)
  | MessageKindBehaviorAnalysisResult => check_analysis_result "behavior" bbr_BlockID (sb_BehaviorAnalysisResult b)
  | MessageKindTaskGenerationResult =>
      graph ← required (sb_TaskGenerationResult b) "task generation result payload is required";
      check_error (TaskGraph_Validate graph)
  | _ => mret tt
  end.

Definition AgentResultBody_ValidateForKind (b : AgentResultBody) kind : ST error W unit :=
  of_sum (check_fields "result" (result_fields b) kind);;
  check_result_payload b kind.

(** ** Envelopes and responses *)

Definition AgentEnvelope_Validate (e : AgentEnvelope) : ST error W unit :=
  of_sum (ProtocolMetadata_Validate (av_Metadata e));;
  check_if ((av_Sender e == "") || (av_Recipient e == "")) "agent envelope sender and recipient are required";;
  check_error (TaskSpec_Validate (av_Task e));;
  check_if (sf_UserID (av_StateRef e) == "") "state_ref user_id is required";;
  check_if (sf_Version (av_StateRef e) =? 0) "state_ref version is required";;
  check_if (negb (IsRequest (av_Kind e))) ("agent envelope kind " +:+ Quote (MessageKind_string (av_Kind e)) +:+ " is not a request kind");;
  AgentRequestBody_ValidateForKind (av_Payload e) (av_Kind e).

Definition AgentResponse_Validate (r : AgentResponse) : ST error W unit :=
  of_sum (ProtocolMetadata_Validate (an_Metadata r));;
  check_if ((an_Sender r == "") || (an_Recipient r == "")) "agent response sender and recipient are required";;
  check_error (TaskSpec_Validate (an_Task r));;
  check_if (sf_UserID (an_StateRef r) == "") "agent response state_ref user_id is required";;
  check_if (sf_Version (an_StateRef r) =? 0) "agent response state_ref version is required";;
  check_if (negb (IsResult (an_Kind r))) ("agent response kind " +:+ Quote (MessageKind_string (an_Kind r)) +:+ " is not a result kind");;
  if an_Success r then AgentResultBody_ValidateForKind (an_Body r) (an_Kind r)
  else check_if (negb (is_set (an_Failure r))) "failed agent response requires failure details".
End validation.
