(* ===== verification/MemorySync.v ===== *)
(** * What a workflow remembers (memory/derived_writer.go, memory/behavior_skill_memory.go)

    [WorkflowMemoryService] retrieves the memories a workflow works with,
    derives new ones from its evidence and state and writes them through the
    policy gate.  The clock, [s.Now] or [time.Now], is that of the memory
    world. *)

From Stdlib Require Import Ascii.
From S2P Require Export Memory Protocol.
#[local] Open Scope Z_scope.

(** ** Evidence *)

Definition claims_predicate (predicate : string) (record : EvidenceRecord) : bool :=
  existsb (fun claim => ecl_Predicate claim == predicate) (er_Claims record).

Definition hasEvidencePredicate (records : list EvidenceRecord) (predicate : string) : bool := existsb (claims_predicate predicate) records.

Definition evidenceIDsByPredicate (records : list EvidenceRecord) (predicate : string) : list EvidenceID :=
  er_ID <$> filter (fun record => claims_predicate predicate record = true) records.

Definition evidenceIDsByType (records : list EvidenceRecord) (types : list EvidenceType) : list EvidenceID :=
  er_ID <$> filter (fun record => er_Type record ∈ types) records.

Fixpoint trim_start (s : string) : string :=
  match s with
  | String c s' => if Ascii.eqb c dquote then trim_start s' else s
  | EmptyString => EmptyString
  end.

Fixpoint trim_end (s : string) : string :=
  match s with
  | String c s' =>
      match trim_end s' with
      | EmptyString => if Ascii.eqb c dquote then EmptyString else String c EmptyString
      | t => String c t
      end
  | EmptyString => EmptyString
  end.

(** [strings.Trim] with a double quote as the cutset *)
Definition trim_quotes (s : string) : string := trim_end (trim_start s).

Definition detectLifeEventKind (records : list EvidenceRecord) : string :=
  match List.find (fun claim => ecl_Predicate claim == "life_event_kind")
          (mjoin (er_Claims <$> filter (fun record => er_Type record = EvidenceTypeEventSignal) records)) with
  | Some claim => trim_quotes (ecl_ValueJSON claim)
  | None => ""
  end.

(** ** Derived memories *)

Definition show_flag (b : bool) : string := if b then "true" else "false".
Definition fact (key value : string) : MemoryFact := (zero : MemoryFact) <| mf_Key := key |> <| mf_Value := value |>.
Definition ratio_fact (key : string) (value : float64) : MemoryFact := fact key (Sprintf_f 4 value).

Section derive.
Context (spec : TaskSpec) (writeCtx : MemoryWriteContext) (current : FinancialWorldState) (evidence : list EvidenceRecord) (now : time).

Definition derived (suffix : string) (kind : MemoryKind) (summary : string) (facts : list MemoryFact) (evidenceIDs : list EvidenceID)
    (score : float64) (rationale : string) : MemoryRecord := (zero : MemoryRecord)
  <| mm_ID := mx_WorkflowID writeCtx +:+ suffix |>
  <| mm_Kind := kind |>
  <| mm_Summary := summary |>
  <| mm_Facts := facts |>
  <| mm_Source := mkMemorySource evidenceIDs (ts_ID spec) (mx_WorkflowID writeCtx) (mx_TraceID writeCtx) (mx_Actor writeCtx) |>
  <| mm_Confidence := mkMemoryConfidence score rationale |>
  <| mm_CreatedAt := now |>
  <| mm_UpdatedAt := now |>.

Definition debt_facts : list MemoryFact :=
  [ratio_fact "debt_burden_ratio" (li_DebtBurdenRatio (fw_LiabilityState current));
   ratio_fact "minimum_payment_pressure" (li_MinimumPaymentPressure (fw_LiabilityState current))].

Definition deriveMonthlyReviewMemories : list MemoryRecord :=
  let behavior := fw_BehaviorState current in
  let tax := fw_TaxState current in
  Memory.when (0 <? bh_DuplicateSubscriptionCount behavior)
    [derived "-memory-subscriptions" MemoryKindSemantic "User has recurring subscriptions that should be reviewed during monthly review."
       [fact "duplicate_subscription_count" (Itoa (bh_DuplicateSubscriptionCount behavior))]
       (evidenceIDsByPredicate evidence "duplicate_subscription_count") (f_const 88 100) "derived from recurring subscription evidence"] ++
  Memory.when (f_ltb f_zero (bh_LateNightSpendingFrequency behavior))
    [derived "-memory-late-night" MemoryKindEpisodic "A late-night spending pattern was observed in the current review window."
       [ratio_fact "late_night_spending_frequency" (bh_LateNightSpendingFrequency behavior)]
       (evidenceIDsByType evidence [EvidenceTypeLateNightSpendingSignal]) (f_const 72 100) "derived from late-night spending signal"] ++
  Memory.when (f_ltb f_zero (li_DebtBurdenRatio (fw_LiabilityState current)))
    [derived "-memory-debt-pressure" MemoryKindSemantic "Monthly review observed current debt pressure and minimum payment load."
       debt_facts (evidenceIDsByType evidence [EvidenceTypeDebtObligationSnapshot]) (f_const 9 10) "derived from debt obligation snapshot"] ++
  Memory.when (tx_ChildcareTaxSignal tax)
    [derived "-memory-tax-signal" MemoryKindSemantic "Family-related tax optimization signal was present during the review."
       (fact "childcare_tax_signal" "true" ::
        (let notes := Join (tx_FamilyTaxNotes tax) "; " in
         if TrimSpace notes != "" then [fact "family_tax_notes" notes] else []))
       (evidenceIDsByType evidence [EvidenceTypePayslipStatement; EvidenceTypeTaxDocument]) (f_const 84 100)
       "consistent payroll and tax document signal"] ++
  [derived "-memory-procedure" MemoryKindProcedural
     "Monthly review should always cover cashflow, debt, portfolio, tax, behavior, and risk blocks."
     [fact "monthly_review_checklist" "cashflow,debt,portfolio,tax,behavior,risk"] [] (f_const 95 100) "workflow-generated procedural memory"].

Definition deriveDebtDecisionMemories (conclusion : string) : list MemoryRecord :=
  let liability := fw_LiabilityState current in
  Memory.when (f_ltb f_zero (li_DebtBurdenRatio liability) || f_ltb f_zero (li_MinimumPaymentPressure liability))
    [derived "-memory-debt-comparison" MemoryKindSemantic
       "Debt-versus-invest decisions should include debt burden, minimum payment pressure, and liquidity coverage." debt_facts
       (evidenceIDsByType evidence [EvidenceTypeDebtObligationSnapshot; EvidenceTypeTransactionBatch]) (f_const 87 100)
       "derived from debt decision baseline evidence"] ++
  Memory.when (TrimSpace conclusion != "")
    [derived "-memory-latest-decision" MemoryKindEpisodic "A debt-versus-invest decision was produced for the current analysis window."
       [fact "decision_conclusion" conclusion]
       (evidenceIDsByType evidence [EvidenceTypeDebtObligationSnapshot; EvidenceTypePortfolioAllocationSnap]) (f_const 8 10)
       "workflow conclusion backed by current evidence window"].

Definition deriveLifeEventMemories : list MemoryRecord :=
  let eventKind := detectLifeEventKind evidence in
  let tax := fw_TaxState current in
  Memory.when (eventKind != "")
    [derived "-memory-life-event" MemoryKindEpisodic
       ("Life event " +:+ eventKind +:+ " was ingested and reduced into state for proactive follow-up generation.")
       [fact "life_event_kind" eventKind] (evidenceIDsByType evidence [EvidenceTypeEventSignal]) (f_const 86 100)
       "derived from normalized life event evidence"] ++
  Memory.when (tx_ChildcareTaxSignal tax || (0 <? Z.of_nat (length (tx_UpcomingDeadlines tax))) || hasEvidencePredicate evidence "withholding_review_required")
    [derived "-memory-life-event-tax-signal" MemoryKindSemantic
       "Life event introduced tax signal, withholding review, or deadline-sensitive tax follow-up."
       [fact "childcare_tax_signal" (show_flag (tx_ChildcareTaxSignal tax));
        fact "deadline_count" (Itoa (Z.of_nat (length (tx_UpcomingDeadlines tax))))]
       (evidenceIDsByType evidence [EvidenceTypeEventSignal; EvidenceTypeCalendarDeadline; EvidenceTypeTaxDocument; EvidenceTypePayslipStatement])
       (f_const 88 100) "event evidence and tax/deadline state indicate tax-priority follow-up"] ++
  Memory.when ((eventKind == LifeEventKind_string LifeEventHousingChange) || f_ltb (f_const 18 100) (li_DebtBurdenRatio (fw_LiabilityState current)) ||
        hasEvidencePredicate evidence "mortgage_balance_cents")
    [derived "-memory-life-event-debt-pressure" MemoryKindSemantic
       "Life event may elevate debt pressure and housing-related liability review priority." debt_facts
       (evidenceIDsByType evidence [EvidenceTypeEventSignal; EvidenceTypeDebtObligationSnapshot]) (f_const 84 100)
       "housing/debt evidence suggests elevated debt review priority"] ++
  [derived "-memory-life-event-procedure" MemoryKindProcedural
     "Life event workflows should update state, verify generated tasks, and register follow-up TaskSpec objects in runtime."
     [fact "workflow_c_checklist" "observe,reduce,memory,plan,domain,verify,task_generate,govern,register"] [] (f_const 95 100)
     "workflow-generated procedural memory"].

Definition deriveBehaviorInterventionMemories : list MemoryRecord :=
  let behavior := fw_BehaviorState current in
  Memory.when ((2 <=? bh_DuplicateSubscriptionCount behavior) || f_leb (f_const 3 10) (bh_LateNightSpendingFrequency behavior))
    [derived "-memory-behavior-anomaly" MemoryKindSemantic
       "Behavior intervention should weigh duplicate subscriptions, late-night spend spikes, and discretionary pressure before recommending an intervention skill."
       [fact "duplicate_subscription_count" (Itoa (bh_DuplicateSubscriptionCount behavior));
        ratio_fact "late_night_spending_frequency" (bh_LateNightSpendingFrequency behavior)]
       (evidenceIDsByType evidence [EvidenceTypeTransactionBatch; EvidenceTypeRecurringSubscription; EvidenceTypeLateNightSpendingSignal])
       (f_const 9 10) "deterministic behavior anomaly baseline for skill selection"] ++
  [derived "-memory-behavior-procedure" MemoryKindProcedural
     "Behavior intervention workflows should retrieve prior intervention outcomes before selecting a behavior skill family and recipe."
     [fact "behavior_intervention_checklist" "observe,memory,plan,select_skill,execute,verify,govern,finalize"] [] (f_const 95 100)
     "workflow-generated procedural memory"].
End derive.

(** ** The service *)

(** [MemoryTraceRecorder] *)
Record MemoryTraceRecorder := mkMemoryTraceRecorder {
  RecordMemoryQuery : MemoryQueryRecord -> MM unit;
  RecordMemoryRetrieval : MemoryRetrievalRecord -> MM unit;
  RecordMemorySelection : MemorySelectionRecord -> MM unit
}.

(** [MemoryQueryBuilder] *)
Definition MemoryQueryBuilder : Type := QueryBuildInput -> RetrievalQuery.

Record WorkflowMemoryService := mkWorkflowMemoryService {
  ws_Writer : option (MemoryRecord -> MM unit);
  ws_Gate : option (MemoryRecord -> MM unit);
  ws_Retriever : option HybridRetriever;
  ws_PlannerQueryBuilder : option MemoryQueryBuilder;
  ws_CashflowQueryBuilder : option MemoryQueryBuilder;
  ws_BehaviorQueryBuilder : option MemoryQueryBuilder;
  ws_TraceRecorder : option MemoryTraceRecorder;
  ws_TraceIDBuilder : option (string -> string -> string -> string)
}.

Definition default_builder : QueryBuilder := mkQueryBuilder 0 "" "".

Definition mergeRetrievedMemories (groups : list (list MemoryRecord)) : list MemoryRecord :=
  fold_left (fun acc record => if bool_decide (mm_ID record ∈ mm_ID <$> acc) then acc else acc ++ [record]) (mjoin groups) [].

(** The memories of the selected results. *)
Definition selected_memories (results : list RetrievalResult) : list MemoryRecord :=
  rr_Memory <$> filter (fun result => rr_Selected result = true /\ rr_MemoryID result <> "") results.

(** The ids of the selected and of the rejected results. *)
Definition selected_ids (results : list RetrievalResult) : list string :=
  rr_MemoryID <$> filter (fun result => rr_MemoryID result <> "" /\ rr_Selected result = true) results.
Definition rejected_ids (results : list RetrievalResult) : list string :=
  rr_MemoryID <$> filter (fun result => rr_MemoryID result <> "" /\ rr_Selected result = false /\ rr_Rejected result = true) results.

Section service.
Context (s : WorkflowMemoryService).

Definition plannerBuilder : MemoryQueryBuilder := default (PlannerMemoryQueryBuilder_Build default_builder) (ws_PlannerQueryBuilder s).
Definition cashflowBuilder : MemoryQueryBuilder := default (CashflowMemoryQueryBuilder_Build default_builder) (ws_CashflowQueryBuilder s).
Definition behaviorBuilder : MemoryQueryBuilder := default (BehaviorSkillSelectionQueryBuilder_Build default_builder) (ws_BehaviorQueryBuilder s).

Definition traceID (workflowID taskID consumer : string) : string :=
  let built := from_option (fun build => TrimSpace (build workflowID taskID consumer)) "" (ws_TraceIDBuilder s) in
  if built != "" then built else "trace:" +:+ workflowID +:+ ":" +:+ taskID +:+ ":" +:+ consumer.

(** A record for the recorder, if there is one, dated. *)
Definition recorded {A} (record : MemoryTraceRecorder -> A -> MM unit) (a : time -> A) : MM unit :=
  match ws_TraceRecorder s with
  | None => mret tt
  | Some recorder => now ← nowUTC; record recorder (a now)
  end.

Definition recordQuery (query : RetrievalQuery) : MM unit := recorded RecordMemoryQuery (fun now =>
  mkMemoryQueryRecord (rq_QueryID query) (rq_WorkflowID query) (rq_TaskID query) (rq_TraceID query) (rq_Consumer query)
    (rq_ContextView query) (rq_Text query) (rq_LexicalTerms query) (rq_SemanticHint query) (rq_TopK query) (rq_RetrievalPolicy query)
    (rq_FreshnessPolicy query) (rq_EmbeddingModel query) (rq_EmbeddingProfile query) now).

Definition recordRetrieval (query : RetrievalQuery) (results : list RetrievalResult) : MM unit := recorded RecordMemoryRetrieval (fun now =>
  mkMemoryRetrievalRecord (rq_QueryID query) (rq_WorkflowID query) (rq_TaskID query) (rq_TraceID query) (rq_Consumer query)
    (rq_RetrievalPolicy query) (rq_FreshnessPolicy query) "lexical+semantic via reciprocal rank fusion"
    (selected_ids results) (rejected_ids results) results now).

Definition recordSelection (query : RetrievalQuery) (results : list RetrievalResult) : MM unit := recorded RecordMemorySelection (fun now =>
  mkMemorySelectionRecord (rq_QueryID query) (rq_WorkflowID query) (rq_TaskID query) (rq_TraceID query) (rq_Consumer query)
    (selected_ids results) (rejected_ids results) "selected memories injected into downstream context" now).

Definition retrieve (query : RetrievalQuery) : MM (list MemoryRecord) :=
  match ws_Retriever s with
  | None => mret []
  | Some retriever => results ← retriever query; mret (selected_memories results)
  end.

Definition retrieveQuery (builder : MemoryQueryBuilder) (input : QueryBuildInput) :
    MM (RetrievalQuery * list MemoryRecord * list RetrievalResult) :=
  match ws_Retriever s with
  | None => mret (zero, [], [])
  | Some retriever =>
      let query := builder input in
      recordQuery query;;
      results ← retriever query;
      recordRetrieval query results;;
      mret (query, selected_memories results, results)
  end.

Definition write_through (write : MemoryRecord -> MM unit) (record : MemoryRecord) : MM unit :=
  match ws_Gate s with
  | None => mret tt
  | Some allow =>
      r ← attempt (allow record);
      match r with
      | inr _ => mret tt
      | inl err => fail (PolicyDeniedError (error_string err +:+ " for " +:+ mm_ID record))
      end
  end;;
  write record.

Definition writeRecords (records : list MemoryRecord) : MM (list string) :=
  match ws_Writer s with
  | None => mret []
  | Some write => for_each (write_through write) records;; mret (mm_ID <$> records)
  end.

Section sync.
Context (spec : TaskSpec) (workflowID : string) (current : FinancialWorldState) (evidence : list EvidenceRecord).

Definition steward_trace : string := traceID workflowID (ts_ID spec) "memory_steward".
Definition steward_context : MemoryWriteContext := mkMemoryWriteContext workflowID (ts_ID spec) steward_trace "memory_steward".
Definition build_input : QueryBuildInput := mkQueryBuildInput workflowID spec current evidence steward_trace.

Definition SyncMonthlyReview : MM WorkflowMemoryResult :=
  now ← nowUTC;
  planning ← retrieveQuery plannerBuilder build_input;
  cashflow ← retrieveQuery cashflowBuilder build_input;
  let '(planningQuery, planningRetrieved, planningResults) := planning in
  let '(cashflowQuery, cashflowRetrieved, cashflowResults) := cashflow in
  recordSelection planningQuery planningResults;;
  recordSelection cashflowQuery cashflowResults;;
  let records := deriveMonthlyReviewMemories spec steward_context current evidence now in
  generatedIDs ← writeRecords records;
  mret (mkWorkflowMemoryResult generatedIDs records (mergeRetrievedMemories [planningRetrieved; cashflowRetrieved])
          planningRetrieved cashflowRetrieved []).

(** The syncs that write first and then look memories up. *)
Definition write_then_retrieve (derive : time -> list MemoryRecord) (semanticHint : string) (topK : Z) : MM WorkflowMemoryResult :=
  now ← nowUTC;
  let records := derive now in
  generatedIDs ← writeRecords records;
  retrieved ← retrieve ((zero : RetrievalQuery)
    <| rq_Text := ts_Goal spec |> <| rq_LexicalTerms := sc_Areas (ts_Scope spec) |> <| rq_SemanticHint := semanticHint |>
    <| rq_TopK := topK |> <| rq_WorkflowID := workflowID |> <| rq_TaskID := ts_ID spec |> <| rq_TraceID := steward_trace |>
    <| rq_Consumer := "memory_steward" |>);
  mret (mkWorkflowMemoryResult generatedIDs records retrieved [] [] []).

Definition SyncDebtDecision (conclusion : string) : MM WorkflowMemoryResult :=
  write_then_retrieve (fun now => deriveDebtDecisionMemories spec steward_context current evidence now conclusion)
    "debt paydown versus investing decision, liquidity, risk tradeoffs" 4.

Definition SyncLifeEvent : MM WorkflowMemoryResult :=
  write_then_retrieve (deriveLifeEventMemories spec steward_context current evidence)
    "life event impact, follow-up task generation, deadline awareness, tax signal, debt pressure" 5.

Definition SyncTaxOptimization : MM WorkflowMemoryResult :=
  write_then_retrieve (deriveLifeEventMemories spec steward_context current evidence)
    "tax optimization, withholding review, tax deadlines, tax-advantaged contribution follow-up" 5.

Definition SyncPortfolioRebalance : MM WorkflowMemoryResult :=
  write_then_retrieve (deriveLifeEventMemories spec steward_context current evidence)
    "portfolio rebalance, liquidity buffer, allocation drift, event-driven contribution changes" 5.

Definition SyncBehaviorIntervention : MM WorkflowMemoryResult :=
  now ← nowUTC;
  behavior ← retrieveQuery behaviorBuilder build_input;
  let '(behaviorQuery, behaviorRetrieved, behaviorResults) := behavior in
  recordSelection behaviorQuery behaviorResults;;
  let records := deriveBehaviorInterventionMemories spec steward_context current evidence now in
  generatedIDs ← writeRecords records;
  mret (mkWorkflowMemoryResult generatedIDs records behaviorRetrieved [] [] behaviorRetrieved).
End sync.

(** ** Outcomes of behavior skills *)

Definition SkillSelectionMemoryRecords (records : list MemoryRecord) : list ProceduralMemoryContextRecord :=
  (fun item => mkProceduralMemoryContextRecord (mm_ID item) (MemoryKind_string (mm_Kind item))
     (fold_left (fun facts f => if mf_Key f == "" then facts else <[mf_Key f := mf_Value f]> facts) (mm_Facts item) ∅)) <$> records.

Definition joinFacts (items : list string) : string := Join items ",".

Definition appendNonEmptyMemoryFact (facts : list MemoryFact) (key value : string) : list MemoryFact :=
  if value == "" then facts else facts ++ [fact key value].

Definition outcome_facts (o : SkillOutcomeMemory) : list MemoryFact :=
  fold_left (fun facts '(key, value) => appendNonEmptyMemoryFact facts key value)
    [("anomaly_codes", joinFacts (so_AnomalyCodes o));
     ("intervention_intensity", InterventionIntensity_string (so_InterventionIntensity o));
     ("governance_outcome", so_GovernanceOutcome o);
     ("approval_outcome", so_ApprovalOutcome o);
     ("artifact_refs", joinFacts (so_ArtifactRefs o))]
    [fact "skill_family" (so_SkillFamily o); fact "skill_version" (so_SkillVersion o);
     fact "recipe_id" (so_RecipeID o); fact "final_runtime_state" (so_FinalRuntimeState o)].

Definition outcome_memory (spec : TaskSpec) (o : SkillOutcomeMemory) (now : time) : MemoryRecord := (zero : MemoryRecord)
  <| mm_ID := so_WorkflowID o +:+ "-skill-outcome-" +:+ so_RecipeID o |>
  <| mm_Kind := MemoryKindProcedural |>
  <| mm_Summary := "Behavior intervention executed " +:+ so_SkillFamily o +:+ "/" +:+ so_RecipeID o +:+
                     " and ended in runtime state " +:+ so_FinalRuntimeState o +:+ "." |>
  <| mm_Facts := outcome_facts o |>
  <| mm_Source := mkMemorySource [] (ts_ID spec) (so_WorkflowID o) (so_TraceID o) "behavior_workflow" |>
  <| mm_Confidence := mkMemoryConfidence (f_const 94 100) "durable skill outcome written by behavior workflow" |>
  <| mm_CreatedAt := now |>
  <| mm_UpdatedAt := now |>.

Definition writeRecord (record : MemoryRecord) : MM unit :=
  match ws_Writer s with
  | None => mret tt
  | Some write =>
      match ws_Gate s with Some allow => allow record | None => mret tt end;;
      write record
  end.

Definition WriteBehaviorSkillOutcome (spec : TaskSpec) (o : SkillOutcomeMemory) : MM (list string) :=
  now ← nowUTC;
  let record := outcome_memory spec o now in
  writeRecord record;;
  mret [mm_ID record].
End service.
