(* ===== verification/Agents.v ===== *)
(** * Dispatching work to agents (agents/registry.go, executor.go, errors.go, bus.go)

    The registry of agents, the dispatcher that runs one of them on an
    envelope and the bus that offers a workflow one method per step.  Agents
    run on a world [V] of their own; the dispatcher adds its two logs, absent
    when not configured.  [time.Now] is [system_now]. *)

From S2P Require Export RuntimeTypes Protocol.
#[local] Open Scope Z_scope.

Definition RecipientPlannerAgent := "planner_agent".
Definition RecipientMemorySteward := "memory_steward".
Definition RecipientReportAgent := "report_agent".
Definition RecipientVerificationAgent := "verification_agent".
Definition RecipientGovernanceAgent := "governance_agent".
Definition RecipientCashflowAgent := "cashflow_agent".
Definition RecipientDebtAgent := "debt_agent".
Definition RecipientTaxAgent := "tax_agent".
Definition RecipientPortfolioAgent := "portfolio_agent".
Definition RecipientBehaviorAgent := "behavior_agent".
Definition RecipientTaskGenerationAgent := "task_generation_agent".

(** ** Errors *)

Definition execution_error (recipient : string) (kind : MessageKind) (category : AgentFailureCategory) (message : string)
    (cause : option error) : error :=
  AgentExecutionError recipient (MessageKind_string kind) (mkAgentFailure category message ∅) cause.

(** The failure of the [AgentExecutionError] in a chain of errors. *)
Definition agent_failure (e : error) : option AgentFailure :=
  error_as (fun e => match e with AgentExecutionError _ _ failure _ => Some failure | _ => None end) e.

(** An [AgentExecutionError], with its failure.  Nothing else in the
    repository has an [AgentFailure] method, so the second [errors.As] of the
    code finds nothing the first has not found. *)
Definition coerceExecutionError (err : error) (recipient : string) (kind : MessageKind) (fallback : AgentFailureCategory)
    (message : string) : AgentFailure * error :=
  let typed := error_as (fun e => match e with AgentExecutionError _ _ failure _ => Some (failure, e) | _ => None end) err in
  default (mkAgentFailure fallback message ∅, execution_error recipient kind fallback message (Some err)) typed.

(** ** Traces *)

Record traceContext := mkTraceContext {
  tc_PlanID : string;
  tc_PlanBlockIDs : list string;
  tc_BlockID : string;
  tc_BlockKind : string;
  tc_SelectedMemoryIDs : list string;
  tc_SelectedEvidenceIDs : list string;
  tc_SelectedStateBlocks : list string;
  tc_ResultSummary : string
}.
#[export] Instance eta_traceContext : Eta traceContext := eta! mkTraceContext < tc_PlanID ; tc_PlanBlockIDs ; tc_BlockID ; tc_BlockKind ; tc_SelectedMemoryIDs ; tc_SelectedEvidenceIDs ; tc_SelectedStateBlocks ; tc_ResultSummary >.
#[export] Instance zero_traceContext : Zero traceContext := mkTraceContext zero zero zero zero zero zero zero zero.

Definition planBlockIDs (plan : ExecutionPlan) : list string := xb_ID <$> ep_Blocks plan.

Definition plan_trace (plan : ExecutionPlan) : traceContext :=
  zero <| tc_PlanID := ep_PlanID plan |> <| tc_PlanBlockIDs := planBlockIDs plan |>.

Definition analysis_trace (payload : AnalysisRequestPayload) : traceContext :=
  let c := aq_ExecutionContext payload in
  zero <| tc_PlanID := bx_PlanID c |> <| tc_BlockID := bx_BlockID c |> <| tc_BlockKind := bx_BlockKind c |>
       <| tc_SelectedMemoryIDs := bx_SelectedMemoryIDs c |>
       <| tc_SelectedEvidenceIDs := bx_SelectedEvidenceIDs c |>
       <| tc_SelectedStateBlocks := bx_SelectedStateBlocks c |>.

Definition traceRequestDetails (envelope : AgentEnvelope) : traceContext :=
  let payload := av_Payload envelope in
  match av_Kind envelope with
  | MessageKindReportDraftRequest => from_option (fun p => plan_trace (dq_Plan p)) zero (rb_ReportDraftRequest payload)
  | MessageKindVerificationRequest => from_option (fun p => plan_trace (vq_Plan p)) zero (rb_VerificationRequest payload)
  | MessageKindCashflowAnalysisRequest => from_option analysis_trace zero (rb_CashflowAnalysisRequest payload)
  | MessageKindDebtAnalysisRequest => from_option analysis_trace zero (rb_DebtAnalysisRequest payload)
  | MessageKindTaxAnalysisRequest => from_option analysis_trace zero (rb_TaxAnalysisRequest payload)
  | MessageKindPortfolioAnalysisRequest => from_option analysis_trace zero (rb_PortfolioAnalysisRequest payload)
  | MessageKindBehaviorAnalysisRequest => from_option analysis_trace zero (rb_BehaviorAnalysisRequest payload)
  | _ => zero
  end.

Definition block_trace (blockID summary : string) : traceContext := zero <| tc_BlockID := blockID |> <| tc_ResultSummary := summary |>.
Definition summary_trace (summary : string) : traceContext := zero <| tc_ResultSummary := summary |>.

Definition traceResponseDetails (response : AgentResponse) : traceContext :=
  let body := an_Body response in
  match an_Kind response with
  | MessageKindPlanResult =>
      from_option (fun plan => plan_trace plan
        <| tc_ResultSummary := "generated " +:+ Itoa (Z.of_nat (length (ep_Blocks plan))) +:+ " execution blocks" |>) zero (sb_PlanResult body)
  | MessageKindCashflowAnalysisResult => from_option (fun r => block_trace (cbr_BlockID r) (cbr_Summary r)) zero (sb_CashflowAnalysisResult body)
  | MessageKindDebtAnalysisResult => from_option (fun r => block_trace (dbr_BlockID r) (dbr_Summary r)) zero (sb_DebtAnalysisResult body)
  | MessageKindTaxAnalysisResult => from_option (fun r => block_trace (tbr_BlockID r) (tbr_Summary r)) zero (sb_TaxAnalysisResult body)
  | MessageKindPortfolioAnalysisResult => from_option (fun r => block_trace (pbr_BlockID r) (pbr_Summary r)) zero (sb_PortfolioAnalysisResult body)
  | MessageKindBehaviorAnalysisResult => from_option (fun r => block_trace (bbr_BlockID r) (bbr_Summary r)) zero (sb_BehaviorAnalysisResult body)
  | MessageKindReportDraftResult => from_option (fun draft => summary_trace (ReportPayload_Summary draft)) zero (sb_ReportDraftResult body)
  | MessageKindVerificationResult =>
      from_option (fun r => summary_trace ("verification produced " +:+ Itoa (Z.of_nat (length (pr_Results r))) +:+ " results")) zero
        (sb_VerificationResult body)
  | MessageKindGovernanceEvaluationResult =>
      from_option (fun r => summary_trace ("approval=" +:+
          from_option (fun d => PolicyDecisionOutcome_string (pd_Outcome d)) "" (ae_Decision (gr_Approval r)) +:+
          " disclosure=" +:+ PolicyDecisionOutcome_string (pd_Outcome (re_Decision (gr_Disclosure r))))) zero
        (sb_GovernanceEvaluationResult body)
  | MessageKindReportFinalizeResult => from_option (fun r => summary_trace (ReportPayload_Summary (fr_Report r))) zero (sb_ReportFinalizeResult body)
  | _ => zero
  end.

Definition coalesceString (preferred fallback : string) : string := if preferred != "" then preferred else fallback.
Definition coalesceStrings (preferred fallback : list string) : list string := if is_nil preferred then fallback else preferred.

Definition eventTypes (events : list WorkflowEvent) : list string := (fun event => WorkflowEventType_string (we_Type event)) <$> events.

(** ** The registry *)

Section agents.
Context {V : Type} (system_now : V -> V * time).

Record AgentHandlerContext := mkAgentHandlerContext {
  hc_DispatchID : string;
  hc_TraceID : string;
  hc_Now : option (V -> V * time)
}.

(** The interface of an agent. *)
Record RegisteredSystemAgent := mkRegisteredSystemAgent {
  ag_Name : string;
  ag_Recipient : string;
  ag_RequestKind : MessageKind;
  ag_Handle : AgentHandlerContext -> AgentEnvelope -> ST error V AgentHandlerResult
}.

Definition InMemoryAgentRegistry : Type := gmap string RegisteredSystemAgent.

Definition registryKey (recipient : string) (kind : MessageKind) : string := recipient +:+ "::" +:+ MessageKind_string kind.

Definition Register (agent : option RegisteredSystemAgent) (r : InMemoryAgentRegistry) : error + InMemoryAgentRegistry :=
  match agent with
  | None => inl (PlainError "registered system agent cannot be nil")
  | Some agent =>
      let key := registryKey (ag_Recipient agent) (ag_RequestKind agent) in
      match r !! key with
      | Some _ => inl (PlainError ("agent already registered for " +:+ key))
      | None => inr (<[key := agent]> r)
      end
  end.

Definition Resolve (r : InMemoryAgentRegistry) (recipient : string) (kind : MessageKind) : error + RegisteredSystemAgent :=
  or_error (execution_error recipient kind AgentFailureUnsupportedMessage
              ("no registered agent for recipient " +:+ Quote recipient +:+ " and kind " +:+ Quote (MessageKind_string kind)) None)
    (r !! registryKey recipient kind).

Definition LocalAgentExecutor (handlerCtx : AgentHandlerContext) (agent : RegisteredSystemAgent) (envelope : AgentEnvelope) :
    ST error V AgentHandlerResult := ag_Handle agent handlerCtx envelope.

(** ** The dispatcher *)

(** The logs, when configured, and what the agents run on. *)
Record AgentWorld := mkAgentWorld {
  aw_Trace : option (list AgentExecutionRecord);
  aw_Events : option (list LogEntry);
  aw_Agents : V
}.
#[export] Instance eta_AgentWorld : Eta AgentWorld := eta! mkAgentWorld < aw_Trace ; aw_Events ; aw_Agents >.

Definition agents_run {A} (m : ST error V A) : ST error AgentWorld A := zoom aw_Agents (fun v w => w <| aw_Agents := v |>) m.

Definition read_clock_of (clock : option (V -> V * time)) : ST error AgentWorld time := agents_run (read system_now clock).

Record LocalAgentDispatcher := mkLocalAgentDispatcher {
  ld_Resolve : string -> MessageKind -> error + RegisteredSystemAgent;
  ld_Execute : AgentHandlerContext -> RegisteredSystemAgent -> AgentEnvelope -> ST error V AgentHandlerResult;
  ld_Now : option (V -> V * time)
}.

(** [LocalDispatcherOptions] with what is left nil filled in. *)
Definition NewLocalAgentDispatcher (Registry : option InMemoryAgentRegistry)
    (Executor : option (AgentHandlerContext -> RegisteredSystemAgent -> AgentEnvelope -> ST error V AgentHandlerResult))
    (Now : option (V -> V * time)) : LocalAgentDispatcher :=
  mkLocalAgentDispatcher (Resolve (default ∅ Registry)) (default LocalAgentExecutor Executor) Now.

Definition trace_entry (record : AgentExecutionRecord) : LogEntry := {|
  le_TraceID := ax_TraceID record;
  le_CorrelationID := ax_CorrelationID record;
  le_Category := "agent";
  le_Message := AgentLifecycle_string (ax_Lifecycle record);
  le_Details := list_to_map [("dispatch_id", ax_DispatchID record); ("recipient", ax_Recipient record);
                             ("request_kind", ax_RequestKind record); ("result_kind", ax_ResultKind record)];
  le_OccurredAt := ax_OccurredAt record
|}.

Definition appendAgentTrace (record : AgentExecutionRecord) : ST error AgentWorld unit := modify (fun w =>
  w <| aw_Trace := (fun l => l ++ [record]) <$> aw_Trace w |>
    <| aw_Events := (fun l => l ++ [trace_entry record]) <$> aw_Events w |>).

(** What every record of a dispatch says. *)
Definition dispatch_record (dispatchID : string) (envelope : AgentEnvelope) (lifecycle : AgentLifecycle) (at_ : time) :
    AgentExecutionRecord :=
  let trace := traceRequestDetails envelope in
  (zero : AgentExecutionRecord)
    <| ax_DispatchID := dispatchID |>
    <| ax_TraceID := pm_CorrelationID (av_Metadata envelope) |>
    <| ax_Recipient := av_Recipient envelope |>
    <| ax_RequestKind := MessageKind_string (av_Kind envelope) |>
    <| ax_PlanID := tc_PlanID trace |>
    <| ax_PlanBlockIDs := tc_PlanBlockIDs trace |>
    <| ax_BlockID := tc_BlockID trace |>
    <| ax_BlockKind := tc_BlockKind trace |>
    <| ax_SelectedMemoryIDs := tc_SelectedMemoryIDs trace |>
    <| ax_SelectedEvidenceIDs := tc_SelectedEvidenceIDs trace |>
    <| ax_SelectedStateBlocks := tc_SelectedStateBlocks trace |>
    <| ax_Lifecycle := lifecycle |>
    <| ax_CorrelationID := pm_CorrelationID (av_Metadata envelope) |>
    <| ax_CausationID := pm_CausationID (av_Metadata envelope) |>
    <| ax_OccurredAt := at_ |>
    <| ax_RequestMessageID := pm_MessageID (av_Metadata envelope) |>.

Definition failed_record (dispatchID : string) (envelope : AgentEnvelope) (failure : AgentFailure) (at_ : time) : AgentExecutionRecord :=
  dispatch_record dispatchID envelope AgentLifecycleFailed at_
    <| ax_ErrorCategory := AgentFailureCategory_string (af_Category failure) |>
    <| ax_Summary := af_Message failure |>.

Section dispatcher.
Context (d : LocalAgentDispatcher).

Definition dispatcher_now : ST error AgentWorld time := read_clock_of (ld_Now d).

(** What both responses say; [part] goes into the id of the message. *)
Definition response_to (envelope : AgentEnvelope) (part : string) (kind : MessageKind) (at_ : time) : AgentResponse :=
  (zero : AgentResponse)
    <| an_Metadata := mkProtocolMetadata (makeID [PStr (pm_MessageID (av_Metadata envelope)); PStr part; PTime at_])
         (pm_CorrelationID (av_Metadata envelope)) (pm_MessageID (av_Metadata envelope)) at_ |>
    <| an_Sender := av_Recipient envelope |>
    <| an_Recipient := av_Sender envelope |>
    <| an_Task := av_Task envelope |>
    <| an_StateRef := av_StateRef envelope |>
    <| an_RequiredEvidence := av_RequiredEvidence envelope |>
    <| an_Deadline := av_Deadline envelope |>
    <| an_RiskLevel := av_RiskLevel envelope |>
    <| an_Kind := kind |>.

Definition successResponse (envelope : AgentEnvelope) (result : AgentHandlerResult) : ST error AgentWorld AgentResponse :=
  now ← dispatcher_now;
  mret (response_to envelope (MessageKind_string (hr_Kind result)) (hr_Kind result) now
    <| an_Success := true |>
    <| an_Body := hr_Body result |>
    <| an_ProducedArtifacts := hr_ProducedArtifacts result |>
    <| an_ProducedMemories := hr_ProducedMemories result |>
    <| an_VerificationResults := hr_VerificationResults result |>
    <| an_EmittedWorkflowEvents := hr_EmittedWorkflowEvents result |>).

Definition failedResponse (envelope : AgentEnvelope) (failure : AgentFailure) : ST error AgentWorld AgentResponse :=
  now ← dispatcher_now;
  mret (response_to envelope "failure" (ExpectedResultKind (av_Kind envelope)) now
    <| an_Success := false |>
    <| an_Failure := Some failure |>).

(** A dispatch that fails after the agent ran, with the response that says so. *)
Definition dispatch_failed (dispatchID : string) (envelope : AgentEnvelope) (failure : AgentFailure) (execErr : error) :
    ST error AgentWorld AgentDispatchResult :=
  response ← failedResponse envelope failure;
  now ← dispatcher_now;
  appendAgentTrace (failed_record dispatchID envelope failure now
    <| ax_ResultMessageID := pm_MessageID (an_Metadata response) |>
    <| ax_ResultKind := MessageKind_string (an_Kind response) |>);;
  fail execErr.

Definition completed_record (dispatchID : string) (envelope : AgentEnvelope) (response : AgentResponse) (at_ : time) : AgentExecutionRecord :=
  let request := traceRequestDetails envelope in
  let result := traceResponseDetails response in
  dispatch_record dispatchID envelope AgentLifecycleCompleted at_
    <| ax_ResultKind := MessageKind_string (an_Kind response) |>
    <| ax_PlanID := coalesceString (tc_PlanID result) (tc_PlanID request) |>
    <| ax_PlanBlockIDs := coalesceStrings (tc_PlanBlockIDs result) (tc_PlanBlockIDs request) |>
    <| ax_BlockID := coalesceString (tc_BlockID result) (tc_BlockID request) |>
    <| ax_BlockKind := coalesceString (tc_BlockKind result) (tc_BlockKind request) |>
    <| ax_ResultMessageID := pm_MessageID (an_Metadata response) |>
    <| ax_WorkflowEventTypes := eventTypes (an_EmittedWorkflowEvents response) |>
    <| ax_ResultSummary := tc_ResultSummary result |>.

(** The agent has answered. *)
Definition dispatch_answered (dispatchID : string) (envelope : AgentEnvelope) (result : AgentHandlerResult) :
    ST error AgentWorld AgentDispatchResult :=
  if hr_Kind result != ExpectedResultKind (av_Kind envelope) then
    let failure := mkAgentFailure AgentFailureBadPayload
      ("agent returned mismatched result kind " +:+ Quote (MessageKind_string (hr_Kind result)) +:+
       " for request " +:+ Quote (MessageKind_string (av_Kind envelope))) ∅ in
    dispatch_failed dispatchID envelope failure
      (AgentExecutionError (av_Recipient envelope) (MessageKind_string (av_Kind envelope)) failure None)
  else
    response ← successResponse envelope result;
    valid ← attempt (AgentResponse_Validate response);
    match valid with
    | inl err =>
        let failure := mkAgentFailure AgentFailureBadPayload "agent handler returned invalid response body" ∅ in
        now ← dispatcher_now;
        appendAgentTrace (failed_record dispatchID envelope failure now);;
        fail (AgentExecutionError (av_Recipient envelope) (MessageKind_string (av_Kind envelope)) failure (Some err))
    | inr _ =>
        now ← dispatcher_now;
        appendAgentTrace (completed_record dispatchID envelope response now);;
        mret (mkAgentDispatchResult dispatchID envelope response)
    end.

(** [Dispatch] of a valid envelope. *)
Definition dispatch_valid (envelope : AgentEnvelope) : ST error AgentWorld AgentDispatchResult :=
  now ← dispatcher_now;
  let dispatchID := makeID [PStr (pm_MessageID (av_Metadata envelope)); PStr (av_Recipient envelope); PTime now] in
  now ← dispatcher_now;
  appendAgentTrace (dispatch_record dispatchID envelope AgentLifecycleDispatched now);;
  match ld_Resolve d (av_Recipient envelope) (av_Kind envelope) with
  | inl err =>
      let '(failure, execErr) := coerceExecutionError err (av_Recipient envelope) (av_Kind envelope)
                                   AgentFailureUnsupportedMessage "agent resolution failed" in
      now ← dispatcher_now;
      appendAgentTrace (failed_record dispatchID envelope failure now);;
      fail execErr
  | inr agent =>
      now ← dispatcher_now;
      appendAgentTrace (dispatch_record dispatchID envelope AgentLifecycleStarted now);;
      result ← attempt (agents_run (ld_Execute d
        (mkAgentHandlerContext dispatchID (pm_CorrelationID (av_Metadata envelope)) (ld_Now d)) agent envelope));
      match result with
      | inl err =>
          let '(failure, execErr) := coerceExecutionError err (av_Recipient envelope) (av_Kind envelope)
                                       AgentFailureUnrecoverable "agent handler failed" in
          dispatch_failed dispatchID envelope failure execErr
      | inr result => dispatch_answered dispatchID envelope result
      end
  end.

Definition Dispatch (envelope : AgentEnvelope) : ST error AgentWorld AgentDispatchResult :=
  valid ← attempt (AgentEnvelope_Validate envelope);
  match valid with
  | inl err => fail (execution_error (av_Recipient envelope) (av_Kind envelope) AgentFailureBadPayload "invalid agent envelope" (Some err))
  | inr _ => dispatch_valid envelope
  end.
End dispatcher.

(** ** The bus *)

(** [SystemStepBusOptions]: any dispatcher, and a clock. *)
Record LocalSystemStepBus := mkLocalSystemStepBus {
  bus_Dispatch : AgentEnvelope -> ST error AgentWorld AgentDispatchResult;
  bus_Now : option (V -> V * time)
}.

Definition NewLocalSystemStepBus (Dispatcher : option (AgentEnvelope -> ST error AgentWorld AgentDispatchResult))
    (Now : option (V -> V * time)) : LocalSystemStepBus :=
  mkLocalSystemStepBus (default (Dispatch (NewLocalAgentDispatcher None None Now)) Dispatcher) Now.

Definition stepMetadata (dispatched : AgentDispatchResult) : StepDispatchMetadata :=
  mkStepDispatchMetadata (av_Metadata (dr_Request dispatched)) (an_Metadata (dr_Response dispatched))
    (an_EmittedWorkflowEvents (dr_Response dispatched)).

Definition filterMemoriesByIDs (memories : list MemoryRecord) (ids : list string) : list MemoryRecord :=
  filter (fun item => mm_ID item ∈ ids) memories.

Definition filterEvidenceByIDs (evidence : list EvidenceRecord) (ids : list EvidenceID) : list EvidenceRecord :=
  filter (fun item => er_ID item ∈ ids) evidence.

Definition requestedAction (spec : TaskSpec) : string :=
  match ts_UserIntentType spec with
  | UserIntentMonthlyReview => "monthly_review_report"
  | UserIntentDebtVsInvest => "debt_vs_invest_recommendation"
  | UserIntentLifeEventTrigger => "life_event_follow_up_registration"
  | UserIntentTaxOptimization => "tax_optimization_report"
  | UserIntentPortfolioRebalance => "portfolio_rebalance_report"
  | _ => "workflow_output"
  end.

(** The cases stop at the portfolio report. *)
Definition reportRequiresApproval (report : ReportPayload) : bool :=
  first_report report mrr_ApprovalRequired ddr_ApprovalRequired (fun _ => false) tor_ApprovalRequired prr_ApprovalRequired
    (fun _ => false) false.

Section bus.
Context (b : LocalSystemStepBus).

Definition newEnvelope (meta : SystemStepMetadata) (recipient : string) (kind : MessageKind) (body : AgentRequestBody) :
    ST error AgentWorld AgentEnvelope :=
  now ← read_clock_of (bus_Now b);
  mret {| av_Metadata := mkProtocolMetadata
            (makeID [PStr (sm_WorkflowID meta); PStr recipient; PStr (MessageKind_string kind); PTime now])
            (sm_CorrelationID meta) (sm_CausationID meta) now;
          av_Sender := sm_Sender meta;
          av_Recipient := recipient;
          av_Task := sm_Task meta;
          av_StateRef := sm_StateRef meta;
          av_RequiredEvidence := ts_RequiredEvidence (sm_Task meta);
          av_Deadline := ts_Deadline (sm_Task meta);
          av_RiskLevel := ts_RiskLevel (sm_Task meta);
          av_Kind := kind;
          av_Payload := body |}.

(** What the methods share: an envelope, its dispatch, the field of the
    response that the step is about. *)
Definition step {A} (meta : SystemStepMetadata) (recipient : string) (kind : MessageKind) (body : AgentRequestBody)
    (pick : AgentResultBody -> option A) (what : string) : ST error AgentWorld (StepDispatchMetadata * A) :=
  envelope ← newEnvelope meta recipient kind body;
  dispatched ← bus_Dispatch b envelope;
  match pick (an_Body (dr_Response dispatched)) with
  | Some result => mret (stepMetadata dispatched, result)
  | None => fail (execution_error recipient kind AgentFailureBadPayload (what +:+ " body is missing") None)
  end.

Definition DispatchPlan (meta : SystemStepMetadata) (current : FinancialWorldState) (memories : list MemoryRecord)
    (evidence : list EvidenceRecord) : ST error AgentWorld PlanStepResult :=
  r ← step meta RecipientPlannerAgent MessageKindPlanRequest
        (zero <| rb_PlanRequest := Some (mkPlanRequestPayload current memories evidence ContextViewPlanning) |>)
        sb_PlanResult "plan result";
  mret (mkPlanStepResult r.1 r.2).

Definition DispatchMemorySync (meta : SystemStepMetadata) (current : FinancialWorldState) (evidence : list EvidenceRecord)
    (conclusionHint : string) : ST error AgentWorld MemorySyncStepResult :=
  r ← step meta RecipientMemorySteward MessageKindMemorySyncRequest
        (zero <| rb_MemorySyncRequest := Some (mkMemorySyncRequestPayload current evidence conclusionHint) |>)
        sb_MemorySyncResult "memory sync result";
  mret (mkMemorySyncStepResult r.1 (ms_Result r.2) (ms_AuditRefs r.2)).

(** The cases of [DispatchAnalysisBlock]: a value beside the error of the
    result's validation is dropped. *)
Definition analysis_step {A} (meta : SystemStepMetadata) (block : ExecutionBlock) (recipient : string) (kind : MessageKind)
    (body : AgentRequestBody) (pick : AgentResultBody -> option A) (what : string)
    (put : A -> BlockResultEnvelope -> BlockResultEnvelope) : ST error AgentWorld AnalysisBlockStepResult :=
  r ← step meta recipient kind body pick what;
  let result := put r.2 ((zero : BlockResultEnvelope)
    <| be_BlockID := xb_ID block |>
    <| be_BlockKind := ExecutionBlockKind_string (xb_Kind block) |>
    <| be_AssignedRecipient := xb_AssignedRecipient block |>) in
  check_envelope result;;
  mret (mkAnalysisBlockStepResult r.1 block result).

Definition DispatchAnalysisBlock (meta : SystemStepMetadata) (block : ExecutionBlock) (current : FinancialWorldState)
    (memories : list MemoryRecord) (evidence : list EvidenceRecord) (executionContext : BlockExecutionContext) :
    ST error AgentWorld AnalysisBlockStepResult :=
  let payload := {| aq_CurrentState := current;
                    aq_RelevantMemories := filterMemoriesByIDs memories (bx_SelectedMemoryIDs executionContext);
                    aq_RelevantEvidence := filterEvidenceByIDs evidence (bx_SelectedEvidenceIDs executionContext);
                    aq_Block := block;
                    aq_ExecutionContext := executionContext |} in
  let recipient := xb_AssignedRecipient block in
  if recipient == RecipientCashflowAgent then
    analysis_step meta block RecipientCashflowAgent MessageKindCashflowAnalysisRequest
      (zero <| rb_CashflowAnalysisRequest := Some payload |>) sb_CashflowAnalysisResult "cashflow analysis result"
      (fun r e => e <| be_Cashflow := Some r |>)
  else if recipient == RecipientDebtAgent then
    analysis_step meta block RecipientDebtAgent MessageKindDebtAnalysisRequest
      (zero <| rb_DebtAnalysisRequest := Some payload |>) sb_DebtAnalysisResult "debt analysis result"
      (fun r e => e <| be_Debt := Some r |>)
  else if recipient == RecipientTaxAgent then
    analysis_step meta block RecipientTaxAgent MessageKindTaxAnalysisRequest
      (zero <| rb_TaxAnalysisRequest := Some payload |>) sb_TaxAnalysisResult "tax analysis result"
      (fun r e => e <| be_Tax := Some r |>)
  else if recipient == RecipientPortfolioAgent then
    analysis_step meta block RecipientPortfolioAgent MessageKindPortfolioAnalysisRequest
      (zero <| rb_PortfolioAnalysisRequest := Some payload |>) sb_PortfolioAnalysisResult "portfolio analysis result"
      (fun r e => e <| be_Portfolio := Some r |>)
  else if recipient == RecipientBehaviorAgent then
    analysis_step meta block RecipientBehaviorAgent MessageKindBehaviorAnalysisRequest
      (zero <| rb_BehaviorAnalysisRequest := Some payload |>) sb_BehaviorAnalysisResult "behavior analysis result"
      (fun r e => e <| be_Behavior := Some r |>)
  else fail (AgentExecutionError recipient "analysis_request"
               (mkAgentFailure AgentFailureUnsupportedMessage ("unsupported block recipient " +:+ Quote recipient) ∅) None).

Definition DispatchReportDraft (meta : SystemStepMetadata) (current : FinancialWorldState) (memories : list MemoryRecord)
    (evidence : list EvidenceRecord) (plan : ExecutionPlan) (blockResults : list BlockResultEnvelope) (diff : StateDiff)
    (taskGraph : option TaskGraph) : ST error AgentWorld ReportDraftStepResult :=
  r ← step meta RecipientReportAgent MessageKindReportDraftRequest
        (zero <| rb_ReportDraftRequest := Some (mkReportDraftRequestPayload current memories evidence plan blockResults diff taskGraph) |>)
        sb_ReportDraftResult "report draft result";
  mret (mkReportDraftStepResult r.1 r.2).

Definition DispatchTaskGeneration (meta : SystemStepMetadata) (current : FinancialWorldState) (eventEvidence : list EvidenceRecord)
    (memories : list MemoryRecord) (diff : StateDiff) (plan : ExecutionPlan) (validatedBlockResults : list BlockResultEnvelope) :
    ST error AgentWorld TaskGenerationStepResult :=
  r ← step meta RecipientTaskGenerationAgent MessageKindTaskGenerationRequest
        (zero <| rb_TaskGenerationRequest :=
           Some (mkTaskGenerationRequestPayload current eventEvidence memories diff plan validatedBlockResults) |>)
        sb_TaskGenerationResult "task generation result";
  mret (mkTaskGenerationStepResult r.1 r.2).

Definition DispatchVerification (meta : SystemStepMetadata) (input : VerificationStepInput) : ST error AgentWorld VerificationStepResult :=
  r ← step meta RecipientVerificationAgent MessageKindVerificationRequest
        (zero <| rb_VerificationRequest := Some (mkVerificationRequestPayload (vi_Stage input) (vi_CurrentState input) (vi_Evidence input)
           (vi_Memories input) (vi_Plan input) (vi_BlockResults input) (vi_BlockVerificationContexts input)
           (vi_FinalVerificationContext input) (vi_TaskGraph input) (vi_Report input)) |>)
        sb_VerificationResult "verification result";
  mret (mkVerificationStepResult r.1 r.2).

Definition governance_request (meta : SystemStepMetadata) (current : FinancialWorldState) (report : ReportPayload)
    (taskGraph : option TaskGraph) : GovernanceEvaluationRequestPayload :=
  let generatedTasks := from_option tg_GeneratedTasks [] taskGraph in {|
  gq_CurrentState := current;
  gq_Report := report;
  gq_RequestedAction := requestedAction (sm_Task meta);
  gq_Actor := RecipientGovernanceAgent;
  gq_ActorRoles := ["analyst"];
  gq_ContainsPII := false;
  gq_Audience := "user";
  gq_ForceApproval := reportRequiresApproval report || existsb (fun item => gm_RequiresApproval (gt_Metadata item)) generatedTasks;
  gq_TaskGraph := taskGraph;
  gq_GeneratedTasks := generatedTasks
|}.

Definition DispatchGovernance (meta : SystemStepMetadata) (current : FinancialWorldState) (report : ReportPayload)
    (taskGraph : option TaskGraph) : ST error AgentWorld GovernanceStepResult :=
  r ← step meta RecipientGovernanceAgent MessageKindGovernanceEvaluationRequest
        (zero <| rb_GovernanceEvaluationRequest := Some (governance_request meta current report taskGraph) |>)
        sb_GovernanceEvaluationResult "governance result";
  mret (mkGovernanceStepResult r.1 (gr_Approval r.2) (gr_Disclosure r.2) (gr_RedactionRequired r.2)).

Definition DispatchReportFinalize (meta : SystemStepMetadata) (draft : ReportPayload) (disclosureDecision : PolicyDecision) :
    ST error AgentWorld ReportFinalizeStepResult :=
  r ← step meta RecipientReportAgent MessageKindReportFinalizeRequest
        (zero <| rb_ReportFinalizeRequest := Some (mkReportFinalizeRequestPayload draft disclosureDecision) |>)
        sb_ReportFinalizeResult "report finalize result";
  mret (mkReportFinalizeStepResult r.1 (fr_Report r.2) (fr_Artifacts r.2)).
End bus.
End agents.
