(* ===== verification/DomainAgents.v ===== *)
(** * The domain agents (agents/domain_agents.go, agents/behavior_agent.go)

    The five agents that analyse a block: each computes the metrics of its
    domain, writes its findings from them and answers with a block result.  The
    metrics tools the handlers hold are not called. *)

From S2P Require Export Agents CashflowReasoner.
#[local] Open Scope Z_scope.

(** ** What the agents find *)

(** A recommendation at all metrics of a domain, the evidence and memories used. *)
Definition domain_recommendation (payload : AnalysisRequestPayload) (refs : list string) (suffix : string) (type : RecommendationType)
    (title detail : string) (caveats : list string) : Recommendation := (zero : Recommendation)
  <| rc_ID := xb_ID (aq_Block payload) +:+ suffix |>
  <| rc_Type := type |>
  <| rc_Title := title |>
  <| rc_Detail := detail |>
  <| rc_RiskLevel := RiskLevelMedium |>
  <| rc_GroundingRefs := prefixedRefs "metric" refs |>
  <| rc_MetricRefs := refs |>
  <| rc_EvidenceRefs := collectEvidenceIDs (aq_RelevantEvidence payload) |>
  <| rc_MemoryRefs := collectMemoryIDsFromRecords (aq_RelevantMemories payload) |>
  <| rc_Caveats := caveats |>.

Definition debt_caveats : list string := ["债务决策中的金额、压力指标和流动性指标均以 Finance Engine 的 deterministic metrics 为准。"].

Definition debt_pressed (metrics : DebtDeterministicMetrics) : bool :=
  f_leb (f_const 2 10) (fdm_DebtBurdenRatio metrics) || f_leb (f_const 15 100) (fdm_MinimumPaymentPressure metrics).

Definition invest_more (payload : AnalysisRequestPayload) (records : list MetricRecord) : Recommendation :=
  let value ref := mr_Float64Value (refMetric records ref) in
  let base := domain_recommendation payload (refsFromRecords records) ":invest-more" RecommendationTypeInvestMore
    "在保留缓冲前提下评估继续投资" "当前存在可投资结余，但如果继续增加风险资产，需要先确认现金缓冲和债务压力是否允许。"
    ["若紧急备用金不足或债务压力偏高，不应在未复核风险的情况下直接扩大投资敞口。"]
    <| rc_MetricRefs := ["investable_surplus_cents"; "liquidity_after_paydown"; "debt_payoff_pressure"; "emergency_fund_coverage_months"] |> in
  if f_ltb (value "emergency_fund_coverage_months") (f_of_int 3) || f_leb (f_const 7 10) (value "debt_payoff_pressure") then
    base <| rc_RiskLevel := RiskLevelHigh |>
         <| rc_ApprovalRequired := true |>
         <| rc_ApprovalReason := "低流动性或高债务压力下的 invest_more 建议需要治理审批" |>
         <| rc_PolicyRuleRefs := ["approval.invest_more.low_liquidity_or_high_debt"] |>
  else base.

Definition debt_findings (payload : AnalysisRequestPayload) (bundle : DebtDecisionMetricBundle) : DebtBlockResult :=
  let metrics := dmb_Metrics bundle in
  let records := dmb_Records bundle in
  let refs := refsFromRecords records in
  let evidenceIDs := collectEvidenceIDs (aq_RelevantEvidence payload) in
  let memoryIDs := collectMemoryIDsFromRecords (aq_RelevantMemories payload) in
  let flag code severity detail := mkRiskFlag code severity detail evidenceIDs refs memoryIDs [] [] in
  let riskFlags :=
    if debt_pressed metrics then [flag "debt_pressure" "high" "债务负担与最低还款压力已经进入高关注区间。"]
    else [flag "debt_caveat" "low" "当前债务压力可控，但仍需持续关注最低还款覆盖和流动性缓冲。"] in
  let recommendations :=
    [if debt_pressed metrics then
       domain_recommendation payload refs ":debt-paydown" RecommendationTypeDebtPaydown "优先压降高息债务"
         "债务压力已较高，优先释放最低还款压力比继续增加风险资产更稳。" debt_caveats
     else
       domain_recommendation payload refs ":debt-coverage" RecommendationTypeDebtPaydown "保持债务覆盖并比较投资机会成本"
         "当前债务压力可控，但仍需先确保现金流缓冲和最低还款覆盖。" debt_caveats] ++
    (if (xb_Kind (aq_Block payload) == ExecutionBlockKindDebtTradeoff) &&
        (0 <? mr_Int64Value (refMetric records "investable_surplus_cents"))
     then [invest_more payload records] else []) in
  {| dbr_BlockID := xb_ID (aq_Block payload);
     dbr_Summary := "债务块结论：债务负担率 " +:+ Sprintf_f 2 (fdm_DebtBurdenRatio metrics) +:+ "，最低还款压力 " +:+
                      Sprintf_f 2 (fdm_MinimumPaymentPressure metrics) +:+ "。";
     dbr_KeyFindings :=
       ["债务负担率 " +:+ Sprintf_f 2 (fdm_DebtBurdenRatio metrics) +:+ "，最低还款压力 " +:+ Sprintf_f 2 (fdm_MinimumPaymentPressure metrics) +:+
          "，平均 APR " +:+ Sprintf_f 2 (fdm_AverageAPR metrics) +:+ "。";
        "当前整体风险 " +:+ fdm_OverallRisk metrics +:+ "，月度净结余 " +:+ Itoa (fdm_MonthlyNetIncomeCents metrics) +:+ " 分。"] ++
       (if hasMemoryKeyword (aq_RelevantMemories payload) "debt-versus-invest" || hasMemoryKeyword (aq_RelevantMemories payload) "debt pressure"
        then ["历史记忆提示债务压力曾是主要风险源，本轮分析已提高债务风险权重。"] else []);
     dbr_DeterministicMetrics := metrics;
     dbr_MetricRecords := records;
     dbr_EvidenceIDs := evidenceIDs;
     dbr_MemoryIDsUsed := memoryIDs;
     dbr_MetricRefs := refs;
     dbr_GroundingRefs := prefixedRefs "metric" refs;
     dbr_RiskFlags := riskFlags;
     dbr_Recommendations := recommendations;
     dbr_Caveats := debt_caveats;
     dbr_ApprovalRequired := recommendationsRequireApproval recommendations;
     dbr_ApprovalReason := approvalReasonFromRecommendations recommendations;
     dbr_PolicyRuleRefs := collectRecommendationPolicyRefs recommendations;
     dbr_Confidence := confidenceFromEvidence (aq_RelevantEvidence payload) |}.

Definition tax_caveats : list string := ["税务类建议必须结合 deadline、withholding 和合规要求审慎执行。"].
Definition show_bool (b : bool) : string := if b then "true" else "false".

Definition tax_findings (payload : AnalysisRequestPayload) (bundle : TaxMetricBundle) : TaxBlockResult :=
  let metrics := tmb_Metrics bundle in
  let refs := refsFromRecords (tmb_Records bundle) in
  let evidenceIDs := collectEvidenceIDs (aq_RelevantEvidence payload) in
  let recommendations :=
    if ftm_ChildcareTaxSignal metrics || hasMemoryKeyword (aq_RelevantMemories payload) "tax signal" then
      [domain_recommendation payload refs ":tax-action" RecommendationTypeTaxAction "跟进税务优惠与预扣"
         "事件已触发税务后续动作，优先复核预扣和可用税收优惠。" tax_caveats] else [] in
  {| tbr_BlockID := xb_ID (aq_Block payload);
     tbr_Summary := "税务块结论：当前有效税率 " +:+ Sprintf_f 2 (ftm_EffectiveTaxRate metrics) +:+ "，后续税务/预扣事项需要跟进。";
     tbr_KeyFindings :=
       ["当前有效税率 " +:+ Sprintf_f 2 (ftm_EffectiveTaxRate metrics) +:+ "，税优贡献 " +:+ Itoa (ftm_TaxAdvantagedContributionCents metrics) +:+ " 分。";
        "deadline 数量 " +:+ Itoa (ftm_UpcomingDeadlineCount metrics) +:+ "，childcare tax signal=" +:+ show_bool (ftm_ChildcareTaxSignal metrics) +:+ "。"];
     tbr_DeterministicMetrics := metrics;
     tbr_MetricRecords := tmb_Records bundle;
     tbr_EvidenceIDs := evidenceIDs;
     tbr_MemoryIDsUsed := collectMemoryIDsFromRecords (aq_RelevantMemories payload);
     tbr_MetricRefs := refs;
     tbr_GroundingRefs := prefixedRefs "metric" refs;
     tbr_RiskFlags :=
       if 0 <? ftm_UpcomingDeadlineCount metrics
       then [mkRiskFlag "tax_deadline" "medium" "事件关联 deadline 已进入跟进窗口。" evidenceIDs refs [] tax_caveats []] else [];
     tbr_Recommendations := recommendations;
     tbr_Caveats := tax_caveats;
     tbr_ApprovalRequired := recommendationsRequireApproval recommendations;
     tbr_ApprovalReason := approvalReasonFromRecommendations recommendations;
     tbr_PolicyRuleRefs := collectRecommendationPolicyRefs recommendations;
     tbr_Confidence := confidenceFromEvidence (aq_RelevantEvidence payload) |}.

Definition portfolio_caveats : list string := ["再平衡类建议必须同时披露漂移、流动性和潜在税务影响。"].

Definition portfolio_findings (payload : AnalysisRequestPayload) (bundle : PortfolioMetricBundle) : PortfolioBlockResult :=
  let metrics := pmb_Metrics bundle in
  let refs := refsFromRecords (pmb_Records bundle) in
  let evidenceIDs := collectEvidenceIDs (aq_RelevantEvidence payload) in
  let recommendations :=
    if f_leb (f_const 8 100) (fpm_MaxAllocationDrift metrics) then
      [domain_recommendation payload refs ":portfolio-rebalance" RecommendationTypePortfolioRebalance "复核再平衡窗口"
         "事件后配置漂移已上升，建议进入组合再平衡 follow-up。" portfolio_caveats] else [] in
  {| pbr_BlockID := xb_ID (aq_Block payload);
     pbr_Summary := "配置块结论：应急金月数 " +:+ Sprintf_f 2 (fpm_EmergencyFundMonths metrics) +:+ "，最大配置漂移 " +:+
                      Sprintf_f 2 (fpm_MaxAllocationDrift metrics) +:+ "。";
     pbr_KeyFindings :=
       ["可投资资产 " +:+ Itoa (fpm_TotalInvestableAssetsCents metrics) +:+ " 分，应急金月数 " +:+ Sprintf_f 2 (fpm_EmergencyFundMonths metrics) +:+ "。";
        "最大配置漂移 " +:+ Sprintf_f 2 (fpm_MaxAllocationDrift metrics) +:+ "，现金配置 " +:+ Sprintf_f 2 (fpm_CashAllocation metrics) +:+ "。"];
     pbr_DeterministicMetrics := metrics;
     pbr_MetricRecords := pmb_Records bundle;
     pbr_EvidenceIDs := evidenceIDs;
     pbr_MemoryIDsUsed := collectMemoryIDsFromRecords (aq_RelevantMemories payload);
     pbr_MetricRefs := refs;
     pbr_GroundingRefs := prefixedRefs "metric" refs;
     pbr_RiskFlags :=
       if f_ltb (fpm_EmergencyFundMonths metrics) (f_of_int 3)
       then [mkRiskFlag "liquidity_buffer" "high" "应急金月数偏低，不宜直接扩大风险敞口。" evidenceIDs refs [] portfolio_caveats []] else [];
     pbr_Recommendations := recommendations;
     pbr_Caveats := portfolio_caveats;
     pbr_ApprovalRequired := recommendationsRequireApproval recommendations;
     pbr_ApprovalReason := approvalReasonFromRecommendations recommendations;
     pbr_PolicyRuleRefs := collectRecommendationPolicyRefs recommendations;
     pbr_Confidence := confidenceFromEvidence (aq_RelevantEvidence payload) |}.

(** ** The agents *)

Section agents.
Context {V : Type} (system_now : V -> V * time) `{TE : TextErrors} `{MO : MapOrder}.

Definition Handler : Type := AgentHandlerContext (V:=V) -> AgentEnvelope -> ST error V AgentHandlerResult.

(** An agent goes by the name of its recipient. *)
Definition agent (recipient : string) (kind : MessageKind) (handle : Handler) : RegisteredSystemAgent (V:=V) :=
  mkRegisteredSystemAgent recipient recipient kind handle.

(** The payload an agent needs. *)
Definition payload_of {A} (recipient : string) (envelope : AgentEnvelope) (payload : option A) (message : string) : ST error V A :=
  match payload with
  | Some p => mret p
  | None => fail (execution_error recipient (av_Kind envelope) AgentFailureBadPayload message None)
  end.

(** A part of an agent whose error ends the handler. *)
Definition or_failure {A} (recipient : string) (envelope : AgentEnvelope) (category : AgentFailureCategory) (message : string)
    (m : ST error V A) : ST error V A :=
  r ← attempt m;
  match r with
  | inr a => mret a
  | inl err => fail (execution_error recipient (av_Kind envelope) category message (Some err))
  end.

Definition answer (kind : MessageKind) (body : AgentResultBody) : AgentHandlerResult :=
  (zero : AgentHandlerResult) <| hr_Kind := kind |> <| hr_Body := body |>.

Definition reasoner_input (envelope : AgentEnvelope) (payload : AnalysisRequestPayload) : CashflowReasonerInput := {|
  ci_WorkflowID := pm_CorrelationID (av_Metadata envelope);
  ci_TaskID := ts_ID (av_Task envelope);
  ci_TraceID := pm_CorrelationID (av_Metadata envelope);
  ci_CurrentState := aq_CurrentState payload;
  ci_RelevantMemories := aq_RelevantMemories payload;
  ci_RelevantEvidence := aq_RelevantEvidence payload;
  ci_Block := aq_Block payload;
  ci_ExecutionContext := aq_ExecutionContext payload
|}.

Definition CashflowAgentHandler_Handle (engine : option Engine) (reasoner : option (CashflowReasoner (W:=V))) : Handler := fun _ envelope =>
  payload ← payload_of RecipientCashflowAgent envelope (rb_CashflowAnalysisRequest (av_Payload envelope))
              "cashflow analysis request payload is required";
  result ← or_failure RecipientCashflowAgent envelope AgentFailureValidation "cashflow reasoning failed"
             (default (DeterministicCashflowReasoner system_now engine) reasoner (reasoner_input envelope payload));
  mret (answer MessageKindCashflowAnalysisResult (zero <| sb_CashflowAnalysisResult := Some result |>)).

Definition DebtAgentHandler_Handle (engine : option Engine) : Handler := fun _ envelope =>
  payload ← payload_of RecipientDebtAgent envelope (rb_DebtAnalysisRequest (av_Payload envelope))
              "debt analysis request payload is required";
  asOf ← metricAsOf system_now (aq_CurrentState payload);
  let bundle := en_DebtDecision (default DeterministicEngine engine) (aq_CurrentState payload) (aq_RelevantEvidence payload) asOf in
  mret (answer MessageKindDebtAnalysisResult (zero <| sb_DebtAnalysisResult := Some (debt_findings payload bundle) |>)).

Definition TaxAgentHandler_Handle (engine : option Engine) : Handler := fun _ envelope =>
  payload ← payload_of RecipientTaxAgent envelope (rb_TaxAnalysisRequest (av_Payload envelope))
              "tax analysis request payload is required";
  asOf ← metricAsOf system_now (aq_CurrentState payload);
  let bundle := en_Tax (default DeterministicEngine engine) (aq_CurrentState payload) (aq_RelevantEvidence payload) asOf in
  mret (answer MessageKindTaxAnalysisResult (zero <| sb_TaxAnalysisResult := Some (tax_findings payload bundle) |>)).

Definition PortfolioAgentHandler_Handle (engine : option Engine) : Handler := fun _ envelope =>
  payload ← payload_of RecipientPortfolioAgent envelope (rb_PortfolioAnalysisRequest (av_Payload envelope))
              "portfolio analysis request payload is required";
  asOf ← metricAsOf system_now (aq_CurrentState payload);
  let bundle := en_Portfolio (default DeterministicEngine engine) (aq_CurrentState payload) (aq_RelevantEvidence payload) asOf in
  mret (answer MessageKindPortfolioAnalysisResult (zero <| sb_PortfolioAnalysisResult := Some (portfolio_findings payload bundle) |>)).

Definition BehaviorAgentHandler_Handle (Now : option (V -> V * time)) : Handler := fun _ envelope =>
  let message := "behavior analysis requires selected skill in execution context" in
  payload ← payload_of RecipientBehaviorAgent envelope (rb_BehaviorAnalysisRequest (av_Payload envelope))
              "behavior analysis request payload is required";
  skill ← payload_of RecipientBehaviorAgent envelope (bx_SelectedSkill (aq_ExecutionContext payload)) message;
  now ← read system_now None;
  now ← match Now with Some clock => read system_now (Some clock) | None => mret now end;
  let memoryIDs := collectMemoryIDsFromRecords (aq_RelevantMemories payload) in
  output ← or_failure RecipientBehaviorAgent envelope AgentFailureValidation "behavior analysis failed"
             (of_sum (Analyze (mkBehaviorEvidence (aq_CurrentState payload) (aq_RelevantEvidence payload)) skill memoryIDs now));
  or_failure RecipientBehaviorAgent envelope AgentFailureValidation "behavior analysis output validation failed"
    (of_sum (check (BehaviorValidator output)));;
  let result := ToBlockResult output (xb_ID (aq_Block payload)) memoryIDs (collectEvidenceIDs (aq_RelevantEvidence payload))
                  (confidenceFromEvidence (aq_RelevantEvidence payload)) in
  if sse_Family (bbr_SelectedSkill result) == SkillFamilyOther "" then fail (PlainError "behavior block result missing selected skill")
  else mret (answer MessageKindBehaviorAnalysisResult (zero <| sb_BehaviorAnalysisResult := Some result |>)).
End agents.
