(* ===== verification/SystemAgents.v ===== *)
(** * Task generation and the system agents *)

From S2P Require Export DomainAgents MemorySync.
From S2P Require Export ContextModel Governance.
#[local] Open Scope Z_scope.

(** * Generating follow-up tasks (agents/task_generation_agent.go)

    The agent that turns a life event and the results of its analysis into a
    graph of follow-up tasks. *)

(** ** The event *)

(** The first claim of a record that names a kind. *)
Definition event_claim (record : EvidenceRecord) : option EvidenceClaim :=
  List.find (fun claim => (ecl_Predicate claim == "life_event_kind") && (trim_quotes (ecl_ValueJSON claim) != "")) (er_Claims record).

(** The evidence read so far and the event's id. *)
Fixpoint classify_from (lifeEventID : string) (evidenceIDs : list string) (records : list EvidenceRecord) : string * string * list string :=
  match records with
  | [] => ("", lifeEventID, evidenceIDs)
  | record :: records =>
      let evidenceIDs := evidenceIDs ++ [er_ID record] in
      let lifeEventID := if lifeEventID == "" then TrimSpace (es_Reference (er_Source record)) else lifeEventID in
      match event_claim record with
      | Some claim =>
          (trim_quotes (ecl_ValueJSON claim),
           if lifeEventID == "" then TrimSpace (ecl_Object claim) else lifeEventID, evidenceIDs)
      | None => classify_from lifeEventID evidenceIDs records
      end
  end.

Definition classifyLifeEvent : list EvidenceRecord -> string * string * list string := classify_from "" [].

(** ** What the tasks refer to *)

Definition hasBlockResult (results : list BlockResultEnvelope) (domain : string) : bool :=
  existsb (fun item =>
    if domain == "cashflow" then is_set (be_Cashflow item)
    else if domain == "debt" then is_set (be_Debt item)
    else if domain == "tax" then is_set (be_Tax item)
    else if domain == "portfolio" then is_set (be_Portfolio item)
    else false) results.

(** The loop over the memories, given what the results have used. *)
Fixpoint add_memory_ids (result : list string) (memories : list MemoryRecord) : list string :=
  match memories with
  | [] => result
  | item :: memories =>
      if bool_decide (mm_ID item ∈ result) then add_memory_ids result memories
      else
        let result := result ++ [mm_ID item] in
        if (4 <=? length result)%nat then result else add_memory_ids result memories
  end.

Definition collectReasonMemoryIDs (memories : list MemoryRecord) (blockResults : list BlockResultEnvelope) : list string :=
  add_memory_ids (unique_from [] (mjoin (BlockResultEnvelope_MemoryIDsUsed <$> blockResults))) memories.

Definition deadlines (records : list EvidenceRecord) : list EvidenceRecord :=
  filter (fun record => er_Type record = EvidenceTypeCalendarDeadline) records.

Definition earlier (earliest : option time) (deadline : time) : option time :=
  match earliest with
  | Some t => if Before deadline t then Some deadline else earliest
  | None => Some deadline
  end.

Definition deriveDueWindow (records : list EvidenceRecord) : list string * TaskDueWindow :=
  (er_ID <$> deadlines records,
   mkTaskDueWindow None (fold_left earlier (omap (fun record => et_End (er_TimeRange record)) (deadlines records)) None)).

(** ** The tasks *)

Definition follow_up_areas (intent : UserIntentType) : list string :=
  match intent with
  | UserIntentTaxOptimization => ["tax"; "cashflow"]
  | UserIntentPortfolioRebalance => ["portfolio"; "cashflow"]
  | UserIntentDebtVsInvest => ["liability"; "cashflow"; "portfolio"]
  | UserIntentMonthlyReview => ["cashflow"; "liability"; "portfolio"; "tax"]
  | _ => ["cashflow"]
  end.

Definition follow_up_evidence (intent : UserIntentType) : list RequiredEvidenceRef :=
  match intent with
  | UserIntentTaxOptimization =>
      [mkRequiredEvidenceRef "event_signal" "tax optimization must stay tied to the triggering life event" true;
       mkRequiredEvidenceRef "calendar_deadline" "tax optimization should reflect active deadline pressure" false;
       mkRequiredEvidenceRef "tax_document" "tax optimization should reflect tax-document signals" false;
       mkRequiredEvidenceRef "payslip_statement" "tax optimization should reflect withholding and payroll context" false]
  | UserIntentPortfolioRebalance =>
      [mkRequiredEvidenceRef "event_signal" "portfolio rebalance must stay tied to the triggering life event" true;
       mkRequiredEvidenceRef "portfolio_allocation_snapshot" "rebalance requires current holdings and allocation drift" true;
       mkRequiredEvidenceRef "transaction_batch" "rebalance should reflect liquidity and contribution cashflow" false]
  | UserIntentDebtVsInvest =>
      [mkRequiredEvidenceRef "event_signal" "debt-vs-invest follow-up must remain grounded in the triggering event" true;
       mkRequiredEvidenceRef "debt_obligation_snapshot" "tradeoff analysis requires current debt obligations" true;
       mkRequiredEvidenceRef "portfolio_allocation_snapshot" "tradeoff analysis should reflect investable assets and drift" false]
  | UserIntentMonthlyReview =>
      [mkRequiredEvidenceRef "event_signal" "monthly review follow-up must stay tied to the triggering event" true;
       mkRequiredEvidenceRef "transaction_batch" "monthly review needs current transaction coverage" true;
       mkRequiredEvidenceRef "debt_obligation_snapshot" "monthly review should reflect current liabilities" false;
       mkRequiredEvidenceRef "portfolio_allocation_snapshot" "monthly review should reflect current allocation and liquidity" false]
  | _ => [mkRequiredEvidenceRef "event_signal" "follow-up task must remain grounded in triggering event" true]
  end.

Definition buildGeneratedTaskSpec (parent : TaskSpec) (intent : UserIntentType) (goal : string) (now : time) : TaskSpec :=
  (zero : TaskSpec)
    <| ts_ID := "task-follow-up-" +:+ UserIntentType_string intent +:+ "-" +:+ Format_compact now |>
    <| ts_Goal := goal |>
    <| ts_Scope := (zero : TaskScope) <| sc_Areas := follow_up_areas intent |> <| sc_Notes := ["generated_follow_up"] |> |>
    <| ts_Constraints := mkConstraintSet ["must remain grounded in life event evidence and validated block results";
                                          "financial metrics must remain deterministic"] [] |>
    <| ts_RiskLevel := RiskLevelMedium |>
    <| ts_SuccessCriteria := [mkSuccessCriteria "follow-up-grounding"
         "follow-up task remains grounded in life event evidence, state diff, and validated analysis"] |>
    <| ts_RequiredEvidence := follow_up_evidence intent |>
    <| ts_ApprovalRequirement := ts_ApprovalRequirement parent |>
    <| ts_UserIntentType := intent |>
    <| ts_CreatedAt := now |>.

Definition suppression_needle (intent : UserIntentType) : option string :=
  match intent with
  | UserIntentDebtVsInvest => Some "latest decision"
  | UserIntentMonthlyReview => Some "monthly review"
  | _ => None
  end.

Definition shouldSuppressGeneratedTask (intent : UserIntentType) (memories : list MemoryRecord) : bool :=
  match suppression_needle intent with
  | None => false
  | Some needle =>
      let mentions text := Contains (ToLower text) needle in
      existsb (fun memory => mentions (mm_Summary memory) ||
                 existsb (fun fact => mentions (mf_Key fact) || mentions (mf_Value fact)) (mm_Facts memory)) memories
  end.

(** A call of [add]: intent, goal, priority, whether it needs an approval. *)
Record Proposal := mkProposal {
  po_Intent : UserIntentType;
  po_Goal : string;
  po_Priority : TaskPriority;
  po_RequiresApproval : bool
}.

(** The calls an event makes. *)
Definition proposals (eventKind : string) (blockResults : list BlockResultEnvelope) : list Proposal :=
  let when domain proposal := if hasBlockResult blockResults domain then [proposal] else [] in
  if eventKind == "salary_change" then
    when "tax" (mkProposal UserIntentTaxOptimization "Review tax withholding and tax-advantaged opportunities after salary change." TaskPriorityHigh false) ++
    when "portfolio" (mkProposal UserIntentPortfolioRebalance "Review whether salary change should trigger portfolio contribution or rebalance updates." TaskPriorityMedium false)
  else if eventKind == "new_child" then
    when "tax" (mkProposal UserIntentTaxOptimization "Review childcare-related tax benefits and dependent updates after a new child event." TaskPriorityHigh false) ++
    when "cashflow" (mkProposal UserIntentMonthlyReview "Run a focused monthly review after the new child event to re-check cashflow and childcare cost impact." TaskPriorityMedium false)
  else if eventKind == "job_change" then
    when "tax" (mkProposal UserIntentTaxOptimization "Review withholding, benefits enrollment, and tax optimization after job change." TaskPriorityHigh false) ++
    when "portfolio" (mkProposal UserIntentPortfolioRebalance "Review portfolio contribution and allocation implications after job change." TaskPriorityMedium false)
  else if eventKind == "housing_change" then
    when "debt" (mkProposal UserIntentDebtVsInvest "Re-check debt, liquidity, and investment tradeoffs after housing change." TaskPriorityHigh true) ++
    when "portfolio" (mkProposal UserIntentPortfolioRebalance "Review liquidity and allocation implications after housing change." TaskPriorityMedium false)
  else [].

(** The map [unique], as the list of its values, and the suppressions. *)
Definition generation : Type := list GeneratedTaskSpec * list string.

Definition task_of (unique : list GeneratedTaskSpec) (intent : UserIntentType) : option GeneratedTaskSpec :=
  List.find (fun item => ts_UserIntentType (gt_Task item) == intent) unique.

Section generate.
Context (parent : TaskSpec) (workflowID : string) (memories : list MemoryRecord) (dueWindow : TaskDueWindow)
  (reasons : list TaskGenerationReason) (now : time).

Definition generated_task (p : Proposal) : GeneratedTaskSpec := {|
  gt_Task := buildGeneratedTaskSpec parent (po_Intent p) (po_Goal p) now;
  gt_Metadata := {| gm_GeneratedAt := now;
                    gm_ParentWorkflowID := workflowID;
                    gm_ParentTaskID := ts_ID parent;
                    gm_RootCorrelationID := workflowID;
                    gm_TriggerSource := TaskTriggerSourceLifeEvent;
                    gm_Priority := po_Priority p;
                    gm_DueWindow := dueWindow;
                    gm_RequiresApproval := po_RequiresApproval p;
                    gm_ExecutionDepth := 1;
                    gm_GenerationReasons := reasons |}
|}.

Definition add (acc : generation) (p : Proposal) : generation :=
  let '(unique, suppressions) := acc in
  let intent := Quote (UserIntentType_string (po_Intent p)) in
  if shouldSuppressGeneratedTask (po_Intent p) memories then
    (unique, suppressions ++ ["suppressed duplicate follow-up task for intent " +:+ intent +:+
                              " because retrieved memories indicate an existing recent decision"])
  else match task_of unique (po_Intent p) with
  | Some _ => (unique, suppressions ++ ["suppressed duplicate follow-up task for intent " +:+ intent +:+ " inside the same generation pass"])
  | None => (unique ++ [generated_task p], suppressions)
  end.
End generate.

Definition orderedIntents : list UserIntentType :=
  [UserIntentMonthlyReview; UserIntentDebtVsInvest; UserIntentTaxOptimization; UserIntentPortfolioRebalance].

Definition generated_dependencies (unique : list GeneratedTaskSpec) : list TaskDependency :=
  match task_of unique UserIntentTaxOptimization, task_of unique UserIntentPortfolioRebalance with
  | Some taxTask, Some portfolioTask =>
      [mkTaskDependency (ts_ID (gt_Task taxTask)) (ts_ID (gt_Task portfolioTask))
         "portfolio follow-up should incorporate tax impact analysis first" false]
  | _, _ => []
  end.

Definition generateFollowUpTasks (parent : TaskSpec) (workflowID lifeEventID eventKind : string) (eventEvidenceIDs : list string)
    (memories : list MemoryRecord) (diff : StateDiff) (blockResults : list BlockResultEnvelope)
    (triggerEvidence : list EvidenceRecord) (now : time) : list GeneratedTaskSpec * list TaskDependency * list string :=
  let '(deadlineEvidenceIDs, dueWindow) := deriveDueWindow triggerEvidence in
  let reason := {| tr_Code := TaskGenerationReasonLifeEventImpact;
                   tr_Description := "life event impact analysis produced a follow-up task";
                   tr_LifeEventID := lifeEventID;
                   tr_LifeEventKind := eventKind;
                   tr_EvidenceIDs := eventEvidenceIDs;
                   tr_MemoryIDs := collectReasonMemoryIDs memories blockResults;
                   tr_StateDiffFields := sdf_ChangedFields diff;
                   tr_DeadlineEvidence := deadlineEvidenceIDs |} in
  let '(unique, suppressions) :=
    fold_left (add parent workflowID memories dueWindow [reason] now) (proposals eventKind blockResults) ([], []) in
  (omap (task_of unique) orderedIntents, generated_dependencies unique, suppressions).

(** ** The agent *)

Definition generated_graph (workflowID : string) (parent : TaskSpec) (eventKind : string) (now : time)
    (generated : list GeneratedTaskSpec) (dependencies : list TaskDependency) (suppressions : list string) : TaskGraph := {|
  tg_GraphID := workflowID +:+ "-generated-tasks";
  tg_ParentWorkflowID := workflowID;
  tg_ParentTaskID := ts_ID parent;
  tg_TriggerSource := TaskTriggerSourceLifeEvent;
  tg_GeneratedAt := now;
  tg_GeneratedTasks := generated;
  tg_Dependencies := dependencies;
  tg_SuppressionNotes := suppressions;
  tg_GenerationSummary := "generated " +:+ Itoa (Z.of_nat (length generated)) +:+ " follow-up tasks for life event " +:+ Quote eventKind
|}.

Section agent.
Context {V : Type} (system_now : V -> V * time).

Definition TaskGenerationAgentHandler_Handle : Handler (V:=V) := fun handlerCtx envelope =>
  let workflowID := pm_CorrelationID (av_Metadata envelope) in
  let invalid message cause := execution_error RecipientTaskGenerationAgent (av_Kind envelope) AgentFailureValidation message cause in
  payload ← payload_of RecipientTaskGenerationAgent envelope (rb_TaskGenerationRequest (av_Payload envelope))
              "task generation request payload is required";
  let '(eventKind, lifeEventID, eventEvidenceIDs) := classifyLifeEvent (tq_EventEvidence payload) in
  if eventKind == "" then fail (invalid "task generation requires life event evidence" None)
  else if is_nil (tq_ValidatedBlockResults payload) then fail (invalid "task generation requires validated block results" None)
  else
    now ← read system_now None;
    now ← match hc_Now handlerCtx with Some clock => read system_now (Some clock) | None => mret now end;
    let '(generated, dependencies, suppressions) :=
      generateFollowUpTasks (av_Task envelope) workflowID lifeEventID eventKind eventEvidenceIDs (tq_Memories payload)
        (tq_StateDiff payload) (tq_ValidatedBlockResults payload) (tq_EventEvidence payload) now in
    let graph := generated_graph workflowID (av_Task envelope) eventKind now generated dependencies suppressions in
    match TaskGraph_Validate graph with
    | Some err => fail (invalid "generated task graph is invalid" (Some err))
    | None => mret (answer MessageKindTaskGenerationResult (zero <| sb_TaskGenerationResult := Some graph |>))
    end.
End agent.

(** * The system agents (agents/system_agents.go)

    Planner, memory steward, report agent, verification agent and governance
    agent: what each makes of its request with the service it holds. *)

Section agents.
Context {V : Type} (system_now : V -> V * time) `{TE : TextErrors} `{MO : MapOrder} `{JE : StateEncoder}.

Definition makeWorkflowEvent (envelope : AgentEnvelope) (eventType : WorkflowEventType) (summary : string) : ST error V WorkflowEvent :=
  let metadata := av_Metadata envelope in
  now ← if pm_EmittedAt metadata == zero_time then read system_now None else mret (pm_EmittedAt metadata);
  mret ((zero : WorkflowEvent)
    <| we_Metadata := mkProtocolMetadata (pm_MessageID metadata +:+ "-" +:+ WorkflowEventType_string eventType)
                        (pm_CorrelationID metadata) (pm_MessageID metadata) now |>
    <| we_WorkflowID := pm_CorrelationID metadata |>
    <| we_TaskID := ts_ID (av_Task envelope) |>
    <| we_Type := eventType |>
    <| we_Summary := summary |>
    <| we_StateRef := av_StateRef envelope |>).

Definition of_outcome {A} (o : outcome error A) : ST error V A := fun v => (v, o).

(** ** The planner *)

(** The interfaces [ContextAssembler] and [PlannerEngine]; of a planner that
    takes a context it is that method. *)
Definition Assembler : Type :=
  TaskSpec -> FinancialWorldState -> list MemoryRecord -> list EvidenceRecord -> ContextView -> outcome error ContextSlice.
Definition PlannerEngine : Type := TaskSpec -> ContextSlice -> string -> ST error V ExecutionPlan.

Definition DefaultContextAssembler : Assembler := Assemble (mkContextAssembler zero None None).

Definition default_planner : PlannerEngine := fun spec slice workflowID =>
  now ← read system_now None;
  mret (CreatePlan zero now spec slice workflowID).2.

Definition PlannerAgentHandler_Handle (assembler : option Assembler) (planner : option PlannerEngine) : Handler (V:=V) := fun _ envelope =>
  payload ← payload_of RecipientPlannerAgent envelope (rb_PlanRequest (av_Payload envelope)) "plan request payload is required";
  slice ← or_failure RecipientPlannerAgent envelope AgentFailureValidation "planning context assembly failed"
            (of_outcome (default DefaultContextAssembler assembler (av_Task envelope) (pq_CurrentState payload) (pq_Memories payload)
                           (pq_Evidence payload) (pq_PlanningView payload)));
  plan ← default default_planner planner (av_Task envelope) slice (pm_CorrelationID (av_Metadata envelope));
  event ← makeWorkflowEvent envelope WorkflowEventPlanCreated "plan created by planner agent";
  mret (answer MessageKindPlanResult (zero <| sb_PlanResult := Some plan |>) <| hr_EmittedWorkflowEvents := [event] |>).

(** ** The memory steward *)

(** What the steward uses of [WorkflowMemoryService]; the clock is the
    service's own, or the handler's if it has none. *)
Record MemorySyncs := mkMemorySyncs {
  ss_MonthlyReview : TaskSpec -> string -> FinancialWorldState -> list EvidenceRecord -> ST error V WorkflowMemoryResult;
  ss_DebtDecision : TaskSpec -> string -> FinancialWorldState -> list EvidenceRecord -> string -> ST error V WorkflowMemoryResult;
  ss_LifeEvent : TaskSpec -> string -> FinancialWorldState -> list EvidenceRecord -> ST error V WorkflowMemoryResult;
  ss_TaxOptimization : TaskSpec -> string -> FinancialWorldState -> list EvidenceRecord -> ST error V WorkflowMemoryResult;
  ss_PortfolioRebalance : TaskSpec -> string -> FinancialWorldState -> list EvidenceRecord -> ST error V WorkflowMemoryResult;
  ss_BehaviorIntervention : TaskSpec -> string -> FinancialWorldState -> list EvidenceRecord -> ST error V WorkflowMemoryResult
}.

(** The service on a world that holds the memory's. *)
Definition memory_syncs (view : V -> MemoryWorld) (upd : MemoryWorld -> V -> V) (s : WorkflowMemoryService) : MemorySyncs := {|
  ss_MonthlyReview spec id current evidence := zoom view upd (SyncMonthlyReview s spec id current evidence);
  ss_DebtDecision spec id current evidence conclusion := zoom view upd (SyncDebtDecision s spec id current evidence conclusion);
  ss_LifeEvent spec id current evidence := zoom view upd (SyncLifeEvent s spec id current evidence);
  ss_TaxOptimization spec id current evidence := zoom view upd (SyncTaxOptimization s spec id current evidence);
  ss_PortfolioRebalance spec id current evidence := zoom view upd (SyncPortfolioRebalance s spec id current evidence);
  ss_BehaviorIntervention spec id current evidence := zoom view upd (SyncBehaviorIntervention s spec id current evidence)
|}.

Definition sync_for (s : MemorySyncs) (spec : TaskSpec) (workflowID : string) (payload : MemorySyncRequestPayload) : ST error V WorkflowMemoryResult :=
  let current := mq_CurrentState payload in
  let evidence := mq_Evidence payload in
  match ts_UserIntentType spec with
  | UserIntentMonthlyReview => ss_MonthlyReview s spec workflowID current evidence
  | UserIntentDebtVsInvest => ss_DebtDecision s spec workflowID current evidence (mq_ConclusionHint payload)
  | UserIntentBehaviorIntervention => ss_BehaviorIntervention s spec workflowID current evidence
  | UserIntentLifeEventTrigger => ss_LifeEvent s spec workflowID current evidence
  | UserIntentTaxOptimization => ss_TaxOptimization s spec workflowID current evidence
  | UserIntentPortfolioRebalance => ss_PortfolioRebalance s spec workflowID current evidence
  | intent => fail (PlainError ("unsupported intent " +:+ Quote (UserIntentType_string intent) +:+ " for memory sync"))
  end.

Definition MemoryStewardHandler_Handle (s : MemorySyncs) : Handler (V:=V) := fun _ envelope =>
  payload ← payload_of RecipientMemorySteward envelope (rb_MemorySyncRequest (av_Payload envelope)) "memory sync request payload is required";
  r ← attempt (sync_for s (av_Task envelope) (pm_CorrelationID (av_Metadata envelope)) payload);
  match r with
  | inl err =>
      fail (execution_error RecipientMemorySteward (av_Kind envelope)
              (if IsPolicyDenied err then AgentFailurePolicy else AgentFailureUnrecoverable) "memory steward sync failed" (Some err))
  | inr result =>
      mret (answer MessageKindMemorySyncResult
              (zero <| sb_MemorySyncResult := Some (mkMemorySyncResultPayload result (wm_GeneratedIDs result)) |>)
            <| hr_ProducedMemories := wm_GeneratedIDs result |>)
  end.

(** ** The report agent *)

Definition ReportDraftAgentHandler_Handle (s : Service (W:=V)) : Handler (V:=V) := fun _ envelope =>
  payload ← payload_of RecipientReportAgent envelope (rb_ReportDraftRequest (av_Payload envelope)) "report draft request payload is required";
  draft ← or_failure RecipientReportAgent envelope AgentFailureValidation "report draft generation failed"
    (Service_Draft system_now s (av_Task envelope) (pm_CorrelationID (av_Metadata envelope))
       {| di_Plan := dq_Plan payload;
          di_BlockResults := dq_BlockResults payload;
          di_CurrentState := dq_CurrentState payload;
          di_Evidence := dq_Evidence payload;
          di_Memories := dq_Memories payload;
          di_StateDiff := sdf_ChangedFields (dq_StateDiff payload);
          di_TaskGraph := dq_TaskGraph payload |});
  mret (answer MessageKindReportDraftResult (zero <| sb_ReportDraftResult := Some draft |>)).

Definition ReportFinalizeAgentHandler_Handle (s : Service (W:=V)) : Handler (V:=V) := fun _ envelope =>
  payload ← payload_of RecipientReportAgent envelope (rb_ReportFinalizeRequest (av_Payload envelope)) "report finalize request payload is required";
  r ← or_failure RecipientReportAgent envelope AgentFailurePolicy "report finalization denied by disclosure policy"
    (Service_Finalize system_now s (pm_CorrelationID (av_Metadata envelope)) (ts_ID (av_Task envelope)) (fq_Draft payload)
       (fq_DisclosureDecision payload));
  let '(report, artifacts) := r in
  event ← makeWorkflowEvent envelope WorkflowEventReportReady "final report artifact generated";
  mret (answer MessageKindReportFinalizeResult (zero <| sb_ReportFinalizeResult := Some (mkReportFinalizeResultPayload report artifacts) |>)
        <| hr_ProducedArtifacts := artifacts |> <| hr_EmittedWorkflowEvents := [event] |>).

(** ** The verification agent *)

(** The call of the pipeline for a report that is needed. *)
Definition report_of {A} (envelope : AgentEnvelope) (report : option A) (message : string) : ST error V A :=
  payload_of RecipientVerificationAgent envelope report message.

(** A verification of a report, which it gives as an output. *)
Definition verify_report {A} (envelope : AgentEnvelope) (payload : VerificationRequestPayload) (report : option A) (name : string)
    (output : A -> Output)
    (run : TaskSpec -> FinancialWorldState -> list EvidenceRecord -> list MemoryRecord -> ExecutionPlan -> list BlockResultEnvelope ->
           list BlockVerificationContext -> BlockVerificationContext -> Output -> ST error V PipelineResult) : ST error V (error + PipelineResult) :=
  r ← report_of envelope report (name +:+ " verification requires " +:+ name +:+ " report payload");
  attempt (run (av_Task envelope) (vq_CurrentState payload) (vq_Evidence payload) (vq_Memories payload) (vq_Plan payload)
             (vq_BlockResults payload) (vq_BlockVerificationContexts payload) (vq_FinalVerificationContext payload) (output r)).

Definition verify_life_event (p : VerifyPipeline.Pipeline (W:=V)) (envelope : AgentEnvelope) (payload : VerificationRequestPayload)
    (stage : VerificationStage) : ST error V (error + PipelineResult) :=
  match stage with
  | VerificationStageAnalysisBlocks =>
      attempt (VerifyLifeEventBlockPass system_now p (av_Task envelope) (vq_CurrentState payload) (vq_Evidence payload) (vq_Plan payload)
                 (vq_BlockResults payload) (vq_BlockVerificationContexts payload))
  | VerificationStageGeneratedTasksAndFinal =>
      graph ← report_of envelope (vq_TaskGraph payload) "life event final verification requires task graph";
      report ← report_of envelope (rp_LifeEventAssessment (vq_Report payload))
                 "life event final verification requires life event assessment report payload";
      attempt (VerifyLifeEventGeneratedTasksAndFinal system_now p (av_Task envelope) (vq_Evidence payload) (vq_Memories payload) (vq_Plan payload)
                 (vq_BlockResults payload) graph (vq_FinalVerificationContext payload) (LifeEventAssessmentOutput report))
  | stage =>
      fail (execution_error RecipientVerificationAgent (av_Kind envelope) AgentFailureBadPayload
              ("unsupported verification stage " +:+ Quote (VerificationStage_string stage) +:+ " for life event workflow") None)
  end.

Definition run_verification (p : VerifyPipeline.Pipeline (W:=V)) (envelope : AgentEnvelope) (payload : VerificationRequestPayload) :
    ST error V (error + PipelineResult) :=
  let report := vq_Report payload in
  match ts_UserIntentType (av_Task envelope) with
  | UserIntentMonthlyReview =>
      verify_report envelope payload (rp_MonthlyReview report) "monthly review" MonthlyReviewOutput (VerifyMonthlyReview system_now p)
  | UserIntentDebtVsInvest =>
      verify_report envelope payload (rp_DebtDecision report) "debt decision" DebtDecisionOutput (VerifyDebtDecision system_now p)
  | UserIntentLifeEventTrigger =>
      verify_life_event p envelope payload
        (if vq_Stage payload == VerificationStageOther "" then VerificationStageFullReport else vq_Stage payload)
  | UserIntentTaxOptimization =>
      verify_report envelope payload (rp_TaxOptimization report) "tax optimization" TaxOptimizationOutput (VerifyTaxOptimization system_now p)
  | UserIntentPortfolioRebalance =>
      verify_report envelope payload (rp_PortfolioRebalance report) "portfolio rebalance" PortfolioRebalanceOutput (VerifyPortfolioRebalance system_now p)
  | UserIntentBehaviorIntervention =>
      verify_report envelope payload (rp_BehaviorIntervention report) "behavior intervention" BehaviorInterventionOutput
        (VerifyBehaviorIntervention system_now p)
  | intent => mret (inl (PlainError ("unsupported verification intent " +:+ Quote (UserIntentType_string intent))))
  end.

Definition VerificationAgentHandler_Handle (p : VerifyPipeline.Pipeline (W:=V)) : Handler (V:=V) := fun _ envelope =>
  payload ← payload_of RecipientVerificationAgent envelope (rb_VerificationRequest (av_Payload envelope)) "verification request payload is required";
  r ← run_verification p envelope payload;
  match r with
  | inl err => fail (execution_error RecipientVerificationAgent (av_Kind envelope) AgentFailureValidation "verification pipeline failed" (Some err))
  | inr result =>
      events ← if NeedsReplan (pr_Results result)
               then event ← makeWorkflowEvent envelope WorkflowEventVerificationFailed "verification requested replanning"; mret [event]
               else mret [];
      mret (answer MessageKindVerificationResult (zero <| sb_VerificationResult := Some result |>)
            <| hr_VerificationResults := pr_Results result |> <| hr_EmittedWorkflowEvents := events |>)
  end.

(** ** The governance agent *)

(** An evaluation of the approval service, which reads the clock for its
    decision. *)
Definition evaluated {A} (f : time -> outcome error A) : ST error V A :=
  now ← read system_now None; of_outcome (f now).

Definition approval_input (envelope : AgentEnvelope) (payload : GovernanceEvaluationRequestPayload) : ApprovalEvaluationInput :=
  let report := gq_Report payload in {|
  ai_CurrentState := gq_CurrentState payload;
  ai_WorkflowID := pm_CorrelationID (av_Metadata envelope);
  ai_Action := gq_RequestedAction payload;
  ai_Resource := ts_ID (av_Task envelope);
  ai_Actor := gq_Actor payload;
  ai_ActorRoles := gq_ActorRoles payload;
  ai_ForceApproval := gq_ForceApproval payload;
  ai_Recommendations := ReportPayload_Recommendations report;
  ai_RiskFlags := ReportPayload_RiskFlags report;
  ai_ApprovalRequired := ReportPayload_ApprovalRequired report;
  ai_ApprovalReason := ReportPayload_ApprovalReason report;
  ai_PolicyRuleRefs := ReportPayload_PolicyRuleRefs report;
  ai_DisclosureReady := DisclosureReady (ReportPayload_Recommendations report)
|}.

Definition requires_approval (approval : ApprovalEvaluation) : bool :=
  match ae_Decision approval with Some d => pd_Outcome d == PolicyDecisionRequireApproval | None => false end.

Definition GovernanceAgentHandler_Handle (s : ApprovalService) : Handler (V:=V) := fun _ envelope =>
  payload ← payload_of RecipientGovernanceAgent envelope (rb_GovernanceEvaluationRequest (av_Payload envelope))
              "governance evaluation request payload is required";
  approval ← or_failure RecipientGovernanceAgent envelope AgentFailurePolicy "approval evaluation failed"
               (evaluated (fun now => Service_EvaluateAction now s (approval_input envelope payload)));
  disclosure ← or_failure RecipientGovernanceAgent envelope AgentFailurePolicy "report disclosure evaluation failed"
                 (evaluated (fun now => Service_EvaluateReport now s (pm_CorrelationID (av_Metadata envelope)) RecipientReportAgent
                                          (gq_Audience payload) (gq_ContainsPII payload)));
  events ← if requires_approval approval
           then event ← makeWorkflowEvent envelope WorkflowEventApprovalRequired "governance requires human approval"; mret [event]
           else mret [];
  mret (answer MessageKindGovernanceEvaluationResult
          (zero <| sb_GovernanceEvaluationResult := Some (mkGovernanceEvaluationResultPayload approval disclosure
                     (pd_Outcome (re_Decision disclosure) == PolicyDecisionRedact)) |>)
        <| hr_EmittedWorkflowEvents := events |>).
End agents.
