(* ===== verification/GenerationThm.v ===== *)
(** * Which follow-up tasks a life event generates

    The tasks are exactly the proposals of the event that no memory
    suppresses, and their graph is valid exactly when there is one and the
    run is named. *)

From S2P Require Import SystemAgents IntakeThm.
#[local] Open Scope Z_scope.

(** A text with a character that is no space is not blank. *)
Lemma trim_right_inside s c t : is_space c = false -> trim_right (s +:+ String c t) <> "".
Proof.
  intros Hc. induction s as [|a s IH].
  - change ("" +:+ String c t) with (String c t). cbn. rewrite Hc. by destruct (trim_right t).
  - rewrite string_app_cons. cbn. by destruct (trim_right (s +:+ String c t)).
Qed.

Lemma nonblank_inside s c t : is_space c = false -> TrimSpace (s +:+ String c t) <> "".
Proof.
  #[local] Transparent TrimSpace.
  intros Hc. unfold TrimSpace. induction s as [|a s IH].
  - change ("" +:+ String c t) with (String c t). cbn. rewrite Hc. by apply (trim_right_inside "").
  - rewrite string_app_cons. cbn [trim_left]. destruct (is_space a); [exact IH|]. rewrite <- string_app_cons. by apply trim_right_inside.
Qed.

Section generation.
Context (parent : TaskSpec) (workflowID : string) (memories : list MemoryRecord) (dueWindow : TaskDueWindow)
  (reasons : list TaskGenerationReason) (now : time).

Let generate_one := generated_task parent workflowID dueWindow reasons now.

(** The proposals that no memory suppresses. *)
Definition kept (l : list Proposal) : list Proposal := filter (fun p => shouldSuppressGeneratedTask (po_Intent p) memories = false) l.

Lemma task_of_none unique intent : task_of unique intent = None <-> intent ∉ (fun item => ts_UserIntentType (gt_Task item)) <$> unique.
Proof.
  unfold task_of. split.
  - intros H (item & -> & Hin)%list_elem_of_fmap. apply list_elem_of_In in Hin. pose proof (find_none _ _ H _ Hin) as E. cbn in E.
    by apply bool_decide_eq_false in E.
  - intros H. destruct (List.find _ _) as [item|] eqn:E; [|done]. apply find_some in E as [Hin E%bool_decide_eq_true].
    destruct H. apply list_elem_of_fmap. exists item. split; [done|]. by apply list_elem_of_In.
Qed.

Lemma task_of_some unique intent item : task_of unique intent = Some item -> item ∈ unique /\ ts_UserIntentType (gt_Task item) = intent.
Proof. unfold task_of. intros [Hin E%bool_decide_eq_true]%find_some. split; [by apply list_elem_of_In|done]. Qed.

(** A pass over proposals of different intents keeps those not suppressed. *)
Lemma add_all l unique suppressions :
  NoDup (po_Intent <$> l) -> (forall p, p ∈ l -> po_Intent p ∉ (fun item => ts_UserIntentType (gt_Task item)) <$> unique) ->
  (fold_left (add parent workflowID memories dueWindow reasons now) l (unique, suppressions)).1 = unique ++ (generate_one <$> kept l).
Proof.
  revert unique suppressions. induction l as [|p l IH]; intros unique suppressions Hd Hf; [by rewrite app_nil_r|].
  cbn [fmap list_fmap] in Hd. apply NoDup_cons in Hd as [Hp Hd]. cbn [fold_left]. unfold add at 2. unfold kept. rewrite filter_cons.
  destruct (shouldSuppressGeneratedTask (po_Intent p) memories) eqn:Hs.
  - rewrite decide_False by done. apply IH; [done|]. intros q Hq. apply Hf. by right.
  - rewrite decide_True by done. rewrite (proj2 (task_of_none _ _)) by (apply Hf; left). rewrite IH; [|done|].
    + by rewrite <- app_assoc.
    + intros q Hq. rewrite fmap_app, elem_of_app. intros [H|H]; [by apply (Hf q); [right|]|].
      cbn in H. apply list_elem_of_singleton in H.
      apply Hp, list_elem_of_fmap. exists q. by split.
Qed.
End generation.

Lemma proposals_distinct eventKind blockResults : NoDup (po_Intent <$> proposals eventKind blockResults).
Proof. unfold proposals. repeat case_match; apply (bool_decide_unpack _); vm_compute; exact I. Qed.

Lemma proposed_intents eventKind blockResults : forall p, p ∈ proposals eventKind blockResults -> po_Intent p ∈ orderedIntents /\
  TrimSpace (po_Goal p) <> "" /\ validTaskPriority (po_Priority p) = true.
Proof.
  apply Forall_forall. unfold proposals. repeat case_match; repeat apply Forall_cons_2; try apply Forall_nil_2;
    (split; [apply (bool_decide_unpack _); vm_compute; exact I|split; [by apply nonblank|done]]).
Qed.

(** ** The graph *)

Section graph.
Context (parent : TaskSpec) (workflowID lifeEventID eventKind : string) (eventEvidenceIDs : list string) (memories : list MemoryRecord)
  (diff : StateDiff) (blockResults : list BlockResultEnvelope) (triggerEvidence : list EvidenceRecord) (now : time).

Let outcome := generateFollowUpTasks parent workflowID lifeEventID eventKind eventEvidenceIDs memories diff blockResults triggerEvidence now.
Let tasks : list GeneratedTaskSpec := outcome.1.1.
Let dependencies : list TaskDependency := outcome.1.2.
Let graph : TaskGraph := generated_graph workflowID parent eventKind now tasks dependencies outcome.2.

Definition intent_of (item : GeneratedTaskSpec) : UserIntentType := ts_UserIntentType (gt_Task item).

(** An intent the event proposes and no memory suppresses. *)
Definition wanted (intent : UserIntentType) : bool :=
  existsb (fun p => (po_Intent p == intent) && negb (shouldSuppressGeneratedTask intent memories)) (proposals eventKind blockResults).

(** What was generated: each task is made of a kept proposal. *)
Lemma generated_from : exists reasons dueWindow unique,
  unique = generated_task parent workflowID dueWindow reasons now <$> kept memories (proposals eventKind blockResults) /\
  dueWindow = (deriveDueWindow triggerEvidence).2 /\
  tasks = omap (task_of unique) orderedIntents /\ dependencies = generated_dependencies unique.
Proof.
  unfold tasks, dependencies, outcome, generateFollowUpTasks. cbv zeta.
  destruct (deriveDueWindow triggerEvidence) as [ids dueWindow] eqn:Ed. set (reasons := [_]).
  pose proof (add_all parent workflowID memories dueWindow reasons now (proposals eventKind blockResults) [] [] (proposals_distinct _ _)) as H.
  destruct (fold_left _ _ _) as [unique suppressions]. cbn [fst] in H.
  exists reasons, dueWindow, unique. split; [apply H; by intros p _ ?%elem_of_nil|done].
Qed.

Lemma omap_intents (f : UserIntentType -> option GeneratedTaskSpec) (l : list UserIntentType) :
  (forall intent item, f intent = Some item -> intent_of item = intent) ->
  intent_of <$> omap f l = filter (fun intent => is_Some (f intent)) l.
Proof.
  intros H. induction l as [|intent l IH]; [done|]. rewrite filter_cons.
  change (omap f (intent :: l)) with (match f intent with Some item => item :: omap f l | None => omap f l end).
  destruct (f intent) as [item|] eqn:E.
  - rewrite decide_True by done. rewrite fmap_cons, IH. by rewrite (H _ _ E).
  - rewrite decide_False by (by intros [? ?]). exact IH.
Qed.

Lemma task_of_wanted reasons dueWindow intent :
  is_Some (task_of (generated_task parent workflowID dueWindow reasons now <$> kept memories (proposals eventKind blockResults)) intent) <->
  wanted intent = true.
Proof.
  rewrite <- not_eq_None_Some, task_of_none, <- list_fmap_compose. unfold wanted, kept. rewrite existsb_exists.
  assert (E : forall l, intent ∈ (fun item => ts_UserIntentType (gt_Task item)) ∘ generated_task parent workflowID dueWindow reasons now <$>
    filter (fun p => shouldSuppressGeneratedTask (po_Intent p) memories = false) l <->
    exists p, In p l /\ (po_Intent p == intent) && negb (shouldSuppressGeneratedTask intent memories) = true).
  { intros l. rewrite list_elem_of_fmap. split.
    - intros (p & -> & [Hs Hin]%list_elem_of_filter). exists p. split; [by apply list_elem_of_In|]. cbn. rewrite Hs. by rewrite bool_decide_eq_true_2.
    - intros (p & Hin%list_elem_of_In & [<-%bool_decide_eq_true Hs%negb_true_iff]%andb_true_iff). exists p. split; [done|]. by apply list_elem_of_filter. }
  rewrite E. split; [|tauto]. intros H. destruct (existsb (fun p => (po_Intent p == intent) && negb (shouldSuppressGeneratedTask intent memories))
    (proposals eventKind blockResults)) eqn:Ex; [by apply existsb_exists in Ex|]. destruct H. intros (p & Hin & Hp).
  rewrite (proj2 (existsb_exists _ _)) in Ex; [done|]. by exists p.
Qed.

Lemma generated_intents : intent_of <$> tasks = filter (fun intent => wanted intent = true) orderedIntents.
Proof.
  destruct generated_from as (reasons & dueWindow & unique & Hu & _ & -> & _).
  rewrite omap_intents by (intros intent item H; by apply task_of_some in H as [_ H]). apply list_filter_iff.
  intros intent. subst unique. apply task_of_wanted.
Qed.

Lemma task_made item : item ∈ tasks -> exists reasons p, p ∈ proposals eventKind blockResults /\
  item = generated_task parent workflowID (deriveDueWindow triggerEvidence).2 reasons now p.
Proof.
  destruct generated_from as (reasons & dueWindow & unique & Hu & -> & -> & _).
  intros (intent & _ & [Hin _]%task_of_some)%list_elem_of_omap. subst unique.
  apply list_elem_of_fmap in Hin as (p & -> & [_ Hp]%list_elem_of_filter). by exists reasons, p.
Qed.

Definition follow_up_id (intent : UserIntentType) : string :=
  "task-follow-up-" +:+ UserIntentType_string intent +:+ "-" +:+ Format_compact now.

Lemma follow_up_id_inj intent intent' :
  intent ∈ orderedIntents -> intent' ∈ orderedIntents -> follow_up_id intent = follow_up_id intent' -> intent = intent'.
Proof.
  unfold follow_up_id. intros Hi Hi' H. apply (inj (String.append _)) in H. rewrite <- !string_app_assoc in H. apply string_app_inj_r, string_app_inj_r in H.
  unfold orderedIntents in Hi, Hi'. rewrite !elem_of_cons, elem_of_nil in Hi, Hi'.
  destruct Hi as [->|[->|[->|[->|[]]]]], Hi' as [->|[->|[->|[->|[]]]]]; done.
Qed.

Lemma task_id item : item ∈ tasks -> ts_ID (gt_Task item) = follow_up_id (intent_of item) /\ intent_of item ∈ orderedIntents.
Proof. intros (reasons & p & Hp & ->)%task_made. split; [done|]. by apply (proposed_intents _ _ _ Hp). Qed.

Lemma tasks_distinct : NoDup (task_ids graph).
Proof.
  unfold task_ids. change (tg_GeneratedTasks graph) with tasks.
  assert (E : (fun t => ts_ID (gt_Task t)) <$> tasks = follow_up_id <$> (intent_of <$> tasks)).
  { rewrite <- list_fmap_compose. apply list_fmap_ext. intros i item H%list_elem_of_lookup_2. by apply task_id. }
  rewrite E, generated_intents. apply NoDup_fmap_2_strong.
  - intros x y [_ Hx]%list_elem_of_filter [_ Hy]%list_elem_of_filter. by apply follow_up_id_inj.
  - apply NoDup_filter, (bool_decide_unpack _). vm_compute. exact I.
Qed.

(** The parts of a name that must not be blank. *)
Definition named : Prop :=
  TrimSpace workflowID <> "" /\ TrimSpace (ts_ID parent) <> "" /\ now <> zero_time /\
  validApprovalRequirement (ts_ApprovalRequirement parent) = true.

Lemma task_valid item : item ∈ tasks -> named -> GeneratedTaskSpec_ok item.
Proof.
  intros (reasons & p & Hp & ->)%task_made (Hw & Hid & Hnow & Ha). destruct (proposed_intents _ _ _ Hp) as (Hi & Hg & Hpr).
  split; cbn; try done; [|by intros ->|by intros E; rewrite E in Hid].
  unfold orderedIntents in Hi. rewrite !elem_of_cons, elem_of_nil in Hi.
  split; cbn; try done; [by apply nonblank|by destruct Hi as [->|[->|[->|[->|[]]]]]|apply nonblank_criteria; solve_texts|].
  apply nonblank_evidence. destruct Hi as [->|[->|[->|[->|[]]]]]; solve_texts.
Qed.

Lemma dependencies_spec d : d ∈ dependencies -> dependency_ok (task_ids graph) d.
Proof.
  destruct generated_from as (reasons & dueWindow & unique & Hu & Hw & Ht & Hd). rewrite Hd. unfold generated_dependencies.
  destruct (task_of unique UserIntentTaxOptimization) as [tax|] eqn:E1; [|by intros ?%elem_of_nil].
  destruct (task_of unique UserIntentPortfolioRebalance) as [portfolio|] eqn:E2; [|by intros ?%elem_of_nil].
  intros ->%list_elem_of_singleton.
  assert (Hin : tax ∈ tasks /\ portfolio ∈ tasks).
  { rewrite Ht. split; apply list_elem_of_omap; [exists UserIntentTaxOptimization|exists UserIntentPortfolioRebalance];
      (split; [apply (bool_decide_unpack _); vm_compute; exact I|done]). }
  apply task_of_some in E1 as [_ E1], E2 as [_ E2]. destruct Hin as [H1 H2].
  destruct (task_id _ H1) as [I1 _], (task_id _ H2) as [I2 _]. unfold intent_of in I1, I2. rewrite E1 in I1. rewrite E2 in I2.
  split; cbn; rewrite ?I1, ?I2; try (by apply nonblank).
  - intros H%follow_up_id_inj; [done|apply (bool_decide_unpack _); vm_compute; exact I..].
  - rewrite <- I1. apply list_elem_of_fmap. by exists tax.
  - rewrite <- I2. apply list_elem_of_fmap. by exists portfolio.
  - vm_compute. discriminate.
Qed.

Lemma graph_valid : TaskGraph_Validate graph = None <-> tasks <> [] /\ named.
Proof.
  rewrite TaskGraph_Validate_spec. split.
  - intros [_ Hw Hp _ Hnow Hne Ht _ _]. split; [done|]. split_and!; try done.
    assert (exists item, item ∈ tasks) as [item Hin].
    { change (tasks <> []) in Hne. revert Hne. generalize tasks. intros [|item l]; [done|]. exists item. left. }
    destruct (Ht item Hin) as [[[_ _ _ _ Ha _ _ _ _] _ _ _ _ _ _ _] _].
    by destruct (task_made item Hin) as (reasons & p & _ & ->).
  - intros [Hne Hn]. pose proof Hn as (Hw & Hp & Hnow & Ha). split; try done.
    + by apply nonblank_inside.
    + intros item Hin. split; [by apply task_valid|]. by destruct (task_made item Hin) as (reasons & p & _ & ->).
    + exact tasks_distinct.
    + exact dependencies_spec.
Qed.

(** The portfolio review waits for the tax review, if there are both. *)
Lemma dependencies_exact : dependencies =
  if wanted UserIntentTaxOptimization && wanted UserIntentPortfolioRebalance
  then [mkTaskDependency (follow_up_id UserIntentTaxOptimization) (follow_up_id UserIntentPortfolioRebalance)
          "portfolio follow-up should incorporate tax impact analysis first" false]
  else [].
Proof.
  destruct generated_from as (reasons & dueWindow & unique & Hu & _ & _ & Hd). rewrite Hd. unfold generated_dependencies.
  pose proof (task_of_wanted reasons dueWindow UserIntentTaxOptimization) as W1.
  pose proof (task_of_wanted reasons dueWindow UserIntentPortfolioRebalance) as W2. rewrite <- Hu in W1, W2.
  assert (Hid : forall intent item, task_of unique intent = Some item -> ts_ID (gt_Task item) = follow_up_id intent).
  { intros intent item [Hin <-]%task_of_some. rewrite Hu in Hin. by apply list_elem_of_fmap in Hin as (p & -> & _). }
  destruct (task_of unique UserIntentTaxOptimization) as [tax|] eqn:E1; [rewrite (proj1 W1) by done|].
  - destruct (task_of unique UserIntentPortfolioRebalance) as [portfolio|] eqn:E2; [rewrite (proj1 W2) by done|].
    + by rewrite (Hid _ _ E1), (Hid _ _ E2).
    + destruct (wanted UserIntentPortfolioRebalance); [by destruct (proj2 W2 eq_refl)|by rewrite andb_false_r].
  - destruct (wanted UserIntentTaxOptimization); [by destruct (proj2 W1 eq_refl)|done].
Qed.
End graph.

(** ** The contract, without the agent's functions *)

(** What each kind of event asks for: the follow-up, the analysis it takes,
    its priority, and whether it needs an approval. *)
Definition follow_ups : list (string * UserIntentType * (BlockResultEnvelope -> Prop) * TaskPriority * bool) :=
  let tax r := is_Some (be_Tax r) in
  let portfolio r := is_Some (be_Portfolio r) in
  let cashflow r := is_Some (be_Cashflow r) in
  let debt r := is_Some (be_Debt r) in
  [("salary_change", UserIntentTaxOptimization, tax, TaskPriorityHigh, false);
   ("salary_change", UserIntentPortfolioRebalance, portfolio, TaskPriorityMedium, false);
   ("new_child", UserIntentTaxOptimization, tax, TaskPriorityHigh, false);
   ("new_child", UserIntentMonthlyReview, cashflow, TaskPriorityMedium, false);
   ("job_change", UserIntentTaxOptimization, tax, TaskPriorityHigh, false);
   ("job_change", UserIntentPortfolioRebalance, portfolio, TaskPriorityMedium, false);
   ("housing_change", UserIntentDebtVsInvest, debt, TaskPriorityHigh, true);
   ("housing_change", UserIntentPortfolioRebalance, portfolio, TaskPriorityMedium, false)].

Definition asks (eventKind : string) (blockResults : list BlockResultEnvelope) (intent : UserIntentType)
    (priority : TaskPriority) (approval : bool) : Prop :=
  exists analysed, (eventKind, intent, analysed, priority, approval) ∈ follow_ups /\ exists r, r ∈ blockResults /\ analysed r.

(** A memory says that the follow-up is not needed. *)
Definition says (m : MemoryRecord) (words : string) : Prop :=
  exists text, Contains (ToLower text) words = true /\
    (text = mm_Summary m \/ exists fact, fact ∈ mm_Facts m /\ (text = mf_Key fact \/ text = mf_Value fact)).

Definition remembered (memories : list MemoryRecord) (intent : UserIntentType) : Prop :=
  exists m, m ∈ memories /\
    (intent = UserIntentDebtVsInvest /\ says m "latest decision" \/ intent = UserIntentMonthlyReview /\ says m "monthly review").

(** [deadline] is the earliest end of a deadline among the evidence. *)
Definition is_deadline (evidence : list EvidenceRecord) (t : time) : Prop :=
  exists r, r ∈ evidence /\ er_Type r = EvidenceTypeCalendarDeadline /\ et_End (er_TimeRange r) = Some t.

Definition earliest_deadline (evidence : list EvidenceRecord) (deadline : option time) : Prop :=
  match deadline with
  | None => forall t, ~ is_deadline evidence t
  | Some t => is_deadline evidence t /\ forall t', is_deadline evidence t' -> t <= t'
  end.

Lemma earlier_spec l : forall start,
  match fold_left earlier l start with
  | None => start = None /\ l = []
  | Some t => (start = Some t \/ t ∈ l) /\ (forall t', start = Some t' \/ t' ∈ l -> t <= t')
  end.
Proof.
  induction l as [|d l IH]; intros start; cbn [fold_left].
  { destruct start; [|done]. split; [by left|]. intros t' [[= ->]|?%elem_of_nil]; [lia|done]. }
  specialize (IH (earlier start d)).
  assert (Hs : exists m, earlier start d = Some m /\ m <= d /\ (m = d \/ start = Some m) /\ forall e, start = Some e -> m <= e).
  { unfold earlier, Before. destruct start as [e|]; [|exists d; split_and!; try done; try lia; by left].
    destruct (Z.ltb_spec d e); [exists d|exists e]; split_and!; try done; try lia; try (by left); try (by right); intros ? [= <-]; lia. }
  destruct Hs as (m & Hm & H1 & H2 & H3). rewrite Hm in *. destruct (fold_left _ l _) as [t|]; [|by destruct IH].
  destruct IH as [I1 I2]. pose proof (I2 m (or_introl eq_refl)) as Hle. split.
  - rewrite elem_of_cons. destruct I1 as [[= ->]|I1]; [destruct H2; auto|auto].
  - intros t'. rewrite elem_of_cons. intros [Hst|[->|Ht]]; [apply H3 in Hst; lia|lia|apply I2; by right].
Qed.

Lemma due_window_spec evidence :
  dw_NotBefore (deriveDueWindow evidence).2 = None /\ earliest_deadline evidence (dw_NotAfter (deriveDueWindow evidence).2).
Proof.
  split; [done|]. cbn [deriveDueWindow snd dw_NotAfter].
  assert (He : forall t, is_deadline evidence t <-> t ∈ omap (fun record => et_End (er_TimeRange record)) (deadlines evidence)).
  { intros t. rewrite list_elem_of_omap. unfold is_deadline, deadlines. setoid_rewrite list_elem_of_filter. naive_solver. }
  pose proof (earlier_spec (omap (fun record => et_End (er_TimeRange record)) (deadlines evidence)) None) as H.
  unfold earliest_deadline. destruct (fold_left earlier _ None) as [t|].
  - destruct H as [[H1|H1] H2]; [done|]. split; [by apply He|]. intros t' Ht. apply H2. right. by apply He.
  - intros t Ht%He. destruct H as [_ H]. rewrite H in Ht. by apply elem_of_nil in Ht.
Qed.

Lemma remembered_spec intent memories : shouldSuppressGeneratedTask intent memories = true <-> remembered memories intent.
Proof.
  assert (Hsays : forall needle m,
    Contains (ToLower (mm_Summary m)) needle ||
      existsb (fun fact => Contains (ToLower (mf_Key fact)) needle || Contains (ToLower (mf_Value fact)) needle) (mm_Facts m) = true
    <-> says m needle).
  { intros needle m. unfold says. rewrite orb_true_iff, existsb_exists. split.
    - intros [H|(fact & Hf%list_elem_of_In & [H|H]%orb_true_iff)]; eexists; (split; [exact H|]); [by left|right; exists fact; auto..].
    - intros (text & H & [->|(fact & Hf%list_elem_of_In & Ht)]); [by left|]. right. exists fact. split; [done|].
      apply orb_true_iff. destruct Ht as [->| ->]; auto. }
  unfold shouldSuppressGeneratedTask, remembered.
  destruct intent; cbn [suppression_needle]; try (split; [done|by intros (m & _ & [[? _]|[? _]])]);
    cbv zeta beta; rewrite existsb_exists; setoid_rewrite Hsays; setoid_rewrite <- list_elem_of_In; naive_solver.
Qed.

Lemma analysed_spec blockResults (get : BlockResultEnvelope -> bool) (P : BlockResultEnvelope -> Prop) :
  (forall r, get r = true <-> P r) -> existsb get blockResults = true <-> exists r, r ∈ blockResults /\ P r.
Proof. intros H. rewrite existsb_exists. setoid_rewrite <- list_elem_of_In. setoid_rewrite H. done. Qed.

Lemma is_set_Some {A} (x : option A) : is_set x = true <-> is_Some x.
Proof. by destruct x; split. Qed.

Lemma when_elem (b c : bool) (p q r : Proposal) :
  p ∈ (if b then [q] else []) ++ (if c then [r] else []) <-> (b = true /\ p = q) \/ (c = true /\ p = r).
Proof. rewrite elem_of_app. destruct b, c; rewrite ?list_elem_of_singleton, ?elem_of_nil; naive_solver. Qed.

(** What the agent proposes is what the event asks for. *)
Lemma asks_spec eventKind blockResults intent priority approval :
  asks eventKind blockResults intent priority approval <->
  exists p, p ∈ proposals eventKind blockResults /\ po_Intent p = intent /\ po_Priority p = priority /\
    po_RequiresApproval p = approval.
Proof.
  assert (Htax : hasBlockResult blockResults "tax" = true <-> exists r, r ∈ blockResults /\ is_Some (be_Tax r))
    by (apply analysed_spec; intros r; apply is_set_Some).
  assert (Hportfolio : hasBlockResult blockResults "portfolio" = true <-> exists r, r ∈ blockResults /\ is_Some (be_Portfolio r))
    by (apply analysed_spec; intros r; apply is_set_Some).
  assert (Hcashflow : hasBlockResult blockResults "cashflow" = true <-> exists r, r ∈ blockResults /\ is_Some (be_Cashflow r))
    by (apply analysed_spec; intros r; apply is_set_Some).
  assert (Hdebt : hasBlockResult blockResults "debt" = true <-> exists r, r ∈ blockResults /\ is_Some (be_Debt r))
    by (apply analysed_spec; intros r; apply is_set_Some).
  split.
  - intros (analysed & Hin & Hr). unfold follow_ups in Hin. cbv zeta in Hin. rewrite !elem_of_cons, elem_of_nil in Hin.
    unfold proposals. cbv zeta.
    repeat destruct Hin as [Hin|Hin]; try done; injection Hin as -> -> -> -> ->;
      first [apply Htax in Hr|apply Hportfolio in Hr|apply Hcashflow in Hr|apply Hdebt in Hr];
      eexists; (split; [apply when_elem; rewrite Hr; by first [left; split; reflexivity|right; split; reflexivity]|done]).
  - intros (p & Hp & <- & <- & <-). unfold proposals in Hp. cbv zeta in Hp. unfold asks, follow_ups. cbv zeta.
    repeat case_bool_decide; subst; try (by apply elem_of_nil in Hp);
      apply when_elem in Hp as [[Hr ->]|[Hr ->]];
      first [apply Htax in Hr|apply Hportfolio in Hr|apply Hcashflow in Hr|apply Hdebt in Hr];
      (eexists; split; [|exact Hr]; cbn [po_Intent po_Priority po_RequiresApproval]; repeat first [left; reflexivity|right]).
Qed.

Lemma wanted_spec eventKind memories blockResults intent :
  wanted eventKind memories blockResults intent = true <->
  (exists priority approval, asks eventKind blockResults intent priority approval) /\ ~ remembered memories intent.
Proof.
  unfold wanted. rewrite existsb_exists. setoid_rewrite asks_spec. rewrite <- remembered_spec, not_true_iff_false. split.
  - intros (p & Hp%list_elem_of_In & [Hi%bool_decide_eq_true Hs%negb_true_iff]%andb_true_iff). split; [|exact Hs].
    exists (po_Priority p), (po_RequiresApproval p), p. done.
  - intros [(priority & approval & p & Hp & Hi & _) Hs]. exists p. split; [by apply list_elem_of_In|].
    by rewrite bool_decide_eq_true_2, Hs.
Qed.

Lemma known_requirement requirement :
  validApprovalRequirement requirement = true <->
  requirement ∈ [ApprovalRequirementNone; ApprovalRequirementNotify; ApprovalRequirementRecommended; ApprovalRequirementMandatory].
Proof. rewrite !elem_of_cons, elem_of_nil. destruct requirement; naive_solver. Qed.

(** C13: The follow-up tasks of a life event are exactly what the event asks
    for ([follow_ups]) on the strength of an analysis of that domain, unless
    a memory says that there was a decision or a monthly review already.
    There is one task of each kind, in a fixed order; it has the priority and
    the need of approval of the table, belongs to the workflow and the task it
    came from, is one level deep, inherits the approval requirement, and is
    due by the earliest end of a calendar deadline of the evidence, or at any
    time if there is none.  The portfolio review waits for the tax review, if
    there are both, and nothing else waits.  Their graph passes validation
    exactly when there is a task, workflow and parent are named, the time is
    set and the parent's approval requirement is one of the four. *)
Theorem follow_ups_generated_exactly parent workflowID lifeEventID eventKind eventEvidenceIDs memories diff blockResults triggerEvidence now :
  let outcome := generateFollowUpTasks parent workflowID lifeEventID eventKind eventEvidenceIDs memories diff blockResults triggerEvidence now in
  let tasks := outcome.1.1 in
  let intents := intent_of <$> tasks in
  intents `sublist_of` [UserIntentMonthlyReview; UserIntentDebtVsInvest; UserIntentTaxOptimization; UserIntentPortfolioRebalance] /\
  (forall intent, intent ∈ intents <->
     (exists priority approval, asks eventKind blockResults intent priority approval) /\ ~ remembered memories intent) /\
  (forall item, item ∈ tasks ->
     asks eventKind blockResults (intent_of item) (gm_Priority (gt_Metadata item)) (gm_RequiresApproval (gt_Metadata item)) /\
     gm_ParentWorkflowID (gt_Metadata item) = workflowID /\ gm_ParentTaskID (gt_Metadata item) = ts_ID parent /\
     gm_ExecutionDepth (gt_Metadata item) = 1 /\
     dw_NotBefore (gm_DueWindow (gt_Metadata item)) = None /\
     earliest_deadline triggerEvidence (dw_NotAfter (gm_DueWindow (gt_Metadata item))) /\
     ts_ApprovalRequirement (gt_Task item) = ts_ApprovalRequirement parent /\
     ts_ID (gt_Task item) = follow_up_id now (intent_of item)) /\
  outcome.1.2 = (if bool_decide (UserIntentTaxOptimization ∈ intents /\ UserIntentPortfolioRebalance ∈ intents)
    then [mkTaskDependency (follow_up_id now UserIntentTaxOptimization) (follow_up_id now UserIntentPortfolioRebalance)
            "portfolio follow-up should incorporate tax impact analysis first" false] else []) /\
  (TaskGraph_Validate (generated_graph workflowID parent eventKind now tasks outcome.1.2 outcome.2) = None <->
     tasks <> [] /\ TrimSpace workflowID <> "" /\ TrimSpace (ts_ID parent) <> "" /\ now <> zero_time /\
     ts_ApprovalRequirement parent ∈ [ApprovalRequirementNone; ApprovalRequirementNotify; ApprovalRequirementRecommended;
                                      ApprovalRequirementMandatory]).
Proof.
  intros outcome tasks intents. rewrite <- known_requirement.
  assert (Hi : intents = filter (fun intent => wanted eventKind memories blockResults intent = true) orderedIntents)
    by apply generated_intents.
  assert (Hmem : forall intent, intent ∈ intents <-> wanted eventKind memories blockResults intent = true).
  { intros intent. rewrite Hi, list_elem_of_filter. split; [tauto|]. intros Hw. split; [done|].
    apply wanted_spec in Hw as [(priority & approval & Ha) _]. apply asks_spec in Ha as (p & Hp & <- & _).
    by apply (proposed_intents _ _ _ Hp). }
  split_and!.
  - rewrite Hi. apply sublist_filter.
  - intros intent. by rewrite Hmem, wanted_spec.
  - intros item (reasons & p & Hp & ->)%task_made. destruct (due_window_spec triggerEvidence). split_and!; try done.
    apply asks_spec. by exists p.
  - transitivity (if wanted eventKind memories blockResults UserIntentTaxOptimization && wanted eventKind memories blockResults UserIntentPortfolioRebalance
      then [mkTaskDependency (follow_up_id now UserIntentTaxOptimization) (follow_up_id now UserIntentPortfolioRebalance)
            "portfolio follow-up should incorporate tax impact analysis first" false] else []); [apply dependencies_exact|].
    destruct (bool_decide_reflect (UserIntentTaxOptimization ∈ intents /\ UserIntentPortfolioRebalance ∈ intents)) as [[H1 H2]|Hn].
    + apply Hmem in H1, H2. by rewrite H1, H2.
    + rewrite !Hmem in Hn. destruct (wanted _ _ _ UserIntentTaxOptimization), (wanted _ _ _ UserIntentPortfolioRebalance); naive_solver.
  - exact (graph_valid parent workflowID lifeEventID eventKind eventEvidenceIDs memories diff blockResults triggerEvidence now).
Qed.

(** ** A new child: the review of the month was suppressed by a memory *)

Definition child_results : list BlockResultEnvelope := [zero <| be_Tax := Some zero |>; zero <| be_Cashflow := Some zero |>].
Definition child_parent : TaskSpec := zero <| ts_ID := "parent" |> <| ts_ApprovalRequirement := ApprovalRequirementNone |>.
Definition subscription_memory : MemoryRecord :=
  zero <| mm_Summary := "User has recurring subscriptions that should be reviewed during monthly review." |>.
Definition child_tasks (memories : list MemoryRecord) : list UserIntentType :=
  intent_of <$> (generateFollowUpTasks child_parent "wf" "ev" "new_child" [] memories zero child_results [] Second).1.1.

Example child_follow_ups :
  child_tasks [] = [UserIntentMonthlyReview; UserIntentTaxOptimization] /\ child_tasks [subscription_memory] = [UserIntentTaxOptimization].
Proof. vm_compute. done. Qed.

(** Two deadlines: the task is due by the earlier one. *)
Definition deadline_evidence (t : time) : EvidenceRecord :=
  zero <| er_Type := EvidenceTypeCalendarDeadline |> <| er_TimeRange := zero <| et_End := Some t |> |>.

Lemma follow_ups_generated_exactly_witness :
  exists item, item ∈ (generateFollowUpTasks child_parent "wf" "ev" "new_child" [] [subscription_memory] zero child_results
                         [deadline_evidence 30; deadline_evidence 20] Second).1.1 /\
    intent_of item = UserIntentTaxOptimization /\ dw_NotAfter (gm_DueWindow (gt_Metadata item)) = Some 20.
Proof.
  pose proof (follow_ups_generated_exactly child_parent "wf" "ev" "new_child" [] [subscription_memory] zero child_results
    [deadline_evidence 30; deadline_evidence 20] Second) as H.
  cbv zeta in H. destruct H as (_ & Hi & Hall & _).
  assert (Ht : UserIntentTaxOptimization ∈ intent_of <$> (generateFollowUpTasks child_parent "wf" "ev" "new_child" [] [subscription_memory]
    zero child_results [deadline_evidence 30; deadline_evidence 20] Second).1.1).
  { apply Hi. split; [|by intros (m & _ & [[? _]|[? _]])]. exists TaskPriorityHigh, false. eexists. split; [right; right; left|].
    exists (zero <| be_Tax := Some zero |>). split; [left|by eexists]. }
  apply list_elem_of_fmap in Ht as (item & E & Hin). exists item. split; [exact Hin|]. split; [by symmetry|].
  destruct (Hall item Hin) as (_ & _ & _ & _ & _ & Hd & _).
  destruct (dw_NotAfter _) as [t|].
  - destruct Hd as [(r & Hr & _ & He) Hle].
    assert (t <= 20) by (apply Hle; exists (deadline_evidence 20); split; [right; left|done]).
    rewrite !elem_of_cons, elem_of_nil in Hr. destruct Hr as [->|[->|[]]]; injection He as <-; [lia|done].
  - exfalso. apply (Hd 20). exists (deadline_evidence 20). split; [right; left|done].
Defined.
