(* ===== verification/AgentsThm.v ===== *)
(** * Dispatching to agents: what a workflow may rely on

    A successful dispatch was a valid request to a registered agent and brings
    the valid answer of that agent; the trace of a dispatch tells how it
    ended; a step of the bus finds the body it looks for. *)

From Stdlib Require Import Ascii.
From S2P Require Import SystemAgents.
#[local] Open Scope Z_scope.

(** ** Checks do not touch the state *)

Section checks.
Context {W : Type}.

Lemma of_sum_same {A} (r : error + A) : respects eq (of_sum (W:=W) r).
Proof. by destruct r. Qed.

Lemma check_plan_same plan : respects eq (check_plan (W:=W) plan).
Proof. unfold check_plan. destruct (ExecutionPlan_Validate plan); [apply of_sum_same|by intros s]. Qed.

Lemma required_same {A} (payload : option A) message : respects eq (required (W:=W) payload message).
Proof. by destruct payload. Qed.
End checks.
#[export] Hint Resolve of_sum_same check_plan_same required_same : respects.

(** [eq] is a preorder, and a [match] is followed into its cases. *)
Ltac same_walk := repeat first
  [ progress intros
  | solve [auto with respects typeclass_instances]
  | match goal with
    | |- respects _ (mbind _ _) => apply respects_bind; [apply _| |]
    | |- respects _ (for_each _ _) => apply respects_for_each; [apply _|]
    | |- respects _ (if _ then _ else _) => case_match
    | |- respects _ (match ?x with _ => _ end) => destruct x
    end ].

Section envelopes.
Context {W : Type}.

Lemma check_results_same l : respects eq (check_results (W:=W) l).
Proof. unfold check_results, check_envelope. same_walk. Qed.

Lemma check_analysis_same name recipient p : respects eq (check_analysis (W:=W) name recipient p).
Proof. unfold check_analysis, check_if. same_walk. Qed.

Lemma check_verification_stage_same p : respects eq (check_verification_stage (W:=W) p).
Proof. unfold check_verification_stage, check_if, check_error. same_walk. Qed.
#[local] Hint Resolve check_results_same check_analysis_same check_verification_stage_same : respects.

Lemma AgentEnvelope_Validate_same e : respects eq (AgentEnvelope_Validate (W:=W) e).
Proof.
  unfold AgentEnvelope_Validate, AgentRequestBody_ValidateForKind, check_request_payload, check_if, check_error. same_walk.
Qed.

Lemma AgentResponse_Validate_same r : respects eq (AgentResponse_Validate (W:=W) r).
Proof.
  unfold AgentResponse_Validate, AgentResultBody_ValidateForKind, check_result_payload, check_analysis_result, check_if, check_error.
  same_walk.
Qed.
End envelopes.

(** A run that leaves the state alone has the same outcome from any state of
    an attempt that succeeded. *)
Lemma attempt_same_Ok {E S A} (m : ST E S A) s s' r :
  respects eq m -> attempt m s = (s', Ok r) -> s' = s /\ m s = (s, match r with inl e => Err e | inr a => Ok a end).
Proof.
  intros Hm. unfold attempt. pose proof (Hm s) as Hs. destruct (m s) as [t [a|e|w|]]; simpl in Hs; intros [= <- <-]; by subst t.
Qed.

(** ** One dispatch *)

Section dispatch.
Context {V : Type} (system_now : V -> V * time) (d : LocalAgentDispatcher (V:=V)).
Implicit Types (w : AgentWorld (V:=V)) (envelope : AgentEnvelope).

(** The response is the answer of the agent that is registered for it. *)
Definition answered_by (envelope : AgentEnvelope) (response : AgentResponse) : Prop :=
  exists agent handlerCtx v v' result,
    ld_Resolve d (av_Recipient envelope) (av_Kind envelope) = inr agent /\
    ld_Execute d handlerCtx agent envelope v = (v', Ok result) /\
    hr_Kind result = ExpectedResultKind (av_Kind envelope) /\
    an_Kind response = hr_Kind result /\
    an_Body response = hr_Body result /\
    an_ProducedArtifacts response = hr_ProducedArtifacts result /\
    an_VerificationResults response = hr_VerificationResults result.

(** The response belongs to its request. *)
Definition replies_to (envelope : AgentEnvelope) (response : AgentResponse) : Prop :=
  an_Sender response = av_Recipient envelope /\ an_Recipient response = av_Sender envelope /\
  an_Task response = av_Task envelope /\ an_StateRef response = av_StateRef envelope /\
  pm_CorrelationID (an_Metadata response) = pm_CorrelationID (av_Metadata envelope) /\
  pm_CausationID (an_Metadata response) = pm_MessageID (av_Metadata envelope).

Lemma returns_dispatch_failed (Q : AgentDispatchResult -> Prop) dispatchID envelope failure (execErr : error) :
  returns Q (dispatch_failed system_now d dispatchID envelope failure execErr).
Proof. unfold dispatch_failed. returns_walk. Qed.

Lemma successResponse_returns envelope result :
  returns (fun response => replies_to envelope response /\ an_Success response = true /\
             an_Kind response = hr_Kind result /\ an_Body response = hr_Body result /\
             an_ProducedArtifacts response = hr_ProducedArtifacts result /\
             an_VerificationResults response = hr_VerificationResults result)
          (successResponse system_now d envelope result).
Proof. unfold successResponse. apply returns_after. intros now. apply returns_ret. done. Qed.

Lemma dispatch_answered_returns dispatchID envelope result :
  returns (fun r => dr_DispatchID r = dispatchID /\ dr_Request r = envelope /\ hr_Kind result = ExpectedResultKind (av_Kind envelope) /\
             (exists w, AgentResponse_Validate (dr_Response r) w = (w, Ok tt)) /\
             replies_to envelope (dr_Response r) /\ an_Success (dr_Response r) = true /\
             an_Kind (dr_Response r) = hr_Kind result /\ an_Body (dr_Response r) = hr_Body result /\
             an_ProducedArtifacts (dr_Response r) = hr_ProducedArtifacts result /\
             an_VerificationResults (dr_Response r) = hr_VerificationResults result)
          (dispatch_answered system_now d dispatchID envelope result).
Proof.
  unfold dispatch_answered. apply returns_if; intros Hkind; [apply returns_dispatch_failed|].
  eapply returns_bind; [apply successResponse_returns|]. intros response Hresponse w w' r H.
  apply run_bind_inv_Ok in H as (valid & w1 & Hv & H).
  apply attempt_same_Ok in Hv as [-> Hv]; [|apply AgentResponse_Validate_same].
  destruct valid as [err|[]].
  - apply run_bind_inv_Ok in H as (? & ? & _ & H). by apply run_bind_inv_Ok in H as (? & ? & _ & [=]).
  - apply run_bind_inv_Ok in H as (? & ? & _ & H). apply run_bind_inv_Ok in H as (? & ? & _ & [= _ <-]). cbn.
    split_and!; try done; [|by eexists|naive_solver..].
    apply negb_false_iff in Hkind. by apply bool_decide_eq_true in Hkind.
Qed.

Lemma Dispatch_returns envelope :
  returns (fun r => dr_Request r = envelope /\
             (exists w, AgentEnvelope_Validate envelope w = (w, Ok tt)) /\
             (exists w, AgentResponse_Validate (dr_Response r) w = (w, Ok tt)) /\
             answered_by envelope (dr_Response r) /\ replies_to envelope (dr_Response r) /\
             an_Success (dr_Response r) = true /\ an_Kind (dr_Response r) = ExpectedResultKind (av_Kind envelope))
          (Dispatch system_now d envelope).
Proof.
  unfold Dispatch. intros w w' r H.
  apply run_bind_inv_Ok in H as (valid & w1 & Hv & H).
  apply attempt_same_Ok in Hv as [-> Hv]; [|apply AgentEnvelope_Validate_same].
  destruct valid as [err|[]]; [done|]. unfold dispatch_valid in H.
  apply run_bind_inv_Ok in H as (t1 & w2 & _ & H). cbv zeta in H.
  apply run_bind_inv_Ok in H as (t2 & w3 & _ & H). apply run_bind_inv_Ok in H as ([] & w4 & _ & H).
  destruct (ld_Resolve d _ _) as [err|agent] eqn:Hagent.
  { destruct (coerceExecutionError _ _ _ _ _) as [failure execErr].
    apply run_bind_inv_Ok in H as (? & ? & _ & H). by apply run_bind_inv_Ok in H as (? & ? & _ & [=]). }
  apply run_bind_inv_Ok in H as (t3 & w5 & _ & H). apply run_bind_inv_Ok in H as ([] & w6 & _ & H).
  apply run_bind_inv_Ok in H as (result & w7 & Hrun & H).
  destruct result as [err|result].
  { destruct (coerceExecutionError _ _ _ _ _) as [failure execErr]. by apply returns_dispatch_failed with (Q := fun _ => False) in H. }
  apply dispatch_answered_returns in H as (_ & Hreq & Hkind & Hvalid & Hreply & Hok & Hk & Hbody & Hart & Hver).
  split_and!; try done; [by eexists| |congruence].
  unfold attempt, agents_run, zoom in Hrun.
  destruct (ld_Execute d _ agent envelope (aw_Agents w6)) as [v' o] eqn:Hexec. destruct o; simplify_eq.
  eexists agent, _, _, _, _. by split_and!.
Qed.
End dispatch.

(** ** The trace of a dispatch *)

Section trace.
Context {V : Type} (system_now : V -> V * time) (d : LocalAgentDispatcher (V:=V)).
Implicit Types (w : AgentWorld (V:=V)) (envelope : AgentEnvelope) (l : list AgentExecutionRecord).

(** [w] has the logs of [w0] with [l] appended. *)
Definition traced w0 l w : Prop :=
  aw_Trace w = (fun t => t ++ l) <$> aw_Trace w0 /\ aw_Events w = (fun t => t ++ (trace_entry <$> l)) <$> aw_Events w0.

Lemma traced_nil w : traced w [] w.
Proof. unfold traced. destruct (aw_Trace w), (aw_Events w); cbn; by rewrite ?app_nil_r. Qed.

Lemma traced_agents w0 l w v : traced w0 l w -> traced w0 l (w <| aw_Agents := v |>).
Proof. done. Qed.

Lemma run_agents {A} (m : ST error V A) w : exists v, agents_run m w = (w <| aw_Agents := v |>, (m (aw_Agents w)).2).
Proof. unfold agents_run, zoom. destruct (m (aw_Agents w)) as [v o]. by exists v. Qed.

Lemma run_now w : exists v t, dispatcher_now system_now d w = (w <| aw_Agents := v |>, Ok t).
Proof.
  unfold dispatcher_now, read_clock_of, agents_run, zoom, read.
  destruct (default system_now (ld_Now d) (aw_Agents w)) as [v t]. by exists v, t.
Qed.

Lemma traced_append w0 l w record :
  traced w0 l w -> exists w', appendAgentTrace record w = (w', Ok tt) /\ traced w0 (l ++ [record]) w'.
Proof.
  intros [Ht He]. eexists. split; [reflexivity|]. split; cbn; rewrite ?Ht, ?He, <- option_fmap_compose;
    apply option_fmap_ext; intros t; cbn; rewrite ?fmap_app, <- app_assoc; done.
Qed.

(** What a record is about. *)
Definition about (envelope : AgentEnvelope) (dispatchID : string) (lifecycle : AgentLifecycle) (record : AgentExecutionRecord) : Prop :=
  ax_Lifecycle record = lifecycle /\ ax_DispatchID record = dispatchID /\
  ax_RequestMessageID record = pm_MessageID (av_Metadata envelope) /\ ax_Recipient record = av_Recipient envelope /\
  ax_CorrelationID record = pm_CorrelationID (av_Metadata envelope).

(** The records of a dispatch that ends in [o]. *)
Definition tells (envelope : AgentEnvelope) (dispatchID : string) (o : outcome error AgentDispatchResult) l : Prop :=
  match o with
  | Ok r => dr_DispatchID r = dispatchID /\
            exists a b c, l = [a; b; c] /\ about envelope dispatchID AgentLifecycleDispatched a /\
              about envelope dispatchID AgentLifecycleStarted b /\ about envelope dispatchID AgentLifecycleCompleted c /\
              ax_ResultMessageID c = pm_MessageID (an_Metadata (dr_Response r))
  | Err _ => exists a c, about envelope dispatchID AgentLifecycleDispatched a /\ about envelope dispatchID AgentLifecycleFailed c /\
              (l = [a; c] \/ exists b, l = [a; b; c] /\ about envelope dispatchID AgentLifecycleStarted b)
  | Panic _ | OutOfFuel => exists a b, l = [a; b] /\ about envelope dispatchID AgentLifecycleDispatched a /\
              about envelope dispatchID AgentLifecycleStarted b
  end.

Ltac next_now := match goal with
  | |- context [ (dispatcher_now system_now d ≫= _) ?s ] =>
      let v := fresh "v" in let t := fresh "now" in let E := fresh "E" in
      destruct (run_now s) as (v & t & E); rewrite (run_bind_Ok _ _ _ _ _ E); clear E
  end.
Ltac next_record H := match goal with
  | |- context [ (appendAgentTrace ?r ≫= _) ?s ] =>
      let w := fresh "w" in let E := fresh "E" in let H' := fresh "H" in
      destruct (traced_append _ _ s r H) as (w & E & H'); rewrite (run_bind_Ok _ _ _ _ _ E); clear E H; rename H' into H
  end.

Lemma traced_failed w0 l w dispatchID envelope failure execErr :
  traced w0 l w ->
  exists w' c, dispatch_failed system_now d dispatchID envelope failure execErr w = (w', Err execErr) /\
    traced w0 (l ++ [c]) w' /\ about envelope dispatchID AgentLifecycleFailed c.
Proof.
  intros H. unfold dispatch_failed, failedResponse. run_simpl. next_now. run_simpl. next_now. next_record H.
  eexists _, _. split; [reflexivity|]. split; [exact H|done].
Qed.

Lemma traced_answered w0 a b w dispatchID envelope result :
  traced w0 [a; b] w -> about envelope dispatchID AgentLifecycleDispatched a -> about envelope dispatchID AgentLifecycleStarted b ->
  exists w' o l, dispatch_answered system_now d dispatchID envelope result w = (w', o) /\ traced w0 l w' /\ tells envelope dispatchID o l.
Proof.
  intros H Ha Hb. unfold dispatch_answered. case_match.
  { match goal with |- context [dispatch_failed _ _ _ _ ?f ?e] => destruct (traced_failed _ _ _ dispatchID envelope f e H) as (w' & c & -> & Hc & Hf) end.
    eexists _, _, _. split; [reflexivity|]. split; [exact Hc|]. exists a, c. split_and!; try done. right. by exists b. }
  unfold successResponse. run_simpl. next_now. run_simpl.
  match goal with |- context [(attempt (AgentResponse_Validate ?r) ≫= _) ?s] => set (response := r);
    pose proof (AgentResponse_Validate_same (W:=AgentWorld (V:=V)) response s) as Hsame end.
  unfold mbind at 1, ST_bind at 1, attempt at 1.
  match goal with |- context [AgentResponse_Validate response ?s] => destruct (AgentResponse_Validate response s) as [s' o] eqn:Ev end.
  simpl in Hsame. subst s'. destruct o as [[]|err|why|].
  - next_now. next_record H. eexists _, _, _. split; [reflexivity|]. split; [exact H|]. split; [done|]. eexists a, b, _. by split_and!.
  - next_now. next_record H. eexists _, _, _. split; [reflexivity|]. split; [exact H|]. eexists a, _. split_and!; [done| |right; by exists b]. done.
  - eexists _, _, _. split; [reflexivity|]. split; [exact H|]. by exists a, b.
  - eexists _, _, _. split; [reflexivity|]. split; [exact H|]. by exists a, b.
Qed.

Lemma traced_valid w envelope :
  exists w' o l dispatchID, dispatch_valid system_now d envelope w = (w', o) /\ traced w l w' /\ tells envelope dispatchID o l.
Proof.
  pose proof (traced_nil w) as H. unfold dispatch_valid. next_now. cbv zeta. next_now. next_record H.
  set (dispatchID := makeID _). destruct (ld_Resolve d _ _) as [err|agent].
  - destruct (coerceExecutionError _ _ _ _ _) as [failure execErr]. next_now. next_record H.
    eexists _, _, _, dispatchID. split; [reflexivity|]. split; [exact H|]. eexists _, _. split_and!; [| |left; reflexivity]; done.
  - next_now. next_record H.
    match goal with |- context [(attempt (agents_run ?m) ≫= _) ?s] => destruct (run_agents m s) as [agents1 Hrun] end.
    unfold mbind at 1, ST_bind at 1, attempt at 1. rewrite Hrun. clear Hrun.
    match goal with |- context [(?m (aw_Agents ?s)).2] => destruct (m (aw_Agents s)).2 as [result|err|why|] end.
    + edestruct (traced_answered w) as (w' & o & l & -> & Ht & Hl); [eapply traced_agents, H|done|done|].
      by eexists _, _, _, dispatchID.
    + destruct (coerceExecutionError _ _ _ _ _) as [failure execErr].
      edestruct (traced_failed w) as (w' & c & -> & Ht & Hc); [eapply traced_agents, H|].
      eexists _, _, _, dispatchID. split; [reflexivity|]. split; [exact Ht|]. eexists _, c. split_and!; [|done|right; by eexists]. done.
    + eexists _, _, _, dispatchID. split; [reflexivity|]. split; [eapply traced_agents, H|]. by eexists _, _.
    + eexists _, _, _, dispatchID. split; [reflexivity|]. split; [eapply traced_agents, H|]. by eexists _, _.
Qed.
End trace.

(** ** The registry *)

Definition MessageKind_genuine (kind : MessageKind) : bool := match kind with MessageKindOther _ => false | _ => true end.

(** No kind of the protocol is written with a colon. *)
Fixpoint no_colon (s : string) : bool :=
  match s with EmptyString => true | String c s => negb (bool_decide (c = ":"%char)) && no_colon s end.

Lemma genuine_no_colon kind : MessageKind_genuine kind = true -> no_colon (MessageKind_string kind) = true.
Proof. by destruct kind. Qed.

Lemma genuine_kind_inj kind kind' :
  MessageKind_genuine kind = true -> MessageKind_genuine kind' = true ->
  MessageKind_string kind = MessageKind_string kind' -> kind = kind'.
Proof. destruct kind, kind'; done. Qed.

Lemma no_colon_app (s t : string) : no_colon (s +:+ t) = no_colon s && no_colon t.
Proof. induction s as [|c s IH]; [done|]. rewrite string_app_cons. cbn. by rewrite IH, andb_assoc. Qed.

(** The last colon of a key comes right before its kind. *)
Lemma split_last_colon (s s' k k' : string) :
  no_colon k = true -> no_colon k' = true -> s +:+ String ":" k = s' +:+ String ":" k' -> s = s' /\ k = k'.
Proof.
  intros Hk Hk'. revert s'. induction s as [|c s IH]; intros [|c' s']; rewrite ?string_app_cons; try change ("" +:+ ?x) with x.
  - by intros [= ->].
  - intros [= <- ->]. rewrite no_colon_app in Hk. cbn in Hk. by rewrite andb_false_r in Hk.
  - intros [= -> <-]. rewrite no_colon_app in Hk'. cbn in Hk'. by rewrite andb_false_r in Hk'.
  - intros [= -> H]. by destruct (IH s' H) as [-> ->].
Qed.

Lemma registryKey_inj recipient kind recipient' kind' :
  MessageKind_genuine kind = true -> MessageKind_genuine kind' = true ->
  registryKey recipient kind = registryKey recipient' kind' -> recipient = recipient' /\ kind = kind'.
Proof.
  intros Hk Hk'. unfold registryKey.
  change ("::" +:+ ?k) with (String ":" (String ":" k)).
  assert (E : forall s k, s +:+ String ":" (String ":" k) = (s +:+ ":") +:+ String ":" k)
    by (intros s k; by rewrite string_app_assoc).
  rewrite !E. intros H. apply split_last_colon in H as [H H']; [|by apply genuine_no_colon..].
  apply genuine_kind_inj in H' as ->; [|done..].
  destruct (split_last_colon recipient recipient' "" "" eq_refl eq_refl H) as [-> _]. done.
Qed.

Section registry.
Context {V : Type}.
Implicit Types (r : InMemoryAgentRegistry (V:=V)) (agent : RegisteredSystemAgent (V:=V)).

(** Every agent of the registry is under its own key. *)
Definition registry_wf r : Prop :=
  forall key agent, r !! key = Some agent -> key = registryKey (ag_Recipient agent) (ag_RequestKind agent).

(** The registry after registering agents, those it refuses left out. *)
Definition register_all (agents : list RegisteredSystemAgent) : InMemoryAgentRegistry :=
  fold_left (fun r agent => match Agents.Register (Some agent) r with inr r' => r' | inl _ => r end) agents (∅ : InMemoryAgentRegistry (V:=V)).

(** Every agent of the registry is one of [agents], under its own key. *)
Lemma register_all_spec agents key agent :
  register_all agents !! key = Some agent -> agent ∈ agents /\ key = registryKey (ag_Recipient agent) (ag_RequestKind agent).
Proof.
  unfold register_all. set (step := fun _ _ => _).
  assert (H : forall l (r : gmap string (RegisteredSystemAgent (V:=V))),
    (forall key a, r !! key = Some a -> a ∈ agents /\ key = registryKey (ag_Recipient a) (ag_RequestKind a)) -> l ⊆ agents ->
    forall key a, (fold_left step l r : gmap string _) !! key = Some a -> a ∈ agents /\ key = registryKey (ag_Recipient a) (ag_RequestKind a)).
  { induction l as [|x l IH]; intros r Hr Hl; [exact Hr|]. cbn [fold_left]. apply IH; [|set_solver].
    intros k a. unfold step, Agents.Register. match goal with |- context [match ?m with Some _ => inl _ | None => _ end] => destruct m end; [apply Hr|].
    intros [[<- <-]|[_ Ha]]%(lookup_insert_Some (M:=gmap string)); [|by apply Hr]. split; [set_solver|done]. }
  apply H; [|done]. intros k a Ha. by pose proof (eq_trans (eq_sym (lookup_empty (M:=gmap string) k)) Ha).
Qed.

(** What is resolved was registered for exactly this recipient and kind. *)
Lemma Resolve_exact agents recipient kind agent :
  MessageKind_genuine kind = true -> (forall agent, agent ∈ agents -> MessageKind_genuine (ag_RequestKind agent) = true) ->
  Agents.Resolve (register_all agents) recipient kind = inr agent ->
  agent ∈ agents /\ ag_Recipient agent = recipient /\ ag_RequestKind agent = kind.
Proof.
  intros Hk Ha. unfold Agents.Resolve, or_error. destruct (_ !! _) as [a|] eqn:E; [|done]. intros [= ->].
  apply register_all_spec in E as [Hin E]. apply registryKey_inj in E as [-> ->]; auto.
Qed.
End registry.

(** A valid envelope is of a kind of the protocol. *)
Lemma valid_kind {W} envelope (w w' : W) :
  AgentEnvelope_Validate envelope w = (w', Ok tt) -> MessageKind_genuine (av_Kind envelope) = true.
Proof.
  unfold AgentEnvelope_Validate. intros H. repeat (apply run_bind_inv_Ok in H as (? & ? & ? & H)).
  destruct (IsRequest (av_Kind envelope)) eqn:E; [|done]. by destruct (av_Kind envelope).
Qed.

(** ** Claims about a dispatch *)

(** C11: Every dispatch of a bus that has agents registered keeps the contract
    of the protocol.  An invalid envelope is refused before anything runs or
    is logged.  A dispatch that succeeds was of a valid request; it was
    answered by an agent registered for exactly its recipient and kind; the
    response is valid, of the kind the request expects, and belongs to the
    request: sender and recipient swapped, same task and state, same
    correlation, caused by the request's message. *)
Theorem dispatch_contract {V} (system_now : V -> V * time) (agents : list (RegisteredSystemAgent (V:=V))) Executor Now envelope w :
  (forall agent, agent ∈ agents -> MessageKind_genuine (ag_RequestKind agent) = true) ->
  let d := NewLocalAgentDispatcher (Some (register_all agents)) Executor Now in
  (forall reason, (AgentEnvelope_Validate envelope w).2 = Err reason ->
     Dispatch system_now d envelope w =
     (w, Err (execution_error (av_Recipient envelope) (av_Kind envelope) AgentFailureBadPayload "invalid agent envelope" (Some reason)))) /\
  (forall w' r, Dispatch system_now d envelope w = (w', Ok r) ->
     dr_Request r = envelope /\
     (exists w, AgentEnvelope_Validate (W:=AgentWorld (V:=V)) envelope w = (w, Ok tt)) /\
     (exists agent handlerCtx v v' result, agent ∈ agents /\
        ag_Recipient agent = av_Recipient envelope /\ ag_RequestKind agent = av_Kind envelope /\
        ld_Execute d handlerCtx agent envelope v = (v', Ok result) /\ an_Body (dr_Response r) = hr_Body result) /\
     (exists w, AgentResponse_Validate (W:=AgentWorld (V:=V)) (dr_Response r) w = (w, Ok tt)) /\
     an_Kind (dr_Response r) = ExpectedResultKind (av_Kind envelope) /\ replies_to envelope (dr_Response r)).
Proof.
  intros Hagents d. split.
  - intros reason H. unfold Dispatch, mbind, ST_bind, attempt.
    pose proof (AgentEnvelope_Validate_same envelope w) as Hw. destruct (AgentEnvelope_Validate envelope w) as [w' o]. cbn in Hw, H.
    by subst.
  - intros w' r H. apply Dispatch_returns in H as (Hreq & [w1 Hvalid] & Hresponse & Hans & Hreply & _ & Hkind).
    destruct Hans as (agent & ctx & v & v' & result & Hres & Hexec & _ & _ & Hbody & _).
    apply Resolve_exact in Hres as (Hin & Hrec & Hk); [|by eapply valid_kind|done].
    split_and!; try done; [by eexists|]. by eexists agent, _, _, _, result.
Qed.

(** C12: The trace of a dispatch tells how it ended.  Whatever the dispatcher,
    the envelope and the agent: an envelope that is refused leaves no record;
    otherwise the records appended are of this dispatch, first dispatched,
    then started once the agent was resolved, then failed or completed;
    completed exactly when the dispatch returns a result, under the id of its
    response; and the event log gains the same entries. *)
Theorem dispatch_trace_complete {V} (system_now : V -> V * time) (d : LocalAgentDispatcher (V:=V)) envelope w :
  match Dispatch system_now d envelope w, (AgentEnvelope_Validate envelope w).2 with
  | (w', o), Ok _ => exists l dispatchID, traced w l w' /\ tells envelope dispatchID o l
  | (w', _), _ => w' = w
  end.
Proof.
  unfold Dispatch. pose proof (AgentEnvelope_Validate_same envelope w) as Hw. unfold mbind, ST_bind, attempt.
  destruct (AgentEnvelope_Validate envelope w) as [w' o]. cbn in Hw. subst w'. destruct o as [[]|e|why|]; cbn; [|done..].
  destruct (traced_valid system_now d w envelope) as (w' & o & l & dispatchID & -> & Ht & Hl). by exists l, dispatchID.
Qed.

(** ** Steps of the bus *)

Section steps.
Context {V : Type} (system_now : V -> V * time) (d : LocalAgentDispatcher (V:=V)).

(** A kind whose result has a field that [pick] reads. *)
Definition picks {A} (kind : MessageKind) (pick : AgentResultBody -> option A) : Prop :=
  forall b, existsb (fun f => f.1 && (f.2 == ExpectedResultKind kind)) (result_fields b) = true -> is_Some (pick b).

Lemma valid_body {W} (response : AgentResponse) (w w' : W) :
  AgentResponse_Validate response w = (w', Ok tt) -> an_Success response = true ->
  existsb (fun f => f.1 && (f.2 == an_Kind response)) (result_fields (an_Body response)) = true.
Proof.
  unfold AgentResponse_Validate. intros H Hs. rewrite Hs in H. do 6 (apply run_bind_inv_Ok in H as (? & ? & _ & H)).
  apply run_bind_inv_Ok in H as (? & ? & H & _). unfold check_fields in H. cbv zeta in H.
  match type of H with of_sum (mbind _ ?m) _ = _ => destruct m as [e|[]]; [done|] end. revert H. unfold refuse.
  destruct (existsb _ (result_fields _)) eqn:E; [done|]. done.
Qed.

(** A dispatch that succeeds has the body its step looks for. *)
Lemma step_complete {A} now meta recipient kind body (pick : AgentResultBody -> option A) what w w1 w2 envelope r :
  picks kind pick ->
  let b := mkLocalSystemStepBus (Dispatch system_now d) now in
  newEnvelope system_now b meta recipient kind body w = (w1, Ok envelope) ->
  Dispatch system_now d envelope w1 = (w2, Ok r) ->
  exists result, pick (an_Body (dr_Response r)) = Some result /\
    step system_now b meta recipient kind body pick what w = (w2, Ok (stepMetadata r, result)).
Proof.
  intros Hpick b Hnew H. pose proof H as Hd. apply Dispatch_returns in Hd as (_ & _ & [w3 Hvalid] & _ & _ & Hs & Hkind).
  apply valid_body in Hvalid; [|done]. rewrite Hkind in Hvalid.
  assert (Hk : av_Kind envelope = kind).
  { unfold newEnvelope in Hnew. by apply run_bind_inv_Ok in Hnew as (? & ? & _ & [= _ <-]). }
  rewrite Hk in Hvalid. destruct (Hpick _ Hvalid) as [result Hr]. exists result. split; [done|].
  unfold step. rewrite (run_bind_Ok _ _ _ _ _ Hnew), (run_bind_Ok _ _ _ _ _ H), Hr. done.
Qed.
End steps.

Ltac solve_picks := intros b (f & Hin & [Hset Hk%bool_decide_eq_true]%andb_true_iff)%existsb_exists;
  cbn in Hin; repeat destruct Hin as [<-|Hin]; try discriminate Hk; [|done];
  cbn in Hset; unfold is_set in Hset; case_match; [by eexists|done].

Lemma all_picks :
  picks MessageKindPlanRequest sb_PlanResult /\ picks MessageKindMemorySyncRequest sb_MemorySyncResult /\
  picks MessageKindReportDraftRequest sb_ReportDraftResult /\ picks MessageKindVerificationRequest sb_VerificationResult /\
  picks MessageKindGovernanceEvaluationRequest sb_GovernanceEvaluationResult /\
  picks MessageKindReportFinalizeRequest sb_ReportFinalizeResult /\ picks MessageKindCashflowAnalysisRequest sb_CashflowAnalysisResult /\
  picks MessageKindDebtAnalysisRequest sb_DebtAnalysisResult /\ picks MessageKindTaxAnalysisRequest sb_TaxAnalysisResult /\
  picks MessageKindPortfolioAnalysisRequest sb_PortfolioAnalysisResult /\
  picks MessageKindBehaviorAnalysisRequest sb_BehaviorAnalysisResult /\ picks MessageKindTaskGenerationRequest sb_TaskGenerationResult.
Proof. split_and!; solve_picks. Qed.

(** ** A dispatch to the planner *)

Definition ticking (n : nat) : nat * time := (S n, Z.of_nat (S n) * Second).

Definition sample_planner : RegisteredSystemAgent (V:=nat) :=
  agent RecipientPlannerAgent MessageKindPlanRequest
    (fun _ _ => mret (answer MessageKindPlanResult (zero <| sb_PlanResult := Some zero |>))).

Definition sample_task : TaskSpec :=
  zero <| ts_ID := "task" |> <| ts_Goal := "goal" |> <| ts_RiskLevel := RiskLevelLow |>
       <| ts_SuccessCriteria := [{| su_ID := "c"; su_Description := "d" |}] |>
       <| ts_ApprovalRequirement := ApprovalRequirementNone |> <| ts_UserIntentType := UserIntentMonthlyReview |>.

Definition sample_envelope : AgentEnvelope := {|
  av_Metadata := mkProtocolMetadata "msg" "wf" "wf" Second;
  av_Sender := "monthly_review_workflow";
  av_Recipient := RecipientPlannerAgent;
  av_Task := sample_task;
  av_StateRef := mkStateReference "user" "snapshot" 1;
  av_RequiredEvidence := [];
  av_Deadline := None;
  av_RiskLevel := RiskLevelLow;
  av_Kind := MessageKindPlanRequest;
  av_Payload := zero <| rb_PlanRequest := Some (mkPlanRequestPayload zero [] [zero] ContextViewPlanning) |> |}.

Definition sample_dispatcher : LocalAgentDispatcher (V:=nat) :=
  NewLocalAgentDispatcher (Some (register_all [sample_planner])) None None.

Definition sample_dispatched : AgentWorld * outcome error AgentDispatchResult :=
  Dispatch ticking sample_dispatcher sample_envelope (mkAgentWorld (Some []) None 0%nat).

Lemma dispatch_contract_witness :
  exists r, sample_dispatched.2 = Ok r /\ dr_Request r = sample_envelope /\ an_Kind (dr_Response r) = MessageKindPlanResult.
Proof.
  destruct (dispatch_contract ticking [sample_planner] None None sample_envelope (mkAgentWorld (Some []) None 0%nat)) as [_ H].
  { intros a ->%list_elem_of_singleton. reflexivity. }
  destruct sample_dispatched as [w' [r|e|why|]] eqn:E; [|by vm_compute in E..].
  destruct (H _ _ E) as (Hreq & _ & _ & _ & Hkind & _). exists r. split_and!; [reflexivity|exact Hreq|exact Hkind].
Defined.

Definition lifecycles (w : AgentWorld (V:=nat)) : list AgentLifecycle := from_option (fun l => ax_Lifecycle <$> l) [] (aw_Trace w).

Example sample_trace :
  lifecycles sample_dispatched.1 = [AgentLifecycleDispatched; AgentLifecycleStarted; AgentLifecycleCompleted].
Proof. vm_compute. reflexivity. Qed.

(** Without an agent the dispatch fails before it is started. *)
Example sample_unregistered :
  lifecycles (Dispatch ticking (NewLocalAgentDispatcher None None None) sample_envelope (mkAgentWorld (Some []) None 0%nat)).1 =
  [AgentLifecycleDispatched; AgentLifecycleFailed].
Proof. vm_compute. reflexivity. Qed.
