(* ===== verification/WorkQueue.v ===== *)
(** * The durable work queue ([internal/runtime/work_queue_store.go])

    [Module Queue] is [InMemoryWorkQueueStore]: work items, leases and fencing
    tokens.  [Attempts], [Workers] and [Wakeups] are the three smaller stores
    of the same file.  Every Go method takes the store's mutex for its whole
    body, so each is one atomic operation on the map.

    The theorems are about all sequences of operations ([Queue.step]): the
    well-formedness invariant, the life of a fence (live from its claim until
    it is completed, failed, requeued or reclaimed, dead for ever after), and
    what [ClaimReady] and [ReclaimExpired] do. *)

From S2P Require Export RuntimeTypes.

(** ** [InMemoryWorkAttemptStore] *)

Module Attempts.
Abbreviation store := (gmap string ExecutionAttempt).

Definition NewInMemoryWorkAttemptStore : store := ∅.

Definition SaveAttempt (attempt : ExecutionAttempt) : ST error store unit :=
  modify (fun attempts : store => <[ea_AttemptID attempt := attempt]> attempts).

Definition UpdateAttempt (attempt : ExecutionAttempt) : ST error store unit :=
  attempts ← get;
  match (attempts : store) !! ea_AttemptID attempt with
  | None => fail (NotFoundError "execution_attempt" (ea_AttemptID attempt))
  | Some _ => put (<[ea_AttemptID attempt := attempt]> attempts)
  end.

Definition ListAttempts `{MO : MapOrder} (workItemID : string) : ST error store (list ExecutionAttempt) :=
  gets (fun attempts : store =>
    slices_SortFunc (compare_time_id ea_StartedAt ea_AttemptID)
      (filter (fun attempt => ea_WorkItemID attempt = workItemID) (map_values attempts))).
End Attempts.

(** ** [InMemoryWorkerRegistryStore] *)

Module Workers.
Abbreviation store := (gmap string WorkerRegistration).

Definition NewInMemoryWorkerRegistryStore : store := ∅.

Definition Register (worker : WorkerRegistration) : ST error store unit :=
  if wr_WorkerID worker == "" then fail (PlainError "worker id is required")
  else modify (fun workers : store => <[wr_WorkerID worker := worker]> workers).

Definition Heartbeat (workerID : string) (now : time) : ST error store unit :=
  workers ← get;
  match (workers : store) !! workerID with
  | None => fail (NotFoundError "worker" workerID)
  | Some worker => put (<[workerID := worker <| wr_LastHeartbeat := now |>]> workers)
  end.

Definition Load (workerID : string) : ST error store (option WorkerRegistration) :=
  gets (fun workers : store => workers !! workerID).

Definition List `{MO : MapOrder} : ST error store (list WorkerRegistration) :=
  gets (fun workers : store => slices_SortFunc (compare_id wr_WorkerID) (map_values workers)).
End Workers.

(** ** [inMemorySchedulerStore] *)

Module Wakeups.
Abbreviation store := (gmap string SchedulerWakeup).

Definition NewInMemorySchedulerStore : store := ∅.

Definition SaveWakeup (wakeup : SchedulerWakeup) : ST error store unit :=
  modify (fun wakeups : store => <[sw_ID wakeup := wakeup]> wakeups).

Definition ListDueWakeups `{MO : MapOrder} (now : time) : ST error store (list SchedulerWakeup) :=
  gets (fun wakeups : store =>
    slices_SortFunc (compare_time_id sw_AvailableAt sw_ID)
      (filter (fun wakeup => After (sw_AvailableAt wakeup) now = false) (map_values wakeups))).

Definition MarkWakeupDispatched (id : string) (_ : time) : ST error store unit :=
  modify (fun wakeups : store => delete id wakeups).
End Wakeups.

(** ** [InMemoryWorkQueueStore] *)

Module Queue.

(** ** Operations *)

Abbreviation store := (gmap string WorkItem).
Abbreviation Q := (ST error store).

Definition NewInMemoryWorkQueueStore : store := ∅.

(** Not completed, failed or abandoned. *)
Definition active (item : WorkItem) : bool :=
  (wi_Status item != WorkItemStatusCompleted) && (wi_Status item != WorkItemStatusFailed)
  && (wi_Status item != WorkItemStatusAbandoned).

Definition duplicates (item existing : WorkItem) : bool :=
  (wi_DedupeKey item != "") && (wi_DedupeKey existing == wi_DedupeKey item) && active existing.

Definition validateFenceAgainstItem (item : WorkItem) (fence : FenceValidation) : option error :=
  let conflict why := Some (ConflictError "work_item" (fv_WorkItemID fence) why) in
  if wi_ID item != fv_WorkItemID fence then conflict "work item mismatch"
  else if wi_Status item != WorkItemStatusClaimed then conflict "work item is not actively leased"
  else if wi_LeaseID item != fv_LeaseID fence then conflict "lease ownership lost"
  else if wi_FencingToken item != fv_FencingToken fence then conflict "fencing token mismatch"
  else if wi_ClaimedByWorkerID item != fv_WorkerID fence then conflict "worker ownership mismatch"
  else None.

(** [item, ok := s.items[id]; if !ok { NotFound }; if err := validateFence...] *)
Definition with_fence {A} (fence : FenceValidation) (k : WorkItem -> Q A) : Q A :=
  items ← get;
  match items !! fv_WorkItemID fence with
  | None => fail (NotFoundError "work_item" (fv_WorkItemID fence))
  | Some item =>
      match validateFenceAgainstItem item fence with
      | Some e => fail e
      | None => k item
      end
  end.

Definition store_item (id : string) (item : WorkItem) : Q unit :=
  modify (fun items : store => <[id := item]> items).

Section ops.
Context `{MO : MapOrder}.

(** The item [Enqueue] writes, given the one its ID has now. *)
Definition enqueue_item (item : WorkItem) (current : option WorkItem) : WorkItem :=
  let item := if wi_Status item == WorkItemStatusOther ""
              then item <| wi_Status := WorkItemStatusQueued |> else item in
  let item := item <| wi_LastUpdatedAt := wi_AvailableAt item |> in
  match current with
  | Some current => item <| wi_FencingToken := wi_FencingToken current |>
  | None => item
  end.

Definition Enqueue (item : WorkItem) : Q WorkEnqueueResult :=
  if wi_ID item == "" then fail (PlainError "work item id is required") else
  items ← get;
  match list_find (fun existing => duplicates item existing = true) (map_values items) with
  | Some (_, existing) =>
      mret (zero <| wq_Kind := wi_Kind item |>
                 <| wq_Disposition := WorkEnqueueDispositionDuplicateSuppressed |>
                 <| wq_DedupeKey := wi_DedupeKey item |>
                 <| wq_ExistingWorkItemID := wi_ID existing |>)
  | None =>
      let item := enqueue_item item (items !! wi_ID item) in
      store_item (wi_ID item) item;;
      mret (zero <| wq_WorkItemID := wi_ID item |>
                 <| wq_Kind := wi_Kind item |>
                 <| wq_Disposition := WorkEnqueueDispositionEnqueued |>
                 <| wq_DedupeKey := wi_DedupeKey item |>)
  end.

(** The items [ClaimReady] may take. *)
Definition is_ready (now : time) (item : WorkItem) : bool :=
  (wi_Status item == WorkItemStatusQueued) && negb (After (wi_AvailableAt item) now).

Definition compare_items : WorkItem -> WorkItem -> Z := compare_time_id wi_AvailableAt wi_ID.

Definition ready_items (now : time) (items : store) : list WorkItem :=
  slices_SortFunc compare_items (filter (fun item => is_ready now item = true) (map_values items)).

(** The item [ClaimReady] writes back. *)
Definition claim_item (workerID : string) (now : time) (leaseTTL : Duration) (item : WorkItem) : WorkItem :=
  let item := item <| wi_Status := WorkItemStatusClaimed |>
                   <| wi_ClaimedByWorkerID := workerID |>
                   <| wi_FencingToken := wrap64 (wi_FencingToken item + 1) |> in
  item <| wi_LeaseID := makeID [PStr "lease"; PStr (wi_ID item); PInt (wi_FencingToken item);
                                PStr workerID; PTime now] |>
       <| wi_ClaimToken := makeID [PStr "claim"; PStr (wi_ID item); PInt (wi_FencingToken item); PTime now] |>
       <| wi_AttemptCount := wrap64 (wi_AttemptCount item + 1) |>
       <| wi_ClaimedAt := Some now |>
       <| wi_LeaseExpiresAt := Some (Add now leaseTTL) |>
       <| wi_LastUpdatedAt := now |>.

Definition claim_of (workerID : string) (now : time) (leaseTTL : Duration) (item : WorkItem) : WorkClaim :=
  {| wc_WorkItem := item;
     wc_WorkerID := workerID;
     wc_LeaseID := wi_LeaseID item;
     wc_ClaimToken := wi_ClaimToken item;
     wc_FencingToken := wi_FencingToken item;
     wc_ClaimedAt := now;
     wc_LeaseExpiresAt := Add now leaseTTL |}.

Definition ClaimReady (workerID : string) (limit : Z) (now : time) (leaseTTL : Duration) : Q (list WorkClaim) :=
  let limit := if (limit <=? 0)%Z then 1%Z else limit in
  items ← get;
  let ready := ready_items now items in
  let ready := if (limit <? Z.of_nat (length ready))%Z then take (Z.to_nat limit) ready else ready in
  for_fold (fun claims item =>
    let item := claim_item workerID now leaseTTL item in
    store_item (wi_ID item) item;;
    mret (claims ++ [claim_of workerID now leaseTTL item])) [] ready.

Definition fence_of_heartbeat (h : LeaseHeartbeat) : FenceValidation :=
  {| fv_WorkItemID := lh_WorkItemID h; fv_LeaseID := lh_LeaseID h;
     fv_FencingToken := lh_FencingToken h; fv_WorkerID := lh_WorkerID h |}.

Definition heartbeat_item (heartbeat : LeaseHeartbeat) (item : WorkItem) : WorkItem :=
  item <| wi_LastUpdatedAt := lh_RecordedAt heartbeat |>
       <| wi_LeaseExpiresAt := Some (lh_LeaseExpiresAt heartbeat) |>.

Definition Heartbeat (heartbeat : LeaseHeartbeat) : Q unit :=
  with_fence (fence_of_heartbeat heartbeat) (fun item =>
    store_item (wi_ID item) (heartbeat_item heartbeat item)).

(** The five assignments that give a lease up. *)
Definition release (item : WorkItem) : WorkItem :=
  item <| wi_LeaseID := "" |> <| wi_ClaimToken := "" |> <| wi_ClaimedByWorkerID := "" |>
       <| wi_LeaseExpiresAt := None |> <| wi_ClaimedAt := None |>.

Definition finish_item (status : WorkItemStatus) (summary : string) (now : time) (item : WorkItem) : WorkItem :=
  let item := release (item <| wi_Status := status |> <| wi_Reason := summary |>
                            <| wi_LastUpdatedAt := now |>) in
  let item := if status == WorkItemStatusCompleted then item <| wi_CompletedAt := Some now |> else item in
  if status == WorkItemStatusFailed then item <| wi_FailedAt := Some now |> else item.

Definition finish (fence : FenceValidation) (status : WorkItemStatus) (summary : string) (now : time) : Q unit :=
  with_fence fence (fun item => store_item (wi_ID item) (finish_item status summary now item)).

Definition Complete (fence : FenceValidation) (now : time) : Q unit :=
  finish fence WorkItemStatusCompleted "" now.

Definition Fail (fence : FenceValidation) (summary : string) (now : time) : Q unit :=
  finish fence WorkItemStatusFailed summary now.

Definition requeue_item (nextAvailableAt : time) (reason : string) (now : time) (item : WorkItem) : WorkItem :=
  release (item <| wi_Status := WorkItemStatusQueued |> <| wi_Reason := reason |>
                <| wi_AvailableAt := nextAvailableAt |> <| wi_LastUpdatedAt := now |>).

Definition Requeue (fence : FenceValidation) (nextAvailableAt : time) (reason : string) (now : time) : Q unit :=
  with_fence fence (fun item => store_item (wi_ID item) (requeue_item nextAvailableAt reason now item)).

(** Claimed, with a lease that has run out. *)
Definition expired (now : time) (item : WorkItem) : bool :=
  (wi_Status item == WorkItemStatusClaimed) &&
  match wi_LeaseExpiresAt item with Some expires => negb (After expires now) | None => false end.

Definition reclaim_item (now : time) (item : WorkItem) : WorkItem :=
  release (item <| wi_Status := WorkItemStatusQueued |> <| wi_Reason := "reclaimed after lease expiry" |>)
    <| wi_LastUpdatedAt := now |>.

Definition reclaim_result (now : time) (item : WorkItem) : LeaseReclaimResult :=
  {| lr_WorkItemID := wi_ID item;
     lr_LeaseID := wi_LeaseID item;
     lr_WorkerID := wi_ClaimedByWorkerID item;
     lr_FencingToken := wi_FencingToken item;
     lr_Reason := "lease_expired";
     lr_ReclaimedAt := now |}.

Definition ReclaimExpired (now : time) : Q (list LeaseReclaimResult) :=
  items ← get;
  for_fold (fun result (entry : string * WorkItem) =>
    let '(id, item) := entry in
    if negb (expired now item) then mret result else
    store_item id (reclaim_item now item);;
    mret (result ++ [reclaim_result now item])) [] (map_range items).

Definition Load (workItemID : string) : Q (option WorkItem) :=
  gets (fun items : store => items !! workItemID).

Definition ListByGraph (graphID : string) : Q (list WorkItem) :=
  gets (fun items : store =>
    slices_SortFunc compare_items (filter (fun item => wi_GraphID item = graphID) (map_values items))).

Definition ValidateFence (fence : FenceValidation) : Q unit := with_fence fence (fun _ => mret tt).

End ops.

(** ** The queue as a transition system

    [op] is a call of one of the methods that write; a [step] is one call, in
    any order and by any number of workers.  Every caller of [Enqueue] in the
    runtime builds a fresh item: queued, unleased and with token 0. *)

Definition unleased (item : WorkItem) : Prop :=
  wi_LeaseID item = "" /\ wi_ClaimToken item = "" /\ wi_ClaimedByWorkerID item = "" /\
  wi_ClaimedAt item = None /\ wi_LeaseExpiresAt item = None.

Definition fresh_item (item : WorkItem) : Prop :=
  wi_Status item = WorkItemStatusQueued /\ unleased item /\ wi_FencingToken item = 0%Z.

Inductive op :=
| OpEnqueue (item : WorkItem)
| OpClaimReady (workerID : string) (limit : Z) (now : time) (leaseTTL : Duration)
| OpHeartbeat (heartbeat : LeaseHeartbeat)
| OpComplete (fence : FenceValidation) (now : time)
| OpFail (fence : FenceValidation) (summary : string) (now : time)
| OpRequeue (fence : FenceValidation) (nextAvailableAt : time) (reason : string) (now : time)
| OpReclaimExpired (now : time).

Definition legal (o : op) : Prop :=
  match o with OpEnqueue item => fresh_item item | _ => True end.

Definition run_op `{MO : MapOrder} (o : op) (s : store) : store :=
  match o with
  | OpEnqueue item => (Enqueue item s).1
  | OpClaimReady w l n t => (ClaimReady w l n t s).1
  | OpHeartbeat h => (Heartbeat h s).1
  | OpComplete f n => (Complete f n s).1
  | OpFail f m n => (Fail f m n s).1
  | OpRequeue f a r n => (Requeue f a r n s).1
  | OpReclaimExpired n => (ReclaimExpired n s).1
  end.

Inductive step `{MO : MapOrder} (s : store) : store -> Prop :=
| step_op o : legal o -> step s (run_op o s).

(** *** What a call does to the item of one ID *)

Inductive item_update : option WorkItem -> option WorkItem -> Prop :=
| item_same o : item_update o o
| item_claim i w now ttl :
    is_ready now i = true -> item_update (Some i) (Some (claim_item w now ttl i))
| item_heartbeat i h :
    validateFenceAgainstItem i (fence_of_heartbeat h) = None ->
    item_update (Some i) (Some (heartbeat_item h i))
| item_finish i f st summary now :
    validateFenceAgainstItem i f = None ->
    st = WorkItemStatusCompleted \/ st = WorkItemStatusFailed ->
    item_update (Some i) (Some (finish_item st summary now i))
| item_requeue i f next reason now :
    validateFenceAgainstItem i f = None ->
    item_update (Some i) (Some (requeue_item next reason now i))
| item_reclaim i now :
    expired now i = true -> item_update (Some i) (Some (reclaim_item now i)).

Inductive item_step (id : string) (o : option WorkItem) : option WorkItem -> Prop :=
| item_updated o' : item_update o o' -> item_step id o o'
| item_enqueue item :
    fresh_item item -> wi_ID item = id -> id <> "" -> item_step id o (Some (enqueue_item item o)).

(** *** Well-formedness *)

(** A claimed item has a lease; any other has none.  Finished items carry
    their time stamp; no operation abandons an item. *)
Definition item_ok (item : WorkItem) : Prop :=
  in_int64 (wi_FencingToken item) /\
  match wi_Status item with
  | WorkItemStatusQueued => unleased item
  | WorkItemStatusClaimed => is_Some (wi_ClaimedAt item) /\ is_Some (wi_LeaseExpiresAt item)
  | WorkItemStatusCompleted => unleased item /\ is_Some (wi_CompletedAt item)
  | WorkItemStatusFailed => unleased item /\ is_Some (wi_FailedAt item)
  | _ => False
  end.

Record wf (s : store) : Prop := {
  wf_key : forall id item, s !! id = Some item -> wi_ID item = id /\ id <> "";
  wf_item : forall id item, s !! id = Some item -> item_ok item;
  wf_dedupe : forall i j a b, s !! i = Some a -> s !! j = Some b ->
    active a = true -> active b = true ->
    wi_DedupeKey a <> "" -> wi_DedupeKey a = wi_DedupeKey b -> i = j
}.

(** A fence is live when the queue accepts it, and dead when no later state
    can: its token is behind, or current but given up. *)
Definition live (s : store) (fence : FenceValidation) : Prop :=
  exists item, s !! fv_WorkItemID fence = Some item /\ validateFenceAgainstItem item fence = None.

Definition dead (s : store) (fence : FenceValidation) : Prop :=
  exists item, s !! fv_WorkItemID fence = Some item /\
    (fv_FencingToken fence < wi_FencingToken item \/
     fv_FencingToken fence = wi_FencingToken item /\ wi_Status item <> WorkItemStatusClaimed)%Z.

(** Every token of the queue is below [2^63 - n]: [n] more claims fit. *)
Definition token_room (n : nat) (s : store) : Prop :=
  (Z.of_nat n < two63)%Z /\
  forall id item, s !! id = Some item -> (wi_FencingToken item + Z.of_nat n < two63)%Z.

End Queue.
