(* ===== verification/WorkQueueThm.v ===== *)
(** * Properties of the work queue: safety, and that no work is lost *)

From S2P Require Export WorkQueue.
#[local] Open Scope Z_scope.

(** * Theorems on the work queue

    Every method changes each item by one of the transitions of
    [Queue.item_step] ([run_op_item_step]); well-formedness, the life of
    fences and the specifications of [ClaimReady] and [ReclaimExpired] follow
    from that. *)

Import Queue.

(** ** Fences *)

Lemma validate_spec i f :
  validateFenceAgainstItem i f = None <->
  wi_ID i = fv_WorkItemID f /\ wi_Status i = WorkItemStatusClaimed /\ wi_LeaseID i = fv_LeaseID f /\
  wi_FencingToken i = fv_FencingToken f /\ wi_ClaimedByWorkerID i = fv_WorkerID f.
Proof.
  unfold validateFenceAgainstItem. split.
  - repeat case_bool_decide; naive_solver.
  - intros (H1 & H2 & H3 & H4 & H5). by rewrite !bool_decide_eq_true_2 by done.
Qed.

Lemma validate_conflict i f e : validateFenceAgainstItem i f = Some e -> IsConflict e = true.
Proof. unfold validateFenceAgainstItem. repeat case_bool_decide; naive_solver. Qed.

(** ** The methods that present a fence *)

Lemma with_fence_live {A} s f (k : WorkItem -> Q A) i :
  s !! fv_WorkItemID f = Some i -> validateFenceAgainstItem i f = None -> with_fence f k s = k i s.
Proof. intros H1 H2. unfold with_fence. run_simpl. by rewrite H1, H2. Qed.

Lemma with_fence_rejects {A} s f (k : WorkItem -> Q A) :
  ~ live s f -> exists e, with_fence f k s = (s, Err e) /\
    (e = NotFoundError "work_item" (fv_WorkItemID f) \/ IsConflict e = true).
Proof.
  intros Hl. unfold with_fence. run_simpl. destruct (s !! fv_WorkItemID f) as [i|] eqn:E; [|by eauto].
  destruct (validateFenceAgainstItem i f) as [e|] eqn:Ev.
  - exists e. split; [done|]. right. by eapply validate_conflict.
  - destruct Hl. by exists i.
Qed.

Lemma live_dec s f : live s f \/ ~ live s f.
Proof.
  unfold live. destruct (s !! fv_WorkItemID f) as [i|] eqn:E.
  - destruct (validateFenceAgainstItem i f) eqn:Ev; [right; naive_solver|left; eauto].
  - right. naive_solver.
Qed.

(** ** Each method, item by item *)

Section item_steps.
Context `{MO : MapOrder}.

Lemma enqueue_item_ID item o : wi_ID (enqueue_item item o) = wi_ID item.
Proof. unfold enqueue_item. by destruct o; destruct (bool_decide _). Qed.

Lemma insert_item_update (s : store) id i id' :
  item_update (s !! id) (Some i) -> item_update (s !! id') (<[id := i]> s !! id').
Proof.
  intros H. destruct (decide (id = id')) as [<-|Hne].
  - by rewrite lookup_insert_eq.
  - rewrite lookup_insert_ne by done. constructor.
Qed.

Lemma with_fence_item_update s f (g : WorkItem -> WorkItem) id :
  (forall i, wi_ID i = fv_WorkItemID f -> validateFenceAgainstItem i f = None ->
     item_update (Some i) (Some (g i))) ->
  item_update (s !! id) ((with_fence f (fun i => store_item (wi_ID i) (g i)) s).1 !! id).
Proof.
  intros Hg. destruct (live_dec s f) as [(i & Hi & Hv)|Hl].
  - rewrite (with_fence_live s f _ i Hi Hv). cbn. pose proof (proj1 (validate_spec i f) Hv) as (Hid & _).
    apply insert_item_update. rewrite Hid, Hi. by apply Hg.
  - destruct (with_fence_rejects s f (fun i => store_item (wi_ID i) (g i)) Hl) as (e & -> & _).
    constructor.
Qed.

Lemma Enqueue_cases item s :
  wi_ID item <> "" ->
  (exists i existing, s !! i = Some existing /\ duplicates item existing = true /\
     (Enqueue item s).1 = s /\
     (Enqueue item s).2 = Ok (zero <| wq_Kind := wi_Kind item |>
                 <| wq_Disposition := WorkEnqueueDispositionDuplicateSuppressed |>
                 <| wq_DedupeKey := wi_DedupeKey item |>
                 <| wq_ExistingWorkItemID := wi_ID existing |>)) \/
  ((forall i existing, s !! i = Some existing -> duplicates item existing = false) /\
   (Enqueue item s).1 = <[wi_ID item := enqueue_item item (s !! wi_ID item)]> s /\
   exists r, (Enqueue item s).2 = Ok r /\ wq_Disposition r = WorkEnqueueDispositionEnqueued).
Proof.
  intros Hid. unfold Enqueue. rewrite bool_decide_eq_false_2 by done. run_simpl.
  destruct (list_find (fun existing => duplicates item existing = true) (map_values s)) as [[n existing]|] eqn:E.
  - left. apply list_find_Some in E as (Hn & Hd & _).
    apply list_elem_of_lookup_2, elem_of_map_values in Hn as [i Hi]. by exists i, existing.
  - right. rewrite list_find_None in E. rewrite Forall_forall in E. split_and!.
    + intros i existing Hi. apply not_true_is_false, E, elem_of_map_values. eauto.
    + cbn. by rewrite enqueue_item_ID.
    + eexists. split; [done|]. done.
Qed.

Lemma Enqueue_item_step item s id :
  fresh_item item -> item_step id (s !! id) ((Enqueue item s).1 !! id).
Proof.
  intros Hf. destruct (decide (wi_ID item = "")) as [E|Hid].
  { unfold Enqueue. rewrite E. apply item_updated, item_same. }
  destruct (Enqueue_cases item s Hid) as [(i & x & _ & _ & -> & _)|(_ & -> & _)];
    [apply item_updated, item_same|].
  destruct (decide (wi_ID item = id)) as [<-|Hne].
  - rewrite lookup_insert_eq. by apply item_enqueue.
  - rewrite lookup_insert_ne by done. apply item_updated, item_same.
Qed.

Lemma Heartbeat_item_update h s id : item_update (s !! id) ((Heartbeat h s).1 !! id).
Proof. apply (with_fence_item_update s _ (heartbeat_item h)). intros. by apply item_heartbeat. Qed.

Lemma finish_item_update f st summary now s id :
  st = WorkItemStatusCompleted \/ st = WorkItemStatusFailed ->
  item_update (s !! id) ((finish f st summary now s).1 !! id).
Proof.
  intros Hst. apply with_fence_item_update. intros i Hi Hv.
  by eapply item_finish.
Qed.

Lemma Requeue_item_update f next reason now s id :
  item_update (s !! id) ((Requeue f next reason now s).1 !! id).
Proof. apply (with_fence_item_update s _ (requeue_item next reason now)). intros. by eapply item_requeue. Qed.

(** [ReclaimExpired], entry by entry. *)
Definition reclaim_loop now (result : list LeaseReclaimResult) (entry : string * WorkItem) : Q (list LeaseReclaimResult) :=
  let '(id, item) := entry in
  if negb (expired now item) then mret result else
  store_item id (reclaim_item now item);;
  mret (result ++ [reclaim_result now item]).

Lemma reclaim_loop_spec now acc l s :
  NoDup l.*1 -> (forall id i, (id, i) ∈ l -> s !! id = Some i) ->
  let r := for_fold (reclaim_loop now) acc l s in
  r.2 = Ok (acc ++ (reclaim_result now <$> filter (fun i => expired now i = true) l.*2)) /\
  forall id, r.1 !! id =
    match s !! id with
    | Some i => Some (if bool_decide (id ∈ l.*1) && expired now i then reclaim_item now i else i)
    | None => None
    end.
Proof.
  revert acc s. induction l as [|[id i] l IH]; intros acc s Hnd Hl r; subst r.
  { cbn. rewrite app_nil_r. split; [done|]. intros id. by destruct (s !! id). }
  apply NoDup_cons in Hnd as [Hid Hnd].
  assert (Hi : s !! id = Some i) by (apply Hl; left).
  assert (Hstep : for_fold (reclaim_loop now) acc ((id, i) :: l) s =
    if expired now i then for_fold (reclaim_loop now) (acc ++ [reclaim_result now i]) l (<[id:=reclaim_item now i]> s)
    else for_fold (reclaim_loop now) acc l s).
  { rewrite run_for_fold_cons. unfold mbind, ST_bind. cbn. by destruct (expired now i). }
  rewrite Hstep. cbn [fmap list_fmap]. destruct (expired now i) eqn:E.
  - destruct (IH (acc ++ [reclaim_result now i]) (<[id:=reclaim_item now i]> s) Hnd) as [-> H2].
    { intros id' i' Hi'. rewrite lookup_insert_ne; [apply Hl; by right|].
      intros <-. apply Hid, list_elem_of_fmap. by exists (id, i'). }
    rewrite filter_cons_True by done. split; [by rewrite <- app_assoc|].
    intros id'. rewrite H2. destruct (decide (id = id')) as [<-|Hne].
    + rewrite lookup_insert_eq, Hi. rewrite (bool_decide_eq_false_2 _ Hid).
      rewrite bool_decide_eq_true_2 by left. by rewrite E.
    + rewrite lookup_insert_ne by done. destruct (s !! id'); [|done].
      rewrite (bool_decide_ext (id' ∈ id :: l.*1) (id' ∈ l.*1)); [done|].
      rewrite elem_of_cons. naive_solver.
  - destruct (IH acc s Hnd) as [-> H2]; [intros; apply Hl; by right|].
    cbn [snd]. rewrite (filter_cons_False (fun j => expired now j = true)) by (by rewrite E). split; [done|].
    intros id'. rewrite H2. destruct (decide (id = id')) as [<-|Hne].
    + rewrite Hi, E. by rewrite !andb_false_r.
    + destruct (s !! id'); [|done].
      rewrite (bool_decide_ext (id' ∈ id :: l.*1) (id' ∈ l.*1)); [done|].
      rewrite elem_of_cons. naive_solver.
Qed.

(** What [ReclaimExpired] returns and leaves behind. *)
Lemma ReclaimExpired_run now s :
  (exists rs, (ReclaimExpired now s).2 = Ok rs /\
     rs = reclaim_result now <$> filter (fun i => expired now i = true) (map_values s)) /\
  forall id, (ReclaimExpired now s).1 !! id =
    match s !! id with
    | Some i => Some (if expired now i then reclaim_item now i else i)
    | None => None
    end.
Proof.
  unfold ReclaimExpired. run_simpl.
  destruct (reclaim_loop_spec now [] (map_range s) s) as [H1 H2].
  { apply NoDup_map_range_keys. }
  { intros id i. by rewrite elem_of_map_range. }
  split; [by eexists|]. intros id. etrans; [apply H2|]. destruct (s !! id) as [i|] eqn:E; [|done].
  rewrite bool_decide_eq_true_2; [done|]. apply list_elem_of_fmap. exists (id, i).
  split; [done|]. by apply elem_of_map_range.
Qed.

Lemma ReclaimExpired_item_update now s id : item_update (s !! id) ((ReclaimExpired now s).1 !! id).
Proof.
  destruct (ReclaimExpired_run now s) as [_ ->]. destruct (s !! id) as [i|]; [|apply item_same].
  destruct (expired now i) eqn:E; [by apply item_reclaim|apply item_same].
Qed.

(** [ClaimReady], item by item. *)

Definition keyed (s : store) : Prop :=
  forall id i, s !! id = Some i -> wi_ID i = id /\ id <> "".

Lemma keyed_values_NoDup s : keyed s -> NoDup (wi_ID <$> map_values s).
Proof.
  intros Hk. unfold map_values. rewrite <- list_fmap_compose.
  replace ((wi_ID ∘ snd) <$> map_range s) with ((map_range s).*1); [apply NoDup_map_range_keys|].
  apply list_fmap_ext. intros n [id i] Hn%list_elem_of_lookup_2. cbn.
  apply elem_of_map_range in Hn. symmetry. by apply Hk.
Qed.

Lemma keyed_elem s i : keyed s -> i ∈ map_values s <-> s !! wi_ID i = Some i.
Proof.
  intros Hk. rewrite elem_of_map_values. split; [|by eauto].
  intros [id Hi]. by destruct (Hk _ _ Hi) as [-> _].
Qed.

Lemma elem_of_ready s now i :
  keyed s -> i ∈ ready_items now s <-> s !! wi_ID i = Some i /\ is_ready now i = true.
Proof.
  intros Hk. unfold ready_items. rewrite elem_of_SortFunc, list_elem_of_filter, keyed_elem by done. tauto.
Qed.

Lemma ready_NoDup s now : keyed s -> NoDup (wi_ID <$> ready_items now s).
Proof.
  intros Hk. unfold ready_items. rewrite SortFunc_perm. by apply NoDup_fmap_filter, keyed_values_NoDup.
Qed.

Lemma ready_take_NoDup s now n : keyed s -> NoDup (wi_ID <$> take n (ready_items now s)).
Proof.
  intros Hk. rewrite fmap_take. eapply sublist_NoDup; [by apply ready_NoDup|apply sublist_take].
Qed.

Definition effective_limit (limit : Z) : nat := Z.to_nat (if (limit <=? 0)%Z then 1%Z else limit).

Lemma take_limit {A} (limit : Z) (l : list A) :
  (if (limit <? Z.of_nat (length l))%Z then take (Z.to_nat limit) l else l) = take (Z.to_nat limit) l.
Proof. destruct (Z.ltb_spec limit (Z.of_nat (length l))); [done|]. rewrite take_ge; [done|lia]. Qed.

Lemma claim_loop_run workerID now leaseTTL acc l s :
  for_fold (fun claims item =>
    let item := claim_item workerID now leaseTTL item in
    store_item (wi_ID item) item;;
    mret (claims ++ [claim_of workerID now leaseTTL item])) acc l s =
  (foldl (fun s i => <[wi_ID i := claim_item workerID now leaseTTL i]> s) s l,
   Ok (acc ++ ((fun i => claim_of workerID now leaseTTL (claim_item workerID now leaseTTL i)) <$> l))).
Proof.
  revert acc s. induction l as [|i l IH]; intros acc s.
  { cbn. by rewrite app_nil_r. }
  rewrite run_for_fold_cons. cbv zeta. unfold store_item. run_simpl. rewrite IH.
  cbn [foldl fmap list_fmap]. by rewrite <- app_assoc.
Qed.

Lemma foldl_insert_lookup {A} (g : WorkItem -> A) l (s : gmap string A) id :
  NoDup (wi_ID <$> l) ->
  foldl (fun s i => <[wi_ID i := g i]> s) s l !! id =
  match list_find (fun i => wi_ID i = id) l with
  | Some (_, i) => Some (g i)
  | None => s !! id
  end.
Proof.
  revert s. induction l as [|i l IH]; intros s Hnd; cbn; [done|].
  apply NoDup_cons in Hnd as [Hi Hnd]. rewrite IH by done.
  destruct (decide (wi_ID i = id)) as [<-|Hne].
  - destruct (list_find (fun j => wi_ID j = wi_ID i) l) as [[n j]|] eqn:E.
    + apply list_find_Some in E as (Hj & Heq & _). destruct Hi. rewrite <- Heq.
      apply list_elem_of_fmap. exists j. split; [done|]. by apply list_elem_of_lookup_2 with n.
    + by rewrite lookup_insert_eq.
  - rewrite lookup_insert_ne by done.
    destruct (list_find (fun j => wi_ID j = id) l) as [[n j]|]; done.
Qed.

(** What [ClaimReady] returns and leaves behind: the first [limit] ready
    items, in order, are claimed; nothing else changes. *)
Lemma ClaimReady_run workerID limit now leaseTTL s :
  keyed s ->
  let claimed := take (effective_limit limit) (ready_items now s) in
  (ClaimReady workerID limit now leaseTTL s).2 =
    Ok ((fun i => claim_of workerID now leaseTTL (claim_item workerID now leaseTTL i)) <$> claimed) /\
  forall id, (ClaimReady workerID limit now leaseTTL s).1 !! id =
    match s !! id with
    | Some i => Some (if bool_decide (i ∈ claimed) then claim_item workerID now leaseTTL i else i)
    | None => None
    end.
Proof.
  intros Hk claimed. unfold ClaimReady. run_simpl. rewrite take_limit. fold (effective_limit limit).
  fold claimed. rewrite claim_loop_run. cbn [fst snd app]. split; [done|]. intros id.
  rewrite foldl_insert_lookup by by apply ready_take_NoDup.
  assert (Hin : forall i, i ∈ claimed -> s !! wi_ID i = Some i).
  { intros i Hi. apply (elem_of_ready s now); [done|].
    eapply elem_of_sublist; [exact Hi|apply sublist_take]. }
  destruct (list_find (fun i => wi_ID i = id) claimed) as [[n i]|] eqn:E.
  - apply list_find_Some in E as (Hn%list_elem_of_lookup_2 & <- & _).
    rewrite (Hin i Hn). by rewrite bool_decide_eq_true_2.
  - rewrite list_find_None, Forall_forall in E. destruct (s !! id) as [i|] eqn:Ei; [|done].
    rewrite bool_decide_eq_false_2; [done|]. intros Hi. apply (E i Hi). by apply Hk.
Qed.

Lemma ClaimReady_item_update workerID limit now leaseTTL s id :
  keyed s -> item_update (s !! id) ((ClaimReady workerID limit now leaseTTL s).1 !! id).
Proof.
  intros Hk. destruct (ClaimReady_run workerID limit now leaseTTL s Hk) as [_ ->].
  destruct (s !! id) as [i|] eqn:E; [|apply item_same].
  case_bool_decide as Hi; [|apply item_same]. apply item_claim.
  apply (elem_of_ready s now i Hk). eapply elem_of_sublist; [exact Hi|apply sublist_take].
Qed.

(** Every call but [Enqueue] is an update of each item. *)
Lemma run_op_item_update o s id :
  keyed s -> (forall item, o <> OpEnqueue item) -> item_update (s !! id) (run_op o s !! id).
Proof.
  intros Hk Ho. destruct o; cbn [run_op].
  - by destruct (Ho item).
  - by apply ClaimReady_item_update.
  - apply Heartbeat_item_update.
  - apply finish_item_update. by left.
  - apply finish_item_update. by right.
  - apply Requeue_item_update.
  - apply ReclaimExpired_item_update.
Qed.

Lemma run_op_item_step o s id :
  keyed s -> legal o -> item_step id (s !! id) (run_op o s !! id).
Proof.
  intros Hk Hl. destruct o as [item|w l n t|h|f n|f m n|f a r n|n]; [by apply Enqueue_item_step|..];
  by apply item_updated, run_op_item_update.
Qed.
End item_steps.

(** ** Consequences of one transition *)

Create Rewrite HintDb item.

Ltac by_fields := intros; unfold enqueue_item, claim_item, heartbeat_item, finish_item, requeue_item,
  reclaim_item, release; repeat case_match; reflexivity.

Section fields.
Context (i : WorkItem) (o : option WorkItem).

Lemma enqueue_item_Dedupe : wi_DedupeKey (enqueue_item i o) = wi_DedupeKey i.
Proof. by_fields. Qed.
Lemma enqueue_item_Token :
  wi_FencingToken (enqueue_item i o) = match o with Some c => wi_FencingToken c | None => wi_FencingToken i end.
Proof. by_fields. Qed.

Lemma claim_item_ID w n t : wi_ID (claim_item w n t i) = wi_ID i.
Proof. by_fields. Qed.
Lemma claim_item_Dedupe w n t : wi_DedupeKey (claim_item w n t i) = wi_DedupeKey i.
Proof. by_fields. Qed.
Lemma claim_item_Status w n t : wi_Status (claim_item w n t i) = WorkItemStatusClaimed.
Proof. by_fields. Qed.
Lemma claim_item_Token w n t : wi_FencingToken (claim_item w n t i) = wrap64 (wi_FencingToken i + 1).
Proof. by_fields. Qed.
Lemma claim_item_Worker w n t : wi_ClaimedByWorkerID (claim_item w n t i) = w.
Proof. by_fields. Qed.

Lemma heartbeat_item_ID h : wi_ID (heartbeat_item h i) = wi_ID i.
Proof. by_fields. Qed.
Lemma heartbeat_item_Dedupe h : wi_DedupeKey (heartbeat_item h i) = wi_DedupeKey i.
Proof. by_fields. Qed.
Lemma heartbeat_item_Status h : wi_Status (heartbeat_item h i) = wi_Status i.
Proof. by_fields. Qed.
Lemma heartbeat_item_Token h : wi_FencingToken (heartbeat_item h i) = wi_FencingToken i.
Proof. by_fields. Qed.

Lemma finish_item_ID st m n : wi_ID (finish_item st m n i) = wi_ID i.
Proof. by_fields. Qed.
Lemma finish_item_Dedupe st m n : wi_DedupeKey (finish_item st m n i) = wi_DedupeKey i.
Proof. by_fields. Qed.
Lemma finish_item_Status st m n : wi_Status (finish_item st m n i) = st.
Proof. by_fields. Qed.
Lemma finish_item_Token st m n : wi_FencingToken (finish_item st m n i) = wi_FencingToken i.
Proof. by_fields. Qed.

Lemma requeue_item_ID a r n : wi_ID (requeue_item a r n i) = wi_ID i.
Proof. by_fields. Qed.
Lemma requeue_item_Dedupe a r n : wi_DedupeKey (requeue_item a r n i) = wi_DedupeKey i.
Proof. by_fields. Qed.
Lemma requeue_item_Status a r n : wi_Status (requeue_item a r n i) = WorkItemStatusQueued.
Proof. by_fields. Qed.
Lemma requeue_item_Token a r n : wi_FencingToken (requeue_item a r n i) = wi_FencingToken i.
Proof. by_fields. Qed.

Lemma reclaim_item_ID n : wi_ID (reclaim_item n i) = wi_ID i.
Proof. by_fields. Qed.
Lemma reclaim_item_Dedupe n : wi_DedupeKey (reclaim_item n i) = wi_DedupeKey i.
Proof. by_fields. Qed.
Lemma reclaim_item_Status n : wi_Status (reclaim_item n i) = WorkItemStatusQueued.
Proof. by_fields. Qed.
Lemma reclaim_item_Token n : wi_FencingToken (reclaim_item n i) = wi_FencingToken i.
Proof. by_fields. Qed.
End fields.

Lemma enqueue_item_Status i o :
  wi_Status i = WorkItemStatusQueued -> wi_Status (enqueue_item i o) = WorkItemStatusQueued.
Proof. intros H. unfold enqueue_item. rewrite H. by destruct o. Qed.

#[export] Hint Rewrite enqueue_item_ID enqueue_item_Dedupe enqueue_item_Token
  claim_item_ID claim_item_Dedupe claim_item_Status claim_item_Token claim_item_Worker
  heartbeat_item_ID heartbeat_item_Dedupe heartbeat_item_Status heartbeat_item_Token
  finish_item_ID finish_item_Dedupe finish_item_Status finish_item_Token
  requeue_item_ID requeue_item_Dedupe requeue_item_Status requeue_item_Token
  reclaim_item_ID reclaim_item_Dedupe reclaim_item_Status reclaim_item_Token : item.

Ltac item_update_cases H :=
  inversion H as [|j w n t Hr|j h Hv|j f st m n Hv Hst|j f a r n Hv|j n He]; subst.

Lemma item_step_ID id o i :
  item_step id o (Some i) -> (forall j, o = Some j -> wi_ID j = id) -> wi_ID i = id.
Proof.
  intros Hs Ho. inversion Hs as [o' H|item Hf Hid Hne]; subst; [|by autorewrite with item].
  item_update_cases H; autorewrite with item; auto.
Qed.

(** Items are never removed, and only [ClaimReady] moves the token, by one. *)
Lemma item_step_token id i o' :
  item_step id (Some i) o' ->
  exists i', o' = Some i' /\
    (wi_FencingToken i' = wi_FencingToken i \/
     wi_FencingToken i' = wrap64 (wi_FencingToken i + 1) /\ wi_Status i = WorkItemStatusQueued).
Proof.
  intros Hs. inversion Hs as [o1 H|item Hf Hid Hne]; subst;
    [|eexists; split; [done|by left; autorewrite with item]].
  item_update_cases H; eexists; (split; [done|]); autorewrite with item; auto.
  right. split; [done|]. unfold is_ready in Hr. by case_bool_decide.
Qed.

Lemma item_step_ok id o i :
  item_step id o (Some i) -> (forall j, o = Some j -> item_ok j) -> item_ok i.
Proof.
  intros Hstep Ho. inversion Hstep as [o' H|item (Hq & Hu & Ht) Hid Hne]; subst; [item_update_cases H|].
  - by apply Ho.
  - split; [autorewrite with item; apply wrap64_range|]. by split.
  - destruct (Ho j eq_refl) as [Ht Hs]. apply validate_spec in Hv as (_ & Hc & _). rewrite Hc in Hs.
    split; [by autorewrite with item|]. autorewrite with item. rewrite Hc.
    split; [apply Hs|by eexists].
  - destruct (Ho j eq_refl) as [Ht _]. split; [by autorewrite with item|].
    rewrite finish_item_Status. destruct Hst as [->| ->]; split; try (split_and!; reflexivity); by eexists.
  - destruct (Ho j eq_refl) as [Ht _]. split; [by autorewrite with item|]. split_and!; reflexivity.
  - destruct (Ho j eq_refl) as [Ht _]. split; [by autorewrite with item|]. split_and!; reflexivity.
  - split.
    + autorewrite with item. destruct o as [c|]; [by apply (Ho c)|]. rewrite Ht. by vm_compute.
    + rewrite (enqueue_item_Status _ _ Hq). unfold enqueue_item, unleased in *. rewrite Hq. by destruct o.
Qed.

Lemma item_step_new id o i : item_step id o (Some i) -> o = None -> wi_FencingToken i = 0%Z.
Proof.
  intros Hstep Ho. inversion Hstep as [o' Hu|item (_ & _ & Ht) _ _]; subst; [inversion Hu|].
  by unfold enqueue_item; destruct (bool_decide _).
Qed.

Lemma item_step_status id o i i' :
  item_step id o (Some i') -> o = Some i -> wi_Status i <> WorkItemStatusClaimed ->
  wi_FencingToken i' = wi_FencingToken i -> in_int64 (wi_FencingToken i) ->
  wi_Status i' <> WorkItemStatusClaimed.
Proof.
  intros Hstep Ho Hc Ht Hin. inversion Hstep as [o' H|item (Hq & _) _ _]; subst.
  - item_update_cases H; autorewrite with item in *; try done.
    + by destruct (wrap64_succ_neq (wi_FencingToken i)).
    + by destruct Hst as [->| ->].
  - by rewrite (enqueue_item_Status _ _ Hq).
Qed.

(** An update never makes an item active, nor changes its dedupe key. *)
Lemma item_update_active o i :
  item_update o (Some i) -> active i = true ->
  exists j, o = Some j /\ active j = true /\ wi_DedupeKey j = wi_DedupeKey i.
Proof.
  intros H Ha. item_update_cases H; eexists; (split; [done|]); autorewrite with item.
  - done.
  - split; [|done]. unfold is_ready in Hr. unfold active. case_bool_decide as Hq; [|done]. by rewrite Hq.
  - split; [|done]. unfold active in *. by autorewrite with item in Ha.
  - unfold active in Ha. autorewrite with item in Ha. by destruct Hst as [->| ->].
  - split; [|done]. apply validate_spec in Hv as (_ & Hc & _). unfold active. by rewrite Hc.
  - split; [|done]. unfold expired in He. unfold active. case_bool_decide as Hc; [|done]. by rewrite Hc.
Qed.

(** ** The invariant *)

Section invariant.
Context `{MO : MapOrder}.

Lemma item_update_dedupe (s s' : store) :
  wf s -> (forall id, item_update (s !! id) (s' !! id)) ->
  forall i j a b, s' !! i = Some a -> s' !! j = Some b -> active a = true -> active b = true ->
    wi_DedupeKey a <> "" -> wi_DedupeKey a = wi_DedupeKey b -> i = j.
Proof.
  intros Hw Hs i j a b Ha Hb Aa Ab Hn He.
  pose proof (Hs i) as Hi. rewrite Ha in Hi. apply item_update_active in Hi as (a' & Ha' & Aa' & Ea); [|done].
  pose proof (Hs j) as Hj. rewrite Hb in Hj. apply item_update_active in Hj as (b' & Hb' & Ab' & Eb); [|done].
  eapply (wf_dedupe s Hw i j a' b'); congruence.
Qed.

Lemma Enqueue_dedupe s item :
  wf s -> fresh_item item ->
  forall i j a b, (Enqueue item s).1 !! i = Some a -> (Enqueue item s).1 !! j = Some b ->
    active a = true -> active b = true ->
    wi_DedupeKey a <> "" -> wi_DedupeKey a = wi_DedupeKey b -> i = j.
Proof.
  intros Hw Hf. destruct (decide (wi_ID item = "")) as [E|Hid].
  { unfold Enqueue. rewrite E. apply (wf_dedupe s Hw). }
  destruct (Enqueue_cases item s Hid) as [(i0 & x & _ & _ & -> & _)|(Hno & -> & _)]; [apply (wf_dedupe s Hw)|].
  assert (Hd : forall id x, s !! id = Some x -> active x = true ->
    wi_DedupeKey x <> "" -> wi_DedupeKey x = wi_DedupeKey item -> False).
  { intros id x Hx Ax Hn He. specialize (Hno id x Hx). unfold duplicates in Hno.
    rewrite Ax, He, bool_decide_eq_false_2, bool_decide_eq_true_2 in Hno by congruence. done. }
  intros i j a b. rewrite !lookup_insert. repeat case_decide; try congruence; intros Ha Hb Aa Ab Hn He.
  - injection Ha as <-. autorewrite with item in He, Hn. destruct (Hd j b Hb Ab); congruence.
  - injection Hb as <-. autorewrite with item in He, Hn. destruct (Hd i a Ha Aa); congruence.
  - by eapply (wf_dedupe s Hw i j a b).
Qed.

Lemma step_wf s s' : step s s' -> wf s -> wf s'.
Proof.
  intros [o Hl] Hw. assert (Hk : keyed s) by exact (wf_key s Hw).
  assert (Hstep := run_op_item_step o s). split.
  - intros id i Hi. specialize (Hstep id Hk Hl). rewrite Hi in Hstep. split.
    + eapply item_step_ID; [done|]. intros j Hj. by apply Hk.
    + inversion Hstep as [o' Hu|]; subst; [|done]. destruct (s !! id) as [j|] eqn:Ej; [by apply (Hk id j)|].
      inversion Hu; subst; congruence.
  - intros id i Hi. specialize (Hstep id Hk Hl). rewrite Hi in Hstep.
    eapply item_step_ok; [done|]. intros j Hj. by apply (wf_item s Hw id).
  - destruct o as [item| | | | | | ].
    { by apply Enqueue_dedupe. }
    all: apply (item_update_dedupe s); [done|]; intros id; by apply run_op_item_update.
Qed.

Lemma empty_wf : wf NewInMemoryWorkQueueStore.
Proof. split; intros *; unfold NewInMemoryWorkQueueStore; rewrite lookup_empty; done. Qed.

Lemma reachable_wf s : rtc step NewInMemoryWorkQueueStore s -> wf s.
Proof.
  intros H. assert (Hw := empty_wf). induction H as [|s s1 s2 Hs _ IH]; [done|]. by eapply IH, step_wf.
Qed.
End invariant.

(** ** The life of a fence *)

Section fences.
Context `{MO : MapOrder}.

Lemma wf_token s id i : wf s -> s !! id = Some i -> in_int64 (wi_FencingToken i).
Proof. intros Hw Hi. apply (wf_item s Hw id i Hi). Qed.

Lemma token_room_S n s : token_room (S n) s -> token_room n s.
Proof. intros [H1 H2]. split; [lia|]. intros id i Hi. specialize (H2 id i Hi). lia. Qed.

(** One more claim fits: the token grows by at most one, without wrapping. *)
Lemma step_token s s' id i n :
  wf s -> step s s' -> token_room (S n) s -> s !! id = Some i ->
  exists i', s' !! id = Some i' /\
    (wi_FencingToken i' = wi_FencingToken i \/
     wi_FencingToken i' = (wi_FencingToken i + 1)%Z /\ wi_Status i = WorkItemStatusQueued).
Proof.
  intros Hw [o Hl] [_ Hr] Hi. pose proof (run_op_item_step o s id (wf_key s Hw) Hl) as Hs.
  rewrite Hi in Hs. apply item_step_token in Hs as (i' & Hi' & Ht). exists i'. split; [done|].
  specialize (Hr id i Hi). pose proof (wf_token s id i Hw Hi) as Hin. unfold in_int64 in Hin.
  destruct Ht as [Ht|[Ht Hq]]; [by left|right]. split; [|done].
  rewrite Ht. apply wrap64_id. unfold in_int64. lia.
Qed.

Lemma step_room n s s' : wf s -> step s s' -> token_room (S n) s -> token_room n s'.
Proof.
  intros Hw Hs Hr. split; [destruct Hr; lia|]. intros id i' Hi'.
  destruct (s !! id) as [i|] eqn:Hi.
  - destruct (step_token s s' id i n Hw Hs Hr Hi) as (i2 & Hi2 & Ht).
    rewrite Hi2 in Hi'. injection Hi' as <-. destruct Hr as [_ Hr]. specialize (Hr id i Hi). lia.
  - destruct Hs as [o Hl]. pose proof (run_op_item_step o s id (wf_key s Hw) Hl) as Hst.
    rewrite Hi' in Hst. rewrite (item_step_new _ _ _ Hst Hi). destruct Hr. lia.
Qed.

(** A dead fence stays dead. *)
Lemma step_dead n s s' f : wf s -> step s s' -> token_room (S n) s -> dead s f -> dead s' f.
Proof.
  intros Hw Hs Hr (i & Hi & Hd).
  destruct (step_token s s' _ i n Hw Hs Hr Hi) as (i' & Hi' & Ht).
  exists i'. split; [done|]. destruct Hd as [Hd|[Hd Hc]]; [left; lia|].
  destruct Ht as [Ht|[Ht _]]; [|left; lia]. right. split; [congruence|].
  destruct Hs as [o Hl]. pose proof (run_op_item_step o s (fv_WorkItemID f) (wf_key s Hw) Hl) as Hst.
  rewrite Hi' in Hst. exact (item_step_status _ _ i i' Hst Hi Hc Ht (wf_token s _ i Hw Hi)).
Qed.

Lemma steps_dead n s s' f :
  wf s -> nsteps step n s s' -> token_room n s -> dead s f -> dead s' f /\ wf s'.
Proof.
  intros Hw Hs. revert Hw. induction Hs as [s|n s s1 s2 H1 H2 IH]; intros Hw Hr Hd; [done|].
  apply IH; [by eapply step_wf|by eapply step_room|by eapply step_dead].
Qed.

Lemma dead_not_live s f : dead s f -> ~ live s f.
Proof.
  intros (i & Hi & Hd) (j & Hj & Hv). rewrite Hi in Hj. injection Hj as <-.
  apply validate_spec in Hv as (_ & Hc & _ & Ht & _). destruct Hd as [Hd|[_ Hn]]; [lia|done].
Qed.

(** What a queue that does not accept the fence answers. *)
Lemma rejected {A} s f (k : WorkItem -> Q A) :
  dead s f -> exists e, with_fence f k s = (s, Err e) /\ IsConflict e = true.
Proof.
  intros Hd. pose proof (dead_not_live s f Hd) as Hl. destruct Hd as (i & Hi & _).
  unfold with_fence. run_simpl. rewrite Hi. destruct (validateFenceAgainstItem i f) as [e|] eqn:Ev.
  - exists e. split; [done|]. by eapply validate_conflict.
  - destruct Hl. by exists i.
Qed.

(** Completing, failing or requeueing with a live fence kills it. *)
Lemma with_fence_kills s f (g : WorkItem -> WorkItem) :
  live s f ->
  (forall i, wi_ID i = fv_WorkItemID f -> wi_FencingToken i = fv_FencingToken f ->
     wi_FencingToken (g i) = fv_FencingToken f /\ wi_Status (g i) <> WorkItemStatusClaimed) ->
  let r := with_fence f (fun i => store_item (wi_ID i) (g i)) s in r.2 = Ok tt /\ dead r.1 f.
Proof.
  intros (i & Hi & Hv) Hg. cbn. rewrite (with_fence_live s f _ i Hi Hv). cbn. split; [done|].
  apply validate_spec in Hv as (Hid & _ & _ & Ht & _). destruct (Hg i Hid Ht) as [Ht' Hc].
  exists (g i). rewrite Hid, lookup_insert_eq. split; [done|]. right. by split.
Qed.

(** A claim hands out the fence that the queue then accepts. *)
Definition fence_of_claim (c : WorkClaim) : FenceValidation :=
  {| fv_WorkItemID := wi_ID (wc_WorkItem c); fv_LeaseID := wc_LeaseID c;
     fv_FencingToken := wc_FencingToken c; fv_WorkerID := wc_WorkerID c |}.

Lemma claim_live s s' i w now ttl :
  keyed s -> s !! wi_ID i = Some i -> s' !! wi_ID i = Some (claim_item w now ttl i) ->
  live s' (fence_of_claim (claim_of w now ttl (claim_item w now ttl i))).
Proof.
  intros Hk Hi Hs'. exists (claim_item w now ttl i). cbn. autorewrite with item. split; [done|].
  apply validate_spec. cbn. by autorewrite with item.
Qed.
End fences.

(** ** Claims about the queue *)

(** C5: Every queue reachable from the empty one by calls of its methods, in
    any order and by any workers, is well formed: items are stored under
    their own nonempty ID; an item is leased exactly while it is claimed; a
    finished item has its time stamp; and no two active items share a
    nonempty dedupe key. *)
Theorem reachable_queue_well_formed `{MO : MapOrder} (s : store) :
  rtc step NewInMemoryWorkQueueStore s -> wf s.
Proof. apply reachable_wf. Qed.

(** C4: A fence that was given up or superseded is rejected for ever after:
    after any [n] further calls (as long as the 63-bit token has room for
    them) every method that presents it returns a conflict and changes
    nothing. *)
Theorem stale_fence_rejected_forever `{MO : MapOrder} (n : nat) (s s' : store) (f : FenceValidation)
    (summary reason : string) (now next expires : time) :
  wf s -> dead s f -> token_room n s -> nsteps step n s s' ->
  (exists e, ValidateFence f s' = (s', Err e) /\ IsConflict e = true) /\
  (exists e, Complete f now s' = (s', Err e) /\ IsConflict e = true) /\
  (exists e, Fail f summary now s' = (s', Err e) /\ IsConflict e = true) /\
  (exists e, Requeue f next reason now s' = (s', Err e) /\ IsConflict e = true) /\
  (exists e, Heartbeat {| lh_WorkItemID := fv_WorkItemID f; lh_WorkerID := fv_WorkerID f;
                          lh_LeaseID := fv_LeaseID f; lh_FencingToken := fv_FencingToken f;
                          lh_RecordedAt := now; lh_LeaseExpiresAt := expires |} s' = (s', Err e)
             /\ IsConflict e = true).
Proof.
  intros Hw Hd Hr Hs. destruct (steps_dead n s s' f Hw Hs Hr Hd) as [Hd' _].
  split_and!; apply rejected; [done..|]. by destruct f.
Qed.

(** Completing, failing or requeueing with an accepted fence succeeds and
    gives the fence up for good, and so does a reclaim after the lease
    expired; with C2 a lease is finished at most once. *)
Theorem finishing_gives_up_the_fence `{MO : MapOrder} (s : store) (f : FenceValidation)
    (summary reason : string) (now next : time) :
  live s f ->
  ((Complete f now s).2 = Ok tt /\ dead (Complete f now s).1 f) /\
  ((Fail f summary now s).2 = Ok tt /\ dead (Fail f summary now s).1 f) /\
  ((Requeue f next reason now s).2 = Ok tt /\ dead (Requeue f next reason now s).1 f) /\
  (forall i, s !! fv_WorkItemID f = Some i -> expired now i = true -> dead (ReclaimExpired now s).1 f).
Proof.
  intros Hl. split; [|split; [|split]].
  - apply (with_fence_kills s f (finish_item WorkItemStatusCompleted "" now)); [done|].
    intros i _ Ht. by autorewrite with item.
  - apply (with_fence_kills s f (finish_item WorkItemStatusFailed summary now)); [done|].
    intros i _ Ht. by autorewrite with item.
  - apply (with_fence_kills s f (requeue_item next reason now)); [done|].
    intros i _ Ht. by autorewrite with item.
  - intros i Hi He. destruct Hl as (j & Hj & Hv). rewrite Hi in Hj. injection Hj as <-.
    apply validate_spec in Hv as (_ & _ & _ & Ht & _).
    exists (reclaim_item now i). rewrite (proj2 (ReclaimExpired_run now s)), Hi, He. split; [done|].
    right. by autorewrite with item.
Qed.

(** At any time at most one fence of an item is accepted: two workers can
    not both hold its lease. *)
Theorem one_live_fence_per_item (s : store) (f1 f2 : FenceValidation) :
  live s f1 -> live s f2 -> fv_WorkItemID f1 = fv_WorkItemID f2 -> f1 = f2.
Proof.
  intros (i & Hi & H1) (j & Hj & H2) He. rewrite He, Hj in Hi. injection Hi as ->.
  apply validate_spec in H1 as (? & _ & ? & ? & ?), H2 as (? & _ & ? & ? & ?).
  destruct f1, f2; cbn in *; congruence.
Qed.

(** [ClaimReady] takes the first [limit] (at least one) queued and
    available items in the order (available time, id), and no item it leaves
    behind precedes one it takes; each gets the next fencing token and a
    fence that the queue accepts afterwards; every other item is unchanged. *)
Theorem ClaimReady_spec `{MO : MapOrder} (s : store) (workerID : string) (limit : Z) (now : time)
    (leaseTTL : Duration) :
  wf s ->
  exists claimed : list WorkItem,
    (ClaimReady workerID limit now leaseTTL s).2 =
      Ok ((fun i => claim_of workerID now leaseTTL (claim_item workerID now leaseTTL i)) <$> claimed) /\
    (Z.of_nat (length claimed) <= Z.max 1 limit)%Z /\
    StronglySorted (cmp_le compare_items) claimed /\
    (forall i, i ∈ claimed -> s !! wi_ID i = Some i /\ is_ready now i = true) /\
    (forall i j, i ∈ claimed -> s !! wi_ID j = Some j -> is_ready now j = true -> j ∉ claimed ->
       cmp_le compare_items i j) /\
    (forall i, i ∈ claimed ->
       live (ClaimReady workerID limit now leaseTTL s).1
            (fence_of_claim (claim_of workerID now leaseTTL (claim_item workerID now leaseTTL i)))) /\
    (forall id, (ClaimReady workerID limit now leaseTTL s).1 !! id =
       match s !! id with
       | Some i => Some (if bool_decide (i ∈ claimed) then claim_item workerID now leaseTTL i else i)
       | None => None
       end).
Proof.
  intros Hw. assert (Hk : keyed s) by exact (wf_key s Hw).
  destruct (ClaimReady_run workerID limit now leaseTTL s Hk) as [Hr Hs].
  exists (take (effective_limit limit) (ready_items now s)).
  assert (Hin : forall i, i ∈ take (effective_limit limit) (ready_items now s) ->
    s !! wi_ID i = Some i /\ is_ready now i = true).
  { intros i Hi. apply elem_of_ready; [done|]. eapply elem_of_sublist; [exact Hi|apply sublist_take]. }
  assert (Hsorted : StronglySorted (cmp_le compare_items) (ready_items now s)).
  { apply SortFunc_sorted. unfold compare_items. apply _. }
  split_and!; [exact Hr| | |exact Hin| | |exact Hs].
  - unfold effective_limit. rewrite length_take. case_match; lia.
  - by apply StronglySorted_take.
  - intros i j Hi Hj Hrd Hn. apply (StronglySorted_app_le _ (take (effective_limit limit) (ready_items now s))
      (drop (effective_limit limit) (ready_items now s))); [by rewrite take_drop|done|].
    assert (Hall : j ∈ ready_items now s) by by apply elem_of_ready.
    rewrite <- (take_drop (effective_limit limit)), elem_of_app in Hall. by destruct Hall.
  - intros i Hi. destruct (Hin i Hi) as [Hi' _]. eapply claim_live; [done..|].
    rewrite Hs, Hi'. by rewrite bool_decide_eq_true_2.
Qed.

(** [ReclaimExpired] queues exactly the claimed items whose lease has run
    out, reports each once, leaves no expired lease behind and changes
    nothing else. *)
Theorem ReclaimExpired_spec `{MO : MapOrder} (s : store) (now : time) :
  wf s ->
  exists reclaimed : list WorkItem,
    (ReclaimExpired now s).2 = Ok (reclaim_result now <$> reclaimed) /\
    NoDup (wi_ID <$> reclaimed) /\
    (forall i, i ∈ reclaimed <-> s !! wi_ID i = Some i /\ expired now i = true) /\
    (forall id, (ReclaimExpired now s).1 !! id =
       match s !! id with
       | Some i => Some (if expired now i then reclaim_item now i else i)
       | None => None
       end) /\
    (forall id i, (ReclaimExpired now s).1 !! id = Some i -> expired now i = false).
Proof.
  intros Hw. assert (Hk : keyed s) by exact (wf_key s Hw).
  destruct (ReclaimExpired_run now s) as [(rs & Hr & ->) Hs].
  exists (filter (fun i => expired now i = true) (map_values s)). split_and!; [exact Hr| | |exact Hs|].
  - by apply NoDup_fmap_filter, keyed_values_NoDup.
  - intros i. rewrite list_elem_of_filter, keyed_elem by done. tauto.
  - intros id i. rewrite Hs. destruct (s !! id) as [j|]; [|done]. intros [= <-].
    destruct (expired now j) eqn:E; [|done]. unfold expired. by autorewrite with item.
Qed.

(** [Enqueue] suppresses an item whose nonempty dedupe key an active item
    has, answering with that item's ID and changing nothing; otherwise it
    stores the item, keeping the fencing token its ID already had, so that
    fences of an earlier life of the ID stay dead. *)
Theorem Enqueue_spec `{MO : MapOrder} (s : store) (item : WorkItem) :
  wf s -> fresh_item item -> wi_ID item <> "" ->
  (forall id existing, s !! id = Some existing -> active existing = true ->
     wi_DedupeKey item <> "" -> wi_DedupeKey existing = wi_DedupeKey item ->
     (Enqueue item s).1 = s /\
     exists r, (Enqueue item s).2 = Ok r /\
       wq_Disposition r = WorkEnqueueDispositionDuplicateSuppressed /\ wq_ExistingWorkItemID r = id) /\
  ((forall id existing, s !! id = Some existing -> active existing = true ->
     wi_DedupeKey item <> "" -> wi_DedupeKey existing <> wi_DedupeKey item) ->
     (Enqueue item s).1 = <[wi_ID item := enqueue_item item (s !! wi_ID item)]> s /\
     (exists r, (Enqueue item s).2 = Ok r /\ wq_Disposition r = WorkEnqueueDispositionEnqueued) /\
     (forall f, dead s f -> dead (Enqueue item s).1 f)).
Proof.
  intros Hw Hf Hid.
  assert (Hdup : forall existing, duplicates item existing = true <->
    wi_DedupeKey item <> "" /\ wi_DedupeKey existing = wi_DedupeKey item /\ active existing = true).
  { intros existing. unfold duplicates. rewrite !andb_true_iff, negb_true_iff, bool_decide_eq_false,
      bool_decide_eq_true. tauto. }
  destruct (Enqueue_cases item s Hid) as [(i & x & Hx & Hd & Hs & Hr)|(Hno & Hs & Hr)]; split.
  - intros id existing He Ha Hn Hk. split; [done|]. eexists. split; [exact Hr|]. split; [done|].
    apply Hdup in Hd as (_ & Hk' & Ha'). destruct (wf_key s Hw i x Hx) as [Hxi _]. rsimpl. rewrite Hxi.
    eapply (wf_dedupe s Hw i id x existing); congruence.
  - intros Hnone. apply Hdup in Hd as (H1 & H2 & H3). by destruct (Hnone i x Hx H3 H1).
  - intros id existing He Ha Hn Hk. specialize (Hno id existing He).
    by rewrite (proj2 (Hdup existing)) in Hno.
  - intros _. split; [exact Hs|]. split; [exact Hr|]. intros f (i & Hi & Hd). rewrite Hs.
    destruct (decide (wi_ID item = fv_WorkItemID f)) as [He|He].
    + exists (enqueue_item item (s !! wi_ID item)). rewrite He, lookup_insert_eq. split; [done|].
      rewrite Hi. autorewrite with item. destruct Hd as [Hd|[Hd _]]; [by left|right]. split; [done|].
      destruct Hf as [Hq _]. by rewrite (enqueue_item_Status _ _ Hq).
    + exists i. by rewrite lookup_insert_ne.
Qed.

(** ** Concrete queues *)

(** One item is enqueued, claimed by a worker, and its lease runs out. *)
Definition sample_item : WorkItem :=
  zero <| wi_ID := "w1" |> <| wi_Kind := WorkItemKindExecuteReadyTask |>
       <| wi_Status := WorkItemStatusQueued |> <| wi_DedupeKey := "execute:g1" |> <| wi_AvailableAt := 5%Z |>.

Definition queue_at (ops : list op) : store :=
  foldl (fun s o => @run_op canonical_order o s) NewInMemoryWorkQueueStore ops.

Definition queue_queued : store := queue_at [OpEnqueue sample_item].
Definition queue_claimed : store := queue_at [OpEnqueue sample_item; OpClaimReady "a" 1 10 100].
Definition queue_reclaimed : store :=
  queue_at [OpEnqueue sample_item; OpClaimReady "a" 1 10 100; OpReclaimExpired 200].

Definition sample_fence : FenceValidation :=
  Eval vm_compute in fence_of_claim (claim_of "a" 10 100 (claim_item "a" 10 100 sample_item)).

Lemma queue_at_rtc ops :
  Forall legal ops -> rtc (@step canonical_order) NewInMemoryWorkQueueStore (queue_at ops).
Proof.
  intros H. unfold queue_at. induction ops as [|o ops IH] using rev_ind; [apply rtc_refl|].
  rewrite Forall_app in H. destruct H as [H [Ho _]%Forall_cons]. rewrite foldl_app.
  eapply rtc_r; [by apply IH|]. by constructor.
Qed.

Lemma sample_legal ops :
  ops ⊆ [OpEnqueue sample_item; OpClaimReady "a" 1 10 100; OpReclaimExpired 200] -> Forall legal ops.
Proof.
  intros H. apply Forall_forall. intros o Ho%H. repeat (apply elem_of_cons in Ho as [->|Ho]); try done.
  by apply elem_of_nil in Ho.
Qed.

Lemma token_room_check n (s : store) :
  ((Z.of_nat n <? two63) && forallb (fun p => wi_FencingToken p.2 + Z.of_nat n <? two63) (map_to_list s) = true)%Z ->
  token_room n s.
Proof.
  intros [H1%Z.ltb_lt H2]%andb_true_iff. split; [done|]. intros id i Hi.
  rewrite forallb_forall in H2. apply Z.ltb_lt, (H2 (id, i)).
  by apply list_elem_of_In, elem_of_map_to_list.
Qed.

Lemma queue_queued_wf : wf queue_queued.
Proof. apply (reachable_wf (MO:=canonical_order)), queue_at_rtc, sample_legal. set_solver. Qed.
Lemma queue_claimed_wf : wf queue_claimed.
Proof. apply (reachable_wf (MO:=canonical_order)), queue_at_rtc, sample_legal. set_solver. Qed.
Lemma queue_reclaimed_wf : wf queue_reclaimed.
Proof. apply (reachable_wf (MO:=canonical_order)), queue_at_rtc, sample_legal. set_solver. Qed.

Lemma reachable_queue_well_formed_witness :
  rtc (@step canonical_order) NewInMemoryWorkQueueStore queue_claimed /\ wf queue_claimed.
Proof.
  assert (H : rtc (@step canonical_order) NewInMemoryWorkQueueStore queue_claimed).
  { apply queue_at_rtc, sample_legal. set_solver. }
  split; [exact H|]. apply (reachable_queue_well_formed (MO:=canonical_order) queue_claimed H).
Defined.

Lemma stale_fence_rejected_forever_witness :
  wf queue_reclaimed /\ dead queue_reclaimed sample_fence /\
  exists e, Complete sample_fence 300 (queue_at [OpEnqueue sample_item; OpClaimReady "a" 1 10 100;
                                               OpReclaimExpired 200; OpClaimReady "b" 1 210 100])
            = (queue_at [OpEnqueue sample_item; OpClaimReady "a" 1 10 100;
                         OpReclaimExpired 200; OpClaimReady "b" 1 210 100], Err e) /\ IsConflict e = true.
Proof.
  assert (Hw : wf queue_reclaimed) by exact queue_reclaimed_wf.
  assert (Hd : dead queue_reclaimed sample_fence).
  { eexists. split; [vm_compute; reflexivity|]. right. split; [vm_compute; reflexivity|].
    vm_compute. congruence. }
  split; [exact Hw|]. split; [exact Hd|].
  refine (proj1 (proj2 (stale_fence_rejected_forever (MO:=canonical_order) 1 queue_reclaimed _ sample_fence
    "" "" 300 0 0 Hw Hd _ _))).
  - apply token_room_check. vm_compute. reflexivity.
  - apply (nsteps_once (R:=@step canonical_order)).
    exact (@step_op canonical_order queue_reclaimed (OpClaimReady "b" 1 210 100) I).
Defined.

Lemma queue_claimed_live : live queue_claimed sample_fence.
Proof. eexists. split; vm_compute; reflexivity. Qed.

Lemma finishing_gives_up_the_fence_witness :
  live queue_claimed sample_fence /\ dead (Complete sample_fence 50 queue_claimed).1 sample_fence.
Proof.
  split; [exact queue_claimed_live|].
  exact (proj2 (proj1 (finishing_gives_up_the_fence (MO:=canonical_order) queue_claimed sample_fence "" ""
    50 0 queue_claimed_live))).
Defined.

Lemma one_live_fence_per_item_witness :
  live queue_claimed sample_fence /\ sample_fence = sample_fence.
Proof.
  split; [exact queue_claimed_live|].
  exact (one_live_fence_per_item queue_claimed sample_fence sample_fence
    queue_claimed_live queue_claimed_live eq_refl).
Defined.

Lemma ClaimReady_spec_witness :
  wf queue_queued /\
  exists claimed, (@ClaimReady canonical_order "a" 1 10 100 queue_queued).2 =
    Ok ((fun i => claim_of "a" 10 100 (claim_item "a" 10 100 i)) <$> claimed).
Proof.
  split; [exact queue_queued_wf|].
  destruct (ClaimReady_spec (MO:=canonical_order) queue_queued "a" 1 10 100 queue_queued_wf) as (c & H & _).
  exists c. exact H.
Defined.

Lemma ReclaimExpired_spec_witness :
  wf queue_claimed /\ forall id i, (@ReclaimExpired canonical_order 200 queue_claimed).1 !! id = Some i ->
    expired 200 i = false.
Proof.
  split; [exact queue_claimed_wf|].
  destruct (ReclaimExpired_spec (MO:=canonical_order) queue_claimed 200 queue_claimed_wf)
    as (c & _ & _ & _ & _ & H). exact H.
Defined.

Lemma Enqueue_spec_witness :
  wf queue_claimed /\ (@Enqueue canonical_order (sample_item <| wi_ID := "w2" |>) queue_claimed).1 = queue_claimed.
Proof.
  split; [exact queue_claimed_wf|].
  assert (Hf : fresh_item (sample_item <| wi_ID := "w2" |>)) by repeat split.
  assert (Hn : wi_ID (sample_item <| wi_ID := "w2" |>) <> "") by done.
  refine (proj1 (proj1 (Enqueue_spec (MO:=canonical_order) queue_claimed _ queue_claimed_wf Hf Hn) "w1"
    (claim_item "a" 10 100 (enqueue_item sample_item None)) _ _ _ _)).
  - vm_compute. reflexivity.
  - vm_compute. reflexivity.
  - vm_compute. congruence.
  - vm_compute. reflexivity.
Defined.

(** * No work is lost when a worker dies

    Workers poll: a pass reclaims the expired leases and then claims a batch.
    While no lease taken by these passes runs out, an item that waits comes to
    its turn after as many passes as the queue has batches; once leases run
    out in between, it may never. *)

Import Queue.

Section polling.
Context `{MO : MapOrder} (limit : Z) (ttl : Duration).

(** One pass of a worker, by what its clock says. *)
Definition poll (s : store) (pass : string * time) : store :=
  let '(worker, now) := pass in (ClaimReady worker limit now ttl (ReclaimExpired now s).1).1.

Definition polls (passes : list (string * time)) (s : store) : store := foldl poll s passes.

(** What a pass leaves of an item before it claims. *)
Definition reclaimed (now : time) (i : WorkItem) : WorkItem := if expired now i then reclaim_item now i else i.

Definition batch (now : time) (s : store) : list WorkItem :=
  take (effective_limit limit) (ready_items now (ReclaimExpired now s).1).

Lemma reclaim_keyed now s : keyed s -> keyed (ReclaimExpired now s).1.
Proof.
  intros Hk id i. destruct (ReclaimExpired_run now s) as [_ ->]. destruct (s !! id) as [j|] eqn:E; [|done].
  intros [= <-]. destruct (Hk id j E) as [Hid Hne]. destruct (expired now j); by autorewrite with item.
Qed.

Lemma reclaim_lookup now s id : (ReclaimExpired now s).1 !! id = reclaimed now <$> s !! id.
Proof. destruct (ReclaimExpired_run now s) as [_ ->]. by destruct (s !! id). Qed.

Lemma poll_lookup s w now id :
  keyed s ->
  poll s (w, now) !! id =
    (fun i => if bool_decide (reclaimed now i ∈ batch now s) then claim_item w now ttl (reclaimed now i)
              else reclaimed now i) <$> s !! id.
Proof.
  intros Hk. unfold poll. destruct (ClaimReady_run w limit now ttl _ (reclaim_keyed now s Hk)) as [_ ->].
  rewrite reclaim_lookup. by destruct (s !! id).
Qed.

Lemma reclaimed_ID now i : wi_ID (reclaimed now i) = wi_ID i.
Proof. unfold reclaimed. case_match; by autorewrite with item. Qed.

Lemma poll_keyed s pass : keyed s -> keyed (poll s pass).
Proof.
  intros Hk id i. destruct pass as [w now]. rewrite poll_lookup by done. destruct (s !! id) as [j|] eqn:E; [|done].
  intros [= <-]. destruct (Hk id j E) as [Hid Hne]. case_bool_decide; autorewrite with item; by rewrite reclaimed_ID.
Qed.

Lemma batch_elem now s i :
  keyed s -> i ∈ batch now s -> (ReclaimExpired now s).1 !! wi_ID i = Some i /\ is_ready now i = true.
Proof.
  intros Hk Hi. apply elem_of_ready; [by apply reclaim_keyed|]. eapply elem_of_sublist; [exact Hi|apply sublist_take].
Qed.

Lemma batch_NoDup now s : keyed s -> NoDup (wi_ID <$> batch now s).
Proof. intros Hk. by apply ready_take_NoDup, reclaim_keyed. Qed.

(** ** Items that no pass before [horizon] touches *)

Section horizon.
Variable horizon : time.

Definition held (i : WorkItem) : bool :=
  bool_decide (wi_Status i = WorkItemStatusClaimed) &&
  match wi_LeaseExpiresAt i with Some expires => horizon <=? expires | None => false end.

Definition free_ids (s : store) : gset string := dom (filter (fun entry => held entry.2 = false) s).

Lemma elem_of_free s id : id ∈ free_ids s <-> exists i, s !! id = Some i /\ held i = false.
Proof.
  unfold free_ids. rewrite elem_of_dom. split.
  - intros [i Hi%map_lookup_filter_Some]. eauto.
  - intros (i & Hi). exists i. by apply map_lookup_filter_Some.
Qed.

Lemma free_size s : (size (free_ids s) <= size s)%nat.
Proof. rewrite <- (size_dom (D := gset string) s). apply subseteq_size, dom_filter_subseteq. Qed.

Lemma held_reclaimed now i : now < horizon -> held i = true -> reclaimed now i = i /\ is_ready now i = false.
Proof.
  intros Hn [Hs%bool_decide_eq_true He]%andb_prop. unfold reclaimed, expired, is_ready, After. rewrite Hs. split; [|done].
  destruct (wi_LeaseExpiresAt i) as [e|]; [|by rewrite andb_false_r]. apply Z.leb_le in He.
  destruct (Z.ltb_spec now e); [done|lia].
Qed.

Lemma held_kept s w now id i :
  keyed s -> now < horizon -> held i = true -> s !! id = Some i -> poll s (w, now) !! id = Some i.
Proof.
  intros Hk Hn Hh Hi. rewrite poll_lookup, Hi by done. cbn [fmap option_fmap option_map].
  destruct (held_reclaimed now i Hn Hh) as [-> Hr]. rewrite bool_decide_eq_false_2; [done|].
  intros [_ Hr']%batch_elem; [|done]. congruence.
Qed.

Lemma held_kept_polls passes s id i :
  keyed s -> Forall (fun pass => pass.2 < horizon) passes -> held i = true -> s !! id = Some i ->
  polls passes s !! id = Some i.
Proof.
  revert s. induction passes as [|[w now] passes IH]; intros s Hk Hf Hh Hi; [done|].
  apply Forall_cons in Hf as [Hn Hf]. cbn [polls foldl]. apply IH; [by apply poll_keyed|done|done|].
  by apply held_kept.
Qed.

Lemma claimed_held w now i : horizon <= now + ttl -> held (claim_item w now ttl i) = true.
Proof.
  intros Ht. unfold held. autorewrite with item. rewrite bool_decide_eq_true_2 by done. unfold claim_item, Add. cbn.
  by apply Z.leb_le.
Qed.

(** Every item a pass claims is one of those that were free before. *)
Lemma free_after_poll s w now :
  keyed s -> now < horizon -> horizon <= now + ttl ->
  (size (free_ids (poll s (w, now))) + length (batch now s) <= size (free_ids s))%nat.
Proof.
  intros Hk Hn Ht. set (ids := list_to_set (wi_ID <$> batch now s) : gset string).
  assert (Hids : size ids = length (batch now s)).
  { unfold ids. rewrite size_list_to_set by (by apply batch_NoDup). by rewrite length_fmap. }
  assert (Hbatch : forall i, i ∈ batch now s -> exists j, s !! wi_ID i = Some j /\ reclaimed now j = i /\ is_ready now i = true).
  { intros i Hi. destruct (batch_elem now s i Hk Hi) as [Hl Hr]. rewrite reclaim_lookup in Hl.
    destruct (s !! wi_ID i) as [j|]; [|done]. injection Hl as Hl. by exists j. }
  rewrite <- Hids, <- size_union.
  - apply subseteq_size. intros id [Hid|Hid]%elem_of_union; apply elem_of_free.
    + apply elem_of_free in Hid as (i & Hi & Hh). pose proof Hi as Hi'. rewrite poll_lookup in Hi' by done.
      destruct (s !! id) as [j|] eqn:Ej; [|done]. exists j. split; [done|]. destruct (held j) eqn:Hj; [|done].
      pose proof (held_kept s w now id j Hk Hn Hj Ej). congruence.
    + unfold ids in Hid. apply elem_of_list_to_set, list_elem_of_fmap in Hid as (i & -> & Hi).
      destruct (Hbatch i Hi) as (j & Hj & Hr & Hready). exists j. split; [done|]. destruct (held j) eqn:Hh; [|done].
      destruct (held_reclaimed now j Hn Hh) as [E1 E2]. congruence.
  - intros id Hid Hid'. unfold ids in Hid'. apply elem_of_list_to_set, list_elem_of_fmap in Hid' as (i & -> & Hi).
    destruct (Hbatch i Hi) as (j & Hj & Hr & Hready). apply elem_of_free in Hid as (i' & Hi' & Hh).
    rewrite poll_lookup, Hj in Hi' by done. cbn in Hi'. rewrite Hr, bool_decide_eq_true_2 in Hi' by done.
    injection Hi' as <-. by rewrite claimed_held in Hh.
Qed.
End horizon.

(** ** An item that waits comes to its turn *)

Section waiting.
Variables (id : string) (start : time) (token : Z).

(** Queued and available, or claimed under a lease that has run out. *)
Definition waiting (i : WorkItem) : Prop :=
  wi_AvailableAt i <= start /\
  (wi_Status i = WorkItemStatusQueued \/
   wi_Status i = WorkItemStatusClaimed /\ exists expires, wi_LeaseExpiresAt i = Some expires /\ expires <= start).

Lemma waiting_free i : 0 < ttl -> waiting i -> held (start + ttl) i = false.
Proof.
  intros Ht [_ [Hs|(Hs & e & He & Hle)]]; unfold held; rewrite Hs; [done|]. rewrite He, bool_decide_eq_true_2 by done.
  apply Z.leb_gt. lia.
Qed.

Lemma waiting_reclaimed now i :
  start <= now -> waiting i ->
  is_ready now (reclaimed now i) = true /\ waiting (reclaimed now i) /\
  wi_FencingToken (reclaimed now i) = wi_FencingToken i.
Proof.
  intros Hn [Hav Hs]. unfold waiting, reclaimed.
  assert (Hready : forall i, wi_AvailableAt i <= start -> wi_Status i = WorkItemStatusQueued -> is_ready now i = true).
  { intros k Hk Hq. unfold is_ready, After. rewrite Hq. destruct (Z.ltb_spec now (wi_AvailableAt k)); [lia|done]. }
  destruct Hs as [Hs|(Hs & e & He & Hle)].
  - assert (Hx : expired now i = false) by (unfold expired; by rewrite Hs). rewrite Hx. split_and!; auto.
  - assert (Hx : expired now i = true).
    { unfold expired, After. rewrite Hs, He. destruct (Z.ltb_spec now e); [lia|done]. }
    rewrite Hx. autorewrite with item. split_and!; auto.
Qed.

Lemma waiting_claimed passes s i :
  keyed s -> s !! id = Some i -> waiting i -> wi_FencingToken i = token -> 0 < ttl ->
  Forall (fun pass => start <= pass.2 < start + ttl) passes ->
  (size (free_ids (start + ttl) s) <= length passes * effective_limit limit)%nat ->
  exists w now j, (w, now) ∈ passes /\ wi_ID j = id /\ wi_FencingToken j = token /\
    polls passes s !! id = Some (claim_item w now ttl j).
Proof.
  revert s i. induction passes as [|[w now] passes IH]; intros s i Hk Hi Hw Htok Ht Hf Hsize.
  { exfalso. assert (Hin : id ∈ free_ids (start + ttl) s) by (apply elem_of_free; exists i; eauto using waiting_free).
    cbn in Hsize. apply (size_empty_inv (free_ids (start + ttl) s)) in Hin; [done|]. lia. }
  apply Forall_cons in Hf as [[Hn1 Hn2] Hf]. cbn [snd] in Hn1, Hn2.
  destruct (waiting_reclaimed now i Hn1 Hw) as (Hr & Hw' & Htok').
  set (j := reclaimed now i) in *. assert (Hj : wi_ID j = id) by (unfold j; rewrite reclaimed_ID; by apply Hk).
  pose proof (poll_keyed s (w, now) Hk) as Hk'. pose proof (poll_lookup s w now id Hk) as Hl. rewrite Hi in Hl.
  cbn [fmap option_fmap option_map] in Hl. fold j in Hl. case_bool_decide as Hin.
  - exists w, now, j. split; [left|]. split; [done|]. split; [congruence|]. cbn [polls foldl].
    apply (held_kept_polls (start + ttl)); [done| |apply claimed_held; lia|done].
    eapply Forall_impl; [exact Hf|]. cbn. lia.
  - destruct (IH (poll s (w, now)) j) as (w' & now' & j' & H1 & H2); [done|done|done|congruence|done|done| |].
    + assert (Hfull : length (batch now s) = effective_limit limit).
      { unfold batch in *. rewrite length_take, Nat.min_l; [done|]. apply Nat.nlt_ge. intros Hlt.
        apply Hin. rewrite take_ge by lia. apply elem_of_ready; [by apply reclaim_keyed|].
        rewrite Hj, reclaim_lookup, Hi. done. }
      pose proof (free_after_poll (start + ttl) s w now Hk Hn2 ltac:(lia)). cbn [length] in Hsize. lia.
    + exists w', now', j'. split; [by right|]. done.
Qed.
End waiting.
End polling.

(** C38: Whatever became of its worker, a queued item that is available, or a
    claimed one whose lease has run out, is claimed again.  Let workers pass
    (reclaim, then claim up to [limit] items, at least one) at clock readings
    that all lie before the first lease they take can run out, in any order.
    Once their batches cover the queue, one of them holds the item under the
    next fencing token and a fence the queue accepts, and no fence from before
    is accepted any more.  (Over a longer time the item can wait for ever: see
    [short_leases_starve].) *)
Theorem abandoned_work_is_claimed_again `{MO : MapOrder} (s : store) (id : string) (i : WorkItem)
    (limit : Z) (now : time) (ttl : Duration) (passes : list (string * time)) :
  wf s -> s !! id = Some i -> waiting now i ->
  Forall (fun pass => now <= pass.2 < now + ttl) passes ->
  Z.of_nat (size s) <= Z.of_nat (length passes) * Z.max 1 limit ->
  let s' := polls limit ttl passes s in
  exists worker at_ i', (worker, at_) ∈ passes /\ s' !! id = Some i' /\ wi_Status i' = WorkItemStatusClaimed /\
    wi_ClaimedByWorkerID i' = worker /\ wi_LeaseExpiresAt i' = Some (at_ + ttl) /\
    wi_FencingToken i' = wrap64 (wi_FencingToken i + 1) /\
    live s' (fence_of_claim (claim_of worker at_ ttl i')) /\
    (forall f, live s f -> fv_WorkItemID f = id -> ~ live s' f).
Proof.
  intros Hw Hi Hwait Hp Hn s'. assert (Hk : keyed s) by exact (wf_key s Hw).
  assert (Ht : 0 < ttl).
  { assert (Hpos : (0 < size s)%nat).
    { apply Nat.neq_0_lt_0. intros H0%map_size_empty_inv. by rewrite H0, lookup_empty in Hi. }
    destruct passes as [|[w at_] passes]; [cbn in Hn; lia|]. apply Forall_cons in Hp as [Hp _]. cbn in Hp. lia. }
  assert (Hlimit : Z.of_nat (effective_limit limit) = Z.max 1 limit).
  { unfold effective_limit. destruct (Z.leb_spec limit 0); lia. }
  destruct (waiting_claimed limit ttl id now (wi_FencingToken i) passes s i Hk Hi Hwait eq_refl Ht Hp)
    as (w & at_ & j & Hin & Hid & Htok & Hc).
  { rewrite <- Hlimit, <- Nat2Z.inj_mul in Hn. apply Nat2Z.inj_le in Hn. etrans; [apply free_size|exact Hn]. }
  fold s' in Hc. exists w, at_, (claim_item w at_ ttl j). autorewrite with item. rewrite Htok. split_and!; try done.
  - exists (claim_item w at_ ttl j). cbn. autorewrite with item. rewrite Hid. split; [done|].
    apply validate_spec. cbn. by autorewrite with item.
  - intros f (i0 & Hi0 & Hv0) Hf (i2 & Hi2 & Hv2). rewrite Hf in Hi0, Hi2. rewrite Hi in Hi0. rewrite Hc in Hi2.
    injection Hi0 as <-. injection Hi2 as <-. apply validate_spec in Hv0 as (_ & _ & _ & T0 & _), Hv2 as (_ & _ & _ & T2 & _).
    autorewrite with item in T2. rewrite Htok in T2. rewrite <- T0 in T2. by eapply wrap64_succ_neq in T2; [|eapply wf_token].
Qed.

(** The worker of the sample queue died; its lease ran out at 110. *)
Lemma abandoned_work_is_claimed_again_witness :
  wf queue_claimed /\ exists i', polls (MO:=canonical_order) 1 100 [("b", 210)] queue_claimed !! "w1" = Some i' /\
    wi_FencingToken i' = 2.
Proof.
  split; [exact queue_claimed_wf|].
  destruct (abandoned_work_is_claimed_again (MO:=canonical_order) queue_claimed "w1"
      (claim_item "a" 10 100 (enqueue_item sample_item None)) 1 210 100 [("b", 210)] queue_claimed_wf)
    as (w & at_ & i' & _ & H1 & _ & _ & _ & H2 & _).
  - vm_compute. reflexivity.
  - split; [vm_compute; discriminate|]. right. split; [reflexivity|]. exists 110. split; [reflexivity|lia].
  - repeat constructor; cbn; lia.
  - vm_compute. discriminate.
  - exists i'. split; [exact H1|]. rewrite H2. vm_compute. reflexivity.
Defined.

(** Two items, batches of one, leases that run out between the passes: the
    first item is reclaimed each time and, being the older one, claimed again;
    the second stays queued. *)
Lemma short_leases_starve :
  let s := queue_at [OpEnqueue sample_item; OpEnqueue (sample_item <| wi_ID := "w2" |> <| wi_DedupeKey := "d2" |>)] in
  let s' := polls (MO:=canonical_order) 1 10 [("b", 10); ("b", 20); ("b", 30); ("b", 40)] s in
  (wi_Status <$> s !! "w2") = Some WorkItemStatusQueued /\ (wi_Status <$> s' !! "w2") = Some WorkItemStatusQueued /\
  (wi_FencingToken <$> s' !! "w1") = Some 4.
Proof. vm_compute. split_and!; reflexivity. Qed.
