(* ===== verification/SqlQueue.v ===== *)
(** * The work queue in SQL (sqlite_async_stores.go, postgres_runtime_stores.go)

    A table is a map from its primary key to its row.  A statement is one
    atomic operation on the table; a method is the statements it runs, in a
    transaction where the code opens one.  Times are TEXT, compared as text;
    a nullable column is an option; a TEXT column that holds an enumeration
    holds its value (the conversion to a string and back is the identity). *)

From S2P Require Export TimeText WorkQueueThm.
Import Queue.
#[local] Open Scope Z_scope.

(** ** Statements *)

Section statements.
Context {K : Type} `{HK : Countable K} {row : Type}.
Abbreviation table := (gmap K row).
Abbreviation SQL := (ST error table).

(** [UPDATE ... SET ... WHERE key = ? AND cond]; the result is whether a row
    was affected. *)
Definition update_where (key : K) (cond : row -> bool) (set : row -> row) : SQL bool :=
  t ← get;
  match (t : table) !! key with
  | Some r => if cond r then put (<[key := set r]> t);; mret true else mret false
  | None => mret false
  end.

(** [INSERT ... ON CONFLICT(key) DO UPDATE SET] every other column. *)
Definition upsert (key : K) (r : row) : SQL unit := modify (fun t : table => <[key := r]> t).

(** [INSERT]; the result is whether the key was free (and the row is in). *)
Definition insert_new (key : K) (r : row) : SQL bool :=
  t ← get;
  if is_set ((t : table) !! key) then mret false else put (<[key := r]> t);; mret true.

(** [SELECT ... WHERE key = ?] *)
Definition select_key (key : K) : SQL (option row) := gets (fun t : table => t !! key).

(** [DELETE ... WHERE cond] *)
Definition delete_where (cond : K * row -> bool) : SQL unit :=
  modify (fun t : table => filter (fun entry => cond entry = false) t).

(** [SELECT ... WHERE cond ORDER BY order]. *)
Definition select_where `{MO : MapOrder} (cond : K * row -> bool) (order : K * row -> K * row -> Z)
    : SQL (list (K * row)) :=
  gets (fun t : table => slices_SortFunc order (filter (fun entry => cond entry = true) (map_range t))).
End statements.

(** [tx.Begin ... tx.Commit], with the deferred [tx.Rollback]. *)
Definition transaction {T A} (m : ST error T A) : ST error T A := fun t =>
  match m t with
  | (t', Ok a) => (t', Ok a)
  | (_, o) => (t, o)
  end.

Arguments update_where {K _ HK row}.
Arguments upsert {K _ HK row}.
Arguments insert_new {K _ HK row}.
Arguments select_key {K _ HK row}.
Arguments delete_where {K _ HK row}.

(** [ORDER BY text ASC, key ASC]. *)
Definition order_by {row} (column : row -> string) (a b : string * row) : Z :=
  if str_ltb (column a.2) (column b.2) then -1
  else if str_ltb (column b.2) (column a.2) then 1
  else compare_id fst a b.

Definition nullString (value : string) : option string := if value == "" then None else Some value.
Definition from_null (value : option string) : string := default "" value.

Definition nullWakeupKind (kind : SchedulerWakeupKind) : option SchedulerWakeupKind :=
  if kind == SchedulerWakeupKindOther "" then None else Some kind.

Definition nullableTime (value : option time) : option string :=
  match value with
  | Some t => if IsZero t then None else Some (time_text t)
  | None => None
  end.

Definition scan_time {S} (value : string) : ST error S time :=
  match mustParseTime value with Some t => mret t | None => panic "mustParseTime" end.

Definition scan_nullable {S} (value : option string) : ST error S (option time) :=
  match value with Some text => t ← scan_time text; mret (Some t) | None => mret None end.

(** ** The table *)

Record work_items_row := mkRow {
  ri_kind : WorkItemKind;
  ri_status : WorkItemStatus;
  ri_dedupe_key : option string;
  ri_graph_id : option string;
  ri_task_id : option string;
  ri_execution_id : option string;
  ri_approval_id : option string;
  ri_checkpoint_id : option string;
  ri_workflow_id : option string;
  ri_available_at : string;
  ri_claimed_at : option string;
  ri_completed_at : option string;
  ri_failed_at : option string;
  ri_last_updated_at : string;
  ri_reason : option string;
  ri_wakeup_kind : option SchedulerWakeupKind;
  ri_retry_not_before : option string;
  ri_attempt_count : Z;
  ri_lease_id : option string;
  ri_fencing_token : Z;
  ri_claim_token : option string;
  ri_claimed_by_worker_id : option string;
  ri_lease_expires_at : option string
}.
#[export] Instance eta_row : Eta work_items_row := eta! mkRow < ri_kind ; ri_status ; ri_dedupe_key ; ri_graph_id ; ri_task_id ; ri_execution_id ; ri_approval_id ; ri_checkpoint_id ; ri_workflow_id ; ri_available_at ; ri_claimed_at ; ri_completed_at ; ri_failed_at ; ri_last_updated_at ; ri_reason ; ri_wakeup_kind ; ri_retry_not_before ; ri_attempt_count ; ri_lease_id ; ri_fencing_token ; ri_claim_token ; ri_claimed_by_worker_id ; ri_lease_expires_at >.

Abbreviation work_items := (gmap string work_items_row).
Abbreviation SQL := (ST error work_items).

(** The values of the INSERT. *)
Definition item_row (item : WorkItem) : work_items_row := {|
  ri_kind := wi_Kind item;
  ri_status := wi_Status item;
  ri_dedupe_key := nullString (wi_DedupeKey item);
  ri_graph_id := nullString (wi_GraphID item);
  ri_task_id := nullString (wi_TaskID item);
  ri_execution_id := nullString (wi_ExecutionID item);
  ri_approval_id := nullString (wi_ApprovalID item);
  ri_checkpoint_id := nullString (wi_CheckpointID item);
  ri_workflow_id := nullString (wi_WorkflowID item);
  ri_available_at := time_text (wi_AvailableAt item);
  ri_claimed_at := nullableTime (wi_ClaimedAt item);
  ri_completed_at := nullableTime (wi_CompletedAt item);
  ri_failed_at := nullableTime (wi_FailedAt item);
  ri_last_updated_at := time_text (wi_LastUpdatedAt item);
  ri_reason := nullString (wi_Reason item);
  ri_wakeup_kind := nullWakeupKind (wi_WakeupKind item);
  ri_retry_not_before := nullableTime (wi_RetryNotBefore item);
  ri_attempt_count := wi_AttemptCount item;
  ri_lease_id := nullString (wi_LeaseID item);
  ri_fencing_token := wi_FencingToken item;
  ri_claim_token := nullString (wi_ClaimToken item);
  ri_claimed_by_worker_id := nullString (wi_ClaimedByWorkerID item);
  ri_lease_expires_at := nullableTime (wi_LeaseExpiresAt item)
|}.

Definition scanWorkItem (entry : string * work_items_row) : SQL WorkItem :=
  let '(id, r) := entry in
  availableAt ← scan_time (ri_available_at r);
  lastUpdatedAt ← scan_time (ri_last_updated_at r);
  claimedAt ← scan_nullable (ri_claimed_at r);
  completedAt ← scan_nullable (ri_completed_at r);
  failedAt ← scan_nullable (ri_failed_at r);
  retryNotBefore ← scan_nullable (ri_retry_not_before r);
  leaseExpiresAt ← scan_nullable (ri_lease_expires_at r);
  mret {|
    wi_ID := id;
    wi_Kind := ri_kind r;
    wi_Status := ri_status r;
    wi_DedupeKey := from_null (ri_dedupe_key r);
    wi_GraphID := from_null (ri_graph_id r);
    wi_TaskID := from_null (ri_task_id r);
    wi_ExecutionID := from_null (ri_execution_id r);
    wi_ApprovalID := from_null (ri_approval_id r);
    wi_CheckpointID := from_null (ri_checkpoint_id r);
    wi_WorkflowID := from_null (ri_workflow_id r);
    wi_AvailableAt := availableAt;
    wi_ClaimedAt := claimedAt;
    wi_CompletedAt := completedAt;
    wi_FailedAt := failedAt;
    wi_LastUpdatedAt := lastUpdatedAt;
    wi_Reason := from_null (ri_reason r);
    wi_WakeupKind := default (SchedulerWakeupKindOther "") (ri_wakeup_kind r);
    wi_RetryNotBefore := retryNotBefore;
    wi_AttemptCount := ri_attempt_count r;
    wi_LeaseID := from_null (ri_lease_id r);
    wi_FencingToken := ri_fencing_token r;
    wi_ClaimToken := from_null (ri_claim_token r);
    wi_ClaimedByWorkerID := from_null (ri_claimed_by_worker_id r);
    wi_LeaseExpiresAt := leaseExpiresAt
  |}.

(** *** The assignments that the UPDATEs share *)

(** [claimed_at = NULL, lease_id = NULL, claim_token = NULL,
    claimed_by_worker_id = NULL, lease_expires_at = NULL] *)
Definition unlease_row (r : work_items_row) : work_items_row :=
  r <| ri_claimed_at := None |> <| ri_lease_id := None |> <| ri_claim_token := None |>
    <| ri_claimed_by_worker_id := None |> <| ri_lease_expires_at := None |>.

Definition claim_row (workerID : string) (claimedAt expires : time) (item : WorkItem) (r : work_items_row) : work_items_row :=
  r <| ri_status := wi_Status item |>
    <| ri_claimed_at := Some (time_text claimedAt) |>
    <| ri_last_updated_at := time_text (wi_LastUpdatedAt item) |>
    <| ri_attempt_count := wi_AttemptCount item |>
    <| ri_lease_id := Some (wi_LeaseID item) |>
    <| ri_fencing_token := wi_FencingToken item |>
    <| ri_claim_token := Some (wi_ClaimToken item) |>
    <| ri_claimed_by_worker_id := Some workerID |>
    <| ri_lease_expires_at := Some (time_text expires) |>.

Definition heartbeat_row (heartbeat : LeaseHeartbeat) (r : work_items_row) : work_items_row :=
  r <| ri_last_updated_at := time_text (lh_RecordedAt heartbeat) |>
    <| ri_lease_expires_at := Some (time_text (lh_LeaseExpiresAt heartbeat)) |>.

Definition requeue_row (nextAvailableAt : time) (reason : string) (now : time) (r : work_items_row) : work_items_row :=
  unlease_row (r <| ri_status := WorkItemStatusQueued |>
    <| ri_available_at := time_text nextAvailableAt |>
    <| ri_last_updated_at := time_text now |>
    <| ri_reason := Some reason |>).

Definition reclaim_row (now : time) (r : work_items_row) : work_items_row :=
  unlease_row (r <| ri_status := WorkItemStatusQueued |>
    <| ri_reason := Some "reclaimed after lease expiry" |>
    <| ri_last_updated_at := time_text now |>).

Definition finish_row (status : WorkItemStatus) (summary : string) (now : time) (r : work_items_row) : work_items_row :=
  unlease_row (r <| ri_status := status |>
    <| ri_reason := Some summary |>
    <| ri_last_updated_at := time_text now |>)
    <| ri_completed_at := if status == WorkItemStatusCompleted then Some (time_text now) else None |>
    <| ri_failed_at := if status == WorkItemStatusFailed then Some (time_text now) else None |>.

(** [status = 'queued' AND available_at <= now] *)
Definition row_ready (now : time) (entry : string * work_items_row) : bool :=
  (ri_status entry.2 == WorkItemStatusQueued) && text_leb (ri_available_at entry.2) (time_text now).

(** [status = 'claimed' AND lease_expires_at IS NOT NULL AND lease_expires_at <= now] *)
Definition row_expired (now : time) (entry : string * work_items_row) : bool :=
  (ri_status entry.2 == WorkItemStatusClaimed) &&
  match ri_lease_expires_at entry.2 with Some expires => text_leb expires (time_text now) | None => false end.

Section common.
Context `{MO : MapOrder}.

Definition Load (workItemID : string) : SQL (option WorkItem) :=
  t ← get;
  match (t : work_items) !! workItemID with
  | Some r => item ← scanWorkItem (workItemID, r); mret (Some item)
  | None => mret None
  end.

Definition ListByGraph (graphID : string) : SQL (list WorkItem) :=
  rows ← select_where (fun entry => bool_decide (ri_graph_id entry.2 = Some graphID)) (order_by ri_available_at);
  for_fold (fun result entry => item ← scanWorkItem entry; mret (result ++ [item])) [] rows.

(** [withFence]: the row is read, then [fn] runs its own statement. *)
Definition withFence {A} (fence : FenceValidation) (fn : WorkItem -> SQL A) : SQL A :=
  found ← Load (fv_WorkItemID fence);
  match found with
  | None => fail (NotFoundError "work_item" (fv_WorkItemID fence))
  | Some item =>
      match validateFenceAgainstItem item fence with
      | Some e => fail e
      | None => fn item
      end
  end.

Definition ValidateFence (fence : FenceValidation) : SQL unit := withFence fence (fun _ => mret tt).

(** The rows [ClaimReady] reads: [LIMIT] after the order. *)
Definition select_ready (now : time) (limit : Z) : SQL (list (string * work_items_row)) :=
  rows ← select_where (row_ready now) (order_by ri_available_at);
  mret (take (Z.to_nat limit) rows).

Definition select_expired (now : time) : SQL (list (string * work_items_row)) :=
  select_where (row_expired now) (order_by (fun r => from_null (ri_lease_expires_at r))).
End common.

(** ** [sqliteWorkQueueStore] *)

Module Sqlite.
Section ops.
Context `{MO : MapOrder}.

(** The normalisation at the head of [Enqueue]. *)
Definition prepare (item : WorkItem) : WorkItem :=
  let item := if wi_Status item == WorkItemStatusOther ""
              then item <| wi_Status := WorkItemStatusQueued |> else item in
  let item := if IsZero (wi_LastUpdatedAt item)
              then item <| wi_LastUpdatedAt := wi_AvailableAt item |> else item in
  if wi_AttemptCount item <? 0 then item <| wi_AttemptCount := 0 |> else item.

(** [dedupe_key = ? AND status NOT IN (completed, failed, abandoned)] *)
Definition row_duplicates (dedupeKey : string) (entry : string * work_items_row) : bool :=
  bool_decide (ri_dedupe_key entry.2 = Some dedupeKey) &&
  (ri_status entry.2 != WorkItemStatusCompleted) && (ri_status entry.2 != WorkItemStatusFailed) &&
  (ri_status entry.2 != WorkItemStatusAbandoned).

Definition lookup_duplicate (item : WorkItem) : SQL (option string) :=
  if wi_DedupeKey item != "" then
    rows ← select_where (row_duplicates (wi_DedupeKey item)) (order_by ri_available_at);
    mret (fst <$> head rows)
  else mret None.

Definition Enqueue (item : WorkItem) : SQL WorkEnqueueResult :=
  if wi_ID item == "" then fail (PlainError "work item id is required") else
  let item := prepare item in
  duplicate ← lookup_duplicate item;
  match duplicate with
  | Some existing =>
      mret (zero <| wq_Kind := wi_Kind item |>
                 <| wq_Disposition := WorkEnqueueDispositionDuplicateSuppressed |>
                 <| wq_DedupeKey := wi_DedupeKey item |>
                 <| wq_ExistingWorkItemID := existing |>)
  | None =>
      upsert (wi_ID item) (item_row item);;
      mret (zero <| wq_WorkItemID := wi_ID item |>
                 <| wq_Kind := wi_Kind item |>
                 <| wq_Disposition := WorkEnqueueDispositionEnqueued |>
                 <| wq_DedupeKey := wi_DedupeKey item |>)
  end.

Definition ClaimReady (workerID : string) (limit : Z) (now : time) (leaseTTL : Duration) : SQL (list WorkClaim) :=
  let limit := if limit <=? 0 then 1 else limit in
  transaction (
    rows ← select_ready now limit;
    for_fold (fun claims entry =>
      item ← scanWorkItem entry;
      let item := claim_item workerID now leaseTTL item in
      affected ← update_where (wi_ID item) (fun r => ri_status r == WorkItemStatusQueued)
        (claim_row workerID now (Add now leaseTTL) item);
      mret (if affected : bool then claims ++ [claim_of workerID now leaseTTL item] else claims)) [] rows).

Definition Heartbeat (heartbeat : LeaseHeartbeat) : SQL unit :=
  withFence (fence_of_heartbeat heartbeat) (fun _ =>
    update_where (lh_WorkItemID heartbeat) (fun _ => true) (heartbeat_row heartbeat);; mret tt).

(** The UPDATE of [finish]: by the item's id alone. *)
Definition finish_update (id : string) (status : WorkItemStatus) (summary : string) (now : time) : SQL unit :=
  update_where id (fun _ => true) (finish_row status summary now);; mret tt.

Definition finish (fence : FenceValidation) (status : WorkItemStatus) (summary : string) (now : time) : SQL unit :=
  withFence fence (fun item => finish_update (wi_ID item) status summary now).

Definition Complete (fence : FenceValidation) (now : time) : SQL unit :=
  finish fence WorkItemStatusCompleted "" now.
Definition Fail (fence : FenceValidation) (summary : string) (now : time) : SQL unit :=
  finish fence WorkItemStatusFailed summary now.

Definition Requeue (fence : FenceValidation) (nextAvailableAt : time) (reason : string) (now : time) : SQL unit :=
  withFence fence (fun _ =>
    update_where (fv_WorkItemID fence) (fun _ => true) (requeue_row nextAvailableAt reason now);; mret tt).

Definition ReclaimExpired (now : time) : SQL (list LeaseReclaimResult) :=
  rows ← select_expired now;
  for_fold (fun result entry =>
    item ← scanWorkItem entry;
    update_where (wi_ID item)
      (fun r => (ri_status r == WorkItemStatusClaimed) && (ri_fencing_token r =? wi_FencingToken item))
      (reclaim_row now);;
    mret (result ++ [reclaim_result now item])) [] rows.
End ops.
End Sqlite.

(** ** [postgresWorkQueueStore] *)

Module Postgres.
Section ops.
Context `{MO : MapOrder}.

Definition prepare (item : WorkItem) : WorkItem :=
  let item := if wi_Status item == WorkItemStatusOther ""
              then item <| wi_Status := WorkItemStatusQueued |> else item in
  if IsZero (wi_LastUpdatedAt item) then item <| wi_LastUpdatedAt := wi_AvailableAt item |> else item.

(** [status IN ('queued', 'claimed')] *)
Definition row_active (r : work_items_row) : bool :=
  (ri_status r == WorkItemStatusQueued) || (ri_status r == WorkItemStatusClaimed).

(** The unique indexes: the primary key, and [dedupe_key] among active rows. *)
Definition violates_unique (id : string) (r : work_items_row) (entry : string * work_items_row) : bool :=
  bool_decide (entry.1 = id) ||
  (match ri_dedupe_key r with
   | Some key => row_active r && row_active entry.2 && bool_decide (ri_dedupe_key entry.2 = Some key)
   | None => false
   end).

(** [INSERT ... ON CONFLICT DO NOTHING RETURNING work_item_id] *)
Definition insert_or_nothing (id : string) (r : work_items_row) : SQL (option string) :=
  t ← get;
  if existsb (violates_unique id r) (map_range (t : work_items)) then mret None
  else upsert id r;; mret (Some id).

Definition lookupActiveDedupe (item : WorkItem) : SQL string :=
  if TrimSpace (wi_DedupeKey item) != "" then
    rows ← select_where (fun entry => bool_decide (ri_dedupe_key entry.2 = Some (wi_DedupeKey item)) &&
                                      row_active entry.2) (order_by ri_available_at);
    mret (from_null (fst <$> head rows))
  else
    t ← get;
    mret (match (t : work_items) !! wi_ID item with Some _ => wi_ID item | None => "" end).

Definition Enqueue (item : WorkItem) : SQL WorkEnqueueResult :=
  if wi_ID item == "" then fail (PlainError "work item id is required") else
  let item := prepare item in
  inserted ← insert_or_nothing (wi_ID item) (item_row item);
  match inserted with
  | Some insertedID =>
      mret (zero <| wq_WorkItemID := insertedID |>
                 <| wq_Kind := wi_Kind item |>
                 <| wq_Disposition := WorkEnqueueDispositionEnqueued |>
                 <| wq_DedupeKey := wi_DedupeKey item |>)
  | None =>
      existingID ← lookupActiveDedupe item;
      mret (zero <| wq_Kind := wi_Kind item |>
                 <| wq_Disposition := WorkEnqueueDispositionDuplicateSuppressed |>
                 <| wq_DedupeKey := wi_DedupeKey item |>
                 <| wq_ExistingWorkItemID := existingID |>)
  end.

(** [FOR UPDATE SKIP LOCKED]: the selected rows are locked until the commit, so
    the transaction is one step. *)
Definition ClaimReady (workerID : string) (limit : Z) (now : time) (leaseTTL : Duration) : SQL (list WorkClaim) :=
  let limit := if limit <=? 0 then 1 else limit in
  transaction (
    rows ← select_ready now limit;
    items ← for_fold (fun items entry => item ← scanWorkItem entry; mret (items ++ [item])) [] rows;
    for_fold (fun claims item =>
      let item := claim_item workerID now leaseTTL item in
      update_where (wi_ID item) (fun _ => true) (claim_row workerID now (Add now leaseTTL) item);;
      mret (claims ++ [claim_of workerID now leaseTTL item])) [] items).

(** [status = 'claimed' AND lease_id = ? AND fencing_token = ? AND claimed_by_worker_id = ?] *)
Definition held_by (leaseID : string) (fencingToken : Z) (workerID : string) (r : work_items_row) : bool :=
  (ri_status r == WorkItemStatusClaimed) && bool_decide (ri_lease_id r = Some leaseID) &&
  (ri_fencing_token r =? fencingToken) && bool_decide (ri_claimed_by_worker_id r = Some workerID).

Definition fenceConflictForCAS (fence : FenceValidation) : SQL unit :=
  found ← Load (fv_WorkItemID fence);
  match found with
  | None => fail (NotFoundError "work_item" (fv_WorkItemID fence))
  | Some item =>
      match validateFenceAgainstItem item fence with
      | Some e => fail e
      | None => fail (ConflictError "work_item" (fv_WorkItemID fence) "fenced work-item update rejected")
      end
  end.

(** One statement checks the fence and writes. *)
Definition updateClaimedWorkItemCAS (fence : FenceValidation) (set : work_items_row -> work_items_row) : SQL unit :=
  affected ← update_where (fv_WorkItemID fence)
    (held_by (fv_LeaseID fence) (fv_FencingToken fence) (fv_WorkerID fence)) set;
  if affected : bool then mret tt else fenceConflictForCAS fence.

Definition Heartbeat (heartbeat : LeaseHeartbeat) : SQL unit :=
  updateClaimedWorkItemCAS (fence_of_heartbeat heartbeat) (heartbeat_row heartbeat).

Definition finish (fence : FenceValidation) (status : WorkItemStatus) (summary : string) (now : time) : SQL unit :=
  updateClaimedWorkItemCAS fence (finish_row status summary now).

Definition Complete (fence : FenceValidation) (now : time) : SQL unit :=
  finish fence WorkItemStatusCompleted "" now.
Definition Fail (fence : FenceValidation) (summary : string) (now : time) : SQL unit :=
  finish fence WorkItemStatusFailed summary now.

Definition Requeue (fence : FenceValidation) (nextAvailableAt : time) (reason : string) (now : time) : SQL unit :=
  updateClaimedWorkItemCAS fence (requeue_row nextAvailableAt reason now).

Definition ReclaimExpired (now : time) : SQL (list LeaseReclaimResult) :=
  transaction (
    rows ← select_expired now;
    items ← for_fold (fun items entry => item ← scanWorkItem entry; mret (items ++ [item])) [] rows;
    for_fold (fun result item =>
      affected ← update_where (wi_ID item)
        (held_by (wi_LeaseID item) (wi_FencingToken item) (wi_ClaimedByWorkerID item)) (reclaim_row now);
      mret (if affected : bool then result ++ [reclaim_result now item] else result)) [] items).
End ops.
End Postgres.
