(* ===== verification/SqlQueueThm.v ===== *)
(** * The SQL work queues implement the in-memory one

    [WorkQueueStore] is the interface of the queue; the in-memory store, the
    SQLite store and the Postgres store are its instances.  The table of a SQL
    store represents a state of the in-memory store row by row ([row_for]), and
    every call keeps that and gives the same answer, provided the clock's
    times compare as text ([TextClock]). *)

From S2P Require Export SqlQueue.
Import Queue.
#[local] Open Scope Z_scope.

(** ** The interface *)

Class WorkQueueStore `{MO : MapOrder} (S : Type) := {
  q_Enqueue : WorkItem -> ST error S WorkEnqueueResult;
  q_ClaimReady : string -> Z -> time -> Duration -> ST error S (list WorkClaim);
  q_Heartbeat : LeaseHeartbeat -> ST error S unit;
  q_Complete : FenceValidation -> time -> ST error S unit;
  q_Fail : FenceValidation -> string -> time -> ST error S unit;
  q_Requeue : FenceValidation -> time -> string -> time -> ST error S unit;
  q_ReclaimExpired : time -> ST error S (list LeaseReclaimResult)
}.

Definition memory_queue `{MO : MapOrder} : WorkQueueStore store := {|
  q_Enqueue := Queue.Enqueue; q_ClaimReady := Queue.ClaimReady; q_Heartbeat := Queue.Heartbeat;
  q_Complete := Queue.Complete; q_Fail := Queue.Fail; q_Requeue := Queue.Requeue;
  q_ReclaimExpired := Queue.ReclaimExpired |}.

Definition sqlite_queue `{MO : MapOrder} : WorkQueueStore work_items := {|
  q_Enqueue := Sqlite.Enqueue; q_ClaimReady := Sqlite.ClaimReady; q_Heartbeat := Sqlite.Heartbeat;
  q_Complete := Sqlite.Complete; q_Fail := Sqlite.Fail; q_Requeue := Sqlite.Requeue;
  q_ReclaimExpired := Sqlite.ReclaimExpired |}.

Definition postgres_queue `{MO : MapOrder} : WorkQueueStore work_items := {|
  q_Enqueue := Postgres.Enqueue; q_ClaimReady := Postgres.ClaimReady; q_Heartbeat := Postgres.Heartbeat;
  q_Complete := Postgres.Complete; q_Fail := Postgres.Fail; q_Requeue := Postgres.Requeue;
  q_ReclaimExpired := Postgres.ReclaimExpired |}.

(** What a call answers. *)
Inductive response :=
| RespEnqueue (o : outcome error WorkEnqueueResult)
| RespClaims (o : outcome error (list WorkClaim))
| RespDone (o : outcome error unit)
| RespReclaimed (o : outcome error (list LeaseReclaimResult)).

Definition answer {S A} (resp : outcome error A -> response) (m : S * outcome error A) : S * response :=
  (m.1, resp m.2).

Definition perform `{MO : MapOrder} {S} (Q : WorkQueueStore S) (o : op) (s : S) : S * response :=
  match o with
  | OpEnqueue item => answer RespEnqueue (q_Enqueue item s)
  | OpClaimReady w l n t => answer RespClaims (q_ClaimReady w l n t s)
  | OpHeartbeat h => answer RespDone (q_Heartbeat h s)
  | OpComplete f n => answer RespDone (q_Complete f n s)
  | OpFail f m n => answer RespDone (q_Fail f m n s)
  | OpRequeue f a m n => answer RespDone (q_Requeue f a m n s)
  | OpReclaimExpired n => answer RespReclaimed (q_ReclaimExpired n s)
  end.

(** The answers of a sequence of calls, from the empty store. *)
Fixpoint answers `{MO : MapOrder} {S} (Q : WorkQueueStore S) (ops : list op) (s : S) : list response :=
  match ops with
  | [] => []
  | o :: ops => (perform Q o s).2 :: answers Q ops (perform Q o s).1
  end.

(** The same answer; the in-memory store reports reclaimed leases in the
    order of a map, the SQL stores by expiry. *)
Inductive same_answer : response -> response -> Prop :=
| same_response r : same_answer r r
| same_reclaimed l l' : l ≡ₚ l' -> same_answer (RespReclaimed (Ok l)) (RespReclaimed (Ok l')).

(** ** Rows that represent items *)

Section rows.
Context {P : time -> Prop} `{TC : !TextClock P}.

Definition optional (o : option time) : Prop := match o with Some t => P t | None => True end.

(** The times of the item can be written, and no unfinished item has the stamp
    of an end. *)
Record storable (i : WorkItem) : Prop := {
  st_available : P (wi_AvailableAt i);
  st_updated : P (wi_LastUpdatedAt i);
  st_claimed : optional (wi_ClaimedAt i);
  st_completed : optional (wi_CompletedAt i);
  st_failed : optional (wi_FailedAt i);
  st_retry : optional (wi_RetryNotBefore i);
  st_expires : optional (wi_LeaseExpiresAt i);
  st_unfinished : active i = true -> wi_CompletedAt i = None /\ wi_FailedAt i = None
}.

(** The row that [INSERT] would write, but for the columns in which an UPDATE
    can have swapped NULL and the empty string. *)
Definition row_with (i : WorkItem) (reason lease token worker : option string) : work_items_row := {|
  ri_kind := wi_Kind i;
  ri_status := wi_Status i;
  ri_dedupe_key := nullString (wi_DedupeKey i);
  ri_graph_id := nullString (wi_GraphID i);
  ri_task_id := nullString (wi_TaskID i);
  ri_execution_id := nullString (wi_ExecutionID i);
  ri_approval_id := nullString (wi_ApprovalID i);
  ri_checkpoint_id := nullString (wi_CheckpointID i);
  ri_workflow_id := nullString (wi_WorkflowID i);
  ri_available_at := time_text (wi_AvailableAt i);
  ri_claimed_at := nullableTime (wi_ClaimedAt i);
  ri_completed_at := nullableTime (wi_CompletedAt i);
  ri_failed_at := nullableTime (wi_FailedAt i);
  ri_last_updated_at := time_text (wi_LastUpdatedAt i);
  ri_reason := reason;
  ri_wakeup_kind := nullWakeupKind (wi_WakeupKind i);
  ri_retry_not_before := nullableTime (wi_RetryNotBefore i);
  ri_attempt_count := wi_AttemptCount i;
  ri_lease_id := lease;
  ri_fencing_token := wi_FencingToken i;
  ri_claim_token := token;
  ri_claimed_by_worker_id := worker;
  ri_lease_expires_at := nullableTime (wi_LeaseExpiresAt i)
|}.

(** The columns that identify the lease of a claimed item are not NULL. *)
Inductive row_for (i : WorkItem) : work_items_row -> Prop :=
| row_for_intro reason lease token worker :
    from_null reason = wi_Reason i ->
    from_null lease = wi_LeaseID i ->
    from_null token = wi_ClaimToken i ->
    from_null worker = wi_ClaimedByWorkerID i ->
    (wi_Status i = WorkItemStatusClaimed ->
     lease = Some (wi_LeaseID i) /\ worker = Some (wi_ClaimedByWorkerID i)) ->
    row_for i (row_with i reason lease token worker).

Definition represented (id : string) (i : WorkItem) (r : work_items_row) : Prop :=
  wi_ID i = id /\ storable i /\ row_for i r.

Definition represents (s : store) (t : work_items) : Prop :=
  forall id, option_Forall2 (represented id) (s !! id) (t !! id).

Lemma from_nullString s : from_null (nullString s) = s.
Proof. unfold nullString. by case_bool_decide. Qed.

Lemma nullString_eq s v : v <> "" -> nullString s = Some v <-> s = v.
Proof. intros Hv. unfold nullString. case_bool_decide; naive_solver. Qed.

Lemma scan_nullable_text {S} (o : option time) (k : option time -> ST error S WorkItem) (t : S) :
  optional o -> (scan_nullable (nullableTime o) ≫= k) t = k o t.
Proof.
  intros Ho. destruct o as [x|]; [|done]. cbn in Ho. unfold nullableTime. rewrite clock_IsZero by done.
  unfold scan_nullable, scan_time. rewrite mustParseTime_clock by done. reflexivity.
Qed.

Lemma scan_time_text {S A} (x : time) (k : time -> ST error S A) (t : S) :
  P x -> (scan_time (time_text x) ≫= k) t = k x t.
Proof. intros Hx. unfold scan_time. by rewrite mustParseTime_clock. Qed.

Lemma nullWakeupKind_default k : default (SchedulerWakeupKindOther "") (nullWakeupKind k) = k.
Proof. unfold nullWakeupKind. by case_bool_decide. Qed.

(** Reading a row gives the item back. *)
Lemma scan_row i r t : storable i -> row_for i r -> scanWorkItem (wi_ID i, r) t = (t, Ok i).
Proof.
  intros Hi [reason lease token worker H1 H2 H3 H4 _]. destruct Hi. unfold scanWorkItem.
  cbn [ri_available_at ri_last_updated_at ri_claimed_at ri_completed_at ri_failed_at ri_retry_not_before
       ri_lease_expires_at row_with].
  rewrite !scan_time_text by done. rewrite !scan_nullable_text by done. rewrite run_ret. f_equal. f_equal.
  unfold row_with. cbn [ri_kind ri_status ri_dedupe_key ri_graph_id ri_task_id ri_execution_id ri_approval_id
    ri_checkpoint_id ri_workflow_id ri_reason ri_wakeup_kind ri_attempt_count ri_lease_id ri_fencing_token
    ri_claim_token ri_claimed_by_worker_id].
  rewrite !from_nullString, nullWakeupKind_default, H1, H2, H3, H4. by destruct i.
Qed.

(** *** The assignments keep rows and items together *)

Lemma nullableTime_Some x : P x -> nullableTime (Some x) = Some (time_text x).
Proof. intros Hx. unfold nullableTime. by rewrite clock_IsZero. Qed.

Lemma ready_active now i : is_ready now i = true -> active i = true.
Proof. unfold is_ready, active. case_bool_decide as E; [|done]. by rewrite E. Qed.

Lemma claimed_active i : wi_Status i = WorkItemStatusClaimed -> active i = true.
Proof. unfold active. by intros ->. Qed.

Lemma represented_claim id i r w now ttl :
  represented id i r -> is_ready now i = true -> P now -> P (Add now ttl) ->
  represented id (claim_item w now ttl i) (claim_row w now (Add now ttl) (claim_item w now ttl i) r).
Proof.
  intros (Hid & Hi & Hr) Hrd%ready_active Hn He. split_and!; [done|destruct Hi; split; try done; intros _; auto|].
  destruct Hr as [reason lease token worker H1 _ _ _ _].
  assert (Heq : claim_row w now (Add now ttl) (claim_item w now ttl i) (row_with i reason lease token worker) =
    row_with (claim_item w now ttl i) reason (Some (wi_LeaseID (claim_item w now ttl i)))
      (Some (wi_ClaimToken (claim_item w now ttl i))) (Some w)).
  { unfold row_with. change (wi_ClaimedAt (claim_item w now ttl i)) with (Some now).
    change (wi_LeaseExpiresAt (claim_item w now ttl i)) with (Some (Add now ttl)).
    rewrite !nullableTime_Some by done. reflexivity. }
  rewrite Heq. by constructor.
Qed.

Lemma represented_heartbeat id i r h :
  represented id i r -> P (lh_RecordedAt h) -> P (lh_LeaseExpiresAt h) ->
  represented id (heartbeat_item h i) (heartbeat_row h r).
Proof.
  intros (Hid & Hi & Hr) Hn He. split_and!; [done|destruct Hi; by split|].
  destruct Hr as [reason lease token worker H1 H2 H3 H4 H5].
  assert (Heq : heartbeat_row h (row_with i reason lease token worker) =
    row_with (heartbeat_item h i) reason lease token worker).
  { unfold row_with. change (wi_LeaseExpiresAt (heartbeat_item h i)) with (Some (lh_LeaseExpiresAt h)).
    rewrite !nullableTime_Some by done. reflexivity. }
  rewrite Heq. by constructor.
Qed.

(** The assignments of the UPDATEs, one group at a time. *)
Lemma row_with_unlease i a b c d : unlease_row (row_with i a b c d) = row_with (release i) a None None None.
Proof. by destruct i. Qed.

Lemma row_with_status i a b c d st m now :
  row_with i a b c d <| ri_status := st |> <| ri_reason := Some m |> <| ri_last_updated_at := time_text now |> =
  row_with (i <| wi_Status := st |> <| wi_Reason := m |> <| wi_LastUpdatedAt := now |>) (Some m) b c d.
Proof. by destruct i. Qed.

Lemma row_with_completed i a b c d now :
  P now -> wi_CompletedAt i = None -> wi_FailedAt i = None ->
  row_with i a b c d <| ri_completed_at := Some (time_text now) |> <| ri_failed_at := None |> =
  row_with (i <| wi_CompletedAt := Some now |>) a b c d.
Proof. intros Hn Hc Hf. destruct i. cbn in Hc, Hf. subst. rewrite <- nullableTime_Some by done. done. Qed.

Lemma row_with_failed i a b c d now :
  P now -> wi_CompletedAt i = None -> wi_FailedAt i = None ->
  row_with i a b c d <| ri_completed_at := None |> <| ri_failed_at := Some (time_text now) |> =
  row_with (i <| wi_FailedAt := Some now |>) a b c d.
Proof. intros Hn Hc Hf. destruct i. cbn in Hc, Hf. subst. rewrite <- nullableTime_Some by done. done. Qed.

Lemma finish_row_with i a b c d st summary now :
  P now -> wi_CompletedAt i = None -> wi_FailedAt i = None ->
  st = WorkItemStatusCompleted \/ st = WorkItemStatusFailed ->
  finish_row st summary now (row_with i a b c d) = row_with (finish_item st summary now i) (Some summary) None None None.
Proof.
  intros Hn Hc Hf Hst. unfold finish_row, finish_item. rewrite row_with_status, row_with_unlease.
  set (j := i <| wi_Status := st |> <| wi_Reason := summary |> <| wi_LastUpdatedAt := now |>).
  assert (Hj : wi_CompletedAt (release j) = None /\ wi_FailedAt (release j) = None) by done.
  clearbody j. revert Hj. generalize (release j). clear Hc Hf. intros k [Hc Hf].
  destruct Hst as [->| ->]; cbv zeta.
  - by apply row_with_completed.
  - by apply row_with_failed.
Qed.

Lemma represented_finish id i r st summary now :
  represented id i r -> wi_Status i = WorkItemStatusClaimed -> P now ->
  st = WorkItemStatusCompleted \/ st = WorkItemStatusFailed ->
  represented id (finish_item st summary now i) (finish_row st summary now r).
Proof.
  intros (Hid & Hi & Hr) Hc%claimed_active Hn Hst. destruct (st_unfinished i Hi Hc) as [Hc1 Hc2].
  destruct Hr as [reason lease token worker _ _ _ _ _]. split_and!; [by destruct Hst as [->| ->]| |].
  - destruct Hi, Hst as [->| ->]; by split.
  - rewrite finish_row_with by done. destruct Hst as [->| ->]; by constructor.
Qed.

Lemma represented_requeue id i r next reason now :
  represented id i r -> wi_Status i = WorkItemStatusClaimed -> P next -> P now ->
  represented id (requeue_item next reason now i) (requeue_row next reason now r).
Proof.
  intros (Hid & Hi & Hr) Hc%claimed_active Hn Hnow. pose proof (st_unfinished i Hi Hc) as Hu.
  destruct Hr as [reason' lease token worker H1 H2 H3 H4 H5].
  split_and!; [done|destruct Hi; by split|].
  assert (Heq : requeue_row next reason now (row_with i reason' lease token worker) =
    row_with (requeue_item next reason now i) (Some reason) None None None).
  { unfold requeue_row, requeue_item. rewrite <- row_with_unlease with (b := lease) (c := token) (d := worker).
    f_equal. }
  rewrite Heq. by constructor.
Qed.

Lemma represented_reclaim id i r now :
  represented id i r -> wi_Status i = WorkItemStatusClaimed -> P now ->
  represented id (reclaim_item now i) (reclaim_row now r).
Proof.
  intros (Hid & Hi & Hr) Hc%claimed_active Hnow. pose proof (st_unfinished i Hi Hc) as Hu.
  destruct Hr as [reason' lease token worker H1 H2 H3 H4 H5].
  split_and!; [done|destruct Hi; by split|].
  assert (Heq : reclaim_row now (row_with i reason' lease token worker) =
    row_with (reclaim_item now i) (Some "reclaimed after lease expiry") None None None).
  { unfold reclaim_row. rewrite row_with_status, row_with_unlease. by destruct i. }
  rewrite Heq. by constructor.
Qed.

(** *** Conditions *)

Lemma row_ready_item id i r now :
  represented id i r -> P now -> row_ready now (id, r) = is_ready now i.
Proof.
  intros (_ & Hi & Hr) Hn. destruct Hr. unfold row_ready, is_ready, After. destruct Hi.
  cbn [snd ri_status ri_available_at row_with]. rewrite text_leb_clock by done. by rewrite Z.leb_antisym.
Qed.

Lemma row_expired_item id i r now :
  represented id i r -> P now -> row_expired now (id, r) = expired now i.
Proof.
  intros (_ & Hi & Hr) Hn. destruct Hr. unfold row_expired, expired, After.
  cbn [snd ri_status ri_lease_expires_at row_with]. destruct Hi as [_ _ _ _ _ _ He _].
  destruct (wi_LeaseExpiresAt i) as [e|]; [|done]. cbn in He. rewrite nullableTime_Some by done.
  rewrite text_leb_clock by done. by rewrite Z.leb_antisym.
Qed.

Lemma held_by_spec id i r f :
  represented id i r -> fv_WorkItemID f = id ->
  Postgres.held_by (fv_LeaseID f) (fv_FencingToken f) (fv_WorkerID f) r = true <->
  validateFenceAgainstItem i f = None.
Proof.
  intros (Hid & _ & Hr) Hf. destruct Hr as [reason lease token worker _ _ _ _ Hc]. rewrite validate_spec, Hf.
  unfold Postgres.held_by. cbn [ri_status ri_lease_id ri_fencing_token ri_claimed_by_worker_id row_with].
  rewrite !andb_true_iff, !bool_decide_eq_true, Z.eqb_eq. split.
  - intros [[[H1 H2] H3] H4]. destruct (Hc H1) as [-> ->]. split_and!; congruence.
  - intros (_ & H1 & H2 & H3 & H4). destruct (Hc H1) as [-> ->]. split_and!; congruence.
Qed.
End rows.

(** ** Reading and updating many rows *)

Section order.
Context {row : Type} (column : row -> string).

Lemma order_by_le a b :
  cmp_le (order_by column) a b <->
  str_ltb (column a.2) (column b.2) = true \/ (column a.2 = column b.2 /\ str_ltb b.1 a.1 = false).
Proof.
  rewrite <- (compare_id_le (fst (A:=string) (B:=row)) a b). unfold cmp_le, order_by.
  destruct (str_ltb (column a.2) (column b.2)) eqn:E1; [split; [by left|lia]|].
  destruct (str_ltb (column b.2) (column a.2)) eqn:E2.
  - split; [lia|]. intros [?|[E _]]; [done|]. by rewrite E, str_ltb_irrefl in E2.
  - rewrite (str_ltb_antisym _ _ E1 E2). naive_solver.
Qed.

#[export] Instance order_by_order : CmpOrder (order_by column).
Proof.
  split.
  - intros a b c. rewrite !order_by_le. intros [H1|[H1 H1']] [H2|[H2 H2']].
    + left. by eapply str_ltb_trans.
    + left. by rewrite <- H2.
    + left. by rewrite H1.
    + right. split; [congruence|]. by eapply str_leb_trans.
  - intros a b. change (cmp_le (order_by column) a b \/ cmp_le (order_by column) b a). rewrite !order_by_le.
    destruct (str_ltb (column a.2) (column b.2)) eqn:E1; [by left; left|].
    destruct (str_ltb (column b.2) (column a.2)) eqn:E2; [by right; left|].
    rewrite (str_ltb_antisym _ _ E1 E2).
    destruct (str_ltb b.1 a.1) eqn:E3; [right|left]; right; split; try done. by apply str_ltb_asym.
Qed.

Lemma order_by_anti (l : list (string * row)) :
  NoDup l.*1 -> forall x y, x ∈ l -> y ∈ l -> cmp_le (order_by column) x y -> cmp_le (order_by column) y x -> x = y.
Proof.
  intros Hnd x y Hx Hy. rewrite !order_by_le. intros [H1|[H1 H1']] [H2|[H2 H2']].
  - by rewrite (str_ltb_asym _ _ H1) in H2.
  - by rewrite H2, str_ltb_irrefl in H1.
  - by rewrite H1, str_ltb_irrefl in H2.
  - pose proof (str_ltb_antisym _ _ H2' H1') as E. apply list_elem_of_lookup in Hx as [m Hx], Hy as [n Hy].
    assert (m = n) as ->; [|congruence].
    apply (NoDup_lookup l.*1 m n x.1); [done|..]; rewrite list_lookup_fmap; [by rewrite Hx|by rewrite Hy, E].
Qed.
End order.

Section many.
Context `{MO : MapOrder} {P : time -> Prop} `{TC : !TextClock P}.
#[local] Abbreviation represented := (represented (P:=P)).
#[local] Abbreviation represents := (represents (P:=P)).

(** The row of an item in the table. *)
Definition entry (t : work_items) (i : WorkItem) : string * work_items_row :=
  (wi_ID i, default (item_row i) (t !! wi_ID i)).

Lemma represents_item s t i :
  represents s t -> s !! wi_ID i = Some i -> t !! wi_ID i = Some (entry t i).2 /\ represented (wi_ID i) i (entry t i).2.
Proof.
  intros Hr Hi. pose proof (Hr (wi_ID i)) as H. rewrite Hi in H. unfold entry. cbn.
  destruct (t !! wi_ID i) as [r|]; inversion H; by subst.
Qed.

Lemma represents_row s t id r :
  represents s t -> t !! id = Some r -> exists i, s !! id = Some i /\ represented id i r.
Proof.
  intros Hr Ht. pose proof (Hr id) as H. rewrite Ht in H. inversion H as [i ? Hir E1 E2|]; subst. eauto.
Qed.

Lemma represents_None s t id : represents s t -> s !! id = None <-> t !! id = None.
Proof. intros Hr. pose proof (Hr id) as H. destruct H; split; congruence. Qed.

Lemma represents_insert s t id i r :
  represents s t -> represented id i r -> represents (<[id := i]> s) (<[id := r]> t).
Proof.
  intros Hr Hi id'. destruct (decide (id = id')) as [<-|Hne].
  - rewrite !lookup_insert_eq. by constructor.
  - rewrite !lookup_insert_ne by done. apply Hr.
Qed.

Lemma entry_NoDup t (l : list WorkItem) : NoDup (wi_ID <$> l) -> NoDup (entry t <$> l).*1.
Proof. intros H. rewrite <- list_fmap_compose. exact H. Qed.

(** The rows that meet a condition are those of the items that meet it. *)
Lemma rows_perm s t cond (p : WorkItem -> bool) :
  represents s t -> keyed s -> (forall id i r, s !! id = Some i -> represented id i r -> cond (id, r) = p i) ->
  filter (fun e => cond e = true) (map_range t) ≡ₚ entry t <$> filter (fun i => p i = true) (map_values s).
Proof.
  intros Hr Hk Hc. apply NoDup_Permutation.
  - apply NoDup_filter, NoDup_map_range.
  - eapply (NoDup_fmap_1 fst), entry_NoDup, NoDup_fmap_filter, keyed_values_NoDup. done.
  - intros [id r]. rewrite list_elem_of_filter, elem_of_map_range, list_elem_of_fmap. split.
    + intros [Hcond Ht]. destruct (represents_row s t id r Hr Ht) as (i & Hi & Hir).
      exists i. destruct Hir as (Hid & Hrest). rewrite list_elem_of_filter, keyed_elem, Hid by done.
      split; [unfold entry; rewrite Hid, Ht; done|]. split; [|done]. rewrite <- (Hc id i r); [done|done|by split].
    + intros (i & E & Hi). apply list_elem_of_filter in Hi as [Hp Hi]. rewrite keyed_elem in Hi by done.
      destruct (represents_item s t i Hr Hi) as [Ht Hir]. rewrite <- E in Ht, Hir. cbn in Ht, Hir.
      injection E as -> _. split; [|done]. by rewrite (Hc (wi_ID i) i).
Qed.

(** [ORDER BY available_at ASC, work_item_id ASC] is the order of the items. *)
Lemma select_available s t cond (p : WorkItem -> bool) :
  represents s t -> keyed s -> (forall id i r, s !! id = Some i -> represented id i r -> cond (id, r) = p i) ->
  select_where cond (order_by ri_available_at) t =
    (t, Ok (entry t <$> slices_SortFunc compare_items (filter (fun i => p i = true) (map_values s)))).
Proof.
  intros Hr Hk Hc. unfold select_where. rewrite run_gets. do 2 f_equal.
  pose proof (rows_perm s t cond p Hr Hk Hc) as Hp.
  set (l := filter (fun i => p i = true) (map_values s)) in *.
  assert (Hnd : NoDup (wi_ID <$> l)) by by apply NoDup_fmap_filter, keyed_values_NoDup.
  symmetry. apply SortFunc_unique; [apply _| | |by rewrite SortFunc_perm].
  - apply order_by_anti. rewrite Hp. by apply entry_NoDup.
  - assert (Hs : StronglySorted (cmp_le compare_items) (slices_SortFunc compare_items l))
      by (apply SortFunc_sorted; unfold compare_items; apply _).
    assert (Hin : forall i, i ∈ slices_SortFunc compare_items l -> s !! wi_ID i = Some i).
    { intros i. rewrite elem_of_SortFunc. unfold l. rewrite list_elem_of_filter, keyed_elem by done. tauto. }
    revert Hs Hin. generalize (slices_SortFunc compare_items l) as k. clear -Hr TC.
    intros k Hs Hin. induction Hs as [|i k Hs IH Hi]; cbn; constructor.
    + apply IH. intros j Hj. apply Hin. by right.
    + apply Forall_fmap. rewrite Forall_forall in Hi |- *. intros j Hj. specialize (Hi j Hj).
      destruct (represents_item s t i Hr) as [_ (_ & Hsi & Hri)]; [apply Hin; left|].
      destruct (represents_item s t j Hr) as [_ (_ & Hsj & Hrj)]; [apply Hin; by right|].
      unfold compose. apply order_by_le. apply compare_time_id_le in Hi.
      assert (Ei : ri_available_at (entry t i).2 = time_text (wi_AvailableAt i)) by by destruct Hri.
      assert (Ej : ri_available_at (entry t j).2 = time_text (wi_AvailableAt j)) by by destruct Hrj.
      rewrite Ei, Ej. rewrite clock_order by (apply st_available; done).
      destruct Hi as [Hlt|[-> Hid]]; [left; by apply Z.ltb_lt|by right].
Qed.

(** A loop that updates the rows of distinct items, one statement each. *)
Lemma update_loop {X R} (body : list R -> X -> SQL (list R)) (g : WorkItem -> X)
    (h : WorkItem -> work_items_row -> work_items_row) (res : WorkItem -> R) (row : WorkItem -> work_items_row)
    acc l t :
  NoDup (wi_ID <$> l) ->
  (forall i, i ∈ l -> t !! wi_ID i = Some (row i)) ->
  (forall acc i t, i ∈ l -> t !! wi_ID i = Some (row i) ->
     body acc (g i) t = (<[wi_ID i := h i (row i)]> t, Ok (acc ++ [res i]))) ->
  for_fold body acc (g <$> l) t =
    (foldl (fun t i => <[wi_ID i := h i (row i)]> t) t l, Ok (acc ++ (res <$> l))).
Proof.
  revert acc t. induction l as [|i l IH]; intros acc t Hnd Hl Hb.
  { cbn. by rewrite app_nil_r. }
  apply NoDup_cons in Hnd as [Hi Hnd]. cbn [fmap list_fmap]. rewrite run_for_fold_cons.
  erewrite run_bind_Ok; [|apply Hb; [left|apply Hl; left]]. rewrite IH.
  - cbn [foldl]. by rewrite <- app_assoc.
  - done.
  - intros j Hj. rewrite lookup_insert_ne; [apply Hl; by right|]. intros E. apply Hi. rewrite E.
    by apply list_elem_of_fmap_2.
  - intros acc' j t' Hj. apply Hb. by right.
Qed.

(** Reading rows one by one gives the items. *)
Lemma scan_loop acc l t0 t :
  (forall i, i ∈ l -> represented (wi_ID i) i (entry t0 i).2) ->
  for_fold (fun items entry => item ← scanWorkItem entry; mret (items ++ [item])) acc (entry t0 <$> l) t =
  (t, Ok (acc ++ l)).
Proof.
  revert acc. induction l as [|i l IH]; intros acc Hl.
  { cbn. by rewrite app_nil_r. }
  cbn [fmap list_fmap]. rewrite run_for_fold_cons. destruct (Hl i) as (_ & Hs & Hr); [left|].
  rewrite run_bind_assoc. erewrite run_bind_Ok; [|by apply scan_row]. rewrite run_bind_ret, IH.
  - by rewrite <- app_assoc.
  - intros j Hj. apply Hl. by right.
Qed.

(** The loop keeps the table a representation of the items. *)
Lemma represents_loop s s' t l (G : WorkItem -> WorkItem) (h : WorkItem -> work_items_row -> work_items_row) :
  represents s t -> keyed s -> NoDup (wi_ID <$> l) ->
  (forall i, i ∈ l -> s !! wi_ID i = Some i) ->
  (forall id, s' !! id = match s !! id with
     | Some i => Some (if bool_decide (i ∈ l) then G i else i) | None => None end) ->
  (forall id i r, i ∈ l -> represented id i r -> represented id (G i) (h i r)) ->
  represents s' (foldl (fun t' i => <[wi_ID i := h i (entry t i).2]> t') t l).
Proof.
  intros Hr Hk Hnd Hl Hs' HG id. rewrite Hs'.
  rewrite (foldl_insert_lookup (fun i => h i (entry t i).2)) by done.
  destruct (list_find (fun i => wi_ID i = id) l) as [[n i]|] eqn:E.
  - apply list_find_Some in E as (Hn%list_elem_of_lookup_2 & <- & _). rewrite (Hl i Hn).
    rewrite bool_decide_eq_true_2 by done. constructor. apply HG; [done|]. by apply (represents_item s), Hl.
  - rewrite list_find_None, Forall_forall in E. pose proof (Hr id) as H.
    destruct H as [i r Hi|]; [|constructor].
    rewrite bool_decide_eq_false_2; [by constructor|]. intros Hin. apply (E i Hin). apply Hi.
Qed.
End many.

(** ** The fenced methods *)

Section fenced.
Context `{MO : MapOrder} {P : time -> Prop} `{TC : !TextClock P}.
#[local] Abbreviation represented := (represented (P:=P)).
#[local] Abbreviation represents := (represents (P:=P)).

(** The answers agree and the table still represents the items. *)
Definition agrees {A} (m : store * outcome error A) (n : work_items * outcome error A) : Prop :=
  n.2 = m.2 /\ represents m.1 n.1.

Lemma Load_row s t id :
  represents s t -> SqlQueue.Load id t = (t, Ok (s !! id)).
Proof.
  intros Hr. unfold SqlQueue.Load. run_simpl. pose proof (Hr id) as H. destruct H as [i r (<- & Hs & Hi)|]; [|done].
  erewrite run_bind_Ok; [|by apply scan_row]. done.
Qed.

Lemma update_where_Some (t : work_items) id r cond set :
  t !! id = Some r -> update_where id cond set t =
  if cond r : bool then (<[id := set r]> t, Ok true) else (t, Ok false).
Proof. intros Ht. unfold update_where. run_simpl. rewrite Ht. by destruct (cond r). Qed.

Lemma Sqlite_fenced s t f (key : WorkItem -> string) (G : WorkItem -> WorkItem) (h : work_items_row -> work_items_row) :
  represents s t -> (forall i, wi_ID i = fv_WorkItemID f -> key i = fv_WorkItemID f) ->
  (forall i r, represented (fv_WorkItemID f) i r -> wi_Status i = WorkItemStatusClaimed ->
     represented (fv_WorkItemID f) (G i) (h r)) ->
  agrees (with_fence f (fun i => store_item (wi_ID i) (G i)) s)
         (withFence f (fun i => update_where (key i) (fun _ => true) h;; mret tt) t).
Proof.
  intros Hr Hkey HG. unfold withFence, with_fence, agrees. erewrite (run_bind_Ok (SqlQueue.Load _)) by by apply Load_row.
  run_simpl. destruct (s !! fv_WorkItemID f) as [i|] eqn:Ei; [|done].
  destruct (validateFenceAgainstItem i f) as [e|] eqn:Ev; [done|].
  pose proof (Hr (fv_WorkItemID f)) as H. rewrite Ei in H. inversion H as [? r Hir E1 E2|]; subst.
  apply validate_spec in Ev as (Hid & Hc & _). rewrite (Hkey i Hid).
  erewrite run_bind_Ok by exact (update_where_Some t _ r (fun _ => true) h (eq_sym E2)). rewrite run_ret. cbn. split; [done|].
  rewrite Hid. by apply represents_insert, HG.
Qed.

Lemma Postgres_fenced s t f (G : WorkItem -> WorkItem) (h : work_items_row -> work_items_row) :
  represents s t ->
  (forall i r, represented (fv_WorkItemID f) i r -> wi_Status i = WorkItemStatusClaimed ->
     represented (fv_WorkItemID f) (G i) (h r)) ->
  agrees (with_fence f (fun i => store_item (wi_ID i) (G i)) s) (Postgres.updateClaimedWorkItemCAS f h t).
Proof.
  intros Hr HG. unfold Postgres.updateClaimedWorkItemCAS, with_fence, agrees. run_simpl.
  assert (Hconflict : forall i e, s !! fv_WorkItemID f = Some i -> validateFenceAgainstItem i f = Some e ->
    Postgres.fenceConflictForCAS f t = (t, Err e)).
  { intros i e Hi He. unfold Postgres.fenceConflictForCAS.
    erewrite (run_bind_Ok (SqlQueue.Load _)) by by apply Load_row. by rewrite Hi, He. }
  destruct (s !! fv_WorkItemID f) as [i|] eqn:Ei.
  - pose proof (Hr (fv_WorkItemID f)) as H. rewrite Ei in H. inversion H as [? r Hir E1 E2|]; subst.
    pose proof (held_by_spec _ i r f Hir eq_refl) as Hheld.
    pose proof (update_where_Some t _ r (Postgres.held_by (fv_LeaseID f) (fv_FencingToken f) (fv_WorkerID f)) h
      (eq_sym E2)) as Hu.
    destruct (validateFenceAgainstItem i f) as [e|] eqn:Ev.
    + destruct (Postgres.held_by _ _ _ r); [discriminate (proj1 Hheld eq_refl)|].
      erewrite run_bind_Ok by exact Hu. cbv beta iota. by rewrite (Hconflict i e).
    + rewrite (proj2 Hheld eq_refl) in Hu. erewrite run_bind_Ok by exact Hu.
      apply validate_spec in Ev as (Hid & Hc & _). cbn. split; [done|].
      rewrite Hid. by apply represents_insert, HG.
  - pose proof (proj1 (represents_None s t _ Hr) Ei) as Et. assert (Hu : update_where (fv_WorkItemID f)
      (Postgres.held_by (fv_LeaseID f) (fv_FencingToken f) (fv_WorkerID f)) h t = (t, Ok false)).
    { unfold update_where. run_simpl. by rewrite Et. }
    assert (Hn : Postgres.fenceConflictForCAS f t = (t, Err (NotFoundError "work_item" (fv_WorkItemID f)))).
    { unfold Postgres.fenceConflictForCAS. erewrite (run_bind_Ok (SqlQueue.Load _)) by by apply Load_row.
      by rewrite Ei. }
    erewrite run_bind_Ok by exact Hu. cbv beta iota. by rewrite Hn.
Qed.
End fenced.

(** ** [ClaimReady] and [ReclaimExpired] *)

Section batches.
Context `{MO : MapOrder} {P : time -> Prop} `{TC : !TextClock P}.
#[local] Abbreviation represented := (represented (P:=P)).
#[local] Abbreviation represents := (represents (P:=P)).

Lemma represented_status id i r : represented id i r -> ri_status r = wi_Status i.
Proof. intros (_ & _ & Hr). by destruct Hr. Qed.

Lemma scan_entry i r t {A} (k : WorkItem -> SQL A) :
  represented (wi_ID i) i r -> (scanWorkItem (wi_ID i, r) ≫= k) t = k i t.
Proof. intros (_ & Hs & Hr). erewrite run_bind_Ok; [done|]. by apply scan_row. Qed.

Lemma select_ready_run s t now limit :
  represents s t -> keyed s -> P now ->
  select_ready now (if limit <=? 0 then 1 else limit) t =
    (t, Ok (entry t <$> take (effective_limit limit) (ready_items now s))).
Proof.
  intros Hr Hk Hn. unfold select_ready. erewrite run_bind_Ok; [|apply (select_available s t _ (is_ready now))].
  - rewrite run_ret, <- fmap_take. done.
  - done.
  - done.
  - intros id i r _ Hir. by apply row_ready_item.
Qed.

Lemma ready_represented s t now limit i :
  represents s t -> keyed s -> i ∈ take (effective_limit limit) (ready_items now s) ->
  s !! wi_ID i = Some i /\ is_ready now i = true /\ t !! wi_ID i = Some (entry t i).2 /\
  represented (wi_ID i) i (entry t i).2.
Proof.
  intros Hr Hk Hi. destruct (proj1 (elem_of_ready s now i Hk)) as [H1 H2].
  { eapply elem_of_sublist; [exact Hi|apply sublist_take]. }
  split_and!; [done|done|..]; by apply (represents_item (P:=P) s).
Qed.

Lemma transaction_Ok {row A} (m : ST error (gmap string row) A) t t' a :
  m t = (t', Ok a) -> transaction m t = (t', Ok a).
Proof. unfold transaction. by intros ->. Qed.

(** Both stores claim with the same loop of updates. *)
Definition claimed_rows w now ttl (t : work_items) (l : list WorkItem) : work_items :=
  foldl (fun t' i => <[wi_ID i := claim_row w now (Add now ttl) (claim_item w now ttl i) (entry t i).2]> t') t l.

Definition claims_of w now ttl (l : list WorkItem) : list WorkClaim :=
  (fun i => claim_of w now ttl (claim_item w now ttl i)) <$> l.

Lemma claims_agree s t w limit now ttl :
  represents s t -> keyed s -> P now -> P (Add now ttl) ->
  let claimed := take (effective_limit limit) (ready_items now s) in
  agrees (P:=P) (Queue.ClaimReady w limit now ttl s)
    (claimed_rows w now ttl t claimed, Ok (claims_of w now ttl claimed)).
Proof.
  intros Hr Hk Hn He claimed. destruct (ClaimReady_run w limit now ttl s Hk) as [H1 H2].
  split; [by rewrite H1|]. cbn [fst]. unfold claimed_rows.
  apply (represents_loop s _ t claimed (claim_item w now ttl)
    (fun i r => claim_row w now (Add now ttl) (claim_item w now ttl i) r)); [done|done| | |done|].
  - by apply ready_take_NoDup.
  - intros i Hi. by eapply (ready_represented s t).
  - intros id i r Hi Hir. eapply represented_claim; [done| |done|done]. by eapply (ready_represented s t).
Qed.

Lemma claim_update i r t w now ttl cond :
  t !! wi_ID i = Some r -> cond r = true ->
  update_where (wi_ID (claim_item w now ttl i)) cond (claim_row w now (Add now ttl) (claim_item w now ttl i)) t =
    (<[wi_ID i := claim_row w now (Add now ttl) (claim_item w now ttl i) r]> t, Ok true).
Proof. intros Ht Hc. rewrite claim_item_ID. erewrite update_where_Some by done. by rewrite Hc. Qed.

Lemma Sqlite_ClaimReady_run s t w limit now ttl :
  represents s t -> keyed s -> P now ->
  let claimed := take (effective_limit limit) (ready_items now s) in
  Sqlite.ClaimReady w limit now ttl t = (claimed_rows w now ttl t claimed, Ok (claims_of w now ttl claimed)).
Proof.
  intros Hr Hk Hn claimed. unfold Sqlite.ClaimReady. apply transaction_Ok.
  erewrite run_bind_Ok by by apply select_ready_run.
  rewrite (update_loop _ (entry t) (fun i r => claim_row w now (Add now ttl) (claim_item w now ttl i) r)
    (fun i => claim_of w now ttl (claim_item w now ttl i)) (fun i => (entry t i).2)); [done|..].
  - by apply ready_take_NoDup.
  - intros i Hi. by eapply (ready_represented s t).
  - intros acc i t' Hi Ht'. destruct (ready_represented s t now limit i Hr Hk Hi) as (_ & Hrd & _ & Hir).
    change (entry t i) with (wi_ID i, (entry t i).2). rewrite scan_entry by done. cbv zeta.
    assert (Hq : (ri_status (entry t i).2 == WorkItemStatusQueued) = true).
    { rewrite (represented_status _ _ _ Hir). unfold is_ready in Hrd. by apply andb_true_iff in Hrd as [? _]. }
    erewrite run_bind_Ok; [|by apply claim_update]. done.
Qed.

Lemma Postgres_ClaimReady_run s t w limit now ttl :
  represents s t -> keyed s -> P now ->
  let claimed := take (effective_limit limit) (ready_items now s) in
  Postgres.ClaimReady w limit now ttl t = (claimed_rows w now ttl t claimed, Ok (claims_of w now ttl claimed)).
Proof.
  intros Hr Hk Hn claimed. unfold Postgres.ClaimReady. apply transaction_Ok.
  erewrite run_bind_Ok by by apply select_ready_run.
  erewrite run_bind_Ok.
  2: { apply scan_loop. intros i Hi. by eapply (ready_represented s t). }
  cbn [app]. etrans; [apply (f_equal (fun l => for_fold _ _ l t)); symmetry; apply (list_fmap_id claimed)|].
  rewrite (update_loop _ id (fun i r => claim_row w now (Add now ttl) (claim_item w now ttl i) r)
    (fun i => claim_of w now ttl (claim_item w now ttl i)) (fun i => (entry t i).2)); [done|..].
  - by apply ready_take_NoDup.
  - intros i Hi. by eapply (ready_represented s t).
  - intros acc i t' Hi Ht'. cbv zeta. unfold id. erewrite run_bind_Ok; [|by apply claim_update]. done.
Qed.

(** [ReclaimExpired]: the expired items, in the order of the rows. *)
Lemma select_expired_run s t now :
  represents s t -> keyed s -> P now ->
  exists l, select_expired now t = (t, Ok (entry t <$> l)) /\
    l ≡ₚ filter (fun i => expired now i = true) (map_values s).
Proof.
  intros Hr Hk Hn. unfold select_expired, select_where. rewrite run_gets.
  assert (Hp : slices_SortFunc (order_by (fun r => from_null (ri_lease_expires_at r)))
      (filter (fun e => row_expired now e = true) (map_range t)) ≡ₚ
    entry t <$> filter (fun i => expired now i = true) (map_values s)).
  { rewrite SortFunc_perm. apply (rows_perm (P:=P)); [done|done|].
    intros id i r _ Hir. by eapply row_expired_item. }
  apply Permutation_map_inv in Hp as (l & -> & Hl). exists l. by split.
Qed.

(** What both loops need of the expired items. *)
Lemma expired_represented s t now l i :
  represents s t -> keyed s -> l ≡ₚ filter (fun i => expired now i = true) (map_values s) -> i ∈ l ->
  s !! wi_ID i = Some i /\ wi_Status i = WorkItemStatusClaimed /\ expired now i = true /\
  t !! wi_ID i = Some (entry t i).2 /\ represented (wi_ID i) i (entry t i).2.
Proof.
  intros Hr Hk Hl Hi. rewrite Hl, list_elem_of_filter, keyed_elem in Hi by done. destruct Hi as [He Hs].
  split_and!; [done| |done|by apply (represents_item (P:=P) s)..].
  unfold expired in He. by case_bool_decide.
Qed.

Definition reclaimed_rows now (t : work_items) (l : list WorkItem) : work_items :=
  foldl (fun t' i => <[wi_ID i := reclaim_row now (entry t i).2]> t') t l.

Definition reclaims_agree (m : store * outcome error (list LeaseReclaimResult))
    (n : work_items * outcome error (list LeaseReclaimResult)) : Prop :=
  represents m.1 n.1 /\ exists l l', m.2 = Ok l /\ n.2 = Ok l' /\ l ≡ₚ l'.

Lemma reclaims_agree_run s t now l :
  represents s t -> keyed s -> P now -> l ≡ₚ filter (fun i => expired now i = true) (map_values s) ->
  reclaims_agree (Queue.ReclaimExpired now s) (reclaimed_rows now t l, Ok (reclaim_result now <$> l)).
Proof.
  intros Hr Hk Hn Hl. destruct (ReclaimExpired_run now s) as [(rs & H1 & ->) H2]. split; cbn [fst snd].
  - apply (represents_loop s _ t l (reclaim_item now) (fun _ r => reclaim_row now r)); [done|done|..].
    + rewrite Hl. by apply NoDup_fmap_filter, keyed_values_NoDup.
    + intros i Hi. by eapply (expired_represented s t).
    + intros id. rewrite H2. destruct (s !! id) as [i|] eqn:E; [|done]. do 2 f_equal.
      assert (Hid : wi_ID i = id) by by apply Hk.
      assert (Hi : i ∈ l <-> expired now i = true).
      { rewrite Hl, list_elem_of_filter, keyed_elem, Hid by done. naive_solver. }
      case_bool_decide as Hb; [by rewrite (proj1 Hi)|]. destruct (expired now i); tauto.
    + intros id i r Hi Hir. eapply represented_reclaim; [done| |done]. by eapply (expired_represented s t).
  - eexists _, _. split_and!; [exact H1|done|]. by rewrite Hl.
Qed.

Lemma reclaim_update i r t now cond :
  t !! wi_ID i = Some r -> cond r = true ->
  update_where (wi_ID i) cond (reclaim_row now) t = (<[wi_ID i := reclaim_row now r]> t, Ok true).
Proof. intros Ht Hc. erewrite update_where_Some by done. by rewrite Hc. Qed.

Lemma ReclaimExpired_Sqlite s t now :
  represents s t -> keyed s -> P now -> reclaims_agree (Queue.ReclaimExpired now s) (Sqlite.ReclaimExpired now t).
Proof.
  intros Hr Hk Hn. destruct (select_expired_run s t now Hr Hk Hn) as (l & Hsel & Hl).
  cut (Sqlite.ReclaimExpired now t = (reclaimed_rows now t l, Ok (reclaim_result now <$> l))).
  { intros ->. by apply reclaims_agree_run. }
  unfold Sqlite.ReclaimExpired. erewrite run_bind_Ok by exact Hsel.
  rewrite (update_loop _ (entry t) (fun _ r => reclaim_row now r) (reclaim_result now) (fun i => (entry t i).2)); [done|..].
  - rewrite Hl. by apply NoDup_fmap_filter, keyed_values_NoDup.
  - intros i Hi. by eapply (expired_represented s t).
  - intros acc i t' Hi Ht'. destruct (expired_represented s t now l i Hr Hk Hl Hi) as (_ & Hc & _ & _ & Hir).
    change (entry t i) with (wi_ID i, (entry t i).2). rewrite scan_entry by done.
    erewrite run_bind_Ok; [|apply reclaim_update; [done|]]; [done|].
    rewrite (represented_status _ _ _ Hir), Hc. destruct Hir as (_ & _ & []). cbn. by rewrite Z.eqb_refl.
Qed.

Lemma ReclaimExpired_Postgres s t now :
  represents s t -> keyed s -> P now -> reclaims_agree (Queue.ReclaimExpired now s) (Postgres.ReclaimExpired now t).
Proof.
  intros Hr Hk Hn. destruct (select_expired_run s t now Hr Hk Hn) as (l & Hsel & Hl).
  cut (Postgres.ReclaimExpired now t = (reclaimed_rows now t l, Ok (reclaim_result now <$> l))).
  { intros ->. by apply reclaims_agree_run. }
  unfold Postgres.ReclaimExpired. apply transaction_Ok. erewrite run_bind_Ok by exact Hsel.
  erewrite run_bind_Ok.
  2: { apply scan_loop. intros i Hi. by eapply (expired_represented s t). }
  cbn [app]. etrans; [apply (f_equal (fun l => for_fold _ _ l t)); symmetry; apply (list_fmap_id l)|].
  rewrite (update_loop _ id (fun _ r => reclaim_row now r) (reclaim_result now) (fun i => (entry t i).2)); [done|..].
  - rewrite Hl. by apply NoDup_fmap_filter, keyed_values_NoDup.
  - intros i Hi. by eapply (expired_represented s t).
  - intros acc i t' Hi Ht'. destruct (expired_represented s t now l i Hr Hk Hl Hi) as (_ & Hc & _ & _ & Hir).
    unfold id. erewrite run_bind_Ok; [|apply reclaim_update; [done|]]; [done|].
    apply (held_by_spec (P:=P) (wi_ID i) i _ {| fv_WorkItemID := wi_ID i; fv_LeaseID := wi_LeaseID i;
      fv_FencingToken := wi_FencingToken i; fv_WorkerID := wi_ClaimedByWorkerID i |}); [done|done|].
    by apply validate_spec.
Qed.
End batches.

(** ** [Enqueue] *)

(** What the calls of the runtime give the stores: times of the clock, new
    items without stamps, and no dedupe key of blanks. *)
Definition storable_op (P : time -> Prop) (o : op) : Prop :=
  match o with
  | OpEnqueue item =>
      fresh_item item /\ wi_ID item <> "" /\ P (wi_AvailableAt item) /\
      (wi_LastUpdatedAt item = zero_time \/ wi_LastUpdatedAt item = wi_AvailableAt item) /\
      optional (P:=P) (wi_RetryNotBefore item) /\ 0 <= wi_AttemptCount item /\
      wi_CompletedAt item = None /\ wi_FailedAt item = None /\
      (wi_DedupeKey item = "" \/ TrimSpace (wi_DedupeKey item) <> "")
  | OpClaimReady _ _ now ttl => P now /\ P (Add now ttl)
  | OpHeartbeat h => P (lh_RecordedAt h) /\ P (lh_LeaseExpiresAt h)
  | OpComplete _ now => P now
  | OpFail _ _ now => P now
  | OpRequeue _ next _ now => P next /\ P now
  | OpReclaimExpired now => P now
  end.

Section enqueue.
Context `{MO : MapOrder} {P : time -> Prop} `{TC : !TextClock P}.
#[local] Abbreviation represented := (represented (P:=P)).
#[local] Abbreviation represents := (represents (P:=P)).
Implicit Types (s : store) (t : work_items) (item : WorkItem).

Lemma prepare_fresh item :
  storable_op P (OpEnqueue item) ->
  Sqlite.prepare item = enqueue_item item None /\ Postgres.prepare item = enqueue_item item None.
Proof.
  intros ((Hq & _) & _ & Hp%clock_nonzero & Hu & _ & Ha & _).
  unfold Sqlite.prepare, Postgres.prepare, enqueue_item. rewrite Hq, bool_decide_eq_false_2 by done. cbv zeta.
  assert (Hl : (if IsZero (wi_LastUpdatedAt item) then item <| wi_LastUpdatedAt := wi_AvailableAt item |> else item) =
    item <| wi_LastUpdatedAt := wi_AvailableAt item |>).
  { unfold IsZero. destruct Hu as [Hu|Hu]; rewrite Hu; [done|].
    rewrite (proj2 (Z.eqb_neq _ _)) by exact Hp. destruct item. cbn in Hu. by subst. }
  rewrite Hl. split; [|done]. change (wi_AttemptCount (item <| wi_LastUpdatedAt := _ |>)) with (wi_AttemptCount item).
  by rewrite (proj2 (Z.ltb_ge _ _)).
Qed.

Lemma represented_new item :
  storable_op P (OpEnqueue item) ->
  represented (wi_ID item) (enqueue_item item None) (item_row (enqueue_item item None)).
Proof.
  intros ((Hq & (H1 & H2 & H3 & H4 & H5) & _) & _ & Hp & _ & Hr & _ & Hc & Hf & _).
  assert (He : enqueue_item item None = item <| wi_LastUpdatedAt := wi_AvailableAt item |>).
  { unfold enqueue_item. by rewrite Hq, bool_decide_eq_false_2. }
  rewrite He. clear He. split_and!; [done| |].
  - destruct item. cbn in Hc, Hf, H4, H5. subst. by split.
  - change (item_row ?i) with (row_with i (nullString (wi_Reason i)) (nullString (wi_LeaseID i))
      (nullString (wi_ClaimToken i)) (nullString (wi_ClaimedByWorkerID i))).
    constructor; rewrite ?from_nullString; try done. intros Hcl. exfalso.
    change (wi_Status (item <| wi_LastUpdatedAt := _ |>)) with (wi_Status item) in Hcl. congruence.
Qed.

(** The active item that has the dedupe key, if any. *)
Definition dup_of (key : string) (i : WorkItem) : bool := (wi_DedupeKey i == key) && active i.

Lemma duplicates_dup_of item i :
  wi_DedupeKey item <> "" -> duplicates item i = dup_of (wi_DedupeKey item) i.
Proof. intros H. unfold duplicates, dup_of. by rewrite bool_decide_eq_false_2. Qed.

(** The store finds the same duplicate whatever the order it looks in. *)
Lemma first_duplicate s item order `{!CmpOrder order} :
  wf s -> wi_DedupeKey item <> "" ->
  wi_ID <$> head (slices_SortFunc order (filter (fun i => dup_of (wi_DedupeKey item) i = true) (map_values s))) =
  wi_ID ∘ snd <$> list_find (fun i => duplicates item i = true) (map_values s).
Proof.
  intros Hw Hd. set (l := filter _ (map_values s)).
  assert (Hin : forall i, i ∈ slices_SortFunc order l <-> s !! wi_ID i = Some i /\ duplicates item i = true).
  { intros i. unfold l. rewrite elem_of_SortFunc, list_elem_of_filter, keyed_elem by exact (wf_key s Hw).
    rewrite duplicates_dup_of by done. tauto. }
  destruct (list_find _ (map_values s)) as [[n e]|] eqn:E.
  - apply list_find_Some in E as (Hn%list_elem_of_lookup_2 & He & _). rewrite keyed_elem in Hn by exact (wf_key s Hw).
    assert (Hel : e ∈ slices_SortFunc order l) by by apply Hin.
    destruct (slices_SortFunc order l) as [|i k]; [by apply elem_of_nil in Hel|]. cbn. f_equal.
    destruct (proj1 (Hin i)) as [Hi1 Hi2]; [left|]. rewrite duplicates_dup_of in Hi2, He by done.
    unfold dup_of in Hi2, He. apply andb_true_iff in Hi2 as [Hi2%bool_decide_eq_true Hi3], He as [He2%bool_decide_eq_true He3].
    eapply (wf_dedupe s Hw _ _ i e); congruence.
  - rewrite list_find_None, Forall_forall in E. destruct (slices_SortFunc order l) as [|i k]; [done|].
    destruct (proj1 (Hin i)) as [Hi1 Hi2]; [left|]. destruct (E i); [|done].
    apply keyed_elem; [exact (wf_key s Hw)|done].
Qed.

Lemma row_duplicates_item id i r key :
  represented id i r -> key <> "" -> Sqlite.row_duplicates key (id, r) = dup_of key i.
Proof.
  intros Hir Hk. unfold Sqlite.row_duplicates, dup_of, active. cbn [snd]. rewrite (represented_status _ _ _ Hir).
  rewrite <- !andb_assoc. f_equal. destruct Hir as (_ & _ & []). apply bool_decide_ext. by apply nullString_eq.
Qed.

(** An item of a well-formed queue is active when it is queued or claimed. *)
Lemma row_active_item s id i r :
  wf s -> s !! id = Some i -> represented id i r -> Postgres.row_active r = active i.
Proof.
  intros Hw Hi Hir. unfold Postgres.row_active, active. rewrite (represented_status _ _ _ Hir).
  destruct (wf_item s Hw id i Hi) as [_ Hs]. by destruct (wi_Status i).
Qed.

Lemma head_entry t (l : list WorkItem) : fst <$> head (entry t <$> l) = wi_ID <$> head l.
Proof. by destruct l. Qed.

Lemma compare_items_order : CmpOrder compare_items.
Proof. unfold compare_items. apply _. Qed.

Lemma lookup_duplicate_run s t item :
  wf s -> represents s t ->
  Sqlite.lookup_duplicate item t =
    (t, Ok (wi_ID ∘ snd <$> list_find (fun i => duplicates item i = true) (map_values s))).
Proof.
  intros Hw Hr. unfold Sqlite.lookup_duplicate. case_bool_decide as Hd; cbn [negb].
  - rewrite run_ret. do 2 f_equal. destruct (list_find _ _) as [[n e]|] eqn:E; [|done].
    apply list_find_Some in E as (_ & He & _). unfold duplicates in He. by rewrite Hd in He.
  - erewrite run_bind_Ok; [|apply (select_available (P:=P) s t _ (dup_of (wi_DedupeKey item)))].
    + rewrite run_ret, head_entry. do 2 f_equal. apply first_duplicate; [apply compare_items_order|done|done].
    + done.
    + exact (wf_key s Hw).
    + intros id i r _ Hir. by apply row_duplicates_item.
Qed.

(** The answer of the three stores to a new item. *)
Definition enqueue_answer (item : WorkItem) (existing : option string) : WorkEnqueueResult :=
  match existing with
  | Some id => zero <| wq_Kind := wi_Kind item |>
                    <| wq_Disposition := WorkEnqueueDispositionDuplicateSuppressed |>
                    <| wq_DedupeKey := wi_DedupeKey item |> <| wq_ExistingWorkItemID := id |>
  | None => zero <| wq_WorkItemID := wi_ID item |> <| wq_Kind := wi_Kind item |>
                 <| wq_Disposition := WorkEnqueueDispositionEnqueued |> <| wq_DedupeKey := wi_DedupeKey item |>
  end.

Definition existing_of item s : option string :=
  wi_ID ∘ snd <$> list_find (fun i => duplicates item i = true) (map_values s).

Lemma Enqueue_memory_run s item :
  wi_ID item <> "" -> s !! wi_ID item = None ->
  Queue.Enqueue item s =
    (match existing_of item s with Some _ => s | None => <[wi_ID item := enqueue_item item None]> s end,
     Ok (enqueue_answer (enqueue_item item None) (existing_of item s))).
Proof.
  intros Hid Hs. unfold Queue.Enqueue, existing_of. rewrite bool_decide_eq_false_2 by done. run_simpl. rewrite Hs.
  assert (Hk : wi_Kind (enqueue_item item None) = wi_Kind item) by (unfold enqueue_item; by case_bool_decide).
  destruct (list_find _ _) as [[n e]|]; cbn [fmap option_fmap option_map compose snd enqueue_answer].
  - by rewrite Hk, enqueue_item_Dedupe.
  - cbv zeta. by rewrite enqueue_item_ID.
Qed.

(** A table keeps representing the queue when the same new item is inserted. *)
Lemma represents_enqueue s t item :
  represents s t -> storable_op P (OpEnqueue item) ->
  represents (<[wi_ID item := enqueue_item item None]> s) (<[wi_ID item := item_row (enqueue_item item None)]> t).
Proof. intros Hr Hi. apply represents_insert; [done|]. by apply represented_new. Qed.

Lemma existing_of_prepared item s : existing_of (enqueue_item item None) s = existing_of item s.
Proof.
  unfold existing_of. f_equal. apply list_find_ext. intros i. unfold duplicates. by rewrite enqueue_item_Dedupe.
Qed.

Lemma Enqueue_Sqlite s t item :
  wf s -> represents s t -> storable_op P (OpEnqueue item) -> s !! wi_ID item = None ->
  agrees (P:=P) (Queue.Enqueue item s) (Sqlite.Enqueue item t).
Proof.
  intros Hw Hr Hop Hs. pose proof Hop as (_ & Hid & _). rewrite Enqueue_memory_run by done.
  unfold Sqlite.Enqueue. rewrite bool_decide_eq_false_2 by done. cbv zeta.
  rewrite (proj1 (prepare_fresh item Hop)). erewrite run_bind_Ok by by apply lookup_duplicate_run.
  fold (existing_of (enqueue_item item None) s). rewrite existing_of_prepared.
  destruct (existing_of item s); split; cbn [fst snd]; try done.
  rewrite enqueue_item_ID. by apply represents_enqueue.
Qed.

(** *** Postgres: the unique index and the look-up after a conflict *)

Lemma active_dup_item s id i r key :
  wf s -> s !! id = Some i -> represented id i r -> key <> "" ->
  bool_decide (ri_dedupe_key r = Some key) && Postgres.row_active r = dup_of key i.
Proof.
  intros Hw Hi Hir Hk. unfold dup_of. rewrite (row_active_item s id i r Hw Hi Hir). f_equal.
  destruct Hir as (_ & _ & []). apply bool_decide_ext. by apply nullString_eq.
Qed.

Lemma is_Some_existing s item :
  wf s -> is_Some (existing_of item s) <-> exists id i, s !! id = Some i /\ duplicates item i = true.
Proof.
  intros Hw. unfold existing_of. rewrite fmap_is_Some. split.
  - intros [[n e] (Hn%list_elem_of_lookup_2 & He & _)%list_find_Some]. apply keyed_elem in Hn; [eauto|exact (wf_key s Hw)].
  - intros (id & i & Hi & Hd). eapply list_find_elem_of; [|exact Hd]. apply elem_of_map_values. eauto.
Qed.

Lemma violates_spec s t item :
  wf s -> represents s t -> storable_op P (OpEnqueue item) -> s !! wi_ID item = None ->
  existsb (Postgres.violates_unique (wi_ID item) (item_row (enqueue_item item None))) (map_range t) =
  bool_decide (is_Some (existing_of item s)).
Proof.
  intros Hw Hr ((Hq & _) & _) Hs. apply eq_true_iff_eq.
  rewrite bool_decide_eq_true, is_Some_existing, existsb_exists by done.
  assert (Hrow : Postgres.row_active (item_row (enqueue_item item None)) = true).
  { unfold Postgres.row_active. change (ri_status (item_row ?i)) with (wi_Status i).
    by rewrite (enqueue_item_Status _ _ Hq). }
  assert (Hv : forall id r, Postgres.violates_unique (wi_ID item) (item_row (enqueue_item item None)) (id, r) = true <->
    id = wi_ID item \/ wi_DedupeKey item <> "" /\
      bool_decide (ri_dedupe_key r = Some (wi_DedupeKey item)) && Postgres.row_active r = true).
  { intros id r. unfold Postgres.violates_unique. rewrite Hrow. cbn [fst snd].
    change (ri_dedupe_key (item_row ?i)) with (nullString (wi_DedupeKey i)). rewrite enqueue_item_Dedupe.
    unfold nullString. rewrite orb_true_iff, bool_decide_eq_true.
    case_bool_decide as Hd; [naive_solver|]. cbn [andb]. rewrite (andb_comm (Postgres.row_active r)). tauto. }
  split.
  - intros ([id r] & Hin & Hvr). apply list_elem_of_In, elem_of_map_range in Hin.
    destruct (represents_row s t id r Hr Hin) as (i & Hi & Hir). apply Hv in Hvr as [->|[Hd Hdup]]; [congruence|].
    exists id, i. split; [done|]. rewrite duplicates_dup_of by done. by rewrite <- (active_dup_item s id i r).
  - intros (id & i & Hi & Hdup). assert (Hid : wi_ID i = id) by by apply (wf_key s Hw).
    assert (Hd : wi_DedupeKey item <> "") by (intros E; unfold duplicates in Hdup; by rewrite E in Hdup).
    rewrite <- Hid in Hi. destruct (represents_item (P:=P) s t i Hr Hi) as [Ht Hir].
    exists (wi_ID i, (entry t i).2). split; [by apply list_elem_of_In, elem_of_map_range|]. apply Hv. right.
    split; [done|]. rewrite (active_dup_item s _ i) by done. by rewrite <- duplicates_dup_of.
Qed.

Lemma lookupActiveDedupe_run s t item id :
  wf s -> represents s t -> storable_op P (OpEnqueue item) -> existing_of item s = Some id ->
  Postgres.lookupActiveDedupe (enqueue_item item None) t = (t, Ok id).
Proof.
  intros Hw Hr (_ & _ & _ & _ & _ & _ & _ & _ & Hd) He.
  assert (Hne : wi_DedupeKey item <> "").
  { intros E. destruct (proj1 (is_Some_existing s item Hw)) as (j & i & _ & Hdup); [by eexists|].
    unfold duplicates in Hdup. by rewrite E in Hdup. }
  destruct Hd as [Hd|Hd]; [done|]. unfold Postgres.lookupActiveDedupe. rewrite enqueue_item_Dedupe.
  rewrite (bool_decide_eq_false_2 _ Hd). cbn [negb].
  erewrite run_bind_Ok; [|apply (select_available (P:=P) s t _ (dup_of (wi_DedupeKey item)))].
  - rewrite run_ret, head_entry. rewrite first_duplicate; [|apply compare_items_order|done|done].
    fold (existing_of item s). by rewrite He.
  - done.
  - exact (wf_key s Hw).
  - intros j i r Hi Hir. by apply (active_dup_item s j i r).
Qed.

Lemma Enqueue_Postgres s t item :
  wf s -> represents s t -> storable_op P (OpEnqueue item) -> s !! wi_ID item = None ->
  agrees (P:=P) (Queue.Enqueue item s) (Postgres.Enqueue item t).
Proof.
  intros Hw Hr Hop Hs. pose proof Hop as (_ & Hid & _). rewrite Enqueue_memory_run by done.
  unfold Postgres.Enqueue. rewrite bool_decide_eq_false_2 by done. cbv zeta.
  rewrite (proj2 (prepare_fresh item Hop)), enqueue_item_ID. unfold Postgres.insert_or_nothing. run_simpl.
  rewrite (violates_spec s t item) by done.
  destruct (existing_of item s) as [id|] eqn:E.
  - rewrite bool_decide_eq_true_2 by done. rewrite run_bind_ret. cbv beta iota.
    erewrite run_bind_Ok by by eapply lookupActiveDedupe_run. by split.
  - rewrite bool_decide_eq_false_2 by by intros [? ?]. unfold upsert. run_simpl. split; cbn [fst snd].
    + unfold enqueue_answer. by rewrite enqueue_item_ID.
    + by apply represents_enqueue.
Qed.
End enqueue.

(** ** Simulation *)

Section simulation.
Context `{MO : MapOrder} {P : time -> Prop} `{TC : !TextClock P}.
#[local] Abbreviation represents := (represents (P:=P)).

(** One call keeps the representation and gets the same answer. *)
Definition simulates (Q : WorkQueueStore work_items) : Prop := forall (o : op) (s : store) (t : work_items),
  wf s -> represents s t -> storable_op P o ->
  (forall item, o = OpEnqueue item -> s !! wi_ID item = None) ->
  same_answer (perform memory_queue o s).2 (perform Q o t).2 /\
  represents (perform memory_queue o s).1 (perform Q o t).1.

Lemma agrees_done {A} (resp : outcome error A -> response) (m : store * outcome error A) (n : work_items * outcome error A) :
  agrees (P:=P) m n ->
  same_answer (answer resp m).2 (answer resp n).2 /\ represents (answer resp m).1 (answer resp n).1.
Proof. intros [H1 H2]. cbn. rewrite H1. split; [apply same_response|done]. Qed.

Lemma reclaims_done m n :
  reclaims_agree (P:=P) m n ->
  same_answer (answer RespReclaimed m).2 (answer RespReclaimed n).2 /\
  represents (answer RespReclaimed m).1 (answer RespReclaimed n).1.
Proof. intros (H & l & l' & H1 & H2 & Hp). cbn. rewrite H1, H2. split; [by apply same_reclaimed|done]. Qed.

Lemma Sqlite_simulates : simulates sqlite_queue.
Proof.
  intros o s t Hw Hr Hop Hnew. assert (Hk : keyed s) by exact (wf_key s Hw).
  destruct o as [item|w l n ttl|h|f n|f m n|f a m n|n]; cbn [storable_op] in Hop;
    [apply (agrees_done RespEnqueue)|apply (agrees_done RespClaims)|apply (agrees_done RespDone)..|apply reclaims_done].
  - apply Enqueue_Sqlite; auto.
  - destruct Hop as [Hn He]. pose proof (claims_agree (P:=P) s t w l n ttl Hr Hk Hn He) as H. cbv zeta in H.
    by rewrite <- (Sqlite_ClaimReady_run (P:=P) s t w l n ttl Hr Hk Hn) in H.
  - apply (Sqlite_fenced s t (fence_of_heartbeat h) (fun _ => lh_WorkItemID h) (heartbeat_item h)); [done|done|].
    intros i r Hir _. destruct Hop. by apply represented_heartbeat.
  - apply (Sqlite_fenced s t f wi_ID (finish_item WorkItemStatusCompleted "" n)); [done|done|].
    intros i r Hir Hc. apply represented_finish; auto.
  - apply (Sqlite_fenced s t f wi_ID (finish_item WorkItemStatusFailed m n)); [done|done|].
    intros i r Hir Hc. apply represented_finish; auto.
  - apply (Sqlite_fenced s t f (fun _ => fv_WorkItemID f) (requeue_item a m n)); [done|done|].
    intros i r Hir Hc. destruct Hop. by apply represented_requeue.
  - by apply ReclaimExpired_Sqlite.
Qed.

Lemma Postgres_simulates : simulates postgres_queue.
Proof.
  intros o s t Hw Hr Hop Hnew. assert (Hk : keyed s) by exact (wf_key s Hw).
  destruct o as [item|w l n ttl|h|f n|f m n|f a m n|n]; cbn [storable_op] in Hop;
    [apply (agrees_done RespEnqueue)|apply (agrees_done RespClaims)|apply (agrees_done RespDone)..|apply reclaims_done].
  - apply Enqueue_Postgres; auto.
  - destruct Hop as [Hn He]. pose proof (claims_agree (P:=P) s t w l n ttl Hr Hk Hn He) as H. cbv zeta in H.
    by rewrite <- (Postgres_ClaimReady_run (P:=P) s t w l n ttl Hr Hk Hn) in H.
  - apply (Postgres_fenced s t (fence_of_heartbeat h) (heartbeat_item h)); [done|].
    intros i r Hir _. destruct Hop. by apply represented_heartbeat.
  - apply (Postgres_fenced s t f (finish_item WorkItemStatusCompleted "" n)); [done|].
    intros i r Hir Hc. apply represented_finish; auto.
  - apply (Postgres_fenced s t f (finish_item WorkItemStatusFailed m n)); [done|].
    intros i r Hir Hc. apply represented_finish; auto.
  - apply (Postgres_fenced s t f (requeue_item a m n)); [done|].
    intros i r Hir Hc. destruct Hop. by apply represented_requeue.
  - by apply ReclaimExpired_Postgres.
Qed.

Lemma perform_memory_run o s : (perform memory_queue o s).1 = run_op o s.
Proof. by destruct o. Qed.

Lemma storable_legal o : storable_op P o -> legal o.
Proof. destruct o; cbn; tauto. Qed.

(** The IDs of the items that the calls bring. *)
Definition enqueued (ops : list op) : list string :=
  omap (fun o => match o with OpEnqueue item => Some (wi_ID item) | _ => None end) ops.

(** A call stores no item but the one it enqueues. *)
Lemma run_op_new o s id :
  keyed s -> storable_op P o -> s !! id = None -> id ∉ enqueued [o] -> run_op o s !! id = None.
Proof.
  intros Hk Hop Hs Hid.
  assert (Hu : (forall item, o <> OpEnqueue item) -> run_op o s !! id = None).
  { intros Ho. pose proof (run_op_item_update o s id Hk Ho) as H. rewrite Hs in H. by inversion H. }
  destruct o as [item|?|?|?|?|?|?]; try (apply Hu; discriminate). destruct Hop as (_ & Hne & _).
  cbn [run_op]. destruct (Enqueue_cases item s Hne) as [(_ & _ & _ & _ & -> & _)|(_ & -> & _)]; [done|].
  rewrite lookup_insert_ne; [done|]. intros E. apply Hid. cbn. rewrite E. left.
Qed.

Lemma answers_simulated Q ops s t :
  simulates Q -> wf s -> represents s t -> Forall (storable_op P) ops -> NoDup (enqueued ops) ->
  (forall id, id ∈ enqueued ops -> s !! id = None) ->
  Forall2 same_answer (answers memory_queue ops s) (answers Q ops t).
Proof.
  intros HQ. revert s t. induction ops as [|o ops IH]; intros s t Hw Hr Hall Hnd Hnew; cbn [answers]; [constructor|].
  apply Forall_cons in Hall as [Ho Hall].
  assert (Hsplit : enqueued (o :: ops) = enqueued [o] ++ enqueued ops) by (by destruct o).
  rewrite Hsplit in Hnd, Hnew. apply NoDup_app in Hnd as (_ & Hdisj & Hnd).
  destruct (HQ o s t Hw Hr Ho) as [Ha Hr'].
  { intros item ->. apply Hnew. cbn. by left. }
  constructor; [exact Ha|]. apply IH; try done.
  - rewrite perform_memory_run. eapply step_wf; [|done]. constructor. by apply storable_legal.
  - intros id Hid. rewrite perform_memory_run. apply run_op_new; [exact (wf_key s Hw)|done| |].
    + apply Hnew, elem_of_app. by right.
    + intros Hin. by apply (Hdisj id Hin).
Qed.

Lemma represents_empty : represents NewInMemoryWorkQueueStore ∅.
Proof. intros id. rewrite !lookup_empty. constructor. Qed.
End simulation.

(** ** The refinement *)

(** C8: the SQLite and the Postgres work queue implement the in-memory queue.
    Started empty and given the same calls, in any number and order, each
    answers every call as the in-memory queue does (a reclaim reports the same
    leases, perhaps in another order), rejections included, when the times of
    the clock compare as text (whole seconds, or nanosecond stamps that need
    all nine digits) and every new item has an ID of its own. *)
Theorem sql_queues_refine_memory_queue `{MO : MapOrder} (P : time -> Prop) `{TC : !TextClock P} (ops : list op) :
  Forall (storable_op P) ops -> NoDup (enqueued ops) ->
  Forall2 same_answer (answers memory_queue ops NewInMemoryWorkQueueStore) (answers sqlite_queue ops ∅) /\
  Forall2 same_answer (answers memory_queue ops NewInMemoryWorkQueueStore) (answers postgres_queue ops ∅).
Proof.
  intros Hall Hnd.
  split; (eapply (answers_simulated (P:=P)); [|by apply empty_wf|by apply represents_empty|done|done|]);
    [apply Sqlite_simulates| |apply Postgres_simulates|]; intros id _; apply lookup_empty.
Qed.

(** Two items are enqueued, the second a duplicate of the first; one is
    claimed, its lease runs out, it is claimed again, and the first worker's
    fence is rejected. *)
Definition at_second (n : Z) : time := 63745207861 * Second + n * Second.

Definition second_item (id : string) : WorkItem :=
  zero <| wi_ID := id |> <| wi_Kind := WorkItemKindExecuteReadyTask |> <| wi_Status := WorkItemStatusQueued |>
       <| wi_DedupeKey := "execute:g1" |> <| wi_AvailableAt := at_second 0 |>.

Definition first_fence : FenceValidation :=
  Eval vm_compute in fence_of_claim (claim_of "a" (at_second 1) (10 * Second)
    (claim_item "a" (at_second 1) (10 * Second) (enqueue_item (second_item "w1") None))).

Definition sample_calls : list op :=
  [OpEnqueue (second_item "w1"); OpEnqueue (second_item "w2"); OpClaimReady "a" 5 (at_second 1) (10 * Second);
   OpReclaimExpired (at_second 20); OpClaimReady "b" 5 (at_second 21) (10 * Second);
   OpComplete first_fence (at_second 22)].

Lemma at_second_clock n : 0 <= n < 1000 -> second_clock (at_second n).
Proof.
  intros Hn. unfold second_clock, in_text_range, whole_second, zero_time, at_second, last_day, Hour, Minute, Second.
  split_and!; try lia. rewrite <- Z.mul_add_distr_r. by rewrite Z.mod_mul.
Qed.

Lemma sample_calls_storable : Forall (storable_op second_clock) sample_calls.
Proof.
  assert (Hi : forall id, id <> "" -> storable_op second_clock (OpEnqueue (second_item id))).
  { intros id Hid. unfold storable_op. split; [by split_and!|]. split; [done|].
    split; [by apply at_second_clock|]. split; [by left|]. split_and!; try done. right. by vm_compute. }
  assert (H10 : forall n, Add (at_second n) (10 * Second) = at_second (n + 10)) by (intros n; unfold Add, at_second; lia).
  unfold sample_calls. repeat constructor; cbn [storable_op]; rewrite ?H10; try (by apply at_second_clock); by apply Hi.
Qed.

Lemma sql_queues_refine_memory_queue_witness :
  let MO := canonical_order in
  Forall2 same_answer (answers memory_queue sample_calls NewInMemoryWorkQueueStore) (answers postgres_queue sample_calls ∅).
Proof.
  apply (sql_queues_refine_memory_queue (MO:=canonical_order) second_clock sample_calls).
  - exact sample_calls_storable.
  - vm_compute. repeat constructor; set_solver.
Defined.

(** ** Where the SQL stores differ from it and from each other *)

(** The table after some calls of the SQLite store. *)
Definition sqlite_after (ops : list op) : work_items :=
  let MO := canonical_order in foldl (fun t o => (perform sqlite_queue o t).1) ∅ ops.

Lemma scan_time_same {S} v : respects (E:=error) (S:=S) eq (scan_time v).
Proof. unfold scan_time. destruct (mustParseTime v); auto with respects typeclass_instances. Qed.

Lemma scan_nullable_same {S} v : respects (E:=error) (S:=S) eq (scan_nullable v).
Proof. destruct v; cbn; [|apply respects_ret; apply _]. apply respects_bind; [apply _|apply scan_time_same|]. intros a. apply respects_ret, _. Qed.

#[export] Hint Resolve scan_time_same scan_nullable_same : respects.

Lemma scanWorkItem_same e : respects eq (scanWorkItem e).
Proof. destruct e as [id r]. unfold scanWorkItem.
  repeat first [apply scan_time_same | apply scan_nullable_same | apply respects_bind; [apply _| |intros ?]].
  apply respects_ret, _.
Qed.

Lemma fenceConflictForCAS_fails f t :
  (Postgres.fenceConflictForCAS f t).1 = t /\ is_ok (Postgres.fenceConflictForCAS f t).2 = false.
Proof.
  unfold Postgres.fenceConflictForCAS, SqlQueue.Load. run_simpl. destruct (t !! fv_WorkItemID f) as [r|]; [|done].
  run_simpl. unfold mbind, ST_bind. pose proof (scanWorkItem_same (fv_WorkItemID f, r) t) as H.
  destruct (scanWorkItem _ t) as [t' [i|e|w|]]; cbn in H; subst; try done.
  unfold mret, ST_ret. by destruct (validateFenceAgainstItem i f).
Qed.

(** *** The four calls under a fence *)

Inductive fenced_call :=
| FencedComplete (now : time)
| FencedFail (summary : string) (now : time)
| FencedRequeue (nextAvailableAt : time) (reason : string) (now : time)
| FencedHeartbeat (recordedAt expiresAt : time).

Definition heartbeat_under (f : FenceValidation) (recordedAt expiresAt : time) : LeaseHeartbeat := {|
  lh_WorkItemID := fv_WorkItemID f; lh_LeaseID := fv_LeaseID f; lh_FencingToken := fv_FencingToken f;
  lh_WorkerID := fv_WorkerID f; lh_RecordedAt := recordedAt; lh_LeaseExpiresAt := expiresAt |}.

Definition pg_call (f : FenceValidation) (call : fenced_call) : SqlQueue.SQL unit :=
  match call with
  | FencedComplete now => Postgres.Complete f now
  | FencedFail summary now => Postgres.Fail f summary now
  | FencedRequeue nextAvailableAt reason now => Postgres.Requeue f nextAvailableAt reason now
  | FencedHeartbeat recordedAt expiresAt => Postgres.Heartbeat (heartbeat_under f recordedAt expiresAt)
  end.

Definition sqlite_call (f : FenceValidation) (call : fenced_call) : SqlQueue.SQL unit :=
  match call with
  | FencedComplete now => Sqlite.Complete f now
  | FencedFail summary now => Sqlite.Fail f summary now
  | FencedRequeue nextAvailableAt reason now => Sqlite.Requeue f nextAvailableAt reason now
  | FencedHeartbeat recordedAt expiresAt => Sqlite.Heartbeat (heartbeat_under f recordedAt expiresAt)
  end.

(** The row a call writes over [r]. *)
Definition given_up (r : work_items_row) (now : time) (status : WorkItemStatus) (reason : string) : work_items_row :=
  r <| ri_status := status |> <| ri_reason := Some reason |> <| ri_last_updated_at := time_text now |>
    <| ri_claimed_at := None |> <| ri_lease_id := None |> <| ri_claim_token := None |>
    <| ri_claimed_by_worker_id := None |> <| ri_lease_expires_at := None |>.

Definition written (call : fenced_call) (r : work_items_row) : work_items_row :=
  match call with
  | FencedComplete now =>
      given_up r now WorkItemStatusCompleted "" <| ri_completed_at := Some (time_text now) |> <| ri_failed_at := None |>
  | FencedFail summary now =>
      given_up r now WorkItemStatusFailed summary <| ri_completed_at := None |> <| ri_failed_at := Some (time_text now) |>
  | FencedRequeue nextAvailableAt reason now =>
      given_up r now WorkItemStatusQueued reason <| ri_available_at := time_text nextAvailableAt |>
  | FencedHeartbeat recordedAt expiresAt =>
      r <| ri_last_updated_at := time_text recordedAt |> <| ri_lease_expires_at := Some (time_text expiresAt) |>
  end.

(** The fence names the lease the row is under. *)
Definition names_lease (f : FenceValidation) (r : work_items_row) : Prop :=
  ri_status r = WorkItemStatusClaimed /\ ri_lease_id r = Some (fv_LeaseID f) /\
  ri_fencing_token r = fv_FencingToken f /\ ri_claimed_by_worker_id r = Some (fv_WorkerID f).

Lemma held_by_names f r :
  Postgres.held_by (fv_LeaseID f) (fv_FencingToken f) (fv_WorkerID f) r = true <-> names_lease f r.
Proof. unfold Postgres.held_by, names_lease. rewrite !andb_true_iff, !bool_decide_eq_true, Z.eqb_eq. tauto. Qed.

(** The assignments of the UPDATE of a call. *)
Definition assigns (f : FenceValidation) (call : fenced_call) : work_items_row -> work_items_row :=
  match call with
  | FencedComplete now => finish_row WorkItemStatusCompleted "" now
  | FencedFail summary now => finish_row WorkItemStatusFailed summary now
  | FencedRequeue nextAvailableAt reason now => requeue_row nextAvailableAt reason now
  | FencedHeartbeat recordedAt expiresAt => heartbeat_row (heartbeat_under f recordedAt expiresAt)
  end.

Lemma assigns_written f call r : assigns f call r = written call r.
Proof. by destruct call, r. Qed.

Lemma pg_call_cas f call : pg_call f call = Postgres.updateClaimedWorkItemCAS f (assigns f call).
Proof. by destruct f, call. Qed.

(** A call of the SQLite store with other statements, of any worker, between
    the one that reads the fence and the one that writes. *)
Definition sqlite_interleaved (f : FenceValidation) (call : fenced_call) (others : work_items -> work_items)
    : SqlQueue.SQL unit :=
  SqlQueue.withFence f (fun item =>
    modify others;; update_where (wi_ID item) (fun _ => true) (assigns f call);; mret tt).

Lemma Load_ID id t t' i : SqlQueue.Load id t = (t', Ok (Some i)) -> t' = t /\ wi_ID i = id.
Proof.
  unfold SqlQueue.Load. run_simpl. destruct (t !! id) as [r|]; [|by intros [= <-]]. intros H.
  pose proof (scanWorkItem_same (id, r) t) as Hs. unfold mbind, ST_bind in H. destruct (scanWorkItem (id, r) t) as [t1 o] eqn:E.
  cbn in Hs. subst t1. destruct o as [j|e|w|]; try discriminate. unfold mret, ST_ret in H. injection H as <- <-.
  split; [done|]. unfold scanWorkItem in E. 
  repeat (apply run_bind_inv_Ok in E as (? & ? & _ & E)). by injection E as _ <-.
Qed.

(** What [withFence] runs once the fence is accepted. *)
Lemma withFence_run {A} f (k : WorkItem -> SqlQueue.SQL A) t :
  (SqlQueue.ValidateFence f t).2 = Ok tt ->
  exists i, wi_ID i = fv_WorkItemID f /\ SqlQueue.withFence f k t = k i t.
Proof.
  unfold SqlQueue.ValidateFence, SqlQueue.withFence, mbind, ST_bind.
  destruct (SqlQueue.Load (fv_WorkItemID f) t) as [t1 [[i|]|e|w|]] eqn:E; intros H; try discriminate H.
  destruct (Load_ID _ _ _ _ E) as [-> Hid]. destruct (validateFenceAgainstItem i f); [discriminate H|]. by exists i.
Qed.

Lemma withFence_ext {A} f (k k' : WorkItem -> SqlQueue.SQL A) t :
  (forall i t, wi_ID i = fv_WorkItemID f -> k i t = k' i t) -> SqlQueue.withFence f k t = SqlQueue.withFence f k' t.
Proof.
  intros H. unfold SqlQueue.withFence, mbind, ST_bind. destruct (SqlQueue.Load (fv_WorkItemID f) t) as [t1 [[i|]|e|w|]] eqn:E; try done.
  destruct (Load_ID _ _ _ _ E) as [_ Hid]. destruct (validateFenceAgainstItem i f); [done|]. by apply H.
Qed.

(** C33: What the fence protects when statements of other workers come in
    between, for [Complete], [Fail], [Requeue] and [Heartbeat].  In Postgres
    one UPDATE checks and writes: if the item's row is claimed under the very
    lease, fencing token and worker of the fence, the call succeeds and writes
    its columns over that row; in every other state of the table it fails and
    writes nothing.  In SQLite the check and the UPDATE are two statements
    (with nothing in between they are the call): whatever other statements
    make of the table after the check, the UPDATE writes over the row they
    left, under whatever lease it then is. *)
Theorem fenced_update_atomic `{MO : MapOrder} (f : FenceValidation) (call : fenced_call) :
  (forall t r, t !! fv_WorkItemID f = Some r -> names_lease f r ->
     pg_call f call t = (<[fv_WorkItemID f := written call r]> t, Ok tt)) /\
  (forall t, ~ (exists r, t !! fv_WorkItemID f = Some r /\ names_lease f r) ->
     (pg_call f call t).1 = t /\ is_ok (pg_call f call t).2 = false) /\
  (forall t, sqlite_call f call t = sqlite_interleaved f call (fun t => t) t) /\
  (forall t others r, (SqlQueue.ValidateFence f t).2 = Ok tt -> others t !! fv_WorkItemID f = Some r ->
     sqlite_interleaved f call others t = (<[fv_WorkItemID f := written call r]> (others t), Ok tt)).
Proof.
  rewrite !pg_call_cas. split_and!.
  - intros t r Hr Hh%held_by_names. unfold Postgres.updateClaimedWorkItemCAS, update_where. run_simpl.
    rewrite Hr, Hh. run_simpl. by rewrite assigns_written.
  - intros t Hno. destruct (fenceConflictForCAS_fails f t) as [H1 H2].
    unfold Postgres.updateClaimedWorkItemCAS, update_where. run_simpl.
    destruct (t !! fv_WorkItemID f) as [r|] eqn:E; [|by run_simpl].
    destruct (Postgres.held_by _ _ _ r) eqn:Hh; [|by run_simpl]. apply held_by_names in Hh. destruct Hno. by exists r.
  - intros t. destruct f as [id lease token worker]. destruct call; apply withFence_ext; intros i t' Hid; cbn in Hid |- *;
      unfold Sqlite.finish_update; run_simpl; by rewrite ?Hid.
  - intros t others r Hv Hr. unfold sqlite_interleaved.
    match goal with |- SqlQueue.withFence _ ?k _ = _ =>
      destruct (withFence_run f k t Hv) as (i & Hid & ->) end.
    rewrite Hid. unfold update_where. run_simpl.
    rewrite Hr. run_simpl. by rewrite assigns_written.
Qed.

(** Worker a passes the check, its lease is reclaimed and worker b claims the
    item: a completes the item under b's lease. *)
Lemma fenced_update_atomic_witness :
  let checked := sqlite_after [OpEnqueue (second_item "w1"); OpClaimReady "a" 5 (at_second 1) (10 * Second)] in
  let others t := (Sqlite.ClaimReady (MO := canonical_order) "b" 5 (at_second 21) (10 * Second)
    (Sqlite.ReclaimExpired (MO := canonical_order) (at_second 20) t).1).1 in
  (ri_claimed_by_worker_id <$> others checked !! "w1") = Some (Some "b") /\
  (ri_status <$> (sqlite_interleaved first_fence (FencedComplete (at_second 22)) others checked).1 !! "w1")
    = Some WorkItemStatusCompleted.
Proof.
  intros checked others. destruct (others checked !! "w1") as [r|] eqn:Hr; [|vm_compute in Hr; discriminate].
  pose proof (proj2 (proj2 (proj2 (fenced_update_atomic (MO := canonical_order) first_fence (FencedComplete (at_second 22)))))
    checked others r ltac:(vm_compute; reflexivity) Hr) as H.
  rewrite H. cbn [fst]. split.
  - vm_compute in Hr. injection Hr as <-. reflexivity.
  - change (fv_WorkItemID first_fence) with "w1". rewrite lookup_insert_eq. reflexivity.
Defined.

(** The upsert of the SQLite [Enqueue] writes the fencing token of the new
    item over the one its ID had, so tokens are not monotone there; the
    in-memory store keeps the current token ([Enqueue_spec]). *)
Lemma sqlite_reenqueue_resets_token :
  let first := [OpEnqueue (second_item "w1"); OpClaimReady "a" 5 (at_second 1) (10 * Second);
                OpComplete first_fence (at_second 2)] in
  (ri_fencing_token <$> sqlite_after first !! "w1") = Some 1 /\
  (ri_fencing_token <$> sqlite_after (first ++ [OpEnqueue (second_item "w1")]) !! "w1") = Some 0.
Proof. vm_compute. split; reflexivity. Qed.
