(* ===== verification/Stores.v ===== *)
(** * The in-memory stores and their properties *)

From S2P Require Export RuntimeTypes.
#[local] Open Scope Z_scope.

(** * The in-memory stores of the runtime

    One Module per store: [TaskGraphs] (task_graph.go), [Executions]
    (execution_store.go), [Approvals] (approval_store.go), [OperatorActions]
    (operator_action_store.go), [Checkpoints] (checkpoint_store.go), [Replay]
    (replay_store.go) and [Artifacts] (artifact_store.go).  Every method holds
    the store's mutex for its whole body, so each is one atomic operation.
    Approvals, executions and task graphs are updated by compare-and-swap on
    a version. *)

(** ** [InMemoryTaskGraphStore] *)

Module TaskGraphs.
Record store := mk {
  snapshots : gmap string TaskGraphSnapshot;
  states : gmap string StateSnapshot
}.
#[export] Instance eta_store : Eta store := eta! mk < snapshots ; states >.

Definition NewInMemoryTaskGraphStore : store := mk ∅ ∅.

(** The three writes that [Save] and [Update] share. *)
Definition write_snapshot (snapshot : TaskGraphSnapshot) : ST error store unit :=
  modify (fun s => s <| snapshots := <[tg_GraphID (gs_Graph snapshot) := snapshot]> (snapshots s) |>);;
  modify (fun s => s <| states := <[gs_BaseStateSnapshotRef snapshot := gs_BaseStateSnapshot snapshot]> (states s) |>);;
  modify (fun s => s <| states :=
    <[gs_LatestCommittedStateRef snapshot := gs_LatestCommittedStateSnapshot snapshot]> (states s) |>).

Definition Save (snapshot : TaskGraphSnapshot) : ST error store unit := write_snapshot snapshot.

Definition Update (snapshot : TaskGraphSnapshot) (expectedVersion : Z) : ST error store unit :=
  s ← get;
  match snapshots s !! tg_GraphID (gs_Graph snapshot) with
  | None => fail (NotFoundError "task_graph" (tg_GraphID (gs_Graph snapshot)))
  | Some current =>
      if gs_Version current != expectedVersion then
        fail (ConflictError "task_graph" (tg_GraphID (gs_Graph snapshot))
                ("expected version " +:+ Itoa expectedVersion +:+ ", got " +:+ Itoa (gs_Version current)))
      else write_snapshot snapshot
  end.

Definition Load (graphID : string) : ST error store (option TaskGraphSnapshot) :=
  gets (fun s => snapshots s !! graphID).

Definition List `{MO : MapOrder} : ST error store (list TaskGraphSnapshot) :=
  gets (fun s => map_values (snapshots s)).

Definition SaveStateSnapshot (graphID workflowID taskID kind : string) (snapshot : StateSnapshot)
    : ST error store string :=
  let ref := snapshotRefFor snapshot in
  if ref == "" then fail (PlainError "state snapshot requires snapshot id") else
  modify (fun s => s <| states := <[ref := snapshot]> (states s) |>);;
  mret ref.

Definition LoadStateSnapshot (snapshotRef : string) : ST error store (option StateSnapshot) :=
  gets (fun s => states s !! snapshotRef).
End TaskGraphs.

(** ** [InMemoryTaskExecutionStore] *)

Module Executions.
Abbreviation store := (gmap string TaskExecutionRecord).

Definition NewInMemoryTaskExecutionStore : store := ∅.

Definition Save (record : TaskExecutionRecord) : ST error store unit :=
  records ← get;
  if te_ExecutionID record == "" then fail (ConflictError "task_execution" "" "execution id is required")
  else if is_set (records !! te_ExecutionID record)
  then fail (ConflictError "task_execution" (te_ExecutionID record) "execution already exists")
  else
    let record := if te_Version record == 0 then record <| te_Version := 1 |> else record in
    put (<[te_ExecutionID record := record]> records).

Definition Update (record : TaskExecutionRecord) (expectedVersion : Z) : ST error store unit :=
  records ← get;
  match records !! te_ExecutionID record with
  | None => fail (NotFoundError "task_execution" (te_ExecutionID record))
  | Some current =>
      if (0 <? expectedVersion) && (te_Version current != expectedVersion)
      then fail (ConflictError "task_execution" (te_ExecutionID record) "version mismatch")
      else
        let record := record <| te_Version := wrap64 (te_Version current + 1) |> in
        put (<[te_ExecutionID record := record]> records)
  end.

Definition Load (executionID : string) : ST error store (option TaskExecutionRecord) :=
  gets (fun records => records !! executionID).

(** The comparison of [LoadLatestByTask]: newest first. *)
Definition compare_newest (a b : TaskExecutionRecord) : Z :=
  if Before (te_StartedAt a) (te_StartedAt b) then 1
  else if After (te_StartedAt a) (te_StartedAt b) then -1 else 0.

Definition LoadLatestByTask `{MO : MapOrder} (graphID taskID : string)
    : ST error store (option TaskExecutionRecord) :=
  gets (fun records : store =>
    let items := filter (fun r => te_ParentGraphID r = graphID /\ te_TaskID r = taskID) (map_values records) in
    head (slices_SortFunc compare_newest items)).

Definition ListByGraph `{MO : MapOrder} (graphID : string) : ST error store (list TaskExecutionRecord) :=
  gets (fun records : store =>
    slices_SortFunc (compare_time te_StartedAt)
      (filter (fun r => te_ParentGraphID r = graphID) (map_values records))).
End Executions.

(** ** [InMemoryApprovalStateStore] *)

Module Approvals.
Abbreviation store := (gmap string ApprovalStateRecord).

Definition NewInMemoryApprovalStateStore : store := ∅.

Definition Save (record : ApprovalStateRecord) : ST error store unit :=
  records ← get;
  if as_ApprovalID record == "" then fail (ConflictError "approval" "" "approval id is required")
  else if is_set (records !! as_ApprovalID record)
  then fail (ConflictError "approval" (as_ApprovalID record) "approval already exists")
  else
    let record := if as_Version record == 0 then record <| as_Version := 1 |> else record in
    put (<[as_ApprovalID record := record]> records).

Definition Update (record : ApprovalStateRecord) (expectedVersion : Z) : ST error store unit :=
  records ← get;
  match records !! as_ApprovalID record with
  | None => fail (NotFoundError "approval" (as_ApprovalID record))
  | Some current =>
      if (0 <? expectedVersion) && (as_Version current != expectedVersion)
      then fail (ConflictError "approval" (as_ApprovalID record) "version mismatch")
      else
        let record := record <| as_Version := wrap64 (as_Version current + 1) |> in
        put (<[as_ApprovalID record := record]> records)
  end.

Definition Load (approvalID : string) : ST error store (option ApprovalStateRecord) :=
  gets (fun records => records !! approvalID).

Definition ListPending `{MO : MapOrder} : ST error store (list ApprovalStateRecord) :=
  gets (fun records : store =>
    slices_SortFunc (compare_time as_RequestedAt)
      (filter (fun r => as_Status r = ApprovalStatusPending) (map_values records))).

(** The first approval of the task that the map iteration meets. *)
Definition LoadByTask `{MO : MapOrder} (graphID taskID : string)
    : ST error store (option ApprovalStateRecord) :=
  gets (fun records : store =>
    snd <$> list_find (fun r => as_GraphID r = graphID /\ as_TaskID r = taskID) (map_values records)).
End Approvals.

(** ** [InMemoryOperatorActionStore] *)

Module OperatorActions.
Record store := mk {
  byID : gmap string OperatorActionRecord;
  byRequest : gmap string string
}.
#[export] Instance eta_store : Eta store := eta! mk < byID ; byRequest >.

Definition NewInMemoryOperatorActionStore : store := mk ∅ ∅.

Definition ErrDuplicateRequest : error := PlainError "duplicate operator request".

Definition Save (record : OperatorActionRecord) : ST error store unit :=
  s ← get;
  if oa_ActionID record == "" then fail (ConflictError "operator_action" "" "action id is required")
  else if oa_RequestID record == ""
  then fail (ConflictError "operator_action" (oa_ActionID record) "request id is required")
  else match byRequest s !! oa_RequestID record with
  | Some existingID => fail (ConflictError "operator_action_request" existingID (error_string ErrDuplicateRequest))
  | None =>
      modify (fun s => s <| byID := <[oa_ActionID record := record]> (byID s) |>);;
      modify (fun s => s <| byRequest := <[oa_RequestID record := oa_ActionID record]> (byRequest s) |>)
  end.

Definition LoadByRequestID (requestID : string) : ST error store (option OperatorActionRecord) :=
  gets (fun s => actionID ← byRequest s !! requestID; byID s !! actionID).

Definition ListByTask `{MO : MapOrder} (graphID taskID : string) : ST error store (list OperatorActionRecord) :=
  gets (fun s =>
    slices_SortFunc (compare_time oa_RequestedAt)
      (filter (fun r => oa_GraphID r = graphID /\ oa_TaskID r = taskID) (map_values (byID s)))).
End OperatorActions.

(** ** [InMemoryCheckpointStore] *)

Module Checkpoints.
Record store := mk {
  checkpoints : gmap string (gmap string CheckpointRecord);
  tokens : gmap string ResumeToken;
  payloads : gmap string CheckpointPayloadEnvelope
}.
#[export] Instance eta_store : Eta store := eta! mk < checkpoints ; tokens ; payloads >.

Definition NewInMemoryCheckpointStore : store := mk ∅ ∅ ∅.

Definition Save (checkpoint : CheckpointRecord) : ST error store unit :=
  match CheckpointRecord_Validate checkpoint with
  | Some e => fail e
  | None =>
      s ← get;
      let byWorkflow := default ∅ (checkpoints s !! ck_WorkflowID checkpoint) in
      put (s <| checkpoints :=
        <[ck_WorkflowID checkpoint := <[ck_ID checkpoint := checkpoint]> byWorkflow]> (checkpoints s) |>)
  end.

Definition Load (workflowID checkpointID : string) : ST error store CheckpointRecord :=
  s ← get;
  match checkpoints s !! workflowID with
  | None => fail (NotFoundError "workflow" workflowID)
  | Some byWorkflow =>
      match byWorkflow !! checkpointID with
      | None => fail (NotFoundError "checkpoint" checkpointID)
      | Some checkpoint => mret checkpoint
      end
  end.

Definition SaveResumeToken (token : ResumeToken) : ST error store unit :=
  match ResumeToken_Validate token with
  | Some e => fail e
  | None => modify (fun s => s <| tokens := <[rt_Token token := token]> (tokens s) |>)
  end.

Definition LoadResumeToken (token : string) : ST error store ResumeToken :=
  s ← get;
  match tokens s !! token with
  | None => fail (NotFoundError "resume_token" token)
  | Some record => mret record
  end.

Definition SavePayload (checkpointID : string) (payload : CheckpointPayloadEnvelope) : ST error store unit :=
  if checkpointID == "" then fail (PlainError "checkpoint id is required")
  else match CheckpointPayloadEnvelope_Validate payload with
  | Some e => fail e
  | None => modify (fun s => s <| payloads := <[checkpointID := payload]> (payloads s) |>)
  end.

Definition LoadPayload (checkpointID : string) : ST error store CheckpointPayloadEnvelope :=
  s ← get;
  match payloads s !! checkpointID with
  | None => fail (NotFoundError "checkpoint_payload" checkpointID)
  | Some payload => mret payload
  end.
End Checkpoints.

(** ** [InMemoryReplayStore] *)

Module Replay.
Abbreviation store := (list ReplayEventRecord).

Definition NewInMemoryReplayStore : store := [].

Definition Append (event : ReplayEventRecord) : ST error store unit :=
  modify (fun events => events ++ [event]).

Definition filter_events (keep : ReplayEventRecord -> bool) : ST error store (list ReplayEventRecord) :=
  gets (fun events => slices_SortFunc (compare_time ev_OccurredAt) (filter (fun e => keep e = true) events)).

Definition ListByGraph (graphID : string) : ST error store (list ReplayEventRecord) :=
  filter_events (fun item => ev_GraphID item == graphID).

Definition ListByTask (taskID : string) : ST error store (list ReplayEventRecord) :=
  filter_events (fun item => ev_TaskID item == taskID).

Definition ListByWorkflow (workflowID : string) : ST error store (list ReplayEventRecord) :=
  filter_events (fun item => (ev_WorkflowID item == workflowID) || (ev_ParentWorkflowID item == workflowID)).
End Replay.

(** ** [InMemoryArtifactMetadataStore] *)

Module Artifacts.
Abbreviation store := (gmap string WorkflowArtifact).

Definition NewInMemoryArtifactMetadataStore : store := ∅.

Definition SaveArtifact (_ _ : string) (artifact : WorkflowArtifact) : ST error store unit :=
  modify (fun artifacts : store => <[wa_ID artifact := artifact]> artifacts).

Definition ListArtifactsByTask `{MO : MapOrder} (taskID : string) : ST error store (list WorkflowArtifact) :=
  gets (fun artifacts : store =>
    slices_SortFunc (compare_time wa_CreatedAt)
      (filter (fun a => wa_TaskID a = taskID) (map_values artifacts))).

Definition ListArtifactsByWorkflow `{MO : MapOrder} (workflowID : string)
    : ST error store (list WorkflowArtifact) :=
  gets (fun artifacts : store =>
    slices_SortFunc (compare_time wa_CreatedAt)
      (filter (fun a => wa_WorkflowID a = workflowID) (map_values artifacts))).

Definition LoadArtifact (artifactID : string) : ST error store (option WorkflowArtifact) :=
  gets (fun artifacts => artifacts !! artifactID).
End Artifacts.

(** * Properties of the in-memory stores

    Compare-and-swap is stated once, against the interface [CasStore] that
    the execution and approval stores implement, in memory here and in the
    databases in [SqlStoresThm]: a version that was overwritten stays rejected
    whatever happens next.  The operator action store accepts a request id
    once. *)

(** ** The interface of a versioned store *)

(** Records of type [R] are kept as rows of type [Row]. *)
Class CasStore (R Row : Type) := {
  cas_id : R -> string;
  cas_version : Row -> Z;
  cas_save : R -> ST error (gmap string Row) unit;
  cas_update : R -> Z -> ST error (gmap string Row) unit;
  (** [Save] adds a row under a new id or does nothing. *)
  cas_save_spec r s :
    (exists e, cas_save r s = (s, Err e)) \/
    (s !! cas_id r = None /\ exists row, cas_save r s = (<[cas_id r := row]> s, Ok tt));
  (** [Update] writes the row under the next version or does nothing. *)
  cas_update_spec r v s :
    (exists e, cas_update r v s = (s, Err e)) \/
    (exists row row', s !! cas_id r = Some row /\ cas_update r v s = (<[cas_id r := row']> s, Ok tt) /\
       cas_version row' = wrap64 (cas_version row + 1));
  (** It checks the version of the row in the store. *)
  cas_update_stale r v s row :
    s !! cas_id r = Some row -> 0 < v -> cas_version row <> v ->
    exists e, cas_update r v s = (s, Err e) /\ IsConflict e = true
}.

(** A call of one of the two methods that write. *)
Inductive cas_op (R : Type) :=
| CasSave (r : R)
| CasUpdate (r : R) (expectedVersion : Z).
Arguments CasSave {R} r.
Arguments CasUpdate {R} r expectedVersion.

Section cas.
Context {R Row : Type} {CS : CasStore R Row}.
Implicit Types (s : gmap string Row) (r : R).

Definition run_cas (s : gmap string Row) (o : cas_op R) : gmap string Row :=
  match o with
  | CasSave r => (cas_save r s).1
  | CasUpdate r v => (cas_update r v s).1
  end.

Definition run_all_cas (ops : list (cas_op R)) s : gmap string Row := fold_left run_cas ops s.

(** The row under [id] has a version above [v], with room for [n] more
    updates before the 64-bit counter wraps. *)
Definition overtaken (id : string) (v : Z) (n : nat) s : Prop :=
  exists row, s !! id = Some row /\ v < cas_version row /\ cas_version row + Z.of_nat n < two63.

Lemma overtaken_step id v n s o :
  - two63 <= v -> overtaken id v (S n) s -> overtaken id v n (run_cas s o).
Proof.
  intros Hlow (current & Hcur & Hv & Hroom).
  assert (Hkeep : overtaken id v n s) by (exists current; split; [done|lia]).
  destruct o as [r|r w]; simpl.
  - destruct (cas_save_spec r s) as [[e ->]|[Hnone [r' ->]]]; [done|].
    exists current. simpl. split; [|lia]. rewrite lookup_insert_ne; [done|]. intros Heq. congruence.
  - destruct (cas_update_spec r w s) as [[e ->]|(row & row' & Hrow & -> & Hver)]; [done|].
    destruct (decide (cas_id r = id)) as [<-|Hne].
    + assert (row = current) as -> by congruence. exists row'. simpl.
      rewrite lookup_insert_eq, Hver, wrap64_id by (unfold in_int64, two63 in *; lia). split; [done|lia].
    + exists current. simpl. rewrite lookup_insert_ne by done. split; [done|lia].
Qed.

Lemma overtaken_run id v ops s :
  - two63 <= v -> overtaken id v (length ops) s -> overtaken id v 0 (run_all_cas ops s).
Proof.
  intros Hlow. revert s. induction ops as [|o ops IH]; intros s H; [done|].
  apply IH. by apply overtaken_step.
Qed.

(** A successful update overtakes the version it expected. *)
Lemma update_overtakes r v s s1 n :
  0 < v -> v + 1 + Z.of_nat n < two63 -> cas_update r v s = (s1, Ok tt) -> overtaken (cas_id r) v n s1.
Proof.
  intros Hv Hroom Hrun.
  destruct (cas_update_spec r v s) as [[e He]|(row & row' & Hrow & Hrun' & Hver)]; [congruence|].
  destruct (decide (cas_version row = v)) as [Heq|Hne].
  - rewrite Hrun' in Hrun. injection Hrun as <-. exists row'.
    rewrite lookup_insert_eq, Hver, Heq, wrap64_id by (unfold in_int64, two63 in *; lia). split; [done|lia].
  - destruct (cas_update_stale r v s row Hrow Hv Hne) as (e & He & _). congruence.
Qed.

(** Of two writers that read the same version, the second to write fails. *)
Lemma lost_update_rejected r1 r2 v s s1 ops :
  0 < v -> v + 1 + Z.of_nat (length ops) < two63 -> cas_id r1 = cas_id r2 ->
  cas_update r1 v s = (s1, Ok tt) ->
  let s2 := run_all_cas ops s1 in
  (exists row, s2 !! cas_id r2 = Some row /\ v < cas_version row) /\
  exists e, cas_update r2 v s2 = (s2, Err e) /\ IsConflict e = true.
Proof.
  intros Hv Hroom Hid Hrun s2.
  pose proof (update_overtakes r1 v s s1 (length ops) Hv Hroom Hrun) as Hover. rewrite Hid in Hover.
  apply overtaken_run in Hover as (row & Hrow & Hlt & _); [|unfold two63; lia].
  split; [by exists row|]. apply (cas_update_stale r2 v s2 row); [done..|lia].
Qed.
End cas.

(** ** The implementations in memory *)

#[export, refine] Instance executions_cas : CasStore TaskExecutionRecord TaskExecutionRecord := {
  cas_id := te_ExecutionID;
  cas_version := te_Version;
  cas_save := Executions.Save;
  cas_update := Executions.Update
}.
Proof.
  - intros r s. unfold Executions.Save. run_simpl. case_bool_decide; [left; eauto|].
    destruct (s !! te_ExecutionID r) eqn:E; simpl; [left; eauto|].
    right. split; [done|]. by case_bool_decide; eexists.
  - intros r v s. unfold Executions.Update. run_simpl. destruct (s !! te_ExecutionID r) as [row|] eqn:E; [|eauto].
    destruct ((0 <? v) && _); [eauto|]. right. eauto 6.
  - intros r v s current E Hv Hne. unfold Executions.Update. run_simpl. rewrite E.
    rewrite (proj2 (Z.ltb_lt 0 v)), bool_decide_eq_false_2 by done. eauto.
Defined.

#[export, refine] Instance approvals_cas : CasStore ApprovalStateRecord ApprovalStateRecord := {
  cas_id := as_ApprovalID;
  cas_version := as_Version;
  cas_save := Approvals.Save;
  cas_update := Approvals.Update
}.
Proof.
  - intros r s. unfold Approvals.Save. run_simpl. case_bool_decide; [left; eauto|].
    destruct (s !! as_ApprovalID r) eqn:E; simpl; [left; eauto|].
    right. split; [done|]. by case_bool_decide; eexists.
  - intros r v s. unfold Approvals.Update. run_simpl. destruct (s !! as_ApprovalID r) as [row|] eqn:E; [|eauto].
    destruct ((0 <? v) && _); [eauto|]. right. eauto 6.
  - intros r v s current E Hv Hne. unfold Approvals.Update. run_simpl. rewrite E.
    rewrite (proj2 (Z.ltb_lt 0 v)), bool_decide_eq_false_2 by done. eauto.
Defined.

(** ** No lost updates in memory *)

(** Runs of the two stores. *)
Abbreviation run_approvals := (run_all_cas (CS := approvals_cas)).
Abbreviation run_executions := (run_all_cas (CS := executions_cas)).

(** Two operators who read an approval at the same version cannot both
    resolve it: the second update is refused, whatever happened in between. *)
Lemma approval_lost_update_rejected (r1 r2 : ApprovalStateRecord) v s s1 ops :
  0 < v -> v + 1 + Z.of_nat (length ops) < two63 -> as_ApprovalID r1 = as_ApprovalID r2 ->
  Approvals.Update r1 v s = (s1, Ok tt) ->
  Approvals.Update r2 v (run_approvals ops s1) =
    (run_approvals ops s1, Err (ConflictError "approval" (as_ApprovalID r2) "version mismatch")).
Proof.
  intros H1 H2 H3 H4.
  destruct (lost_update_rejected (CS := approvals_cas) r1 r2 v s s1 ops H1 H2 H3 H4) as [(row & Hrow & Hlt) _].
  cbn [cas_id cas_version approvals_cas] in Hrow, Hlt. unfold Approvals.Update. run_simpl. rewrite Hrow.
  by rewrite (proj2 (Z.ltb_lt 0 v)), bool_decide_eq_false_2 by lia.
Qed.

Definition sample_approval (status : ApprovalStatus) : ApprovalStateRecord :=
  zero <| as_ApprovalID := "a1" |> <| as_Status := status |> <| as_Version := 1 |>.

(** The same for execution records: a worker that finishes an execution and
    another that reclaims it. *)
Lemma execution_lost_update_rejected (r1 r2 : TaskExecutionRecord) v s s1 ops :
  0 < v -> v + 1 + Z.of_nat (length ops) < two63 -> te_ExecutionID r1 = te_ExecutionID r2 ->
  Executions.Update r1 v s = (s1, Ok tt) ->
  Executions.Update r2 v (run_executions ops s1) =
    (run_executions ops s1, Err (ConflictError "task_execution" (te_ExecutionID r2) "version mismatch")).
Proof.
  intros H1 H2 H3 H4.
  destruct (lost_update_rejected (CS := executions_cas) r1 r2 v s s1 ops H1 H2 H3 H4) as [(row & Hrow & Hlt) _].
  cbn [cas_id cas_version executions_cas] in Hrow, Hlt. unfold Executions.Update. run_simpl. rewrite Hrow.
  by rewrite (proj2 (Z.ltb_lt 0 v)), bool_decide_eq_false_2 by lia.
Qed.

Definition sample_execution (status : TaskQueueStatus) : TaskExecutionRecord :=
  zero <| te_ExecutionID := "e1" |> <| te_TaskID := "t1" |> <| te_ParentGraphID := "g1" |>
       <| te_Status := status |> <| te_Version := 1 |>.

(** ** A request id is accepted once *)

Definition run_actions (s : OperatorActions.store) (records : list OperatorActionRecord) : OperatorActions.store :=
  fold_left (fun s record => (OperatorActions.Save record s).1) records s.

Lemma save_action_inv record s s' :
  OperatorActions.Save record s = (s', Ok tt) ->
  OperatorActions.byRequest s !! oa_RequestID record = None /\
  s' = OperatorActions.mk (<[oa_ActionID record := record]> (OperatorActions.byID s))
         (<[oa_RequestID record := oa_ActionID record]> (OperatorActions.byRequest s)).
Proof.
  unfold OperatorActions.Save. run_simpl. case_bool_decide; [discriminate|]. case_bool_decide; [discriminate|].
  destruct (_ !! _) eqn:E; [discriminate|]. run_simpl. intros [= <-]. by destruct s.
Qed.

(** A failed [Save] writes nothing. *)
Lemma save_action_cases record s :
  (exists e, OperatorActions.Save record s = (s, Err e)) \/ (OperatorActions.Save record s).2 = Ok tt.
Proof.
  unfold OperatorActions.Save. run_simpl. repeat case_bool_decide; eauto.
  destruct (_ !! _); eauto.
Qed.

Lemma request_kept req a record s :
  OperatorActions.byRequest s !! req = Some a ->
  OperatorActions.byRequest (OperatorActions.Save record s).1 !! req = Some a.
Proof.
  intros Hreq. destruct (save_action_cases record s) as [[e ->]|Hok]; [done|].
  destruct (OperatorActions.Save record s) as [s' o] eqn:E. simpl in *. subst o.
  apply save_action_inv in E as [Hnone ->]. simpl.
  rewrite lookup_insert_ne; [done|]. intros Heq. congruence.
Qed.

Lemma request_kept_run req a records s :
  OperatorActions.byRequest s !! req = Some a ->
  OperatorActions.byRequest (run_actions s records) !! req = Some a.
Proof.
  revert s. induction records as [|record records IH]; intros s H; [done|].
  apply IH. by apply request_kept.
Qed.

(** An operator request takes effect once.  After an action with some
    request id was saved, every later attempt to save one with that id, in
    any state that further saves lead to, is rejected, names the first
    action, and writes nothing. *)
Theorem request_accepted_once record again s s1 records :
  OperatorActions.Save record s = (s1, Ok tt) ->
  oa_RequestID again = oa_RequestID record -> oa_ActionID again <> "" -> oa_RequestID record <> "" ->
  let s2 := run_actions s1 records in
  OperatorActions.Save again s2 =
    (s2, Err (ConflictError "operator_action_request" (oa_ActionID record) "duplicate operator request")).
Proof.
  intros Hsave Hreq Hid Hne s2. apply save_action_inv in Hsave as [_ ->].
  assert (H : OperatorActions.byRequest s2 !! oa_RequestID record = Some (oa_ActionID record)).
  { apply request_kept_run. simpl. by rewrite lookup_insert_eq. }
  unfold OperatorActions.Save. run_simpl.
  rewrite bool_decide_eq_false_2, Hreq, bool_decide_eq_false_2 by done. by rewrite H.
Qed.

Definition sample_action (actionID requestID : string) : OperatorActionRecord :=
  zero <| oa_ActionID := actionID |> <| oa_RequestID := requestID |>.

Lemma request_accepted_once_witness :
  let s1 := (OperatorActions.Save (sample_action "x" "r1") OperatorActions.NewInMemoryOperatorActionStore).1 in
  let s2 := run_actions s1 [sample_action "y" "r2"] in
  OperatorActions.Save (sample_action "z" "r1") s2 =
    (s2, Err (ConflictError "operator_action_request" "x" "duplicate operator request")).
Proof.
  intros s1 s2.
  apply (request_accepted_once (sample_action "x" "r1") (sample_action "z" "r1")
           OperatorActions.NewInMemoryOperatorActionStore s1 [sample_action "y" "r2"]);
    [vm_compute; reflexivity|reflexivity|discriminate|discriminate].
Defined.
