(* ===== verification/SqlTables.v ===== *)
(** * The tables of the databases (sqlite_runtime_db.go, postgres_runtime_db.go)

    The replay projections (replay_projection_types.go), which only databases
    keep, and the rows of every table of the two schemas.  A row holds the
    columns other than the primary key.  A JSON column holds the value its
    text encodes; a TEXT column of an enumeration holds the enumeration's
    value; a time is its text.  A column that may be NULL is an option where
    some statement writes NULL to it. *)

From S2P Require Import SqlQueue.
From S2P Require Export AgentTypes Stores.
#[local] Open Scope Z_scope.

(** ** Replay projections *)

Inductive ReplayScopeKind :=
| ReplayScopeWorkflow
| ReplayScopeTaskGraph
| ReplayScopeTask
| ReplayScopeExecution
| ReplayScopeApproval
| ReplayScopeKindOther (s : string).
#[export] Instance ReplayScopeKind_eq_dec : EqDecision ReplayScopeKind.
Proof. solve_decision. Defined.
Definition ReplayScopeKind_string (x : ReplayScopeKind) : string :=
  match x with
  | ReplayScopeWorkflow => "workflow"
  | ReplayScopeTaskGraph => "task_graph"
  | ReplayScopeTask => "task"
  | ReplayScopeExecution => "execution"
  | ReplayScopeApproval => "approval"
  | ReplayScopeKindOther s => s
  end.
#[export] Instance zero_ReplayScopeKind : Zero ReplayScopeKind := ReplayScopeKindOther "".
#[export] Instance ReplayScopeKind_countable : Countable ReplayScopeKind.
Proof.
  refine (inj_countable'
    (fun x => match x with
| ReplayScopeWorkflow => inl 0%nat | ReplayScopeTaskGraph => inl 1%nat | ReplayScopeTask => inl 2%nat | ReplayScopeExecution => inl 3%nat | ReplayScopeApproval => inl 4%nat | ReplayScopeKindOther s => inr s end)
    (fun c => match c with
| inl 0%nat => ReplayScopeWorkflow | inl 1%nat => ReplayScopeTaskGraph | inl 2%nat => ReplayScopeTask | inl 3%nat => ReplayScopeExecution | inl _ => ReplayScopeApproval | inr s => ReplayScopeKindOther s end) _).
  by intros [].
Defined.

Inductive ReplayProjectionStatus :=
| ReplayProjectionStatusComplete
| ReplayProjectionStatusPartial
| ReplayProjectionStatusStale
| ReplayProjectionStatusOther (s : string).
#[export] Instance ReplayProjectionStatus_eq_dec : EqDecision ReplayProjectionStatus.
Proof. solve_decision. Defined.
Definition ReplayProjectionStatus_string (x : ReplayProjectionStatus) : string :=
  match x with
  | ReplayProjectionStatusComplete => "complete"
  | ReplayProjectionStatusPartial => "partial"
  | ReplayProjectionStatusStale => "stale"
  | ReplayProjectionStatusOther s => s
  end.
#[export] Instance zero_ReplayProjectionStatus : Zero ReplayProjectionStatus := ReplayProjectionStatusOther "".

Record WorkflowRunRecord := mkWorkflowRunRecord {
  run_WorkflowID : string;
  run_TaskID : string;
  run_Intent : string;
  run_RuntimeState : WorkflowExecutionState;
  run_FailureCategory : FailureCategory;
  run_FailureSummary : string;
  run_ApprovalID : string;
  run_CheckpointID : string;
  run_ResumeToken : string;
  run_TaskGraphID : string;
  run_RootCorrelationID : string;
  run_Summary : string;
  run_StartedAt : time;
  run_UpdatedAt : time;
  run_RecordJSON : string
}.
#[export] Instance eta_WorkflowRunRecord : Eta WorkflowRunRecord := eta! mkWorkflowRunRecord < run_WorkflowID ; run_TaskID ; run_Intent ; run_RuntimeState ; run_FailureCategory ; run_FailureSummary ; run_ApprovalID ; run_CheckpointID ; run_ResumeToken ; run_TaskGraphID ; run_RootCorrelationID ; run_Summary ; run_StartedAt ; run_UpdatedAt ; run_RecordJSON >.
#[export] Instance zero_WorkflowRunRecord : Zero WorkflowRunRecord := mkWorkflowRunRecord zero zero zero zero zero zero zero zero zero zero zero zero zero zero zero.

Record ReplayProjectionScope := mkReplayProjectionScope {
  rps_ScopeKind : ReplayScopeKind;
  rps_ScopeID : string
}.
#[export] Instance eta_ReplayProjectionScope : Eta ReplayProjectionScope := eta! mkReplayProjectionScope < rps_ScopeKind ; rps_ScopeID >.
#[export] Instance zero_ReplayProjectionScope : Zero ReplayProjectionScope := mkReplayProjectionScope zero zero.

Record WorkflowReplayProjection := mkWorkflowReplayProjection {
  wrp_WorkflowID : string;
  wrp_TaskID : string;
  wrp_Intent : string;
  wrp_RuntimeState : WorkflowExecutionState;
  wrp_FailureCategory : FailureCategory;
  wrp_ApprovalID : string;
  wrp_BundleArtifactID : string;
  wrp_SummaryArtifactID : string;
  wrp_ProjectionStatus : ReplayProjectionStatus;
  wrp_SchemaVersion : Z;
  wrp_DegradationReasons : list string;
  wrp_SummaryJSON : string;
  wrp_ExplanationJSON : string;
  wrp_CompareInputJSON : string;
  wrp_UpdatedAt : time;
  wrp_ProjectionFreshness : time
}.
#[export] Instance eta_WorkflowReplayProjection : Eta WorkflowReplayProjection := eta! mkWorkflowReplayProjection < wrp_WorkflowID ; wrp_TaskID ; wrp_Intent ; wrp_RuntimeState ; wrp_FailureCategory ; wrp_ApprovalID ; wrp_BundleArtifactID ; wrp_SummaryArtifactID ; wrp_ProjectionStatus ; wrp_SchemaVersion ; wrp_DegradationReasons ; wrp_SummaryJSON ; wrp_ExplanationJSON ; wrp_CompareInputJSON ; wrp_UpdatedAt ; wrp_ProjectionFreshness >.
#[export] Instance zero_WorkflowReplayProjection : Zero WorkflowReplayProjection := mkWorkflowReplayProjection zero zero zero zero zero zero zero zero zero zero zero zero zero zero zero zero.

Record TaskGraphReplayProjection := mkTaskGraphReplayProjection {
  grp_GraphID : string;
  grp_ParentWorkflowID : string;
  grp_ParentTaskID : string;
  grp_RuntimeState : WorkflowExecutionState;
  grp_PendingApprovalID : string;
  grp_BundleArtifactID : string;
  grp_SummaryArtifactID : string;
  grp_ProjectionStatus : ReplayProjectionStatus;
  grp_SchemaVersion : Z;
  grp_DegradationReasons : list string;
  grp_SummaryJSON : string;
  grp_ExplanationJSON : string;
  grp_CompareInputJSON : string;
  grp_UpdatedAt : time;
  grp_ProjectionFreshness : time
}.
#[export] Instance eta_TaskGraphReplayProjection : Eta TaskGraphReplayProjection := eta! mkTaskGraphReplayProjection < grp_GraphID ; grp_ParentWorkflowID ; grp_ParentTaskID ; grp_RuntimeState ; grp_PendingApprovalID ; grp_BundleArtifactID ; grp_SummaryArtifactID ; grp_ProjectionStatus ; grp_SchemaVersion ; grp_DegradationReasons ; grp_SummaryJSON ; grp_ExplanationJSON ; grp_CompareInputJSON ; grp_UpdatedAt ; grp_ProjectionFreshness >.
#[export] Instance zero_TaskGraphReplayProjection : Zero TaskGraphReplayProjection := mkTaskGraphReplayProjection zero zero zero zero zero zero zero zero zero zero zero zero zero zero zero.

Record ProvenanceNodeRecord := mkProvenanceNodeRecord {
  pn_ScopeKind : ReplayScopeKind;
  pn_ScopeID : string;
  pn_NodeID : string;
  pn_NodeType : string;
  pn_RefID : string;
  pn_Label : string;
  pn_Summary : string;
  pn_AttributesJSON : string
}.
#[export] Instance eta_ProvenanceNodeRecord : Eta ProvenanceNodeRecord := eta! mkProvenanceNodeRecord < pn_ScopeKind ; pn_ScopeID ; pn_NodeID ; pn_NodeType ; pn_RefID ; pn_Label ; pn_Summary ; pn_AttributesJSON >.
#[export] Instance zero_ProvenanceNodeRecord : Zero ProvenanceNodeRecord := mkProvenanceNodeRecord zero zero zero zero zero zero zero zero.

Record ProvenanceEdgeRecord := mkProvenanceEdgeRecord {
  pe_ScopeKind : ReplayScopeKind;
  pe_ScopeID : string;
  pe_EdgeID : string;
  pe_FromNodeID : string;
  pe_ToNodeID : string;
  pe_EdgeType : string;
  pe_Reason : string;
  pe_AttributesJSON : string
}.
#[export] Instance eta_ProvenanceEdgeRecord : Eta ProvenanceEdgeRecord := eta! mkProvenanceEdgeRecord < pe_ScopeKind ; pe_ScopeID ; pe_EdgeID ; pe_FromNodeID ; pe_ToNodeID ; pe_EdgeType ; pe_Reason ; pe_AttributesJSON >.
#[export] Instance zero_ProvenanceEdgeRecord : Zero ProvenanceEdgeRecord := mkProvenanceEdgeRecord zero zero zero zero zero zero zero zero.

Record ExecutionAttributionRecord := mkExecutionAttributionRecord {
  xa_ScopeKind : ReplayScopeKind;
  xa_ScopeID : string;
  xa_ExecutionID : string;
  xa_Category : string;
  xa_Summary : string;
  xa_SourceRefsJSON : string;
  xa_DetailsJSON : string
}.
#[export] Instance eta_ExecutionAttributionRecord : Eta ExecutionAttributionRecord := eta! mkExecutionAttributionRecord < xa_ScopeKind ; xa_ScopeID ; xa_ExecutionID ; xa_Category ; xa_Summary ; xa_SourceRefsJSON ; xa_DetailsJSON >.
#[export] Instance zero_ExecutionAttributionRecord : Zero ExecutionAttributionRecord := mkExecutionAttributionRecord zero zero zero zero zero zero zero.

Record FailureAttributionRecord := mkFailureAttributionRecord {
  fa_ScopeKind : ReplayScopeKind;
  fa_ScopeID : string;
  fa_AttributionID : string;
  fa_FailureCategory : string;
  fa_ReasonCode : string;
  fa_Summary : string;
  fa_RelatedKind : string;
  fa_RelatedID : string;
  fa_SourceRefsJSON : string;
  fa_DetailsJSON : string
}.
#[export] Instance eta_FailureAttributionRecord : Eta FailureAttributionRecord := eta! mkFailureAttributionRecord < fa_ScopeKind ; fa_ScopeID ; fa_AttributionID ; fa_FailureCategory ; fa_ReasonCode ; fa_Summary ; fa_RelatedKind ; fa_RelatedID ; fa_SourceRefsJSON ; fa_DetailsJSON >.
#[export] Instance zero_FailureAttributionRecord : Zero FailureAttributionRecord := mkFailureAttributionRecord zero zero zero zero zero zero zero zero zero zero.

Record ReplayProjectionBuildRecord := mkReplayProjectionBuildRecord {
  rb_ScopeKind : ReplayScopeKind;
  rb_ScopeID : string;
  rb_SchemaVersion : Z;
  rb_Status : ReplayProjectionStatus;
  rb_DegradationReasons : list string;
  rb_BuiltAt : time;
  rb_SourceEventCount : Z;
  rb_SourceArtifactCount : Z
}.
#[export] Instance eta_ReplayProjectionBuildRecord : Eta ReplayProjectionBuildRecord := eta! mkReplayProjectionBuildRecord < rb_ScopeKind ; rb_ScopeID ; rb_SchemaVersion ; rb_Status ; rb_DegradationReasons ; rb_BuiltAt ; rb_SourceEventCount ; rb_SourceArtifactCount >.
#[export] Instance zero_ReplayProjectionBuildRecord : Zero ReplayProjectionBuildRecord := mkReplayProjectionBuildRecord zero zero zero zero zero zero zero zero.

Definition ReplayProjectionSchemaVersion : Z := 1.

(** ** skills/types.go: the record of a skill execution *)

Inductive SkillExecutionStatus :=
| SkillExecutionStatusSelected
| SkillExecutionStatusExecuted
| SkillExecutionStatusFailed
| SkillExecutionStatusGoverned
| SkillExecutionStatusOther (s : string).
#[export] Instance SkillExecutionStatus_eq_dec : EqDecision SkillExecutionStatus.
Proof. solve_decision. Defined.
Definition SkillExecutionStatus_string (x : SkillExecutionStatus) : string :=
  match x with
  | SkillExecutionStatusSelected => "selected"
  | SkillExecutionStatusExecuted => "executed"
  | SkillExecutionStatusFailed => "failed"
  | SkillExecutionStatusGoverned => "governed"
  | SkillExecutionStatusOther s => s
  end.
#[export] Instance zero_SkillExecutionStatus : Zero SkillExecutionStatus := SkillExecutionStatusOther "".

Record SkillExecutionRecord := mkSkillExecutionRecord {
  sx_WorkflowID : string;
  sx_TaskID : string;
  sx_ExecutionID : string;
  sx_Selection : SkillSelection;
  sx_Status : SkillExecutionStatus;
  sx_ValidatorOutcome : string;
  sx_GovernanceOutcome : string;
  sx_ProducedArtifactIDs : list string;
  sx_ProducedMemoryRefs : list string;
  sx_CreatedAt : time;
  sx_UpdatedAt : time
}.
#[export] Instance eta_SkillExecutionRecord : Eta SkillExecutionRecord := eta! mkSkillExecutionRecord < sx_WorkflowID ; sx_TaskID ; sx_ExecutionID ; sx_Selection ; sx_Status ; sx_ValidatorOutcome ; sx_GovernanceOutcome ; sx_ProducedArtifactIDs ; sx_ProducedMemoryRefs ; sx_CreatedAt ; sx_UpdatedAt >.
#[export] Instance zero_SkillExecutionRecord : Zero SkillExecutionRecord := mkSkillExecutionRecord zero zero zero zero zero zero zero zero zero zero zero.

(** A snapshot by value: a database keeps the task records themselves, not
    the address of their array. *)
Record StoredGraph := mkStoredGraph { sg_snapshot : TaskGraphSnapshot; sg_tasks : list FollowUpTaskRecord }.

(** ** The SQLite schema *)

Module Sqlite.
Record task_graphs_row := mk_task_graphs {
  tg_parent_workflow_id : string;
  tg_parent_task_id : string;
  tg_trigger_source : TaskTriggerSource;
  tg_generated_at : string;
  tg_version : Z;
  tg_base_state_snapshot_ref : string;
  tg_latest_committed_state_ref : string;
  tg_graph_json : TaskGraph;
  tg_registered_at : string
}.
#[export] Instance eta_task_graphs : Eta task_graphs_row := eta! mk_task_graphs < tg_parent_workflow_id ; tg_parent_task_id ; tg_trigger_source ; tg_generated_at ; tg_version ; tg_base_state_snapshot_ref ; tg_latest_committed_state_ref ; tg_graph_json ; tg_registered_at >.

Record follow_up_tasks_row := mk_follow_up_tasks {
  ft_version : Z;
  ft_task_json : TaskSpec;
  ft_metadata_json : GeneratedTaskMetadata;
  ft_status : TaskQueueStatus;
  ft_required_capability : string;
  ft_missing_capability_reason : string;
  ft_blocking_reasons_json : list string;
  ft_suppressed_reasons_json : list string;
  ft_registered_at : string;
  ft_registration_order : Z;
  ft_last_updated_at : string
}.
#[export] Instance eta_follow_up_tasks : Eta follow_up_tasks_row := eta! mk_follow_up_tasks < ft_version ; ft_task_json ; ft_metadata_json ; ft_status ; ft_required_capability ; ft_missing_capability_reason ; ft_blocking_reasons_json ; ft_suppressed_reasons_json ; ft_registered_at ; ft_registration_order ; ft_last_updated_at >.

Record task_dependencies_row := mk_task_dependencies {
  td_reason : string;
  td_mandatory : Z
}.
#[export] Instance eta_task_dependencies : Eta task_dependencies_row := eta! mk_task_dependencies < td_reason ; td_mandatory >.

Record state_snapshots_row := mk_state_snapshots {
  ss_graph_id : string;
  ss_workflow_id : string;
  ss_task_id : string;
  ss_kind : string;
  ss_state_version : Z;
  ss_reason : string;
  ss_captured_at : string;
  ss_state_json : FinancialWorldState
}.
#[export] Instance eta_state_snapshots : Eta state_snapshots_row := eta! mk_state_snapshots < ss_graph_id ; ss_workflow_id ; ss_task_id ; ss_kind ; ss_state_version ; ss_reason ; ss_captured_at ; ss_state_json >.

Record task_executions_row := mk_task_executions {
  te_graph_id : string;
  te_task_id : string;
  te_workflow_id : string;
  te_status : TaskQueueStatus;
  te_started_at : string;
  te_last_transition_at : string;
  te_version : Z;
  te_record_json : TaskExecutionRecord
}.
#[export] Instance eta_task_executions : Eta task_executions_row := eta! mk_task_executions < te_graph_id ; te_task_id ; te_workflow_id ; te_status ; te_started_at ; te_last_transition_at ; te_version ; te_record_json >.

Record skill_executions_row := mk_skill_executions {
  se_workflow_id : string;
  se_task_id : string;
  se_status : SkillExecutionStatus;
  se_created_at : string;
  se_updated_at : string;
  se_record_json : SkillExecutionRecord
}.
#[export] Instance eta_skill_executions : Eta skill_executions_row := eta! mk_skill_executions < se_workflow_id ; se_task_id ; se_status ; se_created_at ; se_updated_at ; se_record_json >.

Record checkpoints_row := mk_checkpoints {
  ck_workflow_id : string;
  ck_state : WorkflowExecutionState;
  ck_resume_state : WorkflowExecutionState;
  ck_state_version : Z;
  ck_summary : string;
  ck_captured_at : string;
  ck_payload_kind : option CheckpointPayloadKind;
  ck_payload_json : option CheckpointPayloadEnvelope
}.
#[export] Instance eta_checkpoints : Eta checkpoints_row := eta! mk_checkpoints < ck_workflow_id ; ck_state ; ck_resume_state ; ck_state_version ; ck_summary ; ck_captured_at ; ck_payload_kind ; ck_payload_json >.

Record resume_tokens_row := mk_resume_tokens {
  rt_workflow_id : string;
  rt_checkpoint_id : string;
  rt_issued_at : string;
  rt_expires_at : string
}.
#[export] Instance eta_resume_tokens : Eta resume_tokens_row := eta! mk_resume_tokens < rt_workflow_id ; rt_checkpoint_id ; rt_issued_at ; rt_expires_at >.

Record approvals_row := mk_approvals {
  ap_graph_id : string;
  ap_task_id : string;
  ap_workflow_id : string;
  ap_execution_id : string;
  ap_requested_action : string;
  ap_required_roles_json : list string;
  ap_requested_at : string;
  ap_deadline : option string;
  ap_status : ApprovalStatus;
  ap_resolved_at : option string;
  ap_resolved_by : string;
  ap_resolution_note : string;
  ap_version : Z
}.
#[export] Instance eta_approvals : Eta approvals_row := eta! mk_approvals < ap_graph_id ; ap_task_id ; ap_workflow_id ; ap_execution_id ; ap_requested_action ; ap_required_roles_json ; ap_requested_at ; ap_deadline ; ap_status ; ap_resolved_at ; ap_resolved_by ; ap_resolution_note ; ap_version >.

Record operator_actions_row := mk_operator_actions {
  oa_request_id : string;
  oa_action_type : OperatorActionType;
  oa_actor : string;
  oa_roles_json : list string;
  oa_graph_id : string;
  oa_task_id : string;
  oa_approval_id : string;
  oa_workflow_id : string;
  oa_status : OperatorActionStatus;
  oa_note : string;
  oa_requested_at : string;
  oa_applied_at : option string;
  oa_failure_summary : string;
  oa_expected_version : Z
}.
#[export] Instance eta_operator_actions : Eta operator_actions_row := eta! mk_operator_actions < oa_request_id ; oa_action_type ; oa_actor ; oa_roles_json ; oa_graph_id ; oa_task_id ; oa_approval_id ; oa_workflow_id ; oa_status ; oa_note ; oa_requested_at ; oa_applied_at ; oa_failure_summary ; oa_expected_version >.

Record replay_events_row := mk_replay_events {
  re_root_correlation_id : string;
  re_parent_workflow_id : string;
  re_workflow_id : string;
  re_graph_id : string;
  re_task_id : string;
  re_approval_id : string;
  re_execution_id : string;
  re_action_type : string;
  re_summary : string;
  re_occurred_at : string;
  re_details_json : string;
  re_committed_state_ref : string;
  re_updated_state_ref : string;
  re_artifact_ids_json : list string;
  re_operator_action_id : string;
  re_checkpoint_id : string;
  re_resume_token : string
}.
#[export] Instance eta_replay_events : Eta replay_events_row := eta! mk_replay_events < re_root_correlation_id ; re_parent_workflow_id ; re_workflow_id ; re_graph_id ; re_task_id ; re_approval_id ; re_execution_id ; re_action_type ; re_summary ; re_occurred_at ; re_details_json ; re_committed_state_ref ; re_updated_state_ref ; re_artifact_ids_json ; re_operator_action_id ; re_checkpoint_id ; re_resume_token >.

Record workflow_runs_row := mk_workflow_runs {
  wf_task_id : string;
  wf_intent : string;
  wf_runtime_state : WorkflowExecutionState;
  wf_failure_category : FailureCategory;
  wf_failure_summary : string;
  wf_approval_id : string;
  wf_checkpoint_id : string;
  wf_resume_token : string;
  wf_task_graph_id : string;
  wf_root_correlation_id : string;
  wf_summary : string;
  wf_started_at : string;
  wf_updated_at : string;
  wf_record_json : string
}.
#[export] Instance eta_workflow_runs : Eta workflow_runs_row := eta! mk_workflow_runs < wf_task_id ; wf_intent ; wf_runtime_state ; wf_failure_category ; wf_failure_summary ; wf_approval_id ; wf_checkpoint_id ; wf_resume_token ; wf_task_graph_id ; wf_root_correlation_id ; wf_summary ; wf_started_at ; wf_updated_at ; wf_record_json >.

Record replay_projection_builds_row := mk_replay_projection_builds {
  pb_schema_version : Z;
  pb_status : ReplayProjectionStatus;
  pb_degradation_reasons_json : list string;
  pb_built_at : string;
  pb_source_event_count : Z;
  pb_source_artifact_count : Z
}.
#[export] Instance eta_replay_projection_builds : Eta replay_projection_builds_row := eta! mk_replay_projection_builds < pb_schema_version ; pb_status ; pb_degradation_reasons_json ; pb_built_at ; pb_source_event_count ; pb_source_artifact_count >.

Record workflow_replay_projections_row := mk_workflow_replay_projections {
  wp_task_id : string;
  wp_intent : string;
  wp_runtime_state : WorkflowExecutionState;
  wp_failure_category : FailureCategory;
  wp_approval_id : string;
  wp_bundle_artifact_id : string;
  wp_summary_artifact_id : string;
  wp_projection_status : ReplayProjectionStatus;
  wp_schema_version : Z;
  wp_degradation_reasons_json : list string;
  wp_summary_json : string;
  wp_explanation_json : string;
  wp_compare_input_json : string;
  wp_updated_at : string;
  wp_projection_freshness : string
}.
#[export] Instance eta_workflow_replay_projections : Eta workflow_replay_projections_row := eta! mk_workflow_replay_projections < wp_task_id ; wp_intent ; wp_runtime_state ; wp_failure_category ; wp_approval_id ; wp_bundle_artifact_id ; wp_summary_artifact_id ; wp_projection_status ; wp_schema_version ; wp_degradation_reasons_json ; wp_summary_json ; wp_explanation_json ; wp_compare_input_json ; wp_updated_at ; wp_projection_freshness >.

Record task_graph_replay_projections_row := mk_task_graph_replay_projections {
  gp_parent_workflow_id : string;
  gp_parent_task_id : string;
  gp_runtime_state : WorkflowExecutionState;
  gp_pending_approval_id : string;
  gp_bundle_artifact_id : string;
  gp_summary_artifact_id : string;
  gp_projection_status : ReplayProjectionStatus;
  gp_schema_version : Z;
  gp_degradation_reasons_json : list string;
  gp_summary_json : string;
  gp_explanation_json : string;
  gp_compare_input_json : string;
  gp_updated_at : string;
  gp_projection_freshness : string
}.
#[export] Instance eta_task_graph_replay_projections : Eta task_graph_replay_projections_row := eta! mk_task_graph_replay_projections < gp_parent_workflow_id ; gp_parent_task_id ; gp_runtime_state ; gp_pending_approval_id ; gp_bundle_artifact_id ; gp_summary_artifact_id ; gp_projection_status ; gp_schema_version ; gp_degradation_reasons_json ; gp_summary_json ; gp_explanation_json ; gp_compare_input_json ; gp_updated_at ; gp_projection_freshness >.

Record replay_provenance_nodes_row := mk_replay_provenance_nodes {
  pn_node_type : string;
  pn_ref_id : string;
  pn_label : string;
  pn_summary : string;
  pn_attributes_json : string
}.
#[export] Instance eta_replay_provenance_nodes : Eta replay_provenance_nodes_row := eta! mk_replay_provenance_nodes < pn_node_type ; pn_ref_id ; pn_label ; pn_summary ; pn_attributes_json >.

Record replay_provenance_edges_row := mk_replay_provenance_edges {
  pe_from_node_id : string;
  pe_to_node_id : string;
  pe_edge_type : string;
  pe_reason : string;
  pe_attributes_json : string
}.
#[export] Instance eta_replay_provenance_edges : Eta replay_provenance_edges_row := eta! mk_replay_provenance_edges < pe_from_node_id ; pe_to_node_id ; pe_edge_type ; pe_reason ; pe_attributes_json >.

Record replay_execution_attributions_row := mk_replay_execution_attributions {
  xa_summary : string;
  xa_source_refs_json : string;
  xa_details_json : string
}.
#[export] Instance eta_replay_execution_attributions : Eta replay_execution_attributions_row := eta! mk_replay_execution_attributions < xa_summary ; xa_source_refs_json ; xa_details_json >.

Record replay_failure_attributions_row := mk_replay_failure_attributions {
  fa_failure_category : string;
  fa_reason_code : string;
  fa_summary : string;
  fa_related_kind : string;
  fa_related_id : string;
  fa_source_refs_json : string;
  fa_details_json : string
}.
#[export] Instance eta_replay_failure_attributions : Eta replay_failure_attributions_row := eta! mk_replay_failure_attributions < fa_failure_category ; fa_reason_code ; fa_summary ; fa_related_kind ; fa_related_id ; fa_source_refs_json ; fa_details_json >.

Record workflow_artifacts_row := mk_workflow_artifacts {
  wa_kind : ArtifactKind;
  wa_workflow_id : string;
  wa_task_id : string;
  wa_produced_by : string;
  wa_summary : string;
  wa_storage_ref : string;
  wa_created_at : string;
  wa_ref_json : ArtifactRef
}.
#[export] Instance eta_workflow_artifacts : Eta workflow_artifacts_row := eta! mk_workflow_artifacts < wa_kind ; wa_workflow_id ; wa_task_id ; wa_produced_by ; wa_summary ; wa_storage_ref ; wa_created_at ; wa_ref_json >.

Record work_attempts_row := mk_work_attempts {
  at_work_item_id : string;
  at_work_item_kind : WorkItemKind;
  at_graph_id : option string;
  at_task_id : option string;
  at_execution_id : option string;
  at_approval_id : option string;
  at_worker_id : string;
  at_lease_id : string;
  at_fencing_token : Z;
  at_status : ExecutionAttemptStatus;
  at_failure_category : option FailureCategory;
  at_failure_summary : option string;
  at_started_at : string;
  at_finished_at : option string;
  at_checkpoint_id : option string;
  at_produced_artifact_ids_json : list string;
  at_record_json : ExecutionAttempt
}.
#[export] Instance eta_work_attempts : Eta work_attempts_row := eta! mk_work_attempts < at_work_item_id ; at_work_item_kind ; at_graph_id ; at_task_id ; at_execution_id ; at_approval_id ; at_worker_id ; at_lease_id ; at_fencing_token ; at_status ; at_failure_category ; at_failure_summary ; at_started_at ; at_finished_at ; at_checkpoint_id ; at_produced_artifact_ids_json ; at_record_json >.

Record worker_registrations_row := mk_worker_registrations {
  wk_role : WorkerRole;
  wk_backend_profile : option string;
  wk_started_at : string;
  wk_last_heartbeat : string
}.
#[export] Instance eta_worker_registrations : Eta worker_registrations_row := eta! mk_worker_registrations < wk_role ; wk_backend_profile ; wk_started_at ; wk_last_heartbeat >.

Record scheduler_wakeups_row := mk_scheduler_wakeups {
  wu_graph_id : option string;
  wu_task_id : option string;
  wu_execution_id : option string;
  wu_approval_id : option string;
  wu_kind : SchedulerWakeupKind;
  wu_available_at : string;
  wu_reason : option string
}.
#[export] Instance eta_scheduler_wakeups : Eta scheduler_wakeups_row := eta! mk_scheduler_wakeups < wu_graph_id ; wu_task_id ; wu_execution_id ; wu_approval_id ; wu_kind ; wu_available_at ; wu_reason >.

(** *** The tables *)

Abbreviation task_graphs := (gmap string task_graphs_row).
Abbreviation follow_up_tasks := (gmap (string * string) follow_up_tasks_row).
Abbreviation task_dependencies := (gmap (string * string * string) task_dependencies_row).
Abbreviation state_snapshots := (gmap string state_snapshots_row).
Abbreviation task_executions := (gmap string task_executions_row).
Abbreviation skill_executions := (gmap string skill_executions_row).
Abbreviation checkpoints := (gmap string checkpoints_row).
Abbreviation resume_tokens := (gmap string resume_tokens_row).
Abbreviation approvals := (gmap string approvals_row).
Abbreviation operator_actions := (gmap string operator_actions_row).
Abbreviation replay_events := (gmap string replay_events_row).
Abbreviation workflow_runs := (gmap string workflow_runs_row).
Abbreviation replay_projection_builds := (gmap (ReplayScopeKind * string) replay_projection_builds_row).
Abbreviation workflow_replay_projections := (gmap string workflow_replay_projections_row).
Abbreviation task_graph_replay_projections := (gmap string task_graph_replay_projections_row).
Abbreviation replay_provenance_nodes := (gmap (ReplayScopeKind * string * string) replay_provenance_nodes_row).
Abbreviation replay_provenance_edges := (gmap (ReplayScopeKind * string * string) replay_provenance_edges_row).
Abbreviation replay_execution_attributions := (gmap (ReplayScopeKind * string * string * string) replay_execution_attributions_row).
Abbreviation replay_failure_attributions := (gmap (ReplayScopeKind * string * string) replay_failure_attributions_row).
Abbreviation workflow_artifacts := (gmap string workflow_artifacts_row).
Abbreviation work_attempts := (gmap string work_attempts_row).
Abbreviation worker_registrations := (gmap string worker_registrations_row).
Abbreviation scheduler_wakeups := (gmap string scheduler_wakeups_row).
(** The files of the artifact directory: their contents by path. *)
Abbreviation artifact_files := (gmap string string).

Record graph_tables := mk_graph_tables {
  t_task_graphs : task_graphs;
  t_follow_up_tasks : follow_up_tasks;
  t_task_dependencies : task_dependencies;
  t_state_snapshots : state_snapshots
}.
#[export] Instance eta_graph_tables : Eta graph_tables := eta! mk_graph_tables < t_task_graphs ; t_follow_up_tasks ; t_task_dependencies ; t_state_snapshots >.

Record provenance_tables := mk_provenance_tables {
  t_replay_provenance_nodes : replay_provenance_nodes;
  t_replay_provenance_edges : replay_provenance_edges
}.
#[export] Instance eta_provenance_tables : Eta provenance_tables := eta! mk_provenance_tables < t_replay_provenance_nodes ; t_replay_provenance_edges >.

Record artifact_tables := mk_artifact_tables {
  t_workflow_artifacts : workflow_artifacts;
  t_artifact_files : artifact_files
}.
#[export] Instance eta_artifact_tables : Eta artifact_tables := eta! mk_artifact_tables < t_workflow_artifacts ; t_artifact_files >.

Record db := mk_db {
  db_graph : graph_tables;
  db_provenance : provenance_tables;
  db_artifact : artifact_tables;
  db_task_executions : task_executions;
  db_skill_executions : skill_executions;
  db_checkpoints : checkpoints;
  db_resume_tokens : resume_tokens;
  db_approvals : approvals;
  db_operator_actions : operator_actions;
  db_replay_events : replay_events;
  db_workflow_runs : workflow_runs;
  db_replay_projection_builds : replay_projection_builds;
  db_workflow_replay_projections : workflow_replay_projections;
  db_task_graph_replay_projections : task_graph_replay_projections;
  db_replay_execution_attributions : replay_execution_attributions;
  db_replay_failure_attributions : replay_failure_attributions;
  db_work_attempts : work_attempts;
  db_worker_registrations : worker_registrations;
  db_scheduler_wakeups : scheduler_wakeups;
  db_work_items : SqlQueue.work_items
}.
#[export] Instance eta_db : Eta db := eta! mk_db < db_graph ; db_provenance ; db_artifact ; db_task_executions ; db_skill_executions ; db_checkpoints ; db_resume_tokens ; db_approvals ; db_operator_actions ; db_replay_events ; db_workflow_runs ; db_replay_projection_builds ; db_workflow_replay_projections ; db_task_graph_replay_projections ; db_replay_execution_attributions ; db_replay_failure_attributions ; db_work_attempts ; db_worker_registrations ; db_scheduler_wakeups ; db_work_items >.

(** The database after [EnsureSchema]. *)
Definition empty_db : db := mk_db (mk_graph_tables ∅ ∅ ∅ ∅) (mk_provenance_tables ∅ ∅) (mk_artifact_tables ∅ ∅) ∅ ∅ ∅ ∅ ∅ ∅ ∅ ∅ ∅ ∅ ∅ ∅ ∅ ∅ ∅ ∅ ∅.
End Sqlite.

(** ** The Postgres schema *)

Module Postgres.
Record task_graphs_row := mk_task_graphs {
  tg_version : Z;
  tg_snapshot_json : string;
  tg_updated_at : string
}.
#[export] Instance eta_task_graphs : Eta task_graphs_row := eta! mk_task_graphs < tg_version ; tg_snapshot_json ; tg_updated_at >.

Record state_snapshots_row := mk_state_snapshots {
  ss_graph_id : option string;
  ss_workflow_id : option string;
  ss_task_id : option string;
  ss_kind : string;
  ss_state_version : Z;
  ss_reason : string;
  ss_captured_at : string;
  ss_state_json : FinancialWorldState
}.
#[export] Instance eta_state_snapshots : Eta state_snapshots_row := eta! mk_state_snapshots < ss_graph_id ; ss_workflow_id ; ss_task_id ; ss_kind ; ss_state_version ; ss_reason ; ss_captured_at ; ss_state_json >.

Record task_executions_row := mk_task_executions {
  te_graph_id : string;
  te_task_id : string;
  te_started_at : string;
  te_version : Z;
  te_record_json : TaskExecutionRecord
}.
#[export] Instance eta_task_executions : Eta task_executions_row := eta! mk_task_executions < te_graph_id ; te_task_id ; te_started_at ; te_version ; te_record_json >.

Record skill_executions_row := mk_skill_executions {
  se_workflow_id : string;
  se_task_id : string;
  se_status : SkillExecutionStatus;
  se_created_at : string;
  se_updated_at : string;
  se_record_json : SkillExecutionRecord
}.
#[export] Instance eta_skill_executions : Eta skill_executions_row := eta! mk_skill_executions < se_workflow_id ; se_task_id ; se_status ; se_created_at ; se_updated_at ; se_record_json >.

Record approvals_row := mk_approvals {
  ap_graph_id : string;
  ap_task_id : string;
  ap_status : ApprovalStatus;
  ap_version : Z;
  ap_record_json : ApprovalStateRecord
}.
#[export] Instance eta_approvals : Eta approvals_row := eta! mk_approvals < ap_graph_id ; ap_task_id ; ap_status ; ap_version ; ap_record_json >.

Record operator_actions_row := mk_operator_actions {
  oa_request_id : string;
  oa_graph_id : option string;
  oa_task_id : option string;
  oa_record_json : OperatorActionRecord
}.
#[export] Instance eta_operator_actions : Eta operator_actions_row := eta! mk_operator_actions < oa_request_id ; oa_graph_id ; oa_task_id ; oa_record_json >.

Record checkpoints_row := mk_checkpoints {
  ck_workflow_id : string;
  ck_record_json : CheckpointRecord;
  ck_payload_kind : option CheckpointPayloadKind;
  ck_payload_json : option CheckpointPayloadEnvelope
}.
#[export] Instance eta_checkpoints : Eta checkpoints_row := eta! mk_checkpoints < ck_workflow_id ; ck_record_json ; ck_payload_kind ; ck_payload_json >.

Record resume_tokens_row := mk_resume_tokens {
  rt_record_json : ResumeToken
}.
#[export] Instance eta_resume_tokens : Eta resume_tokens_row := eta! mk_resume_tokens < rt_record_json >.

Record replay_events_row := mk_replay_events {
  re_workflow_id : option string;
  re_graph_id : option string;
  re_task_id : option string;
  re_approval_id : option string;
  re_execution_id : option string;
  re_occurred_at : string;
  re_record_json : ReplayEventRecord
}.
#[export] Instance eta_replay_events : Eta replay_events_row := eta! mk_replay_events < re_workflow_id ; re_graph_id ; re_task_id ; re_approval_id ; re_execution_id ; re_occurred_at ; re_record_json >.

Record workflow_runs_row := mk_workflow_runs {
  wf_updated_at : string;
  wf_record_json : WorkflowRunRecord
}.
#[export] Instance eta_workflow_runs : Eta workflow_runs_row := eta! mk_workflow_runs < wf_updated_at ; wf_record_json >.

Record replay_projection_builds_row := mk_replay_projection_builds {
  pb_record_json : ReplayProjectionBuildRecord
}.
#[export] Instance eta_replay_projection_builds : Eta replay_projection_builds_row := eta! mk_replay_projection_builds < pb_record_json >.

Record workflow_replay_projections_row := mk_workflow_replay_projections {
  wp_projection_freshness : string;
  wp_record_json : WorkflowReplayProjection
}.
#[export] Instance eta_workflow_replay_projections : Eta workflow_replay_projections_row := eta! mk_workflow_replay_projections < wp_projection_freshness ; wp_record_json >.

Record task_graph_replay_projections_row := mk_task_graph_replay_projections {
  gp_projection_freshness : string;
  gp_record_json : TaskGraphReplayProjection
}.
#[export] Instance eta_task_graph_replay_projections : Eta task_graph_replay_projections_row := eta! mk_task_graph_replay_projections < gp_projection_freshness ; gp_record_json >.

Record replay_provenance_nodes_row := mk_replay_provenance_nodes {
  pn_record_json : ProvenanceNodeRecord
}.
#[export] Instance eta_replay_provenance_nodes : Eta replay_provenance_nodes_row := eta! mk_replay_provenance_nodes < pn_record_json >.

Record replay_provenance_edges_row := mk_replay_provenance_edges {
  pe_record_json : ProvenanceEdgeRecord
}.
#[export] Instance eta_replay_provenance_edges : Eta replay_provenance_edges_row := eta! mk_replay_provenance_edges < pe_record_json >.

Record replay_execution_attributions_row := mk_replay_execution_attributions {
  xa_record_json : ExecutionAttributionRecord
}.
#[export] Instance eta_replay_execution_attributions : Eta replay_execution_attributions_row := eta! mk_replay_execution_attributions < xa_record_json >.

Record replay_failure_attributions_row := mk_replay_failure_attributions {
  fa_record_json : FailureAttributionRecord
}.
#[export] Instance eta_replay_failure_attributions : Eta replay_failure_attributions_row := eta! mk_replay_failure_attributions < fa_record_json >.

Record workflow_artifacts_row := mk_workflow_artifacts {
  wa_workflow_id : string;
  wa_task_id : string;
  wa_created_at : string;
  wa_storage_ref : option string;
  wa_record_json : WorkflowArtifact
}.
#[export] Instance eta_workflow_artifacts : Eta workflow_artifacts_row := eta! mk_workflow_artifacts < wa_workflow_id ; wa_task_id ; wa_created_at ; wa_storage_ref ; wa_record_json >.

Record work_attempts_row := mk_work_attempts {
  at_work_item_id : string;
  at_started_at : string;
  at_record_json : ExecutionAttempt
}.
#[export] Instance eta_work_attempts : Eta work_attempts_row := eta! mk_work_attempts < at_work_item_id ; at_started_at ; at_record_json >.

Record worker_registrations_row := mk_worker_registrations {
  wk_last_heartbeat : string;
  wk_record_json : WorkerRegistration
}.
#[export] Instance eta_worker_registrations : Eta worker_registrations_row := eta! mk_worker_registrations < wk_last_heartbeat ; wk_record_json >.

Record scheduler_wakeups_row := mk_scheduler_wakeups {
  wu_available_at : string;
  wu_record_json : SchedulerWakeup
}.
#[export] Instance eta_scheduler_wakeups : Eta scheduler_wakeups_row := eta! mk_scheduler_wakeups < wu_available_at ; wu_record_json >.

(** *** The tables *)

Abbreviation task_graphs := (gmap string task_graphs_row).
Abbreviation state_snapshots := (gmap string state_snapshots_row).
Abbreviation task_executions := (gmap string task_executions_row).
Abbreviation skill_executions := (gmap string skill_executions_row).
Abbreviation approvals := (gmap string approvals_row).
Abbreviation operator_actions := (gmap string operator_actions_row).
Abbreviation checkpoints := (gmap string checkpoints_row).
Abbreviation resume_tokens := (gmap string resume_tokens_row).
Abbreviation replay_events := (gmap string replay_events_row).
Abbreviation workflow_runs := (gmap string workflow_runs_row).
Abbreviation replay_projection_builds := (gmap (ReplayScopeKind * string) replay_projection_builds_row).
Abbreviation workflow_replay_projections := (gmap string workflow_replay_projections_row).
Abbreviation task_graph_replay_projections := (gmap string task_graph_replay_projections_row).
Abbreviation replay_provenance_nodes := (gmap (ReplayScopeKind * string * string) replay_provenance_nodes_row).
Abbreviation replay_provenance_edges := (gmap (ReplayScopeKind * string * string) replay_provenance_edges_row).
Abbreviation replay_execution_attributions := (gmap (ReplayScopeKind * string * string * string) replay_execution_attributions_row).
Abbreviation replay_failure_attributions := (gmap (ReplayScopeKind * string * string) replay_failure_attributions_row).
Abbreviation workflow_artifacts := (gmap string workflow_artifacts_row).
Abbreviation work_attempts := (gmap string work_attempts_row).
Abbreviation worker_registrations := (gmap string worker_registrations_row).
Abbreviation scheduler_wakeups := (gmap string scheduler_wakeups_row).

Record graph_tables := mk_graph_tables {
  t_task_graphs : task_graphs;
  t_state_snapshots : state_snapshots
}.
#[export] Instance eta_graph_tables : Eta graph_tables := eta! mk_graph_tables < t_task_graphs ; t_state_snapshots >.

Record provenance_tables := mk_provenance_tables {
  t_replay_provenance_nodes : replay_provenance_nodes;
  t_replay_provenance_edges : replay_provenance_edges
}.
#[export] Instance eta_provenance_tables : Eta provenance_tables := eta! mk_provenance_tables < t_replay_provenance_nodes ; t_replay_provenance_edges >.

Record db := mk_db {
  db_graph : graph_tables;
  db_provenance : provenance_tables;
  db_task_executions : task_executions;
  db_skill_executions : skill_executions;
  db_approvals : approvals;
  db_operator_actions : operator_actions;
  db_checkpoints : checkpoints;
  db_resume_tokens : resume_tokens;
  db_replay_events : replay_events;
  db_workflow_runs : workflow_runs;
  db_replay_projection_builds : replay_projection_builds;
  db_workflow_replay_projections : workflow_replay_projections;
  db_task_graph_replay_projections : task_graph_replay_projections;
  db_replay_execution_attributions : replay_execution_attributions;
  db_replay_failure_attributions : replay_failure_attributions;
  db_workflow_artifacts : workflow_artifacts;
  db_work_attempts : work_attempts;
  db_worker_registrations : worker_registrations;
  db_scheduler_wakeups : scheduler_wakeups;
  db_work_items : SqlQueue.work_items
}.
#[export] Instance eta_db : Eta db := eta! mk_db < db_graph ; db_provenance ; db_task_executions ; db_skill_executions ; db_approvals ; db_operator_actions ; db_checkpoints ; db_resume_tokens ; db_replay_events ; db_workflow_runs ; db_replay_projection_builds ; db_workflow_replay_projections ; db_task_graph_replay_projections ; db_replay_execution_attributions ; db_replay_failure_attributions ; db_workflow_artifacts ; db_work_attempts ; db_worker_registrations ; db_scheduler_wakeups ; db_work_items >.

(** The database after [EnsureSchema]. *)
Definition empty_db : db := mk_db (mk_graph_tables ∅ ∅) (mk_provenance_tables ∅ ∅) ∅ ∅ ∅ ∅ ∅ ∅ ∅ ∅ ∅ ∅ ∅ ∅ ∅ ∅ ∅ ∅ ∅ ∅.
End Postgres.
