(* ===== verification/World.v ===== *)
(** * The world: all stores, the heap, the clock; the runtime's interfaces

    [World] is everything a runtime call can read or write.  A method of the
    runtime is a value of [M A]: it takes the world, and returns the world as
    it left it (writes made before an error stay) with a value, an error or a
    panic.

    Go interfaces are records of operations in [M]; each has the in-memory
    implementation, acting on its part of the world.  A client is modelled
    against the record, so that it runs with any implementation. *)

From S2P Require Export WorkQueue Stores.

(** ** State *)

Record World := mkWorld {
  w_graphs : TaskGraphs.store;
  w_executions : Executions.store;
  w_approvals : Approvals.store;
  w_actions : OperatorActions.store;
  w_checkpoints : Checkpoints.store;
  w_replay : Replay.store;
  w_artifacts : Artifacts.store;
  w_queue : Queue.store;
  w_attempts : Attempts.store;
  w_workers : Workers.store;
  w_wakeups : Wakeups.store;
  w_timeline : list WorkflowTimelineEntry;
  w_journal : list CheckpointRecord;
  w_log : list LogEntry;
  w_arrays : gmap addr (list FollowUpTaskRecord);
  w_next : addr;
  w_clock : nat -> time;
  w_reads : nat
}.
#[export] Instance eta_World : Eta World := eta! mkWorld <
  w_graphs ; w_executions ; w_approvals ; w_actions ; w_checkpoints ; w_replay ; w_artifacts ;
  w_queue ; w_attempts ; w_workers ; w_wakeups ; w_timeline ; w_journal ; w_log ; w_arrays ;
  w_next ; w_clock ; w_reads >.

(** A process that has just started; [clock] gives the successive readings. *)
Definition initial_world (clock : nat -> time) : World :=
  mkWorld TaskGraphs.NewInMemoryTaskGraphStore Executions.NewInMemoryTaskExecutionStore
    Approvals.NewInMemoryApprovalStateStore OperatorActions.NewInMemoryOperatorActionStore
    Checkpoints.NewInMemoryCheckpointStore Replay.NewInMemoryReplayStore
    Artifacts.NewInMemoryArtifactMetadataStore Queue.NewInMemoryWorkQueueStore
    Attempts.NewInMemoryWorkAttemptStore Workers.NewInMemoryWorkerRegistryStore
    Wakeups.NewInMemorySchedulerStore [] [] [] ∅ 1%nat clock 0%nat.

Abbreviation M := (ST error World).

(** ** Clock and heap *)

(** One reading of the clock ([r.now()], [s.now()], [time.Now().UTC()]). *)
Definition now : M time :=
  w ← get;
  put (w <| w_reads := S (w_reads w) |>);;
  mret (w_clock w (w_reads w)).

(** A slice literal or [make]: a new array. *)
Definition new_array (l : list FollowUpTaskRecord) : M addr :=
  w ← get;
  put (w <| w_arrays := <[w_next w := l]> (w_arrays w) |> <| w_next := S (w_next w) |>);;
  mret (w_next w).

Definition array_at (w : World) (a : addr) : list FollowUpTaskRecord := default [] (w_arrays w !! a).

Definition read_array (a : addr) : M (list FollowUpTaskRecord) := gets (fun w => array_at w a).

(** In-place assignment to the elements of a (non-nil) array. *)
Definition write_array (a : addr) (l : list FollowUpTaskRecord) : M unit :=
  modify (fun w => w <| w_arrays := <[a := l]> (w_arrays w) |>).

(** ** Running an operation of one store in the world *)

Definition on_graphs {A} : ST error TaskGraphs.store A -> M A := zoom w_graphs (fun s w => w <| w_graphs := s |>).
Definition on_executions {A} : ST error Executions.store A -> M A := zoom w_executions (fun s w => w <| w_executions := s |>).
Definition on_approvals {A} : ST error Approvals.store A -> M A := zoom w_approvals (fun s w => w <| w_approvals := s |>).
Definition on_actions {A} : ST error OperatorActions.store A -> M A := zoom w_actions (fun s w => w <| w_actions := s |>).
Definition on_checkpoints {A} : ST error Checkpoints.store A -> M A := zoom w_checkpoints (fun s w => w <| w_checkpoints := s |>).
Definition on_replay {A} : ST error Replay.store A -> M A := zoom w_replay (fun s w => w <| w_replay := s |>).
Definition on_artifacts {A} : ST error Artifacts.store A -> M A := zoom w_artifacts (fun s w => w <| w_artifacts := s |>).
Definition on_queue {A} : ST error Queue.store A -> M A := zoom w_queue (fun s w => w <| w_queue := s |>).
Definition on_attempts {A} : ST error Attempts.store A -> M A := zoom w_attempts (fun s w => w <| w_attempts := s |>).
Definition on_workers {A} : ST error Workers.store A -> M A := zoom w_workers (fun s w => w <| w_workers := s |>).
Definition on_wakeups {A} : ST error Wakeups.store A -> M A := zoom w_wakeups (fun s w => w <| w_wakeups := s |>).

(** ** Store interfaces (store.go, async_types.go) *)

Record TaskGraphStore := {
  TaskGraphStore_Save : TaskGraphSnapshot -> M unit;
  TaskGraphStore_Update : TaskGraphSnapshot -> Z -> M unit;
  TaskGraphStore_Load : string -> M (option TaskGraphSnapshot);
  TaskGraphStore_List : M (list TaskGraphSnapshot);
  TaskGraphStore_SaveStateSnapshot : string -> string -> string -> string -> StateSnapshot -> M string;
  TaskGraphStore_LoadStateSnapshot : string -> M (option StateSnapshot)
}.

Record TaskExecutionStore := {
  TaskExecutionStore_Save : TaskExecutionRecord -> M unit;
  TaskExecutionStore_Update : TaskExecutionRecord -> Z -> M unit;
  TaskExecutionStore_Load : string -> M (option TaskExecutionRecord);
  TaskExecutionStore_LoadLatestByTask : string -> string -> M (option TaskExecutionRecord);
  TaskExecutionStore_ListByGraph : string -> M (list TaskExecutionRecord)
}.

Record ApprovalStateStore := {
  ApprovalStateStore_Save : ApprovalStateRecord -> M unit;
  ApprovalStateStore_Update : ApprovalStateRecord -> Z -> M unit;
  ApprovalStateStore_Load : string -> M (option ApprovalStateRecord);
  ApprovalStateStore_ListPending : M (list ApprovalStateRecord);
  ApprovalStateStore_LoadByTask : string -> string -> M (option ApprovalStateRecord)
}.

Record OperatorActionStore := {
  OperatorActionStore_Save : OperatorActionRecord -> M unit;
  OperatorActionStore_LoadByRequestID : string -> M (option OperatorActionRecord);
  OperatorActionStore_ListByTask : string -> string -> M (list OperatorActionRecord)
}.

Record CheckpointStore := {
  CheckpointStore_Save : CheckpointRecord -> M unit;
  CheckpointStore_Load : string -> string -> M CheckpointRecord;
  CheckpointStore_SaveResumeToken : ResumeToken -> M unit;
  CheckpointStore_LoadResumeToken : string -> M ResumeToken;
  CheckpointStore_SavePayload : string -> CheckpointPayloadEnvelope -> M unit;
  CheckpointStore_LoadPayload : string -> M CheckpointPayloadEnvelope
}.

Record ReplayStore := {
  ReplayStore_Append : ReplayEventRecord -> M unit;
  ReplayStore_ListByGraph : string -> M (list ReplayEventRecord);
  ReplayStore_ListByTask : string -> M (list ReplayEventRecord);
  ReplayStore_ListByWorkflow : string -> M (list ReplayEventRecord)
}.

Record ArtifactMetadataStore := {
  ArtifactMetadataStore_SaveArtifact : string -> string -> WorkflowArtifact -> M unit;
  ArtifactMetadataStore_ListArtifactsByTask : string -> M (list WorkflowArtifact);
  ArtifactMetadataStore_ListArtifactsByWorkflow : string -> M (list WorkflowArtifact);
  ArtifactMetadataStore_LoadArtifact : string -> M (option WorkflowArtifact)
}.

Definition FenceValidator : Type := FenceValidation -> M unit.

Record WorkQueueStore := {
  WorkQueueStore_Enqueue : WorkItem -> M WorkEnqueueResult;
  WorkQueueStore_ClaimReady : string -> Z -> time -> Duration -> M (list WorkClaim);
  WorkQueueStore_Heartbeat : LeaseHeartbeat -> M unit;
  WorkQueueStore_Complete : FenceValidation -> time -> M unit;
  WorkQueueStore_Fail : FenceValidation -> string -> time -> M unit;
  WorkQueueStore_Requeue : FenceValidation -> time -> string -> time -> M unit;
  WorkQueueStore_ReclaimExpired : time -> M (list LeaseReclaimResult);
  WorkQueueStore_Load : string -> M (option WorkItem);
  WorkQueueStore_ListByGraph : string -> M (list WorkItem);
  WorkQueueStore_ValidateFence : FenceValidator
}.

Record WorkAttemptStore := {
  WorkAttemptStore_SaveAttempt : ExecutionAttempt -> M unit;
  WorkAttemptStore_UpdateAttempt : ExecutionAttempt -> M unit;
  WorkAttemptStore_ListAttempts : string -> M (list ExecutionAttempt)
}.

Record WorkerRegistryStore := {
  WorkerRegistryStore_Register : WorkerRegistration -> M unit;
  WorkerRegistryStore_Heartbeat : string -> time -> M unit;
  WorkerRegistryStore_Load : string -> M (option WorkerRegistration);
  WorkerRegistryStore_List : M (list WorkerRegistration)
}.

Record SchedulerStore := {
  SchedulerStore_SaveWakeup : SchedulerWakeup -> M unit;
  SchedulerStore_ListDueWakeups : time -> M (list SchedulerWakeup);
  SchedulerStore_MarkWakeupDispatched : string -> time -> M unit
}.

(** *** The in-memory implementations *)

Section in_memory.
Context `{MO : MapOrder}.

Definition InMemoryTaskGraphStore : TaskGraphStore := {|
  TaskGraphStore_Save s := on_graphs (TaskGraphs.Save s);
  TaskGraphStore_Update s v := on_graphs (TaskGraphs.Update s v);
  TaskGraphStore_Load g := on_graphs (TaskGraphs.Load g);
  TaskGraphStore_List := on_graphs TaskGraphs.List;
  TaskGraphStore_SaveStateSnapshot g w t k s := on_graphs (TaskGraphs.SaveStateSnapshot g w t k s);
  TaskGraphStore_LoadStateSnapshot r := on_graphs (TaskGraphs.LoadStateSnapshot r)
|}.

Definition InMemoryTaskExecutionStore : TaskExecutionStore := {|
  TaskExecutionStore_Save r := on_executions (Executions.Save r);
  TaskExecutionStore_Update r v := on_executions (Executions.Update r v);
  TaskExecutionStore_Load i := on_executions (Executions.Load i);
  TaskExecutionStore_LoadLatestByTask g t := on_executions (Executions.LoadLatestByTask g t);
  TaskExecutionStore_ListByGraph g := on_executions (Executions.ListByGraph g)
|}.

Definition InMemoryApprovalStateStore : ApprovalStateStore := {|
  ApprovalStateStore_Save r := on_approvals (Approvals.Save r);
  ApprovalStateStore_Update r v := on_approvals (Approvals.Update r v);
  ApprovalStateStore_Load i := on_approvals (Approvals.Load i);
  ApprovalStateStore_ListPending := on_approvals Approvals.ListPending;
  ApprovalStateStore_LoadByTask g t := on_approvals (Approvals.LoadByTask g t)
|}.

Definition InMemoryOperatorActionStore : OperatorActionStore := {|
  OperatorActionStore_Save r := on_actions (OperatorActions.Save r);
  OperatorActionStore_LoadByRequestID i := on_actions (OperatorActions.LoadByRequestID i);
  OperatorActionStore_ListByTask g t := on_actions (OperatorActions.ListByTask g t)
|}.

Definition InMemoryCheckpointStore : CheckpointStore := {|
  CheckpointStore_Save c := on_checkpoints (Checkpoints.Save c);
  CheckpointStore_Load w c := on_checkpoints (Checkpoints.Load w c);
  CheckpointStore_SaveResumeToken t := on_checkpoints (Checkpoints.SaveResumeToken t);
  CheckpointStore_LoadResumeToken t := on_checkpoints (Checkpoints.LoadResumeToken t);
  CheckpointStore_SavePayload i p := on_checkpoints (Checkpoints.SavePayload i p);
  CheckpointStore_LoadPayload i := on_checkpoints (Checkpoints.LoadPayload i)
|}.

Definition InMemoryReplayStore : ReplayStore := {|
  ReplayStore_Append e := on_replay (Replay.Append e);
  ReplayStore_ListByGraph g := on_replay (Replay.ListByGraph g);
  ReplayStore_ListByTask t := on_replay (Replay.ListByTask t);
  ReplayStore_ListByWorkflow w := on_replay (Replay.ListByWorkflow w)
|}.

Definition InMemoryArtifactMetadataStore : ArtifactMetadataStore := {|
  ArtifactMetadataStore_SaveArtifact w t a := on_artifacts (Artifacts.SaveArtifact w t a);
  ArtifactMetadataStore_ListArtifactsByTask t := on_artifacts (Artifacts.ListArtifactsByTask t);
  ArtifactMetadataStore_ListArtifactsByWorkflow w := on_artifacts (Artifacts.ListArtifactsByWorkflow w);
  ArtifactMetadataStore_LoadArtifact i := on_artifacts (Artifacts.LoadArtifact i)
|}.

Definition InMemoryWorkQueueStore : WorkQueueStore := {|
  WorkQueueStore_Enqueue i := on_queue (Queue.Enqueue i);
  WorkQueueStore_ClaimReady w l n t := on_queue (Queue.ClaimReady w l n t);
  WorkQueueStore_Heartbeat h := on_queue (Queue.Heartbeat h);
  WorkQueueStore_Complete f n := on_queue (Queue.Complete f n);
  WorkQueueStore_Fail f s n := on_queue (Queue.Fail f s n);
  WorkQueueStore_Requeue f a r n := on_queue (Queue.Requeue f a r n);
  WorkQueueStore_ReclaimExpired n := on_queue (Queue.ReclaimExpired n);
  WorkQueueStore_Load i := on_queue (Queue.Load i);
  WorkQueueStore_ListByGraph g := on_queue (Queue.ListByGraph g);
  WorkQueueStore_ValidateFence f := on_queue (Queue.ValidateFence f)
|}.

Definition InMemoryWorkAttemptStore : WorkAttemptStore := {|
  WorkAttemptStore_SaveAttempt a := on_attempts (Attempts.SaveAttempt a);
  WorkAttemptStore_UpdateAttempt a := on_attempts (Attempts.UpdateAttempt a);
  WorkAttemptStore_ListAttempts i := on_attempts (Attempts.ListAttempts i)
|}.

Definition InMemoryWorkerRegistryStore : WorkerRegistryStore := {|
  WorkerRegistryStore_Register r := on_workers (Workers.Register r);
  WorkerRegistryStore_Heartbeat i n := on_workers (Workers.Heartbeat i n);
  WorkerRegistryStore_Load i := on_workers (Workers.Load i);
  WorkerRegistryStore_List := on_workers Workers.List
|}.

Definition InMemorySchedulerStore : SchedulerStore := {|
  SchedulerStore_SaveWakeup w := on_wakeups (Wakeups.SaveWakeup w);
  SchedulerStore_ListDueWakeups n := on_wakeups (Wakeups.ListDueWakeups n);
  SchedulerStore_MarkWakeupDispatched i n := on_wakeups (Wakeups.MarkWakeupDispatched i n)
|}.
End in_memory.

(** ** Behavioural interfaces *)

(** [FollowUpWorkflowCapability] (task_dispatch.go): a workflow the runtime
    can execute and resume.  Running one takes time: whatever happens to the
    world meanwhile, other workers included, is part of the action. *)
Record FollowUpWorkflowCapability := {
  CapabilityName : string;
  Capability_Execute : TaskSpec -> FollowUpActivationContext -> FinancialWorldState ->
    M FollowUpWorkflowRunResult;
  Capability_Resume : TaskSpec -> FollowUpActivationContext -> FinancialWorldState ->
    CheckpointRecord -> ResumeToken -> CheckpointPayloadEnvelope -> M FollowUpWorkflowRunResult
}.

(** [TaskCapabilityResolver] (task_graph.go) *)
Record TaskCapabilityResolver := {
  Resolver_Resolve : TaskSpec -> string * bool * string;
  Resolver_ResolveWorkflow : TaskSpec -> option FollowUpWorkflowCapability * bool * string
}.

(** [WorkflowController] (interfaces.go) *)
Record WorkflowController := {
  Controller_HandleFailure : WorkflowExecutionState -> FailureCategory ->
    error + (WorkflowExecutionState * RecoveryStrategy);
  Controller_PauseForApproval : WorkflowExecutionState -> HumanApprovalPending ->
    error + WorkflowExecutionState;
  Controller_Resume : CheckpointRecord -> ResumeToken -> time -> error + WorkflowExecutionState
}.

(** A pure result as an action. *)
Definition lift_sum {A} (r : error + A) : M A :=
  match r with inl e => fail e | inr a => mret a end.

Definition lift_err (r : option error) : M unit :=
  match r with Some e => fail e | None => mret tt end.

(** A call on a nil interface or pointer. *)
Definition deref {A} (what : string) (o : option A) : M A :=
  match o with Some a => mret a | None => panic ("nil " +:+ what) end.
