(* ===== verification/TaskGraph.v ===== *)
(** * Follow-up task graphs ([internal/runtime/task_graph.go])

    Registration, reevaluation, and the order in which ready tasks run.  The
    functions on lists of records are pure; [RegisterFollowUpTaskGraph]
    allocates the array of records and [ReevaluateFollowUpTaskGraph] rewrites
    it in place, through the address that every copy of the snapshot shares. *)

From S2P Require Export World.
#[local] Open Scope Z_scope.

(** ** Capability resolution *)

(** [StaticTaskCapabilityResolver]: the maps, and its two methods. *)
Record StaticTaskCapabilityResolver := {
  sr_Capabilities : gmap UserIntentType string;
  sr_Workflows : gmap UserIntentType (option FollowUpWorkflowCapability)
}.

Definition Static_Resolve (r : StaticTaskCapabilityResolver) (spec : TaskSpec) : string * bool * string :=
  match sr_Capabilities r !! ts_UserIntentType spec with
  | Some capability => (capability, true, "")
  | None =>
      (UserIntentType_string (ts_UserIntentType spec) +:+ "_workflow", false,
       "workflow entrypoint for this intent is not registered in the local runtime")
  end.

Definition Static_ResolveWorkflow (r : StaticTaskCapabilityResolver) (spec : TaskSpec)
    : option FollowUpWorkflowCapability * bool * string :=
  let '(capability, available, missingReason) := Static_Resolve r spec in
  if negb available then (None, false, missingReason)
  else match sr_Workflows r !! ts_UserIntentType spec with
  | Some (Some workflow) => (Some workflow, true, "")
  | _ => (None, false, "follow-up workflow capability " +:+ Quote capability
                       +:+ " is not registered for runtime execution")
  end.

Definition static_resolver (r : StaticTaskCapabilityResolver) : TaskCapabilityResolver :=
  {| Resolver_Resolve := Static_Resolve r; Resolver_ResolveWorkflow := Static_ResolveWorkflow r |}.

Definition defaultTaskCapabilityResolver : TaskCapabilityResolver :=
  static_resolver {|
    sr_Capabilities := <[UserIntentMonthlyReview := "monthly_review_workflow"]>
                       (<[UserIntentDebtVsInvest := "debt_vs_invest_workflow"]> ∅);
    sr_Workflows := ∅ |}.

(** [if resolver == nil { resolver = defaultTaskCapabilityResolver() }] *)
Definition resolver_or_default (resolver : option TaskCapabilityResolver) : TaskCapabilityResolver :=
  default defaultTaskCapabilityResolver resolver.

(** ** Dependencies and status *)

Definition downstreamDependencies (deps : list TaskDependency) : gmap string (list TaskDependency) :=
  fold_left (fun result dep =>
    <[td_DownstreamTaskID dep := default [] (result !! td_DownstreamTaskID dep) ++ [dep]]> result) deps ∅.

Definition taskRecordMap (records : list FollowUpTaskRecord) : gmap string FollowUpTaskRecord :=
  fold_left (fun result item => <[ts_ID (ft_Task item) := item]> result) records ∅.

Definition evaluatePreExecutionStatus (record : FollowUpTaskRecord) (capabilityAvailable : bool) (now : time)
    : TaskQueueStatus * list string :=
  if gm_RequiresApproval (ft_Metadata record) then
    (TaskQueueStatusWaitingApproval, ["approval required before task execution"])
  else match dw_NotBefore (gm_DueWindow (ft_Metadata record)) with
  | Some notBefore =>
      if After notBefore now then
        (TaskQueueStatusDeferred, ["due window not open until " +:+ Format_RFC3339 notBefore])
      else if negb (bool_decide (ft_Dependencies record = [])) then (TaskQueueStatusDependencyBlocked, [])
      else if negb capabilityAvailable then
        (TaskQueueStatusQueuedPendingCapability, [ft_MissingCapabilityReason record])
      else (TaskQueueStatusReady, [])
  | None =>
      if negb (bool_decide (ft_Dependencies record = [])) then (TaskQueueStatusDependencyBlocked, [])
      else if negb capabilityAvailable then
        (TaskQueueStatusQueuedPendingCapability, [ft_MissingCapabilityReason record])
      else (TaskQueueStatusReady, [])
  end.

(** [dependencyBlockingReasons], of the records as they are in the array. *)
Definition dependencyBlockingReasons (graph : TaskGraph) (records : list FollowUpTaskRecord) (taskID : string)
    : list string :=
  let depsByTask := downstreamDependencies (tg_Dependencies graph) in
  let statusByID := ft_Status <$> taskRecordMap records in
  fold_left (fun upstream dep =>
    if statusByID !! td_UpstreamTaskID dep == Some TaskQueueStatusCompleted then upstream
    else upstream ++ ["blocked by upstream task " +:+ td_UpstreamTaskID dep])
    (default [] (depsByTask !! taskID)) [].

Definition deriveSpawnedAndDeferred (records : list FollowUpTaskRecord) (now : time)
    : list SpawnedTaskRecord * list DeferredTaskRecord :=
  fold_left (fun '(spawned, deferred) item =>
    let spawned := spawned ++ [
      {| sp_TaskID := ts_ID (ft_Task item);
         sp_Status := ft_Status item;
         sp_RequiredCapability := ft_RequiredCapability item;
         sp_MissingCapabilityReason := ft_MissingCapabilityReason item;
         sp_RegisteredAt := ft_RegisteredAt item |}] in
    if ft_Status item != TaskQueueStatusDeferred then (spawned, deferred)
    else
      let reason := match ft_BlockingReasons item with
                    | r :: _ => r
                    | [] => "task due window has not opened yet" end in
      (spawned, deferred ++ [
        {| df_TaskID := ts_ID (ft_Task item);
           df_Status := ft_Status item;
           df_NotBefore := dw_NotBefore (gm_DueWindow (ft_Metadata item));
           df_NotAfter := dw_NotAfter (gm_DueWindow (ft_Metadata item));
           df_Reason := reason;
           df_DeferredAt := now |}])) records ([], []).

(** ** Registration *)

Definition missing_capability_default : string :=
  "required capability is not available in the current runtime".

(** [if record.Status == queued_pending_capability && blank(reason) { ... }] *)
Definition default_missing_reason (record : FollowUpTaskRecord) : FollowUpTaskRecord :=
  if (ft_Status record == TaskQueueStatusQueuedPendingCapability) && blank (ft_MissingCapabilityReason record)
  then record <| ft_MissingCapabilityReason := missing_capability_default |>
  else record.

(** One pass of the loop of [initialFollowUpTaskRecords]. *)
Definition initial_record (depsByTask : gmap string (list TaskDependency)) (resolver : TaskCapabilityResolver)
    (now : time) (index : nat) (generated : GeneratedTaskSpec) : FollowUpTaskRecord :=
  let '(requiredCapability, available, missingReason) := Resolver_Resolve resolver (gt_Task generated) in
  let record := zero <| ft_Task := gt_Task generated |>
    <| ft_Metadata := gt_Metadata generated |>
    <| ft_Version := 1 |>
    <| ft_RequiredCapability := requiredCapability |>
    <| ft_MissingCapabilityReason := missingReason |>
    <| ft_Dependencies := default [] (depsByTask !! ts_ID (gt_Task generated)) |>
    <| ft_RegisteredAt := now |>
    <| ft_RegistrationOrder := Z.of_nat index |>
    <| ft_LastUpdatedAt := now |> in
  let '(status, reasons) := evaluatePreExecutionStatus record available now in
  default_missing_reason (record <| ft_Status := status |> <| ft_BlockingReasons := reasons |>).

Fixpoint initial_records (depsByTask : gmap string (list TaskDependency)) (resolver : TaskCapabilityResolver)
    (now : time) (index : nat) (tasks : list GeneratedTaskSpec) : error + list FollowUpTaskRecord :=
  match tasks with
  | [] => inr []
  | generated :: tasks' =>
      let record := initial_record depsByTask resolver now index generated in
      match FollowUpTaskRecord_Validate record with
      | Some e => inl e
      | None =>
          match initial_records depsByTask resolver now (S index) tasks' with
          | inl e => inl e
          | inr records => inr (record :: records)
          end
      end
  end.

Definition initialFollowUpTaskRecords (graph : TaskGraph) (resolver : option TaskCapabilityResolver) (now : time)
    : error + list FollowUpTaskRecord :=
  initial_records (downstreamDependencies (tg_Dependencies graph)) (resolver_or_default resolver) now 0
    (tg_GeneratedTasks graph).

Definition RegisterFollowUpTaskGraph (graph : TaskGraph) (resolver : option TaskCapabilityResolver) (now : time)
    : M FollowUpRegistrationResult :=
  lift_err (TaskGraph_Validate graph);;
  records ← lift_sum (initialFollowUpTaskRecords graph resolver now);
  registered ← new_array records;
  let '(spawned, deferred) := deriveSpawnedAndDeferred records now in
  mret {| fr_Graph := graph; fr_RegisteredTasks := registered; fr_Spawned := spawned; fr_Deferred := deferred |}.

(** ** Reevaluation *)

(** [byTask]: the last execution record of each task. *)
Definition executions_by_task (executions : list TaskExecutionRecord) : gmap string TaskExecutionRecord :=
  fold_left (fun byTask item => <[te_TaskID item := item]> byTask) executions ∅.

(** The part of the loop body for a task with an execution record. *)
Definition reevaluate_executed (execution : TaskExecutionRecord) (record : FollowUpTaskRecord) : FollowUpTaskRecord :=
  match te_Status execution with
  | TaskQueueStatusCompleted | TaskQueueStatusFailed | TaskQueueStatusExecuting =>
      record <| ft_Status := te_Status execution |>
  | TaskQueueStatusWaitingApproval =>
      record <| ft_Status := TaskQueueStatusWaitingApproval |>
             <| ft_BlockingReasons := ft_BlockingReasons record ++ ["waiting for approval " +:+ te_ApprovalID execution] |>
  | _ => record
  end.

(** The part for a task without one; [records] is the array so far. *)
Definition reevaluate_pending (graph : TaskGraph) (records : list FollowUpTaskRecord)
    (resolver : TaskCapabilityResolver) (now : time) (record : FollowUpTaskRecord) : FollowUpTaskRecord :=
  let '(requiredCapability, available, missingReason) := Resolver_Resolve resolver (ft_Task record) in
  let record := record <| ft_RequiredCapability := requiredCapability |>
                       <| ft_MissingCapabilityReason := missingReason |> in
  let '(status, reasons) := evaluatePreExecutionStatus record available now in
  let record := record <| ft_Status := status |> <| ft_BlockingReasons := reasons |> in
  let record :=
    if status == TaskQueueStatusDependencyBlocked then
      let blocking := dependencyBlockingReasons graph records (ts_ID (ft_Task record)) in
      match blocking with
      | _ :: _ => record <| ft_BlockingReasons := blocking |>
      | [] =>
          if negb available then
            let record := record <| ft_BlockingReasons := [] |>
                                 <| ft_Status := TaskQueueStatusQueuedPendingCapability |> in
            if negb (blank (ft_MissingCapabilityReason record))
            then record <| ft_BlockingReasons := [ft_MissingCapabilityReason record] |> else record
          else record <| ft_Status := TaskQueueStatusReady |> <| ft_BlockingReasons := [] |>
      end
    else record in
  default_missing_reason record.

Definition reevaluate_record (graph : TaskGraph) (byTask : gmap string TaskExecutionRecord)
    (resolver : TaskCapabilityResolver) (now : time) (records : list FollowUpTaskRecord)
    (record : FollowUpTaskRecord) : FollowUpTaskRecord :=
  let record := record <| ft_BlockingReasons := [] |> <| ft_LastUpdatedAt := now |> in
  match byTask !! ts_ID (ft_Task record) with
  | Some execution => reevaluate_executed execution record
  | None => reevaluate_pending graph records resolver now record
  end.

(** [for i := range updated.RegisteredTasks { ...; updated.RegisteredTasks[i] = record }]:
    each task sees the statuses already rewritten before it. *)
Fixpoint reevaluate_from (graph : TaskGraph) (byTask : gmap string TaskExecutionRecord)
    (resolver : TaskCapabilityResolver) (now : time) (done todo : list FollowUpTaskRecord)
    : list FollowUpTaskRecord :=
  match todo with
  | [] => done
  | record :: todo' =>
      let record' := reevaluate_record graph byTask resolver now (done ++ todo) record in
      reevaluate_from graph byTask resolver now (done ++ [record']) todo'
  end.

Definition reevaluate_records (graph : TaskGraph) (executions : list TaskExecutionRecord)
    (resolver : TaskCapabilityResolver) (now : time) (records : list FollowUpTaskRecord) : list FollowUpTaskRecord :=
  reevaluate_from graph (executions_by_task executions) resolver now [] records.

Definition ready_task_ids (records : list FollowUpTaskRecord) : list string :=
  (fun r => ts_ID (ft_Task r)) <$> filter (fun r => ft_Status r = TaskQueueStatusReady) records.

Definition ReevaluateFollowUpTaskGraph (snapshot : TaskGraphSnapshot) (resolver : option TaskCapabilityResolver)
    (now : time) : M (TaskGraphSnapshot * TaskActivationResult) :=
  let resolver := resolver_or_default resolver in
  lift_err (TaskGraph_Validate (gs_Graph snapshot));;
  records ← read_array (gs_RegisteredTasks snapshot);
  let records := reevaluate_records (gs_Graph snapshot) (gs_ExecutedTasks snapshot) resolver now records in
  write_array (gs_RegisteredTasks snapshot) records;;
  let '(spawned, deferred) := deriveSpawnedAndDeferred records now in
  mret (snapshot <| gs_Spawned := spawned |> <| gs_Deferred := deferred |>,
        {| ta_GraphID := tg_GraphID (gs_Graph snapshot);
           ta_RegisteredTasks := records;
           ta_ReadyTaskIDs := ready_task_ids records;
           ta_EvaluatedAt := now |}).

(** ** Execution order *)

(** The loop state of [topologicalTaskOrder]. *)
Record topo := mkTopo {
  tp_zero : list string;
  tp_indegree : gmap string Z;
  tp_result : list string
}.

Section topo.
Context `{MO : MapOrder}.
Variable orderByRegistration : gmap string Z.
Variable downstream : gmap string (list string).

(** The map lookup answers 0 for a missing key. *)
Definition order_of (taskID : string) : Z := default 0 (orderByRegistration !! taskID).

Definition sort_by_order (ids : list string) : list string :=
  slices_SortFunc (fun a b => order_of a - order_of b) ids.

Definition topo_child (st : list string * gmap string Z) (child : string) : list string * gmap string Z :=
  let '(zero, indegree) := st in
  let n := default 0 (indegree !! child) - 1 in
  let indegree := <[child := n]> indegree in
  (if n =? 0 then sort_by_order (zero ++ [child]) else zero, indegree).

(** One turn of [for len(zero) > 0]. *)
Definition topo_step (st : topo) : topo :=
  match tp_zero st with
  | [] => st
  | taskID :: zero =>
      let children := sort_by_order (default [] (downstream !! taskID)) in
      let '(zero, indegree) := fold_left topo_child children (zero, tp_indegree st) in
      mkTopo zero indegree (tp_result st ++ [taskID])
  end.

Fixpoint topo_loop (fuel : nat) (st : topo) : topo :=
  match fuel with
  | O => st
  | S fuel' => match tp_zero st with [] => st | _ => topo_loop fuel' (topo_step st) end
  end.
End topo.

Definition registration_orders (records : list FollowUpTaskRecord) : gmap string Z :=
  fold_left (fun m item => <[ts_ID (ft_Task item) := ft_RegistrationOrder item]> m) records ∅.

Definition initial_indegree (records : list FollowUpTaskRecord) (deps : list TaskDependency) : gmap string Z :=
  fold_left (fun indegree dep =>
      <[td_DownstreamTaskID dep := default 0 (indegree !! td_DownstreamTaskID dep) + 1]> indegree) deps
    (fold_left (fun indegree item => <[ts_ID (ft_Task item) := 0]> indegree) records ∅).

Definition downstream_tasks (deps : list TaskDependency) : gmap string (list string) :=
  fold_left (fun downstream dep =>
    <[td_UpstreamTaskID dep := default [] (downstream !! td_UpstreamTaskID dep) ++ [td_DownstreamTaskID dep]]>
      downstream) deps ∅.

Definition topo_init `{MO : MapOrder} (graph : TaskGraph) (records : list FollowUpTaskRecord) : topo :=
  let indegree := initial_indegree records (tg_Dependencies graph) in
  let zero := (filter (fun entry : string * Z => entry.2 = 0) (map_range indegree)).*1 in
  mkTopo (sort_by_order (registration_orders records) zero) indegree [].

(** Each task enters [zero] at most once, so one turn per key of [indegree]
    is enough fuel ([TaskGraphThm.topo_terminates]). *)
Definition topologicalTaskOrder `{MO : MapOrder} (graph : TaskGraph) (records : list FollowUpTaskRecord)
    : list string :=
  let st := topo_init graph records in
  tp_result (topo_loop (registration_orders records) (downstream_tasks (tg_Dependencies graph))
               (size (tp_indegree st)) st).

Definition ReadyTasksInExecutionOrder `{MO : MapOrder} (graph : TaskGraph) (records : list FollowUpTaskRecord)
    : list FollowUpTaskRecord :=
  let byID := taskRecordMap records in
  omap (fun taskID =>
    record ← byID !! taskID;
    if ft_Status record == TaskQueueStatusReady then Some record else None)
    (topologicalTaskOrder graph records).
