(* ===== verification/SqlStores.v ===== *)
(** * The stores in SQLite (sqlite_runtime_stores.go, sqlite_async_stores.go, skill_execution_store.go)

    One Module per store, one definition per method, over the tables the store
    uses.  The text of a driver's error is a parameter ([SqlDriver]). *)

From S2P Require Import SqlQueue.
From S2P Require Export SqlTables TaskGraph.
#[local] Open Scope Z_scope.

(** ** What the drivers say *)

(** The message of a violated unique constraint, by the violated column
    (SQLite) or the name of the constraint (Postgres), and what the code
    looks for in it. *)
Class SqlDriver := {
  sqlite_unique_failed : string -> string;
  pg_unique_violated : string -> string;
  sqlite_unique_text column : Contains (sqlite_unique_failed column) "constraint failed" = true;
  pg_unique_text name : Contains (pg_unique_violated name) name = true
}.

(** [INSERT ... ON CONFLICT(key) DO UPDATE SET] some of the columns: the new
    row from the old one. *)
Definition upsert_with {K} `{Countable K} {row} (key : K) (f : option row -> row) : ST error (gmap K row) unit :=
  modify (fun t : gmap K row => <[key := f (t !! key)]> t).

(** ** Reading rows *)

Section rows.
Context {K row T A : Type}.

(** [for rows.Next() { ...; result = append(result, x) }] *)
Definition scan_rows (scan : K * row -> ST error T A) (rows : list (K * row)) : ST error T (list A) :=
  for_fold (fun result entry => x ← scan entry; mret (result ++ [x])) [] rows.

(** A cursor over keys, each loaded again. *)
Definition load_rows (load : K -> ST error T (option A)) (rows : list (K * row)) : ST error T (list A) :=
  for_fold (fun result entry =>
    found ← load entry.1;
    mret (match found with Some x => result ++ [x] | None => result end)) [] rows.
End rows.

(** [if !ok { return ..., err }] *)
Definition found_or {T A} (e : error) (found : option A) : ST error T A :=
  match found with Some x => mret x | None => fail e end.

(** [ORDER BY column ASC], ties in the order of the scan. *)
Definition order_by_only {K row} (column : row -> string) (a b : K * row) : Z :=
  if str_ltb (column a.2) (column b.2) then -1 else if str_ltb (column b.2) (column a.2) then 1 else 0.

Definition order_by_int {K row} (column : row -> Z) (a b : K * row) : Z :=
  if column a.2 <? column b.2 then -1 else if column b.2 <? column a.2 then 1 else 0.

Definition order_desc {A} (order : A -> A -> Z) (a b : A) : Z := order b a.

Definition compare_text (a b : string) : Z := if str_ltb a b then -1 else if str_ltb b a then 1 else 0.

Definition boolToInt (value : bool) : Z := if value then 1 else 0.

Definition nullFailureCategory (category : FailureCategory) : option FailureCategory :=
  if FailureCategory_string category == "" then None else Some category.

(** [INSERT] without a conflict clause. *)
Definition mapSQLiteConstraint (message resource id : string) : error :=
  if Contains message "UNIQUE constraint failed" || Contains message "constraint failed"
  then ConflictError resource id message else PlainError message.

Definition artifactSummary (artifact : WorkflowArtifact) : string :=
  if ar_Summary (wa_Ref artifact) != "" then ar_Summary (wa_Ref artifact) else ArtifactKind_string (wa_Kind artifact).

Definition ErrCheckpointPayloadAbsent : error := PlainError "checkpoint payload not found".

(** ** SQLite *)

Module Lite.
Import SqlTables.Sqlite.

Section sqlite.
Context `{MO : MapOrder} `{SD : SqlDriver}.

(** *** Executions *)

Definition execution_row (record : TaskExecutionRecord) : task_executions_row := {|
  te_graph_id := te_ParentGraphID record;
  te_task_id := te_TaskID record;
  te_workflow_id := te_WorkflowID record;
  te_status := te_Status record;
  te_started_at := time_text (te_StartedAt record);
  te_last_transition_at := time_text (te_LastTransitionAt record);
  te_version := te_Version record;
  te_record_json := record
|}.

Definition Executions_Save (record : TaskExecutionRecord) : ST error task_executions unit :=
  if te_ExecutionID record == "" then fail (PlainError "task execution requires execution_id") else
  let record := if te_Version record == 0 then record <| te_Version := 1 |> else record in
  inserted ← insert_new (te_ExecutionID record) (execution_row record);
  if inserted : bool then mret tt
  else fail (mapSQLiteConstraint (sqlite_unique_failed "task_executions.execution_id") "task_execution"
               (te_ExecutionID record)).

Definition Executions_Update (record : TaskExecutionRecord) (expectedVersion : Z) : ST error task_executions unit :=
  let record := record <| te_Version := wrap64 (expectedVersion + 1) |> in
  affected ← update_where (te_ExecutionID record) (fun r => te_version r =? expectedVersion)
    (fun _ => execution_row record);
  if affected : bool then mret tt
  else fail (ConflictError "task_execution" (te_ExecutionID record) ("expected version " +:+ Itoa expectedVersion)).

Definition Executions_Load (executionID : string) : ST error task_executions (option TaskExecutionRecord) :=
  found ← select_key executionID;
  mret (te_record_json <$> found).

Definition Executions_LoadLatestByTask (graphID taskID : string) : ST error task_executions (option TaskExecutionRecord) :=
  rows ← select_where (fun entry => (te_graph_id entry.2 == graphID) && (te_task_id entry.2 == taskID))
    (order_desc (order_by te_started_at));
  mret (te_record_json ∘ snd <$> head rows).

Definition Executions_ListByGraph (graphID : string) : ST error task_executions (list TaskExecutionRecord) :=
  rows ← select_where (fun entry => te_graph_id entry.2 == graphID) (order_by te_started_at);
  scan_rows (fun entry => mret (te_record_json entry.2)) rows.

(** *** Approvals *)

Definition approval_row (record : ApprovalStateRecord) : approvals_row := {|
  ap_graph_id := as_GraphID record;
  ap_task_id := as_TaskID record;
  ap_workflow_id := as_WorkflowID record;
  ap_execution_id := as_ExecutionID record;
  ap_requested_action := as_RequestedAction record;
  ap_required_roles_json := as_RequiredRoles record;
  ap_requested_at := time_text (as_RequestedAt record);
  ap_deadline := nullableTime (as_Deadline record);
  ap_status := as_Status record;
  ap_resolved_at := nullableTime (as_ResolvedAt record);
  ap_resolved_by := as_ResolvedBy record;
  ap_resolution_note := as_ResolutionNote record;
  ap_version := as_Version record
|}.

Definition scan_approval {T} (approvalID : string) (r : approvals_row) : ST error T ApprovalStateRecord :=
  requestedAt ← scan_time (ap_requested_at r);
  deadline ← scan_nullable (ap_deadline r);
  resolvedAt ← scan_nullable (ap_resolved_at r);
  mret {|
    as_ApprovalID := approvalID;
    as_GraphID := ap_graph_id r;
    as_TaskID := ap_task_id r;
    as_WorkflowID := ap_workflow_id r;
    as_ExecutionID := ap_execution_id r;
    as_RequestedAction := ap_requested_action r;
    as_RequiredRoles := ap_required_roles_json r;
    as_RequestedAt := requestedAt;
    as_Deadline := deadline;
    as_Status := ap_status r;
    as_ResolvedAt := resolvedAt;
    as_ResolvedBy := ap_resolved_by r;
    as_ResolutionNote := ap_resolution_note r;
    as_Version := ap_version r
  |}.

Definition Approvals_Save (record : ApprovalStateRecord) : ST error approvals unit :=
  let record := if as_Version record == 0 then record <| as_Version := 1 |> else record in
  inserted ← insert_new (as_ApprovalID record) (approval_row record);
  if inserted : bool then mret tt
  else fail (mapSQLiteConstraint (sqlite_unique_failed "approvals.approval_id") "approval" (as_ApprovalID record)).

Definition Approvals_Update (record : ApprovalStateRecord) (expectedVersion : Z) : ST error approvals unit :=
  let record := record <| as_Version := wrap64 (expectedVersion + 1) |> in
  affected ← update_where (as_ApprovalID record) (fun r => ap_version r =? expectedVersion)
    (fun _ => approval_row record);
  if affected : bool then mret tt
  else fail (ConflictError "approval" (as_ApprovalID record) ("expected version " +:+ Itoa expectedVersion)).

Definition Approvals_Load (approvalID : string) : ST error approvals (option ApprovalStateRecord) :=
  found ← select_key approvalID;
  match found with
  | None => mret None
  | Some r => record ← scan_approval approvalID r; mret (Some record)
  end.

Definition Approvals_ListPending : ST error approvals (list ApprovalStateRecord) :=
  rows ← select_where (fun entry => ap_status entry.2 == ApprovalStatusPending) (order_by_only ap_requested_at);
  load_rows Approvals_Load rows.

Definition Approvals_LoadByTask (graphID taskID : string) : ST error approvals (option ApprovalStateRecord) :=
  rows ← select_where (fun entry => (ap_graph_id entry.2 == graphID) && (ap_task_id entry.2 == taskID))
    (order_desc (order_by ap_requested_at));
  match head rows with
  | None => mret None
  | Some (approvalID, _) => Approvals_Load approvalID
  end.

(** *** Operator actions *)

Definition action_row (record : OperatorActionRecord) : operator_actions_row := {|
  oa_request_id := oa_RequestID record;
  oa_action_type := oa_ActionType record;
  oa_actor := oa_Actor record;
  oa_roles_json := oa_Roles record;
  oa_graph_id := oa_GraphID record;
  oa_task_id := oa_TaskID record;
  oa_approval_id := oa_ApprovalID record;
  oa_workflow_id := oa_WorkflowID record;
  oa_status := oa_Status record;
  oa_note := oa_Note record;
  oa_requested_at := time_text (oa_RequestedAt record);
  oa_applied_at := nullableTime (oa_AppliedAt record);
  oa_failure_summary := oa_FailureSummary record;
  oa_expected_version := oa_ExpectedVersion record
|}.

(** The primary key and the unique index on [request_id]. *)
Definition violated_action_index (record : OperatorActionRecord) (t : operator_actions) : option string :=
  if is_set (t !! oa_ActionID record) then Some "operator_actions.action_id"
  else if existsb (fun entry => oa_request_id entry.2 == oa_RequestID record) (map_range t)
  then Some "operator_actions.request_id" else None.

Definition OperatorActions_Save (record : OperatorActionRecord) : ST error operator_actions unit :=
  t ← get;
  match violated_action_index record t with
  | Some column => fail (mapSQLiteConstraint (sqlite_unique_failed column) "operator_action_request" (oa_RequestID record))
  | None => upsert (oa_ActionID record) (action_row record)
  end.

Definition scan_action {T} (requestID actionID : string) (r : operator_actions_row) : ST error T OperatorActionRecord :=
  requestedAt ← scan_time (oa_requested_at r);
  appliedAt ← scan_nullable (oa_applied_at r);
  mret {|
    oa_ActionID := actionID;
    oa_RequestID := requestID;
    oa_ActionType := oa_action_type r;
    oa_Actor := oa_actor r;
    oa_Roles := oa_roles_json r;
    oa_GraphID := oa_graph_id r;
    oa_TaskID := oa_task_id r;
    oa_ApprovalID := oa_approval_id r;
    oa_WorkflowID := oa_workflow_id r;
    oa_Status := oa_status r;
    oa_Note := oa_note r;
    oa_RequestedAt := requestedAt;
    oa_AppliedAt := appliedAt;
    oa_FailureSummary := oa_failure_summary r;
    oa_ExpectedVersion := oa_expected_version r
  |}.

Definition OperatorActions_LoadByRequestID (requestID : string) : ST error operator_actions (option OperatorActionRecord) :=
  rows ← select_where (fun entry => oa_request_id entry.2 == requestID) (fun _ _ => 0);
  match head rows with
  | None => mret None
  | Some (actionID, r) => record ← scan_action requestID actionID r; mret (Some record)
  end.

(** [ORDER BY requested_at ASC, request_id ASC] *)
Definition order_actions (a b : string * operator_actions_row) : Z :=
  if str_ltb (oa_requested_at a.2) (oa_requested_at b.2) then -1
  else if str_ltb (oa_requested_at b.2) (oa_requested_at a.2) then 1
  else compare_text (oa_request_id a.2) (oa_request_id b.2).

Definition OperatorActions_ListByTask (graphID taskID : string) : ST error operator_actions (list OperatorActionRecord) :=
  rows ← select_where (fun entry => (oa_graph_id entry.2 == graphID) && (oa_task_id entry.2 == taskID)) order_actions;
  load_rows OperatorActions_LoadByRequestID ((fun entry => (oa_request_id entry.2, entry.2)) <$> rows).

(** *** Checkpoints and resume tokens *)

Definition Checkpoints_Save (checkpoint : CheckpointRecord) : ST error checkpoints unit :=
  upsert_with (ck_ID checkpoint) (fun old => {|
    ck_workflow_id := ck_WorkflowID checkpoint;
    ck_state := ck_State checkpoint;
    ck_resume_state := ck_ResumeState checkpoint;
    ck_state_version := ck_StateVersion checkpoint;
    ck_summary := ck_Summary checkpoint;
    ck_captured_at := time_text (ck_CapturedAt checkpoint);
    ck_payload_kind := r ← old; ck_payload_kind r;
    ck_payload_json := r ← old; ck_payload_json r
  |}).

Definition Checkpoints_Load (workflowID checkpointID : string) : ST error checkpoints CheckpointRecord :=
  found ← select_key checkpointID;
  match found with
  | None => fail (NotFoundError "checkpoint" checkpointID)
  | Some r =>
      if (workflowID != "") && (ck_workflow_id r != workflowID)
      then fail (ConflictError "checkpoint" checkpointID "workflow id mismatch")
      else
        capturedAt ← scan_time (ck_captured_at r);
        mret {|
          ck_ID := checkpointID;
          ck_WorkflowID := ck_workflow_id r;
          ck_State := ck_state r;
          ck_ResumeState := ck_resume_state r;
          ck_StateVersion := ck_state_version r;
          ck_Summary := ck_summary r;
          ck_CapturedAt := capturedAt
        |}
  end.

Definition Tokens_Save (token : ResumeToken) : ST error resume_tokens unit :=
  upsert (rt_Token token) {|
    rt_workflow_id := rt_WorkflowID token;
    rt_checkpoint_id := rt_CheckpointID token;
    rt_issued_at := time_text (rt_IssuedAt token);
    rt_expires_at := time_text (rt_ExpiresAt token)
  |}.

Definition Tokens_Load (token : string) : ST error resume_tokens ResumeToken :=
  found ← select_key token;
  match found with
  | None => fail (NotFoundError "resume_token" token)
  | Some r =>
      issuedAt ← scan_time (rt_issued_at r);
      expiresAt ← scan_time (rt_expires_at r);
      mret {| rt_Token := token; rt_WorkflowID := rt_workflow_id r; rt_CheckpointID := rt_checkpoint_id r;
              rt_IssuedAt := issuedAt; rt_ExpiresAt := expiresAt |}
  end.

Definition Checkpoints_SavePayload (checkpointID : string) (payload : CheckpointPayloadEnvelope) : ST error checkpoints unit :=
  match CheckpointPayloadEnvelope_Validate payload with
  | Some e => fail e
  | None =>
      affected ← update_where checkpointID (fun _ => true)
        (fun r => r <| ck_payload_kind := Some (ce_Kind payload) |> <| ck_payload_json := Some payload |>);
      if affected : bool then mret tt else fail (NotFoundError "checkpoint" checkpointID)
  end.

Definition Checkpoints_LoadPayload (checkpointID : string) : ST error checkpoints CheckpointPayloadEnvelope :=
  found ← select_key checkpointID;
  match found with
  | None => fail (NotFoundError "checkpoint" checkpointID)
  | Some r => match ck_payload_json r with None => fail ErrCheckpointPayloadAbsent | Some payload => mret payload end
  end.

(** *** Replay events *)

Definition event_row (event : ReplayEventRecord) : replay_events_row := {|
  re_root_correlation_id := ev_RootCorrelationID event;
  re_parent_workflow_id := ev_ParentWorkflowID event;
  re_workflow_id := ev_WorkflowID event;
  re_graph_id := ev_GraphID event;
  re_task_id := ev_TaskID event;
  re_approval_id := ev_ApprovalID event;
  re_execution_id := ev_ExecutionID event;
  re_action_type := ev_ActionType event;
  re_summary := ev_Summary event;
  re_occurred_at := time_text (ev_OccurredAt event);
  re_details_json := ev_DetailsJSON event;
  re_committed_state_ref := ev_CommittedStateRef event;
  re_updated_state_ref := ev_UpdatedStateRef event;
  re_artifact_ids_json := ev_ArtifactIDs event;
  re_operator_action_id := ev_OperatorActionID event;
  re_checkpoint_id := ev_CheckpointID event;
  re_resume_token := ev_ResumeToken event
|}.

Definition scan_event {T} (eventID : string) (r : replay_events_row) : ST error T ReplayEventRecord :=
  occurredAt ← scan_time (re_occurred_at r);
  mret {|
    ev_EventID := eventID;
    ev_RootCorrelationID := re_root_correlation_id r;
    ev_ParentWorkflowID := re_parent_workflow_id r;
    ev_WorkflowID := re_workflow_id r;
    ev_GraphID := re_graph_id r;
    ev_TaskID := re_task_id r;
    ev_ApprovalID := re_approval_id r;
    ev_ExecutionID := re_execution_id r;
    ev_ActionType := re_action_type r;
    ev_Summary := re_summary r;
    ev_OccurredAt := occurredAt;
    ev_DetailsJSON := re_details_json r;
    ev_CommittedStateRef := re_committed_state_ref r;
    ev_UpdatedStateRef := re_updated_state_ref r;
    ev_ArtifactIDs := re_artifact_ids_json r;
    ev_OperatorActionID := re_operator_action_id r;
    ev_CheckpointID := re_checkpoint_id r;
    ev_ResumeToken := re_resume_token r
  |}.

Definition Replay_Append (event : ReplayEventRecord) : ST error replay_events unit :=
  inserted ← insert_new (ev_EventID event) (event_row event);
  if inserted : bool then mret tt
  else fail (mapSQLiteConstraint (sqlite_unique_failed "replay_events.event_id") "replay_event" (ev_EventID event)).

(** The events whose column equals the argument, each read by its id. *)
Definition Replay_list (column : replay_events_row -> string) (arg : string) : ST error replay_events (list ReplayEventRecord) :=
  rows ← select_where (fun entry => column entry.2 == arg) (order_by re_occurred_at);
  scan_rows (fun entry =>
    found ← select_key entry.1;
    match found with
    | None => fail (PlainError "sql: no rows in result set")
    | Some r => scan_event entry.1 r
    end) rows.

Definition Replay_ListByGraph : string -> ST error replay_events (list ReplayEventRecord) := Replay_list re_graph_id.
Definition Replay_ListByTask : string -> ST error replay_events (list ReplayEventRecord) := Replay_list re_task_id.
Definition Replay_ListByWorkflow : string -> ST error replay_events (list ReplayEventRecord) := Replay_list re_workflow_id.

(** *** Workflow runs *)

Definition WorkflowRuns_Save (record : WorkflowRunRecord) : ST error workflow_runs unit :=
  upsert (run_WorkflowID record) {|
    wf_task_id := run_TaskID record;
    wf_intent := run_Intent record;
    wf_runtime_state := run_RuntimeState record;
    wf_failure_category := run_FailureCategory record;
    wf_failure_summary := run_FailureSummary record;
    wf_approval_id := run_ApprovalID record;
    wf_checkpoint_id := run_CheckpointID record;
    wf_resume_token := run_ResumeToken record;
    wf_task_graph_id := run_TaskGraphID record;
    wf_root_correlation_id := run_RootCorrelationID record;
    wf_summary := run_Summary record;
    wf_started_at := time_text (run_StartedAt record);
    wf_updated_at := time_text (run_UpdatedAt record);
    wf_record_json := run_RecordJSON record
  |}.

Definition WorkflowRuns_Load (workflowID : string) : ST error workflow_runs (option WorkflowRunRecord) :=
  found ← select_key workflowID;
  match found with
  | None => mret None
  | Some r =>
      startedAt ← scan_time (wf_started_at r);
      updatedAt ← scan_time (wf_updated_at r);
      mret (Some {|
        run_WorkflowID := workflowID;
        run_TaskID := wf_task_id r;
        run_Intent := wf_intent r;
        run_RuntimeState := wf_runtime_state r;
        run_FailureCategory := wf_failure_category r;
        run_FailureSummary := wf_failure_summary r;
        run_ApprovalID := wf_approval_id r;
        run_CheckpointID := wf_checkpoint_id r;
        run_ResumeToken := wf_resume_token r;
        run_TaskGraphID := wf_task_graph_id r;
        run_RootCorrelationID := wf_root_correlation_id r;
        run_Summary := wf_summary r;
        run_StartedAt := startedAt;
        run_UpdatedAt := updatedAt;
        run_RecordJSON := wf_record_json r
      |})
  end.

Definition WorkflowRuns_List : ST error workflow_runs (list WorkflowRunRecord) :=
  rows ← select_where (fun _ => true) (order_by wf_updated_at);
  load_rows WorkflowRuns_Load rows.

(** *** Artifacts *)

(** Where the content of an artifact is kept:
    [filepath.Join(s.db.artifactDir, artifact.ID+".json")], the directory
    being configuration. *)
Variable artifact_path : string -> string.

Definition write_artifact_file (artifact : WorkflowArtifact) : ST error artifact_tables string :=
  if wa_ContentJSON artifact != "" then
    let storageRef := artifact_path (wa_ID artifact) in
    modify (fun s => s <| t_artifact_files := <[storageRef := wa_ContentJSON artifact]> (t_artifact_files s) |>);;
    mret storageRef
  else mret (ar_Location (wa_Ref artifact)).

Definition Artifacts_Save (workflowID taskID : string) (artifact : WorkflowArtifact) : ST error artifact_tables unit :=
  storageRef ← write_artifact_file artifact;
  let row := {|
    wa_kind := wa_Kind artifact;
    wa_workflow_id := workflowID;
    wa_task_id := taskID;
    wa_produced_by := wa_ProducedBy artifact;
    wa_summary := artifactSummary artifact;
    wa_storage_ref := storageRef;
    wa_created_at := time_text (wa_CreatedAt artifact);
    wa_ref_json := wa_Ref artifact <| ar_Location := storageRef |>
  |} in
  modify (fun s => s <| t_workflow_artifacts := <[wa_ID artifact := row]> (t_workflow_artifacts s) |>).

(** A row without the content of the artifact. *)
Definition scan_artifact {T} (entry : string * workflow_artifacts_row) : ST error T WorkflowArtifact :=
  let '(id, r) := entry in
  createdAt ← scan_time (wa_created_at r);
  let ref := wa_ref_json r in
  let ref := if ar_Summary ref == "" then ref <| ar_Summary := wa_summary r |> else ref in
  let ref := ref <| ar_Location := wa_storage_ref r |> in
  mret (zero <| wa_ID := id |> <| wa_WorkflowID := wa_workflow_id r |> <| wa_TaskID := wa_task_id r |>
    <| wa_Kind := wa_kind r |> <| wa_ProducedBy := wa_produced_by r |> <| wa_Ref := ref |>
    <| wa_CreatedAt := createdAt |>).

Definition Artifacts_select (cond : workflow_artifacts_row -> bool) : ST error artifact_tables (list WorkflowArtifact) :=
  s ← get;
  scan_rows scan_artifact
    (slices_SortFunc (order_by wa_created_at)
      (filter (fun entry => cond entry.2 = true) (map_range (t_workflow_artifacts s)))).

Definition Artifacts_ListByTask (taskID : string) : ST error artifact_tables (list WorkflowArtifact) :=
  Artifacts_select (fun r => wa_task_id r == taskID).

Definition Artifacts_ListByWorkflow (workflowID : string) : ST error artifact_tables (list WorkflowArtifact) :=
  Artifacts_select (fun r => wa_workflow_id r == workflowID).

(** The content is read from its file; a file that is not there is no error. *)
Definition Artifacts_Load (artifactID : string) : ST error artifact_tables (option WorkflowArtifact) :=
  s ← get;
  match t_workflow_artifacts s !! artifactID with
  | None => mret None
  | Some r =>
      artifact ← scan_artifact (artifactID, r);
      mret (Some (match t_artifact_files s !! wa_storage_ref r with
                  | Some payload => artifact <| wa_ContentJSON := payload |>
                  | None => artifact
                  end))
  end.

(** *** Task graphs *)

(** [saveStateSnapshotTx] *)
Definition saveStateSnapshot (graphID workflowID taskID kind : string) (snapshot : StateSnapshot)
    : ST error graph_tables string :=
  let ref := snapshotRefFor snapshot in
  if ref == "" then fail (PlainError "state snapshot requires snapshot id") else
  let row := {|
    ss_graph_id := graphID;
    ss_workflow_id := workflowID;
    ss_task_id := taskID;
    ss_kind := kind;
    ss_state_version := sv_Sequence (fw_Version (ss_State snapshot));
    ss_reason := ss_Reason snapshot;
    ss_captured_at := time_text (ss_CapturedAt snapshot);
    ss_state_json := ss_State snapshot
  |} in
  modify (fun s => s <| t_state_snapshots := <[ref := row]> (t_state_snapshots s) |>);;
  mret ref.

Definition loadStateSnapshot (snapshotRef : string) : ST error graph_tables (option StateSnapshot) :=
  s ← get;
  match t_state_snapshots s !! snapshotRef with
  | None => mret None
  | Some r =>
      capturedAt ← scan_time (ss_captured_at r);
      mret (Some {| ss_State := ss_state_json r; ss_CapturedAt := capturedAt; ss_Reason := ss_reason r |})
  end.

Definition graph_row (snapshot : TaskGraphSnapshot) : task_graphs_row := {|
  tg_parent_workflow_id := tg_ParentWorkflowID (gs_Graph snapshot);
  tg_parent_task_id := tg_ParentTaskID (gs_Graph snapshot);
  tg_trigger_source := tg_TriggerSource (gs_Graph snapshot);
  tg_generated_at := time_text (tg_GeneratedAt (gs_Graph snapshot));
  tg_version := gs_Version snapshot;
  tg_base_state_snapshot_ref := gs_BaseStateSnapshotRef snapshot;
  tg_latest_committed_state_ref := gs_LatestCommittedStateRef snapshot;
  tg_graph_json := gs_Graph snapshot;
  tg_registered_at := time_text (gs_RegisteredAt snapshot)
|}.

Definition task_row (item : FollowUpTaskRecord) : follow_up_tasks_row := {|
  ft_version := ft_Version item;
  ft_task_json := ft_Task item;
  ft_metadata_json := ft_Metadata item;
  ft_status := ft_Status item;
  ft_required_capability := ft_RequiredCapability item;
  ft_missing_capability_reason := ft_MissingCapabilityReason item;
  ft_blocking_reasons_json := ft_BlockingReasons item;
  ft_suppressed_reasons_json := ft_SuppressedReasons item;
  ft_registered_at := time_text (ft_RegisteredAt item);
  ft_registration_order := ft_RegistrationOrder item;
  ft_last_updated_at := time_text (ft_LastUpdatedAt item)
|}.

(** The INSERTs of the tasks and of the dependencies; a violated primary key
    is the driver's error as it is. *)
Definition insert_task (graphID : string) (item : FollowUpTaskRecord) : ST error graph_tables unit :=
  s ← get;
  let key := (graphID, ts_ID (ft_Task item)) in
  if is_set (t_follow_up_tasks s !! key)
  then fail (PlainError (sqlite_unique_failed "follow_up_tasks.graph_id, follow_up_tasks.task_id"))
  else put (s <| t_follow_up_tasks := <[key := task_row item]> (t_follow_up_tasks s) |>).

Definition insert_dependency (graphID : string) (dep : TaskDependency) : ST error graph_tables unit :=
  s ← get;
  let key := (graphID, td_UpstreamTaskID dep, td_DownstreamTaskID dep) in
  if is_set (t_task_dependencies s !! key)
  then fail (PlainError (sqlite_unique_failed
    "task_dependencies.graph_id, task_dependencies.upstream_task_id, task_dependencies.downstream_task_id"))
  else put (s <| t_task_dependencies :=
         <[key := {| td_reason := td_Reason dep; td_mandatory := boolToInt (td_Mandatory dep) |}]>
           (t_task_dependencies s) |>).

Definition update_graph (snapshot : TaskGraphSnapshot) (expectedVersion : Z) : ST error graph_tables unit :=
  s ← get;
  let graphID := tg_GraphID (gs_Graph snapshot) in
  match t_task_graphs s !! graphID with
  | Some r =>
      if tg_version r =? expectedVersion
      then put (s <| t_task_graphs := <[graphID := graph_row snapshot]> (t_task_graphs s) |>)
      else fail (ConflictError "task_graph" graphID ("expected version " +:+ Itoa expectedVersion))
  | None => fail (ConflictError "task_graph" graphID ("expected version " +:+ Itoa expectedVersion))
  end.

Definition delete_graph_rows (graphID : string) (s : graph_tables) : graph_tables :=
  s <| t_follow_up_tasks := filter (fun entry => entry.1.1 <> graphID) (t_follow_up_tasks s) |>
    <| t_task_dependencies := filter (fun entry => entry.1.1.1 <> graphID) (t_task_dependencies s) |>.

Definition saveTaskGraphTx (g : StoredGraph) (update : option Z) : ST error graph_tables unit :=
  let snapshot := sg_snapshot g in
  let graphID := tg_GraphID (gs_Graph snapshot) in
  saveStateSnapshot graphID "" "" "base" (gs_BaseStateSnapshot snapshot);;
  saveStateSnapshot graphID "" "" "committed" (gs_LatestCommittedStateSnapshot snapshot);;
  (match update with
   | Some expectedVersion => update_graph snapshot expectedVersion
   | None => modify (fun s => s <| t_task_graphs := <[graphID := graph_row snapshot]> (t_task_graphs s) |>)
   end);;
  modify (delete_graph_rows graphID);;
  for_each (insert_task graphID) (sg_tasks g);;
  for_each (insert_dependency graphID) (tg_Dependencies (gs_Graph snapshot)).

Definition Graphs_Save (g : StoredGraph) : ST error graph_tables unit :=
  let g := if gs_Version (sg_snapshot g) =? 0
           then mkStoredGraph (sg_snapshot g <| gs_Version := 1 |>) (sg_tasks g) else g in
  transaction (saveTaskGraphTx g None).

Definition Graphs_Update (g : StoredGraph) (expectedVersion : Z) : ST error graph_tables unit :=
  transaction (saveTaskGraphTx g (Some expectedVersion)).

Definition scan_task {T} (entry : string * string * follow_up_tasks_row) : ST error T FollowUpTaskRecord :=
  let r := entry.2 in
  registeredAt ← scan_time (ft_registered_at r);
  lastUpdatedAt ← scan_time (ft_last_updated_at r);
  mret (zero <| ft_Task := ft_task_json r |> <| ft_Metadata := ft_metadata_json r |> <| ft_Version := ft_version r |>
    <| ft_Status := ft_status r |> <| ft_RequiredCapability := ft_required_capability r |>
    <| ft_MissingCapabilityReason := ft_missing_capability_reason r |>
    <| ft_BlockingReasons := ft_blocking_reasons_json r |> <| ft_SuppressedReasons := ft_suppressed_reasons_json r |>
    <| ft_RegisteredAt := registeredAt |> <| ft_RegistrationOrder := ft_registration_order r |>
    <| ft_LastUpdatedAt := lastUpdatedAt |>).

Definition loadFollowUpTaskRecords (graphID : string) : ST error graph_tables (list FollowUpTaskRecord) :=
  s ← get;
  scan_rows scan_task (slices_SortFunc (order_by_int ft_registration_order)
    (filter (fun entry => entry.1.1 = graphID) (map_range (t_follow_up_tasks s)))).

(** [ORDER BY upstream_task_id ASC, downstream_task_id ASC] *)
Definition order_dependencies (a b : string * string * string * task_dependencies_row) : Z :=
  match compare_text a.1.1.2 b.1.1.2 with 0 => compare_text a.1.2 b.1.2 | c => c end.

Definition loadTaskDependencies (graphID : string) : ST error graph_tables (list TaskDependency) :=
  s ← get;
  mret ((fun entry => {| td_UpstreamTaskID := entry.1.1.2; td_DownstreamTaskID := entry.1.2;
                         td_Reason := td_reason entry.2; td_Mandatory := td_mandatory entry.2 =? 1 |}) <$>
    slices_SortFunc order_dependencies
      (filter (fun entry => entry.1.1.1 = graphID) (map_range (t_task_dependencies s)))).

Definition Graphs_Load (graphID : string) : ST error graph_tables (option StoredGraph) :=
  s ← get;
  match t_task_graphs s !! graphID with
  | None => mret None
  | Some r =>
      records ← loadFollowUpTaskRecords graphID;
      dependencies ← loadTaskDependencies graphID;
      base ← loadStateSnapshot (tg_base_state_snapshot_ref r);
      baseSnapshot ← found_or (NotFoundError "state_snapshot" (tg_base_state_snapshot_ref r)) base;
      committed ← loadStateSnapshot (tg_latest_committed_state_ref r);
      committedSnapshot ← found_or (NotFoundError "state_snapshot" (tg_latest_committed_state_ref r)) committed;
      registeredAt ← scan_time (tg_registered_at r);
      let '(spawned, deferred) := deriveSpawnedAndDeferred records registeredAt in
      mret (Some (mkStoredGraph
        (zero <| gs_Graph := tg_graph_json r <| tg_Dependencies := dependencies |> |>
              <| gs_Version := tg_version r |>
              <| gs_Spawned := spawned |> <| gs_Deferred := deferred |>
              <| gs_BaseStateSnapshot := baseSnapshot |>
              <| gs_BaseStateSnapshotRef := tg_base_state_snapshot_ref r |>
              <| gs_LatestCommittedStateSnapshot := committedSnapshot |>
              <| gs_LatestCommittedStateRef := tg_latest_committed_state_ref r |>
              <| gs_RegisteredAt := registeredAt |>)
        records))
  end.

Definition Graphs_List : ST error graph_tables (list StoredGraph) :=
  s ← get;
  load_rows Graphs_Load (slices_SortFunc (order_by_only tg_registered_at) (map_range (t_task_graphs s))).

(** *** Attempts, workers and wakeups *)

Definition attempt_row (attempt : ExecutionAttempt) : work_attempts_row := {|
  at_work_item_id := ea_WorkItemID attempt;
  at_work_item_kind := ea_WorkItemKind attempt;
  at_graph_id := nullString (ea_GraphID attempt);
  at_task_id := nullString (ea_TaskID attempt);
  at_execution_id := nullString (ea_ExecutionID attempt);
  at_approval_id := nullString (ea_ApprovalID attempt);
  at_worker_id := ea_WorkerID attempt;
  at_lease_id := ea_LeaseID attempt;
  at_fencing_token := ea_FencingToken attempt;
  at_status := ea_Status attempt;
  at_failure_category := nullFailureCategory (ea_FailureCategory attempt);
  at_failure_summary := nullString (ea_FailureSummary attempt);
  at_started_at := time_text (ea_StartedAt attempt);
  at_finished_at := nullableTime (ea_FinishedAt attempt);
  at_checkpoint_id := nullString (ea_CheckpointID attempt);
  at_produced_artifact_ids_json := ea_ProducedArtifactIDs attempt;
  at_record_json := attempt
|}.

Definition Attempts_Save (attempt : ExecutionAttempt) : ST error work_attempts unit :=
  inserted ← insert_new (ea_AttemptID attempt) (attempt_row attempt);
  if inserted : bool then mret tt
  else fail (PlainError (sqlite_unique_failed "work_attempts.attempt_id")).

Definition Attempts_Update (attempt : ExecutionAttempt) : ST error work_attempts unit :=
  affected ← update_where (ea_AttemptID attempt) (fun _ => true) (fun r =>
    r <| at_status := ea_Status attempt |>
      <| at_failure_category := nullFailureCategory (ea_FailureCategory attempt) |>
      <| at_failure_summary := nullString (ea_FailureSummary attempt) |>
      <| at_finished_at := nullableTime (ea_FinishedAt attempt) |>
      <| at_checkpoint_id := nullString (ea_CheckpointID attempt) |>
      <| at_produced_artifact_ids_json := ea_ProducedArtifactIDs attempt |>
      <| at_record_json := attempt |>);
  if affected : bool then mret tt else fail (NotFoundError "execution_attempt" (ea_AttemptID attempt)).

Definition Attempts_List (workItemID : string) : ST error work_attempts (list ExecutionAttempt) :=
  rows ← select_where (fun entry => at_work_item_id entry.2 == workItemID) (order_by at_started_at);
  scan_rows (fun entry => mret (at_record_json entry.2)) rows.

Definition Workers_Register (worker : WorkerRegistration) : ST error worker_registrations unit :=
  upsert (wr_WorkerID worker) {|
    wk_role := wr_Role worker;
    wk_backend_profile := nullString (wr_BackendProfile worker);
    wk_started_at := time_text (wr_StartedAt worker);
    wk_last_heartbeat := time_text (wr_LastHeartbeat worker)
  |}.

Definition Workers_Heartbeat (workerID : string) (now : time) : ST error worker_registrations unit :=
  affected ← update_where workerID (fun _ => true) (fun r => r <| wk_last_heartbeat := time_text now |>);
  if affected : bool then mret tt else fail (NotFoundError "worker" workerID).

Definition scan_worker {T} (entry : string * worker_registrations_row) : ST error T WorkerRegistration :=
  let '(id, r) := entry in
  startedAt ← scan_time (wk_started_at r);
  lastHeartbeat ← scan_time (wk_last_heartbeat r);
  mret {| wr_WorkerID := id; wr_Role := wk_role r; wr_BackendProfile := from_null (wk_backend_profile r);
          wr_StartedAt := startedAt; wr_LastHeartbeat := lastHeartbeat |}.

Definition Workers_Load (workerID : string) : ST error worker_registrations (option WorkerRegistration) :=
  found ← select_key workerID;
  match found with
  | None => mret None
  | Some r => worker ← scan_worker (workerID, r); mret (Some worker)
  end.

Definition Workers_List : ST error worker_registrations (list WorkerRegistration) :=
  rows ← select_where (fun _ => true) (fun a b => compare_text a.1 b.1);
  scan_rows scan_worker rows.

Definition Wakeups_Save (wakeup : SchedulerWakeup) : ST error scheduler_wakeups unit :=
  upsert (sw_ID wakeup) {|
    wu_graph_id := nullString (sw_GraphID wakeup);
    wu_task_id := nullString (sw_TaskID wakeup);
    wu_execution_id := nullString (sw_ExecutionID wakeup);
    wu_approval_id := nullString (sw_ApprovalID wakeup);
    wu_kind := sw_Kind wakeup;
    wu_available_at := time_text (sw_AvailableAt wakeup);
    wu_reason := nullString (sw_Reason wakeup)
  |}.

Definition scan_wakeup {T} (entry : string * scheduler_wakeups_row) : ST error T SchedulerWakeup :=
  let '(id, r) := entry in
  availableAt ← scan_time (wu_available_at r);
  mret {| sw_ID := id; sw_GraphID := from_null (wu_graph_id r); sw_TaskID := from_null (wu_task_id r);
          sw_ExecutionID := from_null (wu_execution_id r); sw_ApprovalID := from_null (wu_approval_id r);
          sw_Kind := wu_kind r; sw_AvailableAt := availableAt; sw_Reason := from_null (wu_reason r) |}.

Definition Wakeups_ListDue (now : time) : ST error scheduler_wakeups (list SchedulerWakeup) :=
  rows ← select_where (fun entry => text_leb (wu_available_at entry.2) (time_text now)) (order_by wu_available_at);
  scan_rows scan_wakeup rows.

Definition Wakeups_MarkDispatched (id : string) (_ : time) : ST error scheduler_wakeups unit :=
  delete_where (fun entry => entry.1 == id).

(** *** Skill executions *)

(** The times [Save] fills in; [now] is the clock's reading. *)
Definition stamp_skill_execution (now : time) (record : SkillExecutionRecord) : SkillExecutionRecord :=
  let record := if IsZero (sx_CreatedAt record) then record <| sx_CreatedAt := now |> else record in
  if IsZero (sx_UpdatedAt record) then record <| sx_UpdatedAt := sx_CreatedAt record |> else record.

Definition SkillExecutions_Save (now : time) (record : SkillExecutionRecord) : ST error skill_executions unit :=
  if sx_ExecutionID record == "" then fail (PlainError "skill execution requires execution_id") else
  let record := stamp_skill_execution now record in
  upsert_with (sx_ExecutionID record) (fun old => {|
    se_workflow_id := sx_WorkflowID record;
    se_task_id := sx_TaskID record;
    se_status := sx_Status record;
    se_created_at := match old with Some r => se_created_at r | None => time_text (sx_CreatedAt record) end;
    se_updated_at := time_text (sx_UpdatedAt record);
    se_record_json := record
  |}).

Definition SkillExecutions_Load (executionID : string) : ST error skill_executions (option SkillExecutionRecord) :=
  found ← select_key executionID;
  mret (se_record_json <$> found).

Definition SkillExecutions_ListByWorkflow (workflowID : string) : ST error skill_executions (list SkillExecutionRecord) :=
  rows ← select_where (fun entry => se_workflow_id entry.2 == workflowID) (order_by se_updated_at);
  scan_rows (fun entry => mret (se_record_json entry.2)) rows.

(** *** Replay projections *)

Definition WorkflowProjections_Save (record : WorkflowReplayProjection) : ST error workflow_replay_projections unit :=
  upsert (wrp_WorkflowID record) {|
    wp_task_id := wrp_TaskID record;
    wp_intent := wrp_Intent record;
    wp_runtime_state := wrp_RuntimeState record;
    wp_failure_category := wrp_FailureCategory record;
    wp_approval_id := wrp_ApprovalID record;
    wp_bundle_artifact_id := wrp_BundleArtifactID record;
    wp_summary_artifact_id := wrp_SummaryArtifactID record;
    wp_projection_status := wrp_ProjectionStatus record;
    wp_schema_version := wrp_SchemaVersion record;
    wp_degradation_reasons_json := wrp_DegradationReasons record;
    wp_summary_json := wrp_SummaryJSON record;
    wp_explanation_json := wrp_ExplanationJSON record;
    wp_compare_input_json := wrp_CompareInputJSON record;
    wp_updated_at := time_text (wrp_UpdatedAt record);
    wp_projection_freshness := time_text (wrp_ProjectionFreshness record)
  |}.

Definition WorkflowProjections_Load (workflowID : string)
    : ST error workflow_replay_projections (option WorkflowReplayProjection) :=
  found ← select_key workflowID;
  match found with
  | None => mret None
  | Some r =>
      updatedAt ← scan_time (wp_updated_at r);
      freshness ← scan_time (wp_projection_freshness r);
      mret (Some {|
        wrp_WorkflowID := workflowID;
        wrp_TaskID := wp_task_id r;
        wrp_Intent := wp_intent r;
        wrp_RuntimeState := wp_runtime_state r;
        wrp_FailureCategory := wp_failure_category r;
        wrp_ApprovalID := wp_approval_id r;
        wrp_BundleArtifactID := wp_bundle_artifact_id r;
        wrp_SummaryArtifactID := wp_summary_artifact_id r;
        wrp_ProjectionStatus := wp_projection_status r;
        wrp_SchemaVersion := wp_schema_version r;
        wrp_DegradationReasons := wp_degradation_reasons_json r;
        wrp_SummaryJSON := wp_summary_json r;
        wrp_ExplanationJSON := wp_explanation_json r;
        wrp_CompareInputJSON := wp_compare_input_json r;
        wrp_UpdatedAt := updatedAt;
        wrp_ProjectionFreshness := freshness
      |})
  end.

Definition GraphProjections_Save (record : TaskGraphReplayProjection) : ST error task_graph_replay_projections unit :=
  upsert (grp_GraphID record) {|
    gp_parent_workflow_id := grp_ParentWorkflowID record;
    gp_parent_task_id := grp_ParentTaskID record;
    gp_runtime_state := grp_RuntimeState record;
    gp_pending_approval_id := grp_PendingApprovalID record;
    gp_bundle_artifact_id := grp_BundleArtifactID record;
    gp_summary_artifact_id := grp_SummaryArtifactID record;
    gp_projection_status := grp_ProjectionStatus record;
    gp_schema_version := grp_SchemaVersion record;
    gp_degradation_reasons_json := grp_DegradationReasons record;
    gp_summary_json := grp_SummaryJSON record;
    gp_explanation_json := grp_ExplanationJSON record;
    gp_compare_input_json := grp_CompareInputJSON record;
    gp_updated_at := time_text (grp_UpdatedAt record);
    gp_projection_freshness := time_text (grp_ProjectionFreshness record)
  |}.

Definition GraphProjections_Load (graphID : string)
    : ST error task_graph_replay_projections (option TaskGraphReplayProjection) :=
  found ← select_key graphID;
  match found with
  | None => mret None
  | Some r =>
      updatedAt ← scan_time (gp_updated_at r);
      freshness ← scan_time (gp_projection_freshness r);
      mret (Some {|
        grp_GraphID := graphID;
        grp_ParentWorkflowID := gp_parent_workflow_id r;
        grp_ParentTaskID := gp_parent_task_id r;
        grp_RuntimeState := gp_runtime_state r;
        grp_PendingApprovalID := gp_pending_approval_id r;
        grp_BundleArtifactID := gp_bundle_artifact_id r;
        grp_SummaryArtifactID := gp_summary_artifact_id r;
        grp_ProjectionStatus := gp_projection_status r;
        grp_SchemaVersion := gp_schema_version r;
        grp_DegradationReasons := gp_degradation_reasons_json r;
        grp_SummaryJSON := gp_summary_json r;
        grp_ExplanationJSON := gp_explanation_json r;
        grp_CompareInputJSON := gp_compare_input_json r;
        grp_UpdatedAt := updatedAt;
        grp_ProjectionFreshness := freshness
      |})
  end.

Definition Builds_Save (record : ReplayProjectionBuildRecord) : ST error replay_projection_builds unit :=
  upsert (rb_ScopeKind record, rb_ScopeID record) {|
    pb_schema_version := rb_SchemaVersion record;
    pb_status := rb_Status record;
    pb_degradation_reasons_json := rb_DegradationReasons record;
    pb_built_at := time_text (rb_BuiltAt record);
    pb_source_event_count := rb_SourceEventCount record;
    pb_source_artifact_count := rb_SourceArtifactCount record
  |}.

Definition Builds_Load (scope : ReplayProjectionScope)
    : ST error replay_projection_builds (option ReplayProjectionBuildRecord) :=
  found ← select_key (rps_ScopeKind scope, rps_ScopeID scope);
  match found with
  | None => mret None
  | Some r =>
      builtAt ← scan_time (pb_built_at r);
      mret (Some {|
        rb_ScopeKind := rps_ScopeKind scope;
        rb_ScopeID := rps_ScopeID scope;
        rb_SchemaVersion := pb_schema_version r;
        rb_Status := pb_status r;
        rb_DegradationReasons := pb_degradation_reasons_json r;
        rb_BuiltAt := builtAt;
        rb_SourceEventCount := pb_source_event_count r;
        rb_SourceArtifactCount := pb_source_artifact_count r
      |})
  end.

(** Rows of the scope, in the first two components of the key. *)
Definition in_scope {A} (scope : ReplayProjectionScope) (key : ReplayScopeKind * string * A) : bool :=
  (key.1.1 == rps_ScopeKind scope) && (key.1.2 == rps_ScopeID scope).

Definition insert_node (scope : ReplayProjectionScope) (node : ProvenanceNodeRecord) : ST error provenance_tables unit :=
  s ← get;
  let key := (rps_ScopeKind scope, rps_ScopeID scope, pn_NodeID node) in
  if is_set (t_replay_provenance_nodes s !! key)
  then fail (PlainError (sqlite_unique_failed
    "replay_provenance_nodes.scope_kind, replay_provenance_nodes.scope_id, replay_provenance_nodes.node_id"))
  else put (s <| t_replay_provenance_nodes := <[key := {|
         pn_node_type := pn_NodeType node; pn_ref_id := pn_RefID node; pn_label := pn_Label node;
         pn_summary := pn_Summary node; pn_attributes_json := pn_AttributesJSON node |}]>
         (t_replay_provenance_nodes s) |>).

Definition insert_edge (scope : ReplayProjectionScope) (edge : ProvenanceEdgeRecord) : ST error provenance_tables unit :=
  s ← get;
  let key := (rps_ScopeKind scope, rps_ScopeID scope, pe_EdgeID edge) in
  if is_set (t_replay_provenance_edges s !! key)
  then fail (PlainError (sqlite_unique_failed
    "replay_provenance_edges.scope_kind, replay_provenance_edges.scope_id, replay_provenance_edges.edge_id"))
  else put (s <| t_replay_provenance_edges := <[key := {|
         pe_from_node_id := pe_FromNodeID edge; pe_to_node_id := pe_ToNodeID edge; pe_edge_type := pe_EdgeType edge;
         pe_reason := pe_Reason edge; pe_attributes_json := pe_AttributesJSON edge |}]>
         (t_replay_provenance_edges s) |>).

Definition ReplaceProvenance (scope : ReplayProjectionScope) (nodes : list ProvenanceNodeRecord)
    (edges : list ProvenanceEdgeRecord) : ST error provenance_tables unit :=
  transaction (
    modify (fun s => s <| t_replay_provenance_nodes :=
      filter (fun entry => in_scope scope entry.1 = false) (t_replay_provenance_nodes s) |>);;
    modify (fun s => s <| t_replay_provenance_edges :=
      filter (fun entry => in_scope scope entry.1 = false) (t_replay_provenance_edges s) |>);;
    for_each (insert_node scope) nodes;;
    for_each (insert_edge scope) edges).

Definition scan_node (entry : ReplayScopeKind * string * string * replay_provenance_nodes_row) : ProvenanceNodeRecord := {|
  pn_ScopeKind := entry.1.1.1; pn_ScopeID := entry.1.1.2; pn_NodeID := entry.1.2;
  pn_NodeType := pn_node_type entry.2; pn_RefID := pn_ref_id entry.2; pn_Label := pn_label entry.2;
  pn_Summary := pn_summary entry.2; pn_AttributesJSON := pn_attributes_json entry.2
|}.

Definition scan_edge (entry : ReplayScopeKind * string * string * replay_provenance_edges_row) : ProvenanceEdgeRecord := {|
  pe_ScopeKind := entry.1.1.1; pe_ScopeID := entry.1.1.2; pe_EdgeID := entry.1.2;
  pe_FromNodeID := pe_from_node_id entry.2; pe_ToNodeID := pe_to_node_id entry.2; pe_EdgeType := pe_edge_type entry.2;
  pe_Reason := pe_reason entry.2; pe_AttributesJSON := pe_attributes_json entry.2
|}.

Definition ListProvenance (scope : ReplayProjectionScope)
    : ST error provenance_tables (list ProvenanceNodeRecord * list ProvenanceEdgeRecord) :=
  s ← get;
  mret (scan_node <$> slices_SortFunc (fun a b => compare_text a.1.2 b.1.2)
          (filter (fun entry => in_scope scope entry.1 = true) (map_range (t_replay_provenance_nodes s))),
        scan_edge <$> slices_SortFunc (fun a b => compare_text a.1.2 b.1.2)
          (filter (fun entry => in_scope scope entry.1 = true) (map_range (t_replay_provenance_edges s)))).

Definition ReplaceExecutionAttributions (scope : ReplayProjectionScope) (records : list ExecutionAttributionRecord)
    : ST error replay_execution_attributions unit :=
  transaction (
    delete_where (fun entry => in_scope scope entry.1.1);;
    for_each (fun item =>
      inserted ← insert_new (rps_ScopeKind scope, rps_ScopeID scope, xa_ExecutionID item, xa_Category item)
        {| xa_summary := xa_Summary item; xa_source_refs_json := xa_SourceRefsJSON item; xa_details_json := xa_DetailsJSON item |};
      if inserted : bool then mret tt
      else fail (PlainError (sqlite_unique_failed "replay_execution_attributions.scope_kind, replay_execution_attributions.scope_id, replay_execution_attributions.execution_id, replay_execution_attributions.category"))) records).

(** [ORDER BY execution_id ASC, category ASC] *)
Definition order_attributions {row} (a b : ReplayScopeKind * string * string * string * row) : Z :=
  match compare_text a.1.1.2 b.1.1.2 with 0 => compare_text a.1.2 b.1.2 | c => c end.

Definition ListExecutionAttributions (scope : ReplayProjectionScope)
    : ST error replay_execution_attributions (list ExecutionAttributionRecord) :=
  rows ← select_where (fun entry => in_scope scope entry.1.1) order_attributions;
  scan_rows (fun entry => mret {|
    xa_ScopeKind := rps_ScopeKind scope; xa_ScopeID := rps_ScopeID scope;
    xa_ExecutionID := entry.1.1.2; xa_Category := entry.1.2; xa_Summary := xa_summary entry.2;
    xa_SourceRefsJSON := xa_source_refs_json entry.2; xa_DetailsJSON := xa_details_json entry.2 |}) rows.

Definition ReplaceFailureAttributions (scope : ReplayProjectionScope) (records : list FailureAttributionRecord)
    : ST error replay_failure_attributions unit :=
  transaction (
    delete_where (fun entry => in_scope scope entry.1);;
    for_each (fun item =>
      inserted ← insert_new (rps_ScopeKind scope, rps_ScopeID scope, fa_AttributionID item)
        {| fa_failure_category := fa_FailureCategory item; fa_reason_code := fa_ReasonCode item;
           fa_summary := fa_Summary item; fa_related_kind := fa_RelatedKind item; fa_related_id := fa_RelatedID item;
           fa_source_refs_json := fa_SourceRefsJSON item; fa_details_json := fa_DetailsJSON item |};
      if inserted : bool then mret tt
      else fail (PlainError (sqlite_unique_failed "replay_failure_attributions.scope_kind, replay_failure_attributions.scope_id, replay_failure_attributions.attribution_id"))) records).

Definition ListFailureAttributions (scope : ReplayProjectionScope)
    : ST error replay_failure_attributions (list FailureAttributionRecord) :=
  rows ← select_where (fun entry => in_scope scope entry.1) (fun a b => compare_text a.1.2 b.1.2);
  scan_rows (fun entry => mret {|
    fa_ScopeKind := rps_ScopeKind scope; fa_ScopeID := rps_ScopeID scope; fa_AttributionID := entry.1.2;
    fa_FailureCategory := fa_failure_category entry.2; fa_ReasonCode := fa_reason_code entry.2;
    fa_Summary := fa_summary entry.2; fa_RelatedKind := fa_related_kind entry.2; fa_RelatedID := fa_related_id entry.2;
    fa_SourceRefsJSON := fa_source_refs_json entry.2; fa_DetailsJSON := fa_details_json entry.2 |}) rows.
End sqlite.
End Lite.
