(* ===== verification/SqlStoresPg.v ===== *)
(** * The stores in Postgres (postgres_runtime_stores.go, skill_execution_store.go)

    As [SqlStores], for the other database: most tables hold a record as JSON
    beside the columns the queries look at. *)

From S2P Require Import SqlQueue.
From S2P Require Export SqlStores.
#[local] Open Scope Z_scope.

(** What encoding/json makes of a whole task graph snapshot, and what it reads
    in a text; both can fail (a number that is not finite, a year of more than
    four digits, a text that is no JSON). *)
Class GraphJson := {
  graph_Marshal : StoredGraph -> error + string;
  graph_Unmarshal : string -> error + StoredGraph
}.

Module Pg.
Import SqlTables.Postgres.

Section postgres.
Context `{MO : MapOrder} `{SD : SqlDriver} `{GJ : GraphJson}.

(** *** Workflow runs *)

Definition WorkflowRuns_Save (record : WorkflowRunRecord) : ST error workflow_runs unit :=
  upsert (run_WorkflowID record) {| wf_updated_at := time_text (run_UpdatedAt record); wf_record_json := record |}.

Definition WorkflowRuns_Load (workflowID : string) : ST error workflow_runs (option WorkflowRunRecord) :=
  found ← select_key workflowID;
  mret (wf_record_json <$> found).

Definition WorkflowRuns_List : ST error workflow_runs (list WorkflowRunRecord) :=
  rows ← select_where (fun _ => true) (order_by wf_updated_at);
  scan_rows (fun entry => mret (wf_record_json entry.2)) rows.

(** *** Task graphs *)

(** [marshalJSON], [unmarshalJSON] (sqlite_runtime_db.go) of a snapshot: a
    blank text leaves the target as it is. *)
Definition marshal_graph {T} (g : StoredGraph) : ST error T string :=
  match graph_Marshal g with inl e => fail e | inr raw => mret raw end.

Definition unmarshal_graph {T} (raw : string) : ST error T StoredGraph :=
  if TrimSpace raw == "" then mret (mkStoredGraph zero [])
  else match graph_Unmarshal raw with inl e => fail e | inr g => mret g end.

Definition graph_row (g : StoredGraph) (raw : string) : task_graphs_row := {|
  tg_version := gs_Version (sg_snapshot g);
  tg_snapshot_json := raw;
  tg_updated_at := time_text (gs_RegisteredAt (sg_snapshot g))
|}.

Definition Graphs_Save (g : StoredGraph) : ST error graph_tables unit :=
  raw ← marshal_graph g;
  modify (fun s => s <| t_task_graphs := <[tg_GraphID (gs_Graph (sg_snapshot g)) := graph_row g raw]> (t_task_graphs s) |>).

Definition Graphs_Update (g : StoredGraph) (expectedVersion : Z) : ST error graph_tables unit :=
  raw ← marshal_graph g;
  s ← get;
  let graphID := tg_GraphID (gs_Graph (sg_snapshot g)) in
  match t_task_graphs s !! graphID with
  | Some r =>
      if tg_version r =? expectedVersion
      then put (s <| t_task_graphs := <[graphID := graph_row g raw]> (t_task_graphs s) |>)
      else fail (ConflictError "task_graph" graphID ("expected version " +:+ Itoa expectedVersion))
  | None => fail (ConflictError "task_graph" graphID ("expected version " +:+ Itoa expectedVersion))
  end.

Definition Graphs_Load (graphID : string) : ST error graph_tables (option StoredGraph) :=
  s ← get;
  match t_task_graphs s !! graphID with
  | None => mret None
  | Some r => snapshot ← unmarshal_graph (tg_snapshot_json r); mret (Some snapshot)
  end.

Definition Graphs_List : ST error graph_tables (list StoredGraph) :=
  s ← get;
  scan_rows (fun entry => unmarshal_graph (tg_snapshot_json entry.2))
    (slices_SortFunc (fun a b => compare_text a.1 b.1) (map_range (t_task_graphs s))).

Definition saveStateSnapshot (graphID workflowID taskID kind : string) (snapshot : StateSnapshot)
    : ST error graph_tables string :=
  let ref := snapshotRefFor snapshot in
  if ref == "" then fail (PlainError "state snapshot requires snapshot id") else
  let row := {|
    ss_graph_id := nullString graphID;
    ss_workflow_id := nullString workflowID;
    ss_task_id := nullString taskID;
    ss_kind := kind;
    ss_state_version := sv_Sequence (fw_Version (ss_State snapshot));
    ss_reason := ss_Reason snapshot;
    ss_captured_at := time_text (ss_CapturedAt snapshot);
    ss_state_json := ss_State snapshot
  |} in
  modify (fun s => s <| t_state_snapshots := <[ref := row]> (t_state_snapshots s) |>);;
  mret ref.

Definition loadStateSnapshot (snapshotRef : string) : ST error graph_tables (option StateSnapshot) :=
  s ← get;
  match t_state_snapshots s !! snapshotRef with
  | None => mret None
  | Some r =>
      capturedAt ← scan_time (ss_captured_at r);
      mret (Some {| ss_State := ss_state_json r; ss_CapturedAt := capturedAt; ss_Reason := ss_reason r |})
  end.

(** *** Executions *)

Definition execution_row (record : TaskExecutionRecord) : task_executions_row := {|
  te_graph_id := te_ParentGraphID record;
  te_task_id := te_TaskID record;
  te_started_at := time_text (te_StartedAt record);
  te_version := te_Version record;
  te_record_json := record
|}.

Definition Executions_Save (record : TaskExecutionRecord) : ST error task_executions unit :=
  inserted ← insert_new (te_ExecutionID record) (execution_row record);
  if inserted : bool then mret tt else fail (PlainError (pg_unique_violated "task_executions_pkey")).

Definition Executions_Update (record : TaskExecutionRecord) (expectedVersion : Z) : ST error task_executions unit :=
  let record := record <| te_Version := wrap64 (expectedVersion + 1) |> in
  affected ← update_where (te_ExecutionID record) (fun r => te_version r =? expectedVersion)
    (fun r => r <| te_version := te_Version record |> <| te_record_json := record |>);
  if affected : bool then mret tt
  else fail (ConflictError "task_execution" (te_ExecutionID record) "version mismatch").

Definition Executions_Load (executionID : string) : ST error task_executions (option TaskExecutionRecord) :=
  found ← select_key executionID;
  mret (te_record_json <$> found).

Definition Executions_LoadLatestByTask (graphID taskID : string) : ST error task_executions (option TaskExecutionRecord) :=
  rows ← select_where (fun entry => (te_graph_id entry.2 == graphID) && (te_task_id entry.2 == taskID))
    (order_desc (order_by te_started_at));
  mret (te_record_json ∘ snd <$> head rows).

Definition Executions_ListByGraph (graphID : string) : ST error task_executions (list TaskExecutionRecord) :=
  rows ← select_where (fun entry => te_graph_id entry.2 == graphID) (order_by te_started_at);
  scan_rows (fun entry => mret (te_record_json entry.2)) rows.

(** *** Approvals *)

Definition approval_row (record : ApprovalStateRecord) : approvals_row := {|
  ap_graph_id := as_GraphID record;
  ap_task_id := as_TaskID record;
  ap_status := as_Status record;
  ap_version := as_Version record;
  ap_record_json := record
|}.

(** Every column is set on a conflict: saving an approval again replaces it. *)
Definition Approvals_Save (record : ApprovalStateRecord) : ST error approvals unit :=
  upsert (as_ApprovalID record) (approval_row record).

Definition Approvals_Update (record : ApprovalStateRecord) (expectedVersion : Z) : ST error approvals unit :=
  let record := record <| as_Version := wrap64 (expectedVersion + 1) |> in
  affected ← update_where (as_ApprovalID record) (fun r => ap_version r =? expectedVersion)
    (fun r => r <| ap_status := as_Status record |> <| ap_version := as_Version record |> <| ap_record_json := record |>);
  if affected : bool then mret tt
  else fail (ConflictError "approval" (as_ApprovalID record) "version mismatch").

Definition Approvals_Load (approvalID : string) : ST error approvals (option ApprovalStateRecord) :=
  found ← select_key approvalID;
  mret (ap_record_json <$> found).

Definition Approvals_ListPending : ST error approvals (list ApprovalStateRecord) :=
  rows ← select_where (fun entry => ap_status entry.2 == ApprovalStatusPending) (fun a b => compare_text a.1 b.1);
  scan_rows (fun entry => mret (ap_record_json entry.2)) rows.

(** The greatest approval id, not the latest request. *)
Definition Approvals_LoadByTask (graphID taskID : string) : ST error approvals (option ApprovalStateRecord) :=
  rows ← select_where (fun entry => (ap_graph_id entry.2 == graphID) && (ap_task_id entry.2 == taskID))
    (order_desc (fun a b => compare_text a.1 b.1));
  mret (ap_record_json ∘ snd <$> head rows).

(** *** Operator actions *)

Definition action_row (record : OperatorActionRecord) : operator_actions_row := {|
  oa_request_id := oa_RequestID record;
  oa_graph_id := nullString (oa_GraphID record);
  oa_task_id := nullString (oa_TaskID record);
  oa_record_json := record
|}.

(** [ON CONFLICT(action_id)] replaces the row of the action; the unique
    [request_id] of another row is an error. *)
Definition OperatorActions_Save (record : OperatorActionRecord) : ST error operator_actions unit :=
  t ← get;
  if existsb (fun entry => (oa_request_id entry.2 == oa_RequestID record) && (entry.1 != oa_ActionID record)) (map_range t)
  then
    let message := pg_unique_violated "operator_actions_request_id_key" in
    fail (if Contains message "request_id"
          then ConflictError "operator_action" (oa_RequestID record) "duplicate request id" else PlainError message)
  else upsert (oa_ActionID record) (action_row record).

Definition OperatorActions_LoadByRequestID (requestID : string) : ST error operator_actions (option OperatorActionRecord) :=
  rows ← select_where (fun entry => oa_request_id entry.2 == requestID) (fun _ _ => 0);
  mret (oa_record_json ∘ snd <$> head rows).

Definition OperatorActions_ListByTask (graphID taskID : string) : ST error operator_actions (list OperatorActionRecord) :=
  rows ← select_where (fun entry => bool_decide (oa_graph_id entry.2 = Some graphID) &&
                                    bool_decide (oa_task_id entry.2 = Some taskID))
    (fun a b => compare_text a.1 b.1);
  scan_rows (fun entry => mret (oa_record_json entry.2)) rows.

(** *** Checkpoints and resume tokens *)

Definition Checkpoints_Save (checkpoint : CheckpointRecord) : ST error checkpoints unit :=
  upsert_with (ck_ID checkpoint) (fun old => {|
    ck_workflow_id := ck_WorkflowID checkpoint;
    ck_record_json := checkpoint;
    ck_payload_kind := r ← old; ck_payload_kind r;
    ck_payload_json := r ← old; ck_payload_json r
  |}).

Definition Checkpoints_Load (workflowID checkpointID : string) : ST error checkpoints CheckpointRecord :=
  found ← select_key checkpointID;
  match found with
  | None => fail (NotFoundError "checkpoint" checkpointID)
  | Some r =>
      if (workflowID != "") && (ck_workflow_id r != workflowID)
      then fail (ConflictError "checkpoint" checkpointID "workflow id mismatch")
      else mret (ck_record_json r)
  end.

Definition Tokens_Save (token : ResumeToken) : ST error resume_tokens unit :=
  upsert (rt_Token token) {| rt_record_json := token |}.

Definition Tokens_Load (token : string) : ST error resume_tokens ResumeToken :=
  found ← select_key token;
  match found with
  | None => fail (NotFoundError "resume_token" token)
  | Some r => mret (rt_record_json r)
  end.

(** Unlike SQLite's, without validating the payload. *)
Definition Checkpoints_SavePayload (checkpointID : string) (payload : CheckpointPayloadEnvelope) : ST error checkpoints unit :=
  affected ← update_where checkpointID (fun _ => true)
    (fun r => r <| ck_payload_kind := Some (ce_Kind payload) |> <| ck_payload_json := Some payload |>);
  if affected : bool then mret tt else fail (NotFoundError "checkpoint" checkpointID).

Definition Checkpoints_LoadPayload (checkpointID : string) : ST error checkpoints CheckpointPayloadEnvelope :=
  found ← select_key checkpointID;
  match r ← found; ck_payload_json r with
  | None => fail (NotFoundError "checkpoint_payload" checkpointID)
  | Some payload => mret payload
  end.

(** *** Replay events *)

Definition event_row (event : ReplayEventRecord) : replay_events_row := {|
  re_workflow_id := nullString (ev_WorkflowID event);
  re_graph_id := nullString (ev_GraphID event);
  re_task_id := nullString (ev_TaskID event);
  re_approval_id := nullString (ev_ApprovalID event);
  re_execution_id := nullString (ev_ExecutionID event);
  re_occurred_at := time_text (ev_OccurredAt event);
  re_record_json := event
|}.

Definition Replay_Append (event : ReplayEventRecord) : ST error replay_events unit :=
  inserted ← insert_new (ev_EventID event) (event_row event);
  if inserted : bool then mret tt else fail (PlainError (pg_unique_violated "replay_events_pkey")).

Definition Replay_list (column : replay_events_row -> option string) (arg : string)
    : ST error replay_events (list ReplayEventRecord) :=
  rows ← select_where (fun entry => bool_decide (column entry.2 = Some arg)) (order_by re_occurred_at);
  scan_rows (fun entry => mret (re_record_json entry.2)) rows.

Definition Replay_ListByGraph : string -> ST error replay_events (list ReplayEventRecord) := Replay_list re_graph_id.
Definition Replay_ListByTask : string -> ST error replay_events (list ReplayEventRecord) := Replay_list re_task_id.
Definition Replay_ListByWorkflow : string -> ST error replay_events (list ReplayEventRecord) := Replay_list re_workflow_id.

(** *** Artifacts *)

Definition Artifacts_Save (workflowID taskID : string) (artifact : WorkflowArtifact) : ST error workflow_artifacts unit :=
  upsert (wa_ID artifact) {|
    wa_workflow_id := workflowID;
    wa_task_id := taskID;
    wa_created_at := time_text (wa_CreatedAt artifact);
    wa_storage_ref := nullString (ar_Location (wa_Ref artifact));
    wa_record_json := artifact
  |}.

Definition Artifacts_list (column : workflow_artifacts_row -> string) (arg : string)
    : ST error workflow_artifacts (list WorkflowArtifact) :=
  rows ← select_where (fun entry => column entry.2 == arg) (order_by wa_created_at);
  scan_rows (fun entry => mret (wa_record_json entry.2)) rows.

Definition Artifacts_ListByTask : string -> ST error workflow_artifacts (list WorkflowArtifact) := Artifacts_list wa_task_id.
Definition Artifacts_ListByWorkflow : string -> ST error workflow_artifacts (list WorkflowArtifact) :=
  Artifacts_list wa_workflow_id.

Definition Artifacts_Load (artifactID : string) : ST error workflow_artifacts (option WorkflowArtifact) :=
  found ← select_key artifactID;
  mret (wa_record_json <$> found).

(** *** Attempts, workers and wakeups *)

Definition Attempts_Save (attempt : ExecutionAttempt) : ST error work_attempts unit :=
  inserted ← insert_new (ea_AttemptID attempt)
    {| at_work_item_id := ea_WorkItemID attempt; at_started_at := time_text (ea_StartedAt attempt);
       at_record_json := attempt |};
  if inserted : bool then mret tt else fail (PlainError (pg_unique_violated "work_attempts_pkey")).

Definition Attempts_Update (attempt : ExecutionAttempt) : ST error work_attempts unit :=
  affected ← update_where (ea_AttemptID attempt) (fun _ => true) (fun r => r <| at_record_json := attempt |>);
  if affected : bool then mret tt else fail (NotFoundError "execution_attempt" (ea_AttemptID attempt)).

Definition Attempts_List (workItemID : string) : ST error work_attempts (list ExecutionAttempt) :=
  rows ← select_where (fun entry => at_work_item_id entry.2 == workItemID) (order_by at_started_at);
  scan_rows (fun entry => mret (at_record_json entry.2)) rows.

Definition Workers_Register (worker : WorkerRegistration) : ST error worker_registrations unit :=
  upsert (wr_WorkerID worker)
    {| wk_last_heartbeat := time_text (wr_LastHeartbeat worker); wk_record_json := worker |}.

Definition Workers_Load (workerID : string) : ST error worker_registrations (option WorkerRegistration) :=
  found ← select_key workerID;
  mret (wk_record_json <$> found).

(** Read, then written back. *)
Definition Workers_Heartbeat (workerID : string) (now : time) : ST error worker_registrations unit :=
  found ← Workers_Load workerID;
  match found with
  | None => fail (NotFoundError "worker" workerID)
  | Some record => Workers_Register (record <| wr_LastHeartbeat := now |>)
  end.

Definition Workers_List : ST error worker_registrations (list WorkerRegistration) :=
  rows ← select_where (fun _ => true) (fun a b => compare_text a.1 b.1);
  scan_rows (fun entry => mret (wk_record_json entry.2)) rows.

Definition Wakeups_Save (wakeup : SchedulerWakeup) : ST error scheduler_wakeups unit :=
  upsert (sw_ID wakeup) {| wu_available_at := time_text (sw_AvailableAt wakeup); wu_record_json := wakeup |}.

Definition Wakeups_ListDue (now : time) : ST error scheduler_wakeups (list SchedulerWakeup) :=
  rows ← select_where (fun entry => text_leb (wu_available_at entry.2) (time_text now)) (order_by wu_available_at);
  scan_rows (fun entry => mret (wu_record_json entry.2)) rows.

Definition Wakeups_MarkDispatched (id : string) (_ : time) : ST error scheduler_wakeups unit :=
  delete_where (fun entry => entry.1 == id).

(** *** Skill executions *)

Definition SkillExecutions_Save (now : time) (record : SkillExecutionRecord) : ST error skill_executions unit :=
  if sx_ExecutionID record == "" then fail (PlainError "skill execution requires execution_id") else
  let record := Lite.stamp_skill_execution now record in
  upsert_with (sx_ExecutionID record) (fun old => {|
    se_workflow_id := sx_WorkflowID record;
    se_task_id := sx_TaskID record;
    se_status := sx_Status record;
    se_created_at := match old with Some r => se_created_at r | None => time_text (sx_CreatedAt record) end;
    se_updated_at := time_text (sx_UpdatedAt record);
    se_record_json := record
  |}).

Definition SkillExecutions_Load (executionID : string) : ST error skill_executions (option SkillExecutionRecord) :=
  found ← select_key executionID;
  mret (se_record_json <$> found).

Definition SkillExecutions_ListByWorkflow (workflowID : string) : ST error skill_executions (list SkillExecutionRecord) :=
  rows ← select_where (fun entry => se_workflow_id entry.2 == workflowID) (order_by se_updated_at);
  scan_rows (fun entry => mret (se_record_json entry.2)) rows.

(** *** Replay projections *)

Definition WorkflowProjections_Save (record : WorkflowReplayProjection) : ST error workflow_replay_projections unit :=
  upsert (wrp_WorkflowID record)
    {| wp_projection_freshness := time_text (wrp_ProjectionFreshness record); wp_record_json := record |}.

Definition WorkflowProjections_Load (workflowID : string)
    : ST error workflow_replay_projections (option WorkflowReplayProjection) :=
  found ← select_key workflowID;
  mret (wp_record_json <$> found).

Definition GraphProjections_Save (record : TaskGraphReplayProjection) : ST error task_graph_replay_projections unit :=
  upsert (grp_GraphID record)
    {| gp_projection_freshness := time_text (grp_ProjectionFreshness record); gp_record_json := record |}.

Definition GraphProjections_Load (graphID : string)
    : ST error task_graph_replay_projections (option TaskGraphReplayProjection) :=
  found ← select_key graphID;
  mret (gp_record_json <$> found).

Definition Builds_Save (record : ReplayProjectionBuildRecord) : ST error replay_projection_builds unit :=
  upsert (rb_ScopeKind record, rb_ScopeID record) {| pb_record_json := record |}.

Definition Builds_Load (scope : ReplayProjectionScope)
    : ST error replay_projection_builds (option ReplayProjectionBuildRecord) :=
  found ← select_key (rps_ScopeKind scope, rps_ScopeID scope);
  mret (pb_record_json <$> found).

(** [withProjectionScopeTx]: the advisory lock makes the transactions of one
    scope take turns. *)
Definition withProjectionScopeTx {T} (fn : ST error T unit) : ST error T unit := transaction fn.

Definition ReplaceProvenance (scope : ReplayProjectionScope) (nodes : list ProvenanceNodeRecord)
    (edges : list ProvenanceEdgeRecord) : ST error provenance_tables unit :=
  withProjectionScopeTx (
    modify (fun s => s <| t_replay_provenance_edges :=
      filter (fun entry => Lite.in_scope scope entry.1 = false) (t_replay_provenance_edges s) |>);;
    modify (fun s => s <| t_replay_provenance_nodes :=
      filter (fun entry => Lite.in_scope scope entry.1 = false) (t_replay_provenance_nodes s) |>);;
    for_each (fun node => modify (fun s => s <| t_replay_provenance_nodes :=
      <[(rps_ScopeKind scope, rps_ScopeID scope, pn_NodeID node) := {| pn_record_json := node |}]>
        (t_replay_provenance_nodes s) |>)) nodes;;
    for_each (fun edge => modify (fun s => s <| t_replay_provenance_edges :=
      <[(rps_ScopeKind scope, rps_ScopeID scope, pe_EdgeID edge) := {| pe_record_json := edge |}]>
        (t_replay_provenance_edges s) |>)) edges).

Definition ListProvenance (scope : ReplayProjectionScope)
    : ST error provenance_tables (list ProvenanceNodeRecord * list ProvenanceEdgeRecord) :=
  s ← get;
  mret ((fun entry => pn_record_json entry.2) <$> slices_SortFunc (fun a b => compare_text a.1.2 b.1.2)
          (filter (fun entry => Lite.in_scope scope entry.1 = true) (map_range (t_replay_provenance_nodes s))),
        (fun entry => pe_record_json entry.2) <$> slices_SortFunc (fun a b => compare_text a.1.2 b.1.2)
          (filter (fun entry => Lite.in_scope scope entry.1 = true) (map_range (t_replay_provenance_edges s)))).

Definition ReplaceExecutionAttributions (scope : ReplayProjectionScope) (records : list ExecutionAttributionRecord)
    : ST error replay_execution_attributions unit :=
  withProjectionScopeTx (
    delete_where (fun entry => Lite.in_scope scope entry.1.1);;
    for_each (fun record =>
      upsert (rps_ScopeKind scope, rps_ScopeID scope, xa_ExecutionID record, xa_Category record)
        {| xa_record_json := record |}) records).

Definition ListExecutionAttributions (scope : ReplayProjectionScope)
    : ST error replay_execution_attributions (list ExecutionAttributionRecord) :=
  rows ← select_where (fun entry => Lite.in_scope scope entry.1.1) Lite.order_attributions;
  scan_rows (fun entry => mret (xa_record_json entry.2)) rows.

Definition ReplaceFailureAttributions (scope : ReplayProjectionScope) (records : list FailureAttributionRecord)
    : ST error replay_failure_attributions unit :=
  withProjectionScopeTx (
    delete_where (fun entry => Lite.in_scope scope entry.1);;
    for_each (fun record =>
      upsert (rps_ScopeKind scope, rps_ScopeID scope, fa_AttributionID record) {| fa_record_json := record |}) records).

Definition ListFailureAttributions (scope : ReplayProjectionScope)
    : ST error replay_failure_attributions (list FailureAttributionRecord) :=
  rows ← select_where (fun entry => Lite.in_scope scope entry.1) (fun a b => compare_text a.1.2 b.1.2);
  scan_rows (fun entry => mret (fa_record_json entry.2)) rows.
End postgres.
End Pg.
