(* ===== verification/TaskGraphThm.v ===== *)
(** * Theorems on task graphs

    The execution order is a topological order and its loop terminates;
    what the pre-execution status means; what registration and reevaluation
    establish and leave alone. *)

From S2P Require Export TaskGraph.
#[local] Open Scope Z_scope.

Definition task_id (r : FollowUpTaskRecord) : string := ts_ID (ft_Task r).

(** ** [downstreamDependencies] *)

Lemma downstream_lookup deps id :
  default [] (downstreamDependencies deps !! id) = filter (fun d => td_DownstreamTaskID d = id) deps.
Proof.
  unfold downstreamDependencies.
  rewrite (lookup_fold_append td_DownstreamTaskID (fun d => d)), lookup_empty. simpl. by rewrite list_fmap_id.
Qed.

(** ** The topological order *)

Section topo.
Context `{MO : MapOrder}.
Variables (graph : TaskGraph) (records : list FollowUpTaskRecord).
Let deps := tg_Dependencies graph.
Let orders := registration_orders records.
Let down := downstream_tasks deps.

(** The dependencies of [x] whose upstream task is not in [done]. *)
Definition blockers (deps : list TaskDependency) (done : list string) (x : string) : list TaskDependency :=
  filter (fun d => td_DownstreamTaskID d = x /\ td_UpstreamTaskID d ∉ done) deps.

Definition occurrences (cs : list string) (x : string) : nat := length (filter (fun c => c = x) cs).

(** Every upstream task of an element of [l] comes before it. *)
Definition respects_dependencies (deps : list TaskDependency) (l : list string) : Prop :=
  forall l1 x l2, l = l1 ++ x :: l2 ->
    forall d, d ∈ deps -> td_DownstreamTaskID d = x -> td_UpstreamTaskID d ∈ l1.

(** The invariant of the loop, with [cs] the children still to be decremented. *)
Record topo_inv (ids cs result zero : list string) (indegree : gmap string Z) : Prop := {
  ti_nodup : NoDup (result ++ zero);
  ti_degree : forall x, default 0 (indegree !! x) =
    Z.of_nat (length (blockers deps result x) + occurrences cs x);
  ti_zero : forall x, x ∈ ids -> x ∈ result ++ zero <-> default 0 (indegree !! x) = 0;
  ti_ids : forall x, x ∈ result ++ zero -> x ∈ ids;
  ti_order : respects_dependencies deps result
}.

Lemma sort_by_order_perm o l : sort_by_order o l ≡ₚ l.
Proof. apply SortFunc_perm. Qed.

Lemma occurrences_perm cs cs' x : cs ≡ₚ cs' -> occurrences cs x = occurrences cs' x.
Proof. intros H. unfold occurrences. by rewrite H. Qed.

Lemma topo_children_inv ids cs result zero indegree :
  (forall c, c ∈ cs -> c ∈ ids) ->
  topo_inv ids cs result zero indegree ->
  let '(zero', indegree') := fold_left (topo_child orders) cs (zero, indegree) in
  topo_inv ids [] result zero' indegree'.
Proof.
  revert zero indegree. induction cs as [|c cs IH]; intros zero indegree Hcs Hi; [done|].
  cbn [fold_left]. unfold topo_child at 2.
  set (n := default 0 (indegree !! c) - 1).
  apply IH; [intros; apply Hcs; by right|]. clear IH.
  destruct Hi as [Hn Hd Hz Hids Ho].
  assert (Hc : default 0 (indegree !! c) = n + 1) by lia.
  assert (Hn0 : n = Z.of_nat (length (blockers deps result c) + occurrences cs c)).
  { pose proof (Hd c) as Hdc. unfold occurrences in Hdc. rewrite filter_cons, decide_True in Hdc by done.
    cbn in Hdc. unfold occurrences, n. lia. }
  assert (Hcid : c ∈ ids) by (apply Hcs; left).
  assert (Hnew : c ∉ result ++ zero) by (rewrite Hz by done; lia).
  assert (Hdeg : forall x, default 0 (<[c := n]> indegree !! x) =
    Z.of_nat (length (blockers deps result x) + occurrences cs x)).
  { intros x. destruct (decide (c = x)) as [<-|Hne]; [by rewrite lookup_insert_eq|].
    rewrite lookup_insert_ne, Hd by done. unfold occurrences. by rewrite filter_cons, decide_False. }
  assert (Hsame : forall x, x <> c -> default 0 (<[c := n]> indegree !! x) = default 0 (indegree !! x)).
  { intros x Hx. by rewrite lookup_insert_ne. }
  destruct (Z.eqb_spec n 0) as [E|E].
  - assert (Hp : result ++ sort_by_order orders (zero ++ [c]) ≡ₚ c :: result ++ zero).
    { rewrite sort_by_order_perm, (Permutation_app_comm zero). simpl. by rewrite Permutation_middle. }
    split; [|done| |  |done].
    + rewrite Hp. by apply NoDup_cons.
    + intros x Hx. rewrite Hp, elem_of_cons. destruct (decide (x = c)) as [->|Hne].
      * rewrite lookup_insert_eq. simpl. tauto.
      * rewrite Hsame, Hz by done. tauto.
    + intros x. rewrite Hp, elem_of_cons. intros [->|Hx]; auto.
  - split; try done. intros x Hx. destruct (decide (x = c)) as [->|Hne].
    + rewrite lookup_insert_eq. simpl. tauto.
    + by rewrite Hsame, Hz.
Qed.

(** Popping [t] moves its outgoing dependencies from the blockers to the
    children still to decrement. *)
Lemma blockers_pop l done_ t x :
  t ∉ done_ ->
  length (blockers l done_ x) =
  (length (blockers l (done_ ++ [t]) x) +
   occurrences (td_DownstreamTaskID <$> filter (fun d => td_UpstreamTaskID d = t) l) x)%nat.
Proof.
  intros Ht. unfold blockers, occurrences. induction l as [|d l IH]; [done|].
  rewrite !filter_cons. destruct (decide (td_UpstreamTaskID d = t)) as [E|E]; cbn [fmap list_fmap];
    rewrite ?filter_cons.
  - rewrite (decide_False (P := _ /\ _ ∉ done_ ++ [t])) by (rewrite elem_of_app, list_elem_of_singleton; tauto).
    destruct (decide (td_DownstreamTaskID d = x)) as [E'|E'].
    + rewrite decide_True by (split; congruence). cbn [length]. lia.
    + rewrite decide_False by tauto. done.
  - destruct (decide (td_DownstreamTaskID d = x /\ td_UpstreamTaskID d ∉ done_)) as [[E1 E2]|E1].
    + rewrite decide_True; [cbn [length]; lia|]. split; [done|].
      rewrite elem_of_app, list_elem_of_singleton. tauto.
    + rewrite decide_False; [done|]. intros [E2 E3]. apply E1. split; [done|].
      intros Hd. apply E3, elem_of_app. by left.
Qed.

Lemma down_lookup t :
  default [] (down !! t) = td_DownstreamTaskID <$> filter (fun d => td_UpstreamTaskID d = t) deps.
Proof.
  unfold down, downstream_tasks.
  by rewrite (lookup_fold_append td_UpstreamTaskID td_DownstreamTaskID), lookup_empty.
Qed.

Definition topo_ok (ids : list string) (st : topo) : Prop :=
  topo_inv ids [] (tp_result st) (tp_zero st) (tp_indegree st).

Lemma topo_step_inv ids st :
  (forall d, d ∈ deps -> td_DownstreamTaskID d ∈ ids) ->
  topo_ok ids st -> tp_zero st <> [] ->
  topo_ok ids (topo_step orders down st) /\
  length (tp_result (topo_step orders down st)) = S (length (tp_result st)).
Proof.
  intros Hdeps [Hn Hd Hz Hids Ho] Hne. unfold topo_step.
  destruct (tp_zero st) as [|t zero]; [done|]. rewrite down_lookup.
  set (cs := sort_by_order _ _).
  assert (Hcs : cs ≡ₚ td_DownstreamTaskID <$> filter (fun d => td_UpstreamTaskID d = t) deps)
    by apply sort_by_order_perm.
  assert (Ht : t ∉ tp_result st).
  { apply NoDup_app in Hn as (_ & Hn & _). intros Ht. apply (Hn t Ht). left. }
  assert (Happ : (tp_result st ++ [t]) ++ zero = tp_result st ++ t :: zero) by by rewrite <- app_assoc.
  pose proof (topo_children_inv ids cs (tp_result st ++ [t]) zero (tp_indegree st)) as Hfold.
  destruct (fold_left (topo_child orders) cs (zero, tp_indegree st)) as [zero' indegree'].
  unfold topo_ok. cbn [tp_zero tp_indegree tp_result]. split; [apply Hfold|rewrite length_app; cbn; lia].
  - intros c. rewrite Hcs. intros (d & -> & Hd')%list_elem_of_fmap.
    apply list_elem_of_filter in Hd' as [_ Hd']. auto.
  - split; rewrite ?Happ; try done.
    + intros x. rewrite Hd, (blockers_pop deps (tp_result st) t x Ht), (occurrences_perm _ _ _ Hcs). cbn. lia.
    + intros l1 x l2 E d Hd' Hx. destruct l2 as [|y l2 _] using rev_ind.
      * apply app_inj_tail in E as [<- <-].
        assert (Hb : blockers deps (tp_result st) t = []).
        { apply length_zero_iff_nil. assert (Hz0 : default 0 (tp_indegree st !! t) = 0).
          { apply Hz; [apply Hids|]; apply elem_of_app; right; left. }
          rewrite Hd in Hz0. lia. }
        destruct (decide (td_UpstreamTaskID d ∈ tp_result st)) as [|Hno]; [done|].
        assert (Hin : d ∈ blockers deps (tp_result st) t) by (apply list_elem_of_filter; done).
        rewrite Hb in Hin. by apply elem_of_nil in Hin.
      * rewrite app_comm_cons, app_assoc in E. apply app_inj_tail in E as [E _].
        by eapply Ho.
Qed.

Lemma topo_loop_inv ids fuel st :
  (forall d, d ∈ deps -> td_DownstreamTaskID d ∈ ids) ->
  topo_ok ids st ->
  topo_ok ids (topo_loop orders down fuel st) /\
  (tp_zero (topo_loop orders down fuel st) = [] \/
   length (tp_result (topo_loop orders down fuel st)) = (length (tp_result st) + fuel)%nat).
Proof.
  intros Hdeps. revert st. induction fuel as [|fuel IH]; intros st Hi; cbn [topo_loop].
  { split; [done|]. right. lia. }
  destruct (tp_zero st) as [|t zero] eqn:E; [by split; [|left]|].
  destruct (topo_step_inv ids st Hdeps Hi) as [Hi' Hlen]; [by rewrite E|].
  destruct (IH _ Hi') as [H1 H2]. split; [done|]. destruct H2 as [H2|H2]; [by left|right; lia].
Qed.

(** The keys of [indegree]. *)
Definition topo_ids : list string := (map_range (tp_indegree (topo_init graph records))).*1.

Lemma indegree_lookup x :
  default 0 (initial_indegree records deps !! x) = Z.of_nat (length (filter (fun d => td_DownstreamTaskID d = x) deps)).
Proof.
  unfold initial_indegree. rewrite lookup_fold_count, (lookup_fold_insert (fun r => ts_ID (ft_Task r)) (fun _ => 0)).
  destruct (last _); rewrite ?lookup_empty; simpl; lia.
Qed.

Lemma topo_ids_spec x : x ∈ topo_ids <-> x ∈ (task_id <$> records) \/ x ∈ (td_DownstreamTaskID <$> deps).
Proof.
  unfold topo_ids, topo_init. cbn [tp_indegree]. transitivity (is_Some (initial_indegree records deps !! x)).
  - rewrite list_elem_of_fmap. split.
    + intros ([y n] & -> & H%elem_of_map_range). by exists n.
    + intros [n H]. exists (x, n). split; [done|]. by apply elem_of_map_range.
  - unfold initial_indegree. rewrite (lookup_fold_insert_is_Some td_DownstreamTaskID).
    rewrite (lookup_fold_insert_is_Some (fun r => ts_ID (ft_Task r)) (fun _ _ => 0)).
    rewrite lookup_empty. rewrite is_Some_alt. tauto.
Qed.

Lemma topo_ids_length : length topo_ids = size (tp_indegree (topo_init graph records)).
Proof. unfold topo_ids. rewrite length_fmap, map_range_perm. apply length_map_to_list. Qed.

Lemma topo_init_inv : topo_ok topo_ids (topo_init graph records).
Proof.
  pose proof indegree_lookup as Hdeg. unfold topo_ok, topo_init. cbn [tp_result tp_zero tp_indegree].
  fold deps. set (indegree := initial_indegree records deps) in *.
  assert (Hzero : forall x, x ∈ sort_by_order (registration_orders records)
      (filter (fun entry : string * Z => entry.2 = 0) (map_range indegree)).*1 <-> indegree !! x = Some 0).
  { intros x. rewrite sort_by_order_perm, list_elem_of_fmap. split.
    - intros ([y n] & -> & [Hn Hy]%list_elem_of_filter). apply elem_of_map_range in Hy. cbn in *. congruence.
    - intros H. exists (x, 0). split; [done|]. apply list_elem_of_filter. split; [done|].
      by apply elem_of_map_range. }
  assert (Hids : forall x, x ∈ topo_ids <-> is_Some (indegree !! x)).
  { intros x. unfold topo_ids, topo_init. cbn [tp_indegree]. fold deps. fold indegree.
    rewrite list_elem_of_fmap. split.
    - intros ([y n] & -> & H%elem_of_map_range). by exists n.
    - intros [n H]. exists (x, n). split; [done|]. by apply elem_of_map_range. }
  split; cbn [app].
  - rewrite sort_by_order_perm. apply NoDup_fmap_filter, NoDup_map_range_keys.
  - intros x. rewrite Hdeg. unfold occurrences, blockers. rewrite filter_nil, Nat.add_0_r. do 2 f_equal.
    apply list_filter_iff. intros d. split; [intros ->|tauto]. split; [done|]. apply not_elem_of_nil.
  - intros x [n Hx]%Hids. rewrite Hzero, Hx. simpl. naive_solver.
  - intros x Hx%Hzero. apply Hids. by exists 0.
  - intros l1 x l2 E. by destruct l1.
Qed.

(** Everything about the result, and that the fuel is enough. *)
Lemma topo_result :
  let st := topo_loop orders down (size (tp_indegree (topo_init graph records))) (topo_init graph records) in
  topo_ok topo_ids st /\ tp_zero st = [].
Proof.
  cbn zeta. destruct (topo_loop_inv topo_ids (size (tp_indegree (topo_init graph records)))
    (topo_init graph records)) as [Hok Hor]; [|apply topo_init_inv|].
  { intros d Hd. apply topo_ids_spec. right. apply list_elem_of_fmap. eauto. }
  split; [done|]. destruct Hor as [|Hlen]; [done|]. cbn [topo_init tp_result length Nat.add] in Hlen.
  destruct Hok as [Hn _ _ Hids _].
  assert (Hle : (length (tp_result (topo_loop orders down (size (tp_indegree (topo_init graph records)))
    (topo_init graph records)) ++ tp_zero (topo_loop orders down (size (tp_indegree (topo_init graph records)))
    (topo_init graph records))) <= length topo_ids)%nat).
  { apply NoDup_incl_length; [by apply NoDup_ListNoDup|]. intros x Hx%list_elem_of_In. by apply list_elem_of_In, Hids. }
  rewrite length_app, topo_ids_length in Hle. apply length_zero_iff_nil. cbn [topo_init tp_indegree] in *. lia.
Qed.
End topo.

(** An acyclic graph: the dependencies go up in some rank. *)
Definition acyclic (graph : TaskGraph) : Prop :=
  exists rank : string -> nat, forall d, d ∈ tg_Dependencies graph ->
    (rank (td_UpstreamTaskID d) < rank (td_DownstreamTaskID d))%nat.

(** Every dependency is between registered tasks ([TaskGraph.Validate]). *)
Definition closed_dependencies (graph : TaskGraph) (records : list FollowUpTaskRecord) : Prop :=
  forall d, d ∈ tg_Dependencies graph ->
    td_UpstreamTaskID d ∈ (task_id <$> records) /\ td_DownstreamTaskID d ∈ (task_id <$> records).

Section order_claims.
Context `{MO : MapOrder}.

Lemma order_complete graph records x :
  closed_dependencies graph records -> acyclic graph ->
  x ∈ (task_id <$> records) -> x ∈ topologicalTaskOrder graph records.
Proof.
  intros Hc [rank Hrank] Hx. destruct (topo_result graph records) as [[Hn Hd Hz Hids _] Hzero].
  unfold topologicalTaskOrder. cbn zeta in *. set (st := topo_loop _ _ _ _) in *.
  rewrite Hzero, app_nil_r in *. remember (rank x) as r eqn:Hr. revert x Hr Hx.
  induction r as [r IH] using lt_wf_ind. intros x -> Hx.
  assert (Hid : x ∈ topo_ids graph records) by (apply topo_ids_spec; by left).
  apply Hz; [done|]. rewrite Hd. unfold occurrences. rewrite filter_nil, Nat.add_0_r.
  destruct (blockers (tg_Dependencies graph) (tp_result st) x) as [|d l] eqn:E; [done|].
  assert (Hdin : d ∈ blockers (tg_Dependencies graph) (tp_result st) x) by (rewrite E; left).
  apply list_elem_of_filter in Hdin as [[<- Hno] Hdin]. destruct Hno.
  eapply IH; [by apply Hrank|done|by apply Hc].
Qed.

Lemma order_NoDup graph records : NoDup (topologicalTaskOrder graph records).
Proof.
  destruct (topo_result graph records) as [[Hn _ _ _ _] Hzero]. unfold topologicalTaskOrder.
  cbn zeta in *. by rewrite Hzero, app_nil_r in Hn.
Qed.

Lemma order_respects graph records :
  respects_dependencies (tg_Dependencies graph) (topologicalTaskOrder graph records).
Proof. destruct (topo_result graph records) as [[_ _ _ _ Ho] _]. exact Ho. Qed.

(** Reading the record of each id of a list, in order, keeping the ready ones. *)
Lemma ready_in_order_spec records (order : list string) r :
  NoDup (task_id <$> records) ->
  r ∈ omap (fun taskID => record ← taskRecordMap records !! taskID;
                          if ft_Status record == TaskQueueStatusReady then Some record else None) order <->
  r ∈ records /\ ft_Status r = TaskQueueStatusReady /\ task_id r ∈ order.
Proof.
  intros Hnd. rewrite list_elem_of_omap. unfold taskRecordMap.
  assert (Hl : forall i a, fold_left (fun m item => <[task_id item := item]> m) records (∅ : gmap string _) !! i = Some a
    <-> a ∈ records /\ task_id a = i).
  { intros i a. rewrite (lookup_fold_insert_NoDup task_id (fun x => x)) by done. naive_solver. }
  split.
  - intros (id & Hid & Hb). apply bind_Some in Hb as (r' & Hr' & Hs). apply Hl in Hr' as [Hr' <-].
    case_bool_decide; [|done]. injection Hs as <-. done.
  - intros (Hr & Hs & Hid). exists (task_id r). split; [done|]. apply bind_Some. exists r.
    split; [by apply Hl|]. by rewrite bool_decide_eq_true_2.
Qed.
End order_claims.

(** ** Claims about the execution order *)

(** C31: [topologicalTaskOrder] terminates within the fuel (its worklist is
    empty at the end) for every graph and every list of records, and its
    result lists no task twice and every task after all the tasks it depends
    on. *)
Theorem topological_order_sound `{MO : MapOrder} (graph : TaskGraph) (records : list FollowUpTaskRecord) :
  tp_zero (topo_loop (registration_orders records) (downstream_tasks (tg_Dependencies graph))
             (size (tp_indegree (topo_init graph records))) (topo_init graph records)) = [] /\
  NoDup (topologicalTaskOrder graph records) /\
  respects_dependencies (tg_Dependencies graph) (topologicalTaskOrder graph records).
Proof. split_and!; [apply topo_result|apply order_NoDup|apply order_respects]. Qed.

(** On an acyclic graph over registered tasks, [ReadyTasksInExecutionOrder]
    returns exactly the ready tasks, each once. *)
Theorem ready_tasks_complete `{MO : MapOrder} (graph : TaskGraph) (records : list FollowUpTaskRecord) :
  NoDup (task_id <$> records) -> closed_dependencies graph records -> acyclic graph ->
  (forall r, r ∈ ReadyTasksInExecutionOrder graph records <->
     r ∈ records /\ ft_Status r = TaskQueueStatusReady) /\
  NoDup (task_id <$> ReadyTasksInExecutionOrder graph records).
Proof.
  intros Hnd Hc Ha. unfold ReadyTasksInExecutionOrder. cbn zeta. split.
  - intros r. rewrite ready_in_order_spec by done. split; [tauto|]. intros [Hr Hs]. split_and!; [done..|].
    apply order_complete; [done..|]. apply list_elem_of_fmap. eauto.
  - pose proof (order_NoDup graph records) as Ho. induction (topologicalTaskOrder graph records) as [|x l IH];
      [constructor|]. apply NoDup_cons in Ho as [Hx Ho]. cbn [omap list_omap].
    destruct (_ ≫= _) as [r|] eqn:E; [|by apply IH]. apply NoDup_cons. split; [|by apply IH].
    apply bind_Some in E as (r' & Hr' & E). case_bool_decide; [|done]. injection E as ->.
    assert (Hid : task_id r = x).
    { unfold taskRecordMap in Hr'. rewrite (lookup_fold_insert_NoDup task_id (fun x => x)) in Hr' by done.
      naive_solver. }
    intros (r2 & Heq & Hr2)%list_elem_of_fmap. apply ready_in_order_spec in Hr2 as (_ & _ & Hin); [|done].
    apply Hx. congruence.
Qed.

(** ** Reevaluation: the status rule *)

(** The due window has not opened yet. *)
Definition window_closed (now : time) (r : FollowUpTaskRecord) : bool :=
  match dw_NotBefore (gm_DueWindow (ft_Metadata r)) with Some notBefore => After notBefore now | None => false end.

(** The priority of the reasons for which a task can not run. *)
Definition status_rule (approval closed blocked available : bool) : TaskQueueStatus :=
  if approval then TaskQueueStatusWaitingApproval
  else if closed then TaskQueueStatusDeferred
  else if blocked then TaskQueueStatusDependencyBlocked
  else if negb available then TaskQueueStatusQueuedPendingCapability
  else TaskQueueStatusReady.

Lemma evaluate_status record available now :
  (evaluatePreExecutionStatus record available now).1 =
  status_rule (gm_RequiresApproval (ft_Metadata record)) (window_closed now record)
    (negb (bool_decide (ft_Dependencies record = []))) available.
Proof. unfold evaluatePreExecutionStatus, status_rule, window_closed. repeat case_match; done. Qed.

Lemma default_missing_Status record : ft_Status (default_missing_reason record) = ft_Status record.
Proof. unfold default_missing_reason. by case_match. Qed.

(** Some upstream task of [id] is not completed in [records]. *)
Definition blocked_in (graph : TaskGraph) (records : list FollowUpTaskRecord) (id : string) : bool :=
  match dependencyBlockingReasons graph records id with [] => false | _ => true end.

Lemma reevaluate_pending_Status graph records resolver now r :
  let '(_, available, _) := Resolver_Resolve resolver (ft_Task r) in
  ft_Status (reevaluate_pending graph records resolver now r) =
  status_rule (gm_RequiresApproval (ft_Metadata r)) (window_closed now r)
    (negb (bool_decide (ft_Dependencies r = [])) && blocked_in graph records (task_id r)) available.
Proof.
  unfold reevaluate_pending. destruct (Resolver_Resolve resolver (ft_Task r)) as [[cap avail] missing].
  set (r1 := r <| ft_RequiredCapability := cap |> <| ft_MissingCapabilityReason := missing |>).
  pose proof (evaluate_status r1 avail now) as He.
  destruct (evaluatePreExecutionStatus r1 avail now) as [st reasons]. cbn [fst] in He.
  change (gm_RequiresApproval (ft_Metadata r1)) with (gm_RequiresApproval (ft_Metadata r)) in He.
  change (window_closed now r1) with (window_closed now r) in He.
  change (ft_Dependencies r1) with (ft_Dependencies r) in He.
  rewrite default_missing_Status. cbv zeta. unfold blocked_in, status_rule in *.
  change (ts_ID (ft_Task (r1 <| ft_Status := st |> <| ft_BlockingReasons := reasons |>))) with (task_id r).
  destruct (gm_RequiresApproval _); [by subst st|].
  destruct (window_closed now r); [by subst st|].
  destruct (bool_decide (ft_Dependencies r = [])); cbn [negb andb] in *; [by destruct avail; subst st|].
  subst st. rewrite bool_decide_eq_true_2 by done.
  destruct (dependencyBlockingReasons graph records (task_id r)); [|done].
  destruct avail; cbn [negb]; [done|]. by case_match.
Qed.

(** *** What a pass does not touch *)

Record same_identity (r r' : FollowUpTaskRecord) : Prop := {
  si_Task : ft_Task r' = ft_Task r;
  si_Metadata : ft_Metadata r' = ft_Metadata r;
  si_Version : ft_Version r' = ft_Version r;
  si_Dependencies : ft_Dependencies r' = ft_Dependencies r;
  si_Suppressed : ft_SuppressedReasons r' = ft_SuppressedReasons r;
  si_RegisteredAt : ft_RegisteredAt r' = ft_RegisteredAt r;
  si_Order : ft_RegistrationOrder r' = ft_RegistrationOrder r
}.

Global Instance same_identity_preorder : PreOrder same_identity.
Proof. split; [done|]. intros a b c [] []. split; congruence. Qed.

Lemma default_missing_identity r : same_identity r (default_missing_reason r).
Proof. unfold default_missing_reason. by case_match. Qed.

Lemma reevaluate_pending_identity graph records resolver now r :
  same_identity r (reevaluate_pending graph records resolver now r).
Proof.
  unfold reevaluate_pending. destruct (Resolver_Resolve resolver (ft_Task r)) as [[cap avail] missing].
  destruct (evaluatePreExecutionStatus _ avail now) as [st reasons].
  etrans; [|apply default_missing_identity]. cbv zeta. case_match; [|done].
  case_match; [|done]. case_match; [|done]. by case_match.
Qed.

Lemma reevaluate_record_identity graph byTask resolver now records r :
  same_identity r (reevaluate_record graph byTask resolver now records r).
Proof.
  unfold reevaluate_record. cbv zeta. case_match eqn:E.
  - etrans; [|unfold reevaluate_executed; case_match; try done; by instantiate (1 := r)]; done.
  - etrans; [|apply reevaluate_pending_identity]. done.
Qed.

(** *** The pass over the array *)

Section reevaluate.
Variables (graph : TaskGraph) (executions : list TaskExecutionRecord)
  (resolver : TaskCapabilityResolver) (now : time).
Let byTask := executions_by_task executions.

Lemma reevaluate_from_spec done_ todo :
  exists out, reevaluate_from graph byTask resolver now done_ todo = done_ ++ out /\
    length out = length todo /\
    forall i r, todo !! i = Some r ->
      out !! i = Some (reevaluate_record graph byTask resolver now (done_ ++ take i out ++ drop i todo) r).
Proof.
  revert done_. induction todo as [|r todo IH]; intros done_; cbn [reevaluate_from].
  { exists []. rewrite app_nil_r. done. }
  destruct (IH (done_ ++ [reevaluate_record graph byTask resolver now (done_ ++ r :: todo) r]))
    as (out & -> & Hlen & Hout).
  eexists (_ :: out). rewrite <- app_assoc. split; [done|]. split; [cbn; lia|].
  intros [|i] r' Hr'; simpl in *; [by injection Hr' as <-|]. rewrite (Hout i r' Hr').
  by rewrite <- app_assoc.
Qed.

(** What the task at index [i] sees, and becomes. *)
Lemma reevaluate_records_lookup records i r :
  records !! i = Some r ->
  let out := reevaluate_records graph executions resolver now records in
  out !! i = Some (reevaluate_record graph byTask resolver now (take i out ++ drop i records) r).
Proof.
  intros Hr. unfold reevaluate_records. fold byTask.
  destruct (reevaluate_from_spec [] records) as (out & -> & _ & Hout). apply (Hout i r Hr).
Qed.

Lemma reevaluate_records_length records :
  length (reevaluate_records graph executions resolver now records) = length records.
Proof.
  unfold reevaluate_records. fold byTask.
  by destruct (reevaluate_from_spec [] records) as (out & -> & ? & _).
Qed.

Lemma reevaluate_records_inv records i r' :
  reevaluate_records graph executions resolver now records !! i = Some r' ->
  exists r, records !! i = Some r /\
    r' = reevaluate_record graph byTask resolver now
           (take i (reevaluate_records graph executions resolver now records) ++ drop i records) r.
Proof.
  intros Hr'. assert (Hi : (i < length records)%nat).
  { rewrite <- reevaluate_records_length. by eapply lookup_lt_Some. }
  apply lookup_lt_is_Some in Hi as [r Hr]. exists r. split; [done|].
  pose proof (reevaluate_records_lookup records i r Hr) as H. cbn zeta in H. congruence.
Qed.

Lemma reevaluate_ids records :
  task_id <$> reevaluate_records graph executions resolver now records = task_id <$> records.
Proof.
  apply list_eq. intros i. rewrite !list_lookup_fmap.
  destruct (records !! i) as [r|] eqn:Hr.
  - rewrite (reevaluate_records_lookup records i r Hr). simpl. f_equal. unfold task_id.
    by rewrite (si_Task _ _ (reevaluate_record_identity _ _ _ _ _ r)).
  - replace (reevaluate_records graph executions resolver now records !! i) with (@None FollowUpTaskRecord); [done|].
    symmetry. apply lookup_ge_None. rewrite reevaluate_records_length. by apply lookup_ge_None.
Qed.
End reevaluate.

(** ** Well-formed graphs of records *)

Definition executed_status (s : TaskQueueStatus) : Prop :=
  s = TaskQueueStatusCompleted \/ s = TaskQueueStatusFailed \/ s = TaskQueueStatusExecuting \/
  s = TaskQueueStatusWaitingApproval.

Record graph_wf (graph : TaskGraph) (executions : list TaskExecutionRecord)
    (records : list FollowUpTaskRecord) : Prop := {
  gw_nodup : NoDup (task_id <$> records);
  gw_deps : forall r, r ∈ records ->
    ft_Dependencies r = filter (fun d => td_DownstreamTaskID d = task_id r) (tg_Dependencies graph);
  gw_closed : closed_dependencies graph records;
  gw_completed : forall r, r ∈ records -> ft_Status r = TaskQueueStatusCompleted ->
    exists e, executions_by_task executions !! task_id r = Some e /\ te_Status e = TaskQueueStatusCompleted;
  gw_executions : forall e, e ∈ executions -> executed_status (te_Status e)
}.

Lemma executions_by_task_elem executions id e :
  executions_by_task executions !! id = Some e -> e ∈ executions /\ te_TaskID e = id.
Proof.
  unfold executions_by_task. rewrite (lookup_fold_insert te_TaskID (fun e => e)).
  destruct (last _) as [x|] eqn:E; [|by rewrite lookup_empty]. intros [= <-].
  apply last_Some_elem_of, list_elem_of_filter in E as [??]. done.
Qed.

(** A task is blocked unless all its upstream tasks are completed. *)
Lemma not_blocked graph records id :
  NoDup (task_id <$> records) ->
  blocked_in graph records id = false <->
  forall d, d ∈ tg_Dependencies graph -> td_DownstreamTaskID d = id ->
    exists u, u ∈ records /\ task_id u = td_UpstreamTaskID d /\ ft_Status u = TaskQueueStatusCompleted.
Proof.
  intros Hnd. unfold blocked_in, dependencyBlockingReasons. rewrite downstream_lookup, fold_left_skip_append.
  cbn [app]. set (l := filter (fun d => _ = false) _).
  assert (Hst : forall x, (ft_Status <$> taskRecordMap records) !! x = Some TaskQueueStatusCompleted <->
    exists u, u ∈ records /\ task_id u = x /\ ft_Status u = TaskQueueStatusCompleted).
  { intros x. rewrite lookup_fmap, fmap_Some. unfold taskRecordMap.
    setoid_rewrite (lookup_fold_insert_NoDup task_id (fun r => r)); [|done]. naive_solver. }
  transitivity (l = []); [by destruct l|]. split.
  - intros Hl d Hd Hid. apply Hst. destruct (decide ((ft_Status <$> taskRecordMap records) !! td_UpstreamTaskID d
      = Some TaskQueueStatusCompleted)) as [|Hne]; [done|].
    assert (Hin : d ∈ l).
    { apply list_elem_of_filter. split; [by apply bool_decide_eq_false|]. by apply list_elem_of_filter. }
    rewrite Hl in Hin. by apply elem_of_nil in Hin.
  - intros H. destruct l as [|d l'] eqn:E; [done|].
    assert (Hin : d ∈ l) by (rewrite E; left). unfold l in Hin.
    apply list_elem_of_filter in Hin as [Hn [Hid Hd]%list_elem_of_filter].
    apply bool_decide_eq_false in Hn. by destruct Hn; apply Hst, H.
Qed.

Section reevaluate_wf.
Variables (graph : TaskGraph) (executions : list TaskExecutionRecord)
  (resolver : TaskCapabilityResolver) (now : time) (records : list FollowUpTaskRecord).
Hypothesis Hwf : graph_wf graph executions records.
Let out := reevaluate_records graph executions resolver now records.

(** The statuses after the pass: the last execution decides, then the rule. *)
Lemma reevaluated_status i r r' :
  records !! i = Some r -> out !! i = Some r' ->
  match executions_by_task executions !! task_id r with
  | Some e => ft_Status r' = te_Status e
  | None =>
      let '(_, available, _) := Resolver_Resolve resolver (ft_Task r) in
      ft_Status r' = status_rule (gm_RequiresApproval (ft_Metadata r)) (window_closed now r)
        (blocked_in graph (take i out ++ drop i records) (task_id r)) available
  end.
Proof.
  intros Hr Hr'. pose proof (reevaluate_records_lookup graph executions resolver now records i r Hr) as H.
  cbn zeta in H. fold out in H. rewrite H in Hr'. injection Hr' as <-. unfold reevaluate_record. cbv zeta.
  set (r1 := r <| ft_BlockingReasons := [] |> <| ft_LastUpdatedAt := now |>).
  change (ts_ID (ft_Task r1)) with (task_id r).
  destruct (executions_by_task executions !! task_id r) as [e|] eqn:E.
  - apply executions_by_task_elem in E as [He _]. apply (gw_executions _ _ _ Hwf) in He.
    unfold reevaluate_executed. by destruct He as [->|[->|[->| ->]]].
  - pose proof (reevaluate_pending_Status graph (take i out ++ drop i records) resolver now r1) as Hp.
    change (ft_Task r1) with (ft_Task r) in Hp. destruct (Resolver_Resolve resolver (ft_Task r)) as [[cap av] m].
    rewrite Hp. change (ft_Metadata r1) with (ft_Metadata r). change (window_closed now r1) with (window_closed now r).
    change (ft_Dependencies r1) with (ft_Dependencies r). change (task_id r1) with (task_id r).
    f_equal. destruct (bool_decide (ft_Dependencies r = [])) eqn:Ed; cbn [negb andb]; [|done].
    apply bool_decide_eq_true in Ed. symmetry.
    rewrite (gw_deps _ _ _ Hwf r) in Ed by (by eapply list_elem_of_lookup_2).
    unfold blocked_in, dependencyBlockingReasons. by rewrite downstream_lookup, Ed.
Qed.

(** The array that task [i] sees still has the ids of the records. *)
Lemma seen_ids i : task_id <$> (take i out ++ drop i records) = task_id <$> records.
Proof.
  rewrite fmap_app, fmap_take. unfold out. rewrite reevaluate_ids, <- fmap_take, <- fmap_app. by rewrite take_drop.
Qed.

(** Completed is stable: it comes from an execution record. *)
Lemma completed_stable i r r' :
  records !! i = Some r -> out !! i = Some r' -> ft_Status r = TaskQueueStatusCompleted ->
  ft_Status r' = TaskQueueStatusCompleted.
Proof.
  intros Hr Hr' Hs. pose proof (reevaluated_status i r r' Hr Hr') as H.
  destruct (gw_completed _ _ _ Hwf r) as (e & He & Hc); [by eapply list_elem_of_lookup_2|done|].
  rewrite He in H. congruence.
Qed.

Lemma seen_completed i u :
  u ∈ take i out ++ drop i records -> ft_Status u = TaskQueueStatusCompleted ->
  exists u', u' ∈ out /\ task_id u' = task_id u /\ ft_Status u' = TaskQueueStatusCompleted.
Proof.
  intros [Hu|Hu]%elem_of_app Hs.
  - exists u. split; [|done]. eapply elem_of_sublist; [exact Hu|apply sublist_take].
  - apply (elem_of_sublist _ records) in Hu; [|apply sublist_drop].
    apply list_elem_of_lookup in Hu as [j Hj].
    assert (Hlt : (j < length out)%nat).
    { unfold out. rewrite reevaluate_records_length. by eapply lookup_lt_Some. }
    apply lookup_lt_is_Some in Hlt as [u' Hu']. exists u'. split; [by eapply list_elem_of_lookup_2|].
    split; [|by eapply completed_stable].
    apply reevaluate_records_inv in Hu' as (r & Hr & ->). rewrite Hj in Hr. injection Hr as <-.
    unfold task_id. by rewrite (si_Task _ _ (reevaluate_record_identity _ _ _ _ _ u)).
Qed.

Lemma completed_seen i u :
  u ∈ records -> ft_Status u = TaskQueueStatusCompleted ->
  exists u', u' ∈ take i out ++ drop i records /\ task_id u' = task_id u /\
    ft_Status u' = TaskQueueStatusCompleted.
Proof.
  intros [j Hj]%list_elem_of_lookup Hs. destruct (decide (j < i)%nat) as [Hlt|Hge].
  - assert (Hl : (j < length out)%nat).
    { unfold out. rewrite reevaluate_records_length. by eapply lookup_lt_Some. }
    apply lookup_lt_is_Some in Hl as [u' Hu']. exists u'. split_and!.
    + apply elem_of_app. left. apply list_elem_of_lookup. exists j. by rewrite lookup_take_lt.
    + pose proof Hu' as H. apply reevaluate_records_inv in H as (r & Hr & ->). rewrite Hj in Hr. injection Hr as <-.
      unfold task_id. by rewrite (si_Task _ _ (reevaluate_record_identity _ _ _ _ _ u)).
    + by eapply completed_stable.
  - exists u. split; [|done]. apply elem_of_app. right. apply list_elem_of_lookup. exists (j - i)%nat.
    rewrite lookup_drop. by replace (i + (j - i))%nat with j by lia.
Qed.

Lemma reevaluate_wf : graph_wf graph executions out.
Proof.
  destruct Hwf as [Hnd Hd Hc Hcomp He]. unfold out. split.
  - by rewrite reevaluate_ids.
  - intros r' [i Hi]%list_elem_of_lookup. apply reevaluate_records_inv in Hi as (r & Hr & ->).
    pose proof (reevaluate_record_identity graph (executions_by_task executions) resolver now
      (take i (reevaluate_records graph executions resolver now records) ++ drop i records) r) as Hid.
    unfold task_id. rewrite (si_Dependencies _ _ Hid), (si_Task _ _ Hid). apply Hd. by eapply list_elem_of_lookup_2.
  - intros d Hd'. rewrite reevaluate_ids. by apply Hc.
  - intros r' [i Hi]%list_elem_of_lookup Hs. pose proof Hi as Hi'.
    apply reevaluate_records_inv in Hi' as (r & Hr & Heq).
    assert (Hid : task_id r' = task_id r).
    { rewrite Heq. unfold task_id. by rewrite (si_Task _ _ (reevaluate_record_identity _ _ _ _ _ r)). }
    rewrite Hid. pose proof (reevaluated_status i r r' Hr Hi) as Hst.
    destruct (executions_by_task executions !! task_id r) as [e|]; [exists e; split; congruence|].
    destruct (Resolver_Resolve resolver (ft_Task r)) as [[cap av] m]. rewrite Hst in Hs.
    unfold status_rule in Hs. by repeat case_match.
  - done.
Qed.
End reevaluate_wf.

(** ** Registration *)

Lemma initial_record_fields depsByTask resolver now index g :
  let r := initial_record depsByTask resolver now index g in
  ft_Task r = gt_Task g /\ ft_Metadata r = gt_Metadata g /\ ft_Version r = 1 /\
  ft_Dependencies r = default [] (depsByTask !! ts_ID (gt_Task g)) /\
  ft_RegistrationOrder r = Z.of_nat index /\ ft_RegisteredAt r = now /\
  ft_Status r <> TaskQueueStatusCompleted.
Proof.
  unfold initial_record. destruct (Resolver_Resolve resolver (gt_Task g)) as [[cap avail] missing].
  set (r0 := zero <| ft_Task := gt_Task g |> <| ft_Metadata := gt_Metadata g |> <| ft_Version := 1 |>
    <| ft_RequiredCapability := cap |> <| ft_MissingCapabilityReason := missing |>
    <| ft_Dependencies := default [] (depsByTask !! ts_ID (gt_Task g)) |> <| ft_RegisteredAt := now |>
    <| ft_RegistrationOrder := Z.of_nat index |> <| ft_LastUpdatedAt := now |>).
  pose proof (evaluate_status r0 avail now) as He.
  destruct (evaluatePreExecutionStatus r0 avail now) as [st reasons]. cbn [fst] in He.
  rewrite default_missing_Status. set (r1 := r0 <| ft_Status := st |> <| ft_BlockingReasons := reasons |>).
  pose proof (default_missing_identity r1) as [Ht Hm Hv Hd Hs Hr Ho].
  rewrite Ht, Hm, Hv, Hd, Ho, Hr. split_and!; try reflexivity.
  change (st <> TaskQueueStatusCompleted). rewrite He. unfold status_rule. by repeat case_match.
Qed.

Lemma initial_records_spec depsByTask resolver now index tasks records :
  initial_records depsByTask resolver now index tasks = inr records ->
  records = imap (fun i g => initial_record depsByTask resolver now (index + i) g) tasks /\
  forall r, r ∈ records -> FollowUpTaskRecord_Validate r = None.
Proof.
  revert index records. induction tasks as [|g tasks IH]; intros index records; cbn [initial_records].
  { intros [= <-]. split; [done|]. by intros r ?%elem_of_nil. }
  destruct (FollowUpTaskRecord_Validate _) eqn:Ev; [done|].
  destruct (initial_records depsByTask resolver now (S index) tasks) as [e|rs] eqn:E; [done|].
  intros [= <-]. apply IH in E as [-> Hv]. split.
  - cbn [imap]. rewrite Nat.add_0_r. f_equal. apply imap_ext. intros i x _. cbn. by rewrite Nat.add_succ_r.
  - intros r [->|Hr]%elem_of_cons; [done|auto].
Qed.

Lemma registered_wf graph resolver now records :
  TaskGraph_ok graph -> initialFollowUpTaskRecords graph resolver now = inr records ->
  ft_Task <$> records = gt_Task <$> tg_GeneratedTasks graph /\ graph_wf graph [] records.
Proof.
  intros Hok Hr. apply initial_records_spec in Hr as [Hrec _]. cbn [Nat.add] in Hrec.
  assert (Htasks : ft_Task <$> records = gt_Task <$> tg_GeneratedTasks graph).
  { rewrite Hrec. rewrite fmap_imap. transitivity (imap (fun _ g => gt_Task g) (tg_GeneratedTasks graph)).
    - apply imap_ext. intros i g _. apply initial_record_fields.
    - apply imap_const. }
  assert (Hids : task_id <$> records = task_ids graph).
  { unfold task_id, task_ids. rewrite (list_fmap_compose ft_Task ts_ID), Htasks, <- list_fmap_compose. done. }
  split; [done|]. split.
  - rewrite Hids. apply Hok.
  - intros r. rewrite Hrec. intros [i Hi]%list_elem_of_lookup.
    rewrite list_lookup_imap in Hi. destruct (tg_GeneratedTasks graph !! i) as [g|]; [|done].
    cbn in Hi. injection Hi as <-. unfold task_id.
    pose proof (initial_record_fields (downstreamDependencies (tg_Dependencies graph)) (resolver_or_default resolver)
      now i g) as (Ht & _ & _ & Hd & _). cbn zeta in *. rewrite Ht, Hd. apply downstream_lookup.
  - intros d Hd. rewrite Hids. apply (tgok_deps _ Hok) in Hd as []. done.
  - intros r. rewrite Hrec. intros [i Hi]%list_elem_of_lookup Hs.
    rewrite list_lookup_imap in Hi. destruct (tg_GeneratedTasks graph !! i) as [g|]; [|done].
    cbn in Hi. injection Hi as <-. by apply initial_record_fields in Hs.
  - intros e He. by apply elem_of_nil in He.
Qed.

(** ** Claims about registration and reevaluation *)

(** A successful [RegisterFollowUpTaskGraph] was given a well-formed
    task graph; it allocates one array, whose records are the generated tasks
    in order, numbered from 0, each depending on exactly the graph's
    dependencies into it, none already completed; it changes nothing else.
    A graph that does not validate is refused without any effect. *)
Theorem RegisterFollowUpTaskGraph_spec (graph : TaskGraph) (resolver : option TaskCapabilityResolver)
    (now : time) (w : World) :
  match RegisterFollowUpTaskGraph graph resolver now w with
  | (w', Ok result) =>
      TaskGraph_ok graph /\ fr_Graph result = graph /\
      exists records,
        w' = w <| w_arrays := <[w_next w := records]> (w_arrays w) |> <| w_next := S (w_next w) |> /\
        array_at w' (fr_RegisteredTasks result) = records /\
        ft_Task <$> records = gt_Task <$> tg_GeneratedTasks graph /\
        ft_RegistrationOrder <$> records = Z.of_nat <$> seq 0 (length records) /\
        graph_wf graph [] records
  | (w', o) => w' = w /\ exists e, o = Err e
  end.
Proof.
  unfold RegisterFollowUpTaskGraph, lift_err, lift_sum, new_array.
  destruct (TaskGraph_Validate graph) as [e|] eqn:Ev; [by run_simpl; eauto|].
  apply TaskGraph_Validate_spec in Ev. run_simpl.
  destruct (initialFollowUpTaskRecords graph resolver now) as [e|records] eqn:E; [by run_simpl; eauto|].
  run_simpl. destruct (deriveSpawnedAndDeferred records now) as [spawned deferred]. run_simpl.
  split; [done|]. split; [done|]. exists records. split; [done|]. cbn [fr_RegisteredTasks].
  destruct (registered_wf graph resolver now records Ev E) as [Ht Hwf].
  split; [|split; [done|split; [|done]]].
  - unfold array_at. rsimpl. by rewrite lookup_insert_eq.
  - apply initial_records_spec in E as [-> _]. rewrite fmap_imap, length_imap.
    apply list_eq. intros i. rewrite list_lookup_imap, list_lookup_fmap. cbn [Nat.add].
    destruct (tg_GeneratedTasks graph !! i) as [g|] eqn:Hg.
    + rewrite lookup_seq_lt by (by eapply lookup_lt_Some). cbn. f_equal. apply initial_record_fields.
    + rewrite lookup_seq_ge by (by apply lookup_ge_None). done.
Qed.

(** What a task becomes in a reevaluation.  It is ready after the pass
    only if it has no execution record, needs no approval, its due window is
    open, its capability is available and all its upstream tasks are
    completed; and a task of which all this holds before the pass is ready
    after it.  A task with an execution record takes that record's status. *)
Theorem reevaluated_task_status (graph : TaskGraph) (executions : list TaskExecutionRecord)
    (resolver : TaskCapabilityResolver) (now : time) (records : list FollowUpTaskRecord)
    (i : nat) (r r' : FollowUpTaskRecord) :
  graph_wf graph executions records ->
  records !! i = Some r ->
  reevaluate_records graph executions resolver now records !! i = Some r' ->
  let out := reevaluate_records graph executions resolver now records in
  let available := (Resolver_Resolve resolver (ft_Task r)).1.2 in
  let upstream_completed rs := forall d, d ∈ tg_Dependencies graph -> td_DownstreamTaskID d = task_id r ->
    exists u, u ∈ rs /\ task_id u = td_UpstreamTaskID d /\ ft_Status u = TaskQueueStatusCompleted in
  let runnable rs := executions_by_task executions !! task_id r = None /\
    gm_RequiresApproval (ft_Metadata r) = false /\ window_closed now r = false /\
    available = true /\ upstream_completed rs in
  (ft_Status r' = TaskQueueStatusReady -> runnable out) /\
  (runnable records -> ft_Status r' = TaskQueueStatusReady) /\
  (forall e, executions_by_task executions !! task_id r = Some e -> ft_Status r' = te_Status e).
Proof.
  intros Hwf Hr Hr' out available upstream_completed runnable.
  pose proof (reevaluated_status graph executions resolver now records Hwf i r r' Hr Hr') as Hst.
  fold out in Hst.
  assert (Hnd : NoDup (task_id <$> (take i out ++ drop i records))).
  { unfold out. rewrite seen_ids. apply Hwf. }
  unfold runnable, available. split_and!.
  - intros Hready. destruct (executions_by_task executions !! task_id r) as [e|] eqn:E.
    { apply executions_by_task_elem in E as [He _]. apply (gw_executions _ _ _ Hwf) in He.
      rewrite Hst in Hready. destruct He as [He|[He|[He|He]]]; congruence. }
    destruct (Resolver_Resolve resolver (ft_Task r)) as [[cap av] m]. cbn [fst snd].
    rewrite Hst in Hready. unfold status_rule in Hready.
    destruct (gm_RequiresApproval _); [done|]. destruct (window_closed now r); [done|].
    destruct (blocked_in _ _ _) eqn:Hb; [done|]. destruct av; [|done]. split_and!; try done.
    intros d Hd Hid. rewrite not_blocked in Hb by done. destruct (Hb d Hd Hid) as (u & Hu & Hui & Hus).
    destruct (seen_completed graph executions resolver now records Hwf i u Hu Hus) as (u' & ? & ? & ?).
    exists u'. split_and!; [done|congruence|done].
  - intros (He & Ha & Hw & Hav & Hup). rewrite He in Hst.
    destruct (Resolver_Resolve resolver (ft_Task r)) as [[cap av] m]. cbn [fst snd] in Hav. subst av.
    rewrite Hst, Ha, Hw. unfold status_rule.
    rewrite (proj2 (not_blocked graph (take i out ++ drop i records) (task_id r) Hnd)); [done|].
    intros d Hd Hid. destruct (Hup d Hd Hid) as (u & Hu & Hui & Hus).
    destruct (completed_seen graph executions resolver now records Hwf i u Hu Hus) as (u' & ? & ? & ?).
    exists u'. split_and!; [done|congruence|done].
  - intros e He. by rewrite He in Hst.
Qed.

(** [ReevaluateFollowUpTaskGraph] refuses an invalid graph without any
    effect.  On a valid one it rewrites the records in the array that the
    snapshot (and every copy of it, the store's included) points to, and
    nothing else in the world: it keeps the number of records and each
    record's task, metadata, version, dependencies and registration, keeps
    the graph well formed, and returns the snapshot with only [Spawned] and
    [Deferred] replaced and the ids of the ready tasks. *)
Theorem ReevaluateFollowUpTaskGraph_spec (snapshot : TaskGraphSnapshot)
    (resolver : option TaskCapabilityResolver) (now : time) (w : World) :
  let records := array_at w (gs_RegisteredTasks snapshot) in
  match ReevaluateFollowUpTaskGraph snapshot resolver now w with
  | (w', Ok (updated, activation)) =>
      TaskGraph_ok (gs_Graph snapshot) /\
      exists out,
        w' = w <| w_arrays := <[gs_RegisteredTasks snapshot := out]> (w_arrays w) |> /\
        out = reevaluate_records (gs_Graph snapshot) (gs_ExecutedTasks snapshot)
                (resolver_or_default resolver) now records /\
        Forall2 same_identity records out /\
        (graph_wf (gs_Graph snapshot) (gs_ExecutedTasks snapshot) records ->
         graph_wf (gs_Graph snapshot) (gs_ExecutedTasks snapshot) out) /\
        (exists spawned deferred, updated = snapshot <| gs_Spawned := spawned |> <| gs_Deferred := deferred |>) /\
        ta_RegisteredTasks activation = out /\
        (forall id, id ∈ ta_ReadyTaskIDs activation <->
           exists r, r ∈ out /\ task_id r = id /\ ft_Status r = TaskQueueStatusReady)
  | (w', o) => w' = w /\ exists e, o = Err e
  end.
Proof.
  intros records. unfold ReevaluateFollowUpTaskGraph, lift_err, read_array, write_array.
  destruct (TaskGraph_Validate (gs_Graph snapshot)) as [e|] eqn:Ev; [by run_simpl; eauto|].
  apply TaskGraph_Validate_spec in Ev. run_simpl. fold records.
  set (out := reevaluate_records _ _ _ _ _).
  destruct (deriveSpawnedAndDeferred out now) as [spawned deferred]. run_simpl.
  split; [done|]. exists out. split_and!; try done.
  - apply Forall2_same_length_lookup_2; [symmetry; apply reevaluate_records_length|].
    intros i r r' Hr Hr'. apply reevaluate_records_inv in Hr' as (r2 & Hr2 & ->).
    rewrite Hr in Hr2. injection Hr2 as <-. apply reevaluate_record_identity.
  - intros Hwf. by apply reevaluate_wf.
  - by eexists _, _.
  - intros id. cbn [ta_ReadyTaskIDs]. unfold ready_task_ids. rewrite list_elem_of_fmap.
    setoid_rewrite list_elem_of_filter. unfold task_id. naive_solver.
Qed.

(** ** A concrete graph *)

Definition sample_spec (id : string) (intent : UserIntentType) : TaskSpec :=
  zero <| ts_ID := id |> <| ts_Goal := "goal" |> <| ts_RiskLevel := RiskLevelLow |>
       <| ts_SuccessCriteria := [{| su_ID := "c"; su_Description := "d" |}] |>
       <| ts_ApprovalRequirement := ApprovalRequirementNone |> <| ts_UserIntentType := intent |>.

Definition sample_generated (id : string) (intent : UserIntentType) : GeneratedTaskSpec :=
  {| gt_Task := sample_spec id intent;
     gt_Metadata := zero <| gm_GeneratedAt := 1 |> <| gm_ParentWorkflowID := "wf" |>
       <| gm_ParentTaskID := "parent" |> <| gm_TriggerSource := TaskTriggerSourceLifeEvent |>
       <| gm_Priority := TaskPriorityHigh |> |}.

(** Task b depends on task a. *)
Definition sample_graph : TaskGraph :=
  zero <| tg_GraphID := "g" |> <| tg_ParentWorkflowID := "wf" |> <| tg_ParentTaskID := "parent" |>
       <| tg_TriggerSource := TaskTriggerSourceLifeEvent |> <| tg_GeneratedAt := 1 |>
       <| tg_GeneratedTasks := [sample_generated "a" UserIntentTaxOptimization;
                                sample_generated "b" UserIntentPortfolioRebalance] |>
       <| tg_Dependencies := [{| td_UpstreamTaskID := "a"; td_DownstreamTaskID := "b";
                                 td_Reason := "after"; td_Mandatory := true |}] |>.

(** A resolver that knows both intents. *)
Definition sample_resolver : TaskCapabilityResolver :=
  static_resolver {| sr_Capabilities := <[UserIntentTaxOptimization := "tax"]>
                       (<[UserIntentPortfolioRebalance := "portfolio"]> ∅); sr_Workflows := ∅ |}.

Definition sample_records : list FollowUpTaskRecord :=
  match initialFollowUpTaskRecords sample_graph (Some sample_resolver) 5 with inr l => l | inl _ => [] end.

Lemma sample_graph_ok : TaskGraph_ok sample_graph.
Proof. apply TaskGraph_Validate_spec. vm_compute. reflexivity. Qed.

Lemma sample_records_eq : initialFollowUpTaskRecords sample_graph (Some sample_resolver) 5 = inr sample_records.
Proof.
  assert (H : match initialFollowUpTaskRecords sample_graph (Some sample_resolver) 5 with inr _ => true | _ => false end = true)
    by (vm_compute; reflexivity).
  unfold sample_records. by destruct (initialFollowUpTaskRecords _ _ _).
Qed.

Lemma sample_records_wf : graph_wf sample_graph [] sample_records.
Proof. apply (registered_wf _ _ _ _ sample_graph_ok sample_records_eq). Qed.

Lemma sample_statuses : ft_Status <$> sample_records = [TaskQueueStatusReady; TaskQueueStatusDependencyBlocked].
Proof. vm_compute. reflexivity. Qed.

Lemma ready_tasks_complete_witness :
  acyclic sample_graph /\
  NoDup (task_id <$> @ReadyTasksInExecutionOrder canonical_order sample_graph sample_records).
Proof.
  assert (Ha : acyclic sample_graph).
  { exists (fun id => if decide (id = "a") then 0%nat else 1%nat). intros d Hd.
    apply list_elem_of_singleton in Hd as ->. vm_compute. lia. }
  split; [exact Ha|].
  exact (proj2 (ready_tasks_complete (MO:=canonical_order) sample_graph sample_records
    (gw_nodup _ _ _ sample_records_wf) (gw_closed _ _ _ sample_records_wf) Ha)).
Defined.

Lemma reevaluated_task_status_witness :
  graph_wf sample_graph [] sample_records /\
  exists r', reevaluate_records sample_graph [] sample_resolver 6 sample_records !! 0%nat = Some r' /\
    ft_Status r' = TaskQueueStatusReady.
Proof.
  split; [exact sample_records_wf|].
  destruct (sample_records !! 0%nat) as [r|] eqn:Hr; [|vm_compute in Hr; discriminate].
  pose proof (reevaluate_records_lookup sample_graph [] sample_resolver 6 sample_records 0 r Hr) as Hr'.
  eexists. split; [exact Hr'|].
  refine (proj1 (proj2 (reevaluated_task_status sample_graph [] sample_resolver 6 sample_records 0 r _
    sample_records_wf Hr Hr')) _).
  clear Hr'. vm_compute in Hr. injection Hr as <-.
  split; [vm_compute; reflexivity|]. split; [vm_compute; reflexivity|].
  split; [vm_compute; reflexivity|]. split; [vm_compute; reflexivity|].
  intros d Hd Hid. exfalso. apply list_elem_of_singleton in Hd as ->. vm_compute in Hid. discriminate.
Defined.
