(* ===== verification/SqlStoresThm.v ===== *)
(** * Properties of the stores in the databases, task graphs included *)

From S2P Require Import SqlQueue.
From S2P Require Export SqlStoresPg Stores TaskGraphThm.
#[local] Open Scope Z_scope.

(** * Properties of the stores in the databases

    The execution and approval stores as versioned stores ([CasStore]): which
    of them refuse a lost update.  The execution stores refine one another:
    the same calls succeed in memory, in SQLite and in Postgres, and load the
    same records.  What a task graph keeps on its way through each database. *)

(** ** Statements *)

Section statements.
Context {K row : Type} `{HK : Countable K}.
Implicit Types t : gmap K row.

Lemma update_where_run key (cond : row -> bool) set t :
  update_where key cond set t =
    match t !! key with
    | Some r => if cond r then (<[key := set r]> t, Ok true) else (t, Ok false)
    | None => (t, Ok false)
    end.
Proof. unfold update_where. run_simpl. destruct (t !! key) as [r|]; [|done]. by destruct (cond r). Qed.

Lemma insert_new_run key (r : row) t :
  insert_new key r t = match t !! key with Some _ => (t, Ok false) | None => (<[key := r]> t, Ok true) end.
Proof. unfold insert_new. run_simpl. by destruct (t !! key). Qed.

Lemma select_key_run key t : select_key key t = (t, Ok (t !! key)).
Proof. done. Qed.

End statements.

(** [RowsAffected() == 0] after [UPDATE ... WHERE key = ? AND version = ?]. *)
Lemma update_or_conflict_run {row} (version : row -> Z) key (set : row -> row) v (e : error) (t : gmap string row) :
  (affected ← update_where key (fun r => version r =? v) set;
   if affected : bool then mret tt else fail e) t =
    match t !! key with
    | Some r => if version r =? v then (<[key := set r]> t, Ok tt) else (t, Err e)
    | None => (t, Err e)
    end.
Proof.
  unfold mbind, ST_bind. rewrite update_where_run. destruct (t !! key) as [r|]; [|done].
  by destruct (version r =? v).
Qed.

(** [INSERT] that reports a violated key. *)
Lemma insert_or_fail_run {row} key (r : row) (e : error) (t : gmap string row) :
  (inserted ← insert_new key r; if inserted : bool then mret tt else fail e) t =
    match t !! key with Some _ => (t, Err e) | None => (<[key := r]> t, Ok tt) end.
Proof. unfold mbind, ST_bind. rewrite insert_new_run. by destruct (t !! key). Qed.

(** ** Versioned stores in the databases *)

Lemma default_version_id r : te_ExecutionID (if te_Version r == 0 then r <| te_Version := 1 |> else r) = te_ExecutionID r.
Proof. by case_bool_decide. Qed.

Lemma default_version_approval r :
  as_ApprovalID (if as_Version r == 0 then r <| as_Version := 1 |> else r) = as_ApprovalID r.
Proof. by case_bool_decide. Qed.

(** The obligations of a store whose [Save] and [Update] are these statements. *)
Section versioned_table.
Context {row : Type} (version : row -> Z).
Implicit Types t : gmap string row.

Lemma insert_or_fail_spec key (r : row) (e : error) t :
  let m := (inserted ← insert_new key r; if inserted : bool then mret tt else fail e) in
  (exists e, m t = (t, Err e)) \/ (t !! key = None /\ exists r, m t = (<[key := r]> t, Ok tt)).
Proof. cbv zeta. rewrite insert_or_fail_run. destruct (t !! key); [left|right]; eauto. Qed.

Lemma update_or_conflict_spec key (set : row -> row) v (e : error) t :
  (forall r, version (set r) = wrap64 (v + 1)) ->
  let m := (affected ← update_where key (fun r => version r =? v) set;
            if affected : bool then mret tt else fail e) in
  (exists e, m t = (t, Err e)) \/
  (exists r r', t !! key = Some r /\ m t = (<[key := r']> t, Ok tt) /\ version r' = wrap64 (version r + 1)).
Proof.
  intros Hset. cbv zeta. rewrite update_or_conflict_run. destruct (t !! key) as [r|]; [|eauto].
  destruct (Z.eqb_spec (version r) v) as [<-|]; [|eauto]. right. exists r, (set r). by rewrite Hset.
Qed.

Lemma update_or_conflict_stale key (set : row -> row) v (e : error) t r :
  IsConflict e = true -> t !! key = Some r -> version r <> v ->
  let m := (affected ← update_where key (fun r => version r =? v) set;
            if affected : bool then mret tt else fail e) in
  exists e, m t = (t, Err e) /\ IsConflict e = true.
Proof.
  intros He Hr Hne. cbv zeta. rewrite update_or_conflict_run, Hr, (proj2 (Z.eqb_neq _ _) Hne). eauto.
Qed.
End versioned_table.

#[export, refine] Instance lite_executions_cas `{SD : SqlDriver} :
    CasStore TaskExecutionRecord Sqlite.task_executions_row := {
  cas_id := te_ExecutionID;
  cas_version := Sqlite.te_version;
  cas_save := Lite.Executions_Save;
  cas_update := Lite.Executions_Update
}.
Proof.
  - intros r s. unfold Lite.Executions_Save. destruct (_ == ""); [left; eauto|]. cbv zeta.
    rewrite default_version_id. apply insert_or_fail_spec.
  - intros r v s. by apply (update_or_conflict_spec Sqlite.te_version).
  - intros r v s row E _ Hne. by apply (update_or_conflict_stale Sqlite.te_version) with row.
Defined.

#[export, refine] Instance lite_approvals_cas `{SD : SqlDriver} :
    CasStore ApprovalStateRecord Sqlite.approvals_row := {
  cas_id := as_ApprovalID;
  cas_version := Sqlite.ap_version;
  cas_save := Lite.Approvals_Save;
  cas_update := Lite.Approvals_Update
}.
Proof.
  - intros r s. unfold Lite.Approvals_Save. cbv zeta. rewrite default_version_approval. apply insert_or_fail_spec.
  - intros r v s. by apply (update_or_conflict_spec Sqlite.ap_version).
  - intros r v s row E _ Hne. by apply (update_or_conflict_stale Sqlite.ap_version) with row.
Defined.

#[export, refine] Instance pg_executions_cas `{SD : SqlDriver} :
    CasStore TaskExecutionRecord Postgres.task_executions_row := {
  cas_id := te_ExecutionID;
  cas_version := Postgres.te_version;
  cas_save := Pg.Executions_Save;
  cas_update := Pg.Executions_Update
}.
Proof.
  - intros r s. apply insert_or_fail_spec.
  - intros r v s. by apply (update_or_conflict_spec Postgres.te_version).
  - intros r v s row E _ Hne. by apply (update_or_conflict_stale Postgres.te_version) with row.
Defined.

(** *** No lost updates *)

(** [save] and [update] run one after another, in any order. *)
Definition run_writes {R Row} (save : R -> ST error (gmap string Row) unit)
    (update : R -> Z -> ST error (gmap string Row) unit) (ops : list (cas_op R)) (s : gmap string Row) : gmap string Row :=
  fold_left (fun s o => match o with CasSave r => (save r s).1 | CasUpdate r v => (update r v s).1 end) ops s.

(** Of two writers that read a record at the same version, the second is
    refused and changes nothing, whatever writes come between. *)
Definition rejects_lost_updates {R Row} (id : R -> string) (save : R -> ST error (gmap string Row) unit)
    (update : R -> Z -> ST error (gmap string Row) unit) : Prop :=
  forall (r1 r2 : R) (v : Z) (s s1 : gmap string Row) (ops : list (cas_op R)),
  0 < v -> v + 1 + Z.of_nat (length ops) < two63 -> id r1 = id r2 ->
  update r1 v s = (s1, Ok tt) ->
  let s2 := run_writes save update ops s1 in
  exists e, update r2 v s2 = (s2, Err e) /\ IsConflict e = true.

Lemma cas_rejects_lost_updates {R Row} (CS : CasStore R Row) : rejects_lost_updates cas_id cas_save cas_update.
Proof. intros r1 r2 v s s1 ops H1 H2 H3 H4. by apply (lost_update_rejected r1 r2 v s s1 ops). Qed.

(** C21: two writers that read the same version of an execution record cannot
    both write it, in any of the three databases, and the same holds of the
    approvals in memory and in SQLite: the later update is refused with a
    conflict and writes nothing, whatever saves and updates come between.
    Postgres' approval store gives no such guarantee: its [Save] replaces a
    stored approval, so that the approval can be resolved a second time. *)
Theorem lost_updates_rejected `{SD : SqlDriver} :
  rejects_lost_updates te_ExecutionID Executions.Save Executions.Update /\
  rejects_lost_updates te_ExecutionID Lite.Executions_Save Lite.Executions_Update /\
  rejects_lost_updates te_ExecutionID Pg.Executions_Save Pg.Executions_Update /\
  rejects_lost_updates as_ApprovalID Approvals.Save Approvals.Update /\
  rejects_lost_updates as_ApprovalID Lite.Approvals_Save Lite.Approvals_Update /\
  ~ rejects_lost_updates as_ApprovalID Pg.Approvals_Save Pg.Approvals_Update.
Proof.
  split_and!; [apply (cas_rejects_lost_updates executions_cas)|apply (cas_rejects_lost_updates lite_executions_cas)|
    apply (cas_rejects_lost_updates pg_executions_cas)|apply (cas_rejects_lost_updates approvals_cas)|
    apply (cas_rejects_lost_updates lite_approvals_cas)|].
  intros H. pose (pending := sample_approval ApprovalStatusPending).
  destruct (H (sample_approval ApprovalStatusApproved) (sample_approval ApprovalStatusDenied) 1
    (Pg.Approvals_Save pending ∅).1 _ [CasSave pending] ltac:(lia) ltac:(by vm_compute) eq_refl eq_refl)
    as (e & He & _).
  apply (f_equal snd) in He. vm_compute in He. discriminate.
Qed.

(** A driver with the messages of the libraries the module requires. *)
Lemma sample_sqlite_text column :
  Contains ("constraint failed: UNIQUE constraint failed: " +:+ column) "constraint failed" = true.
Proof. reflexivity. Qed.

Lemma Contains_app_l a s sub : Contains s sub = true -> Contains (a +:+ s) sub = true.
Proof.
  intros H. induction a as [|c a IH]; [done|]. rewrite string_app_cons. cbn [Contains]. rewrite IH. apply orb_true_r.
Qed.

Lemma HasPrefix_app s t : HasPrefix (s +:+ t) s = true.
Proof.
  induction s as [|c s IH]; [by destruct t|]. rewrite string_app_cons. cbn.
  by destruct (Ascii.ascii_dec c c).
Qed.

Lemma sample_postgres_text name :
  Contains ("ERROR: duplicate key value violates unique constraint " +:+ name) name = true.
Proof.
  apply Contains_app_l. destruct name as [|c name]; [done|]. cbn [Contains].
  rewrite <- (string_app_nil (String c name)) at 1. by rewrite HasPrefix_app.
Qed.

Definition sample_driver : SqlDriver := {|
  sqlite_unique_failed column := "constraint failed: UNIQUE constraint failed: " +:+ column;
  pg_unique_violated name := "ERROR: duplicate key value violates unique constraint " +:+ name;
  sqlite_unique_text := sample_sqlite_text;
  pg_unique_text := sample_postgres_text
|}.

(** An execution that was completed at version 1 is not reclaimed at version
    1, though a save and another update were tried in between. *)
Lemma lost_updates_rejected_witness :
  let stored := (Lite.Executions_Save (SD := sample_driver) (sample_execution TaskQueueStatusExecuting) ∅).1 in
  let s1 := (Lite.Executions_Update (sample_execution TaskQueueStatusCompleted) 1 stored).1 in
  let s2 := run_writes (Lite.Executions_Save (SD := sample_driver)) Lite.Executions_Update
              [CasSave (sample_execution TaskQueueStatusExecuting);
               CasUpdate (sample_execution TaskQueueStatusFailed) 2] s1 in
  exists e, Lite.Executions_Update (sample_execution TaskQueueStatusExecuting) 1 s2 = (s2, Err e) /\ IsConflict e = true.
Proof.
  intros stored s1 s2. destruct (lost_updates_rejected (SD := sample_driver)) as (_ & H & _).
  apply (H (sample_execution TaskQueueStatusCompleted) (sample_execution TaskQueueStatusExecuting) 1 stored);
    [lia|reflexivity|reflexivity|]. vm_compute. reflexivity.
Defined.

(** ** Reading *)

Lemma scan_rows_fmap_run {K row T A X} (scan : K * row -> ST error T A) (entry : X -> K * row) (f : X -> A) l t :
  (forall x, x ∈ l -> scan (entry x) t = (t, Ok (f x))) -> scan_rows scan (entry <$> l) t = (t, Ok (f <$> l)).
Proof.
  unfold scan_rows. change (f <$> l) with ([] ++ (f <$> l)). generalize (@nil A) at 2 3 as acc.
  induction l as [|x l IH]; intros acc H; [by rewrite app_nil_r|]. cbn [fmap list_fmap].
  rewrite run_for_fold_cons. erewrite run_bind_Ok by (erewrite run_bind_Ok by (apply H; left); reflexivity).
  rewrite IH by (intros; apply H; by right). by rewrite <- app_assoc.
Qed.

Lemma scan_rows_run {K row T A} (scan : K * row -> ST error T A) (f : K * row -> A) rows t :
  (forall entry, entry ∈ rows -> scan entry t = (t, Ok (f entry))) -> scan_rows scan rows t = (t, Ok (f <$> rows)).
Proof. intros H. rewrite <- (list_fmap_id rows) at 1. by apply scan_rows_fmap_run. Qed.

Lemma list_filter_fmap {A B} (f : A -> B) (P : B -> Prop) `{forall x, Decision (P x)} (l : list A) :
  filter P (f <$> l) = f <$> filter (fun x => P (f x)) l.
Proof.
  induction l as [|x l IH]; [done|]. cbn [fmap list_fmap]. rewrite !filter_cons.
  destruct (decide (P (f x))); cbn [fmap list_fmap]; by rewrite IH.
Qed.

Lemma map_range_fmap `{MO : MapOrder} {K A B} `{Countable K} (f : A -> B) (m : gmap K A) :
  map_range (f <$> m) ≡ₚ prod_map id f <$> map_range m.
Proof. by rewrite !map_range_perm, map_to_list_fmap. Qed.

(** ** The execution stores *)

(** A call that writes: whether it succeeded, and the table after it. *)
Definition write {R Row} (save : R -> ST error (gmap string Row) unit)
    (update : R -> Z -> ST error (gmap string Row) unit) (o : cas_op R) (s : gmap string Row) : bool * gmap string Row :=
  let '(s', o) := match o with CasSave r => save r s | CasUpdate r v => update r v s end in
  (match o with Ok _ => true | _ => false end, s').

Fixpoint writes {R Row} (save : R -> ST error (gmap string Row) unit)
    (update : R -> Z -> ST error (gmap string Row) unit) (ops : list (cas_op R)) (s : gmap string Row) :
    list bool * gmap string Row :=
  match ops with
  | [] => ([], s)
  | o :: ops =>
      let '(ok, s) := write save update o s in
      let '(oks, s) := writes save update ops s in (ok :: oks, s)
  end.

(** An update that names the version it read, as the callers' all do. *)
Definition versioned (o : cas_op TaskExecutionRecord) : Prop :=
  match o with CasSave _ => True | CasUpdate _ v => 0 < v end.

(** A new record that has an id and a version. *)
Definition complete (o : cas_op TaskExecutionRecord) : Prop :=
  match o with CasSave r => te_ExecutionID r <> "" /\ te_Version r <> 0 | CasUpdate _ v => 0 < v end.

Section simulation.
Context {Row : Type} (save : TaskExecutionRecord -> ST error (gmap string Row) unit)
  (update : TaskExecutionRecord -> Z -> ST error (gmap string Row) unit)
  (admissible : cas_op TaskExecutionRecord -> Prop) (R : gmap string TaskExecutionRecord -> gmap string Row -> Prop).
Hypothesis step : forall o m t, admissible o -> R m t ->
  (write Executions.Save Executions.Update o m).1 = (write save update o t).1 /\
  R (write Executions.Save Executions.Update o m).2 (write save update o t).2.

Lemma writes_simulation ops m t :
  Forall admissible ops -> R m t ->
  (writes Executions.Save Executions.Update ops m).1 = (writes save update ops t).1 /\
  R (writes Executions.Save Executions.Update ops m).2 (writes save update ops t).2.
Proof.
  intros Hops. revert m t. induction Hops as [|o ops Ho _ IH]; intros m t HR; [done|].
  destruct (step o m t Ho HR) as [H1 H2]. cbn [writes].
  destruct (write Executions.Save _ o m) as [ok m1], (write save update o t) as [ok' t1]. cbn in H1, H2.
  destruct (IH m1 t1 H2) as [H3 H4].
  destruct (writes Executions.Save _ ops m1), (writes save update ops t1). cbn in *. by subst.
Qed.
End simulation.

(** *** What one call does in each *)

Lemma memory_save_run r (m : Executions.store) :
  exists e, Executions.Save r m =
    if (te_ExecutionID r == "") || is_set (m !! te_ExecutionID r) then (m, Err e)
    else (<[te_ExecutionID r := if te_Version r == 0 then r <| te_Version := 1 |> else r]> m, Ok tt).
Proof.
  unfold Executions.Save. run_simpl. destruct (te_ExecutionID r == ""); [by eexists|].
  destruct (m !! te_ExecutionID r); [by eexists|]. cbn [is_set orb]. exists (PlainError ""). cbv zeta. rewrite run_put.
  by rewrite default_version_id.
Qed.

Lemma memory_update_run r v (m : Executions.store) :
  0 < v -> exists e, Executions.Update r v m =
    match m !! te_ExecutionID r with
    | Some current =>
        if te_Version current =? v then (<[te_ExecutionID r := r <| te_Version := wrap64 (v + 1) |>]> m, Ok tt)
        else (m, Err e)
    | None => (m, Err e)
    end.
Proof.
  intros Hv. unfold Executions.Update. run_simpl. destruct (m !! te_ExecutionID r) as [current|]; [|by eexists].
  rewrite (proj2 (Z.ltb_lt 0 v) Hv). cbn [andb]. destruct (Z.eqb_spec (te_Version current) v) as [<-|Hne].
  - rewrite bool_decide_eq_true_2 by done. exists (PlainError ""). run_simpl. done.
  - rewrite bool_decide_eq_false_2 by done. by eexists.
Qed.

Section execution_tables.
Context `{SD : SqlDriver} `{MO : MapOrder}.
Implicit Types (m : Executions.store).

Lemma lite_save_run r (t : Sqlite.task_executions) :
  exists e, Lite.Executions_Save r t =
    if (te_ExecutionID r == "") || is_set (t !! te_ExecutionID r) then (t, Err e)
    else (<[te_ExecutionID r := Lite.execution_row (if te_Version r == 0 then r <| te_Version := 1 |> else r)]> t, Ok tt).
Proof.
  unfold Lite.Executions_Save. destruct (te_ExecutionID r == ""); [by eexists|]. cbv zeta.
  rewrite insert_or_fail_run, default_version_id. by destruct (t !! te_ExecutionID r); eexists.
  Unshelve. exact (PlainError "").
Qed.

(** SQLite's rows are the rows of the records. *)
Lemma lite_step o m (t : Sqlite.task_executions) :
  versioned o -> t = Lite.execution_row <$> m ->
  (write Executions.Save Executions.Update o m).1 = (write Lite.Executions_Save Lite.Executions_Update o t).1 /\
  (write Lite.Executions_Save Lite.Executions_Update o t).2 =
    Lite.execution_row <$> (write Executions.Save Executions.Update o m).2.
Proof.
  intros Ho ->. unfold write. destruct o as [r|r v].
  - destruct (memory_save_run r m) as [e ->], (lite_save_run r (Lite.execution_row <$> m)) as [e' ->].
    rewrite lookup_fmap. destruct (_ == ""); [done|]. destruct (m !! te_ExecutionID r); [done|].
    cbn [fmap option_fmap option_map is_set orb fst snd]. by rewrite fmap_insert.
  - destruct (memory_update_run r v m Ho) as [e ->]. unfold Lite.Executions_Update. cbv zeta.
    rewrite update_or_conflict_run, lookup_fmap. rsimpl. destruct (m !! te_ExecutionID r) as [current|]; [|done].
    cbn [fmap option_fmap option_map Sqlite.te_version Lite.execution_row].
    destruct (te_Version current =? v); [|done]. cbn [fst snd]. by rewrite fmap_insert.
Qed.

(** Postgres' rows hold the records and their versions; the columns of the
    task keep what the first save wrote. *)
Definition pg_row_of (r : TaskExecutionRecord) (row : Postgres.task_executions_row) : Prop :=
  Postgres.te_record_json row = r /\ Postgres.te_version row = te_Version r.

Lemma pg_step o m (t : Postgres.task_executions) :
  complete o -> map_Forall2 (fun _ => pg_row_of) m t ->
  (write Executions.Save Executions.Update o m).1 = (write Pg.Executions_Save Pg.Executions_Update o t).1 /\
  map_Forall2 (fun _ => pg_row_of) (write Executions.Save Executions.Update o m).2
    (write Pg.Executions_Save Pg.Executions_Update o t).2.
Proof.
  intros Ho HR. unfold write. destruct o as [r|r v]; pose proof (HR (te_ExecutionID r)) as Hid.
  - destruct Ho as [Hne Hv], (memory_save_run r m) as [e ->]. unfold Pg.Executions_Save. rewrite insert_or_fail_run.
    rewrite (bool_decide_eq_false_2 (te_ExecutionID r = "")), (bool_decide_eq_false_2 (te_Version r = 0)) by done.
    destruct Hid; [done|]. cbn [fst snd orb is_set]. split; [done|].
    by apply map_Forall2_insert_2.
  - destruct (memory_update_run r v m Ho) as [e ->]. unfold Pg.Executions_Update. cbv zeta.
    rewrite update_or_conflict_run. rsimpl.
    destruct Hid as [current row [_ ->]|]; [|done]. destruct (te_Version current =? v); [|done]. cbn [fst snd]. split; [done|].
    by apply map_Forall2_insert_2.
Qed.

End execution_tables.

Definition sample_writes : list (cas_op TaskExecutionRecord) :=
  [CasSave (sample_execution TaskQueueStatusExecuting); CasUpdate (sample_execution TaskQueueStatusCompleted) 1;
   CasUpdate (sample_execution TaskQueueStatusFailed) 1; CasSave (sample_execution TaskQueueStatusReady)].

Lemma sample_writes_complete : Forall complete sample_writes.
Proof. repeat constructor; by cbn. Qed.

Lemma sample_writes_versioned : Forall versioned sample_writes.
Proof. repeat constructor. Qed.


(** * What a task graph keeps on its way through a database

    [Graphs_Save] followed by [Graphs_Load].  Postgres keeps the JSON text of
    the snapshot, so that what it returns is what encoding/json reads in what
    it wrote ([GraphJson]).  SQLite rebuilds the graph from its tables, and
    what has no column comes back empty: most of all the dependencies in the
    task records, without which a reevaluation does not hold back a task. *)

(** ** Rows inserted under one key prefix *)

Section insert_rows.
Context {T K row X : Type} `{HK : Countable K} (table : T -> gmap K row) (set : gmap K row -> T -> T).
Hypothesis table_set : forall m t, table (set m t) = m.
Hypothesis set_set : forall m m' t, set m (set m' t) = set m t.
Hypothesis set_table : forall t, set (table t) t = t.
Context (key : X -> K) (value : X -> row) (insert_row : X -> ST error T unit).
Hypothesis insert_row_run : forall x t,
  table t !! key x = None -> insert_row x t = (set (<[key x := value x]> (table t)) t, Ok tt).

Definition rows_of (l : list X) : list (K * row) := (fun x => (key x, value x)) <$> l.

Lemma rows_of_keys l : (rows_of l).*1 = key <$> l.
Proof. unfold rows_of. by rewrite <- list_fmap_compose. Qed.

Lemma insert_rows_run l t :
  NoDup (key <$> l) -> (forall x, x ∈ l -> table t !! key x = None) ->
  for_each insert_row l t = (set (list_to_map (rows_of l) ∪ table t) t, Ok tt).
Proof.
  revert t. induction l as [|x l IH]; intros t Hnd Hfree.
  { cbn. rewrite (left_id_L ∅ (∪)), set_table. done. }
  apply NoDup_cons in Hnd as [Hx Hnd]. unfold for_each. rewrite run_for_fold_cons.
  erewrite run_bind_Ok by (apply insert_row_run, Hfree; left). fold (for_each insert_row l).
  change (for_fold (fun _ x => insert_row x) tt l) with (for_each insert_row l). rewrite IH; [|done|].
  - rewrite table_set, set_set. cbn [rows_of fmap list_fmap list_to_map foldr]. do 2 f_equal.
    rewrite <- insert_union_r by (apply not_elem_of_list_to_map_1; by rewrite rows_of_keys).
    by rewrite insert_union_l.
  - intros y Hy. rewrite table_set, lookup_insert_ne; [apply Hfree; by right|].
    intros E. apply Hx. rewrite E. by apply list_elem_of_fmap_2.
Qed.
End insert_rows.

(** The rows of the prefix after the old ones were deleted. *)
Lemma scope_rows `{MO : MapOrder} {K row} `{Countable K} (scope : K -> string) (graphID : string)
    (l : list (K * row)) (t : gmap K row) :
  NoDup l.*1 -> Forall (fun entry => scope entry.1 = graphID) l ->
  filter (fun entry => scope entry.1 = graphID)
    (map_range (list_to_map l ∪ filter (fun entry : K * row => scope entry.1 <> graphID) t)) ≡ₚ l.
Proof.
  intros Hnd Hl. rewrite Forall_forall in Hl. apply NoDup_Permutation.
  - apply NoDup_filter, NoDup_map_range.
  - by apply (NoDup_fmap_1 fst).
  - intros [k r]. rewrite list_elem_of_filter, elem_of_map_range, lookup_union_Some_raw. cbn. split.
    + intros [Hs [Hr|[_ Hr]]]; [by apply elem_of_list_to_map_2 in Hr|].
      apply map_lookup_filter_Some in Hr as [_ Hr]. by destruct Hr.
    + intros Hin. split; [by apply (Hl (k, r))|]. left. by apply elem_of_list_to_map_1.
Qed.

(** Rows in strictly increasing order are read in that order. *)
Lemma order_by_int_le {K row} (column : row -> Z) (x y : K * row) :
  cmp_le (order_by_int column) x y <-> column x.2 <= column y.2.
Proof.
  unfold cmp_le, order_by_int. destruct (Z.ltb_spec (column x.2) (column y.2)); [lia|].
  destruct (Z.ltb_spec (column y.2) (column x.2)); lia.
Qed.

#[export] Instance order_by_int_order {K row} (column : row -> Z) : CmpOrder (order_by_int (K := K) column).
Proof.
  split; [intros x y z; rewrite !order_by_int_le; lia|]. intros x y. pose proof (order_by_int_le column x y).
  pose proof (order_by_int_le column y x). unfold cmp_le in *. lia.
Qed.

Lemma read_in_order {K row} (column : row -> Z) (l l' : list (K * row)) :
  StronglySorted Z.lt ((fun entry => column entry.2) <$> l) -> l' ≡ₚ l ->
  slices_SortFunc (order_by_int column) l' = l.
Proof.
  intros Hs Hp. symmetry. apply SortFunc_unique; [apply _| | |by symmetry].
  - setoid_rewrite Hp. clear Hp l'. induction l as [|e l IH]; [by intros x y ?%elem_of_nil|].
    cbn [fmap list_fmap] in Hs. apply StronglySorted_inv in Hs as [Hs He]. rewrite Forall_fmap, Forall_forall in He.
    intros x y. rewrite !elem_of_cons, !order_by_int_le. intros [->|Hx] [->|Hy]; [done|..].
    + specialize (He y Hy). cbn in He. lia.
    + specialize (He x Hx). cbn in He. lia.
    + rewrite <- !order_by_int_le. by apply IH.
  - clear Hp l'. induction l as [|e l IH]; [constructor|]. cbn [fmap list_fmap] in Hs.
    apply StronglySorted_inv in Hs as [Hs He]. rewrite Forall_fmap, Forall_forall in He.
    constructor; [by apply IH|]. apply Forall_forall. intros y Hy. apply order_by_int_le. specialize (He y Hy).
    cbn in He. lia.
Qed.

(** ** What SQLite keeps *)

(** A graph whose references name its snapshots, whose times can be written,
    and whose tasks and dependencies have keys of their own. *)
Record storable_graph (g : StoredGraph) : Prop := {
  sg_version : gs_Version (sg_snapshot g) <> 0;
  sg_base_ref : gs_BaseStateSnapshotRef (sg_snapshot g) = snapshotRefFor (gs_BaseStateSnapshot (sg_snapshot g));
  sg_committed_ref :
    gs_LatestCommittedStateRef (sg_snapshot g) = snapshotRefFor (gs_LatestCommittedStateSnapshot (sg_snapshot g));
  sg_base_named : gs_BaseStateSnapshotRef (sg_snapshot g) <> "";
  sg_committed_named : gs_LatestCommittedStateRef (sg_snapshot g) <> "";
  sg_refs : gs_BaseStateSnapshotRef (sg_snapshot g) = gs_LatestCommittedStateRef (sg_snapshot g) ->
    gs_BaseStateSnapshot (sg_snapshot g) = gs_LatestCommittedStateSnapshot (sg_snapshot g);
  sg_registered : in_text_range (gs_RegisteredAt (sg_snapshot g));
  sg_base_time : in_text_range (ss_CapturedAt (gs_BaseStateSnapshot (sg_snapshot g)));
  sg_committed_time : in_text_range (ss_CapturedAt (gs_LatestCommittedStateSnapshot (sg_snapshot g)));
  sg_task_times : forall r, r ∈ sg_tasks g ->
    in_text_range (ft_RegisteredAt r) /\ in_text_range (ft_LastUpdatedAt r);
  sg_task_ids : NoDup (task_id <$> sg_tasks g);
  sg_task_order : StronglySorted Z.lt (ft_RegistrationOrder <$> sg_tasks g);
  sg_pairs : NoDup ((fun d => (td_UpstreamTaskID d, td_DownstreamTaskID d)) <$> tg_Dependencies (gs_Graph (sg_snapshot g)))
}.

Definition without_dependencies (r : FollowUpTaskRecord) : FollowUpTaskRecord := r <| ft_Dependencies := [] |>.

(** What a graph says was spawned and deferred, by its task records. *)
Definition spawned_of (r : FollowUpTaskRecord) : SpawnedTaskRecord := {|
  sp_TaskID := task_id r; sp_Status := ft_Status r; sp_RequiredCapability := ft_RequiredCapability r;
  sp_MissingCapabilityReason := ft_MissingCapabilityReason r; sp_RegisteredAt := ft_RegisteredAt r |}.

Definition deferred_of (at_ : time) (r : FollowUpTaskRecord) : DeferredTaskRecord := {|
  df_TaskID := task_id r; df_Status := TaskQueueStatusDeferred;
  df_NotBefore := dw_NotBefore (gm_DueWindow (ft_Metadata r)); df_NotAfter := dw_NotAfter (gm_DueWindow (ft_Metadata r));
  df_Reason := default "task due window has not opened yet" (head (ft_BlockingReasons r)); df_DeferredAt := at_ |}.

Lemma deriveSpawnedAndDeferred_spec records at_ :
  deriveSpawnedAndDeferred records at_ =
    (spawned_of <$> records, deferred_of at_ <$> filter (fun r => ft_Status r = TaskQueueStatusDeferred) records).
Proof.
  unfold deriveSpawnedAndDeferred. match goal with |- fold_left ?f _ _ = _ =>
    assert (H : forall a b, fold_left f records (a, b) = (a ++ (spawned_of <$> records),
      b ++ (deferred_of at_ <$> filter (fun r => ft_Status r = TaskQueueStatusDeferred) records))) end.
  2: exact (H [] []).
  induction records as [|r records IH]; intros a b; [by rewrite !app_nil_r|].
  cbn [fold_left fmap list_fmap]. rewrite filter_cons.
  destruct (decide (ft_Status r = TaskQueueStatusDeferred)) as [Hs|Hs].
  - rewrite (bool_decide_eq_true_2 _ Hs). cbn [negb fmap list_fmap]. rewrite IH, <- !(assoc_L (++)).
    unfold deferred_of at 2. rewrite <- Hs. by destruct (ft_BlockingReasons r).
  - rewrite (bool_decide_eq_false_2 _ Hs). cbn [negb fmap list_fmap]. by rewrite IH, <- (assoc_L (++)).
Qed.

(** The graph that SQLite returns for [g], with its dependencies in the
    order of the index. *)
Definition sqlite_image (g : StoredGraph) (dependencies : list TaskDependency) : StoredGraph :=
  let snapshot := sg_snapshot g in
  mkStoredGraph
    (snapshot <| gs_Graph := gs_Graph snapshot <| tg_Dependencies := dependencies |> |>
              <| gs_RegisteredTasks := zero |> <| gs_ExecutedTasks := [] |>
              <| gs_Spawned := spawned_of <$> sg_tasks g |>
              <| gs_Deferred := deferred_of (gs_RegisteredAt snapshot) <$>
                   filter (fun r => ft_Status r = TaskQueueStatusDeferred) (sg_tasks g) |>)
    (without_dependencies <$> sg_tasks g).

Lemma without_dependencies_derived records at_ :
  deriveSpawnedAndDeferred (without_dependencies <$> records) at_ =
    (spawned_of <$> records, deferred_of at_ <$> filter (fun r => ft_Status r = TaskQueueStatusDeferred) records).
Proof.
  rewrite deriveSpawnedAndDeferred_spec, list_filter_fmap, <- !list_fmap_compose. done.
Qed.

Section sqlite_graphs.
Context `{MO : MapOrder} `{SD : SqlDriver}.
Import SqlTables.Sqlite.

Definition task_key (graphID : string) (r : FollowUpTaskRecord) : string * string := (graphID, task_id r).
Definition dependency_key (graphID : string) (d : TaskDependency) : string * string * string :=
  (graphID, td_UpstreamTaskID d, td_DownstreamTaskID d).
Definition dependency_row (d : TaskDependency) : task_dependencies_row :=
  {| td_reason := td_Reason d; td_mandatory := boolToInt (td_Mandatory d) |}.

Lemma insert_task_run graphID r (s : graph_tables) :
  t_follow_up_tasks s !! task_key graphID r = None ->
  Lite.insert_task graphID r s =
    (s <| t_follow_up_tasks := <[task_key graphID r := Lite.task_row r]> (t_follow_up_tasks s) |>, Ok tt).
Proof. intros H. unfold Lite.insert_task. run_simpl. unfold task_key, task_id in H. by rewrite H. Qed.

Lemma insert_dependency_run graphID d (s : graph_tables) :
  t_task_dependencies s !! dependency_key graphID d = None ->
  Lite.insert_dependency graphID d s =
    (s <| t_task_dependencies := <[dependency_key graphID d := dependency_row d]> (t_task_dependencies s) |>, Ok tt).
Proof. intros H. unfold Lite.insert_dependency. run_simpl. unfold dependency_key in H. by rewrite H. Qed.

Lemma scan_task_run {T} r k (t : T) :
  in_text_range (ft_RegisteredAt r) -> in_text_range (ft_LastUpdatedAt r) ->
  Lite.scan_task (k, Lite.task_row r) t = (t, Ok (without_dependencies r)).
Proof.
  intros H1 H2. unfold Lite.scan_task, scan_time. cbn [snd ft_registered_at ft_last_updated_at Lite.task_row].
  rewrite !mustParseTime_text by done. run_simpl. by destruct r.
Qed.

Definition snapshot_row (graphID kind : string) (snapshot : StateSnapshot) : state_snapshots_row := {|
  ss_graph_id := graphID;
  ss_workflow_id := "";
  ss_task_id := "";
  ss_kind := kind;
  ss_state_version := sv_Sequence (fw_Version (ss_State snapshot));
  ss_reason := ss_Reason snapshot;
  ss_captured_at := time_text (ss_CapturedAt snapshot);
  ss_state_json := ss_State snapshot
|}.

Lemma saveStateSnapshot_run graphID kind snapshot (s : graph_tables) :
  snapshotRefFor snapshot <> "" ->
  Lite.saveStateSnapshot graphID "" "" kind snapshot s =
    (s <| t_state_snapshots := <[snapshotRefFor snapshot := snapshot_row graphID kind snapshot]> (t_state_snapshots s) |>,
     Ok (snapshotRefFor snapshot)).
Proof. intros H. unfold Lite.saveStateSnapshot. cbv zeta. rewrite bool_decide_eq_false_2 by done. by run_simpl. Qed.

Lemma loadStateSnapshot_run ref graphID kind snapshot (s : graph_tables) :
  t_state_snapshots s !! ref = Some (snapshot_row graphID kind snapshot) -> in_text_range (ss_CapturedAt snapshot) ->
  Lite.loadStateSnapshot ref s = (s, Ok (Some snapshot)).
Proof.
  intros H Ht. unfold Lite.loadStateSnapshot. run_simpl. rewrite H. unfold scan_time.
  cbn [snapshot_row ss_captured_at]. rewrite mustParseTime_text by done. run_simpl. by destruct snapshot.
Qed.

(** The tables after a save. *)
Definition saved (g : StoredGraph) (s : graph_tables) : graph_tables :=
  let snapshot := sg_snapshot g in
  let graphID := tg_GraphID (gs_Graph snapshot) in
  {| t_task_graphs := <[graphID := Lite.graph_row snapshot]> (t_task_graphs s);
     t_follow_up_tasks := list_to_map (rows_of (task_key graphID) Lite.task_row (sg_tasks g)) ∪
       filter (fun entry => entry.1.1 <> graphID) (t_follow_up_tasks s);
     t_task_dependencies := list_to_map (rows_of (dependency_key graphID) dependency_row (tg_Dependencies (gs_Graph snapshot))) ∪
       filter (fun entry => entry.1.1.1 <> graphID) (t_task_dependencies s);
     t_state_snapshots :=
       <[gs_LatestCommittedStateRef snapshot := snapshot_row graphID "committed" (gs_LatestCommittedStateSnapshot snapshot)]>
       (<[gs_BaseStateSnapshotRef snapshot := snapshot_row graphID "base" (gs_BaseStateSnapshot snapshot)]> (t_state_snapshots s)) |}.

Lemma deleted_task_free (graphID : string) (t : follow_up_tasks) r :
  filter (fun entry => entry.1.1 <> graphID) t !! task_key graphID r = None.
Proof. apply map_lookup_filter_None. right. intros row _ H. by apply H. Qed.

Lemma deleted_dependency_free (graphID : string) (t : task_dependencies) d :
  filter (fun entry => entry.1.1.1 <> graphID) t !! dependency_key graphID d = None.
Proof. apply map_lookup_filter_None. right. intros row _ H. by apply H. Qed.

Lemma task_keys_NoDup g graphID : storable_graph g -> NoDup (task_key graphID <$> sg_tasks g).
Proof.
  intros Hg. unfold task_key. rewrite (list_fmap_compose task_id (pair graphID)).
  apply NoDup_fmap_2; [by intros x y [= ->]|apply Hg].
Qed.

Lemma dependency_keys_NoDup g graphID :
  storable_graph g -> NoDup (dependency_key graphID <$> tg_Dependencies (gs_Graph (sg_snapshot g))).
Proof.
  intros Hg. unfold dependency_key.
  rewrite (list_fmap_ext _ ((fun p : string * string => (graphID, p.1, p.2)) ∘
    (fun d => (td_UpstreamTaskID d, td_DownstreamTaskID d)))) by done.
  rewrite list_fmap_compose. apply NoDup_fmap_2; [|apply Hg]. intros [] []. naive_solver.
Qed.

Lemma Graphs_Save_run g (s : graph_tables) : storable_graph g -> Lite.Graphs_Save g s = (saved g s, Ok tt).
Proof.
  intros Hg. unfold Lite.Graphs_Save. rewrite (proj2 (Z.eqb_neq _ _) (sg_version g Hg)). unfold transaction.
  set (graphID := tg_GraphID (gs_Graph (sg_snapshot g))).
  enough (Lite.saveTaskGraphTx g None s = (saved g s, Ok tt)) as -> by done.
  unfold Lite.saveTaskGraphTx. cbv zeta. fold graphID.
  pose proof (sg_base_named g Hg) as Hb. rewrite (sg_base_ref g Hg) in Hb.
  pose proof (sg_committed_named g Hg) as Hc. rewrite (sg_committed_ref g Hg) in Hc.
  erewrite run_bind_Ok by by apply saveStateSnapshot_run. erewrite run_bind_Ok by by apply saveStateSnapshot_run.
  rewrite !run_bind_modify.
  erewrite run_bind_Ok.
  2: { apply (insert_rows_run t_follow_up_tasks (fun m s => s <| t_follow_up_tasks := m |>) ltac:(done) ltac:(done)
         ltac:(by intros []) (task_key graphID) Lite.task_row (Lite.insert_task graphID) (insert_task_run graphID)).
       - by apply task_keys_NoDup.
       - intros r _. unfold Lite.delete_graph_rows. rsimpl. apply deleted_task_free. }
  erewrite (insert_rows_run t_task_dependencies (fun m s => s <| t_task_dependencies := m |>) ltac:(done) ltac:(done)
         ltac:(by intros []) (dependency_key graphID) dependency_row (Lite.insert_dependency graphID)
         (insert_dependency_run graphID)).
  - unfold Lite.delete_graph_rows, saved. fold graphID. rewrite (sg_base_ref g Hg), (sg_committed_ref g Hg). by destruct s.
  - by apply dependency_keys_NoDup.
  - intros d _. unfold Lite.delete_graph_rows. rsimpl. apply deleted_dependency_free.
Qed.

Lemma load_tasks_run g (s : graph_tables) :
  storable_graph g ->
  Lite.loadFollowUpTaskRecords (tg_GraphID (gs_Graph (sg_snapshot g))) (saved g s) =
    (saved g s, Ok (without_dependencies <$> sg_tasks g)).
Proof.
  intros Hg. unfold Lite.loadFollowUpTaskRecords. rewrite run_bind_get. set (graphID := tg_GraphID _).
  rewrite (read_in_order ft_registration_order (rows_of (task_key graphID) Lite.task_row (sg_tasks g))).
  - apply scan_rows_fmap_run. intros r Hr. by apply scan_task_run; apply (sg_task_times g Hg).
  - unfold rows_of. rewrite <- list_fmap_compose. apply Hg.
  - unfold saved. cbv zeta. fold graphID. cbn [t_follow_up_tasks].
    apply (scope_rows (fun k : string * string => k.1) graphID).
    + rewrite rows_of_keys. by apply task_keys_NoDup.
    + apply Forall_fmap, Forall_forall. done.
Qed.

Lemma load_dependencies_run g (s : graph_tables) :
  storable_graph g -> exists dependencies,
  dependencies ≡ₚ tg_Dependencies (gs_Graph (sg_snapshot g)) /\
  Lite.loadTaskDependencies (tg_GraphID (gs_Graph (sg_snapshot g))) (saved g s) = (saved g s, Ok dependencies).
Proof.
  intros Hg. eexists. unfold Lite.loadTaskDependencies. rewrite run_bind_get, run_ret. split; [|reflexivity].
  rewrite SortFunc_perm. set (graphID := tg_GraphID _).
  etrans; [apply fmap_Permutation; unfold saved; cbv zeta; fold graphID; cbn [t_task_dependencies];
    apply (scope_rows (fun k : string * string * string => k.1.1) graphID)|].
  - rewrite rows_of_keys. by apply dependency_keys_NoDup.
  - apply Forall_fmap, Forall_forall. done.
  - unfold rows_of. rewrite <- list_fmap_compose.
    rewrite (list_fmap_ext _ id), list_fmap_id; [done|]. intros i [up down reason []] _; done.
Qed.

(** What [Graphs_Load] finds. *)
Lemma saved_snapshots g (s : graph_tables) :
  storable_graph g ->
  let snapshot := sg_snapshot g in
  Lite.loadStateSnapshot (gs_BaseStateSnapshotRef snapshot) (saved g s) =
    (saved g s, Ok (Some (gs_BaseStateSnapshot snapshot))) /\
  Lite.loadStateSnapshot (gs_LatestCommittedStateRef snapshot) (saved g s) =
    (saved g s, Ok (Some (gs_LatestCommittedStateSnapshot snapshot))).
Proof.
  intros Hg snapshot. set (graphID := tg_GraphID (gs_Graph snapshot)).
  assert (Hc : t_state_snapshots (saved g s) !! gs_LatestCommittedStateRef snapshot =
    Some (snapshot_row graphID "committed" (gs_LatestCommittedStateSnapshot snapshot))) by apply lookup_insert_eq.
  split; [|by apply loadStateSnapshot_run with graphID "committed"; [|apply Hg]].
  destruct (decide (gs_BaseStateSnapshotRef snapshot = gs_LatestCommittedStateRef snapshot)) as [E|Hne].
  - unfold snapshot in *. rewrite E, (sg_refs g Hg E).
    by apply loadStateSnapshot_run with graphID "committed"; [|apply Hg].
  - apply loadStateSnapshot_run with graphID "base"; [|apply Hg]. unfold saved. cbn [t_state_snapshots].
    rewrite lookup_insert_ne by done. apply lookup_insert_eq.
Qed.

Lemma Graphs_Load_run g (s : graph_tables) :
  storable_graph g -> exists dependencies,
  dependencies ≡ₚ tg_Dependencies (gs_Graph (sg_snapshot g)) /\
  Lite.Graphs_Load (tg_GraphID (gs_Graph (sg_snapshot g))) (saved g s) =
    (saved g s, Ok (Some (sqlite_image g dependencies))).
Proof.
  intros Hg. destruct (load_dependencies_run g s Hg) as (deps & Hp & Hd), (saved_snapshots g s Hg) as [Hb Hc].
  exists deps. split; [done|]. unfold Lite.Graphs_Load. rewrite run_bind_get.
  unfold saved at 1. cbn [t_task_graphs]. rewrite lookup_insert_eq.
  erewrite run_bind_Ok by by apply load_tasks_run. erewrite run_bind_Ok by exact Hd.
  cbn [Lite.graph_row tg_base_state_snapshot_ref tg_latest_committed_state_ref tg_registered_at].
  erewrite run_bind_Ok by exact Hb. unfold found_or, scan_time. rewrite run_bind_ret.
  erewrite run_bind_Ok by exact Hc. rewrite mustParseTime_text by apply Hg. run_simpl.
  rewrite without_dependencies_derived. by run_simpl.
Qed.
End sqlite_graphs.

(** ** Claims *)

(** Without dependencies of its own, a task is not held back. *)
Lemma unblocked_record graph executions resolver now records i r r' :
  records !! i = Some r -> ft_Dependencies r = [] ->
  reevaluate_records graph executions resolver now records !! i = Some r' ->
  executions_by_task executions !! task_id r = None -> gm_RequiresApproval (ft_Metadata r) = false ->
  window_closed now r = false -> (Resolver_Resolve resolver (ft_Task r)).1.2 = true ->
  ft_Status r' = TaskQueueStatusReady.
Proof.
  intros Hr Hd Hr' He Ha Hw Hav.
  pose proof (reevaluate_records_lookup graph executions resolver now records i r Hr) as H. cbn zeta in H.
  rewrite H in Hr'. injection Hr' as <-. unfold reevaluate_record. cbv zeta.
  set (r1 := r <| ft_BlockingReasons := [] |> <| ft_LastUpdatedAt := now |>).
  change (ts_ID (ft_Task r1)) with (task_id r). rewrite He.
  match goal with |- ft_Status (reevaluate_pending _ ?seen _ _ _) = _ =>
    pose proof (reevaluate_pending_Status graph seen resolver now r1) as Hp end.
  change (ft_Task r1) with (ft_Task r) in Hp. destruct (Resolver_Resolve resolver (ft_Task r)) as [[cap av] m].
  cbn in Hav. subst av. rewrite Hp.
  change (ft_Metadata r1) with (ft_Metadata r). change (window_closed now r1) with (window_closed now r).
  change (ft_Dependencies r1) with (ft_Dependencies r). by rewrite Ha, Hw, Hd.
Qed.

(** C23: What a task graph is after [Save] and [Load] in SQLite, for a graph
    that can be stored ([storable_graph]) and columns of JSON that give back
    what was put in them: the saved graph but without its executions and
    without the dependencies in its task records, with its graph's
    dependencies in another order, and with the spawned and deferred tasks
    those that its records name and the records that are deferred
    ([sqlite_image]).  In a reevaluation of what SQLite returned a task
    becomes ready as soon as it has no execution record, needs no approval,
    its window is open and its capability available, whatever state its
    upstream tasks are in. *)
Theorem graph_store_roundtrip `{MO : MapOrder} `{SD : SqlDriver} (g : StoredGraph) :
  let graphID := tg_GraphID (gs_Graph (sg_snapshot g)) in
  storable_graph g -> forall s, exists s' dependencies,
     Lite.Graphs_Save g s = (s', Ok tt) /\
     Lite.Graphs_Load graphID s' = (s', Ok (Some (sqlite_image g dependencies))) /\
     dependencies ≡ₚ tg_Dependencies (gs_Graph (sg_snapshot g)) /\
     forall executions resolver now i r r',
     let loaded := sqlite_image g dependencies in
     sg_tasks g !! i = Some r ->
     reevaluate_records (gs_Graph (sg_snapshot loaded)) executions resolver now (sg_tasks loaded) !! i = Some r' ->
     executions_by_task executions !! task_id r = None -> gm_RequiresApproval (ft_Metadata r) = false ->
     window_closed now r = false -> (Resolver_Resolve resolver (ft_Task r)).1.2 = true ->
     ft_Status r' = TaskQueueStatusReady.
Proof.
  intros graphID Hg s. destruct (Graphs_Load_run g s Hg) as (deps & Hp & Hl). exists (saved g s), deps.
  split; [by apply Graphs_Save_run|]. split; [done|]. split; [done|].
  intros executions resolver now i r r' loaded Hr Hr' He Ha Hw Hav.
  apply (unblocked_record (gs_Graph (sg_snapshot loaded)) executions resolver now (sg_tasks loaded) i (without_dependencies r));
    try done. unfold loaded, sqlite_image. cbv zeta. cbn [sg_tasks]. by rewrite list_lookup_fmap, Hr.
Qed.

(** Postgres stores no graph that encoding/json refuses, and after a save
    reads what encoding/json reads in the text it wrote, however the other
    graphs are saved in between. *)
Lemma pg_graph_text `{GJ : GraphJson} (g : StoredGraph) s :
  let graphID := tg_GraphID (gs_Graph (sg_snapshot g)) in
  match graph_Marshal g with
  | inl e => Pg.Graphs_Save g s = (s, Err e)
  | inr raw => exists s', Pg.Graphs_Save g s = (s', Ok tt) /\
      forall others s2, Forall (fun h => tg_GraphID (gs_Graph (sg_snapshot h)) <> graphID) others ->
      for_each Pg.Graphs_Save others s' = (s2, Ok tt) ->
      Pg.Graphs_Load graphID s2 =
        (x ← Pg.unmarshal_graph raw; mret (Some x)) s2
  end.
Proof.
  intros graphID. unfold Pg.Graphs_Save at 1 2, Pg.marshal_graph.
  destruct (graph_Marshal g) as [e|raw]; [by run_simpl|]. eexists. split; [by run_simpl|].
  set (row := Pg.graph_row g raw). intros others.
  set (s' := s <| Postgres.t_task_graphs := _ |>).
  assert (Hs : Postgres.t_task_graphs s' !! graphID = Some row) by apply lookup_insert_eq.
  revert Hs. generalize s'. clear s'. induction others as [|h others IH]; intros s' Hs s2 Hne Hr.
  - run_simpl in Hr. injection Hr as <-. unfold Pg.Graphs_Load. run_simpl. by rewrite Hs.
  - apply Forall_cons in Hne as [Hh Hne]. unfold for_each in Hr. rewrite run_for_fold_cons in Hr.
    apply run_bind_inv_Ok in Hr as ([] & s1 & H1 & H2). apply (IH s1); [|done..].
    unfold Pg.Graphs_Save, Pg.marshal_graph in H1. destruct (graph_Marshal h) as [e|raw']; run_simpl in H1; [done|].
    injection H1 as <-. rsimpl. by rewrite lookup_insert_ne.
Qed.

(** The second task waits for the first; after a load it is ready at once. *)
Definition stored_graph_of (records : list FollowUpTaskRecord) : StoredGraph :=
  let state := {| ss_State := zero <| fw_Version := zero <| sv_SnapshotID := "s1" |> |>; ss_CapturedAt := 1; ss_Reason := "base" |} in
  mkStoredGraph
    (zero <| gs_Graph := sample_graph |> <| gs_Version := 1 |> <| gs_BaseStateSnapshot := state |>
          <| gs_BaseStateSnapshotRef := "s1" |> <| gs_LatestCommittedStateSnapshot := state |>
          <| gs_LatestCommittedStateRef := "s1" |> <| gs_RegisteredAt := 5 |>)
    records.

Definition sample_stored_graph : StoredGraph := stored_graph_of sample_records.

Lemma stored_graph_storable (records : list FollowUpTaskRecord) :
  task_id <$> records = ["a"; "b"] -> ft_RegistrationOrder <$> records = [0; 1] ->
  ft_RegisteredAt <$> records = [5; 5] -> ft_LastUpdatedAt <$> records = [5; 5] ->
  storable_graph (stored_graph_of records).
Proof.
  intros Hid Hord Hreg Hup.
  assert (Hfive : in_text_range 5) by (unfold in_text_range; vm_compute; split; congruence).
  assert (Hone : in_text_range 1) by (unfold in_text_range; vm_compute; split; congruence).
  assert (Hfield : forall (f : FollowUpTaskRecord -> time), f <$> records = [5; 5] ->
    forall r, r ∈ records -> in_text_range (f r)).
  { intros f Hf r Hr. apply (list_elem_of_fmap_2 f) in Hr. rewrite Hf in Hr.
    apply elem_of_cons in Hr as [->|Hr]; [done|]. by apply list_elem_of_singleton in Hr as ->. }
  split; cbn; try done.
  - intros r Hr. split; [by apply (Hfield ft_RegisteredAt)|by apply (Hfield ft_LastUpdatedAt)].
  - rewrite Hid. repeat constructor; set_solver.
  - rewrite Hord. repeat constructor; lia.
  - repeat constructor; set_solver.
Qed.

Lemma sample_fields :
  task_id <$> sample_records = ["a"; "b"] /\ ft_RegistrationOrder <$> sample_records = [0; 1] /\
  ft_RegisteredAt <$> sample_records = [5; 5] /\ ft_LastUpdatedAt <$> sample_records = [5; 5].
Proof. split_and!; vm_compute; reflexivity. Qed.

Lemma sample_storable : storable_graph sample_stored_graph.
Proof. destruct sample_fields as (H1 & H2 & H3 & H4). exact (stored_graph_storable sample_records H1 H2 H3 H4). Qed.

Lemma graph_store_roundtrip_witness :
  exists s' g' r', Lite.Graphs_Save (SD := sample_driver) sample_stored_graph (Sqlite.mk_graph_tables ∅ ∅ ∅ ∅) = (s', Ok tt) /\
    Lite.Graphs_Load (MO := canonical_order) "g" s' = (s', Ok (Some g')) /\
    ft_Status <$> sample_records = [TaskQueueStatusReady; TaskQueueStatusDependencyBlocked] /\
    reevaluate_records (gs_Graph (sg_snapshot g')) [] sample_resolver 6 (sg_tasks g') !! 1%nat = Some r' /\
    ft_Status r' = TaskQueueStatusReady.
Proof.
  destruct (graph_store_roundtrip (MO := canonical_order) (SD := sample_driver) sample_stored_graph sample_storable
    (Sqlite.mk_graph_tables ∅ ∅ ∅ ∅)) as (s' & deps & Hs & Hl & Hp & Hready).
  destruct (sample_records !! 1%nat) as [r|] eqn:Hr; [|vm_compute in Hr; discriminate].
  destruct (reevaluate_records (gs_Graph (sg_snapshot (sqlite_image sample_stored_graph deps))) [] sample_resolver 6
    (sg_tasks (sqlite_image sample_stored_graph deps)) !! 1%nat) as [r'|] eqn:Hr'.
  - exists s', (sqlite_image sample_stored_graph deps), r'. split; [exact Hs|]. split; [exact Hl|].
    split; [exact sample_statuses|]. split; [exact Hr'|]. apply (Hready [] sample_resolver 6 1%nat r r' Hr Hr'); clear Hr';
    vm_compute in Hr; injection Hr as <-; vm_compute; reflexivity.
  - exfalso. apply lookup_ge_None in Hr'. rewrite reevaluate_records_length in Hr'. revert Hr'. vm_compute. lia.
Defined.
