(* ===== verification/LocalRuntime.v ===== *)
(** * The workflow controller and the local runtime *)

From S2P Require Export World.
From S2P Require Export TaskGraph.
#[local] Open Scope Z_scope.

(** * The workflow controller and the retry planner (controller.go, recovery.go)

    Pure decisions: what state a workflow goes to after a failure, whether it
    may pause for approval, whether a checkpoint and its token allow a resume. *)

Definition unsupported_category (category : FailureCategory) : error :=
  PlainError ("unsupported failure category " +:+ Quote (FailureCategory_string category)).

(** [DefaultWorkflowController.HandleFailure] *)
Definition HandleFailure (current : WorkflowExecutionState) (category : FailureCategory)
    : error + (WorkflowExecutionState * RecoveryStrategy) :=
  if negb (validWorkflowState current)
  then inl (PlainError ("invalid workflow state " +:+ Quote (WorkflowExecutionState_string current)))
  else match category with
  | FailureCategoryTransient | FailureCategoryTimeout => inr (WorkflowStateRetrying, RecoveryStrategyRetry)
  | FailureCategoryValidation => inr (WorkflowStateReplanning, RecoveryStrategyReplan)
  | FailureCategoryPolicy => inr (WorkflowStateWaitingApproval, RecoveryStrategyWaitForApproval)
  | FailureCategoryTrustValidation | FailureCategoryGovernanceDenied | FailureCategoryDeniedByOp
  | FailureCategoryProtocol | FailureCategoryUnrecoverable => inr (WorkflowStateFailed, RecoveryStrategyAbort)
  | FailureCategoryOther _ => inl (unsupported_category category)
  end.

(** [DefaultWorkflowController.PauseForApproval] *)
Definition PauseForApproval (current : WorkflowExecutionState) (pending : HumanApprovalPending)
    : error + WorkflowExecutionState :=
  if (ha_ApprovalID pending == "") || (ha_WorkflowID pending == "") || (ha_RequestedAction pending == "")
  then inl (PlainError "human approval pending requires ids and requested action")
  else if (current != WorkflowStateActing) && (current != WorkflowStateVerifying)
          && (current != WorkflowStateReplanning)
  then inl (PlainError ("workflow state " +:+ Quote (WorkflowExecutionState_string current)
                        +:+ " cannot pause for approval"))
  else inr WorkflowStateWaitingApproval.

(** [DefaultWorkflowController.Resume] *)
Definition Resume (checkpoint : CheckpointRecord) (token : ResumeToken) (now : time)
    : error + WorkflowExecutionState :=
  match CheckpointRecord_Validate checkpoint with
  | Some e => inl e
  | None =>
      match ResumeToken_Validate token with
      | Some e => inl e
      | None =>
          if rt_WorkflowID token != ck_WorkflowID checkpoint
          then inl (PlainError "resume token workflow does not match checkpoint")
          else if rt_CheckpointID token != ck_ID checkpoint
          then inl (PlainError "resume token checkpoint does not match checkpoint")
          else if After now (rt_ExpiresAt token) then inl (PlainError "resume token has expired")
          else inr (ck_ResumeState checkpoint)
      end
  end.

Definition DefaultWorkflowController : WorkflowController := {|
  Controller_HandleFailure := HandleFailure;
  Controller_PauseForApproval := PauseForApproval;
  Controller_Resume := Resume
|}.

(** [RetryPlanner.StrategyFor] *)
Definition StrategyFor (category : FailureCategory) : error + RecoveryStrategy :=
  match category with
  | FailureCategoryTransient | FailureCategoryTimeout => inr RecoveryStrategyRetry
  | FailureCategoryValidation => inr RecoveryStrategyReplan
  | FailureCategoryPolicy => inr RecoveryStrategyWaitForApproval
  | FailureCategoryTrustValidation | FailureCategoryGovernanceDenied | FailureCategoryDeniedByOp
  | FailureCategoryProtocol | FailureCategoryUnrecoverable => inr RecoveryStrategyAbort
  | FailureCategoryOther _ => inl (unsupported_category category)
  end.

(** ** The resume state machine *)

(** Who may resume: the promise [Resume] keeps. *)
Definition may_resume (checkpoint : CheckpointRecord) (token : ResumeToken) (now : time) : Prop :=
  CheckpointRecord_Validate checkpoint = None /\ ResumeToken_Validate token = None /\
  rt_WorkflowID token = ck_WorkflowID checkpoint /\ rt_CheckpointID token = ck_ID checkpoint /\
  now <= rt_ExpiresAt token.

Lemma Resume_inr checkpoint token now next :
  Resume checkpoint token now = inr next <->
  may_resume checkpoint token now /\ next = ck_ResumeState checkpoint.
Proof.
  unfold Resume, may_resume, After.
  destruct (CheckpointRecord_Validate checkpoint); [naive_solver|].
  destruct (ResumeToken_Validate token); [naive_solver|].
  repeat case_bool_decide; simpl; try naive_solver.
  destruct (rt_ExpiresAt token <? now) eqn:E;
    [apply Z.ltb_lt in E | apply Z.ltb_ge in E]; naive_solver lia.
Qed.

(** ** Properties *)

(** The categories the code knows. *)
Definition known_category (category : FailureCategory) : bool :=
  match category with FailureCategoryOther _ => false | _ => true end.

(** In a valid state the controller and the retry planner never disagree:
    both fail on the same categories (exactly those that are no constant of
    the code), with the same error, and otherwise choose the same strategy;
    the next state is a valid one, it is [retrying] exactly for the strategy
    retry and [waiting_approval] exactly for wait-for-approval, and a failure
    never leads to [completed]. *)
Theorem HandleFailure_agrees_with_planner current category :
  validWorkflowState current = true ->
  match HandleFailure current category, StrategyFor category with
  | inr (next, strategy), inr strategy' =>
      known_category category = true /\ strategy = strategy' /\ validWorkflowState next = true /\
      (next = WorkflowStateRetrying <-> strategy = RecoveryStrategyRetry) /\
      (next = WorkflowStateWaitingApproval <-> strategy = RecoveryStrategyWaitForApproval) /\
      next <> WorkflowStateCompleted
  | inl e, inl e' => known_category category = false /\ e = e'
  | _, _ => False
  end.
Proof.
  intros Hv. unfold HandleFailure. rewrite Hv. destruct category; simpl; repeat split; congruence.
Qed.

Lemma HandleFailure_agrees_with_planner_witness :
  match HandleFailure WorkflowStateActing FailureCategoryTimeout, StrategyFor FailureCategoryTimeout with
  | inr (next, strategy), inr strategy' =>
      known_category FailureCategoryTimeout = true /\ strategy = strategy' /\ validWorkflowState next = true /\
      (next = WorkflowStateRetrying <-> strategy = RecoveryStrategyRetry) /\
      (next = WorkflowStateWaitingApproval <-> strategy = RecoveryStrategyWaitForApproval) /\
      next <> WorkflowStateCompleted
  | inl e, inl e' => known_category FailureCategoryTimeout = false /\ e = e'
  | _, _ => False
  end.
Proof. apply (HandleFailure_agrees_with_planner WorkflowStateActing FailureCategoryTimeout). reflexivity. Defined.

(** * [LocalWorkflowRuntime] (local_runtime.go, service_helpers.go, async_commit_guard.go)

    The runtime of one process: checkpoints and resumes, failure handling,
    registration and reevaluation of follow-up graphs, and the durable writes
    that record the outcome of one execution, plain and guarded by a fence. *)

(** The struct.  [None] is a nil interface; [Journal], [Timeline] and
    [EventLog] are the world's, so only whether the pointer is set is kept.
    [Now] and the fallback to [time.Now] are the world's clock. *)
Record LocalWorkflowRuntime := mkRuntime {
  lr_Controller : option WorkflowController;
  lr_CheckpointStore : option CheckpointStore;
  lr_Journal : bool;
  lr_Timeline : bool;
  lr_EventLog : bool;
  lr_TaskGraphs : option TaskGraphStore;
  lr_Executions : option TaskExecutionStore;
  lr_Approvals : option ApprovalStateStore;
  lr_OperatorActions : option OperatorActionStore;
  lr_Replay : option ReplayStore;
  lr_Artifacts : option ArtifactMetadataStore;
  lr_Capabilities : option TaskCapabilityResolver;
  lr_FenceValidator : option FenceValidator
}.
#[export] Instance eta_LocalWorkflowRuntime : Eta LocalWorkflowRuntime := eta! mkRuntime <
  lr_Controller ; lr_CheckpointStore ; lr_Journal ; lr_Timeline ; lr_EventLog ; lr_TaskGraphs ;
  lr_Executions ; lr_Approvals ; lr_OperatorActions ; lr_Replay ; lr_Artifacts ; lr_Capabilities ;
  lr_FenceValidator >.

(** [LocalRuntimeOptions] has the same fields. *)
Definition LocalRuntimeOptions : Type := LocalWorkflowRuntime.

Section runtime.
Context `{MO : MapOrder}.

(** A missing store is a new in-memory one: the (still empty) one of the
    world. *)
Definition NewLocalWorkflowRuntime (options : LocalRuntimeOptions) : LocalWorkflowRuntime := {|
  lr_Controller := Some (default DefaultWorkflowController (lr_Controller options));
  lr_CheckpointStore := Some (default InMemoryCheckpointStore (lr_CheckpointStore options));
  lr_Journal := true;
  lr_Timeline := true;
  lr_EventLog := lr_EventLog options;
  lr_TaskGraphs := Some (default InMemoryTaskGraphStore (lr_TaskGraphs options));
  lr_Executions := Some (default InMemoryTaskExecutionStore (lr_Executions options));
  lr_Approvals := Some (default InMemoryApprovalStateStore (lr_Approvals options));
  lr_OperatorActions := Some (default InMemoryOperatorActionStore (lr_OperatorActions options));
  lr_Replay := Some (default InMemoryReplayStore (lr_Replay options));
  lr_Artifacts := Some (default InMemoryArtifactMetadataStore (lr_Artifacts options));
  lr_Capabilities := lr_Capabilities options;
  lr_FenceValidator := lr_FenceValidator options
|}.

(** ** Logs *)

Definition details (l : list (string * string)) : gmap string string := list_to_map l.

(** [EventLog.Append] of the event log, with its own reading of the clock. *)
Definition log (r : LocalWorkflowRuntime) (ctx : ExecutionContext) (category message : string)
    (d : gmap string string) : M unit :=
  if negb (lr_EventLog r) then mret tt
  else
    at_ ← now;
    modify (fun w => w <| w_log := w_log w ++ [
      {| le_TraceID := ec_CorrelationID ctx; le_CorrelationID := ec_CorrelationID ctx;
         le_Category := category; le_Message := message; le_Details := d; le_OccurredAt := at_ |}] |>).

Definition journal_append (r : LocalWorkflowRuntime) (checkpoint : CheckpointRecord) : M unit :=
  if lr_Journal r then modify (fun w => w <| w_journal := w_journal w ++ [checkpoint] |>) else mret tt.

Definition timeline_append (state : WorkflowExecutionState) (event summary : string) (at_ : time) : M unit :=
  modify (fun w => w <| w_timeline := w_timeline w ++ [
    {| tl_State := state; tl_Event := event; tl_Summary := summary; tl_OccurredAt := at_ |}] |>).

(** [if r.Timeline != nil { r.Timeline.Append(state, event, summary, r.now()) }] *)
Definition timeline_now (r : LocalWorkflowRuntime) (state : WorkflowExecutionState) (event summary : string)
    : M unit :=
  if lr_Timeline r then at_ ← now; timeline_append state event summary at_ else mret tt.

Definition stringsJoin (items : list string) : string := Join items ",".

(** ** Checkpoints *)

(** An operation on a store that nobody keeps. *)
Definition on_scratch {S A} (s : S) (m : ST error S A) : M A := zoom (fun _ => s) (fun _ w => w) m.

(** [if r.CheckpointStore == nil { r.CheckpointStore = NewInMemoryCheckpointStore() }]
    in a method with a value receiver: the new store is lost on return. *)
Definition scratch_CheckpointStore : CheckpointStore :=
  let on {A} (m : ST error Checkpoints.store A) : M A := on_scratch Checkpoints.NewInMemoryCheckpointStore m in {|
  CheckpointStore_Save c := on (Checkpoints.Save c);
  CheckpointStore_Load w c := on (Checkpoints.Load w c);
  CheckpointStore_SaveResumeToken t := on (Checkpoints.SaveResumeToken t);
  CheckpointStore_LoadResumeToken t := on (Checkpoints.LoadResumeToken t);
  CheckpointStore_SavePayload i p := on (Checkpoints.SavePayload i p);
  CheckpointStore_LoadPayload i := on (Checkpoints.LoadPayload i)
|}.

Definition checkpoint_at (ctx : ExecutionContext) (current resumeState : WorkflowExecutionState)
    (stateVersion : Z) (summary : string) (at_ : time) : CheckpointRecord :=
  {| ck_ID := makeID [PStr (ec_WorkflowID ctx); PStr summary; PTime at_];
     ck_WorkflowID := ec_WorkflowID ctx;
     ck_State := current;
     ck_ResumeState := resumeState;
     ck_StateVersion := stateVersion;
     ck_Summary := summary;
     ck_CapturedAt := at_ |}.

Definition resume_token_at (ctx : ExecutionContext) (checkpointID : string) (at_ : time) : ResumeToken :=
  {| rt_Token := makeID [PStr (ec_WorkflowID ctx); PStr checkpointID; PTime at_];
     rt_WorkflowID := ec_WorkflowID ctx;
     rt_CheckpointID := checkpointID;
     rt_IssuedAt := at_;
     rt_ExpiresAt := Add at_ (24 * Hour) |}.

Definition Checkpoint (r : LocalWorkflowRuntime) (ctx : ExecutionContext)
    (current resumeState : WorkflowExecutionState) (stateVersion : Z) (summary : string)
    : M (CheckpointRecord * ResumeToken) :=
  at_ ← now;
  let checkpoint := checkpoint_at ctx current resumeState stateVersion summary at_ in
  let store := default scratch_CheckpointStore (lr_CheckpointStore r) in
  CheckpointStore_Save store checkpoint;;
  journal_append r checkpoint;;
  (if lr_Timeline r then timeline_append current "checkpoint_created" summary at_ else mret tt);;
  log r ctx "checkpoint" summary (details [
    ("checkpoint_id", ck_ID checkpoint); ("state", WorkflowExecutionState_string current)]);;
  let token := resume_token_at ctx (ck_ID checkpoint) at_ in
  CheckpointStore_SaveResumeToken store token;;
  mret (checkpoint, token).

Definition controller_of (r : LocalWorkflowRuntime) : WorkflowController :=
  default DefaultWorkflowController (lr_Controller r).

Definition Runtime_Resume (r : LocalWorkflowRuntime) (ctx : ExecutionContext) (checkpointID : string)
    (token : ResumeToken) : M WorkflowExecutionState :=
  match lr_CheckpointStore r with
  | None => fail (PlainError "checkpoint store is required")
  | Some store =>
      checkpoint ← CheckpointStore_Load store (ec_WorkflowID ctx) checkpointID;
      storedToken ← CheckpointStore_LoadResumeToken store (rt_Token token);
      at_ ← now;
      next ← lift_sum (Controller_Resume (controller_of r) checkpoint storedToken at_);
      timeline_now r next "resumed" (ck_Summary checkpoint);;
      log r ctx "resume" (ck_Summary checkpoint) (details [
        ("checkpoint_id", ck_ID checkpoint); ("next_state", WorkflowExecutionState_string next)]);;
      mret next
  end.

Definition Runtime_HandleFailure (r : LocalWorkflowRuntime) (ctx : ExecutionContext)
    (current : WorkflowExecutionState) (category : FailureCategory) (summary : string)
    : M (WorkflowExecutionState * RecoveryStrategy) :=
  '(next, strategy) ← lift_sum (Controller_HandleFailure (controller_of r) current category);
  timeline_now r next "failure_handled" summary;;
  log r ctx "failure" summary (details [
    ("category", FailureCategory_string category);
    ("strategy", RecoveryStrategy_string strategy);
    ("next", WorkflowExecutionState_string next)]);;
  mret (next, strategy).

Definition Runtime_PauseForApproval (r : LocalWorkflowRuntime) (ctx : ExecutionContext)
    (current : WorkflowExecutionState) (pending : HumanApprovalPending) : M WorkflowExecutionState :=
  next ← lift_sum (Controller_PauseForApproval (controller_of r) current pending);
  timeline_now r next "approval_required" (ha_RequestedAction pending);;
  log r ctx "approval" (ha_RequestedAction pending) (details [
    ("approval_id", ha_ApprovalID pending); ("next_state", WorkflowExecutionState_string next)]);;
  mret next.

(** ** Task graphs *)

(** [base.Snapshot(reason, at)]: reads the system clock when [at] is zero. *)
Definition take_snapshot (s : FinancialWorldState) (reason : string) (at_ : time) : M StateSnapshot :=
  if IsZero at_ then system_now ← now; mret (Snapshot system_now s reason at_)
  else mret (Snapshot zero_time s reason at_).

Definition saveNewTaskGraphSnapshot (graphs : TaskGraphStore) (snapshot : TaskGraphSnapshot)
    : M TaskGraphSnapshot :=
  let snapshot := if gs_Version snapshot == 0 then snapshot <| gs_Version := 1 |> else snapshot in
  TaskGraphStore_Save graphs snapshot;;
  mret snapshot.

Definition saveUpdatedTaskGraphSnapshot (r : LocalWorkflowRuntime) (snapshot : TaskGraphSnapshot)
    (expectedVersion : Z) : M TaskGraphSnapshot :=
  let snapshot := snapshot <| gs_Version := wrap64 (expectedVersion + 1) |> in
  graphs ← deref "TaskGraphStore" (lr_TaskGraphs r);
  TaskGraphStore_Update graphs snapshot expectedVersion;;
  mret snapshot.

Definition scratch_TaskGraphStore : TaskGraphStore :=
  let on {A} (m : ST error TaskGraphs.store A) : M A := on_scratch TaskGraphs.NewInMemoryTaskGraphStore m in {|
  TaskGraphStore_Save s := on (TaskGraphs.Save s);
  TaskGraphStore_Update s v := on (TaskGraphs.Update s v);
  TaskGraphStore_Load g := on (TaskGraphs.Load g);
  TaskGraphStore_List := on TaskGraphs.List;
  TaskGraphStore_SaveStateSnapshot g w t k s := on (TaskGraphs.SaveStateSnapshot g w t k s);
  TaskGraphStore_LoadStateSnapshot i := on (TaskGraphs.LoadStateSnapshot i)
|}.

(** The comparison of [sortExecutions]: by start, then by id. *)
Definition sortExecutions (records : list TaskExecutionRecord) : list TaskExecutionRecord :=
  slices_SortFunc (compare_time_id te_StartedAt te_ExecutionID) records.

Definition loadTaskGraphSnapshot (r : LocalWorkflowRuntime) (graphID : string) : M TaskGraphSnapshot :=
  match lr_TaskGraphs r with
  | None => fail (PlainError "task graph store is required")
  | Some graphs =>
      found ← TaskGraphStore_Load graphs graphID;
      match found with
      | None => fail (NotFoundError "task_graph" graphID)
      | Some snapshot =>
          match lr_Executions r with
          | None => mret snapshot
          | Some store =>
              executions ← TaskExecutionStore_ListByGraph store graphID;
              mret (snapshot <| gs_ExecutedTasks := sortExecutions executions |>)
          end
      end
  end.

Definition loadStateSnapshot (r : LocalWorkflowRuntime) (snapshotRef : string) : M StateSnapshot :=
  match lr_TaskGraphs r with
  | None => fail (PlainError "task graph store is required")
  | Some graphs =>
      found ← TaskGraphStore_LoadStateSnapshot graphs snapshotRef;
      match found with
      | None => fail (NotFoundError "state_snapshot" snapshotRef)
      | Some snapshot => mret snapshot
      end
  end.

Definition log_registered (r : LocalWorkflowRuntime) (ctx : ExecutionContext) (graph : TaskGraph)
    (item : FollowUpTaskRecord) : M unit :=
  log r ctx "follow_up_task_registered" ("registered follow-up task " +:+ ts_ID (ft_Task item)) (details [
    ("graph_id", tg_GraphID graph);
    ("task_id", ts_ID (ft_Task item));
    ("intent", UserIntentType_string (ts_UserIntentType (ft_Task item)));
    ("status", TaskQueueStatus_string (ft_Status item));
    ("required_capability", ft_RequiredCapability item);
    ("missing_capability_reason", ft_MissingCapabilityReason item)]).

Definition RegisterFollowUpTasks (r : LocalWorkflowRuntime) (ctx : ExecutionContext) (graph : TaskGraph)
    (base : FinancialWorldState) : M FollowUpRegistrationResult :=
  at_ ← now;
  result ← RegisterFollowUpTaskGraph graph (lr_Capabilities r) at_;
  let graphs := default scratch_TaskGraphStore (lr_TaskGraphs r) in
  captured ← now;
  baseSnapshot ← take_snapshot base "follow_up_task_graph_registered" captured;
  registeredAt ← now;
  let snapshot := zero <| gs_Graph := fr_Graph result |>
    <| gs_Version := 1 |>
    <| gs_RegisteredTasks := fr_RegisteredTasks result |>
    <| gs_Spawned := fr_Spawned result |>
    <| gs_Deferred := fr_Deferred result |>
    <| gs_BaseStateSnapshot := baseSnapshot |>
    <| gs_BaseStateSnapshotRef := snapshotRefFor baseSnapshot |>
    <| gs_LatestCommittedStateSnapshot := baseSnapshot |>
    <| gs_LatestCommittedStateRef := snapshotRefFor baseSnapshot |>
    <| gs_RegisteredAt := registeredAt |> in
  saveNewTaskGraphSnapshot graphs snapshot;;
  tasks ← read_array (fr_RegisteredTasks result);
  let count := Itoa (Z.of_nat (length tasks)) in
  timeline_now r WorkflowStateActing "follow_up_tasks_registered" ("registered " +:+ count +:+ " follow-up tasks");;
  log r ctx "follow_up_tasks" ("registered " +:+ count +:+ " generated tasks") (details [
    ("graph_id", tg_GraphID graph); ("task_count", count); ("workflow_id", tg_ParentWorkflowID graph)]);;
  for_each (log_registered r ctx graph) tasks;;
  mret result.

Definition log_status (r : LocalWorkflowRuntime) (ctx : ExecutionContext) (graphID : string)
    (item : FollowUpTaskRecord) : M unit :=
  log r ctx "follow_up_task_status"
    ("task " +:+ ts_ID (ft_Task item) +:+ " reevaluated to " +:+ TaskQueueStatus_string (ft_Status item)) (details [
    ("graph_id", graphID);
    ("task_id", ts_ID (ft_Task item));
    ("intent", UserIntentType_string (ts_UserIntentType (ft_Task item)));
    ("status", TaskQueueStatus_string (ft_Status item));
    ("blocking_reasons", stringsJoin (ft_BlockingReasons item));
    ("suppressed_reasons", stringsJoin (ft_SuppressedReasons item));
    ("required_capability", ft_RequiredCapability item)]).

Definition ReevaluateTaskGraph (r : LocalWorkflowRuntime) (ctx : ExecutionContext) (graphID : string)
    : M TaskActivationResult :=
  match lr_TaskGraphs r with
  | None => fail (PlainError "task graph store is required")
  | Some _ =>
      snapshot ← loadTaskGraphSnapshot r graphID;
      let expectedVersion := gs_Version snapshot in
      at_ ← now;
      '(updated, activation) ← ReevaluateFollowUpTaskGraph snapshot (lr_Capabilities r) at_;
      saveUpdatedTaskGraphSnapshot r updated expectedVersion;;
      log r ctx "follow_up_task_activation" ("reevaluated follow-up task graph " +:+ graphID) (details [
        ("graph_id", graphID); ("ready_task_ids", stringsJoin (ta_ReadyTaskIDs activation))]);;
      for_each (log_status r ctx graphID) (ta_RegisteredTasks activation);;
      mret activation
  end.

(** ** The durable outcome of an execution *)

Definition committedStateRef (record : TaskExecutionRecord) (snapshot : TaskGraphSnapshot) : string :=
  if negb (te_Committed record) then gs_LatestCommittedStateRef snapshot
  else if te_UpdatedStateSnapshotRef record != "" then te_UpdatedStateSnapshotRef record
  else gs_LatestCommittedStateRef snapshot.

(** The approval request of a result that waits for one. *)
Definition pending_approval_record (snapshot : TaskGraphSnapshot) (record : TaskExecutionRecord)
    (pending : HumanApprovalPending) : ApprovalStateRecord :=
  zero <| as_ApprovalID := ha_ApprovalID pending |>
    <| as_GraphID := tg_GraphID (gs_Graph snapshot) |>
    <| as_TaskID := te_TaskID record |>
    <| as_WorkflowID := ha_WorkflowID pending |>
    <| as_ExecutionID := te_ExecutionID record |>
    <| as_RequestedAction := ha_RequestedAction pending |>
    <| as_RequiredRoles := ha_RequiredRoles pending |>
    <| as_RequestedAt := ha_RequestedAt pending |>
    <| as_Deadline := ha_Deadline pending |>
    <| as_Status := ApprovalStatusPending |>
    <| as_Version := 1 |>.

Definition execution_replay_details (record : TaskExecutionRecord) : followUpExecutionReplayDetails := {|
  fd_Status := te_Status record;
  fd_Intent := UserIntentType_string (te_Intent record);
  fd_FailureCategory := te_FailureCategory record;
  fd_FailureSummary := te_FailureSummary record;
  fd_ApprovalID := te_ApprovalID record;
  fd_CheckpointID := te_CheckpointID record;
  fd_ResumeToken := te_ResumeToken record;
  fd_Committed := te_Committed record;
  fd_UpdatedStateRef := te_UpdatedStateSnapshotRef record;
  fd_ArtifactIDs := te_ArtifactIDs record
|}.

Definition execution_replay_event (snapshot : TaskGraphSnapshot) (record : TaskExecutionRecord)
    : ReplayEventRecord := {|
  ev_EventID := makeID [PStr "replay"; PStr (tg_GraphID (gs_Graph snapshot)); PStr (te_ExecutionID record);
                        PStr (TaskQueueStatus_string (te_Status record)); PTime (te_LastTransitionAt record)];
  ev_RootCorrelationID := te_RootCorrelationID record;
  ev_ParentWorkflowID := te_ParentWorkflowID record;
  ev_WorkflowID := te_WorkflowID record;
  ev_GraphID := tg_GraphID (gs_Graph snapshot);
  ev_TaskID := te_TaskID record;
  ev_ApprovalID := te_ApprovalID record;
  ev_ExecutionID := te_ExecutionID record;
  ev_ActionType := "follow_up_execution";
  ev_Summary := "follow-up task " +:+ te_TaskID record +:+ " ended as " +:+ TaskQueueStatus_string (te_Status record);
  ev_OccurredAt := te_LastTransitionAt record;
  ev_DetailsJSON := marshal_followUpExecutionReplayDetails (execution_replay_details record);
  ev_CommittedStateRef := committedStateRef record snapshot;
  ev_UpdatedStateRef := te_UpdatedStateSnapshotRef record;
  ev_ArtifactIDs := te_ArtifactIDs record;
  ev_OperatorActionID := "";
  ev_CheckpointID := te_CheckpointID record;
  ev_ResumeToken := te_ResumeToken record
|}.

(** The writes of one outcome, each skipped when its store or its part of the
    result is nil.  [guard] runs before the write: nothing in the plain
    function, the fence validation in the guarded one. *)
Section writes.
Variables (r : LocalWorkflowRuntime) (snapshot : TaskGraphSnapshot) (result : FollowUpWorkflowRunResult).
Variable guard : M unit.

(** Sets [UpdatedStateSnapshotRef] of the record. *)
Definition write_state (record : TaskExecutionRecord) : M TaskExecutionRecord :=
  match lr_TaskGraphs r with
  | Some graphs =>
      if sv_SnapshotID (fw_Version (fx_UpdatedState result)) != "" then
        guard;;
        let kind := if te_Status record == TaskQueueStatusCompleted
                    then "follow_up_committed" else "follow_up_pending" in
        captured ← take_snapshot (fx_UpdatedState result) kind (te_LastTransitionAt record);
        ref ← TaskGraphStore_SaveStateSnapshot graphs (tg_GraphID (gs_Graph snapshot))
                (te_WorkflowID record) (te_TaskID record) kind captured;
        mret (record <| te_UpdatedStateSnapshotRef := ref |>)
      else mret record
  | None => mret record
  end.

Definition write_checkpoint : M unit :=
  match lr_CheckpointStore r, fx_Checkpoint result with
  | Some store, Some checkpoint => guard;; CheckpointStore_Save store checkpoint
  | _, _ => mret tt
  end.

Definition write_resume_token : M unit :=
  match lr_CheckpointStore r, fx_ResumeToken result with
  | Some store, Some token => guard;; CheckpointStore_SaveResumeToken store token
  | _, _ => mret tt
  end.

Definition write_payload : M unit :=
  match lr_CheckpointStore r, fx_Checkpoint result, fx_CheckpointPayload result with
  | Some store, Some checkpoint, Some payload =>
      guard;; CheckpointStore_SavePayload store (ck_ID checkpoint) payload
  | _, _, _ => mret tt
  end.

(** A conflict (the approval exists) is not an error. *)
Definition write_approval (record : TaskExecutionRecord) : M unit :=
  match lr_Approvals r, fx_PendingApproval result with
  | Some store, Some pending =>
      guard;;
      saved ← attempt (ApprovalStateStore_Save store (pending_approval_record snapshot record pending));
      match saved with
      | inl e => if IsConflict e then mret tt else fail e
      | inr _ => mret tt
      end
  | _, _ => mret tt
  end.

Definition write_artifacts (record : TaskExecutionRecord) : M unit :=
  match lr_Artifacts r with
  | Some store =>
      for_each (fun artifact =>
        guard;; ArtifactMetadataStore_SaveArtifact store (te_WorkflowID record) (te_TaskID record) artifact)
        (fx_Artifacts result)
  | None => mret tt
  end.

Definition write_execution (record : TaskExecutionRecord) : M unit :=
  match lr_Executions r with
  | Some store =>
      guard;;
      found ← TaskExecutionStore_Load store (te_ExecutionID record);
      match found with
      | Some current => TaskExecutionStore_Update store record (te_Version current)
      | None => TaskExecutionStore_Save store record
      end
  | None => mret tt
  end.

Definition write_replay (record : TaskExecutionRecord) : M unit :=
  match lr_Replay r with
  | Some store => guard;; ReplayStore_Append store (execution_replay_event snapshot record)
  | None => mret tt
  end.

(** All of them, in the order of the code; the record as the caller's pointer
    has it afterwards (no caller passes nil). *)
Definition write_outcome (record : TaskExecutionRecord) : M TaskExecutionRecord :=
  ensure (te_ExecutionID record != "") (PlainError "task execution requires execution id");;
  let record := if te_Version record == 0 then record <| te_Version := 1 |> else record in
  record ← write_state record;
  write_checkpoint;;
  write_resume_token;;
  write_payload;;
  write_approval record;;
  write_artifacts record;;
  write_execution record;;
  write_replay record;;
  mret record.
End writes.

Definition persistExecutionOutcome (r : LocalWorkflowRuntime) (snapshot : TaskGraphSnapshot)
    (record : TaskExecutionRecord) (result : FollowUpWorkflowRunResult) : M TaskExecutionRecord :=
  write_outcome r snapshot result (mret tt) record.

(** *** Behind a fence *)

Definition validateFence (r : LocalWorkflowRuntime) (fence : option FenceValidation) : M unit :=
  match fence, lr_FenceValidator r with
  | Some fence, Some validate => validate fence
  | _, _ => mret tt
  end.

Definition saveUpdatedTaskGraphSnapshotGuarded (r : LocalWorkflowRuntime) (snapshot : TaskGraphSnapshot)
    (expectedVersion : Z) (fence : option FenceValidation) : M TaskGraphSnapshot :=
  validateFence r fence;;
  saveUpdatedTaskGraphSnapshot r snapshot expectedVersion.

Definition persistExecutionOutcomeGuarded (r : LocalWorkflowRuntime) (snapshot : TaskGraphSnapshot)
    (record : TaskExecutionRecord) (result : FollowUpWorkflowRunResult) (fence : option FenceValidation)
    : M TaskExecutionRecord :=
  validateFence r fence;;
  write_outcome r snapshot result (validateFence r fence) record.
End runtime.
