(* ===== verification/Activation.v ===== *)
(** * Executing ready follow-up tasks (task_activation.go, task_dispatch.go)

    [executeReadyFollowUps] alternates reevaluation of the graph with the
    execution of one ready task until nothing the policy allows is ready.
    Task records are updated in place in the array that the snapshot, its
    copies and the in-memory store share. *)

From S2P Require Export LocalRuntime.
#[local] Open Scope Z_scope.

(** ** Policy *)

Definition DefaultAutoExecutionPolicy : AutoExecutionPolicy := {|
  ap_AllowedIntents := <[UserIntentTaxOptimization := tt]> (<[UserIntentPortfolioRebalance := tt]> ∅);
  ap_MaxExecutionDepth := 1;
  ap_MaxAttempts := 2;
  ap_ContinueIndependentOnFailure := true;
  ap_ContinueIndependentOnApproval := true
|}.

(** [AutoExecutionPolicy.allows] *)
Definition allows (p : AutoExecutionPolicy) (task : FollowUpTaskRecord) : bool * string :=
  let maxDepth := if ap_MaxExecutionDepth p <=? 0 then 1 else ap_MaxExecutionDepth p in
  if maxDepth <? gm_ExecutionDepth (ft_Metadata task)
  then (false, "suppressed because execution_depth > " +:+ Itoa maxDepth)
  else if bool_decide (ap_AllowedIntents p = ∅) then (false, "not auto-run: no intents are allowlisted")
  else match ap_AllowedIntents p !! ts_UserIntentType (ft_Task task) with
  | None => (false, "not auto-run: intent not in allowlist")
  | Some _ => (true, "")
  end.

(** ** Updates of task records *)

(** The records of one task, one after the other; [None] is a nil slice. *)
Definition set_task_status (taskID : string) (status : TaskQueueStatus) (blocking suppressed : option (list string))
    (at_ : time) (item : FollowUpTaskRecord) : FollowUpTaskRecord :=
  if ts_ID (ft_Task item) != taskID then item
  else
    let item := item <| ft_Status := status |> <| ft_Version := wrap64 (ft_Version item + 1) |> in
    let item := match blocking with Some b => item <| ft_BlockingReasons := b |> | None => item end in
    let item := match suppressed with Some s => item <| ft_SuppressedReasons := s |> | None => item end in
    item <| ft_LastUpdatedAt := at_ |>.

Definition suppress_task (taskID reason : string) (at_ : time) (item : FollowUpTaskRecord) : FollowUpTaskRecord :=
  if ts_ID (ft_Task item) != taskID then item
  else item <| ft_Version := wrap64 (ft_Version item + 1) |>
            <| ft_SuppressedReasons := uniqueStrings (ft_SuppressedReasons item ++ [reason]) |>
            <| ft_LastUpdatedAt := at_ |>.

Definition unsuppress_task (taskID : string) (at_ : time) (item : FollowUpTaskRecord) : FollowUpTaskRecord :=
  if ts_ID (ft_Task item) != taskID then item
  else item <| ft_Version := wrap64 (ft_Version item + 1) |>
            <| ft_SuppressedReasons := [] |>
            <| ft_LastUpdatedAt := at_ |>.

(** [for i := range snapshot.RegisteredTasks { ... }], in place. *)
Definition update_array (a : addr) (f : FollowUpTaskRecord -> FollowUpTaskRecord) : M unit :=
  records ← read_array a;
  write_array a (f <$> records).

Definition updateTaskStatus (snapshot : TaskGraphSnapshot) (taskID : string) (status : TaskQueueStatus)
    (blocking suppressed : option (list string)) (at_ : time) : M TaskGraphSnapshot :=
  update_array (gs_RegisteredTasks snapshot) (set_task_status taskID status blocking suppressed at_);;
  records ← read_array (gs_RegisteredTasks snapshot);
  let '(spawned, deferred) := deriveSpawnedAndDeferred records at_ in
  mret (snapshot <| gs_Spawned := spawned |> <| gs_Deferred := deferred |>).

Definition updateTaskSuppression (snapshot : TaskGraphSnapshot) (taskID reason : string) (at_ : time)
    : M TaskGraphSnapshot :=
  update_array (gs_RegisteredTasks snapshot) (suppress_task taskID reason at_);;
  mret snapshot.

Definition clearTaskSuppression (snapshot : TaskGraphSnapshot) (taskID : string) (at_ : time)
    : M TaskGraphSnapshot :=
  update_array (gs_RegisteredTasks snapshot) (unsuppress_task taskID at_);;
  mret snapshot.

(** [graphMutationChanged]: the two arrays as they are now. *)
Definition graphMutationChanged (before after : TaskGraphSnapshot) : M bool :=
  b ← read_array (gs_RegisteredTasks before);
  a ← read_array (gs_RegisteredTasks after);
  mret ((b != a) || (gs_Spawned before != gs_Spawned after) || (gs_Deferred before != gs_Deferred after)
        || (gs_LatestCommittedStateRef before != gs_LatestCommittedStateRef after)).

(** ** Execution records *)

Definition buildActivationContext (graph : TaskGraph) (task : FollowUpTaskRecord) : FollowUpActivationContext :=
  let '(sourceEvidenceIDs, lifeEventID, lifeEventKind) :=
    fold_left (fun '(ids, event, kind) reason =>
      (ids ++ tr_EvidenceIDs reason ++ tr_DeadlineEvidence reason,
       (if (tr_LifeEventID reason != "") && (event == "") then tr_LifeEventID reason else event),
       (if (tr_LifeEventKind reason != "") && (kind == "") then tr_LifeEventKind reason else kind)))
      (gm_GenerationReasons (ft_Metadata task)) ([], "", "") in
  {| ac_GraphID := tg_GraphID graph;
     ac_ParentGraphID := tg_GraphID graph;
     ac_ParentWorkflowID := tg_ParentWorkflowID graph;
     ac_RootTaskID := tg_ParentTaskID graph;
     ac_TriggeredByTaskID := ts_ID (ft_Task task);
     ac_RootCorrelationID := firstNonEmpty [gm_RootCorrelationID (ft_Metadata task); tg_ParentWorkflowID graph];
     ac_TriggerSource := gm_TriggerSource (ft_Metadata task);
     ac_GenerationReasons := gm_GenerationReasons (ft_Metadata task);
     ac_LifeEventID := lifeEventID;
     ac_LifeEventKind := lifeEventKind;
     ac_SourceEvidenceIDs := uniqueStrings sourceEvidenceIDs;
     ac_ExecutionDepth := gm_ExecutionDepth (ft_Metadata task) |}.

Definition unsupported_terminal : string := "follow-up workflow returned an unsupported terminal state".

Definition finalizeTaskExecutionRecord (record : TaskExecutionRecord) (result : FollowUpWorkflowRunResult)
    (now : time) : TaskExecutionRecord :=
  let record := record <| te_WorkflowID := fx_WorkflowID result |> in
  let record := if fx_LastRecoveryStrategy result != RecoveryStrategyOther ""
                then record <| te_LastRecoveryStrategy := fx_LastRecoveryStrategy result |> else record in
  let record := record <| te_LastTransitionAt := now |>
    <| te_UpdatedStateVersion := sv_Sequence (fw_Version (fx_UpdatedState result)) |>
    <| te_UpdatedStateSnapshotRef := sv_SnapshotID (fw_Version (fx_UpdatedState result)) |>
    <| te_ArtifactIDs := artifactIDs (fx_Artifacts result) |> in
  match fx_RuntimeState result with
  | WorkflowStateCompleted =>
      record <| te_Status := TaskQueueStatusCompleted |> <| te_Committed := true |> <| te_CompletedAt := now |>
  | WorkflowStateWaitingApproval =>
      let record := record <| te_Status := TaskQueueStatusWaitingApproval |>
        <| te_PendingApproval := is_set (fx_PendingApproval result) |>
        <| te_Committed := false |> in
      let record := match fx_PendingApproval result with
                    | Some p => record <| te_ApprovalID := ha_ApprovalID p |>
                    | None => record end in
      let record := match fx_Checkpoint result with
                    | Some c => record <| te_CheckpointID := ck_ID c |> <| te_ResumeState := ck_ResumeState c |>
                    | None => record end in
      match fx_ResumeToken result with
      | Some t => record <| te_ResumeToken := rt_Token t |>
      | None => record
      end
  | WorkflowStateFailed | WorkflowStateReplanning | WorkflowStateRetrying =>
      record <| te_Status := TaskQueueStatusFailed |>
        <| te_FailureCategory := fx_FailureCategory result |>
        <| te_FailureSummary := fx_FailureSummary result |>
        <| te_FailedAt := now |>
  | _ =>
      record <| te_Status := TaskQueueStatusFailed |>
        <| te_FailureSummary := firstNonEmpty [fx_FailureSummary result; unsupported_terminal] |>
        <| te_FailedAt := now |>
  end.

Definition executionBlockingReasons (record : TaskExecutionRecord) : option (list string) :=
  match te_Status record with
  | TaskQueueStatusWaitingApproval =>
      if te_ApprovalID record != "" then Some ["waiting for approval " +:+ te_ApprovalID record]
      else Some ["waiting for human approval"]
  | TaskQueueStatusFailed =>
      if te_FailureSummary record != "" then Some [te_FailureSummary record]
      else Some ["follow-up execution failed"]
  | _ => None
  end.

(** [applyExecutionRecord]: the committed state moves on only for a completed
    task. *)
Definition applyExecutionRecord (snapshot : TaskGraphSnapshot) (record : TaskExecutionRecord)
    (result : FollowUpWorkflowRunResult) : M TaskGraphSnapshot :=
  let snapshot := snapshot <| gs_ExecutedTasks := gs_ExecutedTasks snapshot ++ [record] |> in
  snapshot ←
    (if te_Status record == TaskQueueStatusCompleted then
       committed ← take_snapshot (fx_UpdatedState result) "follow_up_task_committed" (te_CompletedAt record);
       mret (snapshot <| gs_LatestCommittedStateSnapshot := committed |>
                      <| gs_LatestCommittedStateRef :=
                           firstNonEmpty [te_UpdatedStateSnapshotRef record; snapshotRefFor committed] |>)
     else mret snapshot);
  updateTaskStatus snapshot (te_TaskID record) (te_Status record) (executionBlockingReasons record) None
    (te_LastTransitionAt record).

(** ** Executing one task *)

Section execution.
Context `{MO : MapOrder}.

Definition started_record (graph : TaskGraph) (task : FollowUpTaskRecord) (activation : FollowUpActivationContext)
    (inputState : FinancialWorldState) (startedAt : time) : TaskExecutionRecord :=
  zero <| te_ExecutionID := makeID [PStr (tg_GraphID graph); PStr (ts_ID (ft_Task task)); PTime startedAt] |>
    <| te_TaskID := ts_ID (ft_Task task) |>
    <| te_Intent := ts_UserIntentType (ft_Task task) |>
    <| te_ParentGraphID := tg_GraphID graph |>
    <| te_ParentWorkflowID := tg_ParentWorkflowID graph |>
    <| te_RootTaskID := ac_RootTaskID activation |>
    <| te_TriggeredByTaskID := ac_TriggeredByTaskID activation |>
    <| te_ExecutionDepth := ac_ExecutionDepth activation |>
    <| te_Capability := ft_RequiredCapability task |>
    <| te_RootCorrelationID := ac_RootCorrelationID activation |>
    <| te_CorrelationID := ac_RootCorrelationID activation |>
    <| te_CausationID := ts_ID (ft_Task task) |>
    <| te_Status := TaskQueueStatusExecuting |>
    <| te_Version := 1 |>
    <| te_Attempt := 1 |>
    <| te_LastTransitionAt := startedAt |>
    <| te_StartedAt := startedAt |>
    <| te_InputStateVersion := sv_Sequence (fw_Version inputState) |>
    <| te_InputStateSnapshotRef := sv_SnapshotID (fw_Version inputState) |>.

(** What the parameters of [executeSingleFollowUp] fix for all attempts. *)
Section attempts.
Variables (r : LocalWorkflowRuntime) (parentExecCtx : ExecutionContext) (graph : TaskGraph)
  (task : FollowUpTaskRecord) (activation : FollowUpActivationContext)
  (capability : FollowUpWorkflowCapability) (inputState : FinancialWorldState) (maxAttempts : Z).

#[local] Abbreviation taskID := (ts_ID (ft_Task task)).

Definition log_finished (finalized : TaskExecutionRecord) : M unit :=
  let waiting := te_Status finalized == TaskQueueStatusWaitingApproval in
  log r parentExecCtx
    (if waiting then "follow_up_task_execution_waiting_approval" else "follow_up_task_execution_completed")
    (if waiting then "follow-up task " +:+ taskID +:+ " is waiting approval"
     else "completed follow-up task " +:+ taskID)
    (details [
      ("graph_id", tg_GraphID graph); ("task_id", taskID);
      ("workflow_id", te_WorkflowID finalized);
      ("status", TaskQueueStatus_string (te_Status finalized));
      ("artifact_ids", Join (te_ArtifactIDs finalized) ",")]).

Definition log_retry (attempt : Z) (category : FailureCategory) (strategy : RecoveryStrategy) : M unit :=
  log r parentExecCtx "follow_up_task_retry" ("retrying follow-up task " +:+ taskID) (details [
    ("graph_id", tg_GraphID graph); ("task_id", taskID);
    ("attempt", Itoa (attempt + 1));
    ("failure_category", FailureCategory_string category);
    ("recovery_strategy", RecoveryStrategy_string strategy)]).

Definition log_failed (record : TaskExecutionRecord) : M unit :=
  log r parentExecCtx
    (if te_Status record == TaskQueueStatusWaitingApproval
     then "follow_up_task_execution_waiting_approval" else "follow_up_task_execution_failed")
    ("follow-up task " +:+ taskID +:+ " ended with " +:+ TaskQueueStatus_string (te_Status record))
    (details [
      ("graph_id", tg_GraphID graph); ("task_id", taskID);
      ("status", TaskQueueStatus_string (te_Status record));
      ("failure_category", FailureCategory_string (te_FailureCategory record));
      ("failure_summary", te_FailureSummary record);
      ("recovery_strategy", RecoveryStrategy_string (te_LastRecoveryStrategy record))]).

(** The record after the last attempt failed with [e]. *)
Definition gave_up (record : TaskExecutionRecord) (category : FailureCategory) (e : error)
    (next : WorkflowExecutionState) (failedAt transitionAt : time) : TaskExecutionRecord :=
  let record := record <| te_Status := TaskQueueStatusFailed |>
    <| te_FailureCategory := category |>
    <| te_FailureSummary := error_string e |>
    <| te_FailedAt := failedAt |>
    <| te_LastTransitionAt := transitionAt |> in
  if next == WorkflowStateWaitingApproval then record <| te_Status := TaskQueueStatusWaitingApproval |>
  else record.

(** [for attempt := 1; attempt <= maxAttempts; attempt++]; [left] is how many
    attempts remain, [number] is Go's [attempt].  With none left the loop has ended without a return:
    [lastErr] tells whether anything failed. *)
Fixpoint attempts (left : nat) (number : Z) (record : TaskExecutionRecord) (lastErr : bool)
    : M (TaskExecutionRecord * FollowUpWorkflowRunResult) :=
  let ended (record : TaskExecutionRecord) (lastErr : bool) :=
    (if lastErr then log_failed record else mret tt);;
    mret (record, zero) in
  match left with
  | O => ended record lastErr
  | S left' =>
      let record := record <| te_Attempt := number |> in
      ran ← attempt (Capability_Execute capability (ft_Task task) activation inputState);
      match ran with
      | inr childResult =>
          at_ ← now;
          let finalized := finalizeTaskExecutionRecord record childResult at_ in
          log_finished finalized;;
          mret (finalized, childResult)
      | inl e =>
          let category := failureCategoryFromExecutionError (Some e) in
          '(next, strategy) ← Runtime_HandleFailure r
            {| ec_WorkflowID := tg_ParentWorkflowID graph; ec_TaskID := taskID;
               ec_CorrelationID := ac_RootCorrelationID activation; ec_Attempt := number |}
            WorkflowStateActing category (error_string e);
          at_ ← now;
          let record := record <| te_LastRecoveryStrategy := strategy |> <| te_LastTransitionAt := at_ |> in
          if (strategy == RecoveryStrategyRetry) && (number <? maxAttempts) then
            let record := record <| te_RetryCount := wrap64 (te_RetryCount record + 1) |> in
            log_retry number category strategy;;
            attempts left' (number + 1) record true
          else
            failedAt ← now;
            transitionAt ← now;
            ended (gave_up record category e next failedAt transitionAt) true
      end
  end.
End attempts.

Definition executeSingleFollowUp (r : LocalWorkflowRuntime) (parentExecCtx : ExecutionContext)
    (snapshot : TaskGraphSnapshot) (task : FollowUpTaskRecord) (capability : FollowUpWorkflowCapability)
    (inputState : FinancialWorldState) (maxAttempts : Z) : M (TaskExecutionRecord * FollowUpWorkflowRunResult) :=
  let maxAttempts := if maxAttempts <=? 0 then 1 else maxAttempts in
  startedAt ← now;
  let graph := gs_Graph snapshot in
  let activation := buildActivationContext graph task in
  let record := started_record graph task activation inputState startedAt in
  updateTaskStatus snapshot (ts_ID (ft_Task task)) TaskQueueStatusExecuting None None startedAt;;
  log r parentExecCtx "follow_up_task_execution_started" ("executing follow-up task " +:+ ts_ID (ft_Task task))
    (details [
      ("graph_id", tg_GraphID graph); ("task_id", ts_ID (ft_Task task));
      ("intent", UserIntentType_string (ts_UserIntentType (ft_Task task)));
      ("required_capability", ft_RequiredCapability task)]);;
  attempts r parentExecCtx graph task activation capability inputState maxAttempts
    (Z.to_nat maxAttempts) 1 record false.

(** ** The batch *)

(** The variables of [executeReadyFollowUps] that the loops assign. *)
Record batch := mkBatch {
  bt_snapshot : TaskGraphSnapshot;
  bt_expectedVersion : Z;
  bt_executed : list TaskExecutionRecord;
  bt_dirty : bool
}.

Section batch_loop.
Variables (r : LocalWorkflowRuntime) (execCtx : ExecutionContext) (graphID : string)
  (policy : AutoExecutionPolicy) (fence : option FenceValidation).

(** [snapshot, err = r.saveUpdatedTaskGraphSnapshotGuarded(...); expectedVersion = snapshot.Version] *)
Definition save_batch (b : batch) (snapshot : TaskGraphSnapshot) : M batch :=
  saved ← saveUpdatedTaskGraphSnapshotGuarded r snapshot (bt_expectedVersion b) fence;
  mret (mkBatch saved (gs_Version saved) (bt_executed b) false).

Definition suppress (b : batch) (task : FollowUpTaskRecord) (reason : string) : M batch :=
  at_ ← now;
  snapshot ← updateTaskSuppression (bt_snapshot b) (ts_ID (ft_Task task)) reason at_;
  mret (mkBatch snapshot (bt_expectedVersion b) (bt_executed b) true).

(** The task is allowed and has a workflow: run it, record it, save the graph. *)
Definition run_task (b : batch) (task : FollowUpTaskRecord) (capability : FollowUpWorkflowCapability) : M batch :=
  let snapshot := bt_snapshot b in
  let committed := ss_State (gs_LatestCommittedStateSnapshot snapshot) in
  let inputState := if sv_Sequence (fw_Version committed) == 0
                    then ss_State (gs_BaseStateSnapshot snapshot) else committed in
  '(record, childResult) ← executeSingleFollowUp r execCtx snapshot task capability inputState
                             (ap_MaxAttempts policy);
  record ← persistExecutionOutcomeGuarded r snapshot record childResult fence;
  snapshot ← applyExecutionRecord snapshot record childResult;
  save_batch (mkBatch snapshot (bt_expectedVersion b) (bt_executed b ++ [record]) (bt_dirty b)) snapshot.

(** [for _, task := range ReadyTasksInExecutionOrder(snapshot)]: stops at the
    first task it runs; the boolean is [progressed]. *)
Fixpoint ready_loop (b : batch) (tasks : list FollowUpTaskRecord) : M (batch * bool) :=
  match tasks with
  | [] => mret (b, false)
  | task :: tasks' =>
      let '(allowed, suppressedReason) := allows policy task in
      if negb allowed then
        b ← suppress b task suppressedReason;
        log r execCtx "follow_up_task_suppressed" ("suppressed auto-run for task " +:+ ts_ID (ft_Task task))
          (details [
            ("graph_id", graphID); ("task_id", ts_ID (ft_Task task));
            ("intent", UserIntentType_string (ts_UserIntentType (ft_Task task)));
            ("suppressed_reasons", suppressedReason)]);;
        ready_loop b tasks'
      else
        at_ ← now;
        snapshot ← clearTaskSuppression (bt_snapshot b) (ts_ID (ft_Task task)) at_;
        let b := mkBatch snapshot (bt_expectedVersion b) (bt_executed b) true in
        resolver ← deref "TaskCapabilityResolver" (lr_Capabilities r);
        match Resolver_ResolveWorkflow resolver (ft_Task task) with
        | (Some capability, true, _) => b ← run_task b task capability; mret (b, true)
        | (_, _, reason) => b ← suppress b task reason; ready_loop b tasks'
        end
  end.

(** Reevaluate, and save if anything changed. *)
Definition reevaluate_batch (b : batch) : M batch :=
  at_ ← now;
  '(updated, _) ← ReevaluateFollowUpTaskGraph (bt_snapshot b) (lr_Capabilities r) at_;
  changed ← graphMutationChanged (bt_snapshot b) updated;
  if (changed : bool) then save_batch b updated
  else mret (mkBatch updated (bt_expectedVersion b) (bt_executed b) false).

(** The outer [for]; [fuel] bounds its turns. *)
Fixpoint batch_loop (fuel : nat) (b : batch) : M batch :=
  match fuel with
  | O => out_of_fuel
  | S fuel' =>
      b ← reevaluate_batch b;
      records ← read_array (gs_RegisteredTasks (bt_snapshot b));
      '(b, progressed) ← ready_loop b (ReadyTasksInExecutionOrder (gs_Graph (bt_snapshot b)) records);
      if (progressed : bool) then batch_loop fuel' b
      else if bt_dirty b then save_batch b (bt_snapshot b)
      else mret b
  end.
End batch_loop.

(** At most one turn per registered task runs a task, and a last one finds
    nothing to run: see [executeReadyFollowUps_total]. *)
Definition executeReadyFollowUps (r : LocalWorkflowRuntime) (execCtx : ExecutionContext) (graphID : string)
    (policy : AutoExecutionPolicy) (fence : option FenceValidation) : M FollowUpExecutionBatchResult :=
  match lr_TaskGraphs r with
  | None => fail (PlainError "task graph store is required")
  | Some _ =>
      let policy := if ap_MaxExecutionDepth policy <=? 0 then DefaultAutoExecutionPolicy else policy in
      snapshot ← loadTaskGraphSnapshot r graphID;
      tasks ← read_array (gs_RegisteredTasks snapshot);
      b ← batch_loop r execCtx graphID policy fence (S (length tasks))
            (mkBatch snapshot (gs_Version snapshot) [] false);
      records ← read_array (gs_RegisteredTasks (bt_snapshot b));
      at_ ← now;
      mret {| fb_GraphID := graphID;
              fb_RegisteredTasks := records;
              fb_ExecutedTasks := bt_executed b;
              fb_LatestCommittedStateSnapshot := gs_LatestCommittedStateSnapshot (bt_snapshot b);
              fb_ExecutedAt := at_ |}
  end.

Definition ExecuteReadyFollowUps (r : LocalWorkflowRuntime) (execCtx : ExecutionContext) (graphID : string)
    (policy : AutoExecutionPolicy) : M FollowUpExecutionBatchResult :=
  executeReadyFollowUps r execCtx graphID policy None.
End execution.
