(* ===== verification/WorkflowSupport.v ===== *)
(** * What the workflows are made of: tools, results, shared parts *)

From S2P Require Export Reporting.
From S2P Require Export SystemAgents SqlTables Activation.
From S2P Require Export Intake.
#[local] Open Scope Z_scope.

(** * The tools of the workflows (tools/phase2.go)

    Each query tool asks its adapters and keeps the evidence of its types; the
    metric tools read the state.  The text forms of the tools ([Query],
    [Parse], [Simulate], [Execute], [Generate]) only marshal a value and are
    not modelled. *)

Definition filterEvidence (records : list EvidenceRecord) (types : list EvidenceType) : list EvidenceRecord :=
  filter (fun record => er_Type record ∈ types) records.

Section tools.
Context {W : Type}.

(** The interface [ObservationAdapter], without the name of the source. *)
Definition ObservationAdapter : Type := ObservationRequest -> ST error W (list EvidenceRecord).

Definition adapter_request (sourceKind : string) (input : gmap string string) : ObservationRequest :=
  mkObservationRequest (default "" (input !! "task_id")) sourceKind input.

(** What the tools with one adapter share. *)
Definition query_evidence (tool sourceKind : string) (types : list EvidenceType) (adapter : option ObservationAdapter)
    (input : gmap string string) : ST error W (list EvidenceRecord) :=
  match adapter with
  | None => fail (PlainError ("query " +:+ tool +:+ " tool requires adapter"))
  | Some observe => records ← observe (adapter_request sourceKind input); mret (filterEvidence records types)
  end.

(** A tool with one adapter is that adapter. *)
Definition QueryTransactionTool_QueryEvidence : option ObservationAdapter -> gmap string string -> ST error W (list EvidenceRecord) :=
  query_evidence "transaction" "ledger"
    [EvidenceTypeTransactionBatch; EvidenceTypeRecurringSubscription; EvidenceTypeLateNightSpendingSignal].

Definition QueryLiabilityTool_QueryEvidence : option ObservationAdapter -> gmap string string -> ST error W (list EvidenceRecord) :=
  query_evidence "liability" "ledger" [EvidenceTypeDebtObligationSnapshot].

Definition QueryEventTool_QueryEvidence : option ObservationAdapter -> gmap string string -> ST error W (list EvidenceRecord) :=
  query_evidence "event" "event" [EvidenceTypeEventSignal].

Definition QueryCalendarDeadlineTool_QueryEvidence : option ObservationAdapter -> gmap string string -> ST error W (list EvidenceRecord) :=
  query_evidence "calendar deadline" "calendar_deadline" [EvidenceTypeCalendarDeadline].

Record QueryPortfolioTool := mkQueryPortfolioTool {
  qp_LedgerAdapter : option ObservationAdapter;
  qp_DocumentAdapter : option ObservationAdapter
}.

(** An adapter that may be missing. *)
Definition observed_by (adapter : option ObservationAdapter) (sourceKind : string) (input : gmap string string) :
    ST error W (list EvidenceRecord) :=
  match adapter with None => mret [] | Some observe => observe (adapter_request sourceKind input) end.

Definition QueryPortfolioTool_QueryEvidence (t : QueryPortfolioTool) (input : gmap string string) : ST error W (list EvidenceRecord) :=
  ledgerRecords ← observed_by (qp_LedgerAdapter t) "ledger" input;
  documentRecords ← observed_by (qp_DocumentAdapter t) "document" input;
  mret (filterEvidence ledgerRecords [EvidenceTypePortfolioAllocationSnap] ++ filterEvidence documentRecords [EvidenceTypeBrokerStatement]).

Record ParseDocumentTool := mkParseDocumentTool {
  pd_Structured : option ObservationAdapter;
  pd_Agentic : option ObservationAdapter
}.

Definition ParseDocumentTool_ParseEvidence (t : ParseDocumentTool) (input : gmap string string) : ST error W (list EvidenceRecord) :=
  structuredRecords ← observed_by (pd_Structured t) "document" input;
  agenticRecords ← observed_by (pd_Agentic t) "document" input;
  mret (structuredRecords ++ agenticRecords).
End tools.
Arguments ObservationAdapter : clear implicits.
Arguments QueryPortfolioTool : clear implicits.
Arguments ParseDocumentTool : clear implicits.

(** ** Metrics *)

Definition ComputeCashflowMetricsTool_Compute (current : FinancialWorldState) : gmap string any := list_to_map
  [("monthly_inflow_cents", AnyInt (cf_MonthlyInflowCents (fw_CashflowState current)));
   ("monthly_outflow_cents", AnyInt (cf_MonthlyOutflowCents (fw_CashflowState current)));
   ("monthly_net_income_cents", AnyInt (cf_MonthlyNetIncomeCents (fw_CashflowState current)));
   ("savings_rate", AnyFloat (cf_SavingsRate (fw_CashflowState current)));
   ("late_night_spending_frequency", AnyFloat (bh_LateNightSpendingFrequency (fw_BehaviorState current)));
   ("duplicate_subscription_count", AnyInt (bh_DuplicateSubscriptionCount (fw_BehaviorState current)))].

Definition ComputeDebtDecisionMetricsTool_Compute (current : FinancialWorldState) : gmap string any := list_to_map
  [("debt_burden_ratio", AnyFloat (li_DebtBurdenRatio (fw_LiabilityState current)));
   ("minimum_payment_pressure", AnyFloat (li_MinimumPaymentPressure (fw_LiabilityState current)));
   ("average_apr", AnyFloat (li_AverageAPR (fw_LiabilityState current)));
   ("monthly_net_income_cents", AnyInt (cf_MonthlyNetIncomeCents (fw_CashflowState current)));
   ("allocation_drift", AnyMap (prod_map id AnyFloat <$> map_to_list (pf_AllocationDrift (fw_PortfolioState current))));
   ("overall_risk", AnyString (rk_OverallRisk (fw_RiskState current)))].

Definition ComputeTaxSignalTool_Compute (current : FinancialWorldState) : gmap string any := list_to_map
  [("effective_tax_rate", AnyFloat (tx_EffectiveTaxRate (fw_TaxState current)));
   ("childcare_tax_signal", AnyBool (tx_ChildcareTaxSignal (fw_TaxState current)));
   ("tax_advantaged_contribution", AnyInt (tx_TaxAdvantagedContributionCents (fw_TaxState current)));
   ("family_tax_notes", AnyList (AnyString <$> tx_FamilyTaxNotes (fw_TaxState current)))].

Definition ComputePortfolioImpactMetricsTool_Compute `{MO : MapOrder} (current : FinancialWorldState) : gmap string any :=
  let portfolio := fw_PortfolioState current in list_to_map
  [("total_investable_assets_cents", AnyInt (pf_TotalInvestableAssetsCents portfolio));
   ("emergency_fund_months", AnyFloat (pf_EmergencyFundMonths portfolio));
   ("max_allocation_drift", AnyFloat (max_drift (map_values (pf_AllocationDrift portfolio))));
   ("cash_allocation", AnyFloat (default f_zero (pf_AssetAllocations portfolio !! "cash")))].

(** * Data of the workflows (workflows/types.go and the observation services)

    What a run of a workflow gives back, field by field.  The monthly review,
    the debt decision and the behavior intervention observe the same three
    things, the life event and the follow-up workflows the same six. *)

Record ObservationResult := mkObservationResult {
  ob_Evidence : list EvidenceRecord;
  ob_UpdatedState : FinancialWorldState;
  ob_Diff : StateDiff
}.
#[export] Instance eta_ObservationResult : Eta ObservationResult := eta! mkObservationResult < ob_Evidence ; ob_UpdatedState ; ob_Diff >.
#[export] Instance zero_ObservationResult : Zero ObservationResult := mkObservationResult zero zero zero.

Record LifeEventObservationResult := mkLifeEventObservationResult {
  lo_EventEvidence : list EvidenceRecord;
  lo_DeadlineEvidence : list EvidenceRecord;
  lo_SupportingEvidence : list EvidenceRecord;
  lo_Evidence : list EvidenceRecord;
  lo_UpdatedState : FinancialWorldState;
  lo_Diff : StateDiff
}.
#[export] Instance eta_LifeEventObservationResult : Eta LifeEventObservationResult := eta! mkLifeEventObservationResult < lo_EventEvidence ; lo_DeadlineEvidence ; lo_SupportingEvidence ; lo_Evidence ; lo_UpdatedState ; lo_Diff >.
#[export] Instance zero_LifeEventObservationResult : Zero LifeEventObservationResult := mkLifeEventObservationResult zero zero zero zero zero zero.

Record MonthlyReviewRunResult := mkMonthlyReviewRunResult {
  mw_WorkflowID : string;
  mw_Intake : TaskIntakeResult;
  mw_TaskSpec : TaskSpec;
  mw_Plan : ExecutionPlan;
  mw_Evidence : list EvidenceRecord;
  mw_BlockResults : list BlockResultEnvelope;
  mw_UpdatedState : FinancialWorldState;
  mw_Report : MonthlyReviewReport;
  mw_Artifacts : list WorkflowArtifact;
  mw_GeneratedMemories : list string;
  mw_CoverageReport : EvidenceCoverageReport;
  mw_Verification : list VerificationResult;
  mw_Oracle : OracleVerdict;
  mw_RiskAssessment : RiskAssessment;
  mw_ApprovalDecision : option PolicyDecision;
  mw_ApprovalAudit : option AuditEvent;
  mw_RuntimeState : WorkflowExecutionState
}.
#[export] Instance eta_MonthlyReviewRunResult : Eta MonthlyReviewRunResult := eta! mkMonthlyReviewRunResult < mw_WorkflowID ; mw_Intake ; mw_TaskSpec ; mw_Plan ; mw_Evidence ; mw_BlockResults ; mw_UpdatedState ; mw_Report ; mw_Artifacts ; mw_GeneratedMemories ; mw_CoverageReport ; mw_Verification ; mw_Oracle ; mw_RiskAssessment ; mw_ApprovalDecision ; mw_ApprovalAudit ; mw_RuntimeState >.
#[export] Instance zero_MonthlyReviewRunResult : Zero MonthlyReviewRunResult := mkMonthlyReviewRunResult zero zero zero zero zero zero zero zero zero zero zero zero zero zero zero zero zero.

Record DebtDecisionRunResult := mkDebtDecisionRunResult {
  dw_WorkflowID : string;
  dw_Intake : TaskIntakeResult;
  dw_TaskSpec : TaskSpec;
  dw_Plan : ExecutionPlan;
  dw_Evidence : list EvidenceRecord;
  dw_BlockResults : list BlockResultEnvelope;
  dw_UpdatedState : FinancialWorldState;
  dw_DraftPayload : ReportPayload;
  dw_DisclosureDecision : PolicyDecision;
  dw_Report : DebtDecisionReport;
  dw_Artifacts : list WorkflowArtifact;
  dw_CoverageReport : EvidenceCoverageReport;
  dw_Verification : list VerificationResult;
  dw_Oracle : OracleVerdict;
  dw_RiskAssessment : RiskAssessment;
  dw_ApprovalDecision : option PolicyDecision;
  dw_ApprovalAudit : option AuditEvent;
  dw_Checkpoint : option CheckpointRecord;
  dw_ResumeToken : option ResumeToken;
  dw_PendingApproval : option HumanApprovalPending;
  dw_RuntimeState : WorkflowExecutionState
}.
#[export] Instance eta_DebtDecisionRunResult : Eta DebtDecisionRunResult := eta! mkDebtDecisionRunResult < dw_WorkflowID ; dw_Intake ; dw_TaskSpec ; dw_Plan ; dw_Evidence ; dw_BlockResults ; dw_UpdatedState ; dw_DraftPayload ; dw_DisclosureDecision ; dw_Report ; dw_Artifacts ; dw_CoverageReport ; dw_Verification ; dw_Oracle ; dw_RiskAssessment ; dw_ApprovalDecision ; dw_ApprovalAudit ; dw_Checkpoint ; dw_ResumeToken ; dw_PendingApproval ; dw_RuntimeState >.
#[export] Instance zero_DebtDecisionRunResult : Zero DebtDecisionRunResult := mkDebtDecisionRunResult zero zero zero zero zero zero zero zero zero zero zero zero zero zero zero zero zero zero zero zero zero.

Record LifeEventTriggerRunResult := mkLifeEventTriggerRunResult {
  lw_WorkflowID : string;
  lw_Intake : TaskIntakeResult;
  lw_TaskSpec : TaskSpec;
  lw_Plan : ExecutionPlan;
  lw_EventEvidence : list EvidenceRecord;
  lw_DeadlineEvidence : list EvidenceRecord;
  lw_Evidence : list EvidenceRecord;
  lw_BlockResults : list BlockResultEnvelope;
  lw_UpdatedState : FinancialWorldState;
  lw_StateDiff : StateDiff;
  lw_GeneratedMemories : list string;
  lw_TaskGraph : TaskGraph;
  lw_FollowUpTasks : FollowUpRegistrationResult;
  lw_FollowUpExecution : FollowUpExecutionBatchResult;
  lw_Report : LifeEventAssessmentReport;
  lw_Artifacts : list WorkflowArtifact;
  lw_CoverageReport : EvidenceCoverageReport;
  lw_AnalysisVerification : list VerificationResult;
  lw_FinalVerification : list VerificationResult;
  lw_Oracle : OracleVerdict;
  lw_RiskAssessment : RiskAssessment;
  lw_ApprovalDecision : option PolicyDecision;
  lw_ApprovalAudit : option AuditEvent;
  lw_RuntimeState : WorkflowExecutionState
}.
#[export] Instance eta_LifeEventTriggerRunResult : Eta LifeEventTriggerRunResult := eta! mkLifeEventTriggerRunResult < lw_WorkflowID ; lw_Intake ; lw_TaskSpec ; lw_Plan ; lw_EventEvidence ; lw_DeadlineEvidence ; lw_Evidence ; lw_BlockResults ; lw_UpdatedState ; lw_StateDiff ; lw_GeneratedMemories ; lw_TaskGraph ; lw_FollowUpTasks ; lw_FollowUpExecution ; lw_Report ; lw_Artifacts ; lw_CoverageReport ; lw_AnalysisVerification ; lw_FinalVerification ; lw_Oracle ; lw_RiskAssessment ; lw_ApprovalDecision ; lw_ApprovalAudit ; lw_RuntimeState >.
#[export] Instance zero_LifeEventTriggerRunResult : Zero LifeEventTriggerRunResult := mkLifeEventTriggerRunResult zero zero zero zero zero zero zero zero zero zero zero zero zero zero zero zero zero zero zero zero zero zero zero zero.

Record TaxOptimizationRunResult := mkTaxOptimizationRunResult {
  tw_WorkflowID : string;
  tw_TaskSpec : TaskSpec;
  tw_Plan : ExecutionPlan;
  tw_Evidence : list EvidenceRecord;
  tw_BlockResults : list BlockResultEnvelope;
  tw_UpdatedState : FinancialWorldState;
  tw_DraftPayload : ReportPayload;
  tw_DisclosureDecision : PolicyDecision;
  tw_Report : TaxOptimizationReport;
  tw_Artifacts : list WorkflowArtifact;
  tw_CoverageReport : EvidenceCoverageReport;
  tw_Verification : list VerificationResult;
  tw_Oracle : OracleVerdict;
  tw_RiskAssessment : RiskAssessment;
  tw_ApprovalDecision : option PolicyDecision;
  tw_ApprovalAudit : option AuditEvent;
  tw_Checkpoint : option CheckpointRecord;
  tw_ResumeToken : option ResumeToken;
  tw_PendingApproval : option HumanApprovalPending;
  tw_RuntimeState : WorkflowExecutionState
}.
#[export] Instance eta_TaxOptimizationRunResult : Eta TaxOptimizationRunResult := eta! mkTaxOptimizationRunResult < tw_WorkflowID ; tw_TaskSpec ; tw_Plan ; tw_Evidence ; tw_BlockResults ; tw_UpdatedState ; tw_DraftPayload ; tw_DisclosureDecision ; tw_Report ; tw_Artifacts ; tw_CoverageReport ; tw_Verification ; tw_Oracle ; tw_RiskAssessment ; tw_ApprovalDecision ; tw_ApprovalAudit ; tw_Checkpoint ; tw_ResumeToken ; tw_PendingApproval ; tw_RuntimeState >.
#[export] Instance zero_TaxOptimizationRunResult : Zero TaxOptimizationRunResult := mkTaxOptimizationRunResult zero zero zero zero zero zero zero zero zero zero zero zero zero zero zero zero zero zero zero zero.

Record PortfolioRebalanceRunResult := mkPortfolioRebalanceRunResult {
  pw_WorkflowID : string;
  pw_TaskSpec : TaskSpec;
  pw_Plan : ExecutionPlan;
  pw_Evidence : list EvidenceRecord;
  pw_BlockResults : list BlockResultEnvelope;
  pw_UpdatedState : FinancialWorldState;
  pw_DraftPayload : ReportPayload;
  pw_DisclosureDecision : PolicyDecision;
  pw_Report : PortfolioRebalanceReport;
  pw_Artifacts : list WorkflowArtifact;
  pw_CoverageReport : EvidenceCoverageReport;
  pw_Verification : list VerificationResult;
  pw_Oracle : OracleVerdict;
  pw_RiskAssessment : RiskAssessment;
  pw_ApprovalDecision : option PolicyDecision;
  pw_ApprovalAudit : option AuditEvent;
  pw_Checkpoint : option CheckpointRecord;
  pw_ResumeToken : option ResumeToken;
  pw_PendingApproval : option HumanApprovalPending;
  pw_RuntimeState : WorkflowExecutionState
}.
#[export] Instance eta_PortfolioRebalanceRunResult : Eta PortfolioRebalanceRunResult := eta! mkPortfolioRebalanceRunResult < pw_WorkflowID ; pw_TaskSpec ; pw_Plan ; pw_Evidence ; pw_BlockResults ; pw_UpdatedState ; pw_DraftPayload ; pw_DisclosureDecision ; pw_Report ; pw_Artifacts ; pw_CoverageReport ; pw_Verification ; pw_Oracle ; pw_RiskAssessment ; pw_ApprovalDecision ; pw_ApprovalAudit ; pw_Checkpoint ; pw_ResumeToken ; pw_PendingApproval ; pw_RuntimeState >.
#[export] Instance zero_PortfolioRebalanceRunResult : Zero PortfolioRebalanceRunResult := mkPortfolioRebalanceRunResult zero zero zero zero zero zero zero zero zero zero zero zero zero zero zero zero zero zero zero zero.

Record BehaviorInterventionRunResult := mkBehaviorInterventionRunResult {
  bw_WorkflowID : string;
  bw_Intake : TaskIntakeResult;
  bw_TaskSpec : TaskSpec;
  bw_Plan : ExecutionPlan;
  bw_Evidence : list EvidenceRecord;
  bw_BlockResults : list BlockResultEnvelope;
  bw_UpdatedState : FinancialWorldState;
  bw_DraftPayload : ReportPayload;
  bw_DisclosureDecision : PolicyDecision;
  bw_Report : BehaviorInterventionReport;
  bw_Artifacts : list WorkflowArtifact;
  bw_GeneratedMemories : list string;
  bw_CoverageReport : EvidenceCoverageReport;
  bw_Verification : list VerificationResult;
  bw_Oracle : OracleVerdict;
  bw_RiskAssessment : RiskAssessment;
  bw_ApprovalDecision : option PolicyDecision;
  bw_ApprovalAudit : option AuditEvent;
  bw_Checkpoint : option CheckpointRecord;
  bw_ResumeToken : option ResumeToken;
  bw_PendingApproval : option HumanApprovalPending;
  bw_SkillExecution : option SkillExecutionRecord;
  bw_RuntimeState : WorkflowExecutionState
}.
#[export] Instance eta_BehaviorInterventionRunResult : Eta BehaviorInterventionRunResult := eta! mkBehaviorInterventionRunResult < bw_WorkflowID ; bw_Intake ; bw_TaskSpec ; bw_Plan ; bw_Evidence ; bw_BlockResults ; bw_UpdatedState ; bw_DraftPayload ; bw_DisclosureDecision ; bw_Report ; bw_Artifacts ; bw_GeneratedMemories ; bw_CoverageReport ; bw_Verification ; bw_Oracle ; bw_RiskAssessment ; bw_ApprovalDecision ; bw_ApprovalAudit ; bw_Checkpoint ; bw_ResumeToken ; bw_PendingApproval ; bw_SkillExecution ; bw_RuntimeState >.
#[export] Instance zero_BehaviorInterventionRunResult : Zero BehaviorInterventionRunResult := mkBehaviorInterventionRunResult zero zero zero zero zero zero zero zero zero zero zero zero zero zero zero zero zero zero zero zero zero zero zero.

(** * What the workflows share (workflows/workflow_support.go, the observation
    services, the interfaces of the runtime and of the bus)

    A workflow runs on a world [W] in which the tools, the agents, the logs
    and the runtime live; [view] and [upd] reach the runtime's own world. *)

(** ** Interfaces *)

(** [WorkflowRuntime] (runtime/local_runtime.go).  A registration shares the
    slice of its records with the runtime; [wr_Tasks] reads it and
    [wr_NewTasks] allocates one. *)
Record WorkflowRuntime (W : Type) := mkWorkflowRuntime {
  wr_Checkpoint : ExecutionContext -> WorkflowExecutionState -> WorkflowExecutionState -> Z -> string -> ST error W (CheckpointRecord * ResumeToken);
  wr_Resume : ExecutionContext -> string -> ResumeToken -> ST error W WorkflowExecutionState;
  wr_HandleFailure : ExecutionContext -> WorkflowExecutionState -> FailureCategory -> string -> ST error W (WorkflowExecutionState * RecoveryStrategy);
  wr_PauseForApproval : ExecutionContext -> WorkflowExecutionState -> HumanApprovalPending -> ST error W WorkflowExecutionState;
  wr_RegisterFollowUpTasks : ExecutionContext -> TaskGraph -> FinancialWorldState -> ST error W FollowUpRegistrationResult;
  wr_ReevaluateTaskGraph : ExecutionContext -> string -> ST error W TaskActivationResult;
  wr_ExecuteReadyFollowUps : ExecutionContext -> string -> AutoExecutionPolicy -> ST error W FollowUpExecutionBatchResult;
  wr_Tasks : addr -> ST error W (list FollowUpTaskRecord);
  wr_NewTasks : list FollowUpTaskRecord -> ST error W addr
}.
Arguments wr_Checkpoint {W}. Arguments wr_Resume {W}. Arguments wr_HandleFailure {W}. Arguments wr_PauseForApproval {W}.
Arguments wr_RegisterFollowUpTasks {W}. Arguments wr_ReevaluateTaskGraph {W}. Arguments wr_ExecuteReadyFollowUps {W}.
Arguments wr_Tasks {W}. Arguments wr_NewTasks {W}.

(** [SystemStepBus] (agents/bus.go) *)
Record SystemStepBus (W : Type) := mkSystemStepBus {
  ssb_Plan : SystemStepMetadata -> FinancialWorldState -> list MemoryRecord -> list EvidenceRecord -> ST error W PlanStepResult;
  ssb_MemorySync : SystemStepMetadata -> FinancialWorldState -> list EvidenceRecord -> string -> ST error W MemorySyncStepResult;
  ssb_AnalysisBlock : SystemStepMetadata -> ExecutionBlock -> FinancialWorldState -> list MemoryRecord -> list EvidenceRecord ->
    BlockExecutionContext -> ST error W AnalysisBlockStepResult;
  ssb_ReportDraft : SystemStepMetadata -> FinancialWorldState -> list MemoryRecord -> list EvidenceRecord -> ExecutionPlan ->
    list BlockResultEnvelope -> StateDiff -> option TaskGraph -> ST error W ReportDraftStepResult;
  ssb_TaskGeneration : SystemStepMetadata -> FinancialWorldState -> list EvidenceRecord -> list MemoryRecord -> StateDiff ->
    ExecutionPlan -> list BlockResultEnvelope -> ST error W TaskGenerationStepResult;
  ssb_Verification : SystemStepMetadata -> VerificationStepInput -> ST error W VerificationStepResult;
  ssb_Governance : SystemStepMetadata -> FinancialWorldState -> ReportPayload -> option TaskGraph -> ST error W GovernanceStepResult;
  ssb_ReportFinalize : SystemStepMetadata -> ReportPayload -> PolicyDecision -> ST error W ReportFinalizeStepResult
}.
Arguments ssb_Plan {W}. Arguments ssb_MemorySync {W}. Arguments ssb_AnalysisBlock {W}. Arguments ssb_ReportDraft {W}.
Arguments ssb_TaskGeneration {W}. Arguments ssb_Verification {W}. Arguments ssb_Governance {W}. Arguments ssb_ReportFinalize {W}.

(** The local bus, on a world that holds the agents'. *)
Definition local_bus {V W} (system_now : V -> V * time) (view : W -> AgentWorld (V:=V)) (upd : AgentWorld (V:=V) -> W -> W)
    (b : LocalSystemStepBus (V:=V)) : SystemStepBus W := {|
  ssb_Plan meta current memories evidence := zoom view upd (DispatchPlan system_now b meta current memories evidence);
  ssb_MemorySync meta current evidence hint := zoom view upd (DispatchMemorySync system_now b meta current evidence hint);
  ssb_AnalysisBlock meta block current memories evidence ctx :=
    zoom view upd (DispatchAnalysisBlock system_now b meta block current memories evidence ctx);
  ssb_ReportDraft meta current memories evidence plan results diff graph :=
    zoom view upd (DispatchReportDraft system_now b meta current memories evidence plan results diff graph);
  ssb_TaskGeneration meta current evidence memories diff plan results :=
    zoom view upd (DispatchTaskGeneration system_now b meta current evidence memories diff plan results);
  ssb_Verification meta input := zoom view upd (DispatchVerification system_now b meta input);
  ssb_Governance meta current report graph := zoom view upd (DispatchGovernance system_now b meta current report graph);
  ssb_ReportFinalize meta draft decision := zoom view upd (DispatchReportFinalize system_now b meta draft decision)
|}.

(** The local runtime, on a world that holds its own. *)
Definition local_runtime `{MO : MapOrder} {W} (view : W -> World) (upd : World -> W -> W) (r : LocalWorkflowRuntime) : WorkflowRuntime W := {|
  wr_Checkpoint ctx current resumeState version summary := zoom view upd (Checkpoint r ctx current resumeState version summary);
  wr_Resume ctx id token := zoom view upd (Runtime_Resume r ctx id token);
  wr_HandleFailure ctx current category summary := zoom view upd (Runtime_HandleFailure r ctx current category summary);
  wr_PauseForApproval ctx current pending := zoom view upd (Runtime_PauseForApproval r ctx current pending);
  wr_RegisterFollowUpTasks ctx graph base := zoom view upd (RegisterFollowUpTasks r ctx graph base);
  wr_ReevaluateTaskGraph ctx id := zoom view upd (ReevaluateTaskGraph r ctx id);
  wr_ExecuteReadyFollowUps ctx id policy := zoom view upd (ExecuteReadyFollowUps r ctx id policy);
  wr_Tasks a := zoom view upd (read_array a);
  wr_NewTasks l := zoom view upd (new_array l)
|}.

(** ** Pure helpers *)

Definition observationInput (spec : TaskSpec) (userID : string) : gmap string string :=
  let set key (t : option time) (m : gmap string string) := from_option (fun t => <[key := Format_RFC3339 t]> m) m t in
  set "end" (sc_End (ts_Scope spec)) (set "start" (sc_Start (ts_Scope spec)) {["task_id" := ts_ID spec; "user_id" := userID]}).

Definition dedupeEvidence (records : list EvidenceRecord) : list EvidenceRecord :=
  fold_left (fun acc record => if bool_decide (er_ID record ∈ er_ID <$> acc) then acc else acc ++ [record]) records [].

Definition protocolStateRef (current : FinancialWorldState) : StateReference :=
  mkStateReference (fw_UserID current) (sv_SnapshotID (fw_Version current)) (sv_Sequence (fw_Version current)).

Definition systemStepMeta (workflowID sender : string) (spec : TaskSpec) (current : FinancialWorldState)
    (correlationID causationID : string) : SystemStepMetadata :=
  mkSystemStepMetadata workflowID sender spec (protocolStateRef current) correlationID causationID.

Definition updateCausation (meta : SystemStepMetadata) (step : StepDispatchMetadata) (current : FinancialWorldState) : SystemStepMetadata :=
  meta <| sm_CausationID := pm_MessageID (sd_ResponseMetadata step) |> <| sm_StateRef := protocolStateRef current |>.

Definition monthlyReviewReportFromPayload (payload : ReportPayload) : error + MonthlyReviewReport :=
  or_error (PlainError "monthly review report payload is missing") (rp_MonthlyReview payload).
Definition debtDecisionReportFromPayload (payload : ReportPayload) : error + DebtDecisionReport :=
  or_error (PlainError "debt decision report payload is missing") (rp_DebtDecision payload).
Definition lifeEventAssessmentFromPayload (payload : ReportPayload) : error + LifeEventAssessmentReport :=
  or_error (PlainError "life event assessment payload is missing") (rp_LifeEventAssessment payload).
Definition taxOptimizationReportFromPayload (payload : ReportPayload) : error + TaxOptimizationReport :=
  or_error (PlainError "tax optimization report payload is missing") (rp_TaxOptimization payload).
Definition portfolioRebalanceReportFromPayload (payload : ReportPayload) : error + PortfolioRebalanceReport :=
  or_error (PlainError "portfolio rebalance report payload is missing") (rp_PortfolioRebalance payload).

Definition taskHasArea (spec : TaskSpec) (area : string) : bool := bool_decide (area ∈ sc_Areas (ts_Scope spec)).

(** What an execution says of a task. *)
Definition set_task_states (r : LifeEventAssessmentReport) (item : FollowUpTaskRecord) : LifeEventAssessmentReport :=
  let id := ts_ID (ft_Task item) in
  r <| ler_GeneratedTaskStatuses := <[id := TaskQueueStatus_string (ft_Status item)]> (ler_GeneratedTaskStatuses r) |>
    <| ler_RequiredCapabilities := <[id := ft_RequiredCapability item]> (ler_RequiredCapabilities r) |>
    <| ler_MissingCapabilities :=
       if ft_MissingCapabilityReason item != "" then <[id := ft_MissingCapabilityReason item]> (ler_MissingCapabilities r)
       else delete id (ler_MissingCapabilities r) |>.

Definition applyFollowUpRegistrationToAssessment (report : ReportPayload) (tasks : list FollowUpTaskRecord) : ReportPayload :=
  match rp_LifeEventAssessment report with
  | None => report
  | Some assessment =>
      let fresh := assessment <| ler_GeneratedTaskStatuses := ∅ |> <| ler_RequiredCapabilities := ∅ |> <| ler_MissingCapabilities := ∅ |> in
      report <| rp_LifeEventAssessment := Some (fold_left (fun r item =>
        let id := ts_ID (ft_Task item) in
        r <| ler_GeneratedTaskStatuses := <[id := TaskQueueStatus_string (ft_Status item)]> (ler_GeneratedTaskStatuses r) |>
          <| ler_RequiredCapabilities := <[id := ft_RequiredCapability item]> (ler_RequiredCapabilities r) |>
          <| ler_MissingCapabilities :=
             if ft_MissingCapabilityReason item != "" then <[id := ft_MissingCapabilityReason item]> (ler_MissingCapabilities r)
             else ler_MissingCapabilities r |>) tasks fresh) |>
  end.

Definition applyFollowUpExecutionToAssessment (report : ReportPayload) (execution : FollowUpExecutionBatchResult) : ReportPayload :=
  match rp_LifeEventAssessment report with
  | None => report
  | Some assessment => report <| rp_LifeEventAssessment := Some (fold_left set_task_states (fb_RegisteredTasks execution) assessment) |>
  end.

Definition followUpFailureCategoryFromRuntimeState (runtimeState : WorkflowExecutionState) (replan failed : FailureCategory) : FailureCategory :=
  match runtimeState with
  | WorkflowStateReplanning => replan
  | WorkflowStateFailed => failed
  | _ => FailureCategoryOther ""
  end.

Definition followUpFailureSummary (runtimeState : WorkflowExecutionState) (fallback : string) : string :=
  match runtimeState with WorkflowStateReplanning | WorkflowStateFailed => fallback | _ => "" end.

Definition followUpRecoveryStrategyFromRuntimeState (runtimeState : WorkflowExecutionState) : RecoveryStrategy :=
  match runtimeState with
  | WorkflowStateReplanning => RecoveryStrategyReplan
  | WorkflowStateWaitingApproval => RecoveryStrategyWaitForApproval
  | WorkflowStateFailed => RecoveryStrategyAbort
  | _ => RecoveryStrategyOther ""
  end.

Definition blockContextSpec (plan : ExecutionPlan) (block : ExecutionBlock) : BlockContextSpec := {|
  bs_PlanID := ep_PlanID plan;
  bs_BlockID := xb_ID block;
  bs_BlockKind := ExecutionBlockKind_string (xb_Kind block);
  bs_AssignedRecipient := xb_AssignedRecipient block;
  bs_Goal := xb_Goal block;
  bs_RequiredEvidenceRefs := xr_Type <$> xb_RequiredEvidenceRefs block;
  bs_RequiredMemoryKinds := xb_RequiredMemoryKinds block;
  bs_RequiredStateBlocks := xb_RequiredStateBlocks block;
  bs_ExecutionView := xb_ExecutionContextView block;
  bs_VerificationRules := eh_Rule <$> xb_VerificationHints block;
  bs_SelectedSkill := xb_SelectedSkill block
|}.

Definition collectBlockResults (items : list AnalysisBlockStepResult) : list BlockResultEnvelope := ab_Result <$> items.

Definition joinEvidenceIDs (records : list EvidenceRecord) : string := Join (er_ID <$> records) ",".
Definition joinStrings (items : list string) : string := Join items ",".
Definition taskIDs (graph : TaskGraph) : string := Join ((fun g => ts_ID (gt_Task g)) <$> tg_GeneratedTasks graph) ",".
Definition taskIntents (graph : TaskGraph) : string :=
  Join ((fun g => UserIntentType_string (ts_UserIntentType (gt_Task g))) <$> tg_GeneratedTasks graph) ",".
Definition executedTaskIDs (items : list TaskExecutionRecord) : string := Join (te_TaskID <$> items) ",".

Definition finalize_resume (graphID workflowID taskID : string) (artifactKind : ArtifactKind) (draft : ReportPayload)
    (disclosure : PolicyDecision) (snapshotRef : string) : CheckpointPayloadEnvelope :=
  (zero : CheckpointPayloadEnvelope)
    <| ce_Kind := CheckpointPayloadKindFollowUpFinalizeResume |>
    <| ce_FollowUpFinalizeResume := Some {| fp_GraphID := graphID; fp_TaskID := taskID; fp_WorkflowID := workflowID;
         fp_ArtifactKind := artifactKind; fp_DraftReport := draft; fp_DisclosureDecision := disclosure;
         fp_PendingStateSnapshotRef := snapshotRef |} |>.

Definition buildFollowUpFinalizeResumePayload (graphID workflowID taskID : string) (artifactKind : ArtifactKind) (draft : ReportPayload)
    (disclosure : PolicyDecision) (updatedState : FinancialWorldState) (runtimeState : WorkflowExecutionState) :
    option CheckpointPayloadEnvelope :=
  if runtimeState != WorkflowStateWaitingApproval then None
  else Some (finalize_resume graphID workflowID taskID artifactKind draft disclosure (sv_SnapshotID (fw_Version updatedState))).

(** monthly_review.go *)
Definition approvalRoles (evaluation : ApprovalEvaluation) : list string :=
  match ae_Decision evaluation with None => [] | Some _ => ["operator"] end.

(** debt_vs_invest.go *)
Definition firstNonEmptyString : list string -> string := firstNonEmpty.

(** ** Observing *)

Section support.
Context {W : Type} (system_now : W -> W * time) (view : W -> World) (upd : World -> W -> W)
  `{TE : TextErrors} `{MO : MapOrder} `{JE : StateEncoder}.

(** A clock of its own, or none. *)
Definition Clock : Type := option (W -> W * time).

(** [now := time.Now().UTC(); if x.Now != nil { now = x.Now().UTC() }] *)
Definition own_clock (Now : Clock) : ST error W time :=
  now ← read system_now None;
  match Now with Some _ => read system_now Now | None => mret now end.

(** [DeterministicIntakeService.Parse], which is its clock. *)
Definition DeterministicIntakeService_Parse (Now : Clock) (raw : string) : ST error W TaskIntakeResult :=
  if TrimSpace raw == "" then mret (Parse zero_time raw) else now ← own_clock Now; mret (Parse now raw).

Definition EventTriggeredIntakeService_Build (Now : Clock) (event : LifeEventRecord) : ST error W TaskIntakeResult :=
  match LifeEventRecord_Validate event with
  | Some _ => mret (Build zero_time event)
  | None => now ← own_clock Now; mret (Build now event)
  end.

(** The task of an intake that accepts one. *)
Definition accepted_task (intake : TaskIntakeResult) (what : string) : ST error W TaskSpec :=
  match ti_TaskSpec intake with
  | Some spec => if ti_Accepted intake then mret spec
                 else fail (PlainError (what +:+ " intake rejected: " +:+ TaskIntakeFailureReason_string (ti_FailureReason intake)))
  | None => fail (PlainError (what +:+ " intake rejected: " +:+ TaskIntakeFailureReason_string (ti_FailureReason intake)))
  end.

(** [BuildPatch], whose engine is its clock, and [ApplyEvidencePatch] on the
    state it leaves to its caller. *)
Definition reduce_evidence (engine : Clock) (current : FinancialWorldState) (evidence : list EvidenceRecord)
    (taskID workflowID phase : string) : ST error W (FinancialWorldState * StateDiff) :=
  now ← if is_nil evidence then mret zero_time else own_clock engine;
  let '(current, patch) := BuildPatch current evidence taskID workflowID phase now in
  patch ← of_sum patch;
  applied ← if IsZero (epa_AppliedAt patch) then read system_now None else mret zero_time;
  of_sum (ApplyEvidencePatch applied current patch).

Record MonthlyReviewService := mkMonthlyReviewService {
  ms_QueryTransaction : option (ObservationAdapter W);
  ms_QueryLiability : option (ObservationAdapter W);
  ms_QueryPortfolio : QueryPortfolioTool W;
  ms_ParseDocument : ParseDocumentTool W;
  ms_ReducerEngine : Clock
}.

Definition MonthlyReviewService_ObserveAndReduce (s : MonthlyReviewService) (spec : TaskSpec) (userID workflowID : string)
    (current : FinancialWorldState) : ST error W ObservationResult :=
  let input := observationInput spec userID in
  transactionEvidence ← QueryTransactionTool_QueryEvidence (ms_QueryTransaction s) input;
  liabilityEvidence ← QueryLiabilityTool_QueryEvidence (ms_QueryLiability s) input;
  portfolioEvidence ← QueryPortfolioTool_QueryEvidence (ms_QueryPortfolio s) input;
  documentEvidence ← ParseDocumentTool_ParseEvidence (ms_ParseDocument s) input;
  let evidence := dedupeEvidence (transactionEvidence ++ liabilityEvidence ++ portfolioEvidence ++ documentEvidence) in
  r ← reduce_evidence (ms_ReducerEngine s) current evidence (ts_ID spec) workflowID "observed";
  mret (mkObservationResult evidence r.1 r.2).

(** [DebtVsInvestService] and [BehaviorInterventionService] have the same
    fields and the same operation. *)
Record DebtVsInvestService := mkDebtVsInvestService {
  ds_QueryTransaction : option (ObservationAdapter W);
  ds_QueryLiability : option (ObservationAdapter W);
  ds_QueryPortfolio : QueryPortfolioTool W;
  ds_ReducerEngine : Clock
}.
Definition BehaviorInterventionService : Type := DebtVsInvestService.

Definition DebtVsInvestService_ObserveAndReduce (s : DebtVsInvestService) (spec : TaskSpec) (userID workflowID : string)
    (current : FinancialWorldState) : ST error W ObservationResult :=
  let input := observationInput spec userID in
  transactionEvidence ← QueryTransactionTool_QueryEvidence (ds_QueryTransaction s) input;
  liabilityEvidence ← QueryLiabilityTool_QueryEvidence (ds_QueryLiability s) input;
  portfolioEvidence ← QueryPortfolioTool_QueryEvidence (ds_QueryPortfolio s) input;
  let evidence := dedupeEvidence (transactionEvidence ++ liabilityEvidence ++ portfolioEvidence) in
  r ← reduce_evidence (ds_ReducerEngine s) current evidence (ts_ID spec) workflowID "observed";
  mret (mkObservationResult evidence r.1 r.2).

Definition BehaviorInterventionService_ObserveAndReduce :
  BehaviorInterventionService -> TaskSpec -> string -> string -> FinancialWorldState -> ST error W ObservationResult :=
  DebtVsInvestService_ObserveAndReduce.

(** [EventLog.Append] of a log that may be missing. *)
Definition EventLog : Type := option (LogEntry -> W -> W).

Definition appendWorkflowLog (log : EventLog) (traceID category message : string) (details : list (string * string)) (occurredAt : time) :
    ST error W unit :=
  match log with
  | None => mret tt
  | Some append => modify (append (mkLogEntry traceID traceID category message (list_to_map details) occurredAt))
  end.

Record LifeEventWorkflowService := mkLifeEventWorkflowService {
  le_QueryEvent : option (ObservationAdapter W);
  le_QueryCalendarDeadline : option (ObservationAdapter W);
  le_QueryTransaction : option (ObservationAdapter W);
  le_QueryLiability : option (ObservationAdapter W);
  le_QueryPortfolio : QueryPortfolioTool W;
  le_ParseDocument : ParseDocumentTool W;
  le_ReducerEngine : Clock;
  le_EventLog : EventLog
}.

(** A query that is made if it is needed. *)
Definition query_if (needed : bool) (query : ST error W (list EvidenceRecord)) : ST error W (list EvidenceRecord) :=
  if needed then query else mret [].

Definition LifeEventWorkflowService_ObserveAndReduce (s : LifeEventWorkflowService) (spec : TaskSpec) (event : LifeEventRecord)
    (workflowID : string) (current : FinancialWorldState) : ST error W LifeEventObservationResult :=
  let userID := if le_UserID event == "" then fw_UserID current else le_UserID event in
  let input := <["event_kind" := LifeEventKind_string (le_Kind event)]> (<["event_id" := le_ID event]> (observationInput spec userID)) in
  eventEvidence ← QueryEventTool_QueryEvidence (le_QueryEvent s) input;
  if is_nil eventEvidence then fail (PlainError "life event workflow requires normalized event evidence")
  else
    deadlineEvidence ← QueryCalendarDeadlineTool_QueryEvidence (le_QueryCalendarDeadline s) input;
    transactionEvidence ← QueryTransactionTool_QueryEvidence (le_QueryTransaction s) input;
    liabilityEvidence ← query_if (taskHasArea spec "debt" || taskHasArea spec "liability")
                          (QueryLiabilityTool_QueryEvidence (le_QueryLiability s) input);
    portfolioEvidence ← query_if (taskHasArea spec "portfolio") (QueryPortfolioTool_QueryEvidence (le_QueryPortfolio s) input);
    documentEvidence ← query_if (taskHasArea spec "tax") (ParseDocumentTool_ParseEvidence (le_ParseDocument s) input);
    let supporting := transactionEvidence ++ liabilityEvidence ++ portfolioEvidence ++ documentEvidence in
    let evidence := dedupeEvidence (eventEvidence ++ deadlineEvidence ++ supporting) in
    appendWorkflowLog (le_EventLog s) workflowID "life_event_ingestion" "ingested typed life event evidence"
      [("event_id", le_ID event);
       ("event_kind", LifeEventKind_string (le_Kind event));
       ("event_evidence_ids", joinEvidenceIDs eventEvidence);
       ("deadline_evidence_ids", joinEvidenceIDs deadlineEvidence);
       ("supporting_evidence_ids", joinEvidenceIDs supporting)] (ts_CreatedAt spec);;
    r ← reduce_evidence (le_ReducerEngine s) current evidence (ts_ID spec) workflowID "life_event_observed";
    let '(updatedState, diff) := r in
    appendWorkflowLog (le_EventLog s) workflowID "life_event_state_diff" "applied evidence patch after life event ingestion"
      [("from_version", Itoa (sdf_FromVersion diff));
       ("to_version", Itoa (sdf_ToVersion diff));
       ("changed_fields", joinStrings (sdf_ChangedFields diff));
       ("evidence_ids", joinStrings (sdf_EvidenceIDs diff))] (ts_CreatedAt spec);;
    mret (mkLifeEventObservationResult eventEvidence deadlineEvidence supporting evidence updatedState diff).

Record FollowUpWorkflowService := mkFollowUpWorkflowService {
  fs_QueryEvent : option (ObservationAdapter W);
  fs_QueryCalendarDeadline : option (ObservationAdapter W);
  fs_QueryTransaction : option (ObservationAdapter W);
  fs_QueryPortfolio : QueryPortfolioTool W;
  fs_ParseDocument : ParseDocumentTool W;
  fs_ReducerEngine : Clock;
  fs_EventLog : EventLog
}.

Definition FollowUpWorkflowService_ObserveAndReduce (s : FollowUpWorkflowService) (spec : TaskSpec) (activation : FollowUpActivationContext)
    (workflowID : string) (current : FinancialWorldState) : ST error W LifeEventObservationResult :=
  if (ac_LifeEventID activation == "") || (ac_LifeEventKind activation == "") || is_nil (ac_SourceEvidenceIDs activation) then
    fail (PlainError "follow-up workflow requires activation context with life event seed and source evidence ids")
  else
    let input := <["source_evidence_ids" := joinStrings (ac_SourceEvidenceIDs activation)]>
      (<["event_kind" := ac_LifeEventKind activation]> (<["event_id" := ac_LifeEventID activation]> (observationInput spec (fw_UserID current)))) in
    eventEvidence ← QueryEventTool_QueryEvidence (fs_QueryEvent s) input;
    if is_nil eventEvidence then
      fail (PlainError ("follow-up workflow requires life event evidence for activation seed " +:+ Quote (ac_LifeEventID activation)))
    else
      deadlineEvidence ← QueryCalendarDeadlineTool_QueryEvidence (fs_QueryCalendarDeadline s) input;
      transactionEvidence ← QueryTransactionTool_QueryEvidence (fs_QueryTransaction s) input;
      documentEvidence ← query_if (ts_UserIntentType spec == UserIntentTaxOptimization)
                           (ParseDocumentTool_ParseEvidence (fs_ParseDocument s) input);
      portfolioEvidence ← query_if (ts_UserIntentType spec == UserIntentPortfolioRebalance)
                            (QueryPortfolioTool_QueryEvidence (fs_QueryPortfolio s) input);
      let supporting := transactionEvidence ++ documentEvidence ++ portfolioEvidence in
      let evidence := dedupeEvidence (eventEvidence ++ deadlineEvidence ++ supporting) in
      r ← reduce_evidence (fs_ReducerEngine s) current evidence (ts_ID spec) workflowID "follow_up_observed";
      appendWorkflowLog (fs_EventLog s) (ac_RootCorrelationID activation) "follow_up_observation"
        "observed follow-up workflow evidence from activation seed"
        [("workflow_id", workflowID);
         ("task_id", ts_ID spec);
         ("intent", UserIntentType_string (ts_UserIntentType spec));
         ("life_event_id", ac_LifeEventID activation);
         ("life_event_kind", ac_LifeEventKind activation);
         ("source_evidence_ids", joinStrings (ac_SourceEvidenceIDs activation));
         ("event_evidence_ids", joinEvidenceIDs eventEvidence);
         ("deadline_evidence_ids", joinEvidenceIDs deadlineEvidence);
         ("supporting_evidence_ids", joinEvidenceIDs supporting)] (ts_CreatedAt spec);;
      mret (mkLifeEventObservationResult eventEvidence deadlineEvidence supporting evidence r.1 r.2).

(** ** The steps of a run *)

(** A run of a workflow: the runtime, the bus and its execution context. *)
Section run.
Context (workflowRuntime : WorkflowRuntime W) (steps : SystemStepBus W) (execCtx : ExecutionContext).

Definition handleAgentFailure {A} (current : WorkflowExecutionState) (err : error) (summary : string) : ST error W A :=
  match FailureCategoryFromAgentError err with
  | None => fail err
  | Some category => wr_HandleFailure workflowRuntime execCtx current category summary;; fail err
  end.

(** A step of the bus; its failure is handled and ends the run. *)
Definition or_handle {A} (current : WorkflowExecutionState) (summary : string) (m : ST error W A) : ST error W A :=
  r ← attempt m;
  match r with
  | inr a => mret a
  | inl err => handleAgentFailure current err summary
  end.

(** Observation, with the two checkpoints that follow it. *)
Definition observe_and_checkpoint {O} (observe : ST error W O) (diff : O -> StateDiff) (sequence : Z) (observed_summary updated_summary : string) :
    ST error W O :=
  observed ← observe;
  wr_Checkpoint workflowRuntime execCtx WorkflowStatePlanning WorkflowStatePlanning sequence observed_summary;;
  wr_Checkpoint workflowRuntime execCtx WorkflowStateActing WorkflowStateActing (sdf_ToVersion (diff observed)) updated_summary;;
  mret observed.

Section observed.
Context (current : FinancialWorldState) (evidence : list EvidenceRecord).

(** What memory and planning add to a run. *)
Record Planned := mkPlanned {
  pn_Memory : WorkflowMemoryResult;
  pn_Plan : ExecutionPlan;
  pn_Meta : SystemStepMetadata
}.

Definition sync_and_plan (meta : SystemStepMetadata) (memory_failed plan_failed : string) : ST error W Planned :=
  memoryStep ← or_handle WorkflowStateActing memory_failed (ssb_MemorySync steps meta current evidence "");
  let meta := updateCausation meta (my_Metadata memoryStep) current in
  planStep ← or_handle WorkflowStatePlanning plan_failed
               (ssb_Plan steps meta current (wm_Retrieved (my_Result memoryStep)) evidence);
  mret (mkPlanned (my_Result memoryStep) (pl_Plan planStep) (updateCausation meta (pl_Metadata planStep) current)).

(** The assemblers of a run have the default budget, compactor and estimator. *)
Definition assembler : ContextAssembler := mkContextAssembler zero None None.

Section planned.
Context (plan : ExecutionPlan) (memories : list MemoryRecord).

(** The loop over the blocks of the plan. *)
Fixpoint run_blocks (block_failed : string) (meta : SystemStepMetadata) (blocks : list ExecutionBlock) :
    ST error W (list AnalysisBlockStepResult * SystemStepMetadata) :=
  match blocks with
  | [] => mret ([], meta)
  | block :: blocks =>
      executionContext ← of_outcome (AssembleExecution assembler (blockContextSpec plan block) current memories evidence);
      blockStep ← or_handle WorkflowStateActing block_failed
                    (ssb_AnalysisBlock steps meta block current memories evidence executionContext);
      r ← run_blocks block_failed (updateCausation meta (ab_Metadata blockStep) current) blocks;
      mret (blockStep :: r.1, r.2)
  end.

Definition block_contexts (blockSteps : list AnalysisBlockStepResult) : ST error W (list BlockVerificationContext) :=
  for_fold (fun acc blockStep =>
    verificationContext ← of_outcome (AssembleBlock assembler (blockContextSpec plan (ab_Block blockStep)) (ab_Result blockStep)
                                        current memories evidence);
    mret (acc ++ [verificationContext])) [] blockSteps.

Definition final_context (draft : ReportPayload) : ST error W BlockVerificationContext :=
  of_outcome (AssembleFinal assembler (ep_PlanID plan) (ReportPayload_Summary draft) current memories evidence).

Definition draft_report (draft_failed : string) (meta : SystemStepMetadata) (blockResults : list BlockResultEnvelope) (diff : StateDiff)
    (taskGraph : option TaskGraph) : ST error W (ReportPayload * SystemStepMetadata) :=
  draftStep ← or_handle WorkflowStateActing draft_failed
                (ssb_ReportDraft steps meta current memories evidence plan blockResults diff taskGraph);
  mret (rd_Draft draftStep, updateCausation meta (rd_Metadata draftStep) current).

Definition run_verification_step (verify_failed : string) (meta : SystemStepMetadata) (input : VerificationStepInput) :
    ST error W (PipelineResult * SystemStepMetadata) :=
  verificationStep ← or_handle WorkflowStateVerifying verify_failed (ssb_Verification steps meta input);
  mret (vs_Result verificationStep, updateCausation meta (vs_Metadata verificationStep) current).

(** The verification of a draft at no particular stage. *)
Definition verify_draft (verify_failed : string) (meta : SystemStepMetadata) (blockSteps : list AnalysisBlockStepResult)
    (draft : ReportPayload) : ST error W (PipelineResult * SystemStepMetadata) :=
  blockVerificationContexts ← block_contexts blockSteps;
  finalVerificationContext ← final_context draft;
  run_verification_step verify_failed meta {|
    vi_Stage := zero;
    vi_CurrentState := current;
    vi_Evidence := evidence;
    vi_Memories := memories;
    vi_Plan := plan;
    vi_BlockResults := collectBlockResults blockSteps;
    vi_BlockVerificationContexts := blockVerificationContexts;
    vi_FinalVerificationContext := finalVerificationContext;
    vi_TaskGraph := None;
    vi_Report := draft |}.
End planned.

(** A failure of the draft: the state the runtime goes to. *)
Definition failed_state (category : FailureCategory) (summary : string) : ST error W WorkflowExecutionState :=
  r ← wr_HandleFailure workflowRuntime execCtx WorkflowStateVerifying category summary;
  mret r.1.

(** What verification makes of a run: the state it ends in if the draft
    cannot be trusted, or must be planned again. *)
Inductive Verdict :=
| TrustFailed (next : WorkflowExecutionState)
| MustReplan (next : WorkflowExecutionState)
| Verified.

Definition judge (trust_failed replan : string) (results : list VerificationResult) : ST error W Verdict :=
  if HasTrustFailure results then next ← failed_state FailureCategoryTrustValidation trust_failed; mret (TrustFailed next)
  else if NeedsReplan results then next ← failed_state FailureCategoryValidation replan; mret (MustReplan next)
  else mret Verified.

Definition govern (governance_failed : string) (meta : SystemStepMetadata) (draft : ReportPayload) (taskGraph : option TaskGraph) :
    ST error W (GovernanceStepResult * SystemStepMetadata) :=
  governanceStep ← or_handle WorkflowStateVerifying governance_failed (ssb_Governance steps meta current draft taskGraph);
  mret (governanceStep, updateCausation meta (gs_Metadata governanceStep) current).

Definition approval_outcome (governance : GovernanceStepResult) : option PolicyDecisionOutcome :=
  pd_Outcome <$> ae_Decision (gs_Approval governance).

Definition disclosed_outcome (governance : GovernanceStepResult) : bool :=
  let outcome := pd_Outcome (re_Decision (gs_Disclosure governance)) in
  (outcome == PolicyDecisionAllow) || (outcome == PolicyDecisionRedact).

(** What becomes of a verified draft. *)
Record Publication (R : Type) := mkPublication {
  pb_State : WorkflowExecutionState;
  pb_Report : R;
  pb_Artifacts : list WorkflowArtifact;
  pb_Checkpoint : option (CheckpointRecord * ResumeToken);
  pb_PendingApproval : option HumanApprovalPending
}.
Arguments mkPublication {R}. Arguments pb_State {R}. Arguments pb_Report {R}. Arguments pb_Artifacts {R}.
Arguments pb_Checkpoint {R}. Arguments pb_PendingApproval {R}.

(** The texts of a workflow's publication: the action an approval is asked
    for, the summaries of a checkpoint before it (if one is made), of a denial
    and of a failed finalisation. *)
Record PublicationTexts := mkPublicationTexts {
  pt_Action : string;
  pt_Waiting : option string;
  pt_Denied : string;
  pt_Failed : string
}.

(** The [switch] on the decisions of governance. *)
Definition publish {R} (texts : PublicationTexts) (now : time) (meta : SystemStepMetadata) (draft : ReportPayload)
    (governance : GovernanceStepResult) (report : R) (require_approval : R -> R) (fromPayload : ReportPayload -> error + R) :
    ST error W (Publication R) :=
  if approval_outcome governance == Some PolicyDecisionRequireApproval then
    let pending := (zero : HumanApprovalPending)
      <| ha_ApprovalID := ec_WorkflowID execCtx +:+ "-approval" |>
      <| ha_WorkflowID := ec_WorkflowID execCtx |>
      <| ha_RequestedAction := pt_Action texts |>
      <| ha_RequiredRoles := approvalRoles (gs_Approval governance) |>
      <| ha_RequestedAt := now |> in
    checkpoint ← match pt_Waiting texts with
                 | None => mret None
                 | Some summary =>
                     cp ← wr_Checkpoint workflowRuntime execCtx WorkflowStateVerifying WorkflowStateVerifying
                            (sv_Sequence (fw_Version current)) summary;
                     mret (Some cp)
                 end;
    next ← wr_PauseForApproval workflowRuntime execCtx WorkflowStateVerifying pending;
    mret (mkPublication next (require_approval report) [] checkpoint (Some pending))
  else if approval_outcome governance == Some PolicyDecisionDeny then
    next ← failed_state FailureCategoryGovernanceDenied (pt_Denied texts);
    mret (mkPublication next report [] None None)
  else if disclosed_outcome governance then
    finalizeStep ← or_handle WorkflowStateVerifying (pt_Failed texts)
                     (ssb_ReportFinalize steps meta draft (re_Decision (gs_Disclosure governance)));
    finalReport ← of_sum (fromPayload (rf2_Report finalizeStep));
    mret (mkPublication WorkflowStateCompleted finalReport (rf2_Artifacts finalizeStep) None None)
  else mret (mkPublication WorkflowStateFailed report [] None None).
End observed.
End run.

(** [ResolveWorkflowRuntime]: without a runtime, a new local one. *)
Definition ResolveWorkflowRuntime (current : option (WorkflowRuntime W)) : WorkflowRuntime W :=
  default (local_runtime view upd (NewLocalWorkflowRuntime
    (mkRuntime None None false false true None None None None None None None None))) current.

(** [resumeFollowUpFinalize] *)
Definition resumeFollowUpFinalize (steps : option (SystemStepBus W)) (workflowRuntime : WorkflowRuntime W) (workflowID sender : string)
    (spec : TaskSpec) (activation : FollowUpActivationContext) (current : FinancialWorldState) (checkpoint : CheckpointRecord)
    (token : ResumeToken) (payload : CheckpointPayloadEnvelope) : ST error W (ReportPayload * list WorkflowArtifact) :=
  match steps with
  | None => fail (PlainError "follow-up resume requires system step bus")
  | Some steps =>
      of_sum (check (CheckpointPayloadEnvelope_Validate payload));;
      match ce_Kind payload, ce_FollowUpFinalizeResume payload with
      | CheckpointPayloadKindFollowUpFinalizeResume, Some resume =>
          let execCtx := mkExecutionContext workflowID (ts_ID spec) (ac_RootCorrelationID activation) 1 in
          nextState ← wr_Resume workflowRuntime execCtx (ck_ID checkpoint) token;
          if nextState != ck_ResumeState checkpoint then
            fail (PlainError ("follow-up resume reached unexpected state " +:+ Quote (WorkflowExecutionState_string nextState)))
          else
            let meta := systemStepMeta workflowID sender spec current (ac_RootCorrelationID activation) (ac_TriggeredByTaskID activation) in
            finalizeStep ← ssb_ReportFinalize steps meta (fp_DraftReport resume) (fp_DisclosureDecision resume);
            mret (rf2_Report finalizeStep, rf2_Artifacts finalizeStep)
      | _, _ => fail (PlainError ("follow-up resume requires " +:+ Quote (CheckpointPayloadKind_string CheckpointPayloadKindFollowUpFinalizeResume) +:+
                                  " checkpoint payload"))
      end
  end.
End support.
Arguments mkPublication {R}. Arguments pb_State {R}. Arguments pb_Report {R}. Arguments pb_Artifacts {R}.
Arguments pb_Checkpoint {R}. Arguments pb_PendingApproval {R}.
Arguments MonthlyReviewService : clear implicits.
Arguments DebtVsInvestService : clear implicits.
Arguments BehaviorInterventionService : clear implicits.
Arguments LifeEventWorkflowService : clear implicits.
Arguments FollowUpWorkflowService : clear implicits.
Arguments EventLog : clear implicits.
Arguments Clock : clear implicits.
