(* ===== verification/Workflows.v ===== *)
(** * The report workflows (workflows/monthly_review.go, debt_vs_invest.go,
    tax_optimization.go, portfolio_rebalance.go)

    A run takes a task through observation, memory, planning, analysis, draft,
    verification and governance to a published report, a pause or a failure. *)

From S2P Require Export WorkflowSupport.
#[local] Open Scope Z_scope.

Section workflows.
Context {W : Type} (system_now : W -> W * time) (view : W -> World) (upd : World -> W -> W)
  `{TE : TextErrors} `{MO : MapOrder} `{JE : StateEncoder}.

Definition with_user (userID : string) (current : FinancialWorldState) : FinancialWorldState :=
  if fw_UserID current == "" then current <| fw_UserID := userID |> else current.

Definition required_steps (steps : option (SystemStepBus W)) (workflow : string) : ST error W (SystemStepBus W) :=
  match steps with
  | None => fail (PlainError (workflow +:+ " workflow requires system step bus"))
  | Some steps => mret steps
  end.

(** ** The monthly review *)

Record MonthlyReviewWorkflow := mkMonthlyReviewWorkflow {
  mrw_Intake : Clock W;
  mrw_ReviewService : MonthlyReviewService W;
  mrw_SystemSteps : option (SystemStepBus W);
  mrw_Runtime : option (WorkflowRuntime W);
  mrw_Now : Clock W
}.

Definition monthly_publication : PublicationTexts := {|
  pt_Action := "monthly_review_report";
  pt_Waiting := None;
  pt_Denied := "governance denied report publication";
  pt_Failed := "report finalization failed" |}.

Definition MonthlyReviewWorkflow_Run (w : MonthlyReviewWorkflow) (userID rawInput : string) (current : FinancialWorldState) :
    ST error W MonthlyReviewRunResult :=
  intake ← DeterministicIntakeService_Parse system_now (mrw_Intake w) rawInput;
  spec ← accepted_task intake "task";
  now ← read system_now (mrw_Now w);
  let current := with_user userID current in
  let workflowID := "workflow-monthly-review-" +:+ Format_compact now in
  let execCtx := mkExecutionContext workflowID (ts_ID spec) workflowID 1 in
  let workflowRuntime := ResolveWorkflowRuntime view upd (mrw_Runtime w) in
  observed ← observe_and_checkpoint workflowRuntime execCtx
    (MonthlyReviewService_ObserveAndReduce system_now (mrw_ReviewService w) spec userID workflowID current) ob_Diff
    (sv_Sequence (fw_Version current)) "observation completed" "state updated from evidence patch";
  steps ← required_steps (mrw_SystemSteps w) "monthly review";
  let updatedState := ob_UpdatedState observed in
  let evidence := ob_Evidence observed in
  let meta := systemStepMeta workflowID "monthly_review_workflow" spec updatedState workflowID workflowID in
  planned ← sync_and_plan workflowRuntime steps execCtx updatedState evidence meta "memory steward failed" "planner agent failed";
  let memories := wm_Retrieved (pn_Memory planned) in
  let plan := pn_Plan planned in
  analysed ← run_blocks workflowRuntime steps execCtx updatedState evidence plan memories "domain analysis block failed"
               (pn_Meta planned) (ep_Blocks plan);
  let '(blockSteps, meta) := analysed in
  let blockResults := collectBlockResults blockSteps in
  drafted ← draft_report workflowRuntime steps execCtx updatedState evidence plan memories "report agent draft failed" meta blockResults
              (ob_Diff observed) None;
  let '(draft, meta) := drafted in
  report ← of_sum (monthlyReviewReportFromPayload draft);
  wr_Checkpoint workflowRuntime execCtx WorkflowStateActing WorkflowStateVerifying (sv_Sequence (fw_Version updatedState))
    "system agent draft completed";;
  verified ← verify_draft workflowRuntime steps execCtx updatedState evidence plan memories "verification agent failed" meta blockSteps draft;
  let '(verification, meta) := verified in
  let result := (zero : MonthlyReviewRunResult)
    <| mw_WorkflowID := workflowID |> <| mw_Intake := intake |> <| mw_TaskSpec := spec |> <| mw_Plan := plan |>
    <| mw_Evidence := evidence |> <| mw_BlockResults := blockResults |> <| mw_UpdatedState := updatedState |>
    <| mw_Report := report |> <| mw_GeneratedMemories := wm_GeneratedIDs (pn_Memory planned) |>
    <| mw_CoverageReport := pr_CoverageReport verification |> <| mw_Verification := pr_Results verification |>
    <| mw_Oracle := pr_OracleVerdict verification |> in
  verdict ← judge workflowRuntime execCtx "trust validation failed for monthly review report"
              "verification failed; workflow should replan" (pr_Results verification);
  match verdict with
  | TrustFailed next | MustReplan next => mret (result <| mw_RuntimeState := next |>)
  | Verified =>
      governed ← govern workflowRuntime steps execCtx updatedState "governance agent failed" meta draft None;
      let '(governance, meta) := governed in
      publication ← publish workflowRuntime steps execCtx updatedState monthly_publication now meta draft governance report
                      (fun r => r <| mrr_ApprovalRequired := true |>) monthlyReviewReportFromPayload;
      mret (result
        <| mw_Report := pb_Report publication |> <| mw_Artifacts := pb_Artifacts publication |>
        <| mw_RiskAssessment := ae_RiskAssessment (gs_Approval governance) |>
        <| mw_ApprovalDecision := ae_Decision (gs_Approval governance) |>
        <| mw_ApprovalAudit := ae_Audit (gs_Approval governance) |>
        <| mw_RuntimeState := pb_State publication |>)
  end.

(** ** Debt or invest *)

Record DebtVsInvestWorkflow := mkDebtVsInvestWorkflow {
  dvw_Intake : Clock W;
  dvw_DecisionService : DebtVsInvestService W;
  dvw_SystemSteps : option (SystemStepBus W);
  dvw_Runtime : option (WorkflowRuntime W);
  dvw_Now : Clock W
}.

Definition debt_publication : PublicationTexts := {|
  pt_Action := "debt_vs_invest_recommendation";
  pt_Waiting := Some "debt decision waiting approval";
  pt_Denied := "governance denied debt decision publication";
  pt_Failed := "report finalization failed" |}.

Definition DebtVsInvestWorkflow_Run (w : DebtVsInvestWorkflow) (userID rawInput : string) (current : FinancialWorldState) :
    ST error W DebtDecisionRunResult :=
  intake ← DeterministicIntakeService_Parse system_now (dvw_Intake w) rawInput;
  spec ← accepted_task intake "task";
  now ← read system_now (dvw_Now w);
  let current := with_user userID current in
  let workflowID := "workflow-debt-vs-invest-" +:+ Format_compact now in
  let execCtx := mkExecutionContext workflowID (ts_ID spec) workflowID 1 in
  let workflowRuntime := ResolveWorkflowRuntime view upd (dvw_Runtime w) in
  observed ← observe_and_checkpoint workflowRuntime execCtx
    (DebtVsInvestService_ObserveAndReduce system_now (dvw_DecisionService w) spec userID workflowID current) ob_Diff
    (sv_Sequence (fw_Version current)) "decision evidence collected" "decision state updated";
  steps ← required_steps (dvw_SystemSteps w) "debt-vs-invest";
  let updatedState := ob_UpdatedState observed in
  let evidence := ob_Evidence observed in
  let meta := systemStepMeta workflowID "debt_vs_invest_workflow" spec updatedState workflowID workflowID in
  planned ← sync_and_plan workflowRuntime steps execCtx updatedState evidence meta "memory steward failed" "planner agent failed";
  let memories := wm_Retrieved (pn_Memory planned) in
  let plan := pn_Plan planned in
  analysed ← run_blocks workflowRuntime steps execCtx updatedState evidence plan memories "domain analysis block failed"
               (pn_Meta planned) (ep_Blocks plan);
  let '(blockSteps, meta) := analysed in
  let blockResults := collectBlockResults blockSteps in
  drafted ← draft_report workflowRuntime steps execCtx updatedState evidence plan memories "report draft generation failed" meta blockResults
              (ob_Diff observed) None;
  let '(draft, meta) := drafted in
  report ← of_sum (debtDecisionReportFromPayload draft);
  verified ← verify_draft workflowRuntime steps execCtx updatedState evidence plan memories "verification agent failed" meta blockSteps draft;
  let '(verification, meta) := verified in
  let result := (zero : DebtDecisionRunResult)
    <| dw_WorkflowID := workflowID |> <| dw_Intake := intake |> <| dw_TaskSpec := spec |> <| dw_Plan := plan |>
    <| dw_Evidence := evidence |> <| dw_BlockResults := blockResults |> <| dw_UpdatedState := updatedState |>
    <| dw_DraftPayload := draft |> <| dw_Report := report |>
    <| dw_CoverageReport := pr_CoverageReport verification |> <| dw_Verification := pr_Results verification |>
    <| dw_Oracle := pr_OracleVerdict verification |> in
  verdict ← judge workflowRuntime execCtx "trust validation failed for debt decision report"
              "decision verification failed; workflow should replan" (pr_Results verification);
  match verdict with
  | TrustFailed next | MustReplan next => mret (result <| dw_RuntimeState := next |>)
  | Verified =>
      governed ← govern workflowRuntime steps execCtx updatedState "governance agent failed" meta draft None;
      let '(governance, meta) := governed in
      publication ← publish workflowRuntime steps execCtx updatedState debt_publication now meta draft governance report
                      (fun r => r <| ddr_ApprovalRequired := true |>) debtDecisionReportFromPayload;
      mret (result
        <| dw_DisclosureDecision := re_Decision (gs_Disclosure governance) |>
        <| dw_Report := pb_Report publication |> <| dw_Artifacts := pb_Artifacts publication |>
        <| dw_RiskAssessment := ae_RiskAssessment (gs_Approval governance) |>
        <| dw_ApprovalDecision := ae_Decision (gs_Approval governance) |>
        <| dw_ApprovalAudit := ae_Audit (gs_Approval governance) |>
        <| dw_Checkpoint := fst <$> pb_Checkpoint publication |>
        <| dw_ResumeToken := snd <$> pb_Checkpoint publication |>
        <| dw_PendingApproval := pb_PendingApproval publication |>
        <| dw_RuntimeState := pb_State publication |>)
  end.

(** [ResumeAfterApproval] *)
Definition DebtVsInvestWorkflow_ResumeAfterApproval (w : DebtVsInvestWorkflow) (spec : TaskSpec) (activation : FollowUpActivationContext)
    (current : FinancialWorldState) (checkpoint : CheckpointRecord) (token : ResumeToken) (draft : ReportPayload)
    (disclosure : PolicyDecision) : ST error W DebtDecisionRunResult :=
  r ← resumeFollowUpFinalize (dvw_SystemSteps w) (ResolveWorkflowRuntime view upd (dvw_Runtime w)) (ck_WorkflowID checkpoint)
        "debt_vs_invest_workflow_resume" spec activation current checkpoint token
        (finalize_resume (firstNonEmptyString [ac_ParentGraphID activation; ck_WorkflowID checkpoint]) (ck_WorkflowID checkpoint) (ts_ID spec)
           ArtifactKindDebtDecisionReport draft disclosure
           (firstNonEmptyString [sv_SnapshotID (fw_Version current); ck_ID checkpoint]));
  report ← of_sum (debtDecisionReportFromPayload r.1);
  mret ((zero : DebtDecisionRunResult)
    <| dw_WorkflowID := ck_WorkflowID checkpoint |> <| dw_TaskSpec := spec |> <| dw_UpdatedState := current |>
    <| dw_DraftPayload := draft |> <| dw_DisclosureDecision := disclosure |> <| dw_Report := report |>
    <| dw_Artifacts := r.2 |> <| dw_RuntimeState := WorkflowStateCompleted |>).

(** ** Tax optimization *)

Record TaxOptimizationWorkflow := mkTaxOptimizationWorkflow {
  tow_Service : FollowUpWorkflowService W;
  tow_SystemSteps : option (SystemStepBus W);
  tow_Runtime : option (WorkflowRuntime W);
  tow_EventLog : EventLog W;
  tow_Now : Clock W
}.

Definition taxOptimization_publication : PublicationTexts := {|
  pt_Action := "tax_optimization_report";
  pt_Waiting := Some "tax optimization waiting approval";
  pt_Denied := "governance denied tax optimization publication";
  pt_Failed := "tax optimization report finalization failed" |}.

(** A draft to be planned again is not kept in the result. *)
Definition TaxOptimizationWorkflow_RunTask (w : TaxOptimizationWorkflow) (spec : TaskSpec) (activation : FollowUpActivationContext)
    (current : FinancialWorldState) : ST error W TaxOptimizationRunResult :=
  if ts_UserIntentType spec != UserIntentTaxOptimization then
    fail (PlainError "tax optimization workflow requires tax_optimization task spec")
  else
  now ← read system_now (tow_Now w);
  let workflowID := "workflow-tax-optimization-" +:+ Format_compact now in
  let execCtx := mkExecutionContext workflowID (ts_ID spec) (ac_RootCorrelationID activation) 1 in
  let workflowRuntime := ResolveWorkflowRuntime view upd (tow_Runtime w) in
  observed ← observe_and_checkpoint workflowRuntime execCtx
    (FollowUpWorkflowService_ObserveAndReduce system_now (tow_Service w) spec activation workflowID current) lo_Diff
    (sv_Sequence (fw_Version current)) "tax optimization evidence observed" "tax optimization state updated from evidence patch";
  steps ← required_steps (tow_SystemSteps w) "tax optimization";
  let updatedState := lo_UpdatedState observed in
  let evidence := lo_Evidence observed in
  let meta := systemStepMeta workflowID "tax_optimization_workflow" spec updatedState (ac_RootCorrelationID activation) (ac_TriggeredByTaskID activation) in
  planned ← sync_and_plan workflowRuntime steps execCtx updatedState evidence meta
              "tax optimization memory steward failed" "tax optimization planner failed";
  let memories := wm_Retrieved (pn_Memory planned) in
  let plan := pn_Plan planned in
  analysed ← run_blocks workflowRuntime steps execCtx updatedState evidence plan memories "tax optimization domain block failed"
               (pn_Meta planned) (ep_Blocks plan);
  let '(blockSteps, meta) := analysed in
  let blockResults := collectBlockResults blockSteps in
  drafted ← draft_report workflowRuntime steps execCtx updatedState evidence plan memories "tax optimization report draft failed" meta blockResults
              (lo_Diff observed) None;
  let '(draft, meta) := drafted in
  report ← of_sum (taxOptimizationReportFromPayload draft);
  verified ← verify_draft workflowRuntime steps execCtx updatedState evidence plan memories "tax optimization verification failed" meta blockSteps draft;
  let '(verification, meta) := verified in
  let result := (zero : TaxOptimizationRunResult)
    <| tw_WorkflowID := workflowID |> <| tw_TaskSpec := spec |> <| tw_Plan := plan |>
    <| tw_Evidence := evidence |> <| tw_BlockResults := blockResults |> <| tw_UpdatedState := updatedState |>
    <| tw_Report := report |>
    <| tw_CoverageReport := pr_CoverageReport verification |> <| tw_Verification := pr_Results verification |>
    <| tw_Oracle := pr_OracleVerdict verification |> in
  verdict ← judge workflowRuntime execCtx "tax optimization trust validation failed"
              "tax optimization verification failed; workflow should replan" (pr_Results verification);
  match verdict with
  | TrustFailed next => mret (result <| tw_DraftPayload := draft |> <| tw_RuntimeState := next |>)
  | MustReplan next => mret (result <| tw_RuntimeState := next |>)
  | Verified =>
      governed ← govern workflowRuntime steps execCtx updatedState "tax optimization governance failed" meta draft None;
      let governance := governed.1 in
      publication ← publish workflowRuntime steps execCtx updatedState taxOptimization_publication now meta draft governance report
                      (fun r => r <| tor_ApprovalRequired := true |>) taxOptimizationReportFromPayload;
      mret (result
        <| tw_DraftPayload := draft |>
        <| tw_DisclosureDecision := re_Decision (gs_Disclosure governance) |>
        <| tw_Report := pb_Report publication |> <| tw_Artifacts := pb_Artifacts publication |>
        <| tw_RiskAssessment := ae_RiskAssessment (gs_Approval governance) |>
        <| tw_ApprovalDecision := ae_Decision (gs_Approval governance) |>
        <| tw_ApprovalAudit := ae_Audit (gs_Approval governance) |>
        <| tw_Checkpoint := fst <$> pb_Checkpoint publication |>
        <| tw_ResumeToken := snd <$> pb_Checkpoint publication |>
        <| tw_PendingApproval := pb_PendingApproval publication |>
        <| tw_RuntimeState := pb_State publication |>)
  end.

Definition TaxOptimizationWorkflowCapability_Execute (w : TaxOptimizationWorkflow) (spec : TaskSpec) (activation : FollowUpActivationContext)
    (current : FinancialWorldState) : ST error W FollowUpWorkflowRunResult :=
  result ← TaxOptimizationWorkflow_RunTask w spec activation current;
  let runtimeState := tw_RuntimeState result in
  mret {| fx_WorkflowID := tw_WorkflowID result;
          fx_RuntimeState := runtimeState;
          fx_UpdatedState := tw_UpdatedState result;
          fx_Artifacts := tw_Artifacts result;
          fx_Checkpoint := tw_Checkpoint result;
          fx_ResumeToken := tw_ResumeToken result;
          fx_CheckpointPayload := buildFollowUpFinalizeResumePayload (ac_ParentGraphID activation) (tw_WorkflowID result) (ts_ID spec)
            ArtifactKindTaxOptimizationReport (tw_DraftPayload result) (tw_DisclosureDecision result) (tw_UpdatedState result) runtimeState;
          fx_PendingApproval := tw_PendingApproval result;
          fx_FailureCategory := followUpFailureCategoryFromRuntimeState runtimeState FailureCategoryValidation FailureCategoryUnrecoverable;
          fx_FailureSummary := followUpFailureSummary runtimeState "tax optimization follow-up did not complete";
          fx_LastRecoveryStrategy := followUpRecoveryStrategyFromRuntimeState runtimeState |}.

Definition TaxOptimizationWorkflowCapability_Resume (w : TaxOptimizationWorkflow) (spec : TaskSpec) (activation : FollowUpActivationContext)
    (current : FinancialWorldState) (checkpoint : CheckpointRecord) (token : ResumeToken) (payload : CheckpointPayloadEnvelope) :
    ST error W FollowUpWorkflowRunResult :=
  r ← resumeFollowUpFinalize (tow_SystemSteps w) (ResolveWorkflowRuntime view upd (tow_Runtime w)) (ck_WorkflowID checkpoint)
        "tax_optimization_workflow_resume" spec activation current checkpoint token payload;
  of_sum (taxOptimizationReportFromPayload r.1);;
  mret ((zero : FollowUpWorkflowRunResult)
    <| fx_WorkflowID := ck_WorkflowID checkpoint |> <| fx_RuntimeState := WorkflowStateCompleted |> <| fx_UpdatedState := current |>
    <| fx_Artifacts := r.2 |> <| fx_LastRecoveryStrategy := RecoveryStrategyWaitForApproval |>).

(** ** Portfolio rebalance *)

Record PortfolioRebalanceWorkflow := mkPortfolioRebalanceWorkflow {
  pow_Service : FollowUpWorkflowService W;
  pow_SystemSteps : option (SystemStepBus W);
  pow_Runtime : option (WorkflowRuntime W);
  pow_EventLog : EventLog W;
  pow_Now : Clock W
}.

Definition portfolioRebalance_publication : PublicationTexts := {|
  pt_Action := "portfolio_rebalance_report";
  pt_Waiting := Some "portfolio rebalance waiting approval";
  pt_Denied := "governance denied portfolio rebalance publication";
  pt_Failed := "portfolio rebalance report finalization failed" |}.

Definition PortfolioRebalanceWorkflow_RunTask (w : PortfolioRebalanceWorkflow) (spec : TaskSpec) (activation : FollowUpActivationContext)
    (current : FinancialWorldState) : ST error W PortfolioRebalanceRunResult :=
  if ts_UserIntentType spec != UserIntentPortfolioRebalance then
    fail (PlainError "portfolio rebalance workflow requires portfolio_rebalance task spec")
  else
  now ← read system_now (pow_Now w);
  let workflowID := "workflow-portfolio-rebalance-" +:+ Format_compact now in
  let execCtx := mkExecutionContext workflowID (ts_ID spec) (ac_RootCorrelationID activation) 1 in
  let workflowRuntime := ResolveWorkflowRuntime view upd (pow_Runtime w) in
  observed ← observe_and_checkpoint workflowRuntime execCtx
    (FollowUpWorkflowService_ObserveAndReduce system_now (pow_Service w) spec activation workflowID current) lo_Diff
    (sv_Sequence (fw_Version current)) "portfolio rebalance evidence observed" "portfolio rebalance state updated from evidence patch";
  steps ← required_steps (pow_SystemSteps w) "portfolio rebalance";
  let updatedState := lo_UpdatedState observed in
  let evidence := lo_Evidence observed in
  let meta := systemStepMeta workflowID "portfolio_rebalance_workflow" spec updatedState (ac_RootCorrelationID activation) (ac_TriggeredByTaskID activation) in
  planned ← sync_and_plan workflowRuntime steps execCtx updatedState evidence meta
              "portfolio rebalance memory steward failed" "portfolio rebalance planner failed";
  let memories := wm_Retrieved (pn_Memory planned) in
  let plan := pn_Plan planned in
  analysed ← run_blocks workflowRuntime steps execCtx updatedState evidence plan memories "portfolio rebalance domain block failed"
               (pn_Meta planned) (ep_Blocks plan);
  let '(blockSteps, meta) := analysed in
  let blockResults := collectBlockResults blockSteps in
  drafted ← draft_report workflowRuntime steps execCtx updatedState evidence plan memories "portfolio rebalance report draft failed" meta blockResults
              (lo_Diff observed) None;
  let '(draft, meta) := drafted in
  report ← of_sum (portfolioRebalanceReportFromPayload draft);
  verified ← verify_draft workflowRuntime steps execCtx updatedState evidence plan memories "portfolio rebalance verification failed" meta blockSteps draft;
  let '(verification, meta) := verified in
  let result := (zero : PortfolioRebalanceRunResult)
    <| pw_WorkflowID := workflowID |> <| pw_TaskSpec := spec |> <| pw_Plan := plan |>
    <| pw_Evidence := evidence |> <| pw_BlockResults := blockResults |> <| pw_UpdatedState := updatedState |>
    <| pw_Report := report |>
    <| pw_CoverageReport := pr_CoverageReport verification |> <| pw_Verification := pr_Results verification |>
    <| pw_Oracle := pr_OracleVerdict verification |> in
  verdict ← judge workflowRuntime execCtx "portfolio rebalance trust validation failed"
              "portfolio rebalance verification failed; workflow should replan" (pr_Results verification);
  match verdict with
  | TrustFailed next => mret (result <| pw_DraftPayload := draft |> <| pw_RuntimeState := next |>)
  | MustReplan next => mret (result <| pw_RuntimeState := next |>)
  | Verified =>
      governed ← govern workflowRuntime steps execCtx updatedState "portfolio rebalance governance failed" meta draft None;
      let governance := governed.1 in
      publication ← publish workflowRuntime steps execCtx updatedState portfolioRebalance_publication now meta draft governance report
                      (fun r => r <| prr_ApprovalRequired := true |>) portfolioRebalanceReportFromPayload;
      mret (result
        <| pw_DraftPayload := draft |>
        <| pw_DisclosureDecision := re_Decision (gs_Disclosure governance) |>
        <| pw_Report := pb_Report publication |> <| pw_Artifacts := pb_Artifacts publication |>
        <| pw_RiskAssessment := ae_RiskAssessment (gs_Approval governance) |>
        <| pw_ApprovalDecision := ae_Decision (gs_Approval governance) |>
        <| pw_ApprovalAudit := ae_Audit (gs_Approval governance) |>
        <| pw_Checkpoint := fst <$> pb_Checkpoint publication |>
        <| pw_ResumeToken := snd <$> pb_Checkpoint publication |>
        <| pw_PendingApproval := pb_PendingApproval publication |>
        <| pw_RuntimeState := pb_State publication |>)
  end.

Definition PortfolioRebalanceWorkflowCapability_Execute (w : PortfolioRebalanceWorkflow) (spec : TaskSpec) (activation : FollowUpActivationContext)
    (current : FinancialWorldState) : ST error W FollowUpWorkflowRunResult :=
  result ← PortfolioRebalanceWorkflow_RunTask w spec activation current;
  let runtimeState := pw_RuntimeState result in
  mret {| fx_WorkflowID := pw_WorkflowID result;
          fx_RuntimeState := runtimeState;
          fx_UpdatedState := pw_UpdatedState result;
          fx_Artifacts := pw_Artifacts result;
          fx_Checkpoint := pw_Checkpoint result;
          fx_ResumeToken := pw_ResumeToken result;
          fx_CheckpointPayload := buildFollowUpFinalizeResumePayload (ac_ParentGraphID activation) (pw_WorkflowID result) (ts_ID spec)
            ArtifactKindPortfolioRebalanceReport (pw_DraftPayload result) (pw_DisclosureDecision result) (pw_UpdatedState result) runtimeState;
          fx_PendingApproval := pw_PendingApproval result;
          fx_FailureCategory := followUpFailureCategoryFromRuntimeState runtimeState FailureCategoryValidation FailureCategoryUnrecoverable;
          fx_FailureSummary := followUpFailureSummary runtimeState "portfolio rebalance follow-up did not complete";
          fx_LastRecoveryStrategy := followUpRecoveryStrategyFromRuntimeState runtimeState |}.

Definition PortfolioRebalanceWorkflowCapability_Resume (w : PortfolioRebalanceWorkflow) (spec : TaskSpec) (activation : FollowUpActivationContext)
    (current : FinancialWorldState) (checkpoint : CheckpointRecord) (token : ResumeToken) (payload : CheckpointPayloadEnvelope) :
    ST error W FollowUpWorkflowRunResult :=
  r ← resumeFollowUpFinalize (pow_SystemSteps w) (ResolveWorkflowRuntime view upd (pow_Runtime w)) (ck_WorkflowID checkpoint)
        "portfolio_rebalance_workflow_resume" spec activation current checkpoint token payload;
  of_sum (portfolioRebalanceReportFromPayload r.1);;
  mret ((zero : FollowUpWorkflowRunResult)
    <| fx_WorkflowID := ck_WorkflowID checkpoint |> <| fx_RuntimeState := WorkflowStateCompleted |> <| fx_UpdatedState := current |>
    <| fx_Artifacts := r.2 |> <| fx_LastRecoveryStrategy := RecoveryStrategyWaitForApproval |>).
End workflows.
Arguments MonthlyReviewWorkflow : clear implicits.
Arguments DebtVsInvestWorkflow : clear implicits.
Arguments TaxOptimizationWorkflow : clear implicits.
Arguments PortfolioRebalanceWorkflow : clear implicits.

(** On the runtime's own world the follow-up workflows are its capabilities. *)
Section capabilities.
Context (system_now : World -> World * time) `{TE : TextErrors} `{MO : MapOrder} `{JE : StateEncoder}.

Definition TaxOptimizationWorkflowCapability (w : TaxOptimizationWorkflow World) : FollowUpWorkflowCapability := {|
  CapabilityName := "tax_optimization_workflow";
  Capability_Execute := TaxOptimizationWorkflowCapability_Execute system_now id const w;
  Capability_Resume := TaxOptimizationWorkflowCapability_Resume id const w
|}.

Definition PortfolioRebalanceWorkflowCapability (w : PortfolioRebalanceWorkflow World) : FollowUpWorkflowCapability := {|
  CapabilityName := "portfolio_rebalance_workflow";
  Capability_Execute := PortfolioRebalanceWorkflowCapability_Execute system_now id const w;
  Capability_Resume := PortfolioRebalanceWorkflowCapability_Resume id const w
|}.
End capabilities.
