(* ===== verification/EventWorkflows.v ===== *)
(** * The life event and behavior workflows (workflows/life_event_trigger.go,
    behavior_intervention.go)

    The life event workflow verifies its analysis first, then generates
    follow-up tasks, registers them with the runtime and lets it execute them;
    the behavior workflow selects a skill and keeps a record of how it ended. *)

From S2P Require Export Workflows.
#[local] Open Scope Z_scope.

Section workflows.
Context {W : Type} (system_now : W -> W * time) (view : W -> World) (upd : World -> W -> W)
  `{TE : TextErrors} `{MO : MapOrder} `{JE : StateEncoder}.

(** ** Life events *)

Record LifeEventTriggerWorkflow := mkLifeEventTriggerWorkflow {
  lew_Intake : Clock W;
  lew_TriggerService : LifeEventWorkflowService W;
  lew_SystemSteps : option (SystemStepBus W);
  lew_Runtime : option (WorkflowRuntime W);
  lew_EventLog : EventLog W;
  lew_Now : Clock W
}.

Definition applyApprovalDecisionToTaskGraph (graph : TaskGraph) (approval : ApprovalEvaluation) : TaskGraph :=
  if requires_approval approval then
    graph <| tg_GeneratedTasks := (fun item => item <| gt_Metadata := gt_Metadata item <| gm_RequiresApproval := true |> |>) <$> tg_GeneratedTasks graph |>
  else graph.

Section run.
Context (w : LifeEventTriggerWorkflow) (workflowRuntime : WorkflowRuntime W) (steps : SystemStepBus W) (execCtx : ExecutionContext)
  (now : time).

Definition event_log (category message : string) (details : list (string * string)) : ST error W unit :=
  appendWorkflowLog (lew_EventLog w) (ec_WorkflowID execCtx) category message details now.

Definition log_task_graph (graph : TaskGraph) : ST error W unit :=
  event_log "generated_task_graph" "generated follow-up task graph from validated life event analysis"
    [("graph_id", tg_GraphID graph);
     ("generated_task_ids", taskIDs graph);
     ("generated_intents", taskIntents graph);
     ("suppression_notes", joinStrings (tg_SuppressionNotes graph));
     ("generation_summary", tg_GenerationSummary graph);
     ("trigger_source", TaskTriggerSource_string (tg_TriggerSource graph))].

(** What becomes of the generated tasks and of the assessment. *)
Record FollowUp := mkFollowUp {
  fu_State : WorkflowExecutionState;
  fu_Registration : FollowUpRegistrationResult;
  fu_Execution : FollowUpExecutionBatchResult;
  fu_Report : ReportPayload;
  fu_Artifacts : list WorkflowArtifact
}.

(** [FollowUpExecution] and what follows it, when nothing needs an approval. *)
Definition execute_follow_ups (meta : SystemStepMetadata) (disclosure : PolicyDecision) (graph : TaskGraph)
    (registration : FollowUpRegistrationResult) (report : ReportPayload) : ST error W FollowUp :=
  execution ← wr_ExecuteReadyFollowUps workflowRuntime execCtx (tg_GraphID graph) DefaultAutoExecutionPolicy;
  registration ← if is_nil (fb_RegisteredTasks execution) then mret registration
                 else tasks ← wr_NewTasks workflowRuntime (fb_RegisteredTasks execution);
                      mret (registration <| fr_RegisteredTasks := tasks |>);
  let report := applyFollowUpExecutionToAssessment report execution in
  event_log "life_event_follow_up_execution" "executed eligible follow-up tasks through runtime capability plane"
    [("graph_id", fb_GraphID execution);
     ("executed_task_ids", executedTaskIDs (fb_ExecutedTasks execution));
     ("latest_state_version", Itoa (sv_Sequence (fw_Version (ss_State (fb_LatestCommittedStateSnapshot execution)))))];;
  finalizeStep ← or_handle workflowRuntime execCtx WorkflowStateVerifying "life event assessment finalization failed"
                   (ssb_ReportFinalize steps meta report disclosure);
  event_log "life_event_assessment_finalized" "finalized life event assessment secondary artifact"
    [("artifact_count", Itoa (Z.of_nat (length (rf2_Artifacts finalizeStep))))];;
  mret (mkFollowUp WorkflowStateCompleted registration execution (rf2_Report finalizeStep) (rf2_Artifacts finalizeStep)).

(** The [switch] on the decisions of governance. *)
Definition follow_up (meta : SystemStepMetadata) (updatedState : FinancialWorldState) (draft : ReportPayload)
    (governance : GovernanceStepResult) (graph : TaskGraph) : ST error W FollowUp :=
  if approval_outcome governance == Some PolicyDecisionDeny then
    r ← wr_HandleFailure workflowRuntime execCtx WorkflowStateVerifying FailureCategoryPolicy "governance denied life event follow-up registration";
    mret (mkFollowUp r.1 zero zero draft [])
  else if disclosed_outcome governance then
    registration ← wr_RegisterFollowUpTasks workflowRuntime execCtx graph updatedState;
    event_log "life_event_follow_up_registration" "registered generated follow-up tasks after governance"
      [("graph_id", tg_GraphID (fr_Graph registration));
       ("registered_task_ids", taskIDs (fr_Graph registration));
       ("generated_intents", taskIntents (fr_Graph registration))];;
    tasks ← wr_Tasks workflowRuntime (fr_RegisteredTasks registration);
    let report := applyFollowUpRegistrationToAssessment draft tasks in
    activation ← wr_ReevaluateTaskGraph workflowRuntime execCtx (tg_GraphID graph);
    event_log "life_event_follow_up_activation" "reevaluated generated follow-up task graph before runtime execution"
      [("graph_id", ta_GraphID activation); ("ready_task_ids", joinStrings (ta_ReadyTaskIDs activation))];;
    if approval_outcome governance == Some PolicyDecisionRequireApproval then
      next ← wr_PauseForApproval workflowRuntime execCtx WorkflowStateVerifying ((zero : HumanApprovalPending)
        <| ha_ApprovalID := ec_WorkflowID execCtx +:+ "-approval" |>
        <| ha_WorkflowID := ec_WorkflowID execCtx |>
        <| ha_RequestedAction := "life_event_follow_up_registration" |>
        <| ha_RequiredRoles := approvalRoles (gs_Approval governance) |>
        <| ha_RequestedAt := now |>);
      mret (mkFollowUp next registration zero report [])
    else execute_follow_ups meta (re_Decision (gs_Disclosure governance)) graph registration report
  else mret (mkFollowUp WorkflowStateFailed zero zero draft []).
End run.

Definition LifeEventTriggerWorkflow_Run (w : LifeEventTriggerWorkflow) (event : LifeEventRecord) (current : FinancialWorldState) :
    ST error W LifeEventTriggerRunResult :=
  intake ← EventTriggeredIntakeService_Build system_now (lew_Intake w) event;
  spec ← accepted_task intake "life event";
  now ← read system_now (lew_Now w);
  let current := with_user (le_UserID event) current in
  let workflowID := "workflow-life-event-" +:+ Format_compact now in
  let execCtx := mkExecutionContext workflowID (ts_ID spec) workflowID 1 in
  let workflowRuntime := ResolveWorkflowRuntime view upd (lew_Runtime w) in
  observed ← observe_and_checkpoint workflowRuntime execCtx
    (LifeEventWorkflowService_ObserveAndReduce system_now (lew_TriggerService w) spec event workflowID current) lo_Diff
    (sv_Sequence (fw_Version current)) "life event evidence observed" "life event state updated from evidence patch";
  steps ← required_steps (lew_SystemSteps w) "life event";
  let updatedState := lo_UpdatedState observed in
  let evidence := lo_Evidence observed in
  let meta := systemStepMeta workflowID "life_event_trigger_workflow" spec updatedState workflowID workflowID in
  planned ← sync_and_plan workflowRuntime steps execCtx updatedState evidence meta "memory steward failed" "planner agent failed";
  let memories := wm_Retrieved (pn_Memory planned) in
  let plan := pn_Plan planned in
  analysed ← run_blocks workflowRuntime steps execCtx updatedState evidence plan memories "life event domain analysis failed"
               (pn_Meta planned) (ep_Blocks plan);
  let '(blockSteps, meta) := analysed in
  let blockResults := collectBlockResults blockSteps in
  blockVerificationContexts ← block_contexts updatedState evidence plan memories blockSteps;
  let input := (zero : VerificationStepInput)
    <| vi_CurrentState := updatedState |> <| vi_Evidence := evidence |> <| vi_Memories := memories |>
    <| vi_Plan := plan |> <| vi_BlockResults := blockResults |> in
  pass1 ← run_verification_step workflowRuntime steps execCtx updatedState "life event analysis verification failed" meta
            (input <| vi_Stage := VerificationStageAnalysisBlocks |> <| vi_BlockVerificationContexts := blockVerificationContexts |>);
  let '(analysis, meta) := pass1 in
  let result := (zero : LifeEventTriggerRunResult)
    <| lw_WorkflowID := workflowID |> <| lw_Intake := intake |> <| lw_TaskSpec := spec |> <| lw_Plan := plan |>
    <| lw_EventEvidence := lo_EventEvidence observed |> <| lw_DeadlineEvidence := lo_DeadlineEvidence observed |>
    <| lw_Evidence := evidence |> <| lw_BlockResults := blockResults |> <| lw_UpdatedState := updatedState |>
    <| lw_StateDiff := lo_Diff observed |> <| lw_GeneratedMemories := wm_GeneratedIDs (pn_Memory planned) |>
    <| lw_CoverageReport := pr_CoverageReport analysis |> <| lw_AnalysisVerification := pr_Results analysis |>
    <| lw_Oracle := pr_OracleVerdict analysis |> in
  if NeedsReplan (pr_Results analysis) then
    next ← failed_state workflowRuntime execCtx FailureCategoryValidation "life event analysis verification failed; workflow should replan";
    mret (result <| lw_RuntimeState := next |>)
  else
  generationStep ← or_handle workflowRuntime execCtx WorkflowStateActing "task generation agent failed"
    (ssb_TaskGeneration steps meta updatedState (lo_EventEvidence observed ++ lo_DeadlineEvidence observed) memories (lo_Diff observed)
       plan blockResults);
  let meta := updateCausation meta (tn_Metadata generationStep) updatedState in
  let graph := tn_TaskGraph generationStep in
  log_task_graph w execCtx now graph;;
  drafted ← draft_report workflowRuntime steps execCtx updatedState evidence plan memories "life event assessment draft failed" meta blockResults
              (lo_Diff observed) (Some graph);
  let '(draft, meta) := drafted in
  finalVerificationContext ← final_context updatedState evidence plan memories draft;
  pass2 ← run_verification_step workflowRuntime steps execCtx updatedState "life event final verification failed" meta
            (input <| vi_Stage := VerificationStageGeneratedTasksAndFinal |>
                   <| vi_FinalVerificationContext := finalVerificationContext |>
                   <| vi_TaskGraph := Some graph |> <| vi_Report := draft |>);
  let '(verification, meta) := pass2 in
  let result := result
    <| lw_CoverageReport := pr_CoverageReport verification |> <| lw_FinalVerification := pr_Results verification |>
    <| lw_Oracle := pr_OracleVerdict verification |> in
  if NeedsReplan (pr_Results verification) then
    next ← failed_state workflowRuntime execCtx FailureCategoryValidation
             "life event generated tasks or final assessment failed verification";
    mret (result <| lw_TaskGraph := graph |> <| lw_Report := default zero (rp_LifeEventAssessment draft) |> <| lw_RuntimeState := next |>)
  else
  governed ← govern workflowRuntime steps execCtx updatedState "life event governance failed" meta draft (Some graph);
  let '(governance, meta) := governed in
  let lifeEventTaskGraph := applyApprovalDecisionToTaskGraph graph (gs_Approval governance) in
  followed ← follow_up w workflowRuntime steps execCtx now meta updatedState draft governance lifeEventTaskGraph;
  report ← of_sum (lifeEventAssessmentFromPayload (fu_Report followed));
  mret (result
    <| lw_TaskGraph := lifeEventTaskGraph |> <| lw_FollowUpTasks := fu_Registration followed |>
    <| lw_FollowUpExecution := fu_Execution followed |> <| lw_Report := report |> <| lw_Artifacts := fu_Artifacts followed |>
    <| lw_RiskAssessment := ae_RiskAssessment (gs_Approval governance) |>
    <| lw_ApprovalDecision := ae_Decision (gs_Approval governance) |>
    <| lw_ApprovalAudit := ae_Audit (gs_Approval governance) |>
    <| lw_RuntimeState := fu_State followed |>).

(** ** Behavior interventions *)

Record BehaviorInterventionWorkflow := mkBehaviorInterventionWorkflow {
  biw_Intake : Clock W;
  biw_Service : BehaviorInterventionService W;
  biw_SystemSteps : option (SystemStepBus W);
  biw_Runtime : option (WorkflowRuntime W);
  biw_WriteBehaviorSkillOutcome : TaskSpec -> SkillOutcomeMemory -> ST error W (list string);
  biw_SkillSelector : option (SelectionInput -> outcome error SkillSelection);
  biw_SkillRuntime : option (SkillSelection -> outcome error (SkillManifest * SkillRecipe));
  biw_SkillExecutionStore : option (SkillExecutionRecord -> ST error W unit);
  biw_EventLog : EventLog W;
  biw_Now : Clock W
}.

Definition behaviorInterventionReportFromPayload (payload : ReportPayload) : error + BehaviorInterventionReport :=
  or_error (PlainError "behavior intervention report payload is missing") (rp_BehaviorIntervention payload).

Definition behaviorSkillExecutionID (workflowID blockID : string) : string := workflowID +:+ ":skill:" +:+ blockID.

(** The ids that are not blank. *)
Definition present (ids : list string) : list string := filter (fun id => TrimSpace id <> "") ids.
Definition artifactIDs (items : list WorkflowArtifact) : list string := present (wa_ID <$> items).
Definition memoryRecordIDs (items : list MemoryRecord) : list string := present (mm_ID <$> items).
Definition riskFlagCodes (items : list RiskFlag) : list string := present (rf_Code <$> items).

Definition skillStatusForRuntime (runtimeState : WorkflowExecutionState) : SkillExecutionStatus :=
  match runtimeState with
  | WorkflowStateFailed => SkillExecutionStatusFailed
  | WorkflowStateWaitingApproval => SkillExecutionStatusGoverned
  | _ => SkillExecutionStatusExecuted
  end.

Definition approvalOutcomeForState (runtimeState : WorkflowExecutionState) (governanceOutcome : string) : string :=
  match runtimeState with
  | WorkflowStateWaitingApproval => "pending"
  | WorkflowStateCompleted => if governanceOutcome == "approved" then "approved" else ""
  | WorkflowStateFailed =>
      if governanceOutcome == PolicyDecisionOutcome_string PolicyDecisionDeny then "denied" else "not_applicable"
  | _ => ""
  end.

(** [skills.SkillFamily(s)] *)
Definition SkillFamily_of (s : string) : SkillFamily :=
  default (SkillFamilyOther s) (List.find (fun family => SkillFamily_string family == s)
    [SkillFamilySubscriptionCleanup; SkillFamilyLateNightSpendNudge; SkillFamilyDiscretionaryGuardrail]).

Section behavior.
Context (w : BehaviorInterventionWorkflow).

Definition behavior_now : ST error W time := read system_now (biw_Now w).

(** A line of the workflow's log; its time is read also when there is no log. *)
Definition behavior_log (workflowID category message : string) (details : list (string * string)) : ST error W unit :=
  at_ ← behavior_now;
  appendWorkflowLog (biw_EventLog w) workflowID category message details at_.

Definition logSkillSelection (workflowID : string) (selection : SkillSelection) (memories : list MemoryRecord) (evidence : list EvidenceRecord) :
    ST error W unit :=
  let reasons := ssr_Detail <$> sse_Reasons selection in
  behavior_log workflowID "skill_selected" ("selected " +:+ SkillFamily_string (sse_Family selection) +:+ "/" +:+ sse_RecipeID selection)
    [("skill_family", SkillFamily_string (sse_Family selection));
     ("skill_version", sse_Version selection);
     ("recipe_id", sse_RecipeID selection);
     ("reason_count", Itoa (Z.of_nat (length reasons)));
     ("reason_details", joinStrings reasons);
     ("memory_refs", joinStrings (sse_MemoryRefs selection));
     ("evidence_refs", joinStrings (sse_EvidenceRefs selection));
     ("retrieved_memorys", joinStrings (memoryRecordIDs memories));
     ("selected_evidence", joinEvidenceIDs evidence)].

Definition logSkillExecution (workflowID : string) (result : BehaviorBlockResult) : ST error W unit :=
  behavior_log workflowID "skill_execution" (bbr_Summary result)
    [("skill_family", SkillFamily_string (sse_Family (bbr_SelectedSkill result)));
     ("skill_version", sse_Version (bbr_SelectedSkill result));
     ("recipe_id", sse_RecipeID (bbr_SelectedSkill result));
     ("approval_required", show_flag (bbr_ApprovalRequired result));
     ("skill_selection_reasons", joinStrings (bbr_SkillSelectionReasons result));
     ("policy_rule_refs", joinStrings (bbr_PolicyRuleRefs result))].

Definition logSkillOutcomeMemory (workflowID : string) (memoryIDs : list string) (outcome : SkillOutcomeMemory) : ST error W unit :=
  behavior_log workflowID "skill_outcome_memory_written"
    ("wrote procedural memory for " +:+ so_SkillFamily outcome +:+ "/" +:+ so_RecipeID outcome)
    [("memory_ids", joinStrings memoryIDs);
     ("skill_family", so_SkillFamily outcome);
     ("skill_version", so_SkillVersion outcome);
     ("recipe_id", so_RecipeID outcome);
     ("final_runtime_state", so_FinalRuntimeState outcome);
     ("governance_outcome", so_GovernanceOutcome outcome);
     ("approval_outcome", so_ApprovalOutcome outcome);
     ("intervention_intensity", InterventionIntensity_string (so_InterventionIntensity outcome))].

Definition selectSkill (block : ExecutionBlock) (spec : TaskSpec) (current : FinancialWorldState) (evidence : list EvidenceRecord)
    (retrieved : list MemoryRecord) : ST error W SkillSelection :=
  match biw_SkillSelector w with
  | None => fail (PlainError "behavior workflow requires skill selector")
  | Some select =>
      selection ← of_outcome (select {|
        sin_Task := spec;
        sin_AllowedFamilies := xb_AllowedSkillFamilies block;
        sin_SelectionHint := xb_SkillSelectionHint block;
        sin_CurrentState := current;
        sin_Evidence := evidence;
        sin_ProceduralMemories := SkillSelectionMemoryRecords retrieved |});
      match biw_SkillRuntime w with
      | Some resolve => of_outcome (resolve selection);; mret selection
      | None => mret selection
      end
  end.

Definition save_execution (record : SkillExecutionRecord) : ST error W unit :=
  match biw_SkillExecutionStore w with None => mret tt | Some save => save record end.

Definition skill_record (workflowID executionID : string) (spec : TaskSpec) (selection : SkillSelection) (status : SkillExecutionStatus)
    (validatorOutcome governanceOutcome : string) (artifactRefs : list string) : ST error W SkillExecutionRecord :=
  createdAt ← behavior_now;
  updatedAt ← behavior_now;
  mret ((zero : SkillExecutionRecord)
    <| sx_WorkflowID := workflowID |> <| sx_TaskID := ts_ID spec |> <| sx_ExecutionID := executionID |>
    <| sx_Selection := selection |> <| sx_Status := status |> <| sx_ValidatorOutcome := validatorOutcome |>
    <| sx_GovernanceOutcome := governanceOutcome |> <| sx_ProducedArtifactIDs := artifactRefs |>
    <| sx_CreatedAt := createdAt |> <| sx_UpdatedAt := updatedAt |>).

Definition persistSkillOutcome (spec : TaskSpec) (workflowID blockID : string) (result : BehaviorBlockResult)
    (runtimeState : WorkflowExecutionState) (validatorOutcome governanceOutcome : string) (artifactRefs : list string) :
    ST error W (SkillExecutionRecord * list string) :=
  let selected := bbr_SelectedSkill result in
  record ← skill_record workflowID (behaviorSkillExecutionID workflowID blockID) spec selected (skillStatusForRuntime runtimeState)
             validatorOutcome governanceOutcome artifactRefs;
  save_execution record;;
  let outcome := {|
    so_WorkflowID := workflowID;
    so_TaskID := ts_ID spec;
    so_TraceID := workflowID;
    so_SkillFamily := SkillFamily_string (sse_Family selected);
    so_SkillVersion := sse_Version selected;
    so_RecipeID := sse_RecipeID selected;
    so_AnomalyCodes := riskFlagCodes (bbr_RiskFlags result);
    so_InterventionIntensity := sse_InterventionIntensity selected;
    so_FinalRuntimeState := WorkflowExecutionState_string runtimeState;
    so_GovernanceOutcome := governanceOutcome;
    so_ApprovalOutcome := approvalOutcomeForState runtimeState governanceOutcome;
    so_ArtifactRefs := artifactRefs;
    so_MemoryRefs := [] |} in
  ids ← biw_WriteBehaviorSkillOutcome w spec outcome;
  let record := record <| sx_ProducedMemoryRefs := ids |> in
  record ← match biw_SkillExecutionStore w with
           | None => mret record
           | Some save => updatedAt ← behavior_now; let record := record <| sx_UpdatedAt := updatedAt |> in save record;; mret record
           end;
  logSkillOutcomeMemory workflowID ids outcome;;
  mret (record, ids).

Definition behavior_publication : PublicationTexts := {|
  pt_Action := "behavior_intervention_report";
  pt_Waiting := Some "behavior intervention waiting approval";
  pt_Denied := "governance denied behavior intervention publication";
  pt_Failed := "behavior report finalization failed" |}.

(** The one block of the plan, with the skill that is selected for it. *)
Definition plan_with_skill (plan : ExecutionPlan) (block : ExecutionBlock) (selection : SkillSelection) : ExecutionPlan * ExecutionBlock :=
  let block := block <| xb_SelectedSkill := Some selection |> in (plan <| ep_Blocks := [block] |>, block).

Definition the_block (plan : ExecutionPlan) : ST error W ExecutionBlock :=
  match ep_Blocks plan with
  | [block] => mret block
  | blocks => fail (PlainError ("behavior intervention workflow expects exactly one block, got " +:+ Itoa (Z.of_nat (length blocks))))
  end.

Definition governance_outcome (governance : GovernanceStepResult) : string :=
  match ae_Decision (gs_Approval governance) with
  | Some decision => PolicyDecisionOutcome_string (pd_Outcome decision)
  | None => PolicyDecisionOutcome_string (pd_Outcome (re_Decision (gs_Disclosure governance)))
  end.

Definition BehaviorInterventionWorkflow_Run (userID rawInput : string) (current : FinancialWorldState) :
    ST error W BehaviorInterventionRunResult :=
  intake ← DeterministicIntakeService_Parse system_now (biw_Intake w) rawInput;
  spec ← accepted_task intake "task";
  now ← behavior_now;
  let current := with_user userID current in
  let workflowID := "workflow-behavior-intervention-" +:+ Format_compact now in
  let execCtx := mkExecutionContext workflowID (ts_ID spec) workflowID 1 in
  let workflowRuntime := ResolveWorkflowRuntime view upd (biw_Runtime w) in
  observed ← observe_and_checkpoint workflowRuntime execCtx
    (BehaviorInterventionService_ObserveAndReduce system_now (biw_Service w) spec userID workflowID current) ob_Diff
    (sv_Sequence (fw_Version current)) "behavior evidence observed" "behavior state updated from evidence patch";
  steps ← required_steps (biw_SystemSteps w) "behavior intervention";
  let updatedState := ob_UpdatedState observed in
  let evidence := ob_Evidence observed in
  let meta := systemStepMeta workflowID "behavior_intervention_workflow" spec updatedState workflowID workflowID in
  planned ← sync_and_plan workflowRuntime steps execCtx updatedState evidence meta "behavior memory steward failed" "behavior planner failed";
  let memories := wm_Retrieved (pn_Memory planned) in
  let behaviorMemories := wm_BehaviorRetrieved (pn_Memory planned) in
  block ← the_block (pn_Plan planned);
  selection ← selectSkill block spec updatedState evidence behaviorMemories;
  let '(plan, block) := plan_with_skill (pn_Plan planned) block selection in
  logSkillSelection workflowID selection behaviorMemories evidence;;
  analysed ← run_blocks workflowRuntime steps execCtx updatedState evidence plan memories "behavior domain block failed"
               (pn_Meta planned) [block];
  let '(blockSteps, meta) := analysed in
  let blockResults := collectBlockResults blockSteps in
  block_result ← match head blockResults ≫= be_Behavior with
                 | Some result => mret result
                 | None => fail (PlainError "behavior workflow requires behavior block result")
                 end;
  logSkillExecution workflowID block_result;;
  drafted ← draft_report workflowRuntime steps execCtx updatedState evidence plan memories "behavior report draft failed" meta blockResults
              (ob_Diff observed) None;
  let '(draft, meta) := drafted in
  report ← of_sum (behaviorInterventionReportFromPayload draft);
  verified ← verify_draft workflowRuntime steps execCtx updatedState evidence plan memories "behavior verification failed" meta blockSteps draft;
  let '(verification, meta) := verified in
  let base := (zero : BehaviorInterventionRunResult)
    <| bw_WorkflowID := workflowID |> <| bw_Intake := intake |> <| bw_TaskSpec := spec |> <| bw_Plan := plan |>
    <| bw_Evidence := evidence |> <| bw_BlockResults := blockResults |> <| bw_UpdatedState := updatedState |>
    <| bw_DraftPayload := draft |> <| bw_Report := report |>
    <| bw_CoverageReport := pr_CoverageReport verification |> <| bw_Verification := pr_Results verification |>
    <| bw_Oracle := pr_OracleVerdict verification |> in
  let failed next validatorOutcome :=
    r ← persistSkillOutcome spec workflowID (xb_ID block) block_result next validatorOutcome "" [];
    mret (base <| bw_RuntimeState := next |> <| bw_GeneratedMemories := r.2 |> <| bw_SkillExecution := Some r.1 |>) in
  verdict ← judge workflowRuntime execCtx "behavior trust validation failed"
              "behavior verification failed; workflow should replan" (pr_Results verification);
  match verdict with
  | TrustFailed next => failed next "trust_validation_failed"
  | MustReplan next => failed next "validation_failed"
  | Verified =>
      governed ← govern workflowRuntime steps execCtx updatedState "behavior governance failed" meta draft None;
      let governance := governed.1 in
      publication ← publish workflowRuntime steps execCtx updatedState behavior_publication now meta draft governance report
                      (fun r => r <| bir_ApprovalRequired := true |>) behaviorInterventionReportFromPayload;
      r ← persistSkillOutcome spec workflowID (xb_ID block) block_result (pb_State publication) "" (governance_outcome governance)
            (artifactIDs (pb_Artifacts publication));
      mret (base
        <| bw_DisclosureDecision := re_Decision (gs_Disclosure governance) |>
        <| bw_Report := pb_Report publication |> <| bw_Artifacts := pb_Artifacts publication |>
        <| bw_RiskAssessment := ae_RiskAssessment (gs_Approval governance) |>
        <| bw_ApprovalDecision := ae_Decision (gs_Approval governance) |>
        <| bw_ApprovalAudit := ae_Audit (gs_Approval governance) |>
        <| bw_Checkpoint := fst <$> pb_Checkpoint publication |>
        <| bw_ResumeToken := snd <$> pb_Checkpoint publication |>
        <| bw_PendingApproval := pb_PendingApproval publication |>
        <| bw_RuntimeState := pb_State publication |>
        <| bw_GeneratedMemories := wm_GeneratedIDs (pn_Memory planned) ++ r.2 |>
        <| bw_SkillExecution := Some r.1 |>)
  end.

(** [ResumeAfterApproval] *)
Definition BehaviorInterventionWorkflow_ResumeAfterApproval (spec : TaskSpec) (activation : FollowUpActivationContext)
    (current : FinancialWorldState) (checkpoint : CheckpointRecord) (token : ResumeToken) (draft : ReportPayload)
    (disclosure : PolicyDecision) : ST error W BehaviorInterventionRunResult :=
  let workflowID := ck_WorkflowID checkpoint in
  r ← resumeFollowUpFinalize (biw_SystemSteps w) (ResolveWorkflowRuntime view upd (biw_Runtime w)) workflowID
        "behavior_intervention_workflow_resume" spec activation current checkpoint token
        (finalize_resume (firstNonEmptyString [ac_ParentGraphID activation; workflowID]) workflowID (ts_ID spec)
           ArtifactKindBehaviorInterventionReport draft disclosure
           (firstNonEmptyString [sv_SnapshotID (fw_Version current); ck_ID checkpoint]));
  let '(finalized, artifacts) := r in
  report ← of_sum (behaviorInterventionReportFromPayload finalized);
  let result := (zero : BehaviorInterventionRunResult)
    <| bw_WorkflowID := workflowID |> <| bw_TaskSpec := spec |> <| bw_UpdatedState := current |>
    <| bw_DraftPayload := draft |> <| bw_DisclosureDecision := disclosure |> <| bw_Report := report |>
    <| bw_Artifacts := artifacts |> <| bw_RuntimeState := WorkflowStateCompleted |> in
  match rp_BehaviorIntervention draft with
  | None => mret result
  | Some drafted =>
      let family := bir_SelectedSkillFamily drafted in
      let selection := (zero : SkillSelection)
        <| sse_Family := SkillFamily_of family |> <| sse_Version := bir_SelectedSkillVersion drafted |>
        <| sse_RecipeID := bir_SelectedRecipeID drafted |> in
      record ← skill_record workflowID (behaviorSkillExecutionID workflowID "behavior_intervention_block") spec selection
                 SkillExecutionStatusGoverned "" "approved" (artifactIDs artifacts);
      save_execution record;;
      let outcome := (zero : SkillOutcomeMemory)
        <| so_WorkflowID := workflowID |> <| so_TaskID := ts_ID spec |> <| so_TraceID := workflowID |>
        <| so_SkillFamily := family |> <| so_SkillVersion := sse_Version selection |> <| so_RecipeID := sse_RecipeID selection |>
        <| so_FinalRuntimeState := WorkflowExecutionState_string WorkflowStateCompleted |>
        <| so_GovernanceOutcome := "approved" |> <| so_ApprovalOutcome := "approved" |>
        <| so_ArtifactRefs := artifactIDs artifacts |> in
      ids ← biw_WriteBehaviorSkillOutcome w spec outcome;
      logSkillOutcomeMemory workflowID ids outcome;;
      mret (result <| bw_SkillExecution := Some record |> <| bw_GeneratedMemories := ids |>)
  end.
End behavior.
End workflows.
Arguments LifeEventTriggerWorkflow : clear implicits.
Arguments BehaviorInterventionWorkflow : clear implicits.
