(* ===== verification/WorkflowThm.v ===== *)
(** * How the workflows end

    A workflow publishes a report only when the same draft went through
    verification, approval and disclosure; its final state is a function of
    what they decided.  The workflows are proved against two interfaces: what
    they need of a runtime ([FollowsController]) and the bus; the local
    runtime implements the first, the local bus the second. *)

From S2P Require Import EventWorkflows AgentsThm ReducersThm ContextThm.
#[local] Open Scope Z_scope.

(** ** What a workflow needs of its runtime *)

(** Failures and pauses go where the default controller sends them. *)
Class FollowsController {W} (r : WorkflowRuntime W) : Prop := {
  failure_follows ctx current category summary :
    returns (fun n => HandleFailure current category = inr n) (wr_HandleFailure r ctx current category summary);
  pause_follows ctx current pending :
    returns (fun n => PauseForApproval current pending = inr n) (wr_PauseForApproval r ctx current pending)
}.

Lemma pause_waits current pending next : PauseForApproval current pending = inr next -> next = WorkflowStateWaitingApproval.
Proof. unfold PauseForApproval. case_match; [done|]. case_match; [done|]. by intros [= <-]. Qed.

Lemma returns_lift_sum {A} (Q : A -> Prop) (r : error + A) : (forall a, r = inr a -> Q a) -> returns Q (lift_sum r).
Proof. intros H s s' a. destruct r; [done|]. intros [= _ <-]. by apply H. Qed.

#[export] Instance local_follows `{MO : MapOrder} {W} (view : W -> World) (upd : World -> W -> W) (r : LocalWorkflowRuntime) :
  controller_of r = DefaultWorkflowController -> FollowsController (local_runtime view upd r).
Proof.
  intros Hc. split; intros; cbn [wr_HandleFailure wr_PauseForApproval local_runtime]; apply returns_zoom;
    unfold Runtime_HandleFailure, Runtime_PauseForApproval; rewrite Hc.
  - eapply returns_bind; [apply returns_lift_sum; intros a Ha; exact Ha|]. intros [next strategy] H. cbn beta iota.
   do 2 (apply returns_after; intros _). by apply returns_ret.
  - eapply returns_bind; [apply returns_lift_sum; intros a Ha; exact Ha|]. intros next H.
   do 2 (apply returns_after; intros _). by apply returns_ret.
Qed.

(** A workflow without a runtime gets a local one. *)
#[export] Instance resolved_follows `{MO : MapOrder} {W} (view : W -> World) (upd : World -> W -> W) (r : option (WorkflowRuntime W)) :
  (forall r', r = Some r' -> FollowsController r') -> FollowsController (ResolveWorkflowRuntime view upd r).
Proof. intros H. destruct r as [r|]; cbn; [by apply H|by apply local_follows]. Qed.

(** ** The gates a draft goes through *)

(** Where verification, approval and disclosure send a run. *)
Definition ending (results : list VerificationResult) (approval : option PolicyDecisionOutcome) (disclosure : PolicyDecisionOutcome) :
    WorkflowExecutionState :=
  if HasTrustFailure results then WorkflowStateFailed
  else if NeedsReplan results then WorkflowStateReplanning
  else match approval with
  | Some PolicyDecisionRequireApproval => WorkflowStateWaitingApproval
  | Some PolicyDecisionDeny => WorkflowStateFailed
  | _ => match disclosure with
         | PolicyDecisionAllow | PolicyDecisionRedact => WorkflowStateCompleted
         | _ => WorkflowStateFailed
         end
  end.

(** What a run rests on: the state it arrived at, the evidence it collected
    and its plan. *)
Record Basis := mkBasis { bs_State : FinancialWorldState; bs_Evidence : list EvidenceRecord; bs_Plan : ExecutionPlan }.

Section gates.
Context {W : Type} `{JE : StateEncoder} (steps : SystemStepBus W).

(** The bus drafted this report. *)
Definition drafted_with (spec : TaskSpec) (draft : ReportPayload) : Prop :=
  exists meta current memories evidence plan results diff graph s s' step,
    ssb_ReportDraft steps meta current memories evidence plan results diff graph s = (s', Ok step) /\ sm_Task meta = spec /\ rd_Draft step = draft.

(** The bus verified this draft on this basis with these results. *)
Definition verified_with (spec : TaskSpec) (basis : Basis) (stage : VerificationStage) (draft : ReportPayload)
    (results : list VerificationResult) : Prop :=
  exists meta input s s' step, ssb_Verification steps meta input s = (s', Ok step) /\
    sm_Task meta = spec /\ mkBasis (vi_CurrentState input) (vi_Evidence input) (vi_Plan input) = basis /\
    vi_Stage input = stage /\ vi_Report input = draft /\ pr_Results (vs_Result step) = results.

(** The bus brought these decisions of governance about this draft. *)
Definition governed_with (spec : TaskSpec) (draft : ReportPayload) (graph : option TaskGraph) (approval : option PolicyDecision)
    (disclosure : PolicyDecision) : Prop :=
  exists meta current s s' step, ssb_Governance steps meta current draft graph s = (s', Ok step) /\
    sm_Task meta = spec /\ ae_Decision (gs_Approval step) = approval /\ re_Decision (gs_Disclosure step) = disclosure.

(** The bus finalised this draft under this decision into these artifacts. *)
Definition finalized_with (spec : TaskSpec) (draft : ReportPayload) (disclosure : PolicyDecision) (artifacts : list WorkflowArtifact) : Prop :=
  exists meta s s' step, ssb_ReportFinalize steps meta draft disclosure s = (s', Ok step) /\
    sm_Task meta = spec /\ rf2_Artifacts step = artifacts.

(** One draft went through the gates, as far as each let it. *)
Definition went_through (spec : TaskSpec) (basis : Basis) (draft : ReportPayload) (results : list VerificationResult) (approval : option PolicyDecision)
    (disclosure : PolicyDecision) (artifacts : list WorkflowArtifact) (state : WorkflowExecutionState) : Prop :=
  drafted_with spec draft /\ verified_with spec basis zero draft results /\
  (NeedsReplan results = false -> governed_with spec draft None approval disclosure) /\
  (NeedsReplan results = true -> approval = None) /\
  (state = WorkflowStateCompleted -> finalized_with spec draft disclosure artifacts) /\
  (artifacts <> [] -> state = WorkflowStateCompleted) /\
  state = ending results (pd_Outcome <$> approval) (pd_Outcome disclosure).

Context (r : WorkflowRuntime W) `{!FollowsController r} (ctx : ExecutionContext).

Lemma trust_needs_replan results : NeedsReplan results = false -> HasTrustFailure results = false.
Proof.
  unfold NeedsReplan, HasTrustFailure. induction results as [|x l IH]; [done|]. cbn. rewrite !orb_false_iff.
  intros [Hx Hl]. split; [|by apply IH]. destruct (vr_Status x); try done.
Qed.

Lemma returns_agent_failure {A} (Q : A -> Prop) current err summary : returns Q (handleAgentFailure r ctx current err summary).
Proof. unfold handleAgentFailure. destruct (FailureCategoryFromAgentError err); returns_walk. Qed.

(** A step that returns is the step of the bus. *)
Lemma returns_or_handle {A} current summary (m : ST error W A) :
  returns (fun a => exists s s', m s = (s', Ok a)) (or_handle r ctx current summary m).
Proof.
  unfold or_handle. eapply (returns_bind (fun x => match x with inr a => exists s s', m s = (s', Ok a) | inl _ => True end)).
  - apply returns_attempt. intros s s' a H. by exists s, s'.
  - intros [e|a] H; [apply returns_agent_failure|by apply returns_ret].
Qed.

Lemma verify_draft_returns updatedState evidence plan memories text meta blockSteps draft :
  returns (fun v => verified_with (sm_Task meta) (mkBasis updatedState evidence plan) zero draft (pr_Results v.1) /\ sm_Task v.2 = sm_Task meta)
          (verify_draft r steps ctx updatedState evidence plan memories text meta blockSteps draft).
Proof.
  unfold verify_draft. do 2 (apply returns_after; intros ?). unfold run_verification_step.
  eapply returns_bind; [apply returns_or_handle|]. intros step (s & s' & H). apply returns_ret. cbn [fst].
  split; [|done]. eexists _, _, s, s', step. by split_and!.
Qed.

Lemma failed_state_returns category summary :
  returns (fun next => exists strategy, HandleFailure WorkflowStateVerifying category = inr (next, strategy)) (failed_state r ctx category summary).
Proof.
  unfold failed_state. eapply returns_bind; [apply failure_follows|]. intros [next strategy] H. apply returns_ret. by exists strategy.
Qed.

Lemma judge_returns trust_failed replan results :
  returns (fun v => match v with
           | TrustFailed next => HasTrustFailure results = true /\ next = WorkflowStateFailed
           | MustReplan next => HasTrustFailure results = false /\ NeedsReplan results = true /\ next = WorkflowStateReplanning
           | Verified => NeedsReplan results = false
           end) (judge r ctx trust_failed replan results).
Proof.
  unfold judge. destruct (HasTrustFailure results) eqn:Ht; [|destruct (NeedsReplan results) eqn:Hr].
  - eapply returns_bind; [apply failed_state_returns|]. intros next [strategy [= <- _]]. by apply returns_ret.
  - eapply returns_bind; [apply failed_state_returns|]. intros next [strategy [= <- _]]. by apply returns_ret.
  - by apply returns_ret.
Qed.

Lemma govern_returns updatedState text meta draft graph :
  returns (fun g => governed_with (sm_Task meta) draft graph (ae_Decision (gs_Approval g.1)) (re_Decision (gs_Disclosure g.1)) /\
                    sm_Task g.2 = sm_Task meta)
          (govern r steps ctx updatedState text meta draft graph).
Proof.
  unfold govern. eapply returns_bind; [apply returns_or_handle|]. intros step (s & s' & H). apply returns_ret.
  split; [|done]. eexists _, _, s, s', step. by split_and!.
Qed.

Ltac nothing_pending := split_and?; try done; split; first [done | by intros [? ?] | by intros [? _]].

Lemma publish_returns {R} updatedState texts now meta draft governance (report : R) require fromPayload :
  returns (fun p => let approval := ae_Decision (gs_Approval governance) in let disclosure := re_Decision (gs_Disclosure governance) in
             (pb_State p = WorkflowStateCompleted -> finalized_with (sm_Task meta) draft disclosure (pb_Artifacts p)) /\
             (pb_Artifacts p <> [] -> pb_State p = WorkflowStateCompleted) /\
             pb_State p = ending [] (pd_Outcome <$> approval) (pd_Outcome disclosure) /\
             (is_Some (pb_PendingApproval p) <-> pb_State p = WorkflowStateWaitingApproval) /\
             (is_Some (pb_Checkpoint p) <-> pb_State p = WorkflowStateWaitingApproval /\ is_Some (pt_Waiting texts)))
          (publish r steps ctx updatedState texts now meta draft governance report require fromPayload).
Proof.
  unfold publish, approval_outcome, disclosed_outcome. cbv zeta. unfold ending. cbn [HasTrustFailure NeedsReplan existsb].
  apply returns_if; [intros Hreq%bool_decide_eq_true|intros Hreq%bool_decide_eq_false].
  - eapply (returns_bind (fun checkpoint => is_Some checkpoint <-> is_Some (pt_Waiting texts))).
    { destruct (pt_Waiting texts); [apply returns_after; intros ?|]; apply returns_ret; split; intros [? [=]]; by eexists. }
    intros checkpoint Hcp. eapply returns_bind; [apply pause_follows|]. intros next Hnext. apply returns_ret. cbn.
    apply pause_waits in Hnext as ->.
    rewrite Hreq. split_and!; try done; naive_solver.
  - apply returns_if; [intros Hden%bool_decide_eq_true|intros Hden%bool_decide_eq_false].
    + eapply returns_bind; [apply failed_state_returns|]. intros next [strategy [= <- _]]. apply returns_ret. cbn. rewrite Hden.
      nothing_pending.
    + assert (Hd : forall x : PolicyDecisionOutcome -> WorkflowExecutionState, match pd_Outcome <$> ae_Decision (gs_Approval governance) with
               | Some PolicyDecisionRequireApproval => WorkflowStateWaitingApproval | Some PolicyDecisionDeny => WorkflowStateFailed
               | _ => x (pd_Outcome (re_Decision (gs_Disclosure governance))) end = x (pd_Outcome (re_Decision (gs_Disclosure governance)))).
      { intros x. destruct (pd_Outcome <$> _) as [[]|]; done. }
      specialize (Hd (fun d => match d with PolicyDecisionAllow | PolicyDecisionRedact => WorkflowStateCompleted | _ => WorkflowStateFailed end)).
      cbn beta in Hd. rewrite Hd. clear Hd.
      apply returns_if; intros Hdis.
      * eapply returns_bind; [apply returns_or_handle|]. intros step (s & s' & H). apply returns_after. intros finalReport.
        apply returns_ret. cbn.
        apply orb_true_iff in Hdis. assert (Hc : match pd_Outcome (re_Decision (gs_Disclosure governance)) with
          | PolicyDecisionAllow | PolicyDecisionRedact => WorkflowStateCompleted | _ => WorkflowStateFailed end = WorkflowStateCompleted)
          by (destruct Hdis as [->%bool_decide_eq_true| ->%bool_decide_eq_true]; done).
        rewrite Hc. split_and!; [intros _; by eexists _, s, s', step|nothing_pending..].
      * apply returns_ret. cbn. apply orb_false_iff in Hdis as [Ha%bool_decide_eq_false Hr%bool_decide_eq_false].
        assert (Hc : match pd_Outcome (re_Decision (gs_Disclosure governance)) with
          | PolicyDecisionAllow | PolicyDecisionRedact => WorkflowStateCompleted | _ => WorkflowStateFailed end = WorkflowStateFailed)
          by (destruct (pd_Outcome _); done).
        rewrite Hc. nothing_pending.
Qed.

Lemma settled_trust spec basis draft results disclosure :
  drafted_with spec draft -> verified_with spec basis zero draft results -> HasTrustFailure results = true ->
  went_through spec basis draft results None disclosure [] WorkflowStateFailed.
Proof.
  intros Hd Hv Ht. assert (Hr : NeedsReplan results = true)
    by (apply not_false_iff_true; intros H%trust_needs_replan; congruence).
  unfold went_through, ending. rewrite Ht, Hr. by split_and!.
Qed.

Lemma settled_replan spec basis draft results disclosure :
  drafted_with spec draft -> verified_with spec basis zero draft results -> HasTrustFailure results = false -> NeedsReplan results = true ->
  went_through spec basis draft results None disclosure [] WorkflowStateReplanning.
Proof. intros Hd Hv Ht Hr. unfold went_through, ending. rewrite Ht, Hr. by split_and!. Qed.

Lemma settled_published spec basis draft results approval disclosure artifacts state :
  drafted_with spec draft -> verified_with spec basis zero draft results -> NeedsReplan results = false -> governed_with spec draft None approval disclosure ->
  (state = WorkflowStateCompleted -> finalized_with spec draft disclosure artifacts) ->
  (artifacts <> [] -> state = WorkflowStateCompleted) ->
  state = ending [] (pd_Outcome <$> approval) (pd_Outcome disclosure) ->
  went_through spec basis draft results approval disclosure artifacts state.
Proof.
  intros Hd Hv Hr Hg Hf Ha ->. unfold went_through, ending. rewrite (trust_needs_replan _ Hr), Hr. by split_and!.
Qed.
End gates.

Section metas.
Context {W : Type} `{JE : StateEncoder} (steps : SystemStepBus W) (r : WorkflowRuntime W) (ctx : ExecutionContext)
  (current : FinancialWorldState) (evidence : list EvidenceRecord).

(** The steps of a run are about one task. *)
Lemma sync_and_plan_task meta t t' :
  returns (fun p => sm_Task (pn_Meta p) = sm_Task meta) (sync_and_plan r steps ctx current evidence meta t t').
Proof. unfold sync_and_plan. do 2 (apply returns_after; intros ?). by apply returns_ret. Qed.

Lemma run_blocks_task plan memories text meta blocks :
  returns (fun x => sm_Task x.2 = sm_Task meta) (run_blocks r steps ctx current evidence plan memories text meta blocks).
Proof.
  revert meta. induction blocks as [|block blocks IH]; intros meta; cbn [run_blocks]; [by apply returns_ret|].
  do 2 (apply returns_after; intros ?). eapply returns_bind; [apply IH|]. intros x Hx. by apply returns_ret.
Qed.

Lemma draft_report_returns plan memories text meta results diff graph :
  returns (fun x => sm_Task x.2 = sm_Task meta /\ drafted_with steps (sm_Task meta) x.1)
          (draft_report r steps ctx current evidence plan memories text meta results diff graph).
Proof.
  unfold draft_report. eapply returns_bind; [apply returns_or_handle|]. intros step (s & s' & H). apply returns_ret.
  split; [done|]. by eexists meta, _, _, _, _, _, _, _, s, s', step.
Qed.
End metas.

(** The parts of a run, each with what it says of the run's task: the
    workflows differ in what happens between them. *)
Ltac analysed := eapply returns_bind; [apply run_blocks_task|]; intros [blockSteps meta] M2; cbn [snd] in M2.
Ltac drafted M1 M2 := eapply returns_bind; [apply draft_report_returns|]; intros [draft meta'] [M3 D]; cbn [fst snd] in M3, D;
  rewrite M1 in M2; rewrite M2 in M3, D; cbn [sm_Task systemStepMeta] in M3, D; clear M1 M2.
Ltac verified M3 := eapply returns_bind; [apply verify_draft_returns|]; intros [verification meta''] [Hv M4]; cbn [fst snd] in Hv, M4;
  rewrite M3 in Hv, M4; clear M3; eapply returns_bind; [by apply judge_returns|]; intros [next|next|] Hj; cbn beta iota in Hj |- *.
Ltac governed M4 := eapply returns_bind; [apply govern_returns|]; intros [governance meta3] [Hg M5]; cbn beta iota in Hg |- *;
  cbn [fst snd] in Hg, M5; rewrite M4 in Hg, M5; eapply returns_bind; [by apply publish_returns|];
  intros p (P1 & P2 & P3 & P4 & P5); rewrite ?M5, ?M4 in P1.

Lemma returns_steps {W B} (Q : B -> Prop) (steps : option (SystemStepBus W)) what (k : SystemStepBus W -> ST error W B) :
  (forall bus, steps = Some bus -> returns Q (k bus)) -> returns Q (required_steps steps what ≫= k).
Proof. intros H. destruct steps as [bus|]; [|done]. by apply (returns_bind (fun x => x = bus)); [apply returns_ret|intros ? ->; apply H]. Qed.

(** ** The report workflows *)

Section runs.
Context {W : Type} (system_now : W -> W * time) (view : W -> World) (upd : World -> W -> W)
  `{TE : TextErrors} `{MO : MapOrder} `{JE : StateEncoder}.

(** A run that ended as its draft went through the gates. *)
Definition settled (steps : option (SystemStepBus W)) (spec : TaskSpec) (basis : Basis) (results : list VerificationResult) (approval : option PolicyDecision)
    (artifacts : list WorkflowArtifact) (state : WorkflowExecutionState) : Prop :=
  exists bus draft disclosure, steps = Some bus /\ went_through bus spec basis draft results approval disclosure artifacts state.

(** A run that waits for an approval has everything a resumption needs, and
    no other run has. *)
Definition waits {A B C} (pending : option A) (checkpoint : option B) (token : option C) (state : WorkflowExecutionState) : Prop :=
  (is_Some pending <-> state = WorkflowStateWaitingApproval) /\ (is_Some checkpoint <-> state = WorkflowStateWaitingApproval) /\
  (is_Some token <-> state = WorkflowStateWaitingApproval).

Lemma no_wait {A B C} state : state <> WorkflowStateWaitingApproval -> waits (A:=A) (B:=B) (C:=C) None None None state.
Proof. intros H. unfold waits. split_and!; (split; [by intros [? ?]|done]). Qed.

Lemma publication_waits {A B C} (pending : option A) (checkpoint : option (B * C)) state (waiting : option string) :
  (is_Some pending <-> state = WorkflowStateWaitingApproval) ->
  (is_Some checkpoint <-> state = WorkflowStateWaitingApproval /\ is_Some waiting) -> is_Some waiting ->
  waits pending (fst <$> checkpoint) (snd <$> checkpoint) state.
Proof. unfold waits. rewrite !fmap_is_Some. naive_solver. Qed.

Lemma monthly_settled w userID rawInput current `{!FollowsController (ResolveWorkflowRuntime view upd (mrw_Runtime w))} :
  returns (fun r => settled (mrw_SystemSteps w) (mw_TaskSpec r) (mkBasis (mw_UpdatedState r) (mw_Evidence r) (mw_Plan r)) (mw_Verification r) (mw_ApprovalDecision r) (mw_Artifacts r) (mw_RuntimeState r))
          (MonthlyReviewWorkflow_Run system_now view upd w userID rawInput current).
Proof.
  unfold MonthlyReviewWorkflow_Run. apply returns_after; intros intake. apply returns_after; intros spec. apply returns_after; intros now. cbv zeta. apply returns_after. intros observed.
  apply returns_steps. intros bus Hbus.
  eapply returns_bind; [apply sync_and_plan_task|]. intros planned M1. analysed. drafted M1 M2.
  do 2 (apply returns_after; intros ?).
  verified M3.
  - apply returns_ret. destruct Hj as [Ht ->]. exists bus, draft, zero. split; [done|]. by apply settled_trust.
  - apply returns_ret. destruct Hj as (Ht & Hr & ->). exists bus, draft, zero. split; [done|]. by apply settled_replan.
  - governed M4.
    apply returns_ret. exists bus, draft, (re_Decision (gs_Disclosure governance)). split; [done|]. by apply settled_published.
Qed.

Lemma debt_settled w userID rawInput current `{!FollowsController (ResolveWorkflowRuntime view upd (dvw_Runtime w))} :
  returns (fun r => settled (dvw_SystemSteps w) (dw_TaskSpec r) (mkBasis (dw_UpdatedState r) (dw_Evidence r) (dw_Plan r)) (dw_Verification r) (dw_ApprovalDecision r) (dw_Artifacts r) (dw_RuntimeState r) /\
                    waits (dw_PendingApproval r) (dw_Checkpoint r) (dw_ResumeToken r) (dw_RuntimeState r))
          (DebtVsInvestWorkflow_Run system_now view upd w userID rawInput current).
Proof.
  unfold DebtVsInvestWorkflow_Run. apply returns_after; intros intake. apply returns_after; intros spec. apply returns_after; intros now. cbv zeta. apply returns_after. intros observed.
  apply returns_steps. intros bus Hbus.
  eapply returns_bind; [apply sync_and_plan_task|]. intros planned M1. analysed. drafted M1 M2.
  apply returns_after. intros report.
  verified M3.
  - apply returns_ret. destruct Hj as [Ht ->]. split; [|by apply no_wait]. exists bus, draft, zero. split; [done|]. by apply settled_trust.
  - apply returns_ret. destruct Hj as (Ht & Hr & ->). split; [|by apply no_wait]. exists bus, draft, zero. split; [done|]. by apply settled_replan.
  - governed M4.
    apply returns_ret. split; [|by eapply publication_waits]. exists bus, draft, (re_Decision (gs_Disclosure governance)). split; [done|]. by apply settled_published.
Qed.

Lemma tax_settled w spec activation current `{!FollowsController (ResolveWorkflowRuntime view upd (tow_Runtime w))} :
  returns (fun r => settled (tow_SystemSteps w) (tw_TaskSpec r) (mkBasis (tw_UpdatedState r) (tw_Evidence r) (tw_Plan r)) (tw_Verification r) (tw_ApprovalDecision r) (tw_Artifacts r) (tw_RuntimeState r) /\
                    waits (tw_PendingApproval r) (tw_Checkpoint r) (tw_ResumeToken r) (tw_RuntimeState r))
          (TaxOptimizationWorkflow_RunTask system_now view upd w spec activation current).
Proof.
  unfold TaxOptimizationWorkflow_RunTask. apply returns_if; [intros _; apply returns_fail|intros _].
  apply returns_after; intros now. cbv zeta. apply returns_after. intros observed.
  apply returns_steps. intros bus Hbus.
  eapply returns_bind; [apply sync_and_plan_task|]. intros planned M1. analysed. drafted M1 M2.
  apply returns_after. intros report.
  verified M3.
  - apply returns_ret. destruct Hj as [Ht ->]. split; [|by apply no_wait]. exists bus, draft, zero. split; [done|]. by apply settled_trust.
  - apply returns_ret. destruct Hj as (Ht & Hr & ->). split; [|by apply no_wait]. exists bus, draft, zero. split; [done|]. by apply settled_replan.
  - governed M4.
    apply returns_ret. split; [|by eapply publication_waits]. exists bus, draft, (re_Decision (gs_Disclosure governance)). split; [done|]. by apply settled_published.
Qed.

Lemma portfolio_settled w spec activation current `{!FollowsController (ResolveWorkflowRuntime view upd (pow_Runtime w))} :
  returns (fun r => settled (pow_SystemSteps w) (pw_TaskSpec r) (mkBasis (pw_UpdatedState r) (pw_Evidence r) (pw_Plan r)) (pw_Verification r) (pw_ApprovalDecision r) (pw_Artifacts r) (pw_RuntimeState r) /\
                    waits (pw_PendingApproval r) (pw_Checkpoint r) (pw_ResumeToken r) (pw_RuntimeState r))
          (PortfolioRebalanceWorkflow_RunTask system_now view upd w spec activation current).
Proof.
  unfold PortfolioRebalanceWorkflow_RunTask. apply returns_if; [intros _; apply returns_fail|intros _].
  apply returns_after; intros now. cbv zeta. apply returns_after. intros observed.
  apply returns_steps. intros bus Hbus.
  eapply returns_bind; [apply sync_and_plan_task|]. intros planned M1. analysed. drafted M1 M2.
  apply returns_after. intros report.
  verified M3.
  - apply returns_ret. destruct Hj as [Ht ->]. split; [|by apply no_wait]. exists bus, draft, zero. split; [done|]. by apply settled_trust.
  - apply returns_ret. destruct Hj as (Ht & Hr & ->). split; [|by apply no_wait]. exists bus, draft, zero. split; [done|]. by apply settled_replan.
  - governed M4.
    apply returns_ret. split; [|by eapply publication_waits]. exists bus, draft, (re_Decision (gs_Disclosure governance)). split; [done|]. by apply settled_published.
Qed.

Lemma behavior_settled w userID rawInput current `{!FollowsController (ResolveWorkflowRuntime view upd (biw_Runtime w))} :
  returns (fun r => settled (biw_SystemSteps w) (bw_TaskSpec r) (mkBasis (bw_UpdatedState r) (bw_Evidence r) (bw_Plan r)) (bw_Verification r) (bw_ApprovalDecision r) (bw_Artifacts r) (bw_RuntimeState r) /\
                    waits (bw_PendingApproval r) (bw_Checkpoint r) (bw_ResumeToken r) (bw_RuntimeState r))
          (BehaviorInterventionWorkflow_Run system_now view upd w userID rawInput current).
Proof.
  unfold BehaviorInterventionWorkflow_Run. apply returns_after; intros intake. apply returns_after; intros spec. apply returns_after; intros now. cbv zeta. apply returns_after. intros observed.
  apply returns_steps. intros bus Hbus. eapply returns_bind; [apply sync_and_plan_task|]. intros planned M1. apply returns_after. intros block0.
  apply returns_after. intros selection. destruct (plan_with_skill _ _ _) as [plan block]. apply returns_after. intros _.
  analysed. do 2 (apply returns_after; intros ?). drafted M1 M2.
  apply returns_after. intros report.
  verified M3.
  - apply returns_after. intros kept. apply returns_ret. destruct Hj as [Ht ->]. split; [|by apply no_wait].
    exists bus, draft, zero. split; [done|]. by apply settled_trust.
  - apply returns_after. intros kept. apply returns_ret. destruct Hj as (Ht & Hr & ->). split; [|by apply no_wait].
    exists bus, draft, zero. split; [done|]. by apply settled_replan.
  - governed M4. apply returns_after. intros kept.
    apply returns_ret. split; [|by eapply publication_waits]. exists bus, draft, (re_Decision (gs_Disclosure governance)). split; [done|].
    by apply settled_published.
Qed.

(** C3: No workflow publishes a draft that did not pass every gate.  Whatever
    the tools, the agents and the models do, when a report workflow returns,
    one draft went through the bus: it was drafted, and verified against the run's own
    state, evidence and plan with the results of the run; if they need no replanning it was governed; artifacts exist only if
    the run is completed, and then they are what the bus finalised from this
    very draft under the disclosure decision.  The final state is exactly what
    the decisions say: failed on a trust failure, replanning on any other
    failed check, waiting if an approval is required, failed if approval or
    disclosure is denied, completed otherwise; and exactly a waiting run has a
    pending approval, a checkpoint and a resume token (a monthly review keeps
    none of them in its result). *)
Theorem published_only_through_the_gates :
  (forall w userID rawInput current s s' r, FollowsController (ResolveWorkflowRuntime view upd (mrw_Runtime w)) ->
     MonthlyReviewWorkflow_Run system_now view upd w userID rawInput current s = (s', Ok r) ->
     settled (mrw_SystemSteps w) (mw_TaskSpec r) (mkBasis (mw_UpdatedState r) (mw_Evidence r) (mw_Plan r)) (mw_Verification r) (mw_ApprovalDecision r) (mw_Artifacts r) (mw_RuntimeState r)) /\
  (forall w userID rawInput current s s' r, FollowsController (ResolveWorkflowRuntime view upd (dvw_Runtime w)) ->
     DebtVsInvestWorkflow_Run system_now view upd w userID rawInput current s = (s', Ok r) ->
     settled (dvw_SystemSteps w) (dw_TaskSpec r) (mkBasis (dw_UpdatedState r) (dw_Evidence r) (dw_Plan r)) (dw_Verification r) (dw_ApprovalDecision r) (dw_Artifacts r) (dw_RuntimeState r) /\
     waits (dw_PendingApproval r) (dw_Checkpoint r) (dw_ResumeToken r) (dw_RuntimeState r)) /\
  (forall w spec activation current s s' r, FollowsController (ResolveWorkflowRuntime view upd (tow_Runtime w)) ->
     TaxOptimizationWorkflow_RunTask system_now view upd w spec activation current s = (s', Ok r) ->
     settled (tow_SystemSteps w) (tw_TaskSpec r) (mkBasis (tw_UpdatedState r) (tw_Evidence r) (tw_Plan r)) (tw_Verification r) (tw_ApprovalDecision r) (tw_Artifacts r) (tw_RuntimeState r) /\
     waits (tw_PendingApproval r) (tw_Checkpoint r) (tw_ResumeToken r) (tw_RuntimeState r)) /\
  (forall w spec activation current s s' r, FollowsController (ResolveWorkflowRuntime view upd (pow_Runtime w)) ->
     PortfolioRebalanceWorkflow_RunTask system_now view upd w spec activation current s = (s', Ok r) ->
     settled (pow_SystemSteps w) (pw_TaskSpec r) (mkBasis (pw_UpdatedState r) (pw_Evidence r) (pw_Plan r)) (pw_Verification r) (pw_ApprovalDecision r) (pw_Artifacts r) (pw_RuntimeState r) /\
     waits (pw_PendingApproval r) (pw_Checkpoint r) (pw_ResumeToken r) (pw_RuntimeState r)) /\
  (forall w userID rawInput current s s' r, FollowsController (ResolveWorkflowRuntime view upd (biw_Runtime w)) ->
     BehaviorInterventionWorkflow_Run system_now view upd w userID rawInput current s = (s', Ok r) ->
     settled (biw_SystemSteps w) (bw_TaskSpec r) (mkBasis (bw_UpdatedState r) (bw_Evidence r) (bw_Plan r)) (bw_Verification r) (bw_ApprovalDecision r) (bw_Artifacts r) (bw_RuntimeState r) /\
     waits (bw_PendingApproval r) (bw_Checkpoint r) (bw_ResumeToken r) (bw_RuntimeState r)).
Proof.
  split_and!; intros w a b c s s' r Hf H;
    [by eapply monthly_settled|by eapply debt_settled|by eapply tax_settled|by eapply portfolio_settled|by eapply behavior_settled].
Qed.
End runs.

(** ** The life event workflow *)

(** A run is a sequence of steps: [A ⨾ B] is a step of [A], then one of [B]. *)
Definition andthen {W} (A B : relation W) : relation W := fun s s'' => exists s', A s s' /\ B s' s''.
#[local] Infix "⨾" := andthen (at level 60, right associativity).

(** Verification calls for a new plan. *)
Definition calls_for_replan (results : list VerificationResult) : Prop :=
  exists result, result ∈ results /\ (vr_Status result = VerificationStatusFail \/ vr_Status result = VerificationStatusNeedsReplan).

Lemma needs_replan_spec results : NeedsReplan results = true <-> calls_for_replan results.
Proof.
  unfold NeedsReplan, calls_for_replan. rewrite existsb_exists. split; intros (x & Hin & H); exists x.
  - split; [by apply list_elem_of_In|]. destruct (vr_Status x); naive_solver.
  - split; [by apply list_elem_of_In|]. by destruct H as [-> | ->].
Qed.

Lemma needs_no_replan results : NeedsReplan results = false <-> ~ calls_for_replan results.
Proof. by rewrite <- needs_replan_spec, not_true_iff_false. Qed.

Section life_event_runs.
Context {W : Type} (runtime : WorkflowRuntime W) (bus : SystemStepBus W) (r : LifeEventTriggerRunResult).

(** *** The steps of a run that returned [r] *)

Definition life_event_context : ExecutionContext :=
  mkExecutionContext (lw_WorkflowID r) (ts_ID (lw_TaskSpec r)) (lw_WorkflowID r) 1.

(** A verification on the state, the evidence, the plan and the results of the run. *)
Definition verification_step (stage : VerificationStage) (results : list VerificationResult) (about : VerificationStepInput -> Prop) : relation W :=
  fun s s' => exists meta input step, ssb_Verification bus meta input s = (s', Ok step) /\ sm_Task meta = lw_TaskSpec r /\
    vi_Stage input = stage /\ vi_CurrentState input = lw_UpdatedState r /\ vi_Evidence input = lw_Evidence r /\ vi_Plan input = lw_Plan r /\
    vi_BlockResults input = lw_BlockResults r /\ about input /\ pr_Results (vs_Result step) = results.

Definition analysis_verified : relation W :=
  verification_step VerificationStageAnalysisBlocks (lw_AnalysisVerification r) (fun _ => True).

Definition graph_generated (graph : TaskGraph) : relation W := fun s s' => exists meta memories step,
  ssb_TaskGeneration bus meta (lw_UpdatedState r) (lw_EventEvidence r ++ lw_DeadlineEvidence r) memories (lw_StateDiff r) (lw_Plan r)
    (lw_BlockResults r) s = (s', Ok step) /\
  sm_Task meta = lw_TaskSpec r /\ tn_TaskGraph step = graph.

Definition assessment_drafted (graph : TaskGraph) (draft : ReportPayload) : relation W := fun s s' => exists meta memories step,
  ssb_ReportDraft bus meta (lw_UpdatedState r) memories (lw_Evidence r) (lw_Plan r) (lw_BlockResults r) (lw_StateDiff r) (Some graph) s =
    (s', Ok step) /\
  sm_Task meta = lw_TaskSpec r /\ rd_Draft step = draft.

Definition finally_verified (graph : TaskGraph) (draft : ReportPayload) : relation W :=
  verification_step VerificationStageGeneratedTasksAndFinal (lw_FinalVerification r)
    (fun input => vi_TaskGraph input = Some graph /\ vi_Report input = draft).

Definition graph_governed (graph : TaskGraph) (draft : ReportPayload) (disclosure : PolicyDecision) : relation W := fun s s' =>
  exists meta step, ssb_Governance bus meta (lw_UpdatedState r) draft (Some graph) s = (s', Ok step) /\ sm_Task meta = lw_TaskSpec r /\
    ae_Decision (gs_Approval step) = lw_ApprovalDecision r /\ re_Decision (gs_Disclosure step) = disclosure.

Definition tasks_registered (registration : FollowUpRegistrationResult) : relation W := fun s s' =>
  wr_RegisterFollowUpTasks runtime life_event_context (lw_TaskGraph r) (lw_UpdatedState r) s = (s', Ok registration).

Definition tasks_executed : relation W := fun s s' =>
  wr_ExecuteReadyFollowUps runtime life_event_context (tg_GraphID (lw_TaskGraph r)) DefaultAutoExecutionPolicy s =
    (s', Ok (lw_FollowUpExecution r)).

(** The draft is published with what was registered and executed. *)
Definition assessment_published (draft : ReportPayload) (disclosure : PolicyDecision) : relation W := fun s s' => exists meta tasks step,
  ssb_ReportFinalize bus meta
    (applyFollowUpExecutionToAssessment (applyFollowUpRegistrationToAssessment draft tasks) (lw_FollowUpExecution r)) disclosure s = (s', Ok step) /\
  sm_Task meta = lw_TaskSpec r /\ rf2_Artifacts step = lw_Artifacts r.

(** *** The runs

    [R] relates states between which no follow-up task was registered,
    executed or published, [K] states between which none was executed or
    published. *)
Context (R K : relation W).

Definition judged (graph : TaskGraph) (draft : ReportPayload) : relation W :=
  R ⨾ analysis_verified ⨾ R ⨾ graph_generated graph ⨾ R ⨾ assessment_drafted graph draft ⨾ R ⨾ finally_verified graph draft ⨾ R.

(** Verification passed twice, and governance was asked about this graph. *)
Definition decided (graph : TaskGraph) (draft : ReportPayload) (disclosure : PolicyDecision) : relation W := fun s s' =>
  (judged graph draft ⨾ graph_governed graph draft disclosure ⨾ R) s s' /\
  ~ calls_for_replan (lw_AnalysisVerification r) /\ ~ calls_for_replan (lw_FinalVerification r).

Definition approval_is (outcome : PolicyDecisionOutcome) : Prop := pd_Outcome <$> lw_ApprovalDecision r = Some outcome.
Definition may_disclose (disclosure : PolicyDecision) : Prop :=
  pd_Outcome disclosure = PolicyDecisionAllow \/ pd_Outcome disclosure = PolicyDecisionRedact.

(** The graph of the run is the generated one, its tasks marked as needing
    approval if governance required one. *)
Definition needs_approval (item : GeneratedTaskSpec) : GeneratedTaskSpec :=
  item <| gt_Metadata := gt_Metadata item <| gm_RequiresApproval := true |> |>.
Definition carries_graph (graph : TaskGraph) : Prop :=
  (approval_is PolicyDecisionRequireApproval ->
     lw_TaskGraph r = graph <| tg_GeneratedTasks := needs_approval <$> tg_GeneratedTasks graph |>) /\
  (~ approval_is PolicyDecisionRequireApproval -> lw_TaskGraph r = graph).

(** Nothing came of the follow-up tasks. *)
Definition nothing_followed : Prop := lw_FollowUpTasks r = zero /\ lw_FollowUpExecution r = zero /\ lw_Artifacts r = [].

Inductive life_event_run : relation W :=
| analysis_fails s s' : (R ⨾ analysis_verified ⨾ R) s s' -> calls_for_replan (lw_AnalysisVerification r) ->
    nothing_followed -> lw_TaskGraph r = zero -> lw_RuntimeState r = WorkflowStateReplanning -> life_event_run s s'
| assessment_fails draft s s' : judged (lw_TaskGraph r) draft s s' ->
    ~ calls_for_replan (lw_AnalysisVerification r) -> calls_for_replan (lw_FinalVerification r) ->
    nothing_followed -> lw_RuntimeState r = WorkflowStateReplanning -> life_event_run s s'
| registration_denied graph draft disclosure s s' : decided graph draft disclosure s s' -> carries_graph graph ->
    approval_is PolicyDecisionDeny ->
    nothing_followed -> lw_RuntimeState r = WorkflowStateWaitingApproval -> life_event_run s s'
| disclosure_refused graph draft disclosure s s' : decided graph draft disclosure s s' -> carries_graph graph ->
    ~ approval_is PolicyDecisionDeny -> ~ may_disclose disclosure ->
    nothing_followed -> lw_RuntimeState r = WorkflowStateFailed -> life_event_run s s'
| approval_awaited graph draft disclosure s s' :
    (decided graph draft disclosure ⨾ tasks_registered (lw_FollowUpTasks r) ⨾ K) s s' -> carries_graph graph ->
    approval_is PolicyDecisionRequireApproval -> may_disclose disclosure ->
    lw_FollowUpExecution r = zero -> lw_Artifacts r = [] -> lw_RuntimeState r = WorkflowStateWaitingApproval -> life_event_run s s'
| run_completed graph draft disclosure registration tasks s s' :
    (decided graph draft disclosure ⨾ tasks_registered registration ⨾ K ⨾ tasks_executed ⨾ K ⨾ assessment_published draft disclosure ⨾ R) s s' ->
    carries_graph graph -> ~ approval_is PolicyDecisionDeny -> ~ approval_is PolicyDecisionRequireApproval -> may_disclose disclosure ->
    lw_FollowUpTasks r = registration <| fr_RegisteredTasks := tasks |> ->
    lw_RuntimeState r = WorkflowStateCompleted -> life_event_run s s'.
End life_event_runs.

(** What everything but the registration, the execution and the publication
    of follow-up tasks leaves alone. *)
Class SparesFollowUps {W} (system_now : W -> W * time) `{TE : TextErrors} `{MO : MapOrder} (w : LifeEventTriggerWorkflow W) (runtime : WorkflowRuntime W)
    (R K : relation W) : Prop := {
  spares_preorder : PreOrder R;
  keeps_preorder : PreOrder K;
  spares_keeps s s' : R s s' -> K s s';
  spares_clock clock : clock ∈ [None; lew_Intake w; lew_Now w] -> respects R (read system_now clock);
  spares_log trace category message details at_ : respects R (appendWorkflowLog (lew_EventLog w) trace category message details at_);
  spares_observation spec event id current :
    respects R (LifeEventWorkflowService_ObserveAndReduce system_now (lew_TriggerService w) spec event id current);
  spares_checkpoint ctx from to version summary : respects R (wr_Checkpoint runtime ctx from to version summary);
  spares_failure ctx current category summary : respects R (wr_HandleFailure runtime ctx current category summary);
  spares_pause ctx current pending : respects R (wr_PauseForApproval runtime ctx current pending);
  spares_memory bus meta current evidence hint : lew_SystemSteps w = Some bus -> respects R (ssb_MemorySync bus meta current evidence hint);
  spares_plan bus meta current memories evidence : lew_SystemSteps w = Some bus -> respects R (ssb_Plan bus meta current memories evidence);
  spares_block bus meta block current memories evidence ctx :
    lew_SystemSteps w = Some bus -> respects R (ssb_AnalysisBlock bus meta block current memories evidence ctx);
  keeps_tasks array : respects K (wr_Tasks runtime array);
  keeps_new_tasks tasks : respects K (wr_NewTasks runtime tasks);
  keeps_reevaluation ctx graphID : respects K (wr_ReevaluateTaskGraph runtime ctx graphID)
}.

Section life_events.
Context {W : Type} (system_now : W -> W * time) (view : W -> World) (upd : World -> W -> W)
  `{TE : TextErrors} `{MO : MapOrder} `{JE : StateEncoder}.

Lemma ok_respects {A} (R : relation W) (m : ST error W A) s s' a : respects R m -> m s = (s', Ok a) -> R s s'.
Proof. intros H E. specialize (H s). by rewrite E in H. Qed.

(** A step of the bus that returns is the whole step. *)
Lemma or_handle_step (runtime : WorkflowRuntime W) ctx {A} current summary (m : ST error W A) s s' a :
  or_handle runtime ctx current summary m s = (s', Ok a) -> m s = (s', Ok a).
Proof.
  unfold or_handle. intros (x & s1 & H1 & H2)%run_bind_inv_Ok. unfold attempt in H1.
  destruct (m s) as [t [b|e|why|]]; try done; injection H1 as <- <-; cbn in H2.
  - by injection H2 as <- <-.
  - exfalso. exact (returns_agent_failure runtime ctx (fun _ => False) current e summary _ _ _ H2).
Qed.

Lemma required_step (steps : option (SystemStepBus W)) what s s' bus :
  required_steps steps what s = (s', Ok bus) -> steps = Some bus /\ s' = s.
Proof. destruct steps; [|done]. by intros [= <- <-]. Qed.

Lemma of_outcome_step {A} (o : outcome error A) (s s' : W) a : of_outcome o s = (s', Ok a) -> s' = s.
Proof. by intros [= <- _]. Qed.

Lemma block_contexts_step current evidence plan memories blockSteps (s s' : W) contexts :
  block_contexts current evidence plan memories blockSteps s = (s', Ok contexts) -> s' = s.
Proof.
  intros H. symmetry. revert H. apply ok_respects. unfold block_contexts. apply respects_for_fold; [apply _|]. intros acc x.
  apply respects_bind; [apply _| |intros ?; apply respects_ret, _]. by intros t.
Qed.

Lemma requires_outcome approval : requires_approval approval = true <-> (pd_Outcome <$> ae_Decision approval) = Some PolicyDecisionRequireApproval.
Proof.
  unfold requires_approval. destruct (ae_Decision approval) as [d|]; cbn; [|done].
  rewrite bool_decide_eq_true. split; [by intros ->|by intros [= ->]].
Qed.

Lemma may_disclose_spec governance : disclosed_outcome governance = true <-> may_disclose (re_Decision (gs_Disclosure governance)).
Proof. unfold disclosed_outcome, may_disclose. by rewrite orb_true_iff, !bool_decide_eq_true. Qed.

Lemma carries_approved (r : LifeEventTriggerRunResult) graph approval :
  lw_TaskGraph r = applyApprovalDecisionToTaskGraph graph approval -> lw_ApprovalDecision r = ae_Decision approval -> carries_graph r graph.
Proof.
  unfold applyApprovalDecisionToTaskGraph, carries_graph, approval_is. intros Hg ->.
  rewrite <- requires_outcome. destruct (requires_approval approval); split; intros H; done.
Qed.

Section run.
Context (w : LifeEventTriggerWorkflow W) (runtime : WorkflowRuntime W) (R K : relation W) `{!SparesFollowUps system_now w runtime R K}
  (bus : SystemStepBus W) (Hbus : lew_SystemSteps w = Some bus) (ctx : ExecutionContext).

#[local] Instance R_preorder : PreOrder R. Proof. apply spares_preorder. Qed.
#[local] Instance K_preorder : PreOrder K. Proof. apply keeps_preorder. Qed.

Lemma respects_handled {A} current summary (m : ST error W A) : respects R m -> respects R (or_handle runtime ctx current summary m).
Proof.
  intros Hm. unfold or_handle, handleAgentFailure. apply respects_bind; [apply _|by apply respects_attempt|]. intros [e|a]; [|apply respects_ret, _].
  destruct (FailureCategoryFromAgentError e); [|apply respects_fail, _].
  apply respects_bind; [apply _|apply spares_failure|intros ?; apply respects_fail, _].
Qed.

Lemma sync_and_plan_spares current evidence meta t t' : respects R (sync_and_plan runtime bus ctx current evidence meta t t').
Proof.
  unfold sync_and_plan. apply respects_bind; [apply _|by apply respects_handled, spares_memory|]. intros m.
  apply respects_bind; [apply _|by apply respects_handled, spares_plan|]. intros p. apply respects_ret, _.
Qed.

Lemma run_blocks_spares current evidence plan memories text meta blocks :
  respects R (run_blocks runtime bus ctx current evidence plan memories text meta blocks).
Proof.
  revert meta. induction blocks as [|block blocks IH]; intros meta; cbn [run_blocks]; [apply respects_ret, _|].
  apply respects_bind; [apply _|intros s; cbn; reflexivity|]. intros context.
  apply respects_bind; [apply _|by apply respects_handled, spares_block|]. intros step.
  apply respects_bind; [apply _|apply IH|]. intros x. apply respects_ret, _.
Qed.

Lemma own_clock_spares clock : clock ∈ [None; lew_Intake w; lew_Now w] -> respects R (own_clock system_now clock).
Proof.
  intros H. unfold own_clock. apply respects_bind; [apply _|apply spares_clock; rewrite !elem_of_cons; auto|]. intros now.
  destruct clock; [by apply spares_clock|apply respects_ret, _].
Qed.

Lemma intake_spares event : respects R (EventTriggeredIntakeService_Build system_now (lew_Intake w) event).
Proof.
  unfold EventTriggeredIntakeService_Build. case_match; [apply respects_ret, _|].
  apply respects_bind; [apply _|apply own_clock_spares; rewrite !elem_of_cons; auto|]. intros now. apply respects_ret, _.
Qed.

Lemma accepted_task_same intake what : respects R (accepted_task (W:=W) intake what).
Proof. unfold accepted_task. case_match; [case_match|]; first [apply respects_ret, _|apply respects_fail, _]. Qed.

Lemma observed_spares spec event id current sequence t t' :
  respects R (observe_and_checkpoint runtime ctx
    (LifeEventWorkflowService_ObserveAndReduce system_now (lew_TriggerService w) spec event id current) lo_Diff sequence t t').
Proof.
  unfold observe_and_checkpoint. apply respects_bind; [apply _|apply spares_observation|]. intros o.
  do 2 (apply respects_bind; [apply _|apply spares_checkpoint|]; intros ?). apply respects_ret, _.
Qed.

Lemma failed_state_spares category summary : respects R (failed_state runtime ctx category summary).
Proof. unfold failed_state. apply respects_bind; [apply _|apply spares_failure|]. intros n. apply respects_ret, _. Qed.

(** Steps that keep what was registered. *)
Lemma spared_keeps {A} (m : ST error W A) : respects R m -> respects K m.
Proof. intros H s. apply spares_keeps, H. Qed.

Lemma event_log_spares now category message details : respects R (event_log w ctx now category message details).
Proof. apply spares_log. Qed.

Definition registration_step (graph : TaskGraph) (base : FinancialWorldState) (registration : FollowUpRegistrationResult) : relation W :=
  fun s s' => wr_RegisterFollowUpTasks runtime ctx graph base s = (s', Ok registration).
Definition execution_step (graph : TaskGraph) (execution : FollowUpExecutionBatchResult) : relation W :=
  fun s s' => wr_ExecuteReadyFollowUps runtime ctx (tg_GraphID graph) DefaultAutoExecutionPolicy s = (s', Ok execution).
Definition publication_step meta (report : ReportPayload) (disclosure : PolicyDecision) (artifacts : list WorkflowArtifact) : relation W :=
  fun s s' => exists step, ssb_ReportFinalize bus meta report disclosure s = (s', Ok step) /\ rf2_Artifacts step = artifacts.

(** Execution, then publication. *)
Lemma execute_follow_ups_steps now meta disclosure graph registration report s s' f :
  execute_follow_ups w runtime bus ctx now meta disclosure graph registration report s = (s', Ok f) ->
  (execution_step graph (fu_Execution f) ⨾ K ⨾
   publication_step meta (applyFollowUpExecutionToAssessment report (fu_Execution f)) disclosure (fu_Artifacts f) ⨾ R) s s' /\
  fu_State f = WorkflowStateCompleted /\ exists tasks, fu_Registration f = registration <| fr_RegisteredTasks := tasks |>.
Proof.
  unfold execute_follow_ups. intros (execution & s1 & H1 & (registration' & s2 & H2 & H)%run_bind_inv_Ok)%run_bind_inv_Ok. cbv zeta in H.
  apply run_bind_inv_Ok in H as (u & s3 & H3 & H). apply run_bind_inv_Ok in H as (step & s4 & H4%or_handle_step & H).
  apply run_bind_inv_Ok in H as (u' & s5 & H5 & H). injection H as <- <-. cbn.
  apply (ok_respects R) in H3, H5; try apply event_log_spares.
  assert (K s1 s2 /\ exists tasks, registration' = registration <| fr_RegisteredTasks := tasks |>) as [HK Ht].
  { destruct (is_nil (fb_RegisteredTasks execution)).
    - injection H2 as <- <-. split; [reflexivity|]. exists (fr_RegisteredTasks registration). by destruct registration.
    - apply run_bind_inv_Ok in H2 as (tasks & s6 & H6 & [= <- <-]). split; [|by exists tasks].
      revert H6. apply ok_respects, keeps_new_tasks. }
  split; [|by split]. exists s1. split; [exact H1|]. exists s3. split; [etrans; [exact HK|by apply spares_keeps]|].
  exists s4. split; [by exists step|exact H5].
Qed.

(** What the [switch] on the decisions of governance does. *)
Lemma follow_up_steps `{!FollowsController runtime} now meta updatedState draft governance graph s s' f :
  follow_up w runtime bus ctx now meta updatedState draft governance graph s = (s', Ok f) ->
  let approval := approval_outcome governance in
  let disclosure := re_Decision (gs_Disclosure governance) in
  let nothing := fu_Registration f = zero /\ fu_Execution f = zero /\ fu_Artifacts f = [] in
  (approval = Some PolicyDecisionDeny /\ R s s' /\ nothing /\ fu_State f = WorkflowStateWaitingApproval) \/
  (approval <> Some PolicyDecisionDeny /\ ~ may_disclose disclosure /\ R s s' /\ nothing /\ fu_State f = WorkflowStateFailed) \/
  (approval = Some PolicyDecisionRequireApproval /\ may_disclose disclosure /\
     (registration_step graph updatedState (fu_Registration f) ⨾ K) s s' /\ fu_Execution f = zero /\ fu_Artifacts f = [] /\
     fu_State f = WorkflowStateWaitingApproval) \/
  (approval <> Some PolicyDecisionDeny /\ approval <> Some PolicyDecisionRequireApproval /\ may_disclose disclosure /\
     (exists registration array tasks, fu_Registration f = registration <| fr_RegisteredTasks := array |> /\
        (registration_step graph updatedState registration ⨾ K ⨾ execution_step graph (fu_Execution f) ⨾ K ⨾
         publication_step meta (applyFollowUpExecutionToAssessment (applyFollowUpRegistrationToAssessment draft tasks) (fu_Execution f))
           disclosure (fu_Artifacts f) ⨾ R) s s') /\
     fu_State f = WorkflowStateCompleted).
Proof.
  unfold follow_up. cbv zeta.
  destruct (approval_outcome governance == Some PolicyDecisionDeny) eqn:Hden;
    [apply bool_decide_eq_true in Hden|apply bool_decide_eq_false in Hden].
  { intros ([next strategy] & s1 & H1 & [= <- <-])%run_bind_inv_Ok. left. cbn.
    pose proof (failure_follows _ _ _ _ _ _ _ H1) as [= <- _]. apply (ok_respects R) in H1; [by split_and!|apply spares_failure]. }
  destruct (disclosed_outcome governance) eqn:Hdis;
    [apply may_disclose_spec in Hdis|apply not_true_iff_false in Hdis; rewrite may_disclose_spec in Hdis].
  2: { intros [= <- <-]. right; left. cbn. split_and!; done. }
  intros H. right; right. apply run_bind_inv_Ok in H as (registration & s1 & H1 & H). apply run_bind_inv_Ok in H as (u & s2 & H2 & H).
  apply run_bind_inv_Ok in H as (tasks & s3 & H3 & H). apply run_bind_inv_Ok in H as (activation & s4 & H4 & H).
  apply run_bind_inv_Ok in H as (u' & s5 & H5 & H).
  apply (ok_respects R) in H2, H5; try apply event_log_spares. apply (ok_respects K) in H3; [|apply keeps_tasks].
  apply (ok_respects K) in H4; [|apply keeps_reevaluation].
  assert (HK : K s1 s5) by (etrans; [by apply spares_keeps|]; etrans; [exact H3|]; etrans; [exact H4|by apply spares_keeps]).
  destruct (approval_outcome governance == Some PolicyDecisionRequireApproval) eqn:Hreq;
    [apply bool_decide_eq_true in Hreq; left|apply bool_decide_eq_false in Hreq; right].
  - apply run_bind_inv_Ok in H as (next & s6 & H6 & [= <- <-]). pose proof (pause_follows _ _ _ _ _ _ H6) as Hn%pause_waits.
    apply (ok_respects R) in H6; [|apply spares_pause]. cbn. split_and!; try done. exists s1. split; [exact H1|].
    etrans; [exact HK|by apply spares_keeps].
  - apply execute_follow_ups_steps in H as ((s6 & Hx & Hp) & Hs & array & Hf). split_and!; try done.
    exists registration, array, tasks. split; [exact Hf|]. exists s1. split; [exact H1|]. exists s5. split; [exact HK|]. by exists s6.
Qed.
End run.

Lemma verification_stepped (runtime : WorkflowRuntime W) bus (r : LifeEventTriggerRunResult) ctx updatedState text meta input (about : VerificationStepInput -> Prop)
    stage results s s' v meta' :
  run_verification_step runtime bus ctx updatedState text meta input s = (s', Ok (v, meta')) -> sm_Task meta = lw_TaskSpec r ->
  vi_Stage input = stage -> vi_CurrentState input = lw_UpdatedState r -> vi_Evidence input = lw_Evidence r -> vi_Plan input = lw_Plan r ->
  vi_BlockResults input = lw_BlockResults r -> about input ->
  pr_Results v = results -> verification_step bus r stage results about s s'.
Proof.
  unfold run_verification_step. intros (step & s1 & H1%or_handle_step & [= <- <- <-])%run_bind_inv_Ok. intros.
  by exists meta, input, step.
Qed.

Lemma verification_task (runtime : WorkflowRuntime W) bus ctx updatedState text meta input :
  returns (fun v => sm_Task v.2 = sm_Task meta) (run_verification_step runtime bus ctx updatedState text meta input).
Proof. unfold run_verification_step. apply returns_after. intros step. by apply returns_ret. Qed.

(** A failed verification sends the run to a new plan. *)
Lemma replan_step (runtime : WorkflowRuntime W) `{!FollowsController runtime} ctx summary (s s' : W) next :
  failed_state runtime ctx FailureCategoryValidation summary s = (s', Ok next) -> next = WorkflowStateReplanning.
Proof. intros H. by apply failed_state_returns in H as [strategy [= <- _]]. Qed.

(** What is left alone afterwards can be added to the end of a sequence. *)
Lemma judged_then bus (r : LifeEventTriggerRunResult) (R : relation W) `{!PreOrder R} graph draft s s1 s' :
  judged bus r R graph draft s s1 -> R s1 s' -> judged bus r R graph draft s s'.
Proof.
  intros (a & Ha & b & Hb & c & Hc & d & Hd & e & He & f & Hf & g & Hg & h & Hh & Hi) HR.
  exists a; split; [exact Ha|]. exists b; split; [exact Hb|]. exists c; split; [exact Hc|]. exists d; split; [exact Hd|].
  exists e; split; [exact He|]. exists f; split; [exact Hf|]. exists g; split; [exact Hg|]. exists h; split; [exact Hh|]. by etrans.
Qed.

Lemma decided_then bus (r : LifeEventTriggerRunResult) (R : relation W) `{!PreOrder R} graph draft disclosure s s1 s' :
  decided bus r R graph draft disclosure s s1 -> R s1 s' -> decided bus r R graph draft disclosure s s'.
Proof.
  intros [(a & Ha & b & Hb & Hc) Hn] HR. split; [|exact Hn]. exists a; split; [exact Ha|]. exists b; split; [exact Hb|]. by etrans.
Qed.

(** What governance decided determines the rest of a run. *)
Lemma decided_run (w : LifeEventTriggerWorkflow W) runtime (R K : relation W) `{!FollowsController runtime}
    `{!SparesFollowUps system_now w runtime R K} bus now meta governance graph draft f r s s1 s' :
  follow_up w runtime bus (life_event_context r) now meta (lw_UpdatedState r) draft governance (lw_TaskGraph r) s1 = (s', Ok f) ->
  sm_Task meta = lw_TaskSpec r -> decided bus r R graph draft (re_Decision (gs_Disclosure governance)) s s1 ->
  lw_TaskGraph r = applyApprovalDecisionToTaskGraph graph (gs_Approval governance) ->
  lw_ApprovalDecision r = ae_Decision (gs_Approval governance) ->
  lw_FollowUpTasks r = fu_Registration f -> lw_FollowUpExecution r = fu_Execution f -> lw_Artifacts r = fu_Artifacts f ->
  lw_RuntimeState r = fu_State f ->
  life_event_run runtime bus r R K s s'.
Proof.
  intros H M D G A E1 E2 E3 E4. pose proof (spares_preorder (system_now:=system_now) (w:=w) (runtime:=runtime) (K:=K)) as HR.
  pose proof (carries_approved r _ _ G A) as Hg. apply (follow_up_steps w runtime R K bus) in H; [|assumption].
  cbv zeta in H. unfold approval_outcome in H. rewrite <- A, <- E1, <- E2, <- E3, <- E4 in H.
  destruct H as [(Ha & HR' & N & Hs)|[(Ha & Hm & HR' & N & Hs)|[(Ha & Hm & Hc & N2 & N3 & Hs)|(Ha & Ha' & Hm & Hc & Hs)]]].
  - eapply registration_denied; [by eapply decided_then; [exact HR|exact D|exact HR']|exact Hg|exact Ha|exact N|exact Hs].
  - eapply disclosure_refused; [by eapply decided_then; [exact HR|exact D|exact HR']|exact Hg|exact Ha|exact Hm|exact N|exact Hs].
  - eapply approval_awaited; [|exact Hg|exact Ha|exact Hm|exact N2|exact N3|exact Hs]. exists s1. split; [exact D|exact Hc].
  - destruct Hc as (registration & array & tasks & Hf & a & Hreg & b & HK & c & Hx & d & HK' & e & (step & Hp & Hart) & HR').
    eapply (run_completed _ _ _ _ _ _ _ _ registration array); [|exact Hg|exact Ha|exact Ha'|exact Hm|exact Hf|exact Hs].
    exists s1. split; [exact D|]. exists a; split; [exact Hreg|]. exists b; split; [exact HK|]. exists c; split; [exact Hx|].
    exists d; split; [exact HK'|]. exists e; split; [|exact HR']. eexists _, tasks, step. by split_and!.
Qed.

(** A step that spares the follow-up tasks, after others that do. *)
Lemma spared_bind {A B} (R : relation W) `{!PreOrder R} (m : ST error W A) (k : A -> ST error W B) s0 s s' b :
  (m ≫= k) s = (s', Ok b) -> R s0 s -> respects R m -> exists a s1, m s = (s1, Ok a) /\ R s0 s1 /\ k a s1 = (s', Ok b).
Proof.
  intros (a & s1 & Ha & Hb)%run_bind_inv_Ok H0 Hm. exists a, s1. split_and!; try done. etrans; [exact H0|]. by eapply ok_respects.
Qed.

(** What a run says of the steps that all its results have in common. *)
Lemma judged_intro bus (r : LifeEventTriggerRunResult) (R : relation W) `{!PreOrder R} graph draft s s1 s2 s3 s4 s5 s6 :
  R s s1 -> analysis_verified bus r s1 s2 -> graph_generated bus r graph s2 s3 -> R s3 s4 -> assessment_drafted bus r graph draft s4 s5 ->
  finally_verified bus r graph draft s5 s6 -> judged bus r R graph draft s s6.
Proof.
  intros H1 H2 H3 H4 H5 H6. exists s1; split; [exact H1|]. exists s2; split; [exact H2|]. exists s2; split; [reflexivity|].
  exists s3; split; [exact H3|]. exists s4; split; [exact H4|]. exists s5; split; [exact H5|]. exists s5; split; [reflexivity|].
  exists s6; split; [exact H6|reflexivity].
Qed.

Lemma decided_intro bus (r : LifeEventTriggerRunResult) (R : relation W) `{!PreOrder R} graph draft disclosure s s1 s2 :
  judged bus r R graph draft s s1 -> graph_governed bus r graph draft disclosure s1 s2 ->
  NeedsReplan (lw_AnalysisVerification r) = false -> NeedsReplan (lw_FinalVerification r) = false ->
  decided bus r R graph draft disclosure s s2.
Proof.
  intros H1 H2 Ha Hf. split; [|by split; apply needs_no_replan]. exists s1; split; [exact H1|]. exists s2; split; [exact H2|reflexivity].
Qed.

(** C9: The follow-up tasks of a life event pass three gates, in this order.
    A run that returns is one of six sequences of steps.  The analysis is
    verified; if that calls for a new plan, nothing else happens.  Then a
    graph is generated, a report is drafted about this graph and both are
    verified; if that calls for a new plan, nothing else happens.  Then
    governance is asked about the same report and graph; if it denies or
    does not let the report be disclosed, nothing else happens.  Only then is
    the graph registered, with every task marked when an approval is required:
    in that case nothing is executed or published; otherwise the ready tasks
    are executed, then the report is published with what was registered and
    executed.  Before registration no step touches the follow-up tasks, and
    between the steps named afterwards none executes or publishes; that is
    what the relations [R] and [K], any that the other operations respect,
    stand for.  The states are those the code assigns; they are not those of
    README.md:117-122: a failed check of trust leads to replanning (there:
    failed) and a denied run is left waiting for an approval (there: failed). *)
Theorem life_event_follow_ups_gated w event current (R K : relation W) s s' r :
  FollowsController (ResolveWorkflowRuntime view upd (lew_Runtime w)) ->
  SparesFollowUps system_now w (ResolveWorkflowRuntime view upd (lew_Runtime w)) R K ->
  LifeEventTriggerWorkflow_Run system_now view upd w event current s = (s', Ok r) ->
  exists bus, lew_SystemSteps w = Some bus /\ life_event_run (ResolveWorkflowRuntime view upd (lew_Runtime w)) bus r R K s s'.
Proof.
  intros Hfollows Hspares. set (runtime := ResolveWorkflowRuntime view upd (lew_Runtime w)) in *.
  pose proof spares_preorder as HR.
  unfold LifeEventTriggerWorkflow_Run. intros H0.
  destruct (spared_bind R _ _ s _ _ _ H0 (reflexivity s) (intake_spares w runtime R K event)) as (intake & s1 & _ & P1 & H1).
  destruct (spared_bind R _ _ _ _ _ _ H1 P1 (accepted_task_same w runtime R K _ _)) as (spec & s2 & _ & P2 & H2).
  destruct (spared_bind R _ _ _ _ _ _ H2 P2 (spares_clock (lew_Now w) ltac:(rewrite !elem_of_cons; auto))) as (now & s3 & _ & P3 & H3). cbv zeta in H3. fold runtime in H3.
  destruct (spared_bind R _ _ _ _ _ _ H3 P3 (observed_spares w runtime R K _ _ _ _ _ _ _ _)) as (observed & s4 & _ & P4 & H4).
  apply run_bind_inv_Ok in H4 as (bus & ? & [Hbus ->]%required_step & H4).
  destruct (spared_bind R _ _ _ _ _ _ H4 P4 (sync_and_plan_spares w runtime R K bus Hbus _ _ _ _ _ _)) as (planned & s5 & M1%sync_and_plan_task & P5 & H5).
  destruct (spared_bind R _ _ _ _ _ _ H5 P5 (run_blocks_spares w runtime R K bus Hbus _ _ _ _ _ _ _ _))
    as ([blockSteps meta] & s6 & M2%run_blocks_task & P6 & H6). clear H0 H1 H2 H3 H4 H5 P1 P2 P3 P4 P5.
  cbn [snd] in M2. rewrite M1 in M2. apply run_bind_inv_Ok in H6 as (contexts & ? & ->%block_contexts_step & H).
  apply run_bind_inv_Ok in H as ([analysis meta1] & s7 & H7 & H). pose proof (verification_task _ _ _ _ _ _ _ _ _ _ H7) as M3.
  exists bus. split; [exact Hbus|]. destruct (NeedsReplan (pr_Results analysis)) eqn:Hr1.
  { apply run_bind_inv_Ok in H as (next & s8 & H8 & [= <- <-]). pose proof (replan_step _ _ _ _ _ _ H8) as ->.
    apply (ok_respects R) in H8; [|by apply (failed_state_spares w runtime R K)]. apply analysis_fails; try done; [|by apply needs_replan_spec].
    exists s6. split; [exact P6|]. exists s7. split; [|exact H8]. unfold analysis_verified. eapply verification_stepped; [exact H7|exact M2|done..]. }
  cbn [snd] in M3. rewrite M2 in M3. apply run_bind_inv_Ok in H as (generation & s8 & H8%or_handle_step & H).
  apply run_bind_inv_Ok in H as (u & s9 & H9 & H). apply (ok_respects R) in H9; [|apply spares_log].
  apply run_bind_inv_Ok in H as ([draft meta2] & s10 & (drafted & ? & H10%or_handle_step & [= -> <- <-])%run_bind_inv_Ok & H).
  apply run_bind_inv_Ok in H as (final & ? & ->%of_outcome_step & H). apply run_bind_inv_Ok in H as ([verification meta3] & s11 & H11 & H).
  pose proof (verification_task _ _ _ _ _ _ _ _ _ _ H11) as M5. cbn [snd sm_Task updateCausation] in M5.
  assert (Hj : forall r0, lw_TaskSpec r0 = spec -> lw_UpdatedState r0 = lo_UpdatedState observed -> lw_Evidence r0 = lo_Evidence observed ->
    lw_EventEvidence r0 = lo_EventEvidence observed -> lw_DeadlineEvidence r0 = lo_DeadlineEvidence observed ->
    lw_StateDiff r0 = lo_Diff observed -> lw_Plan r0 = pn_Plan planned -> lw_BlockResults r0 = collectBlockResults blockSteps ->
    lw_AnalysisVerification r0 = pr_Results analysis -> lw_FinalVerification r0 = pr_Results verification ->
    judged bus r0 R (tn_TaskGraph generation) (rd_Draft drafted) s s11).
  { intros r0 <- E2 E3 E4 E5 E6 E7 E8 E9 E10. eapply judged_intro; [exact HR|exact P6| | |exact H9| |].
    - eapply verification_stepped; [exact H7|done..].
    - unfold graph_generated. eexists meta1, _, generation. rewrite E2, E4, E5, E6, E7, E8. by split_and!.
    - unfold assessment_drafted. eexists _, _, drafted. rewrite E2, E3, E6, E7, E8. by split_and!.
    - eapply verification_stepped; [exact H11|done..]. }
  clear H7 H8 H9 H10 H11. destruct (NeedsReplan (pr_Results verification)) eqn:Hr2.
  { apply run_bind_inv_Ok in H as (next & s13 & H13 & [= <- <-]). pose proof (replan_step _ _ _ _ _ _ H13) as ->.
    apply (ok_respects R) in H13; [|by apply (failed_state_spares w runtime R K)].
    eapply (assessment_fails _ _ _ _ _ (rd_Draft drafted)); [|by apply needs_no_replan|by apply needs_replan_spec|done..].
    eapply judged_then; [exact HR|by apply Hj|exact H13]. }
  apply run_bind_inv_Ok in H as ([governance meta4] & s13 & (governed & ? & H13%or_handle_step & [= -> <- <-])%run_bind_inv_Ok & H).
  apply run_bind_inv_Ok in H as (followed & s14 & H14 & H). apply run_bind_inv_Ok in H as (report & s15 & H15 & [= <- <-]).
  assert (s14 = s15) as -> by (revert H15; apply ok_respects, of_sum_same).
  match goal with |- life_event_run _ _ ?x _ _ _ _ => set (r := x) end.
  eapply (decided_run w runtime R K bus now _ governed (tn_TaskGraph generation) (rd_Draft drafted) followed r s s13); try done.
  - cbn. by rewrite M5.
  - eapply decided_intro; [exact HR|by apply Hj| |exact Hr1|exact Hr2]. eexists _, governed. split_and!; [exact H13|by rewrite M5|done..].
Qed.
End life_events.

(** ** A run on a stub of the bus *)

(** A runtime that only decides, on a world that only counts. *)
Definition deciding_runtime {W} : WorkflowRuntime W := {|
  wr_Checkpoint _ _ _ _ _ := mret (zero, zero);
  wr_Resume _ _ _ := fail (PlainError "resume");
  wr_HandleFailure _ current category _ := of_sum (HandleFailure current category);
  wr_PauseForApproval _ current pending := of_sum (PauseForApproval current pending);
  wr_RegisterFollowUpTasks _ graph _ := mret (zero <| fr_Graph := graph |>);
  wr_ReevaluateTaskGraph _ _ := mret zero;
  wr_ExecuteReadyFollowUps _ graphID _ := mret (zero <| fb_GraphID := graphID |>);
  wr_Tasks _ := mret [];
  wr_NewTasks _ := mret 0%nat
|}.

#[export] Instance deciding_follows {W} : FollowsController (deciding_runtime (W:=W)).
Proof. split; intros; cbn; intros s s' n; [destruct (HandleFailure _ _)|destruct (PauseForApproval _ _)]; by intros [= _ <-]. Qed.

Definition sample_artifact : WorkflowArtifact := zero <| wa_ID := "report" |>.

(** A bus whose verification has [results], whose governance says [approval]
    and whose publication does [published] to the world. *)
Definition publishing_bus {W} (published : W -> W) (results : list VerificationResult) (approval disclosure : PolicyDecisionOutcome) :
    SystemStepBus W := {|
  ssb_Plan _ _ _ _ := mret zero;
  ssb_MemorySync _ _ _ _ := mret zero;
  ssb_AnalysisBlock _ _ _ _ _ _ := mret zero;
  ssb_ReportDraft _ _ _ _ _ _ _ _ := mret (mkReportDraftStepResult zero (zero <| rp_DebtDecision := Some zero |> <| rp_LifeEventAssessment := Some zero |>));
  ssb_TaskGeneration _ _ _ _ _ _ _ := mret zero;
  ssb_Verification _ _ := mret (mkVerificationStepResult zero (zero <| pr_Results := results |>));
  ssb_Governance _ _ _ _ := mret (mkGovernanceStepResult zero
    (zero <| ae_Decision := Some (zero <| pd_Outcome := approval |>) |>)
    (zero <| re_Decision := zero <| pd_Outcome := disclosure |> |>) false);
  ssb_ReportFinalize _ draft _ := modify published;; mret (mkReportFinalizeStepResult zero draft [sample_artifact])
|}.
Definition stub_bus : list VerificationResult -> PolicyDecisionOutcome -> PolicyDecisionOutcome -> SystemStepBus nat := publishing_bus id.

Definition sample_workflow bus : DebtVsInvestWorkflow nat := {|
  dvw_Intake := None;
  dvw_DecisionService := {| ds_QueryTransaction := Some (fun _ => mret [sample_batch]); ds_QueryLiability := Some (fun _ => mret []);
                            ds_QueryPortfolio := mkQueryPortfolioTool None None; ds_ReducerEngine := None |};
  dvw_SystemSteps := Some bus;
  dvw_Runtime := Some deciding_runtime;
  dvw_Now := None
|}.

Definition sample_debt_run bus : nat * outcome error DebtDecisionRunResult :=
  DebtVsInvestWorkflow_Run (TE := sample_texts) (MO := canonical_order) (JE := constant_encoder) ticking
    (fun _ => initial_world Z.of_nat) (fun _ n => n) (sample_workflow bus) "u1" "should I pay down debt or invest more" sample_current 3%nat.

Definition run_summary (o : outcome error DebtDecisionRunResult) : option (WorkflowExecutionState * nat) :=
  match o with Ok r => Some (dw_RuntimeState r, length (dw_Artifacts r)) | _ => None end.

Definition sample_failure (category : ValidationCategory) : VerificationResult :=
  zero <| vr_Status := VerificationStatusFail |> <| vr_Category := category |>.

Example sample_runs :
  run_summary (sample_debt_run (stub_bus [] PolicyDecisionAllow PolicyDecisionAllow)).2 = Some (WorkflowStateCompleted, 1%nat) /\
  run_summary (sample_debt_run (stub_bus [] PolicyDecisionRequireApproval PolicyDecisionAllow)).2 = Some (WorkflowStateWaitingApproval, 0%nat) /\
  run_summary (sample_debt_run (stub_bus [] PolicyDecisionDeny PolicyDecisionAllow)).2 = Some (WorkflowStateFailed, 0%nat) /\
  run_summary (sample_debt_run (stub_bus [] PolicyDecisionAllow PolicyDecisionDeny)).2 = Some (WorkflowStateFailed, 0%nat) /\
  run_summary (sample_debt_run (stub_bus [sample_failure ValidationCategoryNumeric] PolicyDecisionAllow PolicyDecisionAllow)).2 =
    Some (WorkflowStateFailed, 0%nat) /\
  run_summary (sample_debt_run (stub_bus [sample_failure (ValidationCategoryOther "coverage")] PolicyDecisionAllow PolicyDecisionAllow)).2 =
    Some (WorkflowStateReplanning, 0%nat).
Proof. vm_compute. by split_and!. Qed.

Lemma published_only_through_the_gates_witness :
  let bus := stub_bus [] PolicyDecisionAllow PolicyDecisionAllow in
  exists r, (sample_debt_run bus).2 = Ok r /\
    settled (Some bus) (dw_TaskSpec r) (mkBasis (dw_UpdatedState r) (dw_Evidence r) (dw_Plan r)) (dw_Verification r) (dw_ApprovalDecision r) (dw_Artifacts r) (dw_RuntimeState r) /\
    waits (dw_PendingApproval r) (dw_Checkpoint r) (dw_ResumeToken r) (dw_RuntimeState r).
Proof.
  intros bus. destruct (published_only_through_the_gates (TE := sample_texts) (MO := canonical_order) (JE := constant_encoder) ticking
    (fun _ => initial_world Z.of_nat) (fun _ n => n)) as (_ & H & _).
  specialize (H (sample_workflow bus) "u1" "should I pay down debt or invest more" sample_current 3%nat).
  destruct (sample_debt_run bus) as [s' o] eqn:E. cbn [snd].
  assert (Ho : run_summary o = Some (WorkflowStateCompleted, 1%nat)).
  { pose proof (f_equal (fun x => run_summary x.2) E) as E'. cbn [snd] in E'. rewrite <- E'. vm_compute. reflexivity. }
  destruct o as [r|e|why|]; [|discriminate Ho..]. exists r. split; [reflexivity|]. exact (H s' r deciding_follows E).
Defined.

Definition sample_event : LifeEventRecord := (zero : LifeEventRecord)
  <| le_ID := "ev" |> <| le_UserID := "u1" |> <| le_Kind := LifeEventSalaryChange |> <| le_Source := "hr" |> <| le_Provenance := "api" |>
  <| le_ObservedAt := 63846000000 * Second |> <| le_Confidence := f_const 9 10 |>
  <| le_SalaryChange := Some (zero <| sc_EffectiveAt := 63846000000 * Second |>) |>.

Definition sample_event_evidence : EvidenceRecord := sample_batch
  <| er_ID := "e0" |> <| er_Type := EvidenceTypeEventSignal |>
  <| er_Claims := [mkEvidenceClaim "life_event" "life_event_kind" "ev" (String dquote "salary_change" +:+ String dquote "")] |>.

(** A world that counts and keeps a journal of the follow-up tasks. *)
Definition Journal : Type := nat * list string.
Definition note (line : string) (j : Journal) : Journal := (j.1, j.2 ++ [line]).
Definition journal_clock (j : Journal) : Journal * time := let '(n, t) := ticking j.1 in ((n, j.2), t).

Definition recording_runtime : WorkflowRuntime Journal := {|
  wr_Checkpoint _ _ _ _ _ := mret (zero, zero);
  wr_Resume _ _ _ := fail (PlainError "resume");
  wr_HandleFailure _ current category _ := of_sum (HandleFailure current category);
  wr_PauseForApproval _ current pending := of_sum (PauseForApproval current pending);
  wr_RegisterFollowUpTasks _ graph _ := modify (note "registered");; mret (zero <| fr_Graph := graph |>);
  wr_ReevaluateTaskGraph _ _ := mret zero;
  wr_ExecuteReadyFollowUps _ graphID _ := modify (note "executed");; mret (zero <| fb_GraphID := graphID |>);
  wr_Tasks _ := mret [];
  wr_NewTasks _ := mret 0%nat
|}.

#[export] Instance recording_follows : FollowsController recording_runtime.
Proof. split; intros; cbn; intros s s' n; [destruct (HandleFailure _ _)|destruct (PauseForApproval _ _)]; by intros [= _ <-]. Qed.

Definition sample_life_event_workflow bus : LifeEventTriggerWorkflow Journal := {|
  lew_Intake := None;
  lew_TriggerService := {| le_QueryEvent := Some (fun _ => mret [sample_event_evidence]); le_QueryCalendarDeadline := Some (fun _ => mret []);
    le_QueryTransaction := Some (fun _ => mret [sample_batch]); le_QueryLiability := Some (fun _ => mret []);
    le_QueryPortfolio := mkQueryPortfolioTool None None; le_ParseDocument := mkParseDocumentTool None None;
    le_ReducerEngine := None; le_EventLog := None |};
  lew_SystemSteps := Some bus;
  lew_Runtime := Some recording_runtime;
  lew_EventLog := None;
  lew_Now := None
|}.

Definition sample_life_event_run bus : Journal * outcome error LifeEventTriggerRunResult :=
  LifeEventTriggerWorkflow_Run (TE := sample_texts) (MO := canonical_order) (JE := constant_encoder) journal_clock
    (fun _ => initial_world Z.of_nat) (fun _ j => j) (sample_life_event_workflow bus) sample_event sample_current (3%nat, []).

Definition life_event_summary (run : Journal * outcome error LifeEventTriggerRunResult) : option (WorkflowExecutionState * list string) :=
  match run.2 with Ok r => Some (lw_RuntimeState r, run.1.2) | _ => None end.

Definition journal_bus : list VerificationResult -> PolicyDecisionOutcome -> PolicyDecisionOutcome -> SystemStepBus Journal :=
  publishing_bus (note "published").

Example sample_life_event_runs :
  life_event_summary (sample_life_event_run (journal_bus [] PolicyDecisionAllow PolicyDecisionAllow)) =
    Some (WorkflowStateCompleted, ["registered"; "executed"; "published"]) /\
  life_event_summary (sample_life_event_run (journal_bus [] PolicyDecisionRequireApproval PolicyDecisionAllow)) =
    Some (WorkflowStateWaitingApproval, ["registered"]) /\
  life_event_summary (sample_life_event_run (journal_bus [] PolicyDecisionDeny PolicyDecisionAllow)) =
    Some (WorkflowStateWaitingApproval, []) /\
  life_event_summary (sample_life_event_run (journal_bus [] PolicyDecisionAllow PolicyDecisionDeny)) = Some (WorkflowStateFailed, []) /\
  life_event_summary (sample_life_event_run (journal_bus [sample_failure ValidationCategoryNumeric] PolicyDecisionAllow PolicyDecisionAllow)) =
    Some (WorkflowStateReplanning, []).
Proof. vm_compute. by split_and!. Qed.

(** The journal: the same, and the same but for registrations. *)
Definition same_journal : relation Journal := fun j j' => j.2 = j'.2.
Definition same_but_registered : relation Journal := fun j j' =>
  filter (fun line => line <> "registered") j.2 = filter (fun line => line <> "registered") j'.2.

#[export] Instance same_journal_preorder : PreOrder same_journal.
Proof. split; [by intros j|intros j1 j2 j3 H1 H2; exact (eq_trans H1 H2)]. Qed.
#[export] Instance same_but_registered_preorder : PreOrder same_but_registered.
Proof. split; [by intros j|intros j1 j2 j3 H1 H2; exact (eq_trans H1 H2)]. Qed.

Lemma journal_read clock : clock = None -> respects same_journal (read journal_clock clock).
Proof. by intros -> [n l]. Qed.

Lemma of_sum_any {W A} (R : relation W) `{!PreOrder R} (x : error + A) : respects R (of_sum x).
Proof. destruct x; [apply respects_fail, _|apply respects_ret, _]. Qed.

Ltac spare := intros; first
  [ progress unfold query_evidence, observed_by, query_if, appendWorkflowLog, reduce_evidence, own_clock; cbn beta iota
  | apply respects_ret, _ | apply respects_fail, _ | apply of_sum_any, _ | by apply journal_read
  | apply respects_bind; [apply _| |]
  | match goal with |- respects _ (let (_, _) := ?x in _) => destruct x end
  | match goal with |- respects _ (match ?x with _ => _ end) => destruct x eqn:? end ].

Lemma sample_observation_same bus spec event id current :
  respects same_journal (LifeEventWorkflowService_ObserveAndReduce (TE := sample_texts) (MO := canonical_order) journal_clock
    (lew_TriggerService (sample_life_event_workflow bus)) spec event id current).
Proof.
  unfold LifeEventWorkflowService_ObserveAndReduce, QueryEventTool_QueryEvidence, QueryCalendarDeadlineTool_QueryEvidence,
    QueryTransactionTool_QueryEvidence, QueryLiabilityTool_QueryEvidence, QueryPortfolioTool_QueryEvidence, ParseDocumentTool_ParseEvidence.
  repeat spare.
Qed.

(** Only registration, execution and publication write to the journal. *)
#[export] Instance recording_spares bus :
  SparesFollowUps (TE := sample_texts) (MO := canonical_order) journal_clock (sample_life_event_workflow (journal_bus [] bus.1 bus.2)) recording_runtime
    same_journal same_but_registered.
Proof.
  split; try apply _; intros; try (match goal with H : lew_SystemSteps _ = Some _ |- _ => injection H as <- end);
    try apply (sample_observation_same (journal_bus [] bus.1 bus.2)); cbn -[same_but_registered]; try (by intros [n l]).
  - by apply (f_equal (filter _)).
  - apply journal_read. set_solver.
  - apply of_sum_any, _.
  - apply of_sum_any, _.
Qed.

Lemma life_event_follow_ups_gated_witness :
  let bus := journal_bus [] PolicyDecisionAllow PolicyDecisionAllow in
  exists r journal, sample_life_event_run bus = ((6%nat, journal), Ok r) /\
    life_event_run recording_runtime bus r same_journal same_but_registered (3%nat, []) (6%nat, journal) /\
    journal = ["registered"; "executed"; "published"].
Proof.
  intros bus. pose proof (life_event_follow_ups_gated (TE := sample_texts) (MO := canonical_order) (JE := constant_encoder) journal_clock
    (fun _ => initial_world Z.of_nat) (fun _ j => j) (sample_life_event_workflow bus) sample_event sample_current same_journal same_but_registered
    (3%nat, [])) as H.
  destruct (sample_life_event_run bus) as [s' o] eqn:E.
  assert (Ho : life_event_summary (s', o) = Some (WorkflowStateCompleted, ["registered"; "executed"; "published"]) /\ s'.1 = 6%nat).
  { split; [pose proof (f_equal life_event_summary E) as E'|pose proof (f_equal (fun x => x.1.1) E) as E']; cbn [fst snd] in E';
      rewrite <- E'; vm_compute; reflexivity. }
  destruct s' as [n journal], Ho as [Ho Hn]. cbn in Hn. subst n.
  destruct o as [r|e|why|]; [|discriminate Ho..]. injection Ho as _ ->. exists r, ["registered"; "executed"; "published"].
  split; [reflexivity|]. split; [|reflexivity].
  destruct (H (6%nat, ["registered"; "executed"; "published"]) r recording_follows (recording_spares (PolicyDecisionAllow, PolicyDecisionAllow)) E)
    as (bus' & [= <-] & Hrun). exact Hrun.
Defined.
