(* ===== verification/TrustThm.v ===== *)
(** * A completed run of the package's agents publishes a trustworthy report

    From the workflows through the bus and the dispatcher to the verification
    pipeline and the approval service: what the gates of a workflow guarantee
    once the agents behind the bus are the package's. *)

From S2P Require Import EventWorkflows SystemAgents AgentsThm WorkflowThm VerificationThm GovernanceThm ReducersThm ContextThm.
#[local] Open Scope Z_scope.

(** ** Results of handlers *)

Section handlers.
Context {V : Type} (system_now : V -> V * time) `{TE : TextErrors} `{MO : MapOrder}.

Lemma returns_payload_of {A} recipient envelope (payload : option A) message :
  returns (fun a => payload = Some a) (payload_of (V:=V) recipient envelope payload message).
Proof. unfold payload_of. destruct payload; [by apply returns_ret|apply returns_fail]. Qed.

(** A part of an agent that returns did what it was to do. *)
Lemma returns_or_failure {A} recipient envelope category message (m : ST error V A) :
  returns (fun a => exists v v', m v = (v', Ok a)) (or_failure recipient envelope category message m).
Proof.
  unfold or_failure. eapply (returns_bind (fun r => match r with inr a => exists v v', m v = (v', Ok a) | inl _ => True end)).
  - apply returns_attempt. intros v v' a H. by exists v, v'.
  - intros [e|a] H; [apply returns_fail|by apply returns_ret].
Qed.

(** The report of a payload that a task of this kind is about. *)
Definition report_for (spec : TaskSpec) (report : ReportPayload) : option Output :=
  match ts_UserIntentType spec with
  | UserIntentMonthlyReview => MonthlyReviewOutput <$> rp_MonthlyReview report
  | UserIntentDebtVsInvest => DebtDecisionOutput <$> rp_DebtDecision report
  | UserIntentTaxOptimization => TaxOptimizationOutput <$> rp_TaxOptimization report
  | UserIntentPortfolioRebalance => PortfolioRebalanceOutput <$> rp_PortfolioRebalance report
  | UserIntentBehaviorIntervention => BehaviorInterventionOutput <$> rp_BehaviorIntervention report
  | _ => None
  end.

(** The report of a payload, whichever it is. *)
Definition report_in (report : ReportPayload) : option Output :=
  match report with
  | mkReportPayload (Some r) _ _ _ _ _ => Some (MonthlyReviewOutput r)
  | mkReportPayload None (Some r) _ _ _ _ => Some (DebtDecisionOutput r)
  | mkReportPayload None None (Some r) _ _ _ => Some (LifeEventAssessmentOutput r)
  | mkReportPayload None None None (Some r) _ _ => Some (TaxOptimizationOutput r)
  | mkReportPayload None None None None (Some r) _ => Some (PortfolioRebalanceOutput r)
  | mkReportPayload None None None None None (Some r) => Some (BehaviorInterventionOutput r)
  | mkReportPayload None None None None None None => None
  end.

Context (clock : option (V -> V * time)).

(** The pipeline verified the report of the payload. *)
Definition verified_as (spec : TaskSpec) (payload : VerificationRequestPayload) (result : PipelineResult) : Prop :=
  exists scenario output v v', report_for spec (vq_Report payload) = Some output /\
    verify system_now (standard_pipeline clock) scenario spec (vq_CurrentState payload) (vq_Evidence payload) (vq_Memories payload)
      (vq_Plan payload) (vq_BlockResults payload) (vq_BlockVerificationContexts payload) (vq_FinalVerificationContext payload) output v =
      (v', Ok result).

Lemma verify_report_returns {A} envelope payload (report : option A) name output scenario :
  output <$> report = report_for (av_Task envelope) (vq_Report payload) ->
  returns (fun r => match r with inr result => verified_as (av_Task envelope) payload result | inl _ => True end)
    (verify_report envelope payload report name output (verify system_now (standard_pipeline clock) scenario)).
Proof.
  intros Hr. unfold verify_report. eapply returns_bind; [apply returns_payload_of|]. intros a ->. apply returns_attempt.
  intros v v' result H. by exists scenario, (output a), v, v'.
Qed.

Lemma VerificationAgentHandler_returns handlerCtx envelope :
  (forall payload, rb_VerificationRequest (av_Payload envelope) = Some payload -> vq_Stage payload = zero) ->
  returns (fun answer => exists payload result, rb_VerificationRequest (av_Payload envelope) = Some payload /\
             sb_VerificationResult (hr_Body answer) = Some result /\ verified_as (av_Task envelope) payload result)
          (VerificationAgentHandler_Handle system_now (standard_pipeline clock) handlerCtx envelope).
Proof.
  intros Hstage. unfold VerificationAgentHandler_Handle. eapply returns_bind; [apply returns_payload_of|]. intros payload Hp.
  eapply (returns_bind (fun r => match r with inr result => verified_as (av_Task envelope) payload result | inl _ => True end)).
  - unfold run_verification. cbv zeta.
    destruct (ts_UserIntentType (av_Task envelope)) eqn:E; try (by apply returns_ret);
      try (apply verify_report_returns; unfold report_for; by rewrite E). rewrite (Hstage _ Hp). apply returns_fail.
  - intros [e|result] H; [apply returns_fail|]. apply returns_after. intros events. apply returns_ret. by exists payload, result.
Qed.

Lemma evaluated_returns {A} (f : time -> outcome error A) : returns (fun a => exists t, f t = Ok a) (evaluated system_now f).
Proof. unfold evaluated. apply returns_after. intros t s s' a [= _ H]. by exists t. Qed.

Lemma GovernanceAgentHandler_returns s handlerCtx envelope :
  returns (fun answer => exists payload result now now', rb_GovernanceEvaluationRequest (av_Payload envelope) = Some payload /\
             sb_GovernanceEvaluationResult (hr_Body answer) = Some result /\
             Service_EvaluateAction now s (approval_input envelope payload) = Ok (gr_Approval result) /\
             Service_EvaluateReport now' s (pm_CorrelationID (av_Metadata envelope)) RecipientReportAgent (gq_Audience payload)
               (gq_ContainsPII payload) = Ok (gr_Disclosure result))
          (GovernanceAgentHandler_Handle system_now s handlerCtx envelope).
Proof.
  unfold GovernanceAgentHandler_Handle. eapply returns_bind; [apply returns_payload_of|]. intros payload Hp.
  eapply returns_bind; [apply returns_or_failure|]. intros approval (v & v' & Ha). apply evaluated_returns in Ha as [now Ha].
  eapply returns_bind; [apply returns_or_failure|]. intros disclosure (u & u' & Hd). apply evaluated_returns in Hd as [now' Hd].
  apply returns_after. intros events. apply returns_ret. eexists payload, _, now, now'. by split_and!.
Qed.
End handlers.

(** ** Steps of the bus *)

Section bus.
Context {V : Type} (system_now : V -> V * time) (agents : list (RegisteredSystemAgent (V:=V)))
  (Now busNow : option (V -> V * time)).

(** The bus on a dispatcher with these agents. *)
Definition agents_bus : LocalSystemStepBus (V:=V) :=
  mkLocalSystemStepBus (Dispatch system_now (NewLocalAgentDispatcher (Some (register_all agents)) None Now)) busNow.

Hypothesis genuine : forall agent, agent ∈ agents -> MessageKind_genuine (ag_RequestKind agent) = true.

(** A step that returns has the answer of an agent for its recipient and kind. *)
Lemma step_returns {A} meta recipient kind body (pick : AgentResultBody -> option A) what :
  returns (fun x => exists agent handlerCtx envelope v v' result, agent ∈ agents /\ ag_Recipient agent = recipient /\
             ag_RequestKind agent = kind /\ ag_Handle agent handlerCtx envelope v = (v', Ok result) /\
             av_Task envelope = sm_Task meta /\ av_Payload envelope = body /\ pick (hr_Body result) = Some x.2)
          (step system_now agents_bus meta recipient kind body pick what).
Proof.
  unfold step. apply (returns_bind (fun e => av_Recipient e = recipient /\ av_Kind e = kind /\ av_Task e = sm_Task meta /\ av_Payload e = body)).
  { unfold newEnvelope. apply returns_after. intros now. by apply returns_ret. }
  intros envelope (Hr & Hk & Ht & Hb). eapply returns_bind; [apply Dispatch_returns|].
  intros r (_ & [w Hv] & _ & (agent & ctx & v & v' & result & Hres & Hx & _ & _ & Hbody & _) & _).
  apply valid_kind in Hv. apply Resolve_exact in Hres as (Hin & Hrec & Hkind); [|done|done].
  rewrite Hbody. destruct (pick (hr_Body result)) as [a|] eqn:Ha; [|apply returns_fail]. apply returns_ret.
  exists agent, ctx, envelope, v, v', result. split_and!; try done; congruence.
Qed.
End bus.

(** ** The package's agents behind the bus *)

Section trust.
Context {V W : Type} (system_now : V -> V * time) (agentsView : W -> AgentWorld (V:=V)) (agentsUpd : AgentWorld (V:=V) -> W -> W)
  `{TE : TextErrors} `{MO : MapOrder} `{JE : StateEncoder}
  (clock : option (V -> V * time)) (classify : option RiskClassifier) (toolPolicy : option ToolExecutionPolicy) (reports : Service (W:=V)).

(** Whoever drafts, verifies, governs and finalises is the package's agent;
    the other agents are anything. *)
Record package_agents (agents : list (RegisteredSystemAgent (V:=V))) : Prop := {
  pa_genuine : forall agent, agent ∈ agents -> MessageKind_genuine (ag_RequestKind agent) = true;
  pa_draft : forall agent, agent ∈ agents -> ag_RequestKind agent = MessageKindReportDraftRequest ->
    ag_Handle agent = ReportDraftAgentHandler_Handle system_now reports;
  pa_verification : forall agent, agent ∈ agents -> ag_RequestKind agent = MessageKindVerificationRequest ->
    ag_Handle agent = VerificationAgentHandler_Handle system_now (standard_pipeline clock);
  pa_governance : forall agent, agent ∈ agents -> ag_RequestKind agent = MessageKindGovernanceEvaluationRequest ->
    ag_Handle agent = GovernanceAgentHandler_Handle system_now (default_service classify toolPolicy);
  pa_finalize : forall agent, agent ∈ agents -> ag_RequestKind agent = MessageKindReportFinalizeRequest ->
    ag_Handle agent = ReportFinalizeAgentHandler_Handle system_now reports
}.

(** Nothing in the draft asks for a person. *)
Record cleared (draft : ReportPayload) : Prop := {
  cl_report : reportRequiresApproval draft = false /\ ReportPayload_ApprovalRequired draft = false;
  cl_recommendations : forall r, r ∈ ReportPayload_Recommendations draft ->
    ~ at_least (recommendationRiskLevel (rc_RiskLevel r)) ActionRiskHigh /\ ~ demands_approval r
}.

(** What is published of a report: the report itself, as it was drafted. *)
Definition published (spec : TaskSpec) (output : Output) (artifacts : list WorkflowArtifact) : Prop :=
  exists workflowID kind summary artifact v v',
    ArtifactService_Produce system_now (sv_Artifacts reports) workflowID (ts_ID spec) kind output summary "report_agent" v = (v', Ok artifact) /\
    artifacts = [artifact].

(** A draft of a report is that report alone. *)
Lemma draft_alone spec workflowID input :
  returns (fun draft => forall output, report_for spec draft = Some output -> report_in draft = Some output)
          (Service_Draft system_now reports spec workflowID input).
Proof.
  unfold Service_Draft, report_for. do 2 (apply returns_after; intros ?).
  destruct (ts_UserIntentType spec); try apply returns_fail; apply returns_after; intros report; by apply returns_ret.
Qed.

Lemma disclosed_allowed decision text : pd_Outcome decision = PolicyDecisionAllow -> disclosed decision text = text.
Proof. unfold disclosed. by intros ->. Qed.

Lemma finalize_returns workflowID taskID draft decision :
  pd_Outcome decision = PolicyDecisionAllow ->
  returns (fun r => exists kind output summary artifact v v', report_in draft = Some output /\
             ArtifactService_Produce system_now (sv_Artifacts reports) workflowID taskID kind output summary "report_agent" v = (v', Ok artifact) /\
             r.2 = [artifact])
          (Service_Finalize system_now reports workflowID taskID draft decision).
Proof.
  intros Ha. unfold Service_Finalize, finalize_report. rewrite Ha. cbv zeta.
  destruct draft as [[r|] [r1|] [r2|] [r3|] [r4|] [r5|]]; try apply returns_fail; rewrite (disclosed_allowed _ _ Ha);
    (eapply returns_bind; [intros v v' artifact H; exact (ex_intro _ v (ex_intro _ v' H))|]); intros artifact (v & v' & H); apply returns_ret;
    eexists _, _, _, artifact, v, v'; (split; [|split; [exact H|reflexivity]]);
    first [by destruct r | by destruct r1 | by destruct r2 | by destruct r3 | by destruct r4 | by destruct r5].
Qed.

Context (agents : list (RegisteredSystemAgent (V:=V))) (Now busNow : option (V -> V * time)) (Hagents : package_agents agents).
Let bus : SystemStepBus W := local_bus system_now agentsView agentsUpd (agents_bus system_now agents Now busNow).

Lemma zoom_inv {E S T A} (view : T -> S) (upd : S -> T -> T) (m : ST E S A) t t' a :
  zoom view upd m t = (t', Ok a) -> exists s s', m s = (s', Ok a).
Proof. unfold zoom. destruct (m (view t)) as [s' o] eqn:Hm. intros [= _ ->]. by exists (view t), s'. Qed.

(** Verified without a need for another plan: trustworthy. *)
Lemma verified_trustworthy spec basis draft results :
  verified_with bus spec basis zero draft results -> NeedsReplan results = false ->
  exists output memories envelopes contexts finalContext, report_for spec draft = Some output /\
    trustworthy spec (bs_State basis) (bs_Evidence basis) memories (bs_Plan basis) envelopes contexts finalContext output.
Proof.
  intros (meta & input & s & s' & step & H & <- & <- & Hstage & <- & <-) Hr.
  apply zoom_inv in H as (w & w' & H). unfold DispatchVerification in H. apply run_bind_inv_Ok in H as (x & w1 & H & [= _ <-]).
  apply step_returns in H as (agent & ctx & envelope & v & v' & answer & Hin & _ & Hk & Hh & Ht & Hb & Hpick); [|apply Hagents].
  rewrite (pa_verification _ Hagents agent Hin Hk) in Hh. apply VerificationAgentHandler_returns in Hh as (payload & result & Hp & Hres & Hv).
  2: { rewrite Hb. by intros payload [= <-]. }
  cbn [vs_Result] in Hr. rewrite Hb in Hp. injection Hp as <-. rewrite Hres in Hpick. injection Hpick as Hpick. rewrite <- Hpick in Hr.
  destruct Hv as (scenario & output & u & u' & Hout & Hverify). rewrite Ht in Hout, Hverify.
  pose proof (verify_spec (W:=V) system_now clock (sm_Task meta) (vi_CurrentState input) (vi_Evidence input) (vi_Memories input) (vi_Plan input)
    (vi_BlockResults input) (vi_BlockVerificationContexts input) (vi_FinalVerificationContext input) output scenario u) as Hs.
  cbn in Hverify. rewrite Hverify in Hs. cbn in Hs. destruct Hs as [Ho Hn]. rewrite Hr in Hn. symmetry in Hn. apply negb_false_iff, Ho in Hn.
  eexists output, _, _, _, _. split; [exact Hout|exact Hn].
Qed.

(** Governed without an approval or a denial: cleared, and disclosed as it is. *)
Lemma governed_cleared spec draft approval disclosure :
  governed_with bus spec draft None approval disclosure ->
  pd_Outcome <$> approval <> Some PolicyDecisionRequireApproval -> pd_Outcome <$> approval <> Some PolicyDecisionDeny ->
  cleared draft /\ pd_Outcome disclosure = PolicyDecisionAllow.
Proof.
  intros (meta & current & s & s' & step & H & <- & <- & <-) Hno Hdeny.
  apply zoom_inv in H as (w & w' & H). unfold DispatchGovernance in H. apply run_bind_inv_Ok in H as (x & w1 & H & [= _ <-]).
  apply step_returns in H as (agent & ctx & envelope & v & v' & answer & Hin & _ & Hk & Hh & Ht & Hb & Hpick); [|apply Hagents].
  rewrite (pa_governance _ Hagents agent Hin Hk) in Hh.
  apply GovernanceAgentHandler_returns in Hh as (payload & result & now & now' & Hp & Hres & Ha & Hd).
  rewrite Hb in Hp. injection Hp as <-. rewrite Hres in Hpick. injection Hpick as Hpick. cbn [gs_Approval gs_Disclosure] in *.
  rewrite <- Hpick in *. destruct (service_decides _ _ _ _ _ Ha) as (decision & audit & Hdec & _ & _ & _ & Hallow & _).
  rewrite Hdec in Hno, Hdeny. assert (Ho : pd_Outcome decision = PolicyDecisionAllow).
  { destruct (service_outcome _ _ _ _ _ _ Ha Hdec) as [?|[?|?]]; [done|destruct Hno|destruct Hdeny]; cbn; congruence. }
  apply Hallow in Ho as (Hforce & _ & Hrecs & _ & Happ). split.
  - apply orb_false_iff in Hforce as [Hforce _]. split; [split; [exact Hforce|]|intros r Hr; split; [by apply Hrecs|]].
    + apply not_true_iff_false. intros Hreq. apply Happ. do 2 right. by left.
    + intros Hdem. apply Happ. right. left. by exists r.
  - unfold Service_EvaluateReport in Hd. by destruct (reportPolicy _); injection Hd as <-.
Qed.

(** Finalised as it is: the artifact is the draft. *)
Lemma finalized_published spec draft disclosure artifacts :
  finalized_with bus spec draft disclosure artifacts -> pd_Outcome disclosure = PolicyDecisionAllow ->
  exists output, report_in draft = Some output /\ published spec output artifacts.
Proof.
  intros (meta & s & s' & step & H & <- & <-) Ha.
  apply zoom_inv in H as (w & w' & H). unfold DispatchReportFinalize in H. apply run_bind_inv_Ok in H as (x & w1 & H & [= _ <-]).
  apply step_returns in H as (agent & ctx & envelope & v & v' & answer & Hin & _ & Hk & Hh & Ht & Hb & Hpick); [|apply Hagents].
  rewrite (pa_finalize _ Hagents agent Hin Hk) in Hh. unfold ReportFinalizeAgentHandler_Handle in Hh. rewrite Hb, Ht in Hh.
  apply run_bind_inv_Ok in Hh as (payload & v1 & Hp & Hh). injection Hp as <- <-.
  apply run_bind_inv_Ok in Hh as ([report l] & v2 & Hf & Hh). apply returns_or_failure in Hf as (u & u' & Hf).
  apply finalize_returns in Hf as (kind & output & summary & artifact & y & y' & Hout & Hprod & Hl); [|exact Ha]. cbn in Hl. subst l.
  apply run_bind_inv_Ok in Hh as (event & v3 & _ & [= _ <-]). injection Hpick as Hpick. rewrite <- Hpick. cbn.
  exists output. split; [done|]. by eexists _, kind, summary, artifact, y, y'.
Qed.

Lemma drafted_alone spec draft output :
  drafted_with bus spec draft -> report_for spec draft = Some output -> report_in draft = Some output.
Proof.
  intros (meta & current & memories & evidence & plan & results & diff & graph & s & s' & step & H & <- & <-).
  apply zoom_inv in H as (w & w' & H). unfold DispatchReportDraft in H. apply run_bind_inv_Ok in H as (x & w1 & H & [= _ <-]).
  apply step_returns in H as (agent & ctx & envelope & v & v' & answer & Hin & _ & Hk & Hh & Ht & Hb & Hpick); [|apply Hagents].
  rewrite (pa_draft _ Hagents agent Hin Hk) in Hh. unfold ReportDraftAgentHandler_Handle in Hh. rewrite Hb, Ht in Hh.
  apply run_bind_inv_Ok in Hh as (payload & v1 & _ & Hh). apply run_bind_inv_Ok in Hh as (draft & v2 & Hd & [= _ <-]).
  apply returns_or_failure in Hd as (u & u' & Hd). injection Hpick as Hpick. cbn [rd_Draft]. rewrite <- Hpick.
  exact (draft_alone _ _ _ _ _ _ Hd output).
Qed.

(** What a completed run published, and what it rests on. *)
Definition trusted (spec : TaskSpec) (basis : Basis) (artifacts : list WorkflowArtifact) : Prop :=
  exists draft output memories envelopes contexts finalContext, report_for spec draft = Some output /\
    trustworthy spec (bs_State basis) (bs_Evidence basis) memories (bs_Plan basis) envelopes contexts finalContext output /\
    cleared draft /\ published spec output artifacts.

Lemma completed_trusted spec basis results approval artifacts :
  settled (Some bus) spec basis results approval artifacts WorkflowStateCompleted -> trusted spec basis artifacts.
Proof.
  intros (bus' & draft & disclosure & [= <-] & Hd & Hv & Hg & _ & Hf & _ & He). unfold ending in He.
  destruct (HasTrustFailure results); [done|]. destruct (NeedsReplan results) eqn:Hr; [done|].
  destruct (verified_trustworthy _ _ _ _ Hv Hr) as (output & memories & envelopes & contexts & finalContext & Hout & Ht).
  destruct (governed_cleared _ _ _ _ (Hg eq_refl)) as [Hc Ha]; [intros E; by rewrite E in He..|].
  exists draft, output, memories, envelopes, contexts, finalContext. split_and!; [done..|].
  destruct (finalized_published _ _ _ _ (Hf eq_refl) Ha) as (output' & Hout' & Hp).
  by rewrite (drafted_alone _ _ _ Hd Hout) in Hout'; injection Hout' as <-.
Qed.

(** ** The report workflows on these agents *)

Context (wnow : W -> W * time) (worldView : W -> World) (worldUpd : World -> W -> W).

(** C2: A completed run publishes exactly the report that was verified.
    Whatever the tools, the planner, the analysts and the memory do: when the
    agents behind the bus that draft, verify, govern and finalise are the
    package's with its default policies, then every report workflow that ends
    completed published one artifact; it is the report of the task, as it was
    drafted; that report is trustworthy for the run's own task, state,
    evidence and plan; and neither the report nor any of its recommendations
    asks for an approval or is rated high. *)
Theorem completed_run_is_trustworthy :
  (forall w userID rawInput current s s' r, mrw_SystemSteps w = Some bus -> FollowsController (ResolveWorkflowRuntime worldView worldUpd (mrw_Runtime w)) ->
     MonthlyReviewWorkflow_Run wnow worldView worldUpd w userID rawInput current s = (s', Ok r) -> mw_RuntimeState r = WorkflowStateCompleted ->
     trusted (mw_TaskSpec r) (mkBasis (mw_UpdatedState r) (mw_Evidence r) (mw_Plan r)) (mw_Artifacts r)) /\
  (forall w userID rawInput current s s' r, dvw_SystemSteps w = Some bus -> FollowsController (ResolveWorkflowRuntime worldView worldUpd (dvw_Runtime w)) ->
     DebtVsInvestWorkflow_Run wnow worldView worldUpd w userID rawInput current s = (s', Ok r) -> dw_RuntimeState r = WorkflowStateCompleted ->
     trusted (dw_TaskSpec r) (mkBasis (dw_UpdatedState r) (dw_Evidence r) (dw_Plan r)) (dw_Artifacts r)) /\
  (forall w spec activation current s s' r, tow_SystemSteps w = Some bus -> FollowsController (ResolveWorkflowRuntime worldView worldUpd (tow_Runtime w)) ->
     TaxOptimizationWorkflow_RunTask wnow worldView worldUpd w spec activation current s = (s', Ok r) -> tw_RuntimeState r = WorkflowStateCompleted ->
     trusted (tw_TaskSpec r) (mkBasis (tw_UpdatedState r) (tw_Evidence r) (tw_Plan r)) (tw_Artifacts r)) /\
  (forall w spec activation current s s' r, pow_SystemSteps w = Some bus -> FollowsController (ResolveWorkflowRuntime worldView worldUpd (pow_Runtime w)) ->
     PortfolioRebalanceWorkflow_RunTask wnow worldView worldUpd w spec activation current s = (s', Ok r) -> pw_RuntimeState r = WorkflowStateCompleted ->
     trusted (pw_TaskSpec r) (mkBasis (pw_UpdatedState r) (pw_Evidence r) (pw_Plan r)) (pw_Artifacts r)) /\
  (forall w userID rawInput current s s' r, biw_SystemSteps w = Some bus -> FollowsController (ResolveWorkflowRuntime worldView worldUpd (biw_Runtime w)) ->
     BehaviorInterventionWorkflow_Run wnow worldView worldUpd w userID rawInput current s = (s', Ok r) -> bw_RuntimeState r = WorkflowStateCompleted ->
     trusted (bw_TaskSpec r) (mkBasis (bw_UpdatedState r) (bw_Evidence r) (bw_Plan r)) (bw_Artifacts r)).
Proof.
  split_and!; intros w a b c s s' r Hb Hf H Hc.
  - apply monthly_settled in H; [|done]. rewrite Hb, Hc in H. by eapply completed_trusted.
  - apply debt_settled in H as [H _]; [|done]. rewrite Hb, Hc in H. by eapply completed_trusted.
  - apply tax_settled in H as [H _]; [|done]. rewrite Hb, Hc in H. by eapply completed_trusted.
  - apply portfolio_settled in H as [H _]; [|done]. rewrite Hb, Hc in H. by eapply completed_trusted.
  - apply behavior_settled in H as [H _]; [|done]. rewrite Hb, Hc in H. by eapply completed_trusted.
Qed.
End trust.

(** ** A whole run: from a question to a published report *)

Section sample.
#[local] Existing Instance sample_texts.
#[local] Existing Instance canonical_order.
#[local] Existing Instance constant_encoder.

Definition ledger_record (id : string) (type : EvidenceType) (claims : list (string * string)) : EvidenceRecord :=
  sample_batch <| er_ID := id |> <| er_Type := type |> <| er_Claims := (fun c => mkEvidenceClaim "ledger" c.1 "month" c.2) <$> claims |>.

Definition household_transactions : EvidenceRecord := ledger_record "e1" EvidenceTypeTransactionBatch
  [("monthly_inflow_cents", "800000"); ("monthly_outflow_cents", "300000"); ("monthly_net_income_cents", "500000"); ("savings_rate", "0.625")].
Definition household_debts : EvidenceRecord := ledger_record "e2" EvidenceTypeDebtObligationSnapshot
  [("total_debt_cents", "1000000"); ("debt_burden_ratio", "0.1"); ("minimum_payment_pressure", "0.05")].
Definition household_portfolio : EvidenceRecord := ledger_record "e3" EvidenceTypePortfolioAllocationSnap
  [("total_investable_assets_cents", "5000000"); ("emergency_fund_months", "6")].

Definition sample_reports : Service (W:=nat) := {|
  sv_MonthlyReviewAggregator := mkMonthlyReviewAggregator None None;
  sv_DebtDecisionAggregator := None;
  sv_LifeEventAggregator := None;
  sv_TaxOptimizationAggregator := None;
  sv_PortfolioRebalanceAggregator := None;
  sv_BehaviorInterventionAggregator := None;
  sv_Artifacts := mkArtifactService None None
|}.

(** The package's agents; only the steward remembers nothing. *)
Definition household_agents : list (RegisteredSystemAgent (V:=nat)) :=
  [agent RecipientPlannerAgent MessageKindPlanRequest (PlannerAgentHandler_Handle ticking None None);
   agent RecipientMemorySteward MessageKindMemorySyncRequest
     (fun _ _ => mret (answer MessageKindMemorySyncResult (zero <| sb_MemorySyncResult := Some zero |>)));
   agent RecipientCashflowAgent MessageKindCashflowAnalysisRequest (CashflowAgentHandler_Handle ticking None None);
   agent RecipientDebtAgent MessageKindDebtAnalysisRequest (DebtAgentHandler_Handle ticking None);
   agent RecipientReportAgent MessageKindReportDraftRequest (ReportDraftAgentHandler_Handle ticking sample_reports);
   agent RecipientVerificationAgent MessageKindVerificationRequest (VerificationAgentHandler_Handle ticking (standard_pipeline None));
   agent RecipientGovernanceAgent MessageKindGovernanceEvaluationRequest (GovernanceAgentHandler_Handle ticking (default_service None None));
   agent RecipientReportAgent MessageKindReportFinalizeRequest (ReportFinalizeAgentHandler_Handle ticking sample_reports)].

Definition household_bus : SystemStepBus (AgentWorld (V:=nat)) :=
  local_bus ticking id (fun w _ => w) (agents_bus ticking household_agents None None).

Definition household_workflow : DebtVsInvestWorkflow (AgentWorld (V:=nat)) := {|
  dvw_Intake := None;
  dvw_DecisionService := {| ds_QueryTransaction := Some (fun _ => mret [household_transactions]);
                            ds_QueryLiability := Some (fun _ => mret [household_debts]);
                            ds_QueryPortfolio := mkQueryPortfolioTool (Some (fun _ => mret [household_portfolio])) None;
                            ds_ReducerEngine := None |};
  dvw_SystemSteps := Some household_bus;
  dvw_Runtime := Some deciding_runtime;
  dvw_Now := None
|}.

Definition world_ticking (w : AgentWorld (V:=nat)) : AgentWorld (V:=nat) * time :=
  let '(n, t) := ticking (aw_Agents w) in (w <| aw_Agents := n |>, t).

Definition household_run : AgentWorld * outcome error DebtDecisionRunResult :=
  DebtVsInvestWorkflow_Run world_ticking (fun _ => initial_world Z.of_nat) (fun _ w => w) household_workflow "u1"
    "should I pay down debt or invest more" sample_current (mkAgentWorld None None 3%nat).

Lemma household_agents_of_package : package_agents ticking None None None sample_reports household_agents.
Proof.
  split; intros a Ha; unfold household_agents in Ha; rewrite !elem_of_cons, elem_of_nil in Ha;
    destruct Ha as [->|[->|[->|[->|[->|[->|[->|[->|[]]]]]]]]]; first [reflexivity | discriminate].
Qed.

Lemma completed_run_is_trustworthy_witness :
  exists r, household_run.2 = Ok r /\ length (dw_Artifacts r) = 1%nat /\
    trusted ticking sample_reports (dw_TaskSpec r)
      (mkBasis (dw_UpdatedState r) (dw_Evidence r) (dw_Plan r)) (dw_Artifacts r).
Proof.
  destruct (completed_run_is_trustworthy ticking (id : AgentWorld -> AgentWorld) (fun w _ => w) None None None sample_reports household_agents
    None None household_agents_of_package world_ticking (fun _ => initial_world Z.of_nat) (fun _ w => w)) as (_ & H & _).
  specialize (H household_workflow "u1" "should I pay down debt or invest more" sample_current (mkAgentWorld None None 3%nat)).
  destruct household_run as [s' o] eqn:E. cbn [snd].
  assert (Ho : run_summary o = Some (WorkflowStateCompleted, 1%nat)).
  { pose proof (f_equal (fun x => run_summary x.2) E) as E'. cbn [snd] in E'. rewrite <- E'. vm_compute. reflexivity. }
  destruct o as [r|e|why|]; [|discriminate Ho..]. cbn in Ho. injection Ho as Hs Hl. exists r. split; [reflexivity|]. split; [exact Hl|].
  exact (H s' r eq_refl deciding_follows E Hs).
Defined.
End sample.
