(* ===== verification/Service.v ===== *)
(** * The scheduler and the runtime service *)

From S2P Require Export Activation.
#[local] Open Scope Z_scope.

(** * The scheduler (scheduler.go)

    A tick scans the stored graphs, saves wakeups for what will become
    runnable, and turns the wakeups that are due into work items. *)

Record SchedulerService := mkScheduler {
  sc_TaskGraphs : option TaskGraphStore;
  sc_Executions : option TaskExecutionStore;
  sc_Approvals : option ApprovalStateStore;
  sc_WorkQueue : option WorkQueueStore;
  sc_Wakeups : option SchedulerStore;
  sc_Capabilities : option TaskCapabilityResolver;
  sc_Replay : option ReplayStore;
  sc_RetryPolicy : RetryBackoffPolicy
}.
#[export] Instance eta_SchedulerService : Eta SchedulerService := eta! mkScheduler <
  sc_TaskGraphs ; sc_Executions ; sc_Approvals ; sc_WorkQueue ; sc_Wakeups ; sc_Capabilities ;
  sc_Replay ; sc_RetryPolicy >.

(** ** Retry times *)

(** [for i := 1; i < n; i++ { delay *= 2; if 0 < limit && limit < delay { delay = limit; break } }]
    with [turns = n - 1]; the product is a 64-bit one. *)
Fixpoint backoff (turns : nat) (delay limit : Duration) : Duration :=
  match turns with
  | O => delay
  | S turns' =>
      let delay := wrap64 (delay * 2) in
      if (0 <? limit) && (limit <? delay) then limit else backoff turns' delay limit
  end.

Definition nextRetryTime (record : TaskExecutionRecord) (policy : RetryBackoffPolicy) (now : time) : time :=
  let delay := if bp_BaseDelay policy <=? 0 then 5 * Second else bp_BaseDelay policy in
  let delay := backoff (Z.to_nat (Z.max (te_RetryCount record) 1 - 1)) delay (bp_MaxDelay policy) in
  let base := if IsZero (te_FailedAt record) then now else te_FailedAt record in
  Add base delay.

Definition retryPolicy (s : SchedulerService) : RetryBackoffPolicy :=
  let p := sc_RetryPolicy s in
  {| bp_BaseDelay := if bp_BaseDelay p <=? 0 then 5 * Second else bp_BaseDelay p;
     bp_MaxDelay := if bp_MaxDelay p <=? 0 then 5 * Minute else bp_MaxDelay p |}.

(** ** Wakeups and work items *)

Definition due_window_wakeup (graphID taskID : string) (notBefore : time) : SchedulerWakeup :=
  zero <| sw_ID := makeID [PStr "wakeup"; PStr (SchedulerWakeupKind_string SchedulerWakeupDueWindow);
                           PStr graphID; PStr taskID; PTime notBefore] |>
    <| sw_GraphID := graphID |> <| sw_TaskID := taskID |>
    <| sw_Kind := SchedulerWakeupDueWindow |> <| sw_AvailableAt := notBefore |>
    <| sw_Reason := "due window reached" |>.

Definition approval_wakeup (graphID taskID approvalID : string) (now : time) : SchedulerWakeup :=
  zero <| sw_ID := makeID [PStr "wakeup"; PStr (SchedulerWakeupKind_string SchedulerWakeupApproval);
                           PStr approvalID] |>
    <| sw_GraphID := graphID |> <| sw_TaskID := taskID |> <| sw_ApprovalID := approvalID |>
    <| sw_Kind := SchedulerWakeupApproval |> <| sw_AvailableAt := now |>
    <| sw_Reason := "approval resolved to approved" |>.

Definition dependency_wakeup (graphID : string) (now : time) : SchedulerWakeup :=
  zero <| sw_ID := makeID [PStr "wakeup"; PStr (SchedulerWakeupKind_string SchedulerWakeupDependency);
                           PStr graphID; PTime (Truncate now Second)] |>
    <| sw_GraphID := graphID |>
    <| sw_Kind := SchedulerWakeupDependency |> <| sw_AvailableAt := now |>
    <| sw_Reason := "graph status changed under reevaluation" |>.

Definition retry_wakeup (graphID : string) (record : TaskExecutionRecord) (next : time) : SchedulerWakeup :=
  zero <| sw_ID := makeID [PStr "wakeup"; PStr (SchedulerWakeupKind_string SchedulerWakeupRetry);
                           PStr (te_ExecutionID record); PTime next] |>
    <| sw_GraphID := graphID |> <| sw_TaskID := te_TaskID record |>
    <| sw_ExecutionID := te_ExecutionID record |>
    <| sw_Kind := SchedulerWakeupRetry |> <| sw_AvailableAt := next |>
    <| sw_Reason := "retry backoff reached" |>.

(** The work item of the scheduler's scan for a graph with a ready task. *)
Definition execute_ready_item (graph : TaskGraph) (now : time) : WorkItem :=
  zero <| wi_ID := makeID [PStr "work"; PStr (WorkItemKind_string WorkItemKindExecuteReadyTask);
                           PStr (tg_GraphID graph)] |>
    <| wi_Kind := WorkItemKindExecuteReadyTask |> <| wi_Status := WorkItemStatusQueued |>
    <| wi_DedupeKey := "execute:" +:+ tg_GraphID graph |>
    <| wi_GraphID := tg_GraphID graph |> <| wi_WorkflowID := tg_ParentWorkflowID graph |>
    <| wi_AvailableAt := now |> <| wi_LastUpdatedAt := now |>
    <| wi_Reason := "ready task detected during scheduler scan" |>.

Definition toWorkItem (wakeup : SchedulerWakeup) : option WorkItem :=
  let at_ := sw_AvailableAt wakeup in
  let queued := zero <| wi_Status := WorkItemStatusQueued |>
    <| wi_GraphID := sw_GraphID wakeup |>
    <| wi_AvailableAt := at_ |> <| wi_LastUpdatedAt := at_ |>
    <| wi_Reason := sw_Reason wakeup |> <| wi_WakeupKind := sw_Kind wakeup |> in
  match sw_Kind wakeup with
  | SchedulerWakeupDueWindow | SchedulerWakeupDependency | SchedulerWakeupCapability | SchedulerWakeupOperator =>
      Some (queued <| wi_ID := makeID [PStr "work"; PStr (WorkItemKind_string WorkItemKindReevaluateTaskGraph);
                       PStr (sw_GraphID wakeup); PStr (SchedulerWakeupKind_string (sw_Kind wakeup)); PTime at_] |>
        <| wi_Kind := WorkItemKindReevaluateTaskGraph |>
        <| wi_DedupeKey := "reevaluate:" +:+ sw_GraphID wakeup |>)
  | SchedulerWakeupApproval =>
      Some (queued <| wi_ID := makeID [PStr "work"; PStr (WorkItemKind_string WorkItemKindResumeApprovedCheckpoint);
                       PStr (sw_ApprovalID wakeup)] |>
        <| wi_Kind := WorkItemKindResumeApprovedCheckpoint |>
        <| wi_DedupeKey := "resume:" +:+ sw_GraphID wakeup +:+ ":" +:+ sw_TaskID wakeup |>
        <| wi_TaskID := sw_TaskID wakeup |> <| wi_ApprovalID := sw_ApprovalID wakeup |>)
  | SchedulerWakeupRetry =>
      Some (queued <| wi_ID := makeID [PStr "work"; PStr (WorkItemKind_string WorkItemKindRetryFailedExecution);
                       PStr (sw_ExecutionID wakeup); PTime at_] |>
        <| wi_Kind := WorkItemKindRetryFailedExecution |>
        <| wi_DedupeKey := "retry:" +:+ sw_ExecutionID wakeup |>
        <| wi_TaskID := sw_TaskID wakeup |> <| wi_ExecutionID := sw_ExecutionID wakeup |>)
  | SchedulerWakeupKindOther _ => None
  end.

(** [statusChangesRequireReevaluation], of the two arrays as they are. *)
Definition statusChangesRequireReevaluation (before after : list FollowUpTaskRecord) : bool :=
  if Nat.eqb (length before) (length after) then
    let byID := taskRecordMap before in
    existsb (fun item =>
      match byID !! ts_ID (ft_Task item) with
      | None => true
      | Some previous => ft_Status previous != ft_Status item
      end) after
  else true.

(** ** A tick *)

Section scheduler.
Context `{MO : MapOrder}.
Variable s : SchedulerService.

Definition scheduler_appendReplay (event : ReplayEventRecord) : M unit :=
  match sc_Replay s with
  | None => mret tt
  | Some replay => ReplayStore_Append replay event
  end.

Section scan.
Variables (wakeups : SchedulerStore) (graph : TaskGraph) (now : time).

(** [s.Wakeups.SaveWakeup(wakeup); saved = append(saved, wakeup)] *)
Definition save_wakeup (saved : list SchedulerWakeup) (wakeup : SchedulerWakeup) : M (list SchedulerWakeup) :=
  SchedulerStore_SaveWakeup wakeups wakeup;;
  mret (saved ++ [wakeup]).

(** The first loop, on the registered tasks. *)
Definition schedule_task (saved : list SchedulerWakeup) (task : FollowUpTaskRecord) : M (list SchedulerWakeup) :=
  match ft_Status task, dw_NotBefore (gm_DueWindow (ft_Metadata task)) with
  | TaskQueueStatusDeferred, Some notBefore =>
      save_wakeup saved (due_window_wakeup (tg_GraphID graph) (ts_ID (ft_Task task)) notBefore)
  | TaskQueueStatusWaitingApproval, _ =>
      approvals ← deref "ApprovalStateStore" (sc_Approvals s);
      found ← ApprovalStateStore_LoadByTask approvals (tg_GraphID graph) (ts_ID (ft_Task task));
      match found with
      | Some approval =>
          if as_Status approval == ApprovalStatusApproved
          then save_wakeup saved
                 (approval_wakeup (tg_GraphID graph) (ts_ID (ft_Task task)) (as_ApprovalID approval) now)
          else mret saved
      | None => mret saved
      end
  | _, _ => mret saved
  end.

(** The second: one work item per graph, offered once per ready task. *)
Definition enqueue_ready (task : FollowUpTaskRecord) : M unit :=
  if ft_Status task == TaskQueueStatusReady then
    queue ← deref "WorkQueueStore" (sc_WorkQueue s);
    WorkQueueStore_Enqueue queue (execute_ready_item graph now);;
    mret tt
  else mret tt.

(** The third, on the executions of the graph. *)
Definition schedule_retry (saved : list SchedulerWakeup) (record : TaskExecutionRecord) : M (list SchedulerWakeup) :=
  if (te_Status record != TaskQueueStatusFailed) || (te_LastRecoveryStrategy record != RecoveryStrategyRetry)
  then mret saved
  else save_wakeup saved (retry_wakeup (tg_GraphID graph) record (nextRetryTime record (retryPolicy s) now)).
End scan.

Definition scheduleGraph (snapshot : TaskGraphSnapshot) (now : time) : M (list SchedulerWakeup) :=
  match sc_Wakeups s with
  | None => mret []
  | Some wakeups =>
      let graph := gs_Graph snapshot in
      '(updated, activation) ← ReevaluateFollowUpTaskGraph snapshot (sc_Capabilities s) now;
      before ← read_array (gs_RegisteredTasks snapshot);
      saved ← for_fold (schedule_task wakeups graph now) [] before;
      after ← read_array (gs_RegisteredTasks updated);
      for_each (enqueue_ready graph now) after;;
      saved ←
        (if statusChangesRequireReevaluation before after || negb (bool_decide (ta_ReadyTaskIDs activation = []))
         then save_wakeup wakeups saved (dependency_wakeup (tg_GraphID graph) now)
         else mret saved);
      match sc_Executions s with
      | None => mret saved
      | Some executions =>
          records ← TaskExecutionStore_ListByGraph executions (tg_GraphID graph);
          for_fold (schedule_retry wakeups graph now) saved records
      end
  end.

Definition dispatch_event (wakeup : SchedulerWakeup) (item : WorkItem) (now : time) : ReplayEventRecord :=
  zero <| ev_EventID := makeID [PStr "replay"; PStr "scheduler-dispatch"; PStr (sw_ID wakeup); PTime now] |>
    <| ev_RootCorrelationID := firstNonEmpty [sw_GraphID wakeup; sw_ExecutionID wakeup; sw_ApprovalID wakeup] |>
    <| ev_GraphID := sw_GraphID wakeup |> <| ev_TaskID := sw_TaskID wakeup |>
    <| ev_ApprovalID := sw_ApprovalID wakeup |> <| ev_ExecutionID := sw_ExecutionID wakeup |>
    <| ev_ActionType := "scheduler_wakeup_dispatch" |>
    <| ev_Summary := "scheduler dispatched " +:+ SchedulerWakeupKind_string (sw_Kind wakeup) +:+ " wakeup" |>
    <| ev_OccurredAt := now |>
    <| ev_DetailsJSON := "{" +:+ Quote "wakeup_id" +:+ ":" +:+ Quote (sw_ID wakeup)
         +:+ "," +:+ Quote "work_item_id" +:+ ":" +:+ Quote (wi_ID item)
         +:+ "," +:+ Quote "work_item_kind" +:+ ":" +:+ Quote (WorkItemKind_string (wi_Kind item)) +:+ "}" |>.

(** The body of the dispatch loop of [Tick]. *)
Definition dispatch_wakeup (wakeups : SchedulerStore) (now : time) (result : SchedulerTickResult)
    (wakeup : SchedulerWakeup) : M SchedulerTickResult :=
  match toWorkItem wakeup with
  | None => mret result
  | Some item =>
      queue ← deref "WorkQueueStore" (sc_WorkQueue s);
      enqueued ← WorkQueueStore_Enqueue queue item;
      SchedulerStore_MarkWakeupDispatched wakeups (sw_ID wakeup) now;;
      let result := result
        <| st_DispatchedWakeups := st_DispatchedWakeups result ++ [wakeup] |>
        <| st_EnqueueResults := st_EnqueueResults result ++ [enqueued] |> in
      let result :=
        if wq_Disposition enqueued == WorkEnqueueDispositionEnqueued then
          result
          <| st_EnqueuedWorkItemIDs :=
               st_EnqueuedWorkItemIDs result ++ [firstNonEmpty [wq_WorkItemID enqueued; wi_ID item]] |>
          <| st_EnqueuedWorkKinds := st_EnqueuedWorkKinds result ++ [wi_Kind item] |>
        else result in
      scheduler_appendReplay (dispatch_event wakeup item now);;
      mret result
  end.

Definition scan_graphs (now : time) (result : SchedulerTickResult) : M SchedulerTickResult :=
  match sc_TaskGraphs s with
  | None => mret result
  | Some store =>
      graphs ← TaskGraphStore_List store;
      for_fold (fun result snapshot =>
        saved ← scheduleGraph snapshot now;
        mret (result <| st_SavedWakeups := st_SavedWakeups result ++ saved |>))
        (result <| st_ScannedGraphs := Z.of_nat (length graphs) |>) graphs
  end.

(** On an error the result is the zero one: the error is the answer. *)
Definition Tick : M SchedulerTickResult :=
  at_ ← now;
  result ← scan_graphs at_ (zero <| st_TickedAt := at_ |>);
  wakeups ← deref "SchedulerStore" (sc_Wakeups s);
  due ← SchedulerStore_ListDueWakeups wakeups at_;
  for_fold (dispatch_wakeup wakeups at_) result due.
End scheduler.

(** * The runtime service (service.go)

    A [LocalWorkflowRuntime] with the work queue, the scheduler store and the
    replay projection; operator requests are deduplicated by request id. *)

(** [Service].  [se_projection] is [ReplayProjectionWriter.RebuildTaskGraph]
    without the record it returns, which every caller drops; [runtime] is
    never nil ([NewService] sets it); the clock is the world's. *)
Record Service := mkService {
  se_runtime : LocalWorkflowRuntime;
  se_projection : option (string -> M unit);
  se_workQueue : option WorkQueueStore;
  se_workAttempts : option WorkAttemptStore;
  se_workers : option WorkerRegistryStore;
  se_scheduler : option SchedulerStore;
  se_backendProfile : string
}.
#[export] Instance eta_Service : Eta Service := eta! mkService <
  se_runtime ; se_projection ; se_workQueue ; se_workAttempts ; se_workers ; se_scheduler ; se_backendProfile >.

(** [ServiceOptions], without the clock. *)
Record ServiceOptions := mkServiceOptions {
  so_CheckpointStore : option CheckpointStore;
  so_TaskGraphs : option TaskGraphStore;
  so_Executions : option TaskExecutionStore;
  so_Approvals : option ApprovalStateStore;
  so_OperatorActions : option OperatorActionStore;
  so_Replay : option ReplayStore;
  so_Artifacts : option ArtifactMetadataStore;
  so_WorkQueue : option WorkQueueStore;
  so_WorkAttempts : option WorkAttemptStore;
  so_Workers : option WorkerRegistryStore;
  so_Scheduler : option SchedulerStore;
  so_Capabilities : option TaskCapabilityResolver;
  so_Controller : option WorkflowController;
  so_EventLog : bool;
  so_BackendProfile : string
}.

Section service.
Context `{MO : MapOrder}.

(** The work queue is the fence validator. *)
Definition NewService (options : ServiceOptions) : Service := {|
  se_runtime := NewLocalWorkflowRuntime {|
    lr_Controller := so_Controller options;
    lr_CheckpointStore := so_CheckpointStore options;
    lr_Journal := false;
    lr_Timeline := false;
    lr_EventLog := so_EventLog options;
    lr_TaskGraphs := so_TaskGraphs options;
    lr_Executions := so_Executions options;
    lr_Approvals := so_Approvals options;
    lr_OperatorActions := so_OperatorActions options;
    lr_Replay := so_Replay options;
    lr_Artifacts := so_Artifacts options;
    lr_Capabilities := so_Capabilities options;
    lr_FenceValidator := WorkQueueStore_ValidateFence <$> so_WorkQueue options
  |};
  se_projection := None;
  se_workQueue := so_WorkQueue options;
  se_workAttempts := so_WorkAttempts options;
  se_workers := so_Workers options;
  se_scheduler := so_Scheduler options;
  se_backendProfile := firstNonEmpty [so_BackendProfile options; "local-lite"]
|}.

Definition SetReplayProjectionWriter (s : Service) (writer : option (string -> M unit)) : Service :=
  s <| se_projection := writer |>.

Definition SetCapabilities (s : Service) (resolver : option TaskCapabilityResolver) : Service :=
  s <| se_runtime := (se_runtime s) <| lr_Capabilities := resolver |> |>.

(** ** Operator actions *)

Definition requested_action (actionType : OperatorActionType) (requestID actor : string) (roles : list string)
    (graphID taskID approvalID workflowID note : string) (expectedVersion : Z) (requestedAt : time)
    : OperatorActionRecord :=
  zero <| oa_ActionID := makeID [PStr "operator-action"; PStr (OperatorActionType_string actionType); PStr requestID] |>
    <| oa_RequestID := requestID |> <| oa_ActionType := actionType |>
    <| oa_Actor := actor |> <| oa_Roles := roles |>
    <| oa_GraphID := graphID |> <| oa_TaskID := taskID |>
    <| oa_ApprovalID := approvalID |> <| oa_WorkflowID := workflowID |>
    <| oa_Status := OperatorActionStatusRequested |>
    <| oa_Note := note |> <| oa_RequestedAt := requestedAt |>
    <| oa_ExpectedVersion := expectedVersion |>.

(** [beginAction]: the action, the result so far, and whether the request id
    was seen before. *)
Definition beginAction (s : Service) (actionType : OperatorActionType) (requestID actor : string)
    (roles : list string) (graphID taskID approvalID workflowID note : string) (expectedVersion : Z)
    : M (OperatorActionRecord * TaskCommandResult * bool) :=
  if blank requestID then fail (PlainError "request_id is required")
  else match lr_OperatorActions (se_runtime s) with
  | None => fail (PlainError "operator action store is required")
  | Some actions =>
      found ← OperatorActionStore_LoadByRequestID actions requestID;
      match found with
      | Some existing =>
          mret (existing,
                zero <| cr_Action := existing |> <| cr_GraphID := oa_GraphID existing |>
                  <| cr_TaskID := oa_TaskID existing |> <| cr_ApprovalID := oa_ApprovalID existing |>
                  <| cr_FailureSummary := oa_FailureSummary existing |>,
                true)
      | None =>
          at_ ← now;
          mret (requested_action actionType requestID actor roles graphID taskID approvalID workflowID note
                  expectedVersion at_, zero, false)
      end
  end.

Definition appendReplay (s : Service) (event : ReplayEventRecord) : M unit :=
  match lr_Replay (se_runtime s) with
  | None => mret tt
  | Some replay => ReplayStore_Append replay event
  end.

(** [s.runtime.OperatorActions.Save(action)] *)
Definition save_action (s : Service) (action : OperatorActionRecord) : M unit :=
  actions ← deref "OperatorActionStore" (lr_OperatorActions (se_runtime s));
  OperatorActionStore_Save actions action.

Definition fail_event (action : OperatorActionRecord) (err : error) (at_ : time) : ReplayEventRecord :=
  zero <| ev_EventID := makeID [PStr "replay"; PStr (OperatorActionType_string (oa_ActionType action));
                                PStr (oa_RequestID action); PTime at_] |>
    <| ev_RootCorrelationID := firstNonEmpty [oa_GraphID action; oa_WorkflowID action] |>
    <| ev_ParentWorkflowID := oa_WorkflowID action |> <| ev_WorkflowID := oa_WorkflowID action |>
    <| ev_GraphID := oa_GraphID action |> <| ev_TaskID := oa_TaskID action |>
    <| ev_ApprovalID := oa_ApprovalID action |>
    <| ev_ActionType := OperatorActionType_string (oa_ActionType action) |>
    <| ev_Summary := "operator action " +:+ OperatorActionType_string (oa_ActionType action) +:+ " failed" |>
    <| ev_OccurredAt := at_ |>
    <| ev_DetailsJSON := "{" +:+ Quote "failure_summary" +:+ ":" +:+ Quote (error_string err) +:+ "}" |>
    <| ev_OperatorActionID := oa_ActionID action |>.

(** [failAction] records the failed action, ignoring errors of the two
    writes, and answers with [err]; no caller reads the result beside it. *)
Definition failAction {A} (s : Service) (action : OperatorActionRecord) (err : error) : M A :=
  at_ ← now;
  let action := action <| oa_Status := OperatorActionStatusFailed |>
    <| oa_AppliedAt := Some at_ |> <| oa_FailureSummary := error_string err |> in
  attempt (save_action s action);;
  attempt (appendReplay s (fail_event action err at_));;
  fail err.

(** ** Dispatch *)

Definition asyncDispatchEnabled (s : Service) : bool :=
  is_set (se_workQueue s) && is_set (se_scheduler s).

Definition enqueueWorkItem (s : Service) (item : WorkItem) : M TaskCommandResult :=
  match se_workQueue s with
  | None => fail (PlainError "work queue store is required")
  | Some queue =>
      enqueued ← WorkQueueStore_Enqueue queue item;
      let accepted := wq_Disposition enqueued == WorkEnqueueDispositionEnqueued in
      let result := zero <| cr_GraphID := wi_GraphID item |> <| cr_TaskID := wi_TaskID item |>
        <| cr_ExecutionID := wi_ExecutionID item |> <| cr_ApprovalID := wi_ApprovalID item |>
        <| cr_EnqueueResults := [enqueued] |> <| cr_AsyncDispatchAccepted := accepted |> in
      mret (if accepted
            then result <| cr_EnqueuedWorkItemIDs := [firstNonEmpty [wq_WorkItemID enqueued; wi_ID item]] |>
                        <| cr_EnqueuedWorkKinds := [wi_Kind item] |>
            else result)
  end.

Definition rebuildTaskGraphProjection (s : Service) (graphID : string) : M unit :=
  match se_projection s with
  | Some rebuild => if blank graphID then mret tt else rebuild graphID
  | None => mret tt
  end.

(** ** Finding a task *)

Definition locate_in_graphs (s : Service) (taskID : string) (snapshots : list TaskGraphSnapshot)
    : M (list (TaskGraphSnapshot * FollowUpTaskRecord)) :=
  for_fold (fun matches snapshot =>
    hydrated ← loadTaskGraphSnapshot (se_runtime s) (tg_GraphID (gs_Graph snapshot));
    records ← read_array (gs_RegisteredTasks hydrated);
    mret (match findTaskRecord records taskID with
          | Some record => matches ++ [(hydrated, record)]
          | None => matches end)) [] snapshots.

Definition locateTask (s : Service) (graphID taskID : string) : M (TaskGraphSnapshot * FollowUpTaskRecord) :=
  if blank taskID then fail (PlainError "task id is required")
  else if negb (blank graphID) then
    snapshot ← loadTaskGraphSnapshot (se_runtime s) graphID;
    records ← read_array (gs_RegisteredTasks snapshot);
    match findTaskRecord records taskID with
    | None => fail (NotFoundError "follow_up_task" taskID)
    | Some record => mret (snapshot, record)
    end
  else match lr_TaskGraphs (se_runtime s) with
  | None => fail (PlainError "task graph store is required")
  | Some graphs =>
      snapshots ← TaskGraphStore_List graphs;
      matches ← locate_in_graphs s taskID snapshots;
      match matches with
      | [] => fail (NotFoundError "follow_up_task" taskID)
      | [found] => mret found
      | _ => fail (ConflictError "follow_up_task" taskID "task id is not unique across graphs")
      end
  end.

(** ** Commands on a graph *)

Definition reevaluate_item (cmd : ReevaluateTaskGraphCommand) (at_ : time) : WorkItem :=
  zero <| wi_ID := makeID [PStr "work"; PStr (WorkItemKind_string WorkItemKindReevaluateTaskGraph);
                           PStr (rvc_GraphID cmd); PTime at_] |>
    <| wi_Kind := WorkItemKindReevaluateTaskGraph |> <| wi_Status := WorkItemStatusQueued |>
    <| wi_DedupeKey := "reevaluate:" +:+ rvc_GraphID cmd |>
    <| wi_GraphID := rvc_GraphID cmd |>
    <| wi_AvailableAt := at_ |> <| wi_LastUpdatedAt := at_ |>
    <| wi_Reason := firstNonEmpty [rvc_Note cmd; "operator requested task-graph reevaluation"] |>
    <| wi_WakeupKind := SchedulerWakeupOperator |>.

(** The event of a reevaluation; [verb] distinguishes the two paths. *)
Definition reevaluate_event (kind verb graphID actionID detailsJSON : string) (at_ : time) : ReplayEventRecord :=
  zero <| ev_EventID := makeID [PStr "replay"; PStr kind; PStr graphID; PTime at_] |>
    <| ev_RootCorrelationID := graphID |> <| ev_ParentWorkflowID := graphID |> <| ev_GraphID := graphID |>
    <| ev_ActionType := OperatorActionType_string OperatorActionReevaluate |>
    <| ev_Summary := verb +:+ graphID |> <| ev_OccurredAt := at_ |>
    <| ev_OperatorActionID := actionID |> <| ev_DetailsJSON := detailsJSON |>.

Definition applied (action : OperatorActionRecord) (at_ : time) : OperatorActionRecord :=
  action <| oa_Status := OperatorActionStatusApplied |> <| oa_AppliedAt := Some at_ |>.

Definition dispatch_details (s : Service) (action : OperatorActionType) (item : WorkItem) (decision : string)
    : string :=
  marshal_operatorAsyncDispatchReplayDetails {|
    od_WorkerAction := OperatorActionType_string action;
    od_WorkItemID := wi_ID item;
    od_WorkItemKind := WorkItemKind_string (wi_Kind item);
    od_SchedulerDecision := decision;
    od_StoreBackendProfile := se_backendProfile s |}.

Definition Service_ReevaluateTaskGraph (s : Service) (cmd : ReevaluateTaskGraphCommand)
    : M (TaskActivationResult * TaskCommandResult) :=
  let graphID := rvc_GraphID cmd in
  '(action, result, duplicate) ← beginAction s OperatorActionReevaluate (rvc_RequestID cmd) (rvc_Actor cmd)
    (rvc_Roles cmd) graphID "" "" "" (rvc_Note cmd) 0;
  if (duplicate : bool) then mret (zero, result)
  else if asyncDispatchEnabled s then
    at_ ← now;
    let action := applied action at_ in
    save_action s action;;
    let item := reevaluate_item cmd at_ in
    enqueued ← enqueueWorkItem s item;
    appendReplay s (reevaluate_event "reevaluate-enqueued" "enqueued task-graph reevaluation for " graphID
      (oa_ActionID action) (dispatch_details s OperatorActionReevaluate item "operator_reevaluate") at_);;
    mret (zero <| ta_GraphID := graphID |> <| ta_EvaluatedAt := at_ |>, enqueued <| cr_Action := action |>)
  else
    let name := firstNonEmpty [graphID; "runtime-reevaluator"] in
    ran ← attempt (ReevaluateTaskGraph (se_runtime s)
      {| ec_WorkflowID := name; ec_TaskID := ""; ec_CorrelationID := name; ec_Attempt := 1 |} graphID);
    match ran with
    | inl err => failAction s action err
    | inr activation =>
        appliedAt ← now;
        let action := applied action appliedAt in
        save_action s action;;
        appendReplay s (reevaluate_event "reevaluate" "reevaluated task graph " graphID
          (oa_ActionID action) "" appliedAt);;
        rebuildTaskGraphProjection s graphID;;
        mret (activation, zero <| cr_Action := action |> <| cr_GraphID := graphID |>)
    end.

Definition ExecuteAutoReadyFollowUps (s : Service) (graphID : string) (policy : AutoExecutionPolicy)
    : M FollowUpExecutionBatchResult :=
  result ← ExecuteReadyFollowUps (se_runtime s)
    {| ec_WorkflowID := graphID; ec_TaskID := ""; ec_CorrelationID := graphID; ec_Attempt := 1 |} graphID policy;
  rebuildTaskGraphProjection s graphID;;
  mret result.
End service.
