(* ===== verification/Operator.v ===== *)
(** * Operator commands and queries *)

From S2P Require Export Service.
#[local] Open Scope Z_scope.

(** * Operator commands (operator_service.go)

    Approve, deny, resume and retry: each records one operator action per
    request id, moves the approval, the execution and the graph through their
    states under optimistic version checks, and leaves replay events. *)

Section operator.
Context `{MO : MapOrder}.
Variable s : Service.

#[local] Abbreviation r := (se_runtime s).

(** Methods of stores that the code calls without a nil check. *)
Definition approvals_do {A} (f : ApprovalStateStore -> M A) : M A :=
  store ← deref "ApprovalStateStore" (lr_Approvals r); f store.
Definition executions_do {A} (f : TaskExecutionStore -> M A) : M A :=
  store ← deref "TaskExecutionStore" (lr_Executions r); f store.
Definition checkpoints_do {A} (f : CheckpointStore -> M A) : M A :=
  store ← deref "CheckpointStore" (lr_CheckpointStore r); f store.

(** [ResolveWorkflow] with the error of a missing capability. *)
Definition resolve_workflow (task : FollowUpTaskRecord) : M (error + FollowUpWorkflowCapability) :=
  resolver ← deref "TaskCapabilityResolver" (lr_Capabilities r);
  match Resolver_ResolveWorkflow resolver (ft_Task task) with
  | (Some capability, true, _) => mret (inr capability)
  | (_, _, reason) =>
      mret (inl (ConflictError "follow_up_task" (ts_ID (ft_Task task))
                   (firstNonEmpty [reason; "workflow capability is not available"])))
  end.

Definition task_transition (task : FollowUpTaskRecord) (reason : string) : error :=
  InvalidTransitionError "follow_up_task" (ts_ID (ft_Task task)) (TaskQueueStatus_string (ft_Status task))
    (TaskQueueStatus_string TaskQueueStatusExecuting) reason.

Definition approval_transition (approvalID : string) (from to : ApprovalStatus) (reason : string) : error :=
  InvalidTransitionError "approval" approvalID (ApprovalStatus_string from) (ApprovalStatus_string to) reason.

(** ** Resume *)

(** What a resume needs, loaded from the stores: the execution that waits,
    its checkpoint, token and payload, and the pending state. *)
Record resume_input := mkResumeInput {
  ri_latest : TaskExecutionRecord;
  ri_checkpoint : CheckpointRecord;
  ri_token : ResumeToken;
  ri_payload : CheckpointPayloadEnvelope;
  ri_pendingState : StateSnapshot;
  ri_capability : FollowUpWorkflowCapability
}.

(** From [Executions.LoadLatestByTask] to [Capabilities.ResolveWorkflow].
    The outer sum is an error the command hands to [failAction], a failed
    run one that it returns as it is. *)
Definition load_resume_input (snapshot : TaskGraphSnapshot) (task : FollowUpTaskRecord)
    : M (error + resume_input) :=
  found ← executions_do (fun st =>
    TaskExecutionStore_LoadLatestByTask st (tg_GraphID (gs_Graph snapshot)) (ts_ID (ft_Task task)));
  match found with
  | None => mret (inl (NotFoundError "task_execution" (ts_ID (ft_Task task))))
  | Some latest =>
      checkpoint ← checkpoints_do (fun st => CheckpointStore_Load st (te_WorkflowID latest) (te_CheckpointID latest));
      token ← checkpoints_do (fun st => CheckpointStore_LoadResumeToken st (te_ResumeToken latest));
      payload ← checkpoints_do (fun st => CheckpointStore_LoadPayload st (te_CheckpointID latest));
      match ce_FollowUpFinalizeResume payload with
      | None =>
          mret (inl (ConflictError "checkpoint_payload" (te_CheckpointID latest)
                       "follow-up finalize resume payload is missing"))
      | Some finalize =>
          pendingState ← loadStateSnapshot r
            (firstNonEmpty [te_UpdatedStateSnapshotRef latest; fp_PendingStateSnapshotRef finalize]);
          resolved ← resolve_workflow task;
          match resolved with
          | inl e => mret (inl e)
          | inr capability => mret (inr (mkResumeInput latest checkpoint token payload pendingState capability))
          end
      end
  end.

(** [latest] as it goes back to executing. *)
Definition resuming (latest : TaskExecutionRecord) (at_ : time) : TaskExecutionRecord :=
  latest <| te_Status := TaskQueueStatusExecuting |> <| te_PendingApproval := false |>
         <| te_LastTransitionAt := at_ |>.

(** [if updated, err := save(snapshot, snapshot.Version); err == nil { snapshot = updated }] *)
Definition try_save_graph (snapshot : TaskGraphSnapshot) : M TaskGraphSnapshot :=
  saved ← attempt (saveUpdatedTaskGraphSnapshot r snapshot (gs_Version snapshot));
  mret (match saved with inr updated => updated | inl _ => snapshot end).

Definition resume_failed_reason : string :=
  "approved but automatic resume attempt failed; explicit resume required".

(** The capability refused to resume. *)
Definition resume_failed (explicit : bool) (snapshot : TaskGraphSnapshot) (task : FollowUpTaskRecord)
    (latest : TaskExecutionRecord) (expectedExecutionVersion : Z) (err : error) (at_ : time)
    : M TaskGraphSnapshot :=
  if explicit then
    let latest := latest <| te_Status := TaskQueueStatusFailed |>
      <| te_FailureCategory := failureCategoryFromExecutionError (Some err) |>
      <| te_FailureSummary := error_string err |>
      <| te_FailedAt := at_ |> <| te_LastTransitionAt := at_ |> in
    executions_do (fun st => TaskExecutionStore_Update st latest (wrap64 (expectedExecutionVersion + 1)));;
    snapshot ← applyExecutionRecord snapshot latest zero;
    try_save_graph snapshot
  else
    let latest := latest <| te_Status := TaskQueueStatusWaitingApproval |>
      <| te_PendingApproval := true |> <| te_LastTransitionAt := at_ |>
      <| te_FailureCategory := FailureCategoryOther "" |> <| te_FailureSummary := "" |>
      <| te_FailedAt := zero_time |> in
    executions_do (fun st => TaskExecutionStore_Update st latest (wrap64 (expectedExecutionVersion + 1)));;
    snapshot ← updateTaskStatus snapshot (ts_ID (ft_Task task)) TaskQueueStatusWaitingApproval
                 (Some [resume_failed_reason]) None at_;
    try_save_graph snapshot.

Definition resume_event (snapshot : TaskGraphSnapshot) (finalized : TaskExecutionRecord) (actionID : string)
    (at_ : time) : ReplayEventRecord :=
  zero <| ev_EventID := makeID [PStr "replay"; PStr "resume"; PStr (te_ExecutionID finalized); PTime at_] |>
    <| ev_RootCorrelationID := te_RootCorrelationID finalized |>
    <| ev_ParentWorkflowID := te_ParentWorkflowID finalized |>
    <| ev_WorkflowID := te_WorkflowID finalized |>
    <| ev_GraphID := tg_GraphID (gs_Graph snapshot) |>
    <| ev_TaskID := te_TaskID finalized |> <| ev_ApprovalID := te_ApprovalID finalized |>
    <| ev_ExecutionID := te_ExecutionID finalized |>
    <| ev_ActionType := OperatorActionType_string OperatorActionResume |>
    <| ev_Summary := "operator resumed follow-up task " +:+ te_TaskID finalized |>
    <| ev_OccurredAt := at_ |> <| ev_OperatorActionID := actionID |>.

(** From the first write to the result. *)
Definition perform_resume (explicit : bool) (action : OperatorActionRecord) (snapshot : TaskGraphSnapshot)
    (task : FollowUpTaskRecord) (input : resume_input) : M TaskCommandResult :=
  let expectedGraphVersion := gs_Version snapshot in
  at_ ← now;
  snapshot ← updateTaskStatus snapshot (ts_ID (ft_Task task)) TaskQueueStatusExecuting None None at_;
  snapshot ← saveUpdatedTaskGraphSnapshot r snapshot expectedGraphVersion;
  let expectedExecutionVersion := te_Version (ri_latest input) in
  let latest := resuming (ri_latest input) at_ in
  executions_do (fun st => TaskExecutionStore_Update st latest expectedExecutionVersion);;
  ran ← attempt (Capability_Resume (ri_capability input) (ft_Task task)
           (buildActivationContext (gs_Graph snapshot) task) (ss_State (ri_pendingState input))
           (ri_checkpoint input) (ri_token input) (ri_payload input));
  match ran with
  | inl err =>
      resume_failed explicit snapshot task latest expectedExecutionVersion err at_;;
      failAction s action err
  | inr resumed =>
      finishedAt ← now;
      let finalized := finalizeTaskExecutionRecord latest resumed finishedAt in
      finalized ← persistExecutionOutcome r snapshot finalized resumed;
      snapshot ← applyExecutionRecord snapshot finalized resumed;
      snapshot ← saveUpdatedTaskGraphSnapshot r snapshot (gs_Version snapshot);
      let action := applied action at_ <| oa_ApprovalID := te_ApprovalID latest |>
                                       <| oa_WorkflowID := te_WorkflowID finalized |> in
      save_action s action;;
      (if explicit then appendReplay s (resume_event snapshot finalized (oa_ActionID action) at_) else mret tt);;
      rebuildTaskGraphProjection s (tg_GraphID (gs_Graph snapshot));;
      mret (zero <| cr_Action := action |> <| cr_GraphID := tg_GraphID (gs_Graph snapshot) |>
              <| cr_TaskID := ts_ID (ft_Task task) |> <| cr_ApprovalID := te_ApprovalID latest |>
              <| cr_ExecutionID := te_ExecutionID finalized |> <| cr_Status := te_Status finalized |>)
  end.

(** A request id that was seen: the latest execution of the task, if it loads. *)
Definition duplicate_resume (snapshot : TaskGraphSnapshot) (task : FollowUpTaskRecord)
    (result : TaskCommandResult) : M TaskCommandResult :=
  found ← attempt (executions_do (fun st =>
    TaskExecutionStore_LoadLatestByTask st (tg_GraphID (gs_Graph snapshot)) (ts_ID (ft_Task task))));
  mret (match found with
        | inr (Some latest) =>
            result <| cr_GraphID := tg_GraphID (gs_Graph snapshot) |> <| cr_TaskID := ts_ID (ft_Task task) |>
              <| cr_ApprovalID := te_ApprovalID latest |> <| cr_ExecutionID := te_ExecutionID latest |>
              <| cr_Status := te_Status latest |>
        | _ => result end).

Definition resumeTaskInternal (cmd : ResumeFollowUpTaskCommand) (explicit : bool) : M TaskCommandResult :=
  '(snapshot, task) ← locateTask s (rsc_GraphID cmd) (rsc_TaskID cmd);
  '(action, result, duplicate) ← beginAction s OperatorActionResume (rsc_RequestID cmd) (rsc_Actor cmd)
    (rsc_Roles cmd) (tg_GraphID (gs_Graph snapshot)) (ts_ID (ft_Task task)) "" "" (rsc_Note cmd)
    (rsc_ExpectedVersion cmd);
  if (duplicate : bool) then duplicate_resume snapshot task result
  else if ft_Status task != TaskQueueStatusWaitingApproval then
    failAction s action (task_transition task "task is not waiting approval")
  else
    approval ← approvals_do (fun st =>
      ApprovalStateStore_LoadByTask st (tg_GraphID (gs_Graph snapshot)) (ts_ID (ft_Task task)));
    let unresolved :=
      match approval with
      | Some a => if as_Status a != ApprovalStatusApproved then Some a else None
      | None => None
      end in
    match unresolved with
    | Some a =>
        failAction s action (approval_transition (as_ApprovalID a) (as_Status a) ApprovalStatusApproved
          "task cannot resume before approval resolution")
    | None =>
        loaded ← load_resume_input snapshot task;
        match loaded with
        | inl e => failAction s action e
        | inr input => perform_resume explicit action snapshot task input
        end
    end.

Definition ResumeFollowUpTask (cmd : ResumeFollowUpTaskCommand) : M TaskCommandResult :=
  resumeTaskInternal cmd true.

(** ** Approve and deny *)

Definition resolve_approval (approval : ApprovalStateRecord) (status : ApprovalStatus) (actor note : string)
    (at_ : time) : ApprovalStateRecord :=
  approval <| as_Status := status |> <| as_ResolvedAt := Some at_ |>
    <| as_ResolvedBy := actor |> <| as_ResolutionNote := note |>.

(** [expectedVersion := approval.Version; if cmd.ExpectedVersion > 0 { ... }] *)
Definition expected_approval_version (approval : ApprovalStateRecord) (cmdVersion : Z) : Z :=
  if 0 <? cmdVersion then cmdVersion else as_Version approval.

(** The events of an approval; [kind] is the part of the id. *)
Definition approval_event (kind actionType summary detailsJSON : string) (approval : ApprovalStateRecord)
    (actionID : string) (at_ : time) : ReplayEventRecord :=
  zero <| ev_EventID := makeID [PStr "replay"; PStr kind; PStr (as_ApprovalID approval); PTime at_] |>
    <| ev_RootCorrelationID := as_GraphID approval |>
    <| ev_ParentWorkflowID := as_WorkflowID approval |> <| ev_WorkflowID := as_WorkflowID approval |>
    <| ev_GraphID := as_GraphID approval |> <| ev_TaskID := as_TaskID approval |>
    <| ev_ApprovalID := as_ApprovalID approval |>
    <| ev_ActionType := actionType |> <| ev_Summary := summary |>
    <| ev_OccurredAt := at_ |> <| ev_OperatorActionID := actionID |> <| ev_DetailsJSON := detailsJSON |>.

Definition approve_resume_item (approval : ApprovalStateRecord) (at_ : time) : WorkItem :=
  zero <| wi_ID := makeID [PStr "work"; PStr (WorkItemKind_string WorkItemKindResumeApprovedCheckpoint);
                           PStr (as_ApprovalID approval)] |>
    <| wi_Kind := WorkItemKindResumeApprovedCheckpoint |> <| wi_Status := WorkItemStatusQueued |>
    <| wi_DedupeKey := "resume:" +:+ as_GraphID approval +:+ ":" +:+ as_TaskID approval |>
    <| wi_GraphID := as_GraphID approval |> <| wi_TaskID := as_TaskID approval |>
    <| wi_ApprovalID := as_ApprovalID approval |> <| wi_WorkflowID := as_WorkflowID approval |>
    <| wi_AvailableAt := at_ |> <| wi_LastUpdatedAt := at_ |>
    <| wi_Reason := "approval resolved to approved" |> <| wi_WakeupKind := SchedulerWakeupApproval |>.

(** After the approval is stored: hand the resume to a worker, or try it now. *)
Definition dispatch_resume (cmd : ApproveTaskCommand) (approval : ApprovalStateRecord)
    (action : OperatorActionRecord) (at_ : time) : M TaskCommandResult :=
  if asyncDispatchEnabled s then
    let item := approve_resume_item approval at_ in
    enqueued ← enqueueWorkItem s item;
    appendReplay s (approval_event "approve-enqueue" "async_dispatch"
      ("approval " +:+ as_ApprovalID approval +:+ " enqueued async resume")
      (dispatch_details s OperatorActionApprove item (SchedulerWakeupKind_string SchedulerWakeupApproval))
      approval (oa_ActionID action) at_);;
    rebuildTaskGraphProjection s (as_GraphID approval);;
    mret (enqueued <| cr_Action := action |> <| cr_AutoResumeTried := false |>)
  else
    rebuildTaskGraphProjection s (as_GraphID approval);;
    let result := zero <| cr_Action := action |> <| cr_GraphID := as_GraphID approval |>
      <| cr_TaskID := as_TaskID approval |> <| cr_ApprovalID := as_ApprovalID approval |>
      <| cr_AutoResumeTried := true |> in
    resumed ← attempt (resumeTaskInternal
      {| rsc_RequestID := as_ApprovalID approval +:+ ":approve-resume:" +:+ apc_RequestID cmd;
         rsc_GraphID := as_GraphID approval; rsc_TaskID := as_TaskID approval;
         rsc_Actor := apc_Actor cmd; rsc_Roles := apc_Roles cmd;
         rsc_Note := "auto resume after approval"; rsc_ExpectedVersion := 0 |} false);
    mret (match resumed with
          | inr resumeResult =>
              result <| cr_AutoResumeApplied := true |> <| cr_ExecutionID := cr_ExecutionID resumeResult |>
                <| cr_Status := cr_Status resumeResult |>
          | inl err => result <| cr_FailureSummary := error_string err |>
          end).

Definition ApproveTask (cmd : ApproveTaskCommand) : M TaskCommandResult :=
  found ← approvals_do (fun st => ApprovalStateStore_Load st (apc_ApprovalID cmd));
  match found with
  | None => fail (NotFoundError "approval" (apc_ApprovalID cmd))
  | Some approval =>
      '(action, result, duplicate) ← beginAction s OperatorActionApprove (apc_RequestID cmd) (apc_Actor cmd)
        (apc_Roles cmd) (as_GraphID approval) (as_TaskID approval) (as_ApprovalID approval)
        (as_WorkflowID approval) (apc_Note cmd) (apc_ExpectedVersion cmd);
      if (duplicate : bool) then mret result
      else if as_Status approval != ApprovalStatusPending then
        failAction s action (approval_transition (as_ApprovalID approval) (as_Status approval)
          ApprovalStatusApproved "approval is not pending")
      else
        let expectedVersion := expected_approval_version approval (apc_ExpectedVersion cmd) in
        at_ ← now;
        let approval := resolve_approval approval ApprovalStatusApproved (apc_Actor cmd) (apc_Note cmd) at_ in
        approvals_do (fun st => ApprovalStateStore_Update st approval expectedVersion);;
        let action := applied action at_ in
        save_action s action;;
        appendReplay s (approval_event "approve" (OperatorActionType_string OperatorActionApprove)
          ("operator approved task " +:+ as_TaskID approval) "" approval (oa_ActionID action) at_);;
        dispatch_resume cmd approval action at_
  end.

Definition denial (note : string) : string := firstNonEmpty [note; "operator denied approval"].

(** The execution that waited fails. *)
Definition denied (latest : TaskExecutionRecord) (note : string) (at_ : time) : TaskExecutionRecord :=
  latest <| te_Status := TaskQueueStatusFailed |> <| te_PendingApproval := false |>
    <| te_FailureCategory := FailureCategoryDeniedByOp |> <| te_FailureSummary := denial note |>
    <| te_FailedAt := at_ |> <| te_LastTransitionAt := at_ |>.

Definition DenyTask (cmd : DenyTaskCommand) : M TaskCommandResult :=
  found ← approvals_do (fun st => ApprovalStateStore_Load st (dnc_ApprovalID cmd));
  match found with
  | None => fail (NotFoundError "approval" (dnc_ApprovalID cmd))
  | Some approval =>
      '(action, result, duplicate) ← beginAction s OperatorActionDeny (dnc_RequestID cmd) (dnc_Actor cmd)
        (dnc_Roles cmd) (as_GraphID approval) (as_TaskID approval) (as_ApprovalID approval)
        (as_WorkflowID approval) (dnc_Note cmd) (dnc_ExpectedVersion cmd);
      if (duplicate : bool) then mret result
      else if as_Status approval != ApprovalStatusPending then
        failAction s action (approval_transition (as_ApprovalID approval) (as_Status approval)
          ApprovalStatusDenied "approval is not pending")
      else
        '(snapshot, task) ← locateTask s (as_GraphID approval) (as_TaskID approval);
        let expectedApprovalVersion := expected_approval_version approval (dnc_ExpectedVersion cmd) in
        at_ ← now;
        let approval := resolve_approval approval ApprovalStatusDenied (dnc_Actor cmd) (dnc_Note cmd) at_ in
        approvals_do (fun st => ApprovalStateStore_Update st approval expectedApprovalVersion);;
        latest ← executions_do (fun st =>
          TaskExecutionStore_LoadLatestByTask st (tg_GraphID (gs_Graph snapshot)) (ts_ID (ft_Task task)));
        (match latest with
         | Some latest =>
             executions_do (fun st => TaskExecutionStore_Update st (denied latest (dnc_Note cmd) at_) (te_Version latest))
         | None => mret tt
         end);;
        let expectedGraphVersion := gs_Version snapshot in
        snapshot ← updateTaskStatus snapshot (ts_ID (ft_Task task)) TaskQueueStatusFailed
                     (Some [denial (dnc_Note cmd)]) None at_;
        saveUpdatedTaskGraphSnapshot r snapshot expectedGraphVersion;;
        let action := applied action at_ in
        save_action s action;;
        appendReplay s (approval_event "deny" (OperatorActionType_string OperatorActionDeny)
          ("operator denied task " +:+ as_TaskID approval) "" approval (oa_ActionID action) at_);;
        rebuildTaskGraphProjection s (as_GraphID approval);;
        mret (zero <| cr_Action := action |> <| cr_GraphID := as_GraphID approval |>
                <| cr_TaskID := as_TaskID approval |> <| cr_ApprovalID := as_ApprovalID approval |>
                <| cr_Status := TaskQueueStatusFailed |> <| cr_FailureSummary := denial (dnc_Note cmd) |>)
  end.

(** ** Retry *)

Definition operator_retry_item (cmd : RetryFailedFollowUpTaskCommand) (graph : TaskGraph) (taskID executionID : string)
    (at_ : time) : WorkItem :=
  zero <| wi_ID := makeID [PStr "work"; PStr (WorkItemKind_string WorkItemKindRetryFailedExecution);
                           PStr (tg_GraphID graph); PStr taskID; PTime at_] |>
    <| wi_Kind := WorkItemKindRetryFailedExecution |> <| wi_Status := WorkItemStatusQueued |>
    <| wi_DedupeKey := "retry:" +:+ tg_GraphID graph +:+ ":" +:+ taskID |>
    <| wi_GraphID := tg_GraphID graph |> <| wi_TaskID := taskID |> <| wi_ExecutionID := executionID |>
    <| wi_WorkflowID := tg_ParentWorkflowID graph |>
    <| wi_AvailableAt := at_ |> <| wi_LastUpdatedAt := at_ |>
    <| wi_Reason := firstNonEmpty [rtc_Note cmd; "operator requested retry"] |>
    <| wi_WakeupKind := SchedulerWakeupRetry |>.

Definition retry_enqueue_event (graph : TaskGraph) (taskID executionID actionID detailsJSON : string) (at_ : time)
    : ReplayEventRecord :=
  zero <| ev_EventID := makeID [PStr "replay"; PStr "retry-enqueue"; PStr taskID; PTime at_] |>
    <| ev_RootCorrelationID := tg_ParentWorkflowID graph |> <| ev_ParentWorkflowID := tg_ParentWorkflowID graph |>
    <| ev_GraphID := tg_GraphID graph |> <| ev_TaskID := taskID |> <| ev_ExecutionID := executionID |>
    <| ev_ActionType := "async_dispatch" |>
    <| ev_Summary := "operator enqueued async retry for " +:+ taskID |>
    <| ev_OccurredAt := at_ |> <| ev_OperatorActionID := actionID |> <| ev_DetailsJSON := detailsJSON |>.

(** Hand the retry to a worker. *)
Definition enqueue_retry (cmd : RetryFailedFollowUpTaskCommand) (action : OperatorActionRecord)
    (snapshot : TaskGraphSnapshot) (taskID : string) : M TaskCommandResult :=
  let graph := gs_Graph snapshot in
  at_ ← now;
  let action := applied action at_ in
  save_action s action;;
  found ← executions_do (fun st => TaskExecutionStore_LoadLatestByTask st (tg_GraphID graph) taskID);
  match found with
  | None => fail (NotFoundError "task_execution" taskID)
  | Some existing =>
      let item := operator_retry_item cmd graph taskID (te_ExecutionID existing) at_ in
      enqueued ← enqueueWorkItem s item;
      appendReplay s (retry_enqueue_event graph taskID (te_ExecutionID existing) (oa_ActionID action)
        (dispatch_details s OperatorActionRetry item (SchedulerWakeupKind_string SchedulerWakeupRetry)) at_);;
      rebuildTaskGraphProjection s (tg_GraphID graph);;
      mret (enqueued <| cr_Action := action |>)
  end.

(** Retry in the call. *)
Definition perform_retry (action : OperatorActionRecord) (snapshot : TaskGraphSnapshot) (task : FollowUpTaskRecord)
    (capability : FollowUpWorkflowCapability) : M TaskCommandResult :=
  let graph := gs_Graph snapshot in
  let taskID := ts_ID (ft_Task task) in
  at_ ← now;
  let expectedGraphVersion := gs_Version snapshot in
  snapshot ← updateTaskStatus snapshot taskID TaskQueueStatusExecuting None None at_;
  snapshot ← saveUpdatedTaskGraphSnapshot r snapshot expectedGraphVersion;
  let committed := ss_State (gs_LatestCommittedStateSnapshot snapshot) in
  let inputState := if sv_Sequence (fw_Version committed) == 0
                    then ss_State (gs_BaseStateSnapshot snapshot) else committed in
  ran ← attempt (executeSingleFollowUp r
    {| ec_WorkflowID := tg_ParentWorkflowID graph; ec_TaskID := taskID;
       ec_CorrelationID := tg_ParentWorkflowID graph; ec_Attempt := 1 |}
    snapshot task capability inputState (ap_MaxAttempts DefaultAutoExecutionPolicy));
  match ran with
  | inl err => failAction s action err
  | inr (record, childResult) =>
      record ← persistExecutionOutcome r snapshot record childResult;
      let expectedGraphVersion := gs_Version snapshot in
      snapshot ← applyExecutionRecord snapshot record childResult;
      snapshot ← saveUpdatedTaskGraphSnapshot r snapshot expectedGraphVersion;
      let action := applied action at_ <| oa_WorkflowID := te_WorkflowID record |> in
      save_action s action;;
      rebuildTaskGraphProjection s (tg_GraphID graph);;
      mret (zero <| cr_Action := action |> <| cr_GraphID := tg_GraphID graph |> <| cr_TaskID := taskID |>
              <| cr_ExecutionID := te_ExecutionID record |> <| cr_Status := te_Status record |>)
  end.

Definition RetryFailedFollowUpTask (cmd : RetryFailedFollowUpTaskCommand) : M TaskCommandResult :=
  '(snapshot, task) ← locateTask s (rtc_GraphID cmd) (rtc_TaskID cmd);
  '(action, result, duplicate) ← beginAction s OperatorActionRetry (rtc_RequestID cmd) (rtc_Actor cmd)
    (rtc_Roles cmd) (tg_GraphID (gs_Graph snapshot)) (ts_ID (ft_Task task)) "" "" (rtc_Note cmd)
    (rtc_ExpectedVersion cmd);
  if (duplicate : bool) then mret result
  else if ft_Status task != TaskQueueStatusFailed then
    failAction s action (task_transition task "task is not failed")
  else
    resolved ← resolve_workflow task;
    match resolved with
    | inl e => failAction s action e
    | inr capability =>
        if asyncDispatchEnabled s then enqueue_retry cmd action snapshot (ts_ID (ft_Task task))
        else perform_retry action snapshot task capability
    end.

(** [ReevaluateDeferredOrQueuedTasks] *)
Definition ReevaluateDeferredOrQueuedTasks (cmd : ReevaluateTaskGraphCommand)
    : M (TaskActivationResult * TaskCommandResult) :=
  Service_ReevaluateTaskGraph s cmd.
End operator.

(** * Reading the runtime (query_service.go)

    Views of a task graph with its executions, the pending approval, the
    artifacts and the operator actions, and lookups of single records. *)

Record WorkflowArtifactMeta := mkArtifactMeta {
  am_ID : string;
  am_Kind : string;
  am_WorkflowID : string;
  am_TaskID : string;
  am_StorageRef : string;
  am_Summary : string;
  am_CreatedAt : string
}.

Record TaskGraphView := mkTaskGraphView {
  gv_Snapshot : TaskGraphSnapshot;
  gv_Executions : list TaskExecutionRecord;
  gv_PendingApproval : option ApprovalStateRecord;
  gv_Artifacts : list WorkflowArtifactMeta;
  gv_Actions : list OperatorActionRecord
}.

Record ExecutionQuery := mkExecutionQuery {
  eq_ExecutionID : string;
  eq_GraphID : string;
  eq_TaskID : string
}.

Definition artifact_meta (artifact : WorkflowArtifact) : WorkflowArtifactMeta := {|
  am_ID := wa_ID artifact;
  am_Kind := ArtifactKind_string (wa_Kind artifact);
  am_WorkflowID := wa_WorkflowID artifact;
  am_TaskID := wa_TaskID artifact;
  am_StorageRef := ar_Location (wa_Ref artifact);
  am_Summary := ar_Summary (wa_Ref artifact);
  am_CreatedAt := Format_RFC3339Nano (wa_CreatedAt artifact)
|}.

Definition taskGraphView (snapshot : TaskGraphSnapshot) (executions : list TaskExecutionRecord)
    (pending : option ApprovalStateRecord) (artifacts : list WorkflowArtifact)
    (actions : list OperatorActionRecord) : TaskGraphView :=
  mkTaskGraphView snapshot executions pending (artifact_meta <$> artifacts) actions.

Definition sortedTaskActions (actions : list OperatorActionRecord) : list OperatorActionRecord :=
  slices_SortFunc (compare_time_id oa_RequestedAt oa_ActionID) actions.

Section query.
Context `{MO : MapOrder}.
Variable s : Service.

#[local] Abbreviation r := (se_runtime s).

(** The first task with a pending approval; a lookup that fails is skipped. *)
Fixpoint first_pending (graphID : string) (tasks : list FollowUpTaskRecord) : M (option ApprovalStateRecord) :=
  match tasks with
  | [] => mret None
  | task :: tasks' =>
      found ← attempt (approvals_do s (fun st => ApprovalStateStore_LoadByTask st graphID (ts_ID (ft_Task task))));
      match found with
      | inr (Some approval) =>
          if as_Status approval == ApprovalStatusPending then mret (Some approval)
          else first_pending graphID tasks'
      | _ => first_pending graphID tasks'
      end
  end.

(** [for _, task := range tasks { items, err := list(task.Task.ID); result = append(result, items...) }] *)
Definition collect_by_task {A} (list_task : string -> M (list A)) (tasks : list FollowUpTaskRecord) : M (list A) :=
  for_fold (fun result task => items ← list_task (ts_ID (ft_Task task)); mret (result ++ items)) [] tasks.

Definition GetTaskGraph (graphID : string) : M TaskGraphView :=
  snapshot ← loadTaskGraphSnapshot r graphID;
  tasks ← read_array (gs_RegisteredTasks snapshot);
  pending ← first_pending graphID tasks;
  artifacts ← match lr_Artifacts r with
              | None => mret []
              | Some store => collect_by_task (ArtifactMetadataStore_ListArtifactsByTask store) tasks
              end;
  actions ← match lr_OperatorActions r with
            | None => mret []
            | Some store => collect_by_task (OperatorActionStore_ListByTask store graphID) tasks
            end;
  mret (taskGraphView snapshot (gs_ExecutedTasks snapshot) pending artifacts (sortedTaskActions actions)).

Definition ListTaskGraphs : M (list TaskGraphView) :=
  match lr_TaskGraphs r with
  | None => fail (PlainError "task graph store is required")
  | Some graphs =>
      snapshots ← TaskGraphStore_List graphs;
      for_fold (fun result item => view ← GetTaskGraph (tg_GraphID (gs_Graph item)); mret (result ++ [view]))
        [] snapshots
  end.

Definition ListPendingApprovals : M (list ApprovalStateRecord) :=
  match lr_Approvals r with
  | None => fail (PlainError "approval state store is required")
  | Some store => ApprovalStateStore_ListPending store
  end.

Definition GetApproval (approvalID : string) : M ApprovalStateRecord :=
  match lr_Approvals r with
  | None => fail (PlainError "approval state store is required")
  | Some store =>
      found ← ApprovalStateStore_Load store approvalID;
      match found with
      | None => fail (NotFoundError "approval" approvalID)
      | Some record => mret record
      end
  end.

Definition GetArtifact (artifactID : string) : M WorkflowArtifact :=
  match lr_Artifacts r with
  | None => fail (PlainError "artifact metadata store is required")
  | Some store =>
      found ← ArtifactMetadataStore_LoadArtifact store artifactID;
      match found with
      | None => fail (NotFoundError "artifact" artifactID)
      | Some artifact => mret artifact
      end
  end.

(** A found execution, or the error that names what was asked for. *)
Definition execution_or_missing (id : string) (found : option TaskExecutionRecord) : M TaskExecutionRecord :=
  match found with
  | None => fail (NotFoundError "task_execution" id)
  | Some record => mret record
  end.

Definition GetExecutionRecord (query : ExecutionQuery) : M TaskExecutionRecord :=
  if eq_ExecutionID query != "" then
    found ← executions_do s (fun st => TaskExecutionStore_Load st (eq_ExecutionID query));
    execution_or_missing (eq_ExecutionID query) found
  else if (eq_GraphID query != "") && (eq_TaskID query != "") then
    found ← executions_do s (fun st =>
      TaskExecutionStore_LoadLatestByTask st (eq_GraphID query) (eq_TaskID query));
    execution_or_missing (eq_TaskID query) found
  else fail (PlainError "execution query requires execution_id or graph_id+task_id").
End query.
