(* ===== verification/AsyncService.v ===== *)
(** * What workers run (async_service.go)

    The handlers of the five kinds of work items.  Each validates the fence
    of the claim before it starts and again before its later writes. *)

From S2P Require Export Operator.
#[local] Open Scope Z_scope.

Section async.
Context `{MO : MapOrder}.
Variable s : Service.

#[local] Abbreviation r := (se_runtime s).

Definition recordAsyncReplayEvent (event : ReplayEventRecord) : M unit := appendReplay s event.

Definition executionTaskIDs (records : list TaskExecutionRecord) : list string :=
  te_TaskID <$> filter (fun record => te_TaskID record <> "") records.

(** [s.workQueue.ValidateFence(fence)] and [s.workQueue.Enqueue(item)] *)
Definition validate (fence : FenceValidation) : M unit :=
  queue ← deref "WorkQueueStore" (se_workQueue s);
  WorkQueueStore_ValidateFence queue fence.

Definition enqueue (item : WorkItem) : M unit :=
  queue ← deref "WorkQueueStore" (se_workQueue s);
  WorkQueueStore_Enqueue queue item;;
  mret tt.

(** The details common to the events of a fenced handler. *)
Definition fenced_details (workerID : string) (fence : FenceValidation) (kind : WorkItemKind) (graphID : string)
    : AsyncReplayEventDetails :=
  zero <| ad_WorkerID := workerID |> <| ad_WorkItemID := fv_WorkItemID fence |>
    <| ad_WorkItemKind := WorkItemKind_string kind |> <| ad_LeaseID := fv_LeaseID fence |>
    <| ad_FencingToken := fv_FencingToken fence |> <| ad_StoreBackendProfile := se_backendProfile s |>
    <| ad_GraphID := graphID |>.

Definition graph_context (graphID : string) : ExecutionContext :=
  {| ec_WorkflowID := graphID; ec_TaskID := ""; ec_CorrelationID := graphID; ec_Attempt := 1 |}.

(** An event about a whole graph, with its two readings of the clock. *)
Definition record_graph_event (kind actionType summary graphID : string) (d : AsyncReplayEventDetails) : M unit :=
  idAt ← now;
  occurredAt ← now;
  recordAsyncReplayEvent (zero
    <| ev_EventID := makeID [PStr "replay"; PStr kind; PStr graphID; PTime idAt] |>
    <| ev_RootCorrelationID := graphID |> <| ev_WorkflowID := graphID |> <| ev_GraphID := graphID |>
    <| ev_ActionType := actionType |> <| ev_Summary := summary |> <| ev_OccurredAt := occurredAt |>
    <| ev_DetailsJSON := marshal_AsyncReplayEventDetails d |>).

(** ** Reevaluate *)

Definition ready_item (graphID taskID : string) (availableAt updatedAt : time) : WorkItem :=
  zero <| wi_ID := makeID [PStr "work"; PStr (WorkItemKind_string WorkItemKindExecuteReadyTask);
                           PStr graphID; PStr taskID] |>
    <| wi_Kind := WorkItemKindExecuteReadyTask |> <| wi_Status := WorkItemStatusQueued |>
    <| wi_DedupeKey := "execute:" +:+ graphID |>
    <| wi_GraphID := graphID |> <| wi_TaskID := taskID |> <| wi_WorkflowID := graphID |>
    <| wi_AvailableAt := availableAt |> <| wi_LastUpdatedAt := updatedAt |>
    <| wi_Reason := "ready task discovered by async reevaluation" |>.

Definition reevaluateTaskGraphAsync (graphID workerID : string) (fence : FenceValidation) : M unit :=
  validate fence;;
  activation ← ReevaluateTaskGraph r (graph_context graphID) graphID;
  for_each (fun taskID =>
    availableAt ← now;
    updatedAt ← now;
    enqueue (ready_item graphID taskID availableAt updatedAt)) (ta_ReadyTaskIDs activation);;
  record_graph_event "reevaluate-task-graph" "reevaluate_task_graph" "worker reevaluated task graph" graphID
    (fenced_details workerID fence WorkItemKindReevaluateTaskGraph graphID
       <| ad_ReadyTaskIDs := ta_ReadyTaskIDs activation |>
       <| ad_SchedulerDecision := "reevaluate_task_graph" |>);;
  rebuildTaskGraphProjection s graphID.

(** ** Execute *)

Definition executeReadyTasksAsync (graphID : string) (policy : AutoExecutionPolicy) (workerID : string)
    (fence : FenceValidation) : M FollowUpExecutionBatchResult :=
  validate fence;;
  let policy := policy <| ap_MaxAttempts := 1 |> in
  result ← executeReadyFollowUps r (graph_context graphID) graphID policy (Some fence);
  record_graph_event "execute-ready-task" "execute_ready_task" "worker executed ready tasks" graphID
    (fenced_details workerID fence WorkItemKindExecuteReadyTask graphID
       <| ad_ExecutedTaskIDs := executionTaskIDs (fb_ExecutedTasks result) |>);;
  validate fence;;
  rebuildTaskGraphProjection s graphID;;
  mret result.

(** ** Wakeups *)

(** The item of each kind of wakeup, with the two readings of [s.now()]. *)
Definition wakeup_item (item : WorkItem) (availableAt updatedAt : time) : error + WorkItem :=
  let queued := zero <| wi_Status := WorkItemStatusQueued |>
    <| wi_GraphID := wi_GraphID item |>
    <| wi_AvailableAt := availableAt |> <| wi_LastUpdatedAt := updatedAt |>
    <| wi_Reason := wi_Reason item |> <| wi_WakeupKind := wi_WakeupKind item |> in
  match wi_WakeupKind item with
  | SchedulerWakeupDueWindow | SchedulerWakeupDependency | SchedulerWakeupCapability | SchedulerWakeupOperator =>
      inr (queued <| wi_ID := makeID [PStr "work"; PStr (WorkItemKind_string WorkItemKindReevaluateTaskGraph);
                      PStr (wi_GraphID item); PStr (SchedulerWakeupKind_string (wi_WakeupKind item))] |>
        <| wi_Kind := WorkItemKindReevaluateTaskGraph |>
        <| wi_DedupeKey := "reevaluate:" +:+ wi_GraphID item |>
        <| wi_WorkflowID := wi_WorkflowID item |>)
  | SchedulerWakeupApproval =>
      inr (queued <| wi_ID := makeID [PStr "work"; PStr (WorkItemKind_string WorkItemKindResumeApprovedCheckpoint);
                      PStr (wi_ApprovalID item)] |>
        <| wi_Kind := WorkItemKindResumeApprovedCheckpoint |>
        <| wi_DedupeKey := "resume:" +:+ wi_GraphID item +:+ ":" +:+ wi_TaskID item |>
        <| wi_TaskID := wi_TaskID item |> <| wi_ApprovalID := wi_ApprovalID item |>)
  | SchedulerWakeupRetry =>
      inr (queued <| wi_ID := makeID [PStr "work"; PStr (WorkItemKind_string WorkItemKindRetryFailedExecution);
                      PStr (wi_ExecutionID item)] |>
        <| wi_Kind := WorkItemKindRetryFailedExecution |>
        <| wi_DedupeKey := "retry:" +:+ wi_ExecutionID item |>
        <| wi_TaskID := wi_TaskID item |> <| wi_ExecutionID := wi_ExecutionID item |>)
  | SchedulerWakeupKindOther k =>
      inl (PlainError ("unsupported scheduler wakeup kind " +:+ Quote k))
  end.

Definition handleSchedulerWakeup (item : WorkItem) : M unit :=
  match wakeup_item item zero_time zero_time with
  | inl e => fail e
  | inr _ =>
      availableAt ← now;
      updatedAt ← now;
      queued ← lift_sum (wakeup_item item availableAt updatedAt);
      enqueue queued
  end.

(** ** Resume *)

Definition record_task_event (kind actionType summary : string) (graphID taskID approvalID : string)
    (record : TaskExecutionRecord) (d : AsyncReplayEventDetails) : M unit :=
  idAt ← now;
  occurredAt ← now;
  recordAsyncReplayEvent (zero
    <| ev_EventID := makeID [PStr "replay"; PStr kind; PStr (te_ExecutionID record); PTime idAt] |>
    <| ev_RootCorrelationID := te_RootCorrelationID record |>
    <| ev_ParentWorkflowID := te_ParentWorkflowID record |> <| ev_WorkflowID := te_WorkflowID record |>
    <| ev_GraphID := graphID |> <| ev_TaskID := taskID |> <| ev_ApprovalID := approvalID |>
    <| ev_ExecutionID := te_ExecutionID record |>
    <| ev_ActionType := actionType |> <| ev_Summary := summary |> <| ev_OccurredAt := occurredAt |>
    <| ev_DetailsJSON := marshal_AsyncReplayEventDetails d |>).

(** Is the approval of the task there, and approved? *)
Definition check_approved (snapshot : TaskGraphSnapshot) (task : FollowUpTaskRecord) (approvalID : string) : M unit :=
  found ← approvals_do s (fun st =>
    ApprovalStateStore_LoadByTask st (tg_GraphID (gs_Graph snapshot)) (ts_ID (ft_Task task)));
  let status := match found with Some approval => as_Status approval | None => ApprovalStatusOther "" end in
  ensure (is_set found && (status == ApprovalStatusApproved))
    (approval_transition approvalID status ApprovalStatusApproved
       "task cannot resume before approval resolution").

(** From the first write to the result. *)
Definition perform_resume_async (workerID : string) (fence : FenceValidation) (snapshot : TaskGraphSnapshot)
    (task : FollowUpTaskRecord) (input : resume_input) : M TaskCommandResult :=
  let taskID := ts_ID (ft_Task task) in
  at_ ← now;
  snapshot ← updateTaskStatus snapshot taskID TaskQueueStatusExecuting None None at_;
  snapshot ← saveUpdatedTaskGraphSnapshotGuarded r snapshot (gs_Version snapshot) (Some fence);
  let latest := resuming (ri_latest input) at_ in
  validate fence;;
  executions_do s (fun st => TaskExecutionStore_Update st latest (te_Version (ri_latest input)));;
  resumed ← Capability_Resume (ri_capability input) (ft_Task task)
    (buildActivationContext (gs_Graph snapshot) task) (ss_State (ri_pendingState input))
    (ri_checkpoint input) (ri_token input) (ri_payload input);
  finishedAt ← now;
  let finalized := finalizeTaskExecutionRecord latest resumed finishedAt in
  finalized ← persistExecutionOutcomeGuarded r snapshot finalized resumed (Some fence);
  snapshot ← applyExecutionRecord snapshot finalized resumed;
  snapshot ← saveUpdatedTaskGraphSnapshotGuarded r snapshot (gs_Version snapshot) (Some fence);
  let graphID := tg_GraphID (gs_Graph snapshot) in
  record_task_event "resume-approved-checkpoint" "resume_approved_checkpoint" "worker resumed approved checkpoint"
    graphID taskID (te_ApprovalID latest) finalized
    (fenced_details workerID fence WorkItemKindResumeApprovedCheckpoint graphID
       <| ad_TaskID := taskID |> <| ad_ApprovalID := te_ApprovalID latest |>
       <| ad_ExecutionID := te_ExecutionID finalized |>
       <| ad_SchedulerDecision := SchedulerWakeupKind_string SchedulerWakeupApproval |>);;
  rebuildTaskGraphProjection s graphID;;
  mret (zero <| cr_GraphID := graphID |> <| cr_TaskID := taskID |> <| cr_ApprovalID := te_ApprovalID latest |>
          <| cr_ExecutionID := te_ExecutionID finalized |> <| cr_Status := te_Status finalized |>).

Definition resumeApprovedTaskAsync (graphID taskID approvalID workerID : string) (fence : FenceValidation)
    : M TaskCommandResult :=
  validate fence;;
  '(snapshot, task) ← locateTask s graphID taskID;
  if ft_Status task != TaskQueueStatusWaitingApproval
  then fail (task_transition task "task is not waiting approval")
  else
    check_approved snapshot task approvalID;;
    loaded ← load_resume_input s snapshot task;
    input ← lift_sum loaded;
    perform_resume_async workerID fence snapshot task input.

(** ** Retry *)

Definition perform_retry_async (executionID workerID : string) (fence : FenceValidation)
    (snapshot : TaskGraphSnapshot) (task : FollowUpTaskRecord) (capability : FollowUpWorkflowCapability)
    : M TaskCommandResult :=
  let graph := gs_Graph snapshot in
  let taskID := ts_ID (ft_Task task) in
  at_ ← now;
  snapshot ← updateTaskStatus snapshot taskID TaskQueueStatusExecuting None None at_;
  snapshot ← saveUpdatedTaskGraphSnapshotGuarded r snapshot (gs_Version snapshot) (Some fence);
  let committed := ss_State (gs_LatestCommittedStateSnapshot snapshot) in
  let inputState := if sv_Sequence (fw_Version committed) == 0
                    then ss_State (gs_BaseStateSnapshot snapshot) else committed in
  '(record, childResult) ← executeSingleFollowUp r
    {| ec_WorkflowID := tg_ParentWorkflowID graph; ec_TaskID := taskID;
       ec_CorrelationID := tg_ParentWorkflowID graph; ec_Attempt := 1 |}
    snapshot task capability inputState 1;
  let record := if executionID != "" then record <| te_CausationID := executionID |> else record in
  record ← persistExecutionOutcomeGuarded r snapshot record childResult (Some fence);
  snapshot ← applyExecutionRecord snapshot record childResult;
  snapshot ← saveUpdatedTaskGraphSnapshotGuarded r snapshot (gs_Version snapshot) (Some fence);
  let graphID := tg_GraphID (gs_Graph snapshot) in
  record_task_event "retry-failed-execution" "retry_failed_execution" "worker retried failed execution"
    graphID taskID "" record
    (fenced_details workerID fence WorkItemKindRetryFailedExecution graphID
       <| ad_TaskID := taskID |> <| ad_ExecutionID := te_ExecutionID record |>
       <| ad_RetryOfExecutionID := executionID |>
       <| ad_RetryBackoffDecision := "retry_failed_execution" |>);;
  rebuildTaskGraphProjection s graphID;;
  mret (zero <| cr_GraphID := graphID |> <| cr_TaskID := taskID |>
          <| cr_ExecutionID := te_ExecutionID record |> <| cr_Status := te_Status record |>).

Definition retryFailedTaskAsync (graphID taskID executionID workerID : string) (fence : FenceValidation)
    : M TaskCommandResult :=
  validate fence;;
  '(snapshot, task) ← locateTask s graphID taskID;
  if ft_Status task != TaskQueueStatusFailed then fail (task_transition task "task is not failed")
  else
    resolved ← resolve_workflow s task;
    capability ← lift_sum resolved;
    perform_retry_async executionID workerID fence snapshot task capability.

(** ** Reclaimed leases *)

Definition reclaim_summary : string := "lease reclaimed after worker heartbeat expired".

(** The execution the dead worker was running fails with a timeout. *)
Definition fail_reclaimed (executionID : string) : M unit :=
  found ← executions_do s (fun st => TaskExecutionStore_Load st executionID);
  match found with
  | Some record =>
      if te_Status record == TaskQueueStatusExecuting then
        failedAt ← now;
        transitionAt ← now;
        let version := te_Version record in
        let record := record <| te_Status := TaskQueueStatusFailed |>
          <| te_FailureCategory := FailureCategoryTimeout |> <| te_FailureSummary := reclaim_summary |>
          <| te_FailedAt := failedAt |> <| te_LastTransitionAt := transitionAt |> in
        executions_do s (fun st => TaskExecutionStore_Update st record version)
      else mret tt
  | None => mret tt
  end.

(** The wakeup that retries it, with the readings of the clock in the order
    the literal makes them. *)
Definition reclaim_wakeup (item : WorkItem) (reason : string) : M SchedulerWakeup :=
  idAt ← now;
  baseAt ← now;
  failedAt ← now;
  evaluatedAt ← now;
  subtractedAt ← now;
  let next := nextRetryTime (zero <| te_RetryCount := 1 |> <| te_FailedAt := failedAt |>)
                {| bp_BaseDelay := 2 * Second; bp_MaxDelay := 1 * Minute |} evaluatedAt in
  mret (zero <| sw_ID := makeID [PStr "wakeup"; PStr (SchedulerWakeupKind_string SchedulerWakeupRetry);
                                PStr (wi_GraphID item); PStr (wi_TaskID item); PTime idAt] |>
    <| sw_GraphID := wi_GraphID item |> <| sw_TaskID := wi_TaskID item |>
    <| sw_ExecutionID := wi_ExecutionID item |> <| sw_Kind := SchedulerWakeupRetry |>
    <| sw_AvailableAt := Add baseAt (Sub next subtractedAt) |> <| sw_Reason := reason |>).

Definition handleLeaseReclaim (reclaim : LeaseReclaimResult) : M unit :=
  queue ← deref "WorkQueueStore" (se_workQueue s);
  found ← WorkQueueStore_Load queue (lr_WorkItemID reclaim);
  match found with
  | None => mret tt
  | Some item =>
      match wi_Kind item with
      | WorkItemKindExecuteReadyTask | WorkItemKindRetryFailedExecution =>
          (if wi_ExecutionID item != "" then fail_reclaimed (wi_ExecutionID item) else mret tt);;
          if wi_GraphID item != "" then
            wakeup ← reclaim_wakeup item (lr_Reason reclaim);
            match se_scheduler s with
            | None => mret tt
            | Some wakeups => SchedulerStore_SaveWakeup wakeups wakeup
            end
          else mret tt
      | _ => mret tt
      end
  end.
End async.
