(* ===== verification/Worker.v ===== *)
(** * The async worker (worker.go, worker_service.go)

    One pass of a worker: tick the scheduler, reclaim expired leases, claim
    ready work items and process each claim under its fence. *)

From S2P Require Export AsyncService Operator.
#[local] Open Scope Z_scope.

(** [AsyncWorker].  [aw_Ticks] is the environment: how many times the ticker
    of the lease renewal fires while a claim is processed. *)
Record AsyncWorker := mkWorker {
  aw_ID : string;
  aw_Role : WorkerRole;
  aw_Service : option Service;
  aw_Scheduler : SchedulerService;
  aw_Policy : AutoExecutionPolicy;
  aw_LeaseTTL : Duration;
  aw_ClaimBatch : Z;
  aw_BackendProfile : string;
  aw_Ticks : WorkClaim -> nat
}.
#[export] Instance eta_AsyncWorker : Eta AsyncWorker := eta! mkWorker <
  aw_ID ; aw_Role ; aw_Service ; aw_Scheduler ; aw_Policy ; aw_LeaseTTL ; aw_ClaimBatch ;
  aw_BackendProfile ; aw_Ticks >.

Definition leaseTTL (w : AsyncWorker) : Duration :=
  if aw_LeaseTTL w <=? 0 then 30 * Second else aw_LeaseTTL w.

Definition claimBatch (w : AsyncWorker) : Z :=
  if aw_ClaimBatch w <=? 0 then 1 else aw_ClaimBatch w.

Definition isFenceConflict (e : error) : bool := IsConflict e.

Section worker.
Context `{MO : MapOrder}.
Variables (w : AsyncWorker) (s : Service).

(** ** Lease renewal *)

(** The fields of an event that come from the work item of a claim. *)
Definition claim_event (kind actionType summary : string) (claim : WorkClaim) (at_ : time)
    (d : AsyncReplayEventDetails) : ReplayEventRecord :=
  let item := wc_WorkItem claim in
  zero <| ev_EventID := makeID [PStr "replay"; PStr kind; PStr (wi_ID item); PTime at_] |>
    <| ev_RootCorrelationID := firstNonEmpty [wi_GraphID item; wi_WorkflowID item] |>
    <| ev_WorkflowID := wi_WorkflowID item |> <| ev_GraphID := wi_GraphID item |>
    <| ev_TaskID := wi_TaskID item |> <| ev_ApprovalID := wi_ApprovalID item |>
    <| ev_ExecutionID := wi_ExecutionID item |>
    <| ev_ActionType := actionType |> <| ev_Summary := summary |> <| ev_OccurredAt := at_ |>
    <| ev_DetailsJSON := marshal_AsyncReplayEventDetails d |>.

Definition claim_details (workerID : string) (claim : WorkClaim) : AsyncReplayEventDetails :=
  let item := wc_WorkItem claim in
  zero <| ad_WorkerID := workerID |> <| ad_WorkItemID := wi_ID item |>
    <| ad_WorkItemKind := WorkItemKind_string (wi_Kind item) |>
    <| ad_LeaseID := wc_LeaseID claim |> <| ad_FencingToken := wc_FencingToken claim |>
    <| ad_StoreBackendProfile := aw_BackendProfile w |>
    <| ad_GraphID := wi_GraphID item |> <| ad_TaskID := wi_TaskID item |>
    <| ad_ExecutionID := wi_ExecutionID item |> <| ad_ApprovalID := wi_ApprovalID item |>.

Definition heartbeat (claim : WorkClaim) : M unit :=
  match se_workQueue s with
  | None => mret tt
  | Some queue =>
      at_ ← now;
      WorkQueueStore_Heartbeat queue
        {| lh_WorkItemID := wi_ID (wc_WorkItem claim); lh_WorkerID := aw_ID w;
           lh_LeaseID := wc_LeaseID claim; lh_FencingToken := wc_FencingToken claim;
           lh_RecordedAt := at_; lh_LeaseExpiresAt := Add at_ (leaseTTL w) |};;
      recordAsyncReplayEvent s (claim_event "lease-heartbeat" "lease_heartbeat" "worker heartbeat recorded" claim at_
        (claim_details (aw_ID w) claim <| ad_HeartbeatTimestamps := [Format_RFC3339Nano at_] |>))
  end.

(** The renewal goroutine of [startLeaseRenewal]: one heartbeat per tick, up
    to the first that fails; what [renewalState.Err()] returns once it has
    stopped. *)
Fixpoint renew_lease (ticks : nat) (claim : WorkClaim) : M (option error) :=
  match ticks with
  | O => mret None
  | S ticks' =>
      beat ← attempt (heartbeat claim);
      match beat with
      | inl e => mret (Some e)
      | inr _ => renew_lease ticks' claim
      end
  end.

Definition lease_renewal (claim : WorkClaim) : M (option error) :=
  match se_workQueue s with
  | None => mret None
  | Some _ => renew_lease (aw_Ticks w claim) claim
  end.

(** ** One claim *)

Definition fence_of_claim (claim : WorkClaim) : FenceValidation :=
  {| fv_WorkItemID := wi_ID (wc_WorkItem claim); fv_LeaseID := wc_LeaseID claim;
     fv_FencingToken := wc_FencingToken claim; fv_WorkerID := aw_ID w |}.

(** The [switch] on the kind of the item; the result is only changed by a
    handler that succeeds. *)
Definition handle_claim (claim : WorkClaim) (result : WorkerPassResult) : M WorkerPassResult :=
  let item := wc_WorkItem claim in
  let fence := fence_of_claim claim in
  match wi_Kind item with
  | WorkItemKindSchedulerWakeup => handleSchedulerWakeup s item;; mret result
  | WorkItemKindReevaluateTaskGraph =>
      reevaluateTaskGraphAsync s (wi_GraphID item) (aw_ID w) fence;;
      mret (result <| wp_Reevaluated := wp_Reevaluated result ++ [wi_GraphID item] |>)
  | WorkItemKindExecuteReadyTask =>
      batch ← executeReadyTasksAsync s (wi_GraphID item) (aw_Policy w) (aw_ID w) fence;
      mret (result <| wp_Executed := wp_Executed result ++ fb_ExecutedTasks batch |>)
  | WorkItemKindResumeApprovedCheckpoint =>
      command ← resumeApprovedTaskAsync s (wi_GraphID item) (wi_TaskID item) (wi_ApprovalID item) (aw_ID w) fence;
      mret (if cr_TaskID command != ""
            then result <| wp_ResumedTasks := wp_ResumedTasks result ++ [cr_TaskID command] |> else result)
  | WorkItemKindRetryFailedExecution =>
      command ← retryFailedTaskAsync s (wi_GraphID item) (wi_TaskID item) (wi_ExecutionID item) (aw_ID w) fence;
      mret (if cr_ExecutionID command != ""
            then result <| wp_Executed := wp_Executed result ++ [zero
                   <| te_ExecutionID := cr_ExecutionID command |> <| te_TaskID := cr_TaskID command |>
                   <| te_ParentGraphID := cr_GraphID command |> <| te_Status := cr_Status command |>] |>
            else result)
  | WorkItemKindOther k => fail (PlainError ("unsupported work item kind " +:+ Quote k))
  end.

Definition started_attempt (claim : WorkClaim) (idAt startedAt : time) : ExecutionAttempt :=
  let item := wc_WorkItem claim in
  zero <| ea_AttemptID := makeID [PStr "attempt"; PStr (wi_ID item); PInt (wc_FencingToken claim); PTime idAt] |>
    <| ea_WorkItemID := wi_ID item |> <| ea_WorkItemKind := wi_Kind item |>
    <| ea_GraphID := wi_GraphID item |> <| ea_TaskID := wi_TaskID item |>
    <| ea_ExecutionID := wi_ExecutionID item |> <| ea_ApprovalID := wi_ApprovalID item |>
    <| ea_WorkerID := aw_ID w |> <| ea_LeaseID := wc_LeaseID claim |>
    <| ea_FencingToken := wc_FencingToken claim |>
    <| ea_Status := ExecutionAttemptStatusStarted |> <| ea_StartedAt := startedAt |>.

(** The attempt of a claim whose lease renewal or handler failed. *)
Definition failed_attempt (attempt : ExecutionAttempt) (renewalErr : option error) (err : error) (finished : time)
    : ExecutionAttempt :=
  let attempt :=
    match renewalErr with
    | Some e =>
        attempt <| ea_Status := if isFenceConflict e || IsNotFound e
                                then ExecutionAttemptStatusReclaimed else ExecutionAttemptStatusAbandoned |>
                <| ea_FailureSummary := error_string e |>
    | None =>
        attempt <| ea_Status := if isFenceConflict err
                                then ExecutionAttemptStatusReclaimed else ExecutionAttemptStatusFailed |>
                <| ea_FailureCategory := FailureCategoryProtocol |>
                <| ea_FailureSummary := error_string err |>
    end in
  attempt <| ea_FinishedAt := Some finished |>.

Definition update_attempt (attempt : ExecutionAttempt) : M unit :=
  match se_workAttempts s with
  | None => mret tt
  | Some store => WorkAttemptStore_UpdateAttempt store attempt
  end.

(** Run a write of the queue; a fence conflict is not an error. *)
Definition unless_fence_conflict (m : WorkQueueStore -> M unit) : M unit :=
  queue ← deref "WorkQueueStore" (se_workQueue s);
  done ← attempt (m queue);
  match done with
  | inl e => if isFenceConflict e then mret tt else fail e
  | inr _ => mret tt
  end.

Definition skip_claim (claim : WorkClaim) (result : WorkerPassResult) : WorkerPassResult :=
  result <| wp_SkippedTasks := wp_SkippedTasks result ++ [wi_ID (wc_WorkItem claim)] |>.

(** After a failure: a conflict leaves the item to whoever holds it. *)
Definition finish_failed (claim : WorkClaim) (attempt : ExecutionAttempt) (renewalErr : option error) (err : error)
    (finished : time) (result : WorkerPassResult) : M WorkerPassResult :=
  update_attempt (failed_attempt attempt renewalErr err finished);;
  match renewalErr with
  | Some e => if isFenceConflict e || IsNotFound e then mret (skip_claim claim result) else fail e
  | None =>
      if isFenceConflict err then mret (skip_claim claim result)
      else
        unless_fence_conflict (fun queue =>
          WorkQueueStore_Fail queue (fence_of_claim claim) (error_string err) finished);;
        fail err
  end.

Definition finish_succeeded (claim : WorkClaim) (attempt : ExecutionAttempt) (finished : time)
    (result : WorkerPassResult) : M WorkerPassResult :=
  update_attempt (attempt <| ea_Status := ExecutionAttemptStatusSucceeded |> <| ea_FinishedAt := Some finished |>);;
  unless_fence_conflict (fun queue => WorkQueueStore_Complete queue (fence_of_claim claim) finished);;
  mret (result <| wp_CompletedWorkItemIDs := wp_CompletedWorkItemIDs result ++ [wi_ID (wc_WorkItem claim)] |>).

Definition processClaim (claim : WorkClaim) (result : WorkerPassResult) : M WorkerPassResult :=
  idAt ← now;
  startedAt ← now;
  let attempt_ := started_attempt claim idAt startedAt in
  (match se_workAttempts s with
   | None => mret tt
   | Some store => WorkAttemptStore_SaveAttempt store attempt_
   end);;
  ran ← attempt (handle_claim claim result);
  renewalErr ← lease_renewal claim;
  finished ← now;
  let result := match ran with inr changed => changed | inl _ => result end in
  match renewalErr, ran with
  | Some e, _ => finish_failed claim attempt_ renewalErr e finished result
  | None, inl err => finish_failed claim attempt_ None err finished result
  | None, inr _ => finish_succeeded claim attempt_ finished result
  end.

(** ** One pass *)

Definition register_worker (at_ : time) : M unit :=
  match se_workers s with
  | None => mret tt
  | Some workers =>
      attempt (WorkerRegistryStore_Register workers
        {| wr_WorkerID := aw_ID w; wr_Role := aw_Role w;
           wr_BackendProfile := firstNonEmpty [aw_BackendProfile w; se_backendProfile s];
           wr_StartedAt := at_; wr_LastHeartbeat := at_ |});;
      mret tt
  end.

Definition schedules (role : WorkerRole) : bool :=
  (role == WorkerRoleScheduler) || (role == WorkerRoleAll).

Definition tick_scheduler (dryRun : bool) (result : WorkerPassResult) : M WorkerPassResult :=
  if negb dryRun && schedules (aw_Role w) then
    tick ← Tick (aw_Scheduler w);
    mret (result <| wp_ScannedGraphs := st_ScannedGraphs tick |>
                 <| wp_SchedulerWakeups := wp_SchedulerWakeups result ++ (sw_ID <$> st_DispatchedWakeups tick) |>)
  else mret result.

Definition reclaim_event (reclaim : LeaseReclaimResult) : ReplayEventRecord :=
  zero <| ev_EventID := makeID [PStr "replay"; PStr "lease-reclaimed"; PStr (lr_WorkItemID reclaim);
                                PTime (lr_ReclaimedAt reclaim)] |>
    <| ev_ActionType := "lease_reclaimed" |> <| ev_Summary := lr_Reason reclaim |>
    <| ev_OccurredAt := lr_ReclaimedAt reclaim |>
    <| ev_DetailsJSON := marshal_AsyncReplayEventDetails (zero
         <| ad_WorkerID := lr_WorkerID reclaim |> <| ad_WorkItemID := lr_WorkItemID reclaim |>
         <| ad_LeaseID := lr_LeaseID reclaim |> <| ad_FencingToken := lr_FencingToken reclaim |>
         <| ad_ReclaimReason := lr_Reason reclaim |> <| ad_StoreBackendProfile := aw_BackendProfile w |>) |>.

Definition reclaim_one (result : WorkerPassResult) (reclaim : LeaseReclaimResult) : M WorkerPassResult :=
  recordAsyncReplayEvent s (reclaim_event reclaim);;
  handleLeaseReclaim s reclaim;;
  mret (result <| wp_ReclaimedWorkItemIDs := wp_ReclaimedWorkItemIDs result ++ [lr_WorkItemID reclaim] |>).

Definition reclaim_leases (dryRun : bool) (at_ : time) (result : WorkerPassResult) : M WorkerPassResult :=
  match se_workQueue s with
  | Some queue =>
      if dryRun then mret result
      else
        reclaimed ← WorkQueueStore_ReclaimExpired queue at_;
        for_fold reclaim_one result reclaimed
  | None => mret result
  end.

Definition run_claim (result : WorkerPassResult) (claim : WorkClaim) : M WorkerPassResult :=
  let result := result <| wp_ClaimedWorkItemIDs := wp_ClaimedWorkItemIDs result ++ [wi_ID (wc_WorkItem claim)] |> in
  recordAsyncReplayEvent s (claim_event "work-claimed" "work_claimed" (wi_Reason (wc_WorkItem claim)) claim
    (wc_ClaimedAt claim) (claim_details (wc_WorkerID claim) claim));;
  heartbeat claim;;
  processClaim claim result.

Definition complete_pass (result : WorkerPassResult) : M WorkerPassResult :=
  at_ ← now;
  mret (result <| wp_CompletedAt := Format_RFC3339Nano at_ |>).

(** [RunOnce] with the service.  The result that goes with an error is
    dropped. *)
Definition run_once (dryRun : bool) : M WorkerPassResult :=
  at_ ← now;
  let result := zero <| wp_WorkerID := aw_ID w |> <| wp_DryRun := dryRun |>
                     <| wp_CompletedAt := Format_RFC3339Nano at_ |> in
  register_worker at_;;
  result ← tick_scheduler dryRun result;
  result ← reclaim_leases dryRun at_ result;
  if dryRun || (aw_Role w == WorkerRoleScheduler) then complete_pass result
  else
    queue ← deref "WorkQueueStore" (se_workQueue s);
    claims ← WorkQueueStore_ClaimReady queue (aw_ID w) (claimBatch w) at_ (leaseTTL w);
    result ← for_fold run_claim result claims;
    complete_pass result.
End worker.

Definition RunOnce `{MO : MapOrder} (w : AsyncWorker) (dryRun : bool) : M WorkerPassResult :=
  match aw_Service w with
  | None => now;; fail (PlainError "service is required")
  | Some s => run_once w s dryRun
  end.

(** ** worker_service.go *)

(** [Service.schedulerService] *)
Definition schedulerService (s : Service) : SchedulerService := {|
  sc_TaskGraphs := lr_TaskGraphs (se_runtime s);
  sc_Executions := lr_Executions (se_runtime s);
  sc_Approvals := lr_Approvals (se_runtime s);
  sc_WorkQueue := se_workQueue s;
  sc_Wakeups := se_scheduler s;
  sc_Capabilities := lr_Capabilities (se_runtime s);
  sc_Replay := lr_Replay (se_runtime s);
  sc_RetryPolicy := {| bp_BaseDelay := 5 * Second; bp_MaxDelay := 5 * Minute |}
|}.

Record WorkerRunOptions := mkWorkerRunOptions {
  wo_WorkerID : string;
  wo_Role : WorkerRole;
  wo_LeaseTTL : Duration;
  wo_ClaimBatch : Z;
  wo_Ticks : WorkClaim -> nat
}.

Definition firstNonEmptyWorker (value fallback : string) : string :=
  if value != "" then value else fallback.
Definition firstNonEmptyWorkerRole (value fallback : WorkerRole) : WorkerRole :=
  if value != WorkerRoleOther "" then value else fallback.

Section worker_service.
Context `{MO : MapOrder}.
Variable s : Service.

#[local] Abbreviation r := (se_runtime s).

(** *** The pass of a service without a work queue *)

Definition worker_reevaluate_command (graphID : string) (at_ : time) : ReevaluateTaskGraphCommand :=
  {| rvc_RequestID := makeID [PStr "worker"; PStr "reevaluate"; PStr graphID; PTime at_];
     rvc_GraphID := graphID; rvc_Actor := "worker"; rvc_Roles := ["worker"];
     rvc_Note := "worker reevaluate pass" |}.

Definition worker_resume_command (graphID taskID : string) (at_ : time) : ResumeFollowUpTaskCommand :=
  {| rsc_RequestID := makeID [PStr "worker"; PStr "resume"; PStr graphID; PStr taskID; PTime at_];
     rsc_GraphID := graphID; rsc_TaskID := taskID; rsc_Actor := "worker"; rsc_Roles := ["worker"];
     rsc_Note := "worker resume approved follow-up task"; rsc_ExpectedVersion := 0 |}.

(** Resume one task if its approval was given; a conflict skips it. *)
Definition legacy_resume (graphID : string) (result : WorkerPassResult) (task : FollowUpTaskRecord)
    : M WorkerPassResult :=
  let taskID := ts_ID (ft_Task task) in
  if ft_Status task != TaskQueueStatusWaitingApproval then mret result
  else
    found ← approvals_do s (fun st => ApprovalStateStore_LoadByTask st graphID taskID);
    let approved := match found with Some a => as_Status a == ApprovalStatusApproved | None => false end in
    if negb approved then mret result
    else
      at_ ← now;
      resumed ← attempt (resumeTaskInternal s (worker_resume_command graphID taskID at_) false);
      match resumed with
      | inl e =>
          if IsConflict e
          then mret (result <| wp_SkippedTasks := wp_SkippedTasks result ++ [taskID +:+ ": " +:+ error_string e] |>)
          else fail e
      | inr _ => mret (result <| wp_ResumedTasks := wp_ResumedTasks result ++ [taskID] |>)
      end.

Definition legacy_graph (policy : AutoExecutionPolicy) (dryRun : bool) (result : WorkerPassResult)
    (view : TaskGraphView) : M WorkerPassResult :=
  let graphID := tg_GraphID (gs_Graph (gv_Snapshot view)) in
  let result := result <| wp_Reevaluated := wp_Reevaluated result ++ [graphID] |> in
  if dryRun then mret result
  else
    at_ ← now;
    reevaluated ← attempt (Service_ReevaluateTaskGraph s (worker_reevaluate_command graphID at_));
    (match reevaluated with inl e => if IsConflict e then mret tt else fail e | inr _ => mret tt end);;
    executed ← attempt (ExecuteAutoReadyFollowUps s graphID policy);
    batch ← match executed with
            | inl e => if IsNotFound e then mret [] else fail e
            | inr batch => mret (fb_ExecutedTasks batch)
            end;
    let result := result <| wp_Executed := wp_Executed result ++ batch |> in
    refreshed ← loadTaskGraphSnapshot r graphID;
    tasks ← read_array (gs_RegisteredTasks refreshed);
    for_fold (legacy_resume (tg_GraphID (gs_Graph refreshed))) result tasks.

Definition runLegacyWorkerPass (policy : AutoExecutionPolicy) (dryRun : bool) : M WorkerPassResult :=
  let policy := if ap_MaxExecutionDepth policy <=? 0 then DefaultAutoExecutionPolicy else policy in
  graphs ← ListTaskGraphs s;
  result ← for_fold (legacy_graph policy dryRun)
    (zero <| wp_ScannedGraphs := Z.of_nat (length graphs) |> <| wp_DryRun := dryRun |>) graphs;
  complete_pass result.

(** *** Entry points *)

Definition RunAsyncWorkerOnce (policy : AutoExecutionPolicy) (options : WorkerRunOptions) (dryRun : bool)
    : M WorkerPassResult :=
  if is_set (se_workQueue s) && is_set (se_scheduler s) && is_set (se_workers s) then
    RunOnce {|
      aw_ID := firstNonEmptyWorker (wo_WorkerID options) "worker-pass";
      aw_Role := firstNonEmptyWorkerRole (wo_Role options) WorkerRoleAll;
      aw_Service := Some s;
      aw_Scheduler := schedulerService s;
      aw_Policy := policy;
      aw_LeaseTTL := wo_LeaseTTL options;
      aw_ClaimBatch := wo_ClaimBatch options;
      aw_BackendProfile := se_backendProfile s;
      aw_Ticks := wo_Ticks options |} dryRun
  else runLegacyWorkerPass policy dryRun.

Definition RunWorkerPass (policy : AutoExecutionPolicy) (ticks : WorkClaim -> nat) (dryRun : bool)
    : M WorkerPassResult :=
  RunAsyncWorkerOnce policy
    {| wo_WorkerID := "worker-pass"; wo_Role := WorkerRoleAll; wo_LeaseTTL := 30 * Second;
       wo_ClaimBatch := 4; wo_Ticks := ticks |} dryRun.
End worker_service.
