(* ===== verification/WorkerThm.v ===== *)
(** * How a claim ends (worker.go)

    What one claimed work item leaves behind, for every way its handler and
    the renewal of its lease can end. *)

From S2P Require Export Worker WorkQueueThm.
#[local] Open Scope Z_scope.

Section claims.
Context `{MO : MapOrder} (w : AsyncWorker) (s : Service) (claim : WorkClaim).

#[local] Abbreviation item_id := (wi_ID (wc_WorkItem claim)).
#[local] Abbreviation fence := (Worker.fence_of_claim w claim).

(** The worker's record of the attempt: opened under the first two readings
    of the clock, closed under the reading after the handler. *)
Definition opened (w0 : World) : ExecutionAttempt :=
  started_attempt w claim (w_clock w0 (w_reads w0)) (w_clock w0 (S (w_reads w0))).

Definition save_attempt (a : ExecutionAttempt) (w0 : World) : World :=
  w0 <| w_attempts := <[ea_AttemptID a := a]> (w_attempts w0) |>.

Definition read_clock (w0 : World) : World := w0 <| w_reads := S (w_reads w0) |>.

Definition started (w0 : World) : World := save_attempt (opened w0) (read_clock (read_clock w0)).

Definition put_item (item : WorkItem) (w0 : World) : World :=
  w0 <| w_queue := <[item_id := item]> (w_queue w0) |>.

(** How the handler and the lease renewal ended together. *)
Inductive claim_end :=
  | Succeeded (result : WorkerPassResult)
  | HandlerFailed (err : error)
  | ClaimLost (err : error)
  | LeaseBroken (err : error)
  | Crashed.

Definition end_of (renewal : option error) (ran : outcome error WorkerPassResult) : claim_end :=
  match ran, renewal with
  | Panic _, _ | OutOfFuel, _ => Crashed
  | _, Some e => if isFenceConflict e || IsNotFound e then ClaimLost e else LeaseBroken e
  | Err e, None => if isFenceConflict e then ClaimLost e else HandlerFailed e
  | Ok r, None => Succeeded r
  end.

Lemma queue_same w0 : w0 <| w_queue := w_queue w0 |> = w0.
Proof. by destruct w0. Qed.

Lemma fence_item_id : fv_WorkItemID fence = item_id.
Proof. done. Qed.

(** Finishing the item: written when the fence holds, and otherwise a
    conflict that leaves everything as it was. *)
Lemma finish_in_queue st summary at_ item w0 :
  w_queue w0 !! item_id = Some item ->
  let m := on_queue (Queue.with_fence fence (fun item =>
             Queue.store_item (wi_ID item) (Queue.finish_item st summary at_ item))) in
  m w0 = match Queue.validateFenceAgainstItem item fence with
         | None => (put_item (Queue.finish_item st summary at_ item) w0, Ok tt)
         | Some e => (w0, Err e)
         end /\
  forall e, Queue.validateFenceAgainstItem item fence = Some e -> isFenceConflict e = true.
Proof.
  intros Hi m. split; [|intros e He; by eapply WorkQueueThm.validate_conflict].
  unfold m, on_queue, zoom, Queue.with_fence. run_simpl. rewrite fence_item_id, Hi.
  destruct (Queue.validateFenceAgainstItem item fence) as [e|] eqn:E; run_simpl; [by destruct w0|].
  apply WorkQueueThm.validate_spec in E as (Hid & _). rewrite fence_item_id in Hid.
  unfold Queue.store_item. run_simpl. unfold put_item. by rewrite Hid.
Qed.

Lemma unless_fence_conflict_run st summary at_ item w0 (m : WorkQueueStore -> M unit) :
  se_workQueue s = Some InMemoryWorkQueueStore -> w_queue w0 !! item_id = Some item ->
  m InMemoryWorkQueueStore = on_queue (Queue.with_fence fence (fun item =>
             Queue.store_item (wi_ID item) (Queue.finish_item st summary at_ item))) ->
  unless_fence_conflict s m w0 =
    (match Queue.validateFenceAgainstItem item fence with
     | None => put_item (Queue.finish_item st summary at_ item) w0
     | Some _ => w0
     end, Ok tt).
Proof.
  intros Hq Hi Hm. destruct (finish_in_queue st summary at_ item w0 Hi) as [Hrun Hc].
  unfold unless_fence_conflict. rewrite Hq. cbn [deref]. run_simpl. rewrite Hm.
  destruct (Queue.validateFenceAgainstItem item fence) as [e|] eqn:E.
  - erewrite run_bind_Ok by (unfold attempt; rewrite Hrun; reflexivity). cbv beta iota. by rewrite (Hc e eq_refl).
  - erewrite run_bind_Ok by (unfold attempt; rewrite Hrun; reflexivity). done.
Qed.

Lemma update_attempt_run a w0 :
  se_workAttempts s = Some InMemoryWorkAttemptStore -> is_Some (w_attempts w0 !! ea_AttemptID a) ->
  update_attempt s a w0 = (save_attempt a w0, Ok tt).
Proof.
  intros Ha [b Hb]. unfold update_attempt. rewrite Ha. cbn [WorkAttemptStore_UpdateAttempt InMemoryWorkAttemptStore].
  unfold on_attempts, zoom, Attempts.UpdateAttempt. run_simpl. rewrite Hb. by run_simpl.
Qed.

Lemma failed_attempt_id a renewal err at_ : ea_AttemptID (failed_attempt a renewal err at_) = ea_AttemptID a.
Proof. unfold failed_attempt. by destruct renewal. Qed.

Lemma succeeded_attempt_id a st at_ : ea_AttemptID (a <| ea_Status := st |> <| ea_FinishedAt := at_ |>) = ea_AttemptID a.
Proof. done. Qed.

Section ended.
Variables (result : WorkerPassResult) (w0 w2 w3 : World) (ran : outcome error WorkerPassResult).
Variables (renewal : option error) (item : WorkItem).
Hypothesis Hqueue : se_workQueue s = Some InMemoryWorkQueueStore.
Hypothesis Hattempts : se_workAttempts s = Some InMemoryWorkAttemptStore.
Hypothesis Hhandle : handle_claim w s claim result (started w0) = (w2, ran).
Hypothesis Hrenew : lease_renewal w s claim w2 = (w3, Ok renewal).
Hypothesis Hitem : w_queue w3 !! item_id = Some item.
Hypothesis Hattempt : is_Some (w_attempts w3 !! ea_AttemptID (opened w0)).

#[local] Abbreviation finished := (w_clock w3 (w_reads w3)).
#[local] Abbreviation kept := (match ran with Ok changed => changed | _ => result end).

(** Everything up to the decision about the item. *)
Lemma processClaim_ran :
  processClaim w s claim result w0 =
    match ran with
    | Panic why => (w2, Panic why)
    | OutOfFuel => (w2, OutOfFuel)
    | Ok r => match renewal with
              | Some e => finish_failed w s claim (opened w0) renewal e finished r (read_clock w3)
              | None => finish_succeeded w s claim (opened w0) finished r (read_clock w3)
              end
    | Err err => finish_failed w s claim (opened w0) renewal (default err renewal) finished result (read_clock w3)
    end.
Proof.
  unfold processClaim, now. run_simpl. rewrite Hattempts.
  cbn [WorkAttemptStore_SaveAttempt InMemoryWorkAttemptStore].
  erewrite run_bind_Ok.
  2:{ unfold on_attempts, zoom, Attempts.SaveAttempt. run_simpl. reflexivity. }
  match goal with |- (attempt ?m ≫= _) ?w1 = _ => assert (Hm : m w1 = (w2, ran)) by exact Hhandle end.
  destruct ran as [r|err|why|].
  - erewrite run_bind_Ok by (unfold attempt; rewrite Hm; reflexivity). cbv beta iota.
    erewrite run_bind_Ok by exact Hrenew. run_simpl. by destruct renewal.
  - erewrite run_bind_Ok by (unfold attempt; rewrite Hm; reflexivity). cbv beta iota.
    erewrite run_bind_Ok by exact Hrenew. run_simpl. by destruct renewal.
  - unfold mbind at 1, ST_bind at 1, attempt. by rewrite Hm.
  - unfold mbind at 1, ST_bind at 1, attempt. by rewrite Hm.
Qed.

(** The attempt as it is closed and the item as it is left. *)
Definition closed_attempt (e : claim_end) : ExecutionAttempt :=
  match e with
  | Succeeded _ => opened w0 <| ea_Status := ExecutionAttemptStatusSucceeded |> <| ea_FinishedAt := Some finished |>
  | ClaimLost err | LeaseBroken err | HandlerFailed err => failed_attempt (opened w0) renewal err finished
  | Crashed => opened w0
  end.

Definition left_item (e : claim_end) : WorkItem :=
  match Queue.validateFenceAgainstItem item fence, e with
  | None, Succeeded _ => Queue.finish_item WorkItemStatusCompleted "" finished item
  | None, HandlerFailed err => Queue.finish_item WorkItemStatusFailed (error_string err) finished item
  | _, _ => item
  end.

Definition end_result (e : claim_end) : outcome error WorkerPassResult :=
  match e with
  | Succeeded r => Ok (r <| wp_CompletedWorkItemIDs := wp_CompletedWorkItemIDs r ++ [item_id] |>)
  | ClaimLost _ => Ok (skip_claim claim kept)
  | LeaseBroken err | HandlerFailed err => Err err
  | Crashed => Panic ""
  end.

(** The world after the claim: attempt and item written, nothing else. *)
Definition ended (e : claim_end) : World := put_item (left_item e) (save_attempt (closed_attempt e) (read_clock w3)).

Lemma put_same a : put_item item (save_attempt a (read_clock w3)) = save_attempt a (read_clock w3).
Proof.
  unfold put_item. change (w_queue (save_attempt a (read_clock w3))) with (w_queue w3).
  rewrite insert_id by done. exact (queue_same _).
Qed.

Lemma finish_failed_run err :
  renewal = None \/ renewal = Some err ->
  let e := end_of renewal (Err err) in
  finish_failed w s claim (opened w0) renewal err finished kept (read_clock w3) = (ended e, end_result e).
Proof.
  clear Hhandle Hrenew. intros Hr e. unfold finish_failed.
  erewrite run_bind_Ok by (apply update_attempt_run; [done|by rewrite failed_attempt_id]).
  unfold ended, left_item, e, end_of, closed_attempt. destruct Hr as [-> | ->].
  - destruct (isFenceConflict err) eqn:E; cbn [end_result closed_attempt].
    + destruct (Queue.validateFenceAgainstItem item fence); by rewrite put_same.
    + erewrite run_bind_Ok.
      2:{ eapply (unless_fence_conflict_run WorkItemStatusFailed (error_string err) finished item); done. }
      destruct (Queue.validateFenceAgainstItem item fence); [by rewrite put_same|done].
  - destruct (isFenceConflict err || IsNotFound err) eqn:E; cbn [end_result closed_attempt];
      destruct (Queue.validateFenceAgainstItem item fence); by rewrite put_same.
Qed.

Lemma finish_succeeded_run r :
  renewal = None ->
  let e := Succeeded r in
  finish_succeeded w s claim (opened w0) finished r (read_clock w3) = (ended e, end_result e).
Proof.
  intros Hr e. unfold finish_succeeded. 
  erewrite run_bind_Ok by (apply update_attempt_run; [done|by rewrite succeeded_attempt_id]).
  erewrite run_bind_Ok.
  2:{ eapply (unless_fence_conflict_run WorkItemStatusCompleted "" finished item); done. }
  unfold ended, left_item, e. cbn [end_result closed_attempt].
  destruct (Queue.validateFenceAgainstItem item fence); [by rewrite put_same|done].
Qed.
End ended.
End claims.

Section claim_outcome_claim.
Context `{MO : MapOrder}.

(** C39: How a claim ends.  Whatever its handler and the renewal of its lease
    did, the worker then writes the record of its attempt and the item, and
    nothing else.  The item is completed or failed only when the handler
    ended with a result or an error that is no conflict, the lease was not
    lost, and the queue still accepts the fence.  After a conflict the claim
    is only reported as skipped: an item whose fence is still good stays
    claimed until its lease runs out, also when the conflict was an illegal
    transition and no other worker is involved.  A failed renewal that is no
    conflict, and a failed handler, end the pass with their error. *)
Theorem claim_outcome (w : AsyncWorker) (s : Service) (claim : WorkClaim) (result : WorkerPassResult)
    (w0 w2 w3 : World) (ran : outcome error WorkerPassResult) (renewal : option error) (item : WorkItem) :
  se_workQueue s = Some InMemoryWorkQueueStore -> se_workAttempts s = Some InMemoryWorkAttemptStore ->
  handle_claim w s claim result (started w claim w0) = (w2, ran) ->
  lease_renewal w s claim w2 = (w3, Ok renewal) ->
  w_queue w3 !! wi_ID (wc_WorkItem claim) = Some item ->
  is_Some (w_attempts w3 !! ea_AttemptID (opened w claim w0)) ->
  let e := end_of renewal ran in
  (e <> Crashed -> processClaim w s claim result w0 =
     (ended w claim w0 w3 renewal item e, end_result claim result ran e)) /\
  (e = Crashed -> (processClaim w s claim result w0).1 = w2 /\ is_ok (processClaim w s claim result w0).2 = false) /\
  (left_item w claim w3 item e = item \/
   Queue.validateFenceAgainstItem item (Worker.fence_of_claim w claim) = None /\
   (wi_Status (left_item w claim w3 item e) = WorkItemStatusCompleted /\ renewal = None /\ (exists r, ran = Ok r) \/
    wi_Status (left_item w claim w3 item e) = WorkItemStatusFailed /\ renewal = None /\
    exists err, ran = Err err /\ isFenceConflict err = false)).
Proof.
  intros Hq Ha Hh Hl Hi Hs e. pose proof (processClaim_ran w s claim result w0 w2 w3 ran renewal Ha Hh Hl) as Hrun.
  split; [|split].
  - intros He. rewrite Hrun. destruct ran as [r|err|why|]; [| |done..].
    + destruct renewal as [x|] eqn:Er.
      * pose proof (finish_failed_run w s claim result w0 w3 (Ok r) renewal item Hq Ha Hi Hs x) as H.
        rewrite Er in H. by apply H; right.
      * by apply (finish_succeeded_run w s claim result w0 w3 (Ok r) None item Hq Ha Hi Hs r).
    + destruct renewal as [x|] eqn:Er.
      * pose proof (finish_failed_run w s claim result w0 w3 (Err err) renewal item Hq Ha Hi Hs x) as H.
        rewrite Er in H. by apply H; right.
      * by apply (finish_failed_run w s claim result w0 w3 (Err err) None item Hq Ha Hi Hs err); left.
  - intros He. rewrite Hrun. unfold e, end_of in He. destruct ran; repeat case_match; done.
  - unfold left_item, e, end_of. destruct (Queue.validateFenceAgainstItem item _); [by left|].
    destruct ran as [r|err|why|], renewal as [x|]; repeat case_match; try (by left); right; (split; [done|]).
    + left. autorewrite with item. eauto.
    + right. autorewrite with item. simplify_eq. eauto.
Qed.
End claim_outcome_claim.

(** ** A worker and the one item it claimed *)

Section sample.
Context `{MO : MapOrder}.

Definition sample_service : Service :=
  NewService {| so_CheckpointStore := None; so_TaskGraphs := None; so_Executions := None; so_Approvals := None;
    so_OperatorActions := None; so_Replay := None; so_Artifacts := None;
    so_WorkQueue := Some InMemoryWorkQueueStore; so_WorkAttempts := Some InMemoryWorkAttemptStore;
    so_Workers := None; so_Scheduler := None; so_Capabilities := None; so_Controller := None;
    so_EventLog := false; so_BackendProfile := "" |}.

Definition sample_worker : AsyncWorker := {|
  aw_ID := "a"; aw_Role := WorkerRoleAll; aw_Service := Some sample_service;
  aw_Scheduler := schedulerService sample_service; aw_Policy := DefaultAutoExecutionPolicy;
  aw_LeaseTTL := 100; aw_ClaimBatch := 1; aw_BackendProfile := ""; aw_Ticks := fun _ => 0%nat |}.

Definition odd_item : WorkItem :=
  Queue.claim_item "a" 10 100 (sample_item <| wi_Kind := WorkItemKindOther "odd" |>).
Definition odd_claim : WorkClaim := Queue.claim_of "a" 10 100 odd_item.
Definition odd_world : World := initial_world (fun n => Z.of_nat n) <| w_queue := {[ "w1" := odd_item ]} |>.
End sample.

Lemma claim_outcome_witness :
  let MO := canonical_order in
  let err := PlainError ("unsupported work item kind " +:+ Quote "odd") in
  let item := left_item sample_worker odd_claim (started sample_worker odd_claim odd_world) odd_item (HandlerFailed err) in
  (processClaim sample_worker sample_service odd_claim zero odd_world).2 = Err err /\
  wi_Status item = WorkItemStatusFailed.
Proof.
  intros MO err item.
  assert (E : processClaim sample_worker sample_service odd_claim zero odd_world =
     (ended sample_worker odd_claim odd_world (started sample_worker odd_claim odd_world) None odd_item (HandlerFailed err),
      end_result odd_claim zero (Err err) (HandlerFailed err))).
  { refine (proj1 (claim_outcome sample_worker sample_service odd_claim zero odd_world
      (started sample_worker odd_claim odd_world) (started sample_worker odd_claim odd_world)
      (Err err) None odd_item eq_refl eq_refl eq_refl eq_refl eq_refl _) _).
    - unfold started at 1, save_attempt at 1. eexists. apply lookup_insert_eq.
    - discriminate. }
  split; [by rewrite E|]. vm_compute. reflexivity.
Defined.
