(* ===== verification/Frames.v ===== *)
(** * Frames: what a run of the runtime may change

    [runs R m]: from every world, [m] ends (no loop runs out of fuel) in a
    world that [R] relates to the first, whether it returns a value, an error
    or panics.  It composes over the operations of the runtime, so a frame or
    a monotonicity fact about a whole handler follows from the same fact about
    the operations of the stores ([RuntimeRuns]) and of the capability. *)

From S2P Require Export Worker.
#[local] Open Scope Z_scope.

Definition runs {A} (R : relation World) (m : M A) : Prop :=
  forall w, R w (m w).1 /\ (m w).2 <> OutOfFuel.

Create HintDb runs.

Section rules.
Context (R : relation World) `{!PreOrder R}.

Lemma runs_ret {A} (a : A) : runs R (mret a).
Proof. intros w. split; [reflexivity|discriminate]. Qed.
Lemma runs_fail {A} e : runs R (fail (A:=A) e).
Proof. intros w. split; [reflexivity|discriminate]. Qed.
Lemma runs_panic {A} why : runs R (panic (A:=A) why).
Proof. intros w. split; [reflexivity|discriminate]. Qed.
Lemma runs_gets {A} (f : World -> A) : runs R (gets f).
Proof. intros w. split; [reflexivity|discriminate]. Qed.
Lemma runs_modify f : (forall w, R w (f w)) -> runs R (modify f).
Proof. intros H w. split; [apply H|discriminate]. Qed.

Lemma runs_bind {A B} (m : M A) (k : A -> M B) :
  runs R m -> (forall a, runs R (k a)) -> runs R (m ≫= k).
Proof.
  intros Hm Hk w. unfold mbind, ST_bind.
  destruct (Hm w) as [H1 H2]. destruct (m w) as [w' [a|e|why|]]; simpl in *; try (split; [done|discriminate]).
  - destruct (Hk a w') as [H3 H4]. split; [by etrans|done].
  - done.
Qed.

Lemma runs_attempt {A} (m : M A) : runs R m -> runs R (attempt m).
Proof.
  intros Hm w. unfold attempt. destruct (Hm w) as [H1 H2].
  destruct (m w) as [w' [a|e|why|]]; simpl in *; (split; [done|discriminate || done]).
Qed.

Lemma runs_ensure (b : bool) e : runs R (ensure (S:=World) b e).
Proof. destruct b; [apply runs_ret | apply runs_fail]. Qed.

Lemma runs_for_fold {A B} (f : B -> A -> M B) acc l :
  (forall b x, runs R (f b x)) -> runs R (for_fold f acc l).
Proof.
  intros Hf. revert acc. induction l as [|x l IH]; intros acc; simpl.
  - apply runs_ret.
  - apply runs_bind; auto.
Qed.

Lemma runs_for_each {A} (f : A -> M unit) l : (forall x, runs R (f x)) -> runs R (for_each f l).
Proof. intros Hf. apply runs_for_fold. auto. Qed.

Lemma runs_lift_sum {A} (r : error + A) : runs R (lift_sum r).
Proof. destruct r; [apply runs_fail|apply runs_ret]. Qed.
Lemma runs_lift_err o : runs R (lift_err o).
Proof. destruct o; [apply runs_fail|apply runs_ret]. Qed.
Lemma runs_deref {A} what (o : option A) : runs R (deref what o).
Proof. destruct o; [apply runs_ret|apply runs_panic]. Qed.
Lemma runs_deref_bind {A B} what (o : option A) (k : A -> M B) :
  (forall a, o = Some a -> runs R (k a)) -> runs R (deref what o ≫= k).
Proof. intros H. destruct o as [a|]; [exact (H a eq_refl)|apply runs_panic]. Qed.
Lemma runs_read_array a : runs R (read_array a).
Proof. apply runs_gets. Qed.
End rules.

Lemma runs_mono {A} (R R' : relation World) (m : M A) :
  (forall w w', R w w' -> R' w w') -> runs R m -> runs R' m.
Proof. intros H Hm w. destruct (Hm w). split; auto. Qed.

(** A store operation changes its own part of the world only. *)
Lemma runs_zoom {S A} (R : relation World) view upd (m : ST error S A) :
  (forall w s, R w (upd s w)) -> (forall s, (m s).2 <> OutOfFuel) -> runs R (zoom view upd m).
Proof.
  intros Hu Hm w. unfold zoom. specialize (Hm (view w)).
  destruct (m (view w)) as [s' o]. split; [apply Hu|done].
Qed.

#[export] Hint Resolve runs_ret runs_fail runs_panic runs_gets runs_attempt runs_ensure
  runs_lift_sum runs_lift_err runs_deref runs_read_array : runs.
#[export] Hint Extern 1 (runs _ (mbind _ (deref _ _))) =>
  (apply runs_deref_bind; [typeclasses eauto|intros ? ?]) : runs.
#[export] Hint Extern 1 (PreOrder _) => typeclasses eauto : runs.
#[export] Hint Extern 2 (runs _ (mbind _ _)) => (apply runs_bind; [typeclasses eauto| |intros ?]) : runs.
#[export] Hint Extern 2 (runs _ (for_each _ _)) => (apply runs_for_each; [typeclasses eauto|intros ?]) : runs.
#[export] Hint Extern 2 (runs _ (for_fold _ _ _)) => (apply runs_for_fold; [typeclasses eauto|intros ? ?]) : runs.
#[export] Hint Extern 3 (runs _ (match ?x with _ => _ end)) => destruct x : runs.
#[export] Hint Extern 3 (runs _ (let '(_, _) := ?x in _)) => destruct x : runs.

(** ** Relations that ignore logs and the clock *)

(** What the runtime writes besides the stores and the arrays. *)
Class Ambient (R : relation World) : Prop := {
  ambient_preorder :: PreOrder R;
  ambient_reads w n : R w (w <| w_reads := n |>);
  ambient_log w l : R w (w <| w_log := l |>);
  ambient_timeline w l : R w (w <| w_timeline := l |>);
  ambient_journal w l : R w (w <| w_journal := l |>)
}.

Section ambient.
Context (R : relation World) `{!Ambient R}.

Lemma runs_now : runs R now.
Proof. intros w. unfold now. run_simpl. split; [apply ambient_reads|discriminate]. Qed.

Lemma runs_on_scratch {S A} (s : S) (m : ST error S A) :
  (forall s, (m s).2 <> OutOfFuel) -> runs R (on_scratch s m).
Proof. intros H. apply runs_zoom; [reflexivity|done]. Qed.

Lemma runs_log r ctx category message d : runs R (log r ctx category message d).
Proof.
  unfold log. destruct (negb _); [apply runs_ret; typeclasses eauto|].
  apply runs_bind; [typeclasses eauto|apply runs_now|]. intros t.
  apply runs_modify. intros w. apply ambient_log.
Qed.

Lemma runs_journal_append r c : runs R (journal_append r c).
Proof.
  unfold journal_append. destruct (lr_Journal r); [|apply runs_ret; typeclasses eauto].
  apply runs_modify. intros w. apply ambient_journal.
Qed.

Lemma runs_timeline_append st ev sm t : runs R (timeline_append st ev sm t).
Proof. apply runs_modify. intros w. apply ambient_timeline. Qed.

Lemma runs_timeline_now r st ev sm : runs R (timeline_now r st ev sm).
Proof.
  unfold timeline_now. destruct (lr_Timeline r); [|apply runs_ret; typeclasses eauto].
  apply runs_bind; [typeclasses eauto|apply runs_now|]. intros t. apply runs_timeline_append.
Qed.
End ambient.

#[export] Hint Resolve runs_now runs_log runs_journal_append runs_timeline_append runs_timeline_now : runs.
#[export] Hint Extern 1 (Ambient _) => typeclasses eauto : runs.

Ltac runs_auto := solve [eauto 20 with runs].

(** ** Stores whose operations respect a relation *)

Class GraphsRun (R : relation World) (st : TaskGraphStore) : Prop := {
  gr_save s : runs R (TaskGraphStore_Save st s);
  gr_update s v : runs R (TaskGraphStore_Update st s v);
  gr_load g : runs R (TaskGraphStore_Load st g);
  gr_list : runs R (TaskGraphStore_List st);
  gr_save_state g w t k s : runs R (TaskGraphStore_SaveStateSnapshot st g w t k s);
  gr_load_state i : runs R (TaskGraphStore_LoadStateSnapshot st i)
}.

Class ExecutionsRun (R : relation World) (st : TaskExecutionStore) : Prop := {
  er_save r : runs R (TaskExecutionStore_Save st r);
  er_update r v : runs R (TaskExecutionStore_Update st r v);
  er_load i : runs R (TaskExecutionStore_Load st i);
  er_latest g t : runs R (TaskExecutionStore_LoadLatestByTask st g t);
  er_list g : runs R (TaskExecutionStore_ListByGraph st g)
}.

(** Reading and adding approvals: only the operator service updates one. *)
Class ApprovalsRun (R : relation World) (st : ApprovalStateStore) : Prop := {
  apr_save r : runs R (ApprovalStateStore_Save st r);
  apr_load i : runs R (ApprovalStateStore_Load st i);
  apr_pending : runs R (ApprovalStateStore_ListPending st);
  apr_by_task g t : runs R (ApprovalStateStore_LoadByTask st g t)
}.

Class CheckpointsRun (R : relation World) (st : CheckpointStore) : Prop := {
  cpr_save c : runs R (CheckpointStore_Save st c);
  cpr_load w c : runs R (CheckpointStore_Load st w c);
  cpr_save_token t : runs R (CheckpointStore_SaveResumeToken st t);
  cpr_load_token t : runs R (CheckpointStore_LoadResumeToken st t);
  cpr_save_payload i p : runs R (CheckpointStore_SavePayload st i p);
  cpr_load_payload i : runs R (CheckpointStore_LoadPayload st i)
}.

(** The stores of a runtime, each respecting [R] when it is there, and the
    fence validator. *)
Class RuntimeRuns (R : relation World) (r : LocalWorkflowRuntime) : Prop := {
  rr_ambient :: Ambient R;
  rr_graphs st : lr_TaskGraphs r = Some st -> GraphsRun R st;
  rr_executions st : lr_Executions r = Some st -> ExecutionsRun R st;
  rr_approvals st : lr_Approvals r = Some st -> ApprovalsRun R st;
  rr_checkpoints st : lr_CheckpointStore r = Some st -> CheckpointsRun R st;
  rr_replay st e : lr_Replay r = Some st -> runs R (ReplayStore_Append st e);
  rr_artifacts st w t a : lr_Artifacts r = Some st -> runs R (ArtifactMetadataStore_SaveArtifact st w t a);
  rr_fence v f : lr_FenceValidator r = Some v -> runs R (v f)
}.

(** The in-memory stores respect every relation that ignores their part. *)

Section in_memory.
Context `{MO : MapOrder} (R : relation World).

Lemma in_memory_graphs : (forall w s, R w (w <| w_graphs := s |>)) -> GraphsRun R InMemoryTaskGraphStore.
Proof.
  intros H. split; intros; (apply runs_zoom; [auto|intros s']); simpl.
  - discriminate.
  - unfold TaskGraphs.Update. run_simpl. repeat case_match; discriminate.
  - discriminate.
  - discriminate.
  - unfold TaskGraphs.SaveStateSnapshot. case_match; discriminate.
  - discriminate.
Qed.

Lemma in_memory_executions : (forall w s, R w (w <| w_executions := s |>)) -> ExecutionsRun R InMemoryTaskExecutionStore.
Proof.
  intros H. split; intros; (apply runs_zoom; [auto|intros s']); simpl.
  - unfold Executions.Save. run_simpl. repeat case_match; discriminate.
  - unfold Executions.Update. run_simpl. repeat case_match; discriminate.
  - discriminate.
  - discriminate.
  - discriminate.
Qed.

Lemma in_memory_approvals : (forall w s, R w (w <| w_approvals := s |>)) -> ApprovalsRun R InMemoryApprovalStateStore.
Proof.
  intros H. split; intros; (apply runs_zoom; [auto|intros s']); simpl; try discriminate.
  unfold Approvals.Save. run_simpl. repeat case_match; discriminate.
Qed.

Lemma in_memory_checkpoints : (forall w s, R w (w <| w_checkpoints := s |>)) -> CheckpointsRun R InMemoryCheckpointStore.
Proof.
  intros H. split; intros; (apply runs_zoom; [auto|intros s']); simpl.
  - unfold Checkpoints.Save. case_match; discriminate.
  - unfold Checkpoints.Load. run_simpl. repeat case_match; discriminate.
  - unfold Checkpoints.SaveResumeToken. case_match; discriminate.
  - unfold Checkpoints.LoadResumeToken. run_simpl. case_match; discriminate.
  - unfold Checkpoints.SavePayload. repeat case_match; discriminate.
  - unfold Checkpoints.LoadPayload. run_simpl. case_match; discriminate.
Qed.

(** [R] ignores everything the in-memory stores of a runtime write. *)
Class IgnoresStores : Prop := {
  is_ambient :: Ambient R;
  is_graphs w s : R w (w <| w_graphs := s |>);
  is_executions w s : R w (w <| w_executions := s |>);
  is_approvals w s : R w (w <| w_approvals := s |>);
  is_checkpoints w s : R w (w <| w_checkpoints := s |>);
  is_replay w s : R w (w <| w_replay := s |>);
  is_artifacts w s : R w (w <| w_artifacts := s |>)
}.

(** A runtime whose stores are the in-memory ones. *)
Record in_memory (r : LocalWorkflowRuntime) : Prop := {
  im_graphs : lr_TaskGraphs r = Some InMemoryTaskGraphStore;
  im_executions : lr_Executions r = Some InMemoryTaskExecutionStore;
  im_approvals : lr_Approvals r = Some InMemoryApprovalStateStore;
  im_actions : lr_OperatorActions r = Some InMemoryOperatorActionStore;
  im_checkpoints : lr_CheckpointStore r = Some InMemoryCheckpointStore;
  im_replay : lr_Replay r = Some InMemoryReplayStore;
  im_artifacts : lr_Artifacts r = Some InMemoryArtifactMetadataStore
}.

Lemma in_memory_runs r :
  IgnoresStores -> in_memory r -> (forall v f, lr_FenceValidator r = Some v -> runs R (v f)) -> RuntimeRuns R r.
Proof.
  intros HI [] Hfence. split; try typeclasses eauto; intros st.
  - rewrite im_graphs0. intros [= <-]. apply in_memory_graphs, is_graphs.
  - rewrite im_executions0. intros [= <-]. apply in_memory_executions, is_executions.
  - rewrite im_approvals0. intros [= <-]. apply in_memory_approvals, is_approvals.
  - rewrite im_checkpoints0. intros [= <-]. apply in_memory_checkpoints, is_checkpoints.
  - intros e. rewrite im_replay0. intros [= <-]. apply runs_zoom; [apply is_replay|discriminate].
  - intros w t a. rewrite im_artifacts0. intros [= <-]. apply runs_zoom; [apply is_artifacts|discriminate].
  - intros f. apply Hfence.
Qed.
End in_memory.

(** ** The runtime's operations *)

#[export] Hint Resolve gr_save gr_update gr_load gr_list gr_save_state gr_load_state
  er_save er_update er_load er_latest er_list apr_save apr_load apr_pending apr_by_task
  cpr_save cpr_load cpr_save_token cpr_load_token cpr_save_payload cpr_load_payload : runs.
#[export] Hint Resolve rr_graphs rr_executions rr_approvals rr_checkpoints rr_replay rr_artifacts rr_fence
  rr_ambient : runs.

Section runtime.
Context `{MO : MapOrder} (R : relation World) (r : LocalWorkflowRuntime) `{HR : !RuntimeRuns R r}.

Lemma runs_HandleFailure ctx current category summary : runs R (Runtime_HandleFailure r ctx current category summary).
Proof. unfold Runtime_HandleFailure. runs_auto. Qed.

Lemma runs_take_snapshot s reason t : runs R (take_snapshot s reason t).
Proof. unfold take_snapshot. runs_auto. Qed.

Lemma runs_save_graph snapshot v : runs R (saveUpdatedTaskGraphSnapshot r snapshot v).
Proof.
  unfold saveUpdatedTaskGraphSnapshot. apply runs_deref_bind; [typeclasses eauto|intros st E]. runs_auto.
Qed.

Lemma runs_validateFence fence : runs R (validateFence r fence).
Proof.
  unfold validateFence. destruct fence as [f|]; [|runs_auto].
  destruct (lr_FenceValidator r) eqn:E; runs_auto.
Qed.

Lemma runs_save_graph_guarded snapshot v fence : runs R (saveUpdatedTaskGraphSnapshotGuarded r snapshot v fence).
Proof.
  unfold saveUpdatedTaskGraphSnapshotGuarded.
  apply runs_bind; [typeclasses eauto|apply runs_validateFence|intros _; apply runs_save_graph].
Qed.

Lemma runs_load_graph graphID : runs R (loadTaskGraphSnapshot r graphID).
Proof.
  unfold loadTaskGraphSnapshot. destruct (lr_TaskGraphs r) eqn:E; [|runs_auto].
  apply runs_bind; [typeclasses eauto|runs_auto|]. intros [s|]; [|runs_auto].
  destruct (lr_Executions r) eqn:E'; runs_auto.
Qed.

Section outcome.
Variables (snapshot : TaskGraphSnapshot) (result : FollowUpWorkflowRunResult) (guard : M unit).
Hypothesis Hguard : runs R guard.

Lemma runs_write_outcome record : runs R (write_outcome r snapshot result guard record).
Proof.
  unfold write_outcome. apply runs_bind; [typeclasses eauto|runs_auto|intros _]. 
  generalize (if te_Version record == 0 then record <| te_Version := 1 |> else record). clear record. intros record.
  apply runs_bind; [typeclasses eauto| |intros record'].
  { unfold write_state. destruct (lr_TaskGraphs r) eqn:E; [|runs_auto].
    case_match; [|runs_auto]. apply runs_bind; [typeclasses eauto|done|intros _].
    apply runs_bind; [typeclasses eauto|apply runs_take_snapshot|]. runs_auto. }
  assert (Hg : forall m : M unit, runs R m -> runs R (guard;; m)).
  { intros m Hm. apply runs_bind; [typeclasses eauto|done|by intros _]. }
  assert (Hu : runs R (mret () : M unit)) by runs_auto.
  apply runs_bind; [typeclasses eauto| |intros _].
  { unfold write_checkpoint. destruct (lr_CheckpointStore r) eqn:E; [|done].
    case_match; [|done]. apply Hg. runs_auto. }
  apply runs_bind; [typeclasses eauto| |intros _].
  { unfold write_resume_token. destruct (lr_CheckpointStore r) eqn:E; [|done].
    case_match; [|done]. apply Hg. runs_auto. }
  apply runs_bind; [typeclasses eauto| |intros _].
  { unfold write_payload. destruct (lr_CheckpointStore r) eqn:E; [|done].
    do 2 (case_match; [|done]). apply Hg. runs_auto. }
  apply runs_bind; [typeclasses eauto| |intros _].
  { unfold write_approval. destruct (lr_Approvals r) eqn:E; [|done].
    case_match; [|done]. apply Hg. runs_auto. }
  apply runs_bind; [typeclasses eauto| |intros _].
  { unfold write_artifacts. destruct (lr_Artifacts r) eqn:E; [|done].
    apply runs_for_each; [typeclasses eauto|]. intros artifact. apply Hg. by apply rr_artifacts. }
  apply runs_bind; [typeclasses eauto| |intros _].
  { unfold write_execution. destruct (lr_Executions r) eqn:E; [|done]. apply Hg. runs_auto. }
  apply runs_bind; [typeclasses eauto| |intros _].
  { unfold write_replay. destruct (lr_Replay r) eqn:E; [|done]. apply Hg. by apply rr_replay. }
  runs_auto.
Qed.
End outcome.

Lemma runs_persist snapshot record result : runs R (persistExecutionOutcome r snapshot record result).
Proof. apply runs_write_outcome. runs_auto. Qed.

Lemma runs_persist_guarded snapshot record result fence :
  runs R (persistExecutionOutcomeGuarded r snapshot record result fence).
Proof.
  apply runs_bind; [typeclasses eauto|apply runs_validateFence|intros _].
  apply runs_write_outcome, runs_validateFence.
Qed.
End runtime.

#[export] Hint Resolve runs_HandleFailure runs_take_snapshot runs_save_graph runs_validateFence
  runs_save_graph_guarded runs_load_graph runs_persist runs_persist_guarded : runs.
