(* ===== verification/OutcomeThm.v ===== *)
(** * Outcomes, checkpoints and resumptions *)

From S2P Require Export Frames.
#[local] Open Scope Z_scope.

(** * The durable outcome of an execution

    What [persistExecutionOutcome] leaves in the stores when it returns, and
    what the fence adds to it. *)

(** ** Fences *)

(** [m] and [m'] behave alike while the queue is [q]. *)
Definition agree {A} (q : Queue.store) (m m' : M A) : Prop := forall w, w_queue w = q -> m w = m' w.

(** The relation of the runs that leave the queue alone. *)
Definition same_queue (w w' : World) : Prop := w_queue w = w_queue w'.

#[export] Instance same_queue_stores : IgnoresStores same_queue.
Proof. repeat split; try done. intros w1 w2 w3. unfold same_queue. congruence. Qed.

Lemma agree_refl {A} q (m : M A) : agree q m m.
Proof. by intros w _. Qed.

Lemma agree_bind {A B} q (m m' : M A) (k k' : A -> M B) :
  agree q m m' -> runs same_queue m' -> (forall a, agree q (k a) (k' a)) -> agree q (m ≫= k) (m' ≫= k').
Proof.
  intros Hm Hr Hk w Hw. unfold mbind, ST_bind. rewrite (Hm w Hw).
  destruct (Hr w) as [Hq _]. destruct (m' w) as [w' [a|e|why|]]; try done.
  apply Hk. unfold same_queue in Hq. simpl in Hq. congruence.
Qed.

Lemma agree_for_each {A} q (f f' : A -> M unit) l :
  (forall x, agree q (f x) (f' x)) -> (forall x, runs same_queue (f' x)) ->
  agree q (for_each f l) (for_each f' l).
Proof.
  intros Hf Hr. unfold for_each. generalize tt as u. induction l as [|x l IH]; intros u; [apply agree_refl|].
  simpl. apply agree_bind; auto.
Qed.

Section guarded.
Context `{MO : MapOrder} (r : LocalWorkflowRuntime) `{HR : !RuntimeRuns same_queue r}.
Variables (q : Queue.store) (snapshot : TaskGraphSnapshot) (result : FollowUpWorkflowRunResult) (guard : M unit).
Hypothesis Hguard : agree q guard (mret tt).

Lemma agree_guard {A} (m : M A) : agree q (guard;; m) (mret tt;; m).
Proof. intros w Hw. unfold mbind, ST_bind. by rewrite (Hguard w Hw). Qed.

Lemma agree_write_outcome record :
  agree q (write_outcome r snapshot result guard record) (write_outcome r snapshot result (mret tt) record).
Proof.
  unfold write_outcome. apply agree_bind; [apply agree_refl|runs_auto|intros _].
  generalize (if te_Version record == 0 then record <| te_Version := 1 |> else record). clear record. intros record.
  assert (Hret : runs same_queue (mret () : M unit)) by runs_auto.
  assert (Hg : forall m : M unit, runs same_queue m -> runs same_queue (mret ();; m)).
  { intros m Hm. apply runs_bind; [typeclasses eauto|done|by intros _]. }
  apply agree_bind; [| |intros record'].
  { unfold write_state. repeat case_match; first [apply agree_guard|apply agree_refl]. }
  { unfold write_state. destruct (lr_TaskGraphs r) eqn:E; [|runs_auto]. case_match; runs_auto. }
  repeat (apply agree_bind; [| |intros _]); try apply agree_refl.
  - unfold write_checkpoint. repeat case_match; first [apply agree_guard|apply agree_refl].
  - unfold write_checkpoint. destruct (lr_CheckpointStore r) eqn:E; [|done]. case_match; [|done]. apply Hg. runs_auto.
  - unfold write_resume_token. repeat case_match; first [apply agree_guard|apply agree_refl].
  - unfold write_resume_token. destruct (lr_CheckpointStore r) eqn:E; [|done]. case_match; [|done]. apply Hg. runs_auto.
  - unfold write_payload. repeat case_match; first [apply agree_guard|apply agree_refl].
  - unfold write_payload. destruct (lr_CheckpointStore r) eqn:E; [|done].
    do 2 (case_match; [|done]). apply Hg. runs_auto.
  - unfold write_approval. repeat case_match; first [apply agree_guard|apply agree_refl].
  - unfold write_approval. destruct (lr_Approvals r) eqn:E; [|done]. case_match; [|done]. apply Hg. runs_auto.
  - unfold write_artifacts. case_match; [|apply agree_refl].
    apply agree_for_each; [intros artifact; apply agree_guard|].
    intros artifact. apply Hg. by apply rr_artifacts.
  - unfold write_artifacts. destruct (lr_Artifacts r) eqn:E; [|done].
    apply runs_for_each; [typeclasses eauto|]. intros artifact. apply Hg. by apply rr_artifacts.
  - unfold write_execution. case_match; first [apply agree_guard|apply agree_refl].
  - unfold write_execution. destruct (lr_Executions r) eqn:E; [|done]. apply Hg. runs_auto.
  - unfold write_replay. case_match; first [apply agree_guard|apply agree_refl].
  - unfold write_replay. destruct (lr_Replay r) eqn:E; [|done]. apply Hg. by apply rr_replay.
Qed.
End guarded.

(** The in-memory queue as validator. *)
Definition queue_validator `{MO : MapOrder} : FenceValidator := WorkQueueStore_ValidateFence InMemoryWorkQueueStore.

Lemma validate_in_queue `{MO : MapOrder} fence w :
  queue_validator fence w =
  (w, match w_queue w !! fv_WorkItemID fence with
      | None => Err (NotFoundError "work_item" (fv_WorkItemID fence))
      | Some item => match Queue.validateFenceAgainstItem item fence with
                     | Some e => Err e
                     | None => Ok tt
                     end
      end).
Proof.
  unfold queue_validator. simpl. unfold on_queue, zoom, Queue.ValidateFence, Queue.with_fence. run_simpl.
  destruct (w_queue w !! _) as [item|]; [destruct (Queue.validateFenceAgainstItem item fence)|];
    run_simpl; by destruct w.
Qed.

Section fence_claims.
Context `{MO : MapOrder}.

Lemma queue_runs R `{!PreOrder R} fence : runs R (queue_validator fence).
Proof. intros w. rewrite validate_in_queue. split; [reflexivity|]. repeat case_match; discriminate. Qed.

Lemma in_memory_runtime_runs R r :
  IgnoresStores R -> in_memory r -> lr_FenceValidator r = Some queue_validator -> RuntimeRuns R r.
Proof.
  intros HI Hr Hv. apply in_memory_runs; [done|done|]. intros v f. rewrite Hv. intros [= <-].
  apply queue_runs. typeclasses eauto.
Qed.

(** C26: the guarded outcome is the plain one behind a check.  With the queue
    as validator, persisting an outcome under a fence that the queue accepts
    does exactly what persisting it without a fence does (the checks before
    the single writes all pass, since no write touches the queue); under any
    other fence it fails with the error of the fence and writes nothing at
    all: no state, checkpoint, token, payload, approval, artifact, execution
    or replay event. *)
Theorem guarded_outcome_spec r snapshot record result fence w :
  in_memory r -> lr_FenceValidator r = Some queue_validator ->
  persistExecutionOutcomeGuarded r snapshot record result (Some fence) w =
  match w_queue w !! fv_WorkItemID fence with
  | None => (w, Err (NotFoundError "work_item" (fv_WorkItemID fence)))
  | Some item =>
      match Queue.validateFenceAgainstItem item fence with
      | Some e => (w, Err e)
      | None => persistExecutionOutcome r snapshot record result w
      end
  end.
Proof.
  intros Hr Hv. unfold persistExecutionOutcomeGuarded, validateFence. rewrite Hv.
  pose proof (validate_in_queue fence) as Hvalid. unfold mbind at 1, ST_bind. rewrite (Hvalid w).
  destruct (w_queue w !! _) as [item|] eqn:E; [|done].
  destruct (Queue.validateFenceAgainstItem item fence) eqn:E'; [done|].
  pose proof (in_memory_runtime_runs same_queue r _ Hr Hv) as HR.
  apply (agree_write_outcome r (w_queue w)); [|done].
  intros w' Hw'. by rewrite Hvalid, Hw', E, E'.
Qed.
End fence_claims.

(** ** What a persisted outcome leaves behind *)

Lemma zoom_inv_Ok {S A} view (upd : S -> World -> World) (m : ST error S A) w w' a :
  zoom view upd m w = (w', Ok a) -> exists s, m (view w) = (s, Ok a) /\ w' = upd s w.
Proof. unfold zoom. destruct (m (view w)) as [s o]. intros [= <- ->]. eauto. Qed.

Lemma ensure_inv_Ok (b : bool) (e : error) (w w' : World) u : ensure b e w = (w', Ok u) -> b = true /\ w' = w.
Proof. destruct b; [intros [= <-]; done|discriminate]. Qed.

Section durable.
Context `{MO : MapOrder} (r : LocalWorkflowRuntime) (Hr : in_memory r).
Variables (snapshot : TaskGraphSnapshot) (result : FollowUpWorkflowRunResult).
Implicit Types (record : TaskExecutionRecord) (w : World).

#[local] Abbreviation pass := (mret tt : M unit).

(** The id of the state the workflow produced; empty when there is none. *)
Definition result_ref : string := sv_SnapshotID (fw_Version (fx_UpdatedState result)).

Lemma write_state_Ok record w w' record' :
  write_state r snapshot result pass record w = (w', Ok record') ->
  exists n g, w' = w <| w_reads := n |> <| w_graphs := g |> /\
    record' = (if result_ref == "" then record else record <| te_UpdatedStateSnapshotRef := result_ref |>) /\
    (result_ref <> "" -> exists captured,
       TaskGraphs.states g !! result_ref = Some captured /\ ss_State captured = fx_UpdatedState result).
Proof.
  unfold write_state. rewrite (im_graphs _ Hr). unfold result_ref.
  destruct (decide (sv_SnapshotID (fw_Version (fx_UpdatedState result)) = "")) as [E|E].
  { rewrite !(bool_decide_eq_true_2 _ E). simpl. intros [= <- <-].
    exists (w_reads w), (w_graphs w). split; [by destruct w|done]. }
  rewrite !(bool_decide_eq_false_2 _ E). change (negb false) with true. cbv iota.
  generalize (if te_Status record == TaskQueueStatusCompleted
              then "follow_up_committed" else "follow_up_pending") as kind. intros kind.
  intros H. rewrite run_bind_ret in H. apply run_bind_inv_Ok in H as (captured & w1 & Hcap & H).
  assert (Hc : exists n, w1 = w <| w_reads := n |> /\ ss_State captured = fx_UpdatedState result).
  { unfold take_snapshot in Hcap. destruct (IsZero _).
    - unfold now in Hcap. run_simpl in Hcap. injection Hcap as <- <-. eexists. split; reflexivity.
    - injection Hcap as <- <-. exists (w_reads w). split; [by destruct w|done]. }
  destruct Hc as (n & -> & Hst). apply run_bind_inv_Ok in H as (ref & w2 & Hsave & H).
  injection H as <- <-. simpl in Hsave. apply zoom_inv_Ok in Hsave as (g & Hg & ->).
  unfold TaskGraphs.SaveStateSnapshot, snapshotRefFor in Hg. rewrite Hst, bool_decide_eq_false_2 in Hg by done.
  run_simpl in Hg. injection Hg as <- <-.
  exists n. eexists. split; [reflexivity|]. split; [done|]. intros _. exists captured. split; [|done]. simpl. apply lookup_insert_eq.
Qed.

Lemma save_checkpoint_Ok c s s' :
  Checkpoints.Save c s = (s', Ok tt) ->
  CheckpointRecord_Validate c = None /\
  Checkpoints.tokens s' = Checkpoints.tokens s /\ Checkpoints.payloads s' = Checkpoints.payloads s /\
  Checkpoints.Load (ck_WorkflowID c) (ck_ID c) s' = (s', Ok c).
Proof.
  unfold Checkpoints.Save. destruct (CheckpointRecord_Validate c); [discriminate|]. run_simpl. intros [= <-].
  split; [done|]. split; [done|]. split; [done|].
  unfold Checkpoints.Load. run_simpl. unfold set_field. cbn.
  rewrite lookup_insert_eq, lookup_insert_eq. done.
Qed.

Lemma save_token_Ok t s s' :
  Checkpoints.SaveResumeToken t s = (s', Ok tt) ->
  ResumeToken_Validate t = None /\
  Checkpoints.checkpoints s' = Checkpoints.checkpoints s /\ Checkpoints.payloads s' = Checkpoints.payloads s /\
  Checkpoints.tokens s' !! rt_Token t = Some t.
Proof.
  unfold Checkpoints.SaveResumeToken. destruct (ResumeToken_Validate t); [discriminate|]. intros [= <-].
  split; [done|]. split; [done|]. split; [done|]. apply lookup_insert_eq.
Qed.

(** [Load] looks at the checkpoints only. *)
Lemma load_checkpoint_same wid id c s s' :
  Checkpoints.checkpoints s' = Checkpoints.checkpoints s ->
  Checkpoints.Load wid id s = (s, Ok c) -> Checkpoints.Load wid id s' = (s', Ok c).
Proof.
  intros E. unfold Checkpoints.Load. run_simpl. rewrite E.
  destruct (Checkpoints.checkpoints s !! wid) as [m|]; [|done].
  destruct (m !! id); [|done]. run_simpl. by intros [= ->].
Qed.

Lemma write_checkpoint_Ok w w' :
  write_checkpoint r result pass w = (w', Ok tt) ->
  exists s, w' = w <| w_checkpoints := s |> /\
    Checkpoints.tokens s = Checkpoints.tokens (w_checkpoints w) /\
    Checkpoints.payloads s = Checkpoints.payloads (w_checkpoints w) /\
    (forall c, fx_Checkpoint result = Some c ->
       Checkpoints.Load (ck_WorkflowID c) (ck_ID c) s = (s, Ok c)).
Proof.
  unfold write_checkpoint. rewrite (im_checkpoints _ Hr). destruct (fx_Checkpoint result) as [c|].
  - rewrite run_bind_ret. simpl. intros H. apply zoom_inv_Ok in H as (s & Hs & ->). exists s. split; [done|].
    apply save_checkpoint_Ok in Hs as (_ & H1 & H2 & H3). split; [done|]. split; [done|]. by intros c' [= <-].
  - intros [= <-]. exists (w_checkpoints w). split; [by destruct w|]. split; [done|]. split; [done|]. discriminate.
Qed.

Lemma write_resume_token_Ok w w' :
  write_resume_token r result pass w = (w', Ok tt) ->
  exists s, w' = w <| w_checkpoints := s |> /\
    Checkpoints.checkpoints s = Checkpoints.checkpoints (w_checkpoints w) /\
    Checkpoints.payloads s = Checkpoints.payloads (w_checkpoints w) /\
    (forall t, fx_ResumeToken result = Some t -> Checkpoints.tokens s !! rt_Token t = Some t).
Proof.
  unfold write_resume_token. rewrite (im_checkpoints _ Hr). destruct (fx_ResumeToken result) as [t|].
  - rewrite run_bind_ret. simpl. intros H. apply zoom_inv_Ok in H as (s & Hs & ->). exists s. split; [done|].
    apply save_token_Ok in Hs as (_ & H1 & H2 & H3). split; [done|]. split; [done|]. by intros t' [= <-].
  - intros [= <-]. exists (w_checkpoints w). split; [by destruct w|]. split; [done|]. split; [done|]. discriminate.
Qed.

Lemma write_payload_Ok w w' :
  write_payload r result pass w = (w', Ok tt) ->
  exists s, w' = w <| w_checkpoints := s |> /\
    Checkpoints.checkpoints s = Checkpoints.checkpoints (w_checkpoints w) /\
    Checkpoints.tokens s = Checkpoints.tokens (w_checkpoints w) /\
    (forall c p, fx_Checkpoint result = Some c -> fx_CheckpointPayload result = Some p ->
       Checkpoints.payloads s !! ck_ID c = Some p).
Proof.
  unfold write_payload. rewrite (im_checkpoints _ Hr).
  destruct (fx_Checkpoint result) as [c|]; [destruct (fx_CheckpointPayload result) as [p|]|].
  - rewrite run_bind_ret. simpl. intros H. apply zoom_inv_Ok in H as (s & Hs & ->). exists s. split; [done|].
    unfold Checkpoints.SavePayload in Hs. destruct (ck_ID c == ""); [discriminate|].
    destruct (CheckpointPayloadEnvelope_Validate p); [discriminate|].
    injection Hs as <-. split; [done|]. split; [done|]. intros c' p' [= <-] [= <-]. apply lookup_insert_eq.
  - intros [= <-]. exists (w_checkpoints w). split; [by destruct w|]. split; [done|]. split; [done|]. discriminate.
  - intros [= <-]. exists (w_checkpoints w). split; [by destruct w|]. split; [done|]. split; [done|]. discriminate.
Qed.

Lemma save_approval_effect a s :
  (forall id b, s !! id = Some b -> (Approvals.Save a s).1 !! id = Some b) /\
  (as_ApprovalID a <> "" -> is_Some ((Approvals.Save a s).1 !! as_ApprovalID a)).
Proof.
  unfold Approvals.Save. run_simpl. destruct (decide (as_ApprovalID a = "")) as [E|E].
  { rewrite bool_decide_eq_true_2 by done. done. }
  rewrite bool_decide_eq_false_2 by done. destruct (s !! as_ApprovalID a) as [old|] eqn:Hold; cbn [is_set].
  { run_simpl. cbn [fst]. rewrite Hold. eauto. }
  run_simpl. cbn [fst].
  assert (Hk : as_ApprovalID (if as_Version a == 0 then a <| as_Version := 1 |> else a) = as_ApprovalID a)
    by (by case_match). rewrite Hk. split.
  - intros id b Hb. rewrite lookup_insert_ne; [done|]. intros Heq. congruence.
  - intros _. rewrite lookup_insert_eq. eauto.
Qed.

(** [if err := m(); err != nil && !IsConflict(err) { return err }] *)
Lemma attempt_unless_conflict (m : M unit) w w' :
  (saved ← attempt m;
   match saved with inl e => if IsConflict e then mret tt else fail e | inr _ => mret tt end) w = (w', Ok tt) ->
  w' = (m w).1.
Proof.
  unfold attempt, mbind, ST_bind. destruct (m w) as [w1 [u|e|why|]]; [by intros [= <-]| |done|done].
  destruct (IsConflict e); by intros [= <-].
Qed.

Lemma write_approval_Ok record w w' :
  write_approval r snapshot result pass record w = (w', Ok tt) ->
  exists s, w' = w <| w_approvals := s |> /\
    (forall id a, w_approvals w !! id = Some a -> s !! id = Some a) /\
    (forall p, fx_PendingApproval result = Some p -> ha_ApprovalID p <> "" -> is_Some (s !! ha_ApprovalID p)).
Proof.
  unfold write_approval. rewrite (im_approvals _ Hr). destruct (fx_PendingApproval result) as [p|].
  - rewrite run_bind_ret. intros H. apply attempt_unless_conflict in H.
    destruct (save_approval_effect (pending_approval_record snapshot record p) (w_approvals w)) as [H1 H2].
    exists (Approvals.Save (pending_approval_record snapshot record p) (w_approvals w)).1. split.
    + rewrite H. simpl. unfold on_approvals, zoom. by destruct (Approvals.Save _ _).
    + split; [exact H1|]. intros p' [= <-]. exact H2.
  - intros [= <-]. exists (w_approvals w). split; [by destruct w|]. split; [done|]. discriminate.
Qed.

Lemma save_artifacts_Ok wid tid artifacts w w' :
  for_each (fun a => pass;; ArtifactMetadataStore_SaveArtifact InMemoryArtifactMetadataStore wid tid a) artifacts w
    = (w', Ok tt) ->
  w' = w <| w_artifacts := fold_left (fun m a => <[wa_ID a := a]> m) artifacts (w_artifacts w) |>.
Proof.
  unfold for_each. revert w. induction artifacts as [|a artifacts IH]; intros w H.
  - injection H as <-. by destruct w.
  - rewrite run_for_fold_cons in H. cbn beta in H. rewrite run_bind_assoc, run_bind_ret in H.
    apply IH in H. exact H.
Qed.

Lemma write_artifacts_Ok record w w' :
  write_artifacts r result pass record w = (w', Ok tt) ->
  exists s, w' = w <| w_artifacts := s |> /\ (forall a, a ∈ fx_Artifacts result -> is_Some (s !! wa_ID a)).
Proof.
  unfold write_artifacts. rewrite (im_artifacts _ Hr). intros H. apply save_artifacts_Ok in H.
  eexists. split; [exact H|]. intros a Ha.
  apply (lookup_fold_insert_is_Some wa_ID (fun _ a => a)). right. apply list_elem_of_fmap. eauto.
Qed.

(** The version an execution record is stored with. *)
Definition stored_version record w : Z :=
  match w_executions w !! te_ExecutionID record with
  | Some current => wrap64 (te_Version current + 1)
  | None => if te_Version record == 0 then 1 else te_Version record
  end.

Lemma write_execution_Ok record w w' :
  write_execution r pass record w = (w', Ok tt) ->
  w' = w <| w_executions := <[te_ExecutionID record := (record <| te_Version := stored_version record w |>)]> (w_executions w) |>.
Proof.
  unfold write_execution, stored_version. rewrite (im_executions _ Hr), run_bind_ret.
  simpl. unfold on_executions, Executions.Load, zoom, mbind, ST_bind. run_simpl.
  change (w <| w_executions := w_executions w |>) with (id w <| w_executions := w_executions w |>).
  assert (Hw : id w <| w_executions := w_executions w |> = w) by by destruct w. rewrite Hw.
  destruct (w_executions w !! te_ExecutionID record) as [current|] eqn:E.
  - unfold Executions.Update. run_simpl. rewrite E.
    rewrite (bool_decide_eq_true_2 (te_Version current = te_Version current)), andb_false_r by done.
    run_simpl. by intros [= <-].
  - unfold Executions.Save. run_simpl. rewrite E. case_bool_decide; [discriminate|]. cbn [is_set].
    destruct (te_Version record == 0) eqn:Ev; run_simpl; intros [= <-]; [done|]. by destruct record.
Qed.

Lemma write_replay_Ok record w w' :
  write_replay r snapshot pass record w = (w', Ok tt) ->
  w' = w <| w_replay := w_replay w ++ [execution_replay_event snapshot record] |>.
Proof. unfold write_replay. rewrite (im_replay _ Hr), run_bind_ret. by intros [= <-]. Qed.

(** The record with the defaults and the state reference that the writes fill in. *)
Definition persisted_record record : TaskExecutionRecord :=
  let record := if te_Version record == 0 then record <| te_Version := 1 |> else record in
  if result_ref == "" then record else record <| te_UpdatedStateSnapshotRef := result_ref |>.

Lemma persist_Ok record w w' record' :
  persistExecutionOutcome r snapshot record result w = (w', Ok record') ->
  te_ExecutionID record <> "" /\ record' = persisted_record record /\
  exists n g c a m, w' = w <| w_reads := n |> <| w_graphs := g |> <| w_checkpoints := c |> <| w_approvals := a |>
      <| w_artifacts := m |>
      <| w_executions := <[te_ExecutionID record := (record' <| te_Version := stored_version record' w |>)]> (w_executions w) |>
      <| w_replay := w_replay w ++ [execution_replay_event snapshot record'] |> /\
    (result_ref <> "" -> exists captured,
       TaskGraphs.states g !! result_ref = Some captured /\ ss_State captured = fx_UpdatedState result) /\
    (forall x, fx_Checkpoint result = Some x -> Checkpoints.Load (ck_WorkflowID x) (ck_ID x) c = (c, Ok x)) /\
    (forall t, fx_ResumeToken result = Some t -> Checkpoints.tokens c !! rt_Token t = Some t) /\
    (forall x p, fx_Checkpoint result = Some x -> fx_CheckpointPayload result = Some p ->
       Checkpoints.payloads c !! ck_ID x = Some p) /\
    (forall id b, w_approvals w !! id = Some b -> a !! id = Some b) /\
    (forall p, fx_PendingApproval result = Some p -> ha_ApprovalID p <> "" -> is_Some (a !! ha_ApprovalID p)) /\
    (forall x, x ∈ fx_Artifacts result -> is_Some (m !! wa_ID x)).
Proof.
  unfold persistExecutionOutcome, write_outcome, persisted_record. intros H.
  apply run_bind_inv_Ok in H as ([] & w0 & He & H). apply ensure_inv_Ok in He as [Hid ->].
  assert (Hne : te_ExecutionID record <> "") by (by apply negb_true_iff, bool_decide_eq_false in Hid). split; [done|]. clear Hid.
  assert (Hids : te_ExecutionID (if te_Version record == 0 then record <| te_Version := 1 |> else record) =
                 te_ExecutionID record) by (by case_match).
  revert H Hids. generalize (if te_Version record == 0 then record <| te_Version := 1 |> else record).
  intros rec H Hids. apply run_bind_inv_Ok in H as (rec' & w1 & Hst & H).
  apply write_state_Ok in Hst as (n & g & -> & Hrec & Hg).
  apply run_bind_inv_Ok in H as ([] & w2 & H1 & H). apply write_checkpoint_Ok in H1 as (c1 & -> & Hc1 & Hc2 & Hc3).
  apply run_bind_inv_Ok in H as ([] & w3 & H1 & H). apply write_resume_token_Ok in H1 as (c2 & -> & Hd1 & Hd2 & Hd3).
  apply run_bind_inv_Ok in H as ([] & w4 & H1 & H). apply write_payload_Ok in H1 as (c3 & -> & He1 & He2 & He3).
  apply run_bind_inv_Ok in H as ([] & w5 & H1 & H). apply write_approval_Ok in H1 as (a & -> & Ha1 & Ha2).
  apply run_bind_inv_Ok in H as ([] & w6 & H1 & H). apply write_artifacts_Ok in H1 as (m & -> & Hm).
  apply run_bind_inv_Ok in H as ([] & w7 & H1 & H). apply write_execution_Ok in H1 as ->.
  apply run_bind_inv_Ok in H as ([] & w8 & H1 & H). apply write_replay_Ok in H1 as ->.
  injection H as <- <-. split; [done|].
  assert (Hid' : te_ExecutionID rec' = te_ExecutionID record) by (rewrite Hrec; by case_match).
  exists n, g, c3, a, m. rewrite <- Hid'. split; [by destruct w|]. split; [done|].
  split.
  { intros x Hx. apply (load_checkpoint_same _ _ _ c1); [|by apply Hc3]. rewrite He1. exact Hd1. }
  split; [intros t Ht; rewrite He2; exact (Hd3 t Ht)|]. split; [done|]. done.
Qed.
End durable.

(** A runtime on the in-memory stores, and a clock that ticks. *)
Definition in_memory_runtime `{MO : MapOrder} (capabilities : option TaskCapabilityResolver)
    (validator : option FenceValidator) : LocalWorkflowRuntime :=
  NewLocalWorkflowRuntime {|
    lr_Controller := None; lr_CheckpointStore := None; lr_Journal := false; lr_Timeline := false;
    lr_EventLog := true; lr_TaskGraphs := None; lr_Executions := None; lr_Approvals := None;
    lr_OperatorActions := None; lr_Replay := None; lr_Artifacts := None;
    lr_Capabilities := capabilities; lr_FenceValidator := validator |}.

Lemma in_memory_runtime_ok `{MO : MapOrder} capabilities validator :
  in_memory (in_memory_runtime capabilities validator).
Proof. by split. Qed.

(** A run is its final world with its outcome. *)
Lemma run_result {A} (m : M A) w o : (m w).2 = o -> m w = ((m w).1, o).
Proof. intros <-. by destruct (m w). Qed.

Definition ticking_clock (n : nat) : time := 63745207861 * Second + Z.of_nat n * Second.
Definition sample_world : World := initial_world ticking_clock.

Section durable_claims.
Context `{MO : MapOrder}.

(** When persisting an outcome returns without an error, the outcome is
    durable.  The execution can be loaded by its id and is the record the
    caller has, under the next version; exactly one replay event was added,
    the one of this outcome; the state snapshot, the checkpoint, the resume
    token, the payload, the approval request and every artifact that the
    result carries can be loaded; no approval that was there was touched, and
    neither were the work queue nor any array of task records. *)
Theorem persisted_outcome_durable r snapshot record result w w' record' :
  in_memory r -> persistExecutionOutcome r snapshot record result w = (w', Ok record') ->
  record' = persisted_record result record /\
  w_executions w' !! te_ExecutionID record = Some (record' <| te_Version := stored_version record' w |>) /\
  (forall id, id <> te_ExecutionID record -> w_executions w' !! id = w_executions w !! id) /\
  w_replay w' = w_replay w ++ [execution_replay_event snapshot record'] /\
  (result_ref result <> "" -> exists captured,
     TaskGraphs.states (w_graphs w') !! result_ref result = Some captured /\
     ss_State captured = fx_UpdatedState result) /\
  (forall x, fx_Checkpoint result = Some x ->
     Checkpoints.Load (ck_WorkflowID x) (ck_ID x) (w_checkpoints w') = (w_checkpoints w', Ok x)) /\
  (forall t, fx_ResumeToken result = Some t -> Checkpoints.tokens (w_checkpoints w') !! rt_Token t = Some t) /\
  (forall x p, fx_Checkpoint result = Some x -> fx_CheckpointPayload result = Some p ->
     Checkpoints.payloads (w_checkpoints w') !! ck_ID x = Some p) /\
  (forall p, fx_PendingApproval result = Some p -> ha_ApprovalID p <> "" ->
     is_Some (w_approvals w' !! ha_ApprovalID p)) /\
  (forall x, x ∈ fx_Artifacts result -> is_Some (w_artifacts w' !! wa_ID x)) /\
  (forall id b, w_approvals w !! id = Some b -> w_approvals w' !! id = Some b) /\
  w_queue w' = w_queue w /\ w_arrays w' = w_arrays w.
Proof.
  intros Hr H.
  destruct (persist_Ok r Hr snapshot result record w w' record' H)
    as (_ & Hrec & n & g & c & a & m & -> & Hg & Hc & Ht & Hp & Ha & Hap & Hm).
  rsimpl. split; [done|]. split; [apply lookup_insert_eq|].
  split; [intros id Hid; by apply lookup_insert_ne|]. done.
Qed.

(** A result that waits for approval, with everything a result can carry. *)
Definition sample_state (id : string) (sequence : Z) : FinancialWorldState :=
  zero <| fw_Version := {| sv_Sequence := sequence; sv_SnapshotID := id; sv_UpdatedAt := zero_time |} |>.

Definition sample_pending : FollowUpWorkflowRunResult :=
  zero <| fx_WorkflowID := "wf" |> <| fx_RuntimeState := WorkflowStateWaitingApproval |>
    <| fx_UpdatedState := sample_state "s2" 2 |>
    <| fx_Checkpoint := Some (zero <| ck_ID := "ck" |> <| ck_WorkflowID := "wf" |>
         <| ck_State := WorkflowStateWaitingApproval |> <| ck_ResumeState := WorkflowStateActing |>
         <| ck_CapturedAt := 5 |>) |>
    <| fx_ResumeToken := Some (zero <| rt_Token := "tok" |> <| rt_WorkflowID := "wf" |>
         <| rt_CheckpointID := "ck" |> <| rt_IssuedAt := 5 |> <| rt_ExpiresAt := 6 |>) |>
    <| fx_PendingApproval := Some (zero <| ha_ApprovalID := "ap" |>) |>
    <| fx_Artifacts := [zero <| wa_ID := "art" |>] |>.

Definition sample_record : TaskExecutionRecord :=
  zero <| te_ExecutionID := "ex" |> <| te_TaskID := "t" |> <| te_WorkflowID := "wf" |>
    <| te_Status := TaskQueueStatusWaitingApproval |> <| te_LastTransitionAt := 7 |>.
End durable_claims.

Lemma persisted_outcome_durable_witness :
  let MO := canonical_order in
  let r := in_memory_runtime None None in
  let w' := (persistExecutionOutcome r zero sample_record sample_pending sample_world).1 in
  is_Some (w_approvals w' !! "ap") /\ w_queue w' = w_queue sample_world.
Proof.
  intros MO r w'.
  destruct (persisted_outcome_durable (MO := MO) r zero sample_record sample_pending sample_world w'
              (persisted_record sample_pending sample_record))
    as (_ & _ & _ & _ & _ & _ & _ & _ & Ha & _ & _ & Hq & _).
  - apply in_memory_runtime_ok.
  - refine (run_result (persistExecutionOutcome r zero sample_record sample_pending) sample_world _ _).
    vm_compute. reflexivity.
  - split; [|exact Hq]. pose proof (Ha _ eq_refl) as H. rsimpl in H. apply H. discriminate.
Defined.

(** A queue in which worker ["w"] holds item ["i"] under token 1. *)
Definition sample_fence : FenceValidation :=
  {| fv_WorkItemID := "i"; fv_LeaseID := "l"; fv_FencingToken := 1; fv_WorkerID := "w" |}.
Definition sample_claimed : WorkItem :=
  zero <| wi_ID := "i" |> <| wi_Status := WorkItemStatusClaimed |> <| wi_LeaseID := "l" |>
       <| wi_FencingToken := 1 |> <| wi_ClaimedByWorkerID := "w" |>.
Definition claimed_world : World := sample_world <| w_queue := {[ "i" := sample_claimed ]} |>.

Lemma guarded_outcome_spec_witness :
  let MO := canonical_order in
  let r := in_memory_runtime None (Some queue_validator) in
  let stale := {| fv_WorkItemID := "i"; fv_LeaseID := "l"; fv_FencingToken := 0; fv_WorkerID := "w" |} in
  persistExecutionOutcomeGuarded r zero sample_record sample_pending (Some sample_fence) claimed_world =
    persistExecutionOutcome r zero sample_record sample_pending claimed_world /\
  persistExecutionOutcomeGuarded r zero sample_record sample_pending (Some stale) claimed_world =
    (claimed_world, Err (ConflictError "work_item" "i" "fencing token mismatch")).
Proof.
  intros MO r stale.
  assert (E : w_queue claimed_world !! "i" = Some sample_claimed) by reflexivity.
  assert (E1 : Queue.validateFenceAgainstItem sample_claimed sample_fence = None) by reflexivity.
  assert (E2 : Queue.validateFenceAgainstItem sample_claimed stale =
               Some (ConflictError "work_item" "i" "fencing token mismatch")) by reflexivity.
  assert (Hr : in_memory r) by apply in_memory_runtime_ok.
  split.
  - rewrite (guarded_outcome_spec (MO := MO) r zero sample_record sample_pending sample_fence claimed_world Hr eq_refl).
    cbn [fv_WorkItemID sample_fence]. rewrite E, E1. reflexivity.
  - rewrite (guarded_outcome_spec (MO := MO) r zero sample_record sample_pending stale claimed_world Hr eq_refl).
    cbn [fv_WorkItemID stale]. rewrite E, E2. reflexivity.
Defined.

(** * Properties of the local runtime: checkpoints and task graphs *)

(** ** Frames of single fields *)

(** Two worlds have the same part [view]. *)
Definition same {A} (view : World -> A) (w w' : World) : Prop := view w = view w'.

#[export] Instance same_preorder {A} (view : World -> A) : PreOrder (same view).
Proof. split; [intros w|intros w1 w2 w3]; unfold same; congruence. Qed.

#[export] Instance same_checkpoints_ambient : Ambient (same w_checkpoints).
Proof. split; try done. typeclasses eauto. Qed.
#[export] Instance same_graphs_ambient : Ambient (same w_graphs).
Proof. split; try done. typeclasses eauto. Qed.
#[export] Instance same_arrays_ambient : Ambient (same w_arrays).
Proof. split; try done. typeclasses eauto. Qed.
#[export] Instance same_executions_ambient : Ambient (same w_executions).
Proof. split; try done. typeclasses eauto. Qed.

Lemma runs_same {A B} (view : World -> A) (m : M B) w w' o :
  runs (same view) m -> m w = (w', o) -> view w' = view w.
Proof. intros Hm E. destruct (Hm w) as [H _]. rewrite E in H. symmetry. exact H. Qed.

(** ** Checkpoint and resume *)

(** The clock reading the next call makes. *)
Definition next_reading (w : World) : time := w_clock w (w_reads w).

Section checkpoints.
Context `{MO : MapOrder} (r : LocalWorkflowRuntime) (Hr : in_memory r).

Lemma Checkpoint_Ok ctx current resumeState v summary w w' checkpoint token :
  Checkpoint r ctx current resumeState v summary w = (w', Ok (checkpoint, token)) ->
  checkpoint = checkpoint_at ctx current resumeState v summary (next_reading w) /\
  token = resume_token_at ctx (ck_ID checkpoint) (next_reading w) /\
  CheckpointRecord_Validate checkpoint = None /\ ResumeToken_Validate token = None /\
  Checkpoints.Load (ck_WorkflowID checkpoint) (ck_ID checkpoint) (w_checkpoints w') = (w_checkpoints w', Ok checkpoint) /\
  Checkpoints.tokens (w_checkpoints w') !! rt_Token token = Some token.
Proof.
  unfold Checkpoint. intros H. apply run_bind_inv_Ok in H as (t & w1 & Hnow & H).
  unfold now in Hnow. run_simpl in Hnow. injection Hnow as <- <-. fold (next_reading w) in H.
  set (c := checkpoint_at ctx current resumeState v summary (next_reading w)) in *.
  set (k := resume_token_at ctx (ck_ID c) (next_reading w)) in *.
  rewrite (im_checkpoints _ Hr) in H. cbn [from_option default] in H.
  apply run_bind_inv_Ok in H as ([] & w2 & Hsave & H). simpl in Hsave. apply zoom_inv_Ok in Hsave as (s & Hs & ->).
  apply save_checkpoint_Ok in Hs as (Hcv & _ & _ & Hcl).
  apply run_bind_inv_Ok in H as ([] & w3 & H1 & H). apply (runs_same w_checkpoints) in H1; [|runs_auto].
  apply run_bind_inv_Ok in H as ([] & w4 & H2 & H).
  apply (runs_same w_checkpoints) in H2; [|destruct (lr_Timeline r); runs_auto].
  apply run_bind_inv_Ok in H as ([] & w5 & H3 & H). apply (runs_same w_checkpoints) in H3; [|runs_auto].
  apply run_bind_inv_Ok in H as ([] & w6 & Hsave & H). injection H as <- <- <-. simpl in Hsave.
  apply zoom_inv_Ok in Hsave as (s' & Hs' & ->). rsimpl.
  rewrite H3, H2, H1 in Hs'. apply save_token_Ok in Hs' as (Hkv & Hsame & _ & Hk).
  do 4 (split; [done|]). split; [|done]. apply (load_checkpoint_same _ _ _ s); [exact Hsame|exact Hcl].
Qed.
End checkpoints.

Section checkpoint_claims.
Context `{MO : MapOrder}.

(** C32: a checkpoint can be resumed, and only for a day.  After [Checkpoint]
    has returned a checkpoint and its token, [Resume] with them, in any later
    world with the same checkpoint store, returns the resume state the
    checkpoint was made with as long as the clock does not pass 24 hours
    after the checkpoint, and is rejected as expired from then on. *)
Theorem checkpoint_resume_roundtrip r ctx current resumeState v summary w w1 checkpoint token w2 :
  in_memory r -> controller_of r = DefaultWorkflowController ->
  Checkpoint r ctx current resumeState v summary w = (w1, Ok (checkpoint, token)) ->
  w_checkpoints w2 = w_checkpoints w1 ->
  (Runtime_Resume r ctx (ck_ID checkpoint) token w2).2 =
    if next_reading w2 <=? next_reading w + 24 * Hour then Ok resumeState
    else Err (PlainError "resume token has expired").
Proof.
  intros Hr Hctl Hrun Hw2. apply (Checkpoint_Ok r Hr) in Hrun as (Hc & Ht & Hcv & Htv & Hload & Htok).
  unfold Runtime_Resume. rewrite (im_checkpoints _ Hr), Hctl. rewrite <- Hw2 in Hload, Htok.
  assert (Hid : ec_WorkflowID ctx = ck_WorkflowID checkpoint) by by rewrite Hc. rewrite Hid.
  unfold mbind at 1, ST_bind. simpl CheckpointStore_Load. unfold on_checkpoints, zoom at 1. rewrite Hload.
  unfold mbind at 1, ST_bind. simpl CheckpointStore_LoadResumeToken. unfold on_checkpoints, zoom at 1.
  unfold Checkpoints.LoadResumeToken. run_simpl. rsimpl. rewrite Htok. run_simpl.
  unfold mbind at 1, ST_bind. unfold now at 1. run_simpl. rsimpl. fold (next_reading w2).
  unfold mbind at 1, ST_bind.
  assert (Hres : Controller_Resume DefaultWorkflowController checkpoint token (next_reading w2) =
    if next_reading w2 <=? next_reading w + 24 * Hour then inr resumeState
    else inl (PlainError "resume token has expired")).
  { simpl. unfold Resume. rewrite Hcv, Htv, Ht. rewrite Hc. simpl.
    rewrite !bool_decide_eq_true_2 by done. simpl. unfold After, Add.
    destruct (next_reading w2 <=? _) eqn:E.
    - apply Z.leb_le in E. by rewrite (proj2 (Z.ltb_ge _ _)).
    - apply Z.leb_gt in E. by rewrite (proj2 (Z.ltb_lt _ _)). }
  rewrite Hres. destruct (next_reading w2 <=? _); [|done]. unfold lift_sum. run_simpl.
  match goal with |- (?m _).2 = _ => assert (Hend : forall w, exists w', m w = (w', Ok resumeState)) end.
  { intros w'. unfold timeline_now, log. destruct (lr_Timeline r), (lr_EventLog r); simpl; eauto. }
  match goal with |- (_ ?x).2 = _ => destruct (Hend x) as [w' ->] end. done.
Qed.

End checkpoint_claims.

Lemma checkpoint_resume_roundtrip_witness :
  let MO := canonical_order in
  let r := in_memory_runtime None None in
  let ctx := {| ec_WorkflowID := "wf"; ec_TaskID := ""; ec_CorrelationID := "c"; ec_Attempt := 1 |} in
  exists w1 checkpoint token,
    (Runtime_Resume r ctx (ck_ID checkpoint) token w1).2 = Ok WorkflowStateActing.
Proof.
  intros MO r ctx.
  pose (m := Checkpoint r ctx WorkflowStateWaitingApproval WorkflowStateActing 1 "s").
  pose (c := checkpoint_at ctx WorkflowStateWaitingApproval WorkflowStateActing 1 "s" (ticking_clock 0)).
  pose (t := resume_token_at ctx (ck_ID c) (ticking_clock 0)).
  exists (m sample_world).1, c, t.
  assert (E : (next_reading (m sample_world).1 <=? next_reading sample_world + 24 * Hour) = true)
    by (vm_compute; reflexivity).
  rewrite (checkpoint_resume_roundtrip (MO := MO) r ctx WorkflowStateWaitingApproval WorkflowStateActing 1 "s"
    sample_world (m sample_world).1 c t (m sample_world).1).
  - by rewrite E.
  - apply in_memory_runtime_ok.
  - reflexivity.
  - refine (run_result m sample_world _ _). vm_compute. reflexivity.
  - reflexivity.
Defined.
