(* ===== verification/ActivationThm.v ===== *)
(** * Properties of the execution of ready follow-up tasks

    A batch always ends, runs no task twice and only tasks its policy allows;
    what a finished execution leaves in its record and in the graph. *)

From S2P Require Export TaskGraphThm OutcomeThm.
#[local] Open Scope Z_scope.

(** ** The frame: the registered tasks stay registered *)

Definition ids_at (w : World) (a : addr) : list string := task_id <$> array_at w a.

Definition keeps_ids (w w' : World) : Prop := forall a, ids_at w' a = ids_at w a.

#[export] Instance keeps_ids_preorder : PreOrder keeps_ids.
Proof. split; [done|]. intros w1 w2 w3 H1 H2 a. by rewrite H2. Qed.

#[export] Instance keeps_ids_ambient : Ambient keeps_ids.
Proof. split; try done. typeclasses eauto. Qed.

Lemma same_arrays_keeps_ids w w' : same w_arrays w w' -> keeps_ids w w'.
Proof. intros H a. unfold ids_at, array_at. by rewrite H. Qed.

(** The update of one element keeps ids. *)
Lemma runs_update_array a f :
  (forall r, task_id (f r) = task_id r) -> runs keeps_ids (update_array a f).
Proof.
  intros Hf w. unfold update_array, read_array, write_array. run_simpl. split; [|discriminate].
  intros a'. unfold ids_at, array_at. cbn [fst]. rsimpl. destruct (decide (a' = a)) as [->|Ha].
  - rewrite lookup_insert_eq. simpl. rewrite <- list_fmap_compose. apply list_fmap_ext. intros i x _. apply Hf.
  - by rewrite lookup_insert_ne.
Qed.

Lemma set_task_status_id id st b s t r : task_id (set_task_status id st b s t r) = task_id r.
Proof. unfold set_task_status. case_match; [done|]. by destruct b, s. Qed.
Lemma suppress_task_id id reason t r : task_id (suppress_task id reason t r) = task_id r.
Proof. unfold suppress_task. by case_match. Qed.
Lemma unsuppress_task_id id t r : task_id (unsuppress_task id t r) = task_id r.
Proof. unfold unsuppress_task. by case_match. Qed.

Section updates.
Variable snapshot : TaskGraphSnapshot.

Lemma runs_updateTaskStatus id st b s t : runs keeps_ids (updateTaskStatus snapshot id st b s t).
Proof.
  unfold updateTaskStatus. apply runs_bind; [typeclasses eauto| |intros _].
  { apply runs_update_array, set_task_status_id. }
  apply runs_bind; [typeclasses eauto|runs_auto|]. intros records. case_match. runs_auto.
Qed.
Lemma runs_updateTaskSuppression id reason t : runs keeps_ids (updateTaskSuppression snapshot id reason t).
Proof.
  apply runs_bind; [typeclasses eauto|apply runs_update_array, suppress_task_id|]. intros _. runs_auto.
Qed.
Lemma runs_clearTaskSuppression id t : runs keeps_ids (clearTaskSuppression snapshot id t).
Proof.
  apply runs_bind; [typeclasses eauto|apply runs_update_array, unsuppress_task_id|]. intros _. runs_auto.
Qed.

Lemma updateTaskStatus_Ok id st b s t w w' snapshot' :
  updateTaskStatus snapshot id st b s t w = (w', Ok snapshot') ->
  gs_RegisteredTasks snapshot' = gs_RegisteredTasks snapshot /\
  gs_ExecutedTasks snapshot' = gs_ExecutedTasks snapshot.
Proof.
  unfold updateTaskStatus. intros H. apply run_bind_inv_Ok in H as ([] & w1 & _ & H).
  apply run_bind_inv_Ok in H as (records & w2 & _ & H). case_match. by injection H as _ <-.
Qed.
End updates.

#[export] Hint Resolve runs_updateTaskStatus runs_updateTaskSuppression runs_clearTaskSuppression : runs.

(** ** Settled tasks *)

(** The last execution of the task decides its status at every reevaluation. *)
Definition settled (executions : list TaskExecutionRecord) (id : string) : Prop :=
  match executions_by_task executions !! id with
  | Some e => executed_status (te_Status e)
  | None => False
  end.

#[export] Instance executed_status_dec s : Decision (executed_status s).
Proof. unfold executed_status. apply _. Defined.
#[export] Instance settled_dec executions id : Decision (settled executions id).
Proof. unfold settled. destruct (_ !! id); apply _. Defined.

Lemma settled_snoc executions e id :
  settled (executions ++ [e]) id <->
  (te_TaskID e = id /\ executed_status (te_Status e)) \/ (te_TaskID e <> id /\ settled executions id).
Proof.
  unfold settled, executions_by_task. rewrite fold_left_app. simpl.
  destruct (decide (te_TaskID e = id)) as [<-|Hne].
  - rewrite lookup_insert_eq. tauto.
  - rewrite lookup_insert_ne by done. tauto.
Qed.

(** What is still to be run at most. *)
Definition unsettled (executions : list TaskExecutionRecord) (ids : list string) : list string :=
  filter (fun id => ~ settled executions id) ids.

Lemma unsettled_step executions e ids :
  executed_status (te_Status e) -> ~ settled executions (te_TaskID e) -> te_TaskID e ∈ ids ->
  (length (unsettled (executions ++ [e]) ids) < length (unsettled executions ids))%nat.
Proof.
  intros He Hn Hin. unfold unsettled.
  assert (Hle : forall l, (length (filter (fun id => ~ settled (executions ++ [e]) id) l) <=
                           length (filter (fun id => ~ settled executions id) l))%nat).
  { induction l as [|x l IH]; [done|]. rewrite !filter_cons.
    destruct (decide (~ settled (executions ++ [e]) x)) as [H1|H1], (decide (~ settled executions x)) as [H2|H2];
      simpl; try lia.
    exfalso. apply H2. intros H3. apply H1, settled_snoc. destruct (decide (te_TaskID e = x)); tauto. }
  apply list_elem_of_split in Hin as (l1 & l2 & ->). rewrite !filter_app, !length_app.
  rewrite (filter_cons_False (fun id => ~ settled (executions ++ [e]) id))
    by (intros H; apply H, settled_snoc; by left).
  rewrite (filter_cons_True (fun id => ~ settled executions id)) by done.
  pose proof (Hle l1). pose proof (Hle l2). simpl. lia.
Qed.

(** After a reevaluation no ready task is settled. *)
Lemma ready_unsettled graph executions resolver t records r :
  r ∈ reevaluate_records graph executions resolver t records -> ft_Status r = TaskQueueStatusReady ->
  ~ settled executions (task_id r).
Proof.
  intros Hin Hs Hset. apply list_elem_of_lookup in Hin as [i Hi].
  destruct (reevaluate_records_inv graph executions resolver t records i r Hi) as (r0 & Hr0 & Hr).
  set (records' := take i _ ++ drop i records) in Hr.
  assert (Hid : task_id r = task_id r0).
  { rewrite Hr. unfold task_id. by rewrite (si_Task _ _ (reevaluate_record_identity _ _ _ _ _ r0)). }
  rewrite Hid in Hset. unfold settled, task_id in Hset.
  assert (Hst : ft_Status (reevaluate_record graph (executions_by_task executions) resolver t records' r0) =
    TaskQueueStatusReady) by (rewrite <- Hr; exact Hs).
  clear - Hset Hst. revert Hset Hst. unfold reevaluate_record. rsimpl.
  destruct (executions_by_task executions !! ts_ID (ft_Task r0)) as [e|]; [|done].
  unfold reevaluate_executed. intros [E|[E|[E|E]]]; rewrite E; rsimpl; discriminate.
Qed.

Lemma ready_in_execution_order `{MO : MapOrder} graph records r :
  r ∈ ReadyTasksInExecutionOrder graph records -> r ∈ records /\ ft_Status r = TaskQueueStatusReady.
Proof.
  unfold ReadyTasksInExecutionOrder. intros H. apply list_elem_of_omap in H as (id & _ & H).
  apply bind_Some in H as (r' & Hr & H). case_bool_decide; [|done]. injection H as ->. split; [|done].
  unfold taskRecordMap in Hr. rewrite (lookup_fold_insert (fun r => ts_ID (ft_Task r)) (fun x => x)) in Hr.
  destruct (last _) as [x|] eqn:E; [|by rewrite lookup_empty in Hr]. injection Hr as ->.
  by apply last_Some_elem_of, list_elem_of_filter in E as [_ ?].
Qed.

(** ** What an execution record says about its task *)

Record ran_task (task : FollowUpTaskRecord) (e : TaskExecutionRecord) : Prop := {
  rt_task : te_TaskID e = task_id task;
  rt_intent : te_Intent e = ts_UserIntentType (ft_Task task);
  rt_depth : te_ExecutionDepth e = gm_ExecutionDepth (ft_Metadata task);
  rt_status : executed_status (te_Status e)
}.

(** The two records are of the same execution. *)
Definition same_execution (e e' : TaskExecutionRecord) : Prop :=
  te_TaskID e' = te_TaskID e /\ te_Intent e' = te_Intent e /\ te_ExecutionDepth e' = te_ExecutionDepth e.

Lemma ran_task_mono task e e' :
  same_execution e e' -> executed_status (te_Status e') -> ran_task task e -> ran_task task e'.
Proof. intros (H1 & H2 & H3) Hs []. split; congruence || done. Qed.

Lemma finalize_same e result t : same_execution e (finalizeTaskExecutionRecord e result t).
Proof. unfold finalizeTaskExecutionRecord, same_execution. repeat case_match; split_and!; reflexivity. Qed.

Lemma finalize_executed e result t : executed_status (te_Status (finalizeTaskExecutionRecord e result t)).
Proof.
  unfold finalizeTaskExecutionRecord.
  repeat case_match; first [by left | by right; left | by right; right; left | by right; right; right].
Qed.

Lemma gave_up_same e category err next t1 t2 : same_execution e (gave_up e category err next t1 t2).
Proof. unfold gave_up, same_execution. case_match; split_and!; reflexivity. Qed.

Lemma gave_up_executed e category err next t1 t2 : executed_status (te_Status (gave_up e category err next t1 t2)).
Proof. unfold gave_up. case_match; [by do 3 right | by right; left]. Qed.

Lemma started_ran `{MO : MapOrder} graph task state t :
  ran_task task (started_record graph task (buildActivationContext graph task) state t).
Proof.
  unfold started_record, buildActivationContext. destruct (fold_left _ _ _) as [[ids event] kind].
  split; [reflexivity..|]. by right; right; left.
Qed.

Section single.
Context `{MO : MapOrder} (r : LocalWorkflowRuntime) (ctx : ExecutionContext).

(** The attempts keep the record of the task they were given. *)
Lemma attempts_Ok graph task activation capability state maxAttempts left number record lastErr w w' e result :
  attempts r ctx graph task activation capability state maxAttempts left number record lastErr w =
    (w', Ok (e, result)) ->
  ran_task task record -> ran_task task e.
Proof.
  revert number record lastErr w. induction left as [|left IH]; intros number record lastErr w; cbn [attempts].
  { intros H. apply run_bind_inv_Ok in H as ([] & w1 & _ & H). by injection H as _ <- _. }
  intros H Hr. set (record1 := record <| te_Attempt := number |>) in H.
  assert (H1 : ran_task task record1) by (by destruct Hr).
  apply run_bind_inv_Ok in H as (ran & w1 & _ & H). destruct ran as [err|childResult].
  - apply run_bind_inv_Ok in H as ([next strategy] & w2 & _ & H).
    apply run_bind_inv_Ok in H as (t & w3 & _ & H). cbv zeta in H.
    set (record2 := record1 <| te_LastRecoveryStrategy := _ |> <| te_LastTransitionAt := _ |>) in H.
    assert (H2 : ran_task task record2) by (by destruct H1).
    destruct (_ && _).
    + apply run_bind_inv_Ok in H as ([] & w4 & _ & H). eapply IH; [exact H|]. by destruct H2.
    + apply run_bind_inv_Ok in H as (t1 & w4 & _ & H). apply run_bind_inv_Ok in H as (t2 & w5 & _ & H).
      apply run_bind_inv_Ok in H as ([] & w6 & _ & H). injection H as _ <- _.
      eapply ran_task_mono; [apply gave_up_same|apply gave_up_executed|done].
  - apply run_bind_inv_Ok in H as (t & w2 & _ & H). apply run_bind_inv_Ok in H as ([] & w3 & _ & H).
    injection H as _ <- _. eapply ran_task_mono; [apply finalize_same|apply finalize_executed|done].
Qed.

Lemma executeSingleFollowUp_Ok snapshot task capability state maxAttempts w w' e result :
  executeSingleFollowUp r ctx snapshot task capability state maxAttempts w = (w', Ok (e, result)) ->
  ran_task task e.
Proof.
  unfold executeSingleFollowUp. intros H. apply run_bind_inv_Ok in H as (t & w1 & _ & H). cbv zeta in H.
  apply run_bind_inv_Ok in H as (x & w2 & _ & H). apply run_bind_inv_Ok in H as ([] & w3 & _ & H).
  eapply attempts_Ok; [exact H|]. apply started_ran.
Qed.

(** Persisting an outcome may only fill in the version and the state reference. *)
Lemma write_outcome_same snapshot result guard record w w' record' :
  write_outcome r snapshot result guard record w = (w', Ok record') ->
  same_execution record record' /\ te_Status record' = te_Status record.
Proof.
  unfold write_outcome. intros H. apply run_bind_inv_Ok in H as ([] & w0 & _ & H). cbv zeta in H.
  assert (Hs : forall record0, same_execution record0
     (if te_Version record0 == 0 then record0 <| te_Version := 1 |> else record0) /\
     te_Status (if te_Version record0 == 0 then record0 <| te_Version := 1 |> else record0) = te_Status record0).
  { intros x. unfold same_execution. destruct (te_Version x == 0); split_and!; reflexivity. }
  specialize (Hs record). revert H Hs.
  generalize (if te_Version record == 0 then record <| te_Version := 1 |> else record). intros x H [Hx Hxs].
  apply run_bind_inv_Ok in H as (y & w1 & Hy & H).
  assert (Hyx : same_execution x y /\ te_Status y = te_Status x).
  { revert Hy. unfold write_state, same_execution. repeat case_match; try (intros [= _ <-]; split_and!; reflexivity).
    all: intros Hy; apply run_bind_inv_Ok in Hy as ([] & w2 & _ & Hy).
    all: apply run_bind_inv_Ok in Hy as (c & w3 & _ & Hy); apply run_bind_inv_Ok in Hy as (ref & w4 & _ & Hy).
    all: injection Hy as _ <-; split_and!; reflexivity. }
  do 7 apply run_bind_inv_Ok in H as ([] & ? & _ & H). injection H as _ <-.
  destruct Hyx as [(? & ? & ?) ?], Hx as (? & ? & ?). unfold same_execution. split_and!; congruence.
Qed.

Lemma applyExecutionRecord_Ok snapshot e result w w' snapshot' :
  applyExecutionRecord snapshot e result w = (w', Ok snapshot') ->
  gs_RegisteredTasks snapshot' = gs_RegisteredTasks snapshot /\
  gs_ExecutedTasks snapshot' = gs_ExecutedTasks snapshot ++ [e].
Proof.
  unfold applyExecutionRecord. intros H. cbv zeta in H. apply run_bind_inv_Ok in H as (s & w1 & Hs & H).
  apply updateTaskStatus_Ok in H as [-> ->]. case_bool_decide.
  - apply run_bind_inv_Ok in Hs as (c & w2 & _ & Hs). by injection Hs as _ <-.
  - by injection Hs as _ <-.
Qed.

Lemma save_batch_Ok fence b snapshot w w' b' :
  save_batch r fence b snapshot w = (w', Ok b') ->
  gs_RegisteredTasks (bt_snapshot b') = gs_RegisteredTasks snapshot /\
  gs_ExecutedTasks (bt_snapshot b') = gs_ExecutedTasks snapshot /\ bt_executed b' = bt_executed b.
Proof.
  unfold save_batch. intros H. apply run_bind_inv_Ok in H as (s & w1 & Hs & H). injection H as _ <-.
  unfold saveUpdatedTaskGraphSnapshotGuarded in Hs. apply run_bind_inv_Ok in Hs as ([] & w2 & _ & Hs).
  unfold saveUpdatedTaskGraphSnapshot in Hs. apply run_bind_inv_Ok in Hs as (st & w3 & _ & Hs).
  apply run_bind_inv_Ok in Hs as ([] & w4 & _ & Hs). by injection Hs as _ <-.
Qed.
End single.

(** ** The batch *)

(** Whatever a workflow does, the registered tasks stay the registered tasks,
    and it ends. *)
Definition workflows_keep_ids (r : LocalWorkflowRuntime) : Prop :=
  forall resolver task capability ok reason,
    lr_Capabilities r = Some resolver ->
    Resolver_ResolveWorkflow resolver task = (Some capability, ok, reason) ->
    forall t activation state, runs keeps_ids (Capability_Execute capability t activation state).

Section batch_run.
Context `{MO : MapOrder} (r : LocalWorkflowRuntime) (ctx : ExecutionContext).
Context `{Hr : !RuntimeRuns keeps_ids r} `{Hra : !RuntimeRuns (same w_arrays) r}.

Lemma runs_attempts graph task activation capability state maxAttempts left number record lastErr :
  (forall t a s, runs keeps_ids (Capability_Execute capability t a s)) ->
  runs keeps_ids (attempts r ctx graph task activation capability state maxAttempts left number record lastErr).
Proof.
  intros Hc. revert number record lastErr. induction left as [|left IH]; intros number record lastErr; cbn [attempts];
    unfold log_failed, log_finished, log_retry.
  - apply runs_bind; [typeclasses eauto|destruct lastErr; runs_auto|]. intros _. runs_auto.
  - apply runs_bind; [typeclasses eauto|apply runs_attempt, Hc|]. intros [err|childResult].
    + apply runs_bind; [typeclasses eauto|runs_auto|]. intros [next strategy].
      apply runs_bind; [typeclasses eauto|runs_auto|]. intros t. cbv zeta. destruct (_ && _).
      * apply runs_bind; [typeclasses eauto|runs_auto|]. intros _. apply IH.
      * do 2 (apply runs_bind; [typeclasses eauto|runs_auto|]; intros ?).
        apply runs_bind; [typeclasses eauto|runs_auto|]. intros _. runs_auto.
    + apply runs_bind; [typeclasses eauto|runs_auto|]. intros t. cbv zeta.
      apply runs_bind; [typeclasses eauto|runs_auto|]. intros _. runs_auto.
Qed.

Lemma runs_executeSingleFollowUp snapshot task capability state maxAttempts :
  (forall t a s, runs keeps_ids (Capability_Execute capability t a s)) ->
  runs keeps_ids (executeSingleFollowUp r ctx snapshot task capability state maxAttempts).
Proof.
  intros Hc. unfold executeSingleFollowUp.
  apply runs_bind; [typeclasses eauto|runs_auto|]. intros t. cbv zeta.
  apply runs_bind; [typeclasses eauto|runs_auto|]. intros _.
  apply runs_bind; [typeclasses eauto|runs_auto|]. intros _. by apply runs_attempts.
Qed.

Lemma runs_applyExecutionRecord snapshot e result : runs keeps_ids (applyExecutionRecord snapshot e result).
Proof.
  unfold applyExecutionRecord. cbv zeta. apply runs_bind; [typeclasses eauto| |intros s; runs_auto].
  case_bool_decide; [|runs_auto]. apply runs_bind; [typeclasses eauto|runs_auto|]. intros c. runs_auto.
Qed.

Variables (graphID : string) (policy : AutoExecutionPolicy) (fence : option FenceValidation).

Lemma runs_save_batch R `{!RuntimeRuns R r} b snapshot : runs R (save_batch r fence b snapshot).
Proof. unfold save_batch. apply runs_bind; [typeclasses eauto|runs_auto|]. intros s. runs_auto. Qed.

Lemma runs_suppress b task reason : runs keeps_ids (suppress b task reason).
Proof.
  unfold suppress. apply runs_bind; [typeclasses eauto|runs_auto|]. intros t.
  apply runs_bind; [typeclasses eauto|runs_auto|]. intros s. runs_auto.
Qed.

Lemma suppress_Ok b task reason w w' b' :
  suppress b task reason w = (w', Ok b') ->
  bt_snapshot b' = bt_snapshot b /\ bt_executed b' = bt_executed b.
Proof.
  unfold suppress, updateTaskSuppression. intros H. apply run_bind_inv_Ok in H as (t & w1 & _ & H).
  apply run_bind_inv_Ok in H as (s & w2 & Hs & H). apply run_bind_inv_Ok in Hs as ([] & w3 & _ & Hs).
  injection Hs as _ <-. by injection H as _ <-.
Qed.

Lemma runs_run_task b task capability :
  (forall t a s, runs keeps_ids (Capability_Execute capability t a s)) ->
  runs keeps_ids (run_task r ctx policy fence b task capability).
Proof.
  intros Hc. unfold run_task. cbv zeta.
  apply runs_bind; [typeclasses eauto|by apply runs_executeSingleFollowUp|]. intros [e result].
  apply runs_bind; [typeclasses eauto|runs_auto|]. intros e'.
  apply runs_bind; [typeclasses eauto|apply runs_applyExecutionRecord|]. intros s.
  apply runs_save_batch, Hr.
Qed.

(** What running one task adds to the batch. *)
Definition extended (task : FollowUpTaskRecord) (b b' : batch) : Prop :=
  exists e, ran_task task e /\
    gs_RegisteredTasks (bt_snapshot b') = gs_RegisteredTasks (bt_snapshot b) /\
    gs_ExecutedTasks (bt_snapshot b') = gs_ExecutedTasks (bt_snapshot b) ++ [e] /\
    bt_executed b' = bt_executed b ++ [e].

Lemma run_task_Ok b task capability w w' b' :
  run_task r ctx policy fence b task capability w = (w', Ok b') -> extended task b b'.
Proof.
  unfold run_task. cbv zeta. intros H. apply run_bind_inv_Ok in H as ([e result] & w1 & He & H).
  apply executeSingleFollowUp_Ok in He. apply run_bind_inv_Ok in H as (e' & w2 & Hp & H).
  unfold persistExecutionOutcomeGuarded in Hp. apply run_bind_inv_Ok in Hp as ([] & w3 & _ & Hp).
  apply write_outcome_same in Hp as [Hsame Hst].
  apply run_bind_inv_Ok in H as (s & w4 & Hs & H). apply applyExecutionRecord_Ok in Hs as [Hs1 Hs2].
  apply save_batch_Ok in H as (H1 & H2 & H3). exists e'. split_and!; [|congruence..|done].
  eapply ran_task_mono; [exact Hsame| |exact He]. rewrite Hst. by destruct He.
Qed.

(** Nothing was run, or exactly one of the [tasks], one that the policy allows. *)
Definition turn (tasks : list FollowUpTaskRecord) (b b' : batch) (progressed : bool) : Prop :=
  if progressed then exists task, task ∈ tasks /\ (allows policy task).1 = true /\ extended task b b'
  else gs_RegisteredTasks (bt_snapshot b') = gs_RegisteredTasks (bt_snapshot b) /\
       gs_ExecutedTasks (bt_snapshot b') = gs_ExecutedTasks (bt_snapshot b) /\ bt_executed b' = bt_executed b.

Lemma turn_cons task tasks b b1 b' progressed :
  bt_snapshot b1 = bt_snapshot b -> bt_executed b1 = bt_executed b ->
  turn tasks b1 b' progressed -> turn (task :: tasks) b b' progressed.
Proof.
  intros E1 E2. unfold turn, extended. rewrite E1, E2. destruct progressed; [|done].
  intros (t & Ht & H). exists t. split; [by right|done].
Qed.

Lemma ready_loop_Ok tasks b w w' b' progressed :
  ready_loop r ctx graphID policy fence b tasks w = (w', Ok (b', progressed)) -> turn tasks b b' progressed.
Proof.
  revert b w. induction tasks as [|task tasks IH]; intros b w; cbn [ready_loop].
  { by intros [= _ <- <-]. }
  destruct (allows policy task) as [allowed why] eqn:Ea. destruct allowed; cbn [negb]; intros H.
  - apply run_bind_inv_Ok in H as (t & w1 & _ & H). apply run_bind_inv_Ok in H as (s & w2 & Hs & H).
    unfold clearTaskSuppression in Hs. apply run_bind_inv_Ok in Hs as ([] & w3 & _ & Hs). injection Hs as _ <-.
    cbv zeta in H. apply run_bind_inv_Ok in H as (resolver & w4 & _ & H).
    destruct (Resolver_ResolveWorkflow resolver (ft_Task task)) as [[[capability|] [|]] reason].
    + apply run_bind_inv_Ok in H as (b1 & w5 & H1 & H). injection H as _ <- <-. exists task.
      apply run_task_Ok in H1. rewrite Ea. split; [left|]. by split.
    + apply run_bind_inv_Ok in H as (b1 & w5 & H1 & H). apply suppress_Ok in H1 as [E1 E2].
      eapply turn_cons; [exact E1|exact E2|]. by eapply IH.
    + apply run_bind_inv_Ok in H as (b1 & w5 & H1 & H). apply suppress_Ok in H1 as [E1 E2].
      eapply turn_cons; [exact E1|exact E2|]. by eapply IH.
    + apply run_bind_inv_Ok in H as (b1 & w5 & H1 & H). apply suppress_Ok in H1 as [E1 E2].
      eapply turn_cons; [exact E1|exact E2|]. by eapply IH.
  - apply run_bind_inv_Ok in H as (b1 & w1 & H1 & H). apply run_bind_inv_Ok in H as ([] & w2 & _ & H).
    apply suppress_Ok in H1 as [E1 E2]. eapply turn_cons; [exact E1|exact E2|]. by eapply IH.
Qed.

Hypothesis Hw : workflows_keep_ids r.

Lemma runs_ready_loop tasks b : runs keeps_ids (ready_loop r ctx graphID policy fence b tasks).
Proof.
  revert b. induction tasks as [|task tasks IH]; intros b; cbn [ready_loop]; [runs_auto|].
  destruct (allows policy task) as [allowed why]. destruct allowed; cbn [negb].
  - apply runs_bind; [typeclasses eauto|runs_auto|]. intros t.
    apply runs_bind; [typeclasses eauto|runs_auto|]. intros s. cbv zeta.
    apply runs_deref_bind; [typeclasses eauto|]. intros resolver Eres.
    destruct (Resolver_ResolveWorkflow resolver (ft_Task task)) as [[[capability|] [|]] reason] eqn:E.
    { apply runs_bind; [typeclasses eauto| |intros b1; runs_auto]. apply runs_run_task. by eapply Hw. }
    all: apply runs_bind; [typeclasses eauto|apply runs_suppress|intros b1; apply IH].
  - apply runs_bind; [typeclasses eauto|apply runs_suppress|]. intros b1.
    apply runs_bind; [typeclasses eauto|runs_auto|]. intros _. apply IH.
Qed.
End batch_run.

Section batch_total.
Context `{MO : MapOrder} (r : LocalWorkflowRuntime) (ctx : ExecutionContext).
Context `{Hr : !RuntimeRuns keeps_ids r} `{Hra : !RuntimeRuns (same w_arrays) r}.
Variables (graphID : string) (policy : AutoExecutionPolicy) (fence : option FenceValidation).
Hypothesis Hw : workflows_keep_ids r.

(** [b'] is [b] after a reevaluation that ended in [w']. *)
Definition reevaluated (b b' : batch) (w' : World) : Prop :=
  gs_RegisteredTasks (bt_snapshot b') = gs_RegisteredTasks (bt_snapshot b) /\
  gs_ExecutedTasks (bt_snapshot b') = gs_ExecutedTasks (bt_snapshot b) /\
  bt_executed b' = bt_executed b /\
  forall x, x ∈ array_at w' (gs_RegisteredTasks (bt_snapshot b)) -> ft_Status x = TaskQueueStatusReady ->
    ~ settled (gs_ExecutedTasks (bt_snapshot b)) (task_id x).

(** [ReevaluateFollowUpTaskGraph] by its parts. *)
Lemma reevaluate_Ok snapshot resolver t w w' updated activation :
  ReevaluateFollowUpTaskGraph snapshot resolver t w = (w', Ok (updated, activation)) ->
  gs_RegisteredTasks updated = gs_RegisteredTasks snapshot /\
  gs_ExecutedTasks updated = gs_ExecutedTasks snapshot /\
  w' = w <| w_arrays := <[gs_RegisteredTasks snapshot :=
         reevaluate_records (gs_Graph snapshot) (gs_ExecutedTasks snapshot) (resolver_or_default resolver) t
           (array_at w (gs_RegisteredTasks snapshot))]> (w_arrays w) |>.
Proof.
  unfold ReevaluateFollowUpTaskGraph. cbv zeta. intros H. apply run_bind_inv_Ok in H as ([] & w1 & Hv & H).
  assert (w1 = w) as -> by (destruct (TaskGraph_Validate _); by injection Hv).
  apply run_bind_inv_Ok in H as (records & w2 & Hrd & H). injection Hrd as <- <-.
  apply run_bind_inv_Ok in H as ([] & w3 & Hwr & H). injection Hwr as <-.
  case_match. by injection H as <- <- _.
Qed.

Lemma runs_reevaluate snapshot resolver t : runs keeps_ids (ReevaluateFollowUpTaskGraph snapshot resolver t).
Proof.
  unfold ReevaluateFollowUpTaskGraph. cbv zeta. apply runs_bind; [typeclasses eauto|runs_auto|intros []].
  intros w. unfold read_array, write_array. run_simpl.
  match goal with |- context [deriveSpawnedAndDeferred ?a ?b] => destruct (deriveSpawnedAndDeferred a b) end.
  run_simpl. split; [|discriminate]. intros a. unfold ids_at, array_at at 1. cbn [fst]. rsimpl.
  destruct (decide (a = gs_RegisteredTasks snapshot)) as [->|Hne].
  - rewrite lookup_insert_eq. simpl. apply reevaluate_ids.
  - by rewrite lookup_insert_ne.
Qed.

Lemma runs_changed R `{!PreOrder R} before after : runs R (graphMutationChanged before after).
Proof. unfold graphMutationChanged. runs_auto. Qed.

Lemma runs_reevaluate_batch b : runs keeps_ids (reevaluate_batch r fence b).
Proof.
  unfold reevaluate_batch. apply runs_bind; [typeclasses eauto|runs_auto|]. intros t.
  apply runs_bind; [typeclasses eauto|apply runs_reevaluate|]. intros [updated activation].
  apply runs_bind; [typeclasses eauto|apply runs_changed; typeclasses eauto|].
  intros [|]; [apply runs_save_batch, Hr|runs_auto].
Qed.

Lemma reevaluate_batch_Ok b w w' b' : reevaluate_batch r fence b w = (w', Ok b') -> reevaluated b b' w'.
Proof.
  unfold reevaluate_batch, reevaluated. intros H. apply run_bind_inv_Ok in H as (t & w1 & _ & H).
  apply run_bind_inv_Ok in H as ([updated activation] & w2 & He & H).
  apply reevaluate_Ok in He as (E1 & E2 & Ew).
  apply run_bind_inv_Ok in H as (changed & w3 & Hc & H).
  apply (runs_same w_arrays) in Hc; [|apply runs_changed; typeclasses eauto].
  assert (Hx : w_arrays w' = w_arrays w3 /\ gs_RegisteredTasks (bt_snapshot b') = gs_RegisteredTasks updated /\
    gs_ExecutedTasks (bt_snapshot b') = gs_ExecutedTasks updated /\ bt_executed b' = bt_executed b).
  { destruct changed; [|by injection H as <- <-]. split; [|by eapply save_batch_Ok].
    eapply runs_same; [|exact H]. apply runs_save_batch, Hra. }
  destruct Hx as (Ea & -> & -> & ->). split_and!; [done..|]. intros x Hx.
  unfold array_at in Hx. rewrite Ea, Hc, Ew in Hx. rsimpl in Hx. rewrite lookup_insert_eq in Hx.
  by eapply ready_unsettled.
Qed.

(** What holds of the executions of a batch. *)
Record batch_ok (b : batch) : Prop := {
  bo_allowed : forall e, e ∈ bt_executed b ->
    exists task, (allows policy task).1 = true /\ ran_task task e;
  bo_once : NoDup (te_TaskID <$> bt_executed b);
  bo_settled : forall e, e ∈ bt_executed b -> settled (gs_ExecutedTasks (bt_snapshot b)) (te_TaskID e)
}.

Lemma batch_ok_same b b' :
  gs_ExecutedTasks (bt_snapshot b') = gs_ExecutedTasks (bt_snapshot b) -> bt_executed b' = bt_executed b ->
  batch_ok b -> batch_ok b'.
Proof. intros E1 E2 []. split; rewrite ?E1, E2; done. Qed.

Lemma batch_ok_extended task b b' :
  (allows policy task).1 = true -> ~ settled (gs_ExecutedTasks (bt_snapshot b)) (task_id task) ->
  extended task b b' -> batch_ok b -> batch_ok b'.
Proof.
  intros Ha Hn (e & He & _ & E1 & E2) [H1 H2 H3]. split; rewrite ?E1, E2.
  - intros x [Hx|Hx%list_elem_of_singleton]%elem_of_app; [by apply H1|]. subst x. eauto.
  - rewrite fmap_app. apply NoDup_app. split_and!; [done| |apply NoDup_singleton].
    intros id (x & -> & Hx)%list_elem_of_fmap Hid%list_elem_of_singleton.
    apply Hn. rewrite <- (rt_task _ _ He), <- Hid. by apply H3.
  - intros x Hx. apply settled_snoc. destruct (decide (te_TaskID e = te_TaskID x)) as [E|E].
    + left. split; [done|]. apply He.
    + right. split; [done|]. apply elem_of_app in Hx as [Hx|Hx%list_elem_of_singleton]; [by apply H3|]. by subst x.
Qed.

(** A turn that ran a task left fewer to run. *)
Lemma extended_measure task b b' ids :
  ~ settled (gs_ExecutedTasks (bt_snapshot b)) (task_id task) -> task_id task ∈ ids -> extended task b b' ->
  (length (unsettled (gs_ExecutedTasks (bt_snapshot b')) ids) <
   length (unsettled (gs_ExecutedTasks (bt_snapshot b)) ids))%nat.
Proof.
  intros Hn Hin (e & He & _ & -> & _). apply unsettled_step; rewrite ?(rt_task _ _ He); [apply He|done..].
Qed.

Lemma run_bind_read_array {A} a (k : list FollowUpTaskRecord -> M A) w :
  (read_array a ≫= k) w = k (array_at w a) w.
Proof. done. Qed.

Lemma batch_loop_total fuel b w ids :
  ids_at w (gs_RegisteredTasks (bt_snapshot b)) = ids ->
  (length (unsettled (gs_ExecutedTasks (bt_snapshot b)) ids) < fuel)%nat -> batch_ok b ->
  match (batch_loop r ctx graphID policy fence fuel b w).2 with
  | Ok b' => batch_ok b' | OutOfFuel => False | _ => True
  end.
Proof.
  revert b w. induction fuel as [|fuel IH]; intros b w Hids Hlt Hb; [lia|]. cbn [batch_loop].
  unfold mbind at 1, ST_bind.
  destruct (runs_reevaluate_batch b w) as [Hk Hf]. destruct (reevaluate_batch r fence b w) as [w1 o] eqn:E.
  simpl in Hk, Hf. destruct o as [b1|e|why|]; [|done..].
  apply reevaluate_batch_Ok in E as (Ea & Ee & Ex & Hready). rewrite run_bind_read_array.
  rewrite Ea. set (a := gs_RegisteredTasks (bt_snapshot b)) in *.
  set (tasks := ReadyTasksInExecutionOrder _ _).
  unfold mbind at 1, ST_bind. destruct (runs_ready_loop r ctx graphID policy fence Hw tasks b1 w1) as [Hk2 Hf2].
  destruct (ready_loop r ctx graphID policy fence b1 tasks w1) as [w2 o] eqn:E2. simpl in Hk2, Hf2.
  destruct o as [[b2 progressed]|e|why|]; [|done..].
  apply ready_loop_Ok in E2. unfold turn in E2. destruct progressed.
  - destruct E2 as (task & Htask & Hallow & Hext).
    apply ready_in_execution_order in Htask as [Hin Hst].
    assert (Hn : ~ settled (gs_ExecutedTasks (bt_snapshot b1)) (task_id task)) by (rewrite Ee; by apply Hready).
    assert (Hid : task_id task ∈ ids).
    { rewrite <- Hids, <- (Hk a). unfold ids_at. apply list_elem_of_fmap. eauto. }
    apply IH.
    + destruct Hext as (e & _ & E1 & _). rewrite E1, Ea, (Hk2 a), (Hk a). done.
    + pose proof (extended_measure _ _ _ _ Hn Hid Hext). rewrite Ee in *. lia.
    + eapply batch_ok_extended; [done|exact Hn|done|]. by apply (batch_ok_same b).
  - destruct E2 as (E1 & E2 & E3).
    assert (Hb2 : batch_ok b2) by (apply (batch_ok_same b); [congruence..|done]).
    destruct (bt_dirty b2); [|done].
    destruct (runs_save_batch r fence keeps_ids b2 (bt_snapshot b2) w2) as [_ Hf3].
    destruct (save_batch r fence b2 (bt_snapshot b2) w2) as [w3 o] eqn:E4. destruct o as [b3|e|why|]; try done.
    apply save_batch_Ok in E4 as (_ & H2 & H3). by apply (batch_ok_same b2).
Qed.

Lemma unsettled_length executions ids : (length (unsettled executions ids) <= length ids)%nat.
Proof. unfold unsettled. apply length_filter. Qed.

End batch_total.

(** ** Claims *)

(** The policy [executeReadyFollowUps] goes by. *)
Definition effective_policy (policy : AutoExecutionPolicy) : AutoExecutionPolicy :=
  if ap_MaxExecutionDepth policy <=? 0 then DefaultAutoExecutionPolicy else policy.

Definition batch_result_ok (policy : AutoExecutionPolicy) (result : FollowUpExecutionBatchResult) : Prop :=
  NoDup (te_TaskID <$> fb_ExecutedTasks result) /\
  forall e, e ∈ fb_ExecutedTasks result -> exists task, (allows policy task).1 = true /\ ran_task task e.

(** The whole batch: it ends, and what it ran is as it should be. *)
Lemma executeReadyFollowUps_batch `{MO : MapOrder} r ctx graphID policy fence w :
  RuntimeRuns keeps_ids r -> RuntimeRuns (same w_arrays) r -> workflows_keep_ids r ->
  match (executeReadyFollowUps r ctx graphID policy fence w).2 with
  | Ok result => batch_result_ok (effective_policy policy) result | OutOfFuel => False | _ => True
  end.
Proof.
  intros Hr Hra Hw. unfold executeReadyFollowUps. destruct (lr_TaskGraphs r); [|done]. cbv zeta.
  fold (effective_policy policy). generalize (effective_policy policy). clear policy. intros policy.
  unfold mbind at 1, ST_bind. destruct (runs_load_graph keeps_ids r graphID w) as [_ Hf].
  destruct (loadTaskGraphSnapshot r graphID w) as [w1 o]. destruct o as [snapshot|e|why|]; [|done..].
  rewrite run_bind_read_array. set (b0 := mkBatch _ _ _ _).
  pose proof (batch_loop_total r ctx graphID policy fence Hw (S (length (array_at w1 (gs_RegisteredTasks snapshot))))
    b0 w1 _ eq_refl) as Hloop.
  unfold mbind at 1, ST_bind. destruct (batch_loop _ _ _ _ _ _ b0 w1) as [w2 o].
  assert (Hend : match o with Ok b' => batch_ok policy b' | OutOfFuel => False | _ => True end).
  { apply Hloop.
    - pose proof (unsettled_length (gs_ExecutedTasks (bt_snapshot b0))
        (ids_at w1 (gs_RegisteredTasks (bt_snapshot b0)))) as H.
      unfold ids_at in H at 2. rewrite length_fmap in H. apply Nat.lt_succ_r, H.
    - split; [intros e He; by apply not_elem_of_nil in He|by apply NoDup_nil|intros e He; by apply not_elem_of_nil in He]. }
  destruct o as [b|e|why|]; [|done..]. rewrite run_bind_read_array. destruct Hend as [H1 H2 _]. by split.
Qed.

(** C14: a batch of follow-up tasks always ends.  Whatever the policy, the
    graph and the fence, if every workflow returns and leaves the registered
    tasks registered, then one turn per registered task and a last one are
    enough: each turn that runs a task settles one that was not settled. *)
Theorem executeReadyFollowUps_total `{MO : MapOrder} r ctx graphID policy fence w :
  RuntimeRuns keeps_ids r -> RuntimeRuns (same w_arrays) r -> workflows_keep_ids r ->
  (executeReadyFollowUps r ctx graphID policy fence w).2 <> OutOfFuel.
Proof.
  intros Hr Hra Hw E. pose proof (executeReadyFollowUps_batch r ctx graphID policy fence w Hr Hra Hw) as H.
  by rewrite E in H.
Qed.

(** C10: a batch that returns has run no task twice, and every execution it
    reports is of a task whose intent the policy lists and whose depth it
    admits, and ended as completed, failed, waiting for approval or executing. *)
Theorem executed_once_and_allowed `{MO : MapOrder} r ctx graphID policy fence w w' result :
  RuntimeRuns keeps_ids r -> RuntimeRuns (same w_arrays) r -> workflows_keep_ids r ->
  executeReadyFollowUps r ctx graphID policy fence w = (w', Ok result) ->
  NoDup (te_TaskID <$> fb_ExecutedTasks result) /\
  forall e, e ∈ fb_ExecutedTasks result ->
    is_Some (ap_AllowedIntents (effective_policy policy) !! te_Intent e) /\
    te_ExecutionDepth e <= ap_MaxExecutionDepth (effective_policy policy) /\
    executed_status (te_Status e).
Proof.
  intros Hr Hra Hw E. pose proof (executeReadyFollowUps_batch r ctx graphID policy fence w Hr Hra Hw) as H.
  rewrite E in H. destruct H as [H1 H2]. split; [done|]. intros e He.
  apply H2 in He as (task & Ha & []). unfold allows in Ha. cbv zeta in Ha.
  assert (Hpos : 0 < ap_MaxExecutionDepth (effective_policy policy)).
  { unfold effective_policy. destruct (ap_MaxExecutionDepth policy <=? 0) eqn:Ed; [reflexivity|]. lia. }
  rewrite (proj2 (Z.leb_gt _ _)) in Ha by done. rewrite rt_intent0, rt_depth0.
  destruct (_ <? _) eqn:Ed; [done|]. case_bool_decide; [done|]. destruct (_ !! _) eqn:El; [|done].
  split_and!; [done| |done]. lia.
Qed.

(** A runtime whose only workflow completes at once. *)
Definition sample_capability : FollowUpWorkflowCapability := {|
  CapabilityName := "cap";
  Capability_Execute _ _ state := mret (zero <| fx_WorkflowID := "child" |>
    <| fx_RuntimeState := WorkflowStateCompleted |> <| fx_UpdatedState := state |>);
  Capability_Resume _ _ _ _ _ _ := fail (PlainError "nothing to resume")
|}.

Definition running_resolver : TaskCapabilityResolver := {|
  Resolver_Resolve _ := ("cap", true, "");
  Resolver_ResolveWorkflow _ := (Some sample_capability, true, "")
|}.

Definition sample_ctx : ExecutionContext :=
  {| ec_WorkflowID := "wf"; ec_TaskID := "parent"; ec_CorrelationID := "c"; ec_Attempt := 1 |}.

#[export] Instance keeps_ids_ignores : IgnoresStores keeps_ids.
Proof. split; try done. typeclasses eauto. Qed.
#[export] Instance same_arrays_ignores : IgnoresStores (same w_arrays).
Proof. split; try done. typeclasses eauto. Qed.

Section batch_sample.
Context `{MO : MapOrder}.

Definition running_runtime : LocalWorkflowRuntime := in_memory_runtime (Some running_resolver) None.

Lemma running_runtime_ok :
  RuntimeRuns keeps_ids running_runtime /\ RuntimeRuns (same w_arrays) running_runtime /\
  workflows_keep_ids running_runtime.
Proof.
  assert (Hr : in_memory running_runtime) by apply in_memory_runtime_ok.
  split_and!; [by apply in_memory_runs; [typeclasses eauto|..]..|].
  intros resolver task capability ok reason [= <-] [= <- _ _] t activation state.
  intros w. split; [reflexivity|discriminate].
Qed.

(** The world in which [sample_graph] has been registered. *)
Definition registered_world : World :=
  (RegisterFollowUpTasks running_runtime sample_ctx sample_graph (sample_state "s1" 1) sample_world).1.
End batch_sample.

Lemma executeReadyFollowUps_total_witness :
  let MO := canonical_order in
  (executeReadyFollowUps running_runtime sample_ctx "g" DefaultAutoExecutionPolicy None registered_world).2
    <> OutOfFuel.
Proof.
  intros MO. destruct (running_runtime_ok (MO := MO)) as (H1 & H2 & H3).
  exact (executeReadyFollowUps_total (MO := MO) running_runtime sample_ctx "g" DefaultAutoExecutionPolicy None
    registered_world H1 H2 H3).
Defined.

(** Both tasks of [sample_graph] run, the second after the first. *)
Lemma executed_once_and_allowed_witness :
  let MO := canonical_order in
  let m := executeReadyFollowUps running_runtime sample_ctx "g" DefaultAutoExecutionPolicy None in
  exists result, m registered_world = ((m registered_world).1, Ok result) /\
    te_TaskID <$> fb_ExecutedTasks result = ["a"; "b"] /\ NoDup (te_TaskID <$> fb_ExecutedTasks result).
Proof.
  intros MO m. subst m. destruct (running_runtime_ok (MO := MO)) as (H1 & H2 & H3).
  set (m := executeReadyFollowUps _ _ _ _ _). assert (E : match (m registered_world).2 with
              | Ok result => (te_TaskID <$> fb_ExecutedTasks result) = ["a"; "b"] | _ => False end)
    by (vm_compute; reflexivity).
  destruct (m registered_world).2 as [result|e|why|] eqn:Er; try (destruct E; fail).
  exists result. pose proof (run_result m registered_world _ Er) as Hrun. subst m. split; [exact Hrun|].
  split; [exact E|].
  exact (proj1 (executed_once_and_allowed (MO := MO) running_runtime sample_ctx "g" DefaultAutoExecutionPolicy None
    registered_world _ result H1 H2 H3 Hrun)).
Defined.
